(* ===== verification/_CoqProject ===== *)
-Q . S2P
Prelude.v
DiagPkt.v
Endian.v
Poly.v
Crc.v
Qsys.v
Qshrink.v
Mdm.v
QshrinkInv.v
MdmProps.v
Sahara.v
SaharaProps.v
Ymodem.v
Hash.v
HashProps.v
FtpMain.v
FtpMainProps.v
Str.v
CText.v
FtpCmd.v
FtpCmdProps.v
FtpSys.v
FtpProto.v
FtpProtoProps.v
FtpTransfer.v
Disk.v
Qserver.v
Options.v
Usb.v
FtpClient.v
ParseConf.v
FtpStart.v
Cqueue.v
WorkDir.v
PollIo.v
Kfifo.v
KfifoProps.v
Tftp.v
TftpProps.v
Buffers.v
UnisocSys.v
UnisocCmd.v
UnisocLog.v
UnisocLogProps.v
UnisocTables.v
UnisocDump.v
UnisocDumpProps.v
Eigen.v
EigenProps.v
Asr.v
AsrProps.v
Mtk.v
LogFile.v
Startup.v
QsocketServer.v
Bridge.v
Sony.v
Capture.v
CaptureProps.v
