(* ===== verification/Prelude.v ===== *)
(** A verified model of QLog, the log and dump capture tool for cellular
    modules, and of the FTP server, the socket server and the bridges that come
    with it.

    * The program and its parts

    QLog finds a module on the USB bus, opens its ports, asks it for logs and
    stores the byte stream in log files, on a disk or on a server, or receives
    the memory dump of a crashed module.  The files of this library, with the
    files (below src/) and the functions they translate:

    Shared by the protocols:
    - [DiagPkt]: the deframer of the DIAG stream (diag_pkt.c); [Endian]: the
      byte-order helpers (main.c: qlog_le16 and its siblings); [Poly], [Crc]: the
      checksum and the framing of requests (qshrink4.c: crc_16_l_calc,
      diag_qsr4_append_crc16, diag_send_data); [Buffers], [Str], [CText]:
      buffers, the string helpers of the FTP server (str.c) and what is used of
      the text functions of the C library.

    The modules:
    - [Qsys], [Qshrink], [Mdm], with [QshrinkInv] and [MdmProps]: Qualcomm: the
      QShrink4 databases (qshrink4.c), the command channel and the log
      operations (mdm.c), the QDSS and DPL requests (qdss1.c).  A packet that the
      reader deframes is handed to the handlers while a sender waits; both work
      on the same record [st].
    - [Sahara], [Ymodem]: the memory dumps over Sahara (sahara.c, sahara.h) and,
      for ASR modules, YMODEM (ymodem.c).
    - [UnisocSys], [UnisocCmd], [UnisocLog], [UnisocTables], [UnisocDump]: the logs
      and dumps of UNISOC modules (unisoc.c).
    - [Eigen], [Asr], [Mtk], [Sony]: Eigen (eigen.c), ASR (asr.c), MediaTek
      (mtk.c), serial ports (sony.c).

    The log tool around them:
    - [Options], [Usb], [Startup]: the command line, the modules on the bus
      (usb_linux.c), the ports, and main (main.c).
    - [Capture]: the loops of main.c that read the ports, drive the log operations
      of a module and change the files; [LogFile]: the names of the files, their
      creation and their end; [Cqueue], [WorkDir]: the queue of log files
      (cqueue.c) and checkWorkDirSize, which bounds the directory.
    - [PollIo], [Kfifo]: reading and writing with a time limit, and the caches
      of what a descriptor has not taken yet (main.c, tty2tcp.c).
    - [Tftp], [FtpClient], [Qserver]: logs that go to a TFTP server (tftp.c), to
      an FTP server (ftp.c) or come in over TCP (qserver.c); [Disk]: what a
      sequence of created and written files leaves under their names.
    - [Bridge]: serial port and TCP (tty2tcp.c, ql-tty2tcp.c).

    The other programs:
    - [Hash], [FtpMain], [FtpCmd], [FtpSys], [FtpProto], [ParseConf], [FtpStart]:
      the FTP server (qftp_server/src): its hash table (hash.c), the accounting
      of its clients and its accept loop (main.c), the command loop and the
      handlers of a session (ftpproto.c, sysutil.c), the privileged helper
      (privsock.c, privparent.c, session.c) and the configuration (parseconf.c,
      tunable.c).
    - [QsocketServer]: the program that fetches logs from a monitor on the module
      (qsocket_server/src).

    A file whose name ends in Props holds the theorems of the file before it;
    [FtpTransfer] those on transfers.

    * How the code is modelled

    Integers are [Z] with the wrap-around of their C width ([u8] to [u64],
    [s8] to [s64], for LP64); buffers are lists of bytes at the size of the C
    object, and every access is checked against it; a packed structure is its
    bytes at their offsets.  The variables of a component are a record.

    A stateful C function is a term of [M S A]: it runs against an
    environment [env] that answers every system call from the history of the
    calls made so far, and against a [world] that holds the component's own
    variables and that history.  It ends normally ([Done]), by [exit] or
    [abort] ([Exit]), in undefined behaviour ([Undef]: an access outside a
    buffer, a use of a freed block) or by running out of the fuel of a loop
    ([NoFuel]).  A theorem about every environment is a theorem about every
    module, client, file system or signal; what it needs of the other side is
    a hypothesis on the environment ([serves], [removable], a [malloc] that
    answers fresh blocks), and a witness shows an environment that meets it.

    Loops run with fuel.  It is an argument of the theorems, bounded below by
    what the loop needs (the number of bytes of a line, of frames, of files, of
    regions, of lines of the configuration), and they conclude that the loop
    ends; only [hash_get_node_by_key] and [handle_sigchld] choose their own
    fuel, one more than the nodes of the heap and the children to wait for,
    which is proved to be enough.

    Components meet in three ways.  At interfaces: [QueueOps] and [QueueLaws]
    between cqueue.c and checkWorkDirSize, [HashOps] and [HashLaws] between
    hash.c and the FTP server; [WorkDir] and [FtpMain] are proved against the
    laws, [Cqueue] and [HashProps] prove the laws of the code.  By [zoom], where
    code works on a part of the state.  By [within], where a component with its
    own calls and variables runs inside a larger program: its calls become
    calls of that program ([Capture] runs the log operations of the modules so,
    [Startup] the options, the discovery and the server mode, [FtpStart] the
    parts of the FTP server).

    Threads and processes.  A thread that another one waits for runs where the
    other sleeps or waits: the reader in [Qshrink], [UnisocLog] and [Asr], the
    helper of an FTP session where the session reads from it.  The two
    processes of a session are connected by two queues of items.  Signals come
    at the end of a read and at the test of the variable that they set.  The
    children of the FTP server, their exits and SIGCHLD are a step relation
    ([FtpMain.step]).  All other threads are modelled each by itself, and what
    others write is an answer of the environment.

    Choices that are not in the code: the rate limit of the FTP server computes
    with doubles, which are exact here; [N_DATA] of tftp.c is 1, as it is defined; a
    [memcpy] of no bytes from NULL does nothing; the network of the TFTP upload
    forgets a datagram before 2^15 further blocks were sent, without which the
    16-bit block number of an old acknowledgement is taken for a new one; the
    threads of qserver.c read the type of their port from a stack frame that
    may be gone, so it is an argument; [Startup] calls the capture of a log and
    the dumps, which are modelled in their own files.

    * The program logics

    [holds] (partial in undefined behaviour), [runs] (ends normally), [yields]
    (whatever it ends in, without undefined behaviour), [settles] (both of
    these: it returns or exits), [clean] (no undefined behaviour, with an
    invariant), [keeps] and [safe]
    (invariants of the state in every environment), [triple], [stays],
    [ends] and [remains] (what holds if it returns), [spins] (no fuel is
    enough), each with the rules of the monad and most with a tactic that
    executes the code symbolically ([steps], [rsteps], [ysteps], [keep],
    [safes], [cleans], [stay], [remain]); the hint databases [keeps], [safe],
    [clean] and [remains] hold the lemmas of the functions called.

    * What is proved

    Each theorem says under which conditions it holds; where the code does
    something else outside of them, a theorem or a finding of the manifest
    records it.

    - Deframing: [diag_pkt_input] refines a byte-at-a-time HDLC receiver, in
      the mode with a start flag unless an escape comes while it waits for
      one; the frames do not depend on the chunks; which streams stay in the
      buffer and which one does not.
    - Framing: the table-driven CRC is CRC-16/X.25; what diag_send_data writes is what
      the deframer delivers again, once.
    - Qualcomm: the tables keep their bounds for all packets that are as long
      as the handlers read (a shorter one is read beyond its end), the
      download ends, the file list is stored exactly, commands are split and
      sent in order, a log starts with the bytes of the header that its length
      field counts (64 fewer than the table has).
    - Dumps: Sahara is memory-safe for any device, the print of a table whose
      names have no end apart, and exact for a device that serves its memory
      (a region of 4 GiB never completes); a file sent over
      YMODEM is saved frame by frame, its padding included, and closed; the blue-screen
      dump of the EXX00U writes the regions of its table, that of the EC800G the bytes of a
      region, although it always answers an error; the dump of an Eigen module is the
      cells that it names, at their places when they have at least 10240 bytes.
    - Logs: the SMP log of UNISOC modules is that of a receiver of the whole
      stream for packets of at most 20520 bytes (a longer one ends the log); the log file of an ASR
      module has the versions that a receiver without a buffer has found when the
      first CP version comes; the capture loops save every read once and in
      order and cut the files where they reach their size; a serial log stays
      within its size.
    - Storing: the caches refine a queue from which whole chunks are dropped and
      counted, and keep their bounds; the directory loop removes the oldest
      groups of files, as many as the limit asks for, if all can be removed (it
      never ends when the oldest one has disappeared).
    - Servers for logs: over a network that loses, repeats, delays and reorders
      datagrams a TFTP upload that returns has stored exactly the data, and it completes when
      one of twelve tries gets through, the pipe is not idle and nothing fails to be sent; the FTP
      client logs in and opens the data connection of the PASV reply, which it reads back from the
      reply of the FTP server of this repository; the server mode and the socket server
      store what comes in, with the limits of their files as they are, as long as
      no two files of one second share a name ([Disk]); the
      messages of the socket server can be read back; ql-tty2tcp passes on every
      byte in order that the other side does not refuse, and the bridge of the log tool closes every
      socket as often as it was given.
    - The tool: a command line that keeps the order of the fields of an FTP server (or names no
      server) leaves valid options, and an option with
      servers is read back as it was printed; at most one chip is recognised;
      the table of modules is usable if the files of sysfs fit the buffers; prepare and close_fds
      give back every descriptor.
    - FTP server: the hash table refines a finite map; the limits on clients hold
      on every run of connections, exits and signals in which no signal comes
      between [fork] and the registration of the child, and the accounting
      leaks when one does; a command line that is alone on the socket is parsed whatever pieces it
      arrives in; the session and its helper stay in step in every handler; RETR (with a rate limit, without
      which it divides by zero), STOR, REST and APPE move exactly the bytes they should; a
      printed configuration is read back, and the server that starts from it has its settings, its
      user and, with the same proviso for the signal, its limits.

    * What is not modelled

    device.c and device.h, a listing of devices that no build file compiles;
    list.h, the list macros of the Linux kernel; code that is commented out or under
    [#if 0] (a server loop in qserver.c, the CRC of ymodem.c).  Debug output (but
    for the names of a Sahara table, which the device controls),
    progress bars, the throughput statistics of sahara.c, and the text of the
    help.  The declarations of structures that are used here by their offsets,
    and the command numbers of diagcmd.h that no code uses.  Time, except as answers
    of calls; scheduling of threads that do not wait for each other, and the
    signal handler of the FTP server inside the steps of its accept loop.

    This file holds the shared vocabulary: C integers and little-endian buffers,
    C strings, record update, the effect monad and its logics, and the lemmas on
    checked access. *)

From Stdlib Require Import ZArith Lia.
From stdpp Require Export base tactics list strings gmap.

Open Scope Z_scope.

(** ** Integers of the C machine (LP64) *)

Definition u8 (z : Z) : Z := z mod 2 ^ 8.
Definition u16 (z : Z) : Z := z mod 2 ^ 16.
Definition u32 (z : Z) : Z := z mod 2 ^ 32.
Definition u64 (z : Z) : Z := z mod 2 ^ 64.
Definition s8 (z : Z) : Z := (z + 2 ^ 7) mod 2 ^ 8 - 2 ^ 7.
Definition s32 (z : Z) : Z := (z + 2 ^ 31) mod 2 ^ 32 - 2 ^ 31.
Definition s64 (z : Z) : Z := (z + 2 ^ 63) mod 2 ^ 64 - 2 ^ 63.

Definition is_byte (b : Z) : Prop := 0 <= b < 256.
Definition bytes (l : list Z) : Prop := Forall is_byte l.

(** The length of a buffer as a C [size_t]. *)
Definition len {A} (l : list A) : Z := Z.of_nat (length l).

(** ** Little-endian encoding of the wire formats *)

Fixpoint le_bytes (n : nat) (z : Z) : list Z :=
  match n with
  | O => []
  | S n' => z mod 256 :: le_bytes n' (z / 256)
  end.

Fixpoint le_val (l : list Z) : Z :=
  match l with
  | [] => 0
  | b :: l' => b + 256 * le_val l'
  end.

(** The [n] bytes of a buffer from offset [off], and the unsigned integer
    they hold. *)
Definition slice (off n : nat) (l : list Z) : list Z := take n (drop off l).
Definition get_le (off n : nat) (l : list Z) : Z := le_val (slice off n l).

(** Storing [v] into a buffer at offset [off]. *)
Definition put (off : nat) (v l : list Z) : list Z :=
  take off l ++ v ++ drop (off + length v) l.

(** ** C strings *)

(** The bytes of a string literal, and the C string a buffer holds: what
    stands before the first NUL. *)
Definition str (s : string) : list Z :=
  map (fun a => Z.of_N (Ascii.N_of_ascii a)) (String.list_ascii_of_string s).

Fixpoint cstr (buf : list Z) : list Z :=
  match buf with
  | [] => []
  | b :: l => if b =? 0 then [] else b :: cstr l
  end.

Definition no_nul (s : list Z) : Prop := Forall (fun b => b <> 0) s.

(** [strcmp(a, b) == 0] *)
Definition str_eqb (a b : list Z) : bool := bool_decide (a = b).

(** ** Record update *)

Class Eta (R : Type) := eta : R -> R.
Class Setter {R T : Type} (proj : R -> T) := set_field : (T -> T) -> R -> R.
#[global] Hint Mode Setter ! ! ! : typeclass_instances.
Arguments set_field {R T} proj {_} _ _.

Ltac solve_setter :=
  match goal with
  | |- @Setter ?R ?T ?proj =>
      let e := eval hnf in (_ : Eta R) in
      match eval pattern proj in e with
      | ?g proj =>
          let s := eval cbv beta in
            (fun (f : T -> T) (r : R) => g (fun r' => f (proj r')) r) in
          exact s
      end
  end.
#[global] Hint Extern 0 (Setter _) => solve_setter : typeclass_instances.

Declare Scope record_scope.
Delimit Scope record_scope with record.
Notation "r <| f := v |>" := (set_field f (fun _ => v) r)
  (at level 1, left associativity, f at level 10, v at level 200,
   format "r  <| f  :=  v |>") : record_scope.
Notation "r <| f ::= g |>" := (set_field f g r)
  (at level 1, left associativity, f at level 10, g at level 200,
   format "r  <| f  ::=  g |>") : record_scope.
Open Scope record_scope.

(** ** The effect monad *)

Section Effects.
(** [sys A] is the type of the system calls that answer an [A]. *)
Context {sys : Type -> Type}.

Inductive io : Type := Ev (A : Type) (c : sys A) (a : A).

(** Histories are kept newest first. *)
Definition env : Type := forall A, list io -> sys A -> A.

Record world (S : Type) : Type := World { loc : S; hist : list io }.

Inductive outcome (S A : Type) : Type :=
| Done (a : A) (w : world S)
| Exit (code : Z) (w : world S)
| Undef
| NoFuel.

Definition M (S A : Type) : Type := env -> world S -> outcome S A.
End Effects.

Arguments io : clear implicits.
Arguments Ev {sys A} _ _.
Arguments env : clear implicits.
Arguments world : clear implicits.
Arguments outcome : clear implicits.
Arguments M : clear implicits.
Arguments World {sys S} _ _.
Arguments loc {sys S} _.
Arguments hist {sys S} _.
Arguments Done {sys S A} _ _.
Arguments Exit {sys S A} _ _.
Arguments Undef {sys S A}.
Arguments NoFuel {sys S A}.

Section Monad.
Context {sys : Type -> Type} {S : Type}.
Abbreviation M := (M sys S).

#[global] Instance M_ret : MRet M := fun A a E w => Done a w.

#[global] Instance M_bind : MBind M := fun A B k m E w =>
  match m E w with
  | Done a w' => k a E w'
  | Exit c w' => Exit c w'
  | Undef => Undef
  | NoFuel => NoFuel
  end.

Definition get : M S := fun E w => Done (loc w) w.
Definition gets {A} (f : S -> A) : M A := fun E w => Done (f (loc w)) w.
Definition modify (f : S -> S) : M unit :=
  fun E w => Done tt (World (f (loc w)) (hist w)).
Definition exit_ {A} (code : Z) : M A := fun E w => Exit code w.
Definition undef {A} : M A := fun E w => Undef.
Definition no_fuel {A} : M A := fun E w => NoFuel.

(** A system call: the environment answers, the history grows. *)
Definition call {A} (c : sys A) : M A := fun E w =>
  let a := E A (hist w) c in Done a (World (loc w) (Ev c a :: hist w)).

Definition of_option {A} (o : option A) : M A :=
  match o with Some a => mret a | None => undef end.

(** Loops: [iterM fuel body a] runs [body] until it answers [inr]. *)
Fixpoint iterM {A B : Type} (fuel : nat) (body : A -> M (A + B)) (a : A) : M B :=
  match fuel with
  | O => no_fuel
  | Datatypes.S n =>
      r ← body a;
      match r with inl a' => iterM n body a' | inr b => mret b end
  end.

(** [for] loops over a list of indices or entries. *)
Fixpoint forM {A : Type} (l : list A) (body : A -> M unit) : M unit :=
  match l with
  | [] => mret tt
  | a :: l' => body a;; forM l' body
  end.
End Monad.

(** [assert(0)] raises SIGABRT. *)
Definition SIGABRT : Z := 134.
Definition assert_ {sys S} (b : bool) : M sys S unit :=
  if b then mret tt else exit_ SIGABRT.

(** ** Automation *)

(** Goals about the length of composed buffers. *)
Ltac len :=
  repeat first
    [ rewrite length_app | rewrite length_insert | rewrite length_replicate
    | rewrite length_take | rewrite length_drop | progress cbn [length] ];
  lia.

(** ** Little-endian lemmas *)

Lemma length_le_bytes n z : length (le_bytes n z) = n.
Proof. revert z; induction n; intros; cbn; auto. Qed.

Lemma le_bytes_bytes n z : bytes (le_bytes n z).
Proof.
  revert z; induction n as [|n IH]; intros z; cbn; constructor; [|apply IH].
  apply Z.mod_pos_bound. lia.
Qed.

Lemma le_val_bytes n z : le_val (le_bytes n z) = z mod 256 ^ Z.of_nat n.
Proof.
  revert z; induction n as [|n IH]; intros z; [by rewrite Z.mod_1_r|].
  cbn [le_bytes le_val]. rewrite IH, Nat2Z.inj_succ, Z.pow_succ_r by lia.
  rewrite Z.rem_mul_r by lia. lia.
Qed.

Lemma le_val_range l : bytes l -> 0 <= le_val l < 256 ^ len l.
Proof.
  unfold len. induction 1 as [|b l Hb Hl IH]; cbn [le_val length]; [lia|].
  rewrite Nat2Z.inj_succ, Z.pow_succ_r by lia. unfold is_byte in Hb. nia.
Qed.

Lemma le_bytes_val l : bytes l -> le_bytes (length l) (le_val l) = l.
Proof.
  induction 1 as [|b l Hb Hl IH]; cbn [le_val length le_bytes]; [done|]. f_equal.
  - rewrite Z.mul_comm, Z.mod_add by lia. by apply Z.mod_small.
  - rewrite Z.mul_comm, Z.div_add by lia. by rewrite (Z.div_small b) by exact Hb.
Qed.

(** ** Reasoning about effectful code

    [holds E m w Q X]: run from [w] in [E], [m] does not run out of fuel; if
    it ends normally [Q] holds of its result, if it exits [X] does.  Undefined
    behaviour is left to theorems that exclude it. *)

Section Holds.
Context {sys : Type -> Type} {S : Type}.
Abbreviation M := (M sys S).
Abbreviation world := (world sys S).

Definition holds {A} (E : env sys) (m : M A) (w : world)
    (Q : A -> world -> Prop) (X : Z -> world -> Prop) : Prop :=
  match m E w with
  | Done a w' => Q a w'
  | Exit c w' => X c w'
  | Undef => True
  | NoFuel => False
  end.

Lemma holds_mono {A} E (m : M A) w (Q Q' : A -> world -> Prop) (X X' : Z -> world -> Prop) :
  holds E m w Q X -> (forall a w', Q a w' -> Q' a w') ->
  (forall c w', X c w' -> X' c w') -> holds E m w Q' X'.
Proof. unfold holds. destruct (m E w); auto. Qed.

Lemma holds_bind {A B} E (m : M A) (k : A -> M B) w Q X :
  holds E m w (fun a w' => holds E (k a) w' Q X) X -> holds E (m ≫= k) w Q X.
Proof. unfold holds, mbind, M_bind. destruct (m E w); auto. Qed.

Lemma holds_ret {A} E (a : A) (w : world) (Q : A -> world -> Prop) X :
  Q a w -> holds E (mret a) w Q X.
Proof. auto. Qed.

Lemma holds_gets {A} E (f : S -> A) (w : world) Q X :
  Q (f (loc w)) w -> holds E (gets f) w Q X.
Proof. auto. Qed.

Lemma holds_get E (w : world) Q X : Q (loc w) w -> holds E get w Q X.
Proof. auto. Qed.

Lemma holds_modify E (f : S -> S) (w : world) Q X :
  Q tt (World (f (loc w)) (hist w)) -> holds E (modify f) w Q X.
Proof. auto. Qed.

Lemma holds_call {A} E (c : sys A) (w : world) Q X :
  (forall a, Q a (World (loc w) (Ev c a :: hist w))) -> holds E (call c) w Q X.
Proof. intros H. apply H. Qed.

Lemma holds_exit {A} E c (w : world) Q (X : Z -> world -> Prop) :
  X c w -> holds E (exit_ (A := A) c) w Q X.
Proof. auto. Qed.

Lemma holds_undef {A} E (w : world) Q X : holds E (undef (A := A)) w Q X.
Proof. done. Qed.

Lemma holds_of_option {A} E (o : option A) (w : world) Q X :
  (forall a, o = Some a -> Q a w) -> holds E (of_option o) w Q X.
Proof. destruct o; cbn; intros H; [by apply H|done]. Qed.

(** A loop ends when a measure of its state falls at every turn. *)
Lemma holds_iterM {A B} E (body : A -> M (A + B)) (I : A -> world -> Prop)
    (mu : A -> world -> nat) Q X :
  (forall a w, I a w ->
     holds E (body a) w
       (fun r w' => match r with
                    | inl a' => I a' w' /\ (mu a' w' < mu a w)%nat
                    | inr b => Q b w'
                    end) X) ->
  forall fuel a w, I a w -> (mu a w < fuel)%nat -> holds E (iterM fuel body a) w Q X.
Proof.
  intros Hb fuel. induction fuel as [|n IH]; intros a w Ha Hf; [lia|].
  cbn [iterM]. apply holds_bind. eapply holds_mono; [by apply Hb| |done].
  intros [a'|b] w' H; [|exact H]. destruct H as [Ha' Hm]. apply IH; [done|lia].
Qed.

Lemma holds_forM {A} E (l : list A) (body : A -> M unit) (I : world -> Prop) X :
  (forall a w, I w -> holds E (body a) w (fun _ w' => I w') X) ->
  forall w, I w -> holds E (forM l body) w (fun _ w' => I w') X.
Proof.
  intros Hb. induction l as [|a l IH]; intros w Hw; cbn [forM]; [exact Hw|].
  apply holds_bind. eapply holds_mono; [by apply Hb| |done]. cbn. intros _ w' Hw'. by apply IH.
Qed.
End Holds.

(** ** Invariants of effectful code

    [keeps P m R]: in every environment, from every world whose state
    satisfies [P], [m] does not run out of fuel, [P] holds wherever it ends,
    and its result satisfies [R]. *)

Section Keeps.
Context {sys : Type -> Type} {S : Type}.
Abbreviation M := (M sys S).
Implicit Types P : S -> Prop.

Definition keeps {A} P (m : M A) (R : A -> Prop) : Prop := forall E w,
  P (loc w) -> holds E m w (fun a w' => P (loc w') /\ R a) (fun _ w' => P (loc w')).

Lemma keeps_weaken {A} P (m : M A) (R R' : A -> Prop) :
  keeps P m R -> (forall a, R a -> R' a) -> keeps P m R'.
Proof. intros H HR E w Hw. eapply holds_mono; [by apply H| |done]. intros a w' [??]; auto. Qed.

Lemma keeps_bind {A B} P (m : M A) (k : A -> M B) (R1 : A -> Prop) R :
  keeps P m R1 -> (forall a, R1 a -> keeps P (k a) R) -> keeps P (m ≫= k) R.
Proof.
  intros H Hk E w Hw. apply holds_bind. eapply holds_mono; [by apply H| |done].
  intros a w' [Hw' Ha]. by apply Hk.
Qed.

Lemma keeps_ret {A} P (a : A) (R : A -> Prop) : R a -> keeps P (mret a) R.
Proof. intros Ha E w Hw. by split. Qed.

Lemma keeps_gets {A} P (f : S -> A) (R : A -> Prop) :
  (forall s, P s -> R (f s)) -> keeps P (gets f) R.
Proof. intros H E w Hw. split; auto. Qed.

Lemma keeps_modify P (f : S -> S) (R : unit -> Prop) :
  (forall s, P s -> P (f s)) -> R tt -> keeps P (modify f) R.
Proof. intros H HR E w Hw. split; cbn; auto. Qed.

Lemma keeps_call {A} P (c : sys A) (R : A -> Prop) : (forall a, R a) -> keeps P (call c) R.
Proof. intros H E w Hw. split; auto. Qed.

Lemma keeps_of_option {A} P (o : option A) (R : A -> Prop) :
  (forall a, o = Some a -> R a) -> keeps P (of_option o) R.
Proof. intros H E w Hw. destruct o; cbn; [split; auto|exact I]. Qed.

Lemma keeps_undef {A} P (R : A -> Prop) : keeps P undef R.
Proof. by intros E w Hw. Qed.

Lemma keeps_exit {A} P c (R : A -> Prop) : keeps P (exit_ c) R.
Proof. by intros E w Hw. Qed.

Lemma keeps_bind_gets {A B} P (f : S -> A) (k : A -> M B) R :
  (forall s, P s -> keeps P (k (f s)) R) -> keeps P (gets f ≫= k) R.
Proof. intros H E w Hw. exact (H (loc w) Hw E w Hw). Qed.

Lemma keeps_bind_get {B} P (k : S -> M B) R :
  (forall s, P s -> keeps P (k s) R) -> keeps P (get ≫= k) R.
Proof. intros H E w Hw. exact (H (loc w) Hw E w Hw). Qed.

Lemma keeps_bind_modify {B} P (f : S -> S) (k : unit -> M B) R :
  (forall s, P s -> P (f s)) -> keeps P (k tt) R -> keeps P (modify f ≫= k) R.
Proof. intros H Hk E w Hw. apply (Hk E). by apply H. Qed.

Lemma keeps_bind_call {A B} P (c : sys A) (k : A -> M B) R :
  (forall a, keeps P (k a) R) -> keeps P (call c ≫= k) R.
Proof. intros H E w Hw. by apply (H _ E). Qed.

Lemma keeps_bind_of_option {A B} P (o : option A) (k : A -> M B) R :
  (forall a, o = Some a -> keeps P (k a) R) -> keeps P (of_option o ≫= k) R.
Proof. intros H E w Hw. destruct o as [a|]; [exact (H a eq_refl E w Hw)|exact I]. Qed.

Lemma keeps_bind_ret {A B} P (a : A) (k : A -> M B) R :
  keeps P (k a) R -> keeps P (mret a ≫= k) R.
Proof. done. Qed.

(** A loop whose measure falls at every turn. *)
Lemma keeps_iterM {A B} P (body : A -> M (A + B)) (J : A -> Prop) (mu : A -> nat) (R : B -> Prop) :
  (forall a, J a -> keeps P (body a) (fun r =>
     match r with inl a' => J a' /\ (mu a' < mu a)%nat | inr b => R b end)) ->
  forall fuel a, J a -> (mu a < fuel)%nat -> keeps P (iterM fuel body a) R.
Proof.
  intros Hb fuel. induction fuel as [|n IH]; intros a Ha Hf; [lia|].
  cbn [iterM]. eapply keeps_bind; [by apply Hb|].
  intros [a'|b] H; [|by apply keeps_ret]. destruct H. apply IH; [done|lia].
Qed.

Lemma keeps_forM {A} P (l : list A) (body : A -> M unit) :
  (forall a, keeps P (body a) (fun _ => True)) -> keeps P (forM l body) (fun _ => True).
Proof.
  intros Hb. induction l as [|a l IH]; cbn [forM]; [by apply keeps_ret|].
  eapply keeps_bind; [apply Hb|]. auto.
Qed.

Lemma keeps_post {A} P E (m : M A) R w :
  keeps P m R -> P (loc w) ->
  match m E w with
  | Done a w' => P (loc w') /\ R a
  | Exit _ w' => P (loc w')
  | Undef => True
  | NoFuel => False
  end.
Proof. intros H Hw. exact (H E w Hw). Qed.
End Keeps.

Create HintDb keeps.

(** Symbolic execution of a [keeps] goal; [utac] proves that an update of the
    state preserves the invariant at hand. *)
Ltac keep1 utac :=
  match goal with
  | |- keeps _ (mbind _ (gets _)) _ => apply keeps_bind_gets; intros ? ?
  | |- keeps _ (mbind _ get) _ => apply keeps_bind_get; intros ? ?
  | |- keeps _ (mbind _ (modify _)) _ => apply keeps_bind_modify; [solve [utac]|]
  | |- keeps _ (mbind _ (call _)) _ => apply keeps_bind_call; intros ?
  | |- keeps _ (mbind _ (of_option _)) _ => apply keeps_bind_of_option; intros ? ?
  | |- keeps _ (mbind _ (mret _)) _ => apply keeps_bind_ret
  | |- keeps _ (mret _) _ => apply keeps_ret; try exact I
  | |- keeps _ (gets _) _ => apply keeps_gets; intros ? ?; try exact I
  | |- keeps _ (modify _) _ => apply keeps_modify; [solve [utac]|try exact I]
  | |- keeps _ (call _) _ => apply keeps_call; intros ?; try exact I
  | |- keeps _ (of_option _) _ => apply keeps_of_option; intros ? ?; try exact I
  | |- keeps _ undef _ => apply keeps_undef
  | |- keeps _ (exit_ _) _ => apply keeps_exit
  | |- keeps _ (if ?b then _ else _) _ => destruct b eqn:?
  | |- keeps _ (match ?x with _ => _ end) _ => destruct x eqn:?
  | |- keeps _ (mbind _ _) _ =>
      let H := fresh "H" in
      eapply keeps_bind; [solve [eauto 3 with keeps nocore]|intros ? H; cbn beta in H]
  | |- keeps _ (mbind _ _) _ =>
      apply (keeps_bind _ _ _ (fun _ => True)); [|intros ? _]
  | |- keeps _ _ _ => solve [eauto 3 with keeps nocore]
  | |- keeps _ _ _ =>
      let H := fresh "H" in
      eapply keeps_weaken;
        [solve [eauto 3 with keeps nocore]|intros ? H; cbn beta in H; try exact I]
  end; cbn beta.
Ltac keep utac := repeat keep1 utac.

(** [runs E m w Q]: run from [w], [m] ends normally and [Q] holds of its
    result: no undefined behaviour, no exit, enough fuel. *)

Section Runs.
Context {sys : Type -> Type} {S : Type}.
Abbreviation M := (M sys S).
Abbreviation world := (world sys S).

Definition runs {A} (E : env sys) (m : M A) (w : world) (Q : A -> world -> Prop) : Prop :=
  match m E w with Done a w' => Q a w' | _ => False end.

Lemma runs_mono {A} E (m : M A) w (Q Q' : A -> world -> Prop) :
  runs E m w Q -> (forall a w', Q a w' -> Q' a w') -> runs E m w Q'.
Proof. unfold runs. destruct (m E w); auto. Qed.

Lemma runs_Done {A} E (m : M A) w (Q : A -> world -> Prop) a w' :
  runs E m w Q -> m E w = Done a w' -> Q a w'.
Proof. unfold runs. intros H Hd. by rewrite Hd in H. Qed.

Lemma runs_ends {A} E (m : M A) w (Q : A -> world -> Prop) :
  runs E m w Q -> exists a w', m E w = Done a w' /\ Q a w'.
Proof. unfold runs. destruct (m E w) as [a w'| | |]; [|done..]. eauto. Qed.

Lemma runs_bind {A B} E (m : M A) (k : A -> M B) w Q :
  runs E m w (fun a w' => runs E (k a) w' Q) -> runs E (m ≫= k) w Q.
Proof. unfold runs, mbind, M_bind. destruct (m E w); auto. Qed.

(** Sequencing with a condition in between. *)
Lemma runs_seq {A B} E (m : M A) (k : A -> M B) w (Q : A -> world -> Prop) Q' :
  runs E m w Q -> (forall a w', Q a w' -> runs E (k a) w' Q') -> runs E (m ≫= k) w Q'.
Proof. intros H Hk. apply runs_bind. exact (runs_mono _ _ _ _ _ H Hk). Qed.

Lemma runs_ret {A} E (a : A) w (Q : A -> world -> Prop) : Q a w -> runs E (mret a) w Q.
Proof. auto. Qed.

Lemma runs_gets {A} E (f : S -> A) w (Q : A -> world -> Prop) :
  Q (f (loc w)) w -> runs E (gets f) w Q.
Proof. auto. Qed.

Lemma runs_get E w (Q : S -> world -> Prop) : Q (loc w) w -> runs E get w Q.
Proof. auto. Qed.

Lemma runs_modify E (f : S -> S) w (Q : unit -> world -> Prop) :
  Q tt (World (f (loc w)) (hist w)) -> runs E (modify f) w Q.
Proof. auto. Qed.

Lemma runs_call {A} E (c : sys A) w (Q : A -> world -> Prop) :
  Q (E A (hist w) c) (World (loc w) (Ev c (E A (hist w) c) :: hist w)) -> runs E (call c) w Q.
Proof. auto. Qed.

Lemma runs_of_option {A} E (o : option A) a w (Q : A -> world -> Prop) :
  o = Some a -> Q a w -> runs E (of_option o) w Q.
Proof. intros -> H. exact H. Qed.

(** A [for] loop, with an invariant on what it has done so far. *)
Lemma runs_forM {A} E (l : list A) (body : A -> M unit) (I : list A -> world -> Prop) w :
  I [] w ->
  (forall pre a rest w', l = pre ++ a :: rest -> I pre w' ->
     runs E (body a) w' (fun _ w'' => I (pre ++ [a]) w'')) ->
  runs E (forM l body) w (fun _ w' => I l w').
Proof.
  intros H0 Hb.
  assert (Hg : forall rest pre w', l = pre ++ rest -> I pre w' ->
    runs E (forM rest body) w' (fun _ w'' => I l w'')).
  { induction rest as [|a rest IH]; intros pre w' Hl Hi; cbn [forM].
    - rewrite app_nil_r in Hl. subst. exact Hi.
    - apply runs_bind. eapply runs_mono; [by apply (Hb pre a rest)|].
      cbn. intros [] w1 Hw1. apply (IH (pre ++ [a])); [by rewrite <-app_assoc|done]. }
  by apply (Hg l []).
Qed.

(** A loop whose measure falls at every turn. *)
Lemma runs_iterM {A B} E (body : A -> M (A + B)) (I : A -> world -> Prop)
    (mu : A -> world -> nat) (Q : B -> world -> Prop) :
  (forall a w, I a w -> runs E (body a) w (fun r w' =>
     match r with inl a' => I a' w' /\ (mu a' w' < mu a w)%nat | inr b => Q b w' end)) ->
  forall fuel a w, I a w -> (mu a w < fuel)%nat -> runs E (iterM fuel body a) w Q.
Proof.
  intros Hb fuel. induction fuel as [|n IH]; intros a w Ha Hf; [lia|].
  cbn [iterM]. apply runs_bind. eapply runs_mono; [by apply Hb|].
  intros [a'|b] w' H; [|exact H]. destruct H. apply IH; [done|lia].
Qed.
End Runs.

Ltac rstep :=
  match goal with
  | |- runs _ (mbind _ _) _ _ => apply runs_bind
  | |- runs _ (mret _) _ _ => apply runs_ret
  | |- runs _ (gets _) _ _ => apply runs_gets
  | |- runs _ get _ _ => apply runs_get
  | |- runs _ (modify _) _ _ => apply runs_modify
  | |- runs _ (call _) _ _ => apply runs_call
  end; cbn beta.
Ltac rsteps := repeat rstep.

(** A computation that no fuel is enough for. *)
Section Spins.
Context {sys : Type -> Type} {S : Type}.

Definition spins {A} (E : env sys) (m : M sys S A) (w : world sys S) : Prop := m E w = NoFuel.

Lemma spins_first {A B} E (m : M sys S A) (k : A -> M sys S B) w : spins E m w -> spins E (m ≫= k) w.
Proof. unfold spins, mbind, M_bind. by intros ->. Qed.

Lemma spins_then {A B} E (m : M sys S A) (k : A -> M sys S B) w :
  runs E m w (fun a w' => spins E (k a) w') -> spins E (m ≫= k) w.
Proof. unfold runs, spins, mbind, M_bind. by destruct (m E w). Qed.

(** A loop that comes back to the states [I]. *)
Lemma spins_iterM {A B} E (body : A -> M sys S (A + B)) (I : A -> world sys S -> Prop) :
  (forall a w, I a w -> runs E (body a) w (fun r w' =>
     match r with inl a' => I a' w' | inr _ => False end)) ->
  forall fuel a w, I a w -> spins E (iterM fuel body a) w.
Proof.
  intros Hb fuel. induction fuel as [|n IH]; intros a w Ha; [done|]. cbn [iterM].
  apply spins_then. eapply runs_mono; [by apply Hb|]. intros [a'|b] w' H; [by apply IH|done].
Qed.
End Spins.

(** [yields E m w Q X]: wherever [m] ends, it ends without undefined
    behaviour, in [Q] if it returns and in [X] if it exits.  It says nothing
    about whether [m] ends. *)

Section Yields.
Context {sys : Type -> Type} {S : Type}.
Abbreviation M := (M sys S).
Abbreviation world := (world sys S).

Definition yields {A} (E : env sys) (m : M A) (w : world)
    (Q : A -> world -> Prop) (X : Z -> world -> Prop) : Prop :=
  match m E w with
  | Done a w' => Q a w'
  | Exit c w' => X c w'
  | Undef => False
  | NoFuel => True
  end.

Lemma yields_mono {A} E (m : M A) w (Q Q' : A -> world -> Prop) X :
  yields E m w Q X -> (forall a w', Q a w' -> Q' a w') -> yields E m w Q' X.
Proof. unfold yields. destruct (m E w); auto. Qed.

Lemma yields_bind {A B} E (m : M A) (k : A -> M B) w Q X :
  yields E m w (fun a w' => yields E (k a) w' Q X) X -> yields E (m ≫= k) w Q X.
Proof. unfold yields, mbind, M_bind. destruct (m E w); auto. Qed.

Lemma yields_ret {A} E (a : A) (w : world) (Q : A -> world -> Prop) X :
  Q a w -> yields E (mret a) w Q X.
Proof. auto. Qed.

Lemma yields_gets {A} E (f : S -> A) (w : world) Q X :
  Q (f (loc w)) w -> yields E (gets f) w Q X.
Proof. auto. Qed.

Lemma yields_get E (w : world) Q X : Q (loc w) w -> yields E get w Q X.
Proof. auto. Qed.

Lemma yields_modify E (f : S -> S) (w : world) Q X :
  Q tt (World (f (loc w)) (hist w)) -> yields E (modify f) w Q X.
Proof. auto. Qed.

Lemma yields_call {A} E (c : sys A) (w : world) Q X :
  Q (E A (hist w) c) (World (loc w) (Ev c (E A (hist w) c) :: hist w)) -> yields E (call c) w Q X.
Proof. auto. Qed.

Lemma yields_exit {A} E c (w : world) Q (X : Z -> world -> Prop) :
  X c w -> yields E (exit_ (A := A) c) w Q X.
Proof. auto. Qed.

Lemma yields_of_option {A} E (o : option A) a (w : world) (Q : A -> world -> Prop) X :
  o = Some a -> Q a w -> yields E (of_option o) w Q X.
Proof. intros -> H. exact H. Qed.

(** With a proof that it ends: partial in undefined behaviour, no exit. *)
Lemma holds_yields_runs {A} E (m : M A) w (Q Q' : A -> world -> Prop) X :
  holds E m w Q (fun _ _ => False) -> yields E m w Q' X ->
  runs E m w (fun a w' => Q a w' /\ Q' a w').
Proof. unfold holds, yields, runs. by destruct (m E w). Qed.

(** A loop with an invariant. *)
Lemma yields_iterM {A B} E (body : A -> M (A + B)) (I : A -> world -> Prop) Q X :
  (forall a w, I a w -> yields E (body a) w (fun r w' =>
     match r with inl a' => I a' w' | inr b => Q b w' end) X) ->
  forall fuel a w, I a w -> yields E (iterM fuel body a) w Q X.
Proof.
  intros Hb fuel. induction fuel as [|n IH]; intros a w Ha; [exact Logic.I|].
  cbn [iterM]. apply yields_bind. eapply yields_mono; [by apply Hb|].
  intros [a'|b] w' H; [by apply IH|exact H].
Qed.
End Yields.

Ltac ystep :=
  match goal with
  | |- yields _ (mbind _ _) _ _ _ => apply yields_bind
  | |- yields _ (mret _) _ _ _ => apply yields_ret
  | |- yields _ (gets _) _ _ _ => apply yields_gets
  | |- yields _ get _ _ _ => apply yields_get
  | |- yields _ (modify _) _ _ _ => apply yields_modify
  | |- yields _ (call _) _ _ _ => apply yields_call
  | |- yields _ (exit_ _) _ _ _ => apply yields_exit
  end; cbn beta.
Ltac ysteps := repeat ystep.

(** [safe P m R]: as [keeps], and [m] always ends normally. *)

Section Safe.
Context {sys : Type -> Type} {S : Type}.
Abbreviation M := (M sys S).
Implicit Types P : S -> Prop.

Definition safe {A} P (m : M A) (R : A -> Prop) : Prop := forall E w,
  P (loc w) -> runs E m w (fun a w' => P (loc w') /\ R a).

Lemma safe_weaken {A} P (m : M A) (R R' : A -> Prop) :
  safe P m R -> (forall a, R a -> R' a) -> safe P m R'.
Proof. intros H HR E w Hw. eapply runs_mono; [by apply H|]. intros a w' [??]; auto. Qed.

Lemma safe_bind {A B} P (m : M A) (k : A -> M B) (R1 : A -> Prop) R :
  safe P m R1 -> (forall a, R1 a -> safe P (k a) R) -> safe P (m ≫= k) R.
Proof.
  intros H Hk E w Hw. apply runs_bind. eapply runs_mono; [by apply H|].
  intros a w' [Hw' Ha]. by apply Hk.
Qed.

Lemma safe_ret {A} P (a : A) (R : A -> Prop) : R a -> safe P (mret a) R.
Proof. intros H E w Hw. by split. Qed.

Lemma safe_gets {A} P (f : S -> A) (R : A -> Prop) :
  (forall s, P s -> R (f s)) -> safe P (gets f) R.
Proof. intros H E w Hw. split; auto. Qed.

Lemma safe_modify P (f : S -> S) (R : unit -> Prop) :
  (forall s, P s -> P (f s)) -> R tt -> safe P (modify f) R.
Proof. intros H HR E w Hw. split; cbn; auto. Qed.

Lemma safe_call {A} P (c : sys A) (R : A -> Prop) : (forall a, R a) -> safe P (call c) R.
Proof. intros H E w Hw. split; auto. Qed.

Lemma safe_of_option {A} P (o : option A) (R : A -> Prop) :
  is_Some o -> (forall a, o = Some a -> R a) -> safe P (of_option o) R.
Proof. intros [a ->] H E w Hw. split; auto. Qed.

Lemma safe_bind_gets {A B} P (f : S -> A) (k : A -> M B) R :
  (forall s, P s -> safe P (k (f s)) R) -> safe P (gets f ≫= k) R.
Proof. intros H E w Hw. exact (H (loc w) Hw E w Hw). Qed.

Lemma safe_bind_get {B} P (k : S -> M B) R :
  (forall s, P s -> safe P (k s) R) -> safe P (get ≫= k) R.
Proof. intros H E w Hw. exact (H (loc w) Hw E w Hw). Qed.

Lemma safe_bind_modify {B} P (f : S -> S) (k : unit -> M B) R :
  (forall s, P s -> P (f s)) -> safe P (k tt) R -> safe P (modify f ≫= k) R.
Proof. intros H Hk E w Hw. apply (Hk E). by apply H. Qed.

Lemma safe_bind_call {A B} P (c : sys A) (k : A -> M B) R :
  (forall a, safe P (k a) R) -> safe P (call c ≫= k) R.
Proof. intros H E w Hw. by apply (H _ E). Qed.

Lemma safe_bind_of_option {A B} P (o : option A) (k : A -> M B) R :
  is_Some o -> (forall a, o = Some a -> safe P (k a) R) -> safe P (of_option o ≫= k) R.
Proof. intros [a ->] H. exact (H a eq_refl). Qed.

Lemma safe_iterM {A B} P (body : A -> M (A + B)) (J : A -> Prop) (mu : A -> nat) (R : B -> Prop) :
  (forall a, J a -> safe P (body a) (fun r =>
     match r with inl a' => J a' /\ (mu a' < mu a)%nat | inr b => R b end)) ->
  forall fuel a, J a -> (mu a < fuel)%nat -> safe P (iterM fuel body a) R.
Proof.
  intros Hb fuel. induction fuel as [|n IH]; intros a Ha Hf; [lia|].
  cbn [iterM]. eapply safe_bind; [by apply Hb|].
  intros [a'|b] H; [|by apply safe_ret]. destruct H. apply IH; [done|lia].
Qed.

Lemma safe_forM {A} P (l : list A) (body : A -> M unit) :
  (forall a, a ∈ l -> safe P (body a) (fun _ => True)) -> safe P (forM l body) (fun _ => True).
Proof.
  intros Hb. induction l as [|a l IH]; cbn [forM]; [by apply safe_ret|].
  eapply safe_bind; [apply Hb; left|]. intros _ _. apply IH. intros a' Ha'. apply Hb. by right.
Qed.

(** [triple P m Q]: from [P], [m] ends normally in [Q]. *)
Definition triple {A} P (m : M A) (Q : A -> S -> Prop) : Prop := forall E w,
  P (loc w) -> runs E m w (fun a w' => Q a (loc w')).

Lemma triple_safe_bind {A B} P (m : M A) (k : A -> M B) (R : A -> Prop) Q :
  safe P m R -> (forall a, R a -> triple P (k a) Q) -> triple P (m ≫= k) Q.
Proof.
  intros H Hk E w Hw. apply runs_bind. eapply runs_mono; [by apply H|].
  intros a w' [Hw' Ha]. by apply Hk.
Qed.

Lemma triple_bind_gets {A B} P (f : S -> A) (k : A -> M B) Q :
  (forall s, P s -> triple P (k (f s)) Q) -> triple P (gets f ≫= k) Q.
Proof. intros H E w Hw. exact (H (loc w) Hw E w Hw). Qed.

Lemma triple_ret {A} P (a : A) (Q : A -> S -> Prop) :
  (forall s, P s -> Q a s) -> triple P (mret a) Q.
Proof. intros H E w Hw. by apply H. Qed.

Lemma triple_bind_ret {A B} P (m : M A) (f : A -> B) (Q' : A -> S -> Prop) (Q : B -> S -> Prop) :
  triple P m Q' -> (forall a s, Q' a s -> Q (f a) s) -> triple P (a ← m; mret (f a)) Q.
Proof.
  intros H HQ E w Hw. apply runs_bind. eapply runs_mono; [by apply H|].
  intros a w' Ha. by apply HQ.
Qed.

Lemma triple_modify_ret {A} P (f : S -> S) (a : A) (Q : A -> S -> Prop) :
  (forall s, P s -> Q a (f s)) -> triple P (modify f;; mret a) Q.
Proof. intros H E w Hw. by apply H. Qed.
End Safe.

Create HintDb safe.

(** Symbolic execution of a [safe] goal; [utac] proves that an update keeps the
    invariant, what is left of the side conditions is for the user. *)
Ltac safe1 utac :=
  match goal with
  | |- safe _ (mbind _ (gets _)) _ => apply safe_bind_gets; intros ? ?
  | |- safe _ (mbind _ get) _ => apply safe_bind_get; intros ? ?
  | |- safe _ (mbind _ (modify _)) _ => apply safe_bind_modify; [solve [utac]|]
  | |- safe _ (mbind _ (call _)) _ => apply safe_bind_call; intros ?
  | |- safe _ (mbind _ (of_option _)) _ => apply safe_bind_of_option; [solve [utac]|intros ? ?]
  | |- safe _ (mret _) _ => apply safe_ret; try exact I
  | |- safe _ (gets _) _ => apply safe_gets; intros ? ?; try exact I
  | |- safe _ (modify _) _ => apply safe_modify; [solve [utac]|try exact I]
  | |- safe _ (call _) _ => apply safe_call; intros ?; try exact I
  | |- safe _ (of_option _) _ => apply safe_of_option; [solve [utac]|intros ? ?; try exact I]
  | |- safe _ (if ?b then _ else _) _ => destruct b eqn:?
  | |- safe _ (match ?x with _ => _ end) _ => destruct x eqn:?
  | |- safe _ (mbind _ _) _ =>
      let H := fresh "H" in
      eapply safe_bind; [solve [eauto 3 with safe nocore]|intros ? H; cbn beta in H]
  | |- safe _ (mbind _ (if _ then _ else _)) _ =>
      apply (safe_bind _ _ _ (fun _ => True)); [|intros ? _]
  | |- safe _ (mbind _ (match _ with _ => _ end)) _ =>
      apply (safe_bind _ _ _ (fun _ => True)); [|intros ? _]
  | |- safe _ _ _ => solve [eauto 3 with safe nocore]
  | |- safe _ _ _ =>
      let H := fresh "H" in
      eapply safe_weaken;
        [solve [eauto 3 with safe nocore]|intros ? H; cbn beta in H; try exact I]
  end; cbn beta.
Ltac safes utac := repeat safe1 utac.

(** [settles E m w Q X]: [m] ends, without undefined behaviour, in [Q] if it
    returns and in [X] if it exits.  It is what [holds] and [yields] say
    together. *)

Section Settles.
Context {sys : Type -> Type} {S : Type}.
Abbreviation M := (M sys S).
Abbreviation world := (world sys S).

Definition settles {A} (E : env sys) (m : M A) (w : world)
    (Q : A -> world -> Prop) (X : Z -> world -> Prop) : Prop :=
  match m E w with Done a w' => Q a w' | Exit c w' => X c w' | _ => False end.

Lemma holds_yields_settles {A} E (m : M A) w (Q Q' : A -> world -> Prop) X X' :
  holds E m w Q X -> yields E m w Q' X' -> settles E m w Q X.
Proof. unfold holds, yields, settles. by destruct (m E w). Qed.

Lemma holds_yields_ends {A} E (m : M A) w (Q Q' : A -> world -> Prop) X :
  holds E m w Q X -> yields E m w Q' (fun _ _ => False) -> runs E m w Q.
Proof. unfold holds, yields, runs. by destruct (m E w). Qed.
End Settles.

(** [clean E P X m R]: in [E], from [P], [m] does not run into undefined
    behaviour; if it returns, in [P] and with a result in [R], and it exits only
    if [X].  What [E] answers is a hypothesis of the lemmas. *)

Section Clean.
Context {sys : Type -> Type} {S : Type} (E : env sys) (P : S -> Prop) (X : Prop).
Abbreviation M := (M sys S).

Definition clean {A} (m : M A) (R : A -> Prop) : Prop := forall w,
  P (loc w) -> yields E m w (fun a w' => P (loc w') /\ R a) (fun _ _ => X).

Lemma clean_weaken {A} (m : M A) (R R' : A -> Prop) :
  clean m R -> (forall a, R a -> R' a) -> clean m R'.
Proof. intros H HR w Hw. eapply yields_mono; [by apply H|]. intros a w' [??]; auto. Qed.

Lemma clean_bind {A B} (m : M A) (k : A -> M B) (R1 : A -> Prop) R :
  clean m R1 -> (forall a, R1 a -> clean (k a) R) -> clean (m ≫= k) R.
Proof.
  intros H Hk w Hw. apply yields_bind. eapply yields_mono; [by apply H|].
  intros a w' [Hw' Ha]. by apply Hk.
Qed.

Lemma clean_ret {A} (a : A) (R : A -> Prop) : R a -> clean (mret a) R.
Proof. intros H w Hw. by split. Qed.

Lemma clean_modify (f : S -> S) (R : unit -> Prop) :
  (forall s, P s -> P (f s)) -> R tt -> clean (modify f) R.
Proof. intros H HR w Hw. split; cbn; auto. Qed.

Lemma clean_call {A} (c : sys A) (R : A -> Prop) : (forall h, R (E A h c)) -> clean (call c) R.
Proof. intros H w Hw. split; [done|apply H]. Qed.

Lemma clean_exit {A} c (R : A -> Prop) : X -> clean (exit_ c) R.
Proof. by intros H w Hw. Qed.

Lemma clean_of_option {A} (o : option A) (R : A -> Prop) :
  is_Some o -> (forall a, o = Some a -> R a) -> clean (of_option o) R.
Proof. intros [a ->] H w Hw. split; auto. Qed.

Lemma clean_bind_get {B} (k : S -> M B) R :
  (forall s, P s -> clean (k s) R) -> clean (get ≫= k) R.
Proof. intros H w Hw. exact (H (loc w) Hw w Hw). Qed.

Lemma clean_bind_gets {A B} (f : S -> A) (k : A -> M B) R :
  (forall s, P s -> clean (k (f s)) R) -> clean (gets f ≫= k) R.
Proof. intros H w Hw. exact (H (loc w) Hw w Hw). Qed.

Lemma clean_bind_call {A B} (c : sys A) (k : A -> M B) R :
  (forall h, clean (k (E A h c)) R) -> clean (call c ≫= k) R.
Proof. intros H w Hw. by apply (H (hist w)). Qed.

Lemma clean_iterM {A B} (body : A -> M (A + B)) (J : A -> Prop) (R : B -> Prop) :
  (forall a, J a -> clean (body a) (fun r => match r with inl a' => J a' | inr b => R b end)) ->
  forall fuel a, J a -> clean (iterM fuel body a) R.
Proof.
  intros Hb fuel. induction fuel as [|n IH]; intros a Ha; [by intros w Hw|].
  cbn [iterM]. eapply clean_bind; [by apply Hb|]. intros [a'|b] H; [by apply IH|by apply clean_ret].
Qed.

Lemma clean_safe {A} (m : M A) R : safe P m R -> clean m R.
Proof. intros H w Hw. specialize (H E w Hw). unfold runs, yields in *. by destruct (m E w). Qed.
End Clean.

Create HintDb clean.

(** Symbolic execution of a [clean] goal; what is left of the side conditions
    is for the user. *)
Ltac clean1 utac :=
  match goal with
  | |- clean _ _ _ (mbind _ (gets _)) _ => apply clean_bind_gets; intros ? ?
  | |- clean _ _ _ (mbind _ get) _ => apply clean_bind_get; intros ? ?
  | |- clean _ _ _ (mbind _ (call _)) _ => apply clean_bind_call; intros ?
  | |- clean _ _ _ (mret _) _ => apply clean_ret; try exact I
  | |- clean _ _ _ (modify _) _ => apply clean_modify; [solve [utac]|try exact I]
  | |- clean _ _ _ (call _) _ => apply clean_call; intros ?; try exact I
  | |- clean _ _ _ (exit_ _) _ => apply clean_exit; try exact I
  | |- clean _ _ _ (if ?b then _ else _) _ => destruct b eqn:?
  | |- clean _ _ _ (match ?x with _ => _ end) _ => destruct x eqn:?
  | |- clean _ _ _ (mbind _ _) _ =>
      let H := fresh "H" in
      eapply clean_bind; [solve [eauto 3 with clean nocore]|intros ? H; cbn beta in H]
  | |- clean _ _ _ (mbind _ _) _ => apply (clean_bind _ _ _ _ _ (fun _ => True)); [|intros ? _]
  | |- clean _ _ _ _ _ => solve [eauto 3 with clean nocore]
  | |- clean _ _ _ _ _ =>
      let H := fresh "H" in
      eapply clean_weaken;
        [solve [eauto 3 with clean nocore]|intros ? H; cbn beta in H; try exact I]
  end; cbn beta.
Ltac cleans utac := repeat clean1 utac.

(** [stays P m]: [P] holds wherever [m] ends, if it ends. *)

Section Stays.
Context {sys : Type -> Type} {S : Type}.
Abbreviation M := (M sys S).
Implicit Types P : S -> Prop.

Definition stays {A} P (m : M A) : Prop := forall E w, P (loc w) ->
  match m E w with Done _ w' | Exit _ w' => P (loc w') | _ => True end.

Lemma stays_keeps {A} P (m : M A) R : keeps P m R -> stays P m.
Proof.
  intros H E w Hw. specialize (H E w Hw). unfold holds in H.
  destruct (m E w); try done. by destruct H.
Qed.

Lemma stays_bind {A B} P (m : M A) (k : A -> M B) :
  stays P m -> (forall a, stays P (k a)) -> stays P (m ≫= k).
Proof.
  intros H Hk E w Hw. unfold mbind, M_bind. specialize (H E w Hw).
  destruct (m E w); try done. by apply Hk.
Qed.

Lemma stays_iterM {A B} P (body : A -> M (A + B)) :
  (forall a, stays P (body a)) -> forall fuel a, stays P (iterM fuel body a).
Proof.
  intros Hb fuel. induction fuel as [|n IH]; intros a; cbn [iterM]; [by intros E w Hw|].
  apply stays_bind; [done|]. intros [a'|b]; [done|by intros E w Hw].
Qed.
End Stays.

Create HintDb stays.
Ltac stay utac :=
  repeat match goal with
  | |- stays _ (mbind _ _) => apply stays_bind; [|intros ?]
  | |- stays _ (if ?b then _ else _) => destruct b eqn:?
  | |- stays _ (match ?x with _ => _ end) => destruct x eqn:?
  | |- stays _ _ => solve [auto 2 with stays nocore]
  | |- stays _ _ => apply (stays_keeps _ _ (fun _ => True)); solve [keep utac]
  end.

(** [ends P m Q]: run from [P] in any environment, [m] leaves [Q] if it
    returns. *)

Section Ends.
Context {sys : Type -> Type} {S : Type}.
Abbreviation M := (M sys S).
Implicit Types P : S -> Prop.

Definition ends {A} P (m : M A) (Q : A -> S -> Prop) : Prop := forall E w, P (loc w) ->
  match m E w with Done a w' => Q a (loc w') | _ => True end.

Lemma ends_conseq {A} P P' (m : M A) (Q Q' : A -> S -> Prop) :
  ends P m Q -> (forall s, P' s -> P s) -> (forall a s, Q a s -> Q' a s) -> ends P' m Q'.
Proof.
  intros H HP HQ E w Hw. specialize (H E w (HP _ Hw)). destruct (m E w); auto.
Qed.

Lemma ends_bind {A B} P (m : M A) (k : A -> M B) (R : A -> S -> Prop) Q :
  ends P m R -> (forall a, ends (R a) (k a) Q) -> ends P (m ≫= k) Q.
Proof.
  intros H Hk E w Hw. unfold mbind, M_bind. specialize (H E w Hw).
  destruct (m E w); try done. by apply Hk.
Qed.

Lemma ends_ret {A} P (a : A) (Q : A -> S -> Prop) : (forall s, P s -> Q a s) -> ends P (mret a) Q.
Proof. intros H E w Hw. by apply H. Qed.

Lemma ends_bind_get {B} P (k : S -> M B) Q :
  (forall s, P s -> ends (fun s' => s' = s /\ P s') (k s) Q) -> ends P (get ≫= k) Q.
Proof. intros H E w Hw. by apply (H (loc w) Hw E w). Qed.

Lemma ends_modify P (f : S -> S) (Q : unit -> S -> Prop) :
  (forall s, P s -> Q tt (f s)) -> ends P (modify f) Q.
Proof. intros H E w Hw. by apply H. Qed.

Lemma ends_call {A} P (c : sys A) (Q : A -> S -> Prop) :
  (forall a s, P s -> Q a s) -> ends P (call c) Q.
Proof. intros H E w Hw. by apply H. Qed.

Lemma ends_exit {A} P c (Q : A -> S -> Prop) : ends P (exit_ c) Q.
Proof. by intros E w Hw. Qed.

Lemma ends_undef {A} P (Q : A -> S -> Prop) : ends P undef Q.
Proof. by intros E w Hw. Qed.

Lemma ends_of_option {A} P (o : option A) (Q : A -> S -> Prop) :
  (forall a s, o = Some a -> P s -> Q a s) -> ends P (of_option o) Q.
Proof. intros H E w Hw. destruct o; cbn; [by apply H|done]. Qed.

Lemma ends_iterM {A B} (body : A -> M (A + B)) (I : A -> S -> Prop) (Q : B -> S -> Prop) :
  (forall a, ends (I a) (body a) (fun r s => match r with inl a' => I a' s | inr b => Q b s end)) ->
  forall fuel a, ends (I a) (iterM fuel body a) Q.
Proof.
  intros Hb fuel. induction fuel as [|n IH]; intros a; [by intros E w Hw|].
  cbn [iterM]. eapply ends_bind; [apply Hb|]. intros [a'|b]; [apply IH|by apply ends_ret].
Qed.

(** Code that keeps [P]. *)
Definition remains {A} P (m : M A) : Prop := ends P m (fun _ => P).

Lemma remains_bind {A B} P (m : M A) (k : A -> M B) :
  remains P m -> (forall a, remains P (k a)) -> remains P (m ≫= k).
Proof. intros H Hk. by eapply ends_bind. Qed.
Lemma remains_ret {A} P (a : A) : remains P (mret a).
Proof. by apply ends_ret. Qed.
Lemma remains_get P : remains P get.
Proof. by intros E w Hw. Qed.
Lemma remains_modify P (f : S -> S) : (forall s, P s -> P (f s)) -> remains P (modify f).
Proof. intros H. by apply ends_modify. Qed.
Lemma remains_call {A} P (c : sys A) : remains P (call c).
Proof. by apply ends_call. Qed.
Lemma remains_of_option {A} P (o : option A) : remains P (of_option o).
Proof. by apply ends_of_option. Qed.
Lemma remains_iterM {A B} P (body : A -> M (A + B)) fuel a :
  (forall a, remains P (body a)) -> remains P (iterM fuel body a).
Proof.
  intros H. apply (ends_iterM body (fun _ => P)). intros a'.
  eapply ends_conseq; [apply H|done|]. by intros [?|?].
Qed.
Lemma remains_forM {A} P (l : list A) (body : A -> M unit) :
  (forall a, remains P (body a)) -> remains P (forM l body).
Proof.
  intros H. induction l as [|a l IH]; cbn [forM]; [apply remains_ret|].
  apply remains_bind; [apply H|]. by intros [].
Qed.
End Ends.

(** [remain utac]: symbolic execution of a [remains] goal; [utac] proves that
    an update keeps the invariant, the hint database holds the functions. *)
Create HintDb remains.
Ltac remain utac :=
  repeat match goal with
  | |- remains _ (mbind _ _) => apply remains_bind; [|intros ?]
  | |- remains _ (mret _) => apply remains_ret
  | |- remains _ get => apply remains_get
  | |- remains _ (modify _) => apply remains_modify; solve [utac]
  | |- remains _ (call _) => apply remains_call
  | |- remains _ (of_option _) => apply remains_of_option
  | |- remains _ (exit_ _) => apply ends_exit
  | |- remains _ undef => apply ends_undef
  | |- remains _ (iterM _ _ _) => apply remains_iterM; intros ?
  | |- remains _ (forM _ _) => apply remains_forM; intros ?
  | |- remains _ (if ?b then _ else _) => destruct b
  | |- remains _ (match ?x with _ => _ end) => destruct x
  | |- remains _ _ => solve [eauto 2 with remains nocore]
  end.

(** Code on a part of the state. *)
Section Zoom.
Context {sys : Type -> Type} {S T : Type}.

Definition zoom {A} (proj : S -> T) (upd : T -> S -> S) (m : M sys T A) : M sys S A :=
  fun E w =>
    match m E (World (proj (loc w)) (hist w)) with
    | Done a w' => Done a (World (upd (loc w') (loc w)) (hist w'))
    | Exit c w' => Exit c (World (upd (loc w') (loc w)) (hist w'))
    | Undef => Undef
    | NoFuel => NoFuel
    end.

Lemma runs_zoom {A} E proj upd (m : M sys T A) (w : world sys S) (Q : A -> world sys S -> Prop) :
  runs E m (World (proj (loc w)) (hist w))
    (fun a w' => Q a (World (upd (loc w') (loc w)) (hist w'))) ->
  runs E (zoom proj upd m) w Q.
Proof. unfold runs, zoom. by destruct (m E _). Qed.
End Zoom.

(** Code of a component that has its own calls and variables inside a larger
    one: its calls are relabelled, and it sees the variables that [enter] gives
    it and [leave] takes back. *)
Section Within.
Context {sys sys' : Type -> Type} {S T : Type} (inj : forall A, sys A -> sys' A).

Definition relabel (h : list (io sys)) : list (io sys') :=
  map (fun x => match x with Ev c a => Ev (inj _ c) a end) h.
Definition within {A} (enter : S -> T) (leave : T -> S -> S) (m : M sys T A) : M sys' S A := fun E w =>
  match m (fun B h c => E B (relabel h ++ hist w) (inj B c)) (World (enter (loc w)) []) with
  | Done a w' => Done a (World (leave (loc w') (loc w)) (relabel (hist w') ++ hist w))
  | Exit c w' => Exit c (World (leave (loc w') (loc w)) (relabel (hist w') ++ hist w))
  | Undef => Undef
  | NoFuel => NoFuel
  end.

Lemma runs_within {A} E enter leave (m : M sys T A) (w : world sys' S) (Q : A -> world sys' S -> Prop) :
  runs (fun B h c => E B (relabel h ++ hist w) (inj B c)) m (World (enter (loc w)) [])
    (fun a w' => Q a (World (leave (loc w') (loc w)) (relabel (hist w') ++ hist w))) ->
  runs E (within enter leave m) w Q.
Proof. unfold runs, within. by destruct (m _ _). Qed.

Lemma holds_within {A} E enter leave (m : M sys T A) (w : world sys' S) (Q : A -> world sys' S -> Prop) X :
  holds (fun B h c => E B (relabel h ++ hist w) (inj B c)) m (World (enter (loc w)) [])
    (fun a w' => Q a (World (leave (loc w') (loc w)) (relabel (hist w') ++ hist w)))
    (fun c w' => X c (World (leave (loc w') (loc w)) (relabel (hist w') ++ hist w))) ->
  holds E (within enter leave m) w Q X.
Proof. unfold holds, within. by destruct (m _ _). Qed.
End Within.

(** Bytes that a computation can check. *)
Lemma bytes_dec l : forallb (fun b => (0 <=? b) && (b <? 256)) l = true -> bytes l.
Proof.
  intros H. apply Forall_forall. intros b Hb. rewrite forallb_forall in H.
  apply list_elem_of_In in Hb. specialize (H b Hb). unfold is_byte. lia.
Qed.

(** Symbolic execution of straight-line code. *)
Ltac step :=
  match goal with
  | |- holds _ (mbind _ _) _ _ _ => apply holds_bind
  | |- holds _ (mret _) _ _ _ => apply holds_ret
  | |- holds _ (gets _) _ _ _ => apply holds_gets
  | |- holds _ get _ _ _ => apply holds_get
  | |- holds _ (modify _) _ _ _ => apply holds_modify
  | |- holds _ (call _) _ _ _ => apply holds_call; intros ?
  | |- holds _ (exit_ _) _ _ _ => apply holds_exit
  | |- holds _ undef _ _ _ => exact I
  | |- holds _ (of_option _) _ _ _ => apply holds_of_option; intros ? ?
  | |- holds _ (if ?b then _ else _) _ _ _ => destruct b eqn:?
  | |- holds _ (match ?x with _ => _ end) _ _ _ => destruct x eqn:?
  end; cbn beta.
Ltac steps := repeat step.

(** ** C library functions on strings *)

(** The C string that starts at [off]: [None] if no NUL ends it inside the
    object. *)
Fixpoint has_nul (l : list Z) : bool :=
  match l with [] => false | b :: l' => (b =? 0) || has_nul l' end.
Definition c_string (off : nat) (mem : list Z) : option (list Z) :=
  if has_nul (drop off mem) then Some (cstr (drop off mem)) else None.

Fixpoint is_prefix (p s : list Z) : bool :=
  match p, s with
  | [], _ => true
  | a :: p', b :: s' => (a =? b) && is_prefix p' s'
  | _ :: _, [] => false
  end.

(** [strstr(s, p) != NULL] *)
Fixpoint strstr (s p : list Z) : bool :=
  is_prefix p s || match s with [] => false | _ :: s' => strstr s' p end.

(** [strncpy(dst, src, n)]: the [n] bytes stored.  At most [n] bytes are read
    from [src], which need not be terminated within them. *)
Definition strncpy_from (n off : nat) (mem : list Z) : option (list Z) :=
  let w := take n (drop off mem) in
  if has_nul w then Some (cstr w ++ replicate (n - length (cstr w)) 0)
  else if bool_decide (length w = n) then Some w else None.

(** [fgets(buf, n, fp)]: the line with its newline, and the rest of the file. *)
Fixpoint fgets_loop (n : nat) (file : list Z) : list Z * list Z :=
  match n, file with
  | O, _ | _, [] => ([], file)
  | S k, b :: l =>
      if b =? 10 then ([b], l) else let '(x, r) := fgets_loop k l in (b :: x, r)
  end.
Definition fgets (n : nat) (file : list Z) : option (list Z * list Z) :=
  match file with [] => None | _ => Some (fgets_loop (n - 1) file) end.

(** Checked access to a buffer: [None] past its end. *)
Definition rd (off n : nat) (buf : list Z) : option Z :=
  if bool_decide (off + n <= length buf)%nat then Some (get_le off n buf) else None.
Definition rd_bytes (off n : nat) (buf : list Z) : option (list Z) :=
  if bool_decide (off + n <= length buf)%nat then Some (slice off n buf) else None.
Definition wr (off : nat) (v buf : list Z) : option (list Z) :=
  if bool_decide (off + length v <= length buf)%nat then Some (put off v buf) else None.

(** ** Lemmas on checked access *)

Lemma length_put off v l : (off + length v <= length l)%nat -> length (put off v l) = length l.
Proof. intros H. unfold put. len. Qed.

Lemma wr_Some off v l l' :
  wr off v l = Some l' -> (off + length v <= length l)%nat /\ l' = put off v l.
Proof. unfold wr. case_bool_decide; [|done]. by intros [= <-]. Qed.

Lemma wr_length off v l l' : wr off v l = Some l' -> length l' = length l.
Proof. intros [H ->]%wr_Some. by apply length_put. Qed.

Lemma wr_fits off v l : (off + length v <= length l)%nat -> wr off v l = Some (put off v l).
Proof. intros H. unfold wr. by rewrite bool_decide_eq_true_2. Qed.

Lemma rd_bytes_Some off n l v :
  rd_bytes off n l = Some v -> (off + n <= length l)%nat /\ v = slice off n l.
Proof. unfold rd_bytes. case_bool_decide; [|done]. by intros [= <-]. Qed.

Lemma length_slice off n l : (off + n <= length l)%nat -> length (slice off n l) = n.
Proof. intros. unfold slice. len. Qed.

Lemma rd_bytes_length off n l v : rd_bytes off n l = Some v -> length v = n.
Proof. intros [H ->]%rd_bytes_Some. by apply length_slice. Qed.

(** What a store leaves alone, and what it leaves behind. *)
Lemma slice_put_below off v l off' n :
  (off + length v <= length l)%nat -> (off' + n <= off)%nat ->
  slice off' n (put off v l) = slice off' n l.
Proof.
  intros H Hn. unfold slice, put. rewrite drop_app_le by len.
  rewrite take_app_le by len. rewrite skipn_firstn_comm, take_take.
  f_equal. lia.
Qed.

Lemma slice_put_above off v l off' n :
  (off + length v <= length l)%nat -> (off + length v <= off')%nat ->
  slice off' n (put off v l) = slice off' n l.
Proof.
  intros H Hn. unfold slice, put.
  rewrite drop_app_ge by len. rewrite drop_app_ge by len.
  rewrite drop_drop. f_equal. f_equal. len.
Qed.

Lemma slice_put_same off v l :
  (off + length v <= length l)%nat -> slice off (length v) (put off v l) = v.
Proof.
  intros H. unfold slice, put. rewrite drop_app_length' by len.
  by rewrite take_app_length.
Qed.

Lemma slice_put_end off n v l : (off + n + length v <= length l)%nat ->
  slice off (n + length v) (put (off + n) v l) = slice off n l ++ v.
Proof.
  intros H. unfold slice, put. rewrite drop_app_le by len. rewrite skipn_firstn_comm.
  replace (off + n - off)%nat with n by lia.
  rewrite app_assoc, take_app_le by len. apply take_ge. len.
Qed.

Lemma get_le_put_below off v l off' n :
  (off + length v <= length l)%nat -> (off' + n <= off)%nat ->
  get_le off' n (put off v l) = get_le off' n l.
Proof. intros. unfold get_le. by rewrite slice_put_below. Qed.

Lemma get_le_put_above off v l off' n :
  (off + length v <= length l)%nat -> (off + length v <= off')%nat ->
  get_le off' n (put off v l) = get_le off' n l.
Proof. intros. unfold get_le. by rewrite slice_put_above. Qed.

Lemma get_le_put_same off n z l :
  (off + n <= length l)%nat ->
  get_le off n (put off (le_bytes n z) l) = z mod 256 ^ Z.of_nat n.
Proof.
  intros H. unfold get_le.
  assert (Hs := slice_put_same off (le_bytes n z) l). rewrite length_le_bytes in Hs.
  rewrite Hs by done. apply le_val_bytes.
Qed.

Lemma rd_fits off n l : (off + n <= length l)%nat -> rd off n l = Some (get_le off n l).
Proof. intros. unfold rd. by rewrite bool_decide_eq_true_2. Qed.

Lemma rd_bytes_fits off n l : (off + n <= length l)%nat -> rd_bytes off n l = Some (slice off n l).
Proof. intros. unfold rd_bytes. by rewrite bool_decide_eq_true_2. Qed.

Lemma bytes_slice off n l : bytes l -> bytes (slice off n l).
Proof. intros H. unfold slice. by apply Forall_take, Forall_drop. Qed.

Lemma get_le_range off n l : bytes l -> 0 <= get_le off n l < 256 ^ Z.of_nat n.
Proof.
  intros H. destruct (le_val_range (slice off n l)) as [H0 H1]; [by apply bytes_slice|].
  split; [exact H0|]. eapply Z.lt_le_trans; [exact H1|].
  apply Z.pow_le_mono_r; [lia|]. unfold len, slice. rewrite length_take. lia.
Qed.

Lemma strncpy_from_Some n off mem : (off + n <= length mem)%nat ->
  exists v, strncpy_from n off mem = Some v /\ length v = n.
Proof.
  intros H. unfold strncpy_from. destruct (has_nul _) eqn:Hn.
  - eexists; split; [done|]. rewrite length_app, length_replicate.
    assert (Hc : forall l, (length (cstr l) <= length l)%nat).
    { induction l as [|b l IH]; cbn; [lia|]. destruct (b =? 0); cbn; lia. }
    specialize (Hc (take n (drop off mem))). rewrite length_take in Hc. lia.
  - rewrite bool_decide_eq_true_2 by len. eexists; split; [done|]. len.
Qed.

(** Stores next to each other, and of what is there. *)
Lemma put_put off u v l : (off + length u + length v <= length l)%nat ->
  put (off + length u) v (put off u l) = put off (u ++ v) l.
Proof.
  intros H. unfold put. rewrite length_app, (app_assoc (take off l) u).
  rewrite take_app_length' by len. rewrite drop_app_ge by len.
  rewrite drop_drop, <-!app_assoc. do 4 f_equal. len.
Qed.

Lemma put_id off l1 v l2 : length l1 = off -> put off v (l1 ++ v ++ l2) = l1 ++ v ++ l2.
Proof.
  intros <-. unfold put. rewrite take_app_length, (app_assoc l1 v l2).
  rewrite drop_app_length' by len. by rewrite <-app_assoc.
Qed.

Lemma put_zeros u v n : (length v <= n)%nat ->
  put (length u) v (u ++ replicate n 0) = (u ++ v) ++ replicate (n - length v) 0.
Proof.
  intros H. unfold put. rewrite take_app_length, drop_app.
  rewrite (drop_ge u) by lia. rewrite drop_replicate, <-app_assoc. cbn [app]. do 4 f_equal. lia.
Qed.

(** Lengths of stored-into buffers. *)
Ltac stored_len :=
  cbn [length]; repeat first [rewrite length_le_bytes | rewrite length_put by stored_len];
  cbn [length]; lia.

(** A field of a buffer after stores into it. *)
Ltac stored_field :=
  repeat match goal with
  | |- context [get_le ?o ?n (put ?o (le_bytes ?n ?z) ?l)] =>
      rewrite (get_le_put_same o n z l) by stored_len
  | |- context [get_le ?o ?n (put ?o' ?v ?l)] =>
      rewrite (get_le_put_below o' v l o n) by stored_len
  | |- context [get_le ?o ?n (put ?o' ?v ?l)] =>
      rewrite (get_le_put_above o' v l o n) by stored_len
  end.
