(* ===== verification/DiagPkt.v ===== *)
(** The deframer of the Qualcomm DIAG and UNISOC byte streams
    (src/diag_pkt.c).

    [diag_pkt_input] is the code's loop, with its own index and source
    pointer, over a receive buffer of fixed capacity; a store past the buffer
    or a read past the chunk is [None].  [feed] is the specification: a
    one-byte-at-a-time HDLC receiver over an unbounded input, independent of
    how the stream is cut into chunks, in the two modes of the code: without a
    start flag (mdm.c) and with one (unisoc.c).  [hunts_plain] says that no
    escape arrives while a start flag is awaited, where the code depends on the
    chunks ([diag_pkt_hunting_drops_last]). *)

From S2P Require Import Prelude.

(** ** Data *)

Record diag_pkt := DiagPkt {
  max_pkt_len : nat;
  min_pkt_len : nat;
  start_7e : Z;
  last_7d : Z;
  errors : Z;
  pkt_len : nat;
  buf : list Z
}.

#[export] Instance eta_diag_pkt : Eta diag_pkt := fun p =>
  DiagPkt (max_pkt_len p) (min_pkt_len p) (start_7e p) (last_7d p) (errors p)
    (pkt_len p) (buf p).

(** [malloc((max_size + min_size) * 2)] holds the struct, 56 bytes on LP64,
    and what is left of it is [buf]. *)
Definition sizeof_diag_pkt : nat := 56.
Definition buf_capacity (min_size max_size : nat) : nat :=
  (max_size + min_size) * 2 - sizeof_diag_pkt.

(** [mem] is the memory [malloc] hands out behind the struct, [None] when it
    fails. *)
Definition diag_pkt_malloc (min_size max_size : nat) (start : Z)
    (mem : option (list Z)) : option diag_pkt :=
  match mem with
  | None => None
  | Some b => Some (DiagPkt max_size min_size start 0 0 0 b)
  end.

(** ** The code *)

(** What is received of the current frame. *)
Definition contents (p : diag_pkt) : list Z := take (pkt_len p) (buf p).

Section Input.
Context {T : Type}.

(** [handle_pkt]: the client's callback, given the structure. *)
Variable handle_pkt : T -> diag_pkt -> T.

(** [diag_pkt->buf\[diag_pkt->pkt_len++\] = b] *)
Definition store (b : Z) (p : diag_pkt) : option diag_pkt :=
  if bool_decide (pkt_len p < length (buf p))%nat
  then Some (p <| buf := <[pkt_len p := b]> (buf p) |> <| pkt_len ::= S |>)
  else None.

Definition count_error (p : diag_pkt) : diag_pkt :=
  p <| errors ::= fun e => u32 (e + 1) |>.

(** Bytes may be stored: no start flag is wanted, or it has been seen. *)
Definition synced (p : diag_pkt) : bool :=
  (start_7e p =? 0) || negb (pkt_len p =? 0)%nat.

(** What follows the store of a 0x7E. *)
Definition end_of_frame (p : diag_pkt) (t : T) : diag_pkt * T :=
  if bool_decide (min_pkt_len p <= pkt_len p)%nat then
    (p <| pkt_len := O |>, handle_pkt t p)
  else if negb (start_7e p =? 0) && (pkt_len p =? 1)%nat then (p, t)
  else if negb (start_7e p =? 0) && (pkt_len p =? 2)%nat then
    (count_error p <| pkt_len := 1%nat |>, t)
  else (count_error p <| pkt_len := O |>, t).

(** The tail of the last branch: a frame over the limit is dropped. *)
Definition check_too_long (p : diag_pkt) : diag_pkt :=
  if bool_decide (max_pkt_len p < pkt_len p)%nat
  then count_error p <| pkt_len := O |> else p.

(** The [for] loop with [size - i] iterations to go and [pSrc] at [src]:
    the two move separately, as in the code. *)
Fixpoint input_loop (togo : nat) (src : list Z) (p : diag_pkt) (t : T)
    : option (diag_pkt * T) :=
  match togo with
  | O => Some (p, t)
  | S togo1 =>
      match src with
      | [] => None
      | b :: src1 =>
          if b =? 0x7d then
            match togo1 with
            | O => Some (p <| last_7d := 1 |>, t)
            | S togo2 =>
                if synced p then
                  match src1 with
                  | [] => None
                  | c :: src2 =>
                      p' ← store (Z.lxor c 0x20) p;
                      input_loop togo2 src2 p' t
                  end
                else input_loop togo2 src1 (count_error p) t
            end
          else if b =? 0x7e then
            p' ← store b p;
            let '(p2, t2) := end_of_frame p' t in
            input_loop togo1 src1 p2 t2
          else if negb (start_7e p =? 0) && (pkt_len p =? 0)%nat then
            input_loop togo1 src1 (count_error p) t
          else
            p' ← store b p;
            input_loop togo1 src1 (check_too_long p') t
      end
  end.

(** With [last_7d] set the first byte of the chunk is taken unescaped; an
    empty chunk is then read past its end. *)
Definition diag_pkt_input (p : diag_pkt) (src : list Z) (t : T)
    : option (diag_pkt * T) :=
  if last_7d p =? 0 then input_loop (length src) src p t
  else
    match src with
    | [] => None
    | b :: src1 =>
        p' ← (if synced p then store (Z.lxor b 0x20) p else Some (count_error p));
        input_loop (length src1) src1 (p' <| last_7d := 0 |>) t
    end.

(** A stream arrives as a sequence of chunks. *)
Fixpoint input_chunks (p : diag_pkt) (chunks : list (list Z)) (t : T)
    : option (diag_pkt * T) :=
  match chunks with
  | [] => Some (p, t)
  | c :: cs => '(p', t') ← diag_pkt_input p c t; input_chunks p' cs t'
  end.
End Input.

(** ** Specification: a receiver that takes one byte at a time *)

Section Spec.
Context {T : Type}.
Variable handle_pkt : T -> list Z -> T.
(** [st]: every frame begins with a flag, too. *)
Variable st : bool.
Variables cap min_len max_len : nat.

Record rx := Rx { acc : list Z; esc : bool; errs : Z; out : T }.

Definition reject (a : rx) : rx := Rx [] false (u32 (errs a + 1)) (out a).

(** The byte completes [f], the frame so far.  With start flags a flag alone
    begins a frame, and of two in a row the second one does. *)
Definition complete (b : Z) (f : list Z) (a : rx) : rx :=
  if b =? 0x7e then
    if bool_decide (min_len <= length f)%nat
    then Rx [] false (errs a) (handle_pkt (out a) f)
    else if st && (length f =? 1)%nat then Rx f false (errs a) (out a)
    else if st && (length f =? 2)%nat then Rx (take 1 f) false (u32 (errs a + 1)) (out a)
    else reject a
  else if bool_decide (max_len < length f)%nat then reject a
  else Rx f false (errs a) (out a).

(** A frame may go on: no start flag is wanted, or it has been received. *)
Definition flagged (a : rx) : bool := negb st || negb (length (acc a) =? 0)%nat.

Definition feed (a : rx) (b : Z) : option rx :=
  if esc a then
    if bool_decide (length (acc a) < cap)%nat
    then Some (Rx (acc a ++ [Z.lxor b 0x20]) false (errs a) (out a)) else None
  else if b =? 0x7d then Some (Rx (acc a) true (errs a) (out a))
  else if negb (b =? 0x7e) && negb (flagged a) then Some (reject a)
  else if bool_decide (length (acc a) < cap)%nat
  then Some (complete b (acc a ++ [b]) a) else None.

Fixpoint feed_all (a : rx) (l : list Z) : option rx :=
  match l with
  | [] => Some a
  | b :: l' => a' ← feed a b; feed_all a' l'
  end.

(** No escape while the receiver waits for a start flag. *)
Fixpoint hunts_plain (a : rx) (l : list Z) : bool :=
  match l with
  | [] => true
  | b :: l' => (flagged a || negb (esc a || (b =? 0x7d))) &&
      match feed a b with Some a' => hunts_plain a' l' | None => true end
  end.

Lemma feed_all_app a l1 l2 :
  feed_all a (l1 ++ l2) = (a' ← feed_all a l1; feed_all a' l2).
Proof. revert a; induction l1 as [|b l1 IH]; intros a; cbn; [done|].
  destruct (feed a b); cbn; auto. Qed.

Lemma hunts_plain_app a l1 l2 : hunts_plain a (l1 ++ l2) = true ->
  hunts_plain a l1 = true /\ (forall a', feed_all a l1 = Some a' -> hunts_plain a' l2 = true).
Proof.
  revert a; induction l1 as [|b l1 IH]; intros a H; cbn in *; [split; [done|by intros ? [= <-]]|].
  apply andb_prop in H as [-> H]. destruct (feed a b) as [a1|]; cbn; [|done]. by apply IH.
Qed.
End Spec.

(** Without start flags nothing is awaited. *)
Lemma hunts_plain_always {T} (h : T -> list Z -> T) cap mn mx l : forall a, hunts_plain h false cap mn mx a l = true.
Proof. induction l as [|b l IH]; intros a; cbn; [done|]. destruct (feed _ _ _ _ _ a b); [apply IH|done]. Qed.
Arguments rx : clear implicits.
Arguments Rx {T} _ _ _ _.

(** ** Refinement *)

(** A callback that looks at the received frame only. *)
Definition framed {T} (h : T -> list Z -> T) (t : T) (p : diag_pkt) : T := h t (contents p).

Section Refine.
Context {T : Type}.
Variable handle_pkt : T -> list Z -> T.
Implicit Types (p : diag_pkt) (t : T).

(** What holds between two calls in a mode. *)
Definition wf (st : bool) (cap mn mx : nat) p : Prop :=
  length (buf p) = cap /\ min_pkt_len p = mn /\ max_pkt_len p = mx /\
  (start_7e p =? 0) = negb st /\ (pkt_len p <= cap)%nat.

Definition abs p t : rx T :=
  Rx (contents p) (negb (last_7d p =? 0)) (errors p) t.

(** The code's result is the specification's, undefined behaviour included. *)
Definition refines (st : bool) (cap mn mx : nat)
    (r : option (diag_pkt * T)) (s : option (rx T)) : Prop :=
  match r, s with
  | Some (p, t), Some a => wf st cap mn mx p /\ a = abs p t
  | None, None => True
  | _, _ => False
  end.

Variables (st : bool) (cap mn mx : nat).
Notation feed := (feed handle_pkt st cap mn mx).
Notation feed_all := (feed_all handle_pkt st cap mn mx).
Notation hunts_plain := (hunts_plain handle_pkt st cap mn mx).

Lemma contents_length p : wf st cap mn mx p -> length (contents p) = pkt_len p.
Proof. intros (? & ? & ? & ? & ?). unfold contents. rewrite length_take. lia. Qed.

Lemma store_spec b p :
  wf st cap mn mx p ->
  match store b p with
  | Some p' => (length (contents p) < cap)%nat /\ wf st cap mn mx p' /\
      contents p' = contents p ++ [b] /\
      last_7d p' = last_7d p /\ errors p' = errors p
  | None => (cap <= length (contents p))%nat
  end.
Proof.
  intros Hwf. rewrite (contents_length _ Hwf). destruct Hwf as (Hb & Hmn & Hmx & Hs & Hl).
  unfold store. case_bool_decide; [|lia].
  split_and!; cbn; [lia| |unfold contents; cbn|done|done].
  - split_and!; cbn; rewrite ?length_insert; (done || lia).
  - erewrite take_S_r by (apply list_lookup_insert_eq; lia).
    by rewrite take_insert_ge by lia.
Qed.

Lemma synced_flagged p t : wf st cap mn mx p -> synced p = flagged st (abs p t).
Proof.
  intros Hwf. unfold synced, flagged. cbn. rewrite (contents_length p Hwf). destruct Hwf as (? & ? & ? & Hs & ?).
  by rewrite Hs.
Qed.

Lemma end_of_frame_spec p t f b :
  wf st cap mn mx p -> last_7d p = 0 -> contents p = f -> b = 0x7e ->
  let '(p', t') := end_of_frame (framed handle_pkt) p t in
  wf st cap mn mx p' /\ last_7d p' = 0 /\ abs p' t' = complete handle_pkt st mn mx b f (Rx [] false (errors p) t).
Proof.
  intros Hwf H7 <- ->. unfold complete. rewrite (contents_length _ Hwf).
  destruct Hwf as (Hb & Hmn & Hmx & Hs & Hl).
  unfold end_of_frame. rewrite Hmn, Hs, negb_involutive. cbn [Z.eqb Pos.eqb].
  case_bool_decide; [split_and!; [split_and!; cbn; (done || lia)|done|unfold abs, contents; cbn; by rewrite H7]|].
  destruct (st && (pkt_len p =? 1)%nat); [split_and!; [by split_and!|done|unfold abs; by rewrite H7]|].
  destruct (st && (pkt_len p =? 2)%nat) eqn:E2.
  - apply andb_prop in E2 as [_ E2%Nat.eqb_eq].
    split_and!; [split_and!; cbn; (done || lia)|done|]. unfold abs, contents; cbn. rewrite H7, E2. cbn. f_equal.
    by destruct (buf p) as [|? [|? ?]].
  - split_and!; [split_and!; cbn; (done || lia)|done|]. unfold abs, contents; cbn. by rewrite H7.
Qed.

Lemma check_too_long_spec p t :
  wf st cap mn mx p -> last_7d p = 0 ->
  wf st cap mn mx (check_too_long p) /\ last_7d (check_too_long p) = 0 /\
  abs (check_too_long p) t =
    (if bool_decide (mx < length (contents p))%nat
     then Rx [] false (u32 (errors p + 1)) t
     else Rx (contents p) false (errors p) t).
Proof.
  intros Hwf H7. rewrite (contents_length _ Hwf).
  destruct Hwf as (Hb & Hmn & Hmx & Hs & Hl).
  unfold check_too_long. rewrite Hmx. case_bool_decide; cbn;
    (split_and!; [split_and!; cbn; (done || lia)|done|]);
    unfold abs, contents; cbn; by rewrite H7.
Qed.

Lemma refines_bind_store b p (k : diag_pkt -> option (diag_pkt * T)) s :
  wf st cap mn mx p ->
  (forall p', wf st cap mn mx p' -> contents p' = contents p ++ [b] ->
     last_7d p' = last_7d p -> errors p' = errors p ->
     (length (contents p) < cap)%nat -> refines st cap mn mx (k p') s) ->
  ((cap <= length (contents p))%nat -> s = None) ->
  refines st cap mn mx (p' ← store b p; k p') s.
Proof.
  intros Hwf Hk Hs. pose proof (store_spec b p Hwf) as Hst.
  destruct (store b p) as [p'|]; cbn; [destruct Hst as (?&?&?&?&?); auto|].
  by rewrite (Hs Hst).
Qed.

Lemma input_loop_refines src p t :
  wf st cap mn mx p -> last_7d p = 0 -> hunts_plain (abs p t) src = true ->
  refines st cap mn mx (input_loop (framed handle_pkt) (length src) src p t)
    (feed_all (abs p t) src).
Proof.
  remember (length src) as n eqn:Hn. revert src p t Hn.
  induction n as [n IH] using lt_wf_ind. intros [|b src] p t -> Hwf H7 Hh; cbn; [done|].
  cbn [DiagPkt.hunts_plain] in Hh. apply andb_prop in Hh as [Haw Hh].
  pose proof (synced_flagged p t Hwf) as Hsy. unfold DiagPkt.feed in *. cbn [esc abs acc errs out] in *.
  rewrite H7 in *. cbn [Z.eqb negb orb] in *.
  destruct (b =? 0x7d) eqn:E7d; cbn [negb orb andb] in *.
  { rewrite orb_false_r in Haw. change (Rx (contents p) true (errors p) t) with (abs (p <| last_7d := 1 |>) t) in *.
    destruct src as [|c src]; cbn [length input_loop].
    - cbn. split; [|done]. destruct Hwf as (?&?&?&?&?). by split_and!.
    - rewrite Hsy, Haw. cbn [DiagPkt.hunts_plain DiagPkt.feed_all mbind option_bind] in *.
      apply andb_prop in Hh as [_ Hh]. unfold DiagPkt.feed in *. cbn [esc abs acc errs out last_7d negb Z.eqb] in *.
      apply refines_bind_store; [done| |].
      + intros p' Hwf' Hc H7' He Hlt. cbn in Hh |- *. rewrite bool_decide_true in * by done. cbn in Hh |- *.
        replace (Rx _ _ _ _) with (abs p' t) in *
          by (unfold abs; rewrite Hc, H7', H7, He; done).
        apply IH; cbn; [lia|done|done|congruence|done].
      + intros Hge. cbn. unfold contents in Hge. by rewrite bool_decide_false by lia. }
  destruct (b =? 0x7e) eqn:E7e; cbn [negb orb andb] in *.
  { apply refines_bind_store; [done| |].
    - intros p' Hwf' Hc H7' He Hlt. rewrite bool_decide_true in * by done; cbn.
      pose proof (end_of_frame_spec p' t _ b Hwf' ltac:(congruence) Hc ltac:(by apply Z.eqb_eq)) as Hef.
      destruct (end_of_frame (framed handle_pkt) p' t) as [p2 t2].
      destruct Hef as (Hwf2 & H72 & Habs).
      assert (Hco : complete handle_pkt st mn mx b (contents p ++ [b]) (abs p t) = abs p2 t2)
        by (rewrite Habs, He; done).
      rewrite Hco in *. apply IH; cbn; auto with lia.
    - intros Hge. by rewrite bool_decide_false by lia. }
  assert (Hst : negb (start_7e p =? 0) && (pkt_len p =? 0)%nat = negb (flagged st (abs p t))).
  { unfold flagged. cbn [acc abs]. rewrite (contents_length p Hwf). destruct Hwf as (_ & _ & _ & -> & _).
    by destruct st, (pkt_len p =? 0)%nat. }
  rewrite Hst. destruct (flagged st _) eqn:Hfl; cbn [negb] in *.
  - apply refines_bind_store; [done| |].
    + intros p' Hwf' Hc H7' He Hlt. rewrite bool_decide_true in * by done; cbn.
      destruct (check_too_long_spec p' t Hwf') as (Hwf2 & H72 & Habs); [congruence|].
      assert (Hco : complete handle_pkt st mn mx b (contents p ++ [b]) (abs p t) =
        abs (check_too_long p') t).
      { rewrite Habs, He, Hc. unfold complete, reject. by rewrite E7e. }
      rewrite Hco in *. apply IH; cbn; auto with lia.
    + intros Hge. by rewrite bool_decide_false by lia.
  - assert (Hco : reject (abs p t) = abs (count_error p) t).
    { unfold reject, abs, contents. cbn. rewrite H7. unfold flagged in Hfl. cbn in Hfl. rewrite (contents_length p Hwf) in Hfl.
      destruct (Nat.eqb_spec (pkt_len p) 0) as [->|]; [done|]. by rewrite orb_true_r in Hfl. }
    cbn [mbind option_bind]. rewrite Hco in *. apply IH; cbn; auto with lia.
Qed.

Lemma input_refines p t src :
  wf st cap mn mx p -> (src <> [] \/ last_7d p = 0) -> hunts_plain (abs p t) src = true ->
  refines st cap mn mx (diag_pkt_input (framed handle_pkt) p src t) (feed_all (abs p t) src).
Proof.
  intros Hwf Hne Hh. unfold diag_pkt_input. destruct (last_7d p =? 0) eqn:E7.
  { apply input_loop_refines; [done|by apply Z.eqb_eq|done]. }
  destruct src as [|b src]; [destruct Hne as [[]|?]; [done|lia]|].
  cbn [DiagPkt.hunts_plain] in Hh. apply andb_prop in Hh as [Haw Hh].
  pose proof (synced_flagged p t Hwf) as Hsy. cbn. unfold DiagPkt.feed in *. cbn [esc abs acc errs out] in *.
  rewrite E7 in *. cbn [negb orb] in *. rewrite orb_false_r in Haw. rewrite Hsy, Haw.
  apply refines_bind_store; [done| |].
  - intros p' Hwf' Hc H7' He Hlt. rewrite bool_decide_true in * by done; cbn.
    assert (Hco : Rx (contents p ++ [Z.lxor b 0x20]) false (errors p) t = abs (p' <| last_7d := 0 |>) t)
      by (unfold abs, contents in *; cbn; rewrite Hc, He; done).
    rewrite Hco in *. apply input_loop_refines; [|done|done].
    destruct Hwf' as (?&?&?&?&?); by split_and!.
  - intros Hge. by rewrite bool_decide_false by lia.
Qed.
End Refine.

(** ** Consequences for whole streams *)

Definition nonempty (cs : list (list Z)) : Prop := Forall (fun c => c <> []) cs.

Section Streams.
Context {T : Type}.
Variable handle_pkt : T -> list Z -> T.
Variables (st : bool) (cap mn mx : nat).
Implicit Types (p : diag_pkt) (t : T).
Notation input_chunks := (input_chunks (framed handle_pkt)).
Notation feed_all := (feed_all handle_pkt st cap mn mx).
Notation feed_mdm := (DiagPkt.feed_all handle_pkt false cap mn mx).

Lemma chunks_refine cs p t :
  wf st cap mn mx p -> nonempty cs -> hunts_plain handle_pkt st cap mn mx (abs p t) (concat cs) = true ->
  refines st cap mn mx (input_chunks p cs t) (feed_all (abs p t) (concat cs)).
Proof.
  revert p t; induction cs as [|c cs IH]; intros p t Hwf Hne Hh; cbn; [done|].
  apply Forall_cons in Hne as [Hc Hne]. cbn [concat] in Hh. apply hunts_plain_app in Hh as [Hh Hh'].
  rewrite feed_all_app.
  pose proof (input_refines handle_pkt st cap mn mx p t c Hwf (or_introl Hc) Hh) as Hin.
  destruct (diag_pkt_input (framed handle_pkt) p c t) as [[p' t']|],
    (feed_all (abs p t) c) as [a|]; cbn in *; try done.
  destruct Hin as [Hwf' ->]. apply IH; auto.
Qed.

(** The longest run of consecutive escape sequences stays within [k]; [r]
    is the run so far, [e] says an 0x7D is pending. *)
Fixpoint runs_within (k r : nat) (e : bool) (l : list Z) : bool :=
  match l with
  | [] => true
  | b :: l' =>
      if e then bool_decide (r < k)%nat && runs_within k (S r) false l'
      else if b =? 0x7d then runs_within k r true l'
      else runs_within k O false l'
  end.

Lemma feed_all_runs_within k r l (a : rx T) :
  (mx + k < cap)%nat -> (length (acc a) <= mx + r)%nat -> (r <= k)%nat ->
  runs_within k r (esc a) l = true -> is_Some (feed_mdm a l).
Proof.
  intros Hk. revert r a; induction l as [|b l IH]; intros r a Ha Hr Hl; cbn in *;
    [by eexists|].
  unfold DiagPkt.feed. destruct (esc a) eqn:He.
  { apply andb_true_iff in Hl as [Hs Hl]. apply bool_decide_eq_true in Hs.
    rewrite bool_decide_true by lia. apply (IH (S r)); cbn; [|done|done].
    rewrite length_app; cbn. lia. }
  destruct (b =? 0x7d) eqn:E; [by apply (IH r)|].
  rewrite andb_false_r, bool_decide_true by lia. cbn.
  assert (Hlen : (length (acc (complete handle_pkt false mn mx b (acc a ++ [b]) a)) <= mx)%nat
                 /\ esc (complete handle_pkt false mn mx b (acc a ++ [b]) a) = false).
  { unfold complete, reject. repeat case_match; cbn; split; try done; try lia.
    all: by case_bool_decide; try lia. }
  destruct Hlen as [Hlen Hesc]. apply (IH O); [lia|lia|by rewrite Hesc].
Qed.

Definition escapes (l : list Z) : list Z := concat (map (fun x => [0x7d; x]) l).

Lemma feed_all_escapes l (a : rx T) :
  esc a = false ->
  feed_mdm a (escapes l) =
    (if bool_decide (length (acc a) + length l <= cap)%nat || bool_decide (l = [])
     then Some (Rx (acc a ++ map (fun x => Z.lxor x 0x20) l) false (errs a) (out a))
     else None).
Proof.
  revert a; induction l as [|x l IH]; intros [ac e er ou] He; cbn in He; subst e.
  { cbn. by rewrite orb_true_r, app_nil_r. }
  change (escapes (x :: l)) with (0x7d :: x :: escapes l). cbn.
  destruct (decide (length ac < cap)%nat) as [Hlt|Hlt].
  - rewrite bool_decide_true by done; cbn. rewrite IH by done; cbn.
    rewrite length_app, <- app_assoc; cbn.
    replace (length ac + 1 + length l)%nat with (length ac + S (length l))%nat by lia.
    destruct l; cbn; [|done].
    by rewrite bool_decide_true by lia.
  - by rewrite !bool_decide_false by lia.
Qed.

Lemma input_loop_hunt n src p t :
  synced p = false ->
  input_loop (framed handle_pkt) (S (S n)) (0x7d :: src) p t =
  input_loop (framed handle_pkt) n src (count_error p) t.
Proof. intros H. cbn. by rewrite H. Qed.

(** The loop looks at as many bytes as it has iterations. *)
Lemma input_loop_take n src p t :
  input_loop (framed handle_pkt) n src p t = input_loop (framed handle_pkt) n (take n src) p t.
Proof.
  revert src p t; induction n as [n IH] using lt_wf_ind; intros src p t.
  destruct n as [|n]; [done|]. destruct src as [|b src]; [done|]. cbn.
  destruct (b =? 0x7d).
  { destruct n as [|n]; [done|]. destruct (synced p).
    - destruct src as [|c src]; [done|]; cbn. destruct (store _ p); cbn; [|done]. apply IH; lia.
    - rewrite (IH n ltac:(lia) src), (IH n ltac:(lia) (take (S n) src)).
      by rewrite take_take, Nat.min_l by lia. }
  destruct (b =? 0x7e).
  { destruct (store b p); cbn; [|done]. destruct (end_of_frame _ _ _). apply IH; lia. }
  destruct (negb _ && _); [apply IH; lia|].
  destruct (store b p); cbn; [apply IH; lia|done].
Qed.
End Streams.

(** ** Properties *)

(** C1: fed any sequence of non-empty chunks, the deframer behaves as the
    byte-at-a-time receiver on the whole stream, in the mode without start flag
    of the Qualcomm modules and in that with start flag of the UNISOC ones:
    same frames delivered in the same order, same pending bytes, escape flag
    and error count, and a store past the buffer exactly when the receiver has
    no room.  In the mode with start flag this is so as long as no escape arrives
    while the receiver waits for that flag; after one the code loses the end of
    the chunk. *)
Theorem diag_pkt_input_refines {T} (handle_pkt : T -> list Z -> T) st cap mn mx cs p t :
  wf st cap mn mx p -> nonempty cs ->
  (st = true -> hunts_plain handle_pkt st cap mn mx (abs p t) (concat cs) = true) ->
  match input_chunks (framed handle_pkt) p cs t, feed_all handle_pkt st cap mn mx (abs p t) (concat cs) with
  | Some (p', t'), Some a => wf st cap mn mx p' /\ a = abs p' t'
  | None, None => True
  | _, _ => False
  end.
Proof.
  intros Hwf Hne Hh. apply (chunks_refine handle_pkt st cap mn mx cs p t Hwf Hne).
  destruct st; [by apply Hh|apply hunts_plain_always].
Qed.

(** How the stream is cut into chunks does not matter: two readings of the
    same bytes deliver the same frames and leave the same pending bytes,
    escape flag and error count. *)
Theorem diag_pkt_chunking {T} (handle_pkt : T -> list Z -> T) cap mn mx cs1 cs2 p t :
  wf false cap mn mx p -> nonempty cs1 -> nonempty cs2 -> concat cs1 = concat cs2 ->
  (fun '(q, r) => abs q r) <$> input_chunks (framed handle_pkt) p cs1 t =
  (fun '(q, r) => abs q r) <$> input_chunks (framed handle_pkt) p cs2 t.
Proof.
  intros Hwf H1 H2 E.
  pose proof (chunks_refine handle_pkt false cap mn mx cs1 p t Hwf H1 (hunts_plain_always _ _ _ _ _ _)) as R1.
  pose proof (chunks_refine handle_pkt false cap mn mx cs2 p t Hwf H2 (hunts_plain_always _ _ _ _ _ _)) as R2.
  rewrite E in R1.
  destruct (input_chunks (framed handle_pkt) p cs1 t) as [[]|], (input_chunks (framed handle_pkt) p cs2 t) as [[]|],
    (feed_all handle_pkt false cap mn mx (abs p t) (concat cs2)) as [a|]; cbn in *; try done.
  destruct R1 as [_ R1], R2 as [_ R2]. by rewrite <- R1, <- R2.
Qed.

(** No store leaves the buffer as long as the stream has no run of more
    than [k] consecutive escape sequences, where [k] is what the buffer holds
    beyond the frame limit. *)
Theorem diag_pkt_input_safe {T} (handle_pkt : T -> list Z -> T) cap mn mx k cs p t :
  wf false cap mn mx p -> nonempty cs -> (mx + k < cap)%nat ->
  last_7d p = 0 -> (pkt_len p <= mx)%nat ->
  runs_within k 0 false (concat cs) = true ->
  is_Some (input_chunks (framed handle_pkt) p cs t).
Proof.
  intros Hwf Hne Hk H7 Hl Hr.
  pose proof (chunks_refine handle_pkt false cap mn mx cs p t Hwf Hne (hunts_plain_always _ _ _ _ _ _)) as R.
  destruct (feed_all_runs_within handle_pkt cap mn mx k O (concat cs) (abs p t)) as [a Ha];
    [done| |lia|cbn; by rewrite H7|].
  - cbn. rewrite (contents_length false cap mn mx p Hwf). lia.
  - rewrite Ha in R. destruct (input_chunks (framed handle_pkt) p cs t); [by eexists|done].
Qed.

(** Escape sequences are stored without the length check of plain bytes:
    a run of them longer than the room left in the buffer is written past its
    end. *)
Theorem diag_pkt_escape_overflow {T} (handle_pkt : T -> list Z -> T) cap mn mx xs p t :
  wf false cap mn mx p -> last_7d p = 0 -> (cap < pkt_len p + length xs)%nat -> xs <> [] ->
  diag_pkt_input (framed handle_pkt) p (escapes xs) t = None.
Proof.
  intros Hwf H7 Hlen Hne.
  assert (Hesc : escapes xs <> []) by (destruct xs; [done|discriminate]).
  pose proof (input_refines handle_pkt false cap mn mx p t _ Hwf (or_introl Hesc) (hunts_plain_always _ _ _ _ _ _)) as R.
  rewrite feed_all_escapes in R by (cbn; by rewrite H7).
  cbn [abs acc] in R. rewrite (contents_length false cap mn mx p Hwf) in R.
  rewrite !bool_decide_false in R by (done || lia).
  by destruct (diag_pkt_input (framed handle_pkt) p (escapes xs) t) as [[]|].
Qed.

(** In the mode with start flag an escape sequence met while hunting for
    that flag makes the index run ahead of the source pointer: the last byte
    of the chunk, whatever it is, is never looked at. *)
Theorem diag_pkt_hunting_drops_last {T} (handle_pkt : T -> list Z -> T) p c rest b t :
  start_7e p <> 0 -> pkt_len p = O -> last_7d p = 0 ->
  diag_pkt_input (framed handle_pkt) p (0x7d :: c :: rest ++ [b]) t =
  diag_pkt_input (framed handle_pkt) (count_error p) (c :: rest) t.
Proof.
  intros Hs Hl H7. unfold diag_pkt_input.
  change (last_7d (count_error p)) with (last_7d p). rewrite H7. cbn [Z.eqb].
  assert (Hn : synced p = false).
  { unfold synced. by rewrite Hl, (proj2 (Z.eqb_neq _ _) Hs). }
  replace (length (0x7d :: c :: rest ++ [b])) with (S (S (length (c :: rest))))
    by (cbn; rewrite length_app; cbn; lia).
  rewrite (input_loop_hunt handle_pkt _ _ p t Hn), input_loop_take.
  by rewrite (take_app_length (c :: rest) [b] : take (length (c :: rest)) (c :: rest ++ [b]) = _).
Qed.

(** ** Witnesses *)

Definition collect (t : list (list Z)) (f : list Z) : list (list Z) := t ++ [f].

(** A small buffer in the mode of mdm.c: [diag_pkt_malloc(4, 60, 0, ...)]. *)
Definition mdm_pkt : diag_pkt :=
  DiagPkt 60 4 0 0 0 0 (replicate (buf_capacity 4 60) 0).

Lemma mdm_pkt_wf : wf false 72 4 60 mdm_pkt.
Proof. split_and!; cbn -[replicate]; rewrite ?length_replicate; (reflexivity || lia). Qed.

Lemma nonempty_dec cs : forallb (fun c => negb (bool_decide (c = []))) cs = true -> nonempty cs.
Proof.
  intros H. apply Forall_forall. intros c Hc. rewrite forallb_forall in H.
  specialize (H c (proj1 (list_elem_of_In _ _) Hc)). by case_bool_decide.
Qed.

Definition demo_chunks : list (list Z) := [[0x7b; 0x7d]; [0x5e; 0x3d; 0x7e; 0x4b]].

(** The mode of unisoc.c: bytes before the flag, two flags in a row, a frame
    with an escape cut by the end of a chunk. *)
Definition unisoc_pkt : diag_pkt := DiagPkt 60 4 1 0 0 0 (replicate (buf_capacity 4 60) 0).
Definition unisoc_chunks : list (list Z) := [[1; 2; 0x7e; 0x7e; 0x10; 0x7d]; [0x5e; 0x20; 0x7e; 3]].

Lemma diag_pkt_input_refines_witness :
  match input_chunks (framed collect) mdm_pkt demo_chunks [],
    feed_all collect false 72 4 60 (abs mdm_pkt []) (concat demo_chunks) with
  | Some (p', t'), Some a => wf false 72 4 60 p' /\ a = abs p' t'
  | None, None => True
  | _, _ => False
  end /\
  match input_chunks (framed collect) unisoc_pkt unisoc_chunks [],
    feed_all collect true 72 4 60 (abs unisoc_pkt []) (concat unisoc_chunks) with
  | Some (p', t'), Some a => wf true 72 4 60 p' /\ a = abs p' t'
  | None, None => True
  | _, _ => False
  end /\
  match feed_all collect true 72 4 60 (abs unisoc_pkt []) (concat unisoc_chunks) with
  | Some a => out a = [[0x7e; 0x10; 0x7e; 0x20; 0x7e]] /\ errs a = 4
  | None => False
  end.
Proof.
  split; [|split; [|by vm_compute]].
  - apply (diag_pkt_input_refines collect false 72 4 60 demo_chunks mdm_pkt []);
      [exact mdm_pkt_wf | by apply nonempty_dec | done].
  - apply (diag_pkt_input_refines collect true 72 4 60 unisoc_chunks unisoc_pkt []);
      [split_and!; cbn -[replicate]; rewrite ?length_replicate; (reflexivity || lia) | by apply nonempty_dec |].
    intros _. by vm_compute.
Defined.

Lemma diag_pkt_chunking_witness :
  (fun '(q, r) => abs q r) <$> input_chunks (framed collect) mdm_pkt demo_chunks [] =
  (fun '(q, r) => abs q r) <$> input_chunks (framed collect) mdm_pkt [concat demo_chunks] [].
Proof.
  apply (diag_pkt_chunking collect 72 4 60 demo_chunks [concat demo_chunks] mdm_pkt []);
    [exact mdm_pkt_wf | by apply nonempty_dec | by apply nonempty_dec | reflexivity].
Defined.

Lemma diag_pkt_input_safe_witness :
  is_Some (input_chunks (framed collect) mdm_pkt demo_chunks []).
Proof.
  apply (diag_pkt_input_safe collect 72 4 60 11 demo_chunks mdm_pkt []);
    [exact mdm_pkt_wf | by apply nonempty_dec | lia | reflexivity | cbn; lia | reflexivity].
Defined.

Lemma diag_pkt_escape_overflow_witness :
  diag_pkt_input (framed collect) mdm_pkt (escapes (replicate 73 0)) [] = None.
Proof.
  apply (diag_pkt_escape_overflow collect 72 4 60 (replicate 73 0) mdm_pkt []);
    [exact mdm_pkt_wf | reflexivity | rewrite length_replicate; cbn [pkt_len mdm_pkt]; lia | discriminate].
Defined.

Lemma diag_pkt_hunting_drops_last_witness :
  diag_pkt_input (framed collect) (DiagPkt 64 10 1 0 0 0 (replicate 92 0)) [0x7d; 0x5e; 0x11; 0x7e] [] =
  diag_pkt_input (framed collect) (count_error (DiagPkt 64 10 1 0 0 0 (replicate 92 0))) [0x5e; 0x11] [].
Proof.
  apply (diag_pkt_hunting_drops_last collect (DiagPkt 64 10 1 0 0 0 (replicate 92 0)) 0x5e [0x11] 0x7e []);
    [discriminate | reflexivity | reflexivity].
Defined.
