(* ===== verification/Endian.v ===== *)
(** Byte order (src/main.c: qlog_le16, qlog_le32, qlog_le64).  A host is
    little- or big-endian; the functions test it through the first byte of an
    integer 1 and swap on a big-endian host.  Stored into a packet, their
    results are the little-endian wire bytes on both. *)

From S2P Require Import Prelude.

Inductive host := LittleEndian | BigEndian.

(** The bytes of an [n]-byte unsigned integer in memory, and back. *)
Definition mem_of (h : host) (n : nat) (v : Z) : list Z :=
  match h with
  | LittleEndian => le_bytes n v
  | BigEndian => rev (le_bytes n v)
  end.

Definition val_of (h : host) (l : list Z) : Z :=
  match h with
  | LittleEndian => le_val l
  | BigEndian => le_val (rev l)
  end.

(** [( *(char * )&is_bigendian) == 0] for an [n]-byte integer 1. *)
Definition first_byte_zero (h : host) (n : nat) : bool :=
  nth 0 (mem_of h n 1) 0 =? 0.

Definition qlog_le16 (h : host) (v16 : Z) : Z :=
  if first_byte_zero h 4 then
    let s := mem_of h 2 v16 in
    val_of h [nth 1 s 0; nth 0 s 0]
  else v16.

Definition qlog_le32 (h : host) (v32 : Z) : Z :=
  if first_byte_zero h 4 then
    let s := mem_of h 4 v32 in
    val_of h [nth 3 s 0; nth 2 s 0; nth 1 s 0; nth 0 s 0]
  else v32.

Definition qlog_le64 (h : host) (v64 : Z) : Z :=
  if first_byte_zero h 8 then
    let s := mem_of h 8 v64 in
    val_of h [nth 7 s 0; nth 6 s 0; nth 5 s 0; nth 4 s 0;
              nth 3 s 0; nth 2 s 0; nth 1 s 0; nth 0 s 0]
  else v64.

(** ** Properties *)

Lemma mem_of_val h n l :
  bytes l -> length l = n -> mem_of h n (val_of h l) = l.
Proof.
  intros Hl <-. destruct h; cbn; [by apply le_bytes_val|].
  rewrite <- (length_rev l). rewrite le_bytes_val by (by apply Forall_rev).
  apply rev_involutive.
Qed.

(** On a host of either byte order, an integer passed through
    [qlog_le16], [qlog_le32] or [qlog_le64] and stored into a packet gives the
    little-endian bytes of the wire format. *)
Theorem qlog_le_stores_wire_order h v :
  mem_of h 2 (qlog_le16 h v) = le_bytes 2 v /\
  mem_of h 4 (qlog_le32 h v) = le_bytes 4 v /\
  mem_of h 8 (qlog_le64 h v) = le_bytes 8 v.
Proof.
  destruct h; [done|].
  split_and!; [exact (mem_of_val BigEndian 2 (le_bytes 2 v) (le_bytes_bytes _ _) eq_refl)
    | exact (mem_of_val BigEndian 4 (le_bytes 4 v) (le_bytes_bytes _ _) eq_refl)
    | exact (mem_of_val BigEndian 8 (le_bytes 8 v) (le_bytes_bytes _ _) eq_refl)].
Qed.
