(* ===== verification/Poly.v ===== *)
(** The shift registers behind the cyclic redundancy checks of the tool:
    reflected, one bit at a time, low bit first, for any polynomial; and the
    tables that take several bits at once. *)

From S2P Require Import Prelude.

Definition in16 (x : Z) : Prop := 0 <= x < 2 ^ 16.

Lemma in16_bits x : (forall i, 16 <= i -> Z.testbit x i = false) -> in16 x.
Proof.
  intros H. assert (E : x = x mod 2 ^ 16).
  { apply Z.bits_inj'. intros i Hi. destruct (Z.ltb_spec i 16).
    - by rewrite Z.mod_pow2_bits_low.
    - rewrite Z.mod_pow2_bits_high by lia. by apply H. }
  unfold in16. rewrite E. apply Z.mod_pos_bound. lia.
Qed.

Lemma bits_in16 x i : in16 x -> 16 <= i -> Z.testbit x i = false.
Proof.
  intros Hx Hi. rewrite <- (Z.mod_small x (2 ^ 16)) by exact Hx.
  apply Z.mod_pow2_bits_high. lia.
Qed.

Lemma in16_lxor a b : in16 a -> in16 b -> in16 (Z.lxor a b).
Proof.
  intros Ha Hb. apply in16_bits. intros i Hi.
  by rewrite Z.lxor_spec, (bits_in16 a), (bits_in16 b).
Qed.

(** The low [n] bits and the others. *)
Lemma split_low n x : 0 <= n -> x = Z.lxor (Z.land x (Z.ones n)) (Z.shiftl (Z.shiftr x n) n).
Proof.
  intros Hn. apply Z.bits_inj'; intros i Hi. rewrite Z.lxor_spec, Z.land_spec.
  rewrite Z.testbit_ones_nonneg by lia.
  rewrite Z.shiftl_spec by lia. destruct (Z.ltb_spec i n).
  - rewrite (Z.testbit_neg_r _ (i - n)) by lia. by rewrite andb_true_r, xorb_false_r.
  - rewrite Z.shiftr_spec by lia. replace (i - n + n) with i by lia.
    by rewrite andb_false_r.
Qed.

Section Poly.
Context (poly : Z).

Definition poly_step (x : Z) : Z :=
  let c := Z.shiftr x 1 in
  if Z.testbit x 0 then Z.lxor c poly else c.

Fixpoint poly_steps (n : nat) (x : Z) : Z :=
  match n with O => x | S n' => poly_steps n' (poly_step x) end.

Lemma poly_step_lxor a b : poly_step (Z.lxor a b) = Z.lxor (poly_step a) (poly_step b).
Proof.
  unfold poly_step. rewrite Z.lxor_spec, Z.shiftr_lxor.
  destruct (Z.testbit a 0), (Z.testbit b 0); cbn [xorb];
    apply Z.bits_inj; intros i; rewrite !Z.lxor_spec;
    destruct (Z.testbit (Z.shiftr a 1) i), (Z.testbit (Z.shiftr b 1) i),
      (Z.testbit poly i); reflexivity.
Qed.

Lemma poly_steps_lxor n a b :
  poly_steps n (Z.lxor a b) = Z.lxor (poly_steps n a) (poly_steps n b).
Proof. revert a b; induction n; intros; cbn; [done|]. by rewrite poly_step_lxor. Qed.

Lemma poly_steps_shift n x : poly_steps n (Z.shiftl x (Z.of_nat n)) = x.
Proof.
  induction n as [|n IH]; [apply Z.shiftl_0_r|]. cbn [poly_steps]. rewrite <- IH at 2.
  f_equal. unfold poly_step. rewrite Z.shiftl_spec_low by lia.
  rewrite Z.shiftr_shiftl_l by lia. f_equal. lia.
Qed.

Lemma poly_steps_add m n x : poly_steps (m + n) x = poly_steps n (poly_steps m x).
Proof. revert x. induction m; cbn; auto. Qed.

Lemma in16_poly_step x : in16 poly -> in16 x -> in16 (poly_step x).
Proof.
  intros Hp Hx. unfold poly_step.
  assert (Hs : in16 (Z.shiftr x 1)).
  { unfold in16 in *. rewrite Z.shiftr_div_pow2 by lia.
    Z.to_euclidean_division_equations; lia. }
  destruct (Z.testbit x 0); [by apply in16_lxor|done].
Qed.

Lemma in16_poly_steps n x : in16 poly -> in16 x -> in16 (poly_steps n x).
Proof. intros Hp. revert x; induction n; cbn; auto using in16_poly_step. Qed.

(** The register after whole bytes. *)
Definition poly_bytes (c : Z) (msg : list Z) : Z := foldl (fun c b => poly_steps 8 (Z.lxor c b)) c msg.

Lemma in16_poly_bytes msg c : in16 poly -> bytes msg -> in16 c -> in16 (poly_bytes c msg).
Proof.
  intros Hp Hm. unfold poly_bytes. revert c; induction Hm as [|b l Hb Hl IH]; intros c Hc; cbn [foldl]; [done|].
  apply IH, in16_poly_steps, in16_lxor; [done|done|]. unfold is_byte, in16 in *. lia.
Qed.

(** A table of [2 ^ n] entries takes [n] bits at once. *)
Lemma table_step n table x :
  forallb (fun k => nth k table 0 =? poly_steps n (Z.of_nat k)) (seq 0 (2 ^ n)) = true ->
  Z.lxor (nth (Z.to_nat (Z.land x (Z.ones (Z.of_nat n)))) table 0) (Z.shiftr x (Z.of_nat n))
    = poly_steps n x.
Proof.
  intros H. rewrite forallb_forall in H.
  set (low := Z.land x (Z.ones (Z.of_nat n))).
  assert (Hlow : 0 <= low < 2 ^ Z.of_nat n).
  { unfold low. rewrite Z.land_ones by lia. apply Z.mod_pos_bound. lia. }
  assert (Hin : In (Z.to_nat low) (seq 0 (2 ^ n))).
  { apply in_seq. split; [lia|]. apply Nat2Z.inj_lt. rewrite Z2Nat.id by lia.
    rewrite Nat.add_0_l, Nat2Z.inj_pow. lia. }
  apply H in Hin. rewrite Z2Nat.id in Hin by lia. apply Z.eqb_eq in Hin. rewrite Hin.
  rewrite (split_low (Z.of_nat n) x) at 2 by lia. fold low.
  by rewrite poly_steps_lxor, poly_steps_shift.
Qed.
End Poly.
