(* ===== verification/Crc.v ===== *)
(** The CRC and the HDLC framing of DIAG commands (src/qshrink4.c: the table
    and the functions crc_16_l_calc, diag_qsr4_append_crc16 and diag_send_data
    up to the write).  The table-driven CRC is proved equal to the bitwise one,
    and a framed command is proved to come back unchanged from the deframer of
    diag_pkt.c. *)

From S2P Require Import Prelude Poly DiagPkt.

Definition CRC_16_L_SEED : Z := 0xFFFF.
Definition CRC_16_L_POLYNOMIAL : Z := 0x8408.

Definition crc_16_l_table : list Z :=
  [0x0000; 0x1189; 0x2312; 0x329b; 0x4624; 0x57ad; 0x6536; 0x74bf;
   0x8c48; 0x9dc1; 0xaf5a; 0xbed3; 0xca6c; 0xdbe5; 0xe97e; 0xf8f7;
   0x1081; 0x0108; 0x3393; 0x221a; 0x56a5; 0x472c; 0x75b7; 0x643e;
   0x9cc9; 0x8d40; 0xbfdb; 0xae52; 0xdaed; 0xcb64; 0xf9ff; 0xe876;
   0x2102; 0x308b; 0x0210; 0x1399; 0x6726; 0x76af; 0x4434; 0x55bd;
   0xad4a; 0xbcc3; 0x8e58; 0x9fd1; 0xeb6e; 0xfae7; 0xc87c; 0xd9f5;
   0x3183; 0x200a; 0x1291; 0x0318; 0x77a7; 0x662e; 0x54b5; 0x453c;
   0xbdcb; 0xac42; 0x9ed9; 0x8f50; 0xfbef; 0xea66; 0xd8fd; 0xc974;
   0x4204; 0x538d; 0x6116; 0x709f; 0x0420; 0x15a9; 0x2732; 0x36bb;
   0xce4c; 0xdfc5; 0xed5e; 0xfcd7; 0x8868; 0x99e1; 0xab7a; 0xbaf3;
   0x5285; 0x430c; 0x7197; 0x601e; 0x14a1; 0x0528; 0x37b3; 0x263a;
   0xdecd; 0xcf44; 0xfddf; 0xec56; 0x98e9; 0x8960; 0xbbfb; 0xaa72;
   0x6306; 0x728f; 0x4014; 0x519d; 0x2522; 0x34ab; 0x0630; 0x17b9;
   0xef4e; 0xfec7; 0xcc5c; 0xddd5; 0xa96a; 0xb8e3; 0x8a78; 0x9bf1;
   0x7387; 0x620e; 0x5095; 0x411c; 0x35a3; 0x242a; 0x16b1; 0x0738;
   0xffcf; 0xee46; 0xdcdd; 0xcd54; 0xb9eb; 0xa862; 0x9af9; 0x8b70;
   0x8408; 0x9581; 0xa71a; 0xb693; 0xc22c; 0xd3a5; 0xe13e; 0xf0b7;
   0x0840; 0x19c9; 0x2b52; 0x3adb; 0x4e64; 0x5fed; 0x6d76; 0x7cff;
   0x9489; 0x8500; 0xb79b; 0xa612; 0xd2ad; 0xc324; 0xf1bf; 0xe036;
   0x18c1; 0x0948; 0x3bd3; 0x2a5a; 0x5ee5; 0x4f6c; 0x7df7; 0x6c7e;
   0xa50a; 0xb483; 0x8618; 0x9791; 0xe32e; 0xf2a7; 0xc03c; 0xd1b5;
   0x2942; 0x38cb; 0x0a50; 0x1bd9; 0x6f66; 0x7eef; 0x4c74; 0x5dfd;
   0xb58b; 0xa402; 0x9699; 0x8710; 0xf3af; 0xe226; 0xd0bd; 0xc134;
   0x39c3; 0x284a; 0x1ad1; 0x0b58; 0x7fe7; 0x6e6e; 0x5cf5; 0x4d7c;
   0xc60c; 0xd785; 0xe51e; 0xf497; 0x8028; 0x91a1; 0xa33a; 0xb2b3;
   0x4a44; 0x5bcd; 0x6956; 0x78df; 0x0c60; 0x1de9; 0x2f72; 0x3efb;
   0xd68d; 0xc704; 0xf59f; 0xe416; 0x90a9; 0x8120; 0xb3bb; 0xa232;
   0x5ac5; 0x4b4c; 0x79d7; 0x685e; 0x1ce1; 0x0d68; 0x3ff3; 0x2e7a;
   0xe70e; 0xf687; 0xc41c; 0xd595; 0xa12a; 0xb0a3; 0x8238; 0x93b1;
   0x6b46; 0x7acf; 0x4854; 0x59dd; 0x2d62; 0x3ceb; 0x0e70; 0x1ff9;
   0xf78f; 0xe606; 0xd49d; 0xc514; 0xb1ab; 0xa022; 0x92b9; 0x8330;
   0x7bc7; 0x6a4e; 0x58d5; 0x495c; 0x3de3; 0x2c6a; 0x1ef1; 0x0f78].

(** ** crc_16_l_calc *)

(** One whole byte through the table. *)
Definition crc_byte (crc b : Z) : Z :=
  Z.lxor (nth (Z.to_nat (Z.land (Z.lxor crc b) 0xff)) crc_16_l_table 0) (Z.shiftr crc 8).

(** One bit of the last, incomplete byte. *)
Definition crc_bit (crc data : Z) : Z :=
  let c := Z.shiftr crc 1 in
  if negb (Z.land (Z.lxor crc data) 1 =? 0) then Z.lxor c CRC_16_L_POLYNOMIAL else c.

Fixpoint crc_bits (n : nat) (crc data : Z) : Z :=
  match n with
  | O => crc
  | S n' => crc_bits n' (crc_bit crc data) (Z.shiftr data 1)
  end.

(** [len] counts bits.  [None] is a read past the buffer. *)
Definition crc_16_l_calc (buf : list Z) (len : nat) : option Z :=
  let n := (len / 8)%nat in
  let rest := (len mod 8)%nat in
  if bool_decide (n <= length buf)%nat then
    let crc := foldl crc_byte CRC_16_L_SEED (take n buf) in
    match rest, buf !! n with
    | O, _ => Some (u16 (Z.lnot crc))
    | S _, Some b => Some (u16 (Z.lnot (crc_bits rest crc (Z.shiftl b 8))))
    | S _, None => None
    end
  else None.

(** ** Framing *)

(** [buf\[i\] = b] in an array: a store past its end is [None]. *)
Definition write1 (i : nat) (b : Z) (buf : list Z) : option (list Z) :=
  if bool_decide (i < length buf)%nat then Some (<[i := b]> buf) else None.

(** The command at the front of [buf] gets its CRC, low byte first, and the
    frame flag; the new length is returned with the buffer. *)
Definition diag_qsr4_append_crc16 (buf : list Z) (len : nat) : option (list Z * nat) :=
  crc ← crc_16_l_calc buf (len * 8);
  b1 ← write1 len (Z.land crc 0xff) buf;
  b2 ← write1 (len + 1) (Z.land (Z.shiftr crc 8) 0xff) b1;
  b3 ← write1 (len + 2) 0x7e b2;
  Some (b3, (len + 3)%nat).

(** diag_send_data writes into [qsr4_db_cmd_req_buf] behind index [bytes]; the
    command it reads is the front of that same array ([None]) or another
    request buffer. *)
Definition source (src : option (list Z)) (buf : list Z) : list Z :=
  match src with None => buf | Some l => l end.

(** The escaping loop: [n] bytes to go from index [i], the output growing
    behind index [dst] of the array. *)
Fixpoint escape_loop (src : option (list Z)) (n i dst size : nat) (buf : list Z)
    : option (list Z * nat) :=
  match n with
  | O => Some (buf, size)
  | S n' =>
      ch ← source src buf !! i;
      if (ch =? 0x7e) || (ch =? 0x7d) then
        b1 ← write1 (dst + size) 0x7d buf;
        b2 ← write1 (dst + size + 1) (Z.lxor 0x20 ch) b1;
        escape_loop src n' (S i) dst (size + 2) b2
      else
        b1 ← write1 (dst + size) ch buf;
        escape_loop src n' (S i) dst (size + 1) b1
  end.

(** What diag_send_data puts on the wire for a command of [bytes] bytes, flag
    included: the array after the call and the bytes sent. *)
Definition diag_escape (src : option (list Z)) (buf : list Z) (bytes : nat)
    : option (list Z * list Z) :=
  '(b1, size) ← escape_loop src (bytes - 1) 0 bytes 0 buf;
  b2 ← write1 (bytes + size) 0x7e b1;
  Some (b2, slice bytes (size + 1) b2).

(** ** Specification *)

(** The CRC of the standard, one bit at a time, low bit first. *)
Abbreviation poly_steps := (Poly.poly_steps CRC_16_L_POLYNOMIAL).

Definition crc_spec (msg : list Z) : Z :=
  u16 (Z.lnot (foldl (fun c b => poly_steps 8 (Z.lxor c b)) CRC_16_L_SEED msg)).

Definition stuff1 (ch : Z) : list Z :=
  if (ch =? 0x7e) || (ch =? 0x7d) then [0x7d; Z.lxor 0x20 ch] else [ch].
Definition stuffed (msg : list Z) : list Z := concat (map stuff1 msg).

(** A message with its CRC. *)
Definition with_crc (msg : list Z) : list Z :=
  msg ++ [Z.land (crc_spec msg) 0xff; Z.land (Z.shiftr (crc_spec msg) 8) 0xff].

Definition wire (msg : list Z) : list Z := stuffed (with_crc msg) ++ [0x7e].

(** ** The table *)

Lemma land_ff_range x : 0 <= Z.land x 0xff < 256.
Proof. change 0xff with (Z.ones 8). rewrite Z.land_ones by lia. apply Z.mod_pos_bound. lia. Qed.

Lemma shiftr_byte b : is_byte b -> Z.shiftr b 8 = 0.
Proof. intros Hb. rewrite Z.shiftr_div_pow2 by lia. apply Z.div_small. exact Hb. Qed.

Lemma crc_byte_spec crc b : is_byte b -> crc_byte crc b = poly_steps 8 (Z.lxor crc b).
Proof.
  intros Hb. rewrite <-(table_step _ 8 crc_16_l_table) by (vm_compute; reflexivity).
  unfold crc_byte. f_equal. change (Z.of_nat 8) with 8.
  by rewrite Z.shiftr_lxor, (shiftr_byte b Hb), Z.lxor_0_r.
Qed.

Lemma crc_fold_spec c msg :
  bytes msg -> foldl crc_byte c msg = foldl (fun c b => poly_steps 8 (Z.lxor c b)) c msg.
Proof.
  intros Hm. revert c; induction Hm as [|b l Hb Hl IH]; intros c; cbn; [done|].
  by rewrite crc_byte_spec by done.
Qed.

Lemma crc_16_l_calc_bytes msg tail :
  bytes msg -> crc_16_l_calc (msg ++ tail) (length msg * 8) = Some (crc_spec msg).
Proof.
  intros Hm. unfold crc_16_l_calc. rewrite Nat.div_mul, Nat.Div0.mod_mul by lia.
  rewrite bool_decide_true by (rewrite length_app; lia).
  rewrite take_app_length, crc_fold_spec by done. reflexivity.
Qed.

(** ** The register stays in 16 bits *)

Lemma in16_polynomial : in16 CRC_16_L_POLYNOMIAL.
Proof. by split. Qed.

Lemma in16_fold msg c :
  bytes msg -> in16 c -> in16 (foldl (fun c b => poly_steps 8 (Z.lxor c b)) c msg).
Proof. apply in16_poly_bytes, in16_polynomial. Qed.

Lemma lxor_complement c : in16 c -> Z.lxor c (u16 (Z.lnot c)) = 0xffff.
Proof.
  intros Hc. unfold u16. apply Z.bits_inj'. intros i Hi.
  change 0xffff with (Z.ones 16). rewrite Z.lxor_spec, Z.testbit_ones_nonneg by lia.
  destruct (Z.ltb_spec i 16).
  - rewrite Z.mod_pow2_bits_low, Z.lnot_spec by lia. by destruct (Z.testbit c i).
  - rewrite Z.mod_pow2_bits_high, (bits_in16 c) by (done || lia). done.
Qed.

(** The two checksum bytes bring the register to the state it has after 16
    steps from 0xFFFF, whatever the message. *)
Lemma register_after_crc c :
  in16 c ->
  let v := u16 (Z.lnot c) in
  poly_steps 8 (Z.lxor (poly_steps 8 (Z.lxor c (Z.land v 0xff))) (Z.land (Z.shiftr v 8) 0xff))
    = poly_steps 16 0xffff.
Proof.
  intros Hc v. assert (Hv : in16 v) by (apply Z.mod_pos_bound; lia).
  assert (Hh : Z.land (Z.shiftr v 8) 0xff = Z.shiftr v 8).
  { change 0xff with (Z.ones 8). rewrite Z.land_ones, Z.shiftr_div_pow2 by lia.
    unfold in16 in Hv. apply Z.mod_small. split; [apply Z.div_pos; lia|].
    apply Z.div_lt_upper_bound; lia. }
  rewrite Hh, <- (poly_steps_shift CRC_16_L_POLYNOMIAL 8 (Z.shiftr v 8)) at 1.
  rewrite <- poly_steps_lxor. change 16%nat with (8 + 8)%nat. rewrite poly_steps_add.
  f_equal. change (Z.of_nat 8) with 8.
  rewrite Z.lxor_assoc. change 0xff with (Z.ones 8). rewrite <- split_low by lia. f_equal. by apply lxor_complement.
Qed.

(** ** Framing against its specification *)

Lemma write1_lt i b buf : (i < length buf)%nat -> write1 i b buf = Some (<[i := b]> buf).
Proof. intros. unfold write1. by rewrite bool_decide_true. Qed.

Lemma length_stuffed_bound msg : (length (stuffed msg) <= 2 * length msg)%nat.
Proof.
  induction msg as [|b l IH]; cbn; [lia|]. rewrite length_app. fold (stuffed l).
  unfold stuff1. destruct (_ || _); cbn; lia.
Qed.

Lemma insert_app_at (l1 l2 : list Z) (b x : Z) :
  <[length l1 := b]> (l1 ++ x :: l2) = (l1 ++ [b]) ++ l2.
Proof. rewrite insert_app_r_alt, Nat.sub_diag by lia. cbn. by rewrite <- app_assoc. Qed.

(** The loop with [done] already written behind the first bytes [pre0] of the
    array, from which [msg] is read unless it stands elsewhere. *)
Definition reads (src : option (list Z)) (pre0 msg : list Z) : Prop :=
  forall post i ch, msg !! i = Some ch -> source src (pre0 ++ post) !! i = Some ch.

Lemma escape_loop_spec src pre0 msg pre post done rest :
  reads src pre0 msg ->
  (length (stuffed post) <= length rest)%nat -> msg = pre ++ post ->
  escape_loop src (length post) (length pre) (length pre0) (length done)
      (pre0 ++ done ++ rest) =
    Some (pre0 ++ done ++ stuffed post ++ drop (length (stuffed post)) rest,
          (length done + length (stuffed post))%nat).
Proof.
  intros Hsrc. revert pre done rest.
  induction post as [|ch post IH]; intros pre done rest Hlen Hmsg.
  { cbn. by rewrite Nat.add_0_r. }
  cbn [escape_loop length].
  rewrite (Hsrc _ (length pre) ch) by (rewrite Hmsg; by apply list_lookup_middle).
  cbn [mbind option_bind].
  assert (Hmsg' : msg = (pre ++ [ch]) ++ post) by (by rewrite <- app_assoc).
  assert (Hpre : S (length pre) = length (pre ++ [ch])) by len.
  assert (Hcons : stuffed (ch :: post) = stuff1 ch ++ stuffed post) by done.
  assert (Hd : (length pre0 + length done = length (pre0 ++ done))%nat) by len.
  rewrite Hcons in *. rewrite length_app in Hlen.
  unfold stuff1 in *. rewrite (app_assoc pre0).
  destruct ((ch =? 0x7e) || (ch =? 0x7d)) eqn:Hch; cbn [length] in Hlen.
  - destruct rest as [|r0 [|r1 rest]]; cbn [length] in Hlen; [lia|lia|].
    rewrite write1_lt by len. cbn [mbind option_bind]. rewrite Hd, insert_app_at.
    rewrite write1_lt by len. cbn [mbind option_bind].
    replace (length (pre0 ++ done) + 1)%nat with (length ((pre0 ++ done) ++ [0x7d%Z])) by len.
    rewrite insert_app_at, <- !app_assoc. cbn [app].
    replace (length done + 2)%nat with (length (done ++ [0x7d%Z; Z.lxor 0x20 ch])) by len.
    rewrite Hpre. specialize (IH (pre ++ [ch]) (done ++ [0x7d; Z.lxor 0x20 ch]) rest ltac:(lia) Hmsg').
    rewrite <- !app_assoc in IH. cbn [app] in IH. rewrite IH.
    do 2 f_equal. len.
  - destruct rest as [|r0 rest]; cbn [length] in Hlen; [lia|].
    rewrite write1_lt by len. cbn [mbind option_bind].
    rewrite Hd, insert_app_at, <- !app_assoc. cbn [app].
    replace (length done + 1)%nat with (length (done ++ [ch])) by len.
    rewrite Hpre. specialize (IH (pre ++ [ch]) (done ++ [ch]) rest ltac:(lia) Hmsg').
    rewrite <- !app_assoc in IH. cbn [app] in IH. rewrite IH.
    do 2 f_equal. len.
Qed.

Lemma crc_spec_range msg : 0 <= crc_spec msg < 65536.
Proof. unfold crc_spec, u16. apply Z.mod_pos_bound. lia. Qed.

Lemma with_crc_bytes msg : bytes msg -> bytes (with_crc msg).
Proof.
  intros Hm. apply Forall_app; split; [done|].
  repeat constructor; apply land_ff_range.
Qed.

Lemma length_with_crc msg : length (with_crc msg) = (length msg + 2)%nat.
Proof. unfold with_crc. len. Qed.

Lemma append_crc16_spec msg tail :
  bytes msg -> (3 <= length tail)%nat ->
  diag_qsr4_append_crc16 (msg ++ tail) (length msg) =
    Some (with_crc msg ++ [0x7e] ++ drop 3 tail, (length msg + 3)%nat).
Proof.
  intros Hm Ht. unfold diag_qsr4_append_crc16.
  rewrite crc_16_l_calc_bytes by done. cbn [mbind option_bind].
  destruct tail as [|t0 [|t1 [|t2 tail]]]; cbn [length] in Ht; [lia|lia|lia|].
  rewrite write1_lt by len. cbn [mbind option_bind]. rewrite insert_app_at.
  rewrite write1_lt by len. cbn [mbind option_bind].
  replace (length msg + 1)%nat
    with (length (msg ++ [Z.land (crc_spec msg) 0xff])) by len.
  rewrite insert_app_at, write1_lt by len. cbn [mbind option_bind].
  replace (length msg + 2)%nat
    with (length ((msg ++ [Z.land (crc_spec msg) 0xff]) ++
                  [Z.land (Z.shiftr (crc_spec msg) 8) 0xff])) by len.
  rewrite insert_app_at. unfold with_crc. rewrite <- !app_assoc. cbn [app drop].
  reflexivity.
Qed.

Lemma diag_escape_spec src cmd pre0 rest :
  reads src pre0 cmd -> length pre0 = (length cmd + 1)%nat ->
  (length (stuffed cmd) + 1 <= length rest)%nat ->
  exists d, diag_escape src (pre0 ++ rest) (length cmd + 1) =
    Some (pre0 ++ stuffed cmd ++ [0x7e] ++ d, stuffed cmd ++ [0x7e]) /\
    length d = (length rest - length (stuffed cmd) - 1)%nat.
Proof.
  intros Hsrc Hp Hr. unfold diag_escape. rewrite Nat.add_sub, <- Hp.
  pose proof (escape_loop_spec src pre0 cmd [] cmd [] rest Hsrc ltac:(lia) eq_refl) as H.
  cbn [app length] in H. rewrite H. cbn [mbind option_bind Nat.add].
  destruct (drop (length (stuffed cmd)) rest) as [|x d] eqn:Ed.
  { apply (f_equal length) in Ed. rewrite length_drop in Ed; cbn in Ed. lia. }
  exists d. rewrite (app_assoc pre0), <- length_app, write1_lt by len.
  cbn [mbind option_bind]. rewrite insert_app_at, <- !app_assoc. cbn [app]. split.
  - do 2 f_equal. unfold slice. rewrite drop_app_length.
    replace (stuffed cmd ++ 126 :: d) with ((stuffed cmd ++ [126]) ++ d) by (by rewrite <- app_assoc).
    replace (length (stuffed cmd) + 1)%nat with (length (stuffed cmd ++ [126%Z])) by len.
    by rewrite take_app_length.
  - apply (f_equal length) in Ed. rewrite length_drop in Ed; cbn in Ed. lia.
Qed.

Lemma reads_self cmd x : reads None (cmd ++ [x]) cmd.
Proof.
  intros post i ch H. cbn. rewrite <- app_assoc.
  apply lookup_app_l_Some. exact H.
Qed.

Lemma reads_other cmd tail pre0 : reads (Some (cmd ++ tail)) pre0 cmd.
Proof. intros post i ch H. cbn. by apply lookup_app_l_Some. Qed.

(** ** The receiver side *)

Section Receive.
Context {T : Type}.
Variable handle_pkt : T -> list Z -> T.
Variables cap mn mx : nat.
Notation feed_all := (feed_all handle_pkt false cap mn mx).

(** Stuffed bytes are stored as the bytes they stand for. *)
Lemma feed_all_stuffed msg pre errs0 out0 :
  (length pre + length msg <= mx)%nat -> (mx < cap)%nat ->
  feed_all (Rx pre false errs0 out0) (stuffed msg) =
    Some (Rx (pre ++ msg) false errs0 out0).
Proof.
  revert pre; induction msg as [|ch msg IH]; intros pre Hl Hc; cbn [length] in *.
  { cbn. by rewrite app_nil_r. }
  change (stuffed (ch :: msg)) with (stuff1 ch ++ stuffed msg). rewrite feed_all_app.
  assert (H1 : feed_all (Rx pre false errs0 out0) (stuff1 ch) =
               Some (Rx (pre ++ [ch]) false errs0 out0)).
  { unfold stuff1. destruct ((ch =? 0x7e) || (ch =? 0x7d)) eqn:Hch; cbn.
    - rewrite bool_decide_true by lia. cbn. do 4 f_equal.
      by rewrite Z.lxor_comm, <- Z.lxor_assoc, Z.lxor_nilpotent, Z.lxor_0_l.
    - apply orb_false_iff in Hch as [H7e H7d]. unfold feed; cbn.
      rewrite H7d, andb_false_r, bool_decide_true by lia. cbn. unfold complete; cbn.
      rewrite H7e, bool_decide_false by (rewrite length_app; cbn; lia). done. }
  rewrite H1. cbn. rewrite IH by (rewrite ?length_app; cbn; lia).
  by rewrite <- app_assoc.
Qed.

Lemma feed_all_wire msg errs0 out0 :
  (length msg + 2 <= mx)%nat -> (mx < cap)%nat -> (mn <= length msg + 3)%nat ->
  feed_all (Rx [] false errs0 out0) (wire msg) =
    Some (Rx [] false errs0 (handle_pkt out0 (with_crc msg ++ [0x7e]))).
Proof.
  intros Hl Hc Hm. unfold wire.
  rewrite feed_all_app, feed_all_stuffed by (rewrite ?length_with_crc; cbn; lia).
  cbn [app mbind option_bind DiagPkt.feed_all]. unfold feed; cbn.
  rewrite bool_decide_true by (rewrite length_with_crc; lia). cbn.
  unfold complete; cbn.
  by rewrite bool_decide_true by (rewrite length_app, length_with_crc; cbn; lia).
Qed.
End Receive.

(** ** Properties *)

(** C39: the table-driven checksum of whole bytes is the bitwise CRC-16 with
    polynomial 0x8408, all-ones seed and final complement, and never reads
    past the buffer. *)
Theorem crc_16_l_calc_correct msg tail :
  bytes msg -> crc_16_l_calc (msg ++ tail) (length msg * 8) = Some (crc_spec msg).
Proof. exact (crc_16_l_calc_bytes msg tail). Qed.

(** A message followed by its two checksum bytes always has the same
    checksum, 0x0F47: a receiver recognises an intact frame without knowing
    the message. *)
Theorem crc_residue msg :
  bytes msg -> crc_16_l_calc (with_crc msg) (length (with_crc msg) * 8) = Some 0x0F47.
Proof.
  intros Hm. rewrite <- (app_nil_r (with_crc msg)) at 1.
  rewrite crc_16_l_calc_bytes by (by apply with_crc_bytes). f_equal.
  unfold crc_spec at 1. unfold with_crc. rewrite foldl_app. cbn [foldl].
  unfold crc_spec. rewrite register_after_crc; [reflexivity|].
  apply in16_fold; [done|split; vm_compute; congruence].
Qed.

(** What the receiver does with the bytes of a frame, however they are cut. *)
Lemma wire_received {T} (handle_pkt : T -> list Z -> T) cap mn mx cs msg p t :
  wf false cap mn mx p -> nonempty cs -> concat cs = wire msg ->
  pkt_len p = O -> last_7d p = 0 ->
  (length msg + 2 <= mx)%nat -> (mx < cap)%nat -> (mn <= length msg + 3)%nat ->
  exists p', input_chunks (framed handle_pkt) p cs t =
      Some (p', handle_pkt t (with_crc msg ++ [0x7e])) /\
    wf false cap mn mx p' /\ contents p' = [] /\ last_7d p' = 0 /\ errors p' = errors p.
Proof.
  intros Hwf Hne Hcs Hp H7 Hl Hc Hm.
  pose proof (chunks_refine handle_pkt false cap mn mx cs p t Hwf Hne (hunts_plain_always _ _ _ _ _ _)) as R.
  assert (Ha : abs p t = Rx [] false (errors p) t).
  { unfold abs, contents. by rewrite Hp, H7. }
  rewrite Hcs, Ha, feed_all_wire in R by done.
  destruct (input_chunks (framed handle_pkt) p cs t) as [[p' t']|]; [|done].
  destruct R as [Hwf' Ha']. injection Ha' as E1 E2 E3 E4. subst t'.
  exists p'. split_and!; try done; try apply Hwf'.
  destruct (last_7d p' =? 0) eqn:E; [by apply Z.eqb_eq|done].
Qed.

(** For every command of at most 30 bytes, escaping stays inside the 100-byte
    request buffer, whether the command stands at its front or elsewhere, and
    puts exactly [wire cmd] on the line: the stuffed command and checksum and one
    flag. *)
Lemma escape_fits src cmd pre0 rest :
  reads src pre0 (with_crc cmd) -> length pre0 = (length cmd + 3)%nat ->
  (length cmd <= 30)%nat -> length (pre0 ++ rest) = 100%nat ->
  exists b', diag_escape src (pre0 ++ rest) (length cmd + 3) = Some (b', wire cmd) /\ length b' = 100%nat.
Proof.
  intros Hsrc Hp Hc Hl. pose proof (length_stuffed_bound (with_crc cmd)) as Hs. rewrite length_with_crc in Hs.
  rewrite length_app in Hl. destruct (diag_escape_spec src (with_crc cmd) pre0 rest Hsrc) as (d & Hd & Hdl);
    [rewrite length_with_crc; lia|lia|].
  rewrite length_with_crc in Hd. replace (length cmd + 2 + 1)%nat with (length cmd + 3)%nat in Hd by lia.
  eexists. split; [exact Hd|]. repeat rewrite length_app. cbn [length]. lia.
Qed.

(** C5: a command goes from the sender to the deframer.  For every command of at
    most 30 bytes, at the front of the 100-byte request buffer or in a buffer of
    its own with room for three more bytes, appending the checksum and escaping
    stay inside the buffers, and what diag_send_data then sends, cut into any
    non-empty chunks, makes the deframer of the mode without start flag deliver
    one packet, the command with its checksum and flag, and leaves it empty with
    the error count it had. *)
Theorem frame_roundtrip {T} (handle_pkt : T -> list Z -> T) cap mn mx cmd tail tail' req p t :
  bytes cmd -> (length cmd <= 30)%nat -> (length cmd + length tail = 100)%nat ->
  (3 <= length tail')%nat -> length req = 100%nat ->
  wf false cap mn mx p -> pkt_len p = O -> last_7d p = 0 ->
  (length cmd + 2 <= mx)%nat -> (mx < cap)%nat -> (mn <= length cmd + 3)%nat ->
  let delivered sent := forall cs, nonempty cs -> concat cs = sent -> exists p',
    input_chunks (framed handle_pkt) p cs t = Some (p', handle_pkt t (with_crc cmd ++ [0x7e])) /\
    wf false cap mn mx p' /\ contents p' = [] /\ last_7d p' = 0 /\ errors p' = errors p in
  (exists b n b' sent, diag_qsr4_append_crc16 (cmd ++ tail) (length cmd) = Some (b, n) /\
     diag_escape None b n = Some (b', sent) /\ length b' = 100%nat /\ delivered sent) /\
  (exists b n b' sent, diag_qsr4_append_crc16 (cmd ++ tail') (length cmd) = Some (b, n) /\
     diag_escape (Some b) req n = Some (b', sent) /\ length b' = 100%nat /\ delivered sent).
Proof.
  intros Hb Hc Ht Ht' Hr Hwf Hp H7 Hmx Hcap Hmn delivered.
  assert (Hdel : delivered (wire cmd)) by (intros cs Hne Hcs; by apply (wire_received handle_pkt cap mn mx)).
  split.
  - destruct (escape_fits None cmd (with_crc cmd ++ [0x7e]) (drop 3 tail)) as (b' & He & Hl); try done.
    + apply reads_self.
    + rewrite length_app, length_with_crc. cbn. lia.
    + rewrite !length_app, length_with_crc, length_drop. cbn. lia.
    + eexists _, _, b', _. split; [apply append_crc16_spec; [done|lia]|]. by rewrite app_assoc.
  - destruct (escape_fits (Some (with_crc cmd ++ [0x7e] ++ drop 3 tail')) cmd (take (length cmd + 3) req)
      (drop (length cmd + 3) req)) as (b' & He & Hl); try done.
    + apply reads_other.
    + rewrite length_take. lia.
    + by rewrite take_drop.
    + rewrite take_drop in He. eexists _, _, b', _. split; [by apply append_crc16_spec|done].
Qed.

(** ** Witnesses *)

(** The log-mask reset of qshrink4.c, with a byte that needs stuffing. *)
Definition demo_cmd : list Z := [0x7d; 0x05; 0; 0; 0; 0; 0; 0].

Lemma crc_16_l_calc_correct_witness :
  crc_16_l_calc (demo_cmd ++ [1; 2]) (length demo_cmd * 8) = Some (crc_spec demo_cmd).
Proof. apply (crc_16_l_calc_correct demo_cmd [1; 2]). by apply bytes_dec. Defined.

Lemma crc_residue_witness :
  crc_16_l_calc (with_crc demo_cmd) (length (with_crc demo_cmd) * 8) = Some 0x0F47.
Proof. apply (crc_residue demo_cmd). by apply bytes_dec. Defined.

Lemma frame_roundtrip_witness :
  (exists b n b' sent, diag_qsr4_append_crc16 (demo_cmd ++ replicate 92 0) (length demo_cmd) = Some (b, n) /\
    diag_escape None b n = Some (b', sent) /\ length b' = 100%nat /\
    forall cs, nonempty cs -> concat cs = sent -> exists p',
      input_chunks (framed collect) mdm_pkt cs [] = Some (p', collect [] (with_crc demo_cmd ++ [0x7e])) /\
      wf false 72 4 60 p' /\ contents p' = [] /\ last_7d p' = 0 /\ errors p' = errors mdm_pkt) /\
  ('(b, n) ← diag_qsr4_append_crc16 (demo_cmd ++ replicate 92 0) (length demo_cmd); snd <$> diag_escape None b n) =
    Some (wire demo_cmd) /\
  out <$> feed_all collect false 72 4 60 (abs mdm_pkt []) (wire demo_cmd) = Some [with_crc demo_cmd ++ [0x7e]].
Proof.
  split; [|split; by vm_compute].
  destruct (frame_roundtrip collect 72 4 60 demo_cmd (replicate 92 0) [1; 2; 3] (replicate 100 7) mdm_pkt [])
    as [H _]; [by apply bytes_dec|cbn; lia|reflexivity|cbn; lia|reflexivity|exact mdm_pkt_wf|reflexivity|reflexivity
    |cbn; lia|lia|cbn; lia|exact H].
Defined.
