(* ===== verification/Qsys.v ===== *)
(** The interface the protocol code of QLog is written against: the I/O
    functions of src/main.c that it calls (qlog_poll_write, qlog_poll_read,
    the log-file functions) and the system calls it makes itself.  The answer
    of each is chosen by the environment from the history of the run. *)

From S2P Require Import Prelude.

Inductive qsys : Type -> Type :=
(** [qlog_poll_write(fd, buf, size, timeout)]: the result and [errno]. *)
| PollWrite (fd : Z) (buf : list Z) (timeout : Z) : qsys (Z * Z)
(** [qlog_poll_read(fd, pbuf, size, timeout)]: the bytes stored, [None] for a
    result of -1, and [errno]. *)
| PollRead (fd : Z) (size : Z) (timeout : Z) : qsys (option (list Z) * Z)
(** [select] on one descriptor for reading; [read]: [None] is -1, an empty
    answer the end of the file. *)
| SelectRead (fd : Z) (timeout : Z) : qsys Z
| Read (fd : Z) (size : Z) : qsys (option (list Z))
| Write (fd : Z) (buf : list Z) : qsys Z
(** The log-file functions. *)
| LogfileCreate (file_type : Z) (name : list Z) (tftp_size is_dump : Z) : qsys Z
| CreateFileInLogdir (name : list Z) : qsys Z
| FilesizeInLogdir (name : list Z) : qsys Z
| LogfileSave (fd : Z) (buf : list Z) : qsys Z
| LogfileClose (fd : Z) : qsys Z
| LogfileCloseQdb (fd : Z) : qsys Z
| CloseFd (fd : Z) : qsys Z
(** The reader thread, while the caller sleeps on [diag_cmd_cond]: the buffers
    it took from the modem, and what the timed wait returned. *)
| CondWait (msecs : Z) : qsys (list (list Z) * Z)
| CondSignal : qsys unit
| Open (path : list Z) : qsys Z
| Sleep (secs : Z) : qsys unit
| Usleep (usecs : Z) : qsys unit
(** [malloc]: what the memory happens to hold. *)
| Malloc (n : nat) : qsys (option (nat -> Z))
(** A read of the volatile [qlog_exit_requested]. *)
| ExitRequested : qsys Z.

(** The value stored by [memcpy]/[memset] style updates of a component's
    buffer; [Undef] when it would leave the buffer. *)
Definition store_at {S} (get : S -> list Z) (upd : list Z -> S -> S)
    (off : nat) (v : list Z) : M qsys S unit :=
  b ← gets get;
  b' ← of_option (wr off v b);
  modify (upd b').

Definition malloc {S} (n : nat) : M qsys S (option (list Z)) :=
  f ← call (Malloc n);
  mret (option_map (fun f => map f (seq 0 n)) f).

(** What a read of at most [n] bytes gives: its result and the bytes. *)
Definition read_result (n : Z) (r : option (list Z)) : Z * list Z :=
  match r with
  | None => (-1, [])
  | Some d => let d' := take (Z.to_nat n) d in (len d', d')
  end.

(** [qlog_poll_read]: the result, the bytes stored, [errno]. *)
Definition poll_read {S} (fd n timeout : Z) : M qsys S (Z * list Z * Z) :=
  '(r, errno) ← call (PollRead fd n timeout);
  mret (read_result n r, errno).

(** [read(fd, buf, n)]: the result and the bytes stored, at most [n]. *)
Definition sys_read {S} (fd n : Z) : M qsys S (Z * list Z) :=
  r ← call (Read fd n);
  mret (read_result n r).

(** An environment in which nothing happens: no data, every call succeeds. *)
Definition quiet : env qsys := fun A _ c =>
  match c in qsys A return A with
  | PollWrite _ b _ => (len b, 0)
  | PollRead _ _ _ => (None, 110)
  | SelectRead _ _ => 0
  | Read _ _ => None
  | Write _ b => len b
  | LogfileCreate _ _ _ _ => 3
  | CreateFileInLogdir _ => 3
  | FilesizeInLogdir _ => 0
  | LogfileSave _ b => len b
  | LogfileClose _ => 0
  | LogfileCloseQdb _ => 0
  | CloseFd _ => 0
  | CondWait _ => ([], 110)
  | CondSignal => tt
  | Open _ => 4
  | Sleep _ => tt
  | Usleep _ => tt
  | Malloc _ => Some (fun _ => 0)
  | ExitRequested => 0
  end.

(** The bytes that a log file took in a history, oldest first: a save takes as
    many as it answers. *)
Fixpoint saved (fd : Z) (h : list (io qsys)) : list Z :=
  match h with
  | [] => []
  | Ev c a :: h' =>
      saved fd h' ++
      match c in qsys A return A -> list Z with
      | LogfileSave fd' d => fun r => if fd' =? fd then take (Z.to_nat r) d else []
      | _ => fun _ => []
      end a
  end.
