(* ===== verification/Qshrink.v ===== *)
(** The QShrink4 database download (src/qshrink4.c), the command channel it
    uses (src/mdm.c: mdm_send_cmd and the reader side of mdm_logfile_save) and
    the QDSS/DPL requests (src/qdss1.c).

    The C globals are the fields of [st]; packed structures are their bytes.
    The reader thread runs while a sender waits on the condition variable:
    [wait_response] feeds what it received to the deframer and the packets to
    [mdm_handle_data_for_command_rsp].  The handlers get the receive buffer and
    do not look at the length received: what they read past it is what earlier
    packets left there; a read past the buffer is [Undef].  Debug output is not modelled. *)

From S2P Require Import Prelude DiagPkt Crc Qsys.

(** ** Constants of diagcmd.h, qshrink4.c and qdss1.c *)

Definition DIAG_BAD_CMD_F : Z := 19.
Definition DIAG_BAD_PARM_F : Z := 20.
Definition DIAG_BAD_LEN_F : Z := 21.
Definition DIAG_SUBSYS_CMD_F : Z := 75.
Definition DIAG_SUBSYS_CMD_VER_2_F : Z := 128.
Definition DIAG_SUBSYS_DIAG_SERV : Z := 18.
Definition DIAG_SUBSYS_LTE : Z := 68.
Definition DIAG_SUBSYS_QDSS : Z := 90.
Definition DIAG_SUBSYS_DS_IPA : Z := 100.

Definition DIAG_MODEM_PROC : Z := 0.
Definition DIAG_APPS_PROC : Z := 7.
Definition EINVAL : Z := 22.

Definition GUID_LEN : nat := 16.
Definition MAX_GUID_ENTRIES : nat := 16.
Definition NUM_PROC : nat := 10.

Definition DIAG_GET_DIAG_ID : Z := 0x222.
Definition DIAGDIAG_QSR4_FILE_OP_MODEM : Z := 0x0816.
Definition DIAGDIAG_FILE_LIST_OPERATION : Z := 0.
Definition DIAGDIAG_FILE_OPEN_OPERATION : Z := 1.
Definition DIAGDIAG_FILE_READ_OPERATION : Z := 2.
Definition DIAGDIAG_FILE_CLOSE_OPERATION : Z := 3.
Definition MAX_QSR4_DB_FILE_READ_PER_RSP : Z := 4000.

(** qsr4_db_file_parser_state *)
Definition DB_PARSER_STATE_OPEN : Z := 3.
Definition DB_PARSER_STATE_READ : Z := 4.
Definition DB_PARSER_STATE_CLOSE : Z := 5.

(** Offsets in the packed [qshrink4_header]: the entry count, the file
    lengths, the GUIDs; its size; the size of a [diagid_guid_struct]. *)
Definition OFF_COUNT : nat := 6.
Definition OFF_FILE_LEN : nat := 10.
Definition OFF_GUID : nat := 74.
Definition sizeof_qshrink4_header : nat := 330 + 16 * 47 * 4.
Definition sizeof_diagid_guid : nat := 47.

(** ** State *)

Record st := St {
  parser_state : Z;
  diag_id_state : Z;
  qdss_state : Z;
  dpl_state : Z;
  diag_disable_qtrace_state : Z;
  diag_disable_qtrace_rsp : Z;
  qshrink4_data : list Z;
  diagid_guid : list Z;
  diag_id_count : nat;
  diag_id_table : list Z;        (* 10 entries: diag_id, peripheral, process_name[30] *)
  cur_peripheral : Z;
  dm_fd : Z;
  mdm_diag_pkt : option diag_pkt;
  read_file_fd : Z;
  read_file_total_len : Z;
  read_file_len : Z;
  disk_file_fd : Z;
  skip_wakeup : Z;
  qshrink4_init : Z;
  qsr4_db_cmd_req_buf : list Z;
  ftp_qdb_file_len : Z;
  g_mdm_req : Z;
  dpl_cmd_req_buf : list Z;
  qdss_cmd_req_buf : list Z;
  hw_accel_support : list Z;     (* [0][0..2] *)
  hw_accel_query_state : Z;
  peripheral_init : Z;
  dpl_version : Z;
  use_qmdl2_v2 : Z;
  g_ignore_capture_qdb_file : Z;
  modem_is_pcie : Z;
  use_diag_qdss : Z;
  use_diag_dpl : Z;
  mdm_miss_qmdlv2_logfd : Z
}.

#[export] Instance eta_st : Eta st := fun s =>
  St (parser_state s) (diag_id_state s) (qdss_state s) (dpl_state s)
     (diag_disable_qtrace_state s) (diag_disable_qtrace_rsp s)
     (qshrink4_data s) (diagid_guid s) (diag_id_count s) (diag_id_table s)
     (cur_peripheral s) (dm_fd s) (mdm_diag_pkt s) (read_file_fd s)
     (read_file_total_len s) (read_file_len s) (disk_file_fd s) (skip_wakeup s)
     (qshrink4_init s) (qsr4_db_cmd_req_buf s) (ftp_qdb_file_len s) (g_mdm_req s)
     (dpl_cmd_req_buf s) (qdss_cmd_req_buf s) (hw_accel_support s)
     (hw_accel_query_state s) (peripheral_init s) (dpl_version s)
     (use_qmdl2_v2 s) (g_ignore_capture_qdb_file s) (modem_is_pcie s)
     (use_diag_qdss s) (use_diag_dpl s) (mdm_miss_qmdlv2_logfd s).

Abbreviation Q := (M qsys st).

Definition upd {A} (f : st -> A) `{!Setter f} (v : A) : Q unit :=
  modify (set_field f (fun _ => v)).

Definition put_header : nat -> list Z -> Q unit :=
  store_at qshrink4_data (fun b s => s <| qshrink4_data := b |>).
Definition put_diagid : nat -> list Z -> Q unit :=
  store_at diagid_guid (fun b s => s <| diagid_guid := b |>).
Definition put_table : nat -> list Z -> Q unit :=
  store_at diag_id_table (fun b s => s <| diag_id_table := b |>).
Definition put_req : nat -> list Z -> Q unit :=
  store_at qsr4_db_cmd_req_buf (fun b s => s <| qsr4_db_cmd_req_buf := b |>).

(** [qlog_le32(qshrink4_data.guid_list_entry_count)] *)
Definition entry_count (s : st) : Z := get_le OFF_COUNT 4 (qshrink4_data s).
Definition guid_of (i : nat) (s : st) : list Z :=
  slice (OFF_GUID + GUID_LEN * i) GUID_LEN (qshrink4_data s).
Definition guid_file_len (i : nat) (s : st) : Z :=
  get_le (OFF_FILE_LEN + 4 * i) 4 (qshrink4_data s).

(** ** The header of a .qmdl2 file *)

Definition mdm_add_qshrink4_header : Q unit :=
  count ← gets entry_count;
  let header_length := u32 (10 + count * 16 + 4 + count * 47) in
  put_header 4 [2];;                                            (* version *)
  put_header 5 [1];;                                            (* hdlc_data_type *)
  let data_ptr := (OFF_GUID + GUID_LEN * Z.to_nat count)%nat in (* &guid[count][0] *)
  put_header data_ptr (le_bytes 4 count);;
  ids ← gets diagid_guid;
  src ← of_option (rd_bytes 0 (Z.to_nat count * sizeof_diagid_guid) ids);
  put_header (data_ptr + 4) src;;
  put_header 0 (le_bytes 4 header_length).

(** ** Names *)

Definition hex_digit (d : Z) : Z := if d <? 10 then 48 + d else 87 + d.
Fixpoint hex_pad (n : nat) (v : Z) : list Z :=      (* "%0<n>x" *)
  match n with
  | O => []
  | S n' => hex_pad n' (v / 16) ++ [hex_digit (v mod 16)]
  end.

(** "%08x-%04x-%04x-%02x%02x-%02x%02x%02x%02x%02x%02x.qdb" *)
Definition guid_file_name (g : list Z) : list Z :=
  hex_pad 8 (get_le 0 4 g) ++ str "-" ++ hex_pad 4 (get_le 4 2 g) ++ str "-" ++
  hex_pad 4 (get_le 6 2 g) ++ str "-" ++
  concat (map (hex_pad 2) (slice 8 2 g)) ++ str "-" ++
  concat (map (hex_pad 2) (slice 10 6 g)) ++ str ".qdb".

Definition diag_qsr4_get_cmd_code_for_peripheral (peripheral : Z) : Z :=
  if peripheral =? DIAG_MODEM_PROC then DIAGDIAG_QSR4_FILE_OP_MODEM else -1.

Definition diag_query_pd_name (process_name search_str : list Z) : bool :=
  strstr process_name search_str.

Definition diag_query_pd (process_name : list Z) : Z :=
  if diag_query_pd_name process_name (str "APPS") then DIAG_APPS_PROC
  else if diag_query_pd_name process_name (str "Apps") then DIAG_APPS_PROC
  else if diag_query_pd_name process_name (str "modem/root_pd") then DIAG_MODEM_PROC
  else - EINVAL.

(** The entry of the diag-id table for a peripheral's root process: its index. *)
Fixpoint get_diag_id_from (n i : nat) (peripheral : Z) (table : list Z)
    : option (option nat) :=
  match n with
  | O => Some None
  | S n' =>
      per ← rd (32 * i + 1) 1 table;
      if peripheral =? per then
        name ← c_string (32 * i + 2) table;
        if diag_query_pd_name name (str "root") then Some (Some i)
        else get_diag_id_from n' (S i) peripheral table
      else get_diag_id_from n' (S i) peripheral table
  end.

Definition get_diag_id (peripheral : Z) : Q (option nat) :=
  n ← gets diag_id_count;
  table ← gets diag_id_table;
  of_option (get_diag_id_from n 0 peripheral table).

(** ** Responses *)

(** The diag id and the process name of entry [item] go into slot [n]. *)
Definition store_diagid (n : nat) (item : option nat) : Q unit :=
  match item with
  | Some i =>
      table ← gets diag_id_table;
      id ← of_option (rd_bytes (32 * i) 1 table);
      put_diagid (sizeof_diagid_guid * n) id;;
      name ← of_option (strncpy_from 30 (32 * i + 2) table);
      put_diagid (sizeof_diagid_guid * n + 1) name
  | None => mret tt
  end.

(** A file of the list goes into the header unless its 16 slots are taken. *)
Definition insert_diag_qsr4_db_guid_to_list (guid : list Z) (file_len peripheral : Z) : Q unit :=
  count ← gets entry_count;
  if Z.of_nat MAX_GUID_ENTRIES <=? count then mret tt
  else
    let n := Z.to_nat count in
    put_header (OFF_GUID + GUID_LEN * n) guid;;
    put_header (OFF_FILE_LEN + 4 * n) (le_bytes 4 file_len);;
    item ← get_diag_id peripheral;
    store_diagid n item;;
    put_diagid (sizeof_diagid_guid * n + 31) guid;;
    put_header OFF_COUNT (le_bytes 4 (count + 1)).

Definition process_qsr4_db_file_list_response (buf : list Z) : Q unit :=
  status ← of_option (rd 16 1 buf);
  if status =? 0 then
    num_files ← of_option (rd 17 1 buf);
    forM (seq 0 (Z.to_nat num_files)) (fun i =>
      file_len ← of_option (rd (18 + 20 * i + 16) 4 buf);
      if negb (file_len =? 0) then
        guid ← of_option (rd_bytes (18 + 20 * i) 16 buf);
        per ← gets cur_peripheral;
        insert_diag_qsr4_db_guid_to_list guid file_len per
      else mret tt)
  else mret tt.

Definition process_qsr_db_file_open_rsp (buf : list Z) : Q unit :=
  status ← of_option (rd 34 1 buf);
  if status =? 0 then
    fd ← of_option (rd 32 2 buf);
    upd read_file_fd fd
  else mret tt.

Definition process_qsr_db_file_close_rsp (buf : list Z) : Q unit :=
  status ← of_option (rd 18 1 buf);
  if status =? 0 then
    fd ← of_option (rd 16 2 buf);
    cur ← gets read_file_fd;
    if cur =? fd then upd read_file_fd (-1) else mret tt
  else mret tt.

Definition process_qsr_db_file_read_delayed_rsp (buf : list Z) : Q unit :=
  status ← of_option (rd 26 1 buf);
  if status =? 0 then
    num_read ← of_option (rd 22 4 buf);
    if negb (num_read =? 0) then
      disk ← gets disk_file_fd;
      (if negb (disk =? -1) then
         data ← of_option (rd_bytes 27 (Z.to_nat num_read) buf);
         call (LogfileSave disk data);; mret tt
       else mret tt);;
      upd read_file_len num_read
    else
      ps ← gets parser_state;
      if ps =? DB_PARSER_STATE_READ then upd skip_wakeup 1 else mret tt
  else mret tt.

(** [entry] is the offset of the entry in the response. *)
Definition insert_diag_id_entry (buf : list Z) (entry : nat) : Q unit :=
  n ← gets diag_id_count;
  if bool_decide (NUM_PROC <= n)%nat then mret tt
  else
    upd diag_id_count (S n);;
    id ← of_option (rd_bytes entry 1 buf);
    put_table (32 * n) id;;
    name ← of_option (strncpy_from 30 (entry + 2) buf);
    put_table (32 * n + 2) name;;
    table ← gets diag_id_table;
    stored ← of_option (c_string (32 * n + 2) table);
    put_table (32 * n + 1) [u8 (diag_query_pd stored)].

Fixpoint insert_entries (n entry : nat) (buf : list Z) : Q unit :=
  match n with
  | O => mret tt
  | S n' =>
      insert_diag_id_entry buf entry;;
      l ← of_option (rd (entry + 1) 1 buf);
      insert_entries n' (entry + Z.to_nat l + 2) buf
  end.

Definition process_diag_id_response (buf : list Z) : Q unit :=
  cmd ← of_option (rd 0 1 buf);
  if negb (cmd =? DIAG_SUBSYS_CMD_F) then mret tt else
  version ← of_option (rd 4 1 buf);
  if negb (version =? 1) then mret tt else
  num ← of_option (rd 5 1 buf);
  insert_entries (Z.to_nat num) 6 buf.

(** The modem's rejection of a command of subsystem [sub] sent as [code]. *)
Definition is_bad (code sub b0 b1 b2 : Z) : bool :=
  ((b0 =? DIAG_BAD_CMD_F) || (b0 =? DIAG_BAD_PARM_F) || (b0 =? DIAG_BAD_LEN_F)) &&
  (b1 =? code) && (b2 =? sub).

(** *** qdss1.c: responses *)

Definition DIAG_HW_ACCEL_CMD : Z := 0x224.
Definition DIAG_HW_ACCEL_TYPE_STM : nat := 1.
Definition DIAG_HW_ACCEL_TYPE_MAX : nat := 2.
Definition DIAG_QDSS_TRACE_SINK : Z := 0x101.
Definition DIAG_QDSS_FILTER_STM : Z := 0x103.

(** [hw_accel_support\[peripheral_type\]\[i\]]: the table has one row. *)
Definition process_diag_hw_accel_query_rsp (peripheral_type : nat) (buf : list Z) : Q Z :=
  b0 ← of_option (rd 0 1 buf);
  if b0 =? DIAG_BAD_CMD_F then mret 0
  else
    version ← of_option (rd 4 1 buf);
    code ← of_option (rd 2 2 buf);
    if negb (version =? 1) || negb (code =? DIAG_HW_ACCEL_CMD) then mret 0
    else
      forM (seq DIAG_HW_ACCEL_TYPE_STM DIAG_HW_ACCEL_TYPE_MAX) (fun i =>
        supported ← of_option (rd (11 + 10 * (i - 1) + 2) 4 buf);
        t ← gets hw_accel_support;
        t' ← of_option (write1 (3 * peripheral_type + i) (Z.land 0x7fffffff supported) t);
        upd hw_accel_support t');;
      mret 0.

Definition diag_qdss_handle_response (buf : list Z) : Q Z :=
  cmd ← of_option (rd 0 1 buf);
  sub ← of_option (rd 1 1 buf);
  code ← of_option (rd 2 2 buf);
  (if (cmd =? DIAG_BAD_CMD_F) || (cmd =? DIAG_BAD_PARM_F) then
     q ← gets hw_accel_query_state;
     if negb (q =? 1) then upd peripheral_init 0 else mret tt
   else mret tt);;
  (if (cmd =? DIAG_SUBSYS_CMD_F) && ((sub =? DIAG_SUBSYS_QDSS) || (sub =? DIAG_SUBSYS_DIAG_SERV)) then
     if (code =? DIAG_QDSS_TRACE_SINK) || (code =? DIAG_QDSS_FILTER_STM) then mret tt
     else if code =? DIAG_HW_ACCEL_CMD then
       q ← gets hw_accel_query_state;
       if q =? 1 then process_diag_hw_accel_query_rsp 0 buf;; mret tt else mret tt
     else mret tt
   else mret tt);;
  mret 0.

Definition diag_dpl_handle_response (buf : list Z) : Q Z :=
  cmd ← of_option (rd 0 1 buf);
  sub ← of_option (rd 1 1 buf);
  (if (cmd =? DIAG_SUBSYS_CMD_F) && (sub =? DIAG_SUBSYS_DS_IPA) then
     dpl_cmd ← of_option (rd 5 1 buf);
     if dpl_cmd =? 1 then
       v ← of_option (rd 4 1 buf);
       upd dpl_version v
     else mret tt
   else mret tt);;
  mret 0.

(** ** Dispatch *)

(** Responses are dispatched by what the sender is waiting for. *)
Definition mdm_handle_data_for_command_rsp (buf : list Z) : Q unit :=
  s ← get;
  b0 ← of_option (rd 0 1 buf);
  b1 ← of_option (rd 1 1 buf);
  b2 ← of_option (rd 2 1 buf);
  if negb (diag_id_state s =? 0) then
    if is_bad DIAG_SUBSYS_CMD_F DIAG_SUBSYS_DIAG_SERV b0 b1 b2 then mret tt
    else
      code ← of_option (rd 2 2 buf);
      if (b0 =? DIAG_SUBSYS_CMD_F) && (b1 =? DIAG_SUBSYS_DIAG_SERV) &&
         (code =? DIAG_GET_DIAG_ID)
      then process_diag_id_response buf else mret tt
  else if negb (diag_disable_qtrace_state s =? 0) then
    if is_bad DIAG_SUBSYS_CMD_F DIAG_SUBSYS_LTE b0 b1 b2
    then upd diag_disable_qtrace_rsp 0 else upd diag_disable_qtrace_rsp 1
  else if negb (parser_state s =? 0) then
    if is_bad DIAG_SUBSYS_CMD_VER_2_F DIAG_SUBSYS_DIAG_SERV b0 b1 b2 then mret tt
    else
      code ← of_option (rd 2 2 buf);
      if (b0 =? DIAG_SUBSYS_CMD_VER_2_F) && (b1 =? DIAG_SUBSYS_DIAG_SERV) &&
         (code =? DIAGDIAG_QSR4_FILE_OP_MODEM) then
        opcode ← of_option (rd 14 2 buf);
        version ← of_option (rd 12 2 buf);
        if negb (version =? 1) then mret tt
        else if opcode =? DIAGDIAG_FILE_LIST_OPERATION then
          process_qsr4_db_file_list_response buf
        else if opcode =? DIAGDIAG_FILE_OPEN_OPERATION then process_qsr_db_file_open_rsp buf
        else if opcode =? DIAGDIAG_FILE_CLOSE_OPERATION then process_qsr_db_file_close_rsp buf
        else if opcode =? DIAGDIAG_FILE_READ_OPERATION then
          process_qsr_db_file_read_delayed_rsp buf
        else mret tt
      else mret tt
  else if negb (qdss_state s =? 0) then diag_qdss_handle_response buf;; mret tt
  else if negb (dpl_state s =? 0) then diag_dpl_handle_response buf;; mret tt
  else mret tt.

(** A packet answers the pending request when it echoes its first byte, bare
    or behind an error code. *)
Definition answers (req b0 b1 : Z) : bool :=
  (b0 =? req) || ((b0 =? DIAG_BAD_PARM_F) && (b1 =? req)) ||
  ((b0 =? DIAG_BAD_CMD_F) && (b1 =? req)).

(** [pkt]: the receive buffer of the deframer. *)
Definition mdm_handle_diag_pkt_func (pkt : list Z) : Q unit :=
  req ← gets g_mdm_req;
  if negb (req =? -1) then
    b0 ← of_option (rd 0 1 pkt);
    b1 ← of_option (rd 1 1 pkt);
    if answers req b0 b1 then
      mdm_handle_data_for_command_rsp pkt;;
      ps ← gets parser_state;
      sk ← gets skip_wakeup;
      if (ps =? DB_PARSER_STATE_READ) && negb (sk =? 0) then upd skip_wakeup 0
      else call CondSignal
    else mret tt
  else mret tt.

(** The deframer calls the handler synchronously; the handler does not touch
    the packet buffer, so its calls can be replayed in order afterwards. *)
Definition mdm_parse_data_for_command_rsp (src : list Z) : Q unit :=
  p ← gets mdm_diag_pkt;
  match p with
  | None => mret tt
  | Some p =>
      '(p', pkts) ← of_option (diag_pkt_input (fun t pkt => t ++ [buf pkt]) p src []);
      upd mdm_diag_pkt (Some p');;
      forM pkts mdm_handle_diag_pkt_func
  end.

(** The reader thread's part of mdm_logfile_save. *)
Definition reader_chunk (buf : list Z) : Q unit :=
  req ← gets g_mdm_req;
  if negb (req =? -1) then mdm_parse_data_for_command_rsp buf else mret tt.

(** [diag_cond_timeout]: the sender sleeps, the reader works. *)
Definition diag_cond_timeout (msecs : Z) : Q Z :=
  '(chunks, ret) ← call (CondWait msecs);
  forM chunks reader_chunk;;
  mret ret.

(** ** The command channel (src/mdm.c) *)

(** [buf\[i\]] for a pointer into an array: [Undef] outside it. *)
Definition at_ (i : Z) (buf : list Z) : Q Z :=
  if 0 <=? i then of_option (buf !! Z.to_nat i) else undef.

(** [while (buf\[flag\] != 0x7E && flag < size) flag++;] *)
Definition find_flag (size : Z) (buf : list Z) (flag : Z) : Q Z :=
  iterM (S (length buf)) (fun flag =>
    b ← at_ flag buf;
    if negb (b =? 0x7e) && (flag <? size) then mret (inl (flag + 1))
    else mret (inr flag)) flag.

(** [is_nonhdlc_command]: 0x7E 0x01, a length, and 0x7E where it ends. *)
Definition nonhdlc_command (buf : list Z) (size wc len : Z) : Q bool :=
  c0 ← at_ wc buf;
  c1 ← at_ (wc + 1) buf;
  if (c0 =? 0x7e) && (c1 =? 0x01) && (wc + len <=? size) then
    e ← at_ (wc + len - 1) buf; mret (e =? 0x7e)
  else mret false.

(** Where the command that starts at [wc] ends: a 0x7E 0x01 frame by its
    length field, any other at the next 0x7E. *)
Definition command_end (buf : list Z) (size wc : Z) : Q Z :=
  c2 ← at_ (wc + 2) buf;
  c3 ← at_ (wc + 3) buf;
  let len := u16 (c2 + u16 (Z.shiftl c3 8) + 5) in
  nonhdlc ← nonhdlc_command buf size wc len;
  if (nonhdlc : bool) then mret (wc + (len - 1))
  else
    b ← at_ wc buf;
    find_flag size buf (if (wc =? 0) && (b =? 0x7e) then wc + 1 else wc).

Definition send_one (fd : Z) (buf : list Z) (size : Z) (sync : bool) (wc retry : Z) : Q (Z * Z) :=
  flag ← command_end buf size wc;
  b ← at_ flag buf;
  retry' ←
    (if (b =? 0x7e) || (flag =? size) then
       (if sync then r ← at_ wc buf; upd g_mdm_req r else mret tt);;
       out ← of_option (rd_bytes (Z.to_nat wc) (Z.to_nat (flag - wc + 1)) buf);
       call (PollWrite fd out 1000);;
       if sync then
         ret ← diag_cond_timeout 5000;
         upd g_mdm_req (-1);;
         mret (if negb (ret =? 0) then u16 (retry + 1) else retry)
       else mret retry
     else mret retry : Q Z);
  mret (flag + 1, retry').

(** [buf] is the memory the pointer refers to, [size <= length buf]. *)
Definition mdm_send_cmd (fd : Z) (buf : list Z) (size : Z) (sync : bool) : Q Z :=
  iterM (S (length buf)) (fun '(wc, retry) =>
    if wc <? size then
      quit ← call ExitRequested;
      if quit =? 1 then mret (inr tt)
      else if 3 <? retry then mret (inr tt)
      else next ← send_one fd buf size sync wc retry; mret (inl next)
    else mret (inr tt)) (0, 0);;
  mret size.

(** ** Requests *)

(** The three request buffers of the senders. *)
Inductive req_buf := QsrBuf | QdssBuf | DplBuf.

Definition buf_of (r : req_buf) (s : st) : list Z :=
  match r with
  | QsrBuf => qsr4_db_cmd_req_buf s
  | QdssBuf => qdss_cmd_req_buf s
  | DplBuf => dpl_cmd_req_buf s
  end.
Definition set_buf (r : req_buf) (b : list Z) (s : st) : st :=
  match r with
  | QsrBuf => s <| qsr4_db_cmd_req_buf := b |>
  | QdssBuf => s <| qdss_cmd_req_buf := b |>
  | DplBuf => s <| dpl_cmd_req_buf := b |>
  end.

(** [diag_send_data(buf, bytes)]: the escaped command goes to the modem if the
    port is open. *)
Definition diag_send_data (r : req_buf) (bytes : nat) : Q Z :=
  s ← get;
  let src := match r with QsrBuf => None | _ => Some (buf_of r s) end in
  '(b, dst) ← of_option (diag_escape src (qsr4_db_cmd_req_buf s) bytes);
  upd qsr4_db_cmd_req_buf b;;
  if negb (dm_fd s =? -1) then
    quit ← call ExitRequested;
    if negb (quit =? 0) then
      '(rc, _) ← call (PollWrite (dm_fd s) dst 1000); mret rc
    else
      (* [dst] points into the request buffer: what follows it is readable *)
      mdm_send_cmd (dm_fd s) (drop bytes b) (len dst) true
  else mret 0.

(** Bytes of a request are composed in a request buffer; [n] of them get their
    checksum and go out. *)
Definition fill (r : req_buf) (off : nat) (v : list Z) : Q unit :=
  store_at (buf_of r) (set_buf r) off v.

Definition send_filled (r : req_buf) (n : nat) : Q unit :=
  b ← gets (buf_of r);
  '(b', n') ← of_option (diag_qsr4_append_crc16 b n);
  modify (set_buf r b');;
  diag_send_data r n';;
  mret tt.

Definition send_request (r : req_buf) (cmd : list Z) : Q unit :=
  fill r 0 cmd;;
  send_filled r (length cmd).

(** diag_qsr_header_req *)
Definition qsr_header (code opcode : Z) : list Z :=
  [DIAG_SUBSYS_CMD_VER_2_F; DIAG_SUBSYS_DIAG_SERV] ++ le_bytes 2 code ++
  le_bytes 2 1 ++ le_bytes 2 opcode.

Definition diag_send_qsr4_db_file_list_cmd_req (peripheral : Z) : Q Z :=
  let code := diag_qsr4_get_cmd_code_for_peripheral peripheral in
  if code =? -1 then mret 0
  else
    upd cur_peripheral (u8 peripheral);;
    (* the request is composed before parser_state is set; both before it is sent *)
    upd parser_state DB_PARSER_STATE_OPEN;;
    send_request QsrBuf (qsr_header code DIAGDIAG_FILE_LIST_OPERATION);;
    upd parser_state 0;;
    mret 0.

Definition diag_send_qsr4_file_open_cmd_req (idx : nat) : Q Z :=
  per ← gets cur_peripheral;
  guid ← gets (guid_of idx);
  upd read_file_total_len 0;;
  upd read_file_fd (-1);;
  upd parser_state DB_PARSER_STATE_OPEN;;
  send_request QsrBuf
    (qsr_header (diag_qsr4_get_cmd_code_for_peripheral per) DIAGDIAG_FILE_OPEN_OPERATION ++ guid);;
  upd parser_state 0;;
  fd ← gets read_file_fd;
  (if negb (fd =? -1) then
     total ← gets (guid_file_len idx);
     upd read_file_total_len total;;
     guid' ← gets (guid_of idx);
     disk ← call (CreateFileInLogdir (guid_file_name guid'));
     upd disk_file_fd disk
   else mret tt);;
  mret 0.

Definition diag_send_qsr4_file_close_send_req (idx : nat) : Q Z :=
  fd ← gets read_file_fd;
  if fd =? -1 then mret 0
  else
    disk ← gets disk_file_fd;
    (if negb (disk =? -1) then
       call (LogfileCloseQdb disk);; upd disk_file_fd (-1)
     else mret tt);;
    upd parser_state DB_PARSER_STATE_CLOSE;;
    send_request QsrBuf
      (qsr_header DIAGDIAG_QSR4_FILE_OP_MODEM DIAGDIAG_FILE_CLOSE_OPERATION ++
       le_bytes 2 fd);;
    upd parser_state 0;;
    upd read_file_fd (-1);;
    mret 0.

(** The part of the file a read asks for: [None] when there is nothing to ask. *)
Definition read_window (fd total file_offset file_len : Z) : option (Z * Z) :=
  if fd =? -1 then None
  else if total <=? file_offset then None
  else if total <? u32 (file_offset + file_len)
  then Some (file_offset, s32 (total - file_offset))
  else Some (file_offset, file_len).

Definition read_request (per fd file_offset file_len : Z) : list Z :=
  qsr_header (diag_qsr4_get_cmd_code_for_peripheral per) DIAGDIAG_FILE_READ_OPERATION ++
  le_bytes 2 fd ++ le_bytes 4 file_len ++ le_bytes 4 file_offset.

Definition diag_send_qsr4_file_read_cmd_req (file_offset file_len : Z) : Q Z :=
  s ← get;
  match read_window (read_file_fd s) (read_file_total_len s) file_offset file_len with
  | None => mret 0
  | Some (off, n) =>
      upd read_file_len 0;;
      upd parser_state DB_PARSER_STATE_READ;;
      upd skip_wakeup 0;;
      send_request QsrBuf (read_request (cur_peripheral s) (read_file_fd s) off n);;
      upd parser_state 0;;
      upd skip_wakeup 0;;
      gets read_file_len
  end.

Definition diag_query_diag_id : Q Z :=
  upd diag_id_state 1;;
  send_request QsrBuf
    ([DIAG_SUBSYS_CMD_F; DIAG_SUBSYS_DIAG_SERV] ++ le_bytes 2 DIAG_GET_DIAG_ID ++ [1]);;
  upd diag_id_state 0;;
  mret 0.

Definition cmd_disable_log_mask : list Z := [0x73; 0; 0; 0; 0; 0; 0; 0].
Definition cmd_disable_msg_mask : list Z := [0x7D; 0x05; 0; 0; 0; 0; 0; 0].
Definition cmd_disable_event_mask : list Z := [0x60; 0].
Definition cmd_disable_qtrace_mask : list Z :=
  [0x4B; 0x44; 0x01; 0x90; 0x03; 0; 0; 0; 0x01; 0; 0; 0; 0; 0; 0; 0; 0; 0; 0; 0].

(** [while (retry-- && qlog_exit_requested == 0)] *)
Definition mdm_send_empty_mask : Q unit :=
  send_request QsrBuf cmd_disable_log_mask;;
  send_request QsrBuf cmd_disable_msg_mask;;
  send_request QsrBuf cmd_disable_event_mask;;
  upd diag_disable_qtrace_state 1;;
  upd diag_disable_qtrace_rsp 0;;
  iterM 122 (fun retry =>
    if retry =? 0 then mret (inr tt)
    else
      quit ← call ExitRequested;
      if negb (quit =? 0) then mret (inr tt)
      else
        send_request QsrBuf cmd_disable_qtrace_mask;;
        rsp ← gets diag_disable_qtrace_rsp;
        if negb (rsp =? 0) then mret (inr tt)
        else call (Usleep 500000);; mret (inl (retry - 1))) 120;;
  upd diag_disable_qtrace_state 0.

(** ** The download *)

(** The [do ... while (read_len == 4000)] loop: [total_len] is unsigned. *)
Definition read_whole_file (fuel : nat) : Q Z :=
  iterM fuel (fun total_len =>
    read_len ← diag_send_qsr4_file_read_cmd_req total_len MAX_QSR4_DB_FILE_READ_PER_RSP;
    let total_len' := u32 (total_len + s32 read_len) in
    if s32 read_len =? MAX_QSR4_DB_FILE_READ_PER_RSP then mret (inl total_len')
    else mret (inr total_len')) 0.

Definition download_one (fuel : nat) (i : nat) : Q unit :=
  guid ← gets (guid_of i);
  have ← call (FilesizeInLogdir (guid_file_name guid));
  want ← gets (guid_file_len i);
  if have =? want then mret tt
  else
    done ← gets ftp_qdb_file_len;
    if negb (done =? 0) then mret tt
    else
      ignore ← gets g_ignore_capture_qdb_file;
      if negb (ignore =? 0) then mret tt
      else
        diag_send_qsr4_file_open_cmd_req i;;
        read_whole_file fuel;;
        diag_send_qsr4_file_close_send_req i;;
        n ← gets (guid_file_len i);
        upd ftp_qdb_file_len n.

(** The loops test their bound, which the calls may move, at every turn; the
    index is a [uint8_t]. *)
Definition for_u8 (fuel : nat) (bound : st -> Z) (body : nat -> Q unit) : Q unit :=
  iterM fuel (fun i =>
    b ← gets bound;
    if i <? b then body (Z.to_nat i);; mret (inl (u8 (i + 1))) else mret (inr tt)) 0.

Definition mdm_create_qshrink4_file (fuel : nat) (fd : Z) : Q unit :=
  init ← gets qshrink4_init;
  if negb (init =? 0) then mret tt
  else
    upd qshrink4_init 1;;
    v2 ← gets use_qmdl2_v2;
    ids ← gets diag_id_count;
    if negb (v2 =? 0) && (ids =? 0)%nat then
      upd dm_fd fd;;
      mdm_send_empty_mask;;
      diag_query_diag_id;;
      for_u8 fuel (fun s => Z.of_nat (diag_id_count s)) (fun i =>
        table ← gets diag_id_table;
        per ← of_option (rd (32 * i + 1) 1 table);
        diag_send_qsr4_db_file_list_cmd_req per;; mret tt);;
      for_u8 fuel entry_count (download_one fuel);;
      mdm_add_qshrink4_header
    else mret tt.

Definition mdm_reset_global_variables : Q unit :=
  upd diag_id_count O;;
  upd qshrink4_init 0;;
  fd ← gets dm_fd;
  if negb (fd =? -1) then call (CloseFd fd);; upd dm_fd (-1) else mret tt.
