(* ===== verification/Mdm.v ===== *)
(** The rest of the MDM client: the QDSS and DPL requests (src/qdss1.c) and
    the log operations of src/mdm.c (init_filter, clean_filter, logfile_init,
    logfile_save), over the state and the command channel of Qshrink. *)

From S2P Require Import Prelude DiagPkt Crc Qsys Qshrink.

(** ** Requests of qdss1.c *)

Definition SINK_USB : Z := 3.
Definition SINK_PCIE : Z := 8.
Definition DIAG_DIAG_STM : Z := 0x214.
Definition DIAG_DIAG_HW_ACCEL_CMD : Z := 0x224.
Definition DIAG_DIAG_FEATURE_QUERY : Z := 0x225.
Definition DIAG_QDSS_FILTER_SWTRACE : Z := 0x06.
Definition DIAG_QDSS_FILTER_ENTITY : Z := 0x08.
Definition DIAG_QDSS_PROCESSOR_APPS : Z := 0x0100.
Definition DIAG_QDSS_PROCESSOR_MODEM : Z := 0x0200.
Definition DIAG_STM_MODEM : Z := 0x01.
Definition DIAG_STM_APPS : Z := 0x08.
Definition ADPL_SUBSYS_CMD_CODE : Z := 16384.
Definition DIAG_HW_ACCEL_OP_QUERY : Z := 2.
Definition DIAG_HW_ACCEL_TYPE_ALL : Z := 0.
Definition DIAG_HW_ACCEL_TYPE_ATB : nat := 2.

Definition subsys_header (sub code : Z) : list Z :=
  [DIAG_SUBSYS_CMD_F; sub] ++ le_bytes 2 code.

Definition diag_set_etr_out_mode (sink : Z) : Q Z :=
  send_request QdssBuf (subsys_header DIAG_SUBSYS_QDSS DIAG_QDSS_TRACE_SINK ++ [sink]);;
  mret 0.

Definition diag_send_enable_qdss_req (state : Z) : Q Z :=
  send_request QdssBuf (subsys_header DIAG_SUBSYS_QDSS DIAG_QDSS_FILTER_STM ++ [state]);;
  mret 0.

Definition diag_send_enable_dpl_req (enable : Z) : Q Z :=
  send_request DplBuf
    (subsys_header DIAG_SUBSYS_DS_IPA ADPL_SUBSYS_CMD_CODE ++ [0xFF; 0x00] ++
     le_bytes 2 15360 ++ [if negb (enable =? 0) then 0x01 else 0x00] ++ [0; 0; 0]);;
  mret 0.

(** The fields before the switch are stored in every case. *)
Definition diag_set_diag_transport (peripheral stm_cmd : Z) : Q Z :=
  fill QdssBuf 0 (subsys_header DIAG_SUBSYS_DIAG_SERV DIAG_DIAG_STM ++ [2]);;
  let send mask :=
    fill QdssBuf 5 [mask];; fill QdssBuf 6 [stm_cmd];; send_filled QdssBuf 7;; mret 0 in
  if peripheral =? DIAG_MODEM_PROC then send DIAG_STM_MODEM
  else if peripheral =? DIAG_APPS_PROC then send DIAG_STM_APPS
  else mret 0.

Definition processor_offset (peripheral : Z) : option Z :=
  if peripheral =? DIAG_APPS_PROC then Some DIAG_QDSS_PROCESSOR_APPS
  else if peripheral =? DIAG_MODEM_PROC then Some DIAG_QDSS_PROCESSOR_MODEM
  else None.

Definition diag_set_diag_qdss_diag_tracer (peripheral state : Z) : Q Z :=
  fill QdssBuf 0 (subsys_header DIAG_SUBSYS_QDSS DIAG_QDSS_FILTER_SWTRACE ++ [state]);;
  match processor_offset peripheral with
  | Some o =>
      fill QdssBuf 2 (le_bytes 2 (DIAG_QDSS_FILTER_SWTRACE + o));;
      send_filled QdssBuf 5;; mret 0
  | None => mret 0
  end.

Definition diag_set_diag_qdss_tracer (peripheral state : Z) : Q Z :=
  fill QdssBuf 0 (subsys_header DIAG_SUBSYS_QDSS DIAG_QDSS_FILTER_ENTITY ++ [state; 0x0D]);;
  match processor_offset peripheral with
  | Some o =>
      fill QdssBuf 2 (le_bytes 2 (DIAG_QDSS_FILTER_ENTITY + o));;
      send_filled QdssBuf 6;; mret 0
  | None => mret 0
  end.

Definition diag_qdss_query_hw_accel : Q Z :=
  send_request QdssBuf
    (subsys_header DIAG_SUBSYS_DIAG_SERV DIAG_HW_ACCEL_CMD ++
     [1; DIAG_HW_ACCEL_OP_QUERY] ++ le_bytes 2 0 ++ [DIAG_HW_ACCEL_TYPE_ALL; 0]);;
  mret 0.

(** The argument [state] is not used; the reserved field keeps what the buffer
    held. *)
Definition diag_send_enable_hw_accel_req (state : Z) : Q Z :=
  fill QdssBuf 0 (subsys_header DIAG_SUBSYS_DIAG_SERV DIAG_DIAG_HW_ACCEL_CMD ++ [1; 1]);;
  fill QdssBuf 8 ([2; 1] ++ le_bytes 4 2);;
  send_filled QdssBuf 14;;
  mret 0.

Definition diag_qdss_query_feature_mask : Q Z :=
  send_request QdssBuf (subsys_header DIAG_SUBSYS_DIAG_SERV DIAG_DIAG_FEATURE_QUERY ++ [1]);;
  mret 0.

(** [hw_accel_support\[0\]\[ATB\] || hw_accel_support\[0\]\[STM\]] *)
Definition hw_accel_supported (s : st) : bool :=
  match hw_accel_support s with
  | [_; stm; atb] => negb (atb =? 0) || negb (stm =? 0)
  | _ => false
  end.

(** Both callers pass [peripheral_type] 0. *)
Definition diag_send_cmds_to_peripheral_init : Q Z :=
  pcie ← gets modem_is_pcie;
  let sink := if negb (pcie =? 0) then SINK_PCIE else SINK_USB in
  let peripheral := DIAG_MODEM_PROC in
  iterM 11 (fun retry =>
    if retry <? 10 then
      upd peripheral_init 1;;
      diag_qdss_query_feature_mask;;
      diag_set_etr_out_mode sink;;
      upd hw_accel_query_state 1;;
      diag_qdss_query_hw_accel;;
      call (Sleep 2);;
      upd hw_accel_query_state 0;;
      hw ← gets hw_accel_supported;
      if (hw : bool) then diag_send_enable_hw_accel_req 1;; mret (inr 0)
      else
        diag_send_enable_qdss_req 1;;
        diag_set_diag_qdss_tracer peripheral 1;;
        diag_set_diag_qdss_diag_tracer peripheral 1;;
        diag_set_diag_transport peripheral 1;;
        call (Sleep 1);;
        pi ← gets peripheral_init;
        if pi =? 1 then mret (inr 0) else mret (inl (retry + 1))
    else mret (inr 0)) 0.

Definition diag_send_cmds_to_peripheral_kill : Q Z :=
  let peripheral := DIAG_MODEM_PROC in
  hw ← gets hw_accel_supported;
  if (hw : bool) then diag_send_enable_hw_accel_req 0;; mret 0
  else
    diag_set_diag_transport peripheral 0;;
    diag_set_diag_qdss_diag_tracer peripheral 0;;
    diag_set_diag_qdss_tracer peripheral 0;;
    diag_send_enable_qdss_req 0;;
    call (Sleep 1);;
    mret 0.

(** ** mdm.c *)

(** The default configuration: the commands that set the log masks. *)
Definition qlog_mdm_default_cfg : list Z :=
  [
   29; 28; 59; 126; 0; 120; 240; 126; 75; 50; 6; 0; 186; 77; 126; 124; 147; 73; 126; 28; 149; 42; 126; 12;
   20; 58; 126; 99; 229; 161; 126; 75; 15; 0; 0; 187; 96; 126; 75; 9; 0; 0; 98; 182; 126; 75; 8; 0;
   0; 190; 236; 126; 75; 8; 1; 0; 102; 245; 126; 75; 4; 0; 0; 29; 73; 126; 75; 4; 15; 0; 213; 202;
   126; 75; 15; 24; 0; 1; 158; 169; 126; 75; 15; 24; 0; 2; 5; 155; 126; 75; 15; 44; 0; 40; 234; 126;
   75; 18; 57; 0; 235; 123; 126; 75; 18; 60; 0; 83; 5; 126; 75; 18; 55; 0; 251; 225; 126; 75; 18; 59;
   0; 91; 72; 126; 75; 18; 53; 0; 75; 210; 126; 75; 18; 58; 0; 131; 81; 126; 75; 18; 0; 8; 25; 150;
   126; 125; 93; 5; 0; 0; 0; 0; 0; 0; 116; 65; 126; 125; 93; 4; 0; 0; 2; 0; 0; 0; 30; 0;
   0; 0; 28; 0; 0; 0; 30; 0; 0; 0; 76; 6; 126; 125; 93; 4; 5; 0; 5; 0; 0; 0; 31; 0;
   0; 0; 206; 167; 126; 125; 93; 4; 7; 0; 8; 0; 0; 0; 30; 0; 0; 0; 30; 0; 0; 0; 208; 113;
   126; 125; 93; 4; 11; 0; 12; 0; 0; 0; 30; 0; 0; 0; 30; 0; 0; 0; 124; 104; 126; 125; 93; 4;
   14; 0; 18; 0; 0; 0; 255; 1; 0; 0; 30; 0; 0; 0; 30; 0; 0; 0; 30; 0; 0; 0; 30; 0;
   0; 0; 181; 58; 126; 125; 93; 4; 20; 0; 21; 0; 0; 0; 30; 0; 0; 0; 30; 0; 0; 0; 46; 187;
   126; 125; 93; 4; 25; 0; 25; 0; 0; 0; 30; 0; 0; 0; 136; 208; 126; 125; 93; 4; 32; 0; 32; 0;
   0; 0; 30; 0; 0; 0; 234; 170; 126; 125; 93; 4; 39; 0; 40; 0; 0; 0; 30; 0; 0; 0; 254; 1;
   0; 0; 137; 17; 126; 125; 93; 4; 42; 0; 43; 0; 0; 0; 30; 0; 0; 0; 30; 0; 0; 0; 1; 26;
   126; 125; 93; 4; 51; 0; 51; 0; 0; 0; 31; 0; 0; 0; 194; 193; 126; 125; 93; 4; 54; 0; 54; 0;
   0; 0; 30; 0; 0; 0; 163; 214; 126; 125; 93; 4; 57; 0; 58; 0; 0; 0; 30; 0; 0; 0; 30; 0;
   0; 0; 101; 223; 126; 125; 93; 4; 63; 0; 65; 0; 0; 0; 31; 0; 0; 0; 254; 255; 31; 0; 31; 0;
   0; 0; 201; 103; 126; 125; 93; 4; 68; 0; 69; 0; 0; 0; 30; 0; 0; 0; 30; 0; 0; 0; 46; 108;
   126; 125; 93; 4; 72; 0; 74; 0; 0; 0; 31; 0; 0; 0; 31; 0; 0; 0; 30; 0; 0; 0; 79; 242;
   126; 125; 93; 4; 76; 0; 76; 0; 0; 0; 30; 0; 0; 0; 242; 102; 126; 125; 93; 4; 78; 0; 78; 0;
   0; 0; 7; 0; 0; 0; 17; 15; 126; 125; 93; 4; 88; 0; 88; 0; 0; 0; 30; 0; 0; 0; 154; 73;
   126; 125; 93; 4; 90; 0; 91; 0; 0; 0; 30; 0; 0; 0; 30; 0; 0; 0; 14; 67; 126; 125; 93; 4;
   99; 0; 99; 0; 0; 0; 30; 0; 0; 0; 217; 96; 126; 125; 93; 4; 112; 0; 112; 0; 0; 0; 30; 0;
   0; 0; 74; 23; 126; 125; 93; 4; 117; 0; 117; 0; 0; 0; 1; 0; 0; 0; 200; 109; 126; 125; 93; 4;
   234; 3; 234; 3; 0; 0; 30; 0; 0; 0; 169; 158; 126; 125; 93; 4; 238; 3; 239; 3; 0; 0; 30; 0;
   0; 0; 30; 0; 0; 0; 155; 32; 126; 125; 93; 4; 208; 7; 215; 7; 0; 0; 30; 0; 0; 0; 30; 0;
   0; 0; 30; 0; 0; 0; 30; 0; 0; 0; 30; 0; 0; 0; 30; 0; 0; 0; 30; 0; 0; 0; 30; 0;
   0; 0; 220; 16; 126; 125; 93; 4; 184; 11; 197; 11; 0; 0; 31; 0; 0; 0; 254; 255; 127; 0; 127; 0;
   0; 0; 31; 0; 0; 0; 31; 0; 0; 0; 255; 0; 0; 0; 30; 0; 0; 0; 30; 0; 0; 0; 30; 0;
   0; 0; 30; 0; 0; 0; 30; 0; 0; 0; 30; 0; 0; 0; 30; 0; 0; 0; 28; 0; 0; 0; 169; 54;
   126; 125; 93; 4; 160; 15; 170; 15; 0; 0; 30; 0; 0; 0; 30; 0; 0; 0; 30; 0; 0; 0; 30; 0;
   0; 0; 254; 1; 0; 0; 30; 0; 0; 0; 254; 255; 1; 0; 254; 255; 7; 0; 254; 255; 1; 0; 254; 7;
   0; 0; 30; 0; 0; 0; 195; 185; 126; 125; 93; 4; 5; 18; 5; 18; 0; 0; 31; 0; 0; 0; 210; 65;
   126; 125; 93; 4; 7; 18; 7; 18; 0; 0; 31; 0; 0; 0; 243; 18; 126; 125; 93; 4; 136; 19; 168; 19;
   0; 0; 30; 0; 0; 0; 30; 0; 0; 0; 30; 0; 0; 0; 30; 0; 0; 0; 30; 0; 0; 0; 30; 0;
   0; 0; 30; 0; 0; 0; 30; 0; 0; 0; 30; 0; 0; 0; 30; 0; 0; 0; 30; 0; 0; 0; 30; 0;
   0; 0; 30; 0; 0; 0; 30; 0; 0; 0; 30; 0; 0; 0; 30; 0; 0; 0; 31; 0; 0; 0; 31; 0;
   0; 0; 30; 0; 0; 0; 30; 0; 0; 0; 30; 0; 0; 0; 30; 0; 0; 0; 30; 0; 0; 0; 30; 0;
   0; 0; 30; 0; 0; 0; 30; 0; 0; 0; 30; 0; 0; 0; 30; 0; 0; 0; 30; 0; 0; 0; 30; 0;
   0; 0; 30; 0; 0; 0; 30; 0; 0; 0; 30; 0; 0; 0; 244; 76; 126; 125; 93; 4; 114; 23; 114; 23;
   0; 0; 30; 0; 0; 0; 204; 32; 126; 125; 93; 4; 116; 23; 116; 23; 0; 0; 63; 0; 0; 0; 71; 70;
   126; 125; 93; 4; 147; 23; 147; 23; 0; 0; 30; 0; 0; 0; 143; 202; 126; 125; 93; 4; 151; 23; 151; 23;
   0; 0; 30; 0; 0; 0; 205; 108; 126; 125; 93; 4; 164; 23; 183; 23; 0; 0; 30; 0; 0; 0; 30; 0;
   0; 0; 30; 0; 0; 0; 30; 0; 0; 0; 30; 0; 0; 0; 30; 0; 0; 0; 30; 0; 0; 0; 30; 0;
   0; 0; 30; 0; 0; 0; 30; 0; 0; 0; 30; 0; 0; 0; 30; 0; 0; 0; 30; 0; 0; 0; 30; 0;
   0; 0; 30; 0; 0; 0; 30; 0; 0; 0; 30; 0; 0; 0; 30; 0; 0; 0; 30; 0; 0; 0; 30; 0;
   0; 0; 141; 209; 126; 125; 93; 4; 192; 23; 192; 23; 0; 0; 30; 0; 0; 0; 150; 137; 126; 125; 93; 4;
   52; 33; 52; 33; 0; 0; 30; 0; 0; 0; 16; 195; 126; 125; 93; 4; 28; 37; 37; 37; 0; 0; 30; 0;
   0; 0; 30; 255; 31; 0; 125; 94; 0; 0; 0; 62; 0; 0; 0; 125; 94; 0; 0; 0; 30; 0; 0; 0;
   254; 3; 0; 0; 30; 0; 0; 0; 30; 0; 0; 0; 62; 208; 0; 0; 144; 237; 126; 125; 93; 4; 11; 40;
   15; 40; 0; 0; 28; 0; 0; 0; 28; 0; 0; 0; 28; 0; 0; 0; 28; 0; 0; 0; 28; 0; 0; 0;
   113; 134; 126; 125; 93; 4; 110; 40; 137; 40; 0; 0; 30; 0; 0; 0; 30; 0; 0; 0; 30; 0; 0; 0;
   30; 0; 0; 0; 30; 0; 0; 0; 30; 0; 0; 0; 30; 0; 0; 0; 30; 0; 0; 0; 30; 0; 0; 0;
   30; 0; 0; 0; 30; 0; 0; 0; 30; 0; 0; 0; 30; 0; 0; 0; 30; 0; 0; 0; 30; 0; 0; 0;
   30; 0; 0; 0; 30; 0; 0; 0; 30; 0; 0; 0; 30; 0; 0; 0; 30; 0; 0; 0; 30; 0; 0; 0;
   30; 0; 0; 0; 30; 0; 0; 0; 30; 0; 0; 0; 30; 0; 0; 0; 30; 0; 0; 0; 30; 0; 0; 0;
   30; 0; 0; 0; 82; 144; 126; 115; 0; 0; 0; 0; 0; 0; 0; 218; 129; 126; 115; 0; 0; 0; 3; 0;
   0; 0; 1; 0; 0; 0; 254; 15; 0; 0; 240; 7; 200; 0; 0; 64; 196; 0; 0; 0; 0; 192; 73; 243;
   199; 91; 124; 243; 11; 1; 0; 0; 0; 32; 236; 0; 204; 131; 1; 0; 0; 0; 0; 0; 56; 0; 56; 0;
   56; 0; 56; 0; 0; 1; 1; 0; 64; 8; 240; 7; 12; 248; 71; 0; 0; 0; 0; 0; 0; 0; 0; 8;
   0; 0; 0; 0; 0; 0; 0; 0; 0; 0; 0; 0; 0; 64; 4; 0; 255; 247; 127; 240; 252; 255; 255; 173;
   224; 127; 2; 0; 0; 0; 0; 1; 0; 0; 0; 0; 0; 0; 0; 120; 224; 255; 255; 255; 72; 28; 30; 0;
   3; 16; 24; 255; 255; 255; 255; 191; 0; 0; 0; 0; 0; 144; 1; 0; 0; 0; 0; 0; 0; 0; 0; 0;
   128; 27; 128; 255; 95; 6; 0; 0; 65; 0; 64; 0; 0; 0; 0; 0; 0; 0; 4; 192; 7; 1; 0; 48;
   0; 0; 0; 0; 0; 0; 0; 0; 0; 0; 16; 0; 128; 0; 0; 127; 206; 0; 0; 1; 0; 0; 0; 1;
   0; 0; 0; 24; 0; 0; 0; 0; 0; 0; 0; 0; 0; 12; 0; 0; 8; 0; 8; 0; 0; 0; 0; 0;
   0; 0; 0; 0; 0; 0; 0; 0; 0; 0; 0; 0; 0; 0; 0; 0; 0; 0; 0; 0; 0; 0; 0; 0;
   0; 0; 0; 0; 0; 0; 0; 0; 0; 0; 0; 0; 0; 0; 0; 0; 0; 0; 0; 0; 0; 0; 0; 0;
   0; 0; 48; 248; 7; 0; 0; 0; 7; 0; 0; 192; 127; 0; 0; 0; 0; 0; 0; 0; 0; 0; 0; 6;
   0; 0; 0; 0; 0; 0; 0; 0; 0; 0; 10; 48; 0; 0; 0; 0; 0; 0; 0; 0; 0; 0; 0; 64;
   0; 0; 0; 0; 6; 0; 0; 0; 128; 0; 0; 0; 0; 0; 0; 0; 0; 0; 0; 0; 0; 0; 0; 0;
   0; 0; 0; 0; 0; 0; 0; 0; 0; 0; 0; 0; 0; 0; 0; 0; 0; 0; 0; 0; 0; 0; 0; 0;
   0; 0; 0; 0; 0; 0; 0; 0; 0; 0; 0; 0; 0; 0; 0; 0; 0; 0; 0; 4; 0; 0; 0; 0;
   0; 0; 0; 0; 0; 0; 0; 0; 0; 0; 0; 0; 0; 0; 0; 0; 0; 0; 0; 0; 0; 0; 0; 0;
   0; 0; 0; 0; 0; 0; 0; 0; 0; 0; 0; 0; 0; 0; 0; 0; 0; 0; 0; 0; 0; 0; 0; 0;
   0; 0; 0; 0; 0; 0; 0; 0; 0; 0; 0; 0; 0; 0; 0; 0; 0; 0; 0; 0; 0; 0; 0; 0;
   0; 0; 0; 0; 0; 0; 0; 0; 0; 0; 0; 0; 0; 0; 0; 0; 0; 0; 0; 0; 0; 0; 0; 0;
   0; 0; 0; 0; 0; 0; 0; 0; 0; 0; 0; 0; 0; 0; 0; 0; 0; 0; 0; 0; 0; 0; 0; 0;
   0; 0; 0; 0; 0; 0; 0; 0; 0; 0; 0; 0; 0; 0; 0; 0; 0; 32; 183; 178; 126; 115; 0; 0;
   0; 3; 0; 0; 0; 4; 0; 0; 0; 9; 8; 0; 0; 49; 0; 9; 128; 248; 0; 0; 0; 0; 0; 0;
   0; 0; 0; 0; 0; 0; 0; 0; 0; 0; 0; 0; 0; 0; 0; 0; 0; 0; 0; 0; 0; 0; 127; 239;
   32; 240; 144; 60; 29; 96; 4; 0; 0; 79; 3; 254; 7; 67; 11; 2; 1; 0; 0; 7; 244; 69; 0; 56;
   0; 0; 0; 0; 0; 134; 138; 69; 248; 37; 16; 0; 204; 0; 0; 0; 0; 0; 0; 0; 0; 0; 0; 0;
   0; 0; 0; 0; 0; 0; 0; 0; 0; 0; 0; 0; 0; 130; 195; 30; 0; 125; 94; 0; 78; 0; 255; 3;
   0; 60; 0; 0; 0; 0; 0; 0; 0; 0; 0; 0; 0; 0; 0; 0; 0; 0; 0; 0; 0; 0; 0; 0;
   0; 0; 0; 0; 0; 0; 0; 0; 0; 0; 0; 0; 0; 0; 0; 0; 0; 0; 0; 0; 0; 0; 0; 0;
   0; 0; 0; 0; 0; 0; 0; 0; 0; 0; 0; 0; 0; 0; 0; 0; 0; 0; 0; 0; 0; 0; 0; 0;
   0; 0; 0; 0; 0; 0; 0; 0; 0; 0; 0; 0; 0; 0; 0; 0; 0; 0; 0; 0; 0; 0; 0; 0;
   0; 0; 0; 0; 0; 0; 0; 0; 0; 0; 0; 0; 0; 0; 0; 0; 0; 0; 0; 0; 0; 0; 0; 0;
   0; 0; 0; 0; 0; 0; 0; 0; 0; 0; 0; 0; 9; 0; 0; 0; 0; 0; 0; 0; 0; 0; 0; 0;
   0; 0; 0; 0; 0; 0; 255; 1; 50; 62; 126; 115; 0; 0; 0; 3; 0; 0; 0; 5; 0; 0; 0; 93;
   12; 0; 0; 2; 0; 0; 0; 0; 0; 0; 0; 0; 0; 0; 0; 112; 144; 111; 59; 252; 1; 19; 0; 0;
   0; 0; 0; 0; 7; 0; 0; 0; 0; 0; 0; 0; 0; 0; 0; 0; 208; 255; 215; 0; 0; 0; 0; 0;
   0; 0; 0; 0; 0; 0; 0; 0; 0; 0; 0; 0; 0; 0; 0; 0; 0; 240; 255; 231; 255; 191; 243; 67;
   63; 2; 0; 224; 227; 1; 255; 13; 0; 0; 0; 0; 0; 0; 0; 0; 0; 0; 0; 0; 0; 0; 0; 0;
   0; 0; 0; 0; 0; 0; 0; 0; 0; 0; 0; 0; 0; 0; 0; 0; 0; 0; 0; 112; 0; 0; 0; 0;
   0; 0; 0; 0; 0; 0; 0; 0; 0; 0; 0; 1; 0; 0; 0; 0; 0; 0; 0; 0; 0; 0; 0; 0;
   0; 0; 0; 0; 0; 0; 0; 0; 0; 0; 0; 0; 0; 0; 0; 0; 0; 0; 0; 0; 0; 0; 0; 0;
   0; 0; 0; 0; 0; 0; 0; 0; 0; 0; 0; 0; 0; 0; 0; 0; 0; 0; 0; 0; 0; 0; 0; 0;
   0; 0; 0; 0; 0; 0; 0; 0; 0; 0; 0; 0; 0; 0; 0; 0; 0; 0; 0; 0; 0; 0; 0; 0;
   0; 0; 0; 0; 0; 0; 0; 0; 0; 0; 0; 0; 0; 0; 0; 0; 0; 0; 0; 0; 0; 0; 0; 0;
   0; 0; 0; 0; 0; 0; 0; 0; 0; 0; 0; 0; 0; 0; 0; 0; 0; 0; 0; 0; 0; 0; 0; 0;
   0; 0; 0; 0; 0; 0; 0; 0; 0; 0; 0; 0; 0; 0; 0; 0; 0; 0; 0; 0; 0; 0; 0; 0;
   0; 0; 0; 0; 0; 0; 0; 0; 0; 0; 0; 0; 0; 0; 0; 0; 0; 0; 0; 0; 0; 0; 0; 0;
   0; 0; 0; 0; 0; 0; 0; 0; 0; 0; 0; 0; 0; 0; 0; 0; 0; 0; 0; 0; 0; 0; 0; 112;
   144; 111; 31; 252; 113; 0; 0; 0; 0; 0; 0; 0; 7; 0; 0; 0; 0; 0; 0; 0; 0; 0; 0; 0;
   208; 255; 87; 0; 0; 0; 0; 0; 0; 0; 0; 0; 0; 0; 0; 0; 0; 0; 0; 0; 0; 0; 0; 0;
   0; 0; 0; 224; 231; 255; 247; 195; 63; 1; 0; 224; 227; 1; 16; 93; 230; 126; 115; 0; 0; 0; 3; 0;
   0; 0; 7; 0; 0; 0; 87; 11; 0; 0; 2; 0; 0; 0; 0; 0; 0; 0; 0; 0; 0; 0; 0; 0;
   0; 0; 0; 0; 0; 0; 0; 0; 0; 0; 0; 0; 0; 0; 0; 0; 0; 0; 0; 0; 0; 0; 0; 0;
   255; 255; 1; 0; 127; 2; 3; 0; 0; 0; 0; 0; 0; 0; 0; 0; 0; 0; 0; 0; 0; 0; 0; 0;
   0; 0; 255; 55; 6; 234; 7; 0; 7; 0; 0; 0; 0; 252; 240; 32; 0; 0; 0; 0; 0; 0; 0; 0;
   0; 0; 0; 255; 1; 0; 0; 0; 0; 0; 0; 0; 0; 0; 0; 0; 0; 0; 0; 0; 0; 0; 0; 0;
   0; 0; 0; 0; 0; 0; 0; 0; 0; 0; 0; 0; 0; 0; 0; 0; 0; 0; 16; 0; 0; 0; 0; 0;
   0; 0; 0; 0; 0; 0; 0; 0; 0; 0; 0; 0; 0; 0; 0; 0; 0; 0; 0; 0; 0; 0; 0; 0;
   0; 0; 0; 0; 0; 0; 0; 0; 0; 0; 0; 0; 0; 0; 0; 0; 0; 0; 0; 0; 0; 0; 0; 0;
   0; 0; 0; 0; 0; 0; 0; 0; 0; 0; 0; 0; 0; 0; 0; 0; 0; 0; 0; 0; 0; 0; 0; 0;
   0; 0; 0; 0; 0; 0; 0; 0; 0; 0; 0; 0; 0; 0; 0; 0; 0; 0; 0; 0; 0; 0; 0; 0;
   0; 0; 0; 0; 0; 0; 0; 0; 0; 0; 0; 0; 0; 0; 0; 0; 0; 0; 0; 0; 0; 0; 0; 0;
   0; 0; 0; 0; 0; 0; 0; 0; 0; 0; 0; 0; 0; 0; 0; 0; 0; 0; 0; 0; 0; 0; 0; 0;
   0; 0; 0; 0; 0; 0; 0; 0; 0; 0; 0; 0; 0; 0; 0; 0; 0; 0; 0; 0; 0; 0; 0; 0;
   0; 0; 0; 0; 0; 0; 0; 0; 0; 0; 0; 0; 0; 0; 0; 0; 0; 0; 0; 0; 0; 0; 0; 0;
   0; 0; 0; 0; 0; 0; 0; 0; 0; 0; 0; 0; 0; 0; 0; 0; 0; 0; 0; 0; 0; 0; 0; 0;
   0; 0; 0; 0; 0; 0; 0; 0; 255; 119; 0; 0; 127; 159; 170; 126; 115; 0; 0; 0; 3; 0; 0; 0;
   11; 0; 0; 0; 208; 1; 0; 0; 6; 0; 1; 0; 0; 0; 0; 0; 0; 0; 0; 0; 95; 0; 0; 0;
   206; 4; 206; 0; 63; 0; 63; 0; 223; 36; 0; 0; 127; 252; 60; 0; 0; 0; 62; 40; 78; 80; 5; 18;
   81; 224; 0; 0; 255; 255; 255; 226; 207; 225; 125; 93; 81; 127; 0; 1; 116; 66; 224; 172; 52; 126; 115; 0;
   0; 0; 3; 0; 0; 0; 13; 0; 0; 0; 57; 1; 0; 0; 121; 166; 255; 255; 255; 161; 31; 0; 223; 1;
   0; 0; 3; 64; 0; 0; 0; 159; 0; 0; 0; 0; 192; 6; 0; 0; 0; 0; 95; 0; 0; 0; 255; 55;
   255; 191; 27; 5; 0; 1; 43; 23; 126; 96; 0; 18; 106; 126; 96; 1; 155; 123; 126; 130; 0; 0; 0; 85;
   10; 0; 0; 0; 0; 0; 0; 0; 0; 0; 0; 0; 0; 0; 0; 0; 0; 0; 0; 0; 0; 0; 0; 0;
   0; 0; 0; 0; 0; 0; 0; 0; 0; 255; 255; 255; 255; 255; 255; 255; 255; 255; 255; 255; 255; 255; 255; 255;
   255; 255; 255; 255; 255; 255; 255; 255; 255; 255; 255; 255; 255; 255; 255; 255; 255; 255; 255; 255; 255; 255; 255; 183;
   15; 0; 0; 0; 0; 0; 136; 244; 11; 0; 0; 0; 0; 0; 0; 0; 0; 0; 0; 0; 0; 0; 0; 0;
   0; 0; 0; 0; 0; 0; 0; 0; 0; 0; 0; 0; 0; 0; 0; 0; 0; 97; 0; 0; 0; 0; 0; 0;
   0; 0; 4; 0; 216; 143; 255; 61; 248; 72; 250; 63; 6; 0; 0; 25; 0; 0; 0; 10; 224; 15; 34; 0;
   0; 0; 248; 132; 47; 64; 0; 0; 10; 128; 255; 239; 1; 0; 12; 0; 0; 0; 0; 0; 0; 0; 128; 0;
   0; 0; 0; 0; 128; 0; 0; 0; 0; 224; 1; 255; 63; 130; 0; 1; 125; 94; 0; 0; 128; 255; 0; 0;
   0; 0; 190; 25; 0; 0; 0; 0; 0; 0; 224; 255; 15; 254; 127; 0; 24; 0; 0; 0; 224; 1; 0; 0;
   192; 253; 191; 149; 3; 0; 0; 0; 0; 0; 128; 129; 1; 0; 0; 0; 0; 0; 0; 0; 0; 0; 6; 0;
   192; 63; 18; 140; 4; 0; 96; 200; 47; 248; 231; 249; 255; 127; 255; 255; 7; 255; 0; 0; 0; 0; 0; 0;
   0; 0; 255; 3; 252; 111; 0; 199; 159; 0; 3; 128; 249; 250; 15; 128; 123; 128; 55; 36; 12; 0; 0; 0;
   0; 0; 0; 0; 0; 0; 0; 0; 0; 0; 0; 0; 0; 0; 0; 0; 0; 0; 0; 0; 0; 128; 35; 140;
   13; 0; 0; 1; 152; 4; 0; 48; 0; 0; 0; 0; 6; 0; 242; 7; 0; 68; 0; 248; 31; 32; 115; 126
  ].

Definition mdm_enter_dump1 : list Z := [0x4b; 0x12; 0x18; 0x02; 0x01; 0x00; 0xd2; 0x7e].
Definition mdm_enter_dump2 : list Z := [0x7e; 0x01; 0x04; 0x00; 0x4b; 0x25; 0x03; 0x00; 0x7e].

Definition rbuf_size : nat := 16 * 1024.

(** The deframer is allocated once: [false] when there is no memory. *)
Definition ensure_diag_pkt : Q bool :=
  p ← gets mdm_diag_pkt;
  match p with
  | Some _ => mret true
  | None =>
      mem ← malloc (buf_capacity 4 9031);
      upd mdm_diag_pkt (diag_pkt_malloc 4 9031 0 mem);;
      p' ← gets mdm_diag_pkt;
      mret (match p' with Some _ => true | None => false end)
  end.

Definition reset_diag_pkt (p : diag_pkt) : diag_pkt :=
  p <| last_7d := 0 |> <| pkt_len := 0%nat |>.

(** What the configuration file holds goes to the front of [rbuf]; [read]'s
    result is stored in a [size_t]. *)
Definition read_cfg (cfg : option (list Z)) (rbuf : list Z) : Q (Z * list Z) :=
  match cfg with
  | None => mret (0, rbuf)
  | Some path =>
      cfgfd ← call (Open path);
      if cfgfd <? 0 then mret (0, rbuf)
      else
        '(n, data) ← sys_read cfgfd (Z.of_nat rbuf_size - 1);
        call (CloseFd cfgfd);;
        rbuf' ← of_option (wr 0 data rbuf);
        mret (u64 n, rbuf')
  end.

(** [cfg]: the path, if one is given. *)
Definition mdm_init_filter (fuel : nat) (fd : Z) (cfg : option (list Z)) : Q Z :=
  put_header 0 (replicate sizeof_qshrink4_header 0);;
  if bool_decide (cfg = Some (str "dump")) then
    mdm_send_cmd fd mdm_enter_dump1 (len mdm_enter_dump1) false;;
    call (Usleep (100 * 1000));;
    mdm_send_cmd fd mdm_enter_dump2 (len mdm_enter_dump2) false;;
    mret 0
  else
    ok ← ensure_diag_pkt;
    if negb ok then mret (-1)
    else
      p ← gets mdm_diag_pkt;
      upd mdm_diag_pkt (option_map reset_diag_pkt p);;
      mdm_create_qshrink4_file fuel fd;;
      s ← get;
      (if negb (diag_id_count s =? 0)%nat && negb (use_diag_qdss s =? 0) then
         upd qdss_state 1;; diag_send_cmds_to_peripheral_init;; upd qdss_state 0
       else mret tt);;
      s ← get;
      (if negb (use_diag_dpl s =? 0) then
         upd dpl_state 1;; diag_send_enable_dpl_req 1;; upd dpl_state 0
       else mret tt);;
      mem ← malloc rbuf_size;
      match mem with
      | None => mret (-1)
      | Some rbuf =>
          '(cfg_size, rbuf) ← read_cfg cfg rbuf;
          (if cfg_size <=? 0 then
             rbuf ← of_option (wr 0 qlog_mdm_default_cfg rbuf);
             mdm_send_cmd fd rbuf (len qlog_mdm_default_cfg) true
           else mdm_send_cmd fd rbuf cfg_size true);;
          mret 0
      end.

Definition mdm_clean_filter : Q Z :=
  mdm_send_empty_mask;;
  s ← get;
  (if negb (diag_id_count s =? 0)%nat && negb (use_diag_qdss s =? 0) then
     upd qdss_state 1;; diag_send_cmds_to_peripheral_kill;; upd qdss_state 0
   else mret tt);;
  s ← get;
  (if negb (use_diag_dpl s =? 0) then
     upd dpl_state 1;; diag_send_enable_dpl_req 0;; upd dpl_state 0
   else mret tt);;
  mret 0.

Definition header_length (s : st) : Z := get_le 0 4 (qshrink4_data s).

(** The first [header_length] bytes of the header. *)
Definition header_image : Q (list Z) :=
  s ← get;
  of_option (rd_bytes 0 (Z.to_nat (header_length s)) (qshrink4_data s)).

Definition mdm_logfile_init (logfd : Z) : Q Z :=
  s ← get;
  if use_qmdl2_v2 s =? 0 then mret 0
  else if header_length s =? 0 then
    upd mdm_miss_qmdlv2_logfd logfd;; mret 0
  else
    upd mdm_miss_qmdlv2_logfd (-1);;
    h ← header_image;
    call (Write logfd h);;
    mret 0.

(** The reader thread: the bytes go to the command channel first, and into the
    log unless its header is still missing. *)
Definition mdm_logfile_save (logfd : Z) (buf : list Z) : Q Z :=
  reader_chunk buf;;
  s ← get;
  if negb (use_qmdl2_v2 s =? 0) && (header_length s =? 0) then mret (len buf)
  else
    (if negb (use_qmdl2_v2 s =? 0) && (mdm_miss_qmdlv2_logfd s =? logfd) then
       upd mdm_miss_qmdlv2_logfd (-1);;
       h ← header_image;
       call (LogfileSave logfd h);; mret tt
     else mret tt);;
    call (LogfileSave logfd buf).
