(* ===== verification/QshrinkInv.v ===== *)
(** Invariants and termination of the QShrink4 download (Qshrink.v). *)

From Stdlib Require Import ZArith Lia.
From S2P Require Import Prelude DiagPkt Crc Qsys Qshrink.

(** ** The invariant

    The tables keep their size and their entry counts stay within them,
    whatever the modem sends.  [X] is what a proof wants to know of
    [read_file_total_len]. *)
Record inv (X : Z -> Prop) (s : st) : Prop := Inv {
  inv_header : length (qshrink4_data s) = sizeof_qshrink4_header;
  inv_count : 0 <= entry_count s <= Z.of_nat MAX_GUID_ENTRIES;
  inv_guid : length (diagid_guid s) = (MAX_GUID_ENTRIES * sizeof_diagid_guid)%nat;
  inv_ids : (diag_id_count s <= NUM_PROC)%nat;
  inv_table : length (diag_id_table s) = (32 * NUM_PROC)%nat;
  inv_req : length (qsr4_db_cmd_req_buf s) = 100%nat;
  inv_dpl : length (dpl_cmd_req_buf s) = 50%nat;
  inv_qdss : length (qdss_cmd_req_buf s) = 50%nat;
  inv_accel : length (hw_accel_support s) = 3%nat;
  inv_total : X (read_file_total_len s)
}.

(** [mdm_send_cmd] stands still at a 0x7E 0x01 behind a 0x7E whose length field
    makes the 16-bit [len] zero. *)
Definition stuck_at (buf : list Z) (i : nat) : bool :=
  match buf !! (i - 1)%nat, buf !! i, buf !! (i + 1)%nat, buf !! (i + 2)%nat, buf !! (i + 3)%nat with
  | Some p, Some a, Some b, Some c, Some d =>
      (0 <? i)%nat && (p =? 0x7e) && (a =? 0x7e) && (b =? 0x01) &&
      (u16 (c + u16 (Z.shiftl d 8) + 5) =? 0)
  | _, _, _, _, _ => false
  end.
Definition progresses (buf : list Z) (size : Z) : Prop :=
  forall i, Z.of_nat i < size -> stuck_at buf i = false.

(** A field the invariant does not mention. *)
Ltac other_field :=
  let s := fresh in let H := fresh in
  intros s H; destruct H; constructor; try exact I; auto.

(** ** Lengths *)

Lemma write1_length i b l l' : write1 i b l = Some l' -> length l' = length l.
Proof. unfold write1. case_match; [|done]. intros [= <-]. apply length_insert. Qed.

Lemma append_crc_length l n l' n' :
  diag_qsr4_append_crc16 l n = Some (l', n') -> length l' = length l.
Proof.
  unfold diag_qsr4_append_crc16. intros H.
  repeat match type of H with (_ ≫= _) = _ => apply bind_Some in H as (?&?&H) end.
  simplify_eq. repeat match goal with H : write1 _ _ _ = _ |- _ => apply write1_length in H end.
  congruence.
Qed.

Lemma escape_loop_length src n i dst size l l' size' :
  escape_loop src n i dst size l = Some (l', size') -> length l' = length l.
Proof.
  revert i size l. induction n as [|n IH]; intros i size l H; cbn in H; [by simplify_eq|].
  repeat first [case_match; simplify_eq | apply bind_Some in H as (?&?&H)];
  apply IH in H; repeat match goal with H : write1 _ _ _ = _ |- _ => apply write1_length in H end;
  congruence.
Qed.

Lemma diag_escape_length src l n l' v : diag_escape src l n = Some (l', v) -> length l' = length l.
Proof.
  unfold diag_escape. intros H.
  repeat first [case_match; simplify_eq | apply bind_Some in H as (?&?&H)]; simplify_eq;
  repeat match goal with
  | H : write1 _ _ _ = _ |- _ => apply write1_length in H
  | H : escape_loop _ _ _ _ _ _ = _ |- _ => apply escape_loop_length in H
  end; congruence.
Qed.

(** An escaped command holds no flag before its end. *)
Definition no_flag (dst size : nat) (l : list Z) : Prop :=
  forall k, (k < size)%nat -> l !! (dst + k)%nat <> Some 0x7e.

Lemma no_flag_write1 dst size b l l' :
  write1 (dst + size) b l = Some l' -> b <> 0x7e -> no_flag dst size l ->
  no_flag dst (S size) l'.
Proof.
  unfold write1. case_match; [|done]. intros [= <-] Hb Hl k Hk.
  destruct (decide (k = size)) as [->|].
  - apply bool_decide_eq_true in H. rewrite list_lookup_insert_eq by lia. congruence.
  - rewrite list_lookup_insert_ne by lia. apply Hl. lia.
Qed.

Lemma escape_loop_no_flag src n i dst size l l' size' :
  escape_loop src n i dst size l = Some (l', size') ->
  no_flag dst size l -> no_flag dst size' l'.
Proof.
  revert i size l. induction n as [|n IH]; intros i size l H Hl; cbn in H; [by simplify_eq|].
  apply bind_Some in H as (ch&_&H). destruct (_ || _)%bool eqn:Hch.
  - apply bind_Some in H as (b1&H1&H). apply bind_Some in H as (b2&H2&H).
    apply IH in H; [done|]. replace (size + 2)%nat with (S (S size)) by lia.
    eapply no_flag_write1; [by rewrite <-plus_n_Sm, <-H2; f_equal; lia| |].
    + rewrite orb_true_iff, !Z.eqb_eq in Hch. by destruct Hch as [-> | ->].
    + by eapply no_flag_write1.
  - apply bind_Some in H as (b1&H1&H). apply IH in H; [done|].
    replace (size + 1)%nat with (S size) by lia. eapply no_flag_write1; [done| |done].
    intros ->. done.
Qed.

Lemma diag_escape_progresses src l n l' dst :
  diag_escape src l n = Some (l', dst) -> progresses (drop n l') (len dst).
Proof.
  unfold diag_escape. intros ([b1 size]&H1&H)%bind_Some.
  apply bind_Some in H as (b2&H2&H). injection H as <- <-.
  apply escape_loop_no_flag in H1; [|intros k Hk; lia].
  intros i Hi. unfold stuck_at. rewrite !lookup_drop.
  assert (Hle : (length (slice n (size + 1) b2) <= size + 1)%nat)
    by (unfold slice; rewrite length_take; lia).
  unfold len in Hi.
  destruct (b2 !! (n + (i - 1))%nat) as [p|] eqn:Hp; [|done].
  destruct (decide (0 < i)%nat) as [H0|]; [|replace i with O by lia; repeat case_match; done].
  destruct (decide (p = 0x7e)) as [->|Hne].
  - exfalso. apply (H1 (i - 1)%nat); [lia|].
    unfold write1 in H2. case_match; [|done]. injection H2 as <-.
    by rewrite list_lookup_insert_ne in Hp by lia.
  - repeat case_match; try done. apply Z.eqb_neq in Hne. by rewrite Hne, andb_false_r.
Qed.

(** Rewrites a stored buffer into its length. *)
Ltac stored :=
  repeat match goal with
  | H : wr _ _ _ = Some _ |- _ => apply wr_length in H
  | H : write1 _ _ _ = Some _ |- _ => apply write1_length in H
  | H : diag_qsr4_append_crc16 _ _ = Some (_, _) |- _ => apply append_crc_length in H
  | H : diag_escape _ _ _ = Some (_, _) |- _ => apply diag_escape_length in H
  end;
  intros;
  repeat match goal with H : inv _ _ |- _ => destruct H end;
  constructor; cbn in *; auto; lia.
Ltac upd_tac := first [solve [other_field] | solve [stored]].

(** ** Every operation keeps the invariant *)

Section Keeps.
Context (X : Z -> Prop).
Abbreviation ok m := (keeps (inv X) m (fun _ => True)).

Lemma inv_set_header s b :
  inv X s -> length b = sizeof_qshrink4_header ->
  0 <= get_le OFF_COUNT 4 b <= Z.of_nat MAX_GUID_ENTRIES ->
  inv X (s <| qshrink4_data := b |>).
Proof. intros [] Hl Hc. constructor; done. Qed.

Lemma put_header_ok off v :
  (off + length v <= 6 \/ 10 <= off)%nat -> ok (put_header off v).
Proof.
  intros Hoff. unfold put_header, store_at.
  apply keeps_bind_gets. intros s Hs. apply keeps_bind_of_option. intros b Hb.
  apply wr_Some in Hb as [Hfit ->]. apply keeps_modify; [|done].
  intros s' Hs'. apply inv_set_header; [done|rewrite length_put by done; apply Hs|].
  destruct Hoff.
  - rewrite get_le_put_above; [apply Hs|done|unfold OFF_COUNT; lia].
  - rewrite get_le_put_below; [apply Hs|done|unfold OFF_COUNT; lia].
Qed.

Lemma put_count_ok n : 0 <= n <= Z.of_nat MAX_GUID_ENTRIES ->
  ok (put_header OFF_COUNT (le_bytes 4 n)).
Proof.
  intros Hn. unfold put_header, store_at.
  apply keeps_bind_gets. intros s Hs. apply keeps_bind_of_option. intros b Hb.
  apply wr_Some in Hb as [Hfit ->]. apply keeps_modify; [|done].
  intros s' Hs'. apply inv_set_header; [done|rewrite length_put by done; apply Hs|].
  rewrite length_le_bytes in Hfit. rewrite get_le_put_same by done.
  unfold MAX_GUID_ENTRIES in *. rewrite Z.mod_small; lia.
Qed.

Lemma put_diagid_ok off v : ok (put_diagid off v).
Proof. unfold put_diagid, store_at. keep upd_tac. Qed.
Lemma put_table_ok off v : ok (put_table off v).
Proof. unfold put_table, store_at. keep upd_tac. Qed.
Lemma fill_ok r off v : ok (fill r off v).
Proof. unfold fill, store_at. destruct r; keep upd_tac. Qed.
#[local] Hint Resolve put_header_ok put_count_ok put_diagid_ok put_table_ok fill_ok : keeps.

Lemma insert_guid_ok guid file_len per : length guid = 16%nat ->
  ok (insert_diag_qsr4_db_guid_to_list guid file_len per).
Proof.
  intros Hg. unfold insert_diag_qsr4_db_guid_to_list, get_diag_id, store_diagid, upd.
  keep upd_tac.
  - apply put_header_ok. unfold OFF_GUID. lia.
  - apply put_header_ok. unfold OFF_FILE_LEN. lia.
  - apply put_count_ok. destruct (inv_count _ _ H). lia.
Qed.

(** *** Response handlers *)

Lemma file_list_ok buf : ok (process_qsr4_db_file_list_response buf).
Proof.
  unfold process_qsr4_db_file_list_response. keep upd_tac.
  apply keeps_forM. intros i. keep upd_tac.
  apply insert_guid_ok. by eapply rd_bytes_length.
Qed.

Lemma file_open_ok buf : ok (process_qsr_db_file_open_rsp buf).
Proof. unfold process_qsr_db_file_open_rsp, upd. keep upd_tac. Qed.
Lemma file_close_ok buf : ok (process_qsr_db_file_close_rsp buf).
Proof. unfold process_qsr_db_file_close_rsp, upd. keep upd_tac. Qed.
Lemma file_read_ok buf : ok (process_qsr_db_file_read_delayed_rsp buf).
Proof. unfold process_qsr_db_file_read_delayed_rsp, upd. keep upd_tac. Qed.

Lemma insert_entry_ok buf e : ok (insert_diag_id_entry buf e).
Proof.
  unfold insert_diag_id_entry, upd. keep upd_tac.
  apply bool_decide_eq_false in Heqb. apply keeps_modify; [|done].
  intros s' []. constructor; try done. cbn. lia.
Qed.
#[local] Hint Resolve file_list_ok file_open_ok file_close_ok file_read_ok insert_entry_ok : keeps.

Lemma insert_entries_ok n e buf : ok (insert_entries n e buf).
Proof. revert e. induction n; intros e; cbn [insert_entries]; keep upd_tac. Qed.
#[local] Hint Resolve insert_entries_ok : keeps.

Lemma diag_id_ok buf : ok (process_diag_id_response buf).
Proof. unfold process_diag_id_response. keep upd_tac. Qed.

Lemma accel_ok per buf : ok (process_diag_hw_accel_query_rsp per buf).
Proof.
  unfold process_diag_hw_accel_query_rsp, upd. keep upd_tac.
  apply keeps_forM. intros i. keep upd_tac.
Qed.
#[local] Hint Resolve diag_id_ok accel_ok : keeps.

Lemma qdss_ok buf : ok (diag_qdss_handle_response buf).
Proof. unfold diag_qdss_handle_response, upd. keep upd_tac. Qed.
Lemma dpl_ok buf : ok (diag_dpl_handle_response buf).
Proof. unfold diag_dpl_handle_response, upd. keep upd_tac. Qed.
#[local] Hint Resolve qdss_ok dpl_ok : keeps.

Lemma dispatch_ok buf : ok (mdm_handle_data_for_command_rsp buf).
Proof. unfold mdm_handle_data_for_command_rsp, upd. keep upd_tac. Qed.
#[local] Hint Resolve dispatch_ok : keeps.

Lemma handle_pkt_ok pkt : ok (mdm_handle_diag_pkt_func pkt).
Proof. unfold mdm_handle_diag_pkt_func, upd. keep upd_tac. Qed.
#[local] Hint Resolve handle_pkt_ok : keeps.

Lemma reader_chunk_ok buf : ok (reader_chunk buf).
Proof.
  unfold reader_chunk, mdm_parse_data_for_command_rsp, upd. keep upd_tac.
  apply keeps_forM. auto with keeps.
Qed.

Lemma wait_ok msecs : ok (diag_cond_timeout msecs).
Proof.
  unfold diag_cond_timeout. keep upd_tac. apply keeps_forM. apply reader_chunk_ok.
Qed.
#[local] Hint Resolve wait_ok : keeps.

(** *** The command channel: its loops end *)

Lemma at_ok i buf :
  keeps (inv X) (at_ i buf) (fun a => 0 <= i /\ buf !! Z.to_nat i = Some a).
Proof. unfold at_. keep upd_tac. split; [lia|done]. Qed.
#[local] Hint Resolve at_ok : keeps.

Lemma at_lt i (buf : list Z) a : 0 <= i /\ buf !! Z.to_nat i = Some a -> i < len buf.
Proof. intros [? H%lookup_lt_Some]. unfold len. lia. Qed.

Lemma find_flag_ok size buf flag : 0 <= flag ->
  keeps (inv X) (find_flag size buf flag) (fun f => flag <= f).
Proof.
  intros H0. unfold find_flag.
  apply (keeps_iterM _ _ (fun f => flag <= f) (fun f => Z.to_nat (len buf - f)));
    [|lia|unfold len; lia].
  intros f Hf. keep upd_tac; [|done]. apply at_lt in H. lia.
Qed.
#[local] Hint Resolve find_flag_ok : keeps.

Lemma nonhdlc_ok buf size wc n :
  keeps (inv X) (nonhdlc_command buf size wc n) (fun b => b = true ->
    buf !! Z.to_nat wc = Some 0x7e /\ buf !! Z.to_nat (wc + 1) = Some 0x01 /\
    0 <= wc + n - 1 /\ buf !! Z.to_nat (wc + n - 1) = Some 0x7e).
Proof.
  unfold nonhdlc_command. keep upd_tac; [|done]. intros ->%Z.eqb_eq.
  destruct H as [_ H], H0 as [_ H0], H1 as [H1 H2].
  rewrite !andb_true_iff, !Z.eqb_eq in Heqb. destruct Heqb as [[-> ->] _]. auto.
Qed.
#[local] Hint Resolve nonhdlc_ok : keeps.

Lemma command_end_ok buf size wc : 0 <= wc < size -> progresses buf size ->
  keeps (inv X) (command_end buf size wc) (fun f => wc <= f).
Proof.
  intros H0 Hp. unfold command_end. keep upd_tac.
  - destruct (H2 eq_refl) as (Ha & Hb & Hc & Hd). clear H2.
    destruct H as [_ H], H1 as [_ H1].
    set (n := u16 _) in *. assert (0 <= n) by apply Z.mod_pos_bound, eq_refl.
    destruct (decide (n = 0)) as [Hn|]; [|lia]. exfalso.
    specialize (Hp (Z.to_nat wc)). unfold stuck_at in Hp.
    replace (Z.to_nat wc - 1)%nat with (Z.to_nat (wc + n - 1)) in Hp by lia.
    replace (Z.to_nat wc + 1)%nat with (Z.to_nat (wc + 1)) in Hp by lia.
    replace (Z.to_nat wc + 2)%nat with (Z.to_nat (wc + 2)) in Hp by lia.
    replace (Z.to_nat wc + 3)%nat with (Z.to_nat (wc + 3)) in Hp by lia.
    rewrite Ha, Hb, Hd, H, H1 in Hp. fold n in Hp. rewrite Hn in Hp.
    rewrite (proj2 (Nat.ltb_lt _ _)) in Hp by lia. by discriminate Hp; lia.
  - eapply keeps_weaken; [apply find_flag_ok; case_match; lia|]. cbn.
    intros f. case_match; lia.
Qed.
#[local] Hint Resolve command_end_ok : keeps.

Lemma send_one_ok fd buf size sync wc retry : 0 <= wc < size -> progresses buf size ->
  keeps (inv X) (send_one fd buf size sync wc retry)
    (fun r => wc < r.1 <= len buf).
Proof.
  intros Hwc Hp. unfold send_one, upd. keep upd_tac.
  cbn. apply at_lt in H0. lia.
Qed.
#[local] Hint Resolve send_one_ok : keeps.

Lemma mdm_send_cmd_ok fd buf size sync : progresses buf size -> ok (mdm_send_cmd fd buf size sync).
Proof.
  intros Hp. unfold mdm_send_cmd. keep upd_tac.
  apply (keeps_iterM _ _ (fun r => 0 <= r.1) (fun r => Z.to_nat (len buf - r.1)));
    [|cbn; lia|cbn; unfold len; lia].
  intros [wc retry] Hwc. cbn in Hwc. destruct (Z.ltb_spec wc size); [|by apply keeps_ret].
  assert (0 <= wc < size) by lia. keep upd_tac; try done. destruct a0. cbn in *. lia.
Qed.

(** *** Requests *)

Lemma set_buf_ok r b : forall s, inv X s -> length b = length (buf_of r s) -> inv X (set_buf r b s).
Proof. intros s [] Hb. destruct r; constructor; cbn in *; auto; lia. Qed.

Lemma buf_of_length r s s' : inv X s -> inv X s' -> length (buf_of r s) = length (buf_of r s').
Proof. intros [] []. destruct r; cbn; lia. Qed.

Lemma diag_send_data_ok r n : ok (diag_send_data r n).
Proof.
  unfold diag_send_data, upd. apply keeps_bind_get. intros s Hs.
  apply keeps_bind_of_option. intros [b dst] Hb.
  apply keeps_bind_modify.
  - apply diag_escape_length in Hb. intros s' []. destruct Hs. constructor; cbn in *; auto; lia.
  - apply diag_escape_progresses in Hb. keep upd_tac. by apply mdm_send_cmd_ok.
Qed.
#[local] Hint Resolve diag_send_data_ok : keeps.

Lemma send_filled_ok r n : ok (send_filled r n).
Proof.
  unfold send_filled. apply keeps_bind_gets. intros s Hs.
  apply keeps_bind_of_option. intros [b n'] Hb%append_crc_length.
  apply keeps_bind_modify.
  - intros s' Hs'. apply set_buf_ok; [done|]. rewrite Hb. by apply buf_of_length.
  - keep upd_tac.
Qed.
#[local] Hint Resolve send_filled_ok : keeps.

Lemma send_request_ok r cmd : ok (send_request r cmd).
Proof. unfold send_request. keep upd_tac. Qed.
#[local] Hint Resolve send_request_ok : keeps.

Lemma file_list_req_ok per : ok (diag_send_qsr4_db_file_list_cmd_req per).
Proof. unfold diag_send_qsr4_db_file_list_cmd_req, upd. keep upd_tac. Qed.

Lemma file_close_req_ok idx : ok (diag_send_qsr4_file_close_send_req idx).
Proof. unfold diag_send_qsr4_file_close_send_req, upd. keep upd_tac. Qed.

Lemma query_diag_id_ok : ok diag_query_diag_id.
Proof. unfold diag_query_diag_id, upd. keep upd_tac. Qed.
#[local] Hint Resolve file_list_req_ok file_close_req_ok query_diag_id_ok : keeps.

Lemma empty_mask_ok : ok mdm_send_empty_mask.
Proof.
  unfold mdm_send_empty_mask, upd. keep upd_tac.
  apply (keeps_iterM _ _ (fun r => 0 <= r) Z.to_nat); [|lia|lia].
  intros retry Hr. destruct (Z.eqb_spec retry 0); [by apply keeps_ret|]. keep upd_tac. lia.
Qed.
End Keeps.

(** ** The download *)

#[local] Hint Resolve send_request_ok file_list_req_ok file_close_req_ok query_diag_id_ok
  empty_mask_ok : keeps.

Lemma file_open_req_ok idx :
  keeps (inv (fun _ => True)) (diag_send_qsr4_file_open_cmd_req idx) (fun _ => True).
Proof. unfold diag_send_qsr4_file_open_cmd_req, upd. keep upd_tac. Qed.
#[local] Hint Resolve file_open_req_ok : keeps.

(** A read that got an answer was inside the file. *)
Lemma file_read_req_ok T off n :
  keeps (inv (eq T)) (diag_send_qsr4_file_read_cmd_req off n) (fun r => off < T \/ r = 0).
Proof.
  unfold diag_send_qsr4_file_read_cmd_req, upd. keep upd_tac; [|by right].
  left. destruct H as [].
  unfold read_window in *. repeat case_match; try done; lia.
Qed.

Definition turns (total off : Z) : nat := Z.to_nat ((total + 3999 - off) / 4000).

Lemma read_whole_file_ok T fuel :
  0 <= T <= 2 ^ 32 - 4000 -> (turns T 0 < fuel)%nat ->
  keeps (inv (eq T)) (read_whole_file fuel) (fun _ => True).
Proof.
  intros HT Hf. unfold read_whole_file.
  apply (keeps_iterM _ _ (fun off => 0 <= off) (turns T)); [|lia|done].
  intros off Hoff. eapply keeps_bind; [apply file_read_req_ok|].
  intros r Hr. cbn beta. destruct (Z.eqb_spec (s32 r) MAX_QSR4_DB_FILE_READ_PER_RSP) as [E|];
    apply keeps_ret; [|done].
  rewrite E. unfold MAX_QSR4_DB_FILE_READ_PER_RSP in *.
  destruct Hr as [Hr| ->]; [|done].
  unfold u32. rewrite Z.mod_small by lia. split; [lia|]. unfold turns.
  replace (T + 3999 - (off + 4000)) with (T + 3999 - off + (-1) * 4000) by lia.
  rewrite Z.div_add by lia.
  assert (1 <= (T + 3999 - off) / 4000) by (apply Z.div_le_lower_bound; lia). lia.
Qed.

Lemma read_whole_file_stays fuel : stays (inv (fun _ => True)) (read_whole_file fuel).
Proof.
  apply stays_iterM. intros off. eapply stays_keeps with (R := fun _ => True).
  unfold diag_send_qsr4_file_read_cmd_req, upd. keep upd_tac.
Qed.

Lemma download_one_stays fuel i : stays (inv (fun _ => True)) (download_one fuel i).
Proof.
  assert (Hr := read_whole_file_stays fuel). unfold download_one, upd. stay upd_tac.
Qed.

Lemma for_u8_stays fuel bound body :
  (forall i, stays (inv (fun _ => True)) (body i)) ->
  stays (inv (fun _ => True)) (for_u8 fuel bound body).
Proof. intros Hb. apply stays_iterM. intros i. stay upd_tac. Qed.

Lemma add_header_ok X : keeps (inv X) mdm_add_qshrink4_header (fun _ => True).
Proof.
  unfold mdm_add_qshrink4_header. keep upd_tac;
    apply put_header_ok; rewrite ?length_le_bytes; unfold OFF_GUID; cbn [length]; lia.
Qed.

(** ** The file list *)

Lemma store_at_runs E (g : st -> list Z) u off v (w : world qsys st) Q :
  (off + length v <= length (g (loc w)))%nat ->
  Q tt (World (u (put off v (g (loc w))) (loc w)) (hist w)) ->
  runs E (store_at g u off v) w Q.
Proof.
  intros Hv HQ. unfold store_at. rsteps. eapply runs_of_option; [by apply wr_fits|].
  by rsteps.
Qed.

(** The files of the header, and those a response lists. *)
Definition files (s : st) : list (list Z * Z) :=
  map (fun i => (guid_of i s, guid_file_len i s)) (seq 0 (Z.to_nat (entry_count s))).

Definition entry (buf : list Z) (i : nat) : list (list Z * Z) :=
  if get_le (18 + 20 * i + 16) 4 buf =? 0 then []
  else [(slice (18 + 20 * i) 16 buf, get_le (18 + 20 * i + 16) 4 buf)].
Definition listed (buf : list Z) : list (list Z * Z) :=
  if get_le 16 1 buf =? 0
  then concat (map (entry buf) (seq 0 (Z.to_nat (get_le 17 1 buf)))) else [].

(** The last name of the diag-id table is terminated, so that searching the
    table stays inside it. *)
Definition terminated (s : st) : Prop := diag_id_table s !! 319%nat = Some 0.

Lemma has_nul_at l k : l !! k = Some 0 -> has_nul l = true.
Proof.
  revert k; induction l as [|b l IH]; intros k H; [done|].
  destruct k; cbn in *; [by simplify_eq|]. rewrite (IH k H). apply orb_true_r.
Qed.

Lemma c_string_in_table i t : t !! 319%nat = Some 0 -> (i <= 319)%nat -> is_Some (c_string i t).
Proof.
  intros Ht Hi. unfold c_string. rewrite (has_nul_at _ (319 - i)); [by eexists|].
  rewrite lookup_drop, <-Ht. f_equal. lia.
Qed.

Lemma get_diag_id_from_Some n i per t :
  length t = 320%nat -> t !! 319%nat = Some 0 -> (i + n <= 10)%nat ->
  exists r, get_diag_id_from n i per t = Some r /\ (forall j, r = Some j -> (j < 10)%nat).
Proof.
  intros Hl Ht. revert i. induction n as [|n IH]; intros i Hi; cbn [get_diag_id_from].
  { exists None. by split. }
  rewrite rd_fits by lia. cbn [mbind option_bind].
  destruct (c_string_in_table (32 * i + 2) t Ht) as [name ->]; [lia|].
  cbn [mbind option_bind].
  destruct (_ =? _); [|apply IH; lia]. destruct (diag_query_pd_name _ _); [|apply IH; lia].
  exists (Some i). split; [done|]. intros j [= <-]. lia.
Qed.

(** *** One entry *)

Record listing (s : st) : Prop := Listing {
  li_inv : inv (fun _ => True) s;
  li_term : terminated s
}.

(** The header after an entry has been stored in slot [n]. *)
Definition header_with (n : nat) (guid : list Z) (file_len : Z) (h : list Z) : list Z :=
  put OFF_COUNT (le_bytes 4 (Z.of_nat n + 1))
    (put (OFF_FILE_LEN + 4 * n) (le_bytes 4 file_len) (put (OFF_GUID + GUID_LEN * n) guid h)).

(** [s] with another header and other diag-id GUIDs. *)
Definition with_tables (s : st) (h g : list Z) : st :=
  s <| qshrink4_data := h |> <| diagid_guid := g |>.

Lemma listing_with_tables s h g :
  listing s -> length h = sizeof_qshrink4_header ->
  0 <= get_le OFF_COUNT 4 h <= Z.of_nat MAX_GUID_ENTRIES ->
  length g = (MAX_GUID_ENTRIES * sizeof_diagid_guid)%nat -> listing (with_tables s h g).
Proof. intros [[] Ht] Hh Hc Hg. split; [by constructor|exact Ht]. Qed.

Lemma with_tables_self s : with_tables s (qshrink4_data s) (diagid_guid s) = s.
Proof. by destruct s. Qed.

Lemma put_header_runs E s h g hs off v Q :
  (off + length v <= length h)%nat ->
  Q tt (World (with_tables s (put off v h) g) hs) ->
  runs E (put_header off v) (World (with_tables s h g) hs) Q.
Proof. intros. by apply store_at_runs. Qed.

Lemma put_diagid_runs E s h g hs off v Q :
  (off + length v <= length g)%nat ->
  Q tt (World (with_tables s h (put off v g)) hs) ->
  runs E (put_diagid off v) (World (with_tables s h g) hs) Q.
Proof. intros. by apply store_at_runs. Qed.

Lemma get_diag_id_runs E (w : world qsys st) per (Q : option nat -> world qsys st -> Prop) :
  listing (loc w) -> (forall r, (forall j, r = Some j -> (j < 10)%nat) -> Q r w) ->
  runs E (get_diag_id per) w Q.
Proof.
  intros [Hi Ht] HQ.
  destruct (get_diag_id_from_Some (diag_id_count (loc w)) 0 per (diag_id_table (loc w)))
    as (r&Hr&Hr10); [apply (inv_table _ _ Hi)|exact Ht|apply (inv_ids _ _ Hi)|].
  unfold get_diag_id. rsteps. eapply runs_of_option; [exact Hr|]. by apply HQ.
Qed.

Lemma store_diagid_runs E s h g hs n item (Q : unit -> world qsys st -> Prop) :
  length (diag_id_table s) = 320%nat -> length g = 752%nat -> (n < 16)%nat ->
  (forall j, item = Some j -> (j < 10)%nat) ->
  (forall g', length g' = 752%nat -> Q tt (World (with_tables s h g') hs)) ->
  runs E (store_diagid n item) (World (with_tables s h g) hs) Q.
Proof.
  intros Ht Hg Hn Hitem HQ. unfold store_diagid, sizeof_diagid_guid.
  destruct item as [i|]; [|apply runs_ret; by apply HQ].
  specialize (Hitem i eq_refl). rsteps. cbn [loc].
  change (diag_id_table (with_tables s h g)) with (diag_id_table s).
  eapply runs_of_option; [apply rd_bytes_fits; lia|].
  apply runs_bind, put_diagid_runs; [rewrite length_slice by lia; lia|].
  destruct (strncpy_from_Some 30 (32 * i + 2) (diag_id_table s)) as (v&Hv&Hlv); [lia|].
  apply runs_bind. eapply runs_of_option; [exact Hv|].
  apply put_diagid_runs; [rewrite length_put, Hlv by (rewrite length_slice by lia; lia); lia|].
  apply HQ. rewrite !length_put; rewrite ?Hlv, ?length_put; rewrite ?length_slice by lia; lia.
Qed.

Lemma insert_guid_runs E (w : world qsys st) guid file_len per :
  listing (loc w) -> length guid = 16%nat ->
  runs E (insert_diag_qsr4_db_guid_to_list guid file_len per) w (fun _ w' =>
    listing (loc w') /\
    qshrink4_data (loc w') =
      (if decide (entry_count (loc w) < 16)
       then header_with (Z.to_nat (entry_count (loc w))) guid file_len (qshrink4_data (loc w))
       else qshrink4_data (loc w))).
Proof.
  intros [Hi Ht] Hg. destruct (inv_count _ _ Hi) as [Hc0 Hc1].
  unfold insert_diag_qsr4_db_guid_to_list. apply runs_bind, runs_gets.
  change (Z.of_nat MAX_GUID_ENTRIES) with 16 in *.
  destruct (decide (entry_count (loc w) < 16)) as [Hc|Hc].
  2:{ rewrite (proj2 (Z.leb_le _ _)) by lia. apply runs_ret. split; [by split|done]. }
  rewrite (proj2 (Z.leb_gt _ _)) by lia.
  destruct w as [s hs]. cbn [loc] in *.
  set (n := Z.to_nat (entry_count s)). assert (Hn : (n < 16)%nat) by lia.
  replace (entry_count s) with (Z.of_nat n) by lia.
  replace (World s hs) with (World (with_tables s (qshrink4_data s) (diagid_guid s)) hs : world qsys st)
    by (by rewrite with_tables_self).
  assert (Hh := inv_header _ _ Hi). unfold sizeof_qshrink4_header in Hh.
  assert (Hg0 : length (diagid_guid s) = 752%nat) by apply (inv_guid _ _ Hi).
  unfold OFF_GUID, GUID_LEN, OFF_FILE_LEN, OFF_COUNT in *.
  apply runs_bind, put_header_runs; [lia|].
  apply runs_bind, put_header_runs; [rewrite length_put, length_le_bytes by lia; lia|].
  apply runs_bind, get_diag_id_runs.
  { apply listing_with_tables; [by split| | |done].
    - rewrite !length_put; rewrite ?length_le_bytes, ?length_put; unfold sizeof_qshrink4_header; lia.
    - rewrite !get_le_put_below;
        rewrite ?length_put, ?length_le_bytes; unfold OFF_COUNT; lia || apply Hi. }
  intros r Hr.
  apply runs_bind, store_diagid_runs; [apply (inv_table _ _ Hi)|done|done|done|]. intros g' Hg'.
  apply runs_bind, put_diagid_runs; [unfold sizeof_diagid_guid; lia|].
  apply put_header_runs; [rewrite length_le_bytes, !length_put;
    rewrite ?length_put, ?length_le_bytes; lia|].
  cbn [loc with_tables qshrink4_data set_field].
  assert (Hl : length (header_with n guid file_len (qshrink4_data s)) = 3338%nat).
  { unfold header_with, OFF_GUID, GUID_LEN, OFF_FILE_LEN, OFF_COUNT.
    rewrite !length_put; rewrite ?length_le_bytes, ?length_put; rewrite ?length_le_bytes;
      rewrite ?length_put; lia. }
  split; [|done]. apply listing_with_tables; [by split|exact Hl| |].
  - rewrite get_le_put_same; [unfold MAX_GUID_ENTRIES; rewrite Z.mod_small; lia|].
    rewrite !length_put; rewrite ?length_le_bytes, ?length_put; lia.
  - rewrite length_put; [done|unfold sizeof_diagid_guid; lia].
Qed.

Lemma length_files s : length (files s) = Z.to_nat (entry_count s).
Proof. unfold files. by rewrite length_map, length_seq. Qed.

Lemma files_insert s s' n guid file_len :
  length (qshrink4_data s) = sizeof_qshrink4_header -> length guid = 16%nat ->
  entry_count s = Z.of_nat n -> (n < 16)%nat -> 0 <= file_len < 2 ^ 32 ->
  qshrink4_data s' = header_with n guid file_len (qshrink4_data s) ->
  files s' = files s ++ [(guid, file_len)].
Proof.
  intros Hl Hg Hc Hn Hf E. unfold sizeof_qshrink4_header in Hl.
  assert (Hc' : entry_count s' = Z.of_nat n + 1).
  { unfold entry_count. rewrite E. unfold header_with. unfold OFF_COUNT, OFF_FILE_LEN, OFF_GUID, GUID_LEN.
    rewrite get_le_put_same by stored_len. rewrite Z.mod_small; lia. }
  unfold files. rewrite Hc, Hc'. replace (Z.to_nat (Z.of_nat n + 1)) with (n + 1)%nat by lia.
  rewrite Nat2Z.id, seq_app, map_app. cbn [seq map]. f_equal.
  - apply map_ext_in. intros i Hi%in_seq.
    unfold guid_of, guid_file_len. rewrite E. unfold header_with, OFF_COUNT, OFF_FILE_LEN, OFF_GUID, GUID_LEN.
    f_equal.
    + rewrite slice_put_above by stored_len. rewrite slice_put_above by stored_len.
      apply slice_put_below; stored_len.
    + rewrite get_le_put_above by stored_len. rewrite get_le_put_below by stored_len.
      apply get_le_put_below; stored_len.
  - unfold guid_of, guid_file_len. rewrite E, Nat.add_0_l.
    unfold header_with, OFF_COUNT, OFF_FILE_LEN, OFF_GUID, GUID_LEN.
    f_equal. f_equal.
    + rewrite slice_put_above by stored_len. rewrite slice_put_above by stored_len.
      assert (Hs := slice_put_same (74 + 16 * n) guid (qshrink4_data s)).
      rewrite Hg in Hs. apply Hs. lia.
    + rewrite get_le_put_above by stored_len. rewrite get_le_put_same by stored_len. apply Z.mod_small. lia.
Qed.

Lemma take_snoc {A} n (l : list A) x :
  take n (l ++ [x]) = (if decide (length (take n l) < n)%nat then take n l ++ [x] else take n l).
Proof.
  rewrite length_take. case_decide.
  - rewrite !take_ge by len. done.
  - rewrite take_app_le by lia. done.
Qed.

Lemma file_list_runs E (w : world qsys st) buf :
  listing (loc w) -> bytes buf -> 5118 <= len buf ->
  runs E (process_qsr4_db_file_list_response buf) w (fun _ w' =>
    listing (loc w') /\ files (loc w') = take 16 (files (loc w) ++ listed buf)).
Proof.
  intros Hw Hb Hlen. unfold len in Hlen. unfold process_qsr4_db_file_list_response, listed.
  assert (Hf16 : take 16 (files (loc w)) = files (loc w)).
  { apply take_ge. rewrite length_files. destruct Hw as [[? [? ?]]]. unfold MAX_GUID_ENTRIES in *. lia. }
  apply runs_bind. eapply runs_of_option; [apply rd_fits; lia|].
  destruct (get_le 16 1 buf =? 0); [|apply runs_ret; rewrite app_nil_r; auto].
  apply runs_bind. eapply runs_of_option; [apply rd_fits; lia|].
  assert (Hn := get_le_range 17 1 buf Hb).
  eapply runs_forM with (I := fun pre w' => listing (loc w') /\
    files (loc w') = take 16 (files (loc w) ++ concat (map (entry buf) pre))).
  { cbn. by rewrite app_nil_r. }
  intros pre i rest w' Hseq [Hw' Hf].
  assert (Hi : (i < 255)%nat).
  { assert (Hin : i ∈ seq 0 (Z.to_nat (get_le 17 1 buf)))
      by (rewrite Hseq, elem_of_app; right; left).
    apply elem_of_seq in Hin. lia. }
  apply runs_bind. eapply runs_of_option; [apply rd_fits; lia|].
  rewrite map_app, concat_app, app_assoc. cbn [map concat]. rewrite app_nil_r. unfold entry at 2.
  destruct (get_le (18 + 20 * i + 16) 4 buf =? 0) eqn:E0; cbn [negb].
  { apply runs_ret. by rewrite app_nil_r. }
  apply runs_bind. eapply runs_of_option; [apply rd_bytes_fits; lia|].
  apply runs_bind, runs_gets.
  eapply runs_mono; [apply insert_guid_runs; [done|by rewrite length_slice by lia]|].
  cbn beta. intros _ w'' [Hw'' Hd]. split; [done|].
  rewrite take_snoc, <-Hf, length_files.
  destruct (inv_count _ _ (li_inv _ Hw')) as [Hc0 Hc1].
  destruct (decide (entry_count (loc w') < 16)); case_decide; try lia.
  - eapply files_insert; [apply Hw'|by rewrite length_slice by lia| | | |exact Hd]; [lia|lia|].
    by apply (get_le_range _ 4).
  - unfold files, entry_count, guid_of, guid_file_len. by rewrite Hd.
Qed.

Lemma create_stays fuel fd : stays (inv (fun _ => True)) (mdm_create_qshrink4_file fuel fd).
Proof.
  assert (H1 : forall b, stays (inv (fun _ => True)) (for_u8 fuel b (download_one fuel)))
    by (intros b; apply for_u8_stays; intros i; apply download_one_stays).
  assert (H2 : stays (inv (fun _ => True)) mdm_add_qshrink4_header)
    by (eapply stays_keeps; apply add_header_ok).
  unfold mdm_create_qshrink4_file, upd. stay upd_tac.
  apply for_u8_stays. intros i. stay upd_tac.
Qed.

Lemma runs_at a i (buf : list Z) E (w : world qsys st) (Q : Z -> world qsys st -> Prop) :
  0 <= i -> buf !! Z.to_nat i = Some a -> Q a w -> runs E (at_ i buf) w Q.
Proof.
  intros Hi Ha HQ. unfold at_. rewrite (proj2 (Z.leb_le _ _)) by done.
  by eapply runs_of_option.
Qed.

(** ** The saved header *)

Lemma add_header_runs E (w : world qsys st) n :
  inv (fun _ => True) (loc w) -> entry_count (loc w) = Z.of_nat n ->
  runs E mdm_add_qshrink4_header w (fun _ w' =>
    length (qshrink4_data (loc w')) = sizeof_qshrink4_header /\
    get_le 0 4 (qshrink4_data (loc w')) = 14 + 63 * Z.of_nat n /\
    slice (78 + 16 * n) (47 * n) (qshrink4_data (loc w')) = take (47 * n) (diagid_guid (loc w))).
Proof.
  intros Hi Hc. assert (Hn := inv_count _ _ Hi). unfold MAX_GUID_ENTRIES in Hn.
  assert (Hl := inv_header _ _ Hi). assert (Hg := inv_guid _ _ Hi).
  unfold sizeof_qshrink4_header, MAX_GUID_ENTRIES, sizeof_diagid_guid in *.
  destruct w as [s hs]. cbn [loc] in *.
  replace (World s hs) with (World (with_tables s (qshrink4_data s) (diagid_guid s)) hs : world qsys st)
    by (by rewrite with_tables_self).
  unfold mdm_add_qshrink4_header. rsteps. cbn [loc].
  change (entry_count (with_tables s (qshrink4_data s) (diagid_guid s))) with (entry_count s).
  rewrite Hc, Nat2Z.id in *. unfold OFF_GUID, GUID_LEN, sizeof_diagid_guid.
  apply put_header_runs; [cbn [length]; lia|]. rsteps.
  apply put_header_runs; [rewrite length_put by (cbn [length]; lia); cbn [length]; lia|]. rsteps.
  apply put_header_runs; [rewrite length_le_bytes, !length_put;
    rewrite ?length_put; cbn [length]; lia|]. rsteps.
  eapply runs_of_option; [apply rd_bytes_fits; cbn [loc diagid_guid with_tables set_field]; lia|].
  change (diagid_guid (loc (World (with_tables s ?[h] (diagid_guid s)) hs))) with (diagid_guid s).
  assert (Hs : length (slice 0 (n * 47) (diagid_guid s)) = (n * 47)%nat)
    by (apply length_slice; lia).
  apply runs_bind, put_header_runs; [cbn [length]; stored_len|].
  apply put_header_runs; [cbn [length]; stored_len|]. cbn [loc].
  change (qshrink4_data (with_tables s ?h ?g)) with h. cbn [qshrink4_data with_tables set_field].
  split_and!.
  - stored_len.
  - rewrite get_le_put_same by stored_len. unfold u32.
    rewrite (Z.mod_small (_ + _ + _ + _)) by lia. rewrite Z.mod_small by lia. lia.
  - rewrite slice_put_above by stored_len.
    replace (78 + 16 * n)%nat with (74 + 16 * n + 4)%nat by lia.
    replace (47 * n)%nat with (length (slice 0 (n * 47) (diagid_guid s))) at 1 by lia.
    rewrite slice_put_same by stored_len. unfold slice. rewrite drop_0. f_equal. lia.
Qed.

(** ** The handlers stay inside their buffers *)

(** The names of the [n] entries at [e] end within the bytes that are copied. *)
Fixpoint entries_readable (n e : nat) (buf : list Z) : bool :=
  match n with
  | O => true
  | S n' => has_nul (take 30 (drop (e + 2) buf)) && entries_readable n' (e + Z.to_nat (get_le (e + 1) 1 buf) + 2) buf
  end.

(** A receive buffer that the handlers do not read past: it has room for a file
    list, and what a diag-id response and a read response announce is in it. *)
Record readable (pkt : list Z) : Prop := {
  rb_bytes : bytes pkt;
  rb_size : 5118 <= len pkt;
  rb_ids : get_le 0 1 pkt = DIAG_SUBSYS_CMD_F -> get_le 1 1 pkt = DIAG_SUBSYS_DIAG_SERV ->
    get_le 2 2 pkt = DIAG_GET_DIAG_ID -> entries_readable (Z.to_nat (get_le 5 1 pkt)) 6 pkt = true;
  rb_read : get_le 0 1 pkt = DIAG_SUBSYS_CMD_VER_2_F -> get_le 14 2 pkt = DIAGDIAG_FILE_READ_OPERATION ->
    27 + get_le 22 4 pkt <= len pkt;
}.

Lemma lookup_put_out off v (l : list Z) k : (off + length v <= length l)%nat -> (k < off \/ off + length v <= k)%nat ->
  put off v l !! k = l !! k.
Proof.
  intros Hl [Hk|Hk]; unfold put.
  - by rewrite lookup_app_l, lookup_take_lt by len.
  - rewrite lookup_app_r by len. rewrite lookup_app_r by len. rewrite lookup_drop. f_equal. len.
Qed.

Lemma lookup_put_in off v (l : list Z) k : (off + length v <= length l)%nat -> (k < length v)%nat ->
  put off v l !! (off + k)%nat = v !! k.
Proof.
  intros Hl Hk. unfold put. rewrite lookup_app_r by len. rewrite lookup_app_l by len. f_equal. len.
Qed.

Lemma strncpy_terminated off (mem : list Z) : has_nul (take 30 (drop off mem)) = true ->
  exists v, strncpy_from 30 off mem = Some v /\ length v = 30%nat /\ v !! 29%nat = Some 0.
Proof.
  intros H. unfold strncpy_from. rewrite H. eexists. split; [done|].
  assert (Hc : forall l, has_nul l = true -> (length (cstr l) < length l)%nat).
  { clear. induction l as [|b l IH]; intros H; cbn in *; [done|]. destruct (b =? 0); cbn in *; [lia|]. apply IH in H. lia. }
  apply Hc in H. rewrite length_take in H. split; [len|].
  rewrite lookup_app_r by lia. apply lookup_replicate. lia.
Qed.

Lemma listing_table s t : listing s -> length t = (32 * NUM_PROC)%nat -> t !! 319%nat = Some 0 ->
  listing (s <| diag_id_table := t |>).
Proof. intros [[] _] Hl Ht. split; [by constructor|exact Ht]. Qed.

(** A store into the diag-id table that leaves its last byte alone or zero. *)
Lemma put_table_runs E off v (w : world qsys st) (Q : unit -> world qsys st -> Prop) :
  listing (loc w) -> (off + length v <= 320)%nat -> ((off + length v <= 319)%nat \/ v !! (319 - off)%nat = Some 0) ->
  (forall w', listing (loc w') -> diag_id_count (loc w') = diag_id_count (loc w) -> Q tt w') ->
  runs E (put_table off v) w Q.
Proof.
  intros Hw Hv Hz HQ. pose proof (inv_table _ _ (li_inv _ Hw)) as Hl. unfold NUM_PROC in Hl.
  apply store_at_runs; [lia|]. apply HQ; [|done]. cbn [loc]. apply listing_table; [done| |].
  - rewrite length_put by lia. exact Hl.
  - destruct Hz as [Hz|Hz]; [rewrite lookup_put_out by lia; apply Hw|].
    destruct (decide (off + length v <= 319)%nat); [rewrite lookup_put_out by lia; apply Hw|].
    pose proof (lookup_lt_Some _ _ _ Hz) as Hlt. replace 319%nat with (off + (319 - off))%nat at 1 by lia. rewrite lookup_put_in by lia. exact Hz.
Qed.

Lemma insert_entry_safe buf e : has_nul (take 30 (drop (e + 2) buf)) = true ->
  safe listing (insert_diag_id_entry buf e) (fun _ => True).
Proof.
  intros Hn E w Hw. unfold insert_diag_id_entry, upd. rsteps.
  case_bool_decide as Hc; [by apply runs_ret|]. set (n := diag_id_count (loc w)) in *. unfold NUM_PROC in Hc.
  assert (Hfit : (e + 1 <= length buf)%nat).
  { destruct (decide (e + 2 < length buf)%nat); [lia|]. rewrite drop_ge in Hn by lia. done. }
  rsteps. eapply runs_of_option; [by apply rd_bytes_fits|]. rsteps.
  apply put_table_runs.
  { destruct Hw as [[] ?]. split; [constructor; cbn; try done; unfold NUM_PROC; lia|done]. }
  { rewrite length_slice by lia. lia. } { left. rewrite length_slice by lia. lia. }
  intros w1 Hw1 _. rsteps. destruct (strncpy_terminated _ _ Hn) as (v & Hv & Hlv & Hv29).
  eapply runs_of_option; [exact Hv|]. rsteps. apply put_table_runs; [done|lia| |].
  { destruct (decide (n = 9%nat)) as [->|]; [right; exact Hv29|left; lia]. }
  intros w2 Hw2 _. rsteps. destruct (c_string_in_table (32 * n + 2) (diag_id_table (loc w2))) as [name Hname];
    [apply Hw2|lia|]. eapply runs_of_option; [exact Hname|].
  apply put_table_runs; [done|cbn; lia|left; cbn; lia|]. by intros w3 Hw3 _.
Qed.

Lemma insert_entries_safe n : forall e buf, entries_readable n e buf = true ->
  safe listing (insert_entries n e buf) (fun _ => True).
Proof.
  induction n as [|n IH]; intros e buf H; cbn [insert_entries entries_readable] in *; [by apply safe_ret|].
  apply andb_prop in H as [Hn H]. apply (safe_bind _ _ _ (fun _ => True)); [by apply insert_entry_safe|].
  intros _ _. assert (Hfit : (e + 2 <= length buf)%nat).
  { destruct (decide (e + 2 <= length buf)%nat); [done|]. rewrite drop_ge in Hn by lia. done. }
  rewrite rd_fits by lia. apply safe_bind_of_option; [by eexists|]. intros l [= <-]. by apply IH.
Qed.

Lemma file_list_safe buf : bytes buf -> 5118 <= len buf ->
  safe listing (process_qsr4_db_file_list_response buf) (fun _ => True).
Proof. intros Hb Hl E w Hw. eapply runs_mono; [by apply file_list_runs|]. by intros ? ? [? _]. Qed.

(** An update of a variable outside the tables, and a read inside the buffer. *)
Ltac handler_tac :=
  first [ by eexists
        | by intros ? [[] ?]; split; [constructor|]
        | rewrite rd_fits by (unfold len in *; lia); by eexists
        | rewrite rd_bytes_fits by (unfold len in *; lia); by eexists ].

Section Handlers.
Context (buf : list Z) (Hr : readable buf).

Lemma rb_room : (100 <= length buf)%nat.
Proof using Hr. pose proof (rb_size _ Hr). unfold len in *. lia. Qed.

Lemma open_rsp_safe : safe listing (process_qsr_db_file_open_rsp buf) (fun _ => True).
Proof using Hr. pose proof rb_room. unfold process_qsr_db_file_open_rsp, upd. safes handler_tac. Qed.

Lemma close_rsp_safe : safe listing (process_qsr_db_file_close_rsp buf) (fun _ => True).
Proof using Hr. pose proof rb_room. unfold process_qsr_db_file_close_rsp, upd. safes handler_tac. Qed.

Lemma read_rsp_safe : 27 + get_le 22 4 buf <= len buf ->
  safe listing (process_qsr_db_file_read_delayed_rsp buf) (fun _ => True).
Proof using Hr.
  intros Hn. pose proof rb_room. pose proof (get_le_range 22 4 buf (rb_bytes _ Hr)) as Hrange.
  unfold process_qsr_db_file_read_delayed_rsp, upd. rewrite !rd_fits by lia.
  apply safe_bind_of_option; [by eexists|]. intros status [= <-]. destruct (_ =? 0); [|by apply safe_ret].
  apply safe_bind_of_option; [by eexists|]. intros num [= <-].
  rewrite rd_bytes_fits by (unfold len in Hn; lia). safes handler_tac.
Qed.

Lemma accel_safe : safe listing (process_diag_hw_accel_query_rsp 0 buf) (fun _ => True).
Proof using Hr.
  pose proof rb_room. unfold process_diag_hw_accel_query_rsp, upd. safes handler_tac.
  apply (safe_bind _ _ _ (fun _ => True)); [|intros _ _; by apply safe_ret].
  apply safe_forM. intros i Hi%elem_of_seq. unfold DIAG_HW_ACCEL_TYPE_STM, DIAG_HW_ACCEL_TYPE_MAX in Hi.
  rewrite rd_fits by lia. apply safe_bind_of_option; [by eexists|]. intros sup _.
  apply safe_bind_gets. intros s Hs. pose proof (inv_accel _ _ (li_inv _ Hs)) as Ha.
  rewrite write1_lt by lia. apply safe_bind_of_option; [by eexists|]. intros t [= <-].
  apply safe_modify; [|done]. intros ? [[] ?]. split; [constructor; cbn; rewrite ?length_insert; auto|done].
Qed.
#[local] Hint Resolve open_rsp_safe close_rsp_safe accel_safe : safe.

Lemma qdss_rsp_safe : safe listing (diag_qdss_handle_response buf) (fun _ => True).
Proof using Hr. pose proof rb_room. unfold diag_qdss_handle_response, upd. safes handler_tac. Qed.

Lemma dpl_rsp_safe : safe listing (diag_dpl_handle_response buf) (fun _ => True).
Proof using Hr. pose proof rb_room. unfold diag_dpl_handle_response, upd. safes handler_tac. Qed.

Lemma diag_id_rsp_safe : entries_readable (Z.to_nat (get_le 5 1 buf)) 6 buf = true ->
  safe listing (process_diag_id_response buf) (fun _ => True).
Proof using Hr.
  intros He. pose proof rb_room. unfold process_diag_id_response. rewrite !rd_fits by lia.
  do 2 (apply safe_bind_of_option; [by eexists|]; intros ? _; case_match; [by apply safe_ret|]).
  apply safe_bind_of_option; [by eexists|]. intros num [= <-]. by apply insert_entries_safe.
Qed.

Lemma dispatch_safe : safe listing (mdm_handle_data_for_command_rsp buf) (fun _ => True).
Proof using Hr.
  pose proof rb_room. pose proof (file_list_safe buf (rb_bytes _ Hr) (rb_size _ Hr)).
  pose proof qdss_rsp_safe. pose proof dpl_rsp_safe.
  unfold mdm_handle_data_for_command_rsp, upd. apply safe_bind_get. intros s Hs. rewrite !rd_fits by lia.
  apply safe_bind_of_option; [by eexists|]. intros b0 [= <-].
  apply safe_bind_of_option; [by eexists|]. intros b1 [= <-].
  apply safe_bind_of_option; [by eexists|]. intros b2 _.
  destruct (negb (diag_id_state s =? 0)).
  { destruct (is_bad _ _ _ _ _); [by apply safe_ret|].
    apply safe_bind_of_option; [by eexists|]. intros code [= <-].
    destruct (_ && _) eqn:Hc; [|by apply safe_ret].
    rewrite !andb_true_iff, !Z.eqb_eq in Hc. destruct Hc as [[C0 C1] C2].
    apply diag_id_rsp_safe. by apply (rb_ids _ Hr). }
  destruct (negb (diag_disable_qtrace_state s =? 0)); [safes handler_tac|].
  destruct (negb (parser_state s =? 0)); [|safes handler_tac].
  destruct (is_bad _ _ _ _ _); [by apply safe_ret|].
  apply safe_bind_of_option; [by eexists|]. intros code [= <-].
  destruct (_ && _) eqn:Hc; [|by apply safe_ret]. rewrite !andb_true_iff, !Z.eqb_eq in Hc. destruct Hc as [[C0 _] _].
  apply safe_bind_of_option; [by eexists|]. intros opcode [= <-].
  apply safe_bind_of_option; [by eexists|]. intros version _.
  destruct (negb _); [by apply safe_ret|]. destruct (_ =? DIAGDIAG_FILE_LIST_OPERATION); [done|].
  destruct (_ =? DIAGDIAG_FILE_OPEN_OPERATION); [apply open_rsp_safe|].
  destruct (_ =? DIAGDIAG_FILE_CLOSE_OPERATION); [apply close_rsp_safe|].
  destruct (Z.eqb_spec (get_le 14 2 buf) DIAGDIAG_FILE_READ_OPERATION) as [Ho|]; [|by apply safe_ret].
  apply read_rsp_safe. by apply (rb_read _ Hr).
Qed.
#[local] Hint Resolve dispatch_safe : safe.

Lemma handle_pkt_safe : safe listing (mdm_handle_diag_pkt_func buf) (fun _ => True).
Proof using Hr. pose proof rb_room. unfold mdm_handle_diag_pkt_func, upd. safes handler_tac. Qed.
End Handlers.

(** ** Properties *)

(** C26: the handler of a file-list response is memory-safe and exact for every
    packet the modem can send: whatever the bytes of the receive buffer, no
    access leaves a table, and the files of the header become those it had
    followed by those of the response with a non-zero length, in their order,
    cut off after the sixteen the header has room for. *)
Theorem file_list_response_correct E (w : world qsys st) buf :
  listing (loc w) -> bytes buf -> 5118 <= len buf ->
  exists w', process_qsr4_db_file_list_response buf E w = Done tt w' /\
    listing (loc w') /\ files (loc w') = take 16 (files (loc w) ++ listed buf).
Proof.
  intros Hw Hb Hl. assert (H := file_list_runs E w buf Hw Hb Hl). unfold runs in H.
  destruct (process_qsr4_db_file_list_response buf E w) as [[] w'| | |]; [|done..].
  by exists w'.
Qed.

(** The download of one database file ends whatever the modem answers: for
    a file of [T] bytes, as long as [T] leaves room for one more block below
    2^32, [turns T 0] read requests and one more are enough, and the tables of
    the program keep their size meanwhile. *)
Theorem read_whole_file_terminates T fuel E w :
  0 <= T <= 2 ^ 32 - 4000 -> (turns T 0 < fuel)%nat -> inv (eq T) (loc w) ->
  match read_whole_file fuel E w with
  | Done _ w' | Exit _ w' => inv (eq T) (loc w')
  | Undef => True
  | NoFuel => False
  end.
Proof.
  intros HT Hf Hw. assert (H := read_whole_file_ok T fuel HT Hf E w Hw). unfold holds in H.
  destruct (read_whole_file fuel E w); tauto.
Qed.

(** C38: no response of the modem breaks the tables.  Whatever packets arrive and
    whatever request is pending, the handlers end without undefined behaviour:
    no store leaves a table, there are at most 16 files and 10 diag ids, every
    buffer keeps its declared size, and the names of the diag-id table stay
    terminated.  The handlers read the packets without a look at their length,
    so this is for packets that are [readable]: the receive buffer is large
    enough for a file list, the entries of a diag-id response stay inside it with
    their names terminated within 30 bytes, and the block of a read response
    does, too. *)
Theorem responses_keep_tables E (w : world qsys st) pkts :
  listing (loc w) -> Forall readable pkts ->
  runs E (forM pkts mdm_handle_diag_pkt_func) w (fun _ w' => listing (loc w')).
Proof.
  intros Hw Hp. eapply runs_mono; [apply (safe_forM listing); [|done]|by intros ? ? []].
  intros pkt Hin. rewrite Forall_forall in Hp. by apply handle_pkt_safe, Hp.
Qed.

(** The whole acquisition (mask reset, diag-id query, file lists, downloads,
    header) leaves the tables with these sizes and counts, wherever it ends. *)
Theorem acquisition_keeps_tables fuel fd E w :
  inv (fun _ => True) (loc w) ->
  match mdm_create_qshrink4_file fuel fd E w with
  | Done _ w' | Exit _ w' => inv (fun _ => True) (loc w')
  | _ => True
  end.
Proof. intros Hw. exact (create_stays fuel fd E w Hw). Qed.

(** Mdm_send_cmd ends on every command buffer in which no 0x7E 0x01 that
    follows a 0x7E has a length field of 0xFFFB, whatever the modem answers
    meanwhile. *)
Theorem mdm_send_cmd_terminates X fd buf size sync E w :
  progresses buf size -> inv X (loc w) ->
  match mdm_send_cmd fd buf size sync E w with
  | Done _ w' | Exit _ w' => inv X (loc w')
  | Undef => True
  | NoFuel => False
  end.
Proof.
  intros Hp Hw. assert (H := mdm_send_cmd_ok X fd buf size sync Hp E w Hw). unfold holds in H.
  destruct (mdm_send_cmd fd buf size sync E w); tauto.
Qed.

(** Mdm_send_cmd's step stands still at the remaining places: with a
    length field that wraps [len] to zero it writes nothing and comes back to
    the same position. *)
Theorem send_one_stands_still E (w : world qsys st) fd buf size i retry :
  stuck_at buf i = true -> Z.of_nat i <= size ->
  exists w', send_one fd buf size false (Z.of_nat i) retry E w = Done (Z.of_nat i, retry) w' /\
    loc w' = loc w /\ exists r, hist w' = Ev (PollWrite fd [] 1000) r :: hist w.
Proof.
  intros Hst Hi. unfold stuck_at in Hst.
  destruct (buf !! (i - 1)%nat) as [p|] eqn:Hp, (buf !! i) as [a|] eqn:Ha,
    (buf !! (i + 1)%nat) as [b|] eqn:Hb, (buf !! (i + 2)%nat) as [c|] eqn:Hc,
    (buf !! (i + 3)%nat) as [d|] eqn:Hd; try done.
  rewrite !andb_true_iff, Nat.ltb_lt, !Z.eqb_eq in Hst.
  destruct Hst as ((((H0 & ->) & ->) & ->) & Hlen).
  enough (H : runs E (send_one fd buf size false (Z.of_nat i) retry) w (fun r w' =>
    r = (Z.of_nat i, retry) /\ loc w' = loc w /\
    exists r, hist w' = Ev (PollWrite fd [] 1000) r :: hist w)).
  { unfold runs in H. destruct (send_one _ _ _ _ _ _ E w) as [r w'| | |]; [|done..].
    destruct H as (-> & ?). by exists w'. }
  unfold send_one, command_end, nonhdlc_command.
  apply runs_bind, runs_bind. apply (runs_at c); [lia|by rewrite <-Hc; f_equal; lia|].
  apply runs_bind, (runs_at d); [lia|by rewrite <-Hd; f_equal; lia|].
  rewrite Hlen.
  apply runs_bind, runs_bind, (runs_at 0x7e); [lia|by rewrite Nat2Z.id|].
  apply runs_bind, (runs_at 0x01); [lia|by rewrite <-Hb; f_equal; lia|].
  rewrite (proj2 (Z.leb_le _ _)) by lia. cbn [Z.eqb Pos.eqb andb].
  apply runs_bind, (runs_at 0x7e); [lia|by rewrite <-Hp; f_equal; lia|].
  apply runs_ret. cbn [Z.eqb Pos.eqb]. apply runs_ret.
  apply runs_bind, (runs_at 0x7e); [lia|by rewrite <-Hp; f_equal; lia|]. cbn [Z.eqb Pos.eqb orb].
  apply runs_bind, runs_bind, runs_ret, runs_bind.
  eapply runs_of_option.
  { apply rd_bytes_fits. apply lookup_lt_Some in Ha. lia. }
  apply runs_bind, runs_call, runs_ret, runs_ret.
  replace (Z.to_nat (Z.of_nat i + (0 - 1) - Z.of_nat i + 1)) with O by lia.
  split; [f_equal; lia|]. split; [done|]. by eexists.
Qed.

(** The header saved in front of a log leaves out the end of its diag-id
    table: the length it states omits the 64 bytes of the file-length table, so
    of the 47 bytes of each of the [n] entries the last 64 in all are missing
    from what is written. *)
Theorem saved_header_truncated E (w : world qsys st) n :
  inv (fun _ => True) (loc w) -> entry_count (loc w) = Z.of_nat n ->
  exists w' image, mdm_add_qshrink4_header E w = Done tt w' /\
    rd_bytes 0 (Z.to_nat (get_le 0 4 (qshrink4_data (loc w')))) (qshrink4_data (loc w')) = Some image /\
    drop (78 + 16 * n) image = take (47 * n - 64) (diagid_guid (loc w)).
Proof.
  intros Hi Hc. assert (H := add_header_runs E w n Hi Hc). unfold runs in H.
  destruct (mdm_add_qshrink4_header E w) as [[] w'| | |]; [|done..].
  destruct H as (Hl & Hh & Hs). assert (Hn := inv_count _ _ Hi).
  unfold sizeof_qshrink4_header, MAX_GUID_ENTRIES in *.
  eexists w', _. split; [done|]. split; [apply rd_bytes_fits; lia|].
  rewrite Hh. unfold slice in *. rewrite drop_0.
  rewrite skipn_firstn_comm.
  replace (47 * n - 64)%nat with (Nat.min (47 * n - 64) (47 * n)) by lia.
  rewrite <-take_take, <-Hs, take_take. f_equal. lia.
Qed.

(** ** Witnesses *)

(** The program at start. *)
Definition idle : st :=
  St 0 0 0 0 0 0 (replicate sizeof_qshrink4_header 0) (replicate 752 0) 0 (replicate 320 0)
    0 (-1) None (-1) 0 0 (-1) 0 0 (replicate 100 0) 0 (-1) (replicate 50 0) (replicate 50 0)
    [0; 0; 0] 0 0 4 1 0 0 0 0 (-1).

Lemma idle_inv (X : Z -> Prop) : X 0 -> inv X idle.
Proof. intros HX. constructor; try exact HX; vm_compute; (reflexivity || (split; discriminate) || lia). Qed.

Lemma idle_listing : listing idle.
Proof. split; [by apply idle_inv|reflexivity]. Qed.

(** A response that lists two files, one of them empty. *)
Definition demo_list_rsp : list Z :=
  put 16 ([0; 2] ++ repeat 7 16 ++ le_bytes 4 0 ++ repeat 9 16 ++ le_bytes 4 5000)
    (repeat 0 (256 * 20)).

Lemma demo_list_rsp_bytes : bytes demo_list_rsp.
Proof. apply bytes_dec. vm_compute. reflexivity. Qed.

Lemma file_list_response_correct_witness :
  exists w', process_qsr4_db_file_list_response demo_list_rsp quiet (World idle []) = Done tt w' /\
    listing (loc w') /\ files (loc w') = take 16 (files idle ++ listed demo_list_rsp).
Proof.
  apply (file_list_response_correct quiet (World idle []) demo_list_rsp);
    [exact idle_listing | exact demo_list_rsp_bytes | vm_compute; discriminate].
Defined.

Lemma read_whole_file_terminates_witness :
  match read_whole_file 4 quiet (World (idle <| read_file_total_len := 9000 |>) []) with
  | Done _ w' | Exit _ w' => inv (eq 9000) (loc w')
  | Undef => True
  | NoFuel => False
  end.
Proof.
  apply (read_whole_file_terminates 9000 4 quiet (World (idle <| read_file_total_len := 9000 |>) []));
    [lia | vm_compute; lia |].
  destruct (idle_inv (fun _ => True) I). constructor; auto.
Defined.

(** A diag-id response with two processes, in a large buffer, and the first
    bytes of a read response of 100 bytes. *)
Definition demo_ids_rsp : list Z :=
  put 0 ([75; 18; 0x22; 0x02; 1; 2; 1; 9] ++ str "APPS/root" ++ [2; 14] ++ str "modem/root_pd" ++ [0])
    (repeat 0 (256 * 20)).
Definition demo_read_rsp : list Z :=
  put 0 ([128; 18] ++ le_bytes 2 0x0816 ++ repeat 0 8 ++ [1; 0; 2; 0; 0; 0; 0; 0; 0; 0] ++ le_bytes 4 100)
    (repeat 0 (256 * 20)).

Lemma demo_readable : Forall readable [demo_ids_rsp; demo_read_rsp].
Proof.
  constructor; [|constructor; [|constructor]].
  - split; [apply bytes_dec; by vm_compute|vm_compute; discriminate|by vm_compute|by vm_compute].
  - split; [apply bytes_dec; by vm_compute|vm_compute; discriminate|by vm_compute|vm_compute; discriminate].
Qed.

Definition asking_ids : st := idle <| g_mdm_req := 75 |> <| diag_id_state := 1 |>.

Lemma responses_keep_tables_witness :
  runs quiet (forM [demo_ids_rsp; demo_read_rsp] mdm_handle_diag_pkt_func) (World asking_ids [])
    (fun _ w' => listing (loc w')) /\
  match forM [demo_ids_rsp; demo_read_rsp] mdm_handle_diag_pkt_func quiet (World asking_ids []) with
  | Done _ w' => diag_id_count (loc w') = 2%nat /\ c_string 34 (diag_id_table (loc w')) = Some (str "modem/root_pd")
  | _ => False
  end.
Proof.
  split; [|by vm_compute]. apply (responses_keep_tables quiet (World asking_ids [])); [|exact demo_readable].
  destruct idle_listing as [[] ?]. split; [constructor|]; assumption.
Defined.

(** Two frames in one buffer. *)
Definition demo_cmds : list Z := [0x1d; 0x1c; 0x3b; 0x7e; 0x00; 0x78; 0xf0; 0x7e; 0; 0; 0].

Definition progresses_dec (buf : list Z) (size : nat) : bool :=
  forallb (fun i => negb (stuck_at buf i)) (seq 0 size).
Lemma progresses_check buf size : progresses_dec buf size = true -> progresses buf (Z.of_nat size).
Proof.
  intros H i Hi. unfold progresses_dec in H. rewrite forallb_forall in H.
  apply negb_true_iff, H, in_seq. lia.
Qed.

Lemma mdm_send_cmd_terminates_witness :
  match mdm_send_cmd 5 demo_cmds 8 true quiet (World idle []) with
  | Done _ w' | Exit _ w' => inv (fun _ => True) (loc w')
  | Undef => True
  | NoFuel => False
  end.
Proof.
  apply (mdm_send_cmd_terminates (fun _ => True) 5 demo_cmds 8 true quiet (World idle []));
    [apply (progresses_check demo_cmds 8); reflexivity | by apply idle_inv].
Defined.

Definition wrap_cmds : list Z := [0x1d; 0x7e; 0x7e; 0x01; 0xfb; 0xff; 0; 0x7e].

Lemma send_one_stands_still_witness :
  exists w', send_one 5 wrap_cmds 8 false 2 0 quiet (World idle []) = Done (2, 0) w' /\
    loc w' = idle /\ exists r, hist w' = Ev (PollWrite 5 [] 1000) r :: [].
Proof.
  apply (send_one_stands_still quiet (World idle []) 5 wrap_cmds 8 2 0); [reflexivity | lia].
Defined.

Definition two_files : st := idle <| qshrink4_data ::= put OFF_COUNT (le_bytes 4 2) |>.

Lemma two_files_inv : inv (fun _ => True) two_files.
Proof.
  destruct (idle_inv (fun _ => True) I).
  constructor; try assumption; vm_compute; (reflexivity || split; discriminate).
Qed.

Lemma saved_header_truncated_witness :
  exists w' image, mdm_add_qshrink4_header quiet (World two_files []) = Done tt w' /\
    rd_bytes 0 (Z.to_nat (get_le 0 4 (qshrink4_data (loc w')))) (qshrink4_data (loc w')) = Some image /\
    drop (78 + 16 * 2) image = take (47 * 2 - 64) (diagid_guid two_files).
Proof.
  apply (saved_header_truncated quiet (World two_files []) 2);
    [exact two_files_inv | vm_compute; reflexivity].
Defined.
