(* ===== verification/MdmProps.v ===== *)
(** The properties of the MDM client's configuration and log operations
    (Mdm.v). *)

From Stdlib Require Import ZArith Lia.
From S2P Require Import Prelude DiagPkt Crc Qsys Qshrink Mdm QshrinkInv.

(** ** How a configuration is sent *)

(** What was written to the modem, oldest first. *)
Fixpoint writes (h : list (io qsys)) : list (list Z) :=
  match h with
  | [] => []
  | Ev c _ :: h' =>
      writes h' ++ match c with PollWrite _ out _ => [out] | _ => [] end
  end.

Definition flagged (f : list Z) : list Z := f ++ [0x7e].

(** A command without its flag: long enough for the length field the code
    looks at. *)
Definition command (f : list Z) : Prop := (3 <= length f)%nat /\ Forall (fun b => b <> 0x7e) f.

(** The flag is found where it is. *)
Lemma find_flag_runs E (w : world qsys st) buf size p n (Q : Z -> world qsys st -> Prop) :
  (forall k, (k < n)%nat -> exists b, buf !! (p + k)%nat = Some b /\ b <> 0x7e) ->
  buf !! (p + n)%nat = Some 0x7e -> Z.of_nat (p + n) < size ->
  Q (Z.of_nat (p + n)) w ->
  runs E (find_flag size buf (Z.of_nat p)) w Q.
Proof.
  intros Hb He Hs HQ. unfold find_flag.
  assert (Hf : (n < S (length buf))%nat) by (apply lookup_lt_Some in He; lia).
  revert Hf. generalize (S (length buf)) as fuel. intros fuel Hf.
  revert p n Hb He Hs HQ Hf. induction fuel as [|fuel IH]; intros p n Hb He Hs HQ Hf; [lia|].
  cbn [iterM]. apply runs_bind, runs_bind. destruct n as [|n].
  - rewrite Nat.add_0_r in *. apply (runs_at 0x7e); [lia|by rewrite Nat2Z.id|].
    apply runs_ret, runs_ret. done.
  - destruct (Hb O) as (b&Hb0&Hne); [lia|]. rewrite Nat.add_0_r in Hb0.
    apply (runs_at b); [lia|by rewrite Nat2Z.id|].
    rewrite (proj2 (Z.eqb_neq b 0x7e)), (proj2 (Z.ltb_lt _ _)) by (done || lia). cbn [negb andb].
    apply runs_ret. cbn beta iota. replace (Z.of_nat p + 1) with (Z.of_nat (S p)) by lia.
    apply (IH (S p) n); [|by rewrite <-He; f_equal; lia|lia| |lia].
    + intros k Hk. destruct (Hb (S k)) as (b'&?&?); [lia|]. exists b'. split; [|done].
      rewrite <-H. f_equal. lia.
    + replace (S p + n)%nat with (p + S n)%nat by lia. done.
Qed.

(** One command of the buffer: found, written, nothing else. *)
Lemma send_one_runs E (w : world qsys st) fd pre f rest size retry
    (Q : Z * Z -> world qsys st -> Prop) :
  command f -> len pre + len f < size ->
  (forall r, Q (len pre + len f + 1, retry)
     (World (loc w) (Ev (PollWrite fd (flagged f) 1000) r :: hist w))) ->
  runs E (send_one fd (pre ++ flagged f ++ rest) size false (len pre) retry) w Q.
Proof.
  intros [Hl Hf] Hs HQ. set (buf := pre ++ flagged f ++ rest). unfold len in *.
  assert (Hin : forall k b, f !! k = Some b -> buf !! (length pre + k)%nat = Some b).
  { intros k b Hk. unfold buf, flagged. rewrite lookup_app_r by lia.
    replace (length pre + k - length pre)%nat with k by lia.
    rewrite <-app_assoc. apply lookup_lt_Some in Hk as Hlt. by rewrite lookup_app_l by lia. }
  assert (Hflag : buf !! (length pre + length f)%nat = Some 0x7e).
  { unfold buf, flagged. rewrite lookup_app_r by lia.
    replace (length pre + length f - length pre)%nat with (length f) by lia.
    rewrite <-app_assoc, lookup_app_r by lia. by rewrite Nat.sub_diag. }
  destruct f as [|f0 [|f1 [|f2 f']]]; cbn [length] in Hl; try lia.
  set (f := f0 :: f1 :: f2 :: f') in *.
  assert (H3 : is_Some (buf !! (length pre + 3)%nat)).
  { destruct f' as [|f3 f'']; [by eexists|]. exists f3. by apply Hin. }
  destruct H3 as [c3 H3]. inversion Hf as [|? ? Hf0 Hf']; subst.
  unfold send_one, command_end, nonhdlc_command.
  apply runs_bind, runs_bind, (runs_at f2); [lia|rewrite <-(Hin 2%nat f2 eq_refl); f_equal; lia|].
  apply runs_bind, (runs_at c3); [lia|rewrite <-H3; f_equal; lia|].
  apply runs_bind, runs_bind, (runs_at f0); [lia|rewrite <-(Hin 0%nat f0 eq_refl); f_equal; lia|].
  apply runs_bind, (runs_at f1); [lia|rewrite <-(Hin 1%nat f1 eq_refl); f_equal; lia|].
  rewrite (proj2 (Z.eqb_neq f0 0x7e)) by done. cbn [andb]. apply runs_ret.
  apply runs_bind, (runs_at f0); [lia|rewrite <-(Hin 0%nat f0 eq_refl); f_equal; lia|].
  rewrite (proj2 (Z.eqb_neq f0 0x7e)) by done. rewrite andb_false_r.
  apply (find_flag_runs E w buf size (length pre) (length f)); [|done|lia|].
  { intros k Hk. destruct (lookup_lt_is_Some_2 f k Hk) as [b Hb]. exists b.
    split; [by apply Hin|]. rewrite Forall_lookup in Hf. by apply (Hf k). }
  apply runs_bind, (runs_at 0x7e); [lia|by rewrite Nat2Z.id|].
  cbn [Z.eqb Pos.eqb orb]. apply runs_bind, runs_bind, runs_ret, runs_bind.
  eapply runs_of_option.
  { apply rd_bytes_fits. apply lookup_lt_Some in Hflag. lia. }
  apply runs_bind, runs_call, runs_ret, runs_ret.
  replace (slice _ _ buf) with (flagged f).
  { replace (Z.of_nat (length pre + length f) + 1) with
      (Z.of_nat (length pre) + Z.of_nat (length f) + 1) by lia. apply HQ. }
  unfold slice, buf. rewrite Nat2Z.id, drop_app_length.
  replace (Z.to_nat _) with (length (flagged f)) by (unfold flagged; rewrite length_app; cbn; lia).
  by rewrite take_app_length.
Qed.

Definition never_exits (E : env qsys) : Prop := forall h, E Z h ExitRequested <> 1.

Lemma send_loop_runs E fd fs pre rest fuel (w : world qsys st) :
  never_exits E -> Forall command fs -> (length fs < fuel)%nat ->
  let buf := pre ++ concat (map flagged fs) ++ rest in
  let size := len pre + len (concat (map flagged fs)) in
  runs E (iterM fuel (fun '(wc, retry) =>
    if wc <? size then
      quit ← call ExitRequested;
      if quit =? 1 then mret (inr tt)
      else if 3 <? retry then mret (inr tt)
      else next ← send_one fd buf size false wc retry; mret (inl next)
    else mret (inr tt)) (len pre, 0)) w
    (fun _ w' => loc w' = loc w /\ writes (hist w') = writes (hist w) ++ map flagged fs).
Proof.
  intros HE Hfs. revert pre fuel w. induction Hfs as [|f fs Hf Hfs IH]; intros pre fuel w Hfuel;
    cbn [length] in Hfuel; (destruct fuel as [|fuel]; [lia|]); cbn [iterM map concat].
  - change (len (@nil Z)) with 0. rewrite (proj2 (Z.ltb_ge _ _)) by lia.
    apply runs_bind, runs_ret, runs_ret. by rewrite app_nil_r.
  - assert (Hlf : len (flagged f) = len f + 1) by (unfold flagged, len; rewrite length_app; cbn [length]; lia).
    assert (Hcat : len (flagged f ++ concat (map flagged fs)) =
      len f + 1 + len (concat (map flagged fs))) by (rewrite <-Hlf; unfold len; rewrite length_app; lia).
    rewrite Hcat. assert (0 <= len (concat (map flagged fs))) by (unfold len; lia).
    assert (0 <= len f) by (unfold len; lia).
    rewrite (proj2 (Z.ltb_lt _ _)) by lia.
    apply runs_bind, runs_bind, runs_call.
    rewrite (proj2 (Z.eqb_neq _ 1)) by apply HE. cbn [Z.ltb Z.compare].
    apply runs_bind. rewrite <-app_assoc. apply send_one_runs; [done|lia|]. intros r.
    apply runs_ret. cbn beta iota.
    replace (len pre + len f + 1) with (len (pre ++ flagged f))
      by (unfold len in *; rewrite length_app; lia).
    replace (len pre + (len f + 1 + len (concat (map flagged fs))))
      with (len (pre ++ flagged f) + len (concat (map flagged fs)))
      by (unfold len in *; rewrite length_app; lia).
    rewrite app_assoc. eapply runs_mono; [apply IH; lia|].
    cbn [loc hist writes]. intros _ w' [Hl Hw]. rewrite app_nil_r in Hw.
    rewrite Hl, Hw, <-app_assoc. done.
Qed.

Lemma length_commands fs : Forall command fs -> (length fs <= length (concat (map flagged fs)))%nat.
Proof.
  induction 1 as [|f fs [Hl _] _ IH]; cbn [map concat length]; [done|].
  unfold flagged at 1. rewrite !length_app. cbn. lia.
Qed.

(** ** The log *)

(** What was written to descriptor [fd], oldest first. *)
Fixpoint logged (fd : Z) (h : list (io qsys)) : list (list Z) :=
  match h with
  | [] => []
  | Ev c _ :: h' =>
      logged fd h' ++
      match c with
      | LogfileSave fd' out | Write fd' out => if fd' =? fd then [out] else []
      | _ => []
      end
  end.

Definition save_all (logfd : Z) (chunks : list (list Z)) : Q unit :=
  forM chunks (fun c => mdm_logfile_save logfd c;; mret tt).

(** No command is pending and the log is of the format with a header. *)
Definition logging (s : st) : Prop := g_mdm_req s = -1 /\ use_qmdl2_v2 s <> 0.

Lemma save_runs E (w : world qsys st) logfd c (Q : Z -> world qsys st -> Prop) :
  logging (loc w) ->
  (header_length (loc w) = 0 -> Q (len c) w) ->
  (header_length (loc w) <> 0 -> mdm_miss_qmdlv2_logfd (loc w) <> logfd ->
    forall r, Q r (World (loc w) (Ev (LogfileSave logfd c) r :: hist w))) ->
  (forall h, header_length (loc w) <> 0 -> mdm_miss_qmdlv2_logfd (loc w) = logfd ->
    rd_bytes 0 (Z.to_nat (header_length (loc w))) (qshrink4_data (loc w)) = Some h ->
    forall r r', Q r (World ((loc w) <| mdm_miss_qmdlv2_logfd := -1 |>)
      (Ev (LogfileSave logfd c) r :: Ev (LogfileSave logfd h) r' :: hist w))) ->
  is_Some (rd_bytes 0 (Z.to_nat (header_length (loc w))) (qshrink4_data (loc w))) ->
  runs E (mdm_logfile_save logfd c) w Q.
Proof.
  intros [Hq Hv] H0 H1 H2 [h Hh]. unfold mdm_logfile_save, reader_chunk.
  apply runs_bind, runs_bind, runs_gets. rewrite Hq. cbn [Z.eqb Pos.eqb negb].
  apply runs_ret. rsteps. rewrite (proj2 (Z.eqb_neq (use_qmdl2_v2 (loc w)) 0)) by done.
  cbn [negb andb]. destruct (Z.eqb_spec (header_length (loc w)) 0) as [Hz|Hz].
  { apply runs_ret. auto. }
  apply runs_bind. destruct (Z.eqb_spec (mdm_miss_qmdlv2_logfd (loc w)) logfd) as [Hm|Hm].
  - unfold upd, header_image. rsteps. eapply runs_of_option; [exact Hh|]. rsteps. by apply H2.
  - rsteps. by apply H1.
Qed.

(** Without the header nothing is logged. *)
Lemma save_all_waiting E logfd chunks (w : world qsys st) :
  logging (loc w) -> header_length (loc w) = 0 ->
  runs E (save_all logfd chunks) w (fun _ w' => w' = w).
Proof.
  intros Hl H0. apply (runs_forM E chunks _ (fun _ w' => w' = w)); [done|].
  intros pre c rest w' _ ->. apply runs_bind, save_runs; try done.
  rewrite H0. by eexists.
Qed.

(** With the header written the chunks follow. *)
Lemma save_all_running E logfd chunks (w : world qsys st) :
  logging (loc w) -> header_length (loc w) <> 0 -> mdm_miss_qmdlv2_logfd (loc w) <> logfd ->
  is_Some (rd_bytes 0 (Z.to_nat (header_length (loc w))) (qshrink4_data (loc w))) ->
  runs E (save_all logfd chunks) w (fun _ w' =>
    loc w' = loc w /\ logged logfd (hist w') = logged logfd (hist w) ++ chunks).
Proof.
  intros Hl H0 Hm Hh. apply (runs_forM E chunks _ (fun pre w' =>
    loc w' = loc w /\ logged logfd (hist w') = logged logfd (hist w) ++ pre)).
  { by rewrite app_nil_r. }
  intros pre c rest w' _ [Hloc Hlog]. apply runs_bind, save_runs; rewrite ?Hloc; try done.
  intros _ _ r. apply runs_ret. cbn [loc hist logged].
  by rewrite Z.eqb_refl, Hlog, app_assoc.
Qed.

(** ** File names *)

Lemma hex_digit_inj a b : 0 <= a < 16 -> 0 <= b < 16 -> hex_digit a = hex_digit b -> a = b.
Proof. unfold hex_digit. intros. destruct (Z.ltb_spec a 10), (Z.ltb_spec b 10); lia. Qed.

Lemma length_hex_pad n v : length (hex_pad n v) = n.
Proof. revert v; induction n; intros v; cbn [hex_pad]; [done|]. rewrite length_app, IHn. cbn. lia. Qed.

Lemma hex_pad_inj n a b :
  0 <= a < 16 ^ Z.of_nat n -> 0 <= b < 16 ^ Z.of_nat n -> hex_pad n a = hex_pad n b -> a = b.
Proof.
  revert a b; induction n as [|n IH]; intros a b Ha Hb H; [cbn in Ha, Hb; lia|].
  rewrite Nat2Z.inj_succ, Z.pow_succ_r in Ha, Hb by lia.
  cbn [hex_pad] in H. apply app_inj_tail in H as [Hq Hr].
  apply hex_digit_inj in Hr; [|apply Z.mod_pos_bound; lia..].
  apply IH in Hq; [|split; [apply Z.div_pos; lia|apply Z.div_lt_upper_bound; lia]..].
  rewrite (Z.div_mod a 16), (Z.div_mod b 16) by lia. lia.
Qed.

Lemma hex_bytes_inj l1 l2 : length l1 = length l2 -> bytes l1 -> bytes l2 ->
  concat (map (hex_pad 2) l1) = concat (map (hex_pad 2) l2) -> l1 = l2.
Proof.
  revert l2; induction l1 as [|a l1 IH]; intros [|b l2] Hl H1 H2 H; try done.
  inversion H1; inversion H2; subst. cbn [map concat] in H.
  apply app_inj_1 in H as [Hab H]; [|by rewrite !length_hex_pad].
  apply hex_pad_inj in Hab; [|done..]. subst. f_equal. apply IH; auto.
Qed.

Lemma get_le_inj off n g1 g2 : bytes g1 -> bytes g2 ->
  (off + n <= length g1)%nat -> (off + n <= length g2)%nat ->
  get_le off n g1 = get_le off n g2 -> slice off n g1 = slice off n g2.
Proof.
  intros H1 H2 L1 L2 H. unfold get_le in H.
  rewrite <-(le_bytes_val (slice off n g1)), <-(le_bytes_val (slice off n g2))
    by (by apply bytes_slice).
  by rewrite H, !length_slice.
Qed.

Lemma guid_parts g : length g = 16%nat ->
  g = slice 0 4 g ++ slice 4 2 g ++ slice 6 2 g ++ slice 8 2 g ++ slice 10 6 g.
Proof. intros H. do 17 (destruct g as [|? g]; try done). Qed.

(** ** Properties *)

(** A configuration made of commands, each ended by its flag, is written to
    the modem command by command, complete and in order, whatever follows it
    in memory, and nothing else is written. *)
Theorem mdm_send_cmd_splits E (w : world qsys st) fd fs rest :
  never_exits E -> Forall command fs ->
  let buf := concat (map flagged fs) in
  exists w', mdm_send_cmd fd (buf ++ rest) (len buf) false E w = Done (len buf) w' /\
    loc w' = loc w /\ writes (hist w') = writes (hist w) ++ map flagged fs.
Proof.
  intros HE Hfs buf.
  enough (H : runs E (mdm_send_cmd fd (buf ++ rest) (len buf) false) w (fun r w' =>
    r = len buf /\ loc w' = loc w /\ writes (hist w') = writes (hist w) ++ map flagged fs)).
  { unfold runs in H. destruct (mdm_send_cmd _ _ _ _ E w) as [r w'| | |]; [|done..].
    destruct H as (-> & ?). by exists w'. }
  unfold mdm_send_cmd. apply runs_bind.
  eapply runs_mono; [apply (send_loop_runs E fd fs [] rest); [done|done|]|].
  - rewrite length_app. assert (H := length_commands fs Hfs). unfold buf. lia.
  - intros [] w' H. by apply runs_ret.
Qed.

Fixpoint split_flags (l cur : list Z) : list (list Z) :=
  match l with
  | [] => []
  | b :: l' => if b =? 0x7e then cur :: split_flags l' [] else split_flags l' (cur ++ [b])
  end.
Fixpoint unstuff (l : list Z) : list Z :=
  match l with
  | [] => []
  | b :: l' =>
      if b =? 0x7d then match l' with c :: l'' => Z.lxor c 0x20 :: unstuff l'' | [] => [] end
      else b :: unstuff l'
  end.
Definition payload (f : list Z) : list Z := let u := unstuff f in take (length u - 2) u.

Definition qlog_mdm_default_cmds : list (list Z) :=
  Eval vm_compute in map payload (split_flags qlog_mdm_default_cfg []).

(** The built-in configuration is well-formed: it is the framing - CRC,
    escapes, flag - of 75 commands, all of which fit the request format. *)
Theorem default_cfg_is_framed :
  qlog_mdm_default_cfg = concat (map wire qlog_mdm_default_cmds) /\
  length qlog_mdm_default_cmds = 75%nat /\ Forall bytes qlog_mdm_default_cmds.
Proof.
  split_and!; [vm_compute; reflexivity|reflexivity|].
  apply Forall_forall. intros c Hc. apply bytes_dec.
  assert (H : forallb (fun c => forallb (fun b => (0 <=? b) && (b <? 256)) c) qlog_mdm_default_cmds = true)
    by (vm_compute; reflexivity).
  rewrite forallb_forall in H. by apply H, list_elem_of_In.
Qed.

(** What a log that is begun while the header is missing holds: the header, as
    many bytes as its length field says, and every chunk from then on. *)
Lemma late_header_runs E (w : world qsys st) logfd before header chunk after :
  logging (loc w) -> header_length (loc w) = 0 -> logfd <> -1 -> 0 < get_le 0 4 header <= len header ->
  runs E (mdm_logfile_init logfd;; save_all logfd before;; upd qshrink4_data header;;
          save_all logfd (chunk :: after)) w (fun _ w' => logged logfd (hist w') =
    logged logfd (hist w) ++ take (Z.to_nat (get_le 0 4 header)) header :: chunk :: after).
Proof.
  intros [Hq Hv] H0 Hfd Hh.
  assert (Hrd : rd_bytes 0 (Z.to_nat (get_le 0 4 header)) header =
    Some (take (Z.to_nat (get_le 0 4 header)) header))
    by (rewrite rd_bytes_fits; [done|unfold len in Hh; lia]).
  unfold mdm_logfile_init. rsteps.
  rewrite (proj2 (Z.eqb_neq (use_qmdl2_v2 (loc w)) 0)) by done. rewrite H0. cbn [Z.eqb].
  unfold upd at 1. rsteps.
  eapply runs_mono; [apply save_all_waiting; [by split|exact H0]|].
  intros [] w' ->. unfold upd. rsteps. cbn [loc hist].
  unfold save_all. cbn [forM]. apply runs_bind, runs_bind, save_runs.
  - by split.
  - unfold header_length. cbn [loc qshrink4_data set_field]. lia.
  - intros _ Hm. by destruct Hm.
  - intros h _ _ Hrd' r r'. apply runs_ret.
    unfold header_length in Hrd'. cbn [loc qshrink4_data set_field] in Hrd'.
    assert (Hh' : h = take (Z.to_nat (get_le 0 4 header)) header) by congruence. subst h.
    eapply runs_mono; [apply save_all_running|].
    + by split.
    + unfold header_length. cbn [qshrink4_data set_field loc]. lia.
    + cbn. lia.
    + unfold header_length. cbn [qshrink4_data set_field loc]. by eexists.
    + intros [] w' [_ Hlog]. rewrite Hlog. cbn [hist logged]. rewrite !Z.eqb_refl.
      by rewrite <-!app_assoc.
  - unfold header_length. cbn [qshrink4_data set_field loc]. by eexists.
Qed.

(** A log that is begun when the header is known. *)
Lemma early_header_runs E (w : world qsys st) logfd after : let header := qshrink4_data (loc w) in
  logging (loc w) -> logfd <> -1 -> 0 < get_le 0 4 header <= len header ->
  runs E (mdm_logfile_init logfd;; save_all logfd after) w (fun _ w' => logged logfd (hist w') =
    logged logfd (hist w) ++ take (Z.to_nat (get_le 0 4 header)) header :: after).
Proof.
  intros header [Hq Hv] Hfd Hh.
  assert (Hrd : rd_bytes 0 (Z.to_nat (get_le 0 4 header)) header =
    Some (take (Z.to_nat (get_le 0 4 header)) header))
    by (rewrite rd_bytes_fits; [done|unfold len in Hh; lia]).
  unfold mdm_logfile_init, header_image, upd, header_length. rsteps.
  rewrite (proj2 (Z.eqb_neq (use_qmdl2_v2 (loc w)) 0)) by done. fold header.
  rewrite (proj2 (Z.eqb_neq (get_le 0 4 header) 0)) by lia. rsteps.
  cbn [loc qshrink4_data set_field]. fold header. eapply runs_of_option; [exact Hrd|]. rsteps.
  eapply runs_mono; [apply save_all_running|].
  - by split.
  - unfold header_length. cbn [qshrink4_data set_field loc]. fold header. lia.
  - cbn. lia.
  - unfold header_length. cbn [qshrink4_data set_field loc]. fold header. by eexists.
  - intros [] w' [_ Hlog]. rewrite Hlog. cbn [hist logged]. rewrite Z.eqb_refl. by rewrite <-app_assoc.
Qed.


(** Different databases are stored in different files: the file name of a
    16-byte GUID determines it. *)
Theorem guid_file_name_inj g1 g2 :
  length g1 = 16%nat -> length g2 = 16%nat -> bytes g1 -> bytes g2 ->
  guid_file_name g1 = guid_file_name g2 -> g1 = g2.
Proof.
  intros L1 L2 B1 B2 H. unfold guid_file_name in H.
  assert (R : forall off n g, bytes g -> 0 <= get_le off n g < 256 ^ Z.of_nat n)
    by (intros; by apply get_le_range).
  apply app_inj_1 in H as [H0 H]; [|by rewrite !length_hex_pad].
  apply app_inv_head in H. apply app_inj_1 in H as [H4 H]; [|by rewrite !length_hex_pad].
  apply app_inv_head in H. apply app_inj_1 in H as [H6 H]; [|by rewrite !length_hex_pad].
  assert (Hb : forall off n g, length (concat (map (hex_pad 2) (slice off n g))) = (2 * length (slice off n g))%nat).
  { intros off n g. generalize (slice off n g) as l. induction l as [|b l IH]; [done|].
    cbn [map concat length]. rewrite length_app, IH, length_hex_pad. lia. }
  apply app_inv_head in H. apply app_inj_1 in H as [H8 H];
    [|rewrite !Hb, !length_slice by lia; done].
  apply app_inv_head, app_inv_tail in H.
  apply hex_pad_inj in H0, H4, H6; try (by apply (R _ 4%nat) || by apply (R _ 2%nat)).
  apply get_le_inj in H0, H4, H6; try (done || lia).
  apply hex_bytes_inj in H8, H; try (by apply bytes_slice); try (rewrite !length_slice by lia; done).
  rewrite (guid_parts g1 L1), (guid_parts g2 L2). congruence.
Qed.

(** ** Witnesses *)

Lemma mdm_send_cmd_splits_witness :
  exists w', mdm_send_cmd 5 (concat (map flagged [[0x1d; 0x1c; 0x3b]; [0x00; 0x78; 0xf0]]) ++ [0; 0]) 8
      false quiet (World idle []) = Done 8 w' /\
    loc w' = idle /\ writes (hist w') = [] ++ map flagged [[0x1d; 0x1c; 0x3b]; [0x00; 0x78; 0xf0]].
Proof.
  apply (mdm_send_cmd_splits quiet (World idle []) 5 [[0x1d; 0x1c; 0x3b]; [0x00; 0x78; 0xf0]] [0; 0]).
  - intros h. discriminate.
  - repeat constructor; cbn; try lia; discriminate.
Defined.

Definition v2_log : st := idle <| use_qmdl2_v2 := 1 |>.
Definition short_header : list Z := put 0 (le_bytes 4 20) (replicate sizeof_qshrink4_header 0).


Lemma guid_file_name_inj_witness :
  repeat 7 16 = [7; 7; 7; 7; 7; 7; 7; 7; 7; 7; 7; 7; 7; 7; 7; 7].
Proof.
  apply (guid_file_name_inj (repeat 7 16)); try reflexivity; apply bytes_dec; reflexivity.
Defined.
