(* ===== verification/Sahara.v ===== *)
(** The Sahara memory dump (src/sahara.c, src/sahara.h): packets of the
    protocol, the receive and send functions, the state machine of
    [sahara_read_dump].

    The three buffers are lists at their allocated size (empty when NULL); a
    store or read outside one is [Undef].  Of the debug output only the reads of
    names that the device controls are modelled: a name without an end is read
    beyond its buffer.  The throughput statistics are not modelled. *)

From S2P Require Import Prelude Qsys.

(** ** Constants *)

Definition Q_SAHARA_RAW_BUF_SZ : Z := 128 * 1024.
Definition Q_SAHARA_ONE : Z := 0x01.
Definition Q_SAHARA_TWO : Z := 0x02.
Definition Q_SAHARA_SEVEN : Z := 0x07.
Definition Q_SAHARA_EIGTH : Z := 0x08.
Definition Q_SAHARA_NINE : Z := 0x09.
Definition Q_SAHARA_TEN : Z := 0x0A.
Definition Q_SAHARA_SIXTEEN : Z := 0x10.
Definition Q_SAHARA_SEVENTEEN : Z := 0x11.
Definition Q_SAHARA_NINETEEN : Z := 0x13.
Definition Q_SAHARA_STATUS_ZERO : Z := 0x00.
Definition Q_SAHARA_MODE_TWO : Z := 2.
Definition DLOAD_DEBUG_STRLEN_BYTES : nat := 20.

(** [sizeof] of the header, of the packets behind it, of the table entries. *)
Definition sizeof_pkt_h : Z := 8.
Definition sizeof_hello_response : Z := 40.
Definition sizeof_memory_read : Z := 8.
Definition sizeof_memory_read_64bit : Z := 16.
Definition sizeof_reset : Z := 0.
Definition sizeof_debug_type : Z := 52.
Definition sizeof_debug_type_64bit : Z := 64.

(** ** State *)

Inductive q_sahara_state :=
| Q_SAHARA_WAIT_ONE | Q_SAHARA_WAIT_TWO | Q_SAHARA_WAIT_THREE | Q_SAHARA_WAIT_FOUR
| Q_SAHARA_WAIT_FIVE | Q_SAHARA_WAIT_SIX | Q_SAHARA_WAIT_SEVEN | Q_SAHARA_WAIT_EIGHT.

Record sahara := Sahara {
  q_rx_buf : list Z;
  q_tx_buf : list Z;
  q_misc_buf : list Z;
  q_state : q_sahara_state;
  q_max_ram_dump_read : Z;
  q_mode : Z;
  q_ram_dump_64bit : bool;
  port_fd : Z;
  rx_timeout : Z;
  MAX_TO_READ : Z;
  path_to_save_files : option (list Z);
  do_reset : Z
}.

#[export] Instance eta_sahara : Eta sahara := fun s =>
  Sahara (q_rx_buf s) (q_tx_buf s) (q_misc_buf s) (q_state s) (q_max_ram_dump_read s)
    (q_mode s) (q_ram_dump_64bit s) (port_fd s) (rx_timeout s) (MAX_TO_READ s)
    (path_to_save_files s) (do_reset s).

Abbreviation D := (M qsys sahara).

Definition upd {A} (f : sahara -> A) `{!Setter f} (v : A) : D unit :=
  modify (set_field f (fun _ => v)).

Definition put_rx : nat -> list Z -> D unit := store_at q_rx_buf (fun b s => s <| q_rx_buf := b |>).
Definition put_tx : nat -> list Z -> D unit := store_at q_tx_buf (fun b s => s <| q_tx_buf := b |>).
Definition put_misc : nat -> list Z -> D unit :=
  store_at q_misc_buf (fun b s => s <| q_misc_buf := b |>).

(** A little-endian field of the received packet. *)
Definition rx_field (off n : nat) : D Z := b ← gets q_rx_buf; of_option (rd off n b).
Definition rx_cmd : D Z := rx_field 0 4.
Definition rx_len : D Z := rx_field 4 4.

(** ** The port *)

(** [qlog_poll_write]'s result is compared as a [size_t]. *)
Definition poll_write_all (out : list Z) : D bool :=
  fd ← gets port_fd;
  '(r, _) ← call (PollWrite fd out 1000);
  mret (u64 r =? len out).

Definition wakeUpDevice : D bool := poll_write_all [0x0c; 0x14; 0x3a; 0x7e].

Definition port_tx_data (out : list Z) : D bool := poll_write_all out.

(** The bytes read go to [q_rx_buf] at [off]: their number, [None] for false. *)
Definition port_rx_data (off : Z) (bytes_to_read : Z) : D (option Z) :=
  if bytes_to_read =? 0 then mret (Some 0)
  else
    s ← get;
    r ← call (SelectRead (port_fd s) (if 0 <=? rx_timeout s then rx_timeout s * 1000 else -1));
    if r <=? 0 then mret None
    else
      '(retval, data) ← sys_read (port_fd s) (Z.min bytes_to_read (MAX_TO_READ s));
      if retval <=? 0 then mret None
      else put_rx (Z.to_nat off) data;; mret (Some retval).

Definition sahara_tx_data (bytes_to_send : Z) : D bool :=
  tx ← gets q_tx_buf;
  out ← of_option (rd_bytes 0 (Z.to_nat bytes_to_send) tx);
  port_tx_data out.

(** A packet: its header, then as much as the header says. *)
Definition sahara_rx_packet : D bool :=
  put_rx 0 (replicate 8 0);;
  n ← port_rx_data 0 sizeof_pkt_h;
  match n with
  | None => mret false
  | Some temp_bytes_read =>
      if negb (temp_bytes_read =? sizeof_pkt_h) then mret false
      else
        cmd ← rx_cmd;
        if cmd <? Q_SAHARA_NINETEEN then
          q_len ← rx_len;
          let rest := u64 (q_len - sizeof_pkt_h) in
          n ← port_rx_data sizeof_pkt_h rest;
          match n with
          | None => mret false
          | Some temp_bytes_read =>
              q_len' ← rx_len;
              mret (temp_bytes_read =? u64 (q_len' - sizeof_pkt_h))
          end
        else mret false
  end.

(** [while (bytes_read < bytes_to_read)]: a successful read brings a byte. *)
Definition sahara_rx_bytes (bytes_to_read : Z) : D bool :=
  iterM (S (Z.to_nat bytes_to_read)) (fun bytes_read =>
    if bytes_read <? bytes_to_read then
      n ← port_rx_data bytes_read (bytes_to_read - bytes_read);
      match n with
      | None => mret (inr false)
      | Some temp_bytes_read => mret (inl (bytes_read + temp_bytes_read))
      end
    else mret (inr true)) 0.

Definition sahara_rx_data (bytes_to_read : Z) : D bool :=
  if bytes_to_read =? 0 then sahara_rx_packet else sahara_rx_bytes bytes_to_read.

(** ** Packets to the device *)

Definition send_reset_command : D bool :=
  put_tx 0 (le_bytes 4 Q_SAHARA_SEVEN);;
  put_tx 4 (le_bytes 4 (sizeof_reset + sizeof_pkt_h));;
  sahara_tx_data (sizeof_reset + sizeof_pkt_h).

Definition send_hello_response : D bool :=
  put_tx 0 (le_bytes 4 Q_SAHARA_TWO);;
  put_tx 4 (le_bytes 4 (sizeof_hello_response + sizeof_pkt_h));;
  q_ver ← rx_field 8 4;
  put_tx 8 (le_bytes 4 q_ver);;
  q_ver_sup ← rx_field 12 4;
  put_tx 12 (le_bytes 4 q_ver_sup);;
  put_tx 16 (le_bytes 4 Q_SAHARA_STATUS_ZERO);;
  mode ← rx_field 20 4;
  put_tx 20 (le_bytes 4 mode);;
  put_tx 24 (le_bytes 4 1 ++ le_bytes 4 2 ++ le_bytes 4 3 ++ le_bytes 4 4 ++ le_bytes 4 5 ++
    le_bytes 4 6);;
  want ← gets q_mode;
  if negb (mode =? want) then mret false
  else
    ok ← sahara_tx_data (sizeof_hello_response + sizeof_pkt_h);
    if negb ok then mret false
    else upd q_state Q_SAHARA_WAIT_TWO;; mret true.

Definition send_memory_read_packet (memory_table_address q_memory_table_length : Z) : D bool :=
  wide ← gets q_ram_dump_64bit;
  if (wide : bool) then
    put_tx 0 (le_bytes 4 Q_SAHARA_SEVENTEEN);;
    put_tx 4 (le_bytes 4 (sizeof_memory_read_64bit + sizeof_pkt_h));;
    put_tx 8 (le_bytes 8 memory_table_address);;
    put_tx 16 (le_bytes 8 q_memory_table_length);;
    sahara_tx_data (sizeof_memory_read_64bit + sizeof_pkt_h)
  else
    put_tx 0 (le_bytes 4 Q_SAHARA_TEN);;
    put_tx 4 (le_bytes 4 (sizeof_memory_read + sizeof_pkt_h));;
    put_tx 8 (le_bytes 4 memory_table_address);;
    put_tx 12 (le_bytes 4 q_memory_table_length);;
    sahara_tx_data (sizeof_memory_read + sizeof_pkt_h).

Definition is_valid_memory_table (wide : bool) (memory_table_size : Z) : bool :=
  if wide then memory_table_size mod sizeof_debug_type_64bit =? 0
  else memory_table_size mod sizeof_debug_type =? 0.

(** ** The state machine of [sahara_read_dump] *)

(** Its local variables. *)
Record locals := Locals {
  num_debug_entries : Z;
  q_memory_table_addr : Z;
  q_memory_table_length : Z
}.

(** What one turn of [while (1)] does: go on with these variables, or return. *)
Definition step_result : Type := locals + bool.

Definition wait_one (l : locals) : D step_result :=
  sahara_tx_data 1;;
  got ← sahara_rx_data 0;
  got' ← (if (got : bool) then mret (Some true)
          else
            woken ← wakeUpDevice;
            if negb woken then mret None
            else again ← sahara_rx_data 0; mret (if (again : bool) then Some true else None)
          : D (option bool));
  match got' with
  | None => mret (inr false)
  | Some _ =>
      cmd ← rx_cmd;
      if negb (cmd =? Q_SAHARA_ONE) then
        ok ← send_reset_command;
        if negb ok then mret (inr false)
        else upd q_state Q_SAHARA_WAIT_THREE;; mret (inl l)
      else
        ok ← send_hello_response;
        mret (if negb ok then inr false else inl l)
  end.

(** The table's place in a memory-debug packet. *)
Definition table_place (cmd : Z) : D (Z * Z) :=
  if cmd =? Q_SAHARA_SIXTEEN then
    upd q_ram_dump_64bit true;;
    a ← rx_field 8 8;
    n ← rx_field 16 8;
    mret (a, n)
  else
    upd q_ram_dump_64bit false;;
    a ← rx_field 8 4;
    n ← rx_field 12 4;
    mret (a, n).

Definition wait_two (l : locals) : D step_result :=
  got ← sahara_rx_data 0;
  if negb got then mret (inr false)
  else
    cmd ← rx_cmd;
    if (cmd =? Q_SAHARA_NINE) || (cmd =? Q_SAHARA_SIXTEEN) then
      '(addr, length) ← table_place cmd;
      let l' := Locals (num_debug_entries l) addr length in
      wide ← gets q_ram_dump_64bit;
      if negb (is_valid_memory_table wide length) then
        ok ← send_reset_command;
        if negb ok then mret (inr false)
        else upd q_state Q_SAHARA_WAIT_THREE;; mret (inl l')
      else if 0 <? length then
        ok ← send_memory_read_packet addr length;
        if negb ok then mret (inr false)
        else if Q_SAHARA_RAW_BUF_SZ <? length then mret (inr false)
        else upd q_state Q_SAHARA_WAIT_SEVEN;; mret (inl l')
      else upd q_state Q_SAHARA_WAIT_SEVEN;; mret (inl l')
    else if cmd =? Q_SAHARA_ONE then mret (inl l)
    else
      ok ← send_reset_command;
      if negb ok then mret (inr false)
      else upd q_state Q_SAHARA_WAIT_THREE;; mret (inl l).

(** One entry of a 32-bit table, widened into [q_misc_buf]. *)
Definition widen_entry (i : nat) : D unit :=
  save ← rx_field (52 * i) 4;
  put_misc (64 * i) (le_bytes 8 save);;
  base ← rx_field (52 * i + 4) 4;
  put_misc (64 * i + 8) (le_bytes 8 base);;
  n ← rx_field (52 * i + 8) 4;
  put_misc (64 * i + 16) (le_bytes 8 n);;
  rx ← gets q_rx_buf;
  name ← of_option (strncpy_from DLOAD_DEBUG_STRLEN_BYTES (52 * i + 32) rx);
  put_misc (64 * i + 44) name;;
  desc ← of_option (strncpy_from DLOAD_DEBUG_STRLEN_BYTES (52 * i + 12) rx);
  put_misc (64 * i + 24) desc.

(** The table of the regions, brought into [q_misc_buf]: its number of entries,
    [None] when the dump is given up. *)
Definition receive_table (l : locals) : D (option Z) :=
  let length := q_memory_table_length l in
  if 0 <? length then
    got ← sahara_rx_data length;
    if negb got then mret None
    else
      wide ← gets q_ram_dump_64bit;
      if (wide : bool) then
        rx ← gets q_rx_buf;
        t ← of_option (rd_bytes 0 (Z.to_nat length) rx);
        put_misc 0 t;;
        mret (Some (length / sizeof_debug_type_64bit))
      else
        let n := length / sizeof_debug_type in
        if Q_SAHARA_RAW_BUF_SZ <? n * sizeof_debug_type_64bit then mret None
        else forM (seq 0 (Z.to_nat n)) widen_entry;; mret (Some n)
  else mret (Some 0).

(** An entry is printed: its file name and its description are read as strings. *)
Definition entry_filename (i : nat) : D (list Z) :=
  b ← gets q_misc_buf; of_option (c_string (64 * i + 44) b).
Definition entry_desc (i : nat) : D (list Z) :=
  b ← gets q_misc_buf; of_option (c_string (64 * i + 24) b).
Definition print_entry (i : nat) : D unit := entry_filename i;; entry_desc i;; mret tt.

Definition wait_seven (l : locals) : D step_result :=
  n ← receive_table l;
  match n with
  | None => mret (inr false)
  | Some n =>
      forM (seq 0 (Z.to_nat n)) print_entry;;
      upd q_state Q_SAHARA_WAIT_EIGHT;;
      mret (inl (Locals n (q_memory_table_addr l) (q_memory_table_length l)))
  end.

(** Fields of entry [i] of the table in [q_misc_buf]. *)
Definition entry_mem_base (i : nat) : D Z := b ← gets q_misc_buf; of_option (rd (64 * i + 8) 8 b).
Definition entry_len (i : nat) : D Z := b ← gets q_misc_buf; of_option (rd (64 * i + 16) 8 b).

(** [full_filename\[255\]]: at most 250 characters of the path, a slash, the
    name of the region. *)
Definition full_filename (path : option (list Z)) (name : list Z) : option (list Z) :=
  let prefix := match path with Some p => take 250 p ++ str "/" | None => [] end in
  let full := prefix ++ name in
  if bool_decide (length full < 255)%nat then Some full else None.

(** One turn of the loop that reads a region of [q_len] bytes at [base] into
    the log file [fd]: the new position, or the value to return. *)
Definition region_step (fd base q_len cur : Z) : D (Z + bool) :=
  if cur <? q_len then
    max ← gets q_max_ram_dump_read;
    let len := Z.min (u32 (q_len - cur)) max in
    sent ← send_memory_read_packet (u64 (base + cur)) len;
    if negb sent then call (LogfileClose fd);; mret (inr false)
    else
      got ← sahara_rx_data len;
      if negb got then
        max ← gets q_max_ram_dump_read;
        if 16 * 1024 <? max then upd q_max_ram_dump_read (max / 2);; mret (inl cur)
        else call (LogfileClose fd);; mret (inr false)
      else
        rx ← gets q_rx_buf;
        data ← of_option (rd_bytes 0 (Z.to_nat len) rx);
        retval ← call (LogfileSave fd data);
        if s32 retval <? 0 then call (LogfileClose fd);; mret (inr false)
        else mret (inl (cur + len))
  else mret (inr true).

Definition read_region (fuel : nat) (fd base q_len : Z) : D bool :=
  iterM fuel (region_step fd base q_len) 0.

(** The regions of the table one after the other: [false] breaks off.  When a
    file cannot be created, the name that is printed is that of the entry behind
    the [num] entries of the table. *)
Fixpoint read_regions (fuel num : nat) (regions : list nat) : D bool :=
  match regions with
  | [] => mret true
  | i :: rest =>
      path ← gets path_to_save_files;
      name ← entry_filename i;
      full ← of_option (full_filename path name);
      q_len ← entry_len i;
      fd ← call (LogfileCreate 0 full q_len 1);
      if fd =? -1 then entry_filename num;; exit_ 0
      else
        base ← entry_mem_base i;
        ok ← read_region fuel fd base q_len;
        if negb ok then mret false
        else call (LogfileClose fd);; read_regions fuel num rest
  end.

Definition wait_eight (fuel : nat) (l : locals) : D step_result :=
  let num := Z.to_nat (num_debug_entries l) in
  ok ← read_regions fuel num (seq 0 num);
  if negb ok then mret (inr false)
  else
    reset ← gets do_reset;
    if negb (reset =? 0) then
      sent ← send_reset_command;
      if negb sent then mret (inr false)
      else upd q_state Q_SAHARA_WAIT_THREE;; mret (inl l)
    else mret (inr true).

Definition wait_three (l : locals) : D step_result :=
  got ← sahara_rx_data 0;
  cmd ← rx_cmd;
  if (got : bool) then mret (if negb (cmd =? Q_SAHARA_EIGTH) then inl l else inr true)
  else mret (inr (cmd =? Q_SAHARA_EIGTH)).

Definition dump_step (fuel : nat) (l : locals) : D step_result :=
  s ← gets q_state;
  match s with
  | Q_SAHARA_WAIT_ONE => wait_one l
  | Q_SAHARA_WAIT_TWO => wait_two l
  | Q_SAHARA_WAIT_SEVEN => wait_seven l
  | Q_SAHARA_WAIT_EIGHT => wait_eight fuel l
  | Q_SAHARA_WAIT_THREE => wait_three l
  | Q_SAHARA_WAIT_FOUR | Q_SAHARA_WAIT_FIVE | Q_SAHARA_WAIT_SIX => mret (inr false)
  end.

Definition sahara_read_dump (turns fuel : nat) : D bool :=
  upd q_state Q_SAHARA_WAIT_ONE;;
  iterM turns (dump_step fuel) (Locals (-1) 0 0).

Definition sahara_catch_dump (turns fuel : nat) (fd : Z) (path : option (list Z)) (reset : Z) : D bool :=
  upd q_mode Q_SAHARA_MODE_TWO;;
  upd port_fd fd;;
  upd path_to_save_files path;;
  upd do_reset reset;;
  rx ← malloc (Z.to_nat Q_SAHARA_RAW_BUF_SZ);
  tx ← malloc 2048;
  misc ← malloc (Z.to_nat Q_SAHARA_RAW_BUF_SZ);
  upd q_rx_buf (default [] rx);;
  upd q_tx_buf (default [] tx);;
  upd q_misc_buf (default [] misc);;
  match rx, tx, misc with
  | Some _, Some _, Some _ =>
      retval ← sahara_read_dump turns fuel;
      upd q_rx_buf [];;
      upd q_tx_buf [];;
      upd q_misc_buf [];;
      mret retval
  | _, _, _ => mret false
  end.
