(* ===== verification/SaharaProps.v ===== *)
(** Properties of the Sahara memory dump (Sahara.v): memory safety of the
    protocol, termination and exactness of the dump of a region. *)

From Stdlib Require Import ZArith Lia.
From S2P Require Import Prelude Qsys Sahara.

(** ** The buffers *)

(** [X] is what a proof wants to know of the protocol state, of the size of the
    reads and of the width of the addresses. *)
Record bufs (X : q_sahara_state -> Z -> bool -> Prop) (s : sahara) : Prop := Bufs {
  b_rx : len (q_rx_buf s) = Q_SAHARA_RAW_BUF_SZ;
  b_tx : len (q_tx_buf s) = 2048;
  b_misc : len (q_misc_buf s) = Q_SAHARA_RAW_BUF_SZ;
  b_max : 0 < q_max_ram_dump_read s <= Q_SAHARA_RAW_BUF_SZ;
  b_read : 0 < MAX_TO_READ s <= 65536;
  b_state : X (q_state s) (q_max_ram_dump_read s) (q_ram_dump_64bit s)
}.

(** Arithmetic on buffer lengths. *)
Ltac lens := unfold len, Q_SAHARA_RAW_BUF_SZ in *; cbn [length] in *;
  rewrite ?length_app, ?length_le_bytes, ?length_replicate in *; lia.

Ltac field_tac :=
  let s := fresh in let H := fresh in intros s H; destruct H; constructor; auto.

Lemma is_Some_wr off v l : Z.of_nat off + len v <= len l -> is_Some (wr off v l).
Proof. intros H. rewrite wr_fits; [by eexists|unfold len in H; lia]. Qed.

Lemma is_Some_rd off n l : Z.of_nat off + Z.of_nat n <= len l -> is_Some (rd off n l).
Proof. intros H. rewrite rd_fits; [by eexists|unfold len in H; lia]. Qed.

Lemma is_Some_rd_bytes off n l : Z.of_nat off + Z.of_nat n <= len l -> is_Some (rd_bytes off n l).
Proof. intros H. rewrite rd_bytes_fits; [by eexists|unfold len in H; lia]. Qed.

Lemma wr_len off v l l' : wr off v l = Some l' -> len l' = len l.
Proof. intros H%wr_length. unfold len. by rewrite H. Qed.

Section Safe.
Context (X : q_sahara_state -> Z -> bool -> Prop).

Lemma put_rx_safe off v : Z.of_nat off + len v <= Q_SAHARA_RAW_BUF_SZ ->
  safe (bufs X) (put_rx off v) (fun _ => True).
Proof.
  intros H. unfold put_rx, store_at. apply safe_bind_gets. intros s Hs.
  apply safe_bind_of_option; [apply is_Some_wr; rewrite (b_rx _ _ Hs); lia|].
  intros b Hb%wr_len. apply safe_modify; [|done]. rewrite (b_rx _ _ Hs) in Hb. field_tac.
Qed.

Lemma put_tx_safe off v : Z.of_nat off + len v <= 2048 ->
  safe (bufs X) (put_tx off v) (fun _ => True).
Proof.
  intros H. unfold put_tx, store_at. apply safe_bind_gets. intros s Hs.
  apply safe_bind_of_option; [apply is_Some_wr; rewrite (b_tx _ _ Hs); lia|].
  intros b Hb%wr_len. apply safe_modify; [|done]. rewrite (b_tx _ _ Hs) in Hb. field_tac.
Qed.

Lemma put_misc_safe off v : Z.of_nat off + len v <= Q_SAHARA_RAW_BUF_SZ ->
  safe (bufs X) (put_misc off v) (fun _ => True).
Proof.
  intros H. unfold put_misc, store_at. apply safe_bind_gets. intros s Hs.
  apply safe_bind_of_option; [apply is_Some_wr; rewrite (b_misc _ _ Hs); lia|].
  intros b Hb%wr_len. apply safe_modify; [|done]. rewrite (b_misc _ _ Hs) in Hb. field_tac.
Qed.

Lemma rx_field_safe off n : Z.of_nat off + Z.of_nat n <= Q_SAHARA_RAW_BUF_SZ ->
  safe (bufs X) (rx_field off n) (fun _ => True).
Proof.
  intros H. unfold rx_field. apply safe_bind_gets. intros s Hs.
  apply safe_of_option; [|done]. apply is_Some_rd. rewrite (b_rx _ _ Hs). lia.
Qed.

(** ** The port *)

#[local] Hint Extern 1 (safe (bufs _) (put_tx _ _) _) => apply put_tx_safe; lens : safe.
#[local] Hint Extern 1 (safe (bufs _) (put_rx _ _) _) => apply put_rx_safe; lens : safe.
#[local] Hint Extern 1 (safe (bufs _) (put_misc _ _) _) => apply put_misc_safe; lens : safe.
#[local] Hint Extern 1 (safe (bufs _) (rx_field _ _) _) => apply rx_field_safe; lens : safe.

Lemma poll_write_all_safe out : safe (bufs X) (poll_write_all out) (fun _ => True).
Proof. unfold poll_write_all. safes field_tac. Qed.
#[local] Hint Resolve poll_write_all_safe : safe.

Lemma sahara_tx_data_safe n : 0 <= n <= 2048 -> safe (bufs X) (sahara_tx_data n) (fun _ => True).
Proof.
  intros H. unfold sahara_tx_data, port_tx_data. apply safe_bind_gets. intros s Hs.
  apply safe_bind_of_option; [apply is_Some_rd_bytes; rewrite (b_tx _ _ Hs); lia|].
  intros out _. safes field_tac.
Qed.
#[local] Hint Extern 1 (safe (bufs _) (sahara_tx_data _) _) =>
  apply sahara_tx_data_safe; cbv; split; discriminate : safe.

(** A successful read brings at least one byte and stays within the room. *)
Lemma port_rx_data_safe off n : 0 <= off -> 0 <= n -> off + Z.min n 65536 <= Q_SAHARA_RAW_BUF_SZ ->
  safe (bufs X) (port_rx_data off n)
    (fun r => match r with Some k => (n = 0 /\ k = 0) \/ 0 < k <= n | None => True end).
Proof.
  intros Hoff Hn Hroom. unfold port_rx_data, sys_read, read_result.
  destruct (Z.eqb_spec n 0); [apply safe_ret; auto|].
  apply safe_bind_get. intros s Hs. apply safe_bind_call. intros r. assert (Hm := b_read _ _ Hs).
  destruct (r <=? 0); [by apply safe_ret|].
  eapply (safe_bind _ _ _ (fun p => p.1 = -1 \/ (p.1 = len p.2 /\ len p.2 <= Z.min n (MAX_TO_READ s)))).
  { apply safe_bind_call. intros [d|]; apply safe_ret; [|by left]. right. cbn. split; [done|].
    unfold len. rewrite length_take. lia. }
  intros [k data]. cbn. intros Hk. destruct (Z.leb_spec k 0); [by apply safe_ret|].
  destruct Hk as [->|[-> Hk]]; [lia|].
  eapply safe_bind; [apply put_rx_safe; lia|]. intros _ _. apply safe_ret. lia.
Qed.

Lemma sahara_rx_packet_safe : safe (bufs X) sahara_rx_packet (fun _ => True).
Proof.
  assert (Hp : forall n, 0 <= n -> safe (bufs X) (port_rx_data 8 n) (fun _ => True)).
  { intros n Hn. eapply safe_weaken; [apply port_rx_data_safe; lens|done]. }
  unfold sahara_rx_packet, rx_cmd, rx_len, sizeof_pkt_h.
  eapply safe_bind; [apply put_rx_safe; lens|]. intros _ _.
  eapply safe_bind; [apply port_rx_data_safe; lens|]. intros [k|] _; [|by apply safe_ret].
  destruct (negb _); [by apply safe_ret|].
  eapply safe_bind; [apply rx_field_safe; lens|]. intros cmd _.
  destruct (_ <? _); [|by apply safe_ret].
  eapply safe_bind; [apply rx_field_safe; lens|]. intros q_len _.
  eapply safe_bind; [apply Hp, Z.mod_pos_bound; lia|]. intros [k'|] _; [|by apply safe_ret].
  eapply safe_bind; [apply rx_field_safe; lens|]. intros. by apply safe_ret.
Qed.

Lemma sahara_rx_bytes_safe n : 0 <= n <= Q_SAHARA_RAW_BUF_SZ ->
  safe (bufs X) (sahara_rx_bytes n) (fun _ => True).
Proof.
  intros Hn. unfold sahara_rx_bytes.
  apply (safe_iterM _ _ (fun k => 0 <= k <= n) (fun k => Z.to_nat (n - k))); [|lia|lia].
  intros k Hk. destruct (Z.ltb_spec k n); [|by apply safe_ret].
  eapply safe_bind; [apply port_rx_data_safe; lia|].
  intros [r|] Hr; apply safe_ret; [|done]. lia.
Qed.

Lemma sahara_rx_data_safe n : 0 <= n <= Q_SAHARA_RAW_BUF_SZ ->
  safe (bufs X) (sahara_rx_data n) (fun _ => True).
Proof.
  intros Hn. unfold sahara_rx_data.
  destruct (n =? 0); [apply sahara_rx_packet_safe|by apply sahara_rx_bytes_safe].
Qed.
#[local] Hint Extern 1 (safe (bufs _) (sahara_rx_data _) _) => apply sahara_rx_data_safe; lens : safe.

(** *** Packets to the device *)

Lemma send_reset_command_safe : safe (bufs X) send_reset_command (fun _ => True).
Proof. unfold send_reset_command, sizeof_reset, sizeof_pkt_h. safes field_tac. Qed.

Lemma send_memory_read_packet_safe a n :
  safe (bufs X) (send_memory_read_packet a n) (fun _ => True).
Proof.
  unfold send_memory_read_packet, sizeof_memory_read, sizeof_memory_read_64bit, sizeof_pkt_h.
  safes field_tac.
Qed.

Lemma wakeUpDevice_safe : safe (bufs X) wakeUpDevice (fun _ => True).
Proof. apply poll_write_all_safe. Qed.

Lemma widen_entry_safe i : 64 * Z.of_nat i + 64 <= Q_SAHARA_RAW_BUF_SZ ->
  safe (bufs X) (widen_entry i) (fun _ => True).
Proof.
  intros Hi. unfold widen_entry.
  do 3 (eapply safe_bind; [apply rx_field_safe; lens|]; intros ? _;
        eapply safe_bind; [apply put_misc_safe; lens|]; intros _ _).
  apply safe_bind_gets. intros s Hs. assert (Hl := b_rx _ _ Hs).
  assert (Hc : forall off, 52 * Z.of_nat i <= Z.of_nat off <= 52 * Z.of_nat i + 32 ->
    exists v, strncpy_from DLOAD_DEBUG_STRLEN_BYTES off (q_rx_buf s) = Some v /\ len v = 20).
  { intros off Hoff. destruct (strncpy_from_Some 20 off (q_rx_buf s)) as (v&Hv&Hlv); [lens|].
    exists v. split; [exact Hv|]. unfold len. by rewrite Hlv. }
  destruct (Hc (52 * i + 32)%nat) as (v&Hv&Hlv); [lia|].
  apply safe_bind_of_option; [rewrite Hv; by eexists|]. intros v' Hv'. simplify_eq.
  eapply safe_bind; [apply put_misc_safe; rewrite Hlv; lens|]. intros _ _.
  destruct (Hc (52 * i + 12)%nat) as (v2&Hv2&Hlv2); [lia|].
  apply safe_bind_of_option; [rewrite Hv2; by eexists|]. intros v' Hv'. simplify_eq.
  apply put_misc_safe. rewrite Hlv2. lens.
Qed.
End Safe.

(** ** One turn of the state machine *)

Definition any : q_sahara_state -> Z -> bool -> Prop := fun _ _ _ => True.
Definition is_state (st : q_sahara_state) : q_sahara_state -> Z -> bool -> Prop := fun st' _ _ => st' = st.

(** What the state and the local variables promise to the next turn. *)
Definition ready (l : locals) (s : sahara) : Prop :=
  bufs any s /\
  match q_state s with
  | Q_SAHARA_WAIT_SEVEN => q_memory_table_length l <= Q_SAHARA_RAW_BUF_SZ
  | Q_SAHARA_WAIT_EIGHT =>
      0 <= num_debug_entries l /\ 64 * num_debug_entries l <= Q_SAHARA_RAW_BUF_SZ
  | _ => True
  end.

(** The order of the protocol. *)
Definition follows (a b : q_sahara_state) : Prop :=
  match a, b with
  | Q_SAHARA_WAIT_ONE, (Q_SAHARA_WAIT_TWO | Q_SAHARA_WAIT_THREE) => True
  | Q_SAHARA_WAIT_TWO, (Q_SAHARA_WAIT_TWO | Q_SAHARA_WAIT_THREE | Q_SAHARA_WAIT_SEVEN) => True
  | Q_SAHARA_WAIT_SEVEN, Q_SAHARA_WAIT_EIGHT => True
  | Q_SAHARA_WAIT_THREE, Q_SAHARA_WAIT_THREE => True
  | _, _ => False
  end.

Definition turn_post (st : q_sahara_state) (r : step_result) (s : sahara) : Prop :=
  match r with
  | inl l => ready l s /\ follows st (q_state s)
  | inr _ => bufs any s
  end.

Lemma bufs_any X s : bufs X s -> bufs any s.
Proof. intros []. by constructor. Qed.

Section Turn.
Context (st : q_sahara_state).
Abbreviation P := (bufs (is_state st)).

Lemma stop_ok b : triple P (mret (inr b) : D step_result) (turn_post st).
Proof. apply triple_ret. intros s Hs. cbn. by eapply bufs_any. Qed.

Lemma goto_ok st' l :
  follows st st' ->
  (forall s, bufs any s -> q_state s = st' -> ready l s) ->
  triple P (upd q_state st';; mret (inl l) : D step_result) (turn_post st).
Proof.
  intros Hf Hr. apply triple_modify_ret. intros s []. cbn.
  split; [|done]. apply Hr; [by constructor|done].
Qed.
End Turn.

Ltac tsafe lem := eapply triple_safe_bind; [apply lem|].

Lemma table_place_safe st cmd :
  safe (bufs (is_state st)) (table_place cmd) (fun _ => True).
Proof.
  assert (H := fun off n => rx_field_safe (is_state st) off n).
  unfold table_place, upd. destruct (_ =? _); (apply safe_bind_modify; [field_tac|]);
    do 2 (eapply safe_bind; [apply H; lens|]; intros ? _); by apply safe_ret.
Qed.

Lemma hello_ok :
  triple (bufs (is_state Q_SAHARA_WAIT_ONE)) send_hello_response
    (fun b s => bufs any s /\ (b = true -> q_state s = Q_SAHARA_WAIT_TWO)).
Proof.
  unfold send_hello_response, sizeof_hello_response, sizeof_pkt_h.
  do 2 (tsafe put_tx_safe; [lens|]; intros _ _).
  do 2 (tsafe rx_field_safe; [lens|]; intros ? _; tsafe put_tx_safe; [lens|]; intros _ _).
  tsafe put_tx_safe; [lens|]; intros _ _.
  tsafe rx_field_safe; [lens|]; intros ? _.
  do 2 (tsafe put_tx_safe; [lens|]; intros _ _).
  apply triple_bind_gets. intros s0 _.
  destruct (negb _); [apply triple_ret; intros s Hs; split; [by eapply bufs_any|done]|].
  tsafe sahara_tx_data_safe; [lia|]. intros [] _; cbn.
  - apply triple_modify_ret. intros s []. split; [by constructor|done].
  - apply triple_ret; intros s Hs; split; [by eapply bufs_any|done].
Qed.

Lemma wait_one_ok l :
  triple (bufs (is_state Q_SAHARA_WAIT_ONE)) (wait_one l) (turn_post Q_SAHARA_WAIT_ONE).
Proof.
  unfold wait_one, rx_cmd.
  tsafe sahara_tx_data_safe; [lia|]. intros _ _.
  tsafe sahara_rx_data_safe; [lens|]. intros got _.
  eapply (triple_safe_bind _ _ _ (fun _ => True)).
  { destruct got; [by apply safe_ret|].
    eapply safe_bind; [apply wakeUpDevice_safe|]. intros [] _; cbn [negb]; [|by apply safe_ret].
    eapply safe_bind; [apply sahara_rx_data_safe; lens|]. intros; by apply safe_ret. }
  intros [u|] _; [|apply stop_ok].
  tsafe rx_field_safe; [lens|]. intros cmd _. destruct (negb _).
  - tsafe send_reset_command_safe. intros [] _; cbn [negb]; [|apply stop_ok].
    apply goto_ok; [done|]. intros s Hs E. split; [done|]. by rewrite E.
  - eapply triple_bind_ret; [apply hello_ok|]. intros [] s [Hs Hst]; cbn; [|done].
    split; [split; [done|]|]; by rewrite Hst.
Qed.

Lemma wait_two_ok l :
  triple (bufs (is_state Q_SAHARA_WAIT_TWO)) (wait_two l) (turn_post Q_SAHARA_WAIT_TWO).
Proof.
  assert (Hreset : forall l', triple (bufs (is_state Q_SAHARA_WAIT_TWO))
    (ok ← send_reset_command;
     if negb ok then mret (inr false) else upd q_state Q_SAHARA_WAIT_THREE;; mret (inl l'))
    (turn_post Q_SAHARA_WAIT_TWO)).
  { intros l'. tsafe send_reset_command_safe. intros [] _; cbn [negb]; [|apply stop_ok].
    apply goto_ok; [done|]. intros s Hs E. split; [done|]. by rewrite E. }
  unfold wait_two, rx_cmd.
  tsafe sahara_rx_data_safe; [lens|]. intros [] _; cbn [negb]; [|apply stop_ok].
  tsafe rx_field_safe; [lens|]. intros cmd _. destruct (_ || _)%bool.
  2:{ destruct (_ =? _); [|apply Hreset]. apply triple_ret. intros s Hs.
      assert (Hst := b_state _ _ Hs). split; [split; [by eapply bufs_any|]|]; by rewrite Hst. }
  tsafe table_place_safe. intros [addr n] _. apply triple_bind_gets. intros s0 _.
  destruct (negb _); [apply Hreset|].
  assert (Hseven : n <= Q_SAHARA_RAW_BUF_SZ ->
    triple (bufs (is_state Q_SAHARA_WAIT_TWO))
      (upd q_state Q_SAHARA_WAIT_SEVEN;; mret (inl (Locals (num_debug_entries l) addr n)) : D step_result)
      (turn_post Q_SAHARA_WAIT_TWO)).
  { intros Hn. apply goto_ok; [done|]. intros s Hs E. split; [done|]. by rewrite E. }
  destruct (Z.ltb_spec 0 n); [|apply Hseven; lens].
  tsafe send_memory_read_packet_safe. intros [] _; cbn [negb]; [|apply stop_ok].
  destruct (Z.ltb_spec Q_SAHARA_RAW_BUF_SZ n); [apply stop_ok|by apply Hseven].
Qed.

Lemma receive_table_safe X l : q_memory_table_length l <= Q_SAHARA_RAW_BUF_SZ ->
  safe (bufs X) (receive_table l)
    (fun r => match r with Some n => 0 <= n /\ 64 * n <= Q_SAHARA_RAW_BUF_SZ | None => True end).
Proof.
  intros Hn. unfold receive_table. destruct (Z.ltb_spec 0 (q_memory_table_length l)) as [H0|]; [|apply safe_ret; lens].
  eapply safe_bind; [apply sahara_rx_data_safe; lia|]. intros [] _; cbn [negb]; [|by apply safe_ret].
  apply safe_bind_gets. intros s0 _. unfold sizeof_debug_type_64bit, sizeof_debug_type.
  destruct (q_ram_dump_64bit s0).
  - apply safe_bind_gets. intros s1 Hs1.
    eapply (safe_bind _ _ _ (fun v => len v = q_memory_table_length l)).
    { apply safe_of_option.
      - apply is_Some_rd_bytes. rewrite (b_rx _ _ Hs1). lia.
      - intros v Hv%rd_bytes_length. unfold len. rewrite Hv. lia. }
    intros v Hv. eapply safe_bind; [apply put_misc_safe; rewrite Hv; lia|]. intros _ _.
    apply safe_ret. split; [apply Z.div_pos; lia|]. etransitivity; [apply Z.mul_div_le; lia|]. lia.
  - destruct (Z.ltb_spec Q_SAHARA_RAW_BUF_SZ (q_memory_table_length l / 52 * 64)) as [|Hk]; [by apply safe_ret|].
    assert (0 <= q_memory_table_length l / 52) by (apply Z.div_pos; lia).
    apply (safe_bind _ _ _ (fun _ => True)).
    { apply safe_forM. intros i Hi%elem_of_seq. apply widen_entry_safe. lia. }
    intros _ _. apply safe_ret. lia.
Qed.

(** The strings of the first [n] entries end inside the buffer of the table. *)
Definition printable (n : nat) (misc : list Z) : bool :=
  forallb (fun i => has_nul (drop (64 * i + 44) misc) && has_nul (drop (64 * i + 24) misc)) (seq 0 n).

Lemma print_entry_eq E i (w : world qsys sahara) :
  print_entry i E w =
    if has_nul (drop (64 * i + 44) (q_misc_buf (loc w))) && has_nul (drop (64 * i + 24) (q_misc_buf (loc w)))
    then Done tt w else Undef.
Proof.
  unfold print_entry, entry_filename, entry_desc, c_string, mbind, M_bind, gets. cbn [loc].
  destruct (has_nul (drop (64 * i + 44) (q_misc_buf (loc w)))); [|done]. cbn [of_option andb mret M_ret].
  by destruct (has_nul (drop (64 * i + 24) (q_misc_buf (loc w)))).
Qed.

Lemma print_entries E l (w : world qsys sahara) :
  forM l print_entry E w =
    if forallb (fun i => has_nul (drop (64 * i + 44) (q_misc_buf (loc w))) &&
                         has_nul (drop (64 * i + 24) (q_misc_buf (loc w)))) l
    then Done tt w else Undef.
Proof.
  induction l as [|i l IH]; [done|]. cbn [forM forallb]. unfold mbind, M_bind. rewrite print_entry_eq.
  by destruct (_ && _).
Qed.

(** A turn that receives the table ends, except that printing a name without an
    end reads beyond the buffer. *)
Lemma wait_seven_ok E (w : world qsys sahara) l :
  q_memory_table_length l <= Q_SAHARA_RAW_BUF_SZ -> bufs (is_state Q_SAHARA_WAIT_SEVEN) (loc w) ->
  match wait_seven l E w with
  | Done r w' => turn_post Q_SAHARA_WAIT_SEVEN r (loc w')
  | Undef => exists n w', receive_table l E w = Done (Some n) w' /\
      printable (Z.to_nat n) (q_misc_buf (loc w')) = false
  | _ => False
  end.
Proof.
  intros Hn Hw. pose proof (receive_table_safe (is_state Q_SAHARA_WAIT_SEVEN) l Hn E w Hw) as H. unfold runs in H.
  unfold wait_seven, mbind, M_bind. destruct (receive_table l E w) as [[n|] w'| | |]; [| |done..].
  - destruct H as [Hb [H0 H1]]. rewrite print_entries. fold (printable (Z.to_nat n) (q_misc_buf (loc w'))).
    destruct (printable _ _) eqn:Hp; [|by exists n, w']. cbn. destruct Hb.
    split; [|done]. split; [by constructor|by split].
  - destruct H as [Hb _]. cbn. by eapply bufs_any.
Qed.

Lemma wait_three_ok l :
  triple (bufs (is_state Q_SAHARA_WAIT_THREE)) (wait_three l) (turn_post Q_SAHARA_WAIT_THREE).
Proof.
  unfold wait_three, rx_cmd.
  tsafe sahara_rx_data_safe; [lens|]. intros got _.
  tsafe rx_field_safe; [lens|]. intros cmd _. destruct got; [|apply stop_ok].
  destruct (_ =? _); [apply stop_ok|]. apply triple_ret. intros s Hs.
  assert (Hst := b_state _ _ Hs). split; [split; [by eapply bufs_any|]|]; by rewrite Hst.
Qed.

(** ** A region *)

(** One turn of the region loop: nothing is lost, and the position or the size
    of the next read moves. *)
Lemma region_step_ok E fd base q_len cur (w : world qsys sahara) :
  bufs any (loc w) -> 0 <= cur -> 0 <= q_len < 2 ^ 32 ->
  runs E (region_step fd base q_len cur) w (fun r w' =>
    bufs any (loc w') /\
    match r with
    | inl cur' => 0 <= cur' /\
        (cur < cur' <= q_len /\ q_max_ram_dump_read (loc w') = q_max_ram_dump_read (loc w) \/
         cur' = cur /\ q_max_ram_dump_read (loc w') = q_max_ram_dump_read (loc w) / 2 /\
           cur < q_len /\ 16 * 1024 < q_max_ram_dump_read (loc w))
    | inr b => b = true -> q_len <= cur
    end).
Proof.
  intros Hw Hcur Hq. unfold region_step.
  destruct (Z.ltb_spec cur q_len) as [Hlt|]; [|apply runs_ret; split; [done|lia]].
  assert (Hm := b_max _ _ Hw).
  rsteps. set (m := q_max_ram_dump_read (loc w)) in *. set (n := Z.min _ m).
  set (X := fun (_ : q_sahara_state) m' (_ : bool) => m' = m).
  assert (Hn : 0 < n <= m /\ n <= q_len - cur).
  { unfold n, u32. rewrite Z.mod_small by lia. lia. }
  assert (HX : bufs X (loc w)) by (destruct Hw; by constructor).
  eapply runs_mono; [by apply (send_memory_read_packet_safe X)|].
  intros [] w1 [Hw1 _]; cbn [negb]; rsteps.
  2:{ split; [by eapply bufs_any|done]. }
  eapply runs_mono; [apply (sahara_rx_data_safe X n); [lia|done]|].
  intros [] w2 [Hw2 _]; cbn [negb]; rsteps.
  - eapply runs_of_option; [apply rd_bytes_fits|].
    { assert (Hl := b_rx _ _ Hw2). lens. }
    rsteps. destruct (_ <? 0); rsteps; cbn [loc].
    + split; [by eapply bufs_any|done].
    + split; [by eapply bufs_any|]. split; [lia|]. left. split; [lia|]. apply Hw2.
  - rewrite (b_state _ _ Hw2 : _ = m). destruct (Z.ltb_spec (16 * 1024) m); rsteps; cbn [loc].
    + assert (0 < m / 2) by (apply Z.div_str_pos; lia).
      assert (m / 2 < m) by (apply Z.div_lt; lia).
      assert (Em := b_state _ _ Hw2). unfold X in Em. cbn beta in Em.
      split; [destruct Hw2; constructor; cbn; rewrite ?Em; auto; try exact I; lens|].
      split; [lia|]. right. done.
    + split; [by eapply bufs_any|done].
Qed.

Lemma read_region_ok E fuel fd base q_len (w : world qsys sahara) :
  bufs any (loc w) -> 0 <= q_len < 2 ^ 32 -> q_len + Q_SAHARA_RAW_BUF_SZ < Z.of_nat fuel ->
  runs E (read_region fuel fd base q_len) w (fun _ w' => bufs any (loc w')).
Proof.
  intros Hw Hq Hf. assert (Hm := b_max _ _ Hw). unfold read_region.
  apply (runs_iterM E _ (fun cur w' => bufs any (loc w') /\ 0 <= cur <= q_len)
    (fun cur w' => Z.to_nat (q_len - cur + q_max_ram_dump_read (loc w')))); [|split; [done|lia]|lia].
  intros cur w1 [Hw1 Hcur]. assert (Hm1 := b_max _ _ Hw1).
  eapply runs_mono; [apply region_step_ok; [done|lia|done]|].
  cbn beta. intros [cur'|b] w2 [Hw2 H2]; [|done]. assert (Hm2 := b_max _ _ Hw2).
  split; [split; [done|lia]|]. destruct H2 as [H0 [[H1 H2]|(H1&H2&H3&H4)]]; [lia|].
  assert (q_max_ram_dump_read (loc w1) / 2 < q_max_ram_dump_read (loc w1)) by (apply Z.div_lt; lia).
  lia.
Qed.

(** A region of 4 GiB or more: what is left of it never falls below 2^32. *)
Lemma region_4g_step E fd base q_len cur (w : world qsys sahara) :
  bufs any (loc w) -> 2 ^ 32 <= q_len - cur ->
  runs E (region_step fd base q_len cur) w (fun r w' =>
    bufs any (loc w') /\
    match r with inl cur' => 2 ^ 32 <= q_len - cur' | inr b => b = false end).
Proof.
  intros Hw Hr. unfold region_step. rewrite (proj2 (Z.ltb_lt _ _)) by lia.
  assert (Hm := b_max _ _ Hw).
  rsteps. set (m := q_max_ram_dump_read (loc w)) in *. set (n := Z.min _ m).
  set (X := fun (_ : q_sahara_state) m' (_ : bool) => m' = m).
  assert (Hn : 0 <= n <= m /\ 2 ^ 32 <= q_len - (cur + n)).
  { unfold n, u32. set (r := q_len - cur) in *.
    assert (H1 := Z.mod_pos_bound r (2 ^ 32) ltac:(lia)).
    assert (H2 := Z.div_mod r (2 ^ 32) ltac:(lia)).
    assert (1 <= r / 2 ^ 32) by (apply Z.div_le_lower_bound; lia). lia. }
  assert (HX : bufs X (loc w)) by (destruct Hw; by constructor).
  eapply runs_mono; [by apply (send_memory_read_packet_safe X)|].
  intros [] w1 [Hw1 _]; cbn [negb]; rsteps.
  2:{ split; [by eapply bufs_any|done]. }
  eapply runs_mono; [apply (sahara_rx_data_safe X n); [lia|done]|].
  intros [] w2 [Hw2 _]; cbn [negb]; rsteps.
  - eapply runs_of_option; [apply rd_bytes_fits|].
    { assert (Hl := b_rx _ _ Hw2). lens. }
    rsteps. destruct (_ <? 0); rsteps; cbn [loc]; (split; [by eapply bufs_any|lia || done]).
  - rewrite (b_state _ _ Hw2 : _ = m). destruct (Z.ltb_spec (16 * 1024) m); rsteps; cbn [loc].
    + assert (0 < m / 2) by (apply Z.div_str_pos; lia).
      assert (m / 2 < m) by (apply Z.div_lt; lia).
      split; [destruct Hw2; constructor; cbn; auto; try exact I; lens|lia].
    + split; [by eapply bufs_any|done].
Qed.

(** ** An honest device

    The memory of the device, and what it still owes of the last read request
    in a history: the next address and the number of bytes. *)
Definition range (mem : Z -> Z) (a : Z) (n : nat) : list Z :=
  map (fun i => mem (a + Z.of_nat i)) (seq 0 n).

Definition read_request (out : list Z) : option (Z * Z) :=
  if get_le 0 4 out =? Q_SAHARA_TEN then Some (get_le 8 4 out, get_le 12 4 out)
  else if get_le 0 4 out =? Q_SAHARA_SEVENTEEN then Some (get_le 8 8 out, get_le 16 8 out)
  else None.

Fixpoint owed (h : list (io qsys)) : Z * Z :=
  match h with
  | [] => (0, 0)
  | Ev c r :: h' =>
      let '(a, n) := owed h' in
      match c in qsys A return A -> Z * Z with
      | PollWrite _ out _ => fun _ => default (a, n) (read_request out)
      | Read _ k => fun r =>
          match r with
          | Some d => let m := len (take (Z.to_nat k) d) in (a + m, n - m)
          | None => (a, n)
          end
      | _ => fun _ => (a, n)
      end r
  end.

(** It takes every request, and answers a read while it owes bytes with the
    next of them, as many as it likes. *)
Record honest (mem : Z -> Z) (E : env qsys) : Prop := Honest {
  h_write : forall h fd out t, (E _ h (PollWrite fd out t)).1 = len out;
  h_select : forall h fd t, 0 < E _ h (SelectRead fd t);
  h_read : forall h fd k a n, owed h = (a, n) -> 0 < n -> 0 < k ->
    exists m, (0 < m)%nat /\ Z.of_nat m <= Z.min n k /\ E _ h (Read fd k) = Some (range mem a m);
  h_save : forall h fd d, E _ h (LogfileSave fd d) = len d
}.

Lemma get_le_slice off n k l : (off + n <= k)%nat -> get_le off n (slice 0 k l) = get_le off n l.
Proof.
  intros H. unfold get_le, slice. rewrite drop_0, skipn_firstn_comm, take_take. do 2 f_equal. lia.
Qed.

Lemma length_range mem a n : length (range mem a n) = n.
Proof. unfold range. by rewrite length_map, length_seq. Qed.

Lemma range_S mem a n : range mem a (S n) = mem a :: range mem (a + 1) n.
Proof.
  unfold range. cbn [seq map]. f_equal; [f_equal; lia|].
  rewrite <-seq_shift, map_map. apply map_ext. intros i. f_equal. lia.
Qed.

Lemma range_app mem a m n :
  range mem a m ++ range mem (a + Z.of_nat m) n = range mem a (m + n).
Proof.
  revert a; induction m as [|m IH]; intros a; cbn [Nat.add].
  - cbn. f_equal. lia.
  - rewrite !range_S. cbn [app]. f_equal. rewrite <-IH. do 2 f_equal. lia.
Qed.

Section Exact.
Context (mem : Z -> Z) (E : env qsys) (HE : honest mem E).

(** The state while a region is read with requests of size [m]. *)
Definition reading (m : Z) (wide : bool) : q_sahara_state -> Z -> bool -> Prop :=
  fun _ m' wide' => m' = m /\ wide' = wide.
Definition addressable (wide : bool) (a : Z) : Prop := 0 <= a < 2 ^ (if wide then 64 else 32).

Lemma put_tx_runs X (w : world qsys sahara) off v (Q : unit -> world qsys sahara -> Prop) :
  bufs X (loc w) -> Z.of_nat off + len v <= 2048 ->
  (bufs X ((loc w) <| q_tx_buf := put off v (q_tx_buf (loc w)) |>) ->
   Q tt (World ((loc w) <| q_tx_buf := put off v (q_tx_buf (loc w)) |>) (hist w))) ->
  runs E (put_tx off v) w Q.
Proof.
  intros Hw Hv HQ. assert (Hl := b_tx _ _ Hw). unfold put_tx, store_at. rsteps.
  eapply runs_of_option; [apply wr_fits; lens|]. rsteps. apply HQ.
  destruct Hw. constructor; auto. cbn [q_tx_buf set_field]. unfold len in *.
  by rewrite length_put by lia.
Qed.

Lemma tx_runs X (w : world qsys sahara) n (Q : bool -> world qsys sahara -> Prop) :
  bufs X (loc w) -> 0 <= n <= 2048 ->
  (forall fd t r, Q true (World (loc w)
    (Ev (PollWrite fd (slice 0 (Z.to_nat n) (q_tx_buf (loc w))) t) r :: hist w))) ->
  runs E (sahara_tx_data n) w Q.
Proof.
  intros Hw Hn HQ. assert (Hl := b_tx _ _ Hw). unfold sahara_tx_data, port_tx_data, poll_write_all.
  rsteps. eapply runs_of_option; [apply rd_bytes_fits; lens|]. rsteps.
  set (out := slice _ _ _). assert (Hr := h_write _ _ HE (hist w) (port_fd (loc w)) out 1000).
  destruct (E _ (hist w) (PollWrite (port_fd (loc w)) out 1000)) as [r e] eqn:Er.
  cbn in Hr. subst r. rsteps. unfold u64. rewrite Z.mod_small.
  - rewrite Z.eqb_refl. apply HQ.
  - assert (length out <= Z.to_nat n)%nat by (unfold out, slice; rewrite length_take; lia).
    unfold len. lia.
Qed.

Lemma request_runs m wide fd a n (w : world qsys sahara) (Q : bool -> world qsys sahara -> Prop) :
  bufs (reading m wide) (loc w) -> addressable wide a -> 0 <= n < 2 ^ 32 ->
  (forall s h, bufs (reading m wide) s -> owed h = (a, n) -> saved fd h = saved fd (hist w) ->
    Q true (World s h)) ->
  runs E (send_memory_read_packet a n) w Q.
Proof.
  intros Hw Ha Hn HQ. assert (Hwide := b_state _ _ Hw). destruct Hwide as [_ Hwide].
  assert (Hl := b_tx _ _ Hw). unfold len in Hl. unfold addressable in Ha.
  unfold send_memory_read_packet, sizeof_memory_read, sizeof_memory_read_64bit, sizeof_pkt_h.
  apply runs_bind, runs_gets. rewrite Hwide. destruct wide; cbn [Z.add Pos.add].
  all: do 4 (apply runs_bind; eapply put_tx_runs; [done|lens|]; clear Hw; intros Hw).
  all: eapply tx_runs; [exact Hw|lia|]; intros fd' t r.
  all: apply HQ; [exact Hw| |cbn [saved]; by rewrite app_nil_r].
  all: cbn [owed loc q_tx_buf set_field hist]; destruct (owed (hist w)) as [a0 n0].
  all: unfold read_request; rewrite !get_le_slice by lia; stored_field.
  all: unfold Q_SAHARA_TEN, Q_SAHARA_SEVENTEEN.
  all: change (256 ^ Z.of_nat 4) with (2 ^ 32); change (256 ^ Z.of_nat 8) with (2 ^ 64).
  all: rewrite (Z.mod_small a) by exact Ha; rewrite (Z.mod_small n) by lia; done.
Qed.

Lemma port_rx_runs X fd (w : world qsys sahara) off k a (Q : option Z -> world qsys sahara -> Prop) :
  bufs X (loc w) -> owed (hist w) = (a, k) -> 0 < k -> off + k <= Q_SAHARA_RAW_BUF_SZ -> 0 <= off ->
  (forall m h rx, (0 < m)%nat -> Z.of_nat m <= k ->
    rx = put (Z.to_nat off) (range mem a m) (q_rx_buf (loc w)) ->
    bufs X ((loc w) <| q_rx_buf := rx |>) -> owed h = (a + Z.of_nat m, k - Z.of_nat m) ->
    saved fd h = saved fd (hist w) ->
    Q (Some (Z.of_nat m)) (World ((loc w) <| q_rx_buf := rx |>) h)) ->
  runs E (port_rx_data off k) w Q.
Proof.
  intros Hw Ho Hk Hroom Hoff HQ. assert (Hmax := b_read _ _ Hw). assert (Hl := b_rx _ _ Hw).
  unfold port_rx_data, sys_read, read_result. rewrite (proj2 (Z.eqb_neq _ _)) by lia. rsteps.
  set (t := if 0 <=? _ then _ else _).
  assert (Hs := h_select _ _ HE (hist w) (port_fd (loc w)) t).
  rewrite (proj2 (Z.leb_gt _ _)) by exact Hs. rsteps. cbn [hist loc].
  set (h1 := Ev (SelectRead _ _) _ :: hist w). set (kk := Z.min k _).
  assert (Ho1 : owed h1 = (a, k)) by (cbn [owed h1]; by rewrite Ho).
  destruct (h_read _ _ HE h1 (port_fd (loc w)) kk a k Ho1) as (m&Hm0&Hm&Er); [lia|lia|].
  rewrite Er. assert (Ht : take (Z.to_nat kk) (range mem a m) = range mem a m)
    by (apply take_ge; rewrite length_range; lia).
  assert (Hlr : len (range mem a m) = Z.of_nat m) by (unfold len; by rewrite length_range).
  rewrite Ht, Hlr. rewrite (proj2 (Z.leb_gt _ _)) by lia.
  apply runs_bind. unfold put_rx, store_at. rsteps. cbn [loc].
  eapply runs_of_option; [apply wr_fits; rewrite length_range; lens|]. rsteps.
  apply HQ; [done|lia|done| | |].
  - destruct Hw. constructor; auto. cbn [q_rx_buf set_field]. unfold len in *.
    rewrite length_put; [done|]. rewrite length_range. lens.
  - cbn [owed hist]. fold h1. rewrite Ho1, Ht, Hlr. done.
  - cbn [saved hist h1]. by rewrite !app_nil_r.
Qed.

Lemma take_put off v l : (off + length v <= length l)%nat ->
  take (off + length v) (put off v l) = take off l ++ v.
Proof.
  intros H. unfold put. rewrite app_assoc. apply take_app_length'. len.
Qed.

Lemma rx_runs X fd (w : world qsys sahara) n a (Q : bool -> world qsys sahara -> Prop) :
  bufs X (loc w) -> owed (hist w) = (a, n) -> 0 < n <= Q_SAHARA_RAW_BUF_SZ ->
  (forall s h, bufs X s -> saved fd h = saved fd (hist w) ->
    slice 0 (Z.to_nat n) (q_rx_buf s) = range mem a (Z.to_nat n) -> Q true (World s h)) ->
  runs E (sahara_rx_data n) w Q.
Proof.
  intros Hw Ho Hn HQ. unfold sahara_rx_data, sahara_rx_bytes.
  rewrite (proj2 (Z.eqb_neq _ _)) by lia.
  apply (runs_iterM E _ (fun k w' => 0 <= k <= n /\ bufs X (loc w') /\
      owed (hist w') = (a + k, n - k) /\ saved fd (hist w') = saved fd (hist w) /\
      take (Z.to_nat k) (q_rx_buf (loc w')) = range mem a (Z.to_nat k))
    (fun k _ => Z.to_nat (n - k))); [|split_and!; try done; try lia|lia].
  2:{ rewrite Ho. f_equal; lia. }
  intros k w1 (Hk & Hw1 & Ho1 & Hs1 & Hrx). destruct (Z.ltb_spec k n).
  - apply runs_bind. eapply port_rx_runs; [exact Hw1|exact Ho1|lia|lia|lia|].
    intros m h rx Hm0 Hm -> Hw2 Ho2 Hs2. apply runs_ret. cbn [loc hist].
    split; [|lia]. split_and!; [lia|lia|done|rewrite Ho2; f_equal; lia|by rewrite Hs2|].
    assert (Hl := b_rx _ _ Hw1). cbn [q_rx_buf set_field].
    replace (Z.to_nat (k + Z.of_nat m)) with (Z.to_nat k + length (range mem (a + k) m))%nat
      by (rewrite length_range; lia).
    rewrite take_put by (rewrite length_range; lens). rewrite Hrx, length_range.
    rewrite <-range_app. do 2 f_equal. lia.
  - apply runs_ret. replace n with k in * by lia. destruct w1 as [s1 h1]. apply HQ; [done..|].
    unfold slice. by rewrite drop_0.
Qed.

(** One turn of the region loop, and the whole loop. *)
Lemma region_exact m wide fuel fd base q_len (w : world qsys sahara) :
  bufs (reading m wide) (loc w) -> 0 <= q_len < 2 ^ 32 -> 0 <= base ->
  base + q_len <= 2 ^ (if wide then 64 else 32) -> q_len < Z.of_nat fuel ->
  runs E (read_region fuel fd base q_len) w (fun b w' =>
    b = true /\ saved fd (hist w') = saved fd (hist w) ++ range mem base (Z.to_nat q_len)).
Proof.
  intros Hw Hq Hb Hbq Hf. unfold read_region.
  apply (runs_iterM E _ (fun cur w' => 0 <= cur <= q_len /\ bufs (reading m wide) (loc w') /\
      saved fd (hist w') = saved fd (hist w) ++ range mem base (Z.to_nat cur))
    (fun cur _ => Z.to_nat (q_len - cur))); [|split_and!; [lia|lia|done|by rewrite app_nil_r]|lia].
  intros cur w1 (Hc & Hw1 & Hs1). unfold region_step.
  destruct (Z.ltb_spec cur q_len) as [Hlt|].
  2:{ apply runs_ret. replace q_len with cur by lia. done. }
  assert (Hm := b_max _ _ Hw1). destruct (b_state _ _ Hw1) as [Em _].
  apply runs_bind, runs_gets. rewrite Em in *. set (n := Z.min _ m).
  assert (Hn : 0 < n <= m /\ n <= q_len - cur).
  { unfold n, u32. rewrite Z.mod_small by lia. lia. }
  assert (Hlim : base + cur < 2 ^ (if wide then 64 else 32)) by lia.
  assert (Hu : u64 (base + cur) = base + cur).
  { apply Z.mod_small. destruct wide; lia. }
  rewrite Hu. apply runs_bind. eapply request_runs; [exact Hw1|split; lia|lens|].
  intros s2 h2 Hw2 Ho2 Hs2. cbn [negb].
  apply runs_bind. eapply rx_runs; [exact Hw2|exact Ho2|lens|].
  intros s3 h3 Hw3 Hs3 Hrx. cbn [negb]. rsteps. cbn [loc hist] in *.
  assert (Hl3 := b_rx _ _ Hw3).
  eapply runs_of_option; [apply rd_bytes_fits; lens|]. rsteps.
  assert (Hsv := h_save _ _ HE h3 fd (slice 0 (Z.to_nat n) (q_rx_buf s3))).
  cbn [hist loc]. rewrite Hsv.
  assert (Hls : len (slice 0 (Z.to_nat n) (q_rx_buf s3)) = n) by (unfold len in *; rewrite length_slice by lens; lens).
  assert (H32 : s32 n = n) by (unfold s32; rewrite Z.mod_small; lens).
  rewrite Hls, H32. rewrite (proj2 (Z.ltb_ge _ _)) by lia. rsteps.
  split; [|lia]. split_and!; [lia|lia|exact Hw3|].
  cbn [saved hist]. rewrite Z.eqb_refl, (take_ge (slice _ _ _)) by (unfold len in Hls; lia).
  rewrite Hs3, Hs2, Hs1, Hrx, <-app_assoc.
  replace (base + cur) with (base + Z.of_nat (Z.to_nat cur)) by lia.
  rewrite range_app. do 2 f_equal. lia.
Qed.
End Exact.

(** ** Properties *)

(** C33: outside the dump of the regions every turn of the state machine ends
    without undefined behaviour whatever the device sends, with one exception: no
    access leaves the three buffers, and the turn goes on as the protocol orders,
    with a table that fits the buffers.  The exception is the print of the table
    that has just been received: where its names have no end inside the buffer
    ([printable]), they are read beyond it. *)
Theorem dump_step_safe E (w : world qsys sahara) fuel l :
  ready l (loc w) -> q_state (loc w) <> Q_SAHARA_WAIT_EIGHT ->
  match dump_step fuel l E w with
  | Done r w' => turn_post (q_state (loc w)) r (loc w')
  | Undef => q_state (loc w) = Q_SAHARA_WAIT_SEVEN /\
      exists n w', receive_table l E w = Done (Some n) w' /\ printable (Z.to_nat n) (q_misc_buf (loc w')) = false
  | _ => False
  end.
Proof.
  intros [Hw Hr] He. set (st := q_state (loc w)) in *.
  assert (Hst : bufs (is_state st) (loc w)) by (destruct Hw; by constructor).
  assert (Hstep : dump_step fuel l E w = match st with
    | Q_SAHARA_WAIT_ONE => wait_one l E w | Q_SAHARA_WAIT_TWO => wait_two l E w
    | Q_SAHARA_WAIT_SEVEN => wait_seven l E w | Q_SAHARA_WAIT_EIGHT => wait_eight fuel l E w
    | Q_SAHARA_WAIT_THREE => wait_three l E w | _ => Done (inr false) w end)
    by (unfold dump_step, mbind, M_bind, gets; cbn; fold st; by destruct st).
  rewrite Hstep.
  assert (Hrun : forall m : D step_result, triple (bufs (is_state st)) m (turn_post st) ->
    match m E w with Done r w' => turn_post st r (loc w') | _ => False end).
  { intros m Hm. exact (Hm E w Hst). }
  destruct st; try done; try (specialize (Hrun _ (wait_one_ok l))); try (specialize (Hrun _ (wait_two_ok l)));
    try (specialize (Hrun _ (wait_three_ok l))); try (by destruct (_ l E w)).
  pose proof (wait_seven_ok E w l Hr Hst) as H7. by destruct (wait_seven l E w).
Qed.

(** The dump of a region of less than 4 GiB ends, without an access outside
    the buffers, whatever the device does: each turn either brings bytes or
    halves the size of the reads. *)
Theorem read_region_terminates E (w : world qsys sahara) fuel fd base q_len :
  bufs any (loc w) -> 0 <= q_len < 2 ^ 32 -> q_len + Q_SAHARA_RAW_BUF_SZ < Z.of_nat fuel ->
  exists b w', read_region fuel fd base q_len E w = Done b w' /\ bufs any (loc w').
Proof.
  intros Hw Hq Hf. assert (H := read_region_ok E fuel fd base q_len w Hw Hq Hf). unfold runs in H.
  destruct (read_region fuel fd base q_len E w) as [b w'| | |]; [|done..]. by exists b, w'.
Qed.

(** C9: with a device that answers every read request with its memory, in
    pieces as it likes, and a log file that takes what it is given, the file of a
    region of less than 4 GiB receives exactly the memory of the region. *)
Theorem region_dump_exact mem E (w : world qsys sahara) fuel fd base q_len :
  honest mem E -> bufs any (loc w) -> 0 <= q_len < 2 ^ 32 -> 0 <= base ->
  base + q_len <= 2 ^ (if q_ram_dump_64bit (loc w) then 64 else 32) -> q_len < Z.of_nat fuel ->
  exists w', read_region fuel fd base q_len E w = Done true w' /\
    saved fd (hist w') = saved fd (hist w) ++ range mem base (Z.to_nat q_len).
Proof.
  intros HE Hw Hq Hb Hbq Hf.
  assert (H := region_exact mem E HE (q_max_ram_dump_read (loc w)) (q_ram_dump_64bit (loc w))
    fuel fd base q_len w). unfold runs in H.
  destruct (read_region fuel fd base q_len E w) as [b w'| | |].
  1: exists w'. 2-4: exfalso.
  all: assert (Hr : bufs (reading (q_max_ram_dump_read (loc w)) (q_ram_dump_64bit (loc w))) (loc w))
    by (destruct Hw; by constructor).
  all: specialize (H Hr Hq Hb Hbq Hf); destruct H as [-> H] || destruct H; done.
Qed.

(** A region of 4 GiB or more is never dumped successfully: the size of the
    next request is computed from the low 32 bits of what is left, and what is
    left stays at 2^32 or more. *)
Theorem region_4g_never_completes E (w : world qsys sahara) fuel fd base q_len :
  bufs any (loc w) -> 2 ^ 32 <= q_len ->
  match read_region fuel fd base q_len E w with
  | Done b _ => b = false
  | NoFuel => True
  | _ => False
  end.
Proof.
  intros Hw Hq. unfold read_region. assert (Hr : 2 ^ 32 <= q_len - 0) by lia. revert Hr.
  generalize 0 as cur. revert w Hw. induction fuel as [|fuel IH]; intros w Hw cur Hr; [done|].
  cbn [iterM]. unfold mbind, M_bind.
  assert (H := region_4g_step E fd base q_len cur w Hw Hr). unfold runs in H.
  destruct (region_step fd base q_len cur E w) as [[cur'|b] w'| | |]; try done.
  - destruct H. by apply IH.
  - cbn. by destruct H.
Qed.

(** ** Witnesses *)

Definition fresh : sahara :=
  Sahara (replicate (Z.to_nat Q_SAHARA_RAW_BUF_SZ) 0) (replicate 2048 0)
    (replicate (Z.to_nat Q_SAHARA_RAW_BUF_SZ) 0) Q_SAHARA_WAIT_ONE Q_SAHARA_RAW_BUF_SZ
    Q_SAHARA_MODE_TWO false 3 5 65536 None 1.

Lemma len_replicate n (b : Z) : len (replicate n b) = Z.of_nat n.
Proof. unfold len. by rewrite length_replicate. Qed.

Lemma fresh_bufs : bufs any fresh.
Proof.
  constructor; cbn [fresh q_rx_buf q_tx_buf q_misc_buf q_max_ram_dump_read MAX_TO_READ];
    try rewrite len_replicate; unfold Q_SAHARA_RAW_BUF_SZ; try exact I; lia.
Qed.

(** A device that answers as much as it is asked. *)
Definition device (mem : Z -> Z) : env qsys := fun A h c =>
  match c in qsys A return A with
  | PollWrite _ out _ => (len out, 0)
  | SelectRead _ _ => 1
  | Read _ k => let '(a, n) := owed h in Some (range mem a (Z.to_nat (Z.min n k)))
  | LogfileSave _ d => len d
  | c => quiet _ h c
  end.

Lemma device_honest mem : honest mem (device mem).
Proof.
  constructor; try done.
  intros h fd k a n Ho Hn Hk. exists (Z.to_nat (Z.min n k)). cbn. rewrite Ho.
  split_and!; [lia|lia|done].
Qed.

Lemma dump_step_safe_witness :
  match dump_step 1 (Locals (-1) 0 0) quiet (World fresh []) with
  | Done r w' => turn_post Q_SAHARA_WAIT_ONE r (loc w')
  | Undef => Q_SAHARA_WAIT_ONE = Q_SAHARA_WAIT_SEVEN /\
      exists n w', receive_table (Locals (-1) 0 0) quiet (World fresh []) = Done (Some n) w' /\
        printable (Z.to_nat n) (q_misc_buf (loc w')) = false
  | _ => False
  end.
Proof.
  apply (dump_step_safe quiet (World fresh []) 1 (Locals (-1) 0 0));
    [split; [exact fresh_bufs|exact I] | discriminate].
Defined.

Lemma read_region_terminates_witness :
  exists b w', read_region (Z.to_nat 200000) 5 0 1000 quiet (World fresh []) = Done b w' /\
    bufs any (loc w').
Proof.
  apply (read_region_terminates quiet (World fresh []) (Z.to_nat 200000) 5 0 1000);
    [exact fresh_bufs | lia | unfold Q_SAHARA_RAW_BUF_SZ; lia].
Defined.

Lemma region_dump_exact_witness :
  exists w', read_region 101 5 0x80000000 100 (device (fun a => a mod 256)) (World fresh []) = Done true w' /\
    saved 5 (hist w') = [] ++ range (fun a => a mod 256) 0x80000000 (Z.to_nat 100).
Proof.
  apply (region_dump_exact (fun a => a mod 256) (device (fun a => a mod 256)) (World fresh []) 101 5
    0x80000000 100);
    [apply device_honest | exact fresh_bufs | lia | lia | cbn; lia | lia].
Defined.

Lemma region_4g_never_completes_witness :
  match read_region 3 5 0 (2 ^ 32) (device (fun _ => 0)) (World fresh []) with
  | Done b _ => b = false
  | NoFuel => True
  | _ => False
  end.
Proof.
  apply (region_4g_never_completes (device (fun _ => 0)) (World fresh []) 3 5 0 (2 ^ 32));
    [exact fresh_bufs | lia].
Defined.
