(* ===== verification/Ymodem.v ===== *)
(** The YMODEM receiver of the ASR memory dump (src/ymodem.c).

    The frame buffer is the list [frame] of its 1029 bytes: tag, index,
    complement, 1024 bytes of data, CRC.  A read of the port is a PollRead
    whose answer holds the result, the bytes and [errno].  Debug output is not
    modelled. *)

From Stdlib Require Import ZArith Lia.
From S2P Require Import Prelude Qsys.

Definition SOH : Z := 0x01.
Definition STX : Z := 0x02.
Definition EOT : Z := 0x04.
Definition ACK : Z := 0x06.
Definition CNC : Z := 0x43.
Definition ETIMEDOUT : Z := 110.
Definition sizeof_FrameHdr : Z := 1029.

Record ymodem := Ymodem {
  g_total_recvsz : Z;
  g_current_fd : Z;
  g_current_filesz : Z;
  g_current_recvsz : Z;
  g_current_filename : list Z;    (* the string *)
  frame : list Z                  (* YmodemBuff *)
}.

#[export] Instance eta_ymodem : Eta ymodem := fun s =>
  Ymodem (g_total_recvsz s) (g_current_fd s) (g_current_filesz s) (g_current_recvsz s)
    (g_current_filename s) (frame s).

Abbreviation Y := (M qsys ymodem).
Definition upd {A} (f : ymodem -> A) `{!Setter f} (v : A) : Y unit :=
  modify (set_field f (fun _ => v)).

Definition tag (s : ymodem) : option Z := rd 0 1 (frame s).
Definition idx (s : ymodem) : option Z := rd 1 1 (frame s).

(** ** C library *)

Definition is_digit (c : Z) : bool := (48 <=? c) && (c <=? 57).
Definition is_space (c : Z) : bool := (c =? 32) || ((9 <=? c) && (c <=? 13)).

(** The value of the leading digits; [None] if they run out of the buffer. *)
Fixpoint digits (acc : Z) (l : list Z) : option Z :=
  match l with
  | [] => None
  | c :: l' => if is_digit c then digits (acc * 10 + (c - 48)) l' else Some acc
  end.
Fixpoint skip_spaces (l : list Z) : list Z :=
  match l with
  | [] => []
  | c :: l' => if is_space c then skip_spaces l' else l
  end.

(** [strtoul(s, NULL, 10)] *)
Definition strtoul (l : list Z) : option Z :=
  let clamp v := Z.min v (2 ^ 64 - 1) in
  match skip_spaces l with
  | [] => None
  | c :: l' =>
      if c =? 45 then v ← digits 0 l'; Some (if v <=? 2 ^ 64 - 1 then u64 (- v) else 2 ^ 64 - 1)
      else if c =? 43 then v ← digits 0 l'; Some (clamp v)
      else v ← digits 0 (c :: l'); Some (clamp v)
  end.

(** ** The functions *)

Definition finishup : Y Z :=
  fd ← gets g_current_fd;
  call (LogfileClose fd);;
  upd g_current_recvsz 0;;
  upd g_current_filesz 0;;
  upd g_current_filename [];;
  upd g_current_fd (-1);;
  mret 0.

(** ["%.<n>s"]: at most [n] bytes are read. *)
Definition precision (n : nat) (l : list Z) : list Z := cstr (take n l).

(** [buff]: the data of the frame and what follows it in the structure. *)
Definition parser_hdr (logfile_dir buff : list Z) : Y Z :=
  let name := precision 127 buff in
  upd g_current_filename name;;
  size ← of_option (strtoul (drop (length name + 1) buff));
  upd g_current_filesz size;;
  upd g_current_recvsz 0;;
  if negb (bool_decide (name = [])) then
    fd ← call (LogfileCreate 0 (precision 240 logfile_dir ++ str "/" ++ precision 120 name) 0 1);
    upd g_current_fd fd;;
    mret (if 0 <? fd then 0 else -1)
  else mret 0.

(** [buff]: [None] for NULL.  The lengths are computed as [int]s. *)
Definition save_data (buff : option (list Z)) (len : Z) : Y Z :=
  s ← get;
  let remain_len := s32 (g_current_filesz s - g_current_recvsz s) in
  let data_len := if remain_len <? len then remain_len else len in
  upd g_current_recvsz (u64 (g_current_recvsz s + data_len));;
  upd g_total_recvsz (u64 (g_total_recvsz s + data_len));;
  match buff with
  | Some b =>
      if (0 <? len) && (0 <? g_current_fd s) then
        out ← of_option (rd_bytes 0 (Z.to_nat len) b);
        ret ← call (LogfileSave (g_current_fd s) out);
        mret (if s32 ret =? len then 0 else -1)
      else mret 0
  | None => mret 0
  end.

Definition ymodem_tx_data (ttyfd data : Z) : Y Z :=
  '(rc, errno) ← call (PollWrite ttyfd [data] 1000);
  mret (if u64 rc =? 1 then 0 else if negb (errno =? 0) then - errno else -1).

(** What the tag says of the length received. *)
Definition frame_length_ok (tag rc : Z) : bool :=
  if tag =? SOH then rc =? 128 + 5
  else if tag =? STX then rc =? 1024 + 5
  else if tag =? EOT then rc =? 1
  else true.

Definition ymodem_rx_data (ttyfd : Z) : Y Z :=
  '(rc, data, errno) ← poll_read ttyfd sizeof_FrameHdr 10000;
  buf ← gets frame;
  buf' ← of_option (wr 0 data buf);
  upd frame buf';;
  let error := if negb (errno =? 0) then - errno else -1 in
  if 0 <? rc then
    t ← of_option (rd 0 1 buf');
    mret (if frame_length_ok t rc then 0 else error)
  else mret error.

(** One frame of a file: received, acknowledged, saved.  [inr] ends the
    inner loop: with [None] at the end of the file, with the value to return
    otherwise. *)
Definition file_step (ttyfd : Z) : Y (unit + option Z) :=
  quit ← call ExitRequested;
  if negb (quit =? 0) then mret (inr None)
  else
    ret ← ymodem_rx_data ttyfd;
    ret ← (if ret =? - ETIMEDOUT then ymodem_tx_data ttyfd ACK;; ymodem_rx_data ttyfd
           else mret ret);
    if negb (ret =? 0) then mret (inr (Some ret))
    else
      s ← get;
      t ← of_option (tag s);
      if (t =? SOH) || (t =? STX) then
        let data_len := if t =? SOH then 128 else 1024 in
        ret ← ymodem_tx_data ttyfd ACK;
        if negb (ret =? 0) then mret (inr (Some ret))
        else save_data (Some (drop 3 (frame s))) data_len;; mret (inl tt)
      else if t =? EOT then
        ymodem_tx_data ttyfd ACK;;
        save_data None 0;;
        finishup;;
        mret (inr None)
      else mret (inr (Some (-1))).

Definition receive_file (fuel : nat) (ttyfd : Z) : Y (option Z) :=
  iterM fuel (fun _ => file_step ttyfd) tt.

(** [while (wait_file_retry < 5)]: whether to give up, and [ret].  After five
    timeouts the session goes on with whatever the frame buffer holds. *)
Definition wait_header (ttyfd : Z) : Y (bool * Z) :=
  iterM 6 (fun '(retry, ret) =>
    if retry <? 5 then
      ret ← ymodem_rx_data ttyfd;
      if ret =? 0 then mret (inr (false, ret))
      else if ret =? - ETIMEDOUT then ymodem_tx_data ttyfd CNC;; mret (inl (retry + 1, ret))
      else mret (inr (true, ret))
    else mret (inr (false, ret))) (0, 0).

(** A file whose header is in the frame buffer. *)
Definition session_file (fuel : nat) (ttyfd : Z) (logfile_dir : list Z) : Y (Z + Z) :=
  buf ← gets frame;
  ret ← parser_hdr logfile_dir (drop 3 buf);
  if negb (ret =? 0) then mret (inr ret)
  else
    ret ← ymodem_tx_data ttyfd ACK;
    if negb (ret =? 0) then mret (inr ret)
    else
      s ← get;
      if (g_current_filesz s =? 0) && bool_decide (g_current_filename s = []) then
        call (Usleep (100 * 1000));; ymodem_tx_data ttyfd CNC;; mret (inr ret)
      else
        broken ← receive_file fuel ttyfd;
        match broken with
        | Some ret => mret (inr ret)
        | None =>
            fd ← gets g_current_fd;
            (if negb (fd =? -1) then call (LogfileClose fd);; upd g_current_fd (-1)
             else mret tt);;
            mret (inl ret)
        end.

(** One turn of the outer loop. *)
Definition session_step (fuel : nat) (ttyfd : Z) (logfile_dir : list Z) (ret0 : Z) : Y (Z + Z) :=
  quit ← call ExitRequested;
  if negb (quit =? 0) then mret (inr ret0)
  else
    upd g_current_recvsz 0;;
    '(give_up_header, ret) ← wait_header ttyfd;
    if (give_up_header : bool) then mret (inr ret)
    else
      s ← get;
      t ← of_option (tag s);
      i ← of_option (idx s);
      if (t =? STX) || (t =? EOT) || ((t =? SOH) && negb (i =? 0)) then
        ymodem_tx_data ttyfd ACK;; mret (inl ret)
      else session_file fuel ttyfd logfile_dir.

Definition asr_catch_dump (turns fuel : nat) (ttyfd : Z) (logfile_dir : list Z) : Y Z :=
  ret ← ymodem_tx_data ttyfd CNC;
  if negb (ret =? 0) then mret ret
  else
    upd g_total_recvsz 0;;
    upd g_current_fd (-1);;
    iterM turns (session_step fuel ttyfd logfile_dir) ret.

(** ** A sender that follows the protocol *)

Fixpoint polls (h : list (io qsys)) : nat :=
  match h with
  | [] => O
  | Ev c _ :: h' => (match c with PollRead _ _ _ => 1 | _ => 0 end + polls h')%nat
  end.

(** The acknowledgements sent. *)
Fixpoint acks (h : list (io qsys)) : nat :=
  match h with
  | [] => O
  | Ev c _ :: h' =>
      (match c with PollWrite _ out _ => if bool_decide (out = [ACK]) then 1 else 0 | _ => 0 end
       + acks h')%nat
  end.

(** What happens to a log file, oldest first: the bytes it took of every save,
    and its end. *)
Inductive log_call : Type := Stored (data : list Z) | Shut.
Fixpoint log_calls (fd : Z) (h : list (io qsys)) : list log_call :=
  match h with
  | [] => []
  | Ev c a :: h' =>
      log_calls fd h' ++
      match c in qsys A return A -> list log_call with
      | LogfileSave fd' d => fun r => if fd' =? fd then [Stored (take (Z.to_nat r) d)] else []
      | LogfileClose fd' => fun _ => if fd' =? fd then [Shut] else []
      | _ => fun _ => []
      end a
  end.

(** A data frame: its tag says how long it is and how much it carries. *)
Definition data_frame (f : list Z) : Prop :=
  (head f = Some SOH /\ len f = 133) \/ (head f = Some STX /\ len f = 1029).
Definition payload (f : list Z) : list Z :=
  take (if bool_decide (head f = Some SOH) then 128 else 1024) (drop 3 f).

(** From the [n]-th read on, one frame after the other. *)
Record serves (n : nat) (frames : list (list Z)) (E : env qsys) : Prop := Serves {
  s_poll : forall h fd k t i f, polls h = (n + i)%nat -> frames !! i = Some f ->
    (E _ h (PollRead fd k t)).1 = Some f;
  s_ack : forall h fd, (E _ h (PollWrite fd [ACK] 1000)).1 = 1;
  s_exit : forall h, E _ h ExitRequested = 0;
  s_save : forall h fd d, E _ h (LogfileSave fd d) = len d
}.

Section Receive.
Context (E : env qsys).

Lemma ymodem_rx_runs n frames f ttyfd (w : world qsys ymodem) (Q : Z -> world qsys ymodem -> Prop) :
  serves n frames E -> polls (hist w) = n -> frames !! 0%nat = Some f ->
  0 < len f <= 1029 -> len (frame (loc w)) = 1029 ->
  (match f with [] => False | t :: _ => 0 <= t < 256 /\ frame_length_ok t (len f) = true end) ->
  (forall h, polls h = S n -> acks h = acks (hist w) ->
     (forall fd, log_calls fd h = log_calls fd (hist w)) ->
     Q 0 (World ((loc w) <| frame := f ++ drop (length f) (frame (loc w)) |>) h)) ->
  runs E (ymodem_rx_data ttyfd) w Q.
Proof.
  intros HE Hn Hf Hl Hb Ht HQ. unfold ymodem_rx_data, poll_read, read_result.
  assert (Hp := s_poll _ _ _ HE (hist w) ttyfd sizeof_FrameHdr 10000 0 f).
  rewrite Nat.add_0_r in Hp. specialize (Hp Hn Hf).
  apply runs_bind, runs_bind, runs_call.
  destruct (E _ (hist w) (PollRead ttyfd sizeof_FrameHdr 10000)) as [r errno]. cbn in Hp. subst r.
  rewrite (take_ge f (Z.to_nat sizeof_FrameHdr)) by (unfold len, sizeof_FrameHdr in *; lia).
  apply runs_ret. cbn beta iota. rsteps. cbn [loc].
  eapply runs_of_option; [apply wr_fits; unfold len in *; lia|]. unfold upd. rsteps. cbn [loc hist].
  rewrite (proj2 (Z.ltb_lt _ _)) by lia.
  assert (Hput : put 0 f (frame (loc w)) = f ++ drop (length f) (frame (loc w))) by done.
  rewrite Hput. destruct f as [|t f']; [done|]. destruct Ht as [Ht Hok].
  apply runs_bind. eapply runs_of_option; [apply rd_fits; cbn; lia|].
  apply runs_ret.
  assert (Hg : get_le 0 1 ((t :: f') ++ drop (length (t :: f')) (frame (loc w))) = t)
    by (unfold get_le, slice; cbn; rewrite take_0; cbn; lia).
  rewrite Hg.
  rewrite Hok. apply HQ; cbn [polls acks]; [lia|done|].
  intros fd. cbn [log_calls]. by rewrite app_nil_r.
Qed.
End Receive.

Lemma ack_runs n frames E ttyfd (w : world qsys ymodem) (Q : Z -> world qsys ymodem -> Prop) :
  serves n frames E ->
  (forall h, polls h = polls (hist w) -> acks h = S (acks (hist w)) ->
     (forall fd, log_calls fd h = log_calls fd (hist w)) -> Q 0 (World (loc w) h)) ->
  runs E (ymodem_tx_data ttyfd ACK) w Q.
Proof.
  intros HE HQ. unfold ymodem_tx_data. apply runs_bind, runs_call.
  assert (Ha := s_ack _ _ _ HE (hist w) ttyfd).
  destruct (E _ (hist w) (PollWrite ttyfd [ACK] 1000)) as [rc errno]. cbn in Ha. subst rc.
  apply runs_ret. apply HQ; cbn [polls acks]; [done|by rewrite bool_decide_eq_true_2|].
  intros fd. cbn [log_calls]. by rewrite app_nil_r.
Qed.

Lemma serves_tail n f frames E : serves n (f :: frames) E -> serves (S n) frames E.
Proof.
  intros [Hp Ha He Hs]. split; [|done..].
  intros h fd k t i g Hh Hg. apply (Hp h fd k t (S i)); [lia|done].
Qed.

Lemma data_frame_shape f : data_frame f ->
  exists t f', f = t :: f' /\ (t = SOH /\ len f = 133 \/ t = STX /\ len f = 1029).
Proof. intros [[H L]|[H L]]; (destruct f as [|t f']; [done|]); cbn in H; simplify_eq; eauto 6. Qed.

Lemma save_data_runs (E : env qsys) (w : world qsys ymodem) b n (Q : Z -> world qsys ymodem -> Prop) :
  0 < n <= len b -> 0 < g_current_fd (loc w) ->
  (forall h fd d, E _ h (LogfileSave fd d) = len d) ->
  (forall r s (ret : Z), ret = len (slice 0 (Z.to_nat n) b) -> frame s = frame (loc w) -> g_current_fd s = g_current_fd (loc w) ->
     Q r (World s (Ev (LogfileSave (g_current_fd (loc w)) (slice 0 (Z.to_nat n) b)) ret :: hist w))) ->
  runs E (save_data (Some b) n) w Q.
Proof.
  intros Hn Hfd Hsave HQ. unfold save_data, upd. rsteps.
  rewrite (proj2 (Z.ltb_lt 0 n)), (proj2 (Z.ltb_lt 0 (g_current_fd (loc w)))) by lia. cbn [andb].
  apply runs_bind. eapply runs_of_option; [apply rd_bytes_fits; unfold len in Hn; lia|].
  rsteps. by apply HQ.
Qed.

Lemma payload_slice t f' rest :
  (t = SOH /\ len (t :: f') = 133 \/ t = STX /\ len (t :: f') = 1029) ->
  slice 0 (Z.to_nat (if t =? SOH then 128 else 1024)) (drop 3 ((t :: f') ++ rest)) = payload (t :: f').
Proof.
  intros Ht. unfold slice, payload. rewrite drop_0. cbn [head].
  unfold len in Ht. cbn [length] in Ht.
  rewrite drop_app_le by (cbn [length]; lia).
  destruct Ht as [[-> Hl]|[-> Hl]]; cbn [Z.eqb Pos.eqb SOH STX].
  - rewrite bool_decide_eq_true_2 by done. apply take_app_le. rewrite length_drop. cbn [length]. lia.
  - rewrite bool_decide_eq_false_2 by done. apply take_app_le. rewrite length_drop. cbn [length]. lia.
Qed.

(** The frames, the acknowledgements, the end. *)
Lemma receive_runs E ttyfd fs : forall fuel (w : world qsys ymodem),
  Forall data_frame fs -> serves (polls (hist w)) (fs ++ [[EOT]]) E ->
  len (frame (loc w)) = 1029 -> 0 < g_current_fd (loc w) -> (length fs < fuel)%nat ->
  runs E (receive_file fuel ttyfd) w (fun r w' =>
    r = None /\ g_current_fd (loc w') = -1 /\
    log_calls (g_current_fd (loc w)) (hist w') =
      log_calls (g_current_fd (loc w)) (hist w) ++ map (fun f => Stored (payload f)) fs ++ [Shut] /\
    acks (hist w') = (acks (hist w) + length fs + 1)%nat).
Proof.
  induction fs as [|f fs IH]; intros fuel w Hfs HE Hlen Hfd Hfuel; cbn [length] in Hfuel;
    (destruct fuel as [|fuel]; [lia|]); unfold receive_file in *; cbn [iterM];
    apply runs_bind; unfold file_step.
  - apply runs_bind, runs_call. rewrite (s_exit _ _ _ HE). cbn [Z.eqb negb].
    apply runs_bind. eapply ymodem_rx_runs;
      [exact HE|done|done|unfold len; cbn; lia|exact Hlen|split; [unfold EOT; lia|done]|].
    intros h Hp Ha Hsv. cbn [Z.eqb Z.opp]. apply runs_bind, runs_ret. cbn [Z.eqb negb].
    apply runs_bind, runs_get. cbn [loc]. set (s1 := set_field _ _ _).
    apply runs_bind. eapply runs_of_option; [unfold tag; apply rd_fits; cbn; lia|].
    assert (Ht : get_le 0 1 (frame s1) = EOT).
    { unfold get_le, slice. cbn. by rewrite take_0. }
    rewrite Ht. change ((EOT =? SOH) || (EOT =? STX)) with false. change (EOT =? EOT) with true.
    cbv iota.
    apply runs_bind. eapply (ack_runs _ _ E); [exact HE|]. intros h2 Hp2 Ha2 Hsv2.
    apply runs_bind. unfold save_data, upd. rsteps. unfold finishup, upd. rsteps. cbn [loc hist].
    split_and!; [done|done| |].
    + cbn [log_calls]. rewrite Z.eqb_refl, Hsv2. cbn [hist]. rewrite Hsv. cbn [log_calls hist map app]. by rewrite !app_nil_r.
    + cbn [acks]. rewrite Ha2. cbn [hist]. rewrite Ha. cbn [acks hist length]. lia.
  - apply Forall_cons in Hfs as [Hf Hfs].
    destruct (data_frame_shape f Hf) as (t&f'&->&Ht).
    apply runs_bind, runs_call. rewrite (s_exit _ _ _ HE). cbn [Z.eqb negb].
    assert (Htb : 0 <= t < 256 /\ frame_length_ok t (len (t :: f')) = true).
    { unfold SOH, STX in Ht. destruct Ht as [[-> ->]|[-> ->]]; (split; [lia|done]). }
    apply runs_bind. eapply ymodem_rx_runs; [exact HE|done|done|destruct Ht as [[_ ->]|[_ ->]]; lia|exact Hlen|exact Htb|].
    intros h Hp Ha Hsv. cbn [Z.eqb Z.opp]. apply runs_bind, runs_ret. cbn [Z.eqb negb].
    apply runs_bind, runs_get. cbn [loc]. set (s1 := set_field _ _ _).
    assert (Hg : get_le 0 1 (frame s1) = t).
    { unfold get_le, slice. cbn. rewrite take_0. cbn. lia. }
    assert (Hl1 : len (frame s1) = 1029).
    { unfold len in *. change (frame s1) with ((t :: f') ++ drop (length (t :: f')) (frame (loc w))).
      rewrite length_app, length_drop. cbn [length] in *. lia. }
    apply runs_bind. eapply runs_of_option; [unfold tag; apply rd_fits; unfold len in Hl1; lia|].
    rewrite Hg. replace ((t =? SOH) || (t =? STX)) with true
      by (destruct Ht as [[-> _]|[-> _]]; done).
    apply runs_bind. eapply (ack_runs _ _ E); [exact HE|]. intros h2 Hp2 Ha2 Hsv2. cbn [Z.eqb negb].
    apply runs_bind. cbn [loc]. apply save_data_runs.
    { unfold len in *. rewrite length_drop. destruct Ht as [[-> _]|[-> _]]; cbn [Z.eqb Pos.eqb SOH STX]; lia. }
    { exact Hfd. } { apply (s_save _ _ _ HE). }
    intros r s2 ret -> Hfr Hfd2. apply runs_ret. cbn beta iota. change (g_current_fd s1) with (g_current_fd (loc w)) in *.
    eapply runs_mono; [apply IH; cbn [loc hist polls]|].
    + done.
    + rewrite Hp2. cbn [hist]. rewrite Hp. eapply serves_tail. exact HE.
    + by rewrite Hfr.
    + by rewrite Hfd2.
    + lia.
    + cbn [loc hist]. intros r' w' (-> & Hfd' & Hs' & Ha'). rewrite Hfd2 in *.
      change (g_current_fd (loc (World s1 h2))) with (g_current_fd (loc w)) in *.
      split_and!; [done|done| |].
      * rewrite Hs'. cbn [log_calls]. rewrite Z.eqb_refl, Hsv2. cbn [hist]. rewrite Hsv. cbn [log_calls hist].
        rewrite app_nil_r, <-app_assoc. f_equal. cbn [map app]. f_equal. f_equal.
        rewrite <-(payload_slice t f' (drop (length (t :: f')) (frame (loc w)))) by exact Ht. apply take_ge.
        unfold len. by rewrite Nat2Z.id.
      * rewrite Ha'. cbn [acks length]. rewrite Ha2. cbn [hist]. rewrite Ha. cbn [acks hist]. lia.
Qed.

(** ** Properties *)

(** C27: a file sent by the protocol - data frames of 128 or 1024 bytes, then
    EOT - is received completely by a log that takes what it is given: every
    frame is acknowledged and its data stored, one save for each frame in their
    order, the end is acknowledged, and then the file is closed.  What stands
    behind the announced size in the last frame, which the sender pads, is stored,
    too. *)
Theorem receive_file_correct E ttyfd fs fuel (w : world qsys ymodem) :
  Forall data_frame fs -> serves (polls (hist w)) (fs ++ [[EOT]]) E ->
  len (frame (loc w)) = 1029 -> 0 < g_current_fd (loc w) -> (length fs < fuel)%nat ->
  exists w', receive_file fuel ttyfd E w = Done None w' /\
    log_calls (g_current_fd (loc w)) (hist w') =
      log_calls (g_current_fd (loc w)) (hist w) ++ map (fun f => Stored (payload f)) fs ++ [Shut] /\
    acks (hist w') = (acks (hist w) + length fs + 1)%nat /\ g_current_fd (loc w') = -1.
Proof.
  intros Hfs HE Hlen Hfd Hf. assert (H := receive_runs E ttyfd fs fuel w Hfs HE Hlen Hfd Hf).
  unfold runs in H. destruct (receive_file fuel ttyfd E w) as [r w'| | |]; [|done..].
  destruct H as (-> & ? & ? & ?). by exists w'.
Qed.

(** ** Witness *)

Definition soh_frame : list Z := [SOH; 1; 254] ++ replicate 128 0x41 ++ [0; 0].
Definition demo_frames : list (list Z) := [soh_frame; [EOT]].

(** The sender of those frames. *)
Definition sender : env qsys := fun A h c =>
  match c in qsys A return A with
  | PollRead _ _ _ => (Some (default [EOT] (demo_frames !! polls h)), 0)
  | PollWrite _ out _ => (len out, 0)
  | LogfileSave _ d => len d
  | c => quiet _ h c
  end.

Definition file_open : ymodem := Ymodem 0 3 128 0 (str "a.bin") (replicate 1029 0).

Lemma receive_file_correct_witness :
  exists w', receive_file 2 7 sender (World file_open []) = Done None w' /\
    log_calls 3 (hist w') = [] ++ map (fun f => Stored (payload f)) [soh_frame] ++ [Shut] /\
    acks (hist w') = 2%nat /\ g_current_fd (loc w') = -1.
Proof.
  apply (receive_file_correct sender 7 [soh_frame] 2 (World file_open [])).
  - constructor; [left; split; reflexivity|constructor].
  - split; [|reflexivity|reflexivity|reflexivity]. intros h fd k t i f Hh Hf. cbn. rewrite Hh.
    cbn [Nat.add polls hist]. change ([soh_frame] ++ [[EOT]]) with demo_frames in Hf. by rewrite Hf.
  - vm_compute. reflexivity.
  - reflexivity.
  - repeat constructor.
Defined.
