(* ===== verification/Hash.v ===== *)
(** The hash table of the FTP server (qftp_server/src/hash.c), on a heap of
    doubly linked nodes, and its refinement to a finite map from keys to
    values.  The heap is the part of the C heap that the table owns: a node
    with the two blocks its [key] and [value] pointers own. *)

From Stdlib Require Import ZArith Lia.
From stdpp Require Import base list gmap fin_maps.
From S2P Require Import Prelude.

Definition addr := positive.

Record hash_node := Hash_node {
  key : list Z;
  value : list Z;
  prev : option addr;
  next : option addr
}.

(** [struct hash]: [nodes] is the bucket array, as long as it was allocated. *)
Record hash := Hash {
  buckets : Z;
  hash_func : Z -> list Z -> Z;
  nodes : list (option addr);
  heap : gmap addr hash_node
}.

#[export] Instance eta_hash_node : Eta hash_node :=
  fun n => Hash_node (key n) (value n) (prev n) (next n).
#[export] Instance eta_hash : Eta hash :=
  fun t => Hash (buckets t) (hash_func t) (nodes t) (heap t).

(** What the table promises its clients: lookups hand out a pointer to the
    stored value, through which the client reads and writes it. *)
Class HashOps (sys : Type -> Type) (T : Type) := {
  lookup_entry : list Z -> nat -> M sys T (option addr);
  add_entry : list Z -> nat -> list Z -> nat -> M sys T unit;
  free_entry : list Z -> nat -> M sys T unit;
  load : addr -> M sys T (list Z);
  store : addr -> list Z -> M sys T unit
}.

(** The laws, in an environment [E]: [rep ks t m] says that the table [t]
    with keys of [ks] bytes holds the map [m], [at_key t k p] that [p] is the
    pointer to the value stored under [k]. *)
Class HashLaws {sys T} (O : HashOps sys T) (E : env sys) := {
  rep : nat -> T -> gmap (list Z) (list Z) -> Prop;
  at_key : T -> list Z -> addr -> Prop;
  lookup_law ks k m (w : world sys T) : rep ks (loc w) m -> length k = ks ->
    runs E (lookup_entry k ks) w (fun r w' => loc w' = loc w /\
      match m !! k with
      | None => r = None
      | Some _ => exists p, r = Some p /\ at_key (loc w) k p
      end);
  add_law ks k v vs m (w : world sys T) :
    rep ks (loc w) m -> length k = ks -> length v = vs ->
    runs E (add_entry k ks v vs) w (fun _ w' =>
      rep ks (loc w') (match m !! k with None => <[k := v]> m | Some _ => m end));
  free_law ks k m (w : world sys T) : rep ks (loc w) m -> length k = ks ->
    runs E (free_entry k ks) w (fun _ w' => rep ks (loc w') (delete k m));
  load_law ks k v p m (w : world sys T) :
    rep ks (loc w) m -> at_key (loc w) k p -> m !! k = Some v ->
    runs E (load p) w (fun r w' => loc w' = loc w /\ r = v);
  store_law ks k v v' p m (w : world sys T) :
    rep ks (loc w) m -> at_key (loc w) k p -> m !! k = Some v -> length v' = length v ->
    runs E (store p v') w (fun _ w' => rep ks (loc w') (<[k := v']> m))
}.

(** ** The operations *)

Section Operations.
Context {sys : Type -> Type}.

(** [malloc]: [live] are the blocks of the table that are allocated. *)
Variable Malloc : gset addr -> sys (option addr).

Abbreviation H := (M sys hash).

Definition deref (p : option addr) : H hash_node :=
  match p with
  | None => undef
  | Some a => t ← get; of_option (heap t !! a)
  end.

Definition set_node (a : addr) (f : hash_node -> hash_node) : H unit :=
  n ← deref (Some a);
  modify (fun t => t <| heap ::= <[a := f n]> |>).

Definition hash_alloc {S} (buckets : Z) (hash_func : Z -> list Z -> Z) : M sys S hash :=
  p ← call (Malloc ∅);
  match p with
  | None => undef
  | Some _ =>
      let size := s32 (u64 (u32 buckets * 8)) in
      if (size <? 0 : bool) then undef
      else
        q ← call (Malloc ∅);
        match q with
        | None => undef
        | Some _ =>
            mret (Hash (u32 buckets) hash_func (replicate (Z.to_nat (size / 8)) None) ∅)
        end
  end.

(** The index of the bucket; the array element is accessed by the caller. *)
Definition hash_get_bucket (k : list Z) : H nat :=
  t ← get;
  let bucket := u32 (hash_func t (buckets t) k) in
  if (buckets t <=? bucket : bool) then exit_ 1 else mret (Z.to_nat bucket).

Definition read_bucket (b : nat) : H (option addr) :=
  t ← get; of_option (nodes t !! b).
Definition write_bucket (b : nat) (p : option addr) : H unit :=
  _ ← read_bucket b;
  modify (fun t => t <| nodes ::= <[b := p]> |>).

(** [memcmp(a, b, n) == 0] *)
Definition memcmp (a b : list Z) (n : nat) : H bool :=
  a' ← of_option (rd_bytes 0 n a);
  b' ← of_option (rd_bytes 0 n b);
  mret (bool_decide (a' = b')).

(** One turn of the search of a chain. *)
Definition search_step (k : list Z) (key_size : nat) (node : option addr)
    : H (option addr + option addr) :=
  match node with
  | None => mret (inr None)
  | Some a =>
      n ← deref (Some a);
      same ← memcmp (key n) k key_size;
      if (same : bool) then mret (inr (Some a)) else mret (inl (next n))
  end.

(** The chain has at most as many nodes as the heap. *)
Definition hash_get_node_by_key (k : list Z) (key_size : nat) : H (option addr) :=
  b ← hash_get_bucket k;
  node ← read_bucket b;
  match node with
  | None => mret None
  | Some _ =>
      t ← get;
      iterM (S (S (size (heap t)))) (search_step k key_size) node
  end.

(** The pointer to the value is named by its node. *)
Definition hash_lookup_entry (k : list Z) (key_size : nat) : H (option addr) :=
  node ← hash_get_node_by_key k key_size;
  match node with
  | None => mret None
  | Some a => _ ← deref (Some a); mret (Some a)
  end.

Definition load_value (p : addr) : H (list Z) := n ← deref (Some p); mret (value n).
Definition store_value (p : addr) (v : list Z) : H unit :=
  n ← deref (Some p);
  v' ← of_option (wr 0 v (value n));
  set_node p (fun n => n <| value := v' |>).

Definition hash_add_entry (k : list Z) (key_size : nat) (v : list Z) (value_size : nat)
    : H unit :=
  e ← hash_lookup_entry k key_size;
  match e with
  | Some _ => mret tt
  | None =>
      t ← get;
      node ← call (Malloc (dom (heap t)));
      match node with
      | None => undef
      | Some a =>
          k' ← of_option (rd_bytes 0 key_size k);
          v' ← of_option (rd_bytes 0 value_size v);
          modify (fun t => t <| heap ::= <[a := Hash_node k' v' None None]> |>);;
          b ← hash_get_bucket k;
          head ← read_bucket b;
          match head with
          | None => write_bucket b (Some a)
          | Some h =>
              set_node a (fun n => n <| next := Some h |>);;
              set_node h (fun n => n <| prev := Some a |>);;
              write_bucket b (Some a)
          end
      end
  end.

Definition hash_free_entry (k : list Z) (key_size : nat) : H unit :=
  node ← hash_get_node_by_key k key_size;
  match node with
  | None => mret tt
  | Some a =>
      n ← deref (Some a);
      (match prev n with
       | Some p => set_node p (fun m => m <| next := next n |>)
       | None => b ← hash_get_bucket k; write_bucket b (next n)
       end);;
      (match next n with
       | Some q => set_node q (fun m => m <| prev := prev n |>)
       | None => mret tt
       end);;
      modify (fun t => t <| heap ::= delete a |>)
  end.

#[export] Instance hash_ops : HashOps sys hash := {
  lookup_entry := hash_lookup_entry;
  add_entry := hash_add_entry;
  free_entry := hash_free_entry;
  load := load_value;
  store := store_value
}.
End Operations.
