(* ===== verification/HashProps.v ===== *)
(** The hash table refines a finite map: representation invariant of the
    doubly linked chains, and the laws of [HashLaws] for hash.c. *)

From Stdlib Require Import ZArith Lia.
From stdpp Require Import base list gmap fin_maps sets.
From S2P Require Import Prelude Hash.

(** ** Doubly linked segments

    [dseg h p hd l q tl]: the nodes [l] are linked from [hd], the first one
    points back to [p]; [q] is the last one (or [p]), and [tl] follows it. *)

Fixpoint dseg (h : gmap addr hash_node) (p hd : option addr) (l : list addr)
    (q tl : option addr) : Prop :=
  match l with
  | [] => q = p /\ tl = hd
  | a :: l' => hd = Some a /\ exists n,
      h !! a = Some n /\ prev n = p /\ dseg h (Some a) (next n) l' q tl
  end.

Lemma dseg_app h l1 l2 : forall p hd q tl,
  dseg h p hd (l1 ++ l2) q tl <->
  exists q1 t1, dseg h p hd l1 q1 t1 /\ dseg h q1 t1 l2 q tl.
Proof.
  induction l1 as [|a l1 IH]; intros p hd q tl; cbn.
  - split; [intros H; by exists p, hd|]. by intros (? & ? & [-> ->] & H).
  - split.
    + intros (-> & n & Hn & Hp & H). apply IH in H. destruct H as (q1 & t1 & H1 & H2).
      exists q1, t1. eauto 7.
    + intros (q1 & t1 & (-> & n & Hn & Hp & H1) & H2). split; [done|].
      exists n. do 2 (split; [done|]). apply IH. eauto.
Qed.

Lemma dseg_frame h h' l : forall p hd q tl,
  (forall a, a ∈ l -> h' !! a = h !! a) -> dseg h p hd l q tl -> dseg h' p hd l q tl.
Proof.
  induction l as [|a l IH]; intros p hd q tl Hf; cbn; [done|].
  intros (-> & n & Hn & Hp & H). split; [done|]. exists n. split; [by rewrite Hf by left|].
  split; [done|]. apply IH; [|done]. intros b Hb. apply Hf. by right.
Qed.

(** Only the links matter. *)
Lemma dseg_relabel h a n n' l : h !! a = Some n -> prev n' = prev n -> next n' = next n ->
  forall p hd q tl, dseg h p hd l q tl -> dseg (<[a := n']> h) p hd l q tl.
Proof.
  intros Ha Hp Hn. induction l as [|b l IH]; intros p hd q tl; cbn; [done|].
  intros (-> & nb & Hb & <- & H). split; [done|]. destruct (decide (b = a)) as [->|Hne].
  - rewrite Ha in Hb. injection Hb as <-. exists n'. rewrite lookup_insert_eq, Hn. auto.
  - exists nb. rewrite lookup_insert_ne by done. auto.
Qed.

(** Pushing a node in front, and redirecting the two ends of a segment. *)
Lemma dseg_set_prev h hd l q tl p p' :
  dseg h p hd l q tl -> NoDup l ->
  match hd, l with
  | Some a, _ :: _ => forall n, h !! a = Some n ->
      dseg (<[a := n <| prev := p' |>]> h) p' hd l q tl
  | _, _ => l = [] /\ tl = hd
  end.
Proof.
  destruct l as [|a l]; cbn.
  - intros [-> ->] _. by destruct hd.
  - intros (-> & n0 & Hn0 & Hp & H) [Ha Hl]%NoDup_cons n Hn.
    rewrite Hn in Hn0. injection Hn0 as <-. split; [done|].
    exists (n <| prev := p' |>). split; [by rewrite lookup_insert_eq|]. split; [done|].
    eapply dseg_frame; [|exact H]. intros b Hb. rewrite lookup_insert_ne; [done|set_solver].
Qed.

Lemma dseg_snoc_next h p hd l b q tl n t' :
  dseg h p hd (l ++ [b]) q tl -> NoDup (l ++ [b]) -> h !! b = Some n ->
  dseg (<[b := n <| next := t' |>]> h) p hd (l ++ [b]) (Some b) t' /\ q = Some b /\ next n = tl.
Proof.
  intros H Hd Hb. apply dseg_app in H. destruct H as (q1 & t1 & H1 & H2).
  cbn in H2. destruct H2 as (-> & n0 & Hn0 & <- & -> & ->).
  rewrite Hb in Hn0. injection Hn0 as <-. split; [|done].
  apply dseg_app. exists (prev n), (Some b). split.
  - eapply dseg_frame; [|exact H1]. intros a Ha. rewrite lookup_insert_ne; [done|].
    apply NoDup_app in Hd. set_solver.
  - split; [done|]. exists (n <| next := t' |>). by rewrite lookup_insert_eq.
Qed.

Lemma dseg_lookup h l : forall p hd q tl a,
  dseg h p hd l q tl -> a ∈ l -> is_Some (h !! a).
Proof.
  induction l as [|b l IH]; intros p hd q tl a; cbn; [set_solver|].
  intros (-> & n & Hn & _ & H) [->|Ha]%elem_of_cons; eauto.
Qed.

Lemma dseg_length h l p hd q tl : dseg h p hd l q tl -> NoDup l -> (length l <= size h)%nat.
Proof.
  intros H Hd. rewrite <-size_dom, <-(size_list_to_set (C := gset addr)) by done.
  apply subseteq_size. intros a Ha. apply elem_of_list_to_set in Ha.
  apply elem_of_dom. by eapply dseg_lookup.
Qed.

Lemma dseg_neighbours h hd l1 a l2 q n :
  dseg h None hd (l1 ++ a :: l2) q None -> h !! a = Some n ->
  (forall p, prev n = Some p -> p ∈ l1) /\ (forall c, next n = Some c -> c ∈ l2).
Proof.
  intros H Ha. apply dseg_app in H. destruct H as (q1 & t1 & H1 & H2).
  cbn in H2. destruct H2 as (-> & n0 & Hn0 & Hp & H2). rewrite Ha in Hn0. injection Hn0 as <-.
  split.
  - intros p Hp'. destruct (rev l1) as [|b rl] eqn:Hr.
    + assert (l1 = []) as -> by (by rewrite <-(rev_involutive l1), Hr).
      destruct H1. congruence.
    + assert (l1 = rev rl ++ [b]) as -> by (by rewrite <-(rev_involutive l1), Hr).
      apply dseg_app in H1. destruct H1 as (q2 & t2 & _ & H1). cbn in H1.
      destruct H1 as (_ & nb & _ & _ & Hq & _). assert (p = b) as -> by congruence. set_solver.
  - intros c Hc. rewrite Hc in H2. destruct l2; [by destruct H2|].
    destruct H2 as [[= ->] _]. left.
Qed.

Lemma alter_insert (f : hash_node -> hash_node) a n (h : gmap addr hash_node) :
  h !! a = Some n -> alter f a h = <[a := f n]> h.
Proof.
  intros Ha. apply map_eq. intros i. destruct (decide (i = a)) as [->|Hi].
  - by rewrite lookup_alter_eq, lookup_insert_eq, Ha.
  - by rewrite lookup_alter_ne, lookup_insert_ne.
Qed.

(** What unlinking a node leaves of its chain. *)
Definition unlink (a : addr) (n : hash_node) (h : gmap addr hash_node) : gmap addr hash_node :=
  let h1 := match prev n with
            | Some p => alter (fun m => m <| next := next n |>) p h | None => h end in
  let h2 := match next n with
            | Some q => alter (fun m => m <| prev := prev n |>) q h1 | None => h1 end in
  delete a h2.

Lemma dseg_unlink h hd l1 a l2 q n :
  dseg h None hd (l1 ++ a :: l2) q None -> NoDup (l1 ++ a :: l2) -> h !! a = Some n ->
  exists q', dseg (unlink a n h) None (match prev n with Some _ => hd | None => next n end)
               (l1 ++ l2) q' None.
Proof.
  intros H Hd Ha. apply dseg_app in H. destruct H as (q1 & t1 & H1 & H2).
  cbn in H2. destruct H2 as (-> & n0 & Hn0 & Hp & H2). rewrite Ha in Hn0. injection Hn0 as <-.
  apply NoDup_app in Hd. destruct Hd as (Hd1 & Hd12 & [Ha2 Hd2]%NoDup_cons).
  unfold unlink.
  set (h1 := match prev n with
             | Some p => alter (fun m => m <| next := next n |>) p h | None => h end).
  assert (S1 : dseg h1 None (match prev n with Some _ => hd | None => next n end) l1
                 (prev n) (next n) /\ (forall b, b ∈ l2 -> h1 !! b = h !! b)).
  { destruct (rev l1) as [|b rl] eqn:Hr.
    - assert (l1 = []) as -> by (by rewrite <-(rev_involutive l1), Hr).
      cbn in H1. destruct H1 as [-> _]. subst h1. rewrite Hp. by cbn.
    - assert (l1 = rev rl ++ [b]) as E1 by (rewrite <-(rev_involutive l1), Hr; done).
      rewrite E1 in *.
      destruct (dseg_lookup _ _ _ _ _ _ b H1 ltac:(set_solver)) as [nb Hnb].
      destruct (dseg_snoc_next _ _ _ _ _ _ _ _ (next n) H1 Hd1 Hnb) as (S1 & -> & _).
      subst h1. rewrite Hp.
      rewrite (alter_insert _ b nb) by done. split; [done|]. intros c Hc. rewrite lookup_insert_ne; [done|].
      intros ->. apply (Hd12 c); set_solver. }
  clearbody h1. destruct S1 as [S1 F2].
  assert (S2 : dseg h1 (Some a) (next n) l2 q None) by (by eapply dseg_frame).
  destruct l2 as [|c l2'].
  - cbn in S2. destruct S2 as [_ Hn]. rewrite <-Hn in *. rewrite app_nil_r.
    exists (prev n). eapply dseg_frame; [|exact S1].
    intros b Hb. rewrite lookup_delete_ne; [done|]. intros ->. apply (Hd12 b); set_solver.
  - assert (Hnx : next n = Some c) by apply S2. rewrite Hnx in *.
    destruct (dseg_lookup _ _ _ _ _ _ c S2 ltac:(set_solver)) as [nc Hnc].
    pose proof (dseg_set_prev _ _ _ _ _ _ (prev n) S2 Hd2 nc Hnc) as S3.
    rewrite (alter_insert _ c nc) by done. exists q. apply dseg_app. exists (prev n), (Some c). split.
    + eapply dseg_frame; [|exact S1]. intros b Hb.
      rewrite lookup_delete_ne by (intros ->; apply (Hd12 b); set_solver).
      rewrite lookup_insert_ne; [done|]. intros ->. apply (Hd12 b); set_solver.
    + eapply dseg_frame; [|exact S3]. intros b Hb. rewrite lookup_delete_ne; [done|].
      intros ->. done.
Qed.

(** ** The representation invariant *)

(** What the nodes hold, without their links. *)
Abbreviation entry := (list Z * list Z)%type.
Definition entries (h : gmap addr hash_node) : gmap addr entry :=
  (fun n => (key n, value n)) <$> h.

Definition bucket_of (t : hash) (k : list Z) : nat :=
  Z.to_nat (u32 (hash_func t (buckets t) k)).
Definition in_bucket (t : hash) (e : gmap addr entry) (b : nat) (a : addr) : Prop :=
  exists k v, e !! a = Some (k, v) /\ bucket_of t k = b.

(** The nodes of the table are the entries of the map, each key once. *)
Record content (ks : nat) (e : gmap addr entry) (m : gmap (list Z) (list Z)) : Prop := Content {
  ct_node a k v : e !! a = Some (k, v) -> length k = ks /\ m !! k = Some v;
  ct_entry k v : m !! k = Some v -> exists a, e !! a = Some (k, v);
  ct_unique a b k v v' : e !! a = Some (k, v) -> e !! b = Some (k, v') -> a = b
}.

Record table_ok (ks : nat) (t : hash) (m : gmap (list Z) (list Z)) : Prop := Table_ok {
  ok_buckets : buckets t = len (nodes t);
  ok_hash k : length k = ks -> u32 (hash_func t (buckets t) k) < buckets t;
  ok_content : content ks (entries (heap t)) m;
  ok_chains b hd : nodes t !! b = Some hd ->
    exists l q, dseg (heap t) None hd l q None /\ NoDup l /\
      forall a, a ∈ l <-> in_bucket t (entries (heap t)) b a
}.

Definition pointer_to (t : hash) (k : list Z) (p : addr) : Prop :=
  exists n, heap t !! p = Some n /\ key n = k.

Lemma entries_lookup h a n : h !! a = Some n -> entries h !! a = Some (key n, value n).
Proof. intros H. unfold entries. by rewrite lookup_fmap, H. Qed.

Lemma entries_Some h a k v :
  entries h !! a = Some (k, v) -> exists n, h !! a = Some n /\ key n = k /\ value n = v.
Proof.
  unfold entries. rewrite lookup_fmap. destruct (h !! a) as [n|] eqn:Hn; cbn; [|done].
  intros [= <- <-]. eauto.
Qed.

(** Links can change without changing the entries. *)
Lemma entries_insert h a n : entries (<[a := n]> h) = <[a := (key n, value n)]> (entries h).
Proof. apply (fmap_insert (fun n => (key n, value n))). Qed.

Lemma entries_relink h a n n' : h !! a = Some n -> key n' = key n -> value n' = value n ->
  entries (<[a := n']> h) = entries h.
Proof.
  intros Hn Hk Hv. rewrite entries_insert. apply insert_id. rewrite Hk, Hv.
  by apply entries_lookup.
Qed.

Lemma entries_alter f a h :
  (forall n, key (f n) = key n /\ value (f n) = value n) -> entries (alter f a h) = entries h.
Proof.
  intros Hf. destruct (h !! a) as [n|] eqn:Ha.
  - rewrite (alter_insert _ _ n) by done. by apply (entries_relink _ _ n), Hf; try apply Hf.
  - rewrite alter_id; [done|]. intros n Hn. by rewrite Ha in Hn.
Qed.

Lemma entries_unlink a n h : entries (unlink a n h) = delete a (entries h).
Proof.
  unfold unlink, entries. rewrite fmap_delete. f_equal. fold entries.
  destruct (prev n), (next n); rewrite ?entries_alter by (intros; split; done); done.
Qed.

Lemma content_insert ks e m a k v : content ks e m -> e !! a = None -> m !! k = None ->
  length k = ks -> content ks (<[a := (k, v)]> e) (<[k := v]> m).
Proof.
  intros [H1 H2 H3] Ha Hk Hl.
  assert (Hno : forall b v', e !! b = Some (k, v') -> False).
  { intros b v' [_ Hb]%H1. by rewrite Hb in Hk. }
  split.
  - intros b k' v' [[-> [= <- <-]]|[_ He]]%lookup_insert_Some; [by simplify_map_eq|].
    destruct (H1 _ _ _ He) as [? Hm]. split; [done|].
    rewrite lookup_insert_ne; [done|]. intros ->. by rewrite Hm in Hk.
  - intros k' v' [[-> ->]|[_ Hm]]%lookup_insert_Some; [exists a; by simplify_map_eq|].
    destruct (H2 _ _ Hm) as [b Hb]. exists b. rewrite lookup_insert_ne; [done|].
    intros ->. by rewrite Ha in Hb.
  - intros b c k' v1 v2 [[-> ?]|[_ Hb]]%lookup_insert_Some
      [[-> ?]|[_ Hc]]%lookup_insert_Some; simplify_eq; eauto; exfalso; eauto.
Qed.

Lemma content_delete ks e m a k v : content ks e m -> e !! a = Some (k, v) ->
  content ks (delete a e) (delete k m).
Proof.
  intros [H1 H2 H3] Ha. split.
  - intros b k' v' [Hb He]%lookup_delete_Some. destruct (H1 _ _ _ He) as [? Hm].
    split; [done|]. rewrite lookup_delete_ne; [done|]. intros ->. by apply Hb, (H3 _ _ k' v v').
  - intros k' v' [Hk Hm]%lookup_delete_Some. destruct (H2 _ _ Hm) as [b Hb]. exists b.
    rewrite lookup_delete_ne; [done|]. intros ->. rewrite Ha in Hb. by injection Hb.
  - intros b c k' v1 v2 [_ Hb]%lookup_delete_Some [_ Hc]%lookup_delete_Some. eauto.
Qed.

Lemma content_store ks e m a k v v' : content ks e m -> e !! a = Some (k, v) ->
  content ks (<[a := (k, v')]> e) (<[k := v']> m).
Proof.
  intros H Ha. rewrite <-insert_delete_eq, <-(insert_delete_eq m).
  apply content_insert; [by eapply content_delete|by simplify_map_eq..|].
  by eapply ct_node.
Qed.

(** A step that changes one bucket. *)
Lemma table_ok_update ks t m h' b0 hd' l' q' m' :
  table_ok ks t m -> content ks (entries h') m' ->
  dseg h' None hd' l' q' None -> NoDup l' ->
  (forall a, a ∈ l' <-> in_bucket t (entries h') b0 a) ->
  (forall b a, b <> b0 -> in_bucket t (entries h') b a <-> in_bucket t (entries (heap t)) b a) ->
  (forall b a, b <> b0 -> in_bucket t (entries (heap t)) b a -> h' !! a = heap t !! a) ->
  table_ok ks (Hash (buckets t) (hash_func t) (<[b0 := hd']> (nodes t)) h') m'.
Proof.
  intros Hok Hct Hd Hnd Hin Hother Hsame. split; cbn [buckets hash_func nodes heap].
  - rewrite (ok_buckets _ _ _ Hok). unfold len. by rewrite length_insert.
  - apply Hok.
  - done.
  - intros b hd Hb. destruct (decide (b = b0)) as [->|Hne].
    + apply list_lookup_insert_Some in Hb. destruct Hb as [(_ & -> & _)|[? _]]; [|done].
      by exists l', q'.
    + rewrite list_lookup_insert_ne in Hb by done.
      destruct (ok_chains _ _ _ Hok _ _ Hb) as (l & q & Hl & Hln & Hi). exists l, q.
      split; [|split; [done|]].
      * eapply dseg_frame; [|exact Hl]. intros a Ha. eapply Hsame; [done|by apply Hi].
      * intros a. rewrite Hi. symmetry. by apply (Hother b a).
Qed.

Lemma in_bucket_insert t e a k v b c : e !! a = None ->
  in_bucket t (<[a := (k, v)]> e) b c <->
  (c = a /\ b = bucket_of t k) \/ in_bucket t e b c.
Proof.
  intros Ha. unfold in_bucket. split.
  - intros (k' & v' & [[-> Hk]|[_ Hc]]%lookup_insert_Some & Hb); [|eauto].
    left. by simplify_eq.
  - intros [[-> ->]|(k' & v' & Hc & Hb)]; [exists k, v; by simplify_map_eq|].
    exists k', v'. rewrite lookup_insert_ne; [done|]. intros ->. by rewrite Ha in Hc.
Qed.

Lemma in_bucket_delete t e a k v b c : e !! a = Some (k, v) ->
  in_bucket t (delete a e) b c <-> c <> a /\ in_bucket t e b c.
Proof.
  intros Ha. unfold in_bucket. split.
  - intros (k' & v' & [Hc He]%lookup_delete_Some & Hb). eauto 6.
  - intros (Hc & k' & v' & He & Hb). exists k', v'. by rewrite lookup_delete_ne.
Qed.

Section Laws.
Context {sys : Type -> Type} (Malloc : gset addr -> sys (option addr)) (E : env sys).

(** [malloc] does not fail and answers a block that is not in use. *)
Hypothesis malloc_fresh : forall h live,
  exists a, E _ h (Malloc live) = Some a /\ a ∉ live.

Abbreviation wld := (world sys hash).
Implicit Types w : wld.

Lemma deref_runs a n w (Q : hash_node -> wld -> Prop) :
  heap (loc w) !! a = Some n -> Q n w -> runs E (deref (Some a)) w Q.
Proof. intros Ha H. unfold deref. rsteps. by eapply runs_of_option. Qed.

Lemma memcmp_runs a b n w (Q : bool -> wld -> Prop) :
  length a = n -> length b = n -> Q (bool_decide (a = b)) w -> runs E (memcmp a b n) w Q.
Proof.
  intros Ha Hb H. unfold memcmp. rsteps.
  eapply runs_of_option; [apply rd_bytes_fits; lia|]. rsteps.
  eapply runs_of_option; [apply rd_bytes_fits; lia|]. rsteps.
  unfold slice. rewrite !drop_0, !firstn_all2 by lia. done.
Qed.

Lemma get_bucket_runs ks m k w (Q : nat -> wld -> Prop) :
  table_ok ks (loc w) m -> length k = ks ->
  Q (bucket_of (loc w) k) w -> runs E (hash_get_bucket k) w Q.
Proof.
  intros Hok Hk H. unfold hash_get_bucket. rsteps.
  pose proof (ok_hash _ _ _ Hok k Hk). destruct (Z.leb_spec (buckets (loc w))
    (u32 (hash_func (loc w) (buckets (loc w)) k))); [lia|]. by rsteps.
Qed.

Lemma bucket_exists ks m k t : table_ok ks t m -> length k = ks ->
  exists hd, nodes t !! bucket_of t k = Some hd.
Proof.
  intros Hok Hk. apply lookup_lt_is_Some. unfold bucket_of.
  pose proof (ok_hash _ _ _ Hok k Hk) as Hh. rewrite (ok_buckets _ _ _ Hok) in Hh at 2.
  unfold len in Hh. assert (0 <= u32 (hash_func t (buckets t) k)) by (apply Z.mod_pos_bound; lia).
  lia.
Qed.

Lemma read_bucket_runs b hd w (Q : option addr -> wld -> Prop) :
  nodes (loc w) !! b = Some hd -> Q hd w -> runs E (read_bucket b) w Q.
Proof. intros Hb H. unfold read_bucket. rsteps. by eapply runs_of_option. Qed.

(** The search of a chain ends at the node with the key, or at its end. *)
Lemma search_runs k ks w : length k = ks -> forall l fuel p hd q,
  dseg (heap (loc w)) p hd l q None -> (length l < fuel)%nat ->
  (forall a n, heap (loc w) !! a = Some n -> length (key n) = ks) ->
  runs E (iterM fuel (search_step k ks) hd) w (fun r w' => w' = w /\
    match r with
    | Some a => exists n, heap (loc w) !! a = Some n /\ key n = k
    | None => forall a n, a ∈ l -> heap (loc w) !! a = Some n -> key n <> k
    end).
Proof.
  intros Hk l. induction l as [|a l IH]; intros fuel p hd q Hd Hf Hlen;
    (destruct fuel as [|fuel]; [cbn in Hf; lia|]); cbn [iterM].
  - destruct Hd as [_ <-]. cbn [search_step]. rsteps. split; [done|]. set_solver.
  - destruct Hd as (-> & n & Hn & _ & Hd). cbn [search_step]. rsteps.
    eapply deref_runs; [done|]. rsteps.
    apply memcmp_runs; [by eapply Hlen|done|]. case_bool_decide as Hkey; rsteps.
    + eauto.
    + eapply runs_mono; [eapply (IH fuel); [done|cbn in Hf; lia|done]|].
      intros r w' [-> Hr]. split; [done|]. destruct r as [b|]; [done|].
      intros b nb [->|Hb]%elem_of_cons Hnb; [|by eapply Hr].
      rewrite Hn in Hnb. by injection Hnb as <-.
Qed.

Lemma node_by_key_runs ks m k w : table_ok ks (loc w) m -> length k = ks ->
  runs E (hash_get_node_by_key k ks) w (fun r w' => w' = w /\
    match r with
    | Some a => pointer_to (loc w) k a
    | None => m !! k = None
    end).
Proof.
  intros Hok Hk. unfold hash_get_node_by_key. rsteps.
  eapply get_bucket_runs; [done|done|]. destruct (bucket_exists _ _ _ _ Hok Hk) as [hd Hhd].
  rsteps. eapply read_bucket_runs; [done|].
  destruct (ok_chains _ _ _ Hok _ _ Hhd) as (l & q & Hd & Hnd & Hl).
  assert (Hnone : (forall a n, a ∈ l -> heap (loc w) !! a = Some n -> key n <> k) ->
                  m !! k = None).
  { intros Hne. destruct (m !! k) as [v|] eqn:Hm; [|done].
    destruct (ct_entry _ _ _ (ok_content _ _ _ Hok) _ _ Hm) as (a & He). exfalso.
    destruct (entries_Some _ _ _ _ He) as (n & Ha & Hka & _).
    eapply Hne; [|done|done]. apply Hl. by exists k, v. }
  destruct hd as [a|].
  - rsteps. eapply runs_mono; [eapply (search_runs k ks w Hk l)|].
    + done.
    + pose proof (dseg_length _ _ _ _ _ _ Hd Hnd). lia.
    + intros b n Hb. eapply ct_node; [apply Hok|by apply entries_lookup].
    + intros r w' [-> Hr]. split; [done|]. destruct r; [exact Hr|by apply Hnone].
  - rsteps. split; [done|]. apply Hnone. destruct l as [|b l]; [set_solver|].
    by destruct Hd as [? _].
Qed.

Lemma pointer_value ks m t k p n :
  table_ok ks t m -> heap t !! p = Some n -> key n = k -> m !! k = Some (value n).
Proof.
  intros Hok Hp <-. eapply ct_node; [apply Hok|by apply entries_lookup].
Qed.

Lemma lookup_runs ks k m w : table_ok ks (loc w) m -> length k = ks ->
  runs E (hash_lookup_entry k ks) w (fun r (w' : wld) => w' = w /\
    match m !! k with
    | None => r = None
    | Some _ => exists p, r = Some p /\ pointer_to (loc w) k p
    end).
Proof.
  intros Hok Hk. unfold hash_lookup_entry. rsteps.
  eapply runs_mono; [by apply node_by_key_runs|]. intros [a|] w' [-> Hr]; rsteps.
  - destruct Hr as (n & Ha & Hkn). eapply deref_runs; [done|]. rsteps.
    split; [done|]. rewrite (pointer_value _ _ _ _ _ _ Hok Ha Hkn). exists a. split; [done|].
    by exists n.
  - by rewrite Hr.
Qed.

Lemma set_node_runs a f n w (Q : unit -> wld -> Prop) :
  heap (loc w) !! a = Some n ->
  Q tt (World (Hash (buckets (loc w)) (hash_func (loc w)) (nodes (loc w))
                 (<[a := f n]> (heap (loc w)))) (hist w)) ->
  runs E (set_node a f) w Q.
Proof. intros Ha H. unfold set_node. rsteps. eapply deref_runs; [done|]. by rsteps. Qed.

Lemma load_runs ks k v p m w :
  table_ok ks (loc w) m -> pointer_to (loc w) k p -> m !! k = Some v ->
  runs E (load_value p) w (fun r w' => loc w' = loc w /\ r = v).
Proof.
  intros Hok (n & Hn & Hk) Hm. unfold load_value. rsteps. eapply deref_runs; [done|].
  rsteps. split; [done|]. rewrite (pointer_value _ _ _ _ _ _ Hok Hn Hk) in Hm.
  by injection Hm.
Qed.

Lemma store_runs ks k v v' p m w :
  table_ok ks (loc w) m -> pointer_to (loc w) k p -> m !! k = Some v -> length v' = length v ->
  runs E (store_value p v') w (fun _ w' => table_ok ks (loc w') (<[k := v']> m)).
Proof.
  intros Hok (n & Hn & Hk) Hm Hl. pose proof (pointer_value _ _ _ _ _ _ Hok Hn Hk) as Hv.
  rewrite Hv in Hm. injection Hm as <-. unfold store_value. rsteps.
  eapply deref_runs; [done|]. rsteps. eapply runs_of_option; [apply wr_fits; lia|].
  eapply set_node_runs; [done|]. destruct (loc w) as [bs hf ns h]. cbn [heap nodes] in *.
  assert (He : entries (<[p := n <| value := put 0 v' (value n) |>]> h)
               = <[p := (k, v')]> (entries h)).
  { rewrite entries_insert. cbn [key value set_field]. subst k. do 2 f_equal.
    unfold put. cbn. rewrite drop_ge by lia. by rewrite app_nil_r. }
  pose proof (entries_lookup _ _ _ Hn) as Hp. rewrite Hk in Hp.
  destruct Hok as [H1 H2 H3 H4]. cbn [heap nodes loc buckets hash_func] in *.
  split; cbn [heap nodes loc buckets hash_func]; [done|done| |].
  - rewrite He. by eapply content_store.
  - intros b hd Hb. destruct (H4 _ _ Hb) as (l & q & Hd & Hnd & Hin). exists l, q.
    split; [by apply (dseg_relabel _ _ n)|]. split; [done|]. intros a. rewrite He, Hin.
    unfold in_bucket. split; intros (k' & w' & Ha & Hbk).
    + destruct (decide (a = p)) as [->|Hap].
      * rewrite Hp in Ha. injection Ha as <- <-. exists k, v'. by rewrite lookup_insert_eq.
      * exists k', w'. by rewrite lookup_insert_ne.
    + apply lookup_insert_Some in Ha. destruct Ha as [[<- Ha]|[_ Ha]]; [|by exists k', w'].
      injection Ha as <- <-. by exists k, (value n).
Qed.

(** Pushing a new node on its chain. *)
Lemma push_ok ks m t k v a hd : table_ok ks t m -> length k = ks -> m !! k = None ->
  heap t !! a = None -> nodes t !! bucket_of t k = Some hd ->
  forall h', match hd with
    | None => h' = <[a := Hash_node k v None None]> (heap t)
    | Some c => forall nc, heap t !! c = Some nc ->
        h' = <[c := nc <| prev := Some a |>]> (<[a := Hash_node k v None (Some c)]> (heap t))
    end ->
  table_ok ks (Hash (buckets t) (hash_func t) (<[bucket_of t k := Some a]> (nodes t)) h')
    (<[k := v]> m).
Proof.
  intros Hok Hk Hm Ha Hb h' Hh'.
  destruct (ok_chains _ _ _ Hok _ _ Hb) as (l & q & Hd & Hnd & Hin).
  assert (Hal : a ∉ l).
  { intros Hal. destruct (dseg_lookup _ _ _ _ _ _ _ Hd Hal) as [n Hn]. by rewrite Ha in Hn. }
  assert (Hea : entries (heap t) !! a = None) by (unfold entries; by rewrite lookup_fmap, Ha).
  assert (H : entries h' = <[a := (k, v)]> (entries (heap t)) /\
    (exists q', dseg h' None (Some a) (a :: l) q' None) /\
    (forall b, b <> a -> b ∉ l -> h' !! b = heap t !! b)).
  { destruct hd as [c|].
    - destruct l as [|c' l]; [by destruct Hd|]. assert (c' = c) as -> by (by destruct Hd as [[=] _]).
      destruct (dseg_lookup _ _ _ _ _ _ c Hd ltac:(left)) as [nc Hnc].
      rewrite (Hh' nc Hnc). assert (c <> a) by (intros ->; apply Hal; left). split; [|split].
      + rewrite (entries_relink _ c nc); [by rewrite entries_insert|by rewrite lookup_insert_ne|done..].
      + exists q. cbn [dseg]. split; [done|]. exists (Hash_node k v None (Some c)).
        rewrite lookup_insert_ne, lookup_insert_eq by done. do 2 (split; [done|]).
        assert (Hd' : dseg (<[a := Hash_node k v None (Some c)]> (heap t)) None (Some c) (c :: l) q None).
        { eapply dseg_frame; [|exact Hd]. intros x Hx. rewrite lookup_insert_ne; [done|].
          by intros ->. }
        apply (dseg_set_prev _ _ _ _ _ _ (Some a) Hd' Hnd nc). by rewrite lookup_insert_ne.
      + intros b Hba Hbl. rewrite !lookup_insert_ne; [done..|]. intros ->. apply Hbl. left.
    - destruct l as [|c l]; [|by destruct Hd]. rewrite Hh'. split; [by rewrite entries_insert|].
      split; [|intros b Hba _; by rewrite lookup_insert_ne].
      exists (Some a). cbn. split; [done|]. eexists. by rewrite lookup_insert_eq. }
  destruct H as (He & (q' & Hd') & Hf).
  eapply table_ok_update; [done| |exact Hd'|by constructor| | |].
  - rewrite He. apply content_insert; [apply Hok|done..].
  - intros b. rewrite He, in_bucket_insert by done. rewrite elem_of_cons, Hin. tauto.
  - intros b c Hbc. rewrite He, in_bucket_insert by done. tauto.
  - intros b c Hbc Hc. apply Hf.
    + intros ->. destruct Hc as (? & ? & Hc & _). by rewrite Hea in Hc.
    + intros Hcl. apply Hin in Hcl. destruct Hc as (k1 & v1 & H1 & <-), Hcl as (k2 & v2 & H2 & Hb2).
      rewrite H1 in H2. injection H2 as -> ->. done.
Qed.

Lemma add_runs ks k v vs m w : table_ok ks (loc w) m -> length k = ks -> length v = vs ->
  runs E (hash_add_entry Malloc k ks v vs) w (fun _ w' =>
    table_ok ks (loc w') (match m !! k with None => <[k := v]> m | Some _ => m end)).
Proof.
  intros Hok Hk Hv. unfold hash_add_entry. rsteps.
  eapply runs_mono; [by apply lookup_runs|]. intros r w1 [-> Hr].
  destruct (m !! k) as [v0|] eqn:Hm; [destruct Hr as (p & -> & _); by rsteps|]. subst r.
  rsteps. destruct (malloc_fresh (hist w) (dom (heap (loc w)))) as (a & Ea & Ha).
  rewrite Ea. apply not_elem_of_dom in Ha. rsteps.
  eapply runs_of_option; [apply rd_bytes_fits; lia|]. rsteps.
  eapply runs_of_option; [apply rd_bytes_fits; lia|]. rsteps.
  assert (Hs : forall l : list Z, slice 0 (length l) l = l).
  { intros l. unfold slice. by rewrite drop_0, firstn_all. }
  rewrite <-Hk, <-Hv, !Hs.
  unfold hash_get_bucket. rsteps. cbn [loc hist heap buckets hash_func nodes set_field].
  pose proof (ok_hash _ _ _ Hok k Hk) as Hh.
  destruct (Z.leb_spec (buckets (loc w)) (u32 (hash_func (loc w) (buckets (loc w)) k))); [lia|].
  rsteps. destruct (bucket_exists _ _ _ _ Hok Hk) as [hd Hhd].
  eapply read_bucket_runs; [exact Hhd|].
  destruct (loc w) as [bs hf ns h] eqn:Hw. unfold bucket_of in Hhd. cbn [heap nodes buckets hash_func] in *.
  destruct hd as [c|].
  - destruct (ok_chains _ _ _ Hok _ _ Hhd) as (l & q & Hd & _). cbn [heap] in Hd.
    destruct l as [|c' l]; [by destruct Hd|]. destruct Hd as ([= <-] & nc & Hnc & _).
    assert (c <> a) by (intros ->; by rewrite Ha in Hnc). rsteps.
    eapply set_node_runs; [cbn; by rewrite lookup_insert_eq|]. rsteps.
    eapply set_node_runs; [cbn; by rewrite insert_insert_eq, lookup_insert_ne|].
    unfold write_bucket. rsteps. eapply read_bucket_runs; [exact Hhd|]. rsteps.
    cbn [loc hist heap buckets hash_func nodes set_field]. rewrite <-Hk in Hok.
    eapply (push_ok _ _ (Hash bs hf ns h) k v a (Some c)); [done..|].
    intros nc' Hnc'. cbn in Hnc'. rewrite Hnc in Hnc'. injection Hnc' as <-.
    by rewrite insert_insert_eq.
  - unfold write_bucket. rsteps. eapply read_bucket_runs; [exact Hhd|]. rsteps.
    rewrite <-Hk in Hok. by eapply (push_ok _ _ (Hash bs hf ns h) k v a None).
Qed.

Lemma set_alter_runs a f w (Q : unit -> wld -> Prop) : is_Some (heap (loc w) !! a) ->
  Q tt (World (Hash (buckets (loc w)) (hash_func (loc w)) (nodes (loc w))
                 (alter f a (heap (loc w)))) (hist w)) ->
  runs E (set_node a f) w Q.
Proof. intros [n Ha] H. rewrite (alter_insert _ _ n) in H by done. by eapply set_node_runs. Qed.

(** Taking a node out of its chain. *)
Lemma pop_ok ks m t k a n hd l1 l2 q : table_ok ks t m -> length k = ks ->
  heap t !! a = Some n -> key n = k -> nodes t !! bucket_of t k = Some hd ->
  dseg (heap t) None hd (l1 ++ a :: l2) q None -> NoDup (l1 ++ a :: l2) ->
  (forall b, b ∈ l1 ++ a :: l2 <-> in_bucket t (entries (heap t)) (bucket_of t k) b) ->
  table_ok ks (Hash (buckets t) (hash_func t)
    (<[bucket_of t k := match prev n with Some _ => hd | None => next n end]> (nodes t))
    (unlink a n (heap t))) (delete k m).
Proof.
  intros Hok Hk Hn Hkn Hhd Hd Hnd Hin.
  pose proof (entries_lookup _ _ _ Hn) as Hea. rewrite Hkn in Hea.
  destruct (dseg_neighbours _ _ _ _ _ _ _ Hd Hn) as [Hprev Hnext].
  destruct (dseg_unlink _ _ _ _ _ _ _ Hd Hnd Hn) as (q' & Hd').
  assert (Hnd' := Hnd). apply NoDup_app in Hnd'.
  destruct Hnd' as (Hn1 & Hx & [Ha2 Hn2]%NoDup_cons).
  eapply table_ok_update; [done| |exact Hd'| | | |].
  - rewrite entries_unlink. eapply content_delete; [apply Hok|done].
  - apply NoDup_app. split_and!; [done| |done]. intros x Hx1 Hx2. apply (Hx x); set_solver.
  - intros b. rewrite entries_unlink, (in_bucket_delete _ _ _ _ _ _ _ Hea), <-Hin.
    specialize (Hx b). set_solver.
  - intros b c Hb. rewrite entries_unlink, (in_bucket_delete _ _ _ _ _ _ _ Hea).
    split; [tauto|]. intros Hc. split; [|done]. intros ->.
    destruct Hc as (k' & v' & Hc & <-). rewrite Hea in Hc. by injection Hc as <- <-.
  - intros b c Hb Hc.
    assert (Hcl : c ∉ l1 ++ a :: l2).
    { intros Hcl%Hin. destruct Hc as (k1 & v1 & H1 & <-), Hcl as (k2 & v2 & H2 & Hb2).
      rewrite H1 in H2. by injection H2 as -> ->. }
    unfold unlink. rewrite lookup_delete_ne by set_solver.
    assert (Hp : forall p, prev n = Some p -> c <> p) by (intros p Hp%Hprev ->; set_solver).
    assert (Hq : forall p, next n = Some p -> c <> p) by (intros p Hp'%Hnext ->; set_solver).
    destruct (prev n), (next n); rewrite ?lookup_alter_ne by (symmetry; auto); done.
Qed.

Lemma free_runs ks k m w : table_ok ks (loc w) m -> length k = ks ->
  runs E (hash_free_entry k ks) w (fun _ w' => table_ok ks (loc w') (delete k m)).
Proof.
  intros Hok Hk. unfold hash_free_entry. rsteps.
  eapply runs_mono; [by apply node_by_key_runs|]. intros [a|] w1 [-> Hr]; rsteps.
  2: { by rewrite delete_id. }
  destruct Hr as (n & Hn & Hkn). eapply deref_runs; [done|]. rsteps.
  destruct (bucket_exists _ _ _ _ Hok Hk) as [hd Hhd].
  destruct (ok_chains _ _ _ Hok _ _ Hhd) as (l & q & Hd & Hnd & Hin).
  assert (Hal : a ∈ l) by (apply Hin; exists k, (value n); split; [|done];
    rewrite <-Hkn; by apply entries_lookup).
  apply list_elem_of_split in Hal. destruct Hal as (l1 & l2 & ->).
  destruct (dseg_neighbours _ _ _ _ _ _ _ Hd Hn) as [Hprev Hnext].
  assert (Hex : forall x, x ∈ l1 ++ a :: l2 -> is_Some (heap (loc w) !! x))
    by (intros x; by eapply dseg_lookup).
  pose proof (pop_ok _ _ _ _ _ _ _ _ _ _ Hok Hk Hn Hkn Hhd Hd Hnd Hin) as Hend.
  unfold unlink in Hend. apply (runs_mono E _ w (fun _ w1 =>
    w1 = World (Hash (buckets (loc w)) (hash_func (loc w))
      (<[bucket_of (loc w) k := match prev n with Some _ => hd | None => next n end]> (nodes (loc w)))
      (match prev n with Some p => alter (fun m => m <| next := next n |>) p (heap (loc w))
       | None => heap (loc w) end)) (hist w))).
  - destruct (prev n) as [p|].
    + apply set_alter_runs; [apply Hex; set_solver|].
      by rewrite list_insert_id.
    + rsteps. eapply get_bucket_runs; [done|done|]. unfold write_bucket. rsteps.
      eapply read_bucket_runs; [done|]. by rsteps.
  - intros _ w1 ->. rsteps. destruct (next n) as [c|].
    + apply set_alter_runs; [|by rsteps]. cbn [loc heap].
      assert (Hc : is_Some (heap (loc w) !! c)) by (apply Hex; set_solver).
      destruct (prev n) as [p|]; [|done]. by apply lookup_alter_is_Some.
    + rsteps. exact Hend.
Qed.

Lemma lookup_runs' ks k m w : table_ok ks (loc w) m -> length k = ks ->
  runs E (hash_lookup_entry k ks) w (fun r w' => loc w' = loc w /\
    match m !! k with
    | None => r = None
    | Some _ => exists p, r = Some p /\ pointer_to (loc w) k p
    end).
Proof.
  intros Hok Hk. eapply runs_mono; [by apply lookup_runs|]. cbn. by intros r w' [-> Hr].
Qed.

#[export] Instance hash_laws : HashLaws (hash_ops Malloc) E := {
  rep := table_ok;
  at_key := pointer_to;
  lookup_law := lookup_runs';
  add_law := add_runs;
  free_law := free_runs;
  load_law := load_runs;
  store_law := store_runs
}.
End Laws.

(** ** A client of the table against a finite map *)

Inductive hop : Type :=
| Add (k v : list Z)
| Free (k : list Z)
| Look (k : list Z)
| Update (k v : list Z).

Section Client.
Context {sys : Type -> Type}.

(** A use of the table by its clients: [Update] writes through the pointer
    that the lookup answers. *)
Definition exec {T} `{HashOps sys T} (ks vs : nat) (o : hop) : M sys T (option (list Z)) :=
  match o with
  | Add k v => add_entry k ks v vs;; mret None
  | Free k => free_entry k ks;; mret None
  | Look k =>
      p ← lookup_entry k ks;
      match p with None => mret None | Some p => v ← load p; mret (Some v) end
  | Update k v =>
      p ← lookup_entry k ks;
      match p with None => mret None | Some p => store p v;; mret None end
  end.

Fixpoint exec_all {T} `{HashOps sys T} (ks vs : nat) (l : list hop) : M sys T (list (option (list Z))) :=
  match l with
  | [] => mret []
  | o :: l' => r ← exec ks vs o; rs ← exec_all ks vs l'; mret (r :: rs)
  end.

Definition client (Malloc : gset addr -> sys (option addr)) (bs : Z) (hf : Z -> list Z -> Z)
    (ks vs : nat) (l : list hop) : M sys hash (list (option (list Z))) :=
  t ← hash_alloc Malloc bs hf;
  modify (fun _ => t);;
  exec_all (H := hash_ops Malloc) ks vs l.

(** The same on a finite map: an [Add] of a key that is there is ignored. *)
Definition spec (o : hop) (m : gmap (list Z) (list Z)) : option (list Z) * gmap (list Z) (list Z) :=
  match o with
  | Add k v => (None, match m !! k with None => <[k := v]> m | Some _ => m end)
  | Free k => (None, delete k m)
  | Look k => (m !! k, m)
  | Update k v => (None, match m !! k with None => m | Some _ => <[k := v]> m end)
  end.
Fixpoint spec_all (l : list hop) (m : gmap (list Z) (list Z)) : list (option (list Z)) :=
  match l with
  | [] => []
  | o :: l' => fst (spec o m) :: spec_all l' (snd (spec o m))
  end.

Definition sized (ks vs : nat) (o : hop) : Prop :=
  match o with
  | Add k v | Update k v => length k = ks /\ length v = vs
  | Free k | Look k => length k = ks
  end.

Definition values (vs : nat) (m : gmap (list Z) (list Z)) : Prop :=
  map_Forall (fun _ v => length v = vs) m.

Section Any.
Context {T : Type} {O : HashOps sys T} {E : env sys} {L : HashLaws O E}.

Lemma exec_runs ks vs o m (w : world sys T) : rep ks (loc w) m -> sized ks vs o -> values vs m ->
  runs E (exec ks vs o) w (fun r w' =>
    r = fst (spec o m) /\ rep ks (loc w') (snd (spec o m)) /\ values vs (snd (spec o m))).
Proof.
  intros Hr Hs Hv. destruct o as [k v|k|k|k v]; cbn [exec spec sized fst snd] in *; rsteps.
  - destruct Hs as [Hk Hl]. eapply runs_mono; [by apply add_law|]. cbn. intros _ w' Hw.
    rsteps. split; [done|]. split; [done|]. destruct (m !! k); [done|]. by apply map_Forall_insert_2.
  - eapply runs_mono; [by apply free_law|]. cbn. intros _ w' Hw.
    rsteps. split; [done|]. split; [done|]. by apply map_Forall_delete.
  - eapply runs_mono; [by apply lookup_law|]. cbn. intros r w' [Hw Hp].
    destruct (m !! k) as [v|] eqn:Hm; [destruct Hp as (p & -> & Hp)|subst r]; rsteps.
    + rewrite <-Hw in Hp, Hr. eapply runs_mono; [by eapply load_law|]. cbn.
      intros r w1 [Hw1 ->]. rsteps. by rewrite Hw1.
    + by rewrite Hw.
  - destruct Hs as [Hk Hl]. eapply runs_mono; [by apply lookup_law|]. cbn. intros r w' [Hw Hp].
    destruct (m !! k) as [v0|] eqn:Hm; [destruct Hp as (p & -> & Hp)|subst r]; rsteps.
    + rewrite <-Hw in Hp, Hr. pose proof (Hv _ _ Hm) as Hv0. cbn in Hv0.
      eapply runs_mono; [eapply store_law; [done..|lia]|]. cbn.
      intros _ w1 Hw1. rsteps. split; [done|]. split; [done|]. by apply map_Forall_insert_2.
    + by rewrite Hw.
Qed.

Lemma exec_all_runs ks vs l : forall m (w : world sys T),
  rep ks (loc w) m -> Forall (sized ks vs) l -> values vs m ->
  runs E (exec_all ks vs l) w (fun r _ => r = spec_all l m).
Proof.
  induction l as [|o l IH]; intros m w Hr Hl Hv; cbn [exec_all spec_all]; rsteps; [done|].
  apply Forall_cons in Hl. destruct Hl as [Ho Hl].
  eapply runs_mono; [by apply exec_runs|]. intros r w' (-> & Hr' & Hv'). rsteps.
  eapply runs_mono; [by apply IH|]. intros rs w1 ->. by rsteps.
Qed.
End Any.

(** An allocated table is empty. *)
Lemma alloc_ok bs hf ks : 0 <= bs ->
  (forall k, length k = ks -> u32 (hf bs k) < bs) ->
  table_ok ks (Hash bs hf (replicate (Z.to_nat bs) None) ∅) ∅.
Proof.
  intros Hb Hh. split; cbn [buckets hash_func nodes heap].
  - unfold len. rewrite length_replicate. lia.
  - done.
  - unfold entries. rewrite fmap_empty. split; intros; simplify_map_eq.
  - intros b hd Hd. apply lookup_replicate in Hd. destruct Hd as [-> _].
    exists [], None. cbn. split; [done|]. split; [constructor|].
    intros a. unfold in_bucket, entries. rewrite fmap_empty.
    split; [set_solver|]. intros (? & ? & Ha & _). by rewrite lookup_empty in Ha.
Qed.
End Client.

(** [hash_alloc] answers an empty table, whatever stood there before. *)
Lemma hash_alloc_runs {sys : Type -> Type} {S} (Malloc : gset addr -> sys (option addr)) (E : env sys)
    bs hf ks (w : world sys S) (Q : hash -> world sys S -> Prop) :
  (forall h live, exists a, E _ h (Malloc live) = Some a /\ a ∉ live) ->
  0 <= bs < 2 ^ 28 -> (forall k, length k = ks -> 0 <= hf bs k < bs) ->
  (forall t h, table_ok ks t ∅ -> Q t (World (loc w) h)) ->
  runs E (hash_alloc Malloc bs hf) w Q.
Proof.
  intros HM Hb Hh HQ. unfold hash_alloc. rsteps. destruct (HM (hist w) ∅) as (a & -> & _).
  unfold u32, u64, s32. rewrite (Z.mod_small bs), (Z.mod_small (bs * 8)) by lia.
  rewrite (Z.mod_small (bs * 8 + 2 ^ 31)) by lia. rsteps.
  destruct (Z.ltb_spec (bs * 8 + 2 ^ 31 - 2 ^ 31) 0); [lia|]. rsteps.
  match goal with |- context [E (option addr) ?h _] => destruct (HM h ∅) as (a' & -> & _) end.
  rsteps. replace ((bs * 8 + 2 ^ 31 - 2 ^ 31) / 8) with bs
    by (apply Z.div_unique_exact; lia).
  apply HQ. apply alloc_ok; [lia|]. intros k Hk. specialize (Hh k Hk). unfold u32. rewrite Z.mod_small; lia.
Qed.

(** C2: The hash table of hash.c implements a finite map.  For any sequence of
    insertions, removals, lookups and updates through the pointers that the
    lookups hand out, on a table of any number of buckets below 2^28 and any
    hash function that stays below that number, the observations are those of
    a map in which the insertion of a key that is present is ignored.  No node
    is used after it was freed, no chain is broken and every search ends. *)
Theorem hash_refines_map {sys : Type -> Type} (Malloc : gset addr -> sys (option addr)) (E : env sys)
    bs hf ks vs l (w : world sys hash)
    (HM : forall h live, exists a, E _ h (Malloc live) = Some a /\ a ∉ live)
    (Hb : 0 < bs < 2 ^ 28) (Hh : forall k, length k = ks -> 0 <= hf bs k < bs)
    (Hl : Forall (sized ks vs) l) :
  runs E (client Malloc bs hf ks vs l) w (fun r _ => r = spec_all l ∅).
Proof.
  unfold client. apply runs_bind. eapply hash_alloc_runs; [exact HM|lia|exact Hh|]. intros t h Ht.
  cbn beta. rsteps.
  eapply (exec_all_runs (L := hash_laws Malloc E HM)); [exact Ht|exact Hl|by apply map_Forall_empty].
Qed.

(** A C heap for concrete runs. *)
Inductive heap_sys : Type -> Type := MallocCall (live : gset addr) : heap_sys (option addr).
Definition c_heap : env heap_sys := fun A _ c =>
  match c with MallocCall live => Some (fresh live) end.

(** Two buckets, so that chains have several nodes. *)
Definition demo_ops : list hop :=
  [Add [1] [10]; Add [3] [30]; Add [5] [50]; Add [3] [99]; Look [3]; Free [3];
   Look [3]; Look [1]; Update [5] [51]; Look [5]; Free [1]; Free [5]; Look [5]].

Lemma hash_refines_map_witness :
  runs c_heap (client MallocCall 2 (fun bs k => match k with [b] => Z.abs b mod bs | _ => 0 end)
    1 1 demo_ops) (World (Hash 0 (fun _ _ => 0) [] ∅) [])
    (fun r _ => r = [None; None; None; None; Some [30]; None; None; Some [10]; None; Some [51];
                     None; None; None]).
Proof.
  apply (hash_refines_map MallocCall c_heap 2
    (fun bs k => match k with [b] => Z.abs b mod bs | _ => 0 end) 1 1 demo_ops).
  - intros h live. exists (fresh live). split; [reflexivity|apply is_fresh].
  - lia.
  - intros [|b [|]] Hk; try discriminate. apply Z.mod_pos_bound. lia.
  - repeat constructor.
Defined.
