(* ===== verification/FtpMain.v ===== *)
(** The connection accounting of the FTP server (qftp_server/src/main.c): the
    accept loop of the parent, which forks one process per connection, the
    SIGCHLD handler, and the two hash tables behind the limits on clients.
    The server is stated over any hash table that obeys [HashLaws]. *)

From Stdlib Require Import ZArith Lia.
From stdpp Require Import base list gmap.
From S2P Require Import Prelude Hash HashProps.

Definition FTP_TOO_MANY_USERS : Z := 421.
Definition FTP_IP_LIMIT : Z := 421.

(** The variables of main.c, and the children that wait for [waitpid]. *)
Record server (T : Type) := Server {
  s_children : Z;
  s_ip_count_hash : T;
  s_pid_ip_hash : T;
  zombies : list Z
}.
Arguments Server {T}.
Arguments s_children {T}.
Arguments s_ip_count_hash {T}.
Arguments s_pid_ip_hash {T}.
Arguments zombies {T}.

#[export] Instance eta_server T : Eta (server T) :=
  fun s => Server (s_children s) (s_ip_count_hash s) (s_pid_ip_hash s) (zombies s).

(** An [unsigned int] (or a [pid_t]) as the four bytes that are hashed. *)
Definition uint (z : Z) : list Z := le_bytes 4 z.

Definition hash_func (buckets : Z) (key : list Z) : Z := get_le 0 4 key mod buckets.

Section Server.
Context {sys : Type -> Type} {T : Type} `{O : HashOps sys T}.

Abbreviation SM := (M sys (server T)).

Definition on_ip_count {A} (m : M sys T A) : SM A :=
  zoom s_ip_count_hash (fun t s => s <| s_ip_count_hash := t |>) m.
Definition on_pid_ip {A} (m : M sys T A) : SM A :=
  zoom s_pid_ip_hash (fun t s => s <| s_pid_ip_hash := t |>) m.

Definition handle_ip_count (ip : Z) : SM Z :=
  p_count ← on_ip_count (lookup_entry (uint ip) 4);
  match p_count with
  | None =>
      let count := 1 in
      on_ip_count (add_entry (uint ip) 4 (uint count) 4);;
      mret count
  | Some p =>
      c ← on_ip_count (load p);
      let count := u32 (le_val c + 1) in
      on_ip_count (store p (uint count));;
      mret count
  end.

Definition drop_ip_count (ip : Z) : SM unit :=
  p_count ← on_ip_count (lookup_entry (uint ip) 4);
  match p_count with
  | None => mret tt
  | Some p =>
      c ← on_ip_count (load p);
      let count := le_val c in
      if (count <=? 0 : bool) then mret tt
      else
        let count := u32 (count - 1) in
        on_ip_count (store p (uint count));;
        if (count =? 0 : bool) then on_ip_count (free_entry (uint ip) 4) else mret tt
  end.

(** [waitpid(-1, NULL, WNOHANG)] *)
Definition waitpid : SM (option Z) :=
  s ← get;
  match zombies s with
  | [] => mret None
  | pid :: rest => modify (fun s => s <| zombies := rest |>);; mret (Some pid)
  end.

(** One turn of the loop of the handler. *)
Definition reap_one (_ : unit) : SM (unit + unit) :=
  r ← waitpid;
  match r with
  | None => mret (inr tt)
  | Some pid =>
      modify (fun s => s <| s_children := u32 (s_children s - 1) |>);;
      p ← on_pid_ip (lookup_entry (uint pid) 4);
      match p with
      | None => mret (inl tt)
      | Some p =>
          ip ← on_pid_ip (load p);
          drop_ip_count (le_val ip);;
          on_pid_ip (free_entry (uint pid) 4);;
          mret (inl tt)
      end
  end.

(** The loop ends when no child is left to wait for. *)
Definition handle_sigchld : SM unit :=
  s ← get; iterM (S (length (zombies s))) reap_one tt.

(** The child exits at once with the reply code, or serves the client. *)
Definition check_limits (max_clients max_per_ip num_clients num_this_ip : Z) : option Z :=
  if (0 <? max_clients) && (max_clients <? num_clients) then Some FTP_TOO_MANY_USERS
  else if (0 <? max_per_ip) && (max_per_ip <? num_this_ip) then Some FTP_IP_LIMIT
  else None.

(** The body of the accept loop before [fork]: what the child finds in
    [sess.num_clients] and [sess.num_this_ip]; and after it, in the parent. *)
Definition on_accept (ip : Z) : SM (Z * Z) :=
  modify (fun s => s <| s_children := u32 (s_children s + 1) |>);;
  num_clients ← gets s_children;
  num_this_ip ← handle_ip_count ip;
  mret (num_clients, num_this_ip).

Definition after_fork (pid ip : Z) : SM unit :=
  if (pid =? -1 : bool) then
    modify (fun s => s <| s_children := u32 (s_children s - 1) |>);; exit_ 1
  else on_pid_ip (add_entry (uint pid) 4 (uint ip) 4).

(** ** The server and its children as a transition system

    The parent is at the [accept], or between [fork] and the registration of
    the child it forked.  [live] are the running children with the address of
    their client, [dead] those that exited and were not waited for, [served]
    those of the running ones that [check_limits] let through. *)

Inductive phase : Type := Accepting | Forked (pid ip : Z).

Record config := Config {
  parent : world sys (server T);
  at_ : phase;
  live : list (Z * Z);
  dead : list (Z * Z);
  served : list (Z * Z)
}.

Definition children (c : config) : list (Z * Z) := live c ++ dead c.

Variable E : env sys.
Variables max_clients max_per_ip : Z.

(** [early]: SIGCHLD may be delivered while the last child is unregistered. *)
Inductive step (early : bool) : config -> config -> Prop :=
| step_accept c ip pid w n k :
    at_ c = Accepting -> 0 <= ip < 2 ^ 32 ->
    0 < pid < 2 ^ 31 -> pid ∉ (children c).*1 ->
    on_accept ip E (parent c) = Done (n, k) w ->
    step early c (Config w (Forked pid ip) ((pid, ip) :: live c) (dead c)
      (match check_limits max_clients max_per_ip n k with
       | None => (pid, ip) :: served c | Some _ => served c end))
| step_register c pid ip w :
    at_ c = Forked pid ip ->
    after_fork pid ip E (parent c) = Done tt w ->
    step early c (Config w Accepting (live c) (dead c) (served c))
| step_exit c pid ip l1 l2 :
    live c = l1 ++ (pid, ip) :: l2 ->
    step early c (Config
      (World ((loc (parent c)) <| zombies := pid :: zombies (loc (parent c)) |>) (hist (parent c)))
      (at_ c) (l1 ++ l2) ((pid, ip) :: dead c)
      (filter (fun x => x <> (pid, ip)) (served c)))
| step_sigchld c w :
    (early = true \/ at_ c = Accepting) ->
    handle_sigchld E (parent c) = Done tt w ->
    step early c (Config w (at_ c) (live c) [] (served c)).

(** The tables are empty when the loop begins. *)
Inductive reachable (early : bool) (w0 : world sys (server T)) : config -> Prop :=
| reach_init : reachable early w0 (Config w0 Accepting [] [] [])
| reach_step c c' : reachable early w0 c -> step early c c' -> reachable early w0 c'.

(** The number of clients from an address. *)
Definition from_ip (ip : Z) (cs : list (Z * Z)) : Z := len (filter (fun x => x.2 = ip) cs).
End Server.

Arguments server T : clear implicits.
Arguments config sys T : clear implicits.
