(* ===== verification/FtpMainProps.v ===== *)
(** The limits on the clients of the FTP server: the counts of the hash tables
    are the numbers of children, as long as SIGCHLD is not delivered between
    [fork] and the registration of the child. *)

From Stdlib Require Import ZArith Lia.
From stdpp Require Import base list list_numbers gmap.
From S2P Require Import Prelude Hash HashProps FtpMain.

Lemma uint_val z : 0 <= z < 2 ^ 32 -> le_val (uint z) = z.
Proof. intros H. unfold uint. rewrite le_val_bytes. by apply Z.mod_small. Qed.

Lemma uint_inj a b : 0 <= a < 2 ^ 32 -> 0 <= b < 2 ^ 32 -> uint a = uint b -> a = b.
Proof. intros Ha Hb H. by rewrite <-(uint_val a), <-(uint_val b), H. Qed.

(** The table of counts holds [c]. *)
Definition counts (mi : gmap (list Z) (list Z)) (c : Z -> Z) : Prop :=
  forall ip, 0 <= ip < 2 ^ 32 ->
    0 <= c ip < 2 ^ 32 /\ mi !! uint ip = if c ip =? 0 then None else Some (uint (c ip)).
Definition bump (ip d : Z) (c : Z -> Z) : Z -> Z := fun i => if i =? ip then c i + d else c i.

Lemma counts_store mi c ip n : counts mi c -> 0 <= ip < 2 ^ 32 -> 0 < n < 2 ^ 32 ->
  counts (<[uint ip := uint n]> mi) (fun i => if i =? ip then n else c i).
Proof.
  intros Hc Hip Hn i Hi. destruct (Z.eqb_spec i ip) as [->|Hne].
  - split; [lia|]. rewrite lookup_insert_eq. by destruct (Z.eqb_spec n 0); [lia|].
  - destruct (Hc i Hi) as [? ?]. split; [done|]. rewrite lookup_insert_ne; [done|].
    intros Heq. apply Hne. symmetry. by apply uint_inj.
Qed.

Lemma counts_delete mi c ip : counts mi c -> 0 <= ip < 2 ^ 32 ->
  counts (delete (uint ip) mi) (fun i => if i =? ip then 0 else c i).
Proof.
  intros Hc Hip i Hi. destruct (Z.eqb_spec i ip) as [->|Hne].
  - split; [lia|]. by rewrite lookup_delete_eq.
  - destruct (Hc i Hi) as [? ?]. split; [done|]. rewrite lookup_delete_ne; [done|].
    intros Heq. apply Hne. symmetry. by apply uint_inj.
Qed.

Lemma counts_ext mi c c' : counts mi c -> (forall i, 0 <= i < 2 ^ 32 -> c i = c' i) -> counts mi c'.
Proof. intros H Hc i Hi. rewrite <-Hc by done. by apply H. Qed.

(** ** Counting children *)

Lemma from_ip_cons i pid ip cs :
  from_ip i ((pid, ip) :: cs) = (if i =? ip then 1 else 0) + from_ip i cs.
Proof.
  unfold from_ip, len. rewrite filter_cons. cbn [snd].
  destruct (Z.eqb_spec i ip), (decide (ip = i)); cbn [length]; lia.
Qed.

Lemma from_ip_app i l1 l2 : from_ip i (l1 ++ l2) = from_ip i l1 + from_ip i l2.
Proof. unfold from_ip, len. rewrite filter_app, length_app. lia. Qed.

Lemma from_ip_le i cs : 0 <= from_ip i cs <= len cs.
Proof.
  unfold from_ip, len. pose proof (length_filter (fun x : Z * Z => x.2 = i) cs). lia.
Qed.

Lemma from_ip_pos pid ip cs : (pid, ip) ∈ cs -> 0 < from_ip ip cs.
Proof.
  intros (l1 & l2 & ->)%list_elem_of_split. rewrite from_ip_app, from_ip_cons, Z.eqb_refl.
  pose proof (from_ip_le ip l1). pose proof (from_ip_le ip l2). lia.
Qed.

(** Process ids are distinct, which bounds their number. *)
Lemma pids_bound (l : list Z) n : 0 <= n -> NoDup l -> Forall (fun p => 0 < p <= n) l ->
  len l <= n.
Proof.
  intros Hn Hd Hf.
  assert (Hs : l ⊆+ seqZ 1 n).
  { apply NoDup_submseteq; [done|]. intros p Hp. apply elem_of_seqZ.
    rewrite Forall_forall in Hf. specialize (Hf p Hp). lia. }
  apply submseteq_length in Hs. rewrite length_seqZ in Hs. unfold len. lia.
Qed.

(** The table of process ids holds [r]. *)
Definition pids (mp : gmap (list Z) (list Z)) (r : gmap Z Z) : Prop :=
  forall pid, 0 <= pid < 2 ^ 32 -> mp !! uint pid = uint <$> r !! pid.

Section Server.
Context {sys : Type -> Type} {T : Type} {O : HashOps sys T} {E : env sys} {L : HashLaws O E}.
Implicit Types w : world sys (server T).

Lemma handle_ip_count_runs ip mi c w :
  rep 4 (s_ip_count_hash (loc w)) mi -> counts mi c -> 0 <= ip < 2 ^ 32 -> c ip + 1 < 2 ^ 32 ->
  runs E (handle_ip_count ip) w (fun k w' => k = c ip + 1 /\
    exists t mi', loc w' = (loc w) <| s_ip_count_hash := t |> /\
      rep 4 t mi' /\ counts mi' (bump ip 1 c)).
Proof.
  intros Hr Hc Hip Hb. destruct (Hc ip Hip) as [Hrange Hm].
  unfold handle_ip_count, on_ip_count. rsteps. apply runs_zoom.
  eapply runs_mono; [by apply lookup_law|]. cbn [loc hist]. intros r [t h] [Ht Hp].
  cbn [loc hist] in *. subst t. rewrite Hm in Hp. destruct (Z.eqb_spec (c ip) 0) as [H0|H0].
  - subst r. rsteps. apply runs_zoom. eapply runs_mono; [by apply add_law|].
    intros [] [t' h'] Hr'. rsteps. split; [lia|]. cbn [loc hist] in Hr' |- *.
    rewrite Hm in Hr'.
    exists t', (<[uint ip := uint 1]> mi). split; [by destruct w as [[] ?]|]. split; [done|].
    eapply counts_ext; [apply (counts_store _ c); [done..|lia]|]. intros i Hi. unfold bump.
    destruct (Z.eqb_spec i ip); subst; lia.
  - destruct Hp as (p & -> & Hp). rsteps. apply runs_zoom.
    cbn [loc hist s_ip_count_hash set_field].
    eapply runs_mono; [by eapply load_law|]. intros v [t' h'] [Ht ->].
    cbn [loc hist] in *. subst t'. rewrite uint_val by lia. unfold u32.
    rewrite Z.mod_small by lia. rsteps. apply runs_zoom. cbn [loc hist s_ip_count_hash set_field].
    eapply runs_mono; [by eapply store_law|].
    intros [] [t' h''] Hr'. rsteps. split; [lia|]. cbn [loc hist] in Hr' |- *.
    exists t', (<[uint ip := uint (c ip + 1)]> mi). split; [by destruct w as [[] ?]|].
    split; [done|].
    eapply counts_ext; [apply (counts_store _ c); [done..|lia]|]. intros i Hi. unfold bump.
    destruct (Z.eqb_spec i ip); subst; lia.
Qed.

Lemma drop_ip_count_runs ip mi c w :
  rep 4 (s_ip_count_hash (loc w)) mi -> counts mi c -> 0 <= ip < 2 ^ 32 -> 0 < c ip ->
  runs E (drop_ip_count ip) w (fun _ w' =>
    exists t mi', loc w' = (loc w) <| s_ip_count_hash := t |> /\
      rep 4 t mi' /\ counts mi' (bump ip (-1) c)).
Proof.
  intros Hr Hc Hip Hb. destruct (Hc ip Hip) as [Hrange Hm].
  rewrite (proj2 (Z.eqb_neq _ _)) in Hm by lia.
  unfold drop_ip_count, on_ip_count. rsteps. apply runs_zoom.
  eapply runs_mono; [by apply lookup_law|]. cbn [loc hist]. intros r [t h] [Ht Hp].
  cbn [loc hist] in *. subst t. rewrite Hm in Hp. destruct Hp as (p & -> & Hp).
  rsteps. apply runs_zoom. cbn [loc hist s_ip_count_hash set_field].
  eapply runs_mono; [by eapply load_law|]. intros v [t' h'] [Ht ->].
  cbn [loc hist] in *. subst t'. rewrite uint_val by lia.
  destruct (Z.leb_spec (c ip) 0); [lia|].
  unfold u32. rewrite Z.mod_small by lia. rsteps. apply runs_zoom.
  cbn [loc hist s_ip_count_hash set_field]. eapply runs_mono; [by eapply store_law|].
  intros [] [t' h''] Hr'. cbn [loc hist] in Hr'. destruct (Z.eqb_spec (c ip - 1) 0) as [H0|H0].
  - apply runs_zoom. cbn [loc hist s_ip_count_hash set_field].
    eapply runs_mono; [by apply free_law|].
    intros [] [t2 h2] Hr2. cbn [loc hist] in Hr2 |- *.
    exists t2, (delete (uint ip) mi). split; [by destruct w as [[] ?]|].
    split; [by rewrite delete_insert_eq in Hr2|].
    eapply counts_ext; [by apply (counts_delete _ c)|]. intros i Hi. unfold bump.
    destruct (Z.eqb_spec i ip); subst; lia.
  - rsteps. exists t', (<[uint ip := uint (c ip - 1)]> mi). split; [by destruct w as [[] ?]|].
    split; [done|].
    eapply counts_ext; [apply (counts_store _ c); [done..|lia]|]. intros i Hi. unfold bump.
    destruct (Z.eqb_spec i ip); subst; lia.
Qed.

(** ** The invariant of the server

    [tables w cs unreg]: the variables of the server describe the children
    [cs], of which [unreg] are not registered yet. *)
Record tables w (cs : list (Z * Z)) (unreg : list Z) : Prop := Tables {
  tb_pids : NoDup cs.*1;
  tb_range : Forall (fun x => 0 < x.1 < 2 ^ 31 /\ 0 <= x.2 < 2 ^ 32) cs;
  tb_children : s_children (loc w) = len cs;
  tb_maps : exists mi mp r,
    rep 4 (s_ip_count_hash (loc w)) mi /\ counts mi (fun ip => from_ip ip cs) /\
    rep 4 (s_pid_ip_hash (loc w)) mp /\ pids mp r /\
    forall pid ip, r !! pid = Some ip <-> (pid, ip) ∈ cs /\ pid ∉ unreg
}.

Lemma tables_len w cs u : tables w cs u -> len cs < 2 ^ 31.
Proof.
  intros [Hd Hr _ _]. assert (H : len cs.*1 <= 2 ^ 31 - 1).
  { apply pids_bound; [lia|done|]. apply Forall_fmap. eapply Forall_impl; [exact Hr|].
    cbn. intros x Hx. lia. }
  unfold len in *. rewrite length_fmap in H. lia.
Qed.

Lemma pids_insert mp r pid ip : pids mp r -> 0 <= pid < 2 ^ 32 ->
  pids (<[uint pid := uint ip]> mp) (<[pid := ip]> r).
Proof.
  intros H Hp p Hr. destruct (decide (p = pid)) as [->|Hne]; [by rewrite !lookup_insert_eq|].
  rewrite lookup_insert_ne, lookup_insert_ne by (try done; intros ?; apply Hne; by apply uint_inj).
  by apply H.
Qed.

Lemma pids_delete mp r pid : pids mp r -> 0 <= pid < 2 ^ 32 ->
  pids (delete (uint pid) mp) (delete pid r).
Proof.
  intros H Hp p Hr. destruct (decide (p = pid)) as [->|Hne]; [by rewrite !lookup_delete_eq|].
  rewrite lookup_delete_ne, lookup_delete_ne by (try done; intros ?; apply Hne; by apply uint_inj).
  by apply H.
Qed.

(** Waiting for a registered child takes it out of the tables. *)
Lemma reap_runs w l pid ip d : tables w (l ++ (pid, ip) :: d) [] ->
  zombies (loc w) = pid :: d.*1 ->
  runs E (reap_one tt) w (fun r w' => r = inl tt /\ tables w' (l ++ d) [] /\
    zombies (loc w') = d.*1).
Proof.
  intros Ht Hz. pose proof (tables_len _ _ _ Ht) as Hb.
  destruct Ht as [Hd Hr Hc (mi & mp & r & Hri & Hci & Hrp & Hp & Hreg)].
  assert (Hin : (pid, ip) ∈ l ++ (pid, ip) :: d) by set_solver.
  pose proof (proj1 (Forall_forall _ _) Hr _ Hin) as [Hpr Hir]. cbn [fst snd] in Hpr, Hir.
  pose proof (from_ip_pos _ _ _ Hin) as Hpos.
  assert (Hrp' : r !! pid = Some ip) by (apply Hreg; set_solver).
  unfold reap_one, waitpid, on_pid_ip. rsteps. rewrite Hz. rsteps. apply runs_zoom.
  cbn [loc hist s_pid_ip_hash set_field].
  eapply runs_mono; [by apply lookup_law|]. cbn [loc hist]. intros p [t h] [Et Hpt].
  cbn [loc hist] in *. subst t.
  assert (Hm : mp !! uint pid = Some (uint ip)) by (rewrite (Hp pid), Hrp' by lia; done).
  rewrite Hm in Hpt. destruct Hpt as (q & -> & Hq). rsteps. apply runs_zoom.
  cbn [loc hist s_pid_ip_hash set_field].
  eapply runs_mono; [by eapply load_law|]. intros v [t h'] [Et ->]. cbn [loc hist] in *. subst t.
  rewrite uint_val by lia. rsteps.
  eapply runs_mono; [apply (drop_ip_count_runs ip mi (fun i => from_ip i (l ++ (pid, ip) :: d)));
                     [done|done|lia|lia]|].
  intros [] w' (t & mi' & Hw' & Hri' & Hci'). rsteps. apply runs_zoom. rewrite Hw'.
  cbn [loc hist s_pid_ip_hash set_field].
  eapply runs_mono; [by apply free_law|]. intros [] [t2 h2] Hr2. rsteps.
  cbn [loc hist] in Hr2 |- *. split; [done|]. split; [|done].
  assert (Hperm : l ++ (pid, ip) :: d ≡ₚ (pid, ip) :: l ++ d) by (by rewrite Permutation_middle).
  rewrite Hperm in Hd, Hr. cbn in Hd. apply NoDup_cons in Hd. destruct Hd as [Hnin Hd].
  apply Forall_cons in Hr. destruct Hr as [_ Hr].
  split; cbn [loc s_children s_ip_count_hash s_pid_ip_hash zombies set_field]; [done|done| |].
  - rewrite Hc. unfold u32, len in *. rewrite !length_app in *. cbn [length] in *.
    rewrite Z.mod_small; lia.
  - exists mi', (delete (uint pid) mp), (delete pid r). split; [done|]. split; [|split; [done|]].
    + eapply counts_ext; [exact Hci'|]. intros i Hi. unfold bump.
      rewrite !from_ip_app, from_ip_cons. destruct (Z.eqb_spec i ip); lia.
    + split; [apply pids_delete; [done|lia]|]. intros p i. rewrite lookup_delete_Some, Hreg, Hperm.
      split.
      * intros (Hne & [Heq|Hi]%elem_of_cons & _); [congruence|]. set_solver.
      * intros [Hi _]. split; [|split; [by right|set_solver]]. intros <-. apply Hnin.
        apply list_elem_of_fmap. by exists (pid, i).
Qed.

Lemma handle_sigchld_runs w l d : tables w (l ++ d) [] -> zombies (loc w) = d.*1 ->
  runs E handle_sigchld w (fun _ w' => tables w' l [] /\ zombies (loc w') = []).
Proof.
  intros Ht Hz. unfold handle_sigchld. rsteps. rewrite Hz, length_fmap.
  revert w Ht Hz. induction d as [|[pid ip] d IH]; intros w Ht Hz.
  - cbn [iterM length]. unfold reap_one, waitpid. rsteps. rewrite Hz. rsteps.
    by rewrite app_nil_r in Ht.
  - cbn [iterM length]. rsteps. eapply runs_mono; [by apply (reap_runs w l pid ip d)|].
    intros r w' (-> & Ht' & Hz'). by apply IH.
Qed.

Lemma tables_perm w cs cs' u : tables w cs u -> cs ≡ₚ cs' -> tables w cs' u.
Proof.
  intros [Hd Hr Hc (mi & mp & r & Hri & Hci & Hrp & Hp & Hreg)] Hperm. split.
  - by rewrite <-Hperm.
  - by rewrite <-Hperm.
  - rewrite Hc. unfold len. by rewrite Hperm.
  - exists mi, mp, r. split; [done|]. split; [|split; [done|]; split; [done|]].
    + eapply counts_ext; [exact Hci|]. intros i _. unfold from_ip, len. by rewrite Hperm.
    + intros pid ip. by rewrite Hreg, Hperm.
Qed.

(** A turn of the accept loop. *)
Lemma on_accept_result w cs ip mi : tables w cs [] -> 0 <= ip < 2 ^ 32 ->
  rep 4 (s_ip_count_hash (loc w)) mi -> counts mi (fun i => from_ip i cs) ->
  runs E (on_accept ip) w (fun r w' => r = (len cs + 1, from_ip ip cs + 1) /\
    exists t mi', loc w' = (loc w) <| s_children := len cs + 1 |> <| s_ip_count_hash := t |> /\
      rep 4 t mi' /\ counts mi' (bump ip 1 (fun i => from_ip i cs))).
Proof.
  intros Ht Hip Hri Hci. pose proof (tables_len _ _ _ Ht) as Hb.
  pose proof (from_ip_le ip cs) as Hle.
  assert (Hn : u32 (s_children (loc w) + 1) = len cs + 1).
  { rewrite (tb_children _ _ _ Ht). unfold u32, len in *. apply Z.mod_small. lia. }
  unfold on_accept. rsteps.
  eapply runs_mono; [eapply (handle_ip_count_runs ip mi (fun i => from_ip i cs)); [done|done|done|lia]|].
  intros k w' (-> & t & mi' & Hw' & Hri' & Hci'). rsteps.
  cbn [loc s_children set_field]. rewrite <-Hn. split; [done|]. by exists t, mi'.
Qed.

Lemma on_accept_runs w cs pid ip : tables w cs [] -> 0 <= ip < 2 ^ 32 ->
  0 < pid < 2 ^ 31 -> pid ∉ cs.*1 ->
  runs E (on_accept ip) w (fun r w' => r = (len cs + 1, from_ip ip cs + 1) /\
    tables w' ((pid, ip) :: cs) [pid] /\ zombies (loc w') = zombies (loc w)).
Proof.
  intros Ht Hip Hpid Hnin.
  destruct (tb_maps _ _ _ Ht) as (mi & mp & r & Hri & Hci & Hrp & Hp & Hreg).
  eapply runs_mono; [by apply (on_accept_result w cs ip mi)|].
  intros k w' (-> & t & mi' & Hw' & Hri' & Hci'). split; [done|]. rewrite Hw'. split; [|done].
  destruct Ht as [Hd Hr _ _]. split.
  - cbn. by constructor.
  - by constructor.
  - rewrite Hw'. cbn [s_children set_field]. unfold len. cbn [length]. lia.
  - exists mi', mp, r. rewrite Hw'. cbn [s_ip_count_hash s_pid_ip_hash set_field].
    split; [done|]. split; [|split; [done|]; split; [done|]].
    + eapply counts_ext; [exact Hci'|]. intros i _. unfold bump. rewrite from_ip_cons.
      destruct (Z.eqb_spec i ip); lia.
    + intros p i. rewrite Hreg. split.
      * intros [Hi _]. split; [by right|]. intros ->%list_elem_of_singleton. apply Hnin.
        apply list_elem_of_fmap. by exists (pid, i).
      * intros [[?|Hi]%elem_of_cons Hne]; [simplify_eq; set_solver|]. split; [done|set_solver].
Qed.

Lemma after_fork_runs w cs pid ip : tables w cs [pid] -> (pid, ip) ∈ cs ->
  runs E (after_fork pid ip) w (fun _ w' => tables w' cs [] /\ zombies (loc w') = zombies (loc w)).
Proof.
  intros [Hd Hr Hc (mi & mp & r & Hri & Hci & Hrp & Hp & Hreg)] Hin.
  pose proof (proj1 (Forall_forall _ _) Hr _ Hin) as [Hpr Hir]. cbn [fst snd] in Hpr, Hir.
  unfold after_fork, on_pid_ip. destruct (Z.eqb_spec pid (-1)); [lia|]. apply runs_zoom.
  eapply runs_mono; [by apply add_law|]. intros [] [t h] Ht. cbn [loc hist] in *.
  assert (Hnone : r !! pid = None).
  { destruct (r !! pid) as [i|] eqn:Hi; [|done]. apply Hreg in Hi. set_solver. }
  rewrite (Hp pid), Hnone in Ht by lia. cbn [fmap option_fmap option_map] in Ht.
  split; [|done]. split; [done|done|done|].
  exists mi, (<[uint pid := uint ip]> mp), (<[pid := ip]> r).
  split; [done|]. split; [done|]. split; [done|]. split; [apply pids_insert; [done|lia]|].
  intros p i. rewrite lookup_insert_Some, Hreg. split.
  - intros [[-> ->]|(Hne & Hi & _)]; (split; [done|set_solver]).
  - intros [Hi _]. destruct (decide (p = pid)) as [->|Hne]; [left|right; set_solver].
    split; [done|].
    destruct (list_elem_of_split _ _ Hin) as (l1 & l2 & ->).
    rewrite fmap_app, fmap_cons in Hd. apply NoDup_app in Hd. destruct Hd as (_ & Hx & [Hy _]%NoDup_cons).
    apply elem_of_app in Hi. rewrite elem_of_cons in Hi. destruct Hi as [Hi|[Hi|Hi]].
    + exfalso. apply (Hx pid); [apply list_elem_of_fmap; by exists (pid, i)|left].
    + by injection Hi.
    + exfalso. apply Hy. apply list_elem_of_fmap. by exists (pid, i).
Qed.

(** ** Reachable configurations *)

Variables max_clients max_per_ip : Z.
Abbreviation reachable := (reachable E max_clients max_per_ip).
Abbreviation step := (step E max_clients max_per_ip).

Definition unregistered (p : phase) : list Z :=
  match p with Accepting => [] | Forked pid _ => [pid] end.

Record inv_ok (c : config sys T) : Prop := Inv_ok {
  iv_tables : tables (parent c) (children c) (unregistered (at_ c));
  iv_zombies : zombies (loc (parent c)) = (dead c).*1;
  iv_forked : match at_ c with Accepting => True | Forked pid ip => (pid, ip) ∈ children c end;
  iv_nodup : NoDup (served c);
  iv_live : forall x, x ∈ served c -> x ∈ live c;
  iv_clients : 0 < max_clients -> len (served c) <= max_clients;
  iv_per_ip ip : 0 < max_per_ip -> from_ip ip (served c) <= max_per_ip
}.

(** The variables of a server that starts. *)
Definition started (w : world sys (server T)) : Prop :=
  s_children (loc w) = 0 /\ zombies (loc w) = [] /\
  rep 4 (s_ip_count_hash (loc w)) ∅ /\ rep 4 (s_pid_ip_hash (loc w)) ∅.

Lemma inv_init w : started w -> inv_ok (Config w Accepting [] [] []).
Proof.
  intros (Hc & Hz & Hi & Hp).
  assert (Ht : tables w [] []).
  { split; [constructor|done|done|]. exists ∅, ∅, ∅. split; [done|].
    split; [|split; [done|split]].
    - intros ip Hip. change (from_ip ip []) with 0. split; [lia|]. by rewrite lookup_empty.
    - intros pid Hpid. by rewrite !lookup_empty.
    - intros pid ip. rewrite lookup_empty. set_solver. }
  split; cbn; [done|done|done|constructor|set_solver|unfold len; cbn; lia|].
  intros ip Hm. unfold from_ip, len. cbn. lia.
Qed.

Lemma served_count ip (l cs : list (Z * Z)) : NoDup l -> (forall x, x ∈ l -> x ∈ cs) ->
  len l <= len cs /\ from_ip ip l <= from_ip ip cs.
Proof.
  intros Hd Hl. assert (Hs : l ⊆+ cs) by (by apply NoDup_submseteq).
  assert (Hf : filter (fun x => x.2 = ip) l ⊆+ filter (fun x => x.2 = ip) cs).
  { apply NoDup_submseteq; [by apply NoDup_filter|]. intros x. rewrite !list_elem_of_filter. naive_solver. }
  apply submseteq_length in Hs, Hf. unfold from_ip, len. lia.
Qed.

Lemma check_limits_None n k : check_limits max_clients max_per_ip n k = None ->
  (0 < max_clients -> n <= max_clients) /\ (0 < max_per_ip -> k <= max_per_ip).
Proof.
  unfold check_limits. destruct (Z.ltb_spec 0 max_clients), (Z.ltb_spec max_clients n),
    (Z.ltb_spec 0 max_per_ip), (Z.ltb_spec max_per_ip k); cbn [andb]; intros; try done; lia.
Qed.

Lemma inv_accept c ip pid w n k : inv_ok c -> at_ c = Accepting -> 0 <= ip < 2 ^ 32 ->
  0 < pid < 2 ^ 31 -> pid ∉ (children c).*1 -> on_accept ip E (parent c) = Done (n, k) w ->
  inv_ok (Config w (Forked pid ip) ((pid, ip) :: live c) (dead c)
    (match check_limits max_clients max_per_ip n k with
     | None => (pid, ip) :: served c | Some _ => served c end)).
Proof.
  intros [Ht Hz _ Hnd Hl Hc Hp] Hat Hip Hpid Hnin Ha. rewrite Hat in Ht. cbn in Ht.
  pose proof (runs_Done _ _ _ _ _ _ (on_accept_runs _ _ pid ip Ht Hip Hpid Hnin) Ha)
    as ([= -> ->] & Ht' & Hz').
  assert (Hls : forall x, x ∈ served c -> x ∈ children c).
  { intros x Hx. apply elem_of_app. left. by apply Hl. }
  assert (Hns : (pid, ip) ∉ served c).
  { intros Hx%Hls. apply Hnin, list_elem_of_fmap. by exists (pid, ip). }
  pose proof (check_limits_None (len (children c) + 1) (from_ip ip (children c) + 1)) as Hok.
  destruct (check_limits _ _ _ _) as [code|];
    (split; cbn [parent at_ live dead served unregistered children];
     [exact Ht'|by rewrite Hz'|left|..]).
  - done.
  - intros x Hx. right. by apply Hl.
  - done.
  - done.
  - by constructor.
  - intros x [->|Hx]%elem_of_cons; [left|right; by apply Hl].
  - intros Hm. destruct (served_count ip _ _ Hnd Hls) as [Hlen _].
    apply Hok in Hm; [|done]. unfold len in *. cbn [length]. lia.
  - intros i Hm. specialize (Hp i Hm). rewrite from_ip_cons.
    destruct (Z.eqb_spec i ip) as [->|]; [|lia].
    destruct (served_count ip _ _ Hnd Hls) as [_ Hlen]. apply Hok in Hm; [lia|done].
Qed.

Lemma inv_exit c pid ip l1 l2 : inv_ok c -> live c = l1 ++ (pid, ip) :: l2 ->
  inv_ok (Config
    (World ((loc (parent c)) <| zombies := pid :: zombies (loc (parent c)) |>) (hist (parent c)))
    (at_ c) (l1 ++ l2) ((pid, ip) :: dead c) (filter (fun x => x <> (pid, ip)) (served c))).
Proof.
  intros [Ht Hz Hf Hnd Hl Hc Hp] Hlive.
  assert (Hperm : children c ≡ₚ (l1 ++ l2) ++ (pid, ip) :: dead c).
  { unfold children. rewrite Hlive. by rewrite <-Permutation_middle, <-(Permutation_middle (l1 ++ l2)). }
  assert (Hsub : forall x, x ∈ filter (fun x => x <> (pid, ip)) (served c) -> x ∈ served c)
    by (intros x [_ Hx]%list_elem_of_filter; done).
  assert (Hnf : NoDup (filter (fun x => x <> (pid, ip)) (served c))) by (by apply NoDup_filter).
  split; cbn [parent at_ live dead served children].
  - apply (tables_perm _ _ _ _) with (2 := Hperm). destruct Ht as [? ? ? Hm]. by split.
  - cbn. by rewrite Hz.
  - destruct (at_ c); [done|]. by rewrite <-Hperm.
  - done.
  - intros x [Hne Hx]%list_elem_of_filter. apply Hl in Hx. rewrite Hlive in Hx. set_solver.
  - intros Hm. pose proof (served_count 0 _ _ Hnf Hsub). specialize (Hc Hm). lia.
  - intros i Hm. pose proof (served_count i _ _ Hnf Hsub). specialize (Hp i Hm). lia.
Qed.

Lemma inv_step c c' : inv_ok c -> step false c c' -> inv_ok c'.
Proof.
  intros Hi Hs. destruct Hs as [c ip pid w n k Hat Hip Hpid Hnin Ha|c pid ip w Hat Ha|c pid ip l1 l2 Hl|c w Hat Ha].
  - by apply inv_accept.
  - destruct Hi as [Ht Hz Hf Hnd Hl Hc Hp]. rewrite Hat in Ht, Hf.
    pose proof (runs_Done _ _ _ _ _ _ (after_fork_runs _ _ _ _ Ht Hf) Ha) as [Ht' Hz'].
    split; cbn [parent at_ live dead served children unregistered]; try done. by rewrite Hz'.
  - by apply inv_exit.
  - destruct Hat as [|Hat]; [done|]. destruct Hi as [Ht Hz Hf Hnd Hl Hc Hp]. rewrite Hat in *.
    pose proof (runs_Done _ _ _ _ _ _ (handle_sigchld_runs _ _ _ Ht Hz) Ha) as [Ht' Hz'].
    split; cbn [parent at_ live dead served children unregistered]; try done.
    unfold children. cbn [live dead]. by rewrite app_nil_r.
Qed.

Lemma inv_reachable w0 c : started w0 -> reachable false w0 c -> inv_ok c.
Proof.
  intros Hs. induction 1 as [|c c' _ IH Hst]; [by apply inv_init|by eapply inv_step].
Qed.


(** On the same runs the accounting is exact and never stuck: the next
    client is told the number of children that are running or not yet waited
    for, and the number of those of its address, plus itself; and the handler
    of SIGCHLD ends, after which only the running children count. *)
Theorem counts_exact w0 c ip (Hw : started w0) (Hr : reachable false w0 c)
    (Hat : at_ c = Accepting) (Hip : 0 <= ip < 2 ^ 32) :
  runs E (on_accept ip) (parent c) (fun r _ =>
    r = (len (children c) + 1, from_ip ip (children c) + 1)) /\
  runs E handle_sigchld (parent c) (fun _ w => s_children (loc w) = len (live c)).
Proof.
  pose proof (inv_reachable _ _ Hw Hr) as Hi. destruct Hi as [Ht Hz _ _ _ _ _].
  rewrite Hat in Ht. cbn in Ht. split.
  - destruct (tb_maps _ _ _ Ht) as (mi & _ & _ & Hri & Hci & _).
    eapply runs_mono; [by apply (on_accept_result _ (children c) ip mi)|]. by intros r w (-> & _).
  - eapply runs_mono; [by apply (handle_sigchld_runs _ (live c) (dead c))|].
    intros [] w [Ht' _]. apply Ht'.
Qed.

(** A child that is waited for before it is registered. *)
Lemma reap_unregistered_runs w pid mp : rep 4 (s_pid_ip_hash (loc w)) mp ->
  zombies (loc w) = [pid] -> mp !! uint pid = None ->
  runs E handle_sigchld w (fun _ w' => zombies (loc w') = [] /\
    s_children (loc w') = u32 (s_children (loc w) - 1) /\
    s_ip_count_hash (loc w') = s_ip_count_hash (loc w) /\
    rep 4 (s_pid_ip_hash (loc w')) mp).
Proof.
  intros Hrp Hz Hm. unfold handle_sigchld. rsteps. rewrite Hz. cbn [length iterM].
  unfold reap_one, waitpid, on_pid_ip. rsteps. rewrite Hz. rsteps. apply runs_zoom.
  cbn [loc hist s_pid_ip_hash set_field].
  eapply runs_mono; [by apply lookup_law|]. intros r [t h] [Et Hr]. cbn [loc hist] in *. subst t.
  rewrite Hm in Hr. subst r. by rsteps.
Qed.

Lemma after_fork_keeps w pid ip mp : rep 4 (s_pid_ip_hash (loc w)) mp -> 0 < pid ->
  runs E (after_fork pid ip) w (fun _ w' => s_children (loc w') = s_children (loc w) /\
    s_ip_count_hash (loc w') = s_ip_count_hash (loc w)).
Proof.
  intros Hrp Hpid. unfold after_fork, on_pid_ip. destruct (Z.eqb_spec pid (-1)); [lia|].
  apply runs_zoom. eapply runs_mono; [by apply add_law|]. by intros [] [t h] _.
Qed.

(** Without that proviso the accounting leaks.  For any address and
    process id there is a run in which one client connects and leaves, SIGCHLD
    arrives before its child is registered, and afterwards, with no child left,
    the next client of that address is counted as the second one. *)
Theorem early_sigchld_leaks w0 ip pid (Hw : started w0)
    (Hip : 0 <= ip < 2 ^ 32) (Hpid : 0 < pid < 2 ^ 31) :
  exists c, reachable true w0 c /\ at_ c = Accepting /\ children c = [] /\
    runs E (on_accept ip) (parent c) (fun r _ => r = (1, 2)).
Proof.
  pose proof (inv_init _ Hw) as Hi. pose proof (iv_tables _ Hi) as Ht. cbn in Ht.
  assert (Hnin : pid ∉ (children (Config w0 Accepting [] [] [])).*1) by (cbn; set_solver).
  destruct (runs_ends _ _ _ _ (on_accept_runs _ _ pid ip Ht Hip Hpid Hnin))
    as ([n k] & w1 & E1 & [= -> ->] & Ht1 & Hz1).
  pose proof (step_accept E max_clients max_per_ip true _ ip pid w1 _ _
    (eq_refl : at_ (Config w0 Accepting [] [] []) = Accepting) Hip Hpid Hnin E1) as S1.
  set (c1 := Config w1 _ _ _ _) in S1.
  pose proof (step_exit E max_clients max_per_ip true c1 pid ip [] [] eq_refl) as S2.
  set (c2 := Config _ _ _ _ _) in S2.
  destruct Ht1 as [_ _ Hc1 (mi & mp & r & Hri & Hci & Hrp & Hp & Hreg)].
  assert (Hnone : mp !! uint pid = None).
  { rewrite (Hp pid) by lia. destruct (r !! pid) as [i|] eqn:Hr; [|done].
    apply Hreg in Hr. set_solver. }
  destruct Hw as (_ & Hz0 & _).
  destruct (runs_ends _ _ (parent c2) _ (reap_unregistered_runs (parent c2) pid mp Hrp
    ltac:(cbn; by rewrite Hz1, Hz0) Hnone)) as ([] & w3 & E3 & Hz3 & Hc3 & Hi3 & Hp3).
  pose proof (step_sigchld E max_clients max_per_ip true c2 w3 (or_introl eq_refl) E3) as S3.
  set (c3 := Config _ _ _ _ _) in S3.
  destruct (runs_ends _ _ _ _ (after_fork_keeps w3 pid ip mp Hp3 ltac:(lia)))
    as ([] & w4 & E4 & Hc4 & Hi4).
  assert (Hc0 : s_children (loc w4) = 0) by (rewrite Hc4, Hc3; cbn; by rewrite Hc1).
  assert (Hi0 : s_ip_count_hash (loc w4) = s_ip_count_hash (loc w1)) by (by rewrite Hi4, Hi3).
  pose proof (step_register E max_clients max_per_ip true c3 pid ip w4 eq_refl E4) as S4.
  set (c4 := Config _ _ _ _ _) in S4. exists c4.
  split; [|split; [done|split; [done|]]].
  - eapply reach_step; [|exact S4]. eapply reach_step; [|exact S3].
    eapply reach_step; [|exact S2]. eapply reach_step; [|exact S1]. apply reach_init.
  - subst c4. cbn [parent]. unfold on_accept. rsteps. rewrite <-Hi0 in Hri.
    eapply runs_mono; [apply (handle_ip_count_runs ip mi (fun i => from_ip i [(pid, ip)]));
      [exact Hri|exact Hci|exact Hip|]|].
    + rewrite from_ip_cons. by destruct (Z.eqb_spec ip ip).
    + intros k w' [-> _]. rsteps. cbn [loc s_children set_field]. rewrite Hc0.
      rewrite from_ip_cons. by destruct (Z.eqb_spec ip ip).
Qed.
End Server.

(** ** The server on the hash table of hash.c *)

Definition table256 : hash := Hash 256 hash_func (replicate 256 None) ∅.
Definition start : world heap_sys (server hash) := World (Server 0 table256 table256 []) [].

Lemma c_heap_fresh h live : exists a, c_heap _ h (MallocCall live) = Some a /\ a ∉ live.
Proof. exists (fresh live). split; [done|apply is_fresh]. Qed.

#[export] Instance ftp_hash_ops : HashOps heap_sys hash := hash_ops MallocCall.
#[export] Instance ftp_hash_laws : HashLaws ftp_hash_ops c_heap :=
  hash_laws MallocCall c_heap c_heap_fresh.

Lemma start_ok : started (E := c_heap) start.
Proof.
  assert (H : table_ok 4 table256 ∅).
  { apply alloc_ok; [lia|]. intros k _. unfold hash_func, u32.
    pose proof (Z.mod_pos_bound (get_le 0 4 k) 256 ltac:(lia)).
    rewrite Z.mod_small; lia. }
  by split_and!.
Qed.

(** 127.0.0.1 connects with a limit of one client per address. *)
Definition localhost : Z := 16777343.
Definition accepted (w : world heap_sys (server hash)) : world heap_sys (server hash) :=
  match on_accept localhost c_heap w with Done _ w' => w' | _ => w end.
Definition registered (pid : Z) (w : world heap_sys (server hash)) : world heap_sys (server hash) :=
  match after_fork pid localhost c_heap w with Done _ w' => w' | _ => w end.

Definition one_client : config heap_sys hash :=
  Config (registered 100 (accepted start)) Accepting [(100, localhost)] [] [(100, localhost)].
Definition two_clients : config heap_sys hash :=
  Config (accepted (parent one_client)) (Forked 101 localhost)
    [(101, localhost); (100, localhost)] [] [(100, localhost)].

Lemma one_client_reachable : reachable c_heap 0 1 false start one_client.
Proof.
  eapply reach_step; [|apply (step_register _ _ _ _
    (Config (accepted start) (Forked 100 localhost) [(100, localhost)] [] [(100, localhost)])
    100 localhost); [reflexivity|vm_compute; reflexivity]].
  eapply reach_step; [apply reach_init|].
  refine (step_accept c_heap 0 1 false (Config start Accepting [] [] []) localhost 100
    (accepted start) 1 1 eq_refl _ _ _ _); [unfold localhost; lia|lia|cbn; set_solver|].
  vm_compute. reflexivity.
Qed.


Lemma counts_exact_witness :
  runs c_heap (on_accept localhost) (parent one_client) (fun r _ => r = (2, 2)) /\
  runs c_heap handle_sigchld (parent one_client) (fun _ w => s_children (loc w) = 1).
Proof.
  apply (counts_exact 0 1 start one_client localhost start_ok one_client_reachable);
    [reflexivity|unfold localhost; lia].
Defined.

Lemma early_sigchld_leaks_witness :
  exists c, reachable c_heap 2000 50 true start c /\ at_ c = Accepting /\ children c = [] /\
    runs c_heap (on_accept localhost) (parent c) (fun r _ => r = (1, 2)).
Proof.
  apply (early_sigchld_leaks 2000 50 start localhost 100 start_ok); unfold localhost; lia.
Defined.
