(* ===== verification/Str.v ===== *)
(** The string helpers of the FTP server (qftp_server/src/str.c), on buffers of
    bytes: [None] is an access outside the buffer.  Characters are those of the
    C locale. *)

From Stdlib Require Import ZArith Lia.
From stdpp Require Import base list.
From S2P Require Import Prelude.

Definition CR : Z := 13.
Definition LF : Z := 10.

Definition is_crlf (c : Z) : bool := (c =? CR) || (c =? LF).
Definition isspace (c : Z) : bool := (c =? 32) || ((9 <=? c) && (c <=? 13)).
Definition toupper (c : Z) : Z := if (97 <=? c) && (c <=? 122) then c - 32 else c.

(** The loop of [str_trim_crlf] stands at character [n - 1]; below the first
    character it leaves the buffer. *)
Fixpoint trim_loop (n : nat) (buf : list Z) : option (list Z) :=
  match n with
  | O => None
  | S k =>
      match buf !! k with
      | None => None
      | Some c => if is_crlf c then trim_loop k (<[k := 0]> buf) else Some buf
      end
  end.

Definition str_trim_crlf (buf : list Z) : option (list Z) :=
  s ← c_string 0 buf; trim_loop (length s) buf.

(** [strchr(s, c)] on a string: the index of the first [c]. *)
Fixpoint strchr (s : list Z) (c : Z) : option nat :=
  match s with
  | [] => None
  | b :: s' => if b =? c then Some O else S <$> strchr s' c
  end.

(** [strcpy(dst, s)]: the string and its NUL. *)
Definition strcpy (dst s : list Z) : option (list Z) := wr 0 (s ++ [0]) dst.

(** The buffers of [left] and [right] after the call. *)
Definition str_split (buf left right : list Z) (c : Z) : option (list Z * list Z) :=
  s ← c_string 0 buf;
  match strchr s c with
  | None => l ← strcpy left s; Some (l, right)
  | Some p =>
      l ← wr 0 (take p s) left;
      r ← strcpy right (drop (S p) s);
      Some (l, r)
  end.

Definition str_all_space (s : list Z) : bool := forallb isspace s.

Fixpoint upper_loop (buf : list Z) : option (list Z) :=
  match buf with
  | [] => None
  | b :: l => if b =? 0 then Some buf else l' ← upper_loop l; Some (toupper b :: l')
  end.
Definition str_upper (buf : list Z) : option (list Z) := upper_loop buf.

Definition isdigit (c : Z) : bool := (48 <=? c) && (c <=? 57).

(** [str_to_longlong] runs over the digits from the last one; [long long]
    arithmetic on 15 digits does not overflow, its wrap-around is kept. *)
Fixpoint longlong_loop (rev_digits : list Z) (mult result : Z) : Z :=
  match rev_digits with
  | [] => result
  | ch :: l =>
      if isdigit ch
      then longlong_loop l (s64 (mult * 10)) (s64 (result + s64 ((ch - 48) * mult)))
      else 0
  end.
Definition str_to_longlong (s : list Z) : Z :=
  if 15 <? len s then 0 else longlong_loop (rev s) 1 0.

Fixpoint octal_loop (s : list Z) (non_zero_digit : bool) (result : Z) : Z :=
  match s with
  | [] => result
  | c :: l =>
      if (c <? 48) || (55 <? c) then 0
      else
        let nz := if negb (c =? 0) then true else non_zero_digit in
        octal_loop l nz (if nz then u32 (u32 (Z.shiftl result 3) + u32 (c - 48)) else result)
  end.
Definition str_octal_to_uint (s : list Z) : Z := octal_loop s false 0.

(** ** Strings in buffers *)

Definition string_in (s buf : list Z) : Prop := no_nul s /\ exists rest, buf = s ++ 0 :: rest.

Lemma has_nul_string s rest : has_nul (s ++ 0 :: rest) = true.
Proof. induction s as [|b s IH]; cbn; [done|]. by rewrite IH, orb_true_r. Qed.

Lemma cstr_string s rest : no_nul s -> cstr (s ++ 0 :: rest) = s.
Proof.
  induction 1 as [|b s Hb _ IH]; cbn; [done|].
  destruct (Z.eqb_spec b 0); [done|]. by rewrite IH.
Qed.

Lemma c_string_in s buf : string_in s buf -> c_string 0 buf = Some s.
Proof.
  intros [Hn [rest ->]]. unfold c_string. by rewrite drop_0, has_nul_string, cstr_string.
Qed.

(** The characters before the trailing line ends. *)
Definition trailing_crlf (l : list Z) : Prop := Forall (fun c => is_crlf c = true) l.

Lemma trim_loop_spec s c e rest : trailing_crlf e -> is_crlf c = false ->
  trim_loop (length (s ++ c :: e)) (s ++ c :: e ++ 0 :: rest) =
    Some (s ++ c :: replicate (length e) 0 ++ 0 :: rest).
Proof.
  revert rest. induction e as [|x e IH] using rev_ind; intros rest He Hc.
  - rewrite length_app. cbn [length app replicate]. rewrite Nat.add_1_r. cbn [trim_loop].
    rewrite list_lookup_middle by done. by rewrite Hc.
  - apply Forall_app in He. destruct He as [He Hx]. apply Forall_cons in Hx. destruct Hx as [Hx _].
    replace (length (s ++ c :: e ++ [x])) with (S (length (s ++ c :: e)))
      by (rewrite !length_app; cbn; rewrite length_app; cbn; lia).
    cbn [trim_loop].
    assert (Hb : s ++ c :: (e ++ [x]) ++ 0 :: rest = (s ++ c :: e) ++ x :: 0 :: rest)
      by (by rewrite <-!app_assoc).
    rewrite Hb, list_lookup_middle by done. rewrite Hx.
    rewrite insert_app_r_alt by done. rewrite Nat.sub_diag. cbn [insert list_insert].
    specialize (IH (0 :: rest) He Hc). rewrite <-app_assoc. cbn [app].
    rewrite IH. rewrite length_app, replicate_add. cbn [length replicate].
    by rewrite <-!app_assoc.
Qed.

Lemma trim_loop_all e rest : trailing_crlf e -> trim_loop (length e) (e ++ rest) = None.
Proof.
  revert rest. induction e as [|x e IH] using rev_ind; intros rest He; [done|].
  apply Forall_app in He. destruct He as [He Hx]. apply Forall_cons in Hx. destruct Hx as [Hx _].
  rewrite length_app. cbn [length]. rewrite Nat.add_1_r. cbn [trim_loop].
  rewrite <-app_assoc. cbn [app]. rewrite list_lookup_middle by done. rewrite Hx.
  rewrite insert_app_r_alt by done. rewrite Nat.sub_diag. cbn [insert list_insert app].
  by apply IH.
Qed.

(** Trimming removes the line end of a line that has a character. *)
Lemma str_trim_crlf_line s c e rest :
  no_nul (s ++ c :: e) -> trailing_crlf e -> is_crlf c = false ->
  str_trim_crlf (s ++ c :: e ++ 0 :: rest) =
    Some (s ++ c :: replicate (length e) 0 ++ 0 :: rest).
Proof.
  intros Hn He Hc. unfold str_trim_crlf. rewrite (c_string_in (s ++ c :: e)).
  - cbn. by apply trim_loop_spec.
  - split; [done|]. exists rest. by rewrite <-app_assoc.
Qed.

(** A line without any other character is trimmed past its beginning. *)
Lemma str_trim_crlf_blank e rest : no_nul e -> trailing_crlf e ->
  str_trim_crlf (e ++ 0 :: rest) = None.
Proof.
  intros Hn He. unfold str_trim_crlf. rewrite (c_string_in e) by (split; eauto).
  cbn. by apply trim_loop_all.
Qed.

Lemma strchr_first l r c : c ∉ l -> strchr (l ++ c :: r) c = Some (length l).
Proof.
  induction l as [|b l IH]; intros Hc; cbn; [by rewrite Z.eqb_refl|].
  apply not_elem_of_cons in Hc. destruct Hc as [Hb Hc].
  destruct (Z.eqb_spec b c); [congruence|]. by rewrite IH.
Qed.

Lemma strchr_none l c : c ∉ l -> strchr l c = None.
Proof.
  induction l as [|b l IH]; intros Hc; cbn; [done|].
  apply not_elem_of_cons in Hc. destruct Hc as [Hb Hc].
  destruct (Z.eqb_spec b c); [congruence|]. by rewrite IH.
Qed.

Lemma wr_zeros s n : (length s <= n)%nat ->
  wr 0 s (replicate n 0) = Some (s ++ replicate (n - length s) 0).
Proof.
  intros H. rewrite wr_fits by (rewrite length_replicate; lia). unfold put.
  by rewrite take_0, drop_replicate.
Qed.

(** Both parts, in cleared buffers that hold them with their terminators. *)
Lemma str_split_cleared l r c rest nl nr : c ∉ l -> no_nul (l ++ c :: r) ->
  (length l < nl)%nat -> (length r < nr)%nat ->
  str_split (l ++ c :: r ++ 0 :: rest) (replicate nl 0) (replicate nr 0) c =
    Some (l ++ 0 :: replicate (nl - S (length l)) 0, r ++ 0 :: replicate (nr - S (length r)) 0).
Proof.
  intros Hc Hn Hl Hr. unfold str_split. rewrite (c_string_in (l ++ c :: r)).
  2: { split; [done|]. exists rest. by rewrite <-app_assoc. }
  cbn [mbind option_bind]. rewrite strchr_first by done.
  rewrite take_app_length, wr_zeros by lia. cbn [mbind option_bind].
  assert (Hd : drop (S (length l)) (l ++ c :: r) = r).
  { replace (S (length l)) with (length (l ++ [c])) by len.
    replace (l ++ c :: r) with ((l ++ [c]) ++ r) by (by rewrite <-app_assoc).
    apply drop_app_length. }
  rewrite Hd. unfold strcpy. rewrite wr_zeros by len. cbn [mbind option_bind].
  rewrite length_app. cbn [length].
  replace (nl - length l)%nat with (S (nl - S (length l))) by lia. cbn [replicate].
  rewrite <-app_assoc. cbn [app]. by rewrite Nat.add_1_r.
Qed.

Lemma str_split_no_sep l c rest nl right : c ∉ l -> no_nul l -> (length l < nl)%nat ->
  str_split (l ++ 0 :: rest) (replicate nl 0) right c =
    Some (l ++ 0 :: replicate (nl - S (length l)) 0, right).
Proof.
  intros Hc Hn Hl. unfold str_split. rewrite (c_string_in l) by (split; eauto).
  cbn [mbind option_bind]. rewrite strchr_none by done. unfold strcpy.
  rewrite wr_zeros by len. cbn [mbind option_bind]. rewrite length_app. cbn [length].
  rewrite <-app_assoc. cbn [app]. by rewrite Nat.add_1_r.
Qed.

(** The first part is copied without a look at the size of its buffer. *)
Lemma str_split_overflow l r c rest left right : c ∉ l -> no_nul (l ++ c :: r) ->
  (length left < length l)%nat -> str_split (l ++ c :: r ++ 0 :: rest) left right c = None.
Proof.
  intros Hc Hn Hl. unfold str_split. rewrite (c_string_in (l ++ c :: r)).
  2: { split; [done|]. exists rest. by rewrite <-app_assoc. }
  cbn [mbind option_bind]. rewrite strchr_first by done. rewrite take_app_length.
  unfold wr. rewrite bool_decide_eq_false_2 by lia. done.
Qed.

Lemma toupper_no_nul b : is_byte b -> b <> 0 -> toupper b <> 0.
Proof. unfold is_byte, toupper. destruct (_ && _) eqn:H; [apply andb_prop in H|]; lia. Qed.

Lemma str_upper_string s rest : no_nul s ->
  str_upper (s ++ 0 :: rest) = Some (map toupper s ++ 0 :: rest).
Proof.
  unfold str_upper. induction 1 as [|b s Hb _ IH]; cbn; [done|].
  destruct (Z.eqb_spec b 0); [done|]. by rewrite IH.
Qed.

(** ** Numbers *)

(** The value of a digit string, and the digits that [printf] writes. *)
Definition value_in (base : Z) (s : list Z) : Z := fold_left (fun a c => base * a + (c - 48)) s 0.
Definition isoctal (c : Z) : bool := (48 <=? c) && (c <=? 55).
Fixpoint digits_of (base : Z) (fuel : nat) (z : Z) : list Z :=
  match fuel with
  | O => []
  | S k => (if z <? base then [] else digits_of base k (z / base)) ++ [48 + z mod base]
  end.

Lemma value_in_snoc b s c : value_in b (s ++ [c]) = b * value_in b s + (c - 48).
Proof. unfold value_in. by rewrite fold_left_app. Qed.

Lemma value_in_range b s : 1 < b <= 10 -> Forall (fun c => 48 <= c < 48 + b) s ->
  0 <= value_in b s < b ^ len s.
Proof.
  intros Hb. unfold len. induction s as [|c s IH] using rev_ind; intros Hs; [done|].
  apply Forall_app in Hs. destruct Hs as [Hs Hc]. apply Forall_cons in Hc. destruct Hc as [Hc _].
  specialize (IH Hs). rewrite value_in_snoc, length_app. cbn [length].
  rewrite Nat.add_1_r, Nat2Z.inj_succ, Z.pow_succ_r by lia. nia.
Qed.

Lemma isdigit_range s : forallb isdigit s = true -> Forall (fun c => 48 <= c < 48 + 10) s.
Proof.
  intros H. apply Forall_forall. intros c Hc. rewrite forallb_forall in H.
  specialize (H c (proj1 (list_elem_of_In _ _) Hc)). unfold isdigit in H. lia.
Qed.

Lemma s64_small z : - 2 ^ 63 <= z < 2 ^ 63 -> s64 z = z.
Proof. intros H. unfold s64. rewrite Z.mod_small; lia. Qed.

Lemma longlong_loop_bad l : forallb isdigit l = false -> forall m r, longlong_loop l m r = 0.
Proof.
  induction l as [|c l IH]; cbn; [done|]. intros H m r.
  destruct (isdigit c); [by apply IH|done].
Qed.

Lemma longlong_loop_good s : forallb isdigit s = true -> forall k r,
  (k + length s <= 15)%nat -> 0 <= r < 10 ^ Z.of_nat k ->
  longlong_loop (rev s) (10 ^ Z.of_nat k) r = r + 10 ^ Z.of_nat k * value_in 10 s.
Proof.
  induction s as [|c s IH] using rev_ind; intros Hs k r Hk Hr; [cbn; lia|].
  rewrite rev_app_distr. cbn [rev app longlong_loop].
  rewrite forallb_app in Hs. apply andb_prop in Hs. destruct Hs as [Hs Hc]. cbn in Hc.
  rewrite andb_true_r in Hc. rewrite Hc. unfold isdigit in Hc. rewrite length_app in Hk. cbn in Hk.
  assert (Hp : 0 < 10 ^ Z.of_nat k <= 10 ^ 14)
    by (split; [lia|apply Z.pow_le_mono_r; lia]).
  rewrite (s64_small ((c - 48) * _)) by nia. rewrite (s64_small (r + _)) by nia.
  rewrite (s64_small (_ * 10)) by nia.
  assert (Hk1 : 10 ^ Z.of_nat k * 10 = 10 ^ Z.of_nat (S k))
    by (rewrite Nat2Z.inj_succ, Z.pow_succ_r by lia; lia).
  rewrite Hk1, IH, <-Hk1, value_in_snoc; [lia|done|lia|]. rewrite <-Hk1. nia.
Qed.

Lemma octal_loop_bad l : forallb isoctal l = false -> forall nz r, octal_loop l nz r = 0.
Proof.
  induction l as [|c l IH]; cbn; [done|]. intros H nz r. unfold isoctal at 1 in H.
  destruct (Z.ltb_spec c 48), (Z.ltb_spec 55 c); try done. cbn [orb].
  apply IH. destruct (Z.leb_spec 48 c), (Z.leb_spec c 55); try lia. done.
Qed.

Lemma octal_loop_good l : forallb isoctal l = true -> forall nz r,
  octal_loop l nz (u32 r) = u32 (fold_left (fun a c => 8 * a + (c - 48)) l r).
Proof.
  induction l as [|c l IH]; cbn [forallb octal_loop fold_left]; [done|]. intros H nz r.
  apply andb_prop in H. destruct H as [Hc H]. unfold isoctal in Hc.
  destruct (Z.ltb_spec c 48), (Z.ltb_spec 55 c); try lia. cbn [orb].
  destruct (Z.eqb_spec c 0); [lia|]. cbn [negb].
  replace (u32 (u32 (Z.shiftl (u32 r) 3) + u32 (c - 48))) with (u32 (8 * r + (c - 48))).
  - by apply IH.
  - unfold u32. rewrite Z.shiftl_mul_pow2 by lia. rewrite <-Z.add_mod by lia.
    rewrite (Z.add_mod (8 * r)), (Z.add_mod (r mod 2 ^ 32 * 2 ^ 3)) by lia. do 2 f_equal.
    rewrite Z.mul_mod_idemp_l by lia. f_equal. lia.
Qed.

Lemma digits_of_value b n : 1 < b <= 10 -> forall z, 0 <= z < b ^ Z.of_nat n ->
  Forall (fun c => 48 <= c < 48 + b) (digits_of b n z) /\ (length (digits_of b n z) <= n)%nat /\
  value_in b (digits_of b n z) = z.
Proof.
  intros Hb. induction n as [|n IH]; intros z Hz; [cbn in *; split_and!; [done|lia|unfold value_in; cbn; lia]|].
  cbn [digits_of]. pose proof (Z.mod_pos_bound z b ltac:(lia)).
  rewrite Nat2Z.inj_succ, Z.pow_succ_r in Hz by lia. destruct (Z.ltb_spec z b) as [H1|H1].
  - cbn [app]. rewrite Z.mod_small by lia. split_and!; [by repeat constructor; lia|cbn; lia|].
    unfold value_in. cbn. lia.
  - destruct (IH (z / b)) as (Hd & Hl & Hv).
    { split; [apply Z.div_pos; lia|]. apply Z.div_lt_upper_bound; lia. }
    split_and!.
    + apply Forall_app. split; [done|]. by repeat constructor; lia.
    + rewrite length_app. cbn. lia.
    + rewrite value_in_snoc, Hv. pose proof (Z.div_mod z b ltac:(lia)). lia.
Qed.

(** The numbers in arguments and settings.  [str_to_longlong] is the value
    of a string of at most 15 decimal digits and 0 for any other string;
    [str_octal_to_uint] is the value of an octal string modulo 2^32 and 0 for
    any other; what is printed in decimal is read back. *)
Theorem numbers_correct s :
  str_to_longlong s = (if (len s <=? 15) && forallb isdigit s then value_in 10 s else 0) /\
  str_octal_to_uint s = (if forallb isoctal s then u32 (value_in 8 s) else 0) /\
  forall z, 0 <= z < 10 ^ 15 -> str_to_longlong (digits_of 10 15 z) = z.
Proof.
  assert (Hll : forall s, str_to_longlong s =
    (if (len s <=? 15) && forallb isdigit s then value_in 10 s else 0)).
  { clear s. intros s. unfold str_to_longlong. rewrite Z.leb_antisym.
    destruct (Z.ltb_spec 15 (len s)) as [|Hl]; [done|]. cbn [negb andb].
    destruct (forallb isdigit s) eqn:Hs.
    - pose proof (longlong_loop_good s Hs 0 0 ltac:(unfold len in *; lia) ltac:(lia)) as E.
      change (10 ^ Z.of_nat 0) with 1 in E. rewrite E. lia.
    - apply longlong_loop_bad. apply not_true_iff_false. intros Hr.
      apply not_true_iff_false in Hs. apply Hs. apply forallb_forall. intros c Hc.
      rewrite forallb_forall in Hr. apply Hr. by apply in_rev in Hc. }
  split_and!; [apply Hll| |].
  - unfold str_octal_to_uint. destruct (forallb isoctal s) eqn:Hs; [|by apply octal_loop_bad].
    by apply (octal_loop_good s Hs false 0).
  - intros z Hz. destruct (digits_of_value 10 15 ltac:(lia) z Hz) as (Hd & Hl & Hv).
    rewrite Hll. replace (len _ <=? 15) with true by (unfold len; lia). cbn [andb].
    replace (forallb isdigit _) with true; [done|]. symmetry. apply forallb_forall.
    intros c Hc. rewrite Forall_forall in Hd. specialize (Hd c (proj2 (list_elem_of_In _ _) Hc)).
    unfold isdigit. lia.
Qed.

Lemma numbers_correct_witness :
  0 <= 987654321 < 10 ^ 15 /\ str_to_longlong (digits_of 10 15 987654321) = 987654321.
Proof. split; [lia|]. apply (numbers_correct []). lia. Defined.
