(* ===== verification/CText.v ===== *)
(** What the tools use of the text functions of the C library, on strings
    without their NUL: numbers, formatted input and output, search, tokens and
    the options of a command line. *)

From Stdlib Require Import ZArith Lia.
From stdpp Require Import base list strings.
From S2P Require Import Prelude Str.

(** ** Numbers *)

(** [atoi]: blanks, a sign, digits; [strtol] saturates, the cast to [int] wraps. *)
Fixpoint digits_prefix (s : list Z) : list Z :=
  match s with [] => [] | c :: l => if isdigit c then c :: digits_prefix l else [] end.
Fixpoint skip_spaces (s : list Z) : list Z :=
  match s with [] => [] | c :: l => if isspace c then skip_spaces l else s end.
Definition starts_with (c : Z) (s : list Z) : bool :=
  match s with b :: _ => b =? c | [] => false end.
Definition strtol (s : list Z) : Z :=
  let s := skip_spaces s in
  if starts_with 45 s then Z.max (- 2 ^ 63) (- value_in 10 (digits_prefix (drop 1 s)))
  else Z.min (2 ^ 63 - 1) (value_in 10 (digits_prefix (if starts_with 43 s then drop 1 s else s))).
Definition atoi (s : list Z) : Z := s32 (strtol s).

(** [strtoul(s, &end, base)] for base 10 or 16: the value, and what stands at
    [end]; the result saturates. *)
Definition hex_value (b : Z) : option Z :=
  if (48 <=? b) && (b <=? 57) then Some (b - 48)
  else if (65 <=? b) && (b <=? 70) then Some (b - 55)
  else if (97 <=? b) && (b <=? 102) then Some (b - 87)
  else None.
Definition digit_in (base b : Z) : option Z :=
  d ← hex_value b; if d <? base then Some d else None.
Fixpoint digit_run (base acc : Z) (s : list Z) : Z * list Z :=
  match s with
  | b :: l => match digit_in base b with Some d => digit_run base (acc * base + d) l | None => (acc, s) end
  | [] => (acc, [])
  end.
(** The prefix 0x counts when a digit follows. *)
Definition skip_0x (base : Z) (s : list Z) : list Z :=
  match s with
  | 48 :: x :: c :: l =>
      if (base =? 16) && ((x =? 120) || (x =? 88)) && bool_decide (is_Some (hex_value c)) then c :: l else s
  | _ => s
  end.
Definition strtoul_end (base : Z) (s : list Z) : Z * list Z :=
  let s := skip_spaces s in
  let neg := starts_with 45 s in
  let '(z, rest) := digit_run base 0 (skip_0x base (if neg || starts_with 43 s then drop 1 s else s)) in
  (if z <? 2 ^ 64 then (if neg then u64 (- z) else z) else 2 ^ 64 - 1, rest).
Definition strtoul (base : Z) (s : list Z) : Z := fst (strtoul_end base s).

(** ** Comparison, search, output *)

Definition tolower (c : Z) : Z := if (65 <=? c) && (c <=? 90) then c + 32 else c.
(** [strncasecmp(a, b, n) == 0] *)
Definition same_nocase (n : nat) (a b : list Z) : bool :=
  str_eqb (map tolower (take n a)) (map tolower (take n b)).

(** [strstr(s, p)]: where [p] begins in [s] first. *)
Fixpoint find_in (s p : list Z) : option nat :=
  if is_prefix p s then Some O else
  match s with [] => None | _ :: l => S <$> find_in l p end.

(** [snprintf(dst, n, "%s", s)]: what [dst] holds. *)
Definition snprintf (n : nat) (s : list Z) : list Z := take (n - 1) s.

(** [%d] *)
Definition print_d (z : Z) : list Z :=
  if z <? 0 then 45 :: digits_of 10 20 (- z) else digits_of 10 20 z.

(** ** Formatted input *)

(** [%d]: the number and what stands behind it. *)
Definition scan_d (s : list Z) : option (Z * list Z) :=
  let s := skip_spaces s in
  let '(neg, s) := match s with
                   | c :: l => if c =? 45 then (true, l) else if c =? 43 then (false, l) else (false, s)
                   | [] => (false, s)
                   end in
  match digits_prefix s with
  | [] => None
  | ds =>
      let v := value_in 10 ds in
      Some (s32 (if neg then Z.max (- 2 ^ 63) (- v) else Z.min (2 ^ 63 - 1) v), drop (length ds) s)
  end.

(** [sscanf(s, "%d" c1 "%d" c2 ...)]: the numbers that were stored. *)
Fixpoint scan_ds (seps : list Z) (s : list Z) : list Z :=
  match scan_d s with
  | None => []
  | Some (z, rest) =>
      z :: match seps, rest with
           | c :: seps', b :: rest' => if b =? c then scan_ds seps' rest' else []
           | _, _ => []
           end
  end.

(** ** Tokens: what repeated calls of [strtok(s, c)] answer *)

Fixpoint tokens_from (c : Z) (cur : list Z) (s : list Z) : list (list Z) :=
  match s with
  | [] => match cur with [] => [] | _ => [cur] end
  | b :: l =>
      if b =? c then match cur with [] => tokens_from c [] l | _ => cur :: tokens_from c [] l end
      else tokens_from c (cur ++ [b]) l
  end.
Definition tokens (c : Z) (s : list Z) : list (list Z) := tokens_from c [] s.

(** The first token is what stands before the first separator. *)
Lemma tokens_from_app c a b : forall cur, Forall (fun x => x <> c) a -> a <> [] ->
  tokens_from c cur (a ++ c :: b) = (cur ++ a) :: tokens c b.
Proof.
  induction a as [|x a IH]; intros cur Ha Hn; [done|]. inversion Ha as [|? ? Hx Ha']; subst. cbn.
  destruct (Z.eqb_spec x c); [done|]. destruct a as [|y a].
  - cbn. rewrite Z.eqb_refl. by destruct cur.
  - rewrite IH by done. by rewrite <-app_assoc.
Qed.

Lemma tokens_from_last c a : forall cur, Forall (fun x => x <> c) a -> cur ++ a <> [] ->
  tokens_from c cur a = [cur ++ a].
Proof.
  induction a as [|x a IH]; intros cur Ha Hn; cbn; [rewrite app_nil_r in *; by destruct cur|].
  inversion Ha as [|? ? Hx Ha']; subst. destruct (Z.eqb_spec x c); [done|].
  rewrite IH; [by rewrite <-app_assoc|done|by destruct cur].
Qed.

(** ** Options *)

(** What follows an option letter in the option string of [getopt]. *)
Inductive takes : Type := NoArgument | Argument | OptionalArgument.

(** The options that repeated calls of [getopt] answer, with [optarg]; 63 is the
    question mark of a letter that is not known or lacks its argument.  Words
    that are no options are passed over. *)
Section Getopt.
Context (spec : Z -> option takes).

Fixpoint getopt (args : list (list Z)) : list (Z * option (list Z)) :=
  match args with
  | [] => []
  | a :: rest =>
      let cluster := fix cluster (cs : list Z) : list (Z * option (list Z)) :=
        match cs with
        | [] => getopt rest
        | c :: cs' =>
            match spec c with
            | None => (63, None) :: cluster cs'
            | Some NoArgument => (c, None) :: cluster cs'
            | Some OptionalArgument =>
                (c, match cs' with [] => None | _ => Some cs' end) :: getopt rest
            | Some Argument =>
                match cs' with
                | [] => match rest with
                        | [] => [(63, None)]
                        | b :: rest' => (c, Some b) :: getopt rest'
                        end
                | _ => (c, Some cs') :: getopt rest
                end
            end
        end in
      match a with
      | 45 :: c :: cs => if (c =? 45) && bool_decide (cs = []) then [] else cluster (c :: cs)
      | _ => getopt rest
      end
  end.
End Getopt.

(** ** Numbers that were printed *)

Lemma digits_head n : forall z, 0 < z < 10 ^ Z.of_nat n ->
  exists c l, digits_of 10 n z = c :: l /\ c <> 48.
Proof.
  induction n as [|n IH]; intros z Hz; [cbn in Hz; lia|]. cbn [digits_of].
  rewrite Nat2Z.inj_succ, Z.pow_succ_r in Hz by lia. destruct (Z.ltb_spec z 10).
  - cbn. exists (48 + z mod 10), []. rewrite Z.mod_small by lia. split; [done|lia].
  - destruct (IH (z / 10)) as (c & l & -> & Hc).
    { split; [apply Z.div_str_pos; lia|apply Z.div_lt_upper_bound; lia]. }
    by exists c, (l ++ [48 + z mod 10]).
Qed.

Lemma digits_prefix_all s : Forall (fun c => 48 <= c < 48 + 10) s -> digits_prefix s = s.
Proof.
  induction 1 as [|c s Hc _ IH]; cbn; [done|]. unfold isdigit.
  destruct (Z.leb_spec 48 c), (Z.leb_spec c 57); try lia. cbn. by rewrite IH.
Qed.

Definition digit (c : Z) : Prop := 48 <= c < 48 + 10.

Lemma digits_prefix_app s c rest : Forall digit s -> isdigit c = false ->
  digits_prefix (s ++ c :: rest) = s.
Proof.
  intros Hs Hc. induction Hs as [|b s Hb _ IH]; cbn [app digits_prefix]; [by rewrite Hc|].
  unfold digit in Hb. replace (isdigit b) with true by (unfold isdigit; lia). by rewrite IH.
Qed.

(** A number in decimal: digits, the first of which is no blank and no sign. *)
Lemma print_digits z : 0 <= z < 2 ^ 31 -> exists c l, print_d z = c :: l /\ Forall digit (c :: l) /\
  value_in 10 (c :: l) = z /\ (length (c :: l) <= 20)%nat.
Proof.
  intros Hz. destruct (digits_of_value 10 20 ltac:(lia) z ltac:(lia)) as (Hd & Hl & Hv).
  unfold print_d. destruct (Z.ltb_spec z 0); [lia|].
  destruct (digits_of 10 20 z) as [|c l] eqn:He; [|by exists c, l].
  apply (f_equal length) in He. cbn [digits_of] in He. rewrite length_app in He. cbn in He. lia.
Qed.

Lemma skip_digit c l : digit c -> skip_spaces (c :: l) = c :: l /\ (c =? 45) = false /\ (c =? 43) = false.
Proof.
  unfold digit. intros Hc. cbn [skip_spaces]. replace (isspace c) with false by (unfold isspace; lia).
  split; [done|]. lia.
Qed.

Lemma atoi_print z : 0 <= z < 2 ^ 31 -> atoi (print_d z) = z.
Proof.
  intros Hz. destruct (print_digits z Hz) as (c & l & -> & Hd & Hv & _).
  assert (Hc : digit c) by (by apply Forall_cons in Hd as [? _]).
  destruct (skip_digit c l Hc) as (Hs & H1 & H2). unfold atoi, strtol. rewrite Hs. cbn [starts_with].
  rewrite H1, H2, digits_prefix_all, Hv by done.
  unfold s32. rewrite Z.min_r, (Z.mod_small (z + 2 ^ 31)) by lia. lia.
Qed.

Lemma scan_d_print z c rest : 0 <= z < 2 ^ 31 -> isdigit c = false ->
  scan_d (print_d z ++ c :: rest) = Some (z, c :: rest).
Proof.
  intros Hz Hc. destruct (print_digits z Hz) as (d & l & -> & Hd & Hv & _).
  assert (Hd0 : digit d) by (by apply Forall_cons in Hd as [? _]).
  destruct (skip_digit d (l ++ c :: rest) Hd0) as (Hs & H1 & H2). unfold scan_d.
  cbn [app]. rewrite Hs, H1, H2. change (d :: l ++ c :: rest) with ((d :: l) ++ c :: rest).
  rewrite digits_prefix_app by done.
  rewrite Hv. f_equal. f_equal.
  - unfold s32. rewrite Z.min_r, (Z.mod_small (z + 2 ^ 31)) by lia. lia.
  - apply (drop_app_length (d :: l)).
Qed.

Lemma scan_d_last z : 0 <= z < 2 ^ 31 -> scan_d (print_d z) = Some (z, []).
Proof.
  intros Hz. destruct (print_digits z Hz) as (d & l & -> & Hd & Hv & _).
  assert (Hd0 : digit d) by (by apply Forall_cons in Hd as [? _]).
  destruct (skip_digit d l Hd0) as (Hs & H1 & H2). unfold scan_d.
  rewrite Hs, H1, H2, digits_prefix_all by done.
  rewrite Hv. f_equal. f_equal.
  - unfold s32. rewrite Z.min_r, (Z.mod_small (z + 2 ^ 31)) by lia. lia.
  - apply drop_all.
Qed.

(** ** Search *)

Lemma find_in_past p c rest s : p <> [] -> c ∉ s -> head p = Some c ->
  is_prefix p (c :: rest) = true -> find_in (s ++ c :: rest) p = Some (length s).
Proof.
  intros Hp Hc Hh Hr. induction s as [|b s IH]; cbn [app].
  - unfold find_in. by rewrite Hr.
  - apply not_elem_of_cons in Hc. destruct Hc as [Hb Hc]. destruct p as [|x p]; [done|].
    injection Hh as ->. cbn [find_in length]. rewrite (IH Hc). cbn [is_prefix fmap option_fmap option_map].
    by destruct (Z.eqb_spec c b).
Qed.
