(* ===== verification/FtpCmd.v ===== *)
(** The command loop of an FTP session: the socket helpers of
    qftp_server/src/sysutil.c and the reading, splitting and dispatching of a
    command line by [handle_child] (qftp_server/src/ftpproto.c). *)

From Stdlib Require Import ZArith Lia.
From stdpp Require Import base list.
From S2P Require Import Prelude Str.

Definition MAX_COMMAND_LINE : nat := 1024.
Definition MAX_COMMAND : nat := 32.
Definition MAX_ARG : nat := 1024.

(** A [recv] or [read] on the control connection: it finds that many bytes
    (at least one when the client sent more), is interrupted by a signal, or
    fails. *)
Inductive ready : Type := Ready (k : nat) | Interrupted | Failed.
Inductive sock : Type -> Type := Recv : sock ready.

(** [stream] is what the client sends before it waits for an answer; at its
    end the client has closed the connection.  The rest are the buffers of
    [session_t]. *)
Record session := Session {
  stream : list Z;
  cmdline : list Z;
  cmd : list Z;
  cmd_arg : list Z
}.
#[export] Instance eta_session : Eta session :=
  fun s => Session (stream s) (cmdline s) (cmd s) (cmd_arg s).

Abbreviation F := (M sock session).

(** One system call on the socket that stores at most [n] bytes at offset
    [off] of the command line: [None] for EINTR, else its result. *)
Definition recv_at (peek : bool) (off : nat) (n : Z) : F (option Z) :=
  r ← call Recv;
  match r with
  | Interrupted => mret None
  | Failed => mret (Some (-1))
  | Ready k =>
      s ← get;
      let got := take (Nat.min (Z.to_nat n) (Nat.max 1 k)) (stream s) in
      b ← of_option (wr off got (cmdline s));
      modify (fun s => s <| cmdline := b |>);;
      (if peek then mret tt else modify (fun s => s <| stream ::= drop (length got) |>));;
      mret (Some (len got))
  end.

(** [recv_peek(sockfd, bufp, nleft)] *)
Definition recv_peek (fuel : nat) (off : nat) (n : Z) : F Z :=
  iterM fuel (fun _ : unit =>
    r ← recv_at true off n;
    mret (match r with None => inl tt | Some ret => inr ret end)) tt.

(** [readn(fd, bufp, count)]: the state of the loop is [bufp] and [nleft]. *)
Definition readn_step (count : Z) (p : nat * Z) : F ((nat * Z) + Z) :=
  let '(bufp, nleft) := p in
  if (nleft <=? 0 : bool) then mret (inr count)
  else
    r ← recv_at false bufp nleft;
    match r with
    | None => mret (inl (bufp, nleft))
    | Some nread =>
        if (nread <? 0 : bool) then mret (inr (-1))
        else if (nread =? 0 : bool) then mret (inr (count - nleft))
        else mret (inl ((bufp + Z.to_nat nread)%nat, nleft - nread))
    end.
Definition readn (fuel : nat) (off : nat) (count : Z) : F Z :=
  iterM fuel (readn_step count) (off, count).

(** The first newline among the [n] bytes at [off]. *)
Fixpoint find_newline (l : list Z) : option nat :=
  match l with
  | [] => None
  | b :: l' => if b =? LF then Some O else S <$> find_newline l'
  end.

(** The loop of [readline]: [bufp] and [nleft]. *)
Definition readline_step (fuel : nat) (p : nat * Z) : F ((nat * Z) + Z) :=
  let '(bufp, nleft) := p in
  nread ← recv_peek fuel bufp nleft;
  if (nread <=? 0 : bool) then mret (inr nread)
  else
    s ← get;
    seen ← of_option (rd_bytes bufp (Z.to_nat nread) (cmdline s));
    match find_newline seen with
    | Some i =>
        ret ← readn fuel bufp (Z.of_nat i + 1);
        if (ret =? Z.of_nat i + 1 : bool) then mret (inr ret) else exit_ 1
    | None =>
        if (nleft <? nread : bool) then exit_ 1
        else
          ret ← readn fuel bufp nread;
          if (ret =? nread : bool)
          then mret (inl ((bufp + Z.to_nat nread)%nat, nleft - nread))
          else exit_ 1
    end.
Definition readline (fuel : nat) (maxline : Z) : F Z :=
  iterM fuel (readline_step fuel) (O, maxline).

(** ** The commands *)

Inductive handler : Type :=
| do_user | do_pass | do_cwd | do_cdup | do_quit | do_port | do_pasv | do_type
| do_retr | do_stor | do_appe | do_list | do_nlst | do_rest | do_abor | do_pwd
| do_mkd | do_rmd | do_dele | do_rnfr | do_rnto | do_site | do_syst | do_feat
| do_size | do_stat | do_noop | do_help.

(** The client's ABOR comes with telnet's IAC IP IAC DM in front. *)
Definition telnet_abor : list Z := [255; 244; 255; 242] ++ str "ABOR".

Definition ctrl_cmds_map : list (list Z * option handler) :=
  [(str "USER", Some do_user); (str "PASS", Some do_pass); (str "CWD", Some do_cwd);
   (str "XCWD", Some do_cwd); (str "CDUP", Some do_cdup); (str "XDUP", Some do_cdup);
   (str "QUIT", Some do_quit); (str "ACCT", None); (str "SMNT", None); (str "REIN", None);
   (str "PORT", Some do_port); (str "PASV", Some do_pasv); (str "TYPE", Some do_type);
   (str "STRU", None); (str "MODE", None);
   (str "RETR", Some do_retr); (str "STOR", Some do_stor); (str "APPE", Some do_appe);
   (str "LIST", Some do_list); (str "NLST", Some do_nlst); (str "REST", Some do_rest);
   (str "ABOR", Some do_abor); (telnet_abor, Some do_abor);
   (str "PWD", Some do_pwd); (str "XPWD", Some do_pwd); (str "MKD", Some do_mkd);
   (str "XMKD", Some do_mkd); (str "RMD", Some do_rmd); (str "XRMD", Some do_rmd);
   (str "DELE", Some do_dele); (str "RNFR", Some do_rnfr); (str "RNTO", Some do_rnto);
   (str "SITE", Some do_site); (str "SYST", Some do_syst); (str "FEAT", Some do_feat);
   (str "SIZE", Some do_size); (str "STAT", Some do_stat); (str "NOOP", Some do_noop);
   (str "HELP", Some do_help); (str "STOU", None); (str "ALLO", None)].

(** What a turn of [handle_child] comes to: a handler runs, or a reply. *)
Definition FTP_COMMANDNOTIMPL : Z := 502.
Definition FTP_BADCMD : Z := 500.
Inductive action : Type := Run (h : handler) | Reply (code : Z).

Definition dispatch (name : list Z) : action :=
  match list_find (fun e => e.1 = name) ctrl_cmds_map with
  | Some (_, (_, Some h)) => Run h
  | Some (_, (_, None)) => Reply FTP_COMMANDNOTIMPL
  | None => Reply FTP_BADCMD
  end.

(** A turn of the loop of [handle_child], up to the call of the handler. *)
Definition command (ret : Z) : F action :=
  if (ret =? -1 : bool) then exit_ 1
  else if (ret =? 0 : bool) then exit_ 0
  else
    s ← get;
    line ← of_option (str_trim_crlf (cmdline s));
    modify (fun s => s <| cmdline := line |>);;
    s ← get;
    '(c, a) ← of_option (str_split (cmdline s) (cmd s) (cmd_arg s) 32);
    c' ← of_option (str_upper c);
    modify (fun s => s <| cmd := c' |> <| cmd_arg := a |>);;
    name ← of_option (c_string 0 c');
    mret (dispatch name).

Definition handle_child (fuel : nat) : F action :=
  modify (fun s => s <| cmdline := replicate MAX_COMMAND_LINE 0 |>
                     <| cmd := replicate MAX_COMMAND 0 |> <| cmd_arg := replicate MAX_ARG 0 |>);;
  ret ← readline fuel (Z.of_nat MAX_COMMAND_LINE);
  command ret.
