(* ===== verification/FtpCmdProps.v ===== *)
(** What the command loop of an FTP session makes of the bytes it receives. *)

From Stdlib Require Import ZArith Lia.
From stdpp Require Import base list.
From S2P Require Import Prelude Str FtpCmd.

Section Reading.
Context (E : env sock) (K : nat).

(** The socket works: every call finds at least [K] bytes, if the client sent
    that many.  [K = 0] is no assumption. *)
Hypothesis HE : forall h, exists k, E _ h Recv = Ready k /\ (K <= k)%nat.

Abbreviation wld := (world sock session).
Implicit Types w : wld.

Lemma recv_at_runs peek off n st b c a w :
  loc w = Session st b c a -> st <> [] -> (0 < n)%nat -> (off + n <= length b)%nat ->
  runs E (recv_at peek off (Z.of_nat n)) w (fun r w' => exists j,
    r = Some (Z.of_nat j) /\ (0 < j <= n)%nat /\ (j <= length st)%nat /\
    (Nat.min n (Nat.min K (length st)) <= j)%nat /\
    loc w' = Session (if peek then st else drop j st) (put off (take j st) b) c a).
Proof.
  intros Hw Hst Hn Hb. unfold recv_at. rsteps. destruct (HE (hist w)) as (k & -> & Hk). rsteps.
  rewrite Hw. cbn [stream cmdline loc]. set (m := Nat.min (Z.to_nat (Z.of_nat n)) (Nat.max 1 k)).
  assert (Hl : length (take m st) = Nat.min m (length st)) by apply length_take.
  assert (Hst' : (0 < length st)%nat) by (destruct st; [done|cbn; lia]).
  eapply runs_of_option; [apply wr_fits; lia|]. rsteps.
  assert (Ht : take (length (take m st)) st = take m st)
    by (rewrite Hl; destruct (Nat.le_gt_cases m (length st));
        [by rewrite Nat.min_l by lia|rewrite Nat.min_r by lia; by rewrite !firstn_all2 by lia]).
  destruct peek; rsteps; exists (length (take m st)); rewrite Ht;
    (split; [done|]); (split; [lia|]); (split; [lia|]); (split; [lia|]); cbn; by rewrite ?Hw.
Qed.

Lemma recv_peek_runs fuel off n st b c a w :
  loc w = Session st b c a -> st <> [] -> (0 < n)%nat -> (off + n <= length b)%nat ->
  (0 < fuel)%nat ->
  runs E (recv_peek fuel off (Z.of_nat n)) w (fun r w' => exists j,
    r = Z.of_nat j /\ (0 < j <= n)%nat /\ (j <= length st)%nat /\
    (Nat.min n (Nat.min K (length st)) <= j)%nat /\
    loc w' = Session st (put off (take j st) b) c a).
Proof.
  intros Hw Hst Hn Hb Hf. unfold recv_peek. destruct fuel as [|fuel]; [lia|]. cbn [iterM]. rsteps.
  eapply runs_mono; [by eapply recv_at_runs|]. intros r w' (j & -> & H). rsteps. eauto.
Qed.

Lemma readn_step_runs count n off st b c a w :
  loc w = Session st b c a -> (0 < n)%nat -> (n <= length st)%nat -> (off + n <= length b)%nat ->
  runs E (readn_step count (off, Z.of_nat n)) w (fun r w' => exists j,
    r = inl ((off + j)%nat, Z.of_nat (n - j)) /\ (0 < j <= n)%nat /\
    loc w' = Session (drop j st) (put off (take j st) b) c a).
Proof.
  intros Hw Hn Hst Hb. unfold readn_step. destruct (Z.leb_spec (Z.of_nat n) 0); [lia|]. rsteps.
  eapply runs_mono; [eapply recv_at_runs; [done| |lia|done]; destruct st; [cbn in Hst; lia|done]|].
  intros r w' (j & -> & Hj & Hjl & _ & Hw'). destruct (Z.ltb_spec (Z.of_nat j) 0); [lia|].
  destruct (Z.eqb_spec (Z.of_nat j) 0); [lia|]. rsteps. rewrite Nat2Z.id.
  exists j. replace (Z.of_nat n - Z.of_nat j) with (Z.of_nat (n - j)) by lia. eauto.
Qed.

(** [readn] takes the bytes off the socket. *)
Lemma readn_runs count : forall n fuel off st b c a w,
  loc w = Session st b c a -> (n <= length st)%nat -> (off + n <= length b)%nat ->
  (n < fuel)%nat ->
  runs E (iterM fuel (readn_step count) (off, Z.of_nat n)) w (fun r w' =>
    r = count /\ loc w' = Session (drop n st) (put off (take n st) b) c a).
Proof.
  intros n. induction n as [n IH] using lt_wf_ind. intros fuel off st b c a w Hw Hst Hb Hf.
  destruct fuel as [|fuel]; [lia|]. cbn [iterM]. apply runs_bind.
  destruct (decide (n = 0%nat)) as [->|Hn].
  - unfold readn_step. rsteps. split; [done|]. rewrite Hw.
    unfold put. rewrite take_0, drop_0. cbn [length app]. by rewrite Nat.add_0_r, (take_drop off b).
  - eapply runs_mono; [eapply readn_step_runs; [done|lia|done..]|].
    intros r w' (j & -> & Hj & Hw').
    eapply runs_mono; [eapply (IH (n - j)%nat); [lia|exact Hw'| | |lia]|].
    + len.
    + rewrite length_put by len. lia.
    + intros r w1 [-> Hw1]. split; [done|]. rewrite Hw1, drop_drop.
      assert (Hp : put (off + j) (take (n - j) (drop j st)) (put off (take j st) b)
                   = put off (take n st) b).
      { assert (Hl : length (take j st) = j) by len.
        rewrite <-Hl at 1. rewrite put_put by len. f_equal.
        replace n with (j + (n - j))%nat at 2 by lia.
        by rewrite take_take_drop. }
      rewrite Hp. do 2 f_equal. lia.
Qed.

Lemma find_newline_none l : LF ∉ l -> find_newline l = None.
Proof.
  induction l as [|b l IH]; cbn; [done|]. intros [Hb Hl]%not_elem_of_cons.
  destruct (Z.eqb_spec b LF); [congruence|]. by rewrite IH.
Qed.
Lemma find_newline_first l r : LF ∉ l -> find_newline (l ++ LF :: r) = Some (length l).
Proof.
  induction l as [|b l IH]; cbn; [done|]. intros [Hb Hl]%not_elem_of_cons.
  destruct (Z.eqb_spec b LF); [congruence|]. by rewrite IH.
Qed.

(** What [readline] finds when it peeks, and what it then consumes. *)
Lemma peek_runs fuel u z st c a w (Hf : (0 < fuel)%nat) :
  loc w = Session st (u ++ replicate z 0) c a -> st <> [] -> (0 < z)%nat ->
  runs E (recv_peek fuel (length u) (Z.of_nat z)) w (fun r w' => exists j,
    r = Z.of_nat j /\ (0 < j <= z)%nat /\ (j <= length st)%nat /\
    (Nat.min z (Nat.min K (length st)) <= j)%nat /\
    loc w' = Session st (u ++ take j st ++ replicate (z - j) 0) c a).
Proof.
  intros Hw Hst Hz. eapply runs_mono; [apply (recv_peek_runs fuel (length u) z st _ c a w Hw Hst Hz); [len|done]|].
  intros r w' (j & -> & Hj & Hjl & HK & Hw'). exists j. do 4 (split; [done|]). rewrite Hw'.
  rewrite put_zeros by len. by rewrite length_take, Nat.min_l, <-app_assoc by lia.
Qed.

Lemma consume_runs n fuel u y st c a w :
  loc w = Session st (u ++ take n st ++ y) c a -> (n <= length st)%nat -> (n < fuel)%nat ->
  runs E (readn fuel (length u) (Z.of_nat n)) w (fun r w' =>
    r = Z.of_nat n /\ loc w' = Session (drop n st) (u ++ take n st ++ y) c a).
Proof.
  intros Hw Hn Hf. unfold readn. eapply runs_mono; [eapply readn_runs; [done|done|len|done]|].
  intros r w' [-> Hw']. split; [done|]. by rewrite Hw', put_id.
Qed.

(** The line is on the socket; [z] bytes of the command line are free. *)
Definition line_end (u pre post c a : list Z) (z : nat) w : Prop :=
  exists j x, x = take j post /\
    (length (pre ++ LF :: post) <= z -> length (pre ++ LF :: post) <= K -> x = post)%nat /\
    loc w = Session post (u ++ pre ++ LF :: x ++ replicate (z - (length pre + 1 + length x)) 0) c a.

Lemma readline_step_runs fuel post c a pre u z w :
  loc w = Session (pre ++ LF :: post) (u ++ replicate z 0) c a -> LF ∉ pre ->
  (length pre < z)%nat -> (z < fuel)%nat ->
  runs E (readline_step fuel (length u, Z.of_nat z)) w (fun r w' =>
    match r with
    | inr ret => 0 < ret /\ line_end u pre post c a z w'
    | inl p => exists j, (0 < j <= length pre)%nat /\
        p = (length (u ++ take j pre), Z.of_nat (z - j)) /\
        loc w' = Session (drop j pre ++ LF :: post) ((u ++ take j pre) ++ replicate (z - j) 0) c a
    end).
Proof.
  intros Hw Hlf Hz Hf. unfold readline_step. apply runs_bind. set (st := pre ++ LF :: post) in *.
  assert (Hst : length st = (length pre + 1 + length post)%nat) by (subst st; len).
  eapply runs_mono; [apply (peek_runs fuel u z st c a w); [lia|done|by subst st; destruct pre|lia]|].
  intros r w1 (j & -> & Hj & Hjl & HK & Hw1). destruct (Z.leb_spec (Z.of_nat j) 0); [lia|].
  rsteps. rewrite Hw1, Nat2Z.id. cbn [cmdline].
  assert (Hl : length (take j st) = j) by len.
  assert (Hs : slice (length u) j (u ++ take j st ++ replicate (z - j) 0) = take j st).
  { unfold slice. rewrite drop_app_length. by rewrite take_app_length' by lia. }
  eapply runs_of_option; [rewrite rd_bytes_fits by len; by rewrite Hs|].
  destruct (Nat.le_gt_cases j (length pre)) as [Hle|Hgt].
  - assert (Ht : take j st = take j pre) by (subst st; by rewrite take_app_le by lia).
    assert (Hp : pre = take j pre ++ drop j pre) by (by rewrite take_drop).
    rewrite Ht, find_newline_none by (rewrite Hp in Hlf; set_solver).
    destruct (Z.ltb_spec (Z.of_nat z) (Z.of_nat j)); [lia|]. rsteps.
    eapply runs_mono; [eapply consume_runs; [exact Hw1|lia|lia]|].
    intros r w2 [-> Hw2]. destruct (Z.eqb_spec (Z.of_nat j) (Z.of_nat j)); [|done]. rsteps.
    exists j. split; [lia|]. split.
    + rewrite length_app, length_take, Nat.min_l, ?Nat2Z.id by lia. f_equal. lia.
    + rewrite Hw2, Ht, <-app_assoc. subst st. by rewrite drop_app_le by lia.
  - set (x := take (j - (length pre + 1)) post).
    assert (Ht : take j st = pre ++ LF :: x).
    { subst st x. rewrite take_app_ge by lia. f_equal.
      replace (j - length pre)%nat with (S (j - (length pre + 1))) by lia. done. }
    rewrite Ht, find_newline_first by done. rsteps.
    replace (Z.of_nat (length pre) + 1) with (Z.of_nat (length pre + 1)) by lia.
    assert (Ht1 : take (length pre + 1) st = pre ++ [LF]).
    { subst st. rewrite take_app_add. done. }
    eapply runs_mono; [apply (consume_runs (length pre + 1) fuel u
      (x ++ replicate (z - j) 0) st c a); [|lia|lia]|].
    { rewrite Hw1, Ht, Ht1. by rewrite <-!app_assoc. }
    intros r w2 [-> Hw2]. rewrite Z.eqb_refl. rsteps. split; [lia|].
    exists (j - (length pre + 1))%nat, x. split; [done|].
    assert (Hx : length x = (j - (length pre + 1))%nat) by (subst x; len). split.
    + fold st. intros H1 H2. subst x. apply firstn_all2. lia.
    + rewrite Hw2, Ht1. subst st. rewrite drop_app_add. cbn [drop].
      replace (z - (length pre + 1 + length x))%nat with (z - j)%nat by lia.
      by rewrite <-!app_assoc.
Qed.

(** [readline] takes one line off the socket, but the command line also holds
    what it peeked of the bytes [post] that follow the line. *)
Lemma readline_runs fuel post c a : forall m pre fuel' u z w, m = length pre ->
  loc w = Session (pre ++ LF :: post) (u ++ replicate z 0) c a -> LF ∉ pre ->
  (length pre < z)%nat -> (z < fuel)%nat -> (length pre < fuel')%nat ->
  runs E (iterM fuel' (readline_step fuel) (length u, Z.of_nat z)) w (fun r w' =>
    0 < r /\ line_end u pre post c a z w').
Proof.
  intros m. induction m as [m IH] using lt_wf_ind. intros pre fuel' u z w Hm Hw Hlf Hz Hf Hf'.
  destruct fuel' as [|fuel']; [lia|]. cbn [iterM]. apply runs_bind.
  eapply runs_mono; [by apply (readline_step_runs fuel post c a pre u z)|].
  intros [p|ret] w1 Hr; [|by rsteps]. destruct Hr as (j & Hj & -> & Hw1).
  assert (Hp : pre = take j pre ++ drop j pre) by (by rewrite take_drop).
  eapply runs_mono; [apply (IH (length (drop j pre)) ltac:(len) (drop j pre));
    [done|exact Hw1|rewrite Hp in Hlf; set_solver|len|lia|len]|].
  intros r w3 (Hr & j' & x & Hx & Hall & Hw3). split; [done|]. exists j', x. split; [done|]. split.
  - intros H1 H2. apply Hall; rewrite length_app in *; cbn [length] in *; len.
  - rewrite Hw3, length_drop. rewrite <-!app_assoc, (app_assoc (take j pre)), take_drop.
    by replace (z - j - (length pre - j + 1 + length x))%nat
      with (z - (length pre + 1 + length x))%nat by lia.
Qed.

(** [handle_child] reads a line, and what follows is [command]. *)
Lemma handle_child_reads fuel pre post w :
  stream (loc w) = pre ++ LF :: post -> LF ∉ pre ->
  (length pre < MAX_COMMAND_LINE < fuel)%nat ->
  exists r w', handle_child fuel E w = command r E w' /\ 0 < r /\
    line_end [] pre post (replicate MAX_COMMAND 0) (replicate MAX_ARG 0) MAX_COMMAND_LINE w'.
Proof.
  intros Hs Hlf Hl.
  pose proof (readline_runs fuel post (replicate MAX_COMMAND 0) (replicate MAX_ARG 0)
    (length pre) pre fuel [] MAX_COMMAND_LINE
    (World (Session (stream (loc w)) (replicate MAX_COMMAND_LINE 0) (replicate MAX_COMMAND 0)
       (replicate MAX_ARG 0)) (hist w)) eq_refl) as H.
  destruct (runs_ends _ _ _ _ (H ltac:(by rewrite Hs) Hlf ltac:(lia) ltac:(lia) ltac:(lia)))
    as (r & w' & Ed & Hr & He). exists r, w'. split; [|done].
  unfold handle_child, readline, mbind, M_bind, modify.
  etransitivity; [|exact (f_equal (fun o => match o with Done a w' => command a E w'
    | Exit c w' => Exit c w' | Undef => Undef | NoFuel => NoFuel end) Ed)]. done.
Qed.

(** What [command] makes of a terminated command line. *)
Lemma command_runs r w line nul nul' verb arg :
  0 < r -> cmdline (loc w) = line ++ 0 :: nul -> cmd (loc w) = replicate MAX_COMMAND 0 ->
  cmd_arg (loc w) = replicate MAX_ARG 0 ->
  str_trim_crlf (line ++ 0 :: nul) =
    Some ((verb ++ match arg with None => [] | Some a => 32 :: a end) ++ 0 :: nul') ->
  32 ∉ verb -> no_nul (verb ++ match arg with None => [] | Some a => 32 :: a end) ->
  (length verb < MAX_COMMAND)%nat ->
  (length (match arg with None => [] | Some a => a end) < MAX_ARG)%nat ->
  runs E (command r) w (fun act w' => act = dispatch (map toupper verb) /\
    c_string 0 (cmd_arg (loc w')) = Some (match arg with None => [] | Some a => a end) /\
    stream (loc w') = stream (loc w)).
Proof.
  intros Hr Hline Hcmd Harg Ht Hv Hn Hlv Hla. unfold command.
  destruct (Z.eqb_spec r (-1)), (Z.eqb_spec r 0); try lia. rsteps. rewrite Hline.
  eapply runs_of_option; [exact Ht|]. rsteps. cbn [loc cmdline cmd cmd_arg set_field].
  rewrite Hcmd, Harg.
  assert (Hverb : no_nul verb) by (by destruct (proj1 (Forall_app _ _ _) Hn)).
  assert (Hup : no_nul (map toupper verb)).
  { apply Forall_map. eapply Forall_impl; [exact Hverb|]. cbn. unfold toupper. intros b Hb.
    destruct ((97 <=? b) && (b <=? 122)) eqn:Hc; [apply andb_prop in Hc|]; lia. }
  assert (Hsplit : exists l' r', str_split ((verb ++ match arg with None => [] | Some a => 32 :: a end)
      ++ 0 :: nul') (replicate MAX_COMMAND 0) (replicate MAX_ARG 0) 32 = Some (verb ++ 0 :: l', r') /\
      c_string 0 r' = Some (match arg with None => [] | Some a => a end)).
  { destruct arg as [a|].
    - rewrite <-app_assoc. cbn [app]. rewrite str_split_cleared by done.
      do 2 eexists. split; [done|]. apply c_string_in. split; [|eauto].
      apply Forall_app in Hn. destruct Hn as [_ Hn]. apply Forall_cons in Hn. by destruct Hn.
    - rewrite app_nil_r. rewrite str_split_no_sep by done. do 2 eexists. split; [done|]. reflexivity. }
  destruct Hsplit as (l' & r' & Hsplit & Har).
  eapply runs_of_option; [exact Hsplit|]. cbn beta iota. rsteps.
  eapply runs_of_option; [by apply str_upper_string|]. rsteps.
  eapply runs_of_option; [apply c_string_in; split; [done|eauto]|]. rsteps. done.
Qed.

(** The text of a command without its line end. *)
Definition text (verb : list Z) (arg : option (list Z)) : list Z :=
  verb ++ match arg with None => [] | Some a => 32 :: a end.
Lemma length_text verb a : length (text verb (Some a)) = (length verb + 1 + length a)%nat.
Proof. unfold text. rewrite length_app. cbn. lia. Qed.
Definition plain (s : list Z) : Prop := Forall (fun b => b <> 0 /\ b <> CR /\ b <> LF) s.

Lemma plain_last s : plain s -> s <> [] -> exists s' c, s = s' ++ [c] /\ is_crlf c = false.
Proof.
  intros Hp Hs. destruct (exists_last Hs) as (s' & c & ->). exists s', c. split; [done|].
  apply Forall_app in Hp. destruct Hp as [_ Hp]. apply Forall_cons in Hp.
  destruct Hp as [(? & ? & ?) _]. unfold is_crlf.
  by destruct (Z.eqb_spec c CR), (Z.eqb_spec c LF).
Qed.

(** Trimming a line of which the text ends in an ordinary character. *)
Lemma trim_text s x rest : no_nul (s ++ x) -> plain x -> x <> [] ->
  str_trim_crlf ((s ++ x ++ [CR; LF]) ++ 0 :: rest) = Some ((s ++ x) ++ 0 :: [0; 0] ++ rest).
Proof.
  intros Hn Hp Hx. destruct (plain_last _ Hp Hx) as (x' & c & -> & Hc).
  pose proof (str_trim_crlf_line (s ++ x') c [CR; LF] rest) as H.
  rewrite <-!app_assoc in *. cbn [app length replicate] in *. rewrite H; [done| |by repeat constructor|done].
  apply Forall_app in Hn. destruct Hn as [H1 H2]. apply Forall_app in H2. destruct H2 as [H2 H3].
  apply Forall_cons in H3. destruct H3 as [H3 _].
  repeat first [apply Forall_app; split | apply Forall_cons; split | done].
Qed.

Lemma plain_no_nul s : plain s -> no_nul s.
Proof. intros H. eapply Forall_impl; [exact H|]. by intros b [? _]. Qed.
Lemma plain_no_lf s : plain s -> LF ∉ s.
Proof. intros Hp Hin. unfold plain in Hp. rewrite Forall_forall in Hp. by apply Hp in Hin as (_ & _ & ?). Qed.

(** C25: Whatever pieces the line of a command arrives in, [handle_child] runs the
    handler of the table for its verb, in any case, or answers 502 or 500 for
    a verb that is not implemented or unknown, with the argument that the
    client sent, and consumes the line.  The line is alone on the socket, has no NUL and no line
    end within it, a verb that is not empty, has no blank and is shorter than its buffer, and no read of it is
    interrupted; without that see [pipelined_commands_merge] and [hostile_lines_undefined]. *)
Theorem command_line_correct verb arg fuel w
    (Hs : stream (loc w) = text verb arg ++ [CR; LF]) (Hp : plain (text verb arg))
    (Hne : verb <> []) (Hv : 32 ∉ verb) (Hlv : (length verb < MAX_COMMAND)%nat)
    (Hl : (length (text verb arg) + 2 < MAX_COMMAND_LINE < fuel)%nat) :
  runs E (handle_child fuel) w (fun act w' => act = dispatch (map toupper verb) /\
    c_string 0 (cmd_arg (loc w')) = Some (match arg with None => [] | Some a => a end) /\
    stream (loc w') = []).
Proof.
  destruct (handle_child_reads fuel (text verb arg ++ [CR]) [] w) as (r & w' & Eq & Hr & Hend).
  - rewrite Hs. by rewrite <-app_assoc.
  - pose proof (plain_no_lf _ Hp). intros [?|?%list_elem_of_singleton]%elem_of_app; done.
  - rewrite length_app. cbn. lia.
  - unfold runs. rewrite Eq. destruct Hend as (j & x & -> & _ & Hw').
    rewrite take_nil in Hw'. cbn [app length] in Hw'.
    set (z := (_ - _)%nat) in Hw'. assert (Hz : z = S (z - 1)).
    { subst z. rewrite length_app. cbn [length]. unfold MAX_COMMAND_LINE in *. lia. }
    rewrite Hz in Hw'. cbn [replicate] in Hw'.
    pose proof (trim_text [] (text verb arg) (replicate (z - 1) 0)) as Ht. cbn [app] in Ht.
    eapply runs_mono; [eapply (command_runs r w' (text verb arg ++ [CR; LF]) _ _ verb arg);
      [done| | | |apply Ht|done|by apply plain_no_nul|done|]|].
    all: try (rewrite Hw'; cbn [stream cmdline cmd cmd_arg]; by rewrite <-?app_assoc).
    + apply plain_no_nul. by rewrite ?app_nil_r.
    + done.
    + by destruct verb.
    + unfold text in Hl. rewrite length_app in Hl. unfold MAX_ARG, MAX_COMMAND_LINE in *.
      destruct arg; cbn [length] in *; lia.
Qed.

(** A client that sends its next command without waiting for the reply gets
    its first command run with the second one in its argument: the peek of
    [readline] leaves the second line in the command line.  The second command
    is still on the socket, and is run again. *)
Theorem pipelined_commands_merge verb arg verb2 arg2 fuel w
    (Hs : stream (loc w) = text verb (Some arg) ++ CR :: LF :: text verb2 arg2 ++ [CR; LF])
    (HK : (length (stream (loc w)) <= K)%nat)
    (Hp : plain (text verb (Some arg))) (Hp2 : plain (text verb2 arg2)) (Hne : verb2 <> [])
    (Hv : 32 ∉ verb) (Hlv : (length verb < MAX_COMMAND)%nat)
    (Hl : (length (stream (loc w)) < MAX_COMMAND_LINE < fuel)%nat) :
  runs E (handle_child fuel) w (fun act w' => act = dispatch (map toupper verb) /\
    c_string 0 (cmd_arg (loc w')) = Some (arg ++ CR :: LF :: text verb2 arg2) /\
    stream (loc w') = text verb2 arg2 ++ [CR; LF]).
Proof.
  assert (Htot : length ((text verb (Some arg) ++ [CR]) ++ LF :: text verb2 arg2 ++ [CR; LF])
                 = length (stream (loc w))) by (rewrite Hs, <-app_assoc; done).
  assert (Hlen : length (stream (loc w)) =
    (length verb + 1 + length arg + 2 + length (text verb2 arg2) + 2)%nat).
  { rewrite <-Htot. unfold text at 1. rewrite !length_app. cbn [length]. rewrite length_app. cbn [length]. lia. }
  destruct (handle_child_reads fuel (text verb (Some arg) ++ [CR]) (text verb2 arg2 ++ [CR; LF]) w)
    as (r & w' & Eq & Hr & Hend).
  - rewrite Hs. by rewrite <-app_assoc.
  - pose proof (plain_no_lf _ Hp). intros [?|?%list_elem_of_singleton]%elem_of_app; done.
  - unfold text. rewrite !length_app. cbn [length]. lia.
  - unfold runs. rewrite Eq. destruct Hend as (j & x & _ & Hx & Hw').
    rewrite Htot in Hx. rewrite Hx in Hw' by lia.
    cbn [app] in Hw'. set (z := (_ - _)%nat) in Hw'. assert (Hz : z = S (z - 1)).
    { subst z. rewrite !length_app, length_text. cbn [length]. lia. }
    rewrite Hz in Hw'. cbn [replicate] in Hw'.
    pose proof (trim_text (text verb (Some arg) ++ [CR; LF]) (text verb2 arg2) (replicate (z - 1) 0)) as Ht.
    assert (Hnn : no_nul ((text verb (Some arg) ++ [CR; LF]) ++ text verb2 arg2)).
    { apply Forall_app. split; [apply Forall_app; split|by apply plain_no_nul].
      - by apply plain_no_nul.
      - by repeat constructor. }
    eapply runs_mono; [eapply (command_runs r w' ((text verb (Some arg) ++ [CR; LF]) ++
      text verb2 arg2 ++ [CR; LF]) _ ([0; 0] ++ replicate (z - 1) 0)
      verb (Some (arg ++ CR :: LF :: text verb2 arg2)));
      [done| | | | |done| |done|]|].
    + rewrite Hw'. cbn [cmdline]. by rewrite <-!app_assoc.
    + by rewrite Hw'.
    + by rewrite Hw'.
    + rewrite Ht; [|done|done|by destruct verb2]. unfold text. cbn [app]. rewrite <-!app_assoc. cbn [app]. by rewrite <-?app_assoc; cbn [app]; rewrite <-?app_assoc.
    + unfold text in Hnn. rewrite <-!app_assoc in Hnn. exact Hnn.
    + rewrite length_app. cbn [length]. unfold MAX_ARG, MAX_COMMAND_LINE in *. lia.
    + intros act w1 (-> & Hc & Hst). split; [done|]. split; [done|]. by rewrite Hst, Hw'.
Qed.

Lemma command_trim_undef r w : 0 < r -> str_trim_crlf (cmdline (loc w)) = None ->
  command r E w = Undef.
Proof.
  intros Hr Ht. unfold command. destruct (Z.eqb_spec r (-1)), (Z.eqb_spec r 0); try lia.
  unfold mbind, M_bind, get. by rewrite Ht.
Qed.

Lemma command_split_undef r w line : 0 < r -> str_trim_crlf (cmdline (loc w)) = Some line ->
  str_split line (cmd (loc w)) (cmd_arg (loc w)) 32 = None -> command r E w = Undef.
Proof.
  intros Hr Ht Hs. unfold command. destruct (Z.eqb_spec r (-1)), (Z.eqb_spec r 0); try lia.
  unfold mbind, M_bind, get. rewrite Ht. cbn. unfold mbind in Hs. cbn in Hs. by rewrite Hs.
Qed.

(** Two lines make the command loop leave its buffers: an empty line (the
    trimming runs past the beginning of the command line) and a line whose
    first word is longer than [sess->cmd], which holds 32 bytes. *)
Theorem hostile_lines_undefined fuel w (Hf : (MAX_COMMAND_LINE < fuel)%nat)
    (Hs : stream (loc w) = [CR; LF] \/
          exists verb arg, stream (loc w) = text verb (Some arg) ++ [CR; LF] /\
            plain (text verb (Some arg)) /\ (32 ∉ verb) /\ (MAX_COMMAND < length verb)%nat /\
            (length (stream (loc w)) < MAX_COMMAND_LINE)%nat) :
  handle_child fuel E w = Undef.
Proof.
  destruct Hs as [Hs|(verb & arg & Hs & Hp & Hv & Hlong & Hl)].
  - destruct (handle_child_reads fuel [CR] [] w Hs ltac:(by intros ?%list_elem_of_singleton))
      as (r & w' & Eq & Hr & j & x & -> & _ & Hw'); [cbn; unfold MAX_COMMAND_LINE in *; lia|].
    rewrite take_nil in Hw'. cbn [app length] in Hw'. rewrite Eq.
    apply command_trim_undef; [done|]. rewrite Hw'. cbn [cmdline].
    apply (str_trim_crlf_blank [CR; LF]); by repeat constructor.
  - destruct (handle_child_reads fuel (text verb (Some arg) ++ [CR]) [] w)
      as (r & w' & Eq & Hr & j & x & -> & _ & Hw').
    + rewrite Hs. by rewrite <-app_assoc.
    + pose proof (plain_no_lf _ Hp). intros [?|?%list_elem_of_singleton]%elem_of_app; done.
    + rewrite Hs in Hl. rewrite length_app in *. cbn [length] in *. lia.
    + rewrite take_nil in Hw'. cbn [app length] in Hw'. rewrite Eq.
      set (z := (_ - _)%nat) in Hw'. assert (Hz : z = S (z - 1)).
      { subst z. rewrite Hs in Hl. rewrite length_app in *. cbn [length] in *. lia. }
      rewrite Hz in Hw'. cbn [replicate] in Hw'.
      eapply command_split_undef; [done| |].
      * rewrite Hw'. cbn [cmdline]. rewrite <-!app_assoc.
        pose proof (trim_text [] (text verb (Some arg)) (replicate (z - 1) 0)) as Ht.
        cbn [app] in Ht. rewrite <-!app_assoc in Ht. apply Ht; [by apply plain_no_nul|done|].
        by destruct verb.
      * rewrite Hw'. cbn [cmd cmd_arg]. unfold text. rewrite <-app_assoc. cbn [app].
        apply str_split_overflow; [done|by apply plain_no_nul|by rewrite length_replicate].
Qed.
End Reading.

(** ** Concrete clients *)

(** The bytes arrive one by one, or all at once. *)
Definition drip : env sock := fun A _ c => match c with Recv => Ready 1 end.
Definition burst : env sock := fun A _ c => match c with Recv => Ready 2000 end.

Definition client (l : list Z) : world sock session := World (Session l [] [] []) [].

Ltac plain_text :=
  unfold plain, CR, LF; cbn; repeat (constructor; [split_and!; discriminate|]); constructor.
Ltac no_space := cbn; rewrite !elem_of_cons, elem_of_nil; lia.

Lemma command_line_correct_witness :
  runs drip (handle_child 1025) (client (str "retr log.bin" ++ [CR; LF])) (fun act w' =>
    act = Run do_retr /\ c_string 0 (cmd_arg (loc w')) = Some (str "log.bin") /\
    stream (loc w') = []).
Proof.
  refine (command_line_correct drip 0 _ (str "retr") (Some (str "log.bin")) 1025 _ _ _ _ _ _ _).
  - intros h. exists 1%nat. split; [reflexivity|lia].
  - reflexivity.
  - plain_text.
  - discriminate.
  - no_space.
  - cbn. unfold MAX_COMMAND. lia.
  - cbn. unfold MAX_COMMAND_LINE. lia.
Defined.

Lemma pipelined_commands_merge_witness :
  runs burst (handle_child 1025) (client (str "DELE a" ++ [CR; LF] ++ str "QUIT" ++ [CR; LF]))
    (fun act w' => act = Run do_dele /\
       c_string 0 (cmd_arg (loc w')) = Some (str "a" ++ [CR; LF] ++ str "QUIT") /\
       stream (loc w') = str "QUIT" ++ [CR; LF]).
Proof.
  refine (pipelined_commands_merge burst 2000 _ (str "DELE") (str "a") (str "QUIT") None 1025
    _ _ _ _ _ _ _ _ _).
  - intros h. exists 2000%nat. split; [reflexivity|lia].
  - reflexivity.
  - cbn. lia.
  - plain_text.
  - plain_text.
  - discriminate.
  - no_space.
  - cbn. unfold MAX_COMMAND. lia.
  - cbn. unfold MAX_COMMAND_LINE. lia.
Defined.

(** A first word of 40 letters. *)
Definition long_word : list Z := replicate 40 65.

Lemma hostile_lines_undefined_witness :
  handle_child 1025 drip (client (text long_word (Some [66]) ++ [CR; LF])) = Undef /\
  handle_child 1025 drip (client [CR; LF]) = Undef.
Proof.
  split.
  - apply (hostile_lines_undefined drip 0).
    + intros h. exists 1%nat. split; [reflexivity|lia].
    + unfold MAX_COMMAND_LINE. lia.
    + right. exists long_word, [66]. split; [reflexivity|]. split; [plain_text|].
      split; [no_space|]. split; cbn; unfold MAX_COMMAND, MAX_COMMAND_LINE; lia.
  - apply (hostile_lines_undefined drip 0).
    + intros h. exists 1%nat. split; [reflexivity|lia].
    + unfold MAX_COMMAND_LINE. lia.
    + by left.
Defined.
