(* ===== verification/FtpSys.v ===== *)
(** The system interface of an FTP session and what stands directly on it:
    the helpers of qftp_server/src/sysutil.c, the messages between the session
    and its privileged helper (privsock.c) and the helper itself (privparent.c).

    The two processes are connected by a pair of sockets that holds what one
    has sent and the other has not read.  Each waits only when it reads, so the
    helper is run where the session waits for it. *)

From Stdlib Require Import ZArith Lia.
From stdpp Require Import base list.
From S2P Require Import Prelude Str.

(** What can interrupt a transfer: out-of-band data with the line that
    follows it, or the alarm. *)
Inductive signal : Type := NoSignal | SigUrg (line : list Z) | SigAlrm.

(** File attributes: [st_mode], [st_nlink], [st_uid], [st_gid], [st_size], [st_mtime]. *)
Record fstat_t : Type := Fstat_t {
  st_mode : Z; st_nlink : Z; st_uid : Z; st_gid : Z; st_size : Z; st_mtime : Z
}.

(** The system calls.  An answer [(r, e)] is a result and [errno]; [Local]
    is what an array on the stack holds before it is written. *)
Inductive fsys : Type -> Type :=
| Write (fd : Z) (buf : list Z) : fsys (Z * Z)
| Read (fd n : Z) : fsys (option (list Z) * Z)
| Open (path : list Z) (create : bool) : fsys Z
| Setlk (fd ty : Z) : fsys (Z * Z)
| FstatCall (fd : Z) : fsys (Z * fstat_t)
| Lseek (fd off whence : Z) : fsys Z
| Ftruncate (fd : Z) : fsys Z
| Sendfile (out_fd in_fd n : Z) : fsys Z
| Close (fd : Z) : fsys unit
| StatCall (path : list Z) : fsys (option fstat_t)
| Lstat (path : list Z) : fsys (option fstat_t)
| Readlink (path : list Z) (n : Z) : fsys (option (list Z))
| Chdir (path : list Z) : fsys Z
| Mkdir (path : list Z) : fsys Z
| Rmdir (path : list Z) : fsys Z
| Unlink (path : list Z) : fsys Z
| Rename (old new : list Z) : fsys Z
| Chmod (path : list Z) (mode : Z) : fsys Z
| Getcwd (n : Z) : fsys (option (list Z))
| Opendir : fsys (option (list (list Z)))
| Umask (mode : Z) : fsys unit
| Getpwnam (name : list Z) : fsys (option Z)
| Getpwuid (uid : Z) : fsys (option (list Z * Z * Z * list Z))
| Getspnam (name : list Z) : fsys (option (list Z))
| Crypt (key salt : list Z) : fsys (option (list Z))
| Setegid (gid : Z) : fsys Z
| Seteuid (uid : Z) : fsys Z
| Setown : fsys Z
| Shutdown (fd how : Z) : fsys unit
| Alarm (secs : Z) : fsys unit
| Gettimeofday : fsys (option (Z * Z))
| Strftime (format : list Z) (t : Z) : fsys (list Z)
| Nanosleep (usec : Z) : fsys unit
| Pending : fsys signal
| Malloc (n : Z) : fsys bool
| Local (n : nat) : fsys (nat -> Z)
| Socket : fsys Z
| Setsockopt (fd : Z) : fsys unit
| Inet_pton (host : list Z) : fsys (option (list Z))
| Gethostbyname (host : list Z) : fsys (option (list Z))
| Bind (fd : Z) (addr port : list Z) : fsys Z
| Listen (fd : Z) : fsys unit
| Getsockname (fd : Z) : fsys (option Z)
| Getflags (fd : Z) : fsys Z
| Setflags (fd flags : Z) : fsys Z
| Accept (fd : Z) : fsys Z
| Connect (fd : Z) (ip : list Z) (port : Z) : fsys (Z * Z)
| Select (write : bool) (fd secs : Z) : fsys (Z * Z)
| Getsockopt (fd : Z) : fsys (option Z)
| LocalIp : fsys (option (list Z)).

(** What stands on the socket pair: a byte, or the byte that carries a
    descriptor. *)
Inductive item : Type := Byte (b : Z) | Passed (fd : Z).
Definition byte_of (i : item) : Z := match i with Byte b => b | Passed _ => 0 end.

(** [session_t], with [cmd_arg] as the string it holds, [port_addr] as the
    bytes of sin_port and sin_addr; then the helper's [pasv_listen_fd], and
    the two directions of the socket pair. *)
Record sess : Type := Sess {
  uid : Z;
  ctrl_fd : Z;
  cmd_arg : list Z;
  port_addr : option (list Z * list Z);
  data_fd : Z;
  data_process : Z;
  bw_upload_rate_max : Z;
  bw_download_rate_max : Z;
  bw_transfer_start_sec : Z;
  bw_transfer_start_usec : Z;
  is_ascii : Z;
  restart_pos : Z;
  rnfr_name : option (list Z);
  abor_received : Z;
  num_clients : Z;
  pasv_listen_fd : Z;
  to_helper : list Z;
  from_helper : list item;
}.
#[export] Instance eta_sess : Eta sess := fun s =>
  Sess (uid s) (ctrl_fd s) (cmd_arg s) (port_addr s) (data_fd s) (data_process s)
    (bw_upload_rate_max s) (bw_download_rate_max s) (bw_transfer_start_sec s)
    (bw_transfer_start_usec s) (is_ascii s) (restart_pos s) (rnfr_name s)
    (abor_received s) (num_clients s) (pasv_listen_fd s) (to_helper s) (from_helper s).

Abbreviation X := (M fsys sess).

(** The settings the session reads (tunable.c), and [g_local_ip]. *)
Record settings : Type := Settings {
  tunable_local_umask : Z;
  tunable_idle_session_timeout : Z;
  tunable_data_connection_timeout : Z;
  tunable_connect_timeout : Z;
  tunable_accept_timeout : Z;
  g_local_ip : list Z;
}.

Definition EXIT_FAILURE : Z := 1.
Definition EINTR : Z := 4.
Definition EINPROGRESS : Z := 115.

(** Decimal numbers as [printf] writes them, and padding. *)
Definition dec (z : Z) : list Z :=
  if z <? 0 then 45 :: digits_of 10 20 (- z) else digits_of 10 20 z.
Definition pad_left (n : nat) (s : list Z) : list Z := replicate (n - length s) 32 ++ s.
Definition pad_right (n : nat) (s : list Z) : list Z := s ++ replicate (n - length s) 32.

(** A string that is printed or copied into an array of [n] bytes. *)
Definition fits (n : Z) (s : list Z) : option (list Z) := if len s <? n then Some s else None.

(** ** sysutil.c *)

Definition writen (fuel : nat) (fd : Z) (buf : list Z) : X Z :=
  iterM fuel (fun rest : list Z =>
    match rest with
    | [] => mret (inr (len buf))
    | _ =>
        '(n, errno) ← call (Write fd rest);
        if n <? 0 then
          if errno =? EINTR then mret (inl rest) else mret (inr (-1))
        else mret (inl (drop (Z.to_nat n) rest))
    end) buf.

(** [do ret = select(..) while (ret < 0 && errno == EINTR)] *)
Definition select_retry (fuel : nat) (write : bool) (fd secs : Z) : X Z :=
  iterM fuel (fun _ : unit =>
    '(ret, errno) ← call (Select write fd secs);
    mret (if (ret <? 0) && (errno =? EINTR) then inl tt else inr ret)) tt.

Definition wait_ready (fuel : nat) (write : bool) (fd wait_seconds : Z) : X Z :=
  if 0 <? wait_seconds then
    ret ← select_retry fuel write fd wait_seconds;
    mret (if ret =? 0 then -1 else if ret =? 1 then 0 else ret)
  else mret 0.
Definition read_timeout (fuel : nat) (fd wait_seconds : Z) : X Z :=
  wait_ready fuel false fd wait_seconds.
Definition write_timeout (fuel : nat) (fd wait_seconds : Z) : X Z :=
  wait_ready fuel true fd wait_seconds.

Definition accept_timeout (fuel : nat) (fd wait_seconds : Z) : X Z :=
  ready ← (if 0 <? wait_seconds then
             ret ← select_retry fuel false fd wait_seconds;
             mret (negb ((ret =? -1) || (ret =? 0)))
           else mret true);
  if (ready : bool) then call (Accept fd) else mret (-1).

Definition O_NONBLOCK : Z := 2048.
Definition change_flags (fd : Z) (f : Z -> Z) : X unit :=
  flags ← call (Getflags fd);
  if flags =? -1 then exit_ EXIT_FAILURE else
  ret ← call (Setflags fd (f flags));
  if ret =? -1 then exit_ EXIT_FAILURE else mret tt.
Definition activate_nonblock (fd : Z) : X unit := change_flags fd (fun f => Z.lor f O_NONBLOCK).
Definition deactivate_nonblock (fd : Z) : X unit :=
  change_flags fd (fun f => Z.land f (Z.lnot O_NONBLOCK)).

(** The part after a connection that is in progress; [inr] returns at once. *)
Definition finish_connect (fuel : nat) (fd wait_seconds : Z) : X (Z + Z) :=
  ret ← select_retry fuel true fd wait_seconds;
  if ret =? 0 then mret (inl (-1))
  else if ret <? 0 then mret (inr (-1))
  else if ret =? 1 then
    err ← call (Getsockopt fd);
    match err with
    | None => mret (inr (-1))
    | Some e => mret (inl (if e =? 0 then 0 else -1))
    end
  else mret (inl ret).

Definition connect_timeout (fuel : nat) (fd : Z) (ip : list Z) (port wait_seconds : Z) : X Z :=
  (if 0 <? wait_seconds then activate_nonblock fd else mret tt);;
  '(ret, errno) ← call (Connect fd ip port);
  r ← (if (ret <? 0) && (errno =? EINPROGRESS) then finish_connect fuel fd wait_seconds
       else mret (inl ret));
  match r with
  | inr ret => mret ret
  | inl ret =>
      (if 0 <? wait_seconds then deactivate_nonblock fd else mret tt);; mret ret
  end.

(** [getlocalip(ip)] with [ip[16]], cleared. *)
Definition getlocalip (cfg : settings) : X (list Z) :=
  match g_local_ip cfg with
  | _ :: _ => of_option (fits 16 (g_local_ip cfg))
  | [] =>
      r ← call LocalIp;
      match r with Some ip => of_option (fits 16 ip) | None => mret [] end
  end.

(** Addresses and ports are the bytes in the structure. *)
Definition htons (port : Z) : list Z := [port / 256 mod 256; port mod 256].

Definition tcp_server (host : option (list Z)) (port : Z) : X Z :=
  sockfd ← call Socket;
  if sockfd <? 0 then exit_ EXIT_FAILURE else
  addr ← match host with
         | None => mret [0; 0; 0; 0]
         | Some h =>
             r ← call (Inet_pton h);
             match r with
             | Some a => mret a
             | None =>
                 hp ← call (Gethostbyname h);
                 match hp with None => exit_ EXIT_FAILURE | Some a => mret a end
             end
         end;
  call (Setsockopt sockfd);;
  ret ← call (Bind sockfd addr (htons port));
  if ret =? -1 then call (Close sockfd);; exit_ EXIT_FAILURE
  else call (Listen sockfd);; mret sockfd.

(** The port is stored without [htons]. *)
Definition tcp_client (cfg : settings) (port : Z) : X Z :=
  sockfd ← call Socket;
  if sockfd <? 0 then exit_ EXIT_FAILURE else
  (if 0 <? port then
     call (Setsockopt sockfd);;
     local_ip ← getlocalip cfg;
     a ← call (Inet_pton local_ip);
     ret ← call (Bind sockfd (default [255; 255; 255; 255] a) (le_bytes 2 port));
     if ret <? 0 then exit_ EXIT_FAILURE else mret tt
   else mret tt);;
  mret sockfd.

(** [switch (mode & S_IFMT)] and the permission bits. *)
Definition file_type (mode : Z) : Z :=
  let t := Z.land mode 0xf000 in
  if t =? 0x8000 then 45 else if t =? 0x4000 then 100 else if t =? 0x6000 then 98
  else if t =? 0xa000 then 108 else if t =? 0x2000 then 99 else if t =? 0xc000 then 115
  else if t =? 0x1000 then 112 else 63.
Definition bit (mode mask : Z) : bool := negb (Z.land mode mask =? 0).
Definition exec_char (x special : bool) : Z :=
  if special then if x then 115 else 83 else if x then 120 else 45.
Definition get_file_mode (mode : Z) : list Z :=
  let c (mask ch : Z) := if bit mode mask then ch else 45 in
  [file_type mode; c 256 114; c 128 119; exec_char (bit mode 64) (bit mode 2048);
   c 32 114; c 16 119; exec_char (bit mode 8) (bit mode 1024);
   c 4 114; c 2 119; exec_char (bit mode 1) (bit mode 512)].

Definition HALF_YEAR_SEC : Z := 182 * 24 * 3600.
Definition gettime : X (Z * Z) :=
  t ← call Gettimeofday;
  match t with None => exit_ EXIT_FAILURE | Some t => mret t end.

(** [local_time - sbuf->st_mtime > 182 * 24 * 3600]; the time that is printed is
    the present one. *)
Definition get_stat_databuf (sb : fstat_t) : X (list Z) :=
  t ← call Gettimeofday;
  let local_time := match t with Some (sec, _) => sec | None => 0 end in
  call (Strftime (if (local_time <? st_mtime sb) || (HALF_YEAR_SEC <? local_time - st_mtime sb)
                  then str "%b %e    %Y" else str "%b %e %H:%M") local_time).

(** ** privsock.c *)

Definition PRIV_SOCK_GET_DATA_SOCK : Z := 1.
Definition PRIV_SOCK_PASV_ACTIVE : Z := 2.
Definition PRIV_SOCK_PASV_LISTEN : Z := 3.
Definition PRIV_SOCK_PASV_ACCEPT : Z := 4.
Definition PRIV_SOCK_RESULT_OK : Z := 1.
Definition PRIV_SOCK_RESULT_BAD : Z := 2.

(** The session writes, the helper reads: [None] for the end of the stream. *)
Definition session_send (l : list Z) : X unit := modify (fun s => s <| to_helper ::= fun q => q ++ l |>).
Definition helper_read (n : nat) : X (list Z) :=
  s ← get;
  let l := take n (to_helper s) in
  modify (fun s => s <| to_helper ::= drop n |>);; mret l.
Definition helper_send (l : list item) : X unit :=
  modify (fun s => s <| from_helper ::= fun q => q ++ l |>).

Definition priv_sock_send_cmd (cmd : Z) : X unit := session_send [cmd].
Definition priv_sock_send_int (z : Z) : X unit := session_send (le_bytes 4 z).
Definition priv_sock_send_buf (buf : list Z) : X unit :=
  priv_sock_send_int (len buf);; session_send buf.

(** A short [readn] ends the process. *)
Definition helper_readn (n : nat) : X (list Z) :=
  l ← helper_read n;
  if bool_decide (length l = n) then mret l else exit_ EXIT_FAILURE.
Definition priv_sock_get_cmd : X Z :=
  l ← helper_read 1;
  match l with [] => exit_ 0 | c :: _ => mret c end.
Definition helper_get_int : X Z := l ← helper_readn 4; mret (s32 (le_val l)).
Definition priv_sock_recv_buf (size : Z) : X (list Z) :=
  n ← helper_get_int;
  if size <? u32 n then exit_ EXIT_FAILURE else helper_readn (Z.to_nat (u32 n)).
Definition priv_sock_send_result (res : Z) : X unit := helper_send [Byte res].
Definition helper_send_int (z : Z) : X unit := helper_send (map Byte (le_bytes 4 z)).
Definition priv_sock_send_fd (fd : Z) : X unit := helper_send [Passed fd].

(** ** privparent.c *)

Section Helper.
Context (cfg : settings) (fuel : nat).

Definition privop_pasv_get_data_sock : X unit :=
  port ← helper_get_int;
  ip ← priv_sock_recv_buf 16;
  ip ← of_option (c_string 0 (ip ++ replicate (16 - length ip) 0));
  data_fd ← tcp_client cfg 20;
  if data_fd =? -1 then priv_sock_send_result PRIV_SOCK_RESULT_BAD else
  ret ← connect_timeout fuel data_fd ip (u16 port) (tunable_connect_timeout cfg);
  if ret <? 0 then call (Close data_fd);; priv_sock_send_result PRIV_SOCK_RESULT_BAD
  else
    priv_sock_send_result PRIV_SOCK_RESULT_OK;;
    priv_sock_send_fd data_fd;;
    call (Close data_fd).

Definition privop_pasv_active : X unit :=
  s ← get; helper_send_int (if pasv_listen_fd s =? -1 then 0 else 1).

Definition privop_pasv_listen : X unit :=
  local_ip ← getlocalip cfg;
  fd ← tcp_server (Some local_ip) 0;
  modify (fun s => s <| pasv_listen_fd := fd |>);;
  port ← call (Getsockname fd);
  match port with
  | None => exit_ EXIT_FAILURE
  | Some p => helper_send_int (u16 p)
  end.

Definition privop_pasv_accept : X unit :=
  s ← get;
  fd ← accept_timeout fuel (pasv_listen_fd s) (tunable_accept_timeout cfg);
  call (Close (pasv_listen_fd s));;
  modify (fun s => s <| pasv_listen_fd := -1 |>);;
  if fd =? -1 then priv_sock_send_result PRIV_SOCK_RESULT_BAD
  else
    priv_sock_send_result PRIV_SOCK_RESULT_OK;;
    priv_sock_send_fd fd;;
    call (Close fd).

(** One turn of the loop of [handle_parent]. *)
Definition handle_parent : X unit :=
  cmd ← priv_sock_get_cmd;
  if cmd =? PRIV_SOCK_GET_DATA_SOCK then privop_pasv_get_data_sock
  else if cmd =? PRIV_SOCK_PASV_ACTIVE then privop_pasv_active
  else if cmd =? PRIV_SOCK_PASV_LISTEN then privop_pasv_listen
  else if cmd =? PRIV_SOCK_PASV_ACCEPT then privop_pasv_accept
  else mret tt.

(** The session waits for [n] bytes: the helper runs if they are not there.
    A short read ends the session. *)
Definition session_read (n : nat) : X (list item) :=
  s ← get;
  (if bool_decide (n <= length (from_helper s))%nat then mret tt else handle_parent);;
  s ← get;
  let l := take n (from_helper s) in
  modify (fun s => s <| from_helper ::= drop n |>);;
  if bool_decide (length l = n) then mret l else exit_ EXIT_FAILURE.

Definition priv_sock_get_int : X Z :=
  l ← session_read 4; mret (s32 (le_val (map byte_of l))).
Definition priv_sock_get_result : X Z :=
  l ← session_read 1;
  mret (match l with i :: _ => s8 (byte_of i) | [] => 0 end).
Definition priv_sock_recv_fd : X Z :=
  l ← session_read 1;
  match l with Passed fd :: _ => if fd =? -1 then exit_ EXIT_FAILURE else mret fd
  | _ => exit_ EXIT_FAILURE end.
End Helper.
