(* ===== verification/FtpProto.v ===== *)
(** The handlers of the FTP commands (qftp_server/src/ftpproto.c): replies,
    login, directories and files, PORT and PASV, the transfers with their rate
    limit and their interruption, and SITE.  [FtpCmd] reads the command line
    and chooses the handler. *)

From Stdlib Require Import ZArith Lia.
From stdpp Require Import base list.
From S2P Require Import Prelude Str FtpCmd FtpSys.

Definition FTP_DATACONN : Z := 150.
Definition FTP_NOOPOK : Z := 200.
Definition FTP_TYPEOK : Z := 200.
Definition FTP_PORTOK : Z := 200.
Definition FTP_UMASKOK : Z := 200.
Definition FTP_CHMODOK : Z := 200.
Definition FTP_FEAT : Z := 211.
Definition FTP_STATOK : Z := 211.
Definition FTP_SIZEOK : Z := 213.
Definition FTP_SITEHELP : Z := 214.
Definition FTP_HELP : Z := 214.
Definition FTP_SYSTOK : Z := 215.
Definition FTP_GOODBYE : Z := 221.
Definition FTP_ABOR_NOCONN : Z := 225.
Definition FTP_TRANSFEROK : Z := 226.
Definition FTP_ABOROK : Z := 226.
Definition FTP_PASVOK : Z := 227.
Definition FTP_LOGINOK : Z := 230.
Definition FTP_CWDOK : Z := 250.
Definition FTP_RMDIROK : Z := 250.
Definition FTP_DELEOK : Z := 250.
Definition FTP_RENAMEOK : Z := 250.
Definition FTP_PWDOK : Z := 257.
Definition FTP_MKDIROK : Z := 257.
Definition FTP_GIVEPWORD : Z := 331.
Definition FTP_RESTOK : Z := 350.
Definition FTP_RNFROK : Z := 350.
Definition FTP_IDLE_TIMEOUT : Z := 421.
Definition FTP_DATA_TIMEOUT : Z := 421.
Definition FTP_BADSENDCONN : Z := 425.
Definition FTP_BADSENDNET : Z := 426.
Definition FTP_BADSENDFILE : Z := 451.
Definition FTP_NEEDRNFR : Z := 503.
Definition FTP_BADMODE : Z := 504.
Definition FTP_LOGINERR : Z := 530.
Definition FTP_FILEFAIL : Z := 550.
Definition FTP_UPLOADFAIL : Z := 553.

Definition MAX_LINE : Z := 1024.
Definition PATH_MAX : nat := 4096.
Definition CRLF : list Z := [13; 10].

(** ** Pure parts *)

(** [%u] of [sscanf]: leading space, a sign, digits; the value of [strtoul],
    cut to 32 bits. *)
Fixpoint span_digits (s : list Z) : list Z * list Z :=
  match s with
  | c :: l => if isdigit c then let '(d, r) := span_digits l in (c :: d, r) else ([], s)
  | [] => ([], [])
  end.
Fixpoint skip_space (s : list Z) : list Z :=
  match s with c :: l => if isspace c then skip_space l else s | [] => [] end.
Definition scan_uint (s : list Z) : option (Z * list Z) :=
  let s := skip_space s in
  let '(neg, s) := match s with 45 :: l => (true, l) | 43 :: l => (false, l) | _ => (false, s) end in
  let '(d, rest) := span_digits s in
  match d with
  | [] => None
  | _ => let v := Z.min (value_in 10 d) (2 ^ 64 - 1) in
         Some (u32 (if neg : bool then u64 (- v) else v), rest)
  end.

(** [sscanf(s, "%u<sep>%u<sep>..", ..)]: the numbers converted. *)
Fixpoint scan_uints (n : nat) (sep : Z) (s : list Z) : list Z :=
  match n with
  | O => []
  | S k =>
      match scan_uint s with
      | None => []
      | Some (v, rest) =>
          v :: match rest with c :: l => if c =? sep then scan_uints k sep l else [] | [] => [] end
      end
  end.

(** [inet_ntoa] *)
Definition inet_ntoa (a : list Z) : list Z :=
  match a with
  | [b0; b1; b2; b3] => dec b0 ++ [46] ++ dec b1 ++ [46] ++ dec b2 ++ [46] ++ dec b3
  | _ => []
  end.

(** Octal digits, as [%o] prints them. *)
Definition octal (z : Z) : list Z := digits_of 8 11 z.

(** The string up to the last slash. *)
Definition cut_last_slash (s : list Z) : option (list Z) :=
  match strchr (rev s) 47 with Some i => Some (take (length s - S i) s) | None => None end.

Section Proto.
Context (cfg : settings) (fuel : nat).

(** ** Replies *)

Definition ctrl_write (text : list Z) : X unit :=
  s ← get; _ ← writen fuel (ctrl_fd s) text; mret tt.
Definition ftp_relply (status : Z) (text : list Z) : X unit :=
  buf ← of_option (fits MAX_LINE (dec status ++ [32] ++ text ++ CRLF)); ctrl_write buf.
Definition ftp_lrelply (status : Z) (text : list Z) : X unit :=
  buf ← of_option (fits MAX_LINE (dec status ++ [45] ++ text ++ CRLF)); ctrl_write buf.

(** ** Alarms and out-of-band data *)

Definition start_cmdio_alarm : X unit :=
  if 0 <? tunable_idle_session_timeout cfg then call (Alarm (tunable_idle_session_timeout cfg))
  else mret tt.
Definition handle_alarm_timeout : X unit :=
  s ← get;
  call (Shutdown (ctrl_fd s) 0);;
  ftp_relply FTP_IDLE_TIMEOUT (str "Timeout.");;
  call (Shutdown (ctrl_fd s) 1);;
  exit_ EXIT_FAILURE.
Definition start_data_alarm : X unit :=
  if 0 <? tunable_data_connection_timeout cfg then call (Alarm (tunable_data_connection_timeout cfg))
  else if 0 <? tunable_idle_session_timeout cfg then call (Alarm 0)
  else mret tt.
Definition handle_siglarm : X unit :=
  s ← get;
  if data_process s =? 0 then
    ftp_relply FTP_DATA_TIMEOUT (str "Data timeout. Reconnect. Sorry.");; exit_ EXIT_FAILURE
  else modify (fun s => s <| data_process := 0 |>);; start_data_alarm.

(** [line] is what [readline] stores into [cmdline[1024]]. *)
Definition handle_sigurg (line : list Z) : X unit :=
  s ← get;
  if data_fd s =? -1 then mret tt else
  match line with
  | [] => exit_ EXIT_FAILURE
  | _ =>
      buf ← of_option (str_trim_crlf (line ++ replicate (MAX_COMMAND_LINE - length line) 0));
      cmd ← of_option (c_string 0 buf);
      if str_eqb cmd (str "ABOR") || str_eqb cmd telnet_abor then
        modify (fun s => s <| abor_received := 1 |>);; call (Shutdown (data_fd s) 2)
      else ftp_relply FTP_BADCMD (str "Unknown command.")
  end.

(** The signals that have arrived are handled before the flag is read. *)
Definition signals : X unit :=
  p ← call Pending;
  match p with
  | NoSignal => mret tt
  | SigUrg line => handle_sigurg line
  | SigAlrm => handle_siglarm
  end.

Definition check_abor : X unit :=
  s ← get;
  if abor_received s =? 0 then mret tt
  else modify (fun s => s <| abor_received := 0 |>);; ftp_relply FTP_ABOROK (str "ABOR successful.").

(** ** Login *)

Definition do_user : X unit :=
  s ← get;
  pw ← call (Getpwnam (cmd_arg s));
  match pw with
  | None => ftp_relply FTP_LOGINERR (str "Login incorrect.")
  | Some pw_uid =>
      modify (fun s => s <| uid := pw_uid |>);;
      ftp_relply FTP_GIVEPWORD (str "Please specify the password.")
  end.

Definition do_pass : X unit :=
  s ← get;
  pw ← call (Getpwuid (uid s));
  match pw with
  | None => ftp_relply FTP_LOGINERR (str "Login incorrect.")
  | Some (pw_name, pw_uid, pw_gid, pw_dir) =>
      sp ← call (Getspnam pw_name);
      match sp with
      | None => ftp_relply FTP_LOGINERR (str "Login incorrect.")
      | Some sp_pwdp =>
          encrypt_pass ← call (Crypt (cmd_arg s) sp_pwdp);
          encrypt_pass ← of_option encrypt_pass;
          if negb (str_eqb encrypt_pass sp_pwdp) then ftp_relply FTP_LOGINERR (str "Password incorrect.")
          else
            r ← call (Setegid pw_gid);
            if r <? 0 then exit_ EXIT_FAILURE else
            r ← call (Seteuid pw_uid);
            if r <? 0 then exit_ EXIT_FAILURE else
            r ← call Setown;
            if r =? -1 then exit_ EXIT_FAILURE else
            call (Umask (tunable_local_umask cfg));;
            res ← call (Chdir pw_dir);
            if res <? 0 then mret tt else ftp_relply FTP_LOGINOK (str "Login successful.")
      end
  end.

(** ** Directories and files *)

(** An array of [n] bytes that [readlink("/proc/self/exe")] was asked to
    fill; [ended] when a NUL is stored behind the link. *)
Definition self_exe (n : nat) (ended : bool) : X (list Z * bool) :=
  junk ← call (Local n);
  let mem := map junk (seq 0 n) in
  r ← call (Readlink (str "/proc/self/exe") (Z.of_nat n - 1));
  match r with
  | None => p ← of_option (c_string 0 mem); mret (p, false)
  | Some link =>
      mem ← of_option (wr 0 (if ended then link ++ [0] else link) mem);
      p ← of_option (c_string 0 mem); mret (p, true)
  end.

Definition do_cwd : X unit :=
  '(path, _) ← self_exe PATH_MAX true;
  s ← get;
  path ← of_option (fits (Z.of_nat PATH_MAX) (path ++ cmd_arg s));
  r ← call (Chdir path);
  if r <? 0 then ftp_relply FTP_FILEFAIL (str "Directory changed fail.")
  else ftp_relply FTP_CWDOK (str "Directory successfully changed.").

Definition do_cdup : X unit :=
  r ← call (Chdir (str ".."));
  if r <? 0 then ftp_relply FTP_FILEFAIL (str "Directory changed fail.")
  else ftp_relply FTP_CWDOK (str "Directory successfully changed.").

Definition do_quit : X unit := ftp_relply FTP_GOODBYE (str "Goodbye.");; exit_ 0.

Definition do_type : X unit :=
  s ← get;
  if str_eqb (cmd_arg s) (str "A") then
    modify (fun s => s <| is_ascii := 1 |>);; ftp_relply FTP_TYPEOK (str "Switch to ASCII mode")
  else if str_eqb (cmd_arg s) (str "I") then
    modify (fun s => s <| is_ascii := 0 |>);; ftp_relply FTP_TYPEOK (str "Switch to Binary mode")
  else ftp_relply FTP_BADCMD (str "Unrecognised command.").

Definition do_rest : X unit :=
  modify (fun s => s <| restart_pos := str_to_longlong (cmd_arg s) |>);;
  s ← get;
  text ← of_option (fits MAX_LINE (str "Restart position accepted (" ++ dec (restart_pos s) ++ str ")."));
  ftp_relply FTP_RESTOK text.

Definition do_abor : X unit := ftp_relply FTP_ABOR_NOCONN (str "No transfer to ABOR.").

Definition do_pwd : X unit :=
  cur_dir ← call (Getcwd MAX_LINE);
  match cur_dir with
  | None => mret tt
  | Some d => text ← of_option (fits (MAX_LINE + 2) d); ftp_relply FTP_PWDOK text
  end.

Definition do_mkd : X unit :=
  '(path, _) ← self_exe 256 true;
  s ← get;
  path ← of_option (fits 256 (path ++ cmd_arg s));
  r ← call (Mkdir path);
  if r <? 0 then ftp_relply FTP_FILEFAIL (str "Create directory operation failed.")
  else if bool_decide (head path = Some 47) then
    text ← of_option (fits (2 * MAX_LINE + 16) (path ++ str " created")); ftp_relply FTP_MKDIROK text
  else
    cur_dir ← call (Getcwd MAX_LINE);
    match cur_dir with
    | None => mret tt
    | Some d =>
        l ← of_option (last d);
        text ← of_option (fits (2 * MAX_LINE + 16)
          (d ++ (if l =? 47 then [] else [47]) ++ path ++ str " created"));
        ftp_relply FTP_MKDIROK text
    end.

Definition do_rmd : X unit :=
  s ← get;
  r ← call (Rmdir (cmd_arg s));
  (if r <? 0 then ftp_relply FTP_FILEFAIL (str "Rmove directory operation failed.") else mret tt);;
  ftp_relply FTP_RMDIROK (str "Remove directory operation successful.").

Definition do_dele : X unit :=
  s ← get;
  r ← call (Unlink (cmd_arg s));
  if r <? 0 then ftp_relply FTP_FILEFAIL (str "Delete file operation failed.")
  else ftp_relply FTP_DELEOK (str "Delete file operation successful.").

Definition do_rnfr : X unit :=
  s ← get;
  m ← call (Malloc (len (cmd_arg s) + 1));
  (if (m : bool) then mret tt else undef);;
  modify (fun s => s <| rnfr_name := Some (cmd_arg s) |>);;
  ftp_relply FTP_RNFROK (str "Ready for RNTO.").

Definition do_rnto : X unit :=
  s ← get;
  match rnfr_name s with
  | None => ftp_relply FTP_NEEDRNFR (str "RNFR required first.")
  | Some old =>
      r ← call (Rename old (cmd_arg s));
      (if r <? 0 then ftp_relply FTP_FILEFAIL (str "Rename operation failed.")
       else ftp_relply FTP_RENAMEOK (str "Rename successful."));;
      modify (fun s => s <| rnfr_name := None |>)
  end.

Definition S_ISREG (mode : Z) : bool := Z.land mode 0xf000 =? 0x8000.
Definition S_ISLNK (mode : Z) : bool := Z.land mode 0xf000 =? 0xa000.

Definition do_size : X unit :=
  s ← get;
  r ← call (StatCall (cmd_arg s));
  match r with
  | None => ftp_relply FTP_FILEFAIL (str "SIZE operation ")
  | Some sb =>
      if negb (S_ISREG (st_mode sb)) then ftp_relply FTP_FILEFAIL (str "Could not get file size.")
      else text ← of_option (fits MAX_LINE (dec (st_size sb))); ftp_relply FTP_SIZEOK text
  end.

Definition do_syst : X unit := ftp_relply FTP_SYSTOK (str "UNIX Type: L8").

Definition do_feat : X unit :=
  ftp_lrelply FTP_FEAT (str "Features:");;
  forM ["EPRT"; "EPSV"; "MDTM"; "PASV"; "REST STREAM"; "SIZE"; "TVFS"; "UTF8"]%string
    (fun f => ctrl_write (str f ++ CRLF));;
  ftp_relply FTP_FEAT (str "End").

Definition rate_line (unlimited limited : list Z) (rate : Z) : X unit :=
  ctrl_write (if rate =? 0 then unlimited ++ CRLF else limited ++ dec rate ++ CRLF).

Definition do_stat : X unit :=
  ftp_lrelply FTP_STATOK (str "FTP server stats: ");;
  s ← get;
  rate_line (str "No session upload bandwidth limit")
    (str "Session upload bandwidth limit int bytes/s is ") (bw_upload_rate_max s);;
  rate_line (str "No session download bandwidth limit")
    (str "Session download bandwidth limit in byte/s is ") (bw_download_rate_max s);;
  ctrl_write (str "At session startup,client count was " ++ dec (num_clients s) ++ CRLF);;
  ftp_relply FTP_STATOK (str "End of status.").

Definition do_noop : X unit := ftp_relply FTP_NOOPOK (str "NOOP ok.").

Definition do_help : X unit :=
  ftp_lrelply FTP_HELP (str "The following commands are recognized.");;
  ctrl_write (str " ABOR ACCT ALLO APPE CDUP CWD  DELE EPRT EPSV FEAT HELP LIST MDTM MKD" ++ CRLF);;
  ctrl_write (str " MODE NLST NOOP OPTS PASS PASV PORT PWD  QUIT REIN REST RETR RMD  RNFR" ++ CRLF);;
  ctrl_write (str " RNTO SITE SIZE SMNT STAT STOR STOU STRU SYST TYPE USER XCUP XCWD XMKD" ++ CRLF);;
  ctrl_write (str " XPWD XRMD" ++ CRLF);;
  ftp_relply FTP_HELP (str "Help OK.").

(** ** SITE *)

Definition do_site_chmod (chmod_arg : list Z) : X unit :=
  if len chmod_arg =? 0 then ftp_relply FTP_BADCMD (str "SITE CHMOD needs 2 arguments.") else
  '(perms, file) ← of_option
    (str_split (chmod_arg ++ [0]) (replicate 100 0) (replicate 100 0) 32);
  file ← of_option (c_string 0 file);
  if len file =? 0 then ftp_relply FTP_BADCMD (str "SITE CHMOD needs 2 arguments.") else
  perms ← of_option (c_string 0 perms);
  r ← call (Chmod file (str_octal_to_uint perms));
  if r <? 0 then ftp_relply FTP_BADMODE (str "SITE CHMOD failed.")
  else ftp_relply FTP_CHMODOK (str "SITE CHMOD ok.").

Definition do_site_umask (umask_arg : list Z) : X unit :=
  if len umask_arg =? 0 then
    ftp_relply FTP_UMASKOK (str "Your current UMASK is 0" ++ octal (tunable_local_umask cfg))
  else
    let umode := str_octal_to_uint umask_arg in
    call (Umask umode);;
    ftp_relply FTP_UMASKOK (str "UMASK set to 0" ++ octal umode).

Definition do_site : X unit :=
  s ← get;
  '(cmd, arg) ← of_option (str_split (cmd_arg s ++ [0]) (replicate 100 0) (replicate 100 0) 32);
  cmd ← of_option (c_string 0 cmd);
  arg ← of_option (c_string 0 arg);
  if str_eqb cmd (str "CHMOD") then do_site_chmod arg
  else if str_eqb cmd (str "UMASK") then do_site_umask arg
  else if str_eqb cmd (str "HELP") then ftp_relply FTP_SITEHELP (str "CHMOD UMASK HELP")
  else ftp_relply FTP_BADCMD (str "Unknown SITE command").

(** ** PORT and PASV *)

(** The numbers that [sscanf] does not find are what the array held. *)
Definition do_port : X unit :=
  junk ← call (Local 6);
  s ← get;
  let w := scan_uints 6 44 (cmd_arg s) in
  let v (i : nat) := u8 (nth i w (junk i)) in
  m ← call (Malloc 16);
  (if (m : bool) then mret tt else undef);;
  modify (fun s => s <| port_addr := Some ([v 4%nat; v 5%nat],
                                           [v 0%nat; v 1%nat; v 2%nat; v 3%nat]) |>);;
  ftp_relply FTP_PORTOK (str "PORT command successful. Consider using PASV.").

(** The text of the reply, for the numbers of the address. *)
Definition pasv_text (v : nat -> list Z) (port : Z) : list Z :=
  str "Entering Passive Mode (" ++ v 0%nat ++ [44] ++ v 1%nat ++ [44] ++ v 2%nat ++ [44] ++ v 3%nat ++ [44] ++
  dec (port / 256) ++ [44] ++ dec (port mod 256) ++ str ").".

Definition do_pasv : X unit :=
  local_ip ← getlocalip cfg;
  priv_sock_send_cmd PRIV_SOCK_PASV_LISTEN;;
  port ← priv_sock_get_int cfg fuel;
  let port := u16 port in
  junk ← call (Local 4);
  let w := scan_uints 4 46 local_ip in
  let v (i : nat) := dec (u32 (nth i w (junk i))) in
  text ← of_option (fits MAX_LINE (pasv_text v port));
  ftp_relply FTP_PASVOK text.

(** [port_active] and [pasv_active] call each other; [depth] bounds the calls. *)
Fixpoint port_active (depth : nat) : X bool :=
  match depth with
  | O => no_fuel
  | S n =>
      s ← get;
      match port_addr s with
      | None => mret false
      | Some _ =>
          p ← pasv_active n;
          if (p : bool) then exit_ EXIT_FAILURE else mret true
      end
  end
with pasv_active (depth : nat) : X bool :=
  match depth with
  | O => no_fuel
  | S n =>
      priv_sock_send_cmd PRIV_SOCK_PASV_ACTIVE;;
      active ← priv_sock_get_int cfg fuel;
      if active =? 0 then mret false else
      p ← port_active n;
      mret (negb p)
  end.

Definition recv_data_fd : X bool :=
  result ← priv_sock_get_result cfg fuel;
  if result =? PRIV_SOCK_RESULT_BAD then mret false
  else if result =? PRIV_SOCK_RESULT_OK then
    fd ← priv_sock_recv_fd cfg fuel;
    modify (fun s => s <| data_fd := fd |>);; mret true
  else mret false.

Definition get_port_fd : X bool :=
  priv_sock_send_cmd PRIV_SOCK_GET_DATA_SOCK;;
  s ← get;
  '(sin_port, sin_addr) ← of_option (port_addr s);
  priv_sock_send_int (fold_left (fun n b => n * 256 + b) sin_port 0);;
  priv_sock_send_buf (inet_ntoa sin_addr);;
  recv_data_fd.

Definition get_pasv_fd : X bool :=
  priv_sock_send_cmd PRIV_SOCK_PASV_ACCEPT;; recv_data_fd.

Definition get_transfer_fd : X bool :=
  port ← port_active fuel;
  asked ← (if (port : bool) then mret true else pasv_active fuel);
  if negb asked then ftp_relply FTP_BADSENDCONN (str "Use PORT or PASV first.");; mret false else
  port ← port_active fuel;
  ok1 ← (if (port : bool) then get_port_fd else mret true);
  pasv ← pasv_active fuel;
  ok2 ← (if (pasv : bool) then get_pasv_fd else mret true);
  modify (fun s => s <| port_addr := None |>);;
  let ret := ok1 && ok2 in
  (if ret then start_data_alarm else mret tt);;
  mret ret.
End Proto.

Section Transfers.
Context (cfg : settings) (fuel : nat).

(** ** Transfers *)

(** [do ret = fcntl(fd, F_SETLKW, ..) while (ret < 0 && errno == EINTR)] *)
Definition lock_internal (fd lock_type : Z) : X Z :=
  iterM fuel (fun _ : unit =>
    '(ret, errno) ← call (Setlk fd lock_type);
    mret (if (ret <? 0) && (errno =? EINTR) then inl tt else inr ret)) tt.
Definition lock_file_read (fd : Z) : X Z := lock_internal fd 0.
Definition lock_file_write (fd : Z) : X Z := lock_internal fd 1.

(** One entry of a listing; [None] leaves it out, [inr] ends the listing. *)
Definition list_entry (detail : bool) (d_name : list Z) (sb : fstat_t) : X (list Z + Z) :=
  if detail then
    databuf ← get_stat_databuf sb;
    let perms := get_file_mode (st_mode sb) in
    let text := perms ++ [32] ++ pad_left 3 (dec (s32 (st_nlink sb))) ++ [32] ++
      pad_right 8 (dec (s32 (st_uid sb))) ++ str "  " ++ pad_right 8 (dec (s32 (st_gid sb))) ++
      pad_left 8 (dec (u64 (st_size sb))) ++ [32] ++ databuf ++ [32] ++ d_name in
    if S_ISLNK (st_mode sb) then
      r ← call (Readlink d_name MAX_LINE);
      match r with
      | None => mret (inr (-1))
      | Some l =>
          target ← of_option (c_string 0 (l ++ replicate (Z.to_nat (MAX_LINE - len l)) 0));
          buf ← of_option (fits MAX_LINE (text ++ str " -> " ++ target ++ CRLF)); mret (inl buf)
      end
    else buf ← of_option (fits MAX_LINE (text ++ CRLF)); mret (inl buf)
  else buf ← of_option (fits MAX_LINE (d_name ++ CRLF)); mret (inl buf).

Fixpoint list_entries (detail : bool) (names : list (list Z)) : X Z :=
  match names with
  | [] => mret 1
  | d_name :: rest =>
      r ← call (Lstat d_name);
      match r with
      | None => list_entries detail rest
      | Some sb =>
          if bool_decide (head d_name = Some 46) then list_entries detail rest else
          e ← list_entry detail d_name sb;
          match e with
          | inr ret => mret ret
          | inl buf => s ← get; _ ← writen fuel (data_fd s) buf; list_entries detail rest
          end
      end
  end.

Definition list_common (detail : bool) : X Z :=
  dir ← call Opendir;
  match dir with None => mret 0 | Some names => list_entries detail names end.

Definition send_list (detail : bool) : X unit :=
  ok ← get_transfer_fd cfg fuel;
  if negb ok then mret tt else
  ftp_relply fuel FTP_DATACONN (str "Here comes the directory list.");;
  _ ← list_common detail;
  s ← get;
  call (Close (data_fd s));;
  ftp_relply fuel FTP_TRANSFEROK (str "Directory send OK.").
Definition do_list : X unit := send_list true.
Definition do_nlst : X unit := send_list false.

Definition start_clock (t : Z * Z) : X unit :=
  modify (fun s => s <| bw_transfer_start_sec := t.1 |> <| bw_transfer_start_usec := t.2 |>).

(** Times in microseconds; the [double] computations are taken as exact.  The
    conversion of a negative rate to [unsigned int] and a division by a
    maximal rate of 0 are undefined. *)
Definition limit_rate (bytes_transfered : Z) (is_upload : bool) : X unit :=
  modify (fun s => s <| data_process := 1 |>);;
  now ← gettime;
  s ← get;
  let e := (now.1 - bw_transfer_start_sec s) * 10 ^ 6 + (now.2 - bw_transfer_start_usec s) in
  let elapsed := if e <=? 0 then 10000 else e in
  let bw_rate := Z.quot (bytes_transfered * 10 ^ 6) elapsed in
  if (bw_rate <? 0) || (2 ^ 32 <=? bw_rate) then undef else
  let rate_max := if is_upload then bw_upload_rate_max s else bw_download_rate_max s in
  if bw_rate <? rate_max then start_clock now
  else if rate_max =? 0 then undef
  else
    call (Nanosleep ((bw_rate / rate_max - 1) * elapsed));;
    now ← gettime; start_clock now.

Definition opening_text (s : sess) (size : Z) : list Z :=
  str "Opening " ++ str (if is_ascii s =? 0 then "BINARY" else "ASCII") ++
  str " mode data connection " ++ cmd_arg s ++ str " (" ++ dec size ++ str " bytes)".

(** The loop of [do_retr]: what is left to send, and the flag. *)
Definition retr_step (fd : Z) (a : Z * Z) : X (Z * Z + Z * Z) :=
  let '(bytes_to_send, flag) := a in
  if bytes_to_send <=? 0 then mret (inr (bytes_to_send, flag)) else
  let num_this_time := if 4 * MAX_LINE <? bytes_to_send then 4 * MAX_LINE else bytes_to_send in
  s ← get;
  ret ← call (Sendfile (data_fd s) fd num_this_time);
  let flag := if ret =? -1 then 2 else flag in
  limit_rate ret false;;
  signals cfg fuel;;
  s ← get;
  if negb (abor_received s =? 0) then mret (inr (bytes_to_send, 2))
  else mret (inl (bytes_to_send - ret, flag)).

(** The replies at the end of a transfer, and its clean-up. *)
Definition end_transfer (fd flag : Z) (bad_file bad_net : list Z) : X unit :=
  s ← get;
  call (Close (data_fd s));;
  modify (fun s => s <| data_fd := -1 |>);;
  call (Close fd);;
  s ← get;
  (if (flag =? 0) && (abor_received s =? 0) then
     ftp_relply fuel FTP_TRANSFEROK (str "Transfer complete.")
   else if flag =? 1 then ftp_relply fuel FTP_BADSENDFILE bad_file
   else if flag =? 2 then ftp_relply fuel FTP_BADSENDNET bad_net
   else mret tt);;
  check_abor fuel;;
  start_cmdio_alarm cfg.

Definition retr_path : X (list Z) :=
  '(t_path, linked) ← self_exe 1024 false;
  t_path ← (if (linked : bool) then of_option (cut_last_slash t_path) else mret t_path);
  s ← get;
  of_option (fits 1024 (t_path ++ (if bool_decide (head (cmd_arg s) = Some 47) then [] else [47]) ++
                        cmd_arg s)).

Definition do_retr : X unit :=
  ok ← get_transfer_fd cfg fuel;
  if negb ok then mret tt else
  path ← retr_path;
  s ← get;
  let offset := restart_pos s in
  modify (fun s => s <| restart_pos := 0 |>);;
  fd ← call (Open path false);
  if fd =? -1 then ftp_relply fuel FTP_FILEFAIL (str "Open file failed.") else
  ret ← lock_file_read fd;
  if ret =? -1 then ftp_relply fuel FTP_FILEFAIL (str "Open file faild.") else
  '(_, sbuf) ← call (FstatCall fd);
  if negb (S_ISREG (st_mode sbuf)) then ftp_relply fuel FTP_FILEFAIL (str "Open file faild.") else
  sought ← (if offset =? 0 then mret 0 else r ← call (Lseek fd offset 0); mret (s32 r));
  if sought =? -1 then ftp_relply fuel FTP_FILEFAIL (str "Failed to open file.") else
  s ← get;
  text ← of_option (fits (2 * MAX_LINE) (opening_text s (st_size sbuf)));
  ftp_relply fuel FTP_DATACONN text;;
  let bytes_to_send := if st_size sbuf <? offset then 0 else st_size sbuf - offset in
  now ← gettime;
  start_clock now;;
  '(bytes_left, flag) ← iterM fuel (retr_step fd) (bytes_to_send, 0);
  end_transfer fd (if bytes_left =? 0 then 0 else flag)
    (str "Failure reading from local file.") (str "Failure writting to network stream.").

(** The loop of [upload_common]: answers the flag.  A signal interrupts the
    blocking read; its handler runs before the read returns. *)
Definition upload_step (fd : Z) (_ : unit) : X (unit + Z) :=
  s ← get;
  '(r, errno) ← call (Read (data_fd s) (1024 * 1024));
  signals cfg fuel;;
  match r with
  | None => mret (if errno =? EINTR then inl tt else inr 2)
  | Some [] => mret (inr 0)
  | Some buf =>
      s ← get;
      if negb (abor_received s =? 0) then mret (inr 2) else
      n ← writen fuel fd buf;
      mret (if n =? len buf then inl tt else inr 1)
  end.

(** Truncating and positioning the file: [None] when all is well, else the
    text of the reply, or no reply. *)
Definition upload_position (fd offset : Z) (is_append : bool) : X (option (option (list Z))) :=
  if negb is_append && (offset =? 0) then
    res ← call (Ftruncate fd);
    if res <? 0 then mret (Some None) else
    r ← call (Lseek fd 0 0);
    mret (if r <? 0 then Some (Some (str "Create file failed3.")) else None)
  else if negb is_append then
    r ← call (Lseek fd offset 0);
    mret (if r <? 0 then Some (Some (str "Create file failed4.")) else None)
  else
    r ← call (Lseek fd 0 2);
    mret (if r <? 0 then Some (Some (str "Create file failed5.")) else None).

Definition upload_common (is_append : bool) : X unit :=
  ok ← get_transfer_fd cfg fuel;
  if negb ok then mret tt else
  s ← get;
  let offset := restart_pos s in
  modify (fun s => s <| restart_pos := 0 |>);;
  fd ← call (Open (cmd_arg s) true);
  if fd =? -1 then ftp_relply fuel FTP_UPLOADFAIL (str "Create file failed1.") else
  ret ← lock_file_write fd;
  if ret =? -1 then ftp_relply fuel FTP_UPLOADFAIL (str "Create file faild2.") else
  bad ← upload_position fd offset is_append;
  match bad with
  | Some None => mret tt
  | Some (Some text) => ftp_relply fuel FTP_UPLOADFAIL text
  | None =>
      '(_, sbuf) ← call (FstatCall fd);
      s ← get;
      text ← of_option (fits (2 * MAX_LINE) (opening_text s (st_size sbuf)));
      ftp_relply fuel FTP_DATACONN text;;
      now ← gettime;
      start_clock now;;
      flag ← iterM fuel (upload_step fd) tt;
      end_transfer fd flag (str "Failure writing to local file.")
        (str "Failure reading from network stream.")
  end.

Definition do_stor : X unit := upload_common false.
Definition do_appe : X unit := upload_common true.

(** ** The table of [handle_child] *)

Definition run_handler (h : handler) : X unit :=
  match h with
  | FtpCmd.do_user => do_user fuel
  | FtpCmd.do_pass => do_pass cfg fuel
  | FtpCmd.do_cwd => do_cwd fuel
  | FtpCmd.do_cdup => do_cdup fuel
  | FtpCmd.do_quit => do_quit fuel
  | FtpCmd.do_port => do_port fuel
  | FtpCmd.do_pasv => do_pasv cfg fuel
  | FtpCmd.do_type => do_type fuel
  | FtpCmd.do_retr => do_retr
  | FtpCmd.do_stor => do_stor
  | FtpCmd.do_appe => do_appe
  | FtpCmd.do_list => do_list
  | FtpCmd.do_nlst => do_nlst
  | FtpCmd.do_rest => do_rest fuel
  | FtpCmd.do_abor => do_abor fuel
  | FtpCmd.do_pwd => do_pwd fuel
  | FtpCmd.do_mkd => do_mkd fuel
  | FtpCmd.do_rmd => do_rmd fuel
  | FtpCmd.do_dele => do_dele fuel
  | FtpCmd.do_rnfr => do_rnfr fuel
  | FtpCmd.do_rnto => do_rnto fuel
  | FtpCmd.do_site => do_site cfg fuel
  | FtpCmd.do_syst => do_syst fuel
  | FtpCmd.do_feat => do_feat fuel
  | FtpCmd.do_size => do_size fuel
  | FtpCmd.do_stat => do_stat fuel
  | FtpCmd.do_noop => do_noop fuel
  | FtpCmd.do_help => do_help fuel
  end.

(** What [handle_child] does with a command and its argument. *)
Definition run_command (name arg : list Z) : X unit :=
  modify (fun s => s <| cmd_arg := arg |>);;
  match dispatch name with
  | Run h => run_handler h
  | Reply code =>
      ftp_relply fuel code (if code =? FTP_COMMANDNOTIMPL then str "Unimplement command."
                            else str "Unknown command.")
  end.
End Transfers.
