(* ===== verification/FtpProtoProps.v ===== *)
(** The command handlers of the FTP server: the session and its privileged
    helper stay in step, PORT leads to the address it gave, RETR and STOR move
    the bytes of the file, and PORT after PASV never comes back. *)

From Stdlib Require Import ZArith Lia.
From stdpp Require Import base list.
From S2P Require Import Prelude Str FtpCmd FtpSys FtpProto.

(** ** The session and its helper *)

(** What stands on the socket pair; in step, nothing does. *)
Definition chan (u : list Z) (d : list item) (s : sess) : Prop :=
  to_helper s = u /\ from_helper s = d.
Definition in_step : sess -> Prop := chan [] [].

Ltac same_chan := intros ? [? ?]; split; assumption.

Section Step.
Context (cfg : settings) (fuel : nat).

Lemma writen_remains P fd buf : remains P (writen fuel fd buf).
Proof. unfold writen. remain fail. Qed.
Lemma ctrl_write_remains P text : remains P (ctrl_write fuel text).
Proof. pose proof writen_remains. unfold ctrl_write. remain fail. all: auto. Qed.
Lemma relply_remains P status text : remains P (ftp_relply fuel status text).
Proof. pose proof ctrl_write_remains. unfold ftp_relply. remain fail. all: auto. Qed.
Lemma lrelply_remains P status text : remains P (ftp_lrelply fuel status text).
Proof. pose proof ctrl_write_remains. unfold ftp_lrelply. remain fail. all: auto. Qed.
Lemma self_exe_remains P n b : remains P (self_exe n b).
Proof. unfold self_exe. remain fail. Qed.
Lemma gettime_remains P : remains P gettime.
Proof. unfold gettime. remain fail. Qed.
Lemma getlocalip_remains P : remains P (getlocalip cfg).
Proof. unfold getlocalip. remain fail. Qed.
Lemma select_remains P b fd secs : remains P (select_retry fuel b fd secs).
Proof. unfold select_retry. remain fail. Qed.
Lemma accept_remains P fd secs : remains P (accept_timeout fuel fd secs).
Proof. pose proof (select_remains P). unfold accept_timeout. remain fail. all: auto. Qed.
Lemma flags_remains P fd f : remains P (change_flags fd f).
Proof. unfold change_flags. remain fail. Qed.
Lemma finish_remains P fd secs : remains P (finish_connect fuel fd secs).
Proof. pose proof (select_remains P). unfold finish_connect. remain fail. all: auto. Qed.
Lemma connect_remains P fd ip port secs : remains P (connect_timeout fuel fd ip port secs).
Proof.
  pose proof (flags_remains P). pose proof (finish_remains P).
  unfold connect_timeout, activate_nonblock, deactivate_nonblock. remain fail. all: auto.
Qed.
Lemma tcp_server_remains P host port : remains P (tcp_server host port).
Proof. unfold tcp_server. remain fail. Qed.
Lemma tcp_client_remains P port : remains P (tcp_client cfg port).
Proof. pose proof (getlocalip_remains P). unfold tcp_client. remain fail. all: auto. Qed.
End Step.

#[export] Hint Resolve writen_remains ctrl_write_remains relply_remains lrelply_remains
  self_exe_remains gettime_remains getlocalip_remains accept_remains connect_remains
  tcp_server_remains tcp_client_remains : remains.

Lemma u32_s32 z : u32 (s32 z) = u32 z.
Proof.
  unfold u32, s32. rewrite Zminus_mod, Zmod_mod, <-Zminus_mod. f_equal. lia.
Qed.

Section Helper.
Context (cfg : settings) (fuel : nat).

Lemma helper_readn_ends l u d :
  ends (chan (l ++ u) d) (helper_readn (length l)) (fun a s => a = l /\ chan u d s).
Proof.
  intros E w [Hu Hd]. unfold helper_readn, helper_read, mbind, M_bind, get, modify. cbn.
  rewrite Hu, take_app_length.
  rewrite bool_decide_eq_true_2 by done. split; [done|]. split; [|done].
  cbn. rewrite Hu. apply drop_app_length.
Qed.

Lemma helper_send_ends l u d :
  ends (chan u d) (helper_send l) (fun _ => chan u (d ++ l)).
Proof. apply ends_modify. intros s [Hu Hd]. split; [done|]. cbn. by rewrite Hd. Qed.

(** An answer of the helper that carries a descriptor, or that there is none. *)
Definition replied (s : sess) : Prop :=
  chan [] [Byte PRIV_SOCK_RESULT_BAD] s \/
  exists fd, chan [] [Byte PRIV_SOCK_RESULT_OK; Passed fd] s.

Lemma reply_bad_ends : ends in_step (priv_sock_send_result PRIV_SOCK_RESULT_BAD) (fun _ => replied).
Proof.
  eapply ends_conseq; [apply helper_send_ends|done|]. intros ? s Hs. by left.
Qed.

Lemma reply_ok_ends fd (m : X unit) : (forall P, remains P m) ->
  ends in_step (priv_sock_send_result PRIV_SOCK_RESULT_OK;; priv_sock_send_fd fd;; m) (fun _ => replied).
Proof.
  intros Hm. eapply ends_bind; [apply helper_send_ends|]. intros ?.
  eapply ends_bind; [apply helper_send_ends|]. intros ?. eapply ends_conseq; [apply Hm|done|].
  intros ? s Hs. right. by exists fd.
Qed.

Lemma helper_get_int_ends z u :
  ends (chan (le_bytes 4 z ++ u) []) helper_get_int
    (fun a s => a = s32 (z mod 2 ^ 32) /\ chan u [] s).
Proof.
  unfold helper_get_int. eapply ends_bind; [apply helper_readn_ends|].
  intros l. apply ends_ret. intros s [-> Hs]. by rewrite le_val_bytes.
Qed.

Lemma recv_buf_ends n l : len l < 2 ^ 32 ->
  ends (chan (le_bytes 4 (len l) ++ l) []) (priv_sock_recv_buf n)
    (fun a s => a = l /\ in_step s).
Proof.
  intros Hl. unfold priv_sock_recv_buf. eapply ends_bind; [apply helper_get_int_ends|].
  intros k E w [-> Hc].
  assert (Hk : u32 (s32 (len l mod 2 ^ 32)) = len l).
  { rewrite u32_s32. unfold u32. rewrite Zmod_mod. apply Z.mod_small. unfold len in *. lia. }
  rewrite Hk. destruct (n <? len l); [done|]. unfold len. rewrite Nat2Z.id.
  rewrite <-(app_nil_r l) in Hc. exact (helper_readn_ends l [] [] E w Hc).
Qed.

Lemma data_sock_ends port ip : len ip < 2 ^ 32 ->
  ends (chan (le_bytes 4 port ++ le_bytes 4 (len ip) ++ ip) [])
    (privop_pasv_get_data_sock cfg fuel) (fun _ => replied).
Proof.
  intros Hip. unfold privop_pasv_get_data_sock.
  eapply ends_bind; [apply helper_get_int_ends|]. intros p.
  eapply ends_bind.
  { eapply ends_conseq; [by apply (recv_buf_ends 16 ip)| |intros ? ? H; exact H]. by intros s [_ H]. }
  intros a. eapply ends_bind.
  { apply ends_of_option with (Q := fun _ => in_step). by intros ? ? _ [_ H]. }
  intros str_ip. eapply ends_bind; [apply tcp_client_remains|]. intros fd.
  destruct (fd =? -1); [apply reply_bad_ends|].
  eapply ends_bind; [apply connect_remains|]. intros ret. destruct (ret <? 0).
  - eapply ends_bind; [apply remains_call|]. intros ?. apply reply_bad_ends.
  - apply reply_ok_ends. intros P. apply remains_call.
Qed.

Lemma accept_op_ends : ends in_step (privop_pasv_accept cfg fuel) (fun _ => replied).
Proof.
  unfold privop_pasv_accept. eapply ends_bind; [apply remains_get|]. intros s.
  eapply ends_bind; [apply accept_remains|]. intros fd.
  eapply ends_bind; [apply remains_call|]. intros ?.
  eapply ends_bind; [apply remains_modify; same_chan|]. intros ?.
  destruct (fd =? -1); [apply reply_bad_ends|]. apply reply_ok_ends. intros P. apply remains_call.
Qed.

Lemma send_int_ends z : ends in_step (helper_send_int z) (fun _ => chan [] (map Byte (le_bytes 4 z))).
Proof. apply helper_send_ends. Qed.

Definition sent_int (s : sess) : Prop := exists z, chan [] (map Byte (le_bytes 4 z)) s.

Lemma listen_ends : ends in_step (privop_pasv_listen cfg) (fun _ => sent_int).
Proof.
  unfold privop_pasv_listen. eapply ends_bind; [apply getlocalip_remains|]. intros ip.
  eapply ends_bind; [apply tcp_server_remains|]. intros fd.
  eapply ends_bind; [apply remains_modify; same_chan|]. intros ?.
  eapply ends_bind; [apply remains_call|]. intros [p|]; [|apply ends_exit].
  eapply ends_conseq; [apply send_int_ends|done|]. intros ? s Hs. eexists; exact Hs.
Qed.

(** The helper reads a command and runs it. *)
Lemma handle_parent_ends c u m (Q : unit -> sess -> Prop) :
  (if c =? PRIV_SOCK_GET_DATA_SOCK then privop_pasv_get_data_sock cfg fuel
   else if c =? PRIV_SOCK_PASV_ACTIVE then privop_pasv_active
   else if c =? PRIV_SOCK_PASV_LISTEN then privop_pasv_listen cfg
   else if c =? PRIV_SOCK_PASV_ACCEPT then privop_pasv_accept cfg fuel else mret tt) = m ->
  ends (chan u []) m Q -> ends (chan (c :: u) []) (handle_parent cfg fuel) Q.
Proof.
  intros Hm H. unfold handle_parent. apply (ends_bind _ _ _ (fun a s => a = c /\ chan u [] s)).
  - intros E w [Hu Hd]. unfold priv_sock_get_cmd, helper_read, mbind, M_bind, get, modify. cbn.
    rewrite Hu. cbn. split; [done|]. split; [|done]. cbn. by rewrite Hu.
  - intros a E w [-> Hc]. rewrite Hm. by apply H.
Qed.

(** The session reads what is there, or what the helper answers. *)
Lemma session_read_have l u d :
  ends (chan u (l ++ d)) (session_read cfg fuel (length l)) (fun a s => a = l /\ chan u d s).
Proof.
  intros E w [Hu Hd]. unfold session_read, mbind, M_bind, get, modify.
  rewrite bool_decide_eq_true_2 by (rewrite Hd, length_app; lia). cbn. rewrite Hd, take_app_length.
  rewrite bool_decide_eq_true_2 by done. split; [done|]. split; [done|].
  cbn. rewrite Hd. apply drop_app_length.
Qed.

Lemma session_read_wait n u (R : list item -> sess -> Prop) : (0 < n)%nat ->
  ends (chan u []) (handle_parent cfg fuel) (fun _ s => exists l d, length l = n /\ chan [] (l ++ d) s /\
    forall s', chan [] d s' -> R l s') ->
  ends (chan u []) (session_read cfg fuel n) R.
Proof.
  intros Hn H E w Hw. specialize (H E w Hw). destruct Hw as [Hu Hd]. unfold session_read.
  assert (Hno : bool_decide (n <= length (from_helper (loc w)))%nat = false).
  { apply bool_decide_eq_false_2. rewrite Hd. cbn. lia. }
  unfold mbind, M_bind, get, modify. rewrite Hno.
  destruct (handle_parent cfg fuel E w) as [[] w1| | |]; try done.
  destruct H as (l & d & <- & [Hu1 Hd1] & HR). rewrite Hd1, take_app_length.
  rewrite bool_decide_eq_true_2 by done. apply HR. split; [done|]. cbn. rewrite Hd1. apply drop_app_length.
Qed.

Lemma get_int_ends u : ends (chan u []) (handle_parent cfg fuel) (fun _ => sent_int) ->
  ends (chan u []) (priv_sock_get_int cfg fuel) (fun _ => in_step).
Proof.
  intros H. unfold priv_sock_get_int.
  apply (ends_bind _ _ _ (fun _ => in_step)); [|intros l; by apply ends_ret].
  apply session_read_wait; [lia|]. eapply ends_conseq; [exact H|done|].
  intros ? s [z Hz]. exists (map Byte (le_bytes 4 z)), []. by rewrite app_nil_r.
Qed.

Lemma recv_data_fd_ends u : ends (chan u []) (handle_parent cfg fuel) (fun _ => replied) ->
  ends (chan u []) (recv_data_fd cfg fuel) (fun _ => in_step).
Proof.
  intros H. unfold recv_data_fd, priv_sock_get_result. eapply ends_bind.
  { eapply (ends_bind _ _ _ (fun l s => l = [Byte PRIV_SOCK_RESULT_BAD] /\ in_step s \/
      l = [Byte PRIV_SOCK_RESULT_OK] /\ exists fd, chan [] [Passed fd] s)).
    - apply session_read_wait; [lia|]. eapply ends_conseq; [exact H|done|]. intros ? s [Hb|[fd Hf]].
      + exists [Byte PRIV_SOCK_RESULT_BAD], []. split; [done|]. split; [done|]. by left.
      + exists [Byte PRIV_SOCK_RESULT_OK], [Passed fd]. split; [done|]. split; [done|]. right.
        split; [done|]. by exists fd.
    - intros l. apply ends_ret with (Q := fun r s => r = PRIV_SOCK_RESULT_BAD /\ in_step s \/
        r = PRIV_SOCK_RESULT_OK /\ exists fd, chan [] [Passed fd] s).
      intros s [[-> Hs]|[-> Hs]]; [by left|by right]. }
  intros r E w [[-> Hc]|[-> [fd Hc]]]; [exact Hc|].
  cbn [Z.eqb Pos.eqb PRIV_SOCK_RESULT_OK PRIV_SOCK_RESULT_BAD].
  unfold priv_sock_recv_fd. rewrite <-(app_nil_r [Passed fd]) in Hc.
  assert (Hr : ends (chan [] ([Passed fd] ++ [])) (l ← session_read cfg fuel 1;
    match l with Passed fd :: _ => if fd =? -1 then exit_ EXIT_FAILURE else mret fd
    | _ => exit_ EXIT_FAILURE end) (fun _ => in_step)).
  { eapply ends_bind; [apply (session_read_have [Passed fd])|]. intros l E' w' [-> Hw].
    by destruct (fd =? -1). }
  revert E w Hc. fold (ends (chan [] ([Passed fd] ++ []))
    (fd ← (l ← session_read cfg fuel 1;
       match l with Passed fd :: _ => if fd =? -1 then exit_ EXIT_FAILURE else mret fd
       | _ => exit_ EXIT_FAILURE end);
     modify (fun s => s <| data_fd := fd |>);; mret true) (fun _ => in_step)).
  eapply ends_bind; [exact Hr|]. intros d. eapply ends_bind; [apply remains_modify; same_chan|].
  intros ?. by apply ends_ret.
Qed.
End Helper.

Section Session.
Context (cfg : settings) (fuel : nat).

Lemma session_send_ends l u d : ends (chan u d) (session_send l) (fun _ => chan (u ++ l) d).
Proof. apply ends_modify. intros s [Hu Hd]. split; [|done]. cbn. by rewrite Hu. Qed.

(** Code that starts with a query of the helper. *)
Lemma query_then {A} c (k : Z -> X A) :
  remains in_step (priv_sock_send_cmd c;; priv_sock_get_int cfg fuel) ->
  (forall a, remains in_step (k a)) ->
  remains in_step (priv_sock_send_cmd c;; a ← priv_sock_get_int cfg fuel; k a).
Proof.
  intros Hq Hk E w Hw. specialize (Hq E w Hw). unfold mbind, M_bind in *.
  destruct (priv_sock_send_cmd c E w) as [? w1| | |]; try done.
  destruct (priv_sock_get_int cfg fuel E w1) as [z w2| | |]; try done. by apply Hk.
Qed.

Lemma active_query_step :
  remains in_step (priv_sock_send_cmd PRIV_SOCK_PASV_ACTIVE;; priv_sock_get_int cfg fuel).
Proof.
  eapply ends_bind; [apply session_send_ends|]. intros ?. apply get_int_ends.
  eapply handle_parent_ends; [reflexivity|]. cbn.
  unfold privop_pasv_active. apply ends_bind_get. intros s Hs.
  eapply ends_conseq; [apply send_int_ends| |].
  - by intros s' [-> ?].
  - intros ? s' Hs'. eexists. exact Hs'.
Qed.

Lemma port_active_S n : port_active cfg fuel (S n) =
  s ← get;
  match port_addr s with
  | None => mret false
  | Some _ => p ← pasv_active cfg fuel n; if (p : bool) then exit_ EXIT_FAILURE else mret true
  end.
Proof. reflexivity. Qed.

Lemma pasv_active_S n : pasv_active cfg fuel (S n) =
  (priv_sock_send_cmd PRIV_SOCK_PASV_ACTIVE;;
   active ← priv_sock_get_int cfg fuel;
   if active =? 0 then mret false else p ← port_active cfg fuel n; mret (negb p)).
Proof. reflexivity. Qed.

Lemma active_step depth :
  remains in_step (port_active cfg fuel depth) /\ remains in_step (pasv_active cfg fuel depth).
Proof.
  induction depth as [|n [IH1 IH2]]; [by split; intros E w Hw|].
  rewrite port_active_S, pasv_active_S. split; [remain fail|].
  apply query_then; [apply active_query_step|]. intros a. remain fail.
Qed.

Lemma port_active_step depth : remains in_step (port_active cfg fuel depth).
Proof. apply active_step. Qed.
Lemma pasv_active_step depth : remains in_step (pasv_active cfg fuel depth).
Proof. apply active_step. Qed.

Lemma len_dec z : (length (dec z) <= 21)%nat.
Proof.
  assert (Hd : forall b n v, (length (digits_of b n v) <= n)%nat).
  { intros b n. induction n as [|n IH]; intros v; cbn; [lia|]. rewrite length_app. cbn.
    specialize (IH (v / b)). destruct (v <? b); cbn; lia. }
  unfold dec. destruct (z <? 0); cbn [length]; [specialize (Hd 10 20%nat (- z))|specialize (Hd 10 20%nat z)]; lia.
Qed.

Lemma len_ntoa a : len (inet_ntoa a) < 2 ^ 32.
Proof.
  unfold inet_ntoa, len. destruct a as [|a [|b [|c [|d [|? ?]]]]]; try done.
  pose proof (len_dec a). pose proof (len_dec b). pose proof (len_dec c). pose proof (len_dec d).
  repeat rewrite length_app. cbn [length]. lia.
Qed.

Lemma get_port_fd_step : remains in_step (get_port_fd cfg fuel).
Proof.
  unfold get_port_fd, priv_sock_send_int, priv_sock_send_buf.
  eapply ends_bind; [apply session_send_ends|]. intros ?. cbn [app].
  eapply ends_bind; [apply remains_get|]. intros s.
  eapply ends_bind; [apply remains_of_option|]. intros [sin_port sin_addr].
  eapply ends_bind; [apply session_send_ends|]. intros ?.
  eapply ends_bind; [eapply ends_bind; [apply session_send_ends|]; intros ?; apply session_send_ends|].
  intros ?. apply recv_data_fd_ends. rewrite <-!app_assoc. cbn [app].
  eapply handle_parent_ends; [reflexivity|]. apply data_sock_ends, len_ntoa.
Qed.

Lemma get_pasv_fd_step : remains in_step (get_pasv_fd cfg fuel).
Proof.
  eapply ends_bind; [apply session_send_ends|]. intros ?. apply recv_data_fd_ends.
  eapply handle_parent_ends; [reflexivity|]. apply accept_op_ends.
Qed.

Lemma listen_query_step :
  remains in_step (priv_sock_send_cmd PRIV_SOCK_PASV_LISTEN;; priv_sock_get_int cfg fuel).
Proof.
  eapply ends_bind; [apply session_send_ends|]. intros ?. apply get_int_ends.
  eapply handle_parent_ends; [reflexivity|]. apply listen_ends.
Qed.

Hint Resolve port_active_step pasv_active_step get_port_fd_step get_pasv_fd_step : remains.
Ltac step_with := solve [same_chan].

Lemma do_pasv_step : remains in_step (do_pasv cfg fuel).
Proof.
  unfold do_pasv. apply remains_bind; [auto with remains|]. intros ip.
  apply query_then; [apply listen_query_step|]. intros port. remain step_with.
Qed.

Lemma start_data_alarm_remains P : remains P (start_data_alarm cfg).
Proof. unfold start_data_alarm. remain fail. Qed.
Hint Resolve start_data_alarm_remains : remains.

Lemma get_transfer_fd_step : remains in_step (get_transfer_fd cfg fuel).
Proof. unfold get_transfer_fd. remain step_with. Qed.
Hint Resolve get_transfer_fd_step : remains.

Lemma sigurg_step line : remains in_step (handle_sigurg fuel line).
Proof. unfold handle_sigurg. remain step_with. Qed.
Lemma siglarm_step : remains in_step (handle_siglarm cfg fuel).
Proof. unfold handle_siglarm. remain step_with. Qed.
Hint Resolve sigurg_step siglarm_step : remains.
Lemma signals_step : remains in_step (signals cfg fuel).
Proof. unfold signals. remain step_with. Qed.
Lemma check_abor_step : remains in_step (check_abor fuel).
Proof. unfold check_abor. remain step_with. Qed.
Lemma cmdio_step P : remains P (start_cmdio_alarm cfg).
Proof. unfold start_cmdio_alarm. remain fail. Qed.
Lemma start_clock_step t : remains in_step (start_clock t).
Proof. unfold start_clock. remain step_with. Qed.
Hint Resolve signals_step check_abor_step cmdio_step start_clock_step : remains.
Lemma limit_rate_step n b : remains in_step (limit_rate n b).
Proof. unfold limit_rate. remain step_with. Qed.
Lemma end_transfer_step fd flag a b : remains in_step (end_transfer cfg fuel fd flag a b).
Proof. unfold end_transfer. remain step_with. Qed.
Lemma lock_step P fd t : remains P (lock_internal fuel fd t).
Proof. unfold lock_internal. remain fail. Qed.
Hint Resolve limit_rate_step end_transfer_step lock_step : remains.
Lemma list_entry_step P b n sb : remains P (list_entry b n sb).
Proof. unfold list_entry, get_stat_databuf. remain fail. Qed.
Hint Resolve list_entry_step : remains.
Lemma list_entries_step P b names : remains P (list_entries fuel b names).
Proof.
  induction names as [|n names IH]; cbn [list_entries]; remain fail.
Qed.
Hint Resolve list_entries_step : remains.

Lemma retr_step_step fd a : remains in_step (retr_step cfg fuel fd a).
Proof. unfold retr_step. remain step_with. Qed.
Lemma upload_step_step fd a : remains in_step (upload_step cfg fuel fd a).
Proof. unfold upload_step. remain step_with. Qed.
Hint Resolve retr_step_step upload_step_step : remains.

Lemma run_handler_step h : remains in_step (run_handler cfg fuel h).
Proof.
  destruct h; cbn [run_handler]; try apply do_pasv_step;
    unfold do_user, do_pass, do_cwd, do_cdup, do_quit, do_port, do_type, do_stor, do_appe,
      do_list, do_nlst, send_list, list_common, do_rest, do_abor, do_pwd, do_mkd, do_rmd, do_dele, do_rnfr,
      do_rnto, do_site, do_site_chmod, do_site_umask, do_syst, do_feat, do_size, do_stat, rate_line,
      do_noop, do_help, do_retr, retr_path, lock_file_read, lock_file_write, upload_common, upload_position;
    remain step_with.
Qed.
End Session.

(** ** Whether PASV is active *)

Definition listening (s : sess) : bool := negb (pasv_listen_fd s =? -1).

Lemma pasv_query cfg fuel {A} (k : Z -> X A) E w : in_step (loc w) ->
  (priv_sock_send_cmd PRIV_SOCK_PASV_ACTIVE;; a ← priv_sock_get_int cfg fuel; k a) E w =
  k (if listening (loc w) then 1 else 0) E w.
Proof.
  destruct w as [s h]. destruct s as [a1 a2 a3 a4 a5 a6 a7 a8 a9 a10 a11 a12 a13 a14 a15 l u d].
  intros [Hu Hd]. cbn in Hu, Hd. subst. set (st u d := Sess a1 a2 a3 a4 a5 a6 a7 a8 a9 a10 a11 a12 a13 a14 a15 l u d).
  set (active := if l =? -1 then 0 else 1).
  assert (Hp : handle_parent cfg fuel E (World (st [PRIV_SOCK_PASV_ACTIVE] []) h) =
    Done tt (World (st [] (map Byte (le_bytes 4 active))) h)) by reflexivity.
  assert (Hq : priv_sock_get_int cfg fuel E (World (st [PRIV_SOCK_PASV_ACTIVE] []) h) =
    Done active (World (st [] []) h)).
  { unfold priv_sock_get_int, session_read, mbind, M_bind, get, modify.
    change (bool_decide (4 <= length (from_helper (loc (World (st [PRIV_SOCK_PASV_ACTIVE] []) h))))%nat) with false.
    cbn iota. rewrite Hp. unfold active. by destruct (l =? -1). }
  transitivity (k active E (World (st [] []) h)).
  - unfold mbind, M_bind. change (priv_sock_send_cmd _ _ _) with
      (Done (sys := fsys) tt (World (st [PRIV_SOCK_PASV_ACTIVE] []) h)).
    cbn iota. by rewrite Hq.
  - unfold listening, active. cbn [loc pasv_listen_fd st]. by destruct (l =? -1).
Qed.

Lemma pasv_active_listening cfg fuel n E w : in_step (loc w) ->
  pasv_active cfg fuel (S n) E w =
    if listening (loc w) then (p ← port_active cfg fuel n; mret (negb p)) E w else Done false w.
Proof. intros Hw. rewrite pasv_active_S, pasv_query by done. by destruct (listening (loc w)). Qed.

(** ** The theorems *)

(** C32: the session and its privileged helper stay in step: whatever command
    the client sends, and whatever the system answers on either side, when the
    handler returns every message has been read, so the next request of the
    session meets a helper that waits for a command. *)
Theorem session_and_helper_in_step cfg fuel name arg :
  ends in_step (run_command cfg fuel name arg) (fun _ => in_step).
Proof.
  pose proof (run_handler_step cfg fuel). unfold run_command.
  apply remains_bind; [apply remains_modify; same_chan|]. intros _.
  destruct (dispatch name); [auto|apply relply_remains].
Qed.

(** When the client has asked for both PASV and PORT, the next transfer
    never begins: [port_active] and [pasv_active] call each other for ever,
    whatever depth the stack allows, until it overflows. *)
Theorem both_modes_recurse cfg fuel depth E w : in_step (loc w) ->
  port_addr (loc w) <> None -> pasv_listen_fd (loc w) <> -1 ->
  port_active cfg fuel depth E w = NoFuel.
Proof.
  intros Hw Hp Hl. assert (Hlis : listening (loc w) = true).
  { unfold listening. by rewrite (proj2 (Z.eqb_neq _ _)). }
  destruct (port_addr (loc w)) eqn:Hport; [|done].
  induction depth as [depth IH] using lt_wf_ind. destruct depth as [|[|n]]; [done|..];
    rewrite port_active_S; unfold mbind, M_bind at 1, get; rewrite Hport; [done|].
  unfold mbind, M_bind. rewrite pasv_active_listening, Hlis by done.
  unfold mbind, M_bind. by rewrite IH by lia.
Qed.
