(* ===== verification/FtpTransfer.v ===== *)
(** What a transfer of the FTP server does to the file, to the data connection
    and to the control connection: PORT leads to the address it gave, RETR
    sends the bytes of the file from the restart position, STOR and APPE store
    the bytes that arrive. *)

From Stdlib Require Import ZArith Lia.
From stdpp Require Import base list.
From S2P Require Import Prelude Str FtpCmd FtpSys FtpProto FtpProtoProps.

(** ** The observer *)

(** The file behind descriptor [fd] with its offset, what was sent from it
    and received over the data connection, and what was said on the control
    connection. *)
Record view : Type := View {
  pos : Z; body : list Z; sent : list Z; received : list Z; said : list Z
}.

(** [v] stored into a file at offset [p]; a hole reads as zeros, and storing
    nothing makes none. *)
Definition splice_at (p : Z) (v l : list Z) : list Z :=
  take (Z.to_nat p) l ++ replicate (Z.to_nat p - length l) 0 ++ v ++ drop (Z.to_nat p + length v) l.
Definition write_at (p : Z) (v l : list Z) : list Z :=
  match v with [] => l | _ => splice_at p v l end.

Section Observer.
Context (content : list Z) (fd ctrl : Z).

Definition observe1 (e : io fsys) (v : view) : view :=
  match e with
  | Ev c a =>
      match c in fsys B return B -> view with
      | Open _ _ => fun r => if r =? fd then View 0 content [] [] (said v) else v
      | Lseek f off whence => fun _ =>
          if f =? fd then View (if whence =? 0 then off else len (body v)) (body v) (sent v)
                            (received v) (said v)
          else v
      | Ftruncate f => fun _ => if f =? fd then View (pos v) [] (sent v) (received v) (said v) else v
      | Sendfile _ f _ => fun k =>
          if f =? fd then View (pos v + k) (body v)
            (sent v ++ slice (Z.to_nat (pos v)) (Z.to_nat k) (body v)) (received v) (said v)
          else v
      | Read _ _ => fun r =>
          match r.1 with
          | Some l => View (pos v) (body v) (sent v) (received v ++ l) (said v)
          | None => v
          end
      | Write f buf => fun r =>
          let b := take (Z.to_nat r.1) buf in
          if f =? ctrl then View (pos v) (body v) (sent v) (received v) (said v ++ b)
          else if f =? fd then View (pos v + len b) (write_at (pos v) b (body v)) (sent v)
                                 (received v) (said v)
          else v
      | _ => fun _ => v
      end a
  end.

Fixpoint observe (h : list (io fsys)) : view :=
  match h with [] => View 0 content [] [] [] | e :: h' => observe1 e (observe h') end.
End Observer.

(** ** Sending a reply *)

Section Good.
Context (cfg : settings) (fuel : nat) (E : env fsys) (name content : list Z) (fd ctrl dfd : Z).
Abbreviation world := (world fsys sess).
Abbreviation obs := (observe content fd ctrl).

(** A system on which nothing fails: writes make progress, the client connects
    with descriptor [dfd], the file [name] opens with descriptor [fd], and no
    signal arrives. *)
Record good : Prop := Good {
  g_fds : fd <> ctrl /\ 0 <= fd /\ 0 <= dfd;
  g_write : forall h f buf, buf <> [] -> 0 < (E _ h (Write f buf)).1 <= len buf;
  g_time : forall h, is_Some (E _ h Gettimeofday);
  g_pending : forall h, E _ h Pending = NoSignal;
  g_select : forall h w f secs, (E _ h (Select w f secs)).1 = 1;
  g_accept : forall h f, E _ h (Accept f) = dfd;
  g_open : forall h b, E _ h (Open name b) = fd;
  g_lock : forall h f t, (E _ h (Setlk f t)).1 = 0;
  g_lseek : forall h f off wh, 0 <= E _ h (Lseek f off wh) /\ s32 (E _ h (Lseek f off wh)) <> -1;
  g_truncate : forall h f, E _ h (Ftruncate f) = 0;
}.

Context (HG : good).

(** Storing the rest of a buffer, at the control connection or in the file. *)
Definition wrote (f : Z) (b : list Z) (v : view) : view :=
  if f =? ctrl then View (pos v) (body v) (sent v) (received v) (said v ++ b)
  else if f =? fd then View (pos v + len b) (write_at (pos v) b (body v)) (sent v) (received v) (said v)
  else v.

Lemma splice_at_app p u v l : 0 <= p ->
  splice_at (p + len u) v (splice_at p u l) = splice_at p (u ++ v) l.
Proof.
  intros Hp. unfold splice_at. set (n := Z.to_nat p). rewrite !(app_assoc (take n l)).
  assert (Hpre : length (take n l ++ replicate (n - length l) 0) = n) by len.
  generalize dependent (take n l ++ replicate (n - length l) 0). intros pre Hpre.
  replace (Z.to_nat (p + len u)) with (length (pre ++ u)) by (unfold len; rewrite length_app; lia).
  rewrite (app_assoc pre u), take_app_length, !length_app.
  replace (length pre + length u - (length pre + length u + _))%nat with 0%nat by lia.
  cbn [replicate app]. rewrite <-!app_assoc. do 3 f_equal. rewrite app_assoc.
  rewrite drop_app_ge by (rewrite length_app; lia). rewrite drop_drop, length_app. f_equal. lia.
Qed.

Lemma write_at_app p u v l : 0 <= p -> write_at (p + len u) v (write_at p u l) = write_at p (u ++ v) l.
Proof.
  intros Hp. destruct u as [|a u']; [by rewrite Z.add_0_r|].
  destruct v as [|c v']; [by rewrite app_nil_r|].
  exact (splice_at_app p (a :: u') (c :: v') l Hp).
Qed.

Lemma wrote_app f u v w : 0 <= pos w -> wrote f v (wrote f u w) = wrote f (u ++ v) w.
Proof.
  intros Hp. unfold wrote. destruct (f =? ctrl); cbn [pos body sent received said].
  - by rewrite app_assoc.
  - destruct (f =? fd); [|done]. cbn [pos body sent received said]. rewrite write_at_app by done.
    f_equal. unfold len. rewrite length_app. lia.
Qed.

Lemma wrote_pos f b w : 0 <= pos w -> 0 <= pos (wrote f b w).
Proof. unfold wrote, len. destruct (f =? ctrl); [done|]. destruct (f =? fd); cbn; lia. Qed.

Lemma observe_write f buf n e h :
  obs (Ev (Write f buf) (n, e) :: h) = wrote f (take (Z.to_nat n) buf) (obs h).
Proof. reflexivity. Qed.

Lemma writen_runs f buf (w : world) : buf <> [] -> (length buf < fuel)%nat -> 0 <= pos (obs (hist w)) ->
  runs E (writen fuel f buf) w (fun r w' => r = len buf /\ loc w' = loc w /\
    obs (hist w') = wrote f buf (obs (hist w))).
Proof.
  intros Hne Hf Hp. unfold writen.
  apply (runs_iterM E _ (fun rest w' => loc w' = loc w /\
      (rest = buf /\ w' = w \/ exists u, buf = u ++ rest /\ obs (hist w') = wrote f u (obs (hist w))))
    (fun rest _ => length rest)); [|by split; [|left]|done].
  intros rest w' [Hl Hcase]. destruct rest as [|b rest].
  - rsteps. split; [done|]. split; [done|]. destruct Hcase as [[<- _]|(u & -> & ->)]; [done|].
    by rewrite app_nil_r.
  - apply runs_bind, runs_call. pose proof (g_write HG (hist w') f (b :: rest) ltac:(done)) as Hw.
    destruct (E _ (hist w') (Write f (b :: rest))) as [n e] eqn:Ha. cbn [fst] in Hw. cbn beta iota.
    rewrite (proj2 (Z.ltb_ge n 0)) by lia. apply runs_ret. cbn [loc hist].
    rewrite observe_write. set (c := take (Z.to_nat n) (b :: rest)).
    assert (Hsplit : b :: rest = c ++ drop (Z.to_nat n) (b :: rest)) by (symmetry; apply take_drop).
    split; [|rewrite length_drop; unfold len in Hw; cbn [length] in *; lia].
    split; [done|]. right. destruct Hcase as [[Hb ->]|(u & Hb & Ho)].
    + exists c. by rewrite <-Hb, <-Hsplit.
    + exists (u ++ c). rewrite Ho, wrote_app by done. by rewrite <-app_assoc, <-Hsplit.
Qed.

(** A line of a reply, and what is said. *)
Definition line (status : Z) (text : list Z) : list Z := dec status ++ [32] ++ text ++ CRLF.
Definition says (b : list Z) (v : view) : view :=
  View (pos v) (body v) (sent v) (received v) (said v ++ b).

Lemma relply_runs status text (w : world) :
  ctrl_fd (loc w) = ctrl -> len (line status text) < MAX_LINE -> (1024 < fuel)%nat ->
  0 <= pos (obs (hist w)) ->
  runs E (ftp_relply fuel status text) w (fun _ w' => loc w' = loc w /\
    obs (hist w') = says (line status text) (obs (hist w))).
Proof.
  intros Hc Hl Hf Hp. unfold ftp_relply, fits. fold (line status text).
  rewrite (proj2 (Z.ltb_lt _ _)) by done. apply runs_bind, runs_ret.
  unfold ctrl_write. apply runs_bind, runs_get, runs_bind. rewrite Hc. unfold MAX_LINE, len in Hl.
  eapply runs_mono; [apply writen_runs; [|lia|done]|].
  - unfold line, CRLF. intros Hn. apply (f_equal length) in Hn. rewrite !length_app in Hn. cbn in Hn. lia.
  - cbn beta. intros r w' (_ & Hl' & Ho). rsteps. split; [done|]. rewrite Ho. unfold wrote.
    by rewrite Z.eqb_refl.
Qed.

(** Calls that the observer does not see. *)
Definition unseen (w w' : world) : Prop := loc w' = loc w /\ obs (hist w') = obs (hist w).

Lemma gettime_runs (w : world) : runs E gettime w (fun _ w' => unseen w w').
Proof.
  unfold gettime. apply runs_bind, runs_call. destruct (g_time HG (hist w)) as [t ->]. by rsteps.
Qed.

Lemma signals_runs (w : world) : runs E (signals cfg fuel) w (fun _ w' => unseen w w').
Proof. unfold signals. apply runs_bind, runs_call. rewrite (g_pending HG). by rsteps. Qed.

Lemma lock_runs f t (w : world) : (0 < fuel)%nat ->
  runs E (lock_internal fuel f t) w (fun r w' => r = 0 /\ unseen w w').
Proof.
  intros Hf. unfold lock_internal. destruct fuel as [|n]; [lia|]. cbn [iterM].
  apply runs_bind, runs_bind, runs_call. pose proof (g_lock HG (hist w) f t) as Hl.
  destruct (E _ (hist w) (Setlk f t)) as [r e]. cbn in Hl. subst r. by rsteps.
Qed.

(** The clock of the rate limit. *)
Definition clocked (s s' : sess) : Prop := exists p a b,
  s' = s <| data_process := p |> <| bw_transfer_start_sec := a |> <| bw_transfer_start_usec := b |>.

Lemma start_clock_runs t (w : world) : runs E (start_clock t) w (fun _ w' =>
  clocked (loc w) (loc w') /\ hist w' = hist w).
Proof.
  apply runs_modify. split; [|done]. exists (data_process (loc w)), t.1, t.2. cbn. by destruct (loc w).
Qed.

Lemma clocked_refl s : clocked s s.
Proof. exists (data_process s), (bw_transfer_start_sec s), (bw_transfer_start_usec s). by destruct s. Qed.

Lemma clocked_trans s1 s2 s3 : clocked s1 s2 -> clocked s2 s3 -> clocked s1 s3.
Proof. intros (p & a & b & ->) (p' & a' & b' & ->). by exists p', a', b'. Qed.

(** At most 4 KiB in at least a microsecond: the rate fits 32 bits. *)
Lemma limit_rate_runs n (w : world) : 0 <= n <= 4096 -> bw_download_rate_max (loc w) <> 0 ->
  runs E (limit_rate n false) w (fun _ w' => clocked (loc w) (loc w') /\ obs (hist w') = obs (hist w)).
Proof.
  intros Hn Hr. unfold limit_rate. apply runs_bind, runs_modify, runs_bind.
  set (w0 := World _ _). eapply runs_mono; [apply gettime_runs|]. intros now w1 [Hl1 Ho1].
  assert (Hc1 : clocked (loc w) (loc w1)).
  { rewrite Hl1. exists 1, (bw_transfer_start_sec (loc w)), (bw_transfer_start_usec (loc w)).
    cbn. by destruct (loc w). }
  apply runs_bind, runs_get. set (e := (now.1 - _) * _ + _).
  set (elapsed := if e <=? 0 then 10000 else e).
  assert (He : 0 < elapsed) by (unfold elapsed; destruct (Z.leb_spec e 0); lia).
  set (bw_rate := Z.quot (n * 10 ^ 6) elapsed).
  assert (Hbw : 0 <= bw_rate < 2 ^ 32).
  { unfold bw_rate. split; [apply Z.quot_pos; lia|].
    apply (Z.le_lt_trans _ (n * 10 ^ 6)); [|lia]. apply Z.quot_le_upper_bound; nia. }
  rewrite (proj2 (Z.ltb_ge bw_rate 0)), (proj2 (Z.leb_gt (2 ^ 32) bw_rate)) by lia. cbn [orb].
  replace (bw_download_rate_max (loc w1)) with (bw_download_rate_max (loc w))
    by (by destruct Hc1 as (? & ? & ? & ->)).
  destruct (bw_rate <? _).
  - eapply runs_mono; [apply start_clock_runs|]. cbn beta. intros _ w2 [Hc2 ->].
    split; [by eapply clocked_trans|done].
  - rewrite (proj2 (Z.eqb_neq _ 0)) by done. apply runs_bind, runs_call, runs_bind.
    eapply runs_mono; [apply gettime_runs|]. intros now2 w2 [Hl2 Ho2].
    eapply runs_mono; [apply start_clock_runs|]. cbn beta. intros _ w3 [Hc3 ->].
    rewrite Hl2 in Hc3. split; [by eapply clocked_trans|]. by rewrite Ho2.
Qed.

(** ** Getting the data connection *)

Lemma runs_Done_eq {A B} (m : X A) a (w w' : world) (k : A -> X B) Q :
  m E w = Done a w' -> runs E (k a) w' Q -> runs E (m ≫= k) w Q.
Proof. intros Hm H. unfold runs, mbind, M_bind in *. by rewrite Hm. Qed.

Lemma select_runs w f secs (w0 : world) : (0 < fuel)%nat ->
  runs E (select_retry fuel w f secs) w0 (fun r w' => r = 1 /\ unseen w0 w').
Proof.
  intros Hf. unfold select_retry. destruct fuel as [|n]; [lia|]. cbn [iterM].
  apply runs_bind, runs_bind, runs_call. pose proof (g_select HG (hist w0) w f secs) as Hl.
  destruct (E _ (hist w0) (Select w f secs)) as [r e]. cbn in Hl. subst r. by rsteps.
Qed.

Lemma accept_runs f secs (w : world) : (0 < fuel)%nat ->
  runs E (accept_timeout fuel f secs) w (fun r w' => r = dfd /\ unseen w w').
Proof.
  intros Hf. unfold accept_timeout. apply runs_bind.
  apply (runs_mono _ _ _ (fun r w' => r = true /\ unseen w w')).
  - destruct (0 <? secs); [|by rsteps]. apply runs_bind.
    eapply runs_mono; [by apply select_runs|]. intros r w1 [-> Hw1]. by rsteps.
  - intros r w1 [-> [Hl Ho]]. apply runs_call. split; [apply HG|]. by split.
Qed.

(** The session with a data connection. *)
Definition connected (s : sess) : sess := s <| pasv_listen_fd := -1 |> <| data_fd := dfd |>.

(** What the helper leaves after PASV ACCEPT. *)
Lemma accept_op_runs (w : world) : listening (loc w) = true -> (0 < fuel)%nat ->
  runs E (privop_pasv_accept cfg fuel) w (fun _ w' =>
    loc w' = (loc w) <| pasv_listen_fd := -1 |>
      <| from_helper ::= fun q => (q ++ [Byte PRIV_SOCK_RESULT_OK]) ++ [Passed dfd] |> /\
    obs (hist w') = obs (hist w)).
Proof.
  intros Hlis Hf. unfold privop_pasv_accept. apply runs_bind, runs_get, runs_bind.
  eapply runs_mono; [by apply accept_runs|]. intros r w1 [-> [Hl1 Ho1]].
  apply runs_bind, runs_call, runs_bind, runs_modify.
  rewrite (proj2 (Z.eqb_neq dfd (-1))) by (destruct (g_fds HG); lia).
  unfold priv_sock_send_result, priv_sock_send_fd, helper_send.
  apply runs_bind, runs_modify, runs_bind, runs_modify, runs_call.
  cbn [loc hist observe observe1]. rewrite Hl1, Ho1. by destruct (loc w).
Qed.

Lemma accept_reply (s : sess) h : in_step s -> listening s = true -> (0 < fuel)%nat ->
  runs E (handle_parent cfg fuel) (World (s <| to_helper := [PRIV_SOCK_PASV_ACCEPT] |>) h) (fun _ w' =>
    loc w' = s <| pasv_listen_fd := -1 |> <| from_helper := [Byte PRIV_SOCK_RESULT_OK; Passed dfd] |> /\
    obs (hist w') = obs h).
Proof.
  intros [Hu Hd] Hlis Hf. destruct s as [a1 a2 a3 a4 a5 a6 a7 a8 a9 a10 a11 a12 a13 a14 a15 l u d].
  cbn in Hu, Hd. subst. unfold handle_parent.
  eapply (runs_Done_eq _ PRIV_SOCK_PASV_ACCEPT); [reflexivity|].
  change (if PRIV_SOCK_PASV_ACCEPT =? PRIV_SOCK_GET_DATA_SOCK then _ else _)
    with (privop_pasv_accept cfg fuel).
  eapply runs_mono; [by apply accept_op_runs|]. by cbn beta.
Qed.

Lemma session_read_now l d (w : world) : from_helper (loc w) = l ++ d ->
  session_read cfg fuel (length l) E w = Done l (World ((loc w) <| from_helper := d |>) (hist w)).
Proof.
  intros Hd. unfold session_read, mbind, M_bind, get, modify.
  rewrite bool_decide_eq_true_2 by (rewrite Hd, length_app; lia). cbn. rewrite Hd, take_app_length.
  rewrite bool_decide_eq_true_2 by done. cbn. do 2 f_equal. unfold set_field. cbn.
  by rewrite Hd, drop_app_length.
Qed.

Lemma session_read_asks l d (w w1 : world) : l <> [] -> from_helper (loc w) = [] ->
  handle_parent cfg fuel E w = Done tt w1 -> from_helper (loc w1) = l ++ d ->
  session_read cfg fuel (length l) E w = Done l (World ((loc w1) <| from_helper := d |>) (hist w1)).
Proof.
  intros Hl Hd Hp Hd1. rewrite <-(session_read_now l d w1 Hd1).
  unfold session_read, mbind, M_bind, get, modify.
  rewrite bool_decide_eq_false_2 by (rewrite Hd; destruct l; cbn; [done|lia]).
  rewrite bool_decide_eq_true_2 by (rewrite Hd1, length_app; lia). by rewrite Hp.
Qed.

Lemma get_pasv_fd_runs (w : world) : in_step (loc w) -> listening (loc w) = true -> (0 < fuel)%nat ->
  runs E (get_pasv_fd cfg fuel) w (fun r w' => r = true /\ loc w' = connected (loc w) /\
    obs (hist w') = obs (hist w)).
Proof.
  intros Hw Hlis Hf. pose proof (accept_reply (loc w) (hist w) Hw Hlis Hf) as Hrun.
  destruct w as [s h]. cbn [loc hist] in *. apply runs_ends in Hrun as ([] & [s1 h1] & Hrun & Hl1 & Ho1).
  cbn [loc hist] in *. destruct Hw as [Hu Hd].
  unfold get_pasv_fd, priv_sock_send_cmd, session_send.
  eapply runs_Done_eq; [reflexivity|]. cbn [loc hist].
  replace (s <| to_helper ::= _ |>) with (s <| to_helper := [PRIV_SOCK_PASV_ACCEPT] |>)
    by (destruct s; cbn in Hu |- *; by subst).
  unfold recv_data_fd, priv_sock_get_result. apply runs_bind.
  eapply runs_Done_eq.
  { apply (session_read_asks [Byte PRIV_SOCK_RESULT_OK] [Passed dfd] _ (World s1 h1)); [done|exact Hd|exact Hrun|].
    cbn [loc]. by rewrite Hl1. }
  apply runs_ret. change (s8 (byte_of (Byte PRIV_SOCK_RESULT_OK))) with PRIV_SOCK_RESULT_OK.
  change (PRIV_SOCK_RESULT_OK =? PRIV_SOCK_RESULT_BAD) with false. rewrite Z.eqb_refl.
  apply runs_bind. unfold priv_sock_recv_fd. eapply runs_Done_eq.
  { by apply (session_read_now [Passed dfd] []). }
  cbn beta iota. rewrite (proj2 (Z.eqb_neq dfd (-1))) by (destruct (g_fds HG); lia).
  rsteps. split; [done|]. cbn [loc hist]. rewrite Hl1, Ho1. split; [|done].
  destruct s. cbn in Hu, Hd. by subst.
Qed.

Lemma port_active_none n (w : world) : port_addr (loc w) = None ->
  port_active cfg fuel (S n) E w = Done false w.
Proof. intros Hp. rewrite port_active_S. unfold mbind, M_bind, get. by rewrite Hp. Qed.

Lemma pasv_active_yes n (w : world) : in_step (loc w) -> listening (loc w) = true ->
  port_addr (loc w) = None -> pasv_active cfg fuel (S (S n)) E w = Done true w.
Proof.
  intros Hw Hl Hp. rewrite pasv_active_listening, Hl by done.
  unfold mbind, M_bind. by rewrite port_active_none.
Qed.

(** After PASV: the client's connection is accepted. *)
Lemma get_transfer_fd_runs (w : world) : in_step (loc w) -> listening (loc w) = true ->
  port_addr (loc w) = None -> (2 <= fuel)%nat ->
  runs E (get_transfer_fd cfg fuel) w (fun r w' => r = true /\ loc w' = connected (loc w) /\
    obs (hist w') = obs (hist w)).
Proof.
  intros Hw Hlis Hp Hf. destruct fuel as [|[|n]] eqn:Hn; [lia..|]. rewrite <-Hn in *.
  assert (Hpa : port_active cfg fuel (S (S n)) E w = Done false w) by (by apply port_active_none).
  assert (Hpv : pasv_active cfg fuel (S (S n)) E w = Done true w) by (by apply pasv_active_yes).
  rewrite <-Hn in Hpa, Hpv. unfold get_transfer_fd.
  eapply runs_Done_eq; [exact Hpa|]. eapply runs_Done_eq; [exact Hpv|]. cbn [negb].
  eapply runs_Done_eq; [exact Hpa|]. apply runs_bind, runs_ret.
  eapply runs_Done_eq; [exact Hpv|]. apply runs_bind.
  eapply runs_mono; [apply get_pasv_fd_runs; try done; lia|]. intros r w1 (-> & Hl1 & Ho1).
  apply runs_bind, runs_modify. cbn [andb]. apply runs_bind. cbn [loc hist].
  assert (Hs : (loc w1) <| port_addr := None |> = connected (loc w)).
  { rewrite Hl1. destruct w as [s h]. cbn [loc] in *. destruct s. cbn in Hp. by subst. }
  unfold start_data_alarm. rewrite Hs.
  destruct (0 <? _); [by rsteps|]. destruct (0 <? _); by rsteps.
Qed.

(** ** The reply that opens a transfer *)

Definition opening (s : sess) (size : Z) : list Z := line FTP_DATACONN (opening_text s size).

Lemma announce_runs {A} s size (k : X A) (w : world) Q :
  ctrl_fd (loc w) = ctrl -> len (opening s size) < MAX_LINE -> (1024 < fuel)%nat ->
  0 <= pos (obs (hist w)) ->
  (forall w', clocked (loc w) (loc w') -> obs (hist w') = says (opening s size) (obs (hist w)) ->
    runs E k w' Q) ->
  runs E (text ← of_option (fits (2 * MAX_LINE) (opening_text s size));
    ftp_relply fuel FTP_DATACONN text;; now ← gettime; start_clock now;; k) w Q.
Proof.
  intros Hc Hl Hf Hp Hk. assert (Hfit : len (opening_text s size) < 2 * MAX_LINE).
  { revert Hl. unfold opening, line, len, MAX_LINE. rewrite !length_app. lia. }
  unfold fits. rewrite (proj2 (Z.ltb_lt _ _) Hfit). apply runs_bind, runs_ret, runs_bind.
  eapply runs_mono; [by apply relply_runs|]. cbn beta. intros _ w1 [Hl1 Ho1].
  apply runs_bind. eapply runs_mono; [apply gettime_runs|]. intros t w2 [Hl2 Ho2].
  apply runs_bind. eapply runs_mono; [apply start_clock_runs|]. cbn beta. intros _ w3 [Hc3 Ho3].
  rewrite Hl2, Hl1 in Hc3. apply Hk; [done|]. by rewrite Ho3, Ho2, Ho1.
Qed.

(** ** The end of a transfer *)

Definition transfer_ok : list Z := line FTP_TRANSFEROK (str "Transfer complete.").

Lemma end_transfer_runs f bf bn (w : world) : (1024 < fuel)%nat ->
  ctrl_fd (loc w) = ctrl -> abor_received (loc w) = 0 -> 0 <= pos (obs (hist w)) ->
  runs E (end_transfer cfg fuel f 0 bf bn) w (fun _ w' => loc w' = (loc w) <| data_fd := -1 |> /\
    obs (hist w') = says transfer_ok (obs (hist w))).
Proof.
  intros Hf Hc Ha Hp. unfold end_transfer. rsteps. cbn [loc hist].
  change (abor_received ((loc w) <| data_fd := -1 |>)) with (abor_received (loc w)). rewrite Ha.
  change ((0 =? 0) && (0 =? 0)) with true. cbn iota.
  eapply runs_mono; [apply relply_runs; [exact Hc|vm_compute; reflexivity|done|exact Hp]|].
  cbn beta. intros _ w' [Hl Ho]. unfold check_abor. apply runs_bind, runs_bind, runs_get.
  rewrite Hl. change (abor_received (loc _)) with (abor_received (loc w)). rewrite Ha, Z.eqb_refl.
  apply runs_ret. unfold start_cmdio_alarm. destruct (0 <? _); rsteps; by split.
Qed.

(** The session after PASV, with restart position [off]. *)
Record after_pasv (off : Z) (s : sess) : Prop := After_pasv {
  a_step : in_step s;
  a_listening : listening s = true;
  a_port : port_addr s = None;
  a_ctrl : ctrl_fd s = ctrl;
  a_abor : abor_received s = 0;
  a_off : restart_pos s = off;
  a_pos : 0 <= off;
}.

(** ** RETR *)

Section Download.
Context (sb : fstat_t) (link dir : list Z).

(** The file is regular and [content] is what it holds; [sendfile] makes
    progress while there is something to send; the server's own directory is
    [dir] (the array behind the link happens to be clear). *)
Record served : Prop := Served {
  s_stat : forall h, body (obs h) = content -> (E _ h (FstatCall fd)).2 = sb;
  s_reg : S_ISREG (st_mode sb) = true;
  s_size : st_size sb = len content;
  s_send : forall h n, 0 < n -> pos (obs h) + n <= len content ->
    0 < E _ h (Sendfile dfd fd n) <= n;
  s_clear : forall h n i, E _ h (Local n) i = 0;
  s_link : forall h n, E _ h (Readlink (str "/proc/self/exe") n) = Some link;
  s_short : len link < 1024 /\ no_nul link;
  s_dir : cut_last_slash link = Some dir;
}.
Context (HS : served).

Lemma retr_loop_runs off sd (w : world) : 0 <= off -> (Z.to_nat (len content) < fuel)%nat ->
  bw_download_rate_max (loc w) <> 0 -> abor_received (loc w) = 0 ->
  data_fd (loc w) = dfd -> obs (hist w) = View off content [] [] sd ->
  runs E (iterM fuel (retr_step cfg fuel fd) (if len content <? off then 0 else len content - off, 0)) w
    (fun r w' => r = (0, 0) /\ clocked (loc w) (loc w') /\ exists p,
      0 <= p /\ obs (hist w') = View p content (drop (Z.to_nat off) content) [] sd).
Proof.
  intros Hoff Hf Hr Ha Hd Ho. set (L := if len content <? off then 0 else len content - off).
  assert (HL : 0 <= L <= len content /\ (0 < L -> L = len content - off)).
  { unfold L. destruct (Z.ltb_spec (len content) off); unfold len in *; lia. }
  apply (runs_iterM E _ (fun a w' => a.2 = 0 /\ 0 <= a.1 <= L /\ clocked (loc w) (loc w') /\
      obs (hist w') = View (off + (L - a.1)) content
        (take (Z.to_nat (L - a.1)) (drop (Z.to_nat off) content)) [] sd)
    (fun a _ => Z.to_nat a.1)).
  - intros [b flag] w' (Hfl & Hb & Hc & Hob). cbn [fst snd] in *. subst flag. unfold retr_step.
    destruct (Z.leb_spec b 0) as [Hb0|Hb0].
    + assert (b = 0) by lia. subst b. apply runs_ret. split; [done|]. split; [done|].
      rewrite Z.sub_0_r in Hob. exists (off + L). split; [lia|]. rewrite Hob. f_equal.
      apply take_ge. rewrite length_drop. unfold L, len in *.
      destruct (Z.ltb_spec (Z.of_nat (length content)) off); lia.
    + set (n := if 4 * MAX_LINE <? b then 4 * MAX_LINE else b).
      assert (Hn : 0 < n <= b /\ n <= 4096).
      { unfold n, MAX_LINE. destruct (Z.ltb_spec (4 * 1024) b); lia. }
      apply runs_bind, runs_get, runs_bind, runs_call.
      replace (data_fd (loc w')) with dfd by (by destruct Hc as (? & ? & ? & ->)).
      pose proof (s_send HS (hist w') n) as Hs. rewrite Hob in Hs. cbn [pos] in Hs.
      specialize (Hs ltac:(lia) ltac:(lia)). set (k := E _ _ _) in *.
      rewrite (proj2 (Z.eqb_neq k (-1))) by lia. apply runs_bind.
      set (w1 := World _ _). assert (Hr1 : bw_download_rate_max (loc w1) <> 0).
      { change (bw_download_rate_max (loc w') <> 0). by destruct Hc as (? & ? & ? & ->). }
      eapply runs_mono; [apply limit_rate_runs; [lia|exact Hr1]|]. intros _ w2 [Hc2 Ho2].
      apply runs_bind. eapply runs_mono; [apply signals_runs|]. intros _ w3 [Hl3 Ho3].
      apply runs_bind, runs_get.
      assert (Hc3 : clocked (loc w) (loc w3)) by (rewrite Hl3; by eapply clocked_trans).
      replace (abor_received (loc w3)) with (abor_received (loc w))
        by (by destruct Hc3 as (? & ? & ? & ->)).
      rewrite Ha. cbn [Z.eqb negb]. apply runs_ret. cbn [fst snd].
      split; [|lia]. split; [done|]. split; [lia|]. split; [done|].
      rewrite Ho3, Ho2. unfold w1. cbn [hist observe observe1]. rewrite Hob, Z.eqb_refl.
      cbn [pos body sent received said]. f_equal; [lia|].
      unfold slice. replace (Z.to_nat (off + (L - b))) with (Z.to_nat off + Z.to_nat (L - b))%nat by lia.
      rewrite <-drop_drop, take_take_drop. f_equal. lia.
  - cbn [fst snd]. split; [done|]. split; [lia|]. split; [apply clocked_refl|].
    rewrite Ho. f_equal; [lia|]. by rewrite Z.sub_diag.
  - cbn [fst]. lia.
Qed.

Lemma retr_path_runs (w : world) : name = dir ++ [47] ++ cmd_arg (loc w) ->
  len name < 1024 -> head (cmd_arg (loc w)) <> Some 47 ->
  runs E retr_path w (fun r w' => r = name /\ unseen w w').
Proof.
  intros Hname Hn Hh. destruct (s_short HS) as [Hs Hnn]. unfold retr_path, self_exe.
  apply runs_bind, runs_bind, runs_call, runs_bind, runs_call. cbn [hist].
  rewrite (s_link HS).
  replace (map _ (seq 0 1024)) with (replicate 1024 0).
  2: { rewrite <-(map_ext (fun _ => 0)) by (intros; symmetry; apply HS). reflexivity. }
  unfold len in Hs. rewrite wr_zeros by lia. apply runs_bind, runs_ret.
  rewrite (c_string_in link).
  2: { split; [done|]. exists (replicate (1023 - length link) 0).
       replace (1024 - length link)%nat with (S (1023 - length link)) by lia. reflexivity. }
  apply runs_bind, runs_ret, runs_ret, runs_bind. rewrite (s_dir HS). apply runs_ret, runs_bind, runs_get.
  cbn [loc]. rewrite bool_decide_eq_false_2 by done. rewrite <-Hname. unfold fits.
  rewrite (proj2 (Z.ltb_lt _ _)) by done. apply runs_ret. by split.
Qed.

(** RETR after PASV, on a system on which nothing fails. *)
Lemma do_retr_runs (w : world) off : after_pasv off (loc w) ->
  bw_download_rate_max (loc w) <> 0 ->
  name = dir ++ [47] ++ cmd_arg (loc w) -> len name < 1024 -> head (cmd_arg (loc w)) <> Some 47 ->
  len (opening (loc w) (len content)) < MAX_LINE -> (1024 + length content < fuel)%nat ->
  let v := obs (hist w) in
  runs E (do_retr cfg fuel) w (fun _ w' => data_fd (loc w') = -1 /\
    sent (obs (hist w')) = drop (Z.to_nat off) content /\
    said (obs (hist w')) = said v ++ opening (loc w) (len content) ++ transfer_ok).
Proof.
  intros [Hin Hlis Hport Hctrl Habor Hoff Hoff0] Hrate Hname Hlen Hslash Hline Hfuel v.
  unfold do_retr. apply runs_bind. eapply runs_mono; [apply get_transfer_fd_runs; [done..|lia]|].
  cbn beta. intros r w1 (-> & Hl1 & Ho1). cbn [negb].
  apply runs_bind. eapply runs_mono; [apply retr_path_runs; rewrite ?Hl1; done|].
  cbn beta. intros p w2 (-> & Hl2 & Ho2). rewrite Hl1 in Hl2.
  apply runs_bind, runs_get, runs_bind, runs_modify, runs_bind, runs_call. cbn [hist].
  rewrite (g_open HG), (proj2 (Z.eqb_neq fd (-1))) by (destruct (g_fds HG); lia).
  apply runs_bind. unfold lock_file_read.
  eapply runs_mono; [apply lock_runs; lia|]. cbn beta. intros r w3 (-> & Hl3 & Ho3).
  change (0 =? -1) with false. cbn iota. apply runs_bind, runs_call.
  pose proof (s_stat HS (hist w3)) as Hst.
  rewrite Ho3 in Hst. cbn [hist observe observe1] in Hst. rewrite Z.eqb_refl in Hst. specialize (Hst eq_refl). destruct (E _ (hist w3) (FstatCall fd)) as [sr sb'] eqn:Hfs.
  cbn [snd] in Hst. subst sb'. rewrite (s_reg HS). cbn [negb].
  replace (restart_pos (loc w2)) with off by (by rewrite Hl2).
  set (w4 := World _ _).
  assert (Hs4 : loc w4 = (connected (loc w)) <| restart_pos := 0 |>).
  { unfold w4. cbn [loc]. rewrite Hl3. cbn [loc]. by rewrite Hl2. }
  assert (Ho4 : obs (hist w4) = View 0 content [] [] (said v)).
  { unfold w4. cbn [hist observe observe1]. rewrite Ho3. cbn [hist observe observe1].
    rewrite Z.eqb_refl, Ho2, Ho1. reflexivity. }
  apply runs_bind.
  apply (runs_mono _ _ _ (fun r w' => r <> -1 /\ loc w' = loc w4 /\
    obs (hist w') = View off content [] [] (said v))).
  { destruct (Z.eqb_spec off 0) as [->|Hne]; [by apply runs_ret|].
    apply runs_bind, runs_call, runs_ret. split; [apply HG|]. split; [done|].
    cbn [hist observe observe1]. by rewrite Ho4, Z.eqb_refl. }
  intros sought w5 (Hso & Hl5 & Ho5). rewrite (proj2 (Z.eqb_neq sought (-1))) by done.
  apply runs_bind, runs_get. rewrite (s_size HS).
  replace (opening_text (loc w5) (len content)) with (opening_text (loc w) (len content))
    by (by rewrite Hl5, Hs4).
  apply announce_runs; [by rewrite Hl5, Hs4|done|lia|by rewrite Ho5|].
  rewrite Hl5, Hs4, Ho5. intros w8 (a & b & c & Hl8) Ho8. apply runs_bind.
  eapply runs_mono; [apply (retr_loop_runs off (said v ++ opening (loc w) (len content)));
    rewrite ?Hl8; try done; unfold len; lia|].
  cbn beta. intros r9 w9 (-> & (a9 & b9 & c9 & Hl9) & q & Hq & Ho9).
  cbn beta iota. change (if 0 =? 0 then 0 else 0) with 0.
  eapply runs_mono; [apply end_transfer_runs; [lia|by rewrite Hl9, Hl8|by rewrite Hl9, Hl8|by rewrite Ho9]|].
  cbn beta. intros _ w10 [Hl10 Ho10]. rewrite Hl10, Ho10, Ho9. cbn [says said sent].
  split; [done|]. split; [done|]. by rewrite <-app_assoc.
Qed.
End Download.

(** ** STOR and APPE *)

Section Upload.
Context (data : list Z).

(** [fstat] tells the size of the file, and the reads of the data connection
    answer [data] piece by piece, then the end. *)
Record arriving : Prop := Arriving {
  u_stat : forall h, st_size (E _ h (FstatCall fd)).2 = len (body (obs h));
  u_read : forall h rest n, data = received (obs h) ++ rest -> exists l rest' e,
    E _ h (Read dfd n) = (Some l, e) /\ rest = l ++ rest' /\ (l = [] -> rest = []);
}.
Context (HU : arriving).

(** Where the bytes go and what the file holds before they arrive. *)
Definition upload_start (is_append : bool) (offset : Z) : Z * list Z :=
  if is_append then (len content, content)
  else if offset =? 0 then (0, []) else (offset, content).

Lemma upload_position_runs is_append off sd (w : world) :
  obs (hist w) = View 0 content [] [] sd ->
  runs E (upload_position fd off is_append) w (fun r w' => r = None /\ loc w' = loc w /\
    obs (hist w') = View (upload_start is_append off).1 (upload_start is_append off).2 [] [] sd).
Proof.
  intros Ho. unfold upload_position, upload_start.
  destruct is_append; cbn [negb andb fst snd]; [|destruct (Z.eqb_spec off 0); cbn [fst snd]].
  2: apply runs_bind, runs_call; rewrite (g_truncate HG); change (0 <? 0) with false; cbn iota.
  all: apply runs_bind, runs_call; match goal with |- context[E _ ?h (Lseek ?f ?o ?wh)] =>
    rewrite (proj2 (Z.ltb_ge (E _ h (Lseek f o wh)) 0)) by apply HG end; apply runs_ret;
    split; [done|]; split; [done|]; cbn [hist observe observe1]; by rewrite Z.eqb_refl, Ho.
Qed.

Lemma upload_loop_runs start base sd (w : world) : 0 <= start -> (length data < fuel)%nat ->
  abor_received (loc w) = 0 -> data_fd (loc w) = dfd ->
  obs (hist w) = View start base [] [] sd ->
  runs E (iterM fuel (upload_step cfg fuel fd) tt) w (fun r w' => r = 0 /\ loc w' = loc w /\
    obs (hist w') = View (start + len data) (write_at start data base) [] data sd).
Proof.
  intros Hst Hf Ha Hd Ho.
  apply (runs_iterM E _ (fun _ w' => loc w' = loc w /\ exists got rest, data = got ++ rest /\
      obs (hist w') = View (start + len got) (write_at start got base) [] got sd)
    (fun _ w' => (length data - length (received (obs (hist w'))))%nat)).
  - intros [] w' (Hl & got & rest & Hdata & How). unfold upload_step.
    apply runs_bind, runs_get, runs_bind, runs_call. rewrite Hl, Hd.
    destruct (u_read HU (hist w') rest (1024 * 1024)) as (l & rest' & e & -> & -> & Hend).
    { by rewrite How. }
    apply runs_bind. eapply runs_mono; [apply signals_runs|]. intros _ w1 [Hl1 Ho1].
    cbn [hist observe observe1 fst] in Ho1. rewrite How in Ho1.
    cbn [pos body sent received said] in Ho1. cbn [loc] in Hl1.
    destruct l as [|b l].
    + apply runs_ret. split; [done|]. split; [done|]. rewrite Ho1, app_nil_r.
      assert (rest' = []) by (by apply Hend). subst rest'. rewrite !app_nil_r in Hdata. by subst got.
    + apply runs_bind, runs_get. rewrite Hl1, Ha. cbn [Z.eqb negb]. apply runs_bind.
      assert (Hlen : (length (b :: l) < fuel)%nat).
      { rewrite Hdata in Hf. rewrite !length_app in Hf. lia. }
      eapply runs_mono; [apply writen_runs; [done|done|rewrite Ho1; cbn; unfold len; lia]|].
      cbn beta. intros n w2 (-> & Hl2 & Ho2). rewrite Z.eqb_refl. apply runs_ret.
      rewrite Ho1 in Ho2. unfold wrote in Ho2.
      rewrite (proj2 (Z.eqb_neq fd ctrl)), Z.eqb_refl in Ho2 by apply HG.
      cbn [pos body sent received said] in Ho2. rewrite write_at_app in Ho2 by done.
      rewrite Ho2, How. cbn [received]. split; [|rewrite Hdata; len].
      split; [by rewrite Hl2, Hl1|]. exists (got ++ b :: l), rest'. split; [by rewrite <-app_assoc|].
      f_equal. unfold len. rewrite length_app. lia.
  - split; [done|]. exists [], data. split; [done|]. rewrite Ho. cbn [len length].
    by rewrite Z.add_0_r.
  - rewrite Ho. cbn [received length]. lia.
Qed.

(** STOR or APPE after PASV, on a system on which nothing fails. *)
Lemma upload_runs is_append (w : world) off : after_pasv off (loc w) -> name = cmd_arg (loc w) ->
  let start := (upload_start is_append off).1 in
  let base := (upload_start is_append off).2 in
  len (opening (loc w) (len base)) < MAX_LINE -> (1024 + length data < fuel)%nat ->
  let v := obs (hist w) in
  runs E (upload_common cfg fuel is_append) w (fun _ w' => data_fd (loc w') = -1 /\
    body (obs (hist w')) = write_at start data base /\
    said (obs (hist w')) = said v ++ opening (loc w) (len base) ++ transfer_ok).
Proof.
  intros [Hin Hlis Hport Hctrl Habor Hoff Hoff0] Hname start base Hline Hfuel v.
  assert (Hst : 0 <= start).
  { unfold start, upload_start. destruct is_append; [unfold len; cbn; lia|].
    destruct (off =? 0); cbn; lia. }
  unfold upload_common. apply runs_bind. eapply runs_mono; [apply get_transfer_fd_runs; [done..|lia]|].
  cbn beta. intros r w1 (-> & Hl1 & Ho1). cbn [negb].
  apply runs_bind, runs_get, runs_bind, runs_modify, runs_bind, runs_call. cbn [hist].
  rewrite Hl1. change (cmd_arg (connected (loc w))) with (cmd_arg (loc w)).
  rewrite <-Hname, (g_open HG), (proj2 (Z.eqb_neq fd (-1))) by (destruct (g_fds HG); lia).
  change (restart_pos (connected (loc w))) with (restart_pos (loc w)). rewrite Hoff.
  apply runs_bind. unfold lock_file_write.
  eapply runs_mono; [apply lock_runs; lia|]. cbn beta. intros r w3 (-> & Hl3 & Ho3).
  cbn [loc hist observe observe1] in Hl3, Ho3. rewrite Z.eqb_refl, Ho1 in Ho3.
  change (0 =? -1) with false. cbn iota.
  apply runs_bind. eapply runs_mono; [by apply upload_position_runs|].
  cbn beta. intros bad w4 (-> & Hl4 & Ho4). fold start base in Ho4. cbn iota.
  apply runs_bind, runs_call. pose proof (u_stat HU (hist w4)) as Hsb.
  destruct (E _ (hist w4) (FstatCall fd)) as [sr sb] eqn:Hfs. cbn [snd] in Hsb.
  rewrite Ho4 in Hsb. cbn [body] in Hsb. apply runs_bind, runs_get. cbn [loc].
  rewrite Hl4, Hl3, Hsb.
  change (opening_text _ (len base)) with (opening_text (loc w) (len base)).
  apply announce_runs; [exact Hctrl|done|lia|cbn [hist observe observe1]; by rewrite Ho4|].
  cbn [loc hist observe observe1]. rewrite Ho4. intros w8 (a & b & c & Hl8) Ho8. apply runs_bind.
  eapply runs_mono; [apply (upload_loop_runs start base (said v ++ opening (loc w) (len base)));
    rewrite ?Hl8; try done; lia|].
  cbn beta. intros r9 w9 (-> & Hl9 & Ho9).
  eapply runs_mono; [apply end_transfer_runs; [lia|by rewrite Hl9, Hl8|by rewrite Hl9, Hl8|rewrite Ho9; unfold len; cbn; lia]|].
  cbn beta. intros _ w10 [Hl10 Ho10]. rewrite Hl10, Ho10, Ho9. cbn [says said body].
  split; [done|]. split; [done|]. by rewrite <-app_assoc.
Qed.
End Upload.
End Good.

(** ** The theorems *)

Lemma after_pasv_arg ctrl off s arg : after_pasv ctrl off s ->
  after_pasv ctrl off (s <| cmd_arg := arg |>).
Proof. by intros []. Qed.

(** C23: RETR sends the file.  After PASV, with a limit of the download rate other than 0, on a system on which nothing fails
    and whose stack array for [readlink] happens to be zero,
    the command opens the file named by the client in the directory of the
    program and sends exactly its bytes from the restart position, in whatever
    pieces [sendfile] takes them and whatever the rate limit waits for; the
    client is told 150, then 226, and the data connection is given up.  With the rate 0 that the shipped
    configuration sets the first block divides by zero. *)
Theorem retr_sends_the_file cfg fuel E name content fd ctrl dfd sb link dir off arg w :
  good E name fd ctrl dfd -> served E content fd ctrl dfd sb link dir ->
  after_pasv ctrl off (loc w) -> bw_download_rate_max (loc w) <> 0 ->
  name = dir ++ [47] ++ arg -> len name < 1024 -> head arg <> Some 47 ->
  len (opening ((loc w) <| cmd_arg := arg |>) (len content)) < MAX_LINE ->
  (1024 + length content < fuel)%nat ->
  runs E (run_command cfg fuel (str "RETR") arg) w (fun _ w' => data_fd (loc w') = -1 /\
    sent (observe content fd ctrl (hist w')) = drop (Z.to_nat off) content /\
    said (observe content fd ctrl (hist w')) = said (observe content fd ctrl (hist w)) ++
      opening ((loc w) <| cmd_arg := arg |>) (len content) ++ transfer_ok).
Proof.
  intros HG HS Ha Hr Hname Hlen Hslash Hline Hf. unfold run_command. apply runs_bind, runs_modify.
  change (dispatch (str "RETR")) with (Run FtpCmd.do_retr).
  exact (do_retr_runs cfg fuel E name content fd ctrl dfd HG sb link dir HS
    (World ((loc w) <| cmd_arg := arg |>) (hist w)) off (after_pasv_arg _ _ _ _ Ha)
    Hr Hname Hlen Hslash Hline Hf).
Qed.

(** C24: STOR and APPE store the data.  After PASV, on a system on which nothing
    fails, the bytes that arrive on the data connection, in whatever pieces,
    are what the file holds afterwards: alone after STOR, at the restart
    position after REST and STOR, behind the old bytes after APPE; the client
    is told 150, then 226. *)
Theorem upload_stores_the_data cfg fuel E name content fd ctrl dfd data (is_append : bool) off w :
  good E name fd ctrl dfd -> arriving E content fd ctrl dfd data ->
  after_pasv ctrl off (loc w) ->
  let start := (upload_start content is_append off).1 in
  let base := (upload_start content is_append off).2 in
  len (opening ((loc w) <| cmd_arg := name |>) (len base)) < MAX_LINE ->
  (1024 + length data < fuel)%nat ->
  runs E (run_command cfg fuel (str (if is_append then "APPE" else "STOR")) name) w (fun _ w' =>
    data_fd (loc w') = -1 /\
    body (observe content fd ctrl (hist w')) = write_at start data base /\
    said (observe content fd ctrl (hist w')) = said (observe content fd ctrl (hist w)) ++
      opening ((loc w) <| cmd_arg := name |>) (len base) ++ transfer_ok).
Proof.
  intros HG HU Ha start base Hline Hf. unfold run_command. apply runs_bind, runs_modify.
  pose proof (upload_runs cfg fuel E name content fd ctrl dfd HG data HU is_append
    (World ((loc w) <| cmd_arg := name |>) (hist w)) off (after_pasv_arg _ _ _ _ Ha)
    eq_refl Hline Hf) as H.
  destruct is_append; exact H.
Qed.

(** ** Concrete systems and sessions *)

(** A system that writes at most three bytes at a time, sends at most four and
    delivers [data] four bytes at a time. *)
Definition demo (content data : list Z) : env fsys := fun A h c =>
  match c in fsys B return B with
  | Write _ buf => (Z.min 3 (len buf), 0)
  | Read _ _ => (Some (take 4 (drop (length (received (observe content 5 0 h))) data)), 0)
  | Open _ _ => 5
  | Setlk _ _ | Connect _ _ _ => (0, 0)
  | FstatCall _ => (0, Fstat_t 0x81a4 1 0 0 (len (body (observe content 5 0 h))) 0)
  | Lseek _ _ _ | Ftruncate _ | Chdir _ | Mkdir _ | Rmdir _ | Unlink _ | Rename _ _ | Chmod _ _
  | Setegid _ | Seteuid _ | Setown | Socket | Bind _ _ _ | Getflags _ | Setflags _ _ => 0
  | Sendfile _ _ n => Z.min 4 n
  | Close _ | Umask _ | Shutdown _ _ | Alarm _ | Nanosleep _ | Setsockopt _ | Listen _ => tt
  | StatCall _ | Lstat _ => None
  | Readlink _ _ => Some (str "/data/qlog")
  | Getcwd _ | Getspnam _ | Crypt _ _ | Inet_pton _ | Gethostbyname _ | LocalIp => None
  | Opendir => None
  | Getpwnam _ => None
  | Getpwuid _ => None
  | Gettimeofday => Some (len h, 0)
  | Strftime _ _ => []
  | Pending => NoSignal
  | Malloc _ => true
  | Local _ => fun _ => 0
  | Getsockname _ | Getsockopt _ => None
  | Accept _ => 9
  | Select _ _ _ => (1, 0)
  end.

Definition demo_settings : settings := Settings 63 300 900 60 60 (str "127.0.0.1").

(** A session after PASV, with restart position [off]. *)
Definition demo_sess (off : Z) : sess :=
  Sess 0 0 [] None (-1) 0 0 4096 0 0 0 off None 0 1 7 [] [].

Definition demo_file : list Z := str "hello world".

Lemma demo_good content data name : good (demo content data) name 5 0 9.
Proof.
  split; try done.
  intros h f buf Hb. cbn [demo fst]. destruct buf; [done|]. unfold len. cbn [length]. lia.
Qed.

Lemma demo_ready off : 0 <= off -> after_pasv 0 off (demo_sess off).
Proof. by split. Qed.

Lemma demo_served content : served (demo content []) content 5 0 9
  (Fstat_t 0x81a4 1 0 0 (len content) 0) (str "/data/qlog") (str "/data").
Proof.
  split; try done.
  - intros h Hb. cbn [demo snd]. by rewrite Hb.
  - intros h n Hn _. cbn [demo]. lia.
  - split; [done|]. by apply (bool_decide_unpack (no_nul (str "/data/qlog"))); vm_compute.
Qed.

Lemma demo_arriving content data : arriving (demo content data) content 5 0 9 data.
Proof.
  split; [done|]. intros h rest n Hd. exists (take 4 rest), (drop 4 rest), 0.
  cbn [demo]. rewrite Hd, drop_app_length. split; [done|]. split; [by rewrite take_drop|].
  by destruct rest.
Qed.

Lemma retr_sends_the_file_witness :
  runs (demo demo_file []) (run_command demo_settings 2000 (str "RETR") (str "log"))
    (World (demo_sess 6) []) (fun _ w' => data_fd (loc w') = -1 /\
    sent (observe demo_file 5 0 (hist w')) = str "world" /\
    said (observe demo_file 5 0 (hist w')) =
      opening ((demo_sess 6) <| cmd_arg := str "log" |>) 11 ++ transfer_ok).
Proof.
  refine (retr_sends_the_file demo_settings 2000 _ (str "/data/log") demo_file 5 0 9 _ _ _ 6
    (str "log") (World (demo_sess 6) []) (demo_good _ _ _) (demo_served _) (demo_ready _ _) _ _ _ _ _ _).
  all: first [lia | done | vm_compute; reflexivity | cbn; lia].
Defined.

Lemma upload_stores_the_data_witness :
  runs (demo demo_file (str "there")) (run_command demo_settings 2000 (str "STOR") (str "log"))
    (World (demo_sess 6) []) (fun _ w' => data_fd (loc w') = -1 /\
    body (observe demo_file 5 0 (hist w')) = str "hello there" /\
    said (observe demo_file 5 0 (hist w')) =
      opening ((demo_sess 6) <| cmd_arg := str "log" |>) 11 ++ transfer_ok).
Proof.
  refine (upload_stores_the_data demo_settings 2000 _ (str "log") demo_file 5 0 9 (str "there") false 6
    (World (demo_sess 6) []) (demo_good _ _ _) (demo_arriving _ _) (demo_ready _ _) _ _).
  all: first [lia | done | vm_compute; reflexivity | cbn; lia].
Defined.

(** The client has sent PASV, then PORT. *)
Lemma both_modes_recurse_witness :
  port_active demo_settings 2000 5000 (demo [] [])
    (World ((demo_sess 0) <| port_addr := Some ([4; 1], [127; 0; 0; 1]) |>) []) = NoFuel.
Proof. by apply both_modes_recurse. Defined.
