(* ===== verification/Disk.v ===== *)
(** Files by their names: what a sequence of opens, writes and closes leaves on
    a disk.  A component that creates files tells which of its calls are which
    operation; its theorems then speak of the content of the files that have
    a name at the end, so that a second file of the same name, which empties
    the first one, is seen. *)

From Stdlib Require Import ZArith Lia.
From stdpp Require Import base list gmap.
From S2P Require Import Prelude.

(** [Created] is [open] with O_CREAT and O_TRUNC, with its answer. *)
Inductive file_op : Type :=
| Created (path : list Z) (fd : Z)
| Written (fd : Z) (data : list Z)
| Closed (fd : Z).

(** The content of each name, and the name behind each descriptor. *)
Record disk : Type := Disk {
  content : gmap (list Z) (list Z);
  behind : gmap Z (list Z);
}.
Definition empty_disk : disk := Disk ∅ ∅.

Definition apply_op (o : file_op) (d : disk) : disk :=
  match o with
  | Created path fd =>
      if fd <? 0 then d else Disk (<[path := []]> (content d)) (<[fd := path]> (behind d))
  | Written fd data =>
      match behind d !! fd with
      | Some path => Disk (alter (fun old => old ++ data) path (content d)) (behind d)
      | None => d
      end
  | Closed fd => Disk (content d) (delete fd (behind d))
  end.

Section Disk.
Context {sys : Type -> Type} (op : forall A, sys A -> A -> option file_op).

(** Histories are newest first. *)
Fixpoint disk_after (h : list (io sys)) : disk :=
  match h with
  | [] => empty_disk
  | Ev c a :: h => match op _ c a with Some o => apply_op o (disk_after h) | None => disk_after h end
  end.

(** The names in the order of their creation, newest first. *)
Fixpoint created (h : list (io sys)) : list (list Z) :=
  match h with
  | [] => []
  | Ev c a :: h =>
      match op _ c a with
      | Some (Created path fd) => if fd <? 0 then created h else path :: created h
      | _ => created h
      end
  end.

(** What the created files hold at the end, newest first. *)
Definition stored_files (h : list (io sys)) : list (option (list Z)) :=
  map (fun p => content (disk_after h) !! p) (created h).

(** [fd] leads to the newest file. *)
Definition newest (fd : Z) (h : list (io sys)) : Prop :=
  exists p, behind (disk_after h) !! fd = Some p /\ head (created h) = Some p.

(** No two files had the same name. *)
Definition apart (h : list (io sys)) : Prop := NoDup (created h).
#[export] Instance apart_dec h : Decision (apart h).
Proof. unfold apart. apply _. Defined.

(** ** The operations on the list of files *)

Lemma stored_quiet A (c : sys A) a h : op A c a = None ->
  stored_files (Ev c a :: h) = stored_files h /\ created (Ev c a :: h) = created h /\
  disk_after (Ev c a :: h) = disk_after h.
Proof. intros H. unfold stored_files. cbn. by rewrite H. Qed.

Lemma stored_create A (c : sys A) a h path fd : op A c a = Some (Created path fd) -> 0 <= fd ->
  created (Ev c a :: h) = path :: created h /\ newest fd (Ev c a :: h) /\
  (apart (Ev c a :: h) -> stored_files (Ev c a :: h) = Some [] :: stored_files h).
Proof.
  intros H Hfd. unfold newest, stored_files, apart. cbn. rewrite H. cbn. destruct (Z.ltb_spec fd 0); [lia|]. cbn.
  split; [done|]. split.
  - exists path. by rewrite lookup_insert_eq.
  - intros Hn. apply NoDup_cons in Hn as [Hp _]. rewrite lookup_insert_eq. f_equal.
    apply map_ext_in. intros q Hq%list_elem_of_In. apply lookup_insert_ne. by intros ->.
Qed.

Lemma stored_write A (c : sys A) a h fd data f fs : op A c a = Some (Written fd data) ->
  apart h -> newest fd h -> stored_files h = Some f :: fs ->
  stored_files (Ev c a :: h) = Some (f ++ data) :: fs.
Proof.
  intros H Hn (p & Hp & Hc) Hs. unfold stored_files in *. cbn. rewrite H. cbn. rewrite Hp. cbn. unfold apart in Hn.
  destruct (created h) as [|q l]; [done|]. injection Hc as ->. cbn in Hs |- *. injection Hs as Hf <-.
  apply NoDup_cons in Hn as [Hq _]. rewrite lookup_alter_eq, Hf. cbn. f_equal.
  apply map_ext_in. intros r Hr%list_elem_of_In. apply lookup_alter_ne. by intros ->.
Qed.

Lemma newest_write A (c : sys A) a h fd data fd' : op A c a = Some (Written fd data) ->
  newest fd' h -> newest fd' (Ev c a :: h).
Proof.
  intros H (p & Hp & Hc). exists p. cbn. rewrite H. cbn. by destruct (behind _ !! fd).
Qed.

Lemma created_write A (c : sys A) a h fd data : op A c a = Some (Written fd data) ->
  created (Ev c a :: h) = created h.
Proof. intros H. cbn. by rewrite H. Qed.

Lemma stored_close A (c : sys A) a h fd : op A c a = Some (Closed fd) ->
  created (Ev c a :: h) = created h /\ stored_files (Ev c a :: h) = stored_files h.
Proof. intros H. unfold stored_files. cbn. by rewrite H. Qed.

Lemma newest_quiet A (c : sys A) a h fd : op A c a = None -> newest fd h -> newest fd (Ev c a :: h).
Proof. intros H (p & Hp & Hc). exists p. cbn. by rewrite H. Qed.
End Disk.
