(* ===== verification/Qserver.v ===== *)
(** The server mode of the log tool (src/qserver.c): the ports of option -S, a
    thread per port that stores what its clients send, and the files. *)

From Stdlib Require Import ZArith Lia.
From stdpp Require Import base list strings.
From S2P Require Import Prelude Disk Str CText.

(** ** Calls and variables *)

(** [Open] creates or truncates a file; [TimeName] is [qlog_time_name(1)];
    [Read] answers what [read] stored, [None] for -1; [StartThread flag] creates
    and detaches [server_thread]; [ExitRequested] reads [qlog_exit_requested],
    which a signal sets; [FileFds] reads [file_fds] where the threads have run
    since; the address of a client is only printed. *)
Inductive qsys : Type -> Type :=
| TimeName : qsys (option (list Z))
| Open (path : list Z) : qsys Z
| Write (fd : Z) (buf : list Z) : qsys Z
| Read (fd size : Z) : qsys (option (list Z))
| Close (fd : Z) : qsys unit
| Socket : qsys Z
| SetReuse (fd : Z) : qsys Z
| Bind (fd port : Z) : qsys Z
| Listen (fd backlog : Z) : qsys Z
| Accept (fd : Z) : qsys Z
| Sleep (secs : Z) : qsys unit
| StartThread (flag : Z) : qsys Z
| CancelThread (flag : Z) : qsys unit
| ExitRequested : qsys bool
| FileFds : qsys (list Z).

Record QServer : Type := MkQServer {
  dm_server_port : Z;
  qdss_server_port : Z;
  adpl_server_port : Z;
  file_path : list Z;
  file_size : Z;
  file_num : Z;
}.
#[export] Instance eta_QServer : Eta QServer := fun s =>
  MkQServer (dm_server_port s) (qdss_server_port s) (adpl_server_port s) (file_path s) (file_size s)
    (file_num s).

(** One entry for each type in the three lists. *)
Record qst : Type := Qst {
  g_qserver : QServer;
  file_fds : list Z;
  data_len : list Z;
  file_nums : list Z;
}.
#[export] Instance eta_qst : Eta qst := fun s =>
  Qst (g_qserver s) (file_fds s) (data_len s) (file_nums s).

Definition DM_TYPE : Z := 0.
Definition QDSS_TYPE : Z := 1.
Definition ADPL_TYPE : Z := 2.

Abbreviation Q := (M qsys qst).

(** ** The ports *)

Definition set_port (check_int port : Z) (q : QServer) : QServer :=
  if check_int =? 0 then q <| dm_server_port := port |>
  else if check_int =? 1 then q <| qdss_server_port := port |>
  else q <| adpl_server_port := port |>.

Fixpoint take_ports (check_int : Z) (tokens : list (list Z)) (q : QServer) : QServer :=
  match tokens with
  | [] => q
  | token :: rest =>
      if 2 <? check_int then q
      else take_ports (check_int + 1) rest (set_port check_int (u32 (strtol token)) q)
  end.

(** [copy] is the answer of [strdup]; [strtok] of NULL is undefined here. *)
Definition parserServerPort (copy : option (list Z)) (q : QServer) : option QServer :=
  s ← copy; Some (take_ports 0 (tokens 45 s) q).

(** ** Files *)

Definition file_suffix (flag : Z) : list Z :=
  if flag =? 0 then str ".qmdl" else if flag =? 1 then str "_qdss.bin" else str ".adplv".

(** The test of [file_path] and the two names. *)
Definition server_file (path shortname : list Z) (flag : Z) : list Z :=
  match path with
  | [] => path ++ str "/" ++ shortname ++ file_suffix flag
  | _ => str "./" ++ shortname ++ file_suffix flag
  end.

Definition initFile (flag : Z) : Q unit :=
  if (flag <? 0) || (2 <? flag) then mret tt else
  t ← call TimeName;
  t ← of_option t;
  s ← get;
  fd ← call (Open (server_file (file_path (g_qserver s)) (take 80 t) flag));
  modify (fun s => s <| file_fds ::= <[Z.to_nat flag := fd]> |>).

Definition at_type (l : list Z) (flag : Z) : Z := nth (Z.to_nat flag) l 0.

(** [sizeof(buf)] is the size of a pointer. *)
Definition qWrite2File (buf : list Z) (size flag : Z) : Q Z :=
  if (flag <? 0) || (2 <? flag) then mret 1 else
  s ← get;
  out ← of_option (rd_bytes 0 (Z.to_nat (if flag =? 0 then size else 8)) buf);
  r ← call (Write (at_type (file_fds s) flag) out);
  let ret := s32 r in
  if ret <? 0 then mret ret else
  modify (fun s => s <| data_len ::= <[Z.to_nat flag := u64 (at_type (data_len s) flag + ret)]> |>);;
  s ← get;
  (if file_size (g_qserver s) <? at_type (data_len s) flag then
     call (Close (at_type (file_fds s) flag));;
     modify (fun s => s <| file_fds ::= <[Z.to_nat flag := -1]> |>);;
     initFile flag;;
     modify (fun s => s <| file_nums ::= <[Z.to_nat flag := u64 (at_type (file_nums s) flag + 1)]> |>)
   else mret tt);;
  mret 1.

(** ** The threads *)

Definition BUFFER_SIZE : Z := 1024.

(** The reads of one client; the buffer with its NUL goes on. *)
Definition client_turn (client_fd type : Z) (buffer : list Z) : Q (list Z + list Z) :=
  r ← call (Read client_fd (BUFFER_SIZE - 1));
  match r with
  | None => mret (inr buffer)
  | Some [] => mret (inr buffer)
  | Some data =>
      buffer ← of_option (wr 0 (data ++ [0]) buffer);
      ret ← qWrite2File buffer (len data) type;
      if ret <? 0 then mret (inr buffer) else mret (inl buffer)
  end.

Definition serve_turn (fuel : nat) (server_fd type : Z) (buffer : list Z) : Q (list Z + unit) :=
  e ← call ExitRequested;
  if (e : bool) then mret (inr tt) else
  client_fd ← call (Accept server_fd);
  if client_fd <? 0 then mret (inl buffer) else
  buffer ← iterM fuel (client_turn client_fd type) buffer;
  call (Close client_fd);;
  call (Sleep 2);;
  mret (inl buffer).

(** [type] is what [arg] points to when the thread looks, [buffer] what its
    stack holds. *)
Definition server_thread (fuel : nat) (type : Z) (buffer : list Z) : Q unit :=
  s ← get;
  let port := if type =? 0 then dm_server_port (g_qserver s)
              else if type =? 1 then qdss_server_port (g_qserver s)
              else if type =? 2 then adpl_server_port (g_qserver s) else 0 in
  server_fd ← call Socket;
  if server_fd <? 0 then exit_ 1 else
  r ← call (SetReuse server_fd);
  if negb (r =? 0) then call (Close server_fd);; exit_ 1 else
  r ← call (Bind server_fd (u16 port));
  if r <? 0 then call (Close server_fd);; exit_ 1 else
  r ← call (Listen server_fd 3);
  if r <? 0 then call (Close server_fd);; exit_ 1 else
  iterM fuel (serve_turn fuel server_fd type) buffer;;
  call (Close server_fd).

Definition initSocket (flag : Z) : Q unit :=
  if (flag <? 0) || (2 <? flag) then mret tt else
  r ← call (StartThread flag);
  if negb (r =? 0) then exit_ 1 else mret tt.

Definition start_type (flag : Z) (port : QServer -> Z) : Q unit :=
  s ← get;
  if 0 <? port (g_qserver s) then initFile flag;; initSocket flag else mret tt.
Definition cancel_type (flag : Z) (port : QServer -> Z) : Q unit :=
  s ← get;
  if 0 <? port (g_qserver s) then call (CancelThread flag) else mret tt.

Definition wait_exit (fuel : nat) : Q unit :=
  iterM fuel (fun _ : unit =>
    e ← call ExitRequested;
    if (e : bool) then mret (inr tt) else call (Sleep 10);; mret (inl tt)) tt.

Definition qSocketServerHandle (fuel : nat) : Q Z :=
  start_type 0 dm_server_port;;
  start_type 1 qdss_server_port;;
  start_type 2 adpl_server_port;;
  wait_exit fuel;;
  cancel_type 0 dm_server_port;;
  cancel_type 1 qdss_server_port;;
  cancel_type 2 adpl_server_port;;
  fds ← call FileFds;
  call (Close (at_type fds 0));;
  call (Close (at_type fds 1));;
  call (Close (at_type fds 2));;
  mret 0.

(** ** What reaches the files *)

(** What [qWrite2File] is to store of each read: of a port other than the first
    the beginning of the buffer. *)
Fixpoint pieces (flag : Z) (buffer : list Z) (reads : list (list Z)) : list (list Z) :=
  match reads with
  | [] => []
  | data :: rest =>
      let buffer := put 0 (data ++ [0]) buffer in
      (if flag =? 0 then data else take 8 buffer) :: pieces flag buffer rest
  end.

(** The files that the pieces fill when [total] bytes have been counted before
    and [cur] is in the file that is open. *)
Fixpoint filled (limit total : Z) (cur : list Z) (ps : list (list Z)) : list (list Z) :=
  match ps with
  | [] => [cur]
  | p :: ps =>
      let total := total + len p in
      if limit <? total then (cur ++ p) :: filled limit total [] ps else filled limit total (cur ++ p) ps
  end.

(** The calls that change the disk: [Open] has O_CREAT and O_TRUNC, and a write
    stores as many bytes as it answers. *)
Definition disk_op : forall A, qsys A -> A -> option file_op := fun A c =>
  match c in qsys A return A -> option file_op with
  | Open path => fun fd => Some (Created path fd)
  | Write fd data => fun r => Some (Written fd (take (Z.to_nat r) data))
  | Close fd => fun _ => Some (Closed fd)
  | _ => fun _ => None
  end.

Fixpoint count_reads (h : list (io qsys)) : nat :=
  match h with
  | [] => 0
  | Ev c _ :: h => (match c with Read _ _ => 1 | _ => 0 end + count_reads h)%nat
  end.

(** Files can be opened, written and named, and the client sends [reads]. *)
Record obliging (E : env qsys) (client_fd : Z) (reads : list (list Z)) : Prop := {
  ob_open h path : 0 <= E _ h (Open path);
  ob_write h fd b : E _ h (Write fd b) = len b;
  ob_name h : exists t, E _ h TimeName = Some t;
  ob_read h : E _ h (Read client_fd 1023) = Some (nth (count_reads h) reads []);
}.

Definition sent (data : list Z) : Prop := (0 < length data <= 1023)%nat.

#[local] Arguments at_type : simpl never.
#[local] Arguments initFile : simpl never.

Section Server.
Context (E : env qsys) (client_fd flag : Z) (Hflag : 0 <= flag <= 2).
Abbreviation world := (world qsys qst).
Implicit Types w : world.

Definition fd_now (w : world) : Z := at_type (file_fds (loc w)) flag.
Definition total_now (w : world) : Z := at_type (data_len (loc w)) flag.
Definition limit (w : world) : Z := file_size (g_qserver (loc w)).
Definition wf (w : world) : Prop := length (file_fds (loc w)) = 3%nat /\ length (data_len (loc w)) = 3%nat.

(** The files that were created since [older], the last one of [fs] being open:
    this is what they hold if no two have the same name. *)
Definition holding (w : world) (older : list (option (list Z))) (fs : list (list Z)) : Prop :=
  newest disk_op (fd_now w) (hist w) /\
  (apart disk_op (hist w) -> stored_files disk_op (hist w) = map Some (rev fs) ++ older).

Lemma holding_quiet A (c : qsys A) a w w' older fs : disk_op A c a = None ->
  hist w' = Ev c a :: hist w -> loc w' = loc w -> holding w older fs -> holding w' older fs.
Proof.
  intros H Hh Hl [Hn Hs]. destruct (stored_quiet disk_op A c a (hist w) H) as (H1 & H2 & _).
  unfold holding, apart, fd_now. rewrite Hh, Hl, H1, H2. split; [by apply newest_quiet|done].
Qed.

Lemma holding_write fd data w s older fs cur : fd = fd_now w -> at_type (file_fds s) flag = fd ->
  holding w older (fs ++ [cur]) ->
  holding (World s (Ev (Write fd data) (len data) :: hist w)) older (fs ++ [cur ++ data]).
Proof.
  intros -> Hs [Hn Hf]. assert (Hop : disk_op Z (Write (fd_now w) data) (len data) = Some (Written (fd_now w) data)).
  { cbn. unfold len. by rewrite Nat2Z.id, firstn_all. }
  split; [unfold fd_now at 1; cbn [loc hist]; rewrite Hs; by eapply newest_write|]. cbn [hist].
  unfold apart. rewrite (created_write disk_op Z _ _ _ _ _ Hop). intros Ha. specialize (Hf Ha).
  rewrite rev_app_distr in Hf |- *. cbn [rev app map] in Hf |- *.
  exact (stored_write disk_op Z _ _ _ _ _ _ _ Hop Ha Hn Hf).
Qed.

Lemma holding_reopen w s path fd' t old u older fs :
  holding w older fs -> at_type (file_fds s) flag = fd' -> 0 <= fd' ->
  holding (World s (Ev (Open path) fd' :: Ev TimeName t :: Ev (Close old) u :: hist w)) older (fs ++ [[]]).
Proof.
  intros [_ Hf] Hs Hfd. set (h := Ev TimeName t :: _).
  destruct (stored_close disk_op unit (Close old) u (hist w) old eq_refl) as [Hc Hst].
  destruct (stored_create disk_op Z (Open path) fd' h path fd' eq_refl Hfd) as (Hcr & Hn & Hst').
  split; [unfold fd_now; cbn [loc hist]; by rewrite Hs|]. cbn [hist]. intros Ha. rewrite (Hst' Ha).
  unfold apart in Ha. rewrite Hcr in Ha. apply NoDup_cons in Ha as [_ Ha].
  change (stored_files disk_op h) with (stored_files disk_op (Ev (Close old) u :: hist w)).
  change (created disk_op h) with (created disk_op (Ev (Close old) u :: hist w)) in Ha.
  rewrite Hst, Hf by (unfold apart; by rewrite <-Hc). by rewrite rev_app_distr.
Qed.

(** [piece] is stored between the two worlds. *)
Definition stored (piece : list Z) (w w' : world) : Prop :=
  wf w' /\ limit w' = limit w /\ total_now w' = total_now w + len piece /\
  count_reads (hist w') = count_reads (hist w) /\
  forall older fs cur, holding w older (fs ++ [cur]) ->
    holding w' older (if limit w <? total_now w' then fs ++ [cur ++ piece; []] else fs ++ [cur ++ piece]).

Lemma at_type_insert l z : length l = 3%nat -> at_type (<[Z.to_nat flag := z]> l) flag = z.
Proof.
  intros Hl. unfold at_type. rewrite nth_lookup, list_lookup_insert_eq by lia. done.
Qed.

Lemma not_outside : (flag <? 0) || (2 <? flag) = false.
Proof. lia. Qed.

Lemma write_runs reads w buf size piece :
  obliging E client_fd reads -> wf w ->
  rd_bytes 0 (Z.to_nat (if flag =? 0 then size else 8)) buf = Some piece -> len piece < 2 ^ 31 ->
  0 <= total_now w -> total_now w + len piece < 2 ^ 64 ->
  runs E (qWrite2File buf size flag) w (fun r w' => r = 1 /\ stored piece w w').
Proof.
  intros [Hop Hwr Hname _] [Hf Hd] Hp Hl H0 Ht. unfold qWrite2File. rewrite not_outside. cbn.
  rsteps. eapply runs_of_option; [exact Hp|]. rsteps. rewrite Hwr.
  assert (H31 : s32 (len piece) = len piece) by (unfold s32; rewrite Z.mod_small; unfold len in *; lia).
  rewrite H31. destruct (Z.ltb_spec (len piece) 0) as [?|_]; [unfold len in *; lia|].
  assert (Hu : u64 (at_type (data_len (loc w)) flag + len piece) = total_now w + len piece)
    by (unfold u64; rewrite Z.mod_small; unfold total_now, len in *; lia).
  rsteps. cbn. rewrite at_type_insert, Hu by done.
  destruct (Z.ltb_spec (file_size (g_qserver (loc w))) (total_now w + len piece)) as [Hb|Hb].
  - rsteps. cbn. unfold initFile. rewrite not_outside.
    rsteps. match goal with |- context [E _ ?h TimeName] => destruct (Hname h) as [t ->] end.
    rsteps. eapply runs_of_option; [reflexivity|]. rsteps. cbn.
    set (name := server_file _ _ _).
    split; [done|]. split; [split; cbn; by rewrite !length_insert|]. split; [done|].
    unfold total_now, fd_now, limit. cbn. rewrite !at_type_insert by (by rewrite ?length_insert).
    split; [reflexivity|].
    split; [reflexivity|]. intros older fs cur Hh.
    unfold total_now in Hb. rewrite (proj2 (Z.ltb_lt _ _) Hb).
    change [cur ++ piece; []] with ([cur ++ piece] ++ [[]]). rewrite app_assoc.
    apply (holding_reopen (World (loc w) (Ev (Write (fd_now w) piece) (len piece) :: hist w)));
      [by apply (holding_write _ _ w)|by cbn; rewrite at_type_insert by (by rewrite ?length_insert)|apply Hop].
  - rsteps. split; [done|]. split; [split; cbn; by rewrite ?length_insert|]. split; [done|].
    unfold total_now, fd_now, limit. cbn. rewrite !at_type_insert by done.
    split; [reflexivity|]. split; [reflexivity|]. intros older fs cur Hh.
    unfold total_now in Hb. rewrite (proj2 (Z.ltb_ge _ _) Hb). by apply (holding_write _ _ w).
Qed.

Lemma length_put_front (data : list Z) buffer :
  sent data -> length buffer = 1024%nat ->
  wr 0 (data ++ [0]) buffer = Some (put 0 (data ++ [0]) buffer) /\
  length (put 0 (data ++ [0]) buffer) = 1024%nat.
Proof.
  unfold sent. intros Hs Hb. split; [apply wr_fits|rewrite length_put; [done|]]; len.
Qed.

Lemma piece_read (data : list Z) buffer : sent data -> length buffer = 1024%nat ->
  let buffer' := put 0 (data ++ [0]) buffer in
  let piece := if flag =? 0 then data else take 8 buffer' in
  rd_bytes 0 (Z.to_nat (if flag =? 0 then len data else 8)) buffer' = Some piece /\ len piece < 1024.
Proof.
  intros Hs Hb. destruct (length_put_front data buffer Hs Hb) as [_ Hl]. cbn zeta. unfold sent in Hs.
  rewrite rd_bytes_fits by (destruct (flag =? 0); [unfold len|]; lia). destruct (Z.eqb_spec flag 0).
  - split; [|unfold len; lia]. unfold len. rewrite Nat2Z.id. f_equal. unfold slice, put. rewrite drop_0.
    rewrite take_0. cbn [app]. rewrite <-app_assoc. by apply take_app_length.
  - split; [done|]. unfold len. rewrite length_take. lia.
Qed.

Lemma client_turn_runs reads w buffer data :
  obliging E client_fd reads -> wf w -> length buffer = 1024%nat -> sent data ->
  reads !! count_reads (hist w) = Some data ->
  0 <= total_now w -> total_now w + 1024 < 2 ^ 64 ->
  runs E (client_turn client_fd flag buffer) w (fun r w' => exists w1,
    hist w1 = Ev (Read client_fd 1023) (Some data) :: hist w /\ loc w1 = loc w /\
    r = inl (put 0 (data ++ [0]) buffer) /\
    stored (if flag =? 0 then data else take 8 (put 0 (data ++ [0]) buffer)) w1 w').
Proof.
  intros Ho Hw Hb Hs Hd H0 Ht. unfold client_turn. rsteps.
  rewrite (ob_read _ _ _ Ho), (nth_lookup_Some _ _ _ _ Hd).
  destruct data as [|b data]; [unfold sent in Hs; cbn in Hs; lia|].
  destruct (length_put_front (b :: data) buffer Hs Hb) as [Hwr Hl]. apply runs_bind.
  eapply runs_of_option; [exact Hwr|]. destruct (piece_read (b :: data) buffer Hs Hb) as [Hp Hlp].
  apply runs_bind. set (w1 := World _ _) in |- *.
  assert (Htw : total_now w1 = total_now w) by done.
  eapply runs_mono; [apply (write_runs reads w1 _ _ _ Ho Hw Hp); lia|].
  intros r w' [-> Hst]. apply runs_ret. by exists w1.
Qed.

Lemma reads_run (reads : list (list Z)) : Forall sent reads -> obliging E client_fd reads ->
  forall (rest : list (list Z)) fuel w buffer older fs cur, drop (count_reads (hist w)) reads = rest ->
  (length rest < fuel)%nat -> wf w -> length buffer = 1024%nat ->
  0 <= total_now w -> total_now w + 1024 * (1 + len rest) < 2 ^ 64 ->
  holding w older (fs ++ [cur]) ->
  runs E (iterM fuel (client_turn client_fd flag) buffer) w (fun _ w' =>
    holding w' older (fs ++ filled (limit w) (total_now w) cur (pieces flag buffer rest))).
Proof.
  intros Hs Ho rest. induction rest as [|data rest IH]; intros fuel w buffer older fs cur Hr Hf Hw Hb H0 Ht Hold;
    (destruct fuel as [|fuel]; [cbn in Hf; lia|]); cbn [iterM]; apply runs_bind.
  - unfold client_turn. apply runs_bind, runs_call. rewrite (ob_read _ _ _ Ho).
    rewrite nth_overflow by (apply (f_equal length) in Hr; rewrite length_drop in Hr; cbn in Hr; lia).
    apply runs_ret, runs_ret. cbn beta.
    by apply (holding_quiet _ (Read client_fd 1023) (Some []) w).
  - assert (Hd : reads !! count_reads (hist w) = Some data)
      by (rewrite <-(Nat.add_0_r (count_reads _)), <-lookup_drop, Hr; done).
    assert (Hsd : sent data) by (eapply Forall_lookup_1; eauto).
    cbn [length] in Hf. unfold len in Ht. cbn [length] in Ht.
    eapply runs_mono; [apply (client_turn_runs reads); try done; lia|].
    intros r w' (w1 & Hh1 & Hl1 & -> & Hw' & Hlim & Htot & Hc & Hsv).
    destruct (length_put_front data buffer Hsd Hb) as [_ Hl].
    destruct (piece_read data buffer Hsd Hb) as [_ Hp]. cbn zeta in Hp.
    cbn [pieces filled]. set (piece := if flag =? 0 then data else _) in *.
    assert (Hlp : 0 <= len piece) by (unfold len; lia).
    assert (Htw : total_now w1 = total_now w) by (unfold total_now; by rewrite Hl1).
    assert (Hlw : limit w1 = limit w) by (unfold limit; by rewrite Hl1).
    assert (Hold1 : holding w1 older (fs ++ [cur])) by (by apply (holding_quiet _ (Read client_fd 1023) (Some data) w)).
    specialize (Hsv _ _ _ Hold1). rewrite Htw, Hlw in *.
    assert (Hr' : drop (count_reads (hist w')) reads = rest).
    { rewrite Hc, Hh1. cbn [count_reads].
      replace (1 + count_reads (hist w))%nat with (count_reads (hist w) + 1)%nat by lia.
      by rewrite <-drop_drop, Hr. }
    assert (Ht' : total_now w' + 1024 * (1 + len rest) < 2 ^ 64) by (unfold len; lia).
    rewrite <-Htot. destruct (limit w <? total_now w').
    + replace (fs ++ [cur ++ piece; []]) with ((fs ++ [cur ++ piece]) ++ [[]]) in Hsv by (by rewrite <-app_assoc).
      eapply runs_mono; [apply (IH fuel w' (put 0 (data ++ [0]) buffer) older (fs ++ [cur ++ piece]) [] Hr'); try done; lia|].
      intros ? w2 Hh2. rewrite Hlim, <-app_assoc in Hh2. exact Hh2.
    + eapply runs_mono; [apply (IH fuel w' (put 0 (data ++ [0]) buffer) older fs (cur ++ piece) Hr'); try done; lia|].
      intros ? w2 Hh2. rewrite Hlim in Hh2. exact Hh2.
Qed.

End Server.

Lemma filled_over limit (ps : list (list Z)) : forall total cur p, limit < total ->
  filled limit total cur (p :: ps) = (cur ++ p) :: ps ++ [[]].
Proof.
  induction ps as [|q ps IH]; intros total cur p Ht; cbn [filled].
  - destruct (Z.ltb_spec limit (total + len p)); [done|unfold len in *; lia].
  - assert (H : limit < total + len p) by (unfold len; lia).
    rewrite (proj2 (Z.ltb_lt _ _) H). f_equal. by apply (IH _ [] q).
Qed.

(** ** The property *)

(** C40: the files of the server mode.  What a client of a port sends goes to
    the files of the port read by read: all of it on the first port, the first
    eight bytes of the buffer on the others.  A file ends when more bytes have
    been counted than the limit, and since the count is never reset every read
    after that opens a file of its own.  This is what the files hold that have
    the names, if files can be opened and written and no two of them were opened
    in the same second: a name has the second of its creation, and a second
    file of a name empties the first one. *)
Theorem server_files_exact E client_fd flag reads fuel (w : world qsys qst) buffer older :
  0 <= flag <= 2 -> obliging E client_fd reads -> wf w -> length buffer = 1024%nat ->
  Forall sent reads -> count_reads (hist w) = O ->
  0 <= total_now flag w -> total_now flag w + 1024 * (1 + len reads) < 2 ^ 64 ->
  (length reads < fuel)%nat ->
  newest disk_op (fd_now flag w) (hist w) -> stored_files disk_op (hist w) = Some [] :: older ->
  runs E (iterM fuel (client_turn client_fd flag) buffer) w (fun _ w' =>
    let ps := pieces flag buffer reads in
    let files := filled (limit w) (total_now flag w) [] ps in
    (apart disk_op (hist w') -> stored_files disk_op (hist w') = map Some (rev files) ++ older) /\
    (flag = 0 -> ps = reads) /\
    (limit w < total_now flag w -> reads <> [] -> files = ps ++ [[]])).
Proof.
  intros Hf Ho Hw Hb Hs Hc H0 Ht Hfu Hn Hst.
  assert (Hp : flag = 0 -> pieces flag buffer reads = reads).
  { intros ->. clear. revert buffer. induction reads as [|d l IH]; intros buffer; cbn; [done|]. f_equal. apply IH. }
  eapply runs_mono; [apply (reads_run E client_fd flag Hf reads Hs Ho reads fuel w buffer older [] []); try done|].
  { by rewrite Hc, drop_0. }
  intros _ w' [_ Hsv]. cbn zeta. split; [exact Hsv|]. split; [done|].
  intros Hl Hr. destruct reads as [|d l]; [done|]. cbn [pieces] in *.
  by rewrite filled_over.
Qed.

(** A QDSS client that sends twelve bytes twice, with a limit that has been
    passed; the seconds pass. *)
Definition demo_data (z : Z) : list Z := [z; z + 1; z + 2; z + 3; z + 4; z + 5; z + 6; z + 7; z + 8; z + 9; z + 10; z + 11].
Definition demo_client : env qsys := fun A h c =>
  match c in qsys A return A with
  | TimeName => Some (str "20240101_" ++ print_d (100000 + len h))
  | Open _ => 9
  | Write _ b => len b
  | Read _ _ => Some (nth (count_reads h) [demo_data 10; demo_data 50] [])
  | Close _ => tt
  | Socket => 3
  | SetReuse _ => 0
  | Bind _ _ => 0
  | Listen _ _ => 0
  | Accept _ => 4
  | Sleep _ => tt
  | StartThread _ => 0
  | CancelThread _ => tt
  | ExitRequested => false
  | FileFds => [0; 0; 0]
  end.
Definition demo_world : world qsys qst :=
  World (Qst (MkQServer 9000 9001 0 (str "logs") 2097152 512) [5; 6; 0] [0; 2097153; 0] [0; 1; 0])
    [Ev (Open (server_file (str "logs") (str "20240101_000000") 1)) 6; Ev TimeName (Some (str "20240101_000000"))].
Definition zero_buffer : list Z := replicate (Z.to_nat 1024) 0.

Lemma server_files_exact_witness :
  runs demo_client (iterM 3 (client_turn 4 1) zero_buffer) demo_world (fun _ w' =>
    apart disk_op (hist w') -> stored_files disk_op (hist w') =
      [Some []; Some [50; 51; 52; 53; 54; 55; 56; 57]; Some [10; 11; 12; 13; 14; 15; 16; 17]]) /\
  match iterM 3 (client_turn 4 1) zero_buffer demo_client demo_world with
  | Done _ w' => bool_decide (apart disk_op (hist w')) = true
  | _ => False
  end.
Proof.
  split; [|by vm_compute]. eapply runs_mono.
  - apply (server_files_exact demo_client 4 1 [demo_data 10; demo_data 50] 3 demo_world zero_buffer []).
    + lia.
    + split; [done|done| |done]. intros h. by eexists.
    + done.
    + unfold zero_buffer. rewrite length_replicate. lia.
    + by repeat constructor; cbn; lia.
    + done.
    + done.
    + done.
    + cbn. lia.
    + eexists. by vm_compute.
    + by vm_compute.
  - intros _ w' (Hsv & _). intros Ha. etransitivity; [exact (Hsv Ha)|]. by vm_compute.
Defined.
