(* ===== verification/Options.v ===== *)
(** The options of the log tool (src/main.c: parser_tcp, parser_tftp, parser_ftp,
    parser_args) and the tests that tell the chip of a module from its USB ids
    (drv_is_asr and its siblings). *)

From Stdlib Require Import ZArith Lia.
From stdpp Require Import base list strings.
From S2P Require Import Prelude Str CText Qserver.

Definition LOGFILE_SIZE_MIN : Z := 2 * 1024 * 1024.
Definition LOGFILE_SIZE_MAX : Z := 512 * 1024 * 1024.
Definition LOGFILE_SIZE_DEFAULT : Z := 256 * 1024 * 1024.
Definition LOGFILE_NUM : Z := 512.

(** ** Calls and variables *)

(** [LinkTarget] is what a symbolic link holds, [None] where [readlink] answers
    -1; [TftpTestServer] is [tftp_test_server]. *)
Inductive osys : Type -> Type :=
| LinkTarget (path : list Z) : osys (option (list Z))
| TftpTestServer (ip : list Z) : osys Z
| Strdup (s : list Z) : osys (option (list Z))
| QlogUsage : osys unit.

(** What [struct arguments] holds of the command line. *)
Record arguments : Type := Arguments_ {
  ttyDM : list Z;
  ttyGENERAL : list Z;
  logdir : list Z;
  logfile_num : Z;
  logfile_sz : Z;
  filter_cfg : option (list Z);
  delete_logs : option (list Z);
}.
#[export] Instance eta_arguments : Eta arguments := fun s =>
  Arguments_ (ttyDM s) (ttyGENERAL s) (logdir s) (logfile_num s) (logfile_sz s) (filter_cfg s) (delete_logs s).

(** [g_ftp] says that the three pointers of the FTP server lead to the buffers;
    [g_tcp_client_ip] is a buffer, too. *)
Record opts : Type := Opts {
  args : arguments;
  g_tcp_server_port : Z;
  g_tcp_client_port : Z;
  g_tcp_client_ip : list Z;
  g_tftp_server_ip : option (list Z);
  g_ftp : bool;
  g_ftp_server_ip_temp : list Z;
  g_ftp_server_usr_temp : list Z;
  g_ftp_server_pass_temp : list Z;
  s_logfile_num : Z;
  g_use_mapping_port : Z;
  g_use_mapping_path : list Z;
  g_use_qserver : Z;
  g_qserver : QServer;
  query_panic_addr : Z;
  modem_name_para : list Z;
  qlog_continue : Z;
  qlog_ignore_exx00u_ap : Z;
  qlog_only_read_pcie_or_usb_diag_log : Z;
  qlog_read_com_data : Z;
  exit_after_usb_disconnet : Z;
  g_module_from_ecm_2_rndis : Z;
  qlog_read_nmea_log : Z;
  g_ignore_capture_qdb_file : Z;
  g_kill_qlog : Z;
  g_ttyAT : list Z;
  g_send_at_flag : Z;
  g_use_compress_cmd : Z;
}.
#[export] Instance eta_opts : Eta opts := fun s =>
  Opts (args s) (g_tcp_server_port s) (g_tcp_client_port s) (g_tcp_client_ip s) (g_tftp_server_ip s)
    (g_ftp s) (g_ftp_server_ip_temp s) (g_ftp_server_usr_temp s) (g_ftp_server_pass_temp s)
    (s_logfile_num s) (g_use_mapping_port s) (g_use_mapping_path s) (g_use_qserver s) (g_qserver s)
    (query_panic_addr s) (modem_name_para s) (qlog_continue s) (qlog_ignore_exx00u_ap s)
    (qlog_only_read_pcie_or_usb_diag_log s) (qlog_read_com_data s) (exit_after_usb_disconnet s)
    (g_module_from_ecm_2_rndis s) (qlog_read_nmea_log s) (g_ignore_capture_qdb_file s) (g_kill_qlog s)
    (g_ttyAT s) (g_send_at_flag s) (g_use_compress_cmd s).

Definition default_args : arguments :=
  Arguments_ [] [] (str "qlog_files") LOGFILE_NUM LOGFILE_SIZE_DEFAULT None None.
Definition initial : opts :=
  Opts default_args 0 0 (replicate 16 0) None false (replicate 16 0) (replicate 32 0) (replicate 32 0)
    0 0 [] 0 (MkQServer 0 0 0 [] 0 0) 0 [] 0 0 0 0 0 0 0 0 0 [] 0 0.

Abbreviation Opt := (M osys opts).

(** ** The destination of the log *)

Definition TFTP_F : list Z := str "tftp:".
Definition FTP_F : list Z := str "ftp:".

(** "%d.%d.%d.%d", each number cut to a byte. *)
Definition ip_text (ip : list Z) : list Z :=
  match map (fun z => print_d (u8 z)) ip with
  | [a; b; c; d] => a ++ str "." ++ b ++ str "." ++ c ++ str "." ++ d
  | _ => []
  end.

(** The two calls of [sscanf]: the port and the address, as far as they were
    stored. *)
Definition scan_address (s : list Z) (colon dot : nat) : option Z * list Z :=
  if (dot <? colon)%nat then
    let found := scan_ds [46; 46; 46; 58] s in (found !! 4%nat, take 4 found)
  else
    let found := scan_ds [58; 46; 46; 46] s in (found !! 0%nat, drop 1 found).

Definition parser_tcp (s : list Z) : Opt unit :=
  if starts_with 57 s && (9000 <=? atoi s) then modify (fun o => o <| g_tcp_server_port := atoi s |>)
  else
    match find_in s (str ":"), find_in s (str ".") with
    | Some colon, Some dot =>
        let '(port, ip) := scan_address s colon dot in
        match port with
        | None => mret tt
        | Some port => modify (fun o => o <| g_tcp_client_port := port |>)
        end;;
        match port, ip with
        | Some _, [_; _; _; _] =>
            o ← get;
            buf ← of_option (wr 0 (take 15 (snprintf 80 (ip_text ip) ++ replicate 80 0)) (g_tcp_client_ip o));
            modify (fun o => o <| g_tcp_client_ip := buf |>)
        | _, _ => mret tt
        end
    | _, _ => mret tt
    end.

Definition parser_tftp (s : list Z) : Opt unit :=
  if negb (is_prefix TFTP_F s) then mret tt else
  let ip := drop (length TFTP_F) s in
  modify (fun o => o <| g_tftp_server_ip := Some ip |>);;
  r ← call (TftpTestServer ip);
  if r =? 0 then exit_ 1 else mret tt.

(** [strncpy(dst, src, n)] with [n] as a [size_t]. *)
Definition strncpy (dst src : list Z) (n : Z) : option (list Z) :=
  if n <? 0 then None else
  let k := Z.to_nat n in wr 0 (take k src ++ replicate (k - length src) 0) dst.

Definition parser_ftp (s : list Z) : Opt unit :=
  if negb (is_prefix FTP_F s) then mret tt else
  match find_in s (str "user:"), find_in s (str "pass:") with
  | Some temp1, Some temp2 =>
      let len1 := Z.of_nat temp1 - 5 in
      let len2 := Z.of_nat temp2 - Z.of_nat temp1 - 6 in
      let len3 := len (drop temp2 s) - 5 in
      if (16 <? len1) || (32 <? len2) || (32 <? len3) then mret tt else
      o ← get;
      ip ← of_option (strncpy (g_ftp_server_ip_temp o) (drop 4 s) len1);
      usr ← of_option (strncpy (g_ftp_server_usr_temp o) (drop (temp1 + 5) s) len2);
      pass ← of_option (strncpy (g_ftp_server_pass_temp o) (drop (temp2 + 5) s) len3);
      modify (fun o => o <| g_ftp_server_ip_temp := ip |> <| g_ftp_server_usr_temp := usr |>
                         <| g_ftp_server_pass_temp := pass |> <| g_ftp := true |>)
  | _, _ => exit_ 1
  end.

(** ** The options *)

Definition option_string (c : Z) : option takes :=
  if bool_decide (c ∈ str "psSnagmfbC") then Some Argument
  else if bool_decide (c ∈ str "D") then Some OptionalArgument
  else if bool_decide (c ∈ str "cjitqxhruke") then Some NoArgument
  else None.

(** The path of the port that [-p] names. *)
Definition device_path (optarg : list Z) : option (list Z) :=
  if starts_with 116 optarg then Some (str "/dev/" ++ take 250 optarg)
  else if starts_with 85 optarg then Some (str "/dev/tty" ++ take 247 optarg)
  else if starts_with 47 optarg then Some (take 255 optarg)
  else None.

Definition set_port_name (optarg : list Z) : Opt bool :=
  o ← get;
  match device_path optarg with
  | None => mret false
  | Some path =>
      (match ttyDM (args o) with
       | [] => modify (fun o => o <| args ::= fun a => a <| ttyDM := path |> |>)
       | _ => modify (fun o => o <| args ::= fun a => a <| ttyGENERAL := path |> |>)
       end);;
      mret true
  end.

Definition option_p (optarg : list Z) : Opt bool :=
  o ← get;
  if g_use_mapping_port o =? 0 then set_port_name optarg else
  modify (fun o => o <| g_use_mapping_path := take 255 optarg |>);;
  r ← call (LinkTarget (take 255 optarg));
  match r with
  | Some target => modify (fun o => o <| args ::= fun a => a <| ttyDM := take 255 target |> |>);; mret true
  | None => set_port_name optarg
  end.

Definition option_s (optarg : list Z) : Opt unit :=
  modify (fun o => o <| args ::= fun a => a <| logdir := take 255 optarg |> |>);;
  parser_tcp optarg;; parser_tftp optarg;; parser_ftp optarg.

Definition option_S (optarg : list Z) : Opt unit :=
  modify (fun o => o <| g_use_qserver := 1 |> <| g_qserver := MkQServer 0 0 0 [] 0 0 |>);;
  copy ← call (Strdup optarg);
  o ← get;
  q ← of_option (parserServerPort copy (g_qserver o));
  modify (fun o => o <| g_qserver := q |>).

Definition clamp (lo hi z : Z) : Z := if z <? lo then lo else if hi <? z then hi else z.
Definition megabytes (optarg : list Z) : Z := s32 (s32 (atoi optarg * 1024) * 1024).

Definition set_num (optarg : list Z) (o : opts) : opts :=
  let n := clamp 0 LOGFILE_NUM (atoi optarg) in
  o <| args ::= fun a => a <| logfile_num := n |> |> <| s_logfile_num := n |>.
Definition set_size (optarg : list Z) (o : opts) : opts :=
  o <| args ::= fun a => a <| logfile_sz := clamp LOGFILE_SIZE_MIN LOGFILE_SIZE_MAX (megabytes optarg) |> |>.

(** The options that set variables only; [None] is the usage. *)
Definition simple_option (opt : Z) (optarg : option (list Z)) (s : list Z) : option (opts -> opts) :=
  if opt =? 117 (* u *) then Some (fun o => o <| g_use_mapping_port := 1 |>)
  else if opt =? 68 (* D *) then
    Some (fun o => o <| args ::= fun a => a <| delete_logs := Some (match optarg with Some d => d | None => [] end) |> |>)
  else if opt =? 110 (* n *) then Some (set_num s)
  else if opt =? 97 (* a *) then Some (fun o => o <| query_panic_addr := u32 (strtoul 16 s) |>)
  else if opt =? 103 (* g *) then Some (fun o => o <| modem_name_para := take 28 s |>)
  else if opt =? 109 (* m *) then Some (set_size s)
  else if opt =? 99 (* c *) then Some (fun o => o <| qlog_continue := 1 |>)
  else if opt =? 105 (* i *) then Some (fun o => o <| qlog_ignore_exx00u_ap := 1 |>)
  else if opt =? 106 (* j *) then Some (fun o => o <| qlog_only_read_pcie_or_usb_diag_log := 1 |>)
  else if opt =? 116 (* t *) then Some (fun o => o <| qlog_read_com_data := 1 |>)
  else if opt =? 102 (* f *) then Some (fun o => o <| args ::= fun a => a <| filter_cfg := optarg |> |>)
  else if opt =? 113 (* q *) then Some (fun o => o <| exit_after_usb_disconnet := 1 |>)
  else if opt =? 114 (* r *) then Some (fun o => o <| g_module_from_ecm_2_rndis := 1 |>)
  else if opt =? 120 (* x *) then Some (fun o => o <| qlog_read_nmea_log := 1 |>)
  else if opt =? 101 (* e *) then Some (fun o => o <| g_ignore_capture_qdb_file := 1 |>)
  else if opt =? 107 (* k *) then Some (fun o => o <| g_kill_qlog := 1 |>)
  else if opt =? 98 (* b *) then Some (fun o => o <| g_ttyAT := take 255 s |> <| g_send_at_flag := 1 |>)
  else if opt =? 67 (* C *) then Some (fun o => o <| g_use_compress_cmd := megabytes s |>)
  else None.

Definition take_option (opt : Z) (optarg : option (list Z)) : Opt bool :=
  let s := match optarg with Some s => s | None => [] end in
  if opt =? 112 (* p *) then option_p s
  else if opt =? 115 (* s *) then option_s s;; mret true
  else if opt =? 83 (* S *) then option_S s;; mret true
  else match simple_option opt optarg s with
       | Some f => modify f;; mret true
       | None => call QlogUsage;; mret false
       end.

Fixpoint take_options (l : list (Z * option (list Z))) : Opt bool :=
  match l with
  | [] => mret true
  | (opt, optarg) :: l => ok ← take_option opt optarg; if (ok : bool) then take_options l else mret false
  end.

(** The answer is false for NULL. *)
Definition parser_args (argv : list (list Z)) : Opt bool := take_options (getopt option_string (drop 1 argv)).

(** ** The chip of a module *)

Definition named (modem_name_para name : list Z) : bool := same_nocase 6 modem_name_para name.
(** The ids of the modules that are sold to the state grid. *)
Definition grid_both (idProduct idVendor : Z) : bool :=
  ((idVendor =? 0x3763) && (idProduct =? 0x3c93)) || ((idVendor =? 0x3c93) && (idProduct =? 0xffff)).

Definition drv_is_asr (modem_name_para : list Z) (idProduct idVendor : Z) : Z :=
  if ((idVendor =? 0x2c7c) && (Z.land idProduct 0xF000 =? 0x6000)) && negb (idProduct =? 0x6007)
     && negb (idProduct =? 0x6008) && negb (idProduct =? 0x6009) then 1
  else if named modem_name_para (str "EC200T") && grid_both idProduct idVendor then 1
  else if named modem_name_para (str "EC200A") && grid_both idProduct idVendor then 1
  else 0.

Definition drv_is_unisoc (modem_name_para : list Z) (idProduct idVendor : Z) : Z :=
  if (idVendor =? 0x2c7c) && (idProduct =? 0x0900) then 1
  else if (idVendor =? 0x1782) && (idProduct =? 0x4d00) then 1
  else if named modem_name_para (str "RG200U") && grid_both idProduct idVendor then 1
  else if named modem_name_para (str "RM500U") && ((idVendor =? 0x3c93) && (idProduct =? 0xffff)) then 1
  else if named modem_name_para (str "EC200D") && grid_both idProduct idVendor then 2
  else if (idVendor =? 0x2c7c) && (idProduct =? 0x0902) then 2
  else if (idVendor =? 0x2c7c) && (idProduct =? 0x0904) then 4
  else 0.

Definition drv_is_unisoc_exx00u (idProduct idVendor : Z) : Z :=
  if (idVendor =? 0x2c7c) && (idProduct =? 0x0901) then 1 else 0.

Definition drv_is_mtk (idProduct idVendor : Z) : Z :=
  if (idVendor =? 0x2c7c) && (idProduct =? 0x7001) then 1
  else if (idVendor =? 0x0e8d) && (idProduct =? 0x202f) then 1
  else if (idVendor =? 0x2c7c) && (idProduct =? 0x7006) then 1
  else if (idVendor =? 0x2c7c) && (idProduct =? 0x7003) then 1
  else if (idVendor =? 0x2c7c) && (idProduct =? 0x7008) then 1
  else 0.

Definition drv_is_eigen (idProduct idVendor : Z) : Z :=
  if (idVendor =? 0x2c7c) && (idProduct =? 0x0903) then 1
  else if (idVendor =? 0x2c7c) && (idProduct =? 0x6007) then 2
  else 0.

(** ** What the options leave *)

(** The strings fit their buffers with the NUL, the numbers are in the ranges
    that the rest of the tool counts on. *)
Record valid (o : opts) : Prop := {
  v_ttyDM : (length (ttyDM (args o)) <= 255)%nat;
  v_ttyGENERAL : (length (ttyGENERAL (args o)) <= 255)%nat;
  v_logdir : (length (logdir (args o)) <= 255)%nat;
  v_num : 0 <= logfile_num (args o) <= LOGFILE_NUM;
  v_s_num : 0 <= s_logfile_num o <= LOGFILE_NUM;
  v_sz : LOGFILE_SIZE_MIN <= logfile_sz (args o) <= LOGFILE_SIZE_MAX;
  v_ip : length (g_tcp_client_ip o) = 16%nat;
  v_ip_end : g_tcp_client_ip o !! 15%nat = Some 0;
  v_ftp_ip : length (g_ftp_server_ip_temp o) = 16%nat;
  v_ftp_usr : length (g_ftp_server_usr_temp o) = 32%nat;
  v_ftp_pass : length (g_ftp_server_pass_temp o) = 32%nat;
  v_mapping : (length (g_use_mapping_path o) <= 255)%nat;
  v_modem : (length (modem_name_para o) <= 28)%nat;
  v_at : (length (g_ttyAT o) <= 255)%nat;
  v_addr : 0 <= query_panic_addr o < 2 ^ 32;
}.

Lemma valid_initial : valid initial.
Proof. split; cbn; first [done|lia]. Qed.

Lemma clamp_range lo hi z : lo <= hi -> lo <= clamp lo hi z <= hi.
Proof. unfold clamp. intros H. destruct (Z.ltb_spec z lo); [lia|]. destruct (Z.ltb_spec hi z); lia. Qed.

Lemma device_path_length optarg path : device_path optarg = Some path -> (length path <= 255)%nat.
Proof.
  unfold device_path. intros H. repeat case_match; simplify_eq; unfold str; cbn; rewrite ?length_take; lia.
Qed.

Lemma strncpy_length dst src n dst' : strncpy dst src n = Some dst' -> length dst' = length dst.
Proof. unfold strncpy. destruct (n <? 0); [done|]. apply wr_length. Qed.

Lemma wr_keeps_end v l l' : wr 0 v l = Some l' -> (length v <= 15)%nat -> l !! 15%nat = Some 0 -> l' !! 15%nat = Some 0.
Proof.
  intros H Hv Hl. apply wr_Some in H. destruct H as [_ ->]. unfold put.
  rewrite take_0. cbn [app]. rewrite lookup_app_r by lia. rewrite lookup_drop.
  by replace (0 + length v + (15 - length v))%nat with 15%nat by lia.
Qed.

Lemma simple_option_valid opt optarg s f : simple_option opt optarg s = Some f ->
  forall o, valid o -> valid (f o).
Proof.
  intros H o []. unfold simple_option in H.
  repeat (case_match; [injection H as <-; split; cbn; try done;
    try apply clamp_range; rewrite ?length_take; try done; try lia; unfold u32; try (apply Z.mod_pos_bound; lia)|]).
  done.
Qed.

(** An update of fields, from the facts about the old state and the new values. *)
Ltac fields := intros ? []; split; first [assumption|apply firstn_le_length|cbn; lia].

Lemma parser_tcp_safe s : safe valid (parser_tcp s) (fun _ => True).
Proof.
  unfold parser_tcp. safes fields.
  match goal with Hs : valid _ |- _ => destruct Hs end.
  set (text := take 15 _). assert (Ht : (length text <= 15)%nat) by apply firstn_le_length.
  rewrite wr_fits by lia. apply safe_bind_of_option; [done|]. intros buf Hb. injection Hb as <-.
  assert (Hl : length (put 0 text (g_tcp_client_ip s0)) = 16%nat) by (rewrite length_put; lia).
  assert (He : put 0 text (g_tcp_client_ip s0) !! 15%nat = Some 0)
    by (eapply wr_keeps_end; [apply wr_fits; lia|done|done]).
  apply safe_modify; [fields|done].
Qed.

Lemma safe_keeps {A} (m : Opt A) R : safe valid m R -> keeps valid m R.
Proof. intros H E w Hw. specialize (H E w Hw). unfold runs, holds in *. by destruct (m E w). Qed.

Lemma parser_tcp_valid s : keeps valid (parser_tcp s) (fun _ => True).
Proof. apply safe_keeps, parser_tcp_safe. Qed.

Lemma parser_tftp_valid s : keeps valid (parser_tftp s) (fun _ => True).
Proof. unfold parser_tftp. keep fields. Qed.

Lemma parser_ftp_valid s : keeps valid (parser_ftp s) (fun _ => True).
Proof.
  unfold parser_ftp. keep fields. apply keeps_modify; [|done].
  match goal with Hs : valid _ |- _ => destruct Hs end.
  repeat match goal with H : strncpy _ _ _ = Some _ |- _ => apply strncpy_length in H end.
  intros ? []; split; first [assumption|cbn; lia].
Qed.

Lemma set_port_name_valid s : keeps valid (set_port_name s) (fun _ => True).
Proof.
  unfold set_port_name. destruct (device_path s) as [path|] eqn:Hp; [|keep fields].
  apply device_path_length in Hp. keep fields.
Qed.
#[export] Hint Resolve parser_tcp_valid parser_tftp_valid parser_ftp_valid set_port_name_valid : keeps.

Lemma take_option_valid opt optarg : keeps valid (take_option opt optarg) (fun _ => True).
Proof.
  unfold take_option, option_p, option_s, option_S.
  keep ltac:(first [fields | by eapply simple_option_valid]).
Qed.

Lemma take_options_valid l : keeps valid (take_options l) (fun _ => True).
Proof.
  induction l as [|[opt optarg] l IH]; cbn [take_options]; [by apply keeps_ret|].
  eapply keeps_bind; [apply take_option_valid|]. intros [] _; [done|by apply keeps_ret].
Qed.

(** ** The destinations *)

(** The argument of -s that names an FTP server. *)
Definition ftp_text (ip usr pass : list Z) : list Z :=
  str "ftp:" ++ ip ++ str "-user:" ++ usr ++ str "-pass:" ++ pass.

Lemma find_user ip usr pass : 117 ∉ ip ->
  find_in (ftp_text ip usr pass) (str "user:") = Some (5 + length ip)%nat.
Proof.
  intros Hip.
  assert (He : ftp_text ip usr pass =
    (str "ftp:" ++ ip ++ str "-") ++ 117 :: str "ser:" ++ usr ++ str "-pass:" ++ pass)
    by (unfold ftp_text; by rewrite <-!app_assoc).
  rewrite He, find_in_past; [|done| |done|done].
  - f_equal. rewrite !length_app. cbn. lia.
  - rewrite !elem_of_app. intros [H|[H|H]]; [|done|]; by vm_compute in H; set_solver.
Qed.

Lemma find_pass ip usr pass : 112 ∉ ip -> 112 ∉ usr ->
  find_in (ftp_text ip usr pass) (str "pass:") = Some (11 + length ip + length usr)%nat.
Proof.
  intros Hip Husr.
  assert (He : ftp_text ip usr pass =
    102 :: 116 :: 112 :: 58 :: (ip ++ str "-user:" ++ usr ++ str "-") ++ 112 :: str "ass:" ++ pass)
    by (unfold ftp_text; by rewrite <-!app_assoc).
  rewrite He. change (str "pass:") with (112 :: str "ass:"). cbn [find_in is_prefix Z.eqb Pos.eqb andb].
  change (is_prefix (str "ass:") (58 :: _)) with false. cbn iota.
  change (112 :: str "ass:") with (str "pass:"). rewrite find_in_past; [|done| |done|done].
  - cbn [fmap option_fmap option_map]. f_equal. rewrite !length_app. cbn. lia.
  - rewrite !elem_of_app. intros [H|[H|[H|H]]]; [done| |done|]; by vm_compute in H; set_solver.
Qed.

(** What [strncpy] of a part leaves in a cleared buffer. *)
Lemma strncpy_cleared n (s rest : list Z) : (length s <= n)%nat ->
  strncpy (replicate n 0) (s ++ rest) (len s) = Some (s ++ replicate (n - length s) 0).
Proof.
  intros Hn. unfold strncpy. destruct (Z.ltb_spec (len s) 0); [unfold len in *; lia|].
  unfold len. rewrite Nat2Z.id, take_app_length, length_app.
  replace (length s - (length s + length rest))%nat with 0%nat by lia. rewrite app_nil_r. by apply wr_zeros.
Qed.

(** The buffer that holds [s] and, where it is shorter, a NUL. *)
Definition buffered (n : nat) (s : list Z) : list Z := s ++ replicate (n - length s) 0.

Lemma buffered_read n s : no_nul s -> (length s <= n)%nat ->
  c_string 0 (buffered n s) = if (length s <? n)%nat then Some s else None.
Proof.
  intros Hs Hn. unfold buffered. destruct (Nat.ltb_spec (length s) n).
  - replace (n - length s)%nat with (S (n - S (length s))) by lia. apply c_string_in. split; [done|].
    by exists (replicate (n - S (length s)) 0).
  - replace (n - length s)%nat with 0%nat by lia. rewrite app_nil_r. unfold c_string. rewrite drop_0.
    replace (has_nul s) with false; [done|]. clear - Hs. induction Hs as [|b s Hb _ IH]; [done|].
    cbn [has_nul]. rewrite <-IH. by destruct (Z.eqb_spec b 0).
Qed.

Lemma parser_ftp_runs E (w : world osys opts) ip usr pass :
  117 ∉ ip -> 112 ∉ ip -> 112 ∉ usr ->
  (length ip <= 16)%nat -> (length usr <= 32)%nat -> (length pass <= 32)%nat ->
  g_ftp_server_ip_temp (loc w) = replicate 16 0 -> g_ftp_server_usr_temp (loc w) = replicate 32 0 ->
  g_ftp_server_pass_temp (loc w) = replicate 32 0 ->
  runs E (parser_ftp (ftp_text ip usr pass)) w (fun _ w' =>
    hist w' = hist w /\
    loc w' = (loc w) <| g_ftp_server_ip_temp := buffered 16 ip |> <| g_ftp_server_usr_temp := buffered 32 usr |>
                     <| g_ftp_server_pass_temp := buffered 32 pass |> <| g_ftp := true |>).
Proof.
  intros Hu Hp Hq Li Lu Lp Bi Bu Bp. unfold parser_ftp.
  change (is_prefix FTP_F (ftp_text ip usr pass)) with true. cbn [negb].
  rewrite find_user, find_pass by done.
  assert (D1 : drop 4 (ftp_text ip usr pass) = ip ++ str "-user:" ++ usr ++ str "-pass:" ++ pass) by done.
  assert (D2 : drop (5 + length ip + 5) (ftp_text ip usr pass) = usr ++ str "-pass:" ++ pass).
  { replace (5 + length ip + 5)%nat with (4 + (length ip + 6))%nat by lia.
    rewrite <-!drop_drop, D1, drop_app_length. done. }
  assert (D3 : drop (11 + length ip + length usr) (ftp_text ip usr pass) = str "pass:" ++ pass).
  { replace (11 + length ip + length usr)%nat with ((5 + length ip + 5) + (length usr + 1))%nat by lia.
    rewrite <-drop_drop, D2, <-drop_drop, drop_app_length. done. }
  assert (D4 : drop (11 + length ip + length usr + 5) (ftp_text ip usr pass) = pass ++ [])
    by (rewrite <-drop_drop, D3, app_nil_r; done).
  rewrite D3, D4.
  replace (Z.of_nat (5 + length ip) - 5) with (len ip) by (unfold len; lia).
  replace (Z.of_nat (11 + length ip + length usr) - Z.of_nat (5 + length ip) - 6) with (len usr) by (unfold len; lia).
  replace (len (str "pass:" ++ pass) - 5) with (len pass) by (unfold len; rewrite length_app; cbn; lia).
  replace ((16 <? len ip) || (32 <? len usr) || (32 <? len pass)) with false by (unfold len; lia).
  apply runs_bind, runs_get. rewrite Bi, Bu, Bp, D1, D2.
  do 3 (apply runs_bind; eapply runs_of_option; [by apply strncpy_cleared|]).
  by apply runs_modify.
Qed.

(** An FTP server on the command line is read back.  Of "-s ftp:IP-user:U-pass:P"
    on a fresh tool the address, the user and the password are what the three
    pointers lead to, unless one of them fills its buffer: then that buffer has
    no end. *)
Theorem ftp_option_read_back E (w : world osys opts) ip usr pass :
  no_nul ip -> no_nul usr -> no_nul pass -> 117 ∉ ip -> 112 ∉ ip -> 112 ∉ usr ->
  (length ip <= 16)%nat -> (length usr <= 32)%nat -> (length pass <= 32)%nat ->
  g_ftp_server_ip_temp (loc w) = replicate 16 0 -> g_ftp_server_usr_temp (loc w) = replicate 32 0 ->
  g_ftp_server_pass_temp (loc w) = replicate 32 0 ->
  runs E (parser_ftp (ftp_text ip usr pass)) w (fun _ w' =>
    g_ftp (loc w') = true /\
    c_string 0 (g_ftp_server_ip_temp (loc w')) = (if (length ip <? 16)%nat then Some ip else None) /\
    c_string 0 (g_ftp_server_usr_temp (loc w')) = (if (length usr <? 32)%nat then Some usr else None) /\
    c_string 0 (g_ftp_server_pass_temp (loc w')) = (if (length pass <? 32)%nat then Some pass else None)).
Proof.
  intros Hi Hn Hp **. eapply runs_mono; [by apply parser_ftp_runs|]. intros _ w' [_ ->].
  split; [done|]. split_and!; by apply buffered_read.
Qed.

(** The other order of user and password, and no address at all: the lengths
    are negative, and [strncpy] runs over its buffer. *)
Example pass_before_user E h : parser_ftp (str "ftp:10.0.0.1-pass:b-user:a") E (World initial h) = Undef.
Proof. reflexivity. Qed.
Example no_address E w : parser_ftp (str "ftp:user:a-pass:b") E w = Undef.
Proof. reflexivity. Qed.

(** The argument of -s that names a TCP server. *)
Definition tcp_text (a b c d port : Z) : list Z :=
  print_d a ++ str "." ++ print_d b ++ str "." ++ print_d c ++ str "." ++ print_d d ++ str ":" ++ print_d port.

Lemma starts_small a rest c : 0 <= a < 256 -> isdigit c = false ->
  starts_with 57 (print_d a ++ c :: rest) && (9000 <=? atoi (print_d a ++ c :: rest)) = false.
Proof.
  intros Ha Hc. apply andb_false_intro2. apply Z.leb_gt.
  destruct (print_digits a ltac:(lia)) as (x & l & Hp & Hd & Hv & _). rewrite Hp in *.
  assert (Hx : digit x) by (by apply Forall_cons in Hd as [? _]).
  unfold atoi, strtol. cbn [app].
  destruct (skip_digit x (l ++ c :: rest) Hx) as (Hs & H1 & H2). rewrite Hs. cbn [starts_with].
  rewrite H1, H2. change (x :: l ++ c :: rest) with ((x :: l) ++ c :: rest).
  rewrite digits_prefix_app, Hv by done. unfold s32. rewrite Z.min_r, Z.mod_small; lia.
Qed.

Lemma print_no z c : 0 <= z < 2 ^ 31 -> isdigit c = false -> c ∉ print_d z.
Proof.
  intros Hz Hc Hin. destruct (print_digits z Hz) as (x & l & Hp & Hd & _ & _). rewrite Hp in Hin.
  rewrite Forall_forall in Hd. specialize (Hd c Hin). unfold digit in Hd. unfold isdigit in Hc. lia.
Qed.

Lemma print_byte_length z : 0 <= z < 256 -> (length (print_d z) <= 3)%nat.
Proof.
  intros Hz. unfold print_d. destruct (Z.ltb_spec z 0); [lia|]. clear H.
  assert (H : forall k : nat, (k < 256)%nat -> (length (digits_of 10 20 (Z.of_nat k)) <=? 3)%nat = true).
  { intros k Hk. assert (Ha : forallb (fun k => (length (digits_of 10 20 (Z.of_nat k)) <=? 3)%nat) (seq 0 256) = true)
      by (by vm_compute).
    rewrite forallb_forall in Ha. apply Ha, in_seq. lia. }
  specialize (H (Z.to_nat z) ltac:(lia)). rewrite Z2Nat.id in H by lia. by apply Nat.leb_le.
Qed.

Lemma tcp_scanned a b c d port :
  0 <= a < 2 ^ 31 -> 0 <= b < 2 ^ 31 -> 0 <= c < 2 ^ 31 -> 0 <= d < 2 ^ 31 -> 0 <= port < 2 ^ 31 ->
  scan_ds [46; 46; 46; 58] (tcp_text a b c d port) = [a; b; c; d; port].
Proof.
  intros Ha Hb Hc Hd Hp. unfold tcp_text.
  change (str ".") with [46]. change (str ":") with [58]. cbn [app].
  cbn [scan_ds]. rewrite scan_d_print by done. cbn [Z.eqb Pos.eqb scan_ds].
  rewrite scan_d_print by done. cbn [Z.eqb Pos.eqb scan_ds].
  rewrite scan_d_print by done. cbn [Z.eqb Pos.eqb scan_ds].
  rewrite scan_d_print by done. cbn [Z.eqb Pos.eqb scan_ds].
  by rewrite scan_d_last.
Qed.

(** A short text in a buffer of sixteen bytes whose last one is a NUL. *)
Lemma ip_buffered text (l : list Z) : no_nul text -> (length text <= 15)%nat -> length l = 16%nat ->
  l !! 15%nat = Some 0 ->
  exists l', wr 0 (take 15 (snprintf 80 text ++ replicate 80 0)) l = Some l' /\ c_string 0 l' = Some text.
Proof.
  intros Hn Ht Hl Hz.
  assert (Hs : take 15 (snprintf 80 text ++ replicate 80 0) = text ++ replicate (15 - length text) 0).
  { unfold snprintf. rewrite (take_ge text) by lia. rewrite take_app, take_ge, take_replicate by lia.
    do 2 f_equal. lia. }
  rewrite Hs, wr_fits by len. eexists. split; [done|]. apply c_string_in. split; [done|].
  assert (Hd : drop 15 l = [0]).
  { rewrite (drop_S _ _ _ Hz). f_equal. apply drop_ge. lia. }
  exists (replicate (15 - length text) 0%Z). unfold put. rewrite take_0. cbn [app].
  replace (0 + length (text ++ replicate (15 - length text) 0%Z))%nat with 15%nat by len.
  rewrite Hd, <-app_assoc. f_equal. by rewrite <-replicate_cons_app.
Qed.

Lemma ip_text_length a b c d : 0 <= a < 256 -> 0 <= b < 256 -> 0 <= c < 256 -> 0 <= d < 256 ->
  no_nul (ip_text [a; b; c; d]) /\ (length (ip_text [a; b; c; d]) <= 15)%nat.
Proof.
  intros Ha Hb Hc Hd. unfold ip_text. cbn [map].
  assert (H8 : forall z, 0 <= z < 256 -> u8 z = z) by (intros; by apply Z.mod_small).
  rewrite !H8 by done.
  assert (Hn : forall z, 0 <= z < 256 -> no_nul (print_d z)).
  { intros z Hz. destruct (print_digits z ltac:(lia)) as (x & l & -> & Hd' & _).
    eapply Forall_impl; [exact Hd'|]. unfold digit. intros. lia. }
  split.
  - unfold no_nul. rewrite !Forall_app. split_and!; try (by apply Hn); by repeat constructor.
  - pose proof (print_byte_length a Ha). pose proof (print_byte_length b Hb).
    pose proof (print_byte_length c Hc). pose proof (print_byte_length d Hd).
    rewrite !length_app. cbn. lia.
Qed.

Lemma find_colon_dot a b c d port :
  0 <= a < 2 ^ 31 -> 0 <= b < 2 ^ 31 -> 0 <= c < 2 ^ 31 -> 0 <= d < 2 ^ 31 -> 0 <= port < 2 ^ 31 ->
  exists colon dot, find_in (tcp_text a b c d port) (str ":") = Some colon /\
    find_in (tcp_text a b c d port) (str ".") = Some dot /\ (dot < colon)%nat.
Proof.
  intros Ha Hb Hc Hd Hp. eexists _, _. split; [|split].
  - assert (He : tcp_text a b c d port =
      (print_d a ++ str "." ++ print_d b ++ str "." ++ print_d c ++ str "." ++ print_d d) ++ 58 :: print_d port)
      by (unfold tcp_text; by rewrite <-!app_assoc).
    rewrite He. apply find_in_past; [done| |done|done].
    rewrite !elem_of_app. intros [H|[H|[H|[H|[H|[H|H]]]]]]; try (by eapply print_no; [| |exact H]);
      by vm_compute in H; set_solver.
  - apply find_in_past; [done| |done|done]. by apply print_no.
  - rewrite !length_app. cbn. lia.
Qed.

(** A TCP server on the command line is read back.  "-s a.b.c.d:port" sets
    the port and leaves the dotted address in its buffer, with its NUL. *)
Theorem tcp_option_read_back E (w : world osys opts) a b c d port :
  0 <= a < 256 -> 0 <= b < 256 -> 0 <= c < 256 -> 0 <= d < 256 -> 0 <= port < 2 ^ 31 ->
  length (g_tcp_client_ip (loc w)) = 16%nat -> g_tcp_client_ip (loc w) !! 15%nat = Some 0 ->
  runs E (parser_tcp (tcp_text a b c d port)) w (fun _ w' =>
    hist w' = hist w /\ g_tcp_client_port (loc w') = port /\
    c_string 0 (g_tcp_client_ip (loc w')) = Some (ip_text [a; b; c; d])).
Proof.
  intros Ha Hb Hc Hd Hp Hl Hz. unfold parser_tcp.
  pose proof (starts_small a (print_d b ++ str "." ++ print_d c ++ str "." ++ print_d d ++ str ":" ++ print_d port)
    46 Ha ltac:(done)) as Hst. change (print_d a ++ 46 :: _) with (tcp_text a b c d port) in Hst. rewrite Hst.
  destruct (find_colon_dot a b c d port) as (colon & dot & -> & -> & Hlt); try lia.
  unfold scan_address. rewrite (proj2 (Nat.ltb_lt _ _) Hlt), tcp_scanned by lia.
  cbn [lookup list_lookup take]. rsteps. cbn.
  destruct (ip_text_length a b c d) as [Hn Ht]; try done.
  destruct (ip_buffered _ (g_tcp_client_ip (loc w)) Hn Ht Hl Hz) as (l' & Hw & Hr).
  eapply runs_of_option; [exact Hw|]. rsteps. done.
Qed.

(** ** The ranges *)

(** An option that names no server of the FTP or TFTP kind and is not -S. *)
Definition plain (o : Z * option (list Z)) : Prop :=
  fst o <> 83 /\
  match snd o with Some s => is_prefix TFTP_F s = false /\ is_prefix FTP_F s = false | None => True end.

#[local] Hint Resolve parser_tcp_safe : safe.

Lemma option_plain_safe opt optarg : plain (opt, optarg) -> safe valid (take_option opt optarg) (fun _ => True).
Proof.
  intros [HS Hp]. cbn [fst snd] in *. unfold take_option. set (s := match optarg with Some s => s | None => [] end).
  assert (Ht : is_prefix TFTP_F s = false /\ is_prefix FTP_F s = false) by (by destruct optarg).
  destruct Ht as [Ht Hf]. destruct (Z.eqb_spec opt 112).
  { unfold option_p, set_port_name. destruct (device_path s) as [path|] eqn:Hd; [apply device_path_length in Hd|];
      safes fields. }
  destruct (Z.eqb_spec opt 115).
  { unfold option_s, parser_tftp, parser_ftp. rewrite Ht, Hf. cbn [negb].
    apply (safe_bind _ _ _ (fun _ => True)); [|intros ? _; by apply safe_ret].
    safes fields. apply (safe_ret _ tt). done. }
  destruct (Z.eqb_spec opt 83); [done|]. safes ltac:(by eapply simple_option_valid).
Qed.

Lemma options_plain_safe l : Forall plain l -> safe valid (take_options l) (fun _ => True).
Proof.
  induction 1 as [|[opt optarg] l Hp _ IH]; cbn [take_options]; [by apply safe_ret|].
  eapply safe_bind; [by apply option_plain_safe|]. intros [] _; [done|by apply safe_ret].
Qed.

(** The user follows the address and the password the user, each with what
    stands in between. *)
Definition in_order (s : list Z) : bool :=
  match find_in s (str "user:"), find_in s (str "pass:") with
  | Some temp1, Some temp2 => (5 <=? temp1)%nat && (temp1 + 6 <=? temp2)%nat
  | _, _ => true
  end.
Definition ordered (o : Z * option (list Z)) : Prop :=
  match snd o with Some s => fst o = 115 -> is_prefix FTP_F s = true -> in_order s = true | None => True end.

Lemma find_in_fits s p : forall n, find_in s p = Some n -> (length p <= length (drop n s))%nat.
Proof.
  assert (Hp : forall p s, is_prefix p s = true -> (length p <= length s)%nat).
  { clear. induction p as [|a p IH]; intros [|b s] H; cbn in *; [lia|lia|done|]. apply andb_prop in H as [_ H].
    apply IH in H. lia. }
  induction s as [|a s IH]; intros n H; cbn [find_in] in H; destruct (is_prefix p _) eqn:Hpre; try done.
  - injection H as <-. by apply Hp in Hpre.
  - injection H as <-. by apply Hp in Hpre.
  - destruct (find_in s p) as [k|] eqn:Hk; [|done]. injection H as <-. by apply IH.
Qed.

Lemma strncpy_fits dst src n : 0 <= n <= len dst -> is_Some (strncpy dst src n).
Proof.
  intros Hn. unfold strncpy, len in *. destruct (Z.ltb_spec n 0); [lia|]. rewrite wr_fits; [by eexists|].
  rewrite length_app, length_replicate, length_take. lia.
Qed.

Section Clean.
Context (E : env osys) (Hdup : forall h s, is_Some (E _ h (Strdup s))).
Abbreviation fine m := (clean E valid True m (fun _ => True)).

Lemma parser_ftp_clean s : (is_prefix FTP_F s = true -> in_order s = true) -> fine (parser_ftp s).
Proof.
  intros Ho. unfold parser_ftp. destruct (is_prefix FTP_F s); [|by apply clean_ret]. specialize (Ho eq_refl).
  cbn [negb]. unfold in_order in Ho. destruct (find_in s (str "user:")) as [t1|]; [|by apply clean_exit].
  destruct (find_in s (str "pass:")) as [t2|] eqn:H2; [|by apply clean_exit].
  apply find_in_fits in H2. change (length (str "pass:")) with 5%nat in H2.
  set (len3 := len (drop t2 s) - 5). assert (H3 : 0 <= len3) by (unfold len3, len; lia). clearbody len3.
  destruct (_ || _) eqn:Hg; [by apply clean_ret|].
  apply orb_false_iff in Hg as [[Hg1%Z.ltb_ge Hg2%Z.ltb_ge]%orb_false_iff Hg3%Z.ltb_ge].
  apply andb_prop in Ho as [Ho1%Nat.leb_le Ho2%Nat.leb_le].
  apply clean_bind_get. intros o Hv. pose proof Hv as [].
  eapply (clean_bind _ _ _ _ _ (fun ip => length ip = 16%nat)).
  { apply clean_of_option; [apply strncpy_fits; unfold len; lia|]. intros ip H. apply strncpy_length in H. lia. }
  intros ip Hip. eapply (clean_bind _ _ _ _ _ (fun usr => length usr = 32%nat)).
  { apply clean_of_option; [apply strncpy_fits; unfold len; lia|]. intros usr H. apply strncpy_length in H. lia. }
  intros usr Husr. eapply (clean_bind _ _ _ _ _ (fun pass => length pass = 32%nat)).
  { apply clean_of_option; [apply strncpy_fits; unfold len; lia|]. intros pass H. apply strncpy_length in H. lia. }
  intros pass Hpass. apply clean_modify; [|done]. intros ? []; split; first [assumption|cbn; lia].
Qed.

Lemma parser_tcp_clean s : fine (parser_tcp s).
Proof. apply clean_safe, parser_tcp_safe. Qed.
#[local] Hint Resolve parser_tcp_clean : clean.

Lemma take_option_clean opt optarg : ordered (opt, optarg) -> fine (take_option opt optarg).
Proof.
  intros Ho. unfold take_option. set (s := match optarg with Some s => s | None => [] end).
  assert (Hs : opt = 115 -> is_prefix FTP_F s = true -> in_order s = true) by (by destruct optarg).
  destruct (Z.eqb_spec opt 112).
  { unfold option_p, set_port_name. destruct (device_path s) as [path|] eqn:Hd; [apply device_path_length in Hd|];
      cleans fields. }
  destruct (Z.eqb_spec opt 115) as [->|].
  { unfold option_s, parser_tftp. apply (clean_bind _ _ _ _ _ (fun _ => True)); [|intros ? _; by apply clean_ret].
    pose proof (parser_ftp_clean s (Hs eq_refl)). cleans fields. }
  destruct (Z.eqb_spec opt 83).
  { unfold option_S. cleans fields. destruct (Hdup h s) as [copy ->]. cleans fields.
    apply clean_of_option; [by eexists|done]. }
  cleans ltac:(by eapply simple_option_valid).
Qed.

Lemma take_options_clean l : Forall ordered l -> fine (take_options l).
Proof.
  induction 1 as [|[opt optarg] l Ho _ IH]; cbn [take_options]; [by apply clean_ret|].
  eapply clean_bind; [by apply take_option_clean|]. intros [] _; [done|by apply clean_ret].
Qed.
End Clean.

(** C6: the ranges of the options.  On a system that has memory for a string, a
    command line whose FTP servers name the address, the user and the password
    in this order is taken without undefined behaviour: the parse returns or
    ends the tool, and in both cases the strings fit their buffers (an FTP address
    of 16 bytes, or a user or a password of 32, without its NUL), at most 512
    files are kept and a file has 2 to 512 MiB.  Where no FTP or TFTP server is
    named and -S is absent it returns, on every system.  An FTP server in
    another order can overrun a buffer ([pass_before_user], [no_address]); the
    last part says that every other command line leaves such values, too. *)
Theorem options_stay_valid argv :
  let line := getopt option_string (drop 1 argv) in
  valid initial /\
  (forall (E : env osys) w, (forall h s, is_Some (E _ h (Strdup s))) -> Forall ordered line -> valid (loc w) ->
     settles E (parser_args argv) w (fun _ w' => valid (loc w')) (fun _ w' => valid (loc w'))) /\
  (Forall plain line -> safe valid (parser_args argv) (fun _ => True)) /\
  keeps valid (parser_args argv) (fun _ => True).
Proof.
  cbn zeta. split; [apply valid_initial|]. split; [|split; [apply options_plain_safe|apply take_options_valid]].
  intros E w Hdup Ho Hw. eapply holds_yields_settles; [|by apply (take_options_clean E Hdup _ Ho)].
  eapply holds_mono; [by apply take_options_valid|by intros ? ? []|done].
Qed.

Definition demo_line : list (list Z) := map str ["qlog"; "-p"; "ttyUSB0"; "-s"; "logs"; "-n"; "600"; "-m1"].
Definition demo_sys : env osys := fun A h c =>
  match c in osys A return A with
  | LinkTarget _ => None
  | TftpTestServer _ => 1
  | Strdup s => Some s
  | QlogUsage => tt
  end.

#[export] Instance plain_dec o : Decision (plain o).
Proof. destruct o as [opt [s|]]; unfold plain; cbn; apply _. Defined.
#[export] Instance ordered_dec o : Decision (ordered o).
Proof. destruct o as [opt [s|]]; unfold ordered; cbn; apply _. Defined.

Definition demo_ftp_line : list (list Z) := map str ["qlog"; "-sftp:10.0.0.1-user:test-pass:secret"; "-S9000-9001"].

Lemma options_stay_valid_witness :
  runs demo_sys (parser_args demo_line) (World initial []) (fun a w' => valid (loc w') /\ True) /\
  settles demo_sys (parser_args demo_ftp_line) (World initial []) (fun _ w' => valid (loc w')) (fun _ w' => valid (loc w')) /\
  match parser_args demo_line demo_sys (World initial []), parser_args demo_ftp_line demo_sys (World initial []) with
  | Done ok w', Done ok2 w2 =>
      ok = true /\ logfile_num (args (loc w')) = 512 /\ logfile_sz (args (loc w')) = 2097152 /\
      ttyDM (args (loc w')) = str "/dev/ttyUSB0" /\
      ok2 = true /\ g_ftp (loc w2) = true /\ qdss_server_port (g_qserver (loc w2)) = 9001
  | _, _ => False
  end.
Proof.
  split; [|split; [|by vm_compute]].
  - destruct (options_stay_valid demo_line) as (Hi & _ & H & _). apply H; [|exact Hi].
    apply (bool_decide_unpack _). by vm_compute.
  - destruct (options_stay_valid demo_ftp_line) as (Hi & H & _). apply H; [by eexists| |exact Hi].
    apply (bool_decide_unpack _). by vm_compute.
Defined.

(** The size of a file.  [-m z] asks for z MiB; below 2048 the size is z MiB
    cut to the range from 2 to 512, from 2048 to 4095, where the product has
    left the range of an [int], it is 2 MiB. *)
Theorem size_option z o : 0 <= z < 4096 ->
  logfile_sz (args (set_size (print_d z) o)) =
    (if z <? 2048 then Z.min LOGFILE_SIZE_MAX (Z.max LOGFILE_SIZE_MIN (z * 1048576)) else LOGFILE_SIZE_MIN).
Proof.
  intros Hz. unfold set_size. cbn. unfold megabytes. rewrite atoi_print by lia.
  assert (H1 : s32 (z * 1024) = z * 1024) by (unfold s32; rewrite Z.mod_small; lia). rewrite H1.
  unfold clamp, LOGFILE_SIZE_MIN, LOGFILE_SIZE_MAX. destruct (Z.ltb_spec z 2048).
  - assert (H2 : s32 (z * 1024 * 1024) = z * 1048576) by (unfold s32; rewrite Z.mod_small; lia). rewrite H2.
    destruct (Z.ltb_spec (z * 1048576) (2 * 1024 * 1024)); [lia|].
    destruct (Z.ltb_spec (512 * 1024 * 1024) (z * 1048576)); lia.
  - assert (H2 : s32 (z * 1024 * 1024) = z * 1048576 - 2 ^ 32).
    { unfold s32. rewrite <-(Z_mod_plus_full _ (-1)), Z.mod_small; lia. }
    rewrite H2. destruct (Z.ltb_spec (z * 1048576 - 2 ^ 32) (2 * 1024 * 1024)); lia.
Qed.

(** ** One chip *)

Lemma named_excludes m a b : named m a = true -> length a = 6%nat -> length b = 6%nat ->
  map tolower a <> map tolower b -> named m b = false.
Proof.
  unfold named, same_nocase, str_eqb. intros H Ha Hb Hab. apply bool_decide_eq_true in H.
  apply bool_decide_eq_false. rewrite (take_ge a) in H by lia. rewrite (take_ge b) by lia. congruence.
Qed.

Definition chips (m : list Z) (idProduct idVendor : Z) : list Z :=
  [drv_is_asr m idProduct idVendor; drv_is_unisoc m idProduct idVendor; drv_is_unisoc_exx00u idProduct idVendor;
   drv_is_mtk idProduct idVendor; drv_is_eigen idProduct idVendor].

(** C34: a module has one chip.  Whatever the ids and the name on the command
    line are, at most one of the five tests succeeds, so that at most one
    handler is in question. *)
Theorem at_most_one_chip m idProduct idVendor :
  (length (filter (fun c => c <> 0%Z) (chips m idProduct idVendor)) <= 1)%nat.
Proof.
  unfold chips, drv_is_asr, drv_is_unisoc, drv_is_unisoc_exx00u, drv_is_mtk, drv_is_eigen, grid_both.
  destruct (Z.eqb_spec idVendor 0x2c7c) as [->|Hv].
  - cbn [andb orb Z.eqb Pos.eqb]. rewrite !andb_false_r.
    repeat match goal with
    | |- context [idProduct =? ?k] => destruct (Z.eqb_spec idProduct k) as [->|?]; [vm_compute; lia|]
    end.
    destruct (Z.land idProduct 0xF000 =? 0x6000); vm_compute; lia.
  - cbn [andb]. 
    destruct (Z.eqb_spec idVendor 0x1782) as [->|]; [|cbn [andb]].
    { cbn [andb orb Z.eqb Pos.eqb]. rewrite !andb_false_r. destruct (idProduct =? 0x4d00); vm_compute; lia. }
    destruct (Z.eqb_spec idVendor 0x0e8d) as [->|]; [|cbn [andb]].
    { cbn [andb orb Z.eqb Pos.eqb]. rewrite !andb_false_r. destruct (idProduct =? 0x202f); vm_compute; lia. }
    set (g := (idVendor =? 0x3763) && _ || _). set (g' := (idVendor =? 0x3c93) && (idProduct =? 65535)).
    destruct (named m (str "EC200T")) eqn:Ht.
    { rewrite !(named_excludes m (str "EC200T")) by (done || by vm_compute). cbn [andb]. destruct g; vm_compute; lia. }
    destruct (named m (str "EC200A")) eqn:Ha.
    { rewrite !(named_excludes m (str "EC200A")) by (done || by vm_compute). cbn [andb]. destruct g; vm_compute; lia. }
    cbn [andb]. repeat match goal with |- context [if ?b then _ else _] => destruct b end; vm_compute; lia.
Qed.


(** ** Examples *)

Lemma size_option_witness :
  0 <= 2048 < 4096 /\ logfile_sz (args (set_size (str "2048") initial)) = LOGFILE_SIZE_MIN.
Proof. split; [lia|]. exact (size_option 2048 initial ltac:(lia)). Defined.

Lemma tcp_option_read_back_witness :
  runs demo_sys (parser_tcp (str "192.168.1.20:9000")) (World initial []) (fun _ w' =>
    hist w' = [] /\ g_tcp_client_port (loc w') = 9000 /\
    c_string 0 (g_tcp_client_ip (loc w')) = Some (str "192.168.1.20")).
Proof.
  exact (tcp_option_read_back demo_sys (World initial []) 192 168 1 20 9000 ltac:(lia) ltac:(lia) ltac:(lia)
    ltac:(lia) ltac:(lia) eq_refl eq_refl).
Defined.

Lemma ftp_option_read_back_witness :
  runs demo_sys (parser_ftp (ftp_text (str "10.0.0.1") (str "test") (str "secret"))) (World initial []) (fun _ w' =>
    g_ftp (loc w') = true /\
    c_string 0 (g_ftp_server_ip_temp (loc w')) = Some (str "10.0.0.1") /\
    c_string 0 (g_ftp_server_usr_temp (loc w')) = Some (str "test") /\
    c_string 0 (g_ftp_server_pass_temp (loc w')) = Some (str "secret")).
Proof.
  apply (ftp_option_read_back demo_sys (World initial []) (str "10.0.0.1") (str "test") (str "secret"));
    try reflexivity; try (by apply (bool_decide_unpack _); vm_compute); cbn; lia.
Defined.
