(* ===== verification/Usb.v ===== *)
(** Discovery of the modules on the USB bus (src/usb_linux.c): what sysfs says of
    a device, which of its interfaces carry the logs, and the access to an
    interface through usbfs. *)

From Stdlib Require Import ZArith Lia.
From stdpp Require Import base list strings.
From S2P Require Import Prelude Str CText Options.

(** ** Calls and variables *)

(** [ReadFile path size]: the first [size] bytes, [None] if the file cannot be
    opened; [ReadUevent] the whole file; [ReadDir] the names in their order;
    [Access] answers 0 or the error number; [Stat] the device numbers.  The
    calls of usbfs answer what the [ioctl] answers; [Bulk] also what it stored,
    [Reap] the status and the length of the request. *)
Inductive usys : Type -> Type :=
| ReadFile (path : list Z) (size : nat) : usys (option (list Z))
| ReadUevent (path : list Z) : usys (option (list Z))
| ReadDir (path : list Z) : usys (option (list (list Z)))
| Access (path : list Z) : usys Z
| Stat (path : list Z) : usys (option (Z * Z))
| Usleep (usecs : Z) : usys unit
| Mknod (path : list Z) (dev : Z) : usys Z
| OpenDev (path : list Z) : usys Z
| Remove (path : list Z) : usys unit
| Close (fd : Z) : usys unit
| GetDriver (fd ifnum : Z) : usys Z
| Disconnect (fd ifnum : Z) : usys Z
| Claim (fd ifnum : Z) : usys Z
| Bulk (fd ep len : Z) : usys (option (list Z))
| Submit (fd ep : Z) (buf : list Z) : usys Z
| Reap (fd : Z) : usys (option (Z * Z)).

Definition ENOENT : Z := 2.

Record ql_usb_interface_info : Type := Intf {
  bInterfaceNumber : Z;
  bInterfaceClass : Z;
  bInterfaceSubClass : Z;
  bInterfaceProtocol : Z;
  bNumEndpoints : Z;
  ep_in : Z;
  ep_out : Z;
}.
#[export] Instance eta_intf : Eta ql_usb_interface_info := fun s =>
  Intf (bInterfaceNumber s) (bInterfaceClass s) (bInterfaceSubClass s) (bInterfaceProtocol s)
    (bNumEndpoints s) (ep_in s) (ep_out s).
Definition no_intf : ql_usb_interface_info := Intf 255 255 255 255 255 255 255.

(** [devname] is a buffer of 32 bytes, the other strings are without their NUL. *)
Record ql_usb_device_info : Type := Dev {
  idVendor : Z;
  idProduct : Z;
  bNumInterfaces : Z;
  busnum : Z;
  devnum : Z;
  major : Z;
  minor : Z;
  bcdDevice : Z;
  hardware : Z;
  dm_major : Z;
  dm_minor : Z;
  devname : list Z;
  usbdevice_pah : list Z;
  ttyDM : list Z;
  ttyGENERAL : list Z;
  ttyTHIRD : list Z;
  dm_intf : ql_usb_interface_info;
  general_intf : ql_usb_interface_info;
  third_intf : ql_usb_interface_info;
  general_type : Z;
  third_type : Z;
}.
#[export] Instance eta_dev : Eta ql_usb_device_info := fun s =>
  Dev (idVendor s) (idProduct s) (bNumInterfaces s) (busnum s) (devnum s) (major s) (minor s) (bcdDevice s)
    (hardware s) (dm_major s) (dm_minor s) (devname s) (usbdevice_pah s) (ttyDM s) (ttyGENERAL s) (ttyTHIRD s)
    (dm_intf s) (general_intf s) (third_intf s) (general_type s) (third_type s).
Definition zero_intf : ql_usb_interface_info := Intf 0 0 0 0 0 0 0.
Definition zero_dev : ql_usb_device_info :=
  Dev 0 0 0 0 0 0 0 0 0 0 0 (replicate 32 0) [] [] [] [] zero_intf zero_intf zero_intf 0 0.

Definition MDM_QDSS : Z := 0.
Definition RG500U_LOG : Z := 1.
Definition EC200U_AP : Z := 2.
Definition MAX_USB_DEV : nat := 8.

(** The options that the discovery looks at. *)
Record choices : Type := Choices {
  modem_name_para : list Z;
  qlog_ignore_exx00u_ap : bool;
  qlog_read_nmea_log : bool;
  qlog_only_read_pcie_or_usb_diag_log : bool;
  g_module_from_ecm_2_rndis : Z;
}.

Record ust : Type := Ust {
  s_usb_device_info : list ql_usb_device_info;
  g_is_qualcomm_chip : Z;
}.
#[export] Instance eta_ust : Eta ust := fun s => Ust (s_usb_device_info s) (g_is_qualcomm_chip s).

Abbreviation U := (M usys ust).

(** ** Files *)

(** [strtoul] runs over the buffer when it neither meets another character nor
    a NUL in it. *)
Definition get_value_from_file (fname : list Z) (base : Z) : U Z :=
  r ← call (ReadFile fname 64);
  match r with
  | None => mret (-1)
  | Some data =>
      let buff := take 64 (take 64 data ++ replicate 64 0) in
      let '(value, rest) := strtoul_end base (cstr buff) in
      if has_nul buff || bool_decide (rest <> []) then mret (s32 value) else undef
  end.

Definition strStartsWith (line prefix : list Z) : bool := is_prefix prefix line.

(** A line without its end; [None] is an access before the line. *)
Definition chomp (line : list Z) : option (list Z) :=
  c ← last line; Some (if (c =? 10) || (c =? 13) then removelast line else line).

Fixpoint find_key (fuel : nat) (key file : list Z) : U (list Z) :=
  match fuel with
  | O => no_fuel
  | S fuel =>
      match fgets 256 file with
      | None => mret (str "-1")
      | Some (line, rest) =>
          line ← of_option (chomp (cstr (line ++ [0])));
          if strStartsWith line key && (nth (length key) line 0 =? 61)
          then mret (drop (S (length key)) line) else find_key fuel key rest
      end
  end.

Definition get_value_from_uevent (uevent key : list Z) : U (list Z) :=
  r ← call (ReadUevent uevent);
  match r with
  | None => mret (str "-1")
  | Some file => find_key (S (length file)) key file
  end.

(** ** The interfaces of a device *)

Definition ql_get_dm_major_and_minor (devname : list Z) (d : ql_usb_device_info) : U ql_usb_device_info :=
  match devname with
  | [] => mret d
  | _ =>
      let devpath := str "/sys/class/tty/" ++ take 27 (drop 5 devname) ++ str "/uevent" in
      r ← call (Access devpath);
      if r =? ENOENT then mret d else
      ma ← get_value_from_uevent devpath (str "MAJOR");
      mi ← get_value_from_uevent devpath (str "MINOR");
      mret (d <| dm_major := atoi ma |> <| dm_minor := atoi mi |>)
  end.

(** 0 is a match, as the callers expect. *)
Definition ql_match_dm_device (devname : list Z) (d : ql_usb_device_info) : U (Z * ql_usb_device_info) :=
  r ← call (Stat devname);
  match r with
  | Some (ma, mi) =>
      if (ma =? dm_major d) && (mi =? dm_minor d) then mret (0, d <| ttyDM := take 31 devname |>) else mret (1, d)
  | None => mret (1, d)
  end.

Definition is_endpoint (name : list Z) : bool := same_nocase 3 name (str "ep_").
Definition take_endpoint (i : ql_usb_interface_info) (name : list Z) : ql_usb_interface_info :=
  if is_endpoint name then
    let ep := s32 (strtoul 16 (drop 3 name)) in
    if negb (Z.land ep 0x80 =? 0) then i <| ep_in := u8 ep |> else i <| ep_out := u8 ep |>
  else i.

Definition ql_find_usb_interface_info (intfpath : list Z) (i : ql_usb_interface_info) : U ql_usb_interface_info :=
  r ← call (ReadDir intfpath);
  match r with
  | None => mret i
  | Some names =>
      let i := fold_left take_endpoint names i in
      let file (name : list Z) := take 256 intfpath ++ str "/" ++ name in
      c ← get_value_from_file (file (str "bInterfaceClass")) 16;
      sc ← get_value_from_file (file (str "bInterfaceSubClass")) 16;
      p ← get_value_from_file (file (str "bInterfaceProtocol")) 16;
      n ← get_value_from_file (file (str "bNumEndpoints")) 16;
      mret (i <| bInterfaceClass := u8 c |> <| bInterfaceSubClass := u8 sc |>
              <| bInterfaceProtocol := u8 p |> <| bNumEndpoints := u8 n |>)
  end.

Definition find_tty (names : list (list Z)) : option (list Z) :=
  (fun p => take 31 (str "/dev/" ++ take 16 (snd p))) <$> list_find (fun n => same_nocase 3 n (str "tty") = true) names.

(** One scan; [inl] waits for the port. *)
Definition scan_tty (intfpath : list Z) (state : list Z * Z) : U (list Z * Z + list Z) :=
  let '(ttyport, wait) := state in
  r ← call (ReadDir intfpath);
  match r with
  | None => mret (inr ttyport)
  | Some names =>
      let ttyport := match find_tty names with Some t => t | None => ttyport end in
      ttyport ← (if str_eqb ttyport (str "/dev/tty") then
                   r ← call (ReadDir (take 128 intfpath ++ str "/tty"));
                   mret (match r with
                         | Some names => match find_tty names with Some t => t | None => ttyport end
                         | None => ttyport
                         end)
                 else mret ttyport);
      match ttyport with
      | [] => if wait =? 0 then mret (inr ttyport) else call (Usleep 100000);; mret (inl (ttyport, wait - 1))
      | _ => mret (inr ttyport)
      end
  end.

Definition ql_find_tty_info (intfpath : list Z) : U (list Z) := iterM 12 (scan_tty intfpath) ([], 10).

(** ** Which device, which interfaces *)

Section Discovery.
Context (cfg : choices).

Definition ids (d : ql_usb_device_info) (vendor product : Z) : bool :=
  (idVendor d =? vendor) && (idProduct d =? product).
Definition named (name : list Z) : bool := Options.named (modem_name_para cfg) name.
Definition is_asr (d : ql_usb_device_info) : bool :=
  negb (drv_is_asr (modem_name_para cfg) (idProduct d) (idVendor d) =? 0).
Definition is_unisoc (d : ql_usb_device_info) : bool :=
  negb (drv_is_unisoc (modem_name_para cfg) (idProduct d) (idVendor d) =? 0).
Definition is_exx00u (d : ql_usb_device_info) : bool :=
  negb (drv_is_unisoc_exx00u (idProduct d) (idVendor d) =? 0).
Definition is_mtk (d : ql_usb_device_info) : bool := negb (drv_is_mtk (idProduct d) (idVendor d) =? 0).
Definition is_eigen (d : ql_usb_device_info) : bool := negb (drv_is_eigen (idProduct d) (idVendor d) =? 0).
Definition is_grid (d : ql_usb_device_info) : bool := ids d 0x3763 0x3c93 || ids d 0x3c93 0xffff.
Definition is_mdm (d : ql_usb_device_info) : bool :=
  (idVendor d =? 0x2c7c) && (Z.land (idProduct d) 0xF000 =? 0).

Definition supported (d : ql_usb_device_info) : bool :=
  ids d 0x05c6 0x9003 || ids d 0x05c6 0x9090 || ids d 0x05c6 0x9215 || ids d 0x05c6 0x90db ||
  ids d 0x3763 0x3c93 || ids d 0x3c93 0xffff || ids d 0x2c7c 0x6008 || ids d 0x2c7c 0x6009 ||
  ids d 0x3625 0x0004 || ids d 0x3625 0x0005 || is_unisoc d || is_exx00u d || is_mtk d || is_eigen d ||
  is_asr d || is_mdm d.

Definition set_dm (n : Z) (d : ql_usb_device_info) : ql_usb_device_info :=
  d <| dm_intf ::= fun i => i <| bInterfaceNumber := n |> |>.
Definition set_general (n type : Z) (d : ql_usb_device_info) : ql_usb_device_info :=
  d <| general_intf ::= fun i => i <| bInterfaceNumber := n |> |> <| general_type := type |>.
Definition set_third (n type : Z) (d : ql_usb_device_info) : ql_usb_device_info :=
  d <| third_intf ::= fun i => i <| bInterfaceNumber := n |> |> <| third_type := type |>.

(** The interfaces of a module in the state grid: other ids, other numbers. *)
Definition grid_asr (d : ql_usb_device_info) : ql_usb_device_info :=
  if ids d 0x3c93 0xffff then set_dm 8 d else if ids d 0x3763 0x3c93 then set_dm 0 d else d.

Definition asr_interfaces (d : ql_usb_device_info) : ql_usb_device_info :=
  if named (str "EC200T") then grid_asr d
  else if named (str "EC200A") then grid_asr d
  else set_dm 2 d.

Definition unisoc_interfaces (d : ql_usb_device_info) : ql_usb_device_info :=
  if named (str "RM500U") then
    if ids d 0x3c93 0xffff then set_general 10 RG500U_LOG (set_dm 8 d) else d
  else if named (str "RG200U") then
    if ids d 0x3763 0x3c93 then set_general 6 RG500U_LOG (set_dm 5 d)
    else if ids d 0x3c93 0xffff then set_general 10 RG500U_LOG (set_dm 8 d) else d
  else if named (str "EC200D") then
    if ids d 0x3763 0x3c93 then set_general 5 RG500U_LOG (set_dm 0 d)
    else if ids d 0x3c93 0xffff then set_general 10 RG500U_LOG (set_dm 8 d) else d
  else if ids d 0x2c7c 0x0902 then set_general 5 RG500U_LOG (set_dm 3 d)
  else if ids d 0x2c7c 0x0904 then set_general 5 RG500U_LOG (set_dm 3 d)
  else
    let d := set_general 3 RG500U_LOG (set_dm 2 d) in
    if qlog_read_nmea_log cfg then set_third 6 2 d else d.

Definition mtk_interfaces (d : ql_usb_device_info) : ql_usb_device_info :=
  if ids d 0x2c7c 0x7001 then set_dm 9 d
  else if ids d 0x0e8d 0x202f then set_dm 5 d
  else if ids d 0x2c7c 0x7008 then set_dm 5 d
  else if ids d 0x2c7c 0x7006 then set_dm 5 d
  else if ids d 0x2c7c 0x7003 then set_dm 5 d
  else d.

Definition mdm_interfaces (d : ql_usb_device_info) : ql_usb_device_info :=
  if qlog_only_read_pcie_or_usb_diag_log cfg then d else set_third 13 1 (set_general 12 MDM_QDSS d).

(** The device, and whether it is told to be one of Qualcomm. *)
Definition log_interfaces (d : ql_usb_device_info) : ql_usb_device_info * bool :=
  if is_asr d then (asr_interfaces d, false)
  else if is_unisoc d then (unisoc_interfaces d, false)
  else if is_exx00u d then
    let d := set_dm 5 d in
    (if qlog_ignore_exx00u_ap cfg then d else set_general 6 EC200U_AP d, false)
  else if is_mtk d then (mtk_interfaces d, false)
  else if is_eigen d then (if ids d 0x2c7c 0x0903 then set_dm 2 d else set_dm 0 d, false)
  else if ids d 0x05c6 0x90db then (set_general 4 MDM_QDSS d, true)
  else if (idVendor d =? 0x2c7c) && ((idProduct d =? 0x0457) || (idProduct d =? 0x0458) || (idProduct d =? 0x0452))
  then (set_third 14 1 (set_general 13 MDM_QDSS d), true)
  else if is_mdm d then (mdm_interfaces d, true)
  else if (idVendor d =? 0x3625) && ((idProduct d =? 0x0004) || (idProduct d =? 0x0005)) then (mdm_interfaces d, true)
  else if same_nocase 4 (modem_name_para cfg) (str "EC20") && (length (modem_name_para cfg) <=? 4)%nat then
    (if ids d 0x3763 0x3c93 then set_dm 0 d else if ids d 0x3c93 0xffff then set_dm 8 d else d, false)
  else (d, false).

Definition is_laptop (d : ql_usb_device_info) : bool :=
  ids d 0x2c7c 0x0127 || ids d 0x2c7c 0x0128 || ids d 0x2c7c 0x0310 || ids d 0x2c7c 0x030a ||
  ids d 0x2c7c 0x0309 || ids d 0x2c7c 0x6008 || ids d 0x2c7c 0x6009 || ids d 0x2c7c 0x030d.

Definition special_interfaces (d : ql_usb_device_info) : ql_usb_device_info :=
  let rndis := 0 <? g_module_from_ecm_2_rndis cfg in
  let d :=
    if is_laptop d then
      let d := set_dm 3 d in
      if (1 <? bNumInterfaces d) && ((idProduct d =? 0x0128) || (idProduct d =? 0x6008) || (idProduct d =? 0x6009))
         && negb (qlog_only_read_pcie_or_usb_diag_log cfg)
      then set_third 7 1 (set_general 6 MDM_QDSS d) else d
    else if ids d 0x2c7c 0x0133 then set_dm 2 d
    else if ids d 0x2c7c 0x0134 then set_dm 0 d
    else if ids d 0x2c7c 0x0125 && negb (g_module_from_ecm_2_rndis cfg =? 0) then set_dm 2 d
    else d in
  if rndis then set_dm 2 d else d.

(** ** The scan *)

Definition usbpath : list Z := str "/sys/bus/usb/devices".
Definition device_file (usb file : list Z) : list Z := usbpath ++ str "/" ++ take 16 usb ++ str "/" ++ file.
Definition intf_path (usb : list Z) (n : Z) : list Z :=
  usbpath ++ str "/" ++ take 16 usb ++ str "/" ++ take 16 usb ++ str ":1." ++ print_d n.

(** [None] is a path that does not exist. *)
Definition scan_dm (usb : list Z) (d : ql_usb_device_info) : U (ql_usb_device_info + option ql_usb_device_info) :=
  let devpath := intf_path usb (bInterfaceNumber (dm_intf d)) in
  r ← call (Access devpath);
  if negb (r =? 0) then mret (inr None) else
  i ← ql_find_usb_interface_info devpath (dm_intf d);
  let d := d <| dm_intf := i |> in
  if (bInterfaceNumber i =? 0) && (bInterfaceClass i =? 0x02) && (bInterfaceSubClass i =? 0x0e)
  then mret (inl (set_dm 3 d)) else
  tty ← ql_find_tty_info devpath;
  let d := d <| ttyDM := tty |> in
  d ← (match tty with [] => mret d | _ => ql_get_dm_major_and_minor tty d end);
  mret (inr (Some d)).

(** The interface of a QDSS or DPL stream: one endpoint, and that one reads. *)
Definition valid_stream (protocol : Z) (i : ql_usb_interface_info) : bool :=
  negb (negb (bInterfaceClass i =? 0xff) || negb (bInterfaceSubClass i =? 0xff) ||
        negb (bInterfaceProtocol i =? protocol) || negb (bNumEndpoints i =? 1) ||
        negb (ep_out i =? 0xff) || (ep_in i =? 0xff)).

Definition drop_general (d : ql_usb_device_info) : ql_usb_device_info :=
  d <| general_intf := no_intf |> <| general_type := -1 |>.
Definition drop_third (d : ql_usb_device_info) : ql_usb_device_info :=
  d <| third_intf := no_intf |> <| third_type := -1 |>.

Definition scan_general (usb : list Z) (d : ql_usb_device_info) : U (option ql_usb_device_info) :=
  let n := bInterfaceNumber (general_intf d) in
  let devpath := intf_path usb n in
  if negb (n =? 0xFF) && ((general_type d =? EC200U_AP) || (general_type d =? RG500U_LOG)) then
    r ← call (Access devpath);
    if negb (r =? 0) then mret None else
    i ← ql_find_usb_interface_info devpath (general_intf d);
    tty ← ql_find_tty_info devpath;
    mret (Some (d <| general_intf := i |> <| ttyGENERAL := tty |>))
  else if negb (n =? 0xFF) && (general_type d =? MDM_QDSS) then
    r ← call (Access devpath);
    if r =? 0 then
      i ← ql_find_usb_interface_info devpath (general_intf d);
      mret (Some (if valid_stream 0x70 i then d <| general_intf := i |> else drop_general d))
    else mret (Some (drop_general d))
  else mret (Some d).

Definition scan_third (usb : list Z) (d : ql_usb_device_info) : U (option ql_usb_device_info) :=
  let n := bInterfaceNumber (third_intf d) in
  let devpath := intf_path usb n in
  if negb (n =? 0xFF) && (third_type d =? 2) then
    r ← call (Access devpath);
    if negb (r =? 0) then mret None else
    i ← ql_find_usb_interface_info devpath (third_intf d);
    tty ← ql_find_tty_info devpath;
    mret (Some (d <| third_intf := i |> <| ttyTHIRD := tty |>))
  else if negb (n =? 0xFF) && (third_type d =? 1) then
    r ← call (Access devpath);
    if r =? 0 then
      i ← ql_find_usb_interface_info devpath (third_intf d);
      mret (Some (if valid_stream 0x80 i then d <| third_intf := i |> else drop_third d))
    else mret (Some (drop_third d))
  else mret (Some d).

(** What the files of the device say. *)
Definition read_device (usb : list Z) (d : ql_usb_device_info) : U ql_usb_device_info :=
  n ← get_value_from_file (device_file usb (str "bNumInterfaces")) 10;
  let uevent (key : list Z) := get_value_from_uevent (device_file usb (str "uevent")) key in
  ma ← uevent (str "MAJOR"); mi ← uevent (str "MINOR");
  bus ← uevent (str "BUSNUM"); dev ← uevent (str "DEVNUM"); name ← uevent (str "DEVNAME");
  bcd ← get_value_from_file (device_file usb (str "bcdDevice")) 10;
  mret (d <| bNumInterfaces := n |> <| major := atoi ma |> <| minor := atoi mi |> <| busnum := atoi bus |>
          <| devnum := atoi dev |> <| devname := take 32 (name ++ replicate 32 0) |> <| bcdDevice := bcd |>
          <| dm_intf := no_intf <| bInterfaceNumber := 0 |> |> <| general_intf := no_intf |>
          <| third_intf := no_intf |> <| general_type := -1 |> <| third_type := -1 |>).

Inductive scanned : Type := Skip | Stop | Found (d : ql_usb_device_info).

Definition scan_interfaces (usb : list Z) (d : ql_usb_device_info) : U scanned :=
  r ← iterM 3 (scan_dm usb) d;
  match r with
  | None => mret Skip
  | Some d =>
      r ← scan_general usb d;
      match r with
      | None => mret Skip
      | Some d =>
          r ← scan_third usb d;
          mret (match r with
                | None => Skip
                | Some d => Found (d <| usbdevice_pah := usbpath ++ str "/" ++ take 16 usb |>)
                end)
      end
  end.

Definition scan_device (usb : list Z) : U scanned :=
  if starts_with 46 usb || starts_with 117 usb then mret Skip else
  vendor ← get_value_from_file (device_file usb (str "idVendor")) 16;
  product ← get_value_from_file (device_file usb (str "idProduct")) 16;
  let d := zero_dev <| idVendor := vendor |> <| idProduct := product |> in
  if is_grid d && bool_decide (modem_name_para cfg = []) then mret Stop else
  if negb (supported d) then mret Skip else
  call (Usleep 100000);;
  d ← read_device usb d;
  let '(d, qualcomm) := if 1 <? bNumInterfaces d then log_interfaces d else (d, false) in
  (if (qualcomm : bool) then modify (fun s => s <| g_is_qualcomm_chip := 1 |>) else mret tt);;
  scan_interfaces usb (special_interfaces d).

Fixpoint scan_all (names : list (list Z)) (modules_num : nat) : U nat :=
  match names with
  | [] => mret modules_num
  | usb :: names =>
      r ← scan_device usb;
      match r with
      | Stop => mret modules_num
      | Skip => scan_all names modules_num
      | Found d =>
          if (modules_num <? MAX_USB_DEV)%nat then
            modify (fun s => s <| s_usb_device_info ::= <[modules_num := d]> |>);;
            scan_all names (S modules_num)
          else scan_all names modules_num
      end
  end.

Definition ql_find_quectel_modules : U nat :=
  r ← call (ReadDir usbpath);
  match r with
  | None => mret 0%nat
  | Some names => scan_all names 0
  end.
End Discovery.

(** ** usbfs *)

Definition MKDEV (ma mi : Z) : Z :=
  s32 (Z.lor (Z.lor (Z.shiftl (Z.land ma 0xfff) 8) (Z.land mi 0xff)) (Z.shiftl (Z.land mi 0xfff00) 12)).
Definition underscores (l : list Z) : list Z := map (fun b => if b =? 47 then 95 else b) l.

Definition usbfs_is_kernel_driver_alive (fd ifnum : Z) : U bool :=
  r ← call (GetDriver fd ifnum); mret (negb (r <? 0)).
Definition usbfs_detach_kernel_driver (fd ifnum : Z) : U unit := call (Disconnect fd ifnum);; mret tt.

(** A device node that is missing is made, opened and removed. *)
Definition make_node (name : list Z) (d : ql_usb_device_info) : U (list Z) :=
  let name := take 5 name ++ underscores (drop 5 name) in
  r ← call (Mknod name (MKDEV (major d) (minor d)));
  if r =? 0 then mret name else
  let name := take 1 name ++ str "tmp" ++ drop 4 name in
  call (Mknod name (MKDEV (major d) (minor d)));; mret name.

Definition ql_usbfs_open_interface (d : ql_usb_device_info) (intf : Z) : U Z :=
  s ← of_option (c_string 0 (devname d));
  let name := snprintf 64 (str "/dev/" ++ s) in
  r ← call (Access name);
  let missing := r =? ENOENT in
  name ← (if missing then make_node name d else mret name);
  usbfd ← call (OpenDev name);
  (if missing then call (Remove name) else mret tt);;
  if usbfd =? -1 then mret (-1) else
  alive ← usbfs_is_kernel_driver_alive usbfd intf;
  (if (alive : bool) then usbfs_detach_kernel_driver usbfd intf else mret tt);;
  r ← call (Claim usbfd intf);
  if r =? 0 then mret usbfd else call (Close usbfd);; mret (-1).

(** The answer is the length, -1 is [None]. *)
Definition ql_usbfs_read (usbfd ep_in len : Z) : U (option (list Z)) := call (Bulk usbfd ep_in len).

Definition ql_usbfs_write (usbfd ep_out : Z) (buf : list Z) : U Z :=
  n ← call (Submit usbfd ep_out buf);
  if n <? 0 then mret 0 else
  r ← call (Reap usbfd);
  mret (match r with
        | Some (status, actual) => if (status =? 0) && negb (actual =? 0) then actual else 0
        | None => 0
        end).

(** ** What the discovery records *)

Definition same_ids (d d' : ql_usb_device_info) : Prop := idVendor d' = idVendor d /\ idProduct d' = idProduct d.

(** A stream that is named has an interface. *)
Definition general_named (d : ql_usb_device_info) : Prop :=
  general_type d = MDM_QDSS -> bInterfaceNumber (general_intf d) <> 255.
Definition third_named (d : ql_usb_device_info) : Prop :=
  third_type d = 1 -> bInterfaceNumber (third_intf d) <> 255.
Definition tidy (d : ql_usb_device_info) : Prop := general_named d /\ third_named d.

Definition general_checked (d : ql_usb_device_info) : Prop :=
  general_type d = MDM_QDSS -> valid_stream 0x70 (general_intf d) = true.
Definition third_checked (d : ql_usb_device_info) : Prop :=
  third_type d = 1 -> valid_stream 0x80 (third_intf d) = true.

Section Recorded.
Context (cfg : choices).

(** What the rest of the tool counts on for an entry of the table. *)
Definition usable (d : ql_usb_device_info) : Prop :=
  supported cfg d = true /\ general_checked d /\ third_checked d.

Lemma supported_same d d' : same_ids d d' -> supported cfg d' = supported cfg d.
Proof.
  intros [Hv Hp]. unfold supported, is_unisoc, is_exx00u, is_mtk, is_eigen, is_asr, is_mdm, ids. by rewrite Hv, Hp.
Qed.

(** A choice of interfaces by [set_dm], [set_general] and [set_third]. *)
Definition proper (f : ql_usb_device_info -> ql_usb_device_info) : Prop :=
  forall d, same_ids d (f d) /\ (tidy d -> tidy (f d)).

Lemma log_interfaces_proper : proper (fun d => fst (log_interfaces cfg d)).
Proof.
  intros d. unfold log_interfaces, asr_interfaces, grid_asr, unisoc_interfaces, mtk_interfaces, mdm_interfaces.
  repeat (case_match; try (split; [done|]; intros [??]; split; done)).
Qed.

Lemma special_interfaces_proper : proper (special_interfaces cfg).
Proof.
  intros d. unfold special_interfaces. cbn zeta.
  repeat (case_match; try (split; [done|]; intros [??]; split; done)).
Qed.

(** *** The functions that only read *)

Lemma fgets_loop_rest n file : (length (snd (fgets_loop n file)) <= length file)%nat.
Proof.
  revert file. induction n as [|n IH]; intros [|b file]; cbn; try lia.
  destruct (b =? 10); cbn; [lia|]. specialize (IH file). destruct (fgets_loop n file). cbn in *. lia.
Qed.

Lemma fgets_shorter n file line rest : (1 < n)%nat -> fgets n file = Some (line, rest) ->
  (length rest < length file)%nat.
Proof.
  intros Hn. unfold fgets. destruct file as [|b file]; [done|]. destruct n as [|[|n]]; [lia|lia|].
  cbn [Nat.sub fgets_loop]. destruct (b =? 10).
  - intros H. injection H as <- <-. cbn. lia.
  - pose proof (fgets_loop_rest n file) as Hr. destruct (fgets_loop n file) as [x r].
    intros H. injection H as <- <-. cbn in *. lia.
Qed.

(** The interfaces of the logs are those of [d] and the ids, too. *)
Definition same_logs (d d' : ql_usb_device_info) : Prop :=
  same_ids d d' /\ general_type d' = general_type d /\ third_type d' = third_type d /\
  general_intf d' = general_intf d /\ third_intf d' = third_intf d.

Lemma same_logs_trans d d1 d2 : same_logs d d1 -> same_logs d1 d2 -> same_logs d d2.
Proof.
  intros ((A1 & A2) & A3 & A4 & A5 & A6) ((B1 & B2) & B3 & B4 & B5 & B6). repeat split; congruence.
Qed.

Section Reads.
Context (P : ust -> Prop).

Lemma value_keeps fname base : keeps P (get_value_from_file fname base) (fun _ => True).
Proof. unfold get_value_from_file. keep idtac. Qed.

Lemma find_key_keeps key : forall fuel file, (length file < fuel)%nat ->
  keeps P (find_key fuel key file) (fun _ => True).
Proof.
  intros fuel. induction fuel as [|fuel IH]; intros file Hf; [lia|]. cbn [find_key].
  destruct (fgets 256 file) as [[line rest]|] eqn:Hl; [|by apply keeps_ret].
  apply fgets_shorter in Hl; [|lia]. keep idtac. apply IH. lia.
Qed.

Lemma uevent_keeps uevent key : keeps P (get_value_from_uevent uevent key) (fun _ => True).
Proof. unfold get_value_from_uevent. keep idtac. apply find_key_keeps. lia. Qed.
#[local] Hint Resolve value_keeps uevent_keeps : keeps.

Lemma major_keeps devname d : keeps P (ql_get_dm_major_and_minor devname d) (same_logs d).
Proof. unfold ql_get_dm_major_and_minor. keep idtac; done. Qed.

Lemma take_endpoints_number names : forall i, bInterfaceNumber (fold_left take_endpoint names i) = bInterfaceNumber i.
Proof.
  induction names as [|n names IH]; intros i; [done|]. cbn [fold_left]. rewrite IH. unfold take_endpoint.
  by repeat case_match.
Qed.

Lemma info_keeps path i : keeps P (ql_find_usb_interface_info path i) (fun i' => bInterfaceNumber i' = bInterfaceNumber i).
Proof. unfold ql_find_usb_interface_info. keep idtac; [by apply take_endpoints_number|done]. Qed.

Lemma tty_keeps path : keeps P (ql_find_tty_info path) (fun _ => True).
Proof.
  unfold ql_find_tty_info. apply (keeps_iterM _ _ (fun st => 0 <= snd st) (fun st => Z.to_nat (snd st))); [|cbn; lia|cbn; lia].
  intros [tty wait] Hw. cbn [snd] in Hw. unfold scan_tty. keep idtac. cbn [snd]. destruct (Z.eqb_spec wait 0); [done|].
  split; lia.
Qed.
#[local] Hint Resolve major_keeps info_keeps tty_keeps : keeps.

Lemma dm_keeps usb d : keeps P (iterM 3 (scan_dm usb) d) (fun r =>
  match r with Some d' => same_logs d d' | None => True end).
Proof.
  apply (keeps_iterM _ _ (fun d' => same_logs d d')
    (fun d' => if bInterfaceNumber (dm_intf d') =? 0 then 1%nat else 0%nat)).
  - intros d' Hd. unfold scan_dm. cbn zeta. keep1 idtac. keep1 idtac; [by keep1 idtac|]. keep1 idtac.
    match goal with H : bInterfaceNumber ?i = _ |- _ => rewrite <-H end.
    assert (Hfound : forall tty, keeps P
      (d0 ← match tty with
            | [] => mret ((d' <| dm_intf := a0 |>) <| ttyDM := tty |>)
            | _ => ql_get_dm_major_and_minor tty ((d' <| dm_intf := a0 |>) <| ttyDM := tty |>)
            end; mret (inr (A := ql_usb_device_info) (Some d0)))
      (fun r => match r with inl _ => False | inr (Some d1) => same_logs d d1 | inr None => True end)).
    { intros tty. eapply (keeps_bind _ _ _ (same_logs d)); [|intros d2 Hd2; by apply keeps_ret].
      destruct tty; [by apply keeps_ret|]. eapply keeps_weaken; [apply major_keeps|].
      intros d2 Hd2. by eapply same_logs_trans. }
    destruct (Z.eqb_spec (bInterfaceNumber a0) 0) as [H0|H0]; cbn [andb].
    + keep1 idtac; [apply keeps_ret; split; [done|cbn; lia]|]. keep1 idtac.
      eapply keeps_weaken; [apply Hfound|]. by intros [?|[?|]].
    + keep1 idtac. eapply keeps_weaken; [apply Hfound|]. by intros [?|[?|]].
  - done.
  - destruct (_ =? _); lia.
Qed.
#[local] Hint Resolve dm_keeps : keeps.

Lemma general_keeps usb d : general_named d -> keeps P (scan_general usb d) (fun r =>
  match r with
  | Some d' => same_ids d d' /\ general_checked d' /\ third_type d' = third_type d /\ third_intf d' = third_intf d
  | None => True
  end).
Proof.
  intros Hg. unfold scan_general. cbn zeta. destruct (negb _ && (_ || _)) eqn:Hcp.
  { apply andb_prop in Hcp as [_ Ht]. keep idtac. split; [done|]. split; [|done].
    intros Hq. cbn in Hq. rewrite Hq in Ht. done. }
  destruct (negb _ && (_ =? _)) eqn:Hq.
  { keep idtac; [destruct (valid_stream _ _) eqn:Hv; (split; [done|]; split; [|done]); [by intros _|done]|done]. }
  apply keeps_ret. split; [done|]. split; [|done]. intros Ht. specialize (Hg Ht).
  rewrite Ht in Hq. apply andb_false_iff in Hq as [Hq|Hq]; [|done].
  apply negb_false_iff, Z.eqb_eq in Hq. done.
Qed.

Lemma third_keeps usb d : third_named d -> keeps P (scan_third usb d) (fun r =>
  match r with
  | Some d' => same_ids d d' /\ third_checked d' /\ general_type d' = general_type d /\ general_intf d' = general_intf d
  | None => True
  end).
Proof.
  intros Hg. unfold scan_third. cbn zeta. destruct (negb _ && (third_type d =? 2)) eqn:Hcp.
  { apply andb_prop in Hcp as [_ Ht]. keep idtac. split; [done|]. split; [|done].
    intros Hq. cbn in Hq. rewrite Hq in Ht. done. }
  destruct (negb _ && (third_type d =? 1)) eqn:Hq.
  { keep idtac; [destruct (valid_stream _ _) eqn:Hv; (split; [done|]; split; [|done]); [by intros _|done]|done]. }
  apply keeps_ret. split; [done|]. split; [|done]. intros Ht. specialize (Hg Ht).
  rewrite Ht in Hq. apply andb_false_iff in Hq as [Hq|Hq]; [|done].
  apply negb_false_iff, Z.eqb_eq in Hq. done.
Qed.

Lemma interfaces_keeps usb d : tidy d -> keeps P (scan_interfaces usb d) (fun r =>
  match r with Found d' => same_ids d d' /\ general_checked d' /\ third_checked d' | _ => True end).
Proof.
  intros Ht. unfold scan_interfaces. eapply keeps_bind; [apply dm_keeps|].
  intros [d1|] H1; [|by apply keeps_ret]. destruct H1 as ((V1 & P1) & G1 & T1 & GI1 & TI1).
  destruct Ht as [Hg Ht].
  eapply keeps_bind; [apply general_keeps; unfold general_named; by rewrite G1, GI1|].
  intros [d2|] H2; [|by apply keeps_ret]. destruct H2 as ((V2 & P2) & C2 & T2 & TI2).
  eapply keeps_bind; [apply third_keeps; unfold third_named; by rewrite T2, TI2, T1, TI1|].
  intros [d3|] H3; [|by apply keeps_ret]. destruct H3 as ((V3 & P3) & C3 & T3 & TI3).
  apply keeps_ret. split; [split; cbn; congruence|]. split; [|done].
  unfold general_checked in *. cbn. by rewrite T3, TI3.
Qed.

Lemma read_device_keeps usb d : keeps P (read_device usb d) (fun d' => same_ids d d' /\ tidy d').
Proof. unfold read_device. keep idtac. done. Qed.

Lemma device_keeps usb : (forall s, P s -> P (s <| g_is_qualcomm_chip := 1 |>)) ->
  keeps P (scan_device cfg usb) (fun r => match r with Found d => usable d | _ => True end).
Proof.
  intros HP. unfold scan_device. destruct (starts_with 46 usb || starts_with 117 usb); [by apply keeps_ret|].
  eapply keeps_bind; [apply value_keeps|]. intros vendor _. eapply keeps_bind; [apply value_keeps|].
  intros product _. cbn zeta. set (d0 := set_field idProduct _ _).
  destruct (is_grid d0 && _); [by apply keeps_ret|]. destruct (supported cfg d0) eqn:Hs; [|by apply keeps_ret].
  cbn [negb]. apply keeps_bind_call. intros []. eapply keeps_bind; [apply read_device_keeps|].
  intros d1 [Hi Ht]. set (chosen := if 1 <? bNumInterfaces d1 then _ else _).
  assert (Hc : same_ids d1 (fst chosen) /\ tidy (fst chosen)).
  { unfold chosen. destruct (1 <? _); [|done]. destruct (log_interfaces_proper d1) as [Ha Hb]. split; [exact Ha|by apply Hb]. }
  destruct chosen as [d2 qualcomm]. cbn [fst] in Hc. destruct Hc as [Hi2 Ht2].
  destruct (special_interfaces_proper d2) as [Hi3 Ht3].
  eapply (keeps_bind _ _ _ (fun _ => True)).
  { destruct qualcomm; [by apply keeps_modify|by apply keeps_ret]. }
  intros _ _. eapply keeps_weaken; [apply interfaces_keeps; by apply Ht3|].
  intros [| |d4]; try done. intros (Hi4 & Hg & Hth). split; [|by split].
  rewrite <-Hs. apply supported_same. destruct Hi, Hi2, Hi3, Hi4. split; congruence.
Qed.
End Reads.

Definition recorded (n : nat) (s : ust) : Prop :=
  length (s_usb_device_info s) = MAX_USB_DEV /\ (n <= MAX_USB_DEV)%nat /\ Forall usable (take n (s_usb_device_info s)).

(** [keeps] with a result that the invariant depends on. *)
Lemma scan_all_recorded E names : forall n w, recorded n (loc w) ->
  holds E (scan_all cfg names n) w (fun n' w' => recorded n' (loc w'))
    (fun _ w' => exists n', recorded n' (loc w')).
Proof.
  induction names as [|usb names IH]; intros n w Hw; cbn [scan_all]; [exact Hw|].
  apply holds_bind. eapply holds_mono.
  { apply (device_keeps (recorded n) usb ltac:(done) E w Hw). }
  - intros r w' [Hw' Hr]. destruct r as [| |d]; [by apply IH|exact Hw'|].
    destruct (Nat.ltb_spec n MAX_USB_DEV) as [Hn|Hn]; [|by apply IH].
    apply holds_bind, holds_modify, IH. cbn [loc hist]. destruct Hw' as (Hl & _ & Hf).
    split; [cbn; by rewrite length_insert|]. split; [lia|]. cbn.
    rewrite (take_S_r _ _ d) by (apply list_lookup_insert_eq; lia).
    rewrite take_insert_ge by lia. apply Forall_app. split; [done|]. by constructor.
  - intros c w' Hw'. by exists n.
Qed.
End Recorded.

(** ** No undefined behaviour *)

(** What the files of sysfs say: a number takes less than the 64 bytes that are
    read, and the lines of uevent are text. *)
Record sane (E : env usys) : Prop := {
  sane_value h fname n data : E _ h (ReadFile fname n) = Some data -> (length data < 64)%nat;
  sane_uevent h path file : E _ h (ReadUevent path) = Some file -> no_nul file;
}.

Lemma has_nul_ended (l : list Z) n : has_nul (l ++ 0 :: replicate n 0) = true.
Proof. induction l as [|b l IH]; cbn; [done|]. rewrite IH. by destruct (b =? 0). Qed.

Lemma fgets_text n file line rest : (1 < n)%nat -> no_nul file -> fgets n file = Some (line, rest) ->
  line <> [] /\ no_nul line /\ no_nul rest.
Proof.
  intros Hn Ht H. assert (Hsplit : forall n file, (line, rest) = fgets_loop n file -> line ++ rest = file).
  { clear. intros n file. revert line rest n. induction file as [|b l IH]; intros line rest n H.
    - by destruct n; injection H as -> ->.
    - destruct n as [|n]; [by injection H as -> ->|]. cbn in H. destruct (b =? 10); [by injection H as -> ->|].
      destruct (fgets_loop n l) as [x r] eqn:Hx. injection H as -> ->. cbn. by rewrite (IH x r n). }
  destruct file as [|b file]; [done|]. unfold fgets in H. injection H as H.
  assert (Hl : line ++ rest = b :: file) by (by eapply Hsplit).
  split; [|unfold no_nul in *; rewrite <-Hl in Ht; by apply Forall_app in Ht].
  intros ->. destruct n as [|[|n]]; [lia|lia|]. cbn in H. destruct (b =? 10); [done|].
  by destruct (fgets_loop n file).
Qed.

Section Clean.
Context (cfg : choices) (E : env usys) (HE : sane E).
Abbreviation fine m := (clean E (fun _ => True) False m (fun _ => True)).

Lemma value_clean fname base : fine (get_value_from_file fname base).
Proof.
  unfold get_value_from_file. apply clean_bind_call. intros h.
  destruct (E _ h _) as [data|] eqn:Hd; [|by apply clean_ret].
  apply (sane_value E HE) in Hd. rewrite (take_ge data) by lia.
  assert (Hn : has_nul (take 64 (data ++ replicate 64 0)) = true).
  { rewrite take_app, take_ge, take_replicate by lia.
    replace ((64 - length data) `min` 64)%nat with (S (63 - length data)) by lia. apply has_nul_ended. }
  rewrite Hn. destruct (strtoul_end _ _). by apply clean_ret.
Qed.

Lemma find_key_clean key : forall fuel file, no_nul file -> fine (find_key fuel key file).
Proof.
  intros fuel. induction fuel as [|fuel IH]; intros file Hf; cbn [find_key]; [by intros w Hw|].
  destruct (fgets 256 file) as [[line rest]|] eqn:Hl; [|by apply clean_ret].
  apply fgets_text in Hl as (Hne & Hline & Hrest); [|lia|done]. rewrite cstr_string by exact Hline.
  eapply (clean_bind _ _ _ _ _ (fun _ => True)); [apply clean_of_option; [|done]|].
  { unfold chomp. destruct (last line) eqn:Hlast; [by eexists|]. by apply last_None in Hlast. }
  intros line' _. destruct (_ && _); [by apply clean_ret|by apply IH].
Qed.

Lemma uevent_clean path key : fine (get_value_from_uevent path key).
Proof.
  unfold get_value_from_uevent. apply clean_bind_call. intros h. destruct (E _ h _) as [file|] eqn:Hd; [|by apply clean_ret].
  apply find_key_clean. by apply (sane_uevent E HE) in Hd.
Qed.
#[local] Hint Resolve value_clean uevent_clean : clean.

Lemma major_clean devname d : fine (ql_get_dm_major_and_minor devname d).
Proof. unfold ql_get_dm_major_and_minor. cleans idtac. Qed.
Lemma info_clean path i : fine (ql_find_usb_interface_info path i).
Proof. unfold ql_find_usb_interface_info. cleans idtac. Qed.
Lemma tty_clean path : fine (ql_find_tty_info path).
Proof.
  unfold ql_find_tty_info. apply (clean_iterM _ _ _ _ (fun _ => True)); [|done]. intros [tty wait] _. unfold scan_tty.
  cleans idtac; by repeat case_match.
Qed.
#[local] Hint Resolve major_clean info_clean tty_clean : clean.

Lemma interfaces_clean usb d : fine (scan_interfaces usb d).
Proof.
  unfold scan_interfaces. eapply (clean_bind _ _ _ _ _ (fun _ => True)).
  { apply (clean_iterM _ _ _ _ (fun _ => True)); [|done]. intros d' _. unfold scan_dm. cleans idtac; by repeat case_match. }
  intros r _. unfold scan_general, scan_third. cleans idtac.
Qed.
#[local] Hint Resolve interfaces_clean : clean.

Lemma scan_all_clean names : forall n, fine (scan_all cfg names n).
Proof.
  induction names as [|usb names IH]; intros n; cbn [scan_all]; [by apply clean_ret|].
  eapply (clean_bind _ _ _ _ _ (fun _ => True)).
  { unfold scan_device, read_device. cleans ltac:(done). }
  intros [| |d] _; [apply IH|by apply clean_ret|]. cleans ltac:(done); apply IH.
Qed.
End Clean.

(** C16: the table of modules.  Where the files of sysfs are sane (a file of a
    number has less than 64 bytes, and there is no NUL in a uevent), whatever
    else they say, the discovery comes to its end without undefined behaviour;
    it fills at most the eight entries of the table, every entry is of a supported
    module, and where it names a QDSS or DPL stream the interface is one of that
    class, with one endpoint, which reads.  Where they are not sane, the table is
    such a one if the discovery ends. *)
Theorem discovery_records_usable cfg E (w : world usys ust) :
  length (s_usb_device_info (loc w)) = MAX_USB_DEV ->
  (sane E -> runs E (ql_find_quectel_modules cfg) w (fun n w' => recorded cfg n (loc w'))) /\
  holds E (ql_find_quectel_modules cfg) w
    (fun n w' => recorded cfg n (loc w')) (fun _ w' => exists n, recorded cfg n (loc w')).
Proof.
  intros Hl. assert (Hh : holds E (ql_find_quectel_modules cfg) w
    (fun n w' => recorded cfg n (loc w')) (fun _ w' => exists n, recorded cfg n (loc w'))).
  { unfold ql_find_quectel_modules. apply holds_bind, holds_call. intros [names|].
    - apply scan_all_recorded. split; [done|]. by split; [lia|].
    - apply holds_ret. split; [done|]. by split; [lia|]. }
  split; [|exact Hh]. intros HE. eapply holds_yields_ends; [exact Hh|].
  assert (Hc : clean E (fun _ => True) False (ql_find_quectel_modules cfg) (fun _ => True)).
  { unfold ql_find_quectel_modules. cleans idtac. by apply scan_all_clean. }
  exact (Hc w Logic.I).
Qed.

(** ** A bus with one module that has a QDSS port *)

Definition demo_files : list (list Z * list Z) :=
  [(device_file (str "1-1") (str "idVendor"), str "2c7c" ++ [10]);
   (device_file (str "1-1") (str "idProduct"), str "0512" ++ [10]);
   (device_file (str "1-1") (str "bNumInterfaces"), str " 5" ++ [10]);
   (device_file (str "1-1") (str "bcdDevice"), str "0318" ++ [10]);
   (intf_path (str "1-1") 0 ++ str "/bInterfaceClass", str "ff");
   (intf_path (str "1-1") 12 ++ str "/bInterfaceClass", str "ff" ++ [10]);
   (intf_path (str "1-1") 12 ++ str "/bInterfaceSubClass", str "ff" ++ [10]);
   (intf_path (str "1-1") 12 ++ str "/bInterfaceProtocol", str "70" ++ [10]);
   (intf_path (str "1-1") 12 ++ str "/bNumEndpoints", str "01" ++ [10])].
Definition demo_uevent : list Z := str "MAJOR=189" ++ [10] ++ str "MINOR=4" ++ [10] ++ str "DEVNAME=bus/usb/001/005" ++ [10].
Definition file_of (path : list Z) : option (list Z) := snd <$> (snd <$> list_find (fun e => fst e = path) demo_files).

Definition demo_bus : env usys := fun A h c =>
  match c in usys A return A with
  | ReadFile path size => take size <$> file_of path
  | ReadUevent path => if str_eqb path (device_file (str "1-1") (str "uevent")) then Some demo_uevent else None
  | ReadDir path =>
      if str_eqb path usbpath then Some (map str [".."; "usb1"; "1-0:1.0"; "1-1"])
      else if str_eqb path (intf_path (str "1-1") 0) then Some (map str ["ep_81"; "ep_01"; "ttyUSB0"])
      else if str_eqb path (intf_path (str "1-1") 12) then Some (map str ["ep_8e"])
      else None
  | Access path => if str_eqb path (intf_path (str "1-1") 13) then ENOENT else 0
  | Stat _ => None
  | Usleep _ => tt
  | Mknod _ _ => -1
  | OpenDev _ => -1
  | Remove _ => tt
  | Close _ => tt
  | GetDriver _ _ => -1
  | Disconnect _ _ => -1
  | Claim _ _ => -1
  | Bulk _ _ _ => None
  | Submit _ _ _ => -1
  | Reap _ => None
  end.
Definition demo_choices : choices := Choices [] false false false 0.
Definition demo_table : world usys ust := World (Ust (replicate MAX_USB_DEV zero_dev) 0) [].

Lemma demo_sane : sane demo_bus.
Proof.
  split.
  - intros h fname n data H. change (take n <$> file_of fname = Some data) in H.
    apply fmap_Some in H as (d & Hf & ->). unfold file_of in Hf. apply fmap_Some in Hf as (e & He & ->).
    apply fmap_Some in He as ([k e'] & Hl & ->).
    apply list_find_Some in Hl as (Hl & _ & _). rewrite length_take.
    assert (Hs : Forall (fun e : list Z * list Z => (length (snd e) < 64)%nat) demo_files)
      by (apply (bool_decide_unpack _); by vm_compute).
    pose proof (Forall_lookup_1 _ _ _ _ Hs Hl) as H64. cbn in H64. cbn. lia.
  - intros h path file H. unfold demo_bus in H. destruct (str_eqb _ _); [|done]. injection H as <-.
    apply (bool_decide_unpack _). by vm_compute.
Qed.

Lemma discovery_records_usable_witness :
  runs demo_bus (ql_find_quectel_modules demo_choices) demo_table
    (fun n w' => recorded demo_choices n (loc w')) /\
  match ql_find_quectel_modules demo_choices demo_bus demo_table with
  | Done n w' =>
      n = 1%nat /\ match s_usb_device_info (loc w') with
                   | d :: _ => (general_type d, third_type d, ttyDM d, ep_in (general_intf d), minor d) =
                               (MDM_QDSS, -1, str "/dev/ttyUSB0", 0x8e, 4)
                   | [] => False
                   end
  | _ => False
  end.
Proof.
  split; [|by vm_compute]. destruct (discovery_records_usable demo_choices demo_bus demo_table eq_refl) as [H _].
  apply H, demo_sane.
Defined.
