(* ===== verification/FtpClient.v ===== *)
(** The FTP client of the log tool (src/ftp.c): the commands and replies of a
    session, the port of a PASV reply, and the data connection that a log file
    is written to. *)

From Stdlib Require Import ZArith Lia.
From stdpp Require Import base list strings.
From S2P Require Import Prelude Str CText.
From S2P Require FtpSys FtpProto.

(** ** Calls and variables *)

(** [Connect] gets the text of the address, as [inet_addr] does, and the port as
    16 bits; [Read] answers what [read] stored, [None] for -1. *)
Inductive csys : Type -> Type :=
| Socket : csys Z
| Connect (fd : Z) (server : list Z) (port : Z) : csys Z
| Write (fd : Z) (buf : list Z) : csys Z
| Read (fd size : Z) : csys (option (list Z))
| Close (fd : Z) : csys unit.

Record q_ftp_tag : Type := Tag { server_fd : Z; login : list Z }.
#[export] Instance eta_q_ftp_tag : Eta q_ftp_tag := fun s => Tag (server_fd s) (login s).

Record cst : Type := Cst {
  buf : list Z;
  ret_ftp_write : Z;
  q_ftp_tag_comb : list q_ftp_tag;
}.
#[export] Instance eta_cst : Eta cst := fun s => Cst (buf s) (ret_ftp_write s) (q_ftp_tag_comb s).

Definition BUF : nat := 1024.
Abbreviation C := (M csys cst).

(** ** The commands *)

Definition connet_tcp_server (server : list Z) (port : Z) : C Z :=
  sockfd ← call Socket;
  if sockfd <? 0 then mret (-1) else
  ret ← call (Connect sockfd server (u16 port));
  if ret =? 0 then mret sockfd else call (Close sockfd);; mret (-1).

(** A [char] is signed: bytes above 127 are below the blank. *)
Definition printable (b : Z) : bool := (32 <=? b) && (b <? 127).
Fixpoint printable_run (l : list Z) : nat :=
  match l with
  | b :: l => if printable b then S (printable_run l) else 0
  | [] => 0
  end.

(** What is printed ends at the first byte that is not printable. *)
Definition ftp_die : C unit :=
  s ← get;
  b ← of_option (wr (printable_run (buf s)) [0] (buf s));
  modify (fun s => s <| buf := b |>).

Definition is_reply (b : list Z) : bool :=
  isdigit (nth 0 b 0) && ((nth 3 b 0 =? 32) || (nth 3 b 0 =? 45)).

(** One turn of the loop: [inr] is the code, 0 at the end of the connection. *)
Definition reply_turn (fd : Z) : C (unit + Z) :=
  s ← get;
  b ← of_option (wr 0 (str "EOF" ++ [0]) (buf s));
  modify (fun s => s <| buf := b |>);;
  r ← call (Read fd (Z.of_nat BUF - 2));
  match r with
  | None => ftp_die;; mret (inr 0)
  | Some [] => ftp_die;; mret (inr 0)
  | Some data =>
      b ← of_option (wr 0 (data ++ [0]) b);
      modify (fun s => s <| buf := b |>);;
      if is_reply b then
        code ← of_option (c_string 0 (take 3 b ++ [0]));
        b ← of_option (wr 3 [32] b);
        modify (fun s => s <| buf := b |>);;
        mret (inr (u32 (atoi code)))
      else mret (inl tt)
  end.

Definition command_text (s1 : list Z) (s2 : option (list Z)) : list Z :=
  match s2 with Some s2 => s1 ++ str " " ++ s2 | None => s1 end ++ [13; 10].

Definition send_command (s1 : list Z) (s2 : option (list Z)) (fd : Z) : C unit :=
  s ← get;
  b ← of_option (wr 0 (snprintf BUF (command_text s1 s2) ++ [0]) (buf s));
  text ← of_option (c_string 0 b);
  modify (fun s => s <| buf := b |>);;
  r ← call (Write fd text);
  modify (fun s => s <| ret_ftp_write := r |>).

Section Session.
Context (fuel : nat).

Definition ftpcmd (s1 s2 : option (list Z)) (fd : Z) : C Z :=
  match s1 with Some s1 => send_command s1 s2 fd | None => mret tt end;;
  n ← iterM fuel (fun _ => reply_turn fd) tt;
  mret (s32 n).

Definition expect (code n : Z) : C unit := if n =? code then mret tt else ftp_die.

Definition is_on (t : q_ftp_tag) : bool := same_nocase 2 (login t) (str "on").

Definition quit_one (i : nat) : C unit :=
  s ← get;
  t ← of_option (q_ftp_tag_comb s !! i);
  if negb (is_on t) then mret tt else
  n ← ftpcmd None None (server_fd t); expect 226 n;;
  n ← ftpcmd (Some (str "QUIT")) None (server_fd t); expect 221 n;;
  if server_fd t =? -1 then mret tt else call (Close (server_fd t)).

Definition ftp_quit : C unit := forM (seq 0 4) quit_one.

Definition ftp_login (ftp_server user password : list Z) : C Z :=
  fd ← connet_tcp_server ftp_server 21;
  if fd =? -1 then mret (-1) else
  n ← ftpcmd None None fd; expect 220 n;;
  n ← ftpcmd (Some (str "USER")) (Some user) fd;
  (if n =? 230 then mret tt
   else if n =? 331 then n ← ftpcmd (Some (str "PASS")) (Some password) fd; expect 230 n
   else ftp_die);;
  n ← ftpcmd (Some (str "TYPE I")) None fd; expect 200 n;;
  mret fd.

(** ** The port of a PASV or EPSV reply *)

Fixpoint strrchr (s : list Z) (c : Z) : option nat :=
  match s with
  | [] => None
  | b :: l => match strrchr l c with
              | Some n => Some (S n)
              | None => if b =? c then Some 0%nat else None
              end
  end.

(** [*strrchr(b, c) = '\0']: the buffer, and the string behind the place. *)
Definition cut_last (c : Z) (b : list Z) : option (list Z * list Z) :=
  p ← strrchr (cstr b) c; Some (<[p := 0]> b, cstr (drop (S p) b)).

Definition pasv_port (b : list Z) : Z * list Z :=
  let b := match cut_last 41 b with Some (b, _) => b | None => b end in
  match cut_last 44 b with
  | None => (-1, b)
  | Some (b, low) =>
      match cut_last 44 b with
      | None => (-1, b)
      | Some (b, high) => (s32 (atoi low + s32 (atoi high * 256)), b)
      end
  end.

Definition epsv_port (b : list Z) : Z * list Z :=
  match cut_last 124 b with
  | None => (-1, b)
  | Some (b, _) =>
      match cut_last 124 b with
      | None => (-1, b)
      | Some (b, port) => (atoi port, b)
      end
  end.

(** The buffer has a NUL: [ftpcmd] wrote one. *)
Definition parse_pasv_epsv (b : list Z) : Z * list Z :=
  if nth 2 b 0 =? 55 then pasv_port b else epsv_port b.

Definition ftp_send (ftp_server filename : list Z) (fd : Z) : C Z :=
  n ← ftpcmd (Some (str "PASV")) None fd; expect 227 n;;
  s ← get;
  let '(port_num, b) := parse_pasv_epsv (buf s) in
  modify (fun s => s <| buf := b |>);;
  (if port_num <? 0 then ftp_die else mret tt);;
  sockfd ← connet_tcp_server ftp_server port_num;
  (if sockfd <? 0 then ftp_die else mret tt);;
  response ← ftpcmd (Some (str "STOR")) (Some filename) fd;
  (if (response =? 125) || (response =? 150) then mret tt else ftp_die);;
  mret sockfd.

Definition ftp_write_request (index : nat) (ftp_server user pass filename : list Z) : C Z :=
  s ← get;
  t ← of_option (q_ftp_tag_comb s !! index);
  connected ← (if negb (is_on t) then
                 fd ← ftp_login ftp_server user pass;
                 modify (fun s => s <| q_ftp_tag_comb ::= alter (fun t => t <| server_fd := fd |>) index |>);;
                 mret (negb (fd =? -1))
               else n ← ftpcmd None None (server_fd t); expect 226 n;; mret true);
  if negb connected then mret (-1) else
  modify (fun s => s <| q_ftp_tag_comb ::= alter (fun t => t <| login := str "on" |>) index |>);;
  s ← get;
  t ← of_option (q_ftp_tag_comb s !! index);
  ftp_send ftp_server filename (server_fd t).
End Session.

(** ** The port of a reply *)

Lemma strrchr_none l c : c ∉ l -> strrchr l c = None.
Proof.
  induction l as [|b l IH]; cbn; [done|]. intros H. apply not_elem_of_cons in H. destruct H as [Hb Hl].
  rewrite IH by done. by destruct (Z.eqb_spec b c).
Qed.

Lemma strrchr_last l r c : c ∉ r -> strrchr (l ++ c :: r) c = Some (length l).
Proof.
  intros Hr. induction l as [|b l IH]; cbn; [by rewrite strrchr_none, Z.eqb_refl|]. by rewrite IH.
Qed.

Lemma cut_last_at c l r rest : no_nul l -> no_nul r -> c <> 0 -> c ∉ r ->
  cut_last c (l ++ c :: r ++ 0 :: rest) = Some (l ++ 0 :: r ++ 0 :: rest, r).
Proof.
  intros Hl Hr H0 Hc. unfold cut_last.
  assert (Hs : cstr (l ++ c :: r ++ 0 :: rest) = l ++ c :: r).
  { change (c :: r ++ 0 :: rest) with ((c :: r) ++ 0 :: rest). rewrite app_assoc. apply cstr_string.
    apply Forall_app. split; [done|]. by constructor. }
  rewrite Hs, strrchr_last by done. cbn [mbind option_bind]. do 2 f_equal.
  - rewrite insert_app_r_alt by lia. by rewrite Nat.sub_diag.
  - replace (S (length l)) with (length (l ++ [c])) by len.
    replace (l ++ c :: r ++ 0 :: rest) with ((l ++ [c]) ++ r ++ 0 :: rest) by (by rewrite <-app_assoc).
    rewrite drop_app_length. by apply cstr_string.
Qed.

(** A reply as the FTP server of the repository sends it. *)
Definition reply (status : Z) (text : list Z) : list Z := FtpSys.dec status ++ [32] ++ text ++ FtpProto.CRLF.

Lemma dec_digits z : 0 <= z < 2 ^ 32 -> Forall digit (FtpSys.dec z).
Proof.
  intros Hz. unfold FtpSys.dec. destruct (Z.ltb_spec z 0); [lia|].
  apply (digits_of_value 10 20); lia.
Qed.

Lemma dec_is_print z : FtpSys.dec z = print_d z.
Proof. done. Qed.

Lemma digits_no c s : Forall digit s -> isdigit c = false -> c ∉ s.
Proof.
  intros Hs Hc Hin. rewrite Forall_forall in Hs. specialize (Hs c Hin). unfold digit in Hs.
  unfold isdigit in Hc. lia.
Qed.

Lemma digits_no_nul s : Forall digit s -> no_nul s.
Proof. intros H. eapply Forall_impl; [exact H|]. unfold digit. intros. lia. Qed.

Lemma pasv_reply_port (ip : nat -> Z) port rest :
  (forall i, 0 <= ip i < 2 ^ 32) -> 0 <= port < 2 ^ 16 ->
  fst (parse_pasv_epsv (reply FtpProto.FTP_PASVOK (FtpProto.pasv_text (fun i => FtpSys.dec (ip i)) port) ++ 0 :: rest)) = port.
Proof.
  intros Hip Hport.
  assert (Hh : 0 <= port / 256 < 256) by (Z.to_euclidean_division_equations; lia).
  assert (Hl : 0 <= port mod 256 < 256) by (apply Z.mod_pos_bound; lia).
  set (front := str "227 Entering Passive Mode (" ++ FtpSys.dec (ip 0%nat) ++ [44] ++ FtpSys.dec (ip 1%nat) ++ [44] ++
     FtpSys.dec (ip 2%nat) ++ [44] ++ FtpSys.dec (ip 3%nat)).
  assert (Hfront : no_nul front).
  { unfold no_nul, front. rewrite !Forall_app. split_and!; try (by apply digits_no_nul, dec_digits);
      by repeat constructor. }
  pose proof (digits_no_nul _ (dec_digits (port / 256) ltac:(lia))) as Hhn.
  pose proof (digits_no_nul _ (dec_digits (port mod 256) ltac:(lia))) as Hln.
  assert (He : forall tail, reply FtpProto.FTP_PASVOK (FtpProto.pasv_text (fun i => FtpSys.dec (ip i)) port) ++ 0 :: tail =
    (front ++ 44 :: FtpSys.dec (port / 256) ++ 44 :: FtpSys.dec (port mod 256)) ++ 41 :: (str "." ++ FtpProto.CRLF) ++ 0 :: tail).
  { intros tail. unfold reply, FtpProto.pasv_text, front. rewrite <-!app_assoc. cbn [app]. 
    change (FtpSys.dec FtpProto.FTP_PASVOK) with (str "227"). rewrite <-!app_assoc. cbn [app]. done. }
  unfold parse_pasv_epsv. change (nth 2 _ 0 =? 55) with true. cbn iota. rewrite He. unfold pasv_port.
  set (hi := FtpSys.dec (port / 256)) in *. set (lo := FtpSys.dec (port mod 256)) in *.
  assert (N1 : no_nul (front ++ 44 :: hi)) by (apply Forall_app; split; [done|by constructor]).
  assert (N2 : no_nul (front ++ 44 :: hi ++ 44 :: lo)).
  { change (44 :: hi ++ 44 :: lo) with ((44 :: hi) ++ 44 :: lo). rewrite app_assoc.
    apply Forall_app; split; [done|by constructor]. }
  rewrite cut_last_at; [|exact N2|by repeat constructor|done|by vm_compute; set_solver].
  set (tail := 46 :: 13 :: 10 :: 0 :: rest).
  assert (E2 : (front ++ 44 :: hi ++ 44 :: lo) ++ 0 :: (str "." ++ FtpProto.CRLF) ++ 0 :: rest =
    (front ++ 44 :: hi) ++ 44 :: lo ++ 0 :: tail)
    by (rewrite <-!app_assoc; cbn [app]; by rewrite <-!app_assoc).
  rewrite E2, cut_last_at; [|exact N1|exact Hln|done|by apply digits_no; [apply dec_digits; lia|]].
  rewrite <-app_assoc. cbn [app].
  rewrite cut_last_at; [|exact Hfront|exact Hhn|done|by apply digits_no; [apply dec_digits; lia|]].
  cbn [fst]. unfold hi, lo. rewrite !dec_is_print, !atoi_print by lia.
  assert (H32 : forall z, 0 <= z < 2 ^ 31 -> s32 z = z) by (intros z Hz; unfold s32; rewrite Z.mod_small; lia).
  rewrite (H32 (port / 256 * 256)), H32 by lia. pose proof (Z.div_mod port 256). lia.
Qed.

(** C29: the PASV reply is read back.  From the reply of the FTP server of this
    repository, for any address and port, the client takes the port that the
    server put in. *)
Theorem pasv_reply_read_back (ip : nat -> Z) port rest :
  (forall i, 0 <= ip i < 2 ^ 32) -> 0 <= port < 2 ^ 16 ->
  fst (parse_pasv_epsv (reply FtpProto.FTP_PASVOK (FtpProto.pasv_text (fun i => FtpSys.dec (ip i)) port) ++ 0 :: rest)) = port.
Proof. apply pasv_reply_port. Qed.

(** ** A session *)

Inductive act : Type :=
| Dial (server : list Z) (port : Z)
| Say (text : list Z).

(** What the client did, in order. *)
Fixpoint spoken (h : list (io csys)) : list act :=
  match h with
  | [] => []
  | Ev c _ :: h =>
      spoken h ++ match c with
                  | Connect _ server port => [Dial server port]
                  | Write _ text => [Say text]
                  | _ => []
                  end
  end.
Fixpoint count_reads (h : list (io csys)) : nat :=
  match h with
  | [] => 0
  | Ev c _ :: h => (match c with Read _ _ => 1 | _ => 0 end + count_reads h)%nat
  end.

(** A server that accepts connections and gives [replies] one after the other. *)
Record serves (E : env csys) (replies : list (list Z)) : Prop := {
  sv_socket h : 0 <= E _ h Socket;
  sv_connect h fd server port : E _ h (Connect fd server port) = 0;
  sv_read h fd size : E _ h (Read fd size) = Some (nth (count_reads h) replies []);
}.

Definition words (s : list Z) : Prop := no_nul s /\ (length s <= 900)%nat.

(** The session went on from [w] to [w'] with [acts] and [n] replies. *)
Definition after (w : world csys cst) (acts : list act) (n : nat) (w' : world csys cst) : Prop :=
  spoken (hist w') = spoken (hist w) ++ acts /\ count_reads (hist w') = (count_reads (hist w) + n)%nat /\
  length (buf (loc w')) = BUF /\ q_ftp_tag_comb (loc w') = q_ftp_tag_comb (loc w).

Lemma after_trans w w1 w2 a b n m : after w a n w1 -> after w1 b m w2 -> after w (a ++ b) (n + m) w2.
Proof.
  intros (H1 & H2 & H3 & H4) (K1 & K2 & K3 & K4). repeat split; [|lia|done|congruence].
  by rewrite K1, H1, <-app_assoc.
Qed.

Lemma three_digits z : 100 <= z < 1000 -> exists a b c, FtpSys.dec z = [a; b; c].
Proof.
  intros Hz. assert (Hl : length (FtpSys.dec z) = 3%nat).
  { assert (Ha : forallb (fun k => (length (FtpSys.dec (Z.of_nat k)) =? 3)%nat) (seq 100 900) = true) by (by vm_compute).
    rewrite forallb_forall in Ha. specialize (Ha (Z.to_nat z)). rewrite Z2Nat.id in Ha by lia.
    apply Nat.eqb_eq, Ha, in_seq. lia. }
  destruct (FtpSys.dec z) as [|a [|b [|c [|]]]]; try done. by exists a, b, c.
Qed.

Section Talk.
Context (E : env csys) (replies : list (list Z)) (Hserves : serves E replies).
Abbreviation world := (world csys cst).
Implicit Types w : world.

Lemma ftp_reply_runs fd w status text : 100 <= status < 1000 -> words text ->
  length (buf (loc w)) = BUF -> replies !! count_reads (hist w) = Some (reply status text) ->
  runs E (reply_turn fd) w (fun r w' => r = inr status /\ after w [] 1 w' /\
    ret_ftp_write (loc w') = ret_ftp_write (loc w) /\
    exists rest, buf (loc w') = reply status text ++ 0 :: rest).
Proof.
  intros Hst [Hn Hl] Hb Hr. unfold reply_turn. apply runs_bind, runs_get, runs_bind.
  assert (Hw1 : wr 0 (str "EOF" ++ [0]) (buf (loc w)) = Some (put 0 (str "EOF" ++ [0]) (buf (loc w))))
    by (apply wr_fits; rewrite Hb; cbn; unfold BUF; lia).
  eapply runs_of_option; [exact Hw1|]. apply runs_bind, runs_modify, runs_bind, runs_call. cbn [loc hist].
  rewrite (sv_read _ _ Hserves), (nth_lookup_Some _ _ _ _ Hr). set (b1 := put _ _ _) in *.
  assert (Hb1 : length b1 = BUF) by (apply wr_length in Hw1; congruence).
  destruct (three_digits status Hst) as (d1 & d2 & d3 & Hd).
  assert (Hlen : (length (reply status text ++ [0%Z]) <= BUF)%nat).
  { unfold reply. rewrite Hd. rewrite !length_app. cbn. unfold BUF. lia. }
  pose proof (dec_digits status ltac:(lia)) as Hdig. rewrite Hd in Hdig.
  assert (Hshape : reply status text = d1 :: d2 :: d3 :: 32 :: text ++ FtpProto.CRLF)
    by (unfold reply; by rewrite Hd).
  set (rest := drop (length (reply status text ++ [0%Z])) b1).
  assert (Hb2 : put 0 (reply status text ++ [0]) b1 = d1 :: d2 :: d3 :: 32 :: text ++ FtpProto.CRLF ++ 0 :: rest).
  { unfold put, rest. rewrite take_0. cbn [app]. rewrite Nat.add_0_l. set (k := length _). clearbody k.
    rewrite Hshape. cbn [app]. by rewrite <-!app_assoc. }
  assert (Hl2 : length (d1 :: d2 :: d3 :: 32 :: text ++ FtpProto.CRLF ++ 0 :: rest) = BUF)
    by (rewrite <-Hb2, length_put; [done|by rewrite Hb1]).
  assert (Hw2 := wr_fits 0 (reply status text ++ [0]) b1 ltac:(by rewrite Hb1)). rewrite Hb2 in Hw2.
  rewrite Hshape in Hw2 |- *. apply runs_bind. eapply runs_of_option; [exact Hw2|].
  apply runs_bind, runs_modify. unfold is_reply. cbn [nth].
  assert (Hd1 : digit d1) by (by apply Forall_cons in Hdig as [? _]).
  replace (isdigit d1) with true by (unfold isdigit, digit in *; lia). cbn [Z.eqb Pos.eqb orb andb].
  apply runs_bind. eapply runs_of_option.
  { apply (c_string_in [d1; d2; d3]). split; [by apply digits_no_nul|]. by exists []. }
  apply runs_bind. eapply runs_of_option.
  { apply wr_fits. rewrite Hl2. unfold BUF. cbn. lia. }
  set (b3 := put 3 [32] _).
  assert (Hb3 : b3 = reply status text ++ 0 :: rest).
  { unfold b3, put. rewrite Hshape. cbn [take drop app length Nat.add]. by rewrite <-!app_assoc. }
  apply runs_bind, runs_modify, runs_ret. split; [|split; [|split]].
  - f_equal. rewrite <-Hd, dec_is_print, atoi_print by lia. unfold u32. rewrite Z.mod_small; lia.
  - split; [done|]. split; [cbn; lia|]. split; [|done].
    change (length b3 = BUF). rewrite Hb3, <-Hl2, Hshape. by len.
  - done.
  - exists rest. etransitivity; [exact Hb3|by rewrite Hshape].
Qed.

Lemma say_runs fd w s1 s2 : length (buf (loc w)) = BUF -> words s1 ->
  match s2 with Some s => words s | None => True end -> (length s1 <= 10)%nat ->
  runs E (send_command s1 s2 fd) w (fun _ w' => after w [Say (command_text s1 s2)] 0 w').
Proof.
  intros Hb [Hn1 _] H2 Hl1. unfold send_command. apply runs_bind, runs_get.
  assert (Hc : no_nul (command_text s1 s2) /\ (length (command_text s1 s2) <= 1000)%nat).
  { unfold command_text. change (str " ") with [32]. destruct s2 as [s2|]; [destruct H2 as [Hn2 Hl2]|]; (split; [|by len]);
      unfold no_nul; rewrite !Forall_app; split_and!; try done; by repeat constructor. }
  destruct Hc as [Hcn Hcl]. unfold snprintf. rewrite take_ge by (unfold BUF; lia).
  apply runs_bind. eapply runs_of_option; [apply wr_fits; rewrite Hb; unfold BUF; len|].
  set (b := put _ _ _). assert (Hlb : length b = BUF) by (unfold b; rewrite length_put; [done|rewrite Hb; unfold BUF; len]).
  apply runs_bind. eapply runs_of_option.
  { apply (c_string_in (command_text s1 s2)). split; [done|]. unfold b, put. rewrite take_0. cbn [app].
    rewrite <-app_assoc. by eexists. }
  apply runs_bind, runs_modify, runs_bind, runs_call, runs_modify. split; [done|]. split; [cbn; lia|]. done.
Qed.

Lemma ftpcmd_runs fuel fd w s1 s2 status text : (0 < fuel)%nat -> 100 <= status < 1000 -> words text ->
  length (buf (loc w)) = BUF -> replies !! count_reads (hist w) = Some (reply status text) ->
  match s1 with Some s => words s /\ (length s <= 10)%nat | None => True end ->
  match s2 with Some s => words s | None => True end ->
  runs E (ftpcmd fuel s1 s2 fd) w (fun n w' => n = status /\
    after w (match s1 with Some s1 => [Say (command_text s1 s2)] | None => [] end) 1 w' /\
    exists rest, buf (loc w') = reply status text ++ 0 :: rest).
Proof.
  intros Hf Hst Ht Hb Hr H1 H2. unfold ftpcmd. destruct fuel as [|fuel]; [lia|]. cbn [iterM].
  assert (H32 : s32 status = status) by (unfold s32; rewrite Z.mod_small; lia).
  assert (Hreply : forall w1 acts, after w acts 0 w1 ->
    runs E (n ← r ← reply_turn fd; match r with inl a => iterM fuel (fun _ => reply_turn fd) a | inr b => mret b end;
            mret (s32 n)) w1 (fun n w' => n = status /\ after w acts 1 w' /\
              exists rest, buf (loc w') = reply status text ++ 0 :: rest)).
  { intros w1 acts Ha. destruct Ha as (A1 & A2 & A3 & A4). apply runs_bind, runs_bind. eapply runs_mono.
    - apply (ftp_reply_runs fd w1 status text); try done. by rewrite A2, Nat.add_0_r.
    - cbn beta. intros r w' (-> & Hw' & _ & Hrest). apply runs_ret, runs_ret. split; [done|]. split; [|done].
      assert (Haf : after w acts 0 w1) by done. pose proof (after_trans _ _ _ _ _ _ _ Haf Hw') as Hx.
      by rewrite app_nil_r in Hx. }
  destruct s1 as [s1|].
  - apply runs_bind. eapply runs_mono; [apply (say_runs fd w s1 s2); tauto|]. intros [] w1 Hw1. cbn beta in Hw1. by apply Hreply.
  - apply runs_bind, runs_ret. apply Hreply. split; [by rewrite app_nil_r|]. split; [lia|]. done.
Qed.

Lemma connect_runs w server port : length (buf (loc w)) = BUF ->
  runs E (connet_tcp_server server port) w (fun fd w' => 0 <= fd /\ after w [Dial server (u16 port)] 0 w' /\
    loc w' = loc w).
Proof.
  intros Hb. unfold connet_tcp_server. apply runs_bind, runs_call.
  pose proof (sv_socket _ _ Hserves (hist w)) as Hs. destruct (Z.ltb_spec (E _ (hist w) Socket) 0); [lia|].
  apply runs_bind, runs_call. rewrite (sv_connect _ _ Hserves). cbn [Z.eqb]. apply runs_ret.
  split; [done|]. split; [|done]. split; [|split; [cbn; lia|done]]. cbn. by rewrite app_nil_r.
Qed.
End Talk.

Lemma pasv_words (ip : nat -> Z) port : (forall i, 0 <= ip i < 2 ^ 32) -> 0 <= port < 2 ^ 16 ->
  words (FtpProto.pasv_text (fun i => FtpSys.dec (ip i)) port).
Proof.
  intros Hip Hport.
  assert (Hd : forall z, 0 <= z < 2 ^ 32 -> no_nul (FtpSys.dec z) /\ (length (FtpSys.dec z) <= 20)%nat).
  { intros z Hz. split; [by apply digits_no_nul, dec_digits|]. unfold FtpSys.dec.
    destruct (Z.ltb_spec z 0); [lia|]. apply (digits_of_value 10 20); lia. }
  destruct (Hd (port / 256)) as [N1 L1]; [Z.to_euclidean_division_equations; lia|].
  destruct (Hd (port mod 256)) as [N2 L2]; [Z.to_euclidean_division_equations; lia|].
  destruct (Hd _ (Hip 0%nat)) as [M0 K0]. destruct (Hd _ (Hip 1%nat)) as [M1 K1].
  destruct (Hd _ (Hip 2%nat)) as [M2 K2]. destruct (Hd _ (Hip 3%nat)) as [M3 K3].
  unfold FtpProto.pasv_text. split.
  - unfold no_nul. rewrite !Forall_app. split_and!; try done; by repeat constructor.
  - rewrite !length_app. change (length (str "Entering Passive Mode (")) with 23%nat.
    change (length (str ").")) with 2%nat. cbn [length]. lia.
Qed.

Lemma cut_last_length c b b' s : cut_last c b = Some (b', s) -> length b' = length b.
Proof.
  unfold cut_last. destruct (strrchr _ _); cbn; [|done]. intros H. injection H as <- _. apply length_insert.
Qed.

Lemma parse_length b : length (snd (parse_pasv_epsv b)) = length b.
Proof.
  unfold parse_pasv_epsv, pasv_port, epsv_port.
  repeat case_match; cbn; repeat match goal with H : cut_last _ _ = Some _ |- _ => apply cut_last_length in H end;
    congruence.
Qed.

Lemma same_buffer (w : world csys cst) b : length b = BUF ->
  after w [] 0 (World ((loc w) <| buf := b |>) (hist w)).
Proof. intros Hb. split; [by rewrite app_nil_r|]. split; [cbn; lia|]. done. Qed.

Section Upload.
Context (E : env csys) (greeting need ok binary : list Z) (ip : nat -> Z) (port : Z) (start : list Z).
Context (Hg : words greeting) (Hn : words need) (Ho : words ok) (Hb : words binary) (Hs : words start).
Context (Hip : forall i, 0 <= ip i < 2 ^ 32) (Hport : 0 <= port < 2 ^ 16).

(** What a server that asks for the password and takes the file answers. *)
Definition dialogue : list (list Z) :=
  [reply 220 greeting; reply 331 need; reply 230 ok; reply 200 binary;
   reply 227 (FtpProto.pasv_text (fun i => FtpSys.dec (ip i)) port); reply 150 start].
Context (Hserves : serves E dialogue).

Lemma login_runs fuel server user pass (w : world csys cst) :
  (0 < fuel)%nat -> words user -> words pass -> length (buf (loc w)) = BUF -> count_reads (hist w) = 0%nat ->
  runs E (ftp_login fuel server user pass) w (fun fd w' => 0 <= fd /\
    after w [Dial server 21; Say (command_text (str "USER") (Some user));
             Say (command_text (str "PASS") (Some pass)); Say (command_text (str "TYPE I") None)] 4 w').
Proof.
  intros Hf Hu Hp Hbuf Hc. unfold ftp_login. apply runs_bind.
  eapply runs_mono; [by apply (connect_runs E dialogue Hserves w server 21)|].
  cbn beta. intros fd w1 (Hfd & Hw1 & _). pose proof Hw1 as (_ & C1 & B1 & _).
  destruct (Z.eqb_spec fd (-1)); [lia|]. 
  apply runs_bind. eapply runs_mono.
  { apply (ftpcmd_runs E dialogue Hserves fuel fd w1 None None 220 greeting); try done. by rewrite C1, Hc. }
  cbn beta. intros n2 w2 (-> & Hw2 & _). pose proof (after_trans _ _ _ _ _ _ _ Hw1 Hw2) as H2.
  pose proof H2 as (_ & C2 & B2 & _). unfold expect at 1. cbn [Z.eqb Pos.eqb]. apply runs_bind, runs_ret.
  apply runs_bind. eapply runs_mono.
  { apply (ftpcmd_runs E dialogue Hserves fuel fd w2 (Some (str "USER")) (Some user) 331 need); try done.
    - by rewrite C2, Hc.
    - split; [|cbn; lia]. by split; [repeat constructor|cbn; lia]. }
  cbn beta. intros n3 w3 (-> & Hw3 & _). pose proof (after_trans _ _ _ _ _ _ _ H2 Hw3) as H3.
  pose proof H3 as (_ & C3 & B3 & _). cbn [Z.eqb Pos.eqb].
  apply runs_bind, runs_bind. eapply runs_mono.
  { apply (ftpcmd_runs E dialogue Hserves fuel fd w3 (Some (str "PASS")) (Some pass) 230 ok); try done.
    - by rewrite C3, Hc.
    - split; [|cbn; lia]. by split; [repeat constructor|cbn; lia]. }
  cbn beta. intros n4 w4 (-> & Hw4 & _). pose proof (after_trans _ _ _ _ _ _ _ H3 Hw4) as H4.
  pose proof H4 as (_ & C4 & B4 & _). unfold expect at 1. cbn [Z.eqb Pos.eqb]. apply runs_ret.
  apply runs_bind. eapply runs_mono.
  { apply (ftpcmd_runs E dialogue Hserves fuel fd w4 (Some (str "TYPE I")) None 200 binary); try done.
    - by rewrite C4, Hc.
    - split; [|cbn; lia]. by split; [repeat constructor|cbn; lia]. }
  cbn beta. intros n5 w5 (-> & Hw5 & _). pose proof (after_trans _ _ _ _ _ _ _ H4 Hw5) as H5.
  unfold expect. cbn [Z.eqb Pos.eqb]. apply runs_bind, runs_ret, runs_ret. by split.
Qed.

Lemma stor_runs fuel server filename fd (w : world csys cst) :
  (0 < fuel)%nat -> words filename -> length (buf (loc w)) = BUF -> count_reads (hist w) = 4%nat ->
  runs E (ftp_send fuel server filename fd) w (fun sockfd w' => 0 <= sockfd /\
    after w [Say (command_text (str "PASV") None); Dial server port;
             Say (command_text (str "STOR") (Some filename))] 2 w').
Proof.
  intros Hf Hfn Hbuf Hc. unfold ftp_send. apply runs_bind. eapply runs_mono.
  { apply (ftpcmd_runs E dialogue Hserves fuel fd w (Some (str "PASV")) None 227
      (FtpProto.pasv_text (fun i => FtpSys.dec (ip i)) port)); try done.
    - by apply pasv_words.
    - by rewrite Hc.
    - split; [|cbn; lia]. by split; [repeat constructor|cbn; lia]. }
  cbn beta. intros n1 w1 (-> & H1 & rest & Hb1). pose proof H1 as (S1 & C1 & B1 & T1).
  unfold expect at 1. cbn [Z.eqb Pos.eqb]. apply runs_bind, runs_ret, runs_bind, runs_get.
  pose proof (pasv_reply_port ip port rest Hip Hport) as Hp. rewrite Hb1.
  pose proof (parse_length (buf (loc w1))) as Hpl. rewrite Hb1 in Hpl.
  change (reply 227 _) with (reply FtpProto.FTP_PASVOK (FtpProto.pasv_text (fun i => FtpSys.dec (ip i)) port)) in *.
  destruct (parse_pasv_epsv _) as [p b]. cbn [fst snd] in *. subst p. rewrite <-Hb1, B1 in Hpl.
  apply runs_bind, runs_modify. pose proof (after_trans _ _ _ _ _ _ _ H1 (same_buffer w1 b Hpl)) as H2.
  set (w2 := World _ _) in *. pose proof H2 as (_ & C2 & B2 & _).
  destruct (Z.ltb_spec port 0); [lia|]. apply runs_bind, runs_ret, runs_bind.
  eapply runs_mono; [by apply (connect_runs E dialogue Hserves w2 server port)|].
  cbn beta. intros sockfd w3 (Hfd & H3 & _). pose proof (after_trans _ _ _ _ _ _ _ H2 H3) as H3'.
  pose proof H3' as (_ & C3 & B3 & _). destruct (Z.ltb_spec sockfd 0); [lia|]. apply runs_bind, runs_ret.
  apply runs_bind. eapply runs_mono.
  { apply (ftpcmd_runs E dialogue Hserves fuel fd w3 (Some (str "STOR")) (Some filename) 150 start); try done.
    - by rewrite C3, Hc.
    - split; [|cbn; lia]. by split; [repeat constructor|cbn; lia]. }
  cbn beta. intros n4 w4 (-> & H4 & _). pose proof (after_trans _ _ _ _ _ _ _ H3' H4) as H4'.
  cbn [Z.eqb Pos.eqb orb]. apply runs_bind, runs_ret, runs_ret. split; [done|].
  assert (Hu : u16 port = port) by (by apply Z.mod_small). rewrite Hu in H4'. exact H4'.
Qed.
End Upload.

(** C21: a log file on an FTP server.  With a server that asks for a password,
    accepts the login and takes the file, the first request of a kind of log
    says USER, PASS, TYPE I, PASV and STOR on a connection to port 21, dials the
    port of the PASV reply before STOR, returns that connection and keeps the
    session. *)
Theorem ftp_upload_session E greeting need ok binary ip port start fuel index server user pass filename
    (w : world csys cst) t :
  words greeting -> words need -> words ok -> words binary -> words start ->
  (forall i, 0 <= ip i < 2 ^ 32) -> 0 <= port < 2 ^ 16 ->
  serves E (dialogue greeting need ok binary ip port start) ->
  (0 < fuel)%nat -> words user -> words pass -> words filename ->
  length (buf (loc w)) = BUF -> count_reads (hist w) = 0%nat ->
  q_ftp_tag_comb (loc w) !! index = Some t -> is_on t = false ->
  runs E (ftp_write_request fuel index server user pass filename) w (fun sockfd w' => 0 <= sockfd /\
    spoken (hist w') = spoken (hist w) ++
      [Dial server 21; Say (command_text (str "USER") (Some user));
       Say (command_text (str "PASS") (Some pass)); Say (command_text (str "TYPE I") None);
       Say (command_text (str "PASV") None); Dial server port;
       Say (command_text (str "STOR") (Some filename))] /\
    exists fd, 0 <= fd /\ q_ftp_tag_comb (loc w') !! index = Some (Tag fd (str "on"))).
Proof.
  intros Hg Hn Ho Hb Hs Hip Hport Hserves Hf Hu Hp Hfn Hbuf Hc Ht Hoff. unfold ftp_write_request.
  apply runs_bind, runs_get, runs_bind. eapply runs_of_option; [exact Ht|]. rewrite Hoff. cbn [negb].
  apply runs_bind, runs_bind. eapply runs_mono.
  { by apply (login_runs E greeting need ok binary ip port start Hg Hn Ho Hb Hserves fuel server user pass w). }
  cbn beta. intros fd w1 (Hfd & S1 & C1 & B1 & T1). apply runs_bind, runs_modify, runs_ret.
  destruct (Z.eqb_spec fd (-1)); [lia|]. cbn [negb]. apply runs_bind, runs_modify, runs_bind, runs_get.
  cbn [loc hist]. set (w2 := World _ _). assert (Htag : q_ftp_tag_comb (loc w2) !! index = Some (Tag fd (str "on"))).
  { cbn. rewrite !list_lookup_alter_eq, T1, Ht. done. }
  apply runs_bind. eapply runs_of_option; [exact Htag|]. cbn [server_fd].
  eapply runs_mono.
  { apply (stor_runs E greeting need ok binary ip port start Hs Hip Hport Hserves fuel server filename fd w2); try done.
    change (hist w2) with (hist w1). by rewrite C1, Hc. }
  cbn beta. intros sockfd w3 (Hsock & S3 & C3 & B3 & T3). split; [done|]. split.
  - rewrite S3. change (hist w2) with (hist w1). by rewrite S1, <-app_assoc.
  - exists fd. by rewrite T3.
Qed.

(** The demonstration server listens for data on port 40000. *)
Definition demo_ip : nat -> Z := fun i => nth i [10; 0; 0; 1] 0.
Definition demo_dialogue : list (list Z) :=
  dialogue (str "hello") (str "password") (str "in") (str "binary") demo_ip 40000 (str "go").
Definition demo_server : env csys := fun A h c =>
  match c in csys A return A with
  | Socket => len h
  | Connect _ _ _ => 0
  | Write _ b => len b
  | Read _ _ => Some (nth (count_reads h) demo_dialogue [])
  | Close _ => tt
  end.
Definition demo_client : world csys cst :=
  World (Cst (replicate (Z.to_nat 1024) 0) 0 (replicate 4 (Tag 0 []))) [].

Lemma ftp_upload_session_witness :
  runs demo_server (ftp_write_request 1 0 (str "10.0.0.1") (str "test") (str "secret") (str "a.qmdl")) demo_client
    (fun sockfd w' => 0 <= sockfd /\
      spoken (hist w') =
        [Dial (str "10.0.0.1") 21; Say (str "USER test" ++ [13; 10]); Say (str "PASS secret" ++ [13; 10]);
         Say (str "TYPE I" ++ [13; 10]); Say (str "PASV" ++ [13; 10]); Dial (str "10.0.0.1") 40000;
         Say (str "STOR a.qmdl" ++ [13; 10])]).
Proof.
  assert (W : forall s, bool_decide (Forall (fun b : Z => b <> 0) s) = true -> (length s <=? 900)%nat = true -> words s)
    by (intros s H1 H2; split; [by apply bool_decide_eq_true in H1|by apply Nat.leb_le]).
  eapply runs_mono.
  - apply (ftp_upload_session demo_server (str "hello") (str "password") (str "in") (str "binary") demo_ip 40000
      (str "go") 1 0 (str "10.0.0.1") (str "test") (str "secret") (str "a.qmdl") demo_client (Tag 0 []));
      try (by apply W; vm_compute); try reflexivity; try lia.
    + intros i. unfold demo_ip. do 4 (destruct i as [|i]; [cbn; lia|]). destruct i; cbn; lia.
    + split; [|done|done]. intros h. cbn. unfold len. lia.
  - intros sockfd w' (H1 & H2 & _). split; [done|]. rewrite H2. by vm_compute.
Defined.

Lemma pasv_reply_read_back_witness :
  fst (parse_pasv_epsv (reply 227 (FtpProto.pasv_text (fun i => FtpSys.dec (demo_ip i)) 40000) ++ [0])) = 40000.
Proof.
  apply (pasv_reply_read_back demo_ip 40000 []); [|lia].
  intros i. unfold demo_ip. do 4 (destruct i as [|i]; [cbn; lia|]). destruct i; cbn; lia.
Defined.
