(* ===== verification/ParseConf.v ===== *)
(** The configuration file of the FTP server (qftp_server/src/parseconf.c) and
    the variables it sets (tunable.c). *)

From Stdlib Require Import ZArith Lia.
From stdpp Require Import base list.
From S2P Require Import Prelude Str CText.

Record tunables := Tunables {
  pasv_enable : bool;
  port_enable : bool;
  listen_port : Z;
  max_clients : Z;
  max_per_ip : Z;
  accept_timeout : Z;
  connect_timeout : Z;
  idle_session_timeout : Z;
  data_connection_timeout : Z;
  local_umask : Z;
  upload_max_rate : Z;
  download_max_rate : Z;
  listen_address : option (list Z);
  ftp_user_message : option (list Z)
}.
#[export] Instance eta_tunables : Eta tunables := fun t =>
  Tunables (pasv_enable t) (port_enable t) (listen_port t) (max_clients t) (max_per_ip t)
    (accept_timeout t) (connect_timeout t) (idle_session_timeout t)
    (data_connection_timeout t) (local_umask t) (upload_max_rate t) (download_max_rate t)
    (listen_address t) (ftp_user_message t).

(** The values of tunable.c. *)
Definition defaults : tunables :=
  Tunables true true 21 2000 50 60 60 300 300 63 0 0 None None.

Definition parseconf_bool_array : list (list Z * (bool -> tunables -> tunables)) :=
  [(str "pasv_enable", fun b t => t <| pasv_enable := b |>);
   (str "port_enable", fun b t => t <| port_enable := b |>)].

Definition parseconf_uint_array : list (list Z * (Z -> tunables -> tunables)) :=
  [(str "listen_port", fun z t => t <| listen_port := z |>);
   (str "max_clients", fun z t => t <| max_clients := z |>);
   (str "max_per_ip", fun z t => t <| max_per_ip := z |>);
   (str "accept_timeout", fun z t => t <| accept_timeout := z |>);
   (str "connect_timeout", fun z t => t <| connect_timeout := z |>);
   (str "idle_session_timeout", fun z t => t <| idle_session_timeout := z |>);
   (str "data_connection_timeout", fun z t => t <| data_connection_timeout := z |>);
   (str "local_umask", fun z t => t <| local_umask := z |>);
   (str "upload_max_rate", fun z t => t <| upload_max_rate := z |>);
   (str "download_max_rate", fun z t => t <| download_max_rate := z |>)].

Definition parseconf_str_array : list (list Z * (option (list Z) -> tunables -> tunables)) :=
  [(str "listen_address", fun s t => t <| listen_address := s |>);
   (str "ftp_user_message", fun s t => t <| ftp_user_message := s |>)].

(** The search of an array by name. *)
Definition find_setting {A} (key : list Z) (l : list (list Z * A)) : option A :=
  snd <$> (snd <$> list_find (fun e => e.1 = key) l).

Section Load.
Context {sys : Type -> Type}.
Abbreviation P := (M sys tunables).

Definition is_yes (v : list Z) : bool :=
  str_eqb v (str "YES") || str_eqb v (str "TRUE") || str_eqb v (str "1").
Definition is_no (v : list Z) : bool :=
  str_eqb v (str "NO") || str_eqb v (str "FALSE") || str_eqb v (str "0").

(** A value that was found: what each of the three loops does with it. *)
Definition set_bool (set : bool -> tunables -> tunables) (value : list Z) : P unit :=
  value' ← of_option (str_upper value);
  v ← of_option (c_string 0 value');
  if (is_yes v : bool) then modify (set true)
  else if (is_no v : bool) then modify (set false)
  else exit_ 1.

Definition uint_of (v : list Z) : Z :=
  if starts_with 48 v then str_octal_to_uint v else u32 (atoi v).

(** The three searches, for the strings [k] and [v] of the buffers. *)
Definition store_setting (k v value : list Z) : P unit :=
  match find_setting k parseconf_str_array with
  | Some set => modify (set (Some v))
  | None =>
      match find_setting k parseconf_bool_array with
      | Some set => set_bool set value
      | None =>
          match find_setting k parseconf_uint_array with
          | Some set => modify (set (uint_of v))
          | None => mret tt
          end
      end
  end.

Definition paresconf_load_setting (setting : list Z) : P unit :=
  let setting := skip_spaces setting in
  '(key, value) ← of_option (str_split (setting ++ [0]) (replicate 128 0) (replicate 128 0) 61);
  v ← of_option (c_string 0 value);
  if (len v =? 0 : bool) then exit_ 1
  else k ← of_option (c_string 0 key); store_setting k v value.

(** One turn of the loop of [parseconf_load_file] on what is left of the file. *)
Definition load_line (file : list Z) : P (list Z + unit) :=
  match fgets 1024 file with
  | None => mret (inr tt)
  | Some (line, rest) =>
      let buf := line ++ replicate (1024 - length line) 0 in
      s ← of_option (c_string 0 buf);
      if ((len s =? 0) || starts_with 35 s || str_all_space s : bool)
      then mret (inl rest)
      else
        b ← of_option (str_trim_crlf buf);
        setting ← of_option (c_string 0 b);
        paresconf_load_setting setting;;
        mret (inl rest)
  end.

Definition parseconf_load_file (fuel : nat) (file : option (list Z)) : P unit :=
  match file with
  | None => exit_ 1
  | Some file => iterM fuel load_line file
  end.
End Load.

(** ** What is printed is read back *)

(** A configuration file with all the settings; a string that is not set has
    no line. *)
Definition line_of (name value : list Z) : list Z := name ++ 61 :: value ++ [LF].
Definition print_bool (b : bool) : list Z := if b then str "YES" else str "NO".
Definition print_uint (z : Z) : list Z := digits_of 10 10 z.
Definition print_str (name : list Z) (s : option (list Z)) : list Z :=
  match s with Some v => line_of name v | None => [] end.
Definition print_config (t : tunables) : list Z :=
  line_of (str "pasv_enable") (print_bool (pasv_enable t)) ++
  line_of (str "port_enable") (print_bool (port_enable t)) ++
  line_of (str "listen_port") (print_uint (listen_port t)) ++
  line_of (str "max_clients") (print_uint (max_clients t)) ++
  line_of (str "max_per_ip") (print_uint (max_per_ip t)) ++
  line_of (str "accept_timeout") (print_uint (accept_timeout t)) ++
  line_of (str "connect_timeout") (print_uint (connect_timeout t)) ++
  line_of (str "idle_session_timeout") (print_uint (idle_session_timeout t)) ++
  line_of (str "data_connection_timeout") (print_uint (data_connection_timeout t)) ++
  line_of (str "local_umask") (print_uint (local_umask t)) ++
  line_of (str "upload_max_rate") (print_uint (upload_max_rate t)) ++
  line_of (str "download_max_rate") (print_uint (download_max_rate t)) ++
  print_str (str "listen_address") (listen_address t) ++
  print_str (str "ftp_user_message") (ftp_user_message t).

(** Characters that a name or a value may have; a value is not empty, and both
    fit the buffers of [paresconf_load_setting]. *)
Definition text_char (c : Z) : Prop := c <> 0 /\ c <> CR /\ c <> LF.
Definition value_ok (v : list Z) : Prop :=
  Forall text_char v /\ v <> [] /\ (length v < 128)%nat.
Definition name_char (c : Z) : bool := ((97 <=? c) && (c <=? 122)) || (c =? 95).
Definition name_ok (k : list Z) : bool :=
  forallb name_char k && negb (bool_decide (k = [])) && bool_decide (length k < 128)%nat.

Lemma name_chars k : name_ok k = true ->
  Forall (fun c => c = 95 \/ 97 <= c <= 122) k /\ k <> [] /\ (length k < 128)%nat.
Proof.
  unfold name_ok. intros [[H Hn]%andb_prop Hl]%andb_prop. split_and!.
  - apply Forall_forall. intros c Hc. rewrite forallb_forall in H.
    specialize (H c (proj1 (list_elem_of_In _ _) Hc)). unfold name_char in H. lia.
  - by apply negb_true_iff, bool_decide_eq_false in Hn.
  - by apply bool_decide_eq_true in Hl.
Qed.

Lemma fgets_line n l rest : LF ∉ l -> (length l < n)%nat ->
  fgets_loop n (l ++ LF :: rest) = (l ++ [LF], rest).
Proof.
  revert n. induction l as [|b l IH]; intros n Hl Hn; (destruct n as [|n]; [cbn in Hn; lia|]); cbn.
  - done.
  - apply not_elem_of_cons in Hl. destruct Hl as [Hb Hl].
    destruct (Z.eqb_spec b 10); [unfold LF in Hb; congruence|]. rewrite IH; [done|done|cbn in Hn; lia].
Qed.

Section Lines.
Context {sys : Type -> Type} (E : env sys).
Abbreviation wld := (world sys tunables).

(** A setting of which name and value fit the buffers is stored. *)
Lemma load_setting_runs k v (w : wld) (Q : unit -> wld -> Prop) :
  name_ok k = true -> value_ok v ->
  runs E (store_setting k v (v ++ 0 :: replicate (128 - S (length v)) 0)) w Q ->
  runs E (paresconf_load_setting (k ++ 61 :: v)) w Q.
Proof.
  intros Hk (Hv & Hne & Hvl) H. apply name_chars in Hk. destruct Hk as (Hk & Hkne & Hkl).
  assert (Hkn : no_nul k) by (eapply Forall_impl; [exact Hk|]; cbn; lia).
  assert (Hvn : no_nul v) by (eapply Forall_impl; [exact Hv|]; by intros c [? _]).
  assert (Hk61 : 61 ∉ k) by (intros Hin; rewrite Forall_forall in Hk; apply Hk in Hin; lia).
  unfold paresconf_load_setting.
  assert (Hs : skip_spaces (k ++ 61 :: v) = k ++ 61 :: v).
  { destruct k as [|c k]; [done|]. apply Forall_cons in Hk. destruct Hk as [Hc _]. cbn beta in Hc. cbn.
    unfold isspace. destruct (Z.eqb_spec c 32), (Z.leb_spec 9 c), (Z.leb_spec c 13); cbn; first [done|lia]. }
  rewrite Hs, <-app_assoc. cbn [app].
  rewrite str_split_cleared; [|done| |done|done].
  2: { apply Forall_app. split; [done|]. by constructor. }
  rsteps. eapply runs_of_option; [done|]. cbn beta iota. rsteps.
  eapply runs_of_option; [apply (c_string_in v); split; [done|eauto]|].
  destruct (Z.eqb_spec (len v) 0) as [H0|H0]; [destruct v; [done|unfold len in H0; cbn in H0; lia]|].
  rsteps. eapply runs_of_option; [apply (c_string_in k); split; [done|eauto]|]. exact H.
Qed.

Lemma load_line_runs k v rest (w : wld) (Q : list Z + unit -> wld -> Prop) :
  name_ok k = true -> value_ok v ->
  runs E (store_setting k v (v ++ 0 :: replicate (128 - S (length v)) 0)) w
    (fun _ w' => Q (inl rest) w') ->
  runs E (load_line (line_of k v ++ rest)) w Q.
Proof.
  intros Hk Hv H. pose proof (name_chars k Hk) as (Hkc & Hkne & Hkl).
  destruct Hv as (Hvc & Hvne & Hvl). pose proof (conj Hvc (conj Hvne Hvl) : value_ok v) as Hv.
  assert (Hkv : Forall text_char (k ++ 61 :: v)).
  { apply Forall_app. split; [|by constructor].
    eapply Forall_impl; [exact Hkc|]. unfold text_char, CR, LF. cbn. lia. }
  unfold load_line, fgets, line_of.
  replace ((k ++ 61 :: v ++ [LF]) ++ rest) with ((k ++ 61 :: v) ++ LF :: rest)
    by (by rewrite <-!app_assoc; cbn; rewrite <-app_assoc).
  destruct ((k ++ 61 :: v) ++ LF :: rest) as [|b f] eqn:Hf; [by destruct k|]. rewrite <-Hf. clear b f Hf.
  rewrite fgets_line.
  2: { intros Hin. rewrite Forall_forall in Hkv. by apply Hkv in Hin as (_ & _ & ?). }
  2: { len. }
  cbn beta iota. set (z := (1024 - _)%nat). assert (Hz : z = S (z - 1)).
  { subst z. rewrite !length_app. cbn [length]. lia. }
  rewrite Hz. cbn [replicate]. rsteps.
  assert (Hnn : no_nul (k ++ 61 :: v)) by (eapply Forall_impl; [exact Hkv|]; by intros c [? _]).
  eapply runs_of_option; [apply c_string_in; split; [|eauto];
    apply Forall_app; split; [done|by repeat constructor]|].
  assert (Hskip : ((len ((k ++ 61 :: v) ++ [LF]) =? 0)
      || starts_with 35 ((k ++ 61 :: v) ++ [LF])
      || str_all_space ((k ++ 61 :: v) ++ [LF])) = false).
  { destruct k as [|c k]; [done|]. apply Forall_cons in Hkc. destruct Hkc as [Hc _]. cbn beta in Hc.
    cbn [app str_all_space forallb]. unfold isspace.
    destruct (Z.eqb_spec (len (c :: (k ++ 61 :: v) ++ [LF])) 0) as [H0|_]; [unfold len in H0; cbn in H0; lia|].
    cbn [starts_with].
    destruct (Z.eqb_spec c 35), (Z.eqb_spec c 32), (Z.leb_spec 9 c), (Z.leb_spec c 13); cbn; first [done|lia]. }
  rewrite Hskip. destruct (exists_last Hvne) as (v' & c & Hlast).
  assert (Hc : is_crlf c = false).
  { rewrite Hlast in Hvc. apply Forall_app in Hvc. destruct Hvc as [_ Hvc].
    apply Forall_cons in Hvc. destruct Hvc as [(_ & ? & ?) _]. unfold is_crlf.
    by destruct (Z.eqb_spec c CR), (Z.eqb_spec c LF). }
  assert (Hbuf : ((k ++ 61 :: v) ++ [LF]) ++ 0 :: replicate (z - 1) 0
    = (k ++ 61 :: v') ++ c :: [LF] ++ 0 :: replicate (z - 1) 0).
  { rewrite Hlast. rewrite <-!app_assoc. cbn [app]. by rewrite <-!app_assoc. }
  assert (Hres : (k ++ 61 :: v') ++ c :: replicate (length [LF]) 0 ++ 0 :: replicate (z - 1) 0
    = (k ++ 61 :: v) ++ 0 :: 0 :: replicate (z - 1) 0).
  { rewrite Hlast. rewrite <-!app_assoc. cbn [app]. by rewrite <-!app_assoc. }
  rsteps. eapply runs_of_option.
  { rewrite Hbuf, str_trim_crlf_line; [by rewrite Hres| |by repeat constructor|done].
    assert (Hlf : (k ++ 61 :: v') ++ c :: [LF] = (k ++ 61 :: v) ++ [LF]).
    { rewrite Hlast. rewrite <-!app_assoc. cbn [app]. by rewrite <-!app_assoc. }
    rewrite Hlf. apply Forall_app. split; [done|by repeat constructor]. }
  rsteps. eapply runs_of_option; [apply (c_string_in (k ++ 61 :: v)); split; [done|eauto]|].
  rsteps. apply load_setting_runs; [done|done|]. exact H.
Qed.

(** *** Numbers *)

Lemma uint_of_print z : 0 <= z < 2 ^ 31 -> uint_of (print_uint z) = z.
Proof.
  intros Hz. destruct (decide (z = 0)) as [->|Hnz]; [reflexivity|]. unfold print_uint, uint_of.
  destruct (digits_of_value 10 10 ltac:(lia) z ltac:(lia)) as (Hd & _ & Hv).
  destruct (digits_head 10 z ltac:(lia)) as (c & l & Hs & Hc). rewrite Hs in *.
  cbn [starts_with]. destruct (Z.eqb_spec c 48); [done|].
  assert (Hcr : 48 <= c < 58) by (by apply Forall_cons in Hd as [? _]; lia).
  unfold atoi, strtol. cbn [skip_spaces]. unfold isspace.
  destruct (Z.eqb_spec c 32), (Z.leb_spec 9 c), (Z.leb_spec c 13); try lia. cbn [andb orb starts_with].
  destruct (Z.eqb_spec c 45), (Z.eqb_spec c 43); try lia.
  rewrite digits_prefix_all, Hv by done. unfold s32, u32.
  rewrite Z.min_r, (Z.mod_small (z + 2 ^ 31)) by lia. rewrite Z.mod_small; lia.
Qed.

Lemma print_uint_ok z : 0 <= z < 2 ^ 31 -> value_ok (print_uint z).
Proof.
  intros Hz. destruct (digits_of_value 10 10 ltac:(lia) z ltac:(lia)) as (Hd & Hl & _).
  split_and!.
  - eapply Forall_impl; [exact Hd|]. unfold text_char, CR, LF. cbn. lia.
  - unfold print_uint. cbn [digits_of]. by destruct (if z <? 10 then _ else _).
  - unfold print_uint. lia.
Qed.

(** *** Lines of a printed configuration *)

Lemma line_uint k set z rest (w : wld) (Q : list Z + unit -> wld -> Prop) :
  name_ok k = true -> find_setting k parseconf_str_array = None ->
  find_setting k parseconf_bool_array = None ->
  find_setting k parseconf_uint_array = Some set -> 0 <= z < 2 ^ 31 ->
  Q (inl rest) (World (set z (loc w)) (hist w)) ->
  runs E (load_line (line_of k (print_uint z) ++ rest)) w Q.
Proof.
  intros Hk Hs Hb Hu Hz H. apply load_line_runs; [done|by apply print_uint_ok|].
  unfold store_setting. rewrite Hs, Hb, Hu, uint_of_print by done. by apply runs_modify.
Qed.

Lemma line_bool k set b rest (w : wld) (Q : list Z + unit -> wld -> Prop) :
  name_ok k = true -> find_setting k parseconf_str_array = None ->
  find_setting k parseconf_bool_array = Some set ->
  Q (inl rest) (World (set b (loc w)) (hist w)) ->
  runs E (load_line (line_of k (print_bool b) ++ rest)) w Q.
Proof.
  intros Hk Hs Hb H. apply load_line_runs; [done| |].
  - destruct b; (split_and!; [|discriminate|cbn; lia]);
      repeat (constructor; [split_and!; discriminate|]); constructor.
  - unfold store_setting. rewrite Hs, Hb. unfold set_bool. by destruct b.
Qed.

Lemma line_str k set v rest (w : wld) (Q : list Z + unit -> wld -> Prop) :
  name_ok k = true -> find_setting k parseconf_str_array = Some set -> value_ok v ->
  Q (inl rest) (World (set (Some v) (loc w)) (hist w)) ->
  runs E (load_line (line_of k v ++ rest)) w Q.
Proof.
  intros Hk Hs Hv H. apply load_line_runs; [done..|]. unfold store_setting. rewrite Hs.
  by apply runs_modify.
Qed.

Definition value_ok_opt (s : option (list Z)) : Prop :=
  match s with Some v => value_ok v | None => True end.

(** The settings that a file can hold. *)
Record settings_ok (t : tunables) : Prop := {
  ok_numbers : Forall (fun z => 0 <= z < 2 ^ 31)
    [listen_port t; max_clients t; max_per_ip t; accept_timeout t; connect_timeout t;
     idle_session_timeout t; data_connection_timeout t; local_umask t; upload_max_rate t;
     download_max_rate t];
  ok_address : value_ok_opt (listen_address t);
  ok_message : value_ok_opt (ftp_user_message t)
}.

Lemma load_printed (t : tunables) fuel h (Q : unit -> wld -> Prop) :
  settings_ok t -> (15 <= fuel)%nat -> Q tt (World t h) ->
  runs E (parseconf_load_file fuel (Some (print_config t))) (World defaults h) Q.
Proof.
  intros [Hn Ha Hm] Hf HQ. unfold parseconf_load_file, print_config.
  repeat (apply Forall_cons in Hn; destruct Hn as [? Hn]); clear Hn.
  do 15 (destruct fuel as [|fuel]; [lia|]). clear Hf.
  do 2 (cbn [iterM]; apply runs_bind; rewrite <-?app_assoc;
    eapply line_bool; [reflexivity..|]; cbn [loc hist]).
  do 10 (cbn [iterM]; apply runs_bind;
    eapply line_uint; [reflexivity..|assumption|]; cbn [loc hist]).
  rewrite <-(app_nil_r (print_str (str "ftp_user_message") _)).
  destruct t as [? ? ? ? ? ? ? ? ? ? ? ? sa sm].
  cbn [listen_address ftp_user_message] in *.
  destruct sa as [a|], sm as [m|]; cbn [print_str value_ok_opt app] in *;
    repeat (cbn [iterM]; apply runs_bind;
      eapply line_str; [reflexivity..|assumption|]; cbn [loc hist]);
    cbn [iterM]; rsteps; exact HQ.
Qed.

(** C28: A configuration that is written out as a file is read back by
    [parseconf_load_file], from the built-in defaults: switches, numbers below
    2^31 and strings that fit the buffers of the parser. *)
Theorem config_roundtrip (t : tunables) fuel (w : wld) (Hw : loc w = defaults)
    (Hn : Forall (fun z => 0 <= z < 2 ^ 31)
      [listen_port t; max_clients t; max_per_ip t; accept_timeout t; connect_timeout t;
       idle_session_timeout t; data_connection_timeout t; local_umask t; upload_max_rate t;
       download_max_rate t])
    (Ha : value_ok_opt (listen_address t)) (Hm : value_ok_opt (ftp_user_message t))
    (Hf : (15 <= fuel)%nat) :
  runs E (parseconf_load_file fuel (Some (print_config t))) w (fun _ w' => loc w' = t).
Proof. destruct w as [l h]. cbn in Hw. subst l. by apply load_printed. Qed.
End Lines.

(** A server in the local network, with a user and its password. *)
Definition demo_config : tunables :=
  Tunables false true 2121 10 2 60 60 600 600 18 1048576 0
    (Some (str "192.168.225.1")) (Some (str "user-password")).

Definition no_calls : env (fun _ => Empty_set) :=
  fun A _ (c : Empty_set) => match c return A with end.

Lemma config_roundtrip_witness :
  runs no_calls
    (parseconf_load_file 15 (Some (print_config demo_config))) (World defaults [])
    (fun _ w' => loc w' = demo_config).
Proof.
  assert (Hok : forall v, Forall text_char v -> v <> [] -> (length v < 128)%nat -> value_ok v)
    by (intros v H1 H2 H3; exact (conj H1 (conj H2 H3))).
  apply (config_roundtrip no_calls demo_config 15 (World defaults [])).
  - reflexivity.
  - cbn. repeat (constructor; [lia|]). constructor.
  - apply Hok; [|discriminate|cbn; lia].
    cbn. repeat (constructor; [split_and!; discriminate|]). constructor.
  - apply Hok; [|discriminate|cbn; lia].
    cbn. repeat (constructor; [split_and!; discriminate|]). constructor.
  - lia.
Defined.
