(* ===== verification/FtpStart.v ===== *)
(** Start-up of the FTP server: the configuration, the user and the listening
    socket (qftp_server/src/main.c: main), the accept loop with the calls
    around its accounting, and the two processes of a session (session.c,
    privsock.c, privparent.c up to its loop). *)

From Stdlib Require Import ZArith Lia.
From stdpp Require Import base list strings gmap.
From S2P Require Import Prelude Str CText Hash HashProps FtpMain FtpMainProps FtpSys.
From S2P Require ParseConf FtpProto.
#[local] Existing Instances ParseConf.eta_tunables.

(** ** Calls and variables *)

(** [FtpCall] are the calls of [FtpSys]; [MallocNode] is the [malloc] of the
    hash table; [ConfFile] is the content of the file of settings; [Peer] is
    what [accept] stored in [addr]; [OnChild] installs or ignores the handler
    of SIGCHLD; [BeyondData] is what stands on the stack after [cap_data];
    [Service] is [handle_child] and [Helper] the loop of [handle_parent], which
    [FtpCmd], [FtpProto] and [FtpSys] model and which do not return. *)
Inductive bsys : Type -> Type :=
| FtpCall {A} (c : fsys A) : bsys A
| MallocNode (live : gset addr) : bsys (option addr)
| ConfFile : bsys (option (list Z))
| Strdup (s : list Z) : bsys bool
| Getuid : bsys Z
| OnChild (ignore : bool) : bsys unit
| Peer : bsys Z
| Fork : bsys Z
| Oobinline (fd : Z) : bsys Z
| Socketpair : bsys (option (Z * Z))
| Nobody : bsys (option (Z * Z))
| BeyondData (n : nat) : bsys (list Z)
| Capset (version pid : Z) (data : list Z) : bsys Z
| Service (fd : Z) : bsys unit
| Helper (fd : Z) : bsys unit.

(** The settings, [g_local_ip], the parts of [session_t] that [FtpSys.sess] has
    not, and the variables of the accounting. *)
Record boot : Type := Boot {
  tun : ParseConf.tunables;
  local_ip : list Z;
  session : sess;
  num_this_ip : Z;
  parent_fd : Z;
  child_fd : Z;
  ftp_user_name : list Z;
  ftp_user_password : list Z;
  srv : server hash;
}.
#[export] Instance eta_boot : Eta boot := fun s =>
  Boot (tun s) (local_ip s) (session s) (num_this_ip s) (parent_fd s) (child_fd s)
    (ftp_user_name s) (ftp_user_password s) (srv s).

Abbreviation B := (M bsys boot).
#[local] Instance boot_ops : HashOps bsys hash := hash_ops MallocNode.

Definition in_session {A} (m : M fsys sess A) : B A :=
  within (fun A c => FtpCall c) session (fun t s => s <| session := t |>) m.
Definition in_tunables {A} (m : M bsys ParseConf.tunables A) : B A :=
  zoom tun (fun t s => s <| tun := t |>) m.
Definition in_server {A} (m : M bsys (server hash) A) : B A :=
  zoom srv (fun t s => s <| srv := t |>) m.

(** What the session reads of the settings. *)
Definition settings_of (s : boot) : settings :=
  let t := tun s in
  Settings (ParseConf.local_umask t) (ParseConf.idle_session_timeout t)
    (ParseConf.data_connection_timeout t) (ParseConf.connect_timeout t)
    (ParseConf.accept_timeout t) (cstr (local_ip s)).

(** ** session.c: the user and its password *)

(** The loop over the tokens: [num = 0] names the user, the others the
    password. *)
Fixpoint take_user (num : Z) (toks : list (list Z)) : B unit :=
  match toks with
  | [] => mret tt
  | tok :: rest =>
      s ← get;
      (if num =? 0 then
         name ← of_option (strcpy (ftp_user_name s) tok);
         modify (fun s => s <| ftp_user_name := name |>)
       else
         password ← of_option (strcpy (ftp_user_password s) tok);
         modify (fun s => s <| ftp_user_password := password |>));;
      take_user (num + 1) rest
  end.

Definition initFtpUserMessage (message : option (list Z)) : B unit :=
  match message with
  | None => mret tt
  | Some m =>
      copied ← call (Strdup m);
      if negb copied then mret tt else take_user 0 (tokens 45 m)
  end.

(** ** main.c: up to the accept loop *)

Definition BUCKETS : Z := 256.

(** [session_t sess] with the initialiser of main. *)
Definition new_session : sess :=
  Sess 0 (-1) [] None (-1) 0 0 0 0 0 0 0 None 0 0 (-1) [] [].

Definition clear_session (s : boot) : boot :=
  s <| session := new_session |> <| num_this_ip := 0 |> <| parent_fd := -1 |> <| child_fd := -1 |>
    <| ftp_user_name := replicate (Z.to_nat 256) 0 |> <| ftp_user_password := replicate (Z.to_nat 256) 0 |>.

Definition set_local_ip : B unit :=
  s ← get;
  match ParseConf.listen_address (tun s) with
  | None => mret tt
  | Some a =>
      ip ← of_option (strcpy (replicate (Z.to_nat 256) 0) a);
      modify (fun s => s <| local_ip := ip |>)
  end.

Definition set_rates (s : boot) : boot :=
  s <| session ::= fun x => x <| bw_upload_rate_max := ParseConf.upload_max_rate (tun s) |>
                              <| bw_download_rate_max := ParseConf.download_max_rate (tun s) |> |>.

Section Fuel.
Context (fuel : nat).

(** What main does before its loop; the answer is [listenfd]. *)
Definition start_server : B Z :=
  file ← call ConfFile;
  in_tunables (ParseConf.parseconf_load_file fuel file);;
  set_local_ip;;
  uid ← call Getuid;
  if negb (uid =? 0) then exit_ EXIT_FAILURE else
  modify clear_session;;
  s ← get;
  initFtpUserMessage (ParseConf.ftp_user_message (tun s));;
  modify set_rates;;
  ips ← hash_alloc MallocNode BUCKETS hash_func;
  modify (fun s => s <| srv ::= fun v => v <| s_ip_count_hash := ips |> |>);;
  pids ← hash_alloc MallocNode BUCKETS hash_func;
  modify (fun s => s <| srv ::= fun v => v <| s_pid_ip_hash := pids |> |>);;
  call (OnChild false);;
  s ← get;
  in_session (tcp_server (ParseConf.listen_address (tun s)) (u16 (ParseConf.listen_port (tun s)))).

(** ** privsock.c: the ends of the socket pair *)

Definition priv_sock_init : B unit :=
  r ← call Socketpair;
  match r with
  | None => exit_ EXIT_FAILURE
  | Some (s0, s1) => modify (fun s => s <| parent_fd := s0 |> <| child_fd := s1 |>)
  end.

Definition close_fd (fd : Z) : B unit := call (FtpCall (Close fd)).

Definition priv_sock_set_parent_context : B unit :=
  s ← get;
  if negb (child_fd s =? -1) then close_fd (child_fd s);; modify (fun s => s <| child_fd := -1 |>) else mret tt.
Definition priv_sock_set_child_context : B unit :=
  s ← get;
  if negb (parent_fd s =? -1) then close_fd (parent_fd s);; modify (fun s => s <| parent_fd := -1 |>) else mret tt.
Definition priv_sock_close : B unit := priv_sock_set_child_context;; priv_sock_set_parent_context.

(** ** privparent.c: the rights of the helper *)

Definition LINUX_CAPABILITY_VERSION_2 : Z := 0x20071026.
Definition CAP_NET_BIND_SERVICE : Z := 10.

(** [capset] reads two structures for this version, of which the program has
    one: effective, permitted, inheritable.  Its answer is not looked at. *)
Definition minimize_privilege : B unit :=
  let cap_mask := Z.shiftl 1 CAP_NET_BIND_SERVICE in
  let cap_data := le_bytes 4 cap_mask ++ le_bytes 4 cap_mask ++ le_bytes 4 0 in
  beyond ← call (BeyondData 12);
  call (Capset LINUX_CAPABILITY_VERSION_2 0 (cap_data ++ beyond));; mret tt.

Definition handle_parent : B unit :=
  pw ← call Nobody;
  match pw with
  | None => mret tt
  | Some (uid, gid) =>
      r ← call (FtpCall (Setegid gid));
      if r <? 0 then exit_ EXIT_FAILURE else
      r ← call (FtpCall (Seteuid uid));
      if r <? 0 then exit_ EXIT_FAILURE else
      minimize_privilege;;
      s ← get; call (Helper (parent_fd s))
  end.

(** ** session.c: the two processes *)

Definition activate_oobinline (fd : Z) : B unit :=
  ret ← call (Oobinline fd);
  if ret =? -1 then exit_ EXIT_FAILURE else mret tt.

Definition begin_session : B unit :=
  s ← get;
  activate_oobinline (ctrl_fd (session s));;
  priv_sock_init;;
  pid ← call Fork;
  if pid =? -1 then exit_ EXIT_FAILURE
  else if pid =? 0 then
    priv_sock_set_child_context;; s ← get; call (Service (child_fd s))
  else priv_sock_set_parent_context;; handle_parent.

(** ** main.c: the accept loop *)

(** The reply of [check_limits] to a client that is refused. *)
Definition refuse (code : Z) (text : list Z) : B unit :=
  in_session (FtpProto.ftp_relply fuel code text);; exit_ EXIT_FAILURE.
Definition enforce_limits : B unit :=
  s ← get;
  let t := tun s in
  if (0 <? ParseConf.max_clients t) && (ParseConf.max_clients t <? num_clients (session s)) then
    refuse FTP_TOO_MANY_USERS (str "There are too many connected users, please try later.")
  else if (0 <? ParseConf.max_per_ip t) && (ParseConf.max_per_ip t <? num_this_ip s) then
    refuse FTP_IP_LIMIT (str "There are too many connections from your internet address.")
  else mret tt.

(** One turn; SIGCHLD between its steps is in [FtpMain.step]. *)
Definition accept_turn (listenfd : Z) : B unit :=
  conn ← in_session (accept_timeout fuel listenfd 0);
  if conn =? -1 then exit_ EXIT_FAILURE else
  ip ← call Peer;
  '(n, k) ← in_server (on_accept ip);
  modify (fun s => s <| session ::= fun x => x <| num_clients := n |> |> <| num_this_ip := k |>);;
  pid ← call Fork;
  if pid =? 0 then
    close_fd listenfd;;
    modify (fun s => s <| session ::= fun x => x <| ctrl_fd := conn |> |>);;
    enforce_limits;;
    call (OnChild true);;
    begin_session
  else in_server (after_fork pid ip);; close_fd conn.

Definition main_loop : B unit :=
  listenfd ← start_server;
  iterM fuel (fun _ : unit => accept_turn listenfd;; mret (inl tt)) tt.
End Fuel.

(** ** The user *)

Section Start.
Context (E : env bsys).

(** A token that fits the array is stored as a string. *)
Lemma strcpy_string dst tok : (length tok < length dst)%nat -> no_nul tok ->
  exists dst', strcpy dst tok = Some dst' /\ length dst' = length dst /\ cstr dst' = tok.
Proof.
  intros Hl Hn. unfold strcpy. rewrite wr_fits by (rewrite length_app; cbn; lia).
  eexists. split; [done|]. unfold put. rewrite take_0. cbn [app]. rewrite <-app_assoc. cbn [app]. split.
  - rewrite length_app. cbn [length]. rewrite length_drop, length_app. cbn [length]. lia.
  - by apply cstr_string.
Qed.

Record user_arrays (s : boot) : Prop := {
  name_array : length (ftp_user_name s) = 256%nat;
  password_array : length (ftp_user_password s) = 256%nat
}.

(** [name-password] is taken apart at the dash. *)
Lemma user_message_runs name password w (Q : unit -> world bsys boot -> Prop) :
  (forall h s, E _ h (Strdup s) = true) -> user_arrays (loc w) ->
  no_nul (name ++ [45] ++ password) -> Forall (fun b => b <> 45) (name ++ password) ->
  name <> [] -> password <> [] -> (length name < 256)%nat -> (length password < 256)%nat ->
  (forall n p h, cstr n = name -> cstr p = password ->
     Q tt (World ((loc w) <| ftp_user_name := n |> <| ftp_user_password := p |>) h)) ->
  runs E (initFtpUserMessage (Some (name ++ [45] ++ password))) w Q.
Proof.
  intros HD [Hn Hp] Hnn Hd Hne Hpe Hln Hlp HQ. unfold initFtpUserMessage. rsteps. rewrite HD. cbn [negb].
  apply Forall_app in Hd as [Hdn Hdp]. apply Forall_app in Hnn as [Hnn [_ Hpn]%Forall_cons].
  unfold tokens. cbn [app]. rewrite tokens_from_app by done. unfold tokens.
  rewrite (tokens_from_last 45 password) by done. cbn [app take_user Z.eqb]. rsteps.
  destruct (strcpy_string (ftp_user_name (loc w)) name) as (n' & Hn' & _ & Hcn); [lia|done|].
  eapply runs_of_option; [exact Hn'|]. rsteps. change (0 + 1 =? 0) with false. cbn iota. rsteps.
  destruct (strcpy_string (ftp_user_password (loc w)) password) as (p' & Hp' & _ & Hcp); [lia|done|].
  eapply runs_of_option; [exact Hp'|]. rsteps. cbn [loc hist]. by apply HQ.
Qed.

(** ** The two processes *)

(** Each process keeps its own end of the socket pair and closes the other. *)
Lemma ends_apart w a b : E _ (hist w) Socketpair = Some (a, b) -> a <> -1 -> b <> -1 ->
  runs E (priv_sock_init;; priv_sock_set_child_context) w (fun _ w' =>
    parent_fd (loc w') = -1 /\ child_fd (loc w') = b /\
    exists u h, hist w' = Ev (FtpCall (Close a)) u :: h) /\
  runs E (priv_sock_init;; priv_sock_set_parent_context) w (fun _ w' =>
    parent_fd (loc w') = a /\ child_fd (loc w') = -1 /\
    exists u h, hist w' = Ev (FtpCall (Close b)) u :: h).
Proof.
  intros Hp Ha Hb. unfold priv_sock_init, priv_sock_set_child_context, priv_sock_set_parent_context, close_fd.
  split; rsteps; rewrite Hp; rsteps; cbn [loc hist].
  - cbn [loc parent_fd set_field]. destruct (Z.eqb_spec a (-1)); [done|]. cbn [negb]. rsteps.
    cbn [loc hist]. split_and!; eauto.
  - cbn [loc child_fd set_field]. destruct (Z.eqb_spec b (-1)); [done|]. cbn [negb]. rsteps.
    cbn [loc hist]. split_and!; eauto.
Qed.

(** The helper asks for the right to bind low ports among the first 32; what
    it asks for beyond is what the stack holds. *)
Lemma rights_of_helper w : runs E minimize_privilege w (fun _ w' => exists r h,
  hist w' = Ev (Capset LINUX_CAPABILITY_VERSION_2 0
    (le_bytes 4 1024 ++ le_bytes 4 1024 ++ le_bytes 4 0 ++ E _ (hist w) (BeyondData 12))) r :: h).
Proof. unfold minimize_privilege. rsteps. cbn [loc hist]. eexists _, _. reflexivity. Qed.

(** Without a user called nobody the helper goes back to the accept loop, with
    the listening socket closed. *)
Lemma helper_without_user w : E _ (hist w) Nobody = None ->
  runs E handle_parent w (fun _ w' => loc w' = loc w).
Proof. intros Hn. unfold handle_parent. rsteps. rewrite Hn. by rsteps. Qed.

(** A client is let through when [FtpMain.check_limits], by which the accounting
    counts the clients that are served, lets it through; the process of one that
    is refused does not go on. *)
Lemma limits_let_through fuel w : let t := tun (loc w) in
  check_limits (ParseConf.max_clients t) (ParseConf.max_per_ip t)
    (num_clients (session (loc w))) (num_this_ip (loc w)) = None ->
  runs E (enforce_limits fuel) w (fun _ w' => w' = w).
Proof.
  cbv zeta. unfold check_limits, enforce_limits. intros Hl. rsteps.
  destruct (_ && _); [done|]. destruct (_ && _); [done|]. by rsteps.
Qed.

Lemma limits_refuse fuel w code : let t := tun (loc w) in
  check_limits (ParseConf.max_clients t) (ParseConf.max_per_ip t)
    (num_clients (session (loc w))) (num_this_ip (loc w)) = Some code ->
  forall u w', enforce_limits fuel E w <> Done u w'.
Proof.
  cbv zeta. unfold check_limits, enforce_limits, refuse. intros Hl u w'.
  assert (Hx : forall c text, (in_session (FtpProto.ftp_relply fuel c text);; exit_ EXIT_FAILURE : B unit) E w <> Done u w').
  { intros c text. unfold mbind, M_bind. by destruct (in_session _ E w). }
  unfold get, mbind at 1, M_bind at 1. destruct (_ && _); [apply Hx|]. destruct (_ && _); [apply Hx|done].
Qed.

(** ** The server that has started *)

Lemma tcp_server_runs (E' : env fsys) host port (w : world fsys sess) (Q : Z -> world fsys sess -> Prop) :
  (forall h, 0 <= E' _ h Socket) -> (forall h a, is_Some (E' _ h (Inet_pton a))) ->
  (forall h fd a p, E' _ h (Bind fd a p) <> -1) ->
  (forall fd a r u h, Q fd (World (loc w) (Ev (Listen fd) u :: Ev (Bind fd a (htons port)) r :: h))) ->
  runs E' (tcp_server host port) w Q.
Proof.
  intros HS HI HB HQ. unfold tcp_server. rsteps. destruct (Z.ltb_spec (E' Z (hist w) Socket) 0) as [Hl|_].
  { specialize (HS (hist w)). lia. }
  destruct host as [a|]; rsteps; [match goal with |- context [E' _ ?h (Inet_pton a)] => destruct (HI h a) as [x ->] end|];
    rsteps; (match goal with |- context [?r =? -1] => destruct (Z.eqb_spec r (-1)) as [Hb|_]; [by apply HB in Hb|] end);
    rsteps; apply HQ.
Qed.

(** An environment in which the server can start with the settings [t]. *)
Record starts_up (t : ParseConf.tunables) : Prop := {
  conf_file : forall h, E _ h ConfFile = Some (ParseConf.print_config t);
  copied : forall h s, E _ h (Strdup s) = true;
  root : forall h, E _ h Getuid = 0;
  heap_ok : forall h live, exists a, E _ h (MallocNode live) = Some a /\ a ∉ live;
  socket_ok : forall h, 0 <= E _ h (FtpCall Socket);
  host_ok : forall h a, is_Some (E _ h (FtpCall (Inet_pton a)));
  bind_ok : forall h fd a p, E _ h (FtpCall (Bind fd a p)) <> -1
}.

Lemma hash_func_below k : 0 <= hash_func BUCKETS k < BUCKETS.
Proof. apply Z.mod_pos_bound. done. Qed.

Lemma local_ip_runs w (Q : unit -> world bsys boot -> Prop) :
  match ParseConf.listen_address (tun (loc w)) with Some a => (length a < 128)%nat | None => True end ->
  (forall ip, Q tt (World ((loc w) <| local_ip := ip |>) (hist w))) ->
  runs E set_local_ip w Q.
Proof.
  intros Ha HQ. unfold set_local_ip. rsteps. destruct (ParseConf.listen_address _) as [a|].
  - eapply runs_bind, runs_of_option.
    { apply wr_fits. rewrite length_app, length_replicate. cbn. lia. }
    rsteps. apply HQ.
  - rsteps. destruct w as [[] h]. apply (HQ _).
Qed.
End Start.


(** A module that runs the server for one user. *)
Definition sample_settings : ParseConf.tunables :=
  ParseConf.Tunables true true 2121 10 2 60 60 600 600 18 1048576 0
    (Some (str "192.168.225.1")) (Some (str "quectel-secret")).
Definition sample_server : env bsys := fun A h c =>
  match c in bsys B return B with
  | FtpCall c => match c in fsys B return B with
      | Socket => 3
      | Bind _ _ _ => 0
      | Inet_pton _ => Some [192; 168; 225; 1]
      | Write _ buf => (len buf, 0)
      | Read _ _ => (None, 0) | FstatCall _ => (-1, Fstat_t 0 0 0 0 0 0)
      | Setlk _ _ | Connect _ _ _ | Select _ _ _ => (-1, 0)
      | StatCall _ | Lstat _ | Readlink _ _ | Getcwd _ | Opendir | Getpwnam _ | Getpwuid _ | Getspnam _
      | Crypt _ _ | Gettimeofday | Gethostbyname _ | Getsockname _ | Getsockopt _ | LocalIp => None
      | Close _ | Umask _ | Shutdown _ _ | Alarm _ | Nanosleep _ | Setsockopt _ | Listen _ => tt
      | Strftime _ _ => []
      | Pending => NoSignal
      | Malloc _ => false
      | Local _ => fun _ => 0
      | Open _ _ | Sendfile _ _ _ | Lseek _ _ _ | Ftruncate _ | Chdir _ | Mkdir _ | Rmdir _ | Unlink _ | Rename _ _
      | Chmod _ _ | Setegid _ | Seteuid _ | Setown | Getflags _ | Setflags _ _ | Accept _ => 0
      end
  | MallocNode live => Some (fresh live)
  | ConfFile => Some (ParseConf.print_config sample_settings)
  | Strdup _ => true
  | Getuid => 0
  | OnChild _ => tt
  | Peer => 0
  | Fork => 0
  | Oobinline _ => 0
  | Socketpair => Some (5, 6)
  | Nobody => Some (65534, 65534)
  | BeyondData n => replicate n 255
  | Capset _ _ _ => -1
  | Service _ | Helper _ => tt
  end.

Definition before_main : boot :=
  Boot ParseConf.defaults (replicate (Z.to_nat 256) 0) new_session 0 (-1) (-1) [] []
    (Server 0 (Hash 0 hash_func [] ∅) (Hash 0 hash_func [] ∅) []).

