(* ===== verification/Cqueue.v ===== *)
(** The queue of log files (cqueue.c): a singly linked list on the C heap with
    pointers to its first and last node, and its refinement to a list of file
    names, first in first out. *)

From Stdlib Require Import ZArith Lia.
From stdpp Require Import base list gmap fin_maps.
From S2P Require Import Prelude.

Definition addr := positive.

Record node := Node { log_file_name : list Z; qnext : option addr }.
Record queue := Queue {
  front : option addr;
  rear : option addr;
  qheap : gmap addr node
}.
#[export] Instance eta_node : Eta node := fun n => Node (log_file_name n) (qnext n).
#[export] Instance eta_queue : Eta queue := fun q => Queue (front q) (rear q) (qheap q).

(** [char log_file_name[512]] *)
Definition sizeof_log_file_name : Z := 512.

(** What the queue promises the code that bounds the size of the log
    directory: [holds_names q l] says that [q] holds the names [l]. *)
Class QueueOps (sys : Type -> Type) (T : Type) := {
  q_enqueue : list Z -> M sys T unit;
  q_dequeue : M sys T Z;
  q_peek : M sys T (option (list Z));
  q_is_empty : M sys T bool
}.
Class QueueLaws {sys T} (O : QueueOps sys T) (E : env sys) := {
  holds_names : T -> list (list Z) -> Prop;
  enqueue_law s l (w : world sys T) : holds_names (loc w) l -> len s < sizeof_log_file_name ->
    runs E (q_enqueue s) w (fun _ w' => holds_names (loc w') (l ++ [s]));
  dequeue_law l (w : world sys T) : holds_names (loc w) l ->
    runs E q_dequeue w (fun r w' => holds_names (loc w') (drop 1 l) /\
      hist w' = hist w /\ r = (match l with [] => -1 | _ => 0 end));
  peek_law l (w : world sys T) : holds_names (loc w) l ->
    runs E q_peek w (fun r w' => w' = w /\ r = head l);
  is_empty_law l (w : world sys T) : holds_names (loc w) l ->
    runs E q_is_empty w (fun r w' => w' = w /\ r = bool_decide (l = []))
}.

(** ** The operations *)

Section Operations.
Context {sys : Type -> Type} (Malloc : gset addr -> sys (option addr)).
Abbreviation Q := (M sys queue).

Definition qderef (p : option addr) : Q node :=
  match p with None => undef | Some a => q ← get; of_option (qheap q !! a) end.

(** [strcpy] into the array of the node. *)
Definition create_node (filename : list Z) : Q addr :=
  q ← get;
  p ← call (Malloc (dom (qheap q)));
  match p with
  | None => undef
  | Some a =>
      if (sizeof_log_file_name <=? len filename : bool) then undef
      else modify (fun q => q <| qheap ::= <[a := Node filename None]> |>);; mret a
  end.

Definition create_queue {S} : M sys S queue :=
  p ← call (Malloc ∅);
  match p with None => undef | Some _ => mret (Queue None None ∅) end.

Definition enqueue (data : list Z) : Q unit :=
  new_node ← create_node data;
  q ← get;
  match rear q with
  | None => modify (fun q => q <| front := Some new_node |> <| rear := Some new_node |>)
  | Some r =>
      n ← qderef (Some r);
      modify (fun q => q <| qheap ::= <[r := n <| qnext := Some new_node |>]> |>);;
      modify (fun q => q <| rear := Some new_node |>)
  end.

Definition dequeue : Q Z :=
  q ← get;
  match front q with
  | None => mret (-1)
  | Some temp =>
      n ← qderef (Some temp);
      modify (fun q => q <| front := qnext n |>);;
      (match qnext n with
       | None => modify (fun q => q <| rear := None |>)
       | Some _ => mret tt
       end);;
      modify (fun q => q <| qheap ::= delete temp |>);;
      mret 0
  end.

Definition peek : Q (option (list Z)) :=
  q ← get;
  match front q with
  | None => mret None
  | Some a => n ← qderef (Some a); mret (Some (log_file_name n))
  end.

Definition is_empty : Q bool := q ← get; mret (match front q with None => true | _ => false end).

Definition destroy_queue (fuel : nat) : Q unit :=
  iterM fuel (fun _ : unit =>
    e ← is_empty;
    if (e : bool) then mret (inr tt) else dequeue;; mret (inl tt)) tt.

#[export] Instance queue_ops : QueueOps sys queue := {
  q_enqueue := enqueue;
  q_dequeue := dequeue;
  q_peek := peek;
  q_is_empty := is_empty
}.
End Operations.

(** ** The invariant: a list segment from [front] to [rear] *)

Fixpoint qseg (h : gmap addr node) (hd : option addr) (l : list (addr * list Z)) : Prop :=
  match l with
  | [] => hd = None
  | (a, s) :: l' => hd = Some a /\ exists nx, h !! a = Some (Node s nx) /\ qseg h nx l'
  end.

Definition queue_ok (q : queue) (names : list (list Z)) : Prop := exists l,
  names = l.*2 /\ qseg (qheap q) (front q) l /\ NoDup l.*1 /\ rear q = fst <$> last l.

Lemma qseg_frame h h' l : forall hd,
  (forall a, a ∈ l.*1 -> h' !! a = h !! a) -> qseg h hd l -> qseg h' hd l.
Proof.
  induction l as [|[a s] l IH]; intros hd Hf; cbn; [done|].
  intros (-> & nx & Ha & H). split; [done|]. exists nx. split; [by rewrite Hf by left|].
  apply IH; [|done]. intros b Hb. apply Hf. by right.
Qed.

(** The last node gets a successor. *)
Lemma qseg_snoc h l b : forall hd a s s' nx,
  qseg h hd (l ++ [(a, s)]) -> NoDup (l ++ [(a, s)]).*1 -> b ∉ (l ++ [(a, s)]).*1 ->
  h !! a = Some (Node s nx) -> h !! b = Some (Node s' None) ->
  qseg (<[a := Node s (Some b)]> h) hd (l ++ [(a, s); (b, s')]).
Proof.
  induction l as [|[c t] l IH]; intros hd a s s' nx H Hd Hb Ha Hbn; cbn in *.
  - destruct H as (-> & _). split; [done|]. exists (Some b). split; [by simplify_map_eq|].
    split; [done|]. exists None. split; [|done]. rewrite lookup_insert_ne; [done|]. set_solver.
  - destruct H as (-> & nx' & Hc & H). apply NoDup_cons in Hd. destruct Hd as [Hc' Hd].
    split; [done|]. exists nx'. split.
    + rewrite lookup_insert_ne; [done|]. intros ->. apply Hc'. rewrite fmap_app. set_solver.
    + apply (IH nx' a s s' nx); [done|done| |done|done]. intros Hin. apply Hb. by right.
Qed.

Lemma qseg_dom h l : forall hd a, qseg h hd l -> a ∈ l.*1 -> is_Some (h !! a).
Proof.
  induction l as [|[c t] l IH]; intros hd a; cbn; [set_solver|].
  intros (-> & nx & Hc & H) [->|Ha]%elem_of_cons; eauto.
Qed.

Lemma qseg_last h l a t : forall hd, qseg h hd (l ++ [(a, t)]) -> exists nx, h !! a = Some (Node t nx).
Proof.
  induction l as [|[c u] l IH]; cbn; intros hd; [intros (_ & nx & H & _); eauto|].
  intros (_ & nx & _ & H). by eapply IH.
Qed.

Section Laws.
Context {sys : Type -> Type} (Malloc : gset addr -> sys (option addr)) (E : env sys).
Hypothesis malloc_fresh : forall h live,
  exists a, E _ h (Malloc live) = Some a /\ a ∉ live.
Implicit Types w : world sys queue.

Lemma enqueue_runs s l w : queue_ok (loc w) l -> len s < sizeof_log_file_name ->
  runs E (enqueue Malloc s) w (fun _ w' => queue_ok (loc w') (l ++ [s])).
Proof.
  intros (al & -> & Hq & Hd & Hr) Hs. unfold enqueue, create_node. rsteps.
  destruct (malloc_fresh (hist w) (dom (qheap (loc w)))) as (b & -> & Hb).
  destruct (Z.leb_spec sizeof_log_file_name (len s)); [lia|]. rsteps.
  apply not_elem_of_dom in Hb.
  assert (Hbl : b ∉ al.*1).
  { intros Hin. destruct (qseg_dom _ _ _ _ Hq Hin) as [n Hn]. by rewrite Hb in Hn. }
  assert (Hq' : qseg (<[b := Node s None]> (qheap (loc w))) (front (loc w)) al).
  { eapply qseg_frame; [|exact Hq]. intros a Ha. rewrite lookup_insert_ne; [done|]. by intros ->. }
  cbn [loc rear set_field]. destruct (decide (al = [])) as [->|Hne].
  - rewrite Hr. cbn. rsteps. exists [(b, s)]. split; [done|]. cbn. split.
    + split; [done|]. exists None. by rewrite lookup_insert_eq.
    + split; [|done]. apply NoDup_singleton.
  - destruct (exists_last Hne) as (l & [a t] & ->).
    rewrite Hr, last_snoc. cbn [fmap option_fmap option_map fst].
    destruct (qseg_last _ _ _ _ _ Hq') as [nx Ha].
    rsteps. unfold qderef. rsteps. cbn [loc qheap set_field].
    eapply runs_of_option; [exact Ha|]. rsteps. exists (l ++ [(a, t); (b, s)]).
    cbn [loc qheap front rear set_field]. split; [by rewrite !fmap_app, <-app_assoc|]. split; [|split].
    + eapply qseg_snoc; [done|done|done|exact Ha|by rewrite lookup_insert_eq].
    + rewrite fmap_app in *. cbn in *. change [a; b] with ([a] ++ [b]).
      rewrite app_assoc. apply NoDup_app. split; [done|]. split; [set_solver|].
      apply NoDup_singleton.
    + change [(a, t); (b, s)] with ([(a, t)] ++ [(b, s)]). by rewrite app_assoc, last_snoc.
Qed.

Lemma dequeue_runs l w : queue_ok (loc w) l ->
  runs E dequeue w (fun r w' => queue_ok (loc w') (drop 1 l) /\ hist w' = hist w /\
    r = (match l with [] => -1 | _ => 0 end)).
Proof.
  intros (al & -> & Hq & Hd & Hr). unfold dequeue. rsteps. destruct al as [|[a s] al].
  - rewrite Hq. rsteps. split; [|done]. by exists [].
  - destruct Hq as (-> & nx & Ha & Hq). unfold qderef. rsteps.
    eapply runs_of_option; [exact Ha|]. cbn [fmap list_fmap fst] in Hd.
    apply NoDup_cons in Hd. destruct Hd as [Hna Hd].
    assert (Hfr : qseg (delete a (qheap (loc w))) nx al).
    { eapply qseg_frame; [|exact Hq]. intros b Hb. rewrite lookup_delete_ne; [done|]. by intros ->. }
    rsteps. cbn [qnext]. destruct nx as [c|].
    + rsteps. split; [|done]. exists al. cbn [loc qheap front rear set_field].
      destruct al as [|x al]; [by cbn in Hq|]. by rewrite Hr.
    + destruct al as [|[c t] al]; [|by destruct Hq]. rsteps. split; [|done]. by exists [].
Qed.

Lemma queue_peek_runs l w : queue_ok (loc w) l ->
  runs E peek w (fun r w' => w' = w /\ r = head l).
Proof.
  intros (al & -> & Hq & _). unfold peek. rsteps. destruct al as [|[a s] al].
  - rewrite Hq. by rsteps.
  - destruct Hq as (-> & nx & Ha & _). unfold qderef. rsteps.
    eapply runs_of_option; [exact Ha|]. by rsteps.
Qed.

Lemma is_empty_runs l w : queue_ok (loc w) l ->
  runs E is_empty w (fun r w' => w' = w /\ r = bool_decide (l = [])).
Proof.
  intros (al & -> & Hq & _). unfold is_empty. rsteps. split; [done|].
  destruct al as [|[a s] al]; [by rewrite Hq|]. by destruct Hq as [-> _].
Qed.

#[export] Instance queue_laws : QueueLaws (queue_ops Malloc) E := {
  holds_names := queue_ok;
  enqueue_law := enqueue_runs;
  dequeue_law := dequeue_runs;
  peek_law := queue_peek_runs;
  is_empty_law := is_empty_runs
}.

End Laws.
