(* ===== verification/WorkDir.v ===== *)
(** The bound on the size of the log directory (main.c): [checkWorkDirSize]
    adds up the files of the directory and removes the oldest log files of the
    queue until the total is below the limit.  It is stated over any queue that
    obeys [QueueLaws]. *)

From Stdlib Require Import ZArith Lia.
From stdpp Require Import base list gmap.
From S2P Require Import Prelude Cqueue.

(** The file system: the size of a file, its removal, and the entries of a
    directory, the oldest first ([scandir] with [compare_logfile_mtime]). *)
Inductive dsys : Type -> Type :=
| Malloc (live : gset addr) : dsys (option addr)
| Stat (path : list Z) : dsys (option Z)
| Remove (path : list Z) : dsys bool
| Scandir (dir : list Z) : dsys (option (list (list Z))).

Definition zip_of (name : list Z) : list Z := name ++ str ".zip".

(** [*strstr(s, ".zip") = 0] *)
Fixpoint cut_zip (s : list Z) : list Z :=
  if is_prefix (str ".zip") s then []
  else match s with [] => [] | b :: l => b :: cut_zip l end.

Definition filter_logfile (d_name : list Z) : bool :=
  negb (str_eqb d_name (str ".") || str_eqb d_name (str "..")).

Section WorkDir.
Context {T : Type} `{O : QueueOps dsys T}.
Variable max_size : Z.
Variables second_logfile_suffix third_logfile_suffix : bool.

Abbreviation D := (M dsys T).

(** The sizes are added in 64 bits and stored in an [int]. *)
Definition remove_oldest_logfile (total_size : Z) : D Z :=
  last ← q_peek;
  match last with
  | None => undef
  | Some last_file =>
      let last_zip_file := zip_of last_file in
      r ← call (Stat last_zip_file);
      match r with
      | Some st_size =>
          ok ← call (Remove last_zip_file);
          if (ok : bool) then _ ← q_dequeue; mret (s32 (total_size - st_size))
          else mret total_size
      | None =>
          r ← call (Stat last_file);
          match r with
          | Some st_size =>
              ok ← call (Remove last_file);
              if (ok : bool) then _ ← q_dequeue; mret (s32 (total_size - st_size))
              else mret total_size
          | None => mret total_size
          end
      end
  end.

(** The second and third removal of a turn. *)
Definition remove_if (suffix : bool) (total_size : Z) : D Z :=
  if suffix then
    e ← q_is_empty;
    if (e : bool) then mret total_size else remove_oldest_logfile total_size
  else mret total_size.

(** One turn of the loop that removes files. *)
Definition shrink_step (total_size : Z) : D (Z + unit) :=
  if (total_size <? max_size : bool) then mret (inr tt)
  else
    e ← q_is_empty;
    if (e : bool) then mret (inr tt)
    else
      t1 ← remove_oldest_logfile total_size;
      t2 ← remove_if second_logfile_suffix t1;
      t3 ← remove_if third_logfile_suffix t2;
      mret (inl t3).
Definition shrink (fuel : nat) (total_size : Z) : D unit := iterM fuel shrink_step total_size.

(** The loop over the entries of the directory. *)
Fixpoint scan (fill_queue : bool) (dir_path : list Z) (entries : list (list Z)) (total_size : Z) : D Z :=
  match entries with
  | [] => mret total_size
  | d_name :: rest =>
      let file_path := take 1023 (dir_path ++ str "/" ++ d_name) in
      r ← call (Stat file_path);
      let total := match r with Some st_size => s32 (total_size + st_size) | None => total_size end in
      (if fill_queue then q_enqueue (cut_zip file_path) else mret tt);;
      scan fill_queue dir_path rest total
  end.

Definition checkWorkDirSize (fuel : nat) (dir_path : list Z) : D Z :=
  fill_queue ← q_is_empty;
  n ← call (Scandir dir_path);
  match n with
  | None => mret (-1)
  | Some namelist =>
      total_size ← scan fill_queue dir_path (List.filter filter_logfile namelist) 0;
      shrink fuel total_size;;
      mret 0
  end.

(** ** Which files go *)

(** The files removed so far, the latest first. *)
Fixpoint removed (h : list (io dsys)) : list (list Z) :=
  match h with
  | Ev (Remove p) true :: h' => p :: removed h'
  | _ :: h' => removed h'
  | [] => []
  end.

Definition sum (l : list Z) : Z := fold_right Z.add 0 l.
Lemma sum_app l1 l2 : sum (l1 ++ l2) = sum l1 + sum l2.
Proof. unfold sum. induction l1; cbn in *; lia. Qed.

Section Props.
Context {E : env dsys} {L : QueueLaws O E}.
Implicit Types w : world dsys T.

(** The log files can be removed: [size] and [zipped] say how they are. *)
Variables (size : list Z -> Z) (zipped : list Z -> bool).
Definition file_of (name : list Z) : list Z := if zipped name then zip_of name else name.
Definition removable (name : list Z) : Prop := forall h,
  E _ h (Stat (zip_of name)) = (if zipped name then Some (size name) else None) /\
  E _ h (Stat name) = Some (size name) /\ E _ h (Remove (file_of name)) = true.

Definition in_range (total : Z) (l : list (list Z)) : Prop :=
  Forall (fun s => 0 <= size s) l /\ total < 2 ^ 31 /\ - 2 ^ 31 <= total - sum (map size l).

Lemma sum_nonneg (l : list (list Z)) : Forall (fun s => 0 <= size s) l -> 0 <= sum (map size l).
Proof. induction 1; cbn; [done|]. unfold sum in *. cbn. lia. Qed.

Lemma s32_small z : - 2 ^ 31 <= z < 2 ^ 31 -> s32 z = z.
Proof. intros H. unfold s32. rewrite Z.mod_small; lia. Qed.

Lemma remove_oldest_runs total s l w : holds_names (loc w) (s :: l) -> removable s ->
  in_range total (s :: l) ->
  runs E (remove_oldest_logfile total) w (fun r w' => r = total - size s /\
    holds_names (loc w') l /\ removed (hist w') = file_of s :: removed (hist w)).
Proof.
  intros Hq Hs (Hf & Ht & Hsum). apply Forall_cons in Hf. destruct Hf as [Hf Hl].
  pose proof (sum_nonneg _ Hl). unfold sum in *. cbn in Hsum.
  unfold remove_oldest_logfile. rsteps. eapply runs_mono; [by apply peek_law|].
  intros r w1 [-> ->]. cbn [head]. rsteps.
  destruct (Hs (hist w)) as (Hz & _ & _). rewrite Hz.
  destruct (zipped s) eqn:Hzip; rsteps.
  - destruct (Hs (Ev (Stat (zip_of s)) (Some (size s)) :: hist w)) as (_ & _ & Hr).
    unfold file_of in *. rewrite Hzip in *.
    cbn [hist loc]. rewrite Hr. rsteps.
    eapply runs_mono; [by apply dequeue_law|]. intros r w' (Hq' & Hh & _). rsteps.
    rewrite s32_small by lia. rewrite Hh. by cbn.
  - destruct (Hs (Ev (Stat (zip_of s)) None :: hist w)) as (_ & H2 & _).
    cbn [hist loc]. rewrite H2. rsteps.
    destruct (Hs (Ev (Stat s) (Some (size s)) :: Ev (Stat (zip_of s)) None :: hist w)) as (_ & _ & Hr).
    unfold file_of in *. rewrite Hzip in *.
    cbn [hist loc]. rewrite Hr. rsteps.
    eapply runs_mono; [by apply dequeue_law|]. intros r w' (Hq' & Hh & _). rsteps.
    rewrite s32_small by lia. rewrite Hh. by cbn.
Qed.

(** [gone pre l total w total' w']: [pre] was removed of [pre ++ l]. *)
Definition gone (pre l : list (list Z)) (total : Z) w (total' : Z) w' : Prop :=
  total' = total - sum (map size pre) /\ holds_names (loc w') l /\
  removed (hist w') = rev (map file_of pre) ++ removed (hist w).

Lemma gone_trans p1 p2 l1 l2 t w t1 w1 t2 w2 :
  gone p1 l1 t w t1 w1 -> gone p2 l2 t1 w1 t2 w2 -> gone (p1 ++ p2) l2 t w t2 w2.
Proof.
  intros (-> & _ & H1) (-> & Hq & H2). split; [|split; [done|]].
  - rewrite map_app, sum_app. lia.
  - by rewrite H2, H1, map_app, rev_app_distr, app_assoc.
Qed.

Lemma in_range_drop t l n : in_range t l ->
  in_range (t - sum (map size (take n l))) (drop n l).
Proof.
  intros (Hf & Ht & Hs). rewrite <-(take_drop n l) in Hf, Hs. rewrite map_app, sum_app in Hs.
  apply Forall_app in Hf. destruct Hf as [Hf1 Hf2]. pose proof (sum_nonneg _ Hf1).
  split; [done|]. split; lia.
Qed.

Definition b2n (b : bool) : nat := if b then 1 else 0.

Lemma gone_head s l total w w' : holds_names (loc w') l ->
  removed (hist w') = file_of s :: removed (hist w) ->
  gone (take 1 (s :: l)) (drop 1 (s :: l)) total w (total - size s) w'.
Proof.
  intros Hq Hr. change (take 1 (s :: l)) with [s]. change (drop 1 (s :: l)) with l.
  split; [unfold sum; cbn; lia|]. by split.
Qed.

Lemma remove_if_runs b total l w : holds_names (loc w) l -> Forall removable l ->
  in_range total l ->
  runs E (remove_if b total) w (fun t' w' => gone (take (b2n b) l) (drop (b2n b) l) total w t' w').
Proof.
  intros Hq Hl Hi. unfold remove_if. destruct b; cbn [b2n].
  2: { rsteps. rewrite take_0, drop_0. split; [unfold sum; cbn; lia|done]. }
  rsteps. eapply runs_mono; [by apply is_empty_law|]. intros e w1 [-> ->].
  destruct l as [|s l]; rsteps.
  - split; [unfold sum; cbn; lia|done].
  - apply Forall_cons in Hl. destruct Hl as [Hs Hl].
    eapply runs_mono; [by apply (remove_oldest_runs total s l)|].
    intros r w' (-> & Hq' & Hr). by apply gone_head.
Qed.

(** The number of files that one turn of the loop removes. *)
Definition group : nat := 1 + b2n second_logfile_suffix + b2n third_logfile_suffix.

Lemma shrink_step_runs total l w : holds_names (loc w) l -> Forall removable l ->
  in_range total l -> l <> [] -> max_size <= total ->
  runs E (shrink_step total) w (fun r w' => exists t',
    r = inl t' /\ gone (take group l) (drop group l) total w t' w').
Proof.
  intros Hq Hl Hi Hne Hm. unfold shrink_step. destruct (Z.ltb_spec total max_size); [lia|].
  rsteps. eapply runs_mono; [by apply is_empty_law|]. intros e w1 [-> ->].
  destruct l as [|s l]; [done|]. rewrite bool_decide_eq_false_2 by done. rsteps.
  assert (Hrem : forall n, Forall removable (drop n (s :: l))) by (intros n; by apply Forall_drop).
  eapply runs_mono; [apply (remove_oldest_runs total s l); [done|by apply Forall_cons in Hl as [? _]|done]|].
  intros r w1 (-> & Hq1 & Hr1). rsteps.
  assert (G1 : gone (take 1 (s :: l)) (drop 1 (s :: l)) total w (total - size s) w1)
    by (by apply gone_head).
  pose proof (in_range_drop _ _ 1 Hi) as I1. rewrite <-(proj1 G1) in I1.
  eapply runs_mono; [by apply (remove_if_runs _ _ (drop 1 (s :: l)))|].
  intros t2 w2 G2. rsteps. pose proof (in_range_drop _ _ (b2n second_logfile_suffix) I1) as I2.
  rewrite <-(proj1 G2), drop_drop in I2. rewrite drop_drop in G2.
  pose proof (gone_trans _ _ _ _ _ _ _ _ _ _ G1 G2) as G12. rewrite take_take_drop in G12.
  eapply runs_mono; [apply (remove_if_runs third_logfile_suffix t2); [apply G2|done|done]|].
  intros t3 w3 G3. rsteps. exists t3. split; [done|]. rewrite drop_drop in G3.
  pose proof (gone_trans _ _ _ _ _ _ _ _ _ _ G12 G3) as G. by rewrite take_take_drop in G.
Qed.

(** C30: The loop of [checkWorkDirSize] ends and removes the oldest log files
    first, in whole groups (a log with its second and third file), as many as
    bring the total below the limit and no group more, compressed or not, when
    every queued file is there and can be removed and the totals fit 32 bits (otherwise the loop
    may go on for ever, [shrink_stuck]). *)
Theorem shrink_removes_oldest total l fuel w (Hq : holds_names (loc w) l)
    (Hl : Forall removable l) (Hi : in_range total l) (Hf : (length l < fuel)%nat) :
  runs E (shrink fuel total) w (fun _ w' => exists m, 
    holds_names (loc w') (drop (m * group) l) /\
    removed (hist w') = rev (map file_of (take (m * group) l)) ++ removed (hist w) /\
    ((length l <= m * group)%nat \/ total - sum (map size (take (m * group) l)) < max_size) /\
    forall j, (j < m)%nat -> (j * group < length l)%nat /\
      max_size <= total - sum (map size (take (j * group) l))).
Proof.
  unfold shrink. revert total l w Hq Hl Hi Hf.
  induction fuel as [|fuel IH]; intros total l w Hq Hl Hi Hf; [lia|]. cbn [iterM]. rsteps.
  destruct (decide (l = [] \/ total < max_size)) as [Hend|Hgo].
  - apply (runs_mono E _ w (fun r w' => r = inr tt /\ w' = w)).
    + unfold shrink_step. destruct (Z.ltb_spec total max_size); [by rsteps|]. rsteps.
      eapply runs_mono; [by apply is_empty_law|]. intros e w1 [-> ->].
      destruct Hend as [->|]; [|lia]. by rsteps.
    + intros r w' [-> ->]. rsteps. exists 0%nat. cbn [Nat.mul]. rewrite drop_0, take_0.
      split; [done|]. split; [done|]. split; [|lia].
      destruct Hend as [->|]; [left; cbn; lia|right; unfold sum; cbn; lia].
  - assert (l <> [] /\ max_size <= total) as [Hne Hm]
      by (split; [intros ->; apply Hgo; by left|destruct (Z.le_gt_cases max_size total); [done|tauto]]).
    assert (Hlen : (0 < length l)%nat) by (destruct l; [done|cbn; lia]).
    eapply runs_mono; [by apply shrink_step_runs|].
    intros r w1 (t' & -> & G). destruct G as (Ht & Hq1 & Hr1).
    eapply runs_mono; [apply (IH t' (drop group l)); [done|by apply Forall_drop| |]|].
    + rewrite Ht. by apply in_range_drop.
    + rewrite length_drop. unfold group. lia.
    + intros [] w' (m & Hq' & Hr' & Hstop & Hj). exists (S m). cbn [Nat.mul].
      assert (Hsum : forall n, sum (map size (take (group + n) l)) =
        sum (map size (take group l)) + sum (map size (take n (drop group l)))).
      { intros n. rewrite <-take_take_drop, map_app, sum_app. done. }
      rewrite drop_drop in Hq'. split; [done|]. split; [|split].
      * by rewrite Hr', Hr1, <-take_take_drop, map_app, rev_app_distr, app_assoc.
      * rewrite Hsum. destruct Hstop as [H|H]; [left; rewrite length_drop in H; lia|right; lia].
      * intros j Hjm. destruct j as [|j]; [cbn [Nat.mul]; rewrite take_0; unfold sum; cbn; lia|].
        destruct (Hj j ltac:(lia)) as [H1 H2]. rewrite length_drop in H1. cbn [Nat.mul].
        rewrite Hsum. lia.
Qed.

(** The loop never ends when the oldest log file of the queue is neither in
    the directory nor there as a .zip while the total is at the limit: the file
    stays at the head of the queue. *)
Theorem shrink_stuck total s l fuel w (Hq : holds_names (loc w) (s :: l))
    (Hm : max_size <= total)
    (Hs : forall h, E _ h (Stat (zip_of s)) = None /\ E _ h (Stat s) = None) :
  shrink fuel total E w = NoFuel.
Proof.
  assert (Hrem : forall w, holds_names (loc w) (s :: l) ->
    runs E (remove_oldest_logfile total) w (fun r w' => r = total /\ holds_names (loc w') (s :: l))).
  { clear w Hq. intros w Hq. unfold remove_oldest_logfile. rsteps.
    eapply runs_mono; [by apply peek_law|]. intros r w1 [-> ->]. cbn [head]. rsteps.
    rewrite (proj1 (Hs _)). rsteps. rewrite (proj2 (Hs _)). by rsteps. }
  assert (Hif : forall b w, holds_names (loc w) (s :: l) ->
    runs E (remove_if b total) w (fun r w' => r = total /\ holds_names (loc w') (s :: l))).
  { clear w Hq. intros b w Hq. unfold remove_if. destruct b; [|by rsteps]. rsteps.
    eapply runs_mono; [by apply is_empty_law|]. intros e w1 [-> ->].
    rewrite bool_decide_eq_false_2 by done. by apply Hrem. }
  unfold shrink. revert w Hq. induction fuel as [|fuel IH]; intros w Hq; [done|].
  assert (Hstep : runs E (shrink_step total) w (fun r w' => r = inl total /\ holds_names (loc w') (s :: l))).
  { unfold shrink_step. destruct (Z.ltb_spec total max_size); [lia|]. rsteps.
    eapply runs_mono; [by apply is_empty_law|]. intros e w1 [-> ->].
    rewrite bool_decide_eq_false_2 by done. rsteps.
    eapply runs_mono; [by apply Hrem|]. intros t1 w1 [-> H1]. rsteps.
    eapply runs_mono; [by apply Hif|]. intros t2 w2 [-> H2]. rsteps.
    eapply runs_mono; [by apply Hif|]. intros t3 w3 [-> H3]. by rsteps. }
  destruct (runs_ends _ _ _ _ Hstep) as (r & w' & Ed & -> & Hq').
  cbn [iterM]. unfold mbind, M_bind. rewrite Ed. by apply IH.
Qed.
End Props.
End WorkDir.

(** ** A directory on the queue of cqueue.c *)

(** Three files of 60 bytes, of which the first was compressed. *)
Definition disk : env dsys := fun A _ c =>
  match c with
  | Malloc live => Some (fresh live)
  | Stat p =>
      if str_eqb p (zip_of (str "a")) || str_eqb p (str "a") || str_eqb p (str "b")
         || str_eqb p (str "c") then Some 60 else None
  | Remove _ => true
  | Scandir _ => None
  end.

#[export] Instance disk_queue_ops : QueueOps dsys queue := queue_ops Malloc.
Lemma disk_fresh h live : exists a, disk _ h (Malloc live) = Some a /\ a ∉ live.
Proof. exists (fresh live). split; [done|apply is_fresh]. Qed.
#[export] Instance disk_queue_laws : QueueLaws disk_queue_ops disk :=
  queue_laws Malloc disk disk_fresh.

Definition three_files : queue := Queue (Some 1%positive) (Some 3%positive)
  {[ 1%positive := Node (str "a") (Some 2%positive);
     2%positive := Node (str "b") (Some 3%positive);
     3%positive := Node (str "c") None ]}.

Lemma three_files_ok : queue_ok three_files [str "a"; str "b"; str "c"].
Proof.
  exists [(1%positive, str "a"); (2%positive, str "b"); (3%positive, str "c")].
  split; [reflexivity|]. split; [|split; [|reflexivity]].
  - repeat (split; [reflexivity|]; eexists; split; [reflexivity|]). reflexivity.
  - cbn. repeat (constructor; [set_solver|]). constructor.
Qed.

Lemma shrink_removes_oldest_witness :
  runs disk (shrink 100 true false 4 180) (World three_files []) (fun _ w' => exists m,
    holds_names (loc w') (drop (m * 2) [str "a"; str "b"; str "c"]) /\
    removed (hist w') = rev (map (file_of (fun s => str_eqb s (str "a")))
      (take (m * 2) [str "a"; str "b"; str "c"])) ++ [] /\
    ((3 <= m * 2)%nat \/
      180 - sum (map (fun _ => 60) (take (m * 2) [str "a"; str "b"; str "c"])) < 100) /\
    forall j, (j < m)%nat -> (j * 2 < 3)%nat /\
      100 <= 180 - sum (map (fun _ => 60) (take (j * 2) [str "a"; str "b"; str "c"]))).
Proof.
  apply (shrink_removes_oldest 100 true false (fun _ => 60) (fun s => str_eqb s (str "a")) 180
    [str "a"; str "b"; str "c"] 4 (World three_files [])).
  - exact three_files_ok.
  - repeat (constructor; [intros h; vm_compute; auto|]). constructor.
  - split; [repeat (constructor; [lia|]); constructor|]. cbn. lia.
  - cbn. lia.
Defined.

(** The user deleted the oldest log file. *)
Definition disk_without : env dsys := fun A _ c =>
  match c with
  | Malloc live => Some (fresh live)
  | Stat p => if str_eqb p (str "b") then Some 60 else None
  | Remove _ => true
  | Scandir _ => None
  end.
Lemma disk_without_fresh h live : exists a, disk_without _ h (Malloc live) = Some a /\ a ∉ live.
Proof. exists (fresh live). split; [done|apply is_fresh]. Qed.

Lemma shrink_stuck_witness :
  shrink 50 false false 1000 60 disk_without (World three_files []) = NoFuel.
Proof.
  apply (shrink_stuck (L := queue_laws Malloc disk_without disk_without_fresh) 50 false false 60
    (str "a") [str "b"; str "c"] 1000 (World three_files [])).
  - exact three_files_ok.
  - lia.
  - intros h. split; reflexivity.
Defined.
