(* ===== verification/PollIo.v ===== *)
(** Reading and writing of descriptors with a time limit (main.c:
    qlog_poll_read_fds, qlog_poll_read, qlog_poll_write). *)

From Stdlib Require Import ZArith Lia.
From stdpp Require Import base list.
From S2P Require Import Prelude.

(** The system calls.  [write] answers its result and the value that [errno]
    has then; [poll] answers its result, [errno] and the [revents] of each
    descriptor; a fresh block holds whatever bytes it happens to hold.  The
    flags that the signal handler and the USB reader set are read as calls. *)
Inductive psys : Type -> Type :=
| Write (fd : Z) (buf : list Z) : psys (Z * Z)
| UsbfsWrite (usbfd ep : Z) (buf : list Z) : psys (Z * Z)
| Read (fd size : Z) : psys (option (list Z))
| UsbfsRead (usbfd ep size : Z) : psys (option (list Z))
| Poll (fds : list (Z * Z)) (timeout : Z) : psys (Z * Z * list Z)
| ExitRequested : psys bool
| UsbDisconnected : psys bool
| SetUsbDisconnected : psys unit
| Malloc (size : Z) : psys (option (nat -> Z))
| SetNonblock (fd : Z) : psys unit.

Definition EINTR : Z := 4.
Definition EAGAIN : Z := 11.
Definition ECONNRESET : Z := 104.
Definition POLLIN : Z := 1.
Definition POLLOUT : Z := 4.
Definition POLL_FAULT : Z := Z.lor 8 (Z.lor 16 32).

Definition has (revents mask : Z) : bool := negb (Z.land revents mask =? 0).

(** The log tool's settings that decide how a descriptor is written. *)
Record io_cfg : Type := IoCfg {
  qlog_read_com_data : bool;
  dm_socket : Z;
  dm_usbfd : Z;
  dm_ep_out : Z;
}.

Section PollIo.
Context {S : Type} (cfg : io_cfg).
Abbreviation P := (M psys S).

(** [do ret = poll(..) while (ret == -1 && errno == EINTR && !exit)] *)
Definition poll_retry (fuel : nat) (fds : list (Z * Z)) (timeout : Z) : P (Z * list Z) :=
  iterM fuel (fun _ : unit =>
    '(ret, errno, revents) ← call (Poll fds timeout);
    if (ret =? -1) && (errno =? EINTR) then
      e ← call ExitRequested;
      if (e : bool) then mret (inr (ret, revents)) else mret (inl tt)
    else mret (inr (ret, revents))) tt.

(** The first descriptor of [fds] that is in fault or readable. *)
Fixpoint first_ready (fds : list Z) (revents : list Z) : option (Z * bool) :=
  match fds, revents with
  | fd :: fds', r :: revents' =>
      if has r POLL_FAULT then Some (fd, false)
      else if has r POLLIN then Some (fd, true)
      else first_ready fds' revents'
  | _, _ => None
  end.

(** Answers what [read] gave ([Some []] for 0, [None] for -1) and [fds[0]]. *)
Definition qlog_poll_read_fds (fuel : nat) (fds : list Z) (size timeout : Z)
    : P (option (list Z) * list Z) :=
  iterM fuel (fun _ : unit =>
    e ← call ExitRequested;
    if (e : bool) || (timeout <=? 0) then mret (inr (Some [], fds)) else
    '(ret, revents) ← poll_retry fuel (map (fun fd => (fd, POLLIN)) fds) timeout;
    d ← call UsbDisconnected;
    if (d : bool) then mret (inr (Some [], fds)) else
    if ret <=? 0 then mret (inr (Some [], fds)) else
    match first_ready fds revents with
    | Some (_, false) => mret (inr (Some [], fds))
    | Some (fd, true) => rc ← call (Read fd size); mret (inr (rc, <[0%nat := fd]> fds))
    | None => mret (inl tt)
    end) tt.

Definition qlog_poll_read (fuel : nat) (fd size timeout : Z) : P (option (list Z)) :=
  '(rc, _) ← qlog_poll_read_fds fuel [fd] size timeout; mret rc.

(** What is left of a buffer after [n] bytes: [None] past its end. *)
Definition after (n : Z) (buf : list Z) : option (list Z) :=
  if (0 <=? n) && (n <=? len buf) then Some (drop (Z.to_nat n) buf) else None.

(** One turn of the loop that waits until the rest can be written. *)
Definition write_more (fuel : nat) (fd : Z) (buf : list Z) (timeout wc : Z) : P (Z + Z) :=
  if negb (wc <? len buf) then mret (inr wc) else
  '(ret, revents) ← poll_retry fuel [(fd, POLLOUT)] timeout;
  if ret <=? 0 then mret (inr wc) else
  r ← of_option (head revents);
  if has r POLL_FAULT then mret (inr wc) else
  if has r POLLOUT then
    rest ← of_option (after wc buf);
    '(nbytes, _) ← call (Write fd rest);
    if nbytes <=? 0 then mret (inr wc) else mret (inl (wc + nbytes))
  else mret (inl wc).

(** Answers the count and the [errno] of the first [write]. *)
Definition qlog_poll_write (fuel : nat) (fd : Z) (buf : list Z) (timeout : Z) : P (Z * Z) :=
  if negb (qlog_read_com_data cfg) && (fd =? dm_socket cfg) then
    call (UsbfsWrite (dm_usbfd cfg) (dm_ep_out cfg) buf)
  else
    '(nbytes, errno) ← call (Write fd buf);
    if (nbytes <=? 0) && negb (errno =? EAGAIN) then mret (0, errno) else
    let wc := if nbytes <=? 0 then 0 else nbytes in
    if timeout =? 0 then mret (wc, errno) else
    wc ← iterM fuel (write_more fuel fd buf timeout) wc; mret (wc, errno).

(** ** What reaches the other side *)

Definition via_usb (fd : Z) : bool := negb (qlog_read_com_data cfg) && (fd =? dm_socket cfg).

Definition written (fd : Z) {A} (c : psys A) : A -> list Z :=
  match c with
  | Write f buf => fun r => if (f =? fd) && negb (via_usb fd) then take (Z.to_nat r.1) buf else []
  | UsbfsWrite _ _ buf => fun r => if via_usb fd then take (Z.to_nat r.1) buf else []
  | _ => fun _ => []
  end.

(** The bytes written to [fd], oldest first. *)
Fixpoint sent (fd : Z) (h : list (io psys)) : list Z :=
  match h with
  | [] => []
  | Ev c a :: h' => sent fd h' ++ written fd c a
  end.

(** [write] accepts at most what it is offered. *)
Definition bounded_writes (E : env psys) : Prop := forall h,
  (forall fd buf, (E _ h (Write fd buf)).1 <= len buf) /\
  (forall u ep buf, (E _ h (UsbfsWrite u ep buf)).1 <= len buf).

(** The peer does not reset the connection. *)
Definition no_reset (E : env psys) : Prop := forall h,
  (forall fd buf, (E _ h (Write fd buf)).2 <> ECONNRESET) /\
  (forall u ep buf, (E _ h (UsbfsWrite u ep buf)).2 <> ECONNRESET).

(** [poll] for writing is not interrupted, and a positive answer has a reason. *)
Definition answers_polls (E : env psys) : Prop := forall h fd t,
  let '(ret, errno, revents) := E _ h (Poll [(fd, POLLOUT)] t) in
  (ret = -1 -> errno <> EINTR) /\
  (0 < ret -> exists r, revents = [r] /\ (has r POLL_FAULT = true \/ has r POLLOUT = true)).

Section Facts.
Context (E : env psys) (HE : bounded_writes E).
Abbreviation world := (world psys S).

(** Without waiting: one [write], whose count is the answer. *)
Lemma poll_write_now fuel fd buf (w : world) (Q : Z * Z -> world -> Prop) :
  (forall n errno h, (0 < n -> n <= len buf) -> (no_reset E -> errno <> ECONNRESET) ->
     sent fd h = sent fd (hist w) ++ take (Z.to_nat n) buf -> (forall fd', fd' <> fd ->
       via_usb fd' = false -> sent fd' h = sent fd' (hist w)) ->
     Q (n, errno) (World (loc w) h)) ->
  runs E (qlog_poll_write fuel fd buf 0) w Q.
Proof.
  intros HQ. unfold qlog_poll_write. fold (via_usb fd). destruct (via_usb fd) eqn:Hv.
  - apply runs_call. destruct (HE (hist w)) as [_ Hu].
    specialize (Hu (dm_usbfd cfg) (dm_ep_out cfg) buf).
    assert (Hr : no_reset E -> (E _ (hist w) (UsbfsWrite (dm_usbfd cfg) (dm_ep_out cfg) buf)).2 <> ECONNRESET).
    { intros Hr. apply Hr. }
    destruct (E _ (hist w) (UsbfsWrite _ _ _)) as [n e] eqn:Ha. cbn in Hu, Hr. apply HQ; cbn.
    + intros _. exact Hu.
    + exact Hr.
    + by rewrite Hv.
    + intros fd' _ ->. apply app_nil_r.
  - apply runs_bind, runs_call. destruct (HE (hist w)) as [Hu _]. specialize (Hu fd buf).
    assert (Hr : no_reset E -> (E _ (hist w) (Write fd buf)).2 <> ECONNRESET) by (intros Hr; apply Hr).
    destruct (E _ (hist w) (Write fd buf)) as [n e] eqn:Ha. cbn in Hu, Hr.
    assert (Hs : forall fd', via_usb fd' = false ->
      sent fd' (Ev (Write fd buf) (n, e) :: hist w) =
      sent fd' (hist w) ++ (if fd =? fd' then take (Z.to_nat n) buf else [])).
    { intros fd' Hf. cbn. rewrite Hf. by destruct (fd =? fd'). }
    assert (Hz : n <= 0 -> take (Z.to_nat n) buf = []).
    { intros. replace (Z.to_nat n) with 0%nat by lia. apply take_0. }
    assert (Hother : forall fd', fd' <> fd -> via_usb fd' = false ->
      sent fd' (Ev (Write fd buf) (n, e) :: hist w) = sent fd' (hist w)).
    { intros fd' Hne Hf. rewrite Hs by done. by rewrite (proj2 (Z.eqb_neq fd fd')), app_nil_r. }
    pose proof (Hs fd Hv) as Hme. rewrite Z.eqb_refl in Hme.
    destruct (n <=? 0) eqn:Hn; cbn [andb].
    + apply Z.leb_le in Hn. rewrite Hz in Hme by done.
      destruct (negb (e =? EAGAIN)); apply runs_ret, HQ; try done; lia.
    + apply Z.leb_gt in Hn. apply runs_ret, HQ; done.
Qed.

(** [poll] for writing, not interrupted. *)
Lemma poll_retry_once (HP : answers_polls E) fuel fd t (w : world) Q : (0 < fuel)%nat ->
  (forall ret revents h, (forall fd', sent fd' h = sent fd' (hist w)) ->
     (0 < ret -> exists r, revents = [r] /\ (has r POLL_FAULT = true \/ has r POLLOUT = true)) ->
     Q (ret, revents) (World (loc w) h)) ->
  runs E (poll_retry fuel [(fd, POLLOUT)] t) w Q.
Proof.
  intros Hf HQ. destruct fuel as [|fuel]; [lia|]. unfold poll_retry. cbn [iterM]. rsteps.
  specialize (HP (hist w) fd t).
  destruct (E _ (hist w) (Poll _ t)) as [[ret e] revents] eqn:Ha. destruct HP as [He Hr].
  replace ((ret =? -1) && (e =? EINTR)) with false.
  - rsteps. apply HQ; [|exact Hr]. intros fd'. apply app_nil_r.
  - symmetry. apply andb_false_iff. destruct (Z.eqb_spec ret (-1)) as [->|]; [right|by left].
    apply Z.eqb_neq. by apply He.
Qed.

(** A turn of the waiting loop. *)
Lemma write_more_turn (HP : answers_polls E) fuel fd buf t base wc (w : world) :
  (0 < fuel)%nat -> via_usb fd = false -> 0 <= wc <= len buf ->
  sent fd (hist w) = base ++ take (Z.to_nat wc) buf ->
  runs E (write_more fuel fd buf t wc) w (fun r w' =>
    let wc' := match r with inl x | inr x => x end in
    0 <= wc' <= len buf /\ loc w' = loc w /\
    sent fd (hist w') = base ++ take (Z.to_nat wc') buf /\
    match r with inl _ => wc < wc' | inr _ => True end).
Proof.
  intros Hf Hv Hwc Hs. unfold write_more.
  destruct (wc <? len buf) eqn:Hlt; cbn [negb]; [|by rsteps].
  apply Z.ltb_lt in Hlt. apply runs_bind, (poll_retry_once HP); [lia|].
  intros ret revents h Hh Hr. cbn beta iota.
  destruct (ret <=? 0) eqn:Hret; [rsteps; by rewrite <-Hh in Hs|]. apply Z.leb_gt in Hret.
  destruct (Hr Hret) as (r & -> & Hrr). cbn [head]. apply runs_bind, runs_ret.
  destruct (has r POLL_FAULT) eqn:Hfault; [rsteps; by rewrite <-Hh in Hs|].
  destruct Hrr as [|Hrr]; [congruence|]. rewrite Hrr. unfold after.
  rewrite (proj2 (Z.leb_le 0 wc)), (proj2 (Z.leb_le wc (len buf))) by lia. cbn [andb].
  apply runs_bind, runs_ret, runs_bind, runs_call. cbn [hist loc].
  destruct (HE h) as [Hu _]. specialize (Hu fd (drop (Z.to_nat wc) buf)).
  destruct (E _ h (Write fd _)) as [k e'] eqn:Ha. cbn [fst] in Hu.
  assert (Hd : sent fd (Ev (Write fd (drop (Z.to_nat wc) buf)) (k, e') :: h) =
    base ++ take (Z.to_nat wc) buf ++ take (Z.to_nat k) (drop (Z.to_nat wc) buf)).
  { cbn. by rewrite Z.eqb_refl, Hv, Hh, Hs, <-app_assoc. }
  unfold len in *. rewrite length_drop in Hu.
  destruct (k <=? 0) eqn:Hk; rsteps; cbn [hist loc fst].
  - apply Z.leb_le in Hk. split; [lia|]. split; [done|]. split; [|done].
    rewrite Hd. replace (Z.to_nat k) with 0%nat by lia. by rewrite take_0, app_nil_r.
  - apply Z.leb_gt in Hk. split; [lia|]. split; [done|]. split; [|lia].
    rewrite Hd, take_take_drop. do 2 f_equal. lia.
Qed.

(** With a time limit: the count that comes back is what has been written. *)
Lemma poll_write_waits (HP : answers_polls E) fuel fd buf t (w : world) :
  0 < t -> (length buf < fuel)%nat -> via_usb fd = false ->
  runs E (qlog_poll_write fuel fd buf t) w (fun r w' =>
    0 <= r.1 <= len buf /\ loc w' = loc w /\
    sent fd (hist w') = sent fd (hist w) ++ take (Z.to_nat r.1) buf).
Proof.
  intros Ht Hf Hv. unfold qlog_poll_write. fold (via_usb fd). rewrite Hv.
  apply runs_bind, runs_call. destruct (HE (hist w)) as [Hu _]. specialize (Hu fd buf).
  destruct (E _ (hist w) (Write fd buf)) as [n e] eqn:Ha. cbn [fst] in Hu. cbn beta iota.
  set (w1 := World _ _). set (base := sent fd (hist w)).
  assert (Hw1 : forall n', n' = Z.max n 0 -> 0 <= n' <= len buf /\
    sent fd (hist w1) = base ++ take (Z.to_nat n') buf).
  { intros n' ->. split; [unfold len in *; lia|]. cbn. rewrite Z.eqb_refl, Hv. cbn. do 2 f_equal. lia. }
  assert (Hn : (if n <=? 0 then 0 else n) = Z.max n 0).
  { destruct (Z.leb_spec n 0); lia. }
  destruct ((n <=? 0) && negb (e =? EAGAIN)) eqn:He.
  { apply andb_true_iff in He as [He%Z.leb_le _]. destruct (Hw1 0) as [H1 H2]; [lia|]. by rsteps. }
  rewrite (proj2 (Z.eqb_neq t 0)), Hn by lia. destruct (Hw1 _ eq_refl) as [H1 H2]. apply runs_bind.
  apply (runs_iterM E _ (fun wc w' => 0 <= wc <= len buf /\ loc w' = loc w /\
      sent fd (hist w') = base ++ take (Z.to_nat wc) buf) (fun wc _ => Z.to_nat (len buf - wc)));
    [|done|unfold len in *; lia].
  intros wc w' (Hwc & Hl & Hs).
  eapply runs_mono; [by apply (write_more_turn HP fuel fd buf t base); [lia|..]|].
  intros [wc'|wc'] w'' (Hwc' & Hl' & Hs' & Hm); [|by rsteps; rewrite Hl', Hl].
  split; [by rewrite Hl', Hl|lia].
Qed.
End Facts.
End PollIo.
