(* ===== verification/Kfifo.v ===== *)
(** The write caches of the log tool (tty2tcp.c: struct __kfifo) and the
    functions that store a log through them: kfifo_alloc, kfifo_write,
    kfifo_free, kfifo_idx, tty2tcp_logfile_save (tty2tcp.c), qlog_logfile_save
    and the USB reader qlog_usbfs_read (main.c).  A cache holds what a
    descriptor in non-blocking mode has not accepted yet; it grows by 256 KiB
    up to 2 MiB, and what does not fit is dropped. *)

From Stdlib Require Import ZArith Lia.
From stdpp Require Import base list.
From S2P Require Import Prelude PollIo.

Definition CACHE_SIZE : Z := 2 * 1024 * 1024.
Definition cache_step : Z := 256 * 1024.
Definition FIFO_NUM : nat := 12.

(** [kf_data] is the block the pointer designates, [[]] for NULL. *)
Record kfifo : Type := Kfifo {
  kf_fd : Z;
  kf_in : Z;
  kf_out : Z;
  kf_size : Z;
  kf_data : list Z;
}.
#[global] Instance kfifo_eta : Eta kfifo := fun f =>
  Kfifo (kf_fd f) (kf_in f) (kf_out f) (kf_size f) (kf_data f).

(** The caches, the static counter of dropped bytes, and the sockets of the
    TCP bridge. *)
Record kst : Type := Kst {
  kfifos : list kfifo;
  drop_total : Z;
  tty2tcp_sockfd : Z;
  tty2tcp_logfd : Z;
  tty2tcp_thirdfd : Z;
}.
#[global] Instance kst_eta : Eta kst := fun s =>
  Kst (kfifos s) (drop_total s) (tty2tcp_sockfd s) (tty2tcp_logfd s) (tty2tcp_thirdfd s).

Definition kst_init : kst := Kst (replicate FIFO_NUM (Kfifo (-1) 0 0 0 [])) 0 (-1) (-1) (-1).

(** Kind of module, and which of its streams this process reads. *)
Record bridge_cfg : Type := BridgeCfg {
  g_is_unisoc_chip : bool;
  g_is_unisoc_exx00u_chip : bool;
  g_is_qualcomm_chip : bool;
  g_unisoc_log_type : Z;
  g_unisoc_exx00u_log_type : Z;
  g_qualcomm_log_type : Z;
}.

Section Kfifo.
Context (cfg : io_cfg) (bcfg : bridge_cfg).
Abbreviation K := (M psys kst).

(** [__kfifo_write] in the order of its parts; the cache that the pointer
    designates is passed and given back.  [inl] is an early return. *)
Definition write_direct (f : kfifo) (buf : list Z) : K (bool + list Z) :=
  if kf_out f =? kf_in f then
    '(nbytes, errno) ← qlog_poll_write cfg 0 (kf_fd f) buf 0;
    if 0 <? nbytes then
      if u64 nbytes =? len buf then mret (inl true)
      else rest ← of_option (after nbytes buf); mret (inr rest)
    else if errno =? ECONNRESET then mret (inl false)
    else mret (inr buf)
  else mret (inr buf).

(** [memmove(data, data + out, in - out)] *)
Definition compact (f : kfifo) (n : Z) : option kfifo :=
  let unused := u64 (kf_size f - kf_in f) in
  if (unused <? n) && (n <? u64 (unused + kf_out f)) then
    v ← rd_bytes (Z.to_nat (kf_out f)) (Z.to_nat (u64 (kf_in f - kf_out f))) (kf_data f);
    d ← wr 0 v (kf_data f);
    Some (f <| kf_data := d |> <| kf_in ::= fun i => u64 (i - kf_out f) |> <| kf_out := 0 |>)
  else Some f.

Definition grow (f : kfifo) (n : Z) : K kfifo :=
  let unused := u64 (kf_size f - kf_in f) in
  if (unused <? n) && (kf_size f <? CACHE_SIZE) then
    r ← call (Malloc (u64 (kf_size f + cache_step)));
    match r with
    | None => mret f
    | Some fresh =>
        let data := map fresh (seq 0 (Z.to_nat (u64 (kf_size f + cache_step)))) in
        v ← of_option (rd_bytes (Z.to_nat (kf_out f)) (Z.to_nat (u64 (kf_in f - kf_out f))) (kf_data f));
        data ← of_option (wr 0 v data);
        mret (f <| kf_in ::= fun i => u64 (i - kf_out f) |> <| kf_out := 0 |>
                <| kf_size ::= fun s => u64 (s + cache_step) |> <| kf_data := data |>)
    end
  else mret f.

Definition store (f : kfifo) (buf : list Z) : K kfifo :=
  if u64 (kf_size f - kf_in f) <? len buf then
    modify (fun s => s <| drop_total ::= fun d => u64 (d + len buf) |>);;
    mret f
  else
    data ← of_option (wr (Z.to_nat (kf_in f)) buf (kf_data f));
    mret (f <| kf_data := data |> <| kf_in ::= fun i => u64 (i + len buf) |>).

Definition flush (f : kfifo) : K (kfifo * bool) :=
  if negb (u64 (kf_in f - kf_out f) =? 0) then
    v ← of_option (rd_bytes (Z.to_nat (kf_out f)) (Z.to_nat (u64 (kf_in f - kf_out f))) (kf_data f));
    '(nbytes, errno) ← qlog_poll_write cfg 0 (kf_fd f) v 0;
    if 0 <? nbytes then
      let out := u64 (kf_out f + nbytes) in
      if out =? kf_in f then mret (f <| kf_in := 0 |> <| kf_out := 0 |>, true)
      else mret (f <| kf_out := out |>, true)
    else if errno =? ECONNRESET then mret (f, false)
    else mret (f, true)
  else mret (f, true).

Definition __kfifo_write (f : kfifo) (buf : list Z) : K (kfifo * bool) :=
  r ← write_direct f buf;
  match r with
  | inl ok => mret (f, ok)
  | inr rest =>
      f ← of_option (compact f (len rest));
      f ← grow f (len rest);
      f ← store f rest;
      flush f
  end.

Definition valid_idx (idx : Z) : bool := (0 <=? idx) && (idx <? Z.of_nat FIFO_NUM).

Definition kfifo_write (idx : Z) (buf : list Z) : K Z :=
  if negb (valid_idx idx) then mret 0 else
  s ← get;
  f ← of_option (kfifos s !! Z.to_nat idx);
  '(f', ok) ← __kfifo_write f buf;
  modify (fun s => s <| kfifos ::= <[Z.to_nat idx := f']> |>);;
  mret (if (ok : bool) then len buf else 0).

(** The first cache with descriptor [fd]. *)
Definition idx_of (fd : Z) (l : list kfifo) : Z :=
  match list_find (fun f => kf_fd f = fd) l with Some (i, _) => Z.of_nat i | None => -1 end.

Definition kfifo_idx (fd : Z) : K Z :=
  if fd =? -1 then mret fd else gets (fun s => idx_of fd (kfifos s)).

Definition kfifo_alloc (fd : Z) : K Z :=
  if fd =? -1 then mret fd else
  s ← get;
  let idx := idx_of (-1) (kfifos s) in
  if idx =? -1 then mret (-1) else
  modify (fun s => s <| kfifos ::= alter (fun f =>
    f <| kf_fd := fd |> <| kf_in := 0 |> <| kf_out := 0 |>) (Z.to_nat idx) |>);;
  call (SetNonblock fd);;
  mret idx.

Definition kfifo_free (idx : Z) : K unit :=
  if negb (valid_idx idx) then mret tt else
  modify (fun s => s <| kfifos ::= alter (fun f =>
    f <| kf_fd := -1 |> <| kf_in := 0 |> <| kf_out := 0 |>) (Z.to_nat idx) |>).

Definition qlog_logfile_save (fuel : nat) (logfd : Z) (buf : list Z) : K Z :=
  idx ← kfifo_idx logfd;
  if negb (idx =? -1) then kfifo_write idx buf
  else '(wc, _) ← qlog_poll_write cfg fuel logfd buf 1000; mret wc.

(** The socket of the bridge that takes the stream. *)
Definition bridge_socket (s : kst) : Z :=
  if g_is_unisoc_chip bcfg then
    if g_unisoc_log_type bcfg =? 0 then tty2tcp_sockfd s else tty2tcp_logfd s
  else if g_is_unisoc_exx00u_chip bcfg then
    if g_unisoc_exx00u_log_type bcfg =? 0 then tty2tcp_sockfd s else tty2tcp_logfd s
  else if g_is_qualcomm_chip bcfg then
    if g_qualcomm_log_type bcfg =? 0 then tty2tcp_sockfd s
    else if g_qualcomm_log_type bcfg =? 1 then tty2tcp_logfd s
    else tty2tcp_thirdfd s
  else
    if g_unisoc_log_type bcfg =? 0 then tty2tcp_sockfd s else tty2tcp_logfd s.

Definition tty2tcp_logfile_save (buf : list Z) : K Z :=
  s ← get;
  if bridge_socket s =? -1 then mret (len buf)
  else idx ← kfifo_idx (bridge_socket s); kfifo_write idx buf.

(** The thread that reads an endpoint over usbfs; a negative count ends it. *)
Definition qlog_usbfs_read (fuel : nat) (usbfd ep outfd rx_size : Z) : K unit :=
  p ← call (Malloc rx_size);
  match p with
  | None => mret tt
  | Some _ =>
      idx ← kfifo_alloc outfd;
      iterM fuel (fun _ : unit =>
        r ← call (UsbfsRead usbfd ep rx_size);
        match r with
        | None =>
            e ← call ExitRequested;
            (if (e : bool) then mret tt
             else call SetUsbDisconnected;; _ ← call (Write outfd [0]); mret tt);;
            mret (inr tt)
        | Some pbuf =>
            (if 0 <? len pbuf then _ ← kfifo_write idx pbuf; mret tt else mret tt);;
            mret (inl tt)
        end) tt;;
      kfifo_free idx
  end.
End Kfifo.
