(* ===== verification/KfifoProps.v ===== *)
(** The write caches refine a queue of bytes: what has reached the descriptor,
    followed by what the cache holds, is the sequence of the chunks written, in
    their order, but for chunks that are counted as dropped; and no descriptor
    makes a cache leave its bounds. *)

From Stdlib Require Import ZArith Lia.
From stdpp Require Import base list.
From S2P Require Import Prelude PollIo Kfifo.

Record wf (f : kfifo) : Prop := Wf {
  wf_out : 0 <= kf_out f <= kf_in f;
  wf_in : kf_in f <= kf_size f;
  wf_size : kf_size f <= CACHE_SIZE;
  wf_step : kf_size f mod cache_step = 0;
  wf_data : len (kf_data f) = kf_size f;
}.

(** What a cache holds. *)
Definition pending (f : kfifo) : list Z :=
  slice (Z.to_nat (kf_out f)) (Z.to_nat (kf_in f - kf_out f)) (kf_data f).

Definition wf_all (s : kst) : Prop := length (kfifos s) = FIFO_NUM /\ Forall wf (kfifos s).

(** [malloc] never fails. *)
Definition mallocs (E : env psys) : Prop := forall h n, is_Some (E _ h (Malloc n)).

Lemma u64_small z : 0 <= z < 2 ^ 64 -> u64 z = z.
Proof. apply Z.mod_small. Qed.

Ltac wf f H := destruct (H : wf f) as [[? ?] ? ? ? ?]; unfold CACHE_SIZE, cache_step, len in *.

Lemma len_pending f : wf f -> len (pending f) = kf_in f - kf_out f.
Proof. intros H. wf f H. unfold pending, len. rewrite length_slice by lia. lia. Qed.

Lemma pending_nil f : wf f -> kf_out f = kf_in f -> pending f = [].
Proof.
  intros H He. apply length_zero_iff_nil. pose proof (len_pending f H) as Hl.
  unfold len in Hl. lia.
Qed.

Lemma rd_pending f : wf f ->
  rd_bytes (Z.to_nat (kf_out f)) (Z.to_nat (u64 (kf_in f - kf_out f))) (kf_data f) = Some (pending f).
Proof.
  intros H. wf f H. rewrite u64_small by lia. apply rd_bytes_fits. lia.
Qed.

(** A block whose content was moved to its front. *)
Lemma pending_front fd p size data :
  (length p <= length data)%nat ->
  pending (Kfifo fd (len p) 0 size (put 0 p data)) = p.
Proof.
  intros H. unfold pending, len. cbn [kf_out kf_in kf_data].
  rewrite Z.sub_0_r, Nat2Z.id. by apply slice_put_same.
Qed.

Lemma wf_front fd p size data : len p <= size -> size <= CACHE_SIZE -> size mod cache_step = 0 ->
  len data = size -> wf (Kfifo fd (len p) 0 size (put 0 p data)).
Proof.
  intros. split; cbn [kf_out kf_in kf_size kf_data]; try (unfold len in *; lia).
  unfold len in *. rewrite length_put; lia.
Qed.

(** Same descriptor, same content. *)
Definition same (f f' : kfifo) : Prop :=
  wf f' /\ pending f' = pending f /\ kf_fd f' = kf_fd f.

Lemma compact_same f n : wf f -> 0 <= n -> exists f', compact f n = Some f' /\ same f f' /\
  kf_size f' = kf_size f /\ (n < kf_size f - len (pending f) -> n <= kf_size f' - kf_in f').
Proof.
  intros H Hn. pose proof (len_pending f H) as Hp. unfold compact.
  assert (Hu : u64 (kf_size f - kf_in f) = kf_size f - kf_in f).
  { apply u64_small. wf f H. lia. }
  assert (Hv : u64 (kf_size f - kf_in f + kf_out f) = kf_size f - len (pending f)).
  { rewrite u64_small; wf f H; lia. }
  rewrite Hu, Hv. destruct (_ && _) eqn:Hc.
  - rewrite rd_pending by done. cbn [mbind option_bind]. rewrite wr_fits by (wf f H; lia).
    cbn [mbind option_bind]. eexists. split; [done|].
    set (f' := set_field _ _ _).
    assert (Hf' : f' = Kfifo (kf_fd f) (len (pending f)) 0 (kf_size f) (put 0 (pending f) (kf_data f))).
    { unfold f', set_field. cbn. f_equal. rewrite u64_small; wf f H; lia. }
    rewrite Hf'. split; [|split; [done|cbn [kf_size kf_in]; lia]]. split; [|split; [|done]].
    + apply wf_front; wf f H; lia.
    + apply pending_front. wf f H. lia.
  - exists f. split; [done|]. split; [done|]. split; [done|]. intros Hlt.
    apply andb_false_iff in Hc as [Hc%Z.ltb_ge|Hc%Z.ltb_ge]; lia.
Qed.

Section Writes.
Context (cfg : io_cfg) (E : env psys) (HE : bounded_writes E).
Abbreviation world := (world psys kst).
Abbreviation sent := (sent cfg).

(** A cache grows only when the chunk does not fit, by one step. *)
Lemma grow_same f n (w : world) : wf f -> 0 <= n ->
  runs E (grow f n) w (fun f' w' => same f f' /\ loc w' = loc w /\
    (forall fd, sent fd (hist w') = sent fd (hist w)) /\
    (mallocs E -> n <= cache_step ->
     n <= kf_size f' - kf_in f' \/ CACHE_SIZE <= kf_size f /\ f' = f) /\
    (n <= kf_size f - kf_in f -> f' = f)).
Proof.
  intros H Hn. pose proof (len_pending f H) as Hp. unfold grow.
  assert (Hu : u64 (kf_size f - kf_in f) = kf_size f - kf_in f).
  { apply u64_small. wf f H. lia. }
  assert (Hs : u64 (kf_size f + cache_step) = kf_size f + cache_step).
  { apply u64_small. wf f H. lia. }
  rewrite Hu. destruct (_ && _) eqn:Hc.
  - apply andb_true_iff in Hc as [Hc%Z.ltb_lt Hc'%Z.ltb_lt]. apply runs_bind, runs_call.
    rewrite Hs, rd_pending by done.
    assert (Hsize : kf_size f + cache_step <= CACHE_SIZE /\ (kf_size f + cache_step) mod cache_step = 0).
    { pose proof (wf_step f H) as Hm. apply Z.mod_divide in Hm as [q Hq]; [|done].
      split; [unfold CACHE_SIZE, cache_step in *; lia|].
      rewrite Hq, <-Z.mul_succ_l. by apply Z.mod_mul. }
    destruct (E _ (hist w) (Malloc _)) as [fresh|] eqn:Hm; rsteps; cbn [loc hist].
    + set (d := map fresh _). assert (Hd : len d = kf_size f + cache_step).
      { unfold d, len. rewrite length_map, length_seq. wf f H. lia. }
      apply runs_bind, (runs_of_option _ _ (put 0 (pending f) d)).
      { apply wr_fits. wf f H. lia. }
      apply runs_ret. set (f' := set_field _ _ _).
      assert (Hf' : f' = Kfifo (kf_fd f) (len (pending f)) 0 (kf_size f + cache_step) (put 0 (pending f) d)).
      { unfold f', set_field. cbn [kf_fd kf_in kf_out kf_size kf_data]. rewrite Hs.
        f_equal. rewrite u64_small; wf f H; lia. }
      rewrite Hf'. split; [|split; [done|split; [intros; apply app_nil_r|split]]].
      * split; [|split; [|done]]; [apply wf_front; wf f H; lia|apply pending_front; wf f H; lia].
      * intros _ Hstep. left. cbn [kf_size kf_in]. wf f H. lia.
      * wf f H. lia.
    + split; [done|]. split; [done|]. split; [intros; apply app_nil_r|]. split; [|lia].
      intros Hmal. destruct (Hmal (hist w) (kf_size f + cache_step)) as [? Hx]. congruence.
  - rsteps. split; [done|]. split; [done|]. split; [done|]. split; [|done].
    intros _ _. apply andb_false_iff in Hc as [Hc%Z.ltb_ge|Hc%Z.ltb_ge]; [left; lia|by right].
Qed.

Lemma store_cached f buf (w : world) : wf f -> len buf < 2 ^ 40 ->
  runs E (store f buf) w (fun f' w' => wf f' /\ kf_fd f' = kf_fd f /\ hist w' = hist w /\
    (len buf <= kf_size f - kf_in f /\ loc w' = loc w /\ pending f' = pending f ++ buf \/
     kf_size f - kf_in f < len buf /\ f' = f /\
     loc w' = (loc w) <| drop_total ::= fun d => u64 (d + len buf) |>)).
Proof.
  intros H Hb. unfold store.
  assert (Hu : u64 (kf_size f - kf_in f) = kf_size f - kf_in f).
  { apply u64_small. wf f H. lia. }
  rewrite Hu. destruct (_ <? _) eqn:Hc; [apply Z.ltb_lt in Hc|apply Z.ltb_ge in Hc].
  - rsteps. split; [done|]. split; [done|]. split; [done|]. by right.
  - apply runs_bind, (runs_of_option _ _ (put (Z.to_nat (kf_in f)) buf (kf_data f))).
    { apply wr_fits. wf f H. lia. }
    apply runs_ret. unfold set_field. cbn [kf_fd kf_in kf_out kf_size kf_data].
    rewrite u64_small by (wf f H; lia). split; [|split; [done|split; [done|left]]].
    + wf f H. split; cbn [kf_in kf_out kf_size kf_data]; try lia; try done.
      unfold len. rewrite length_put; lia.
    + split; [lia|]. split; [done|]. unfold pending. cbn [kf_in kf_out kf_data].
      wf f H. replace (Z.to_nat (kf_in f + Z.of_nat (length buf) - kf_out f))
        with (Z.to_nat (kf_in f - kf_out f) + length buf)%nat by lia.
      replace (Z.to_nat (kf_in f)) with (Z.to_nat (kf_out f) + Z.to_nat (kf_in f - kf_out f))%nat by lia.
      apply slice_put_end. lia.
Qed.

(** Sending from the front of a cache. *)
Lemma flush_spec f (w : world) : wf f ->
  runs E (flush cfg f) w (fun r w' => wf r.1 /\ kf_fd r.1 = kf_fd f /\ loc w' = loc w /\
    (forall fd, fd <> kf_fd f -> via_usb cfg fd = false -> sent fd (hist w') = sent fd (hist w)) /\
    sent (kf_fd f) (hist w') ++ pending r.1 = sent (kf_fd f) (hist w) ++ pending f).
Proof.
  intros H. pose proof (len_pending f H) as Hp. unfold flush.
  destruct (negb _) eqn:Hc; [|by rsteps].
  rewrite rd_pending by done. apply runs_bind, runs_ret, runs_bind.
  apply (poll_write_now cfg E HE). intros n errno h Hn Hreset Hs Ho. cbn beta iota.
  destruct (0 <? n) eqn:Hn0; [apply Z.ltb_lt in Hn0|apply Z.ltb_ge in Hn0].
  - specialize (Hn Hn0).
    assert (Hu : u64 (kf_out f + n) = kf_out f + n) by (apply u64_small; wf f H; lia).
    rewrite Hu. assert (Hd : sent (kf_fd f) h ++ drop (Z.to_nat n) (pending f) =
      sent (kf_fd f) (hist w) ++ pending f) by (by rewrite Hs, <-app_assoc, take_drop).
    destruct (kf_out f + n =? kf_in f) eqn:He; rsteps; unfold set_field; cbn [fst kf_fd hist loc].
    + apply Z.eqb_eq in He. split; [|split; [done|split; [done|split; [done|]]]].
      * wf f H. split; cbn [kf_in kf_out kf_size kf_data]; try lia; try done.
      * rewrite <-Hd. f_equal. rewrite (drop_ge (pending f)) by (unfold len in *; lia). done.
    + apply Z.eqb_neq in He. split; [|split; [done|split; [done|split; [done|]]]].
      * wf f H. split; cbn [kf_in kf_out kf_size kf_data]; try lia; try done.
      * rewrite <-Hd. f_equal. unfold pending, slice. cbn [kf_in kf_out kf_data].
        rewrite skipn_firstn_comm, drop_drop. wf f H. f_equal; [lia|]. f_equal. lia.
  - replace (Z.to_nat n) with 0%nat in Hs by lia. rewrite take_0, app_nil_r in Hs.
    destruct (_ =? ECONNRESET); rsteps; cbn [fst hist loc]; by rewrite Hs.
Qed.

(** The other descriptors see nothing. *)
Definition only (fd : Z) (h h' : list (io psys)) : Prop :=
  forall fd', fd' <> fd -> via_usb cfg fd' = false -> sent fd' h' = sent fd' h.

Lemma write_direct_spec f buf (w : world) : wf f ->
  runs E (write_direct cfg f buf) w (fun r w' => loc w' = loc w /\
    only (kf_fd f) (hist w) (hist w') /\
    exists k, (k <= length buf)%nat /\ (k = 0%nat \/ pending f = []) /\
      sent (kf_fd f) (hist w') ++ pending f = (sent (kf_fd f) (hist w) ++ pending f) ++ take k buf /\
      match r with
      | inl true => k = length buf
      | inl false => k = 0%nat /\ ~ no_reset E
      | inr rest => rest = drop k buf
      end).
Proof.
  intros H. unfold write_direct. destruct (kf_out f =? kf_in f) eqn:He.
  2: { rsteps. split; [done|]. split; [by intros ?|]. exists 0%nat.
       rewrite take_0, app_nil_r. split; [lia|]. by split; [left|]. }
  apply Z.eqb_eq in He. rewrite (pending_nil f H He), !app_nil_r.
  apply runs_bind, (poll_write_now cfg E HE). intros n errno h Hn Hreset Hs Ho. cbn beta iota.
  destruct (0 <? n) eqn:Hn0; [apply Z.ltb_lt in Hn0|apply Z.ltb_ge in Hn0].
  - specialize (Hn Hn0). destruct (u64 n =? len buf) eqn:Hl.
    + rsteps. split; [done|]. split; [done|]. exists (length buf). split; [done|].
      split; [by right|]. split; [|done]. rewrite app_nil_r. cbn [hist]. rewrite Hs. f_equal.
      apply Z.eqb_eq in Hl. rewrite !take_ge; [done|done|]. unfold u64, len in Hl.
      pose proof (Z.mod_le n (2 ^ 64)). lia.
    + unfold after. rewrite (proj2 (Z.leb_le 0 n)), (proj2 (Z.leb_le n (len buf))) by lia. rsteps.
      split; [done|]. split; [done|]. exists (Z.to_nat n). unfold len in Hn. split; [lia|].
      rewrite app_nil_r. split; [by right|]. by split; [cbn [hist]; rewrite Hs|].
  - replace (Z.to_nat n) with 0%nat in Hs by lia. rewrite take_0, app_nil_r in Hs.
    destruct (Z.eqb_spec errno ECONNRESET); rsteps; cbn [hist]; (split; [done|]); (split; [done|]);
      exists 0%nat; rewrite take_0, !app_nil_r; (split; [lia|]); (split; [by left|]);
      (split; [by rewrite Hs|]); [|done].
    split; [done|]. intros Hr. by apply Hreset in Hr.
Qed.

(** Storing what was not sent at once, and sending from the front. *)
Lemma cache_rest f rest (w : world) : wf f -> len rest < 2 ^ 40 ->
  runs E (f ← of_option (compact f (len rest)); f ← grow f (len rest); f ← store f rest;
          flush cfg f) w (fun r w' => wf r.1 /\ kf_fd r.1 = kf_fd f /\
    only (kf_fd f) (hist w) (hist w') /\
    (loc w' = loc w /\ sent (kf_fd f) (hist w') ++ pending r.1 =
       sent (kf_fd f) (hist w) ++ pending f ++ rest \/
     loc w' = (loc w) <| drop_total ::= fun d => u64 (d + len rest) |> /\
     sent (kf_fd f) (hist w') ++ pending r.1 = sent (kf_fd f) (hist w) ++ pending f /\
     (mallocs E -> len rest <= cache_step -> CACHE_SIZE <= len (pending f) + len rest))).
Proof.
  intros H Hl. destruct (compact_same f (len rest) H) as (f1 & -> & (H1 & Hp1 & Hf1) & Hs1 & Hr1).
  { unfold len. lia. }
  apply runs_bind, runs_ret, runs_bind. eapply runs_mono; [apply (grow_same f1); [done|unfold len; lia]|].
  cbn beta. intros f2 w2 ((H2 & Hp2 & Hf2) & Hl2 & Hh2 & Hfull & _).
  apply runs_bind. eapply runs_mono; [by apply store_cached|]. cbn beta.
  intros f3 w3 (H3 & Hf3 & Hh3 & Hcase). eapply runs_mono; [by apply flush_spec|]. cbn beta.
  intros [f4 ok] w4 (H4 & Hf4 & Hl4 & Ho4 & Hs4). cbn [fst] in *.
  rewrite Hf3, Hf2, Hf1 in *. rewrite Hh3, Hh2 in Hs4. split; [done|]. split; [done|]. split.
  { intros fd' Hne Hv. by rewrite Ho4, Hh3, Hh2. }
  destruct Hcase as [(_ & Hloc & Hp)|(Hno & -> & Hloc)].
  - left. split; [by rewrite Hl4, Hloc, Hl2|]. by rewrite Hs4, Hp, Hp2, Hp1.
  - right. split; [by rewrite Hl4, Hloc, Hl2|]. split; [by rewrite Hs4, Hp2, Hp1|].
    intros Hm Hstep. destruct (Hfull Hm Hstep) as [|[Hc ->]]; [lia|].
    destruct (Z.lt_ge_cases (len rest) (kf_size f - len (pending f))) as [Hlt|]; [|lia].
    specialize (Hr1 Hlt). lia.
Qed.

(** One write: [k] bytes of the chunk are kept, in order.  Either that is all
    of it, or the cache was full and the rest is counted, or the connection
    was reset before anything was sent. *)
Definition kept (f : kfifo) (buf : list Z) (ok : bool) (f' : kfifo) (w w' : world) : Prop :=
  exists k, (k <= length buf)%nat /\
    sent (kf_fd f) (hist w') ++ pending f' = (sent (kf_fd f) (hist w) ++ pending f) ++ take k buf /\
    (k = length buf /\ drop_total (loc w') = drop_total (loc w) \/
     drop_total (loc w') = u64 (drop_total (loc w) + (len buf - Z.of_nat k)) /\
     (k = 0%nat \/ pending f = []) /\
     (mallocs E -> len buf <= cache_step ->
      k = 0%nat /\ CACHE_SIZE <= len (pending f) + len buf) \/
     ~ no_reset E /\ ok = false /\ k = 0%nat /\ drop_total (loc w') = drop_total (loc w)).

Lemma kfifo_write_kept f buf (w : world) : wf f -> len buf < 2 ^ 40 ->
  runs E (__kfifo_write cfg f buf) w (fun r w' => wf r.1 /\ kf_fd r.1 = kf_fd f /\
    kfifos (loc w') = kfifos (loc w) /\
    only (kf_fd f) (hist w) (hist w') /\ kept f buf r.2 r.1 w w').
Proof.
  intros H Hl. unfold __kfifo_write. apply runs_bind.
  eapply runs_mono; [by apply write_direct_spec|]. cbn beta.
  intros r w1 (Hl1 & Ho1 & k & Hk & Hk0 & Hs1 & Hr).
  destruct r as [ok|rest].
  - rsteps. rewrite Hl1. split; [done|]. split; [done|]. split; [done|]. split; [done|]. exists k.
    split; [done|]. split; [done|]. rewrite Hl1. destruct ok; [by left|right; right]. by destruct Hr.
  - subst rest. eapply runs_mono; [apply cache_rest; [done|unfold len in *; rewrite length_drop; lia]|].
    cbn beta. intros [f' ok] w' (H' & Hf' & Ho & Hc). split; [done|]. split; [done|].
    split. { destruct Hc as [[-> _]|(-> & _)]; by rewrite Hl1. }
    split. { intros fd' Hne Hv. by rewrite Ho, Ho1. }
    assert (Hd : len (drop k buf) = len buf - Z.of_nat k) by (unfold len; rewrite length_drop; lia).
    destruct Hc as [[Hloc Hs]|(Hloc & Hs & Hfull)].
    + exists (length buf). split; [lia|]. split; [|left; by rewrite Hloc, Hl1].
      rewrite Hs, app_assoc, Hs1, <-!app_assoc, take_drop, (take_ge buf) by lia. done.
    + exists k. split; [done|]. split; [by rewrite Hs|]. right. left.
      split; [by rewrite Hloc, Hd, Hl1|]. split; [done|].
      intros Hm Hstep. specialize (Hfull Hm). destruct Hk0 as [->|Hnil]; [split; [done|]|].
      * rewrite Hd in Hfull. specialize (Hfull ltac:(lia)). lia.
      * exfalso. rewrite Hnil, Hd in Hfull. unfold cache_step, CACHE_SIZE, len in *. cbn in Hfull. lia.
Qed.

Lemma kfifo_write_at idx f buf (w : world) : wf_all (loc w) -> valid_idx idx = true ->
  kfifos (loc w) !! Z.to_nat idx = Some f -> len buf < 2 ^ 40 ->
  runs E (kfifo_write cfg idx buf) w (fun ret w' => exists (f' : kfifo) (ok : bool),
    ret = (if (ok : bool) then len buf else 0) /\ wf_all (loc w') /\ kf_fd f' = kf_fd f /\
    kfifos (loc w') = <[Z.to_nat idx := f']> (kfifos (loc w)) /\
    only (kf_fd f) (hist w) (hist w') /\ kept f buf ok f' w w').
Proof.
  intros [Hn Ha] Hv Hf Hl. unfold kfifo_write. rewrite Hv. cbn [negb]. apply runs_bind, runs_get.
  rewrite Hf. apply runs_bind, runs_ret, runs_bind.
  assert (Hwf : wf f) by (by apply (Forall_lookup_1 _ _ _ _ Ha Hf)).
  eapply runs_mono; [by apply kfifo_write_kept|]. intros [f' ok] w' (H' & Hfd & Hk & Ho & Hkept).
  cbn [fst snd] in *. rsteps. unfold set_field. cbn [loc hist kfifos]. exists f', ok. rewrite Hk.
  split; [done|]. split; [|by split; [|split; [|split; [|]]]].
  split; cbn [kfifos]; [by rewrite length_insert|]. by apply Forall_insert.
Qed.
End Writes.

(** The descriptors of the caches decide which one is used. *)
Lemma idx_of_insert fd i f f' l : l !! i = Some f -> kf_fd f' = kf_fd f ->
  idx_of fd (<[i := f']> l) = idx_of fd l.
Proof.
  intros Hi Hf.
  assert (Hg : forall l', idx_of fd l' =
    match list_find (fun d => d = fd) (kf_fd <$> l') with Some (j, _) => Z.of_nat j | None => -1 end).
  { intros l'. unfold idx_of. rewrite list_find_fmap. unfold compose. by destruct (list_find _ l') as [[? ?]|]. }
  rewrite !Hg, list_fmap_insert, Hf. rewrite list_insert_id; [done|].
  by rewrite list_lookup_fmap, Hi.
Qed.

Lemma idx_of_Some fd l : idx_of fd l <> -1 -> exists f,
  0 <= idx_of fd l < len l /\ l !! Z.to_nat (idx_of fd l) = Some f /\ kf_fd f = fd.
Proof.
  unfold idx_of. destruct (list_find _ l) as [[i f]|] eqn:Hf; [|done]. intros _.
  apply list_find_Some in Hf as (Hi & Hfd & _). exists f. rewrite Nat2Z.id.
  apply lookup_lt_Some in Hi as Hlt. by split; [unfold len; lia|].
Qed.

(** ** A log stored chunk by chunk *)

(** What the cache of [fd] holds. *)
Definition pending_of (fd : Z) (s : kst) : list Z :=
  match kfifos s !! Z.to_nat (idx_of fd (kfifos s)) with Some f => pending f | None => [] end.

Section Log.
Context (cfg : io_cfg) (E : env psys) (HE : bounded_writes E) (HM : mallocs E).
Abbreviation world := (world psys kst).

Lemma save_chunk fuel fd buf (w : world) :
  wf_all (loc w) -> fd <> -1 -> idx_of fd (kfifos (loc w)) <> -1 -> len buf <= cache_step ->
  runs E (qlog_logfile_save cfg fuel fd buf) w (fun ret w' =>
    wf_all (loc w') /\ idx_of fd (kfifos (loc w')) = idx_of fd (kfifos (loc w)) /\
    let now := sent cfg fd (hist w') ++ pending_of fd (loc w') in
    let before := sent cfg fd (hist w) ++ pending_of fd (loc w) in
    (now = before ++ buf /\ drop_total (loc w') = drop_total (loc w) \/
     now = before /\ drop_total (loc w') = u64 (drop_total (loc w) + len buf) /\
     CACHE_SIZE <= len (pending_of fd (loc w)) + len buf \/
     ~ no_reset E /\ now = before /\ drop_total (loc w') = drop_total (loc w) /\ ret = 0)).
Proof.
  intros Hw Hfd Hidx Hl. unfold qlog_logfile_save, kfifo_idx.
  rewrite (proj2 (Z.eqb_neq fd (-1))) by done. apply runs_bind, runs_gets.
  rewrite (proj2 (Z.eqb_neq _ _)) by done. cbn [negb].
  destruct (idx_of_Some _ _ Hidx) as (f & Hr & Hf & Hffd).
  assert (Hp : pending_of fd (loc w) = pending f) by (unfold pending_of; by rewrite Hf).
  set (idx := idx_of fd (kfifos (loc w))) in *.
  eapply runs_mono.
  { apply (kfifo_write_at cfg E HE idx f); try done; [|unfold cache_step in Hl; lia].
    unfold valid_idx. apply andb_true_iff. destruct Hw as [Hw _]. unfold len in Hr.
    rewrite Z.leb_le, Z.ltb_lt. lia. }
  cbn beta. intros ret w' (f' & ok & -> & Hw' & Hfd' & Hk & _ & k & Hkl & Hs & Hc).
  assert (Hidx' : idx_of fd (kfifos (loc w')) = idx) by (rewrite Hk; by apply (idx_of_insert _ _ f)).
  split; [done|]. split; [done|].
  assert (Hp' : pending_of fd (loc w') = pending f').
  { unfold pending_of. rewrite Hidx', Hk, list_lookup_insert_eq; [done|]. by eapply lookup_lt_Some. }
  rewrite Hp, Hp'. rewrite Hffd in Hs. cbn zeta. rewrite Hs.
  destruct Hc as [[-> Hd]|[(Hd & _ & Hfull)|(Hrst & -> & -> & Hd)]].
  - left. by rewrite take_ge.
  - right. left. destruct (Hfull HM Hl) as [-> Hcap]. rewrite take_0, app_nil_r.
    split; [done|]. split; [by rewrite Hd, Z.sub_0_r|done].
  - right. right. by rewrite take_0, app_nil_r.
Qed.

Lemma u64_add_same a l : 0 <= a < 2 ^ 64 -> 0 <= l < 2 ^ 64 -> a = u64 (a + l) -> l = 0.
Proof.
  intros Ha Hl H. unfold u64 in H. destruct (Z.lt_ge_cases (a + l) (2 ^ 64)).
  - rewrite Z.mod_small in H; lia.
  - replace (a + l) with (a + l - 2 ^ 64 + 1 * 2 ^ 64) in H by lia.
    rewrite Z.mod_add, Z.mod_small in H; lia.
Qed.

Lemma sublist_concat_le (ks chunks : list (list Z)) : sublist ks chunks ->
  len (concat ks) <= len (concat chunks).
Proof. unfold len. induction 1; cbn; rewrite ?length_app; lia. Qed.

(** The chunks of a log, saved one after the other. *)
Definition save_all (fuel : nat) (fd : Z) (chunks : list (list Z)) : M psys kst unit :=
  forM chunks (fun c => _ ← qlog_logfile_save cfg fuel fd c; mret tt).

Lemma u64_drop a b c : u64 (u64 (a + b) + c) = u64 (a + (b + c)).
Proof. unfold u64. rewrite Zplus_mod_idemp_l. f_equal. lia. Qed.

Lemma sublist_concat_full (ks chunks : list (list Z)) : sublist ks chunks ->
  len (concat chunks) <= len (concat ks) -> concat ks = concat chunks.
Proof.
  unfold len. induction 1 as [|c ks chunks Hs IH|c ks chunks Hs IH]; cbn; [done|..].
  - rewrite !length_app. intros. rewrite IH; [done|lia].
  - rewrite length_app. intros Hl.
    apply sublist_concat_le in Hs. unfold len in Hs. rewrite IH by lia. destruct c; [done|cbn in Hl; lia].
Qed.

(** C22: a log that is saved chunk by chunk through a cache reaches the
    descriptor in order and without damage: whatever part of each write the
    descriptor accepts, what it has received followed by what the cache still
    holds is the sequence of the chunks, each of them whole or missing
    altogether; the missing ones are counted, and while the counter stands
    still nothing is missing. *)
Theorem log_file_is_the_log fuel fd chunks (w : world) :
  no_reset E -> wf_all (loc w) -> fd <> -1 -> idx_of fd (kfifos (loc w)) <> -1 ->
  Forall (fun c => len c <= cache_step) chunks -> 0 <= drop_total (loc w) < 2 ^ 64 ->
  runs E (save_all fuel fd chunks) w (fun _ w' => wf_all (loc w') /\ exists ks,
    sublist ks chunks /\
    sent cfg fd (hist w') ++ pending_of fd (loc w') =
      sent cfg fd (hist w) ++ pending_of fd (loc w) ++ concat ks /\
    drop_total (loc w') = u64 (drop_total (loc w) + (len (concat chunks) - len (concat ks))) /\
    (len (concat chunks) < 2 ^ 64 -> drop_total (loc w') = drop_total (loc w) ->
     concat ks = concat chunks)).
Proof.
  intros Hrst Hw Hfd Hidx Hc Hdrop. eapply runs_mono.
  { apply (runs_forM E chunks _ (fun pre w' => wf_all (loc w') /\
      idx_of fd (kfifos (loc w')) = idx_of fd (kfifos (loc w)) /\ exists ks, sublist ks pre /\
      sent cfg fd (hist w') ++ pending_of fd (loc w') =
        sent cfg fd (hist w) ++ pending_of fd (loc w) ++ concat ks /\
      drop_total (loc w') = u64 (drop_total (loc w) + (len (concat pre) - len (concat ks))))).
    - split; [done|]. split; [done|]. exists []. split; [done|]. cbn. rewrite app_nil_r.
      split; [done|]. unfold len. cbn. by rewrite Z.add_0_r, u64_small.
    - intros pre c rest w1 -> (Hw1 & Hi1 & ks & Hsub & Hs & Hd). apply runs_bind.
      eapply runs_mono; [apply (save_chunk fuel fd c w1); try done; [by rewrite Hi1|]|].
      { by apply Forall_app in Hc as [_ Hc]; inversion Hc. }
      cbn beta zeta. intros ret w2 (Hw2 & Hi2 & Hcase). rsteps.
      split; [done|]. split; [by rewrite Hi2|].
      destruct Hcase as [[Hn Hd2]|[(Hn & Hd2 & _)|[Hr _]]]; [..|done].
      + exists (ks ++ [c]). split; [by apply sublist_app|]. rewrite !concat_app. cbn [concat].
        rewrite Hn, Hs, Hd2, Hd, !app_nil_r, <-!app_assoc. split; [done|].
        do 2 f_equal. unfold len. rewrite !length_app. lia.
      + exists ks. split; [rewrite <-(app_nil_r ks); apply sublist_app; [done|by apply sublist_cons, sublist_nil_l]|].
        split; [by rewrite Hn|]. rewrite Hd2, Hd, u64_drop. do 2 f_equal.
        rewrite concat_app. cbn [concat]. unfold len. rewrite !length_app. cbn [length]. lia. }
  cbn beta. intros _ w' (Hw' & _ & ks & Hsub & Hs & Hd). split; [done|]. exists ks.
  split; [done|]. split; [done|]. split; [done|]. intros Hlt Hsame. rewrite Hsame in Hd.
  apply sublist_concat_full; [done|].
  apply sublist_concat_le in Hsub.
  apply u64_add_same in Hd; [lia|done|unfold len in *; lia].
Qed.
End Log.

(** ** Caches in any order of operations *)

Inductive fop : Type :=
| Alloc (fd : Z)
| Append (idx : Z) (buf : list Z)
| Release (idx : Z).

Definition run_fop (cfg : io_cfg) (o : fop) : M psys kst unit :=
  match o with
  | Alloc fd => _ ← kfifo_alloc fd; mret tt
  | Append idx buf => _ ← kfifo_write cfg idx buf; mret tt
  | Release idx => kfifo_free idx
  end.

Lemma wf_cleared s i g : wf_all s ->
  (forall f, g f = f <| kf_fd := kf_fd (g f) |> <| kf_in := 0 |> <| kf_out := 0 |>) ->
  wf_all (s <| kfifos ::= alter g i |>).
Proof.
  intros [Hn Hs] Hg. split; cbn [kfifos set_field].
  - by rewrite length_alter.
  - apply Forall_alter; [done|]. intros f _ Hf. rewrite Hg. wf f Hf.
    split; cbn [kf_in kf_out kf_size kf_data set_field]; unfold len; cbn; try lia; try done.
Qed.

(** C35: the caches stay within their bounds, whatever descriptors are given
    caches, in whatever order chunks arrive and caches are released, and
    whatever the descriptors and [malloc] answer. *)
Theorem caches_stay_in_bounds cfg E ops h :
  bounded_writes E -> Forall (fun o => match o with Append _ b => len b < 2 ^ 40 | _ => True end) ops ->
  runs E (forM ops (run_fop cfg)) (World kst_init h) (fun _ w' => wf_all (loc w')).
Proof.
  intros HE Hops. apply (runs_forM E ops _ (fun _ w' => wf_all (loc w'))).
  { split; [done|]. repeat constructor; cbn; done. }
  intros pre o rest w Ho Hw. subst ops. apply Forall_app in Hops as [_ Hops].
  inversion Hops as [|? ? Hlen _]; subst. destruct o as [fd|idx buf|idx]; cbn [run_fop].
  - apply runs_bind. unfold kfifo_alloc. destruct (fd =? -1); [by rsteps|].
    apply runs_bind, runs_get. destruct (_ =? -1); rsteps; [done|]. by apply wf_cleared.
  - apply runs_bind. destruct (valid_idx idx) eqn:Hv.
    2: { unfold kfifo_write. rewrite Hv. by rsteps. }
    destruct (lookup_lt_is_Some_2 (kfifos (loc w)) (Z.to_nat idx)) as [f Hf].
    { destruct Hw as [-> _]. unfold valid_idx in Hv. apply andb_true_iff in Hv.
      rewrite Z.leb_le, Z.ltb_lt in Hv. lia. }
    eapply runs_mono; [by apply (kfifo_write_at cfg E HE idx f)|]. cbn beta.
    intros ret w' (? & ? & _ & Hw' & _). by rsteps.
  - unfold kfifo_free. destruct (negb (valid_idx idx)); rsteps; [done|]. by apply wf_cleared.
Qed.

(** A socket that takes two bytes at a time. *)
Definition slow_peer : env psys := fun A h c =>
  match c in psys B return B with
  | Write _ buf => (Z.min 2 (len buf), 0)
  | UsbfsWrite _ _ _ => (0, 0)
  | Read _ _ | UsbfsRead _ _ _ => None
  | Poll _ _ => (1, 0, [POLLOUT])
  | Malloc _ => Some (fun _ => 170)
  | ExitRequested | UsbDisconnected => false
  | SetUsbDisconnected => tt
  | SetNonblock _ => tt
  end.

Definition one_log : kst := kst_init <| kfifos ::= <[0%nat := Kfifo 5 0 0 0 []]> |>.

Lemma log_file_is_the_log_witness :
  runs slow_peer (save_all (IoCfg true 0 0 0) 0 5 [[1; 2; 3]; [4; 5]; [6]]) (World one_log [])
    (fun _ w' => exists ks, sublist ks [[1; 2; 3]; [4; 5]; [6]] /\
       sent (IoCfg true 0 0 0) 5 (hist w') ++ pending_of 5 (loc w') = concat ks).
Proof.
  eapply runs_mono; [apply log_file_is_the_log|].
  - intros h. split; intros; cbn; unfold len; lia.
  - intros h n. by eexists.
  - intros h. by split.
  - split; [done|]. repeat constructor; cbn; done.
  - done.
  - done.
  - repeat constructor; cbn; done.
  - by vm_compute.
  - cbn beta. intros _ w' (_ & ks & Hk & Hs & _). exists ks. by split.
Defined.

Lemma caches_stay_in_bounds_witness :
  runs slow_peer (forM [Alloc 5; Append 0 [1; 2; 3]; Release 0; Alloc 6; Append 0 [4]]
      (run_fop (IoCfg true 0 0 0))) (World kst_init []) (fun _ w' => wf_all (loc w')).
Proof.
  apply caches_stay_in_bounds.
  - intros h. split; intros; cbn; unfold len; lia.
  - repeat constructor.
Defined.
