(* ===== verification/Tftp.v ===== *)
(** The TFTP client that uploads a log or a dump (tftp.c): the write request
    with its options, and the thread that reads the data from a socket pair
    and sends it block by block.  [N_DATA] is 1 in the source: every index
    modulo [N_DATA] is 0, a loop over the slots has one turn, and every block
    is sent synchronously. *)

From Stdlib Require Import ZArith Lia.
From stdpp Require Import base list.
From S2P Require Import Prelude Str.

Definition TFTP_WRQ : Z := 2.
Definition TFTP_DATA : Z := 3.
Definition TFTP_ACK : Z := 4.
Definition TFTP_ERROR : Z := 5.
Definition TFTP_OACK : Z := 6.
Definition TFTP_MAX_RETRY : nat := 12.
Definition TFTP_TIME_RETRY : Z := 200.

(** The system calls.  [poll] answers its result, [errno] and [revents];
    [recv] gives the bytes of a datagram, [None] for -1. *)
Inductive tsys : Type -> Type :=
| Socket : tsys Z
| Sendto (pkt : list Z) : tsys Z
| PollSock (timeout : Z) : tsys (Z * Z)
| PollFds (n timeout : Z) : tsys (Z * Z * Z * Z)
| Recv (size : Z) : tsys (option (list Z))
| ReadPipe (size : Z) : tsys (option (list Z))
| ClosePipe : tsys unit
| CloseSock : tsys unit
| Malloc (size : Z) : tsys (option (nat -> Z))
| Socketpair : tsys (Z * Z)
| Spawn : tsys unit
| Join : tsys unit
| WriteFd (fd : Z) (buf : list Z) : tsys Z
| CloseFd (fd : Z) : tsys unit.

(** [htons] and [ntohs] on the bytes of a packet. *)
Definition be16 (z : Z) : list Z := [z / 256 mod 256; z mod 256].
Definition be_val (l : list Z) : Z := fold_left (fun n b => n * 256 + b) l 0.
Definition pkt_cmd (p : list Z) : Z := be_val (slice 0 2 p).
Definition pkt_block (p : list Z) : Z := be_val (slice 2 2 p).

(** sizeof(struct tftp_packet), and the header and the room of a data packet. *)
Definition RX_SIZE : Z := 516.
Definition DATA_OFF : nat := 4.
Definition DATA_ROOM : Z := 16384.

(** The request (cur, pipe[1], tx_pkt[0] as bytes), the variables of the
    thread and [cur_q_req != NULL]. *)
Record tst : Type := Tst {
  cur : Z;
  pipe1 : Z;
  tx_pkt : list Z;
  tx_block : Z;
  rx_block : Z;
  slot : Z;
  re_send : Z;
  cur_q_req : bool;
}.
#[global] Instance tst_eta : Eta tst := fun s =>
  Tst (cur s) (pipe1 s) (tx_pkt s) (tx_block s) (rx_block s) (slot s) (re_send s) (cur_q_req s).

Section Tftp.
Variable block_size : Z.
Abbreviation T := (M tsys tst).

(** [do ret = poll(..) while (ret < 0 && errno == EINTR)] *)
Definition poll_sock (fuel : nat) (timeout : Z) : T Z :=
  iterM fuel (fun _ : unit =>
    '(ret, errno) ← call (PollSock timeout);
    mret (if (ret <? 0) && (errno =? 4) then inl tt else inr ret)) tt.
Definition poll_fds (fuel : nat) (n timeout : Z) : T (Z * Z * Z) :=
  iterM fuel (fun _ : unit =>
    '(ret, errno, r0, r1) ← call (PollFds n timeout);
    mret (if (ret <? 0) && (errno =? 4) then inl tt else inr (ret, r0, r1))) tt.

Definition is_cmd (cmd : Z) (r : option (list Z)) : bool :=
  match r with Some p => (4 <=? len p) && (pkt_cmd p =? cmd) | None => false end.
Definition block_of (r : option (list Z)) : Z :=
  match r with Some p => pkt_block p | None => 0 end.

(** One turn of the loop of [tftp_send_data_pkt]; [inr] is a return. *)
Definition send_try (fuel : nat) (block size : Z) (is_sync : bool) (a : nat * bool)
    : T (nat * bool + Z) :=
  let '(wait_ack, need_send) := a in
  if bool_decide (TFTP_MAX_RETRY <= wait_ack)%nat then exit_ SIGABRT else
  failed ← (if (need_send : bool) then
              s ← get;
              v ← of_option (rd_bytes 0 (Z.to_nat (size + 4)) (tx_pkt s));
              ret ← call (Sendto v); mret (ret =? -1)
            else mret false);
  if (failed : bool) then mret (inr 0) else
  if negb is_sync then mret (inr size) else
  ret ← poll_sock fuel TFTP_TIME_RETRY;
  if ret <=? 0 then mret (inl (S wait_ack, true)) else
  r ← call (Recv RX_SIZE);
  if is_cmd TFTP_ACK r && (block_of r =? block) then mret (inr size)
  else if is_cmd TFTP_ACK r then mret (inl (S wait_ack, false))
  else if is_cmd TFTP_ERROR r then exit_ SIGABRT
  else mret (inl (S wait_ack, true)).

Definition tftp_send_data_pkt (fuel : nat) (block size : Z) (is_sync : bool) : T Z :=
  s ← get;
  p ← of_option (wr 0 (be16 TFTP_DATA ++ be16 block) (tx_pkt s));
  modify (fun s => s <| tx_pkt := p |>);;
  iterM (S TFTP_MAX_RETRY) (send_try fuel block size is_sync) (O, true).

(** Sending the slot again. *)
Definition resend (fuel : nat) (reset : bool) : T unit :=
  s ← get;
  if slot s =? 0 then mret tt else
  assert_ (rx_block s + 1 =? pkt_block (tx_pkt s));;
  _ ← tftp_send_data_pkt fuel (pkt_block (tx_pkt s)) block_size true;
  modify (fun s => s <| rx_block := pkt_block (tx_pkt s) |> <| slot := 0 |>
                     <| re_send ::= fun n => if reset then 0 else n |>).

(** A datagram that arrives between two blocks; [true] is [continue]. *)
Definition recv_stray (fuel : nat) : T bool :=
  r ← call (Recv RX_SIZE);
  if negb (is_cmd TFTP_ACK r) then mret false else
  s ← get;
  let block := block_of r in
  if rx_block s + 1 =? block then
    assert_ (negb (slot s =? 0));;
    modify (fun s => s <| rx_block := block |> <| slot := 0 |> <| re_send := 0 |>);;
    mret false
  else if rx_block s =? block then resend fuel true;; mret true
  else
    let num := u16 (block - rx_block s) in
    if num <=? 1 then
      (if num =? 1 then assert_ (negb (slot s =? 0));; modify (fun s => s <| slot := 0 |>)
       else mret tt);;
      modify (fun s => s <| re_send := 0 |> <| rx_block := block |>);;
      mret true
    else exit_ SIGABRT.

Definition close_pipe : T unit := call ClosePipe;; modify (fun s => s <| pipe1 := -1 |>).

Definition POLLIN : Z := 1.
Definition POLL_END : Z := 24.
Definition has (revents mask : Z) : bool := negb (Z.land revents mask =? 0).

Definition read_pipe (fuel : nat) (revents : Z) : T bool :=
  s ← get;
  r ← call (ReadPipe (block_size - cur s));
  match r with
  | Some (b :: l) =>
      p ← of_option (wr (DATA_OFF + Z.to_nat (cur s)) (b :: l) (tx_pkt s));
      modify (fun s => s <| tx_pkt := p |> <| cur ::= Z.add (len (b :: l)) |>);;
      s ← get;
      (if cur s =? block_size then
         _ ← tftp_send_data_pkt fuel (u16 (tx_block s)) (cur s) true;
         modify (fun s => s <| rx_block := u16 (tx_block s) |> <| slot := 0 |>
                            <| tx_block ::= fun n => u32 (n + 1) |> <| cur := 0 |>)
       else mret tt);;
      mret (has revents POLL_END)
  | _ => close_pipe;; mret false
  end.

(** One turn of the loop of [tftp_write_thread]; [inr] leaves it. *)
Definition tftp_turn (fuel : nat) (_ : unit) : T (unit + unit) :=
  s ← get;
  if (pipe1 s =? -1) && (slot s =? 0) then mret (inr tt) else
  let n := if negb (pipe1 s =? -1) && (slot s =? 0) then 2 else 1 in
  '(ret, r0, r1) ← poll_fds fuel n (if slot s =? 0 then 12000 else TFTP_TIME_RETRY);
  if ret <=? 0 then
    modify (fun s => s <| re_send ::= Z.add 1 |>);;
    if Z.of_nat TFTP_MAX_RETRY <? re_send s then mret (inr tt)
    else resend fuel false;; mret (inl tt)
  else
    skip ← (if has r0 POLLIN then recv_stray fuel else mret false);
    if (skip : bool) then mret (inl tt) else
    if n =? 1 then mret (inl tt) else
    skip ← (if has r1 POLLIN then read_pipe fuel r1 else mret false);
    if (skip : bool) then mret (inl tt) else
    (if has r1 POLL_END then close_pipe else mret tt);;
    mret (inl tt).

Definition tftp_write_thread (fuel : nat) : T unit :=
  modify (fun s => s <| cur := 0 |> <| tx_block := 1 |> <| rx_block := 0 |>
                     <| slot := 0 |> <| re_send := 0 |>);;
  iterM fuel (tftp_turn fuel) tt;;
  s ← get;
  modify (fun s => s <| tx_block ::= fun n => u32 (n + 1) |>);;
  _ ← tftp_send_data_pkt fuel (u16 (tx_block s)) (cur s) true;
  call CloseSock;;
  s ← get;
  if negb (pipe1 s =? -1) then call ClosePipe else mret tt.
(** The options of the write request, as [snprintf] prints them. *)
Definition wrq_options (filename : list Z) (tsize : Z) : list Z :=
  take 256 filename ++ [0] ++ str "octet" ++ [0] ++ str "blksize" ++ [0] ++
  digits_of 10 10 block_size ++ [0] ++
  (if tsize =? 0 then [] else str "tsize" ++ [0] ++ digits_of 10 19 tsize ++ [0]).

(** The request in the buffer of the packet: the options are printed into
    [data] and moved behind the opcode. *)
Definition wrq_packet (opts junk : list Z) : option (list Z) :=
  b ← wr 0 (be16 TFTP_WRQ) junk;
  b ← wr 4 (opts ++ [0]) b;
  v ← rd_bytes 4 (length opts) b;
  wr 2 v b.

(** One turn of the loop that waits for the acknowledgement; a datagram is
    received into the packet that is sent. *)
Definition wrq_try (fuel : nat) (size : Z) (a : nat * list Z) : T (nat * list Z + Z) :=
  let '(wait_ack, buf) := a in
  if bool_decide (TFTP_MAX_RETRY <= wait_ack)%nat then mret (inr (-1)) else
  v ← of_option (rd_bytes 0 (Z.to_nat (size + 2)) buf);
  ret ← call (Sendto v);
  if ret =? -1 then mret (inr 0) else
  ret ← poll_sock fuel TFTP_TIME_RETRY;
  if ret <=? 0 then mret (inl (S wait_ack, buf)) else
  r ← call (Recv RX_SIZE);
  buf ← of_option (match r with Some p => wr 0 p buf | None => Some buf end);
  if is_cmd TFTP_OACK r then
    m ← call (Malloc (Z.of_nat DATA_OFF + DATA_ROOM));
    match m with
    | None => mret (inr (-1))
    | Some fresh =>
        '(pipe_0, pipe_1) ← call Socketpair;
        modify (fun s => s <| pipe1 := pipe_1 |> <| cur_q_req := true |>
          <| tx_pkt := map fresh (seq 0 (Z.to_nat (Z.of_nat DATA_OFF + DATA_ROOM))) |>);;
        call Spawn;;
        mret (inr pipe_0)
    end
  else mret (inl (S wait_ack, buf)).

(** [junk] is what the packet on the stack holds at first. *)
Definition tftp_write_request (fuel : nat) (junk filename : list Z) (tsize : Z) : T Z :=
  s ← get;
  (if cur_q_req s then call Join;; modify (fun s => s <| cur_q_req := false |>) else mret tt);;
  _ ← call Socket;
  let opts := wrq_options filename tsize in
  buf ← of_option (wrq_packet opts junk);
  iterM (S TFTP_MAX_RETRY) (wrq_try fuel (len opts)) (O, buf).

(** A file with the address of the server is uploaded, to see whether there
    is one. *)
Definition tftp_test_server (fuel : nat) (junk serv_ip : list Z) : T Z :=
  sock ← tftp_write_request fuel junk (str "qlog_tftp_test_blksize") 0;
  if 0 <? sock then
    retval ← call (WriteFd sock serv_ip);
    call (CloseFd sock);;
    mret (if retval =? len serv_ip then 1 else 0)
  else mret 0.
End Tftp.
