(* ===== verification/TftpProps.v ===== *)
(** The TFTP upload against a network that loses, repeats, delays and reorders
    datagrams: when the thread returns, the file on the server is what was
    written to the pipe; and it returns when every block gets through within
    its twelve tries. *)

From Stdlib Require Import ZArith Lia.
From stdpp Require Import base list.
From S2P Require Import Prelude Tftp.

(** ** The server and the network *)

(** A TFTP server that receives a file: the number of blocks stored, the file,
    the blocks acknowledged so far (0 stands for the write request). *)
Record srv : Type := Srv { count : nat; file : list Z; acks : list nat }.

Definition srv_init : srv := Srv 0 [] [0%nat].

(** The next block is stored and acknowledged, the last one is acknowledged
    again, anything else is ignored. *)
Definition srv_recv (n : srv) (p : list Z) : srv :=
  if negb (pkt_cmd p =? TFTP_DATA) then n
  else if pkt_block p =? u16 (Z.of_nat (count n) + 1) then
    Srv (S (count n)) (file n ++ drop DATA_OFF p) (S (count n) :: acks n)
  else if pkt_block p =? u16 (Z.of_nat (count n)) then Srv (count n) (file n) (count n :: acks n)
  else n.

(** The datagrams sent, newest first, and the data read from the pipe. *)
Definition ev_sends (e : io tsys) : list (list Z) :=
  match e with Ev c _ => match c with Sendto p => [p] | _ => [] end end.
Definition sends (h : list (io tsys)) : list (list Z) := concat (map ev_sends h).

Definition ev_piped (e : io tsys) : list Z :=
  match e with
  | Ev c a => match c in tsys B return B -> list Z with
              | ReadPipe _ => fun r => match r with Some d => d | None => [] end
              | _ => fun _ => []
              end a
  end.
Fixpoint piped (h : list (io tsys)) : list Z :=
  match h with [] => [] | e :: h' => piped h' ++ ev_piped e end.

(** No datagram outlives 2^15 later ones. *)
Definition LIFETIME : Z := 2 ^ 15.

(** An acknowledgement that is received was sent by the server. *)
Definition answer_ok (n : srv) (e : io tsys) : Prop :=
  match e with
  | Ev c a => match c in tsys B return B -> Prop with
              | Recv _ => fun r => is_cmd TFTP_ACK r = true -> exists j, j ∈ acks n /\
                  Z.of_nat (count n) - Z.of_nat j < LIFETIME /\ block_of r = u16 (Z.of_nat j)
              | _ => fun _ => True
              end a
  end.

(** [net_run h n]: [n] is a state of the server that explains the history:
    at any time any datagram sent before may arrive, once, several times or
    never, and so may any acknowledgement. *)
Inductive net_run : list (io tsys) -> srv -> Prop :=
| net_nil : net_run [] srv_init
| net_event e h n : net_run h n -> answer_ok n e -> net_run (e :: h) n
| net_deliver h n i p : net_run h n -> sends h !! i = Some p -> Z.of_nat i < LIFETIME ->
    net_run h (srv_recv n p).

(** ** The invariant of the upload *)

Definition data_pkt (j : nat) (p : list Z) : list Z :=
  be16 TFTP_DATA ++ be16 (u16 (Z.of_nat j)) ++ p.

(** [ps] are the blocks sent or being sent; the newest one is on its way
    already unless [d] is 1, and the server has it unless [e] is 1. *)
Record inv (d e : nat) (ps : list (list Z)) (h : list (io tsys)) : Prop := Inv {
  inv_sent : exists js, sends h = map (fun j => data_pkt j (nth (j - 1) ps [])) js /\
    forall i j, js !! i = Some j ->
      (1 <= j <= length ps)%nat /\ (length ps <= j + i + d)%nat;
  inv_net : forall n, net_run h n ->
    (length ps <= count n + e)%nat /\ (count n <= length ps)%nat /\
    file n = concat (take (count n) ps) /\ Forall (fun j => (j <= count n)%nat) (acks n);
}.

Lemma be_val_be16 z : 0 <= z < 2 ^ 16 -> be_val (be16 z) = z.
Proof.
  intros H. unfold be_val, be16. cbn [fold_left].
  rewrite (Z.mod_small (z / 256)) by (split; [apply Z.div_pos; lia|apply Z.div_lt_upper_bound; lia]).
  pose proof (Z.div_mod z 256 ltac:(lia)). lia.
Qed.

Lemma data_pkt_fields j p : pkt_cmd (data_pkt j p) = TFTP_DATA /\
  pkt_block (data_pkt j p) = u16 (Z.of_nat j) /\ drop DATA_OFF (data_pkt j p) = p.
Proof.
  split; [done|]. split; [|done]. unfold pkt_block, data_pkt, slice. cbn [be16 app drop take].
  apply (be_val_be16 (u16 (Z.of_nat j))). apply Z.mod_pos_bound. lia.
Qed.

(** Block numbers that are close are equal when their low halves are. *)
Lemma u16_inj a b : - 2 ^ 16 < a - b < 2 ^ 16 -> u16 a = u16 b -> a = b.
Proof.
  intros H Hu. unfold u16 in Hu.
  pose proof (Z.div_mod a (2 ^ 16) ltac:(lia)). pose proof (Z.div_mod b (2 ^ 16) ltac:(lia)). nia.
Qed.

Lemma take_S_nth (ps : list (list Z)) n : (n < length ps)%nat ->
  concat (take (S n) ps) = concat (take n ps) ++ nth n ps [].
Proof.
  intros H. destruct (lookup_lt_is_Some_2 ps n H) as [p Hp].
  rewrite (take_S_r _ _ _ Hp), concat_app. cbn. rewrite app_nil_r.
  by rewrite (nth_lookup_Some _ _ _ _ Hp).
Qed.

(** A datagram that arrives keeps what the invariant says of the server. *)
Lemma deliver_ok ps e n i j :
  (length ps <= count n + e)%nat -> (e <= 1)%nat -> (count n <= length ps)%nat ->
  file n = concat (take (count n) ps) -> Forall (fun j => (j <= count n)%nat) (acks n) ->
  (1 <= j <= length ps)%nat -> (length ps <= j + i + 1)%nat -> Z.of_nat i < LIFETIME ->
  let n' := srv_recv n (data_pkt j (nth (j - 1) ps [])) in
  (length ps <= count n' + e)%nat /\ (count n' <= length ps)%nat /\
  file n' = concat (take (count n') ps) /\ Forall (fun j => (j <= count n')%nat) (acks n').
Proof.
  intros He He1 Hc Hf Ha Hj Hi Hl. unfold srv_recv.
  destruct (data_pkt_fields j (nth (j - 1) ps [])) as (-> & -> & ->).
  rewrite Z.eqb_refl. cbn [negb]. unfold LIFETIME in Hl.
  destruct (Z.eqb_spec (u16 (Z.of_nat j)) (u16 (Z.of_nat (count n) + 1))) as [Hu|_].
  - apply u16_inj in Hu; [|lia]. assert (Hjc : j = S (count n)) by lia. cbn [count file acks].
    split; [lia|]. split; [lia|]. split.
    + rewrite take_S_nth, Hf by lia. do 2 f_equal. lia.
    + constructor; [done|]. eapply Forall_impl; [exact Ha|]. cbn. lia.
  - destruct (_ =? _); cbn [count file acks]; [|done].
    split; [done|]. split; [done|]. split; [done|]. by constructor.
Qed.

Lemma net_event_inv e h (I : srv -> Prop) :
  (forall n, net_run h n -> answer_ok n e -> I n) ->
  (forall n i p, I n -> sends (e :: h) !! i = Some p -> Z.of_nat i < LIFETIME -> I (srv_recv n p)) ->
  forall n, net_run (e :: h) n -> I n.
Proof.
  intros H1 H2 n Hn. remember (e :: h) as h' eqn:Hh. induction Hn; [done|..].
  - injection Hh as -> ->. by apply H1.
  - subst. by eapply H2; [apply IHHn| |].
Qed.

(** The invariant after an event: the datagrams, and what the answer tells. *)
Lemma inv_event d e d' e' ps x h js :
  (e' <= e)%nat -> (e <= 1)%nat -> (d' <= 1)%nat -> inv d e ps h ->
  sends (x :: h) = map (fun j => data_pkt j (nth (j - 1) ps [])) js ->
  (forall i j, js !! i = Some j -> (1 <= j <= length ps)%nat /\ (length ps <= j + i + d')%nat) ->
  (forall n, net_run h n -> answer_ok n x -> (length ps <= count n + e')%nat) ->
  inv d' e' ps (x :: h).
Proof.
  intros He He1 Hd' [_ Hn] Hs Hjs Ha. split; [by exists js|].
  apply net_event_inv.
  - intros n Hr Hx. destruct (Hn n Hr) as (_ & H). split; [by apply Ha|done].
  - intros n i p (H1 & H2 & H3 & H4) Hp Hi. rewrite Hs, list_lookup_fmap in Hp.
    apply fmap_Some in Hp as (j & Hj & ->). destruct (Hjs i j Hj).
    apply (deliver_ok ps e' n i j); try done; lia.
Qed.

Lemma upload_starts : inv 0 0 [] [].
Proof.
  split; [by exists []|]. intros n Hn. remember [] as h eqn:Hh. induction Hn as [| |h n i p _ _ Hp]; [|done|].
  - split; [done|]. split; [done|]. split; [done|]. by repeat constructor.
  - subst. change (sends []) with (@nil (list Z)) in Hp. by rewrite lookup_nil in Hp.
Qed.

(** A new block is taken up. *)
Lemma inv_start ps p h : inv 0 0 ps h -> inv 1 1 (ps ++ [p]) h.
Proof.
  intros [(js & Hs & Hjs) Hn]. split.
  - exists js. split.
    + rewrite Hs. apply list_eq. intros i. rewrite !list_lookup_fmap.
      destruct (js !! i) as [j|] eqn:Hj; [|done]. cbn. do 2 f_equal.
      destruct (Hjs i j Hj). rewrite app_nth1; [done|lia].
    + intros i j Hj. rewrite length_app. cbn. destruct (Hjs i j Hj). lia.
  - intros n Hr. destruct (Hn n Hr) as (H1 & H2 & H3 & H4). rewrite length_app. cbn.
    split; [lia|]. split; [lia|]. split; [|done]. by rewrite take_app_le by lia.
Qed.

(** The newest block is sent. *)
Lemma inv_send d qs p h r : (d <= 1)%nat -> inv d 1 (qs ++ [p]) h ->
  inv 0 1 (qs ++ [p]) (Ev (Sendto (data_pkt (S (length qs)) p)) r :: h).
Proof.
  intros Hd H. destruct (inv_sent _ _ _ _ H) as (js & Hs & Hjs).
  apply (inv_event d 1 0 1 _ _ _ (S (length qs) :: js)); try lia; [done|..].
  - unfold sends in *. cbn [map ev_sends concat app]. rewrite Hs. cbn [map]. f_equal.
    f_equal. replace (S (length qs) - 1)%nat with (length qs) by lia.
    rewrite app_nth2 by lia. by rewrite Nat.sub_diag.
  - rewrite length_app. cbn [length]. intros [|i] j Hj.
    + injection Hj as <-. lia.
    + specialize (Hjs i j Hj). rewrite length_app in Hjs. cbn in Hjs. lia.
  - intros n Hn _. by apply (inv_net _ _ _ _ H).
Qed.

(** Events other than a datagram sent. *)
Lemma inv_silent d e ps x h : (d <= 1)%nat -> (e <= 1)%nat -> ev_sends x = [] ->
  inv d e ps h -> inv d e ps (x :: h).
Proof.
  intros Hd He Hx H. destruct (inv_sent _ _ _ _ H) as (js & Hs & Hjs).
  apply (inv_event d e d e _ _ _ js); try lia; [done|..].
  - unfold sends in *. cbn [map concat]. by rewrite Hx.
  - done.
  - intros n Hn _. by apply (inv_net _ _ _ _ H).
Qed.

(** The acknowledgement of the newest block. *)
Lemma inv_acked ps h size r : inv 0 1 ps h -> is_cmd TFTP_ACK r = true ->
  block_of r = u16 (Z.of_nat (length ps)) -> inv 0 0 ps (Ev (Recv size) r :: h).
Proof.
  intros H Hr Hb. destruct (inv_sent _ _ _ _ H) as (js & Hs & Hjs).
  apply (inv_event 0 1 0 0 _ _ _ js); try lia; [done|done|done|].
  intros n Hn Ha. destruct (inv_net _ _ _ _ H n Hn) as (H1 & H2 & _ & H4).
  destruct (Ha Hr) as (j & Hj & Hl & Hu). rewrite Forall_forall in H4. specialize (H4 j Hj). cbn in H4.
  rewrite Hb in Hu. unfold LIFETIME in Hl. apply u16_inj in Hu; lia.
Qed.

Lemma inv_weaken d d' e ps h : (d <= d')%nat -> inv d e ps h -> inv d' e ps h.
Proof.
  intros Hd [(js & Hs & Hjs) Hn]. split; [|done]. exists js. split; [done|].
  intros i j Hj. destruct (Hjs i j Hj). lia.
Qed.

(** Calls that neither send nor read. *)
Definition silent (h h' : list (io tsys)) : Prop := exists evs,
  h' = evs ++ h /\ Forall (fun e => ev_sends e = [] /\ ev_piped e = []) evs.

Lemma silent_refl h : silent h h.
Proof. by exists []. Qed.

Lemma silent_cons x h h' : silent h h' -> ev_sends x = [] -> ev_piped x = [] -> silent h (x :: h').
Proof. intros (evs & -> & He) ??. exists (x :: evs). split; [done|]. by constructor. Qed.

Lemma silent_trans h1 h2 h3 : silent h1 h2 -> silent h2 h3 -> silent h1 h3.
Proof.
  intros (e1 & -> & H1) (e2 & -> & H2). exists (e2 ++ e1).
  split; [by rewrite app_assoc|]. by apply Forall_app.
Qed.

Lemma silent_inv d e ps h h' : silent h h' -> (d <= 1)%nat -> (e <= 1)%nat ->
  inv d e ps h -> inv d e ps h'.
Proof.
  intros (evs & -> & He) Hd He1 Hi. induction He as [|x evs [Hx _] _ IH]; [done|].
  cbn. by apply inv_silent.
Qed.

Lemma silent_piped h h' : silent h h' -> piped h' = piped h.
Proof.
  intros (evs & -> & He). induction He as [|x evs [_ Hx] _ IH]; [done|]. cbn. by rewrite IH, Hx, app_nil_r.
Qed.

(** ** Sending a block *)

(** The packet holds the payload [p]. *)
Definition holds_payload (s : tst) (p : list Z) : Prop :=
  len (tx_pkt s) = Z.of_nat DATA_OFF + DATA_ROOM /\ len p <= DATA_ROOM /\
  slice DATA_OFF (length p) (tx_pkt s) = p.

Definition stamped (block : Z) (s : tst) : tst :=
  s <| tx_pkt := put 0 (be16 TFTP_DATA ++ be16 block) (tx_pkt s) |>.

Lemma packet_read block s p : holds_payload s p ->
  rd_bytes 0 (Z.to_nat (len p + 4)) (tx_pkt (stamped block s)) =
    Some (be16 TFTP_DATA ++ be16 block ++ p).
Proof.
  intros (Hl & Hp & Hs). unfold stamped, set_field. cbn [tx_pkt].
  unfold len, DATA_OFF, DATA_ROOM in *.
  rewrite rd_bytes_fits by (rewrite length_put; cbn [be16 length app] in *; lia).
  f_equal. unfold slice, put in *. rewrite drop_0, take_0, app_nil_l.
  replace (Z.to_nat (Z.of_nat (length p) + 4)) with (length (be16 TFTP_DATA ++ be16 block) + length p)%nat
    by (cbn [be16 length app]; lia).
  rewrite firstn_app_2, <-app_assoc. do 2 f_equal. exact Hs.
Qed.

Lemma stamped_payload block s p : holds_payload s p -> holds_payload (stamped block s) p.
Proof.
  intros (Hl & Hp & Hs). unfold holds_payload, stamped, set_field. cbn [tx_pkt].
  unfold len, DATA_OFF, DATA_ROOM in *.
  rewrite length_put by (cbn [be16 length app]; lia).
  split; [done|]. split; [done|]. rewrite slice_put_above by (cbn [be16 length app]; lia). done.
Qed.

Section Upload.
Context (E : env tsys).
Abbreviation world := (world tsys tst).

Definition sends_succeed : Prop := forall h p, E _ h (Sendto p) <> -1.
Definition reads_bounded : Prop := forall h n r, 0 <= n -> E _ h (ReadPipe n) = Some r -> len r <= n.

Definition aborts (c : Z) (_ : world) : Prop := c = SIGABRT.

Lemma yields_poll_sock fuel t (w : world) Q X :
  (forall ret h, silent (hist w) h -> Q ret (World (loc w) h)) -> yields E (poll_sock fuel t) w Q X.
Proof.
  intros HQ. unfold poll_sock.
  apply (yields_iterM E _ (fun _ w' => loc w' = loc w /\ silent (hist w) (hist w'))).
  - intros _ w' [Hl Hs]. apply yields_bind, yields_call.
    destruct (E _ (hist w') (PollSock t)) as [ret e]. rewrite Hl. cbn beta iota.
    destruct (_ && _); apply yields_ret; [split; [done|]|apply HQ]; by apply silent_cons.
  - split; [done|]. apply silent_refl.
Qed.

Lemma yields_poll_fds fuel n t (w : world) Q X :
  (forall r h, silent (hist w) h -> Q r (World (loc w) h)) -> yields E (poll_fds fuel n t) w Q X.
Proof.
  intros HQ. unfold poll_fds.
  apply (yields_iterM E _ (fun _ w' => loc w' = loc w /\ silent (hist w) (hist w'))).
  - intros _ w' [Hl Hs]. apply yields_bind, yields_call.
    destruct (E _ (hist w') (PollFds n t)) as [[[ret e] r0] r1]. rewrite Hl. cbn beta iota.
    destruct (_ && _); apply yields_ret; [split; [done|]|apply HQ]; by apply silent_cons.
  - split; [done|]. apply silent_refl.
Qed.

Context (HS : sends_succeed).

(** A try: with the packet sent if it has to be, the block is out. *)
Lemma send_try_yields fuel ps p s wait_ack (need_send : bool) (w : world) :
  let block := u16 (Z.of_nat (S (length ps))) in
  holds_payload s p -> loc w = stamped block s -> inv (if need_send then 1 else 0) 1 (ps ++ [p]) (hist w) ->
  yields E (send_try fuel block (len p) true (wait_ack, need_send)) w (fun r w' =>
    loc w' = stamped block s /\ piped (hist w') = piped (hist w) /\
    inv 0 (match r with inl _ => 1 | inr _ => 0 end) (ps ++ [p]) (hist w')) aborts.
Proof.
  intros block Hp Hl Hi. unfold send_try. destruct (bool_decide _); [by ysteps|].
  apply yields_bind.
  apply (yields_mono _ _ _ (fun failed w' => failed = false /\ loc w' = stamped block s /\
    piped (hist w') = piped (hist w) /\ inv 0 1 (ps ++ [p]) (hist w'))).
  { destruct need_send; [|by ysteps]. apply yields_bind, yields_get. rewrite Hl, packet_read by done.
    apply yields_bind, yields_ret, yields_bind, yields_call, yields_ret. cbn [hist loc].
    split; [by apply Z.eqb_neq, HS|]. split; [done|]. split; [apply app_nil_r|].
    by apply (inv_send 1). }
  intros failed w1 (-> & Hl1 & Hp1 & Hi1). cbn [negb].
  apply yields_bind, yields_poll_sock. intros ret h Hh.
  assert (Hih : inv 0 1 (ps ++ [p]) h) by (eapply silent_inv; try done; lia).
  assert (Hph : piped h = piped (hist w)) by (by rewrite (silent_piped _ _ Hh)).
  destruct (ret <=? 0); [by ysteps|]. apply yields_bind, yields_call. cbn [hist loc].
  set (r := E _ h (Recv RX_SIZE)).
  assert (Hir : inv 0 1 (ps ++ [p]) (Ev (Recv RX_SIZE) r :: h)) by (apply inv_silent; try done; lia).
  assert (Hpr : piped (Ev (Recv RX_SIZE) r :: h) = piped (hist w)) by (rewrite <-Hph; apply app_nil_r).
  destruct (is_cmd TFTP_ACK r) eqn:Hack; cbn [andb].
  - destruct (Z.eqb_spec (block_of r) block) as [Hb|_]; ysteps; [|done].
    split; [done|]. split; [done|]. apply inv_acked; [done|done|].
    rewrite Hb, length_app. cbn. unfold block. do 2 f_equal. lia.
  - destruct (is_cmd TFTP_ERROR r); by ysteps.
Qed.

Lemma send_block fuel ps p (w : world) :
  let block := u16 (Z.of_nat (S (length ps))) in
  holds_payload (loc w) p -> inv 0 0 ps (hist w) ->
  yields E (tftp_send_data_pkt fuel block (len p) true) w (fun _ w' =>
    loc w' = stamped block (loc w) /\ piped (hist w') = piped (hist w) /\
    inv 0 0 (ps ++ [p]) (hist w')) aborts.
Proof.
  intros block Hp Hi. unfold tftp_send_data_pkt. apply yields_bind, yields_get, yields_bind.
  eapply yields_of_option.
  { apply wr_fits. destruct Hp as (Hl & _). unfold len, DATA_OFF, DATA_ROOM in Hl.
    cbn [be16 length app]. lia. }
  apply yields_bind, yields_modify.
  apply (yields_iterM E _ (fun a w' => loc w' = stamped block (loc w) /\
    piped (hist w') = piped (hist w) /\ inv (if a.2 : bool then 1 else 0) 1 (ps ++ [p]) (hist w'))).
  - intros [wait_ack need_send] w' (Hl' & Hp' & Hi'). cbn [snd] in Hi'.
    eapply yields_mono; [by apply (send_try_yields fuel ps p (loc w))|]. cbn beta.
    intros [[n b]|r] w2 (Hl2 & Hp2 & Hi2); rewrite Hp' in Hp2; [|done].
    split; [done|]. split; [done|]. destruct b; [|done]. by apply (inv_weaken 0); [lia|].
  - split; [done|]. split; [done|]. by apply inv_start.
Qed.

(** ** The thread *)

Context (HR : reads_bounded) (bs : Z) (Hbs : 0 < bs <= DATA_ROOM).

(** Between two blocks: the blocks [ps] are on the server, the packet holds
    what was read since. *)
Record held (ps : list (list Z)) (w : world) : Prop := Held {
  h_inv : inv 0 0 ps (hist w);
  h_slot : slot (loc w) = 0;
  h_block : tx_block (loc w) = u32 (Z.of_nat (S (length ps)));
  h_cur : 0 <= cur (loc w) <= bs;
  h_pkt : len (tx_pkt (loc w)) = Z.of_nat DATA_OFF + DATA_ROOM;
  h_piped : piped (hist w) = concat ps ++ slice DATA_OFF (Z.to_nat (cur (loc w))) (tx_pkt (loc w));
  h_full : Forall (fun p => len p = bs) ps;
}.

Definition ready (ps : list (list Z)) (w : world) : Prop := held ps w /\ cur (loc w) < bs.

(** What a step leaves alone. *)
Lemma ready_quiet ps w s h : ready ps w -> silent (hist w) h ->
  slot s = 0 -> tx_block s = tx_block (loc w) -> cur s = cur (loc w) -> tx_pkt s = tx_pkt (loc w) ->
  ready ps (World s h).
Proof.
  intros [[Hi H1 H2 H3 H4 H5 H6] H7] Hh Hs Ht Hc Hp. split; [|cbn [loc]; by rewrite Hc].
  split; cbn [loc hist]; rewrite ?Ht, ?Hc, ?Hp; try done.
  - eapply silent_inv; try done; lia.
  - by rewrite (silent_piped _ _ Hh).
Qed.

Lemma u16_u32 z : u16 (u32 z) = u16 z.
Proof. unfold u16, u32. apply Z.mod_mod_divide. by exists (2 ^ 16). Qed.

Lemma resend_idle fuel b (w : world) Q : slot (loc w) = 0 -> Q tt w ->
  yields E (resend bs fuel b) w Q aborts.
Proof. intros Hs HQ. unfold resend. apply yields_bind, yields_get. by rewrite Hs. Qed.

Lemma recv_stray_yields fuel ps (w : world) : ready ps w ->
  yields E (recv_stray bs fuel) w (fun _ w' => ready ps w') aborts.
Proof.
  intros Hr. unfold recv_stray. apply yields_bind, yields_call.
  set (r := E _ (hist w) (Recv RX_SIZE)). set (w1 := World _ _).
  assert (H1 : ready ps w1).
  { apply ready_quiet with w; try done; [by apply silent_cons; [apply silent_refl|..]|apply Hr]. }
  pose proof (h_slot _ _ (proj1 H1)) as Hslot.
  destruct (negb (is_cmd TFTP_ACK r)); [by ysteps|]. apply yields_bind, yields_get. rewrite Hslot.
  destruct (rx_block (loc w1) + 1 =? block_of r); [by ysteps|].
  destruct (rx_block (loc w1) =? block_of r).
  { apply yields_bind, resend_idle; [done|]. by ysteps. }
  destruct (_ <=? 1); [|by ysteps]. apply yields_bind. destruct (_ =? 1); [by ysteps|].
  ysteps. apply ready_quiet with w1; try done. apply silent_refl.
Qed.

(** The bytes in the packet. *)
Lemma held_payload ps w : held ps w ->
  exists p, slice DATA_OFF (Z.to_nat (cur (loc w))) (tx_pkt (loc w)) = p /\
    len p = cur (loc w) /\ holds_payload (loc w) p.
Proof.
  intros [_ _ _ H3 H4 _ _]. eexists. split; [done|].
  assert (Hl : len (slice DATA_OFF (Z.to_nat (cur (loc w))) (tx_pkt (loc w))) = cur (loc w)).
  { unfold len, DATA_ROOM in *. rewrite length_slice; lia. }
  split; [done|]. split; [done|]. split; [lia|]. f_equal. unfold len in Hl. lia.
Qed.

(** Some bytes are read into the packet. *)
Lemma read_chunk ps w n c : ready ps w -> len c <= bs - cur (loc w) ->
  let s := (loc w) <| tx_pkt := put (DATA_OFF + Z.to_nat (cur (loc w))) c (tx_pkt (loc w)) |>
             <| cur ::= Z.add (len c) |> in
  wr (DATA_OFF + Z.to_nat (cur (loc w))) c (tx_pkt (loc w)) = Some (tx_pkt s) /\
  held ps (World s (Ev (ReadPipe n) (Some c) :: hist w)).
Proof.
  intros [[Hi H1 H2 H3 H4 H5 H6] H7] Hlen s. set (k := Z.to_nat (cur (loc w))).
  assert (Hfit : (DATA_OFF + k + length c <= length (tx_pkt (loc w)))%nat).
  { unfold len, DATA_ROOM, k in *. lia. }
  split; [by apply wr_fits|].
  assert (Hpkt : tx_pkt s = put (DATA_OFF + k) c (tx_pkt (loc w))) by done.
  split; cbn [loc hist]; try done.
  - apply inv_silent; try done; lia.
  - change (cur s) with (len c + cur (loc w)). unfold len in *. lia.
  - rewrite Hpkt. unfold len. rewrite length_put by done. exact H4.
  - cbn [piped ev_piped]. rewrite H5, <-app_assoc. f_equal. rewrite Hpkt.
    change (cur s) with (len c + cur (loc w)).
    replace (Z.to_nat (len c + cur (loc w))) with (k + length c)%nat by (unfold len, k; lia).
    symmetry. by apply slice_put_end.
Qed.

(** A full packet is sent. *)
Lemma send_full fuel ps (w : world) : held ps w -> cur (loc w) = bs ->
  yields E (_ ← tftp_send_data_pkt fuel (u16 (tx_block (loc w))) (cur (loc w)) true;
            modify (fun s => s <| rx_block := u16 (tx_block s) |> <| slot := 0 |>
                            <| tx_block ::= fun n => u32 (n + 1) |> <| cur := 0 |>)) w
    (fun _ w' => exists p, ready (ps ++ [p]) w') aborts.
Proof.
  intros Hh Hfull. destruct (held_payload ps w Hh) as (p & Hp & Hlp & Hpay).
  destruct Hh as [Hi H1 H2 H3 H4 H5 H6].
  rewrite H2, u16_u32, <-Hlp. apply yields_bind. eapply yields_mono; [by apply send_block|].
  cbn beta. intros _ w2 (Hl2 & Hp2 & Hi2). ysteps. exists p. split; [|cbn; lia].
  split; cbn [loc hist]; rewrite ?Hl2; try done.
  - unfold stamped, set_field. cbn [tx_block]. rewrite H2, length_app. cbn [length].
    unfold u32. rewrite Zplus_mod_idemp_l. f_equal. lia.
  - cbn. lia.
  - unfold len, DATA_OFF, DATA_ROOM, stamped, set_field in *. cbn [tx_pkt].
    rewrite length_put; [exact H4|]. cbn [be16 length app]. lia.
  - rewrite Hp2, H5, Hp, concat_app. cbn [concat]. rewrite app_nil_r.
    change (slice DATA_OFF (Z.to_nat _) _) with (@nil Z). by rewrite app_nil_r.
  - apply Forall_app. split; [done|]. constructor; [lia|done].
Qed.

(** The pipe gives some bytes, or ends. *)
Lemma read_pipe_yields fuel rev ps (w : world) : ready ps w ->
  yields E (read_pipe bs fuel rev) w (fun _ w' => exists ps', ready ps' w') aborts.
Proof.
  intros Hr. unfold read_pipe. apply yields_bind, yields_get, yields_bind, yields_call.
  destruct (E _ (hist w) (ReadPipe (bs - cur (loc w)))) as [[|b l]|] eqn:Ha.
  1, 3: unfold close_pipe; ysteps; exists ps; cbn [loc hist];
    apply ready_quiet with w; try done; [|apply Hr];
    apply silent_cons; try done; apply silent_cons; try done; apply silent_refl.
  apply HR in Ha; [|destruct Hr as [[_ _ _ ? _ _ _] ?]; lia]. destruct (read_chunk ps w (bs - cur (loc w)) (b :: l) Hr Ha) as [Hw Hh].
  cbn [loc hist]. apply yields_bind. eapply yields_of_option; [exact Hw|].
  apply yields_bind, yields_modify, yields_bind, yields_get. apply yields_bind.
  match type of Hh with held _ ?w1 => set (w1' := w1) in * end.
  eapply (yields_mono _ _ _ (fun _ w' => exists ps', ready ps' w')); [|by intros; ysteps].
  change (yields E (if cur (loc w1') =? bs then
    _ ← tftp_send_data_pkt fuel (u16 (tx_block (loc w1'))) (cur (loc w1')) true;
    modify (fun s => s <| rx_block := u16 (tx_block s) |> <| slot := 0 |>
                    <| tx_block ::= fun n => u32 (n + 1) |> <| cur := 0 |>)
    else mret tt) w1' (fun _ w' => exists ps', ready ps' w') aborts).
  destruct (Z.eqb_spec (cur (loc w1')) bs) as [Hf|Hm].
  - eapply yields_mono; [by apply send_full|]. intros _ w' [p Hp]. by eexists.
  - ysteps. exists ps. split; [done|]. destruct Hh as [_ _ _ Hc _ _ _]. lia.
Qed.

Definition some_ready (w : world) : Prop := exists ps, ready ps w.

Lemma tftp_turn_yields fuel (w : world) : some_ready w ->
  yields E (tftp_turn bs fuel tt) w (fun _ w' => some_ready w') aborts.
Proof.
  intros [ps Hr]. unfold tftp_turn. apply yields_bind, yields_get.
  pose proof (h_slot _ _ (proj1 Hr)) as Hslot. rewrite Hslot, Z.eqb_refl, !andb_true_r.
  destruct (pipe1 (loc w) =? -1) eqn:Hpipe; [ysteps; by exists ps|]. cbn [negb].
  apply yields_bind, yields_poll_fds. intros [[ret r0] r1] h Hh. cbn beta iota.
  assert (H1 : ready ps (World (loc w) h)) by (by apply ready_quiet with w).
  destruct (ret <=? 0).
  { apply yields_bind, yields_modify.
    assert (H2 : ready ps (World ((loc w) <| re_send ::= Z.add 1 |>) h)).
    { apply ready_quiet with (World (loc w) h); try done. apply silent_refl. }
    destruct (_ <? _); [ysteps; by exists ps|].
    apply yields_bind, resend_idle; [done|]. ysteps. by exists ps. }
  apply yields_bind. apply (yields_mono _ _ _ (fun _ w' => some_ready w')).
  { destruct (has r0 POLLIN); [|ysteps; by exists ps].
    eapply yields_mono; [by apply recv_stray_yields|]. intros ? w' ?. by exists ps. }
  intros skip w1 H2. destruct skip; [by ysteps|]. cbn [Z.eqb Pos.eqb].
  apply yields_bind. apply (yields_mono _ _ _ (fun _ w' => some_ready w')).
  { destruct H2 as [ps2 H2]. destruct (has r1 POLLIN); [|ysteps; by exists ps2].
    by apply read_pipe_yields with ps2. }
  intros skip w2 [ps2 H3]. destruct skip; [ysteps; by exists ps2|].
  apply yields_bind. destruct (has r1 POLL_END); unfold close_pipe; ysteps; exists ps2; [|done].
  apply ready_quiet with w2; try done; [|apply H3]. apply silent_cons; try done. apply silent_refl.
Qed.

(** The file as its blocks: full ones and a last one that is shorter. *)
Definition in_blocks (data : list Z) (ps : list (list Z)) (p : list Z) : Prop :=
  data = concat ps ++ p /\ Forall (fun b => len b = bs) ps /\ len p < bs.

Lemma thread_yields fuel s (w : world) :
  len (tx_pkt s) = Z.of_nat DATA_OFF + DATA_ROOM -> loc w = s -> hist w = [] ->
  yields E (tftp_write_thread bs fuel) w (fun _ w' => exists ps p,
    in_blocks (piped (hist w')) ps p /\ inv 0 0 (ps ++ [p]) (hist w')) aborts.
Proof.
  intros Hl Hs Hw. unfold tftp_write_thread. apply yields_bind, yields_modify, yields_bind.
  eapply yields_mono.
  { apply (yields_iterM E _ (fun _ w' => some_ready w') (fun _ w' => some_ready w')).
    - intros [] w' Hw'. eapply yields_mono; [by apply tftp_turn_yields|]. by intros [[]|[]] w2 ?.
    - exists []. rewrite Hw. split; [|cbn; lia].
      split; cbn [loc hist]; try done; try (cbn; lia); [apply upload_starts|]. cbn. by rewrite Hs. }
  cbn beta. intros _ w1 [ps [Hr Hlt]]. apply yields_bind, yields_get, yields_bind, yields_modify.
  apply yields_bind. destruct (held_payload ps w1 Hr) as (p & Hp & Hlp & Hpay).
  destruct Hr as [Hi H1 H2 H3 H4 H5 H6]. rewrite H2, u16_u32, <-Hlp.
  eapply yields_mono; [by apply (send_block fuel ps p)|]. cbn beta. cbn [hist].
  intros _ w2 (Hl2 & Hp2 & Hi2). apply yields_bind, yields_call, yields_bind, yields_get.
  assert (Hend : forall h, silent (hist w2) h -> exists ps p,
    in_blocks (piped h) ps p /\ inv 0 0 (ps ++ [p]) h).
  { intros h Hh. exists ps, p. split; [|eapply silent_inv; try done; lia].
    rewrite (silent_piped _ _ Hh), Hp2, H5, Hp. by split; [|split; [|lia]]. }
  destruct (negb _); ysteps; apply Hend; repeat (apply silent_cons; try done); apply silent_refl.
Qed.

End Upload.

(** ** Completion *)

(** The block number of the newest datagram sent. *)
Definition last_block (h : list (io tsys)) : Z :=
  match sends h with p :: _ => u16 (pkt_block p) | [] => 0 end.

(** The tries for the present block that were not acknowledged. *)
Fixpoint fails (h : list (io tsys)) : nat :=
  match h with
  | [] => 0
  | Ev c a :: h' =>
      match c in tsys B return B -> nat with
      | PollSock _ => fun r => if r.1 <=? 0 then S (fails h') else fails h'
      | Recv _ => fun r =>
          if is_cmd TFTP_ACK r && (block_of r =? last_block h') then O else S (fails h')
      | Sendto _ => fun _ => fails h'
      | _ => fun _ => O
      end a
  end.

(** Datagrams that arrived between two blocks. *)
Fixpoint strays (h : list (io tsys)) : nat :=
  match h with
  | [] => 0
  | Ev c a :: h' =>
      match c in tsys B return B -> nat with
      | PollFds _ _ => fun r => if has r.1.2 POLLIN then S (strays h') else strays h'
      | _ => fun _ => strays h'
      end a
  end.

(** A peer that lets one of twelve tries through: after eleven failed ones the
    acknowledgement arrives.  It reports no error, sends at most [m] datagrams
    between blocks, and acknowledgements only of the last block; the program
    that writes [log] to the pipe closes it then. *)
Record prompt (E : env tsys) (log : list Z) (m : nat) : Prop := Prompt {
  pr_sock : forall h t, (E _ h (PollSock t)).1 < 0 -> (E _ h (PollSock t)).2 <> 4;
  pr_through : forall h t, fails h = 11%nat ->
    let a := E _ h (PollSock t) in let r := E _ (Ev (PollSock t) a :: h) (Recv RX_SIZE) in
    0 < a.1 /\ is_cmd TFTP_ACK r = true /\ block_of r = last_block h;
  pr_error : forall h, is_cmd TFTP_ERROR (E _ h (Recv RX_SIZE)) = false;
  pr_fds : forall h n t, let '(ret, _, r0, r1) := E _ h (PollFds n t) in
    0 < ret /\ has r1 POLLIN = true /\ (has r0 POLLIN = true -> (strays h < m)%nat);
  pr_stray : forall h n t a, let r := E _ (Ev (PollFds n t) a :: h) (Recv RX_SIZE) in
    is_cmd TFTP_ACK r = true -> block_of r = last_block h;
  pr_pipe : forall h n rest, log = piped h ++ rest -> 0 < n -> exists c rest',
    E _ h (ReadPipe n) = Some c /\ rest = c ++ rest' /\ (c = [] -> rest = []);
}.

Section Completes.
Context (E : env tsys) (log : list Z) (m : nat).
Context (HS : sends_succeed E) (HR : reads_bounded E) (HP : prompt E log m).
Context (bs : Z) (Hbs : 0 < bs <= DATA_ROOM).
Abbreviation world := (world tsys tst).
Abbreviation total m w Q := (holds E m w Q (fun _ _ => False)).

Lemma total_poll_sock fuel t (w : world) (Q : Z -> world -> Prop) : (0 < fuel)%nat ->
  (forall a, a = E _ (hist w) (PollSock t) ->
     Q a.1 (World (loc w) (Ev (PollSock t) a :: hist w))) ->
  total (poll_sock fuel t) w Q.
Proof.
  intros Hf HQ. destruct fuel as [|fuel]; [lia|]. unfold poll_sock. cbn [iterM].
  apply holds_bind, holds_bind. unfold holds at 1. cbn [call]. cbn zeta.
  specialize (HQ _ eq_refl). pose proof (pr_sock _ _ _ HP (hist w) t) as He.
  unfold call. destruct (E _ (hist w) (PollSock t)) as [ret e]. cbn [fst snd] in *. cbn beta iota.
  replace ((ret <? 0) && (e =? 4)) with false; [exact HQ|].
  symmetry. apply andb_false_iff. destruct (Z.ltb_spec ret 0); [right|by left].
  apply Z.eqb_neq. auto.
Qed.

(** The header of what is sent. *)
Lemma sent_block block size p v : 0 <= block < 2 ^ 16 -> 0 <= size ->
  wr 0 (be16 TFTP_DATA ++ be16 block) p = Some v -> forall pkt,
  rd_bytes 0 (Z.to_nat (size + 4)) v = Some pkt -> u16 (pkt_block pkt) = block.
Proof.
  intros Hb Hs [Hl ->]%wr_Some pkt [_ ->]%rd_bytes_Some. unfold pkt_block, slice, put.
  rewrite !drop_0, take_0, app_nil_l. cbn [be16 app].
  replace (Z.to_nat (size + 4)) with (4 + Z.to_nat size)%nat by lia. cbn [Nat.add take drop].
  etransitivity; [exact (f_equal u16 (be_val_be16 block Hb))|]. by apply Z.mod_small.
Qed.

(** While a block is sent: [n] tries have failed. *)
Definition trying (block size : Z) (a : nat * bool) (w : world) : Prop :=
  (a.1 <= 11)%nat /\ fails (hist w) = a.1 /\ (a.2 = false -> last_block (hist w) = block) /\
  forall pkt, rd_bytes 0 (Z.to_nat (size + 4)) (tx_pkt (loc w)) = Some pkt -> u16 (pkt_block pkt) = block.

Lemma send_try_total fuel block size a (w : world) : (0 < fuel)%nat -> trying block size a w ->
  total (send_try fuel block size true a) w (fun r w' => loc w' = loc w /\ strays (hist w') = strays (hist w) /\
    piped (hist w') = piped (hist w) /\
    match r with
    | inl a' => trying block size a' w' /\ (a.1 < a'.1)%nat
    | inr _ => last_block (hist w') = block
    end).
Proof.
  intros Hf. destruct a as [n need]. intros (Hn & Hfails & Hlast & Hpkt). cbn [fst snd] in *.
  unfold send_try. rewrite bool_decide_eq_false_2 by (unfold TFTP_MAX_RETRY; lia).
  apply holds_bind. apply (holds_mono _ _ _ (fun failed w' => failed = false /\ loc w' = loc w /\
    strays (hist w') = strays (hist w) /\ piped (hist w') = piped (hist w) /\
    fails (hist w') = n /\ last_block (hist w') = block) _ (fun _ _ => False)); [| |done].
  { destruct need; [|by steps; auto 10]. apply holds_bind, holds_get, holds_bind, holds_of_option.
    intros pkt Hv. apply holds_bind. unfold holds at 1, call. cbn zeta. apply holds_ret. cbn [loc hist].
    split; [by apply Z.eqb_neq, HS|]. split; [done|]. split; [done|]. split; [apply app_nil_r|].
    split; [done|]. by apply Hpkt. }
  intros failed w1 (-> & Hl1 & Hs1 & Hp1 & Hf1 & Hb1). cbn [negb].
  apply holds_bind, total_poll_sock; [done|]. intros a Ha. set (h1 := Ev _ a :: hist w1).
  assert (Hb : last_block h1 = block) by done.
  pose proof (pr_through _ _ _ HP (hist w1) TFTP_TIME_RETRY) as Hthru. cbn zeta in Hthru.
  rewrite <-Ha in Hthru. fold h1 in Hthru. rewrite Hf1, Hb1 in Hthru.
  assert (Hp : piped h1 = piped (hist w)) by (rewrite <-Hp1; apply app_nil_r).
  assert (Hfh : fails h1 = if a.1 <=? 0 then S n else n) by (by rewrite <-Hf1).
  destruct (Z.leb_spec a.1 0) as [Hto|Hrdy].
  { apply holds_ret. split; [done|]. split; [done|]. split; [done|]. split; [|cbn; lia].
    rewrite <-Hl1 in Hpkt. unfold trying. cbn [fst snd hist loc]. split; [|done].
    destruct (decide (n = 11%nat)) as [->|]; [|lia]. destruct (Hthru eq_refl). lia. }
  apply holds_bind. unfold holds at 1, call. cbn zeta. cbn [loc hist].
  pose proof (pr_error _ _ _ HP h1) as Herr.
  set (r := E _ h1 (Recv RX_SIZE)) in *. set (h2 := Ev (Recv RX_SIZE) r :: h1).
  assert (Hp2 : piped h2 = piped (hist w)) by (rewrite <-Hp; apply app_nil_r).
  assert (Hf2 : fails h2 = if is_cmd TFTP_ACK r && (block_of r =? block) then O else S n).
  { rewrite <-Hb, <-Hfh. done. }
  assert (Hnext : is_cmd TFTP_ACK r && (block_of r =? block) = false -> forall b,
    trying block size (S n, b) (World (loc w1) h2)).
  { intros Hno b. rewrite Hno in Hf2. rewrite <-Hl1 in Hpkt. split; [|done]. cbn [fst].
    destruct (decide (n = 11%nat)) as [->|]; [|lia]. destruct (Hthru eq_refl) as (_ & Ht1 & Ht2).
    rewrite Ht1, Ht2, Z.eqb_refl in Hno. done. }
  rewrite Herr. destruct (is_cmd TFTP_ACK r && (block_of r =? block)); [by apply holds_ret|].
  destruct (is_cmd TFTP_ACK r); apply holds_ret; cbn [loc hist];
    (split; [done|]); (split; [done|]); (split; [done|]); (split; [by apply Hnext|cbn; lia]).
Qed.

Lemma send_total fuel block size (w : world) : (0 < fuel)%nat -> 0 <= block < 2 ^ 16 -> 0 <= size ->
  fails (hist w) = O ->
  total (tftp_send_data_pkt fuel block size true) w (fun _ w' =>
    (exists p, loc w' = (loc w) <| tx_pkt := p |>) /\ strays (hist w') = strays (hist w) /\
    piped (hist w') = piped (hist w) /\ last_block (hist w') = block).
Proof.
  intros Hf Hb Hsz H0. unfold tftp_send_data_pkt. apply holds_bind, holds_get, holds_bind, holds_of_option.
  intros p Hp. apply holds_bind, holds_modify. set (w1 := World _ _).
  apply (holds_iterM E _ (fun a w' => loc w' = loc w1 /\ strays (hist w') = strays (hist w) /\
    piped (hist w') = piped (hist w) /\ trying block size a w') (fun a _ => 12 - a.1)%nat).
  - intros a w' (Hl & Hs & Hpi & Ht). eapply holds_mono; [by apply send_try_total| |done]. cbn beta.
    intros r w2 (Hl2 & Hs2 & Hp2 & Hr). rewrite Hl in Hl2. rewrite Hs in Hs2. rewrite Hpi in Hp2.
    destruct r as [a'|r]; [destruct Hr as [Ht' Hlt]|].
    + split; [done|]. destruct Ht' as [Hle _]. lia.
    + split; [by exists p|done].
  - split; [done|]. split; [done|]. split; [done|]. split; [cbn; lia|]. split; [done|]. split; [done|].
    intros pkt. by apply (sent_block block size (tx_pkt (loc w)) p).
  - unfold TFTP_MAX_RETRY. cbn. lia.
Qed.

(** Between two turns of the thread. *)
Record going (w : world) : Prop := Going {
  go_slot : slot (loc w) = 0;
  go_cur : 0 <= cur (loc w) < bs;
  go_rx : rx_block (loc w) = last_block (hist w);
  go_strays : (strays (hist w) <= m)%nat;
  go_rest : exists rest, log = piped (hist w) ++ rest;
  go_open : pipe1 (loc w) = -1 -> piped (hist w) = log /\ fails (hist w) = O;
}.

Definition todo (w : world) : nat :=
  (length log - length (piped (hist w)) + (m - strays (hist w)) +
   if (pipe1 (loc w) =? -1)%Z then 0 else 1)%nat.

Lemma total_poll_fds fuel n t (w : world) (Q : Z * Z * Z -> world -> Prop) : (0 < fuel)%nat ->
  (forall ret e r0 r1, 0 < ret -> has r1 POLLIN = true ->
     (has r0 POLLIN = true -> (strays (hist w) < m)%nat) ->
     Q (ret, r0, r1) (World (loc w) (Ev (PollFds n t) (ret, e, r0, r1) :: hist w))) ->
  total (poll_fds fuel n t) w Q.
Proof.
  intros Hf HQ. destruct fuel as [|fuel]; [lia|]. unfold poll_fds. cbn [iterM].
  apply holds_bind, holds_bind. unfold holds at 1, call. cbn zeta.
  pose proof (pr_fds _ _ _ HP (hist w) n t) as Hp.
  destruct (E _ (hist w) (PollFds n t)) as [[[ret e] r0] r1]. destruct Hp as (H1 & H2 & H3).
  cbn beta iota. replace ((ret <? 0) && (e =? 4)) with false; [by apply HQ|].
  symmetry. apply andb_false_iff. left. apply Z.ltb_ge. lia.
Qed.

(** After [poll], a datagram may be there: it is skipped. *)
Lemma recv_stray_total fuel s h n t a : slot s = 0 -> rx_block s = last_block h ->
  let w := World s (Ev (PollFds n t) a :: h) in
  total (recv_stray bs fuel) w (fun _ w' => (exists k, loc w' = s <| re_send := k |>) /\
    strays (hist w') = strays (hist w) /\ piped (hist w') = piped h /\ last_block (hist w') = last_block h).
Proof.
  intros Hs Hrx w. unfold recv_stray. apply holds_bind. unfold holds at 1, call. cbn zeta.
  pose proof (pr_stray _ _ _ HP h n t a) as Hst. cbn zeta in Hst. fold (hist w) in Hst |- *.
  change (Ev (PollFds n t) a :: h) with (hist w) in Hst.
  set (r := E _ (hist w) (Recv RX_SIZE)) in *. set (h1 := Ev (Recv RX_SIZE) r :: hist w).
  assert (Hp : piped h1 = piped h) by (cbn; by rewrite !app_nil_r).
  assert (Hsame : s = s <| re_send := re_send s |>) by by destruct s.
  destruct (negb _) eqn:Hack.
  { apply holds_ret. cbn [loc hist]. split; [by exists (re_send s)|done]. }
  apply negb_false_iff in Hack. specialize (Hst Hack). apply holds_bind, holds_get. cbn [loc hist].
  unfold w. cbn [loc]. rewrite Hst, Hrx.
  rewrite (proj2 (Z.eqb_neq _ _)) by lia. rewrite Z.eqb_refl.
  apply holds_bind. unfold resend. apply holds_bind, holds_get. cbn [loc]. rewrite Hs. cbn [Z.eqb].
  apply holds_ret, holds_ret. cbn [loc hist]. split; [by exists (re_send s)|done].
Qed.

(** What the end of the turn finds: more was read, or the pipe has ended. *)
Lemma read_pipe_total fuel r1 (w : world) : (0 < fuel)%nat -> going w -> pipe1 (loc w) <> -1 ->
  total (read_pipe bs fuel r1) w (fun skip w' => going w' /\ strays (hist w') = strays (hist w) /\
    (skip = has r1 POLL_END /\ pipe1 (loc w') <> -1 /\
     (length (piped (hist w)) < length (piped (hist w')))%nat \/
     skip = false /\ pipe1 (loc w') = -1)).
Proof.
  intros Hf [H1 H2 H3 H4 [rest H5] H6] Hopen. unfold read_pipe. apply holds_bind, holds_get.
  apply holds_bind. unfold holds at 1, call. cbn zeta.
  destruct (pr_pipe _ _ _ HP (hist w) (bs - cur (loc w)) rest H5) as (c & rest' & Hr & Hrest & Hend); [lia|].
  assert (Hlen : len c <= bs - cur (loc w)) by (eapply HR; [|exact Hr]; lia). rewrite Hr. set (h1 := Ev _ _ :: hist w).
  assert (Hp1 : piped h1 = piped (hist w) ++ c) by done.
  destruct c as [|b l]; cbn beta iota.
  - rewrite (Hend eq_refl), app_nil_r in H5. unfold close_pipe. steps. cbn [loc hist].
    assert (Hp2 : piped (Ev ClosePipe a :: h1) = log).
    { cbn [piped ev_piped]. by rewrite app_nil_r, Hp1, app_nil_r. }
    split; [|by split; [|right]]. split; cbn [loc hist]; try done.
    exists []. by rewrite Hp2, app_nil_r.
  - apply holds_bind, holds_of_option. intros p Hp. apply holds_bind, holds_modify, holds_bind, holds_get.
    cbn [loc hist]. set (s1 := set_field cur _ _). apply holds_bind.
    apply (holds_mono _ _ _ (fun _ w' => going w' /\ strays (hist w') = strays (hist w) /\
      pipe1 (loc w') <> -1 /\ piped (hist w') = piped h1) _ (fun _ _ => False)); [| |done].
    2: { intros _ w' (Hg & Hs & Hpi & Hpp). apply holds_ret. split; [done|]. split; [done|]. left.
         split; [done|]. split; [done|]. rewrite Hpp, Hp1, length_app. cbn. lia. }
    assert (Hcur : cur s1 = len (b :: l) + cur (loc w)) by done.
    assert (Hrst : log = piped h1 ++ rest') by (by rewrite H5, Hrest, Hp1, <-app_assoc).
    destruct (Z.eqb_spec (cur s1) bs) as [Hfull|Hmore].
    + apply holds_bind. eapply holds_mono; [apply send_total; try done|..|done].
      { apply Z.mod_pos_bound. lia. }
      { rewrite Hfull. lia. }
      cbn beta. cbn [loc hist]. intros r w2 ((p2 & Hl2) & Hs2 & Hpi2 & Hb2). apply holds_modify.
      cbn [loc hist]. rewrite Hl2. split; [|by rewrite Hs2, Hpi2].
      split; cbn [loc hist]; try done; [cbn; lia|by rewrite Hs2|rewrite Hpi2; by exists rest'].
    + apply holds_ret. split; [|done]. split; cbn [loc hist]; try done.
      * rewrite Hcur. unfold len in *. lia.
      * by exists rest'.
Qed.

Lemma piped_le (w : world) : going w -> (length (piped (hist w)) <= length log)%nat.
Proof. intros [_ _ _ _ [rest Hr] _]. rewrite Hr, length_app. lia. Qed.

Lemma going_same (w w' : world) k : going w -> pipe1 (loc w) <> -1 ->
  loc w' = (loc w) <| re_send := k |> ->
  piped (hist w') = piped (hist w) -> last_block (hist w') = last_block (hist w) ->
  (strays (hist w') <= m)%nat -> going w'.
Proof.
  intros [H1 H2 H3 H4 H5 H6] Ho Hl Hp Hb Hs. split; rewrite ?Hl, ?Hp, ?Hb; try done.
Qed.

Lemma close_pipe_total (w : world) : going w -> pipe1 (loc w) = -1 ->
  total close_pipe w (fun _ w' => going w' /\ pipe1 (loc w') = -1 /\
    strays (hist w') = strays (hist w) /\ piped (hist w') = piped (hist w)).
Proof.
  intros [H1 H2 H3 H4 H5 H6] Hc. destruct (H6 Hc) as [Hlog _]. unfold close_pipe. steps. cbn [loc hist].
  assert (Hp : piped (Ev ClosePipe a :: hist w) = piped (hist w)) by apply app_nil_r.
  split; [|done]. split; cbn [loc hist]; rewrite ?Hp; done.
Qed.

Lemma todo_lt (w w' : world) : (length (piped (hist w')) <= length log)%nat ->
  (length (piped (hist w)) <= length (piped (hist w')))%nat -> pipe1 (loc w) <> -1 ->
  (m - strays (hist w') <= m - strays (hist w))%nat ->
  (length (piped (hist w)) < length (piped (hist w')) \/
   m - strays (hist w') < m - strays (hist w) \/ pipe1 (loc w') = (-1)%Z)%nat ->
  (todo w' < todo w)%nat.
Proof.
  intros Hle Hp Ho Hs Hc. unfold todo. rewrite (proj2 (Z.eqb_neq (pipe1 (loc w)) _)) by done.
  destruct (Z.eqb_spec (pipe1 (loc w')) (-1)); lia.
Qed.

(** The first half of a turn: what arrived on the socket. *)
Lemma turn_stray_total fuel (w : world) n t ret e r0 r1 : going w -> pipe1 (loc w) <> -1 ->
  (has r0 POLLIN = true -> (strays (hist w) < m)%nat) ->
  let w1 := World (loc w) (Ev (PollFds n t) (ret, e, r0, r1) :: hist w) in
  total (if has r0 POLLIN then recv_stray bs fuel else mret false) w1 (fun skip w' =>
    going w' /\ pipe1 (loc w') <> -1 /\ piped (hist w') = piped (hist w) /\
    (m - strays (hist w') <= m - strays (hist w))%nat /\
    (skip = true -> (m - strays (hist w') < m - strays (hist w))%nat)).
Proof.
  intros Hg Ho Hr0 w1.
  assert (Hx : strays (hist w1) = if has r0 POLLIN then S (strays (hist w)) else strays (hist w)) by done.
  assert (Hpx : piped (hist w1) = piped (hist w)) by apply app_nil_r.
  pose proof (go_strays w Hg) as Hm. destruct (has r0 POLLIN).
  - specialize (Hr0 eq_refl).
    eapply holds_mono; [apply recv_stray_total; [apply Hg|exact (go_rx w Hg)]| |done].
    cbn beta. intros skip w' ((k & Hl) & Hs & Hp & Hb). change (hist (World _ _)) with (hist w1) in Hs.
    split; [apply (going_same w w' k); try done; lia|]. rewrite Hl. split; [done|]. split; [done|]. lia.
  - apply holds_ret. split; [|by rewrite Hx, Hpx].
    apply (going_same w w1 (re_send (loc w))); try done; [cbn; by destruct (loc w)|lia].
Qed.

(** The second half: what the pipe gives. *)
Lemma turn_read_total fuel r1 (w : world) : (0 < fuel)%nat -> going w -> pipe1 (loc w) <> -1 ->
  total (skip ← read_pipe bs fuel r1;
         if (skip : bool) then mret (inl tt) else
         (if has r1 POLL_END then close_pipe else mret tt);; mret (inl tt)) w
    (fun (r : unit + unit) w' => going w' /\ r = inl tt /\ (todo w' < todo w)%nat).
Proof.
  intros Hf Hg Ho. pose proof (piped_le w Hg) as Hle. apply holds_bind.
  eapply holds_mono; [by apply read_pipe_total| |done]. cbn beta.
  intros skip w3 (Hg3 & Hs3 & Hcase). pose proof (piped_le w3 Hg3) as Hle3.
  destruct Hcase as [(-> & Ho3 & Hlt)|(-> & Hc3)].
  - assert (Hlt' : (todo w3 < todo w)%nat) by (apply todo_lt; rewrite ?Hs3; auto; lia).
    destruct (has r1 POLL_END); [by apply holds_ret|]. by apply holds_bind, holds_ret, holds_ret.
  - assert (Hclosed : forall w4 : world, pipe1 (loc w4) = -1 -> strays (hist w4) = strays (hist w3) ->
      piped (hist w4) = piped (hist w3) -> (todo w4 < todo w)%nat).
    { intros w4 Hc4 Hs4 Hp4. destruct (go_open w3 Hg3 Hc3) as [Hlog _].
      apply todo_lt; rewrite ?Hs4, ?Hs3, ?Hp4, ?Hlog; auto; lia. }
    apply holds_bind. destruct (has r1 POLL_END); [|apply holds_ret, holds_ret; by auto].
    eapply holds_mono; [by apply close_pipe_total| |done]. cbn beta.
    intros _ w4 (Hg4 & Hc4 & Hs4 & Hp4). apply holds_ret. by auto.
Qed.

(** A turn ends the loop, once everything was read, or makes progress. *)
Lemma tftp_turn_total fuel (w : world) : (0 < fuel)%nat -> going w ->
  total (tftp_turn bs fuel tt) w (fun r w' => going w' /\
    match r with inl _ => (todo w' < todo w)%nat | inr _ => pipe1 (loc w') = -1 end).
Proof.
  intros Hf Hg. unfold tftp_turn. apply holds_bind, holds_get.
  rewrite (go_slot w Hg), Z.eqb_refl, !andb_true_r.
  destruct (pipe1 (loc w) =? -1) eqn:Hpipe; [apply holds_ret; split; [done|by apply Z.eqb_eq]|].
  cbn [negb]. apply Z.eqb_neq in Hpipe. apply holds_bind, total_poll_fds; [done|].
  intros ret e r0 r1 Hret Hr1 Hr0. cbn beta iota. rewrite (proj2 (Z.leb_gt ret 0)) by lia.
  apply holds_bind. eapply holds_mono; [by apply turn_stray_total| |done]. cbn beta.
  intros skip w2 (Hg2 & Ho2 & Hp2 & Hs2 & Hskip). pose proof (piped_le w2 Hg2) as Hle2. destruct skip.
  { apply holds_ret. split; [done|]. apply todo_lt; rewrite ?Hp2; rewrite ?Hp2 in Hle2; auto. }
  cbn [Z.eqb Pos.eqb]. rewrite Hr1. eapply holds_mono; [by apply turn_read_total| |done]. cbn beta.
  intros r w3 (Hg3 & -> & Hlt). split; [done|]. eapply Nat.lt_le_trans; [exact Hlt|].
  unfold todo. rewrite Hp2. rewrite !(proj2 (Z.eqb_neq (pipe1 _) _)) by done. lia.
Qed.

Lemma thread_total fuel s : pipe1 s <> -1 -> (length log + m + 2 <= fuel)%nat ->
  total (tftp_write_thread bs fuel) (World s []) (fun _ w' => piped (hist w') = log).
Proof.
  intros Hs Hf. unfold tftp_write_thread. apply holds_bind, holds_modify, holds_bind.
  apply (holds_iterM E _ (fun _ w' => going w') (fun _ w' => todo w')).
  - intros [] w' Hg. eapply holds_mono; [apply tftp_turn_total; [lia|done]| |done]. cbn beta.
    intros [[]|[]] w1 [Hg1 Hr]; [done|]. destruct (go_open w1 Hg1 Hr) as [Hlog Hfails].
    apply holds_bind, holds_get, holds_bind, holds_modify, holds_bind.
    eapply holds_mono; [apply send_total; [lia|apply Z.mod_pos_bound; lia|apply Hg1|done]| |done].
    cbn beta. cbn [loc hist]. intros r w2 ((p & Hl2) & _ & Hp2 & _). apply holds_bind, holds_call.
    intros a. apply holds_bind, holds_get. cbn [loc hist].
    replace (pipe1 (loc w2)) with (-1) by (by rewrite Hl2).
    apply holds_ret. cbn [hist piped ev_piped]. by rewrite app_nil_r, Hp2.
  - split; try done; [cbn; lia|cbn; lia|by exists log].
  - unfold todo. cbn [hist piped strays length loc pipe1 set_field].
    destruct (_ =? -1); lia.
Qed.

(** C4: an upload completes.  If of any twelve tries for a block one is
    acknowledged, the server reports no error, acknowledges between blocks only
    the last one and sends a bounded number of datagrams there, every [sendto]
    succeeds, no [poll] is interrupted, and the pipe always has data before its poll of 12 seconds times out until
    the program that writes the log closes it, then the thread returns, having read the
    whole log, and the server has stored exactly that log.  Without these provisos it need not: an
    acknowledgement of an older block aborts the program, and after fourteen idle
    pauses the thread ends early. *)
Theorem upload_completes fuel s :
  len (tx_pkt s) = Z.of_nat DATA_OFF + DATA_ROOM -> pipe1 s <> -1 ->
  (length log + m + 2 <= fuel)%nat ->
  runs E (tftp_write_thread bs fuel) (World s []) (fun _ w' => piped (hist w') = log /\
    forall n, net_run (hist w') n -> file n = log).
Proof.
  intros Hl Hs Hf. eapply runs_mono.
  { apply holds_yields_runs with (X := aborts); [by apply thread_total|].
    by apply (thread_yields E HS HR bs Hbs fuel s). }
  cbn beta. intros _ w' (Hlog & ps & p & Hb & Hi). split; [done|]. intros n Hn.
  destruct (inv_net _ _ _ _ Hi n Hn) as (H1 & H2 & H3 & _). rewrite length_app in H1, H2. cbn in H1, H2.
  rewrite H3, take_ge by (rewrite length_app; cbn; lia).
  rewrite concat_app. cbn. rewrite app_nil_r. destruct Hb as (Hb & _). by rewrite <-Hb.
Qed.
End Completes.

(** ** A network without loss *)

Definition acked_by (n : srv) (r : option (list Z)) : bool :=
  negb (is_cmd TFTP_ACK r) ||
  existsb (fun j => (Z.of_nat (count n) - Z.of_nat j <? LIFETIME) && (block_of r =? u16 (Z.of_nat j)))
    (acks n).

(** Every datagram arrives at once. *)
Fixpoint direct (h : list (io tsys)) : option srv :=
  match h with
  | [] => Some srv_init
  | Ev c a :: h' =>
      n ← direct h';
      match c in tsys B return B -> option srv with
      | Sendto p => fun _ => Some (srv_recv n p)
      | Recv _ => fun r => if acked_by n r then Some n else None
      | _ => fun _ => Some n
      end a
  end.

Lemma direct_net h n : direct h = Some n -> net_run h n.
Proof.
  revert n. induction h as [|[A c a] h IH]; intros n Hn; [injection Hn as <-; apply net_nil|].
  cbn [direct] in Hn. destruct (direct h) as [n0|]; [|done]. cbn [mbind option_bind] in Hn.
  specialize (IH n0 eq_refl).
  destruct c; try (injection Hn as <-; apply net_event; [done|exact I]).
  - injection Hn as <-. apply net_deliver with O; [|done|done]. by apply net_event.
  - destruct (acked_by n0 a) eqn:Hack; [|done]. injection Hn as <-. apply net_event; [done|].
    intros Hr. unfold acked_by in Hack. rewrite Hr in Hack. cbn [negb orb] in Hack.
    apply existsb_exists in Hack as (j & Hj & Hb). exists j. rewrite andb_true_iff in Hb.
    rewrite Z.ltb_lt, Z.eqb_eq in Hb. by rewrite list_elem_of_In.
Qed.

(** A peer that acknowledges at once, and a program that writes [log]. *)
Definition ideal (log : list Z) : env tsys := fun A h c =>
  match c in tsys B return B with
  | Socket => 3
  | Sendto p => len p
  | PollSock _ => (1, 0)
  | PollFds _ _ => (1, 0, 0, 1)
  | Recv _ => Some (be16 TFTP_ACK ++ be16 (last_block h))
  | ReadPipe n => Some (take (Z.to_nat n) (drop (length (piped h)) log))
  | Malloc _ => Some (fun _ => 0)
  | Socketpair => (4, 5)
  | ClosePipe | CloseSock | Spawn | Join => tt
  | WriteFd _ buf => len buf
  | CloseFd _ => tt
  end.

Definition three_bytes : env tsys := ideal [7; 8; 9].
Definition thread_start : tst := Tst 0 5 (replicate (Z.to_nat 16388) 0) 0 0 0 0 true.

Lemma ideal_sends log : sends_succeed (ideal log).
Proof. intros h p. cbn. unfold len. lia. Qed.

Lemma ideal_reads log : reads_bounded (ideal log).
Proof. intros h n r Hn [= <-]. unfold len. rewrite length_take. lia. Qed.

Lemma last_block_range h : 0 <= last_block h < 2 ^ 16.
Proof. unfold last_block. destruct (sends h); [lia|]. by apply Z.mod_pos_bound. Qed.

Lemma ideal_ack log h size : let r := ideal log _ h (Recv size) in
  is_cmd TFTP_ACK r = true /\ block_of r = last_block h.
Proof. split; [done|]. apply be_val_be16, last_block_range. Qed.

Lemma ideal_prompt log : prompt (ideal log) log 0.
Proof.
  split.
  - intros h t. cbn. lia.
  - intros h t _. cbn zeta. split; [cbn; lia|].
    apply (ideal_ack log (Ev (PollSock t) (1, 0) :: h)).
  - done.
  - done.
  - intros h n t a. cbn zeta. intros _. by apply (ideal_ack log (Ev (PollFds n t) a :: h)).
  - intros h n rest Hl Hn. eexists _, (drop (Z.to_nat n) rest). split; [done|].
    rewrite Hl, drop_app_length, take_drop. split; [done|].
    destruct rest as [|b l]; [done|]. destruct (Z.to_nat n) eqn:He; [lia|done].
Qed.


Lemma upload_completes_witness :
  runs three_bytes (tftp_write_thread 2 9) (World thread_start []) (fun _ w' =>
    piped (hist w') = [7; 8; 9] /\ forall n, net_run (hist w') n -> file n = [7; 8; 9]).
Proof.
  apply (upload_completes three_bytes [7; 8; 9] 0); try done.
  - apply ideal_sends.
  - apply ideal_reads.
  - apply ideal_prompt.
  - cbn. lia.
Defined.
