(* ===== verification/Buffers.v ===== *)
(** Stores at the front of a buffer, and the bytes of a memory: what the proofs
    about the dump protocols share. *)

From Stdlib Require Import ZArith Lia.
From stdpp Require Import base list.
From S2P Require Import Prelude.

(** ** Stores *)

Lemma put0 v l : put 0 v l = v ++ drop (length v) l.
Proof. unfold put. by rewrite take_0. Qed.

Lemma lookup_put0 v l i : (i < length v)%nat -> put 0 v l !! i = v !! i.
Proof. intros H. rewrite put0. by apply lookup_app_l. Qed.

Lemma slice_put0 v l off n : (off + n <= length v)%nat -> slice off n (put 0 v l) = slice off n v.
Proof.
  intros H. rewrite put0. unfold slice. rewrite drop_app_le by lia.
  apply take_app_le. rewrite length_drop. lia.
Qed.

Lemma put_nil off l : (off <= length l)%nat -> put off [] l = l.
Proof. intros H. unfold put. cbn [length app]. rewrite Nat.add_0_r. apply take_drop. Qed.

Lemma slice_all l : slice 0 (length l) l = l.
Proof. unfold slice. by rewrite drop_0, take_ge. Qed.

Lemma slice_app_r off n x l : (length x <= off)%nat ->
  slice off n (x ++ l) = slice (off - length x) n l.
Proof. intros H. unfold slice. by rewrite drop_app_ge. Qed.

Lemma slice_app_l off n x l : (off + n <= length x)%nat -> slice off n (x ++ l) = slice off n x.
Proof.
  intros H. unfold slice. rewrite drop_app_le by lia. apply take_app_le. rewrite length_drop. lia.
Qed.

(** Pieces that are stored one behind the other. *)
Lemma put_front n v x l : length x = n -> put n v (x ++ l) = (x ++ v) ++ drop (length v) l.
Proof.
  intros <-. unfold put. rewrite take_app_length, <-app_assoc. f_equal. f_equal.
  rewrite drop_app_ge by lia. f_equal. lia.
Qed.

(** ** The bytes of a memory *)

Definition mem_bytes (mem : Z -> Z) (a n : Z) : list Z :=
  map (fun i => mem (a + Z.of_nat i)) (seq 0 (Z.to_nat n)).

Lemma mem_bytes_length {mem} a n : length (mem_bytes mem a n) = Z.to_nat n.
Proof. unfold mem_bytes. by rewrite length_map, length_seq. Qed.

Lemma mem_bytes_app {mem} a n m : 0 <= n -> 0 <= m ->
  mem_bytes mem a (n + m) = mem_bytes mem a n ++ mem_bytes mem (a + n) m.
Proof.
  intros Hn Hm. unfold mem_bytes. rewrite Z2Nat.inj_add, seq_app, map_app by lia. f_equal.
  rewrite Nat.add_0_l. rewrite <-(Nat.add_0_r (Z.to_nat n)) at 1. rewrite <-fmap_add_seq.
  change (map ?f (?g <$> ?l)) with (map f (map g l)). rewrite map_map. apply map_ext.
  intros i. f_equal. lia.
Qed.

Lemma mem_bytes_bytes {mem} a n : (forall x, is_byte (mem x)) -> bytes (mem_bytes mem a n).
Proof. intros H. apply Forall_forall. intros b (i & <- & _)%list_elem_of_In%in_map_iff. apply H. Qed.
