(* ===== verification/UnisocSys.v ===== *)
(** What the UNISOC code (src/unisoc.c) stands on: the calls it makes, and its
    static variables. *)

From Stdlib Require Import ZArith Lia.
From stdpp Require Import base list.
From S2P Require Import Prelude DiagPkt.

(** The calls.  [qlog_poll_read] answers the bytes it stored, [None] for -1.
    While a thread sleeps the reader thread works: a sleep answers the buffers
    it has taken from the port.  The volatile [qlog_exit_requested], which the
    signal handler sets, and the counter of received buffers are read by calls. *)
Inductive usys : Type -> Type :=
| PollWrite (fd : Z) (buf : list Z) (timeout : Z) : usys Z
| PollRead (fd n timeout : Z) : usys (option (list Z))
| Write (fd : Z) (buf : list Z) : usys Z
| LogfileSave (fd : Z) (buf : list Z) : usys Z
| LogfileCreate (file_type : Z) (name : list Z) (tftp_size is_dump : Z) : usys Z
| LogfileClose (fd : Z) : usys unit
| Open (path : list Z) : usys Z
| Close (fd : Z) : usys unit
| ReadFile (path : list Z) : usys (option (list Z))
| MakeDir (path : list Z) : usys unit
| MissingDir (path : list Z) : usys bool
| EnoughSpace (dir : list Z) (mb : Z) : usys bool
| TimeName : usys (list Z)
| Gettimeofday : usys (Z * Z)
| Malloc (n : Z) : usys (option (nat -> Z))
| Sleep (msecs : Z) : usys (list (list Z))
| UsbControl (usbfd wValue : Z) : usys Z
| StartCpdumpThread : usys unit
| RxLogCount : usys Z
| SignalledExit : usys bool.

(** The static variables of unisoc.c, the globals it sets, and [pbuf], the
    receive buffer of main.c that the dump functions are given. *)
Record us : Type := Us {
  m_bUE_Obtained : Z;
  m_bVer_Obtained : Z;
  m_bSendTCmd : Z;
  s_pRequest : option (list Z);
  m_bAT_result : Z;
  at_buff : list Z;
  unisoc_log_buf : option (list Z);
  unisoc_log_size : nat;
  unisoc_diag_pkt : option diag_pkt;
  unisoc_diag_fd : Z;
  unisoc_logfile_fd : Z;
  rid : Z;
  rid_ec800g : Z;
  exx00u_is_blue_screen : Z;
  exx00u_blue_screen_fd : Z;
  ec800g_is_blue_screen : Z;
  ec800g_blue_screen_fd : Z;
  pbuf : list Z;
  pbuf_tmp : option (list Z);
  g_donot_split_logfile : Z;
  g_unisoc_had_crash : Z;
  qlog_exit_requested : Z;
}.
#[export] Instance eta_us : Eta us := fun s =>
  Us (m_bUE_Obtained s) (m_bVer_Obtained s) (m_bSendTCmd s) (s_pRequest s) (m_bAT_result s)
    (at_buff s) (unisoc_log_buf s) (unisoc_log_size s) (unisoc_diag_pkt s) (unisoc_diag_fd s)
    (unisoc_logfile_fd s) (rid s) (rid_ec800g s) (exx00u_is_blue_screen s)
    (exx00u_blue_screen_fd s) (ec800g_is_blue_screen s) (ec800g_blue_screen_fd s) (pbuf s)
    (pbuf_tmp s) (g_donot_split_logfile s) (g_unisoc_had_crash s) (qlog_exit_requested s).

Abbreviation U := (M usys us).

(** The globals of main.c that choose the chip and the stream. *)
Record chip : Type := Chip {
  g_is_unisoc_chip : Z;
  g_is_unisoc_exx00u_chip : Z;
  g_unisoc_log_type : Z;
  query_panic_addr : Z;
}.

Definition upd {A} (f : us -> A) `{!Setter f} (v : A) : U unit :=
  modify (set_field f (fun _ => v)).

Definition exit_requested : U bool :=
  s ← get; e ← call SignalledExit; mret (e || negb (qlog_exit_requested s =? 0)).

(** [malloc]: what the memory happens to hold. *)
Definition malloc (n : Z) : U (option (list Z)) :=
  f ← call (Malloc n); mret (option_map (fun f => map f (seq 0 (Z.to_nat n))) f).
