(* ===== verification/UnisocCmd.v ===== *)
(** The commands of the UNISOC blue-screen dump (src/unisoc.c): the requests
    of the EXX00U and EC800G chips, and the tests of what comes back. *)

From Stdlib Require Import ZArith Lia.
From stdpp Require Import base list.
From S2P Require Import Prelude UnisocSys.

Definition QLOG_BUF_SIZE : Z := 64 * 1024.

(** ** EXX00U *)

(** Bytes 3 to [size - 2], combined by exclusive or. *)
Definition PacketCrc (packet : list Z) (size : nat) : Z :=
  fold_left Z.lxor (slice 3 (size - 4) packet) 0.

(** The three requests; [type] 0 asks for the status, 1 for a block, any other
    for a word. *)
Definition exx00u_query (id addr : Z) : list Z :=
  let b := put 9 [id] [0xad; 0x00; 0x07; 0xff; 0x00; 0xb1; 0x86; 0xc1; 0x80; 0x01; 0x88] in
  let b := put 5 (le_bytes 4 addr) b in put 10 [PacketCrc b 11] b.
Definition exx00u_readBlock (id addr size : Z) : list Z :=
  let b := put 9 [id] [0xad; 0x00; 0x09; 0xfe; 0x0b; 0x00; 0x00; 0x00; 0x00; 0x01; 0x00; 0x08; 0x88] in
  let b := put 5 (le_bytes 4 addr) b in
  let b := put 10 (le_bytes 2 size) b in put 12 [PacketCrc b 13] b.
Definition exx00u_read32 (id addr : Z) : list Z :=
  let b := put 9 [id] [0xad; 0x00; 0x07; 0xfe; 0x02; 0x00; 0x00; 0x00; 0x00; 0x01; 0x00] in
  let b := put 5 (le_bytes 4 addr) b in put 10 [PacketCrc b 11] b.

Definition next_rid (id : Z) : Z := if id =? 255 then 1 else u8 (id + 1).

Definition unisoc_exx00u_send_cmd (fd : Z) (buff : list Z) : U Z :=
  r ← call (PollWrite fd buff 1000); mret (u64 r).
(** The result is a [size_t]; the bytes go to the front of [pbuf]. *)
Definition unisoc_exx00u_recv_cmd (fd size : Z) : U Z :=
  r ← call (PollRead fd size 3000);
  match r with
  | None => mret (u64 (-1))
  | Some l =>
      let l := take (Z.to_nat size) l in
      s ← get; b ← of_option (wr 0 l (pbuf s)); upd pbuf b;; mret (len l)
  end.

Definition unisoc_exx00u_send_cmd_complete (fd addr size type : Z) : U Z :=
  modify (fun s => s <| rid ::= next_rid |>);;
  s ← get;
  unisoc_exx00u_send_cmd fd
    (if type =? 0 then exx00u_query (rid s) addr
     else if type =? 1 then exx00u_readBlock (rid s) addr (u16 size)
     else exx00u_read32 (rid s) addr).

(** A byte of a buffer. *)
Definition byte (i : nat) (b : list Z) : U Z := of_option (b !! i).

(** Answers the count, and [save_buff] with the data.  A length below 2 wraps
    around: the copy leaves every buffer. *)
Definition checkReadBlock (buff : list Z) (rc : Z) (save_buff : list Z) : U (Z * list Z) :=
  if rc <? 8 then mret (0, save_buff) else
  hi ← byte 1 buff; lo ← byte 2 buff;
  let data_size := hi * 256 + lo in
  if rc <? data_size + 4 then mret (0, save_buff) else
  data_rid ← byte 4 buff;
  s ← get;
  if negb (data_rid =? rid s) then mret (0, save_buff) else
  if data_size <? 2 then undef else
  data ← of_option (rd_bytes 5 (Z.to_nat (data_size - 2)) buff);
  b ← of_option (wr 0 data save_buff);
  mret (data_size - 2, b).

(** Answers [rc] or 0, and the value when it is stored. *)
Definition checkRead (buff : list Z) (rc : Z) : U (Z * option Z) :=
  if rc <? 10 then mret (0, None) else
  data_rid ← byte 4 buff;
  s ← get;
  if negb (data_rid =? rid s) then mret (0, None) else
  b5 ← byte 5 buff; b6 ← byte 6 buff; b7 ← byte 7 buff; b8 ← byte 8 buff;
  mret (rc, Some (b5 * 2 ^ 24 + b6 * 2 ^ 16 + b7 * 2 ^ 8 + b8)).

(** ** EC800G *)

Definition ec800g_frame (id addr : Z) (b : list Z) : list Z :=
  put 17 (le_bytes 4 addr) (put 1 (le_bytes 4 id) b).
Definition ec800g_query (id addr : Z) : list Z :=
  ec800g_frame id addr
    [0x7e; 0x02; 0x00; 0x00; 0xab; 0x18; 0x00; 0x0b; 0x00; 0x03; 0xa0; 0x10; 0x00;
     0x00; 0x00; 0x00; 0x00; 0x81; 0x95; 0xa2; 0x80; 0x01; 0x00; 0x00; 0x00; 0x7e].
Definition ec800g_readBlock (id addr size : Z) : list Z :=
  put 21 (le_bytes 4 size) (ec800g_frame id addr
    [0x7e; 0x02; 0x00; 0x00; 0xab; 0x18; 0x00; 0x0b; 0x00; 0x03; 0xa0; 0x10; 0x00;
     0x00; 0x00; 0x00; 0x00; 0x81; 0x95; 0xa2; 0x80; 0x00; 0x04; 0x00; 0x00; 0x7e]).
Definition ec800g_read32 (id addr : Z) : list Z :=
  ec800g_frame id addr
    [0x7e; 0x02; 0x00; 0x00; 0xab; 0x18; 0x00; 0x0b; 0x00; 0x03; 0xa0; 0x10; 0x00;
     0x20; 0x00; 0x00; 0x00; 0x00; 0x80; 0x00; 0x80; 0x01; 0x00; 0x00; 0x00; 0x7e].

(** The 26 bytes of a request with everything but the flags escaped. *)
Fixpoint escape_from (i : nat) (l : list Z) : list Z :=
  match l with
  | [] => []
  | b :: l' =>
      (if (i =? 0)%nat || (i =? 26 - 1)%nat then [b]
       else if b =? 0x7e then [0x7d; 0x5e]
       else if b =? 0x7d then [0x7d; 0x5d] else [b]) ++ escape_from (S i) l'
  end.

Definition unisoc_ec800g_send_cmd (fd : Z) (buff : list Z) : U Z :=
  r ← call (PollWrite fd buff 1000); mret (u64 r).
Definition unisoc_ec800g_recv_cmd (fd size : Z) : U Z := unisoc_exx00u_recv_cmd fd size.

Definition unisoc_ec800g_send_cmd_complete (fd addr size type : Z) : U Z :=
  modify (fun s => s <| rid_ec800g ::= fun r => u32 (r + 1) |>);;
  s ← get;
  unisoc_ec800g_send_cmd fd (escape_from 0
    (if type =? 0 then ec800g_query (rid_ec800g s) addr
     else if type =? 1 then ec800g_readBlock (rid_ec800g s) addr size
     else ec800g_read32 (rid_ec800g s) addr)).

(** The unescaping loop over the [togo] bytes received, with [buf] from index
    [i] on: the bytes stored, and how many escapes there were.  The byte after
    a last 0x7D is read whether it was received or not; any other byte behind
    0x7D makes the 0x7D disappear. *)
Fixpoint unescape (togo : nat) (buf : list Z) : option (list Z * Z) :=
  match togo with
  | O => Some ([], 0)
  | S n =>
      match buf with
      | [] => None
      | b :: rest =>
          if b =? 0x7d then
            match rest with
            | [] => None
            | c :: rest' =>
                if (c =? 0x5d) || (c =? 0x5e) then
                  let d := if c =? 0x5d then 0x7d else 0x7e in
                  match n with
                  | O => Some ([d], 1)
                  | S m => '(l, k) ← unescape m rest'; Some (d :: l, k + 1)
                  end
                else unescape n rest
            end
          else '(l, k) ← unescape n rest; Some (b :: l, k)
      end
  end.

(** The first place of the pattern of an answer. *)
Definition answer_at (l : list Z) : bool :=
  match l with
  | b0 :: _ :: _ :: _ :: _ :: _ :: _ :: b7 :: b8 :: b9 :: b10 :: _ =>
      (b0 =? 0x7e) && (b7 =? 0x0b) && (b8 =? 0x00) && (b9 =? 0x03) && (b10 =? 0xa0)
  | _ => false
  end.
Fixpoint find_answer (togo i : nat) (buf : list Z) : option nat :=
  match togo with
  | O => None
  | S n =>
      if (20 <=? togo)%nat && answer_at buf then Some i
      else find_answer n (S i) (tail buf)
  end.
