(* ===== verification/UnisocLog.v ===== *)
(** Logging of the UNISOC modules (src/unisoc.c): the SMP log stream, the DIAG
    stream, AT commands, the assertion of the modem, and the log operations of
    the module.

    The handler of the deframer stores into the packet it is given; what it
    stores is overwritten before it is read, so its calls are replayed on
    copies of the packets. *)

From Stdlib Require Import ZArith Lia.
From stdpp Require Import base list.
From S2P Require Import Prelude DiagPkt UnisocSys UnisocCmd.

Definition DIAG_SWVER_F : Z := 0.
Definition DIAG_SYSTEM_F : Z := 5.
Definition DIAG_LOG_A : Z := 152.
Definition MSG_BOARD_ASSERT : Z := 255.
Definition ITC_REQ_TYPE : Z := 209.
Definition ITC_REP_SUBTYPE : Z := 101.
Definition UET_SUBTYPE_CORE0 : Z := 102.
Definition UET_SEQ_NUM : Z := 0x0000FFFF.
Definition NORMAL_INFO : Z := 0.
Definition DUMP_ALL_ASSERT_INFO_END : Z := 4.
Definition DIAG_HDR_LEN : nat := 8.
Definition UET_DIAG_LEN : nat := 20.
Definition SMP_START_LEN : nat := 4.
Definition SMP_HDR_LEN : nat := 8.
Definition unisoc_log_max : nat := 24 * 1024.
(** The limits of the deframer: [sizeof(DIAG_PACKAGE) + 2] and the largest packet. *)
Definition diag_min : nat := 10.
Definition diag_max : nat := Z.to_nat (0x4008 + 2).

(** ** The checksum of the SMP header *)

(** The sum of the 16-bit words, [big] when their bytes are to be swapped. *)
Fixpoint frm_sum (big : bool) (src : list Z) (sum : Z) : Z :=
  match src with
  | b0 :: b1 :: rest =>
      frm_sum big rest (u32 (sum + (if big then b0 * 256 + b1 else b0 + b1 * 256)))
  | [b] => u32 (sum + b)
  | [] => sum
  end.
Definition frm_chk (src : list Z) (nEndian : Z) : Z :=
  let sum := frm_sum (nEndian =? 1) src 0 in
  let sum := u32 (Z.shiftr sum 16 + Z.land sum 0xFFFF) in
  let sum := u32 (sum + Z.shiftr sum 16) in
  u16 (Z.lnot sum).
Definition CheckHeader (hdr : list Z) : bool := frm_chk hdr 0 =? 0.

(** ** Records of the log file *)

(** [size] is a DWORD.  With room before the data the length is stored there;
    answers the memory. *)
Definition WriteDataToFile (logfd : Z) (mem : list Z) (off : nat) (size header : Z) : U (list Z) :=
  let le32 := le_bytes 4 size in
  if 4 <=? header then
    mem ← of_option (if bool_decide (4 <= off)%nat then wr (off - 4) le32 mem else None);
    data ← of_option (rd_bytes (off - 4) (Z.to_nat (u32 (size + 4))) mem);
    call (LogfileSave logfd data);; mret mem
  else
    call (LogfileSave logfd le32);;
    data ← of_option (rd_bytes off (Z.to_nat size) mem);
    call (LogfileSave logfd data);; mret mem.

Definition GetTimeStamp : U Z :=
  '(sec, usec) ← call Gettimeofday;
  mret (u64 (u64 (u64 sec * 1000) + usec / 1000 + 28800000)).

Definition DIAG_HEADER (sn len type subtype : Z) : list Z :=
  le_bytes 4 sn ++ le_bytes 2 len ++ [type; subtype].

Definition unisoc_logfile_init (logfd : Z) : U Z :=
  let lpBuf := DIAG_HEADER 0 16 ITC_REQ_TYPE ITC_REP_SUBTYPE ++ le_bytes 4 7 ++ [0; 1; 1] ++
               replicate 17 0 in
  lpBuf ← WriteDataToFile logfd lpBuf 0 16 0;
  t ← GetTimeStamp;
  let lpBuf := put 0 (DIAG_HEADER UET_SEQ_NUM 20 ITC_REQ_TYPE UET_SUBTYPE_CORE0 ++
                      le_bytes 8 t ++ le_bytes 4 0) lpBuf in
  WriteDataToFile logfd lpBuf 0 20 0;;
  mret 0.

(** ** The SMP stream *)

(** What the tests of the loop say of the place [cur] in [mem], of which [size]
    bytes are data: wait for more, go on by a byte, or a packet of [pkt_len]. *)
Inductive smp_test : Type := Wait | Skip | Packet (pkt_len : nat).

Definition smp_check (mem : list Z) (cur size : nat) : smp_test :=
  if bool_decide (size < cur + SMP_START_LEN + SMP_HDR_LEN)%nat then Wait else
  let hdr := slice (cur + SMP_START_LEN) SMP_HDR_LEN mem in
  if negb (bool_decide (slice cur SMP_START_LEN mem = [0x7E; 0x7E; 0x7E; 0x7E])) then Skip
  else if negb (CheckHeader hdr) then Skip
  else if negb (get_le 2 1 hdr =? 0) then Skip
  else if negb (get_le 3 1 hdr =? 0) && negb (get_le 3 1 hdr =? 0xf8) then Skip
  else if negb (get_le 4 2 hdr =? 0x5A5A) then Skip
  else
    let pkt_len := Z.to_nat (get_le 0 2 hdr) in
    if bool_decide (size < cur + SMP_START_LEN + pkt_len)%nat then Wait else Packet pkt_len.

(** A turn of the loop; [lpBuf] is the offset of the pointer of that name. *)
Definition smp_step (logfd : Z) (size : nat) (a : nat * nat * list Z)
    : U (nat * nat * list Z + nat * nat * list Z) :=
  let '(cur, lpBuf, mem) := a in
  if bool_decide (size <= cur)%nat then mret (inr (cur, lpBuf, mem)) else
  match smp_check mem cur size with
  | Wait => mret (inr (cur, cur, mem))
  | Skip =>
      if bool_decide (S cur = size) then mret (inr (cur, cur, mem)) else mret (inl (S cur, cur, mem))
  | Packet pkt_len =>
      mem ← WriteDataToFile logfd mem (cur + SMP_START_LEN + SMP_HDR_LEN)
              (u32 (Z.of_nat pkt_len - 8)) 8;
      mret (inl ((cur + (SMP_START_LEN + pkt_len))%nat, cur, mem))
  end.

Definition log_buf_alloc : U (option (list Z)) :=
  s ← get;
  match unisoc_log_buf s with
  | Some b => mret (Some b)
  | None => b ← malloc (Z.of_nat unisoc_log_max); upd unisoc_log_buf b;; mret b
  end.

(** The memory the loop works on, [log] itself when that holds something, and
    how many of its bytes are data. *)
Definition smp_gather (log : list Z) (held : nat) (inBuf : list Z) : U (list Z * nat) :=
  if (held =? 0)%nat then mret (inBuf, length inBuf)
  else log ← of_option (wr held inBuf log); mret (log, (held + length inBuf)%nat).

(** What is left moves to the front of the buffer. *)
Definition smp_keep (log : list Z) (lpBuf left : nat) (mem : list Z) : U unit :=
  upd unisoc_log_size left;;
  if (left =? 0)%nat then upd unisoc_log_buf (Some log)
  else
    rest ← of_option (rd_bytes lpBuf left mem);
    log ← of_option (wr 0 rest log);
    upd unisoc_log_buf (Some log).

Definition smp_piece (logfd : Z) (log : list Z) (held : nat) (inBuf : list Z) : U unit :=
  if negb (held =? 0)%nat && bool_decide (unisoc_log_max < held + length inBuf)%nat then mret tt
  else
    '(mem, size) ← smp_gather log held inBuf;
    '(cur, lpBuf, mem) ← iterM (S (length mem)) (smp_step logfd size) (0%nat, 0%nat, mem);
    smp_keep (if (held =? 0)%nat then log else mem) lpBuf (size - cur) mem.

Definition unisoc_proc_log_buf (logfd : Z) (inBuf : list Z) : U unit :=
  b ← log_buf_alloc;
  match b with
  | None => mret tt
  | Some log => s ← get; smp_piece logfd log (unisoc_log_size s) inBuf
  end.

(** ** The DIAG stream *)

Section Chip.
Context (chip : chip).

Definition unisoc_send_cmd (cmd : Z) : U Z :=
  s ← get; call (PollWrite (unisoc_diag_fd s) [cmd; 10] 0).

(** The characters of an answer without its line ends, at most 255; what
    [at_buff] held behind them stays. *)
Definition unisco_process_at_command (lpBuf : list Z) : U Z :=
  let text := take 255 (filter (fun c => c <> 0x0d /\ c <> 0x0a) lpBuf) in
  s ← get;
  at_ ← of_option (wr 0 (text ++ [0]) (at_buff s));
  upd at_buff at_;;
  line ← of_option (c_string 0 at_);
  match s_pRequest s with
  | None => mret 0
  | Some _ =>
      if strstr line (str "OK") then upd m_bAT_result 1;; upd s_pRequest None;; mret 0
      else if strstr line (str "ERROR") then upd m_bAT_result 0;; upd s_pRequest None;; mret 0
      else mret 0
  end.

(** The thread that HandleAssertProc starts. *)
Definition unisoc_cpdump_thread_func : U unit :=
  iterM 7 (fun t =>
    count_temp ← call RxLogCount;
    call (Sleep 3000);;
    if 4 <? t then mret (inr tt)
    else now ← call RxLogCount; mret (if now =? count_temp then inr tt else inl (t + 1))) 0;;
  unisoc_send_cmd 116;; mret tt.

Definition HandleAssertProc (subtype : Z) : U unit :=
  s ← get;
  if subtype =? NORMAL_INFO then
    if m_bSendTCmd s =? 0 then
      upd g_donot_split_logfile 1;; upd m_bSendTCmd 1;; upd g_unisoc_had_crash 1;;
      call StartCpdumpThread
    else mret tt
  else if subtype =? DUMP_ALL_ASSERT_INFO_END then
    upd qlog_exit_requested 1;; upd m_bSendTCmd 0;; upd g_donot_split_logfile 0
  else mret tt.

(** The tests for packets that do not belong into the log: [Some true] is an
    answer to an AT command. *)
Definition dropped (b : list Z) (size : nat) : U (option bool) :=
  b0 ← byte 0 b;
  if negb (b0 =? 0x7e) then
    mret (if bool_decide (slice 0 5 b = [0x30; 0x0d; 0x0a; 0x7e; 0x5e]) then Some false else None)
  else
    _ ← byte 8 b;
    let sized := get_le 5 2 b + 2 =? Z.of_nat size in
    mret
      (if bool_decide (slice 5 3 b = [0x19; 0x00; 0x0b]) then Some false
       else if bool_decide (slice 1 4 b = [0x5e; 0x40; 0x5e; 0x40]) then Some false
       else if bool_decide (slice 1 7 b = [0; 0; 0; 0; 0; 0xff; 0]) then Some false
       else if (bool_decide (slice 0 5 b = [0x7e; 0x54; 0xaf; 0x26; 0x6f])
                || bool_decide (slice 0 5 b = [0x7e; 0x54; 0xaf; 0x00; 0x00])) && sized
       then Some false
       else if bool_decide (slice 0 5 b = [0x7e; 0; 0; 0; 0])
               && bool_decide (slice 7 2 b = [0x9c; 0x00]) && sized
       then Some true else None).

(** Answers whether the packet is logged, and the packet with its corrected
    length. *)
Definition HandleDiagPkt (b : list Z) (size : nat) : U (bool * list Z) :=
  d ← dropped b size;
  match d with
  | Some false => mret (false, b)
  | Some true =>
      text ← of_option (rd_bytes 9 (size - 9 - 1) b);
      unisco_process_at_command text;; mret (false, b)
  | None =>
      len ← of_option (rd 5 2 b);
      type ← byte 7 b; subtype ← byte 8 b;
      b ← (if len =? Z.of_nat (size - 2) then mret b
           else of_option (wr 5 (le_bytes 2 (u16 (Z.of_nat (size - 2)))) b));
      (if (type =? DIAG_SYSTEM_F) && (subtype =? 0x11) then upd m_bUE_Obtained 1
       else if (type =? DIAG_SWVER_F) && (subtype =? 0) then upd m_bVer_Obtained 1
       else if (type =? DIAG_SYSTEM_F) && (subtype =? 1) then mret tt
       else if (type =? DIAG_LOG_A) && (subtype =? 0) then
         d0 ← byte 9 b; (if d0 =? 0x98 then _ ← byte 10 b; mret tt else mret tt)
       else if (type =? MSG_BOARD_ASSERT) && negb (g_is_unisoc_chip chip =? 4) then
         HandleAssertProc subtype
       else mret tt);;
      mret (true, b)
  end.

(** [WriteDataToFile] with the reserved field of the packet in front of [buf]. *)
Definition unisoc_handle_diag_pkt_func (p : diag_pkt) : U unit :=
  '(log, b) ← HandleDiagPkt (buf p) (pkt_len p);
  if (log : bool) then
    s ← get;
    WriteDataToFile (unisoc_logfile_fd s) (replicate 8 0 ++ b) 9 (u32 (Z.of_nat (pkt_len p - 2))) 8;;
    mret tt
  else mret tt.

Definition unisoc_proc_diag_buf (logfd : Z) (inBuf : list Z) : U unit :=
  s ← get;
  match unisoc_diag_pkt s, inBuf with
  | Some p, _ :: _ =>
      upd unisoc_logfile_fd logfd;;
      '(p, pkts) ← of_option (diag_pkt_input (fun t pkt => t ++ [pkt]) p inBuf []);
      upd unisoc_diag_pkt (Some p);;
      forM pkts unisoc_handle_diag_pkt_func
  | _, _ => mret tt
  end.

(** The pieces of at most 2028 * 2 bytes. *)
Fixpoint pieces (fuel : nat) (l : list Z) : list (list Z) :=
  match fuel, l with
  | O, _ | _, [] => []
  | S n, _ => take (2028 * 2) l :: pieces n (drop (2028 * 2) l)
  end.

Definition unisoc_logfile_save (logfd : Z) (b : list Z) : U Z :=
  (if g_unisoc_log_type chip =? 1 then forM (pieces (length b) b) (unisoc_proc_log_buf logfd)
   else if g_unisoc_log_type chip =? 0 then unisoc_proc_diag_buf logfd b
   else mret tt);;
  mret (len b).

(** ** Start and end of the log *)

(** The reader thread saves what it takes from the port while another thread
    sleeps. *)
Definition sleep (logfd msecs : Z) : U unit :=
  chunks ← call (Sleep msecs);
  forM chunks (fun c => unisoc_logfile_save logfd c;; mret tt).

Section Filter.
Context (logfd : Z).

(** The line is printed into 256 bytes, whatever its length. *)
Definition unisco_send_at_command (lpBuf_tmp : list Z) : U Z :=
  let n := length lpBuf_tmp in
  s ← get;
  if negb (m_bSendTCmd s =? 0) then mret 0 else
  let b := [0x7e; 0x54; 0xaf; 0x26; 0x6f] ++ le_bytes 2 (Z.of_nat (n + 9)) ++ [0x68; 0x00] ++
           replicate 247 0 in
  b ← of_option (wr 9 (lpBuf_tmp ++ [0x0d; 0x7e]) b);
  upd s_pRequest (Some lpBuf_tmp);;
  upd m_bAT_result 0;;
  call (PollWrite (unisoc_diag_fd s) (take (11 + n) b) 0);;
  iterM 31 (fun timeout =>
    sleep logfd 100;;
    s ← get;
    mret (match s_pRequest s with
          | Some _ => if timeout + 100 <? 3000 then inl (timeout + 100) else inr tt
          | None => inr tt
          end)) 0;;
  upd s_pRequest None;;
  s ← get; mret (m_bAT_result s).

(** [while (nTryNum++ < 10 && !unisco_send_at_command(cmd));] *)
Definition try_at_command (cmd : list Z) (nTryNum : Z) : U Z :=
  iterM 12 (fun n =>
    if n <? 10 then
      r ← unisco_send_at_command cmd;
      mret (if r =? 0 then inl (n + 1) else inr (n + 1))
    else mret (inr (n + 1))) nTryNum.

Definition tolower (c : Z) : Z := if (65 <=? c) && (c <=? 90) then c + 32 else c.

(** A line of the configuration without its line end; an empty line is read
    before its beginning. *)
Definition cfg_line (line : list Z) : U (list Z) :=
  s ← of_option (c_string 0 (line ++ [0]));
  c ← of_option (last s);
  let s := if c =? 0x0a then removelast s else s in
  c ← of_option (last s);
  mret (if c =? 0x0d then removelast s else s).

Definition send_cfg (file : list Z) : U unit :=
  iterM (S (length file)) (fun '(nTryNum, file) =>
    match fgets 512 file with
    | None => mret (inr tt)
    | Some (line, rest) =>
        cmd ← cfg_line line;
        if bool_decide (map tolower (take 11 cmd) = map tolower (str "AT+ARMLOG=1")) then
          n ← try_at_command cmd nTryNum; mret (inl (n, rest))
        else unisco_send_at_command cmd;; mret (inl (nTryNum, rest))
    end) (0, file).

(** A request of the module's time or version: [false] when it cannot be
    written. *)
Definition diag_request (fd type subtype : Z) : U bool :=
  r ← call (PollWrite fd ([0x7E] ++ DIAG_HEADER 0 8 type subtype ++ [0x7E]) 0); mret (0 <? r).

Definition filter_turn (fd : Z) (nTryNum : Z) : U (Z + Z) :=
  e ← exit_requested;
  if (e : bool) then mret (inr 0) else
  s ← get;
  let ask := (m_bSendTCmd s =? 0) && (m_bUE_Obtained s =? 0) in
  ok ← (if ask && (nTryNum <? 5) then diag_request fd DIAG_SYSTEM_F 0x11 else mret true);
  if negb ok then mret (inr (-1)) else
  s ← get;
  ok ← (if (m_bSendTCmd s =? 0) && (m_bVer_Obtained s =? 0) then diag_request fd DIAG_SWVER_F 0
        else mret true);
  if negb ok then mret (inr (-1)) else
  (if g_is_unisoc_chip chip =? 4 then
     upd ec800g_blue_screen_fd fd;;
     e ← exit_requested;
     s ← get;
     if negb e && negb (query_panic_addr chip =? 0) && (ec800g_is_blue_screen s =? 0) then
       unisoc_ec800g_send_cmd_complete fd (query_panic_addr chip) 0 0;; mret tt
     else mret tt
   else mret tt);;
  sleep logfd 5000;;
  mret (inl (if ask then u32 (nTryNum + 1) else nTryNum)).

Definition unisoc_init_filter (fuel : nat) (fd : Z) (cfg : option (list Z)) : U Z :=
  modify (fun s => s <| m_bUE_Obtained := 0 |> <| m_bVer_Obtained := 0 |> <| m_bSendTCmd := 0 |>
                     <| unisoc_diag_fd := fd |>);;
  s ← get;
  p ← match unisoc_diag_pkt s with
      | Some p => mret (Some p)
      | None =>
          mem ← malloc (Z.of_nat (buf_capacity diag_min diag_max));
          let p := diag_pkt_malloc diag_min diag_max 1 mem in upd unisoc_diag_pkt p;; mret p
      end;
  match p with
  | None => mret (-1)
  | Some p =>
      upd unisoc_diag_pkt (Some (p <| pkt_len := 0%nat |> <| last_7d := 0 |>));;
      unisoc_send_cmd 48;;
      ok ← (if g_is_unisoc_chip chip =? 1 then
              match cfg with
              | Some name =>
                  f ← call (ReadFile name);
                  match f with None => mret false | Some file => send_cfg file;; mret true end
              | None => try_at_command (str "AT+ARMLOG=1") 0;; mret true
              end
            else if g_is_unisoc_chip chip =? 4 then
              try_at_command (str "AT+ARMLOG=1") 0;; mret true
            else mret true);
      if negb ok then mret (-1) else iterM fuel (filter_turn fd) 0
  end.

Definition unisoc_clean_filter (fd : Z) : U Z :=
  if g_is_unisoc_chip chip =? 4 then
    r ← call (Write fd [0x7e; 0x00; 0x00; 0x00; 0x00; 0x08; 0x00; 0x05; 0x26; 0x7e]);
    if r =? -1 then mret (-1) else sleep logfd 0;; mret 0
  else mret 0.
End Filter.

(** ** The operations of the EXX00U *)

(** The loop ends when an exit is asked for. *)
Definition unisoc_exx00u_init_filter (fuel : nat) (fd : Z) : U Z :=
  s ← get;
  if (g_is_unisoc_exx00u_chip chip =? 1) && (exx00u_is_blue_screen s =? 0) then
    upd exx00u_blue_screen_fd fd;;
    iterM fuel (fun _ : unit =>
      e ← exit_requested;
      if (e : bool) || (query_panic_addr chip =? 0) then mret (inr 0)
      else
        unisoc_exx00u_send_cmd_complete fd (query_panic_addr chip) 0 0;;
        call (Sleep 3000);; mret (inl tt)) tt
  else mret 0.

Definition unisoc_exx00u_clean_filter : U Z := mret 0.
Definition unisoc_exx00u_logfile_init : U Z := mret 0.
End Chip.

Definition unisoc_exx00u_logfile_save (logfd : Z) (b : list Z) : U Z :=
  match b with
  | [] => mret 0
  | _ => if logfd <=? 0 then mret (len b) else call (LogfileSave logfd b)
  end.
