(* ===== verification/UnisocLogProps.v ===== *)
(** The SMP log of the UNISOC modules: what reaches the log file is what a
    receiver of the whole stream delivers, however the stream is cut; and the
    packet after which nothing reaches it any more. *)

From Stdlib Require Import ZArith Lia.
From stdpp Require Import base list.
From S2P Require Import Prelude DiagPkt UnisocSys UnisocCmd UnisocLog.

(** ** Specification *)

(** The largest packet that fits the buffer behind any piece. *)
Definition smp_limit : nat := 24 * 1024 - 2028 * 2.

(** The start flag and a header in order at the front: its length field. *)
Definition header (l : list Z) : option nat :=
  let hdr := slice 4 8 l in
  if bool_decide (slice 0 4 l = [0x7E; 0x7E; 0x7E; 0x7E]) && CheckHeader hdr
     && (get_le 2 1 hdr =? 0) && ((get_le 3 1 hdr =? 0) || (get_le 3 1 hdr =? 0xf8))
     && (get_le 4 2 hdr =? 0x5A5A)
  then Some (Z.to_nat (get_le 0 2 hdr)) else None.

(** [delivers l ps r]: of the stream [l] the packets [ps] are complete, and
    [r] is left to wait for more. *)
Inductive delivers : list Z -> list (list Z) -> list Z -> Prop :=
| delivers_short l : (length l < 12)%nat -> delivers l [] l
| delivers_wait l n : (12 <= length l)%nat -> header l = Some n -> (8 <= n)%nat ->
    (4 + n <= smp_limit)%nat -> (length l < 4 + n)%nat -> delivers l [] l
| delivers_skip b l ps r : (12 <= length (b :: l))%nat -> header (b :: l) = None ->
    delivers l ps r -> delivers (b :: l) ps r
| delivers_packet l n ps r : header l = Some n -> (8 <= n)%nat -> (4 + n <= smp_limit)%nat ->
    (4 + n <= length l)%nat -> delivers (drop (4 + n) l) ps r ->
    delivers l (slice 12 (n - 8) l :: ps) r.

(** A record of the log file, and what a history saves into it. *)
Definition record (p : list Z) : list Z := le_bytes 4 (len p) ++ p.
Fixpoint ulog (fd : Z) (h : list (io usys)) : list Z :=
  match h with
  | [] => []
  | Ev c _ :: h' =>
      ulog fd h' ++ match c with LogfileSave f d => if f =? fd then d else [] | _ => [] end
  end.

(** ** The receiver does not see the pieces *)

Lemma header_app l1 l2 : (12 <= length l1)%nat -> header (l1 ++ l2) = header l1.
Proof.
  intros H. unfold header, slice. rewrite !drop_app_le by lia.
  rewrite !take_app_le by len. done.
Qed.

Lemma delivers_rest l ps r : delivers l ps r -> (length r < smp_limit)%nat.
Proof. induction 1; unfold smp_limit in *; lia. Qed.

Lemma delivers_split l1 l2 ps r : delivers (l1 ++ l2) ps r -> exists ps1 r1 ps2,
  delivers l1 ps1 r1 /\ delivers (r1 ++ l2) ps2 r /\ ps = ps1 ++ ps2.
Proof.
  intros H. remember (l1 ++ l2) as l eqn:Hl. revert l1 Hl.
  assert (Hsh : forall l1 ps, (length l1 < 12)%nat -> delivers (l1 ++ l2) ps r ->
    exists ps1 r1 ps2, delivers l1 ps1 r1 /\ delivers (r1 ++ l2) ps2 r /\ ps = ps1 ++ ps2).
  { intros l1 qs Hs Hd. exists [], l1, qs. split; [by apply delivers_short|done]. }
  induction H as [l Hlt|l n Hlen Hh H8 Hm Hlt|b l ps r Hlen Hh Hd IH|l n ps r Hh H8 Hm Hge Hd IH];
    intros l1 Hl; (destruct (decide (length l1 < 12)%nat) as [Hs|Hs];
      [apply Hsh; [done|rewrite <-Hl; by econstructor]|]).
  - subst l. rewrite length_app in Hlt. lia.
  - subst l. rewrite header_app in Hh by lia. rewrite length_app in Hlt.
    exists [], l1, []. split; [by apply (delivers_wait _ n); try lia|]. split; [|done].
    apply (delivers_wait _ n); rewrite ?length_app, ?header_app by lia; try done; lia.
  - destruct l1 as [|c l1]; [cbn in Hs; lia|]. injection Hl as <- ->.
    change (b :: l1 ++ l2) with ((b :: l1) ++ l2) in Hh. rewrite header_app in Hh by lia.
    destruct (IH Hsh l1 eq_refl) as (ps1 & r1 & ps2 & H1 & H2 & ->).
    exists ps1, r1, ps2. split; [|done]. apply delivers_skip; [lia|done|done].
  - subst l. rewrite header_app in Hh by lia. destruct (decide (length l1 < 4 + n)%nat) as [Hw|Hw].
    + exists [], l1, (slice 12 (n - 8) (l1 ++ l2) :: ps).
      split; [by apply (delivers_wait _ n); try lia|]. split; [|done].
      apply delivers_packet; [by rewrite header_app by lia|done..].
    + rewrite drop_app_le in IH by lia.
      destruct (IH Hsh (drop (4 + n) l1) eq_refl) as (ps1 & r1 & ps2 & H1 & H2 & ->).
      exists (slice 12 (n - 8) l1 :: ps1), r1, ps2. split; [apply delivers_packet; try done; lia|].
      split; [done|]. cbn [app]. f_equal. unfold slice. rewrite drop_app_le by lia.
      by rewrite take_app_le by len.
Qed.

Lemma delivers_settled l ps r : delivers l ps r -> delivers r [] r.
Proof. induction 1; try done; [by apply delivers_short|by eapply delivers_wait]. Qed.

Lemma delivers_det l ps r : delivers l ps r -> forall ps' r', delivers l ps' r' -> ps = ps' /\ r = r'.
Proof.
  induction 1 as [l Hlt|l n Hlen Hh H8 Hm Hlt|b l ps r Hlen Hh Hd IH|l n ps r Hh H8 Hm Hge Hd IH];
    intros ps' r' Hd'; inversion Hd'; subst; try done; try lia; try congruence;
    repeat match goal with H1 : header ?l = Some ?a, H2 : header ?l = Some ?b |- _ =>
      assert (a = b) by congruence; subst; clear H2 end; try lia.
  - by apply IH.
  - edestruct IH as [-> ->]; [eassumption|done].
Qed.

(** ** The loop *)

Lemma slice_slice a n c m (l : list Z) : (a + n <= m)%nat -> slice a n (slice c m l) = slice (c + a) n l.
Proof. intros H. unfold slice. rewrite skipn_firstn_comm, take_take, drop_drop. f_equal. lia. Qed.

Lemma slice_split off a b (l : list Z) : slice off (a + b) l = slice off a l ++ slice (off + a) b l.
Proof. unfold slice. by rewrite <-take_take_drop, drop_drop. Qed.

Lemma smp_check_front mem cur size : (cur <= size <= length mem)%nat ->
  smp_check mem cur size =
    let l := slice cur (size - cur) mem in
    if bool_decide (length l < 12)%nat then Wait else
    match header l with
    | None => Skip
    | Some n => if bool_decide (length l < 4 + n)%nat then Wait else Packet n
    end.
Proof.
  intros H. cbn zeta. rewrite length_slice by lia. unfold smp_check, SMP_START_LEN, SMP_HDR_LEN.
  rewrite (bool_decide_ext (size < cur + 4 + 8)%nat (size - cur < 12)%nat) by lia.
  case_bool_decide as H12; [done|]. unfold header. rewrite !slice_slice by lia.
  rewrite Nat.add_0_r. set (hdr := slice (cur + 4) 8 mem).
  destruct (bool_decide (slice cur 4 mem = _)); [|done]. cbn [negb andb].
  destruct (CheckHeader hdr); [|done]. cbn [negb andb].
  destruct (get_le 2 1 hdr =? 0); [|done]. cbn [negb andb].
  destruct (get_le 3 1 hdr =? 0), (get_le 3 1 hdr =? 248); cbn [negb andb orb]; try done;
    (destruct (get_le 4 2 hdr =? 0x5A5A); [|done]); cbn [negb andb];
    rewrite (bool_decide_ext (size < cur + 4 + _)%nat (size - cur < 4 + Z.to_nat (get_le 0 2 hdr))%nat)
      by lia; done.
Qed.

Section Log.
Context (E : env usys) (logfd : Z).
Abbreviation world := (world usys us).
Abbreviation log := (ulog logfd).

(** The data are saved behind their length; the store in front of them is in
    the header of the packet. *)
Lemma write_record_runs mem off n (w : world) : (4 <= off)%nat -> (off + n <= length mem)%nat ->
  Z.of_nat n < 2 ^ 31 ->
  runs E (WriteDataToFile logfd mem off (Z.of_nat n) 8) w (fun mem' w' =>
    mem' = put (off - 4) (le_bytes 4 (Z.of_nat n)) mem /\ loc w' = loc w /\
    log (hist w') = log (hist w) ++ record (slice off n mem)).
Proof.
  intros H4 Hn Hb. unfold WriteDataToFile. change (4 <=? 8) with true. cbn iota.
  rewrite bool_decide_eq_true_2 by done.
  assert (Hst : (off - 4 + length (le_bytes 4 (Z.of_nat n)) <= length mem)%nat)
    by (rewrite length_le_bytes; lia).
  rewrite wr_fits by done. apply runs_bind, runs_ret.
  replace (Z.to_nat (u32 (Z.of_nat n + 4))) with (4 + n)%nat
    by (unfold u32; rewrite Z.mod_small; lia).
  rewrite rd_bytes_fits by (rewrite length_put by done; lia). apply runs_bind, runs_ret.
  apply runs_bind, runs_call, runs_ret. split; [done|]. split; [done|]. cbn [hist ulog].
  rewrite Z.eqb_refl, slice_split. f_equal. unfold record.
  pose proof (slice_put_same (off - 4) (le_bytes 4 (Z.of_nat n)) mem Hst) as Hs.
  rewrite length_le_bytes in Hs. rewrite Hs, slice_put_above by (rewrite ?length_le_bytes; lia).
  replace (off - 4 + 4)%nat with off by lia. unfold len. by rewrite length_slice by lia.
Qed.

Ltac waits :=
  apply runs_ret, runs_ret; cbn [map concat]; rewrite app_nil_r;
  match goal with H : _ = slice _ _ _ |- _ => rewrite <-H end; repeat split; first [lia|done].

Lemma smp_loop_runs l ps r : delivers l ps r -> forall mem cur lp size fuel (w : world),
  l = slice cur (size - cur) mem -> (cur <= size <= length mem)%nat -> (length l < fuel)%nat ->
  runs E (iterM fuel (smp_step logfd size) (cur, lp, mem)) w (fun '(cur', lp', mem') w' =>
    (cur' <= size)%nat /\ slice cur' (size - cur') mem' = r /\ (r <> [] -> lp' = cur') /\
    length mem' = length mem /\ loc w' = loc w /\
    log (hist w') = log (hist w) ++ concat (map record ps)).
Proof.
  induction 1 as [l Hlt|l n Hlen Hh H8 Hm Hlt|b l ps r Hlen Hh Hd IH|l n ps r Hh H8 Hm Hge Hd IH];
    intros mem cur lp size fuel w Hl Hc Hf; (destruct fuel as [|fuel]; [lia|]); cbn [iterM];
    apply runs_bind; unfold smp_step at 1;
    pose proof (length_slice cur (size - cur) mem ltac:(lia)) as Hsl; rewrite <-Hl in Hsl.
  - case_bool_decide as Hcs.
    + assert (l = []) by (destruct l; [done|cbn in Hsl; lia]). waits.
    + rewrite smp_check_front, <-Hl by lia. cbn zeta. rewrite bool_decide_eq_true_2 by done. waits.
  - rewrite bool_decide_eq_false_2 by lia. rewrite smp_check_front, <-Hl by lia. cbn zeta.
    rewrite bool_decide_eq_false_2, Hh, bool_decide_eq_true_2 by lia. waits.
  - rewrite bool_decide_eq_false_2 by lia. rewrite smp_check_front, <-Hl by lia. cbn zeta.
    rewrite bool_decide_eq_false_2, Hh by lia. cbn [length] in Hsl, Hf, Hlen.
    rewrite bool_decide_eq_false_2 by lia. apply runs_ret.
    eapply runs_mono; [apply IH; [|lia|lia]|].
    + assert (Hd1 : l = drop 1 (b :: l)) by done. rewrite Hd1, Hl. unfold slice.
      rewrite skipn_firstn_comm, drop_drop. f_equal; [lia|]. f_equal. lia.
    + by intros [[? ?] ?] w'.
  - assert (Hn : (12 <= length l)%nat) by lia.
    rewrite bool_decide_eq_false_2 by lia. rewrite smp_check_front, <-Hl by lia. cbn zeta.
    rewrite bool_decide_eq_false_2, Hh, bool_decide_eq_false_2 by lia.
    unfold SMP_START_LEN, SMP_HDR_LEN. unfold smp_limit in Hm.
    replace (u32 (Z.of_nat n - 8)) with (Z.of_nat (n - 8))
      by (unfold u32; rewrite Z.mod_small; lia).
    apply runs_bind. eapply runs_mono; [apply write_record_runs; lia|]. cbn beta.
    intros mem' w1 (-> & Hl1 & Ho1). apply runs_ret.
    set (mem' := put _ _ mem).
    assert (Hlm : length mem' = length mem) by (apply length_put; rewrite length_le_bytes; lia).
    eapply runs_mono; [apply (IH mem'); [|lia|rewrite length_drop; lia]|].
    + unfold mem'. rewrite slice_put_above by (rewrite ?length_le_bytes; lia).
      rewrite Hl. unfold slice. rewrite skipn_firstn_comm, drop_drop. f_equal. lia.
    + intros [[cur' lp'] mem2] w2 (H1 & H2 & H3 & H4 & H5 & H6). rewrite Hlm in H4.
      rewrite Hl1 in H5. split; [done|]. split; [done|]. split; [done|]. split; [done|].
      split; [done|]. rewrite H6, Ho1. cbn [map concat]. rewrite <-app_assoc. do 3 f_equal.
      rewrite Hl, slice_slice by lia. f_equal. lia.
Qed.

(** ** A piece of the stream, and a whole one *)

(** The buffer holds [h]. *)
Definition smp_holds (h : list Z) (s : us) : Prop := unisoc_log_size s = length h /\
  match unisoc_log_buf s with
  | Some b => length b = unisoc_log_max /\ take (length h) b = h
  | None => h = []
  end.

Context (Hmem : forall h n, is_Some (E _ h (Malloc n))).

Lemma proc_log_buf_runs h inBuf (w : world) Q : smp_holds h (loc w) ->
  (forall b w1, length b = unisoc_log_max -> take (length h) b = h ->
     unisoc_log_size (loc w1) = length h -> unisoc_log_buf (loc w1) = Some b ->
     log (hist w1) = log (hist w) -> runs E (smp_piece logfd b (length h) inBuf) w1 Q) ->
  runs E (unisoc_proc_log_buf logfd inBuf) w Q.
Proof.
  intros [Hs Hb] H. unfold unisoc_proc_log_buf, log_buf_alloc. apply runs_bind, runs_bind, runs_get.
  destruct (unisoc_log_buf (loc w)) as [b|] eqn:Hbuf.
  - destruct Hb as [Hb Hh]. apply runs_ret, runs_bind, runs_get. rewrite Hs.
    exact (H b w Hb Hh Hs Hbuf eq_refl).
  - subst h. apply runs_bind. unfold malloc. apply runs_bind, runs_call.
    destruct (Hmem (hist w) (Z.of_nat unisoc_log_max)) as [f ->]. apply runs_ret. cbn [option_map].
    apply runs_bind, runs_modify, runs_ret, runs_bind, runs_get.
    change (unisoc_log_size (loc _)) with (unisoc_log_size (loc w)). rewrite Hs, Nat2Z.id.
    apply (H (map f (seq 0 unisoc_log_max)));
      [by rewrite length_map, length_seq|done|exact Hs|done|apply app_nil_r].
Qed.

Lemma gather_runs h inBuf b (w : world) : take (length h) b = h ->
  (length h + length inBuf <= length b)%nat ->
  runs E (smp_gather b (length h) inBuf) w (fun a w' =>
    w' = w /\ a.2 = length (h ++ inBuf) /\ slice 0 a.2 a.1 = h ++ inBuf /\ (a.2 <= length a.1)%nat /\
    ((length h =? 0)%nat = false -> length a.1 = length b)).
Proof.
  intros Ht Hl. unfold smp_gather. destruct (Nat.eqb_spec (length h) 0) as [H0|H0].
  - apply nil_length_inv in H0. subst h. apply runs_ret. cbn [fst snd app].
    unfold slice. by rewrite drop_0, take_ge.
  - rewrite wr_fits by lia. apply runs_bind, runs_ret, runs_ret. cbn [fst snd].
    rewrite length_app, length_put by lia. split; [done|]. split; [done|].
    pose proof (slice_put_end 0 (length h) inBuf b) as Hp. cbn [Nat.add] in Hp.
    rewrite Hp by lia. unfold slice. rewrite drop_0, Ht. split; [done|]. split; [lia|done].
Qed.

Lemma keep_runs b lp r mem (w : world) : length b = unisoc_log_max -> (length r <= unisoc_log_max)%nat ->
  (r <> [] -> (lp + length r <= length mem)%nat /\ slice lp (length r) mem = r) ->
  runs E (smp_keep b lp (length r) mem) w (fun _ w' => smp_holds r (loc w') /\ hist w' = hist w).
Proof.
  intros Hb Hr Hs. unfold smp_keep. apply runs_bind, runs_modify.
  destruct r as [|x r]; [apply runs_modify; by repeat split|].
  destruct Hs as [Hlp Hs]; [done|]. rewrite rd_bytes_fits, Hs by done.
  apply runs_bind, runs_ret. set (l := x :: r) in *.
  rewrite wr_fits by lia. apply runs_bind, runs_ret, runs_modify. cbn [hist]. split; [|done].
  split; [done|]. cbn. split; [by rewrite length_put by lia|].
  unfold put. rewrite take_0. apply (take_app_length l).
Qed.

(** Code that takes a part of the stream and leaves the buffer right. *)
Definition feeds (ok : list Z -> Prop) (f : list Z -> U unit) : Prop :=
  forall x h ps r (w : world), ok x -> smp_holds h (loc w) -> delivers h [] h ->
    delivers (h ++ x) ps r ->
    runs E (f x) w (fun _ w' =>
      smp_holds r (loc w') /\ log (hist w') = log (hist w) ++ concat (map record ps)).

Lemma feeds_piece : feeds (fun x => length x <= 2028 * 2)%nat (unisoc_proc_log_buf logfd).
Proof.
  intros inBuf h ps r w Hin Hh Hset Hd. pose proof (delivers_rest _ _ _ Hd) as Hr.
  pose proof (delivers_rest _ _ _ Hset) as Hlim. apply (proc_log_buf_runs h); [done|]. clear Hh.
  intros b w1 Hb Ht Hs Hbuf Ho. unfold smp_piece, smp_limit, unisoc_log_max in *.
  rewrite (bool_decide_eq_false_2 (24 * 1024 < length h + length inBuf)%nat), andb_false_r by lia.
  apply runs_bind. eapply runs_mono; [apply gather_runs; [done|lia]|].
  intros [mem size] w2 (-> & Hsz & Hmem2 & Hle & Hlen). cbn [fst snd] in *.
  apply runs_bind. eapply runs_mono.
  { apply (smp_loop_runs _ _ _ Hd mem 0 0 size); [by rewrite Nat.sub_0_r|lia|rewrite <-Hsz; lia]. }
  intros [[cur lp] mem'] w3 (H1 & H2 & H3 & H4 & H5 & H6).
  assert (Hlr : (size - cur)%nat = length r) by (rewrite <-H2; symmetry; apply length_slice; lia).
  rewrite Hlr in *. eapply runs_mono; [apply keep_runs|].
  - destruct (length h =? 0)%nat; [done|]. by rewrite H4, Hlen.
  - unfold unisoc_log_max. lia.
  - intros Hne. rewrite H3 by done. split; [lia|done].
  - cbn beta. intros _ w4 [Hw4 ->]. split; [done|]. by rewrite H6, Ho.
Qed.

Lemma feeds_all ok f l : feeds ok f -> (forall p, p ∈ l -> ok p) ->
  forall h ps r (w : world), smp_holds h (loc w) -> delivers h [] h -> delivers (h ++ concat l) ps r ->
  runs E (forM l f) w (fun _ w' =>
    smp_holds r (loc w') /\ log (hist w') = log (hist w) ++ concat (map record ps)).
Proof.
  intros Hf. induction l as [|p l IH]; intros Hsh h ps r w Hw Hset Hd; cbn [forM concat] in *.
  - rewrite app_nil_r in Hd. destruct (delivers_det _ _ _ Hset _ _ Hd) as [<- <-].
    apply runs_ret. cbn. by rewrite app_nil_r.
  - rewrite app_assoc in Hd. destruct (delivers_split _ _ _ _ Hd) as (ps1 & r1 & ps2 & H1 & H2 & ->).
    apply runs_bind. eapply runs_mono; [apply (Hf p h ps1 r1); [apply Hsh; by left|done..]|].
    cbn beta. intros _ w1 [Hw1 Ho1]. eapply runs_mono.
    { apply (IH (fun p Hp => Hsh p ltac:(by right)) r1 ps2 r); [done|by eapply delivers_settled|done]. }
    cbn beta. intros _ w2 [Hw2 Ho2]. split; [done|]. by rewrite Ho2, Ho1, map_app, concat_app, app_assoc.
Qed.

Lemma pieces_concat n l : (length l <= n)%nat -> concat (pieces n l) = l.
Proof.
  revert l. induction n as [|n IH]; intros l Hl; [by destruct l; [|cbn in Hl; lia]|].
  destruct l as [|a l]; [done|]. cbn [pieces concat]. cbn [length] in Hl. rewrite IH; [apply take_drop|rewrite length_drop; cbn [length]; lia].
Qed.

Lemma pieces_short n l p : p ∈ pieces n l -> (length p <= 2028 * 2)%nat.
Proof.
  revert l. induction n as [|n IH]; intros l; [by intros ?%not_elem_of_nil|].
  destruct l as [|a l]; [by intros ?%not_elem_of_nil|]. cbn [pieces].
  intros [->|H]%elem_of_cons; [|by eapply IH]. rewrite length_take. lia.
Qed.

Lemma feeds_save chip : g_unisoc_log_type chip = 1 ->
  feeds (fun _ => True) (fun b => unisoc_logfile_save chip logfd b;; mret tt).
Proof.
  intros Ht b h ps r w _ Hw Hset Hd. unfold unisoc_logfile_save. rewrite Ht. cbn [Z.eqb Pos.eqb].
  apply runs_bind, runs_bind. eapply runs_mono.
  { apply (feeds_all _ _ (pieces (length b) b) feeds_piece (pieces_short _ _) h ps r); try done.
    by rewrite pieces_concat. }
  cbn beta. intros _ w1 Hw1. by rsteps.
Qed.

(** A header at the front of the buffer that announces more than the buffer
    can hold. *)
Definition stuck (s : us) : Prop := exists h n, smp_holds h s /\
  (12 <= length h <= unisoc_log_max)%nat /\ header h = Some n /\ (unisoc_log_max < 4 + n)%nat.

Lemma stuck_piece inBuf (w : world) : stuck (loc w) ->
  runs E (unisoc_proc_log_buf logfd inBuf) w (fun _ w' =>
    stuck (loc w') /\ log (hist w') = log (hist w)).
Proof.
  intros (h & n & Hh & Hlen & Hhd & Hn). apply (proc_log_buf_runs h); [done|]. clear Hh.
  intros b w1 Hb Ht Hs Hbuf Ho. unfold smp_piece.
  destruct (Nat.eqb_spec (length h) 0) as [H0|H0]; [lia|]. cbn [negb andb].
  case_bool_decide as Hroom.
  { apply runs_ret. split; [|done]. exists h, n. split; [|done]. split; [done|]. by rewrite Hbuf. }
  apply runs_bind. eapply runs_mono; [apply gather_runs; [done|lia]|].
  intros [mem size] w2 (-> & Hsz & Hmem2 & Hle & Hl). cbn [fst snd] in *.
  rewrite length_app in Hsz. assert (Hm : length mem = unisoc_log_max).
  { rewrite Hl; [done|]. by apply Nat.eqb_neq. }
  apply runs_bind. cbn [iterM]. apply runs_bind. unfold smp_step at 1.
  rewrite bool_decide_eq_false_2, smp_check_front, Nat.sub_0_r, Hmem2 by lia. cbn zeta.
  rewrite length_app, bool_decide_eq_false_2, header_app, Hhd, bool_decide_eq_true_2 by lia.
  apply runs_ret, runs_ret. rewrite Nat.sub_0_r, Hsz, <-length_app.
  eapply runs_mono; [apply keep_runs|].
  - done.
  - rewrite length_app. lia.
  - intros _. rewrite length_app, <-Hsz. split; [lia|done].
  - cbn beta. intros _ w4 [Hw4 ->]. split; [|done]. exists (h ++ inBuf), n.
    rewrite length_app, header_app by lia. split; [done|]. split; [lia|done].
Qed.

Lemma stuck_save chip b (w : world) : g_unisoc_log_type chip = 1 -> stuck (loc w) ->
  runs E (unisoc_logfile_save chip logfd b) w (fun _ w' =>
    stuck (loc w') /\ log (hist w') = log (hist w)).
Proof.
  intros Ht Hw. unfold unisoc_logfile_save. rewrite Ht. cbn [Z.eqb Pos.eqb]. apply runs_bind.
  eapply runs_mono.
  { apply (runs_forM E _ _ (fun _ w' => stuck (loc w') /\ log (hist w') = log (hist w))); [done|].
    intros pre a rest w1 _ [Hw1 Ho1]. eapply runs_mono; [by apply stuck_piece|].
    cbn beta. intros _ w2 [Hw2 Ho2]. split; [done|]. by rewrite Ho2. }
  cbn beta. intros _ w1 Hw1. by rsteps.
Qed.
End Log.

(** ** Packets *)

(** A packet as the module sends it. *)
Definition smp_head (n type : Z) : list Z := le_bytes 2 n ++ [0; type] ++ le_bytes 2 0x5A5A.
Definition smp_header (n type : Z) : list Z :=
  smp_head n type ++ le_bytes 2 (frm_chk (smp_head n type) 0).
Definition smp_packet (type : Z) (p : list Z) : list Z :=
  [0x7E; 0x7E; 0x7E; 0x7E] ++ smp_header (len p + 8) type ++ p.

Lemma frm_fold s : 0 <= s < 2 ^ 32 ->
  Z.shiftr s 16 = s / 65536 /\ Z.land s 0xFFFF = s mod 65536 /\ u32 s = s.
Proof.
  intros H. split; [by rewrite Z.shiftr_div_pow2 by lia|]. split.
  - change 0xFFFF with (Z.ones 16). by rewrite Z.land_ones by lia.
  - unfold u32. by rewrite Z.mod_small.
Qed.

Ltac zlia := Z.to_euclidean_division_equations; lia.

Lemma frm_chk_sum l s : frm_sum false l 0 = s -> 0 <= s < 2 ^ 20 ->
  frm_chk l 0 = (- (s / 65536 + s mod 65536 + (s / 65536 + s mod 65536) / 65536) - 1) mod 65536.
Proof.
  intros Hs Hb. unfold frm_chk. change (0 =? 1) with false. rewrite Hs.
  destruct (frm_fold s) as (-> & -> & _); [zlia|].
  destruct (frm_fold (s / 65536 + s mod 65536)) as (_ & _ & ->); [zlia|].
  destruct (frm_fold (s / 65536 + s mod 65536)) as (-> & _ & _); [zlia|].
  assert (Ht : 0 <= s / 65536 + s mod 65536 < 2 ^ 21) by zlia.
  generalize dependent (s / 65536 + s mod 65536). intros t Ht.
  destruct (frm_fold (t + t / 65536)) as (_ & _ & ->); [zlia|].
  unfold u16, Z.lnot. f_equal.
Qed.

Lemma smp_header_valid n type : 0 <= n < 2 ^ 16 -> type = 0 \/ type = 0xf8 ->
  CheckHeader (smp_header n type) = true.
Proof.
  intros Hn Ht. unfold CheckHeader. apply Z.eqb_eq.
  set (s := n + 256 * type + 0x5A5A).
  assert (Hb : 0 <= s < 2 ^ 18) by (unfold s; destruct Ht as [-> | ->]; lia).
  assert (Hs : frm_sum false (smp_head n type) 0 = s).
  { unfold smp_head, s. cbn [le_bytes app frm_sum].
    unfold u32. destruct Ht as [-> | ->]; zlia. }
  set (c := frm_chk (smp_head n type) 0).
  assert (Hc : c = (- (s / 65536 + s mod 65536 + (s / 65536 + s mod 65536) / 65536) - 1) mod 65536).
  { apply frm_chk_sum; [done|lia]. }
  assert (Hc2 : 0 <= c < 65536) by (rewrite Hc; apply Z.mod_pos_bound; lia).
  assert (Hs2 : frm_sum false (smp_header n type) 0 = s + c).
  { unfold smp_header. fold c. clearbody c. unfold smp_head, s. cbn [le_bytes app frm_sum]. unfold u32. destruct Ht as [-> | ->]; zlia. }
  rewrite (frm_chk_sum _ _ Hs2) by lia.
  clear Hs Hs2. clearbody s c. zlia.
Qed.

Definition packet_ok (tp : Z * list Z) : Prop :=
  (tp.1 = 0 \/ tp.1 = 0xf8) /\ (12 + length tp.2 <= smp_limit)%nat.

Lemma smp_header_length n type : length (smp_header n type) = 8%nat.
Proof. done. Qed.

Lemma header_packet tp l : packet_ok tp ->
  header (smp_packet tp.1 tp.2 ++ l) = Some (8 + length tp.2)%nat.
Proof.
  destruct tp as [type p]. unfold packet_ok, smp_limit. cbn [fst snd]. intros [Ht Hl].
  assert (Hn : 0 <= len p + 8 < 2 ^ 16) by (unfold len; lia).
  pose proof (smp_header_valid _ _ Hn Ht) as Hv. unfold header, smp_packet.
  rewrite <-!app_assoc. set (rest := p ++ l).
  change (slice 0 4 ([126; 126; 126; 126] ++ smp_header (len p + 8) type ++ rest)) with [126; 126; 126; 126].
  assert (Hh : slice 4 8 ([126; 126; 126; 126] ++ smp_header (len p + 8) type ++ rest) =
    smp_header (len p + 8) type).
  { unfold slice. change (drop 4 _) with (smp_header (len p + 8) type ++ rest).
    rewrite <-(smp_header_length (len p + 8) type). apply take_app_length. }
  rewrite Hh, Hv, bool_decide_eq_true_2 by done. cbn [andb].
  assert (H2 : get_le 2 1 (smp_header (len p + 8) type) = 0) by done.
  assert (H3 : get_le 3 1 (smp_header (len p + 8) type) = type) by (unfold get_le; cbn; lia).
  assert (H4 : get_le 4 2 (smp_header (len p + 8) type) = 0x5A5A) by done.
  assert (H0 : get_le 0 2 (smp_header (len p + 8) type) = len p + 8).
  { change (get_le 0 2 _) with (le_val (le_bytes 2 (len p + 8))). rewrite le_val_bytes.
    by apply Z.mod_small. }
  rewrite H2, H3, H4, H0. replace ((type =? 0) || (type =? 248)) with true
    by (by destruct Ht as [-> | ->]). cbn [Z.eqb Pos.eqb andb]. f_equal. unfold len. lia.
Qed.

(** A packet in the stream is delivered. *)
Lemma delivers_one tp l ps r : packet_ok tp -> delivers l ps r ->
  delivers (smp_packet tp.1 tp.2 ++ l) (tp.2 :: ps) r.
Proof.
  intros Hok Hd. pose proof (header_packet tp l Hok) as Hh. destruct Hok as [_ Hl].
  destruct tp as [type p]. cbn [fst snd] in *.
  assert (Hlen : length (smp_packet type p) = (12 + length p)%nat).
  { unfold smp_packet. rewrite !length_app, smp_header_length. cbn. lia. }
  replace p with (slice 12 (8 + length p - 8) (smp_packet type p ++ l)) at 2.
  - apply delivers_packet; [done|lia|lia|rewrite length_app; lia|].
    replace (4 + (8 + length p))%nat with (length (smp_packet type p)) by lia.
    by rewrite drop_app_length.
  - replace (8 + length p - 8)%nat with (length p) by lia. unfold slice, smp_packet.
    rewrite <-!app_assoc, drop_app_ge by (cbn; lia). rewrite drop_app_ge by (cbn; lia).
    rewrite smp_header_length. cbn [length Nat.sub]. rewrite drop_0. apply take_app_length.
Qed.

(** ** The theorems *)

(** C10: the log of the SMP stream does not depend on how the stream is read.
    If a receiver of the whole stream delivers the packets [ps] and waits with
    [r], then the log file holds exactly the records of [ps], and the buffer
    exactly [r], whatever buffers the stream arrives in; noise in front of a
    packet, and headers with a wrong checksum, are skipped byte by byte.  The
    receiver knows only packets of at most [smp_limit] = 20520 bytes with their
    flag and at least the header's 8 in the length field: a longer packet never fits the buffer of the code and
    ends the log ([smp_long_packet_ends_log]). *)
Theorem smp_log_exact chip (E : env usys) logfd bufs ps r w : g_unisoc_log_type chip = 1 ->
  (forall h n, is_Some (E _ h (Malloc n))) -> smp_holds [] (loc w) ->
  delivers (concat bufs) ps r ->
  runs E (forM bufs (fun b => unisoc_logfile_save chip logfd b;; mret tt)) w (fun _ w' =>
    smp_holds r (loc w') /\ ulog logfd (hist w') = ulog logfd (hist w) ++ concat (map record ps)).
Proof.
  intros Ht Hm Hw Hd. apply (feeds_all E logfd (fun _ => True) _ bufs (feeds_save E logfd Hm chip Ht)
    (fun _ _ => I) []); [done| |done]. apply delivers_short. cbn. lia.
Qed.

(** A stream of packets is logged: the packets the module sends, of either
    type, each no longer than 20508 bytes, end up in the log file one after the
    other, each behind its length, in whatever buffers they arrive. *)
Theorem smp_packets_logged chip (E : env usys) logfd bufs pkts w : g_unisoc_log_type chip = 1 ->
  (forall h n, is_Some (E _ h (Malloc n))) -> smp_holds [] (loc w) ->
  Forall packet_ok pkts -> concat bufs = concat (map (fun tp => smp_packet tp.1 tp.2) pkts) ->
  runs E (forM bufs (fun b => unisoc_logfile_save chip logfd b;; mret tt)) w (fun _ w' =>
    ulog logfd (hist w') = ulog logfd (hist w) ++ concat (map (fun tp => record tp.2) pkts)).
Proof.
  intros Ht Hm Hw Hok Hs.
  assert (Hd : delivers (concat bufs) (map snd pkts) []).
  { rewrite Hs. clear Hs. induction Hok as [|tp l Htp Hl IH]; cbn [map concat].
    - apply delivers_short. cbn. lia.
    - by apply delivers_one. }
  eapply runs_mono.
  - apply (feeds_all E logfd (fun _ => True) _ bufs (feeds_save E logfd Hm chip Ht) (fun _ _ => I)
      [] (map snd pkts) [] w Hw); [apply delivers_short; cbn; lia|exact Hd].
  - cbn beta. intros _ w' [_ ->]. by rewrite map_map.
Qed.

(** A packet that is longer than the buffer ends the log.  Once the buffer
    holds a header in order that announces more than 24 KiB, nothing is saved
    any more, whatever arrives: the packet never completes, and what does not
    fit behind it is thrown away. *)
Theorem smp_long_packet_ends_log chip (E : env usys) logfd bufs h n w : g_unisoc_log_type chip = 1 ->
  (forall h n, is_Some (E _ h (Malloc n))) -> smp_holds h (loc w) ->
  (12 <= length h <= unisoc_log_max)%nat -> header h = Some n -> (unisoc_log_max < 4 + n)%nat ->
  runs E (forM bufs (fun b => unisoc_logfile_save chip logfd b;; mret tt)) w (fun _ w' =>
    ulog logfd (hist w') = ulog logfd (hist w)).
Proof.
  intros Ht Hm Hw Hl Hh Hn. eapply runs_mono.
  - apply (runs_forM E _ _ (fun _ w' => stuck (loc w') /\ ulog logfd (hist w') = ulog logfd (hist w))).
    + split; [|done]. by exists h, n.
    + intros pre a rest w1 _ [Hw1 Ho1]. apply runs_bind.
      eapply runs_mono; [by apply stuck_save|]. cbn beta. intros _ w2 [Hw2 Ho2].
      apply runs_ret. split; [done|]. by rewrite Ho2.
  - cbn beta. by intros _ w' [_ ?].
Qed.

(** ** A concrete module *)

Definition demo_us (held : list Z) : us :=
  Us 0 0 0 None 0 (replicate 256 0)
    (match held with [] => None | _ => Some (held ++ replicate (unisoc_log_max - length held) 0) end)
    (length held) None (-1) (-1) 0 0xab000000 0 (-1) 0 (-1) [] None 0 0 0.

Definition demo_chip : chip := Chip 2 0 1 0.

Definition demo_env : env usys := fun A _ c =>
  match c in usys B return B with
  | PollWrite _ b _ => len b
  | PollRead _ _ _ => None
  | Write _ b => len b
  | LogfileSave _ b => len b
  | LogfileCreate _ _ _ _ => 3
  | LogfileClose _ => tt
  | Open _ => 4
  | Close _ => tt
  | ReadFile _ => None
  | MakeDir _ => tt
  | MissingDir _ => false
  | EnoughSpace _ _ => true
  | TimeName => []
  | Gettimeofday => (0, 0)
  | Malloc _ => Some (fun _ => 0)
  | Sleep _ => []
  | UsbControl _ _ => 0
  | StartCpdumpThread => tt
  | RxLogCount => 0
  | SignalledExit => false
  end.

Lemma demo_malloc h n : is_Some (demo_env _ h (Malloc n)).
Proof. by eexists. Qed.

Lemma demo_holds l : (length l <= unisoc_log_max)%nat -> smp_holds l (demo_us l).
Proof.
  intros H. split; [done|]. destruct l as [|a l]; [done|]. cbn [unisoc_log_buf demo_us].
  split; [|apply take_app_length]. rewrite length_app, length_replicate. lia.
Qed.

(** Noise, then two packets that arrive in pieces. *)
Definition demo_bufs : list (list Z) :=
  [[0x7E; 1]; smp_packet 0 [5; 6; 7] ++ [0x7E; 0x7E]; [0x7E; 0x7E] ++ smp_header 9 0xf8; [8]].

Lemma small_ok type p : type = 0 \/ type = 0xf8 -> (length p <= 1000)%nat -> packet_ok (type, p).
Proof. intros Ht Hp. split; [done|]. cbn [snd]. unfold smp_limit. lia. Qed.

Lemma demo_delivers : delivers (concat demo_bufs) [[5; 6; 7]; [8]] [].
Proof.
  change (concat demo_bufs) with (0x7E :: 1 :: smp_packet 0 [5; 6; 7] ++ smp_packet 0xf8 [8] ++ []).
  apply delivers_skip; [cbn; lia|done|]. apply delivers_skip; [cbn; lia|done|].
  apply (delivers_one (0, [5; 6; 7])); [apply small_ok; [by left|cbn; lia]|].
  apply (delivers_one (0xf8, [8])); [apply small_ok; [by right|cbn; lia]|].
  apply delivers_short. cbn. lia.
Qed.

Lemma smp_log_exact_witness :
  runs demo_env (forM demo_bufs (fun b => unisoc_logfile_save demo_chip 3 b;; mret tt))
    (World (demo_us []) [])
    (fun _ w' => smp_holds [] (loc w') /\
       ulog 3 (hist w') = [] ++ concat (map record [[5; 6; 7]; [8]])).
Proof.
  apply (smp_log_exact demo_chip demo_env 3 demo_bufs [[5; 6; 7]; [8]] []);
    [done|exact demo_malloc|by apply demo_holds, Nat.le_0_l|exact demo_delivers].
Defined.

Definition demo_pkts : list (Z * list Z) := [(0, [5; 6; 7]); (0xf8, [8])].

Lemma smp_packets_logged_witness :
  runs demo_env (forM [smp_packet 0 [5; 6; 7] ++ [0x7E]; [0x7E; 0x7E; 0x7E] ++ smp_header 9 0xf8 ++ [8]]
      (fun b => unisoc_logfile_save demo_chip 3 b;; mret tt)) (World (demo_us []) [])
    (fun _ w' => ulog 3 (hist w') = [] ++ concat (map (fun tp => record tp.2) demo_pkts)).
Proof.
  apply (smp_packets_logged demo_chip demo_env 3 _ demo_pkts);
    [done|exact demo_malloc|by apply demo_holds, Nat.le_0_l| |reflexivity].
  constructor; [apply small_ok; [by left|cbn; lia]|].
  constructor; [apply small_ok; [by right|cbn; lia]|constructor].
Defined.

Definition long_header : list Z := [0x7E; 0x7E; 0x7E; 0x7E] ++ smp_header 30000 0.

Lemma long_header_length : header long_header = Some (Z.to_nat 30000).
Proof.
  unfold header. match goal with |- (if ?b then _ else _) = _ => assert (b = true) as -> by done end.
  do 2 f_equal.
Qed.

Lemma smp_long_packet_ends_log_witness :
  runs demo_env (forM [replicate 100 1; smp_packet 0 [5; 6; 7]]
      (fun b => unisoc_logfile_save demo_chip 3 b;; mret tt)) (World (demo_us long_header) [])
    (fun _ w' => ulog 3 (hist w') = []).
Proof.
  apply (smp_long_packet_ends_log demo_chip demo_env 3 _ long_header (Z.to_nat 30000));
    [done|exact demo_malloc|apply demo_holds| |exact long_header_length|]; unfold unisoc_log_max;
    [change (length long_header) with 12%nat|change (length long_header) with 12%nat|]; lia.
Defined.
