(* ===== verification/UnisocTables.v ===== *)
(** The memory regions that the blue-screen dumps of the UNISOC modules read
    (the tables of src/unisoc.c). *)

From Stdlib Require Import ZArith.
From stdpp Require Import base list strings.
From S2P Require Import Prelude.

(** [struct ql_cmd]: a region of the memory, or a condition on the region
    before it. *)
Inductive ql_cmd : Type :=
| Region (filename : string) (base size skip : Z)
| Require (addr mask value : Z).

Definition ql_exx00u_xml_data : list ql_cmd := [
  Region "bootrom" 0x00000000 0x10000 0;
  Region "sysram" 0x00800000 0x78000 0;
  Region "bbsram" 0x40080000 0x20000 0;
  Region "riscv" 0x50000000 0xc000 0;
  Region "rfreg" 0x50030000 0x5100 0;
  Region "sysreg" 0x50080000 0x64 0;
  Region "clkrst" 0x50081000 0xA8 0;
  Region "monitor" 0x50083000 0x44 0;
  Region "watchdog" 0x50084000 0x20 0;
  Region "idle" 0x50090000 0x2a8 0;
  Region "idleres" 0x50094000 0x30 0;
  Region "pwrctrl" 0x500A0000 0xD8 0;
  Region "sys_ctrl" 0x50100000 0x250 0;
  Region "mailbox" 0x50104000 0x67C 0;
  Region "timer3" 0x50105000 0x100 0;
  Region "analog" 0x50109000 0x240 0;
  Region "aon_ifc" 0x5010a004 0x44 0;
  Region "iomux" 0x5010c000 0x178 0;
  Region "pmic" 0x50308000 0x1000 0;
  Region "irq" 0x08800000 0x200 0;
  Region "irq1" 0x08800800 0x4C 0;
  Region "timer1" 0x08808000 0x100 0;
  Region "timer2" 0x08809000 0x100 0;
  Region "timer4" 0x0880E000 0x100 0;
  Region "ap_ifc" 0x0880f004 0x94 0;
  Region "sci1" 0x08814000 0x100 0;
  Region "sci2" 0x08815000 0x100 0;
  Region "f8" 0x09000000 0x200 0;
  Region "axidma" 0x090c0000 0x400 0;
  Region "riscvram" 0x10040000 0xA000 1;
  Require 0x500A0034 0x03 0x03;
  Region "riscvem" 0x14110000 0x6000 0;
  Require 0x500A0034 0x03 0x03;
  Region "txrx" 0x25000000 0x20000 0;
  Region "rfad" 0x25100000 0x3000 0;
  Region "coeff" 0x25200000 0x200 0;
  Region "ldtc" 0x25300000 0x24000 0;
  Region "otdoa" 0x25400000 0x60000 0;
  Region "measpwr" 0x25500000 0xA0000 0;
  Region "iddet" 0x25600000 0xc000 0;
  Region "uldft" 0x25700000 0x3400 0;
  Region "pusch" 0x25800000 0x38000 0;
  Region "ulpcdci" 0x25900000 0x200 0;
  Region "dlfft" 0x25a00000 0x16000 0;
  Region "csirs" 0x25b00000 0xd000 0;
  Region "ldtc1" 0x26000000 0x7203A0 0;
  Region "corr" 0x26000800 0x1c 0;
  Region "rxcap" 0x27000000 0x17000 0;
  Region "bbapb" 0x40000000 0x20000 0;
  Require 0x500A002C 0x03 0x03;
  Region "bcpubrom" 0x400A0000 0x30000 0;
  Region "zaxidma" 0x22000000 0x400 1;
  Require 0x500A0024 0x03 0x03;
  Region "zitcm" 0x21400000 0x4000 1;
  Region "zdtcm" 0x21500000 0x4000 1;
  Region "psram" 0x80000000 0x1000000 0
].

Definition ql_ec800g_xml_data : list ql_cmd := [
  Region "ap_iram" 0x00100000 0x4000 0;
  Region "spiflash1_reg" 0x02000000 0xc4 0;
  Region "spiflash2_reg" 0x02040000 0xc4 0;
  Region "gouda" 0x02080000 0x2e40 0;
  Region "ap_axidma" 0x020c0000 0x32c 0;
  Region "emmc" 0x04006000 0x290 0;
  Region "spi1" 0x04008000 0x7c 0;
  Region "sdmmc" 0x04403000 0x844 0;
  Region "camera" 0x04404000 0xf5c 0;
  Region "ap_ifc" 0x04405000 0xd8 0;
  Region "lzma" 0x04800000 0x4c 0;
  Region "ap_imem" 0x04801000 0x40 0;
  Region "ap_busmon" 0x04802000 0x9c 0;
  Region "apb_reg" 0x04803000 0x148 0;
  Region "gouda_reg" 0x04804000 0xa4 0;
  Region "timer1" 0x04805000 0x28 0;
  Region "timer2" 0x04806000 0x3c 0;
  Region "i2c1" 0x04807000 0x14 0;
  Region "i2c2" 0x04808000 0x14 0;
  Region "gpt3" 0x04809000 0x44 0;
  Region "ap_clk" 0x0480a000 0x104 0;
  Region "cp_iram" 0x10100000 0x34000 0;
  Region "f8_reg" 0x12000000 0x40 0;
  Region "cp_axidma" 0x12040000 0x32c 0;
  Region "glb_reg" 0x120c0000 0xc8 0;
  Region "sci1" 0x14000000 0x34 0;
  Region "sci2" 0x14001000 0x34 0;
  Region "cp_ifc" 0x14002000 0x60 0;
  Region "cp_imem" 0x14003000 0xc0 0;
  Region "cp_busmon" 0x14004000 0x9c 0;
  Region "timer3" 0x14006000 0x28 0;
  Region "timer4" 0x14007000 0x3c 0;
  Region "wlan_11b" 0x14008000 0xf4 0;
  Region "cp_irq0" 0x14009000 0x150 0;
  Region "cp_irq1" 0x1400a000 0x150 0;
  Region "txrx" 0x18000000 0x1c008 0;
  Region "rfad" 0x18100000 0x2004 0;
  Region "coeff" 0x18200000 0x18 0;
  Region "measpwr" 0x18500000 0x38004 0;
  Region "iddet" 0x18600000 0xd004 0;
  Region "uldft" 0x18700000 0x3804 0;
  Region "pusch" 0x18800000 0x30004 0;
  Region "ulpcdci" 0x18900000 0x60 0;
  Region "dlfft" 0x18a00000 0x100 0;
  Region "scirs" 0x18b00000 0xc004 0;
  Region "hsdl" 0x18c00000 0x310 0;
  Region "rxcapt" 0x1a000000 0x16004 0;
  Region "rf_isram" 0x50000000 0x8000 0;
  Region "rf_dsram" 0x50008000 0x4000 0;
  Region "riscv_debug" 0x50020000 0x7c44 0;
  Region "riscv_intc" 0x50028000 0x10 0;
  Region "riscv_sleep" 0x5002c000 0x8 0;
  Region "rf_interface_reg" 0x50030000 0x360 0;
  Region "rf_ana_reg" 0x50031000 0x198 0;
  Region "dfe" 0x50032000 0x658 0;
  Region "tx_dlpf" 0x50033000 0xb8 0;
  Region "rtc" 0x50034000 0xdc 0;
  Region "rf_sys_ctrl" 0x50035000 0x15c 0;
  Region "lte-gnss-bitmap" 0x50036000 0xac 0;
  Region "rx_dlpf" 0x50037000 0xb8 0;
  Region "rffe" 0x50038000 0x20 0;
  Region "watchdog" 0x50039000 0x1000 0;
  Region "timer0" 0x5003a000 0x1000 0;
  Region "test_tsen" 0x5003b000 0x50 0;
  Region "aon_iram" 0x50800000 0x14000 0;
  Region "efuse" 0x51200000 0x80 0;
  Region "aif" 0x5140a000 0x1c 0;
  Region "aon_ifc" 0x5140e000 0x88 0;
  Region "dbg_host" 0x5140f000 0x1c 0;
  Region "sys_ctrl" 0x51500000 0xd4 0;
  Region "ana_wrap1" 0x51501000 0x70 0;
  Region "mon_ctrl" 0x51502000 0x48 0;
  Region "gpio2" 0x51503000 0x50 0;
  Region "i2c3" 0x51504000 0x14 0;
  Region "scc_top" 0x51505000 0x34 0;
  Region "sysmail" 0x51506000 0x680 0;
  Region "idle_timer" 0x51507000 0x3c4 0;
  Region "aon_clk_pre" 0x51508000 0x54 0;
  Region "aon_clk_core" 0x51508800 0x1a4 0;
  Region "aud_2ad" 0x5150a000 0x6c 0;
  Region "gpt2" 0x5150b000 0x54 0;
  Region "spi2" 0x5150c000 0x7c 0;
  Region "gpt1" 0x5150d000 0x44 0;
  Region "djtag_cfg" 0x5150e000 0x20 0;
  Region "ana_wap2" 0x5150f000 0x18 0;
  Region "iomux" 0x51510000 0x1b8 0;
  Region "dmc" 0x51600000 0x1000 0;
  Region "psram_phy" 0x51601000 0x730 0;
  Region "pagespy" 0x51602000 0x200 0;
  Region "pub_apb_reg" 0x51603000 0x38 0;
  Region "idle_lps" 0x51702000 0x158 0;
  Region "gpio1" 0x51703000 0x50 0;
  Region "apb_reg" 0x51705000 0x8 0;
  Region "keypad" 0x51706000 0x1c 0;
  Region "pwrctrl" 0x51707000 0x60 0;
  Region "rtc_timer" 0x51708000 0x44 0;
  Region "ana_warap3" 0x51709000 0x8 0;
  Region "lps_ifc" 0x5170e000 0x38 0;
  Region "dap" 0x51800000 0x6c 0;
  Region "ap_qos" 0x52042100 0x3c 0;
  Region "cp_qos" 0x52043100 0x3c 0;
  Region "aon_qos" 0x52044100 0x3c 0;
  Region "gnss_qos" 0x52045100 0x3c 0;
  Region "gnss_ahb" 0x1c000000 0x32fc 0;
  Region "gnss_clk_rf" 0x1c010000 0x0048 0;
  Region "rft" 0x1c020000 0x0144 0;
  Region "gnss_spi" 0x1c040000 0x0014 0;
  Region "pps" 0x1c050000 0x0040 0;
  Region "gnss_glb_reg" 0x1cc00000 0x006c 0;
  Region "ae_fifo0" 0x1cd00000 0x0070 0;
  Region "axi" 0x1cd02000 0x0088 0;
  Region "ae_fifo1" 0x1cd04000 0x0070 0;
  Region "ae_reg" 0x1cd10000 0x1000 0;
  Region "te_fifo0" 0x1ce00000 0x0068 0;
  Region "te_fifo1" 0x1ce04000 0x0068 0;
  Region "te_reg" 0x1ce0c000 0x0ffc 0;
  Region "vitebi" 0x1cf0c000 0x0018 0;
  Region "rtc" 0x1cf14000 0x0040 0;
  Region "data2ram" 0x1cf18000 0x001c 0;
  Region "ldpc" 0x1cf2c000 0x001c 0;
  Region "pp_mem" 0x1cc14000 0x1000 0;
  Require 0x51707038 0x1 0x1;
  Require 0x1c000004 0x2 0x2;
  Region "ae_link_mem" 0x1cd12000 0x0620 0;
  Require 0x51707038 0x1 0x1;
  Require 0x1c000004 0x4 0x4;
  Region "ae_ncs_mem" 0x1cd18000 0x5000 0;
  Require 0x51707038 0x1 0x1;
  Require 0x1c000004 0x4 0x4;
  Region "te_shared" 0x1ce40000 0x30000 0;
  Require 0x51707038 0x1 0x1;
  Require 0x1c000004 0x8 0x8;
  Region "ldpc_mem" 0x1cf3c000 0x0320 0;
  Require 0x51707038 0x1 0x1;
  Require 0x1c000004 0x8 0x8;
  Region "te_fifo" 0x1cf40000 0xc000 0;
  Require 0x51707038 0x1 0x1;
  Require 0x1c000004 0x80 0x80;
  Region "vitebi_symbol_mem" 0x1cf0c040 0x09c0 0;
  Require 0x51707038 0x1 0x1;
  Require 0x1c000004 0x100 0x100;
  Region "ldtc1_1" 0x19000000 0x300 0;
  Region "ldtc1_2" 0x19100000 0x70000 0;
  Region "ldtc1_3" 0x19200000 0x40000 0;
  Region "ldtc1_4" 0x19300000 0x10000 0;
  Region "ldtc1_5" 0x19400000 0x40000 0;
  Region "ldtc1_6" 0x19500000 0x30000 0;
  Region "ldtc1_7" 0x19600000 0x20000 0;
  Region "ldtc1_8" 0x19700000 0x30000 0;
  Region "uart1a" 0x51700000 0x8 0;
  Region "uart1b" 0x5170000c 0x20 0;
  Region "uart2a" 0x51400000 0x8 0;
  Region "uart2b" 0x5140000c 0x20 0;
  Region "uart3a" 0x51401000 0x8 0;
  Region "uart3b" 0x5140100c 0x20 0;
  Region "uart4a" 0x04400000 0x8 0;
  Region "uart4b" 0x0440000c 0x20 0;
  Region "uart5a" 0x04401000 0x8 0;
  Region "uart5b" 0x0440100c 0x20 0;
  Region "uart6a" 0x04402000 0x8 0;
  Region "uart6b" 0x0440200c 0x20 0;
  Region "dbg_uarta" 0x51402000 0x8 0;
  Region "dbg_uartb" 0x5140200c 0x10 0;
  Region "psram" 0x80000000 0x01000000 0
].
