(* ===== verification/UnisocDump.v ===== *)
(** The dumps of the UNISOC modules (src/unisoc.c): the blue-screen dumps of
    the EXX00U and the EC800G, which read the memory region by region, and the
    dumps that a module sends by itself. *)

From Stdlib Require Import ZArith Lia.
From stdpp Require Import base list strings.
From S2P Require Import Prelude UnisocSys UnisocCmd UnisocTables.

Fixpoint strStartsWith (line prefix : list Z) : bool :=
  match line, prefix with
  | a :: line', b :: prefix' => (a =? b) && strStartsWith line' prefix'
  | _, [] => true
  | [], _ :: _ => false
  end.

(** ["%02x%02x%02x%02x"] of the bytes of an address, the highest first. *)
Definition hex_digit (d : Z) : Z := if d <? 10 then 48 + d else 87 + d.
Definition hex_byte (b : Z) : list Z := [hex_digit (b / 16); hex_digit (b mod 16)].
Definition hex32 (a : Z) : list Z := concat (map hex_byte (rev (le_bytes 4 a))).

Definition blue_screen_dir (logfile_dir : list Z) : list Z :=
  take 255 logfile_dir ++ str "/BlueScreen".
Definition region_file (logfile_dir : list Z) (base : Z) : list Z :=
  take 264 (blue_screen_dir logfile_dir) ++ str "/" ++ hex32 base ++ str ".bin".

(** The file of a region. *)
Definition open_region (logfile_dir : list Z) (base : Z) : U Z :=
  let dir := blue_screen_dir logfile_dir in
  missing ← call (MissingDir dir);
  (if (missing : bool) then call (MakeDir dir) else mret tt);;
  call (Open (region_file logfile_dir base)).

(** The first [n] bytes of [pbuf]; the result of a failed read is no length. *)
Definition received (n : Z) : U (list Z) :=
  s ← get;
  if len (pbuf s) <? n then undef else of_option (rd_bytes 0 (Z.to_nat n) (pbuf s)).

(** ** EXX00U *)

Section Exx00u.
(** [logfile_save] of the operations of the module, for what is no answer. *)
Context (logfile_save : Z -> list Z -> U Z) (tmp_ap_fd : Z) (fuel : nat).

Definition exx00u_answer (fd : Z) : U Z :=
  iterM fuel (fun _ : unit =>
    rc ← unisoc_exx00u_recv_cmd fd QLOG_BUF_SIZE;
    s ← get;
    b0 ← byte 0 (pbuf s);
    b3 ← (if b0 =? 0xad then byte 3 (pbuf s) else mret 0);
    if negb ((b0 =? 0xad) && (b3 =? 0xfe)) then
      data ← received rc; logfile_save tmp_ap_fd data;; mret (inl tt)
    else mret (if rc <? 1 then inl tt else inr rc)) tt.

(** [type] 0, a block: its size and [save_buff]; [type] 1, a word. *)
Definition recv_block (fd : Z) (save_buff : list Z) : U (Z * list Z) :=
  rc ← exx00u_answer fd; s ← get; checkReadBlock (pbuf s) rc save_buff.
Definition recv_word (fd rvalue : Z) : U Z :=
  rc ← exx00u_answer fd; s ← get; '(_, v) ← checkRead (pbuf s) rc; mret (default rvalue v).

(** The blocks of a region: [false] leaves the dump. *)
Definition exx00u_block (dumpfile_fd size : Z) (a : Z * Z * list Z) : U (Z * Z * list Z + bool) :=
  let '(save_size, base, buff) := a in
  if negb (save_size <? size) then mret (inr true) else
  e ← exit_requested;
  if (e : bool) then mret (inr false) else
  s ← get;
  wc ← unisoc_exx00u_send_cmd_complete (exx00u_blue_screen_fd s) base
         (if 0x0800 <? size - save_size then 0x0800 else size - save_size) 1;
  if negb (wc =? 13) then call (Close dumpfile_fd);; mret (inr false) else
  '(tmp_rc, buff) ← recv_block (exx00u_blue_screen_fd s) buff;
  if tmp_rc =? 0 then mret (inl (save_size, base, buff)) else
  data ← of_option (rd_bytes 0 (Z.to_nat tmp_rc) buff);
  wc ← call (LogfileSave dumpfile_fd data);
  if negb (u64 wc =? tmp_rc) then call (Close dumpfile_fd);; mret (inr false) else
  mret (inl (u32 (save_size + tmp_rc), u32 (base + tmp_rc), buff)).

Definition exx00u_region (logfile_dir : list Z) (base size : Z) : U bool :=
  dumpfile_fd ← open_region logfile_dir base;
  if dumpfile_fd =? -1 then mret false else
  ok ← iterM fuel (exx00u_block dumpfile_fd size) (0, base, replicate 2048 0);
  (if (ok : bool) then call (Close dumpfile_fd) else mret tt);;
  mret ok.

(** The conditions of a region stand behind it; [rvalue] keeps the value that
    was read last. *)
Fixpoint exx00u_table (logfile_dir : list Z) (cmds : list ql_cmd) (rvalue : Z) : U Z :=
  match cmds with
  | [] => upd exx00u_is_blue_screen 0;; mret 1
  | c :: rest =>
      e ← exit_requested;
      if (e : bool) then mret (-1) else
      match c with
      | Require _ _ _ => exx00u_table logfile_dir rest rvalue
      | Region _ base size skip =>
          if skip =? 1 then exx00u_table logfile_dir rest rvalue else
          '(go, rvalue) ←
            match rest with
            | Require addr mask value :: _ =>
                s ← get;
                unisoc_exx00u_send_cmd_complete (exx00u_blue_screen_fd s) addr 0 2;;
                v ← recv_word (exx00u_blue_screen_fd s) rvalue;
                mret (Z.land v mask =? value, v)
            | _ => mret (true, rvalue)
            end;
          if negb go then exx00u_table logfile_dir rest rvalue else
          ok ← exx00u_region logfile_dir base size;
          if (ok : bool) then exx00u_table logfile_dir rest rvalue else mret (-1)
      end
  end.

Definition unisoc_exx00u_catch_blue_screen (logfile_dir : list Z) : U Z :=
  s ← get;
  p ← of_option (rd_bytes 0 6 (pbuf s));
  if bool_decide (p = [0xad; 0x00; 0x03; 0xff; rid s; 0x01]) then
    upd exx00u_is_blue_screen 1;; exx00u_table logfile_dir ql_exx00u_xml_data 0
  else mret 0.
End Exx00u.

(** ** EC800G *)

Section Ec800g.
Context (fuel : nat).

(** A read, unescaped into [pbuf_tmp]: what [pbuf_tmp] holds then, and how much
    of it is new. *)
Definition ec800g_receive (fd : Z) : U (list Z * Z) :=
  rc ← unisoc_ec800g_recv_cmd fd QLOG_BUF_SIZE;
  s ← get;
  tmp ← of_option (pbuf_tmp s);
  '(l, k) ← of_option (unescape (Z.to_nat (s32 rc)) (pbuf s));
  tmp ← of_option (wr 0 l tmp);
  upd pbuf_tmp (Some tmp);;
  mret (tmp, u64 (rc - k)).

(** A turn of the receiving loop: the offset of the answer, its size in all
    and that of its data stay from turn to turn.  [type] 1, a word, reads the
    value from an array of four bytes at offset 25 and more. *)
Definition ec800g_turn (fd type : Z) (a : nat * Z * Z) : U (nat * Z * Z + nat * Z * Z) :=
  let '(off, _, _) := a in
  '(tmp, valid) ← ec800g_receive fd;
  s ← get;
  let off := default off (find_answer (Z.to_nat (s32 valid)) 0 tmp) in
  n ← of_option (rd (off + 11) 2 tmp);
  let psize := u16 (n - 16) in
  if type =? 1 then undef else
  let need := psize + 16 + 8 + 2 in
  id ← of_option (rd (off + 1) 4 tmp);
  first ← byte off tmp;
  last ← (if (id =? rid_ec800g s) && negb (valid <? need) && (first =? 0x7e)
          then byte (off + Z.to_nat need - 1) tmp else mret 0);
  if last =? 0x7e then mret (inr (off, need, psize))
  else
    e ← exit_requested;
    mret (if (e : bool) then inr (off, need, psize) else inl (off, need, psize)).

(** The answer goes to the front of [pbuf]; answers [*psize]. *)
Definition unisoc_ec800g_recv_cmd_deal (fd type : Z) : U Z :=
  '(off, need, psize) ← iterM fuel (ec800g_turn fd type) (0%nat, 0, 0);
  s ← get;
  tmp ← of_option (pbuf_tmp s);
  data ← of_option (rd_bytes off (Z.to_nat need) tmp);
  b ← of_option (wr 0 data (pbuf s));
  upd pbuf b;; mret psize.

(** A block is asked for, received and saved: [false] leaves the dump. *)
Definition ec800g_block (dumpfile_fd base size : Z) : U bool :=
  s ← get;
  wc ← unisoc_ec800g_send_cmd_complete (ec800g_blue_screen_fd s) base size 1;
  if wc <? 26 then call (Close dumpfile_fd);; mret false else
  rsize ← unisoc_ec800g_recv_cmd_deal (ec800g_blue_screen_fd s) 0;
  s ← get;
  data ← of_option (rd_bytes 25 (Z.to_nat rsize) (pbuf s));
  wc ← call (LogfileSave dumpfile_fd data);
  if negb (u64 wc =? rsize) then call (Close dumpfile_fd);; mret false else mret true.

Definition ec800g_blocks (dumpfile_fd : Z) (a : Z * Z) : U (Z * Z + bool) :=
  let '(base, size) := a in
  if 1024 <? size then
    e ← exit_requested;
    if (e : bool) then mret (inr false) else
    ok ← ec800g_block dumpfile_fd base 0x0400;
    mret (if (ok : bool) then inl (u32 (base + 1024), size - 1024) else inr false)
  else if 0 <? size then
    ok ← ec800g_block dumpfile_fd base size; mret (inr ok)
  else mret (inr true).

Definition ec800g_region (logfile_dir : list Z) (base size : Z) : U bool :=
  dumpfile_fd ← open_region logfile_dir base;
  if dumpfile_fd =? -1 then mret false else
  ok ← iterM fuel (ec800g_blocks dumpfile_fd) (base, size);
  (if (ok : bool) then call (Close dumpfile_fd) else mret tt);;
  mret ok.

(** A condition that stands behind a region. *)
Definition ec800g_require (c : option ql_cmd) : U bool :=
  match c with
  | Some (Require addr mask value) =>
      s ← get;
      unisoc_ec800g_send_cmd_complete (ec800g_blue_screen_fd s) addr 0 2;;
      v ← unisoc_ec800g_recv_cmd_deal (ec800g_blue_screen_fd s) 1;
      mret (Z.land v mask =? value)
  | _ => mret true
  end.
Definition is_require (c : option ql_cmd) : bool :=
  match c with Some (Require _ _ _) => true | _ => false end.

Definition is_psram (filename : string) : bool :=
  strStartsWith (str filename) (str "psram") && negb (strStartsWith (str filename) (str "psram_phy")).

Fixpoint ec800g_table (logfile_dir : list Z) (psram_size : Z) (cmds : list ql_cmd) : U Z :=
  match cmds with
  | [] => upd ec800g_is_blue_screen 0;; mret 1
  | c :: rest =>
      e ← exit_requested;
      if (e : bool) then mret (-1) else
      match c with
      | Require _ _ _ => ec800g_table logfile_dir psram_size rest
      | Region filename base size skip =>
          if skip =? 1 then ec800g_table logfile_dir psram_size rest else
          let size := if is_psram filename then psram_size else size in
          go ← ec800g_require (rest !! 0%nat);
          go ← (if (go : bool) && is_require (rest !! 0%nat) then ec800g_require (rest !! 1%nat)
                else mret go);
          if negb go then ec800g_table logfile_dir psram_size rest else
          ok ← ec800g_region logfile_dir base size;
          if (ok : bool) then ec800g_table logfile_dir psram_size rest else mret (-1)
      end
  end.

Definition ec800g_crashed : list Z :=
  [0x19; 0x00; 0x0b; 0x00; 0x03; 0xa0; 0x11; 0x00; 0x00; 0x00; 0x00; 0x00; 0x00; 0x00; 0x00;
   0x00; 0x01; 0x00; 0x00; 0x00; 0x01; 0x7e].

Definition unisoc_ec800g_catch_blue_screen (logfile_dir : list Z) : U Z :=
  s ← get;
  p ← of_option (rd_bytes 0 27 (pbuf s));
  if bool_decide (head p = Some 0x7e) && bool_decide (slice 5 22 p = ec800g_crashed) then
    upd ec800g_is_blue_screen 1;;
    call (Sleep 5000);;
    tmp ← malloc (QLOG_BUF_SIZE * 2);
    upd pbuf_tmp tmp;;
    match tmp with
    | None => mret (-1)
    | Some _ =>
        s ← get;
        wc ← unisoc_ec800g_send_cmd_complete (ec800g_blue_screen_fd s) 0x80000c00 0x64 1;
        if wc <? 26 then mret (-1) else
        rsize ← unisoc_ec800g_recv_cmd_deal (ec800g_blue_screen_fd s) 0;
        s ← get;
        tag ← of_option (rd_bytes 25 4 (pbuf s));
        if bool_decide (tag = [0xf3; 0xf2; 0xf1; 0xf0]) && (36 <=? rsize) then
          psram_size ← of_option (rd (25 + 4 + 24) 4 (pbuf s));
          ec800g_table logfile_dir psram_size ql_ec800g_xml_data
        else mret (-1)
    end
  else mret 0.
End Ec800g.

(** ** Dumps that the module sends *)

Section Stream.
Context (fuel : nat) (g_is_unisoc_chip : Z).

(** The bytes of the port go to the file until nothing comes for 12 seconds. *)
Definition save_stream (ttyfd dumpfd RX_URB_SIZE ret : Z) : U Z :=
  iterM fuel (fun ret : Z =>
    e ← exit_requested;
    if (e : bool) then mret (inr ret) else
    r ← call (PollRead ttyfd RX_URB_SIZE 12000);
    match r with
    | None => undef
    | Some [] => mret (inr 1)
    | Some l =>
        let l := take (Z.to_nat RX_URB_SIZE) l in
        nwrites ← call (LogfileSave dumpfd l);
        mret (if s32 nwrites =? len l then inl ret else inr (-1))
    end) ret.

Definition apdump_name (dir name : list Z) : list Z :=
  take 155 dir ++ str "/" ++ take 80 (str "apdump_" ++ take 80 name ++ str ".logel").

(** A dump into a file of its own; [start] asks the module for it and answers
    [ret], and whether it has worked. *)
Definition dump_to_file (path : list Z) (ttyfd RX_URB_SIZE : Z) (start : U (Z * bool)) : U Z :=
  m ← malloc RX_URB_SIZE;
  match m with
  | None => mret (-1)
  | Some _ =>
      fd ← call (LogfileCreate 0 path 0 1);
      if fd =? -1 then mret (-1) else
      '(ret, ok) ← start;
      ret ← (if (ok : bool) then save_stream ttyfd fd RX_URB_SIZE ret else mret ret);
      call (LogfileClose fd);; mret ret
  end.

(** The commands one after the other, with a pause behind each. *)
Fixpoint send_all (ttyfd ret : Z) (cmds : list (list Z)) : U (Z * bool) :=
  match cmds with
  | [] => mret (ret, true)
  | c :: cmds =>
      ret ← call (PollWrite ttyfd c 1000);
      if ret <? 0 then mret (ret, false) else call (Sleep 1);; send_all ttyfd ret cmds
  end.

Definition unisoc_catch_8310_dump (ttyfd : Z) (logfile_dir : list Z) (RX_URB_SIZE : Z) : U Z :=
  t ← call TimeName;
  let dump_dir := take 172 logfile_dir ++ str "/dump_" ++ take 80 t in
  call (MakeDir dump_dir);;
  space ← call (EnoughSpace dump_dir 256);
  if negb space then upd qlog_exit_requested 1;; mret (-1) else
  t ← call TimeName;
  dump_to_file (apdump_name dump_dir t) ttyfd RX_URB_SIZE
    (send_all ttyfd (-1)
       [[0x7e; 0x32; 0x00; 0x38; 0x00; 0x0c; 0x00; 0x62; 0x00; 0x33; 0x00; 0x00; 0x00; 0x7e];
        str "t" ++ [10]]).

Definition unisoc_catch_dump (usbfd ttyfd : Z) (logfile_dir : list Z) (RX_URB_SIZE : Z) : U Z :=
  t ← call TimeName;
  dump_to_file (apdump_name logfile_dir t) ttyfd RX_URB_SIZE
    (if g_is_unisoc_chip =? 1 then
       ret ← call (UsbControl usbfd 0x0101);
       if negb (ret =? 0) then mret (ret, false) else
       ret ← call (PollWrite ttyfd (str "t" ++ [10]) 1000); mret (ret, negb (ret <? 0))
     else if g_is_unisoc_chip =? 3 then
       ret ← call (UsbControl usbfd 0x0100);
       if negb (ret =? 0) then mret (ret, false) else
       call (Sleep 1);;
       send_all ttyfd ret
         [str "0" ++ [10];
          [0x7e; 0x54; 0x52; 0xf6; 0x75; 0x0c; 0x00; 0x62; 0x60; 0x00; 0x00; 0x00; 0x00; 0x7e];
          str "t" ++ [10]]
     else mret (-1, true)).
End Stream.
