(* ===== verification/UnisocDumpProps.v ===== *)
(** The blue-screen dumps of the UNISOC modules: a module that serves its
    memory is dumped exactly. *)

From Stdlib Require Import ZArith Lia.
From stdpp Require Import base list strings.
From S2P Require Import Prelude Buffers UnisocSys UnisocCmd UnisocLog UnisocTables UnisocDump.

(** ** Buffers *)

Definition BUF : nat := Z.to_nat QLOG_BUF_SIZE.
Lemma BUF_val : Z.of_nat BUF = 65536.
Proof. by apply Z2Nat.id. Qed.

(** ** What a history shows *)

(** The last command, and how often its answer has been asked for since. *)
Fixpoint pending (h : list (io usys)) : option (list Z * nat) :=
  match h with
  | [] => None
  | Ev c _ :: h' =>
      match c with
      | PollWrite _ b _ => Some (b, 0%nat)
      | PollRead _ _ _ => (fun '(b, k) => (b, S k)) <$> pending h'
      | _ => pending h'
      end
  end.

(** The files opened with descriptor [dfd] and what was saved into each, the
    last one first. *)
Fixpoint dumps (dfd : Z) (h : list (io usys)) : list (list Z * list Z) :=
  match h with
  | [] => []
  | Ev c a :: h' =>
      match c in usys B return B -> _ with
      | Open path => fun r => if r =? dfd then (path, []) :: dumps dfd h' else dumps dfd h'
      | LogfileSave fd d => fun _ =>
          match dumps dfd h' with
          | (p, x) :: l => if fd =? dfd then (p, x ++ d) :: l else (p, x) :: l
          | [] => []
          end
      | _ => fun _ => dumps dfd h'
      end a
  end.

Lemma dumps_save dfd fd d r h : fd <> dfd -> dumps dfd (Ev (LogfileSave fd d) r :: h) = dumps dfd h.
Proof.
  intros H. cbn. rewrite (proj2 (Z.eqb_neq _ _) H). by destruct (dumps dfd h) as [|[] ?].
Qed.

(** ** Escapes *)

(** Everything but the flags is escaped. *)
Definition esc (l : list Z) : list Z :=
  concat (map (fun b => if b =? 0x7e then [0x7d; 0x5e] else if b =? 0x7d then [0x7d; 0x5d] else [b]) l).
Definition escapes (l : list Z) : Z := len (filter (fun b => b = 0x7e \/ b = 0x7d) l).

Lemma unescape_esc l m rest : unescape (length (esc l) + m) (esc l ++ rest) =
  '(x, k) ← unescape m rest; Some (l ++ x, escapes l + k).
Proof.
  induction l as [|b l IH].
  - cbn [esc map concat length app Nat.add]. by destruct (unescape m rest) as [[x k]|].
  - cbn [esc map concat]. fold (esc l). unfold escapes in *. rewrite filter_cons, length_app, <-app_assoc.
    destruct (Z.eqb_spec b 0x7e) as [->|Hne]; [|destruct (Z.eqb_spec b 0x7d) as [->|Hnd]].
    + rewrite decide_True by auto. cbn [length app Nat.add unescape]. cbn [Z.eqb Pos.eqb orb].
      rewrite IH. destruct (unescape m rest) as [[x k]|]; [|done]. cbn. do 2 f_equal.
      unfold len. cbn [length]. lia.
    + rewrite decide_True by auto. cbn [length app Nat.add unescape]. cbn [Z.eqb Pos.eqb orb].
      rewrite IH. destruct (unescape m rest) as [[x k]|]; [|done]. cbn. do 2 f_equal.
      unfold len. cbn [length]. lia.
    + rewrite decide_False by tauto. cbn [length app Nat.add unescape].
      rewrite (proj2 (Z.eqb_neq b 0x7d)) by done. rewrite IH.
      by destruct (unescape m rest) as [[x k]|].
Qed.

Lemma escapes_bound l : 0 <= escapes l <= len l.
Proof. unfold escapes, len. pose proof (length_filter (fun b => b = 0x7e \/ b = 0x7d) l). lia. Qed.

Lemma find_front t i l : (20 <= t)%nat -> answer_at l = true -> find_answer t i l = Some i.
Proof.
  intros Ht Hl. destruct t as [|t]; [lia|]. cbn [find_answer]. rewrite Hl.
  by rewrite (proj2 (Nat.leb_le 20 (S t))).
Qed.

Lemma esc_length l : len (esc l) = len l + escapes l.
Proof.
  unfold len, escapes. induction l as [|b l IH]; [done|]. cbn [esc map concat]. fold (esc l).
  rewrite filter_cons, length_app.
  destruct (Z.eqb_spec b 0x7e); [|destruct (Z.eqb_spec b 0x7d)];
    first [rewrite decide_True by (by auto) | rewrite decide_False by tauto];
    unfold len in *; cbn [length]; lia.
Qed.

Lemma escape_length i l : (length l <= length (escape_from i l) <= 2 * length l)%nat.
Proof.
  revert i. induction l as [|b l IH]; intros i; cbn [escape_from]; [done|].
  rewrite length_app. specialize (IH (S i)).
  repeat (match goal with |- context [if ?c then _ else _] => destruct c end); cbn [length]; lia.
Qed.

(** ** A module that serves its memory *)

Section Module.
Context (E : env usys) (mem word : Z -> Z) (K : nat) (dfd ap : Z).
Abbreviation world := (world usys us).
Abbreviation files := (dumps dfd).

Abbreviation mem_bytes := (Buffers.mem_bytes mem).

(** What is no answer: nothing, or something that does not begin like one. *)
Definition noise (l : list Z) : Prop :=
  l = [] \/ (4 <= length l <= BUF)%nat /\ (l !! 0%nat = Some 0xad -> l !! 3%nat <> Some 0xfe).

(** [b] is answered by [a], after at most [K] reads that give [other]. *)
Definition answered_after (other : list Z -> Prop) (b a : list Z) : Prop :=
  forall h k fd n t, pending h = Some (b, k) ->
    E _ h (PollRead fd n t) = Some a \/
    (k < K)%nat /\ exists l, E _ h (PollRead fd n t) = Some l /\ other l.
Abbreviation answered := (answered_after noise).

Definition block_answer (id addr n c : Z) : list Z :=
  [0xad; (n + 2) / 256; (n + 2) mod 256; 0xfe; id] ++ mem_bytes addr n ++ [c].
Definition word_answer (id addr c : Z) : list Z :=
  [0xad; 0x00; 0x07; 0xfe; id] ++ rev (le_bytes 4 (word addr)) ++ [c].

Record exx00u_module : Prop := Exx00u_module {
  d_fds : dfd <> -1 /\ ap <> dfd;
  d_exit : forall h, E _ h SignalledExit = false;
  d_write : forall h f b t, E _ h (PollWrite f b t) = len b;
  d_save : forall h f b, E _ h (LogfileSave f b) = len b;
  d_open : forall h p, E _ h (Open p) = dfd;
  d_word : forall a, 0 <= word a < 2 ^ 32;
  d_block_answer : forall id addr n, 0 <= id < 256 -> 0 <= addr < 2 ^ 32 -> 0 < n <= 2048 ->
    exists c, answered (exx00u_readBlock id addr n) (block_answer id addr n c);
  d_word_answer : forall id addr, 0 <= id < 256 -> 0 <= addr < 2 ^ 32 ->
    exists c, answered (exx00u_read32 id addr) (word_answer id addr c);
}.
Context (HD : exx00u_module) (fuel : nat) (Hfuel : (K < fuel)%nat).

Definition ready (s : us) : Prop :=
  length (pbuf s) = BUF /\ 0 <= rid s < 256 /\ qlog_exit_requested s = 0.

(** The state apart from the receive buffer and the number of the request. *)
Definition same_but (s s' : us) : Prop := exists p i, s' = s <| pbuf := p |> <| rid := i |>.

(** What is no answer is handed to the log of the other port. *)
Lemma save_noise_runs d (w : world) : runs E (unisoc_exx00u_logfile_save ap d) w (fun _ w' =>
  loc w' = loc w /\ pending (hist w') = pending (hist w) /\ files (hist w') = files (hist w)).
Proof.
  destruct HD as [[_ Hap] _ _ _ _ _ _ _]. unfold unisoc_exx00u_logfile_save.
  destruct d as [|b d]; [by apply runs_ret|]. destruct (ap <=? 0); [by apply runs_ret|].
  apply runs_call. split; [done|]. split; [done|]. by apply dumps_save.
Qed.

Lemma recv_runs fd l (w : world) : E _ (hist w) (PollRead fd QLOG_BUF_SIZE 3000) = Some l ->
  (length l <= BUF)%nat -> length (pbuf (loc w)) = BUF ->
  runs E (unisoc_exx00u_recv_cmd fd QLOG_BUF_SIZE) w (fun rc w' => rc = len l /\
    loc w' = (loc w) <| pbuf := put 0 l (pbuf (loc w)) |> /\
    hist w' = Ev (PollRead fd QLOG_BUF_SIZE 3000) (Some l) :: hist w).
Proof.
  intros Hr Hl Hb. unfold unisoc_exx00u_recv_cmd. apply runs_bind, runs_call. rewrite Hr.
  fold BUF. rewrite take_ge by lia. apply runs_bind, runs_get. cbn [loc].
  rewrite wr_fits by lia. apply runs_bind, runs_ret, runs_bind, runs_modify, runs_ret.
  by split; [|split].
Qed.

Lemma byte_runs i b v (w : world) Q : b !! i = Some v -> Q v w -> runs E (byte i b) w Q.
Proof. intros H HQ. unfold byte. by rewrite H. Qed.

Lemma received_runs l p (w : world) : pbuf (loc w) = put 0 l p -> (length l <= length p)%nat ->
  runs E (received (len l)) w (fun d w' => d = l /\ w' = w).
Proof.
  intros Hb Hl. unfold received. apply runs_bind, runs_get.
  assert (Hlen : length (pbuf (loc w)) = length p) by (rewrite Hb; apply length_put; lia).
  rewrite (proj2 (Z.ltb_ge _ _)) by (unfold len; lia). unfold len. rewrite Nat2Z.id.
  rewrite rd_bytes_fits by lia. apply runs_ret. split; [|done].
  rewrite Hb, slice_put0 by lia. unfold slice. by rewrite drop_0, take_ge.
Qed.

Lemma answer_runs b a k fd (w : world) : answered b a -> pending (hist w) = Some (b, k) ->
  a !! 0%nat = Some 0xad -> a !! 3%nat = Some 0xfe -> (0 < length a <= BUF)%nat ->
  length (pbuf (loc w)) = BUF ->
  runs E (exx00u_answer (unisoc_exx00u_logfile_save) ap fuel fd) w (fun rc w' => rc = len a /\
    (exists p, length p = BUF /\ loc w' = (loc w) <| pbuf := put 0 a p |>) /\
    files (hist w') = files (hist w)).
Proof.
  intros Ha Hp H0 H3 Hl Hb. unfold exx00u_answer.
  apply (runs_iterM E _ (fun _ w' => exists p k', loc w' = (loc w) <| pbuf := p |> /\ length p = BUF /\
      pending (hist w') = Some (b, k') /\ files (hist w') = files (hist w))
    (fun _ w' => match pending (hist w') with Some (_, k) => (K - k)%nat | None => 0%nat end)).
  - intros [] w' (p & k' & Hl' & Hp' & Hk' & Ho). rewrite Hk'.
    assert (Hpb : pbuf (loc w') = p) by (by rewrite Hl').
    apply runs_bind. destruct (Ha _ _ fd QLOG_BUF_SIZE 3000 Hk') as [Hr | (Hk & l & Hr & Hn)].
    + eapply runs_mono; [apply recv_runs; [exact Hr|lia|by rewrite Hpb]|].
      cbn beta. intros rc w1 (-> & Hl1 & Hh1). rewrite Hpb in Hl1. apply runs_bind, runs_get.
      assert (Hb1 : pbuf (loc w1) = put 0 a p) by (by rewrite Hl1). rewrite Hb1.
      apply runs_bind. eapply byte_runs; [rewrite lookup_put0; [exact H0|by eapply lookup_lt_Some]|].
      apply runs_bind. change (0xad =? 0xad) with true. cbn iota.
      eapply byte_runs; [rewrite lookup_put0; [exact H3|by eapply lookup_lt_Some]|].
      change (0xfe =? 0xfe) with true. cbn [andb negb].
      rewrite (proj2 (Z.ltb_ge _ _)) by (unfold len; lia). apply runs_ret. split; [done|].
      split; [exists p; split; [done|]; by rewrite Hl1, Hl'|]. by rewrite Hh1.
    + assert (Hlen : (length l <= BUF)%nat) by (destruct Hn as [-> | [? _]]; [apply Nat.le_0_l|lia]).
      eapply runs_mono; [apply recv_runs; [exact Hr|done|by rewrite Hpb]|].
      cbn beta. intros rc w1 (-> & Hl1 & Hh1). rewrite Hpb in Hl1. apply runs_bind, runs_get.
      assert (Hb1 : pbuf (loc w1) = put 0 l p) by (by rewrite Hl1).
      assert (Hp1 : length (put 0 l p) = BUF) by (rewrite length_put; lia).
      assert (Hloc : loc w1 = (loc w) <| pbuf := put 0 l p |>) by (by rewrite Hl1, Hl').
      assert (Hpend : pending (hist w1) = Some (b, S k')) by (rewrite Hh1; cbn; by rewrite Hk').
      assert (Hf1 : files (hist w1) = files (hist w)) by (by rewrite Hh1).
      rewrite Hb1. destruct (lookup_lt_is_Some_2 (put 0 l p) 0) as [b0 Hb0]; [rewrite Hp1; lia|].
      destruct (lookup_lt_is_Some_2 (put 0 l p) 3) as [b3 Hb3]; [rewrite Hp1; unfold BUF, QLOG_BUF_SIZE; lia|].
      apply runs_bind. eapply byte_runs; [exact Hb0|]. apply runs_bind.
      apply (runs_mono _ _ _ (fun c w' => w' = w1 /\ (b0 = 0xad -> c = b3))).
      { destruct (Z.eqb_spec b0 0xad); [by eapply byte_runs|by apply runs_ret]. }
      intros c w2 [-> Hc]. destruct ((b0 =? 0xad) && (c =? 0xfe)) eqn:Htest; cbn [negb].
      * apply andb_true_iff in Htest. destruct Htest as [Hb0'%Z.eqb_eq Hc'%Z.eqb_eq].
        destruct Hn as [-> | [Hl4 Hnot]].
        -- apply runs_ret. split; [by exists (put 0 [] p), (S k')|]. rewrite Hpend. lia.
        -- exfalso. rewrite lookup_put0 in Hb0, Hb3 by lia. rewrite Hc in Hc' by done. subst.
           by apply Hnot.
      * apply runs_bind. eapply runs_mono; [by eapply received_runs; [exact Hb1|lia]|].
        cbn beta. intros d w3 [-> ->]. apply runs_bind. eapply runs_mono; [apply save_noise_runs|].
        cbn beta. intros _ w4 (Hl4 & Hp4 & Hf4). apply runs_ret. split; [|rewrite Hp4, Hpend; lia].
        exists (put 0 l p), (S k'). by rewrite Hl4, Hp4, Hf4.
  - exists (pbuf (loc w)), k. split; [by destruct (loc w)|]. done.
  - rewrite Hp. lia.
Qed.

Lemma block_answer_length id addr n c : 0 <= n -> length (block_answer id addr n c) = (6 + Z.to_nat n)%nat.
Proof. intros H. unfold block_answer. rewrite !length_app, mem_bytes_length. cbn [length]. lia. Qed.

Lemma block_answer_data id addr n c p : 0 <= n ->
  slice 5 (Z.to_nat n) (put 0 (block_answer id addr n c) p) = mem_bytes addr n.
Proof.
  intros H. rewrite slice_put0 by (rewrite block_answer_length by done; lia).
  unfold block_answer, slice. change (drop 5 _) with (mem_bytes addr n ++ [c]).
  rewrite <-(mem_bytes_length (mem := mem) addr n). apply take_app_length.
Qed.

Lemma check_block_runs id addr n c p buff (w : world) : 2 <= n <= 2048 -> length p = BUF ->
  length buff = 2048%nat -> rid (loc w) = id ->
  runs E (checkReadBlock (put 0 (block_answer id addr n c) p) (len (block_answer id addr n c)) buff) w
    (fun r w' => r = (n, put 0 (mem_bytes addr n) buff) /\ w' = w).
Proof.
  intros Hn Hp Hbuff Hid. pose proof (block_answer_length id addr n c ltac:(lia)) as Hlen.
  assert (Hl : len (block_answer id addr n c) = n + 6) by (unfold len; lia).
  assert (Hput : length (put 0 (block_answer id addr n c) p) = BUF).
  { rewrite length_put; [done|]. rewrite Hlen, Hp. unfold BUF, QLOG_BUF_SIZE. lia. }
  unfold checkReadBlock. rewrite Hl, (proj2 (Z.ltb_ge _ 8)) by lia.
  assert (Hb : forall i v, block_answer id addr n c !! i = Some v ->
    put 0 (block_answer id addr n c) p !! i = Some v).
  { intros i v Hv. rewrite lookup_put0; [done|]. by eapply lookup_lt_Some. }
  apply runs_bind. eapply byte_runs; [by apply (Hb 1%nat ((n + 2) / 256))|].
  apply runs_bind. eapply byte_runs; [by apply (Hb 2%nat ((n + 2) mod 256))|].
  replace ((n + 2) / 256 * 256 + (n + 2) mod 256) with (n + 2)
    by (rewrite (Z.mul_comm _ 256); apply Z.div_mod; lia).
  rewrite (proj2 (Z.ltb_ge _ (n + 2 + 4))) by lia.
  apply runs_bind. eapply byte_runs; [by apply (Hb 4%nat id)|].
  apply runs_bind, runs_get. rewrite Hid, Z.eqb_refl. cbn [negb].
  rewrite (proj2 (Z.ltb_ge (n + 2) 2)) by lia. replace (n + 2 - 2) with n by lia.
  rewrite rd_bytes_fits by (rewrite Hput; unfold BUF, QLOG_BUF_SIZE; lia).
  rewrite block_answer_data by lia. apply runs_bind, runs_ret.
  rewrite wr_fits by (rewrite mem_bytes_length; lia). by apply runs_bind, runs_ret, runs_ret.
Qed.

Lemma check_word_runs id addr c p (w : world) : length p = BUF -> rid (loc w) = id ->
  runs E (checkRead (put 0 (word_answer id addr c) p) 10) w
    (fun r w' => r = (10, Some (word addr)) /\ w' = w).
Proof.
  intros Hp Hid. pose proof (d_word HD addr) as Hw. unfold checkRead.
  change (10 <? 10) with false. cbn iota.
  assert (Hb : forall i v, word_answer id addr c !! i = Some v ->
    put 0 (word_answer id addr c) p !! i = Some v).
  { intros i v Hv. rewrite lookup_put0; [done|]. by eapply lookup_lt_Some. }
  apply runs_bind. eapply byte_runs; [by apply (Hb 4%nat id)|].
  apply runs_bind, runs_get. rewrite Hid, Z.eqb_refl. cbn [negb].
  apply runs_bind. eapply byte_runs; [by apply Hb|]. apply runs_bind. eapply byte_runs; [by apply Hb|].
  apply runs_bind. eapply byte_runs; [by apply Hb|]. apply runs_bind. eapply byte_runs; [by apply Hb|].
  apply runs_ret. split; [|done]. do 2 f_equal.
  pose proof (le_val_bytes 4 (word addr)) as Hv. rewrite Z.mod_small in Hv by done.
  cbn [le_bytes le_val] in Hv. lia.
Qed.

Lemma next_rid_range id : 0 <= id < 256 -> 0 <= next_rid id < 256.
Proof. intros H. unfold next_rid, u8. destruct (id =? 255); [lia|]. apply Z.mod_pos_bound. lia. Qed.

Lemma send_runs fd addr n type (w : world) (cmd : Z -> list Z) :
  (forall id, (if type =? 0 then exx00u_query id addr
     else if type =? 1 then exx00u_readBlock id addr (u16 n) else exx00u_read32 id addr) = cmd id) ->
  (forall id, len (cmd id) < 256) ->
  runs E (unisoc_exx00u_send_cmd_complete fd addr n type) w (fun wc w' =>
    wc = len (cmd (next_rid (rid (loc w)))) /\ loc w' = (loc w) <| rid := next_rid (rid (loc w)) |> /\
    pending (hist w') = Some (cmd (next_rid (rid (loc w))), 0%nat) /\ files (hist w') = files (hist w)).
Proof.
  intros Hc Hl. unfold unisoc_exx00u_send_cmd_complete, unisoc_exx00u_send_cmd.
  apply runs_bind, runs_modify, runs_bind, runs_get, runs_bind, runs_call, runs_ret.
  cbn [loc hist]. rewrite (d_write HD), Hc. change (rid (_ <| rid ::= next_rid |>)) with (next_rid (rid (loc w))).
  split; [|by destruct (loc w)].
  unfold u64. apply Z.mod_small. specialize (Hl (next_rid (rid (loc w)))). unfold len in *. lia.
Qed.

Lemma no_signal_runs (w : world) : E _ (hist w) SignalledExit = false ->
  qlog_exit_requested (loc w) = 0 ->
  runs E exit_requested w (fun e w' => e = false /\ w' = World (loc w) (Ev SignalledExit false :: hist w)).
Proof.
  intros Hs He. unfold exit_requested. apply runs_bind, runs_get, runs_bind, runs_call, runs_ret.
  by rewrite Hs, He.
Qed.

Lemma no_exit_runs (w : world) : ready (loc w) -> runs E exit_requested w (fun e w' =>
  e = false /\ loc w' = loc w /\ pending (hist w') = pending (hist w) /\ files (hist w') = files (hist w)).
Proof.
  intros (_ & _ & He). eapply runs_mono; [by apply no_signal_runs; [apply (d_exit HD)|]|].
  cbn beta. by intros e w' [-> ->].
Qed.

(** A block of 2 to 2048 bytes is received, a word as well. *)
Lemma recv_block_runs id addr n c fd buff (w : world) : ready (loc w) -> rid (loc w) = id ->
  2 <= n <= 2048 -> 0 <= addr < 2 ^ 32 -> length buff = 2048%nat ->
  answered (exx00u_readBlock id addr n) (block_answer id addr n c) ->
  pending (hist w) = Some (exx00u_readBlock id addr n, 0%nat) ->
  runs E (recv_block (unisoc_exx00u_logfile_save) ap fuel fd buff) w (fun r w' =>
    r = (n, put 0 (mem_bytes addr n) buff) /\ ready (loc w') /\ files (hist w') = files (hist w)).
Proof.
  intros (Hb & Hr & He) Hid Hn Ha Hbuff Hans Hp. unfold recv_block. apply runs_bind.
  eapply runs_mono.
  { apply (answer_runs _ _ 0 fd w Hans Hp); [done|done| |done].
    rewrite block_answer_length by lia. unfold BUF, QLOG_BUF_SIZE. lia. }
  cbn beta. intros rc w1 (-> & (p & Hlp & Hl1) & Ho1). apply runs_bind, runs_get.
  replace (pbuf (loc w1)) with (put 0 (block_answer id addr n c) p) by (by rewrite Hl1).
  eapply runs_mono; [apply check_block_runs; try done; by rewrite Hl1|].
  cbn beta. intros r w2 [-> ->]. split; [done|]. split; [|done]. rewrite Hl1. split; [|done].
  change (length (put 0 (block_answer id addr n c) p) = BUF).
  rewrite length_put; [done|]. rewrite block_answer_length, Hlp by lia.
  unfold BUF, QLOG_BUF_SIZE. lia.
Qed.

Lemma recv_word_runs id addr c fd v (w : world) : ready (loc w) -> rid (loc w) = id ->
  answered (exx00u_read32 id addr) (word_answer id addr c) ->
  pending (hist w) = Some (exx00u_read32 id addr, 0%nat) ->
  runs E (recv_word (unisoc_exx00u_logfile_save) ap fuel fd v) w (fun r w' =>
    r = word addr /\ ready (loc w') /\ files (hist w') = files (hist w)).
Proof.
  intros (Hb & Hr & He) Hid Hans Hp. unfold recv_word. apply runs_bind.
  eapply runs_mono.
  { apply (answer_runs _ _ 0 fd w Hans Hp); [done|done| |done].
    change (length (word_answer id addr c)) with 10%nat. unfold BUF, QLOG_BUF_SIZE. lia. }
  cbn beta. intros rc w1 (-> & (p & Hlp & Hl1) & Ho1). apply runs_bind, runs_get.
  replace (pbuf (loc w1)) with (put 0 (word_answer id addr c) p) by (by rewrite Hl1).
  change (len (word_answer id addr c)) with 10. apply runs_bind.
  eapply runs_mono; [apply (check_word_runs id); [done|by rewrite Hl1]|].
  cbn beta. intros r w2 [-> ->]. apply runs_ret. split; [done|]. split; [|done]. rewrite Hl1.
  split; [|done]. change (length (put 0 (word_answer id addr c) p) = BUF).
  rewrite length_put; [done|]. rewrite Hlp.
  change (length (word_answer id addr c)) with 10%nat. unfold BUF, QLOG_BUF_SIZE. lia.
Qed.

(** ** A region *)

Definition block_size (left : Z) : Z := if 0x0800 <? left then 0x0800 else left.

Lemma block_turn_runs base size save buff path x l (w : world) : ready (loc w) ->
  0 <= save < size -> size <= 2 ^ 24 -> 0 <= base -> base + size <= 2 ^ 32 -> 2 <= block_size (size - save) ->
  length buff = 2048%nat -> files (hist w) = (path, x) :: l ->
  let n := block_size (size - save) in
  runs E (exx00u_block (unisoc_exx00u_logfile_save) ap fuel dfd size (save, base + save, buff)) w
    (fun r w' => r = inl (save + n, u32 (base + (save + n)), put 0 (mem_bytes (base + save) n) buff) /\
      ready (loc w') /\ files (hist w') = (path, x ++ mem_bytes (base + save) n) :: l).
Proof.
  intros Hw Hs Hs24 Hb Hbs Hn Hbuff Hf n. fold n in Hn.
  assert (Hn2 : n <= 2048 /\ n <= size - save).
  { unfold n, block_size. destruct (Z.ltb_spec 2048 (size - save)); lia. }
  unfold exx00u_block. rewrite (proj2 (Z.ltb_lt _ _)) by lia. cbn [negb].
  apply runs_bind. eapply runs_mono; [by apply no_exit_runs|]. cbn beta.
  intros e w1 (-> & Hl1 & _ & Hf1). rewrite <-Hl1 in Hw. rewrite Hf in Hf1.
  apply runs_bind, runs_get, runs_bind. fold (block_size (size - save)). fold n.
  eapply runs_mono.
  { apply (send_runs _ _ _ 1 w1 (fun id => exx00u_readBlock id (base + save) n)).
    - intros id. change (1 =? 0) with false. change (1 =? 1) with true. cbn iota. unfold u16. by rewrite Z.mod_small by lia.
    - done. }
  cbn beta. intros wc w2 (-> & Hl2 & Hp2 & Hf2). set (id := next_rid (rid (loc w1))) in *.
  change (len (exx00u_readBlock id (base + save) n) =? 13) with true. cbn [negb].
  assert (Hid : 0 <= id < 256) by (apply next_rid_range, Hw).
  destruct (d_block_answer HD id (base + save) n Hid ltac:(lia) ltac:(lia)) as [c Hans].
  assert (Hw2 : ready (loc w2)) by (rewrite Hl2; by split; [apply Hw|split; [|apply Hw]]).
  apply runs_bind. eapply runs_mono.
  { apply (recv_block_runs id (base + save) n c); try done; [by rewrite Hl2|lia|lia]. }
  cbn beta. intros r w3 (-> & Hw3 & Hf3). rewrite (proj2 (Z.eqb_neq n 0)) by lia.
  assert (Hpl : length (put 0 (mem_bytes (base + save) n) buff) = 2048%nat)
    by (rewrite length_put; [done|rewrite mem_bytes_length; lia]).
  rewrite rd_bytes_fits by lia. apply runs_bind, runs_ret, runs_bind, runs_call.
  rewrite slice_put0 by (rewrite mem_bytes_length; lia).
  replace (slice 0 (Z.to_nat n) (mem_bytes (base + save) n)) with (mem_bytes (base + save) n)
    by (unfold slice; rewrite drop_0, take_ge; [done|rewrite mem_bytes_length; lia]).
  rewrite (d_save HD). unfold len. rewrite mem_bytes_length, Z2Nat.id by lia.
  replace (u64 n =? n) with true by (symmetry; apply Z.eqb_eq, Z.mod_small; lia). cbn [negb].
  apply runs_ret. split; [|split; [done|]].
  - rewrite Z.add_assoc. unfold u32 at 1. by rewrite (Z.mod_small (save + n)) by lia.
  - cbn [hist dumps]. by rewrite Hf3, Hf2, Hf1, Z.eqb_refl.
Qed.

Definition region_ok (base size : Z) : Prop :=
  0 <= base < 2 ^ 32 /\ 0 <= size <= 2 ^ 24 /\ base + size <= 2 ^ 32 /\ size mod 2048 <> 1.

Context (Hturns : 16400 < Z.of_nat fuel).

Lemma open_region_runs dir base (w : world) : (forall h p, E _ h (Open p) = dfd) ->
  runs E (open_region dir base) w (fun fd w' => fd = dfd /\ loc w' = loc w /\
    files (hist w') = (region_file dir base, []) :: files (hist w)).
Proof.
  intros Ho. unfold open_region. apply runs_bind, runs_call, runs_bind.
  apply (runs_mono _ _ _ (fun _ w' => loc w' = loc w /\ files (hist w') = files (hist w))).
  { match goal with |- runs _ (if ?b then _ else _) _ _ => destruct b end;
      [apply runs_call|apply runs_ret]; by split. }
  intros _ w1 [Hl1 Hf1]. apply runs_call. rewrite Ho. split; [done|]. split; [done|].
  cbn [hist dumps]. by rewrite Z.eqb_refl, Hf1.
Qed.

Lemma region_runs dir base size (w : world) : ready (loc w) -> region_ok base size ->
  runs E (exx00u_region (unisoc_exx00u_logfile_save) ap fuel dir base size) w (fun ok w' =>
    ok = true /\ ready (loc w') /\
    files (hist w') = (region_file dir base, mem_bytes base size) :: files (hist w)).
Proof.
  intros Hw (Hb & Hs & Hbs & Hmod). unfold exx00u_region.
  apply runs_bind. eapply runs_mono; [by apply open_region_runs, (d_open HD)|]. cbn beta.
  intros fd w1 (-> & Hl1 & Hf1).
  rewrite (proj2 (Z.eqb_neq dfd (-1))) by apply (d_fds HD). apply runs_bind.
  set (path := region_file dir base).
  apply (runs_mono _ _ _ (fun ok w' => ok = true /\ ready (loc w') /\
    files (hist w') = (path, mem_bytes base size) :: files (hist w))).
  - apply (runs_iterM E _ (fun '(save, b, buff) w' => ready (loc w') /\ length buff = 2048%nat /\
        0 <= save <= size /\ b = u32 (base + save) /\ (save < size -> 2 <= block_size (size - save)) /\
        (save = size \/ save mod 2048 = 0) /\
        files (hist w') = (path, mem_bytes base save) :: files (hist w))
      (fun '(save, _, _) _ => Z.to_nat ((size - save + 2047) / 2048))).
    + intros [[save b] buff] w2 (Hw2 & Hbuff & Hsave & -> & Hbl & Hal & Hf2).
      destruct (decide (save < size)) as [Hlt|Hge].
      * replace (u32 (base + save)) with (base + save) by (unfold u32; rewrite Z.mod_small; lia).
        specialize (Hbl Hlt). destruct Hal as [->|Hal]; [lia|].
        eapply runs_mono; [apply (block_turn_runs base size save buff path (mem_bytes base save)
          (files (hist w))); first [done|lia]|].
        cbn beta. intros r w3 (-> & Hw3 & Hf3). cbn beta iota.
        rewrite <-mem_bytes_app in Hf3 by lia.
        unfold block_size in *. destruct (Z.ltb_spec 2048 (size - save)) as [Hbig|Hsm].
        -- split; [|Z.to_euclidean_division_equations; lia].
           split; [done|]. split; [rewrite length_put; rewrite ?mem_bytes_length; lia|].
           split; [lia|]. split; [done|]. split.
           { intros Hlt2. destruct (Z.ltb_spec 2048 (size - (save + 2048))); [lia|].
             destruct (decide (size - (save + 2048) = 1)) as [H1|]; [|lia].
             exfalso. apply Hmod. replace size with (1 + (save + 2048)) by lia.
             Z.to_euclidean_division_equations; lia. }
           split; [right; Z.to_euclidean_division_equations; lia|done].
        -- split; [|Z.to_euclidean_division_equations; lia].
           split; [done|]. split; [rewrite length_put; rewrite ?mem_bytes_length; lia|].
           split; [lia|]. split; [done|]. split; [lia|]. split; [left; lia|done].
      * assert (save = size) by lia. subst save. unfold exx00u_block.
        rewrite Z.ltb_irrefl. cbn [negb]. by apply runs_ret.
    + rewrite Hl1. split; [done|]. split; [done|]. split; [lia|].
      split; [unfold u32; rewrite Z.add_0_r, Z.mod_small; lia|]. split.
      { intros H. rewrite Z.sub_0_r. unfold block_size. destruct (Z.ltb_spec 2048 size); [lia|].
        destruct (decide (size = 1)) as [->|]; [by destruct Hmod|lia]. }
      split; [by right|]. exact Hf1.
    + rewrite Z.sub_0_r. Z.to_euclidean_division_equations; lia.
  - intros ok w2 (-> & Hw2 & Hf2). apply runs_bind, runs_call, runs_ret. done.
Qed.

(** ** The table *)

(** The regions that are dumped: not skipped, and with their condition met. *)
Definition condition_met (rest : list ql_cmd) : bool :=
  match rest with
  | Require addr mask value :: _ => Z.land (word addr) mask =? value
  | _ => true
  end.
Fixpoint selected (cmds : list ql_cmd) : list (Z * Z) :=
  match cmds with
  | [] => []
  | Require _ _ _ :: rest => selected rest
  | Region _ base size skip :: rest =>
      if negb (skip =? 1) && condition_met rest then (base, size) :: selected rest else selected rest
  end.

Definition cmd_ok (c : ql_cmd) : Prop :=
  match c with
  | Region _ base size _ => region_ok base size
  | Require addr _ _ => 0 <= addr < 2 ^ 32
  end.

Definition dumped (dir : list Z) (r : Z * Z) : list Z * list Z :=
  (region_file dir r.1, mem_bytes r.1 r.2).

Lemma table_runs dir cmds : Forall cmd_ok cmds -> forall v (w : world), ready (loc w) ->
  runs E (exx00u_table (unisoc_exx00u_logfile_save) ap fuel dir cmds v) w (fun r w' =>
    r = 1 /\ exx00u_is_blue_screen (loc w') = 0 /\
    files (hist w') = rev (map (dumped dir) (selected cmds)) ++ files (hist w)).
Proof.
  induction 1 as [|c rest Hc Hrest IH]; intros v w Hw; cbn [exx00u_table].
  - apply runs_bind, runs_modify, runs_ret. done.
  - apply runs_bind. eapply runs_mono; [by apply no_exit_runs|]. cbn beta.
    intros e w1 (-> & Hl1 & _ & Hf1). rewrite <-Hl1 in Hw. rewrite <-Hf1.
    destruct c as [name base size skip|addr mask value]; [|by apply IH]. cbn [selected].
    destruct (skip =? 1); cbn [negb andb]; [by apply IH|].
    set (cond := condition_met rest).
    apply runs_bind.
    apply (runs_mono _ _ _ (fun a w' => a.1 = cond /\ ready (loc w') /\
      files (hist w') = files (hist w1))).
    { destruct rest as [|[|addr mask value] rest']; [by apply runs_ret|by apply runs_ret|].
      assert (Haddr : 0 <= addr < 2 ^ 32) by (by inversion Hrest). unfold cond; cbn [condition_met].
      apply runs_bind, runs_get, runs_bind.
      eapply runs_mono; [by apply (send_runs _ _ _ 2 w1 (fun id => exx00u_read32 id addr))|].
      cbn beta. intros wc w2 (_ & Hl2 & Hp2 & Hf2). set (id := next_rid (rid (loc w1))) in *.
      assert (Hid : 0 <= id < 256) by (apply next_rid_range, Hw).
      destruct (d_word_answer HD id addr Hid Haddr) as [c Hans].
      assert (Hw2 : ready (loc w2)) by (rewrite Hl2; by split; [apply Hw|split; [|apply Hw]]).
      apply runs_bind. eapply runs_mono; [apply (recv_word_runs id addr c); try done; by rewrite Hl2|].
      cbn beta. intros r w3 (-> & Hw3 & Hf3). apply runs_ret. split; [done|]. split; [done|].
      by rewrite Hf3. }
    intros [go v'] w2 (Hgo & Hw2 & Hf2). cbn [fst] in Hgo. subst go. rewrite <-Hf2.
    destruct cond; cbn [negb]; [|by apply IH]. apply runs_bind.
    eapply runs_mono; [by apply region_runs|]. cbn beta. intros ok w3 (-> & Hw3 & Hf3).
    eapply runs_mono; [by apply IH|]. cbn beta. intros r w4 (-> & Hb4 & Hf4). split; [done|].
    split; [done|]. cbn [map rev]. by rewrite Hf4, Hf3, <-app_assoc.
Qed.

#[global] Instance cmd_ok_dec c : Decision (cmd_ok c).
Proof. destruct c; unfold cmd_ok, region_ok; apply _. Defined.

Lemma exx00u_cmds_ok : Forall cmd_ok ql_exx00u_xml_data.
Proof. by apply (bool_decide_unpack _). Qed.

Lemma ready_mark s : ready s -> ready (s <| exx00u_is_blue_screen := 1 |>).
Proof. by destruct s. Qed.

(** C11: A module in the exception state whose memory is served over the port,
    with at most [K] other reads before every answer, is dumped exactly: the
    blue-screen dump of the EXX00U answers 1, one file is written for every
    region of the table that is not skipped and whose condition holds in that
    memory, in the order of the table, and each file holds the bytes of its
    region. *)
Theorem exx00u_dump_exact dir p (w : world) : ready (loc w) ->
  pbuf (loc w) = [0xad; 0x00; 0x03; 0xff; rid (loc w); 0x01] ++ p ->
  runs E (unisoc_exx00u_catch_blue_screen (unisoc_exx00u_logfile_save) ap fuel dir) w (fun r w' =>
    r = 1 /\ exx00u_is_blue_screen (loc w') = 0 /\
    files (hist w') = rev (map (dumped dir) (selected ql_exx00u_xml_data)) ++ files (hist w)).
Proof.
  intros Hw Hp. unfold unisoc_exx00u_catch_blue_screen. apply runs_bind, runs_get.
  rewrite rd_bytes_fits by (rewrite (proj1 Hw); unfold BUF, QLOG_BUF_SIZE; lia).
  replace (slice 0 6 (pbuf (loc w))) with [0xad; 0x00; 0x03; 0xff; rid (loc w); 0x01] by (by rewrite Hp).
  apply runs_bind, runs_ret. rewrite bool_decide_true by done.
  apply runs_bind, runs_modify. exact (table_runs dir _ exx00u_cmds_ok 0 (World (set_field exx00u_is_blue_screen (fun _ => 1) (loc w)) (hist w))
    (ready_mark _ Hw)).
Qed.

(** ** EC800G *)

Definition block_body (id addr n : Z) (x hdr : list Z) : list Z :=
  le_bytes 4 id ++ x ++ [0x0b; 0x00; 0x03; 0xa0] ++ le_bytes 2 (n + 16) ++ hdr ++ mem_bytes addr n.
Definition block_frame (id addr n : Z) (x hdr : list Z) : list Z :=
  [0x7e] ++ block_body id addr n x hdr ++ [0x7e].
Definition ec800g_answer (id addr n : Z) (x hdr : list Z) : list Z :=
  [0x7e] ++ esc (block_body id addr n x hdr) ++ [0x7e].

(** The EC800G serves its memory, after at most [K] reads that time out. *)
Record ec800g_module : Prop := Ec800g_module {
  g_fd : dfd <> -1;
  g_exit : forall h, E _ h SignalledExit = false;
  g_write : forall h f b t, E _ h (PollWrite f b t) = len b;
  g_save : forall h f b, E _ h (LogfileSave f b) = len b;
  g_open : forall h p, E _ h (Open p) = dfd;
  g_answer : forall id addr n, 0 <= id < 2 ^ 32 -> 0 <= addr < 2 ^ 32 -> 0 < n <= 1024 ->
    exists x hdr, length x = 2%nat /\ length hdr = 12%nat /\
      answered_after (fun l => l = []) (escape_from 0 (ec800g_readBlock id addr n))
        (ec800g_answer id addr n x hdr);
}.
Context (HG : ec800g_module).

Definition ec800g_ready (s : us) : Prop :=
  length (pbuf s) = BUF /\ (exists t, pbuf_tmp s = Some t /\ length t = (2 * BUF)%nat) /\
  0 <= rid_ec800g s < 2 ^ 32 /\ qlog_exit_requested s = 0.

Section Answer.
Context (id addr n : Z) (x hdr : list Z).
Context (Hid : 0 <= id < 2 ^ 32) (Hn : 0 < n <= 1024) (Hx : length x = 2%nat) (Hh : length hdr = 12%nat).
Abbreviation frame := (block_frame id addr n x hdr).
Abbreviation answer := (ec800g_answer id addr n x hdr).

Lemma body_length : len (block_body id addr n x hdr) = n + 24.
Proof.
  unfold block_body, len. rewrite !length_app, mem_bytes_length, !length_le_bytes, Hx, Hh. cbn [length].
  lia.
Qed.

Lemma frame_length : length frame = Z.to_nat (n + 26).
Proof.
  pose proof body_length as H. unfold block_frame, len in *. rewrite !length_app. cbn [length]. lia.
Qed.

Lemma frame_last : frame !! Z.to_nat (n + 25) = Some 0x7e.
Proof.
  pose proof body_length as H. unfold block_frame, len in *. rewrite app_assoc.
  rewrite lookup_app_r by (rewrite length_app; cbn [length]; lia).
  rewrite length_app. cbn [length]. by replace (Z.to_nat (n + 25) - _)%nat with 0%nat by lia.
Qed.

Lemma frame_data : slice 25 (Z.to_nat n) frame = mem_bytes addr n.
Proof.
  unfold block_frame, block_body, slice. rewrite <-!app_assoc.
  rewrite !drop_app_ge by (rewrite ?length_le_bytes, ?Hx, ?Hh; cbn [length]; lia).
  rewrite !length_le_bytes, Hx, Hh. cbn [length Nat.sub]. rewrite drop_0, <-(mem_bytes_length (mem := mem) addr n).
  apply take_app_length.
Qed.

Lemma answer_length : len answer = n + 26 + escapes (block_body id addr n x hdr).
Proof.
  pose proof (esc_length (block_body id addr n x hdr)) as H. pose proof body_length as H2.
  unfold ec800g_answer, len in *. rewrite !length_app. cbn [length]. lia.
Qed.

Lemma unescape_answer rest : unescape (length answer) (answer ++ rest) =
  Some (frame, escapes (block_body id addr n x hdr)).
Proof.
  unfold ec800g_answer, block_frame. set (b := block_body id addr n x hdr).
  rewrite !length_app. cbn [length app Nat.add unescape]. change (0x7e =? 0x7d) with false. cbn iota.
  rewrite <-app_assoc, unescape_esc. cbn [app unescape]. change (0x7e =? 0x7d) with false. cbn.
  by rewrite Z.add_0_r.
Qed.

(** The fields of a buffer with the answer in front. *)
Lemma frame_fields t : (length frame <= length t)%nat -> let m := put 0 frame t in
  answer_at m = true /\ get_le 11 2 m = n + 16 /\ get_le 1 4 m = id /\ m !! 0%nat = Some 0x7e /\
  m !! Z.to_nat (n + 25) = Some 0x7e.
Proof.
  intros Ht m. pose proof frame_length as Hf. pose proof frame_last as Hl.
  assert (Hm : m = frame ++ drop (length frame) t) by apply put0.
  assert (Hg : forall o k, (o + k <= 26)%nat -> get_le o k m = get_le o k frame).
  { intros o k Hok. unfold get_le, m. rewrite slice_put0; [done|lia]. }
  split; [|split; [|split; [|split]]].
  - rewrite Hm. unfold block_frame, block_body. by destruct x as [|x0 [|x1 [|? ?]]].
  - rewrite Hg by lia. unfold block_frame, block_body. destruct x as [|x0 [|x1 [|? ?]]]; try done.
    change (get_le 11 2 _) with (le_val (le_bytes 2 (n + 16))). rewrite le_val_bytes.
    apply Z.mod_small. lia.
  - rewrite Hg by lia. change (get_le 1 4 _) with (le_val (le_bytes 4 id)). rewrite le_val_bytes.
    by apply Z.mod_small.
  - by rewrite Hm.
  - rewrite Hm, lookup_app_l; [done|]. by eapply lookup_lt_Some.
Qed.
End Answer.

(** ** The receiving loop *)

Lemma ready_received s p t : 0 <= rid_ec800g s < 2 ^ 32 /\ qlog_exit_requested s = 0 ->
  length p = BUF -> length t = (2 * BUF)%nat ->
  ec800g_ready (s <| pbuf := p |> <| pbuf_tmp := Some t |>).
Proof. intros Hs Hp Ht. exact (conj Hp (conj (ex_intro _ t (conj eq_refl Ht)) Hs)). Qed.

Lemma ec800g_receive_runs fd l m k t (w : world) :
  E _ (hist w) (PollRead fd QLOG_BUF_SIZE 3000) = Some l -> (length l <= BUF)%nat ->
  length (pbuf (loc w)) = BUF -> pbuf_tmp (loc w) = Some t -> (length m <= length t)%nat ->
  (forall rest, unescape (length l) (l ++ rest) = Some (m, k)) -> 0 <= k <= len l ->
  runs E (ec800g_receive fd) w (fun r w' => r = (put 0 m t, len l - k) /\
    loc w' = (loc w) <| pbuf := put 0 l (pbuf (loc w)) |> <| pbuf_tmp := Some (put 0 m t) |> /\
    hist w' = Ev (PollRead fd QLOG_BUF_SIZE 3000) (Some l) :: hist w).
Proof.
  intros Hr Hl Hb Ht Hm Hun Hk. unfold ec800g_receive.
  apply runs_bind. eapply runs_mono; [by apply recv_runs|]. cbn beta.
  intros rc w1 (-> & Hl1 & Hh1). apply runs_bind, runs_get.
  assert (Hp1 : pbuf (loc w1) = put 0 l (pbuf (loc w))) by (by rewrite Hl1).
  assert (Ht1 : pbuf_tmp (loc w1) = Some t) by (by rewrite Hl1).
  rewrite Ht1, Hp1. apply runs_bind, runs_ret. cbn beta.
  assert (HlenB : 0 <= len l <= 65536) by (unfold len; unfold BUF, QLOG_BUF_SIZE in Hl; lia).
  replace (s32 (len l)) with (len l) by (unfold s32; rewrite Z.mod_small; lia).
  replace (Z.to_nat (len l)) with (length l) by (unfold len; lia).
  rewrite put0, Hun. apply runs_bind, runs_ret. cbn beta iota.
  rewrite wr_fits by lia. apply runs_bind, runs_ret, runs_bind, runs_modify, runs_ret.
  split; [f_equal; unfold u64; apply Z.mod_small; lia|]. cbn [loc hist]. by rewrite Hl1, put0.
Qed.

Lemma silent_turn_runs fd x y t (w : world) :
  E _ (hist w) (PollRead fd QLOG_BUF_SIZE 3000) = Some [] -> ec800g_ready (loc w) ->
  pbuf_tmp (loc w) = Some t -> length t = (2 * BUF)%nat ->
  runs E (ec800g_turn fd 0 (0%nat, x, y)) w (fun r w' => (exists x' y', r = inl (0%nat, x', y')) /\
    ec800g_ready (loc w') /\ rid_ec800g (loc w') = rid_ec800g (loc w) /\
    hist w' = Ev SignalledExit false :: Ev (PollRead fd QLOG_BUF_SIZE 3000) (Some []) :: hist w).
Proof.
  intros Hr (Hb & _ & Hid & He) Ht Htl. unfold ec800g_turn. apply runs_bind.
  eapply runs_mono.
  { apply (ec800g_receive_runs fd [] [] 0 t); try done; [apply Nat.le_0_l|apply Nat.le_0_l]. }
  cbn beta. intros r w1 (-> & Hl1 & Hh1). change (len [] - 0) with 0. cbn iota.
  rewrite (put_nil 0 t) in * by apply Nat.le_0_l. apply runs_bind, runs_get.
  change (default 0%nat (find_answer (Z.to_nat (s32 0)) 0 t)) with 0%nat.
  pose proof BUF_val as HB.
  apply runs_bind. eapply runs_of_option; [apply rd_fits; lia|]. cbn beta. change (0 =? 1) with false. cbn iota.
  set (psize := u16 _). assert (Hps : 0 <= psize) by (apply Z.mod_pos_bound; lia).
  apply runs_bind. eapply runs_of_option; [apply rd_fits; lia|]. cbn beta.
  destruct (lookup_lt_is_Some_2 t 0) as [b0 Hb0]; [lia|].
  apply runs_bind. eapply byte_runs; [exact Hb0|]. rewrite (proj2 (Z.ltb_lt 0 _)) by lia.
  rewrite andb_false_r. cbn [negb andb]. apply runs_bind, runs_ret. change (0 =? 0x7e) with false.
  cbn iota. apply runs_bind. eapply runs_mono.
  { apply no_signal_runs; [apply (g_exit HG)|]. by rewrite Hl1. }
  cbn beta. intros e w2 [-> ->].
  clear HB. apply runs_ret. split; [by eexists _, _|]. cbn [loc hist]. rewrite Hh1. split; [|by rewrite Hl1].
  rewrite Hl1. apply ready_received; [done| |done]. rewrite put_nil by apply Nat.le_0_l. exact Hb.
Qed.

Lemma answer_turn_runs id addr n x hdr fd u v t (w : world) :
  0 <= id < 2 ^ 32 -> 0 < n <= 1024 -> length x = 2%nat -> length hdr = 12%nat ->
  E _ (hist w) (PollRead fd QLOG_BUF_SIZE 3000) = Some (ec800g_answer id addr n x hdr) ->
  ec800g_ready (loc w) -> rid_ec800g (loc w) = id -> pbuf_tmp (loc w) = Some t ->
  length t = (2 * BUF)%nat -> let m := put 0 (block_frame id addr n x hdr) t in
  runs E (ec800g_turn fd 0 (0%nat, u, v)) w (fun r w' => r = inr (0%nat, n + 26, n) /\
    ec800g_ready (loc w') /\ pbuf_tmp (loc w') = Some m /\ length m = (2 * BUF)%nat /\
    files (hist w') = files (hist w)).
Proof.
  intros Hid Hn Hx Hh Hr (Hb & _ & Hid' & He) Hrid Ht Htl m. unfold ec800g_turn.
  pose proof (frame_length id addr n x hdr Hn Hx Hh) as Hfl.
  pose proof (answer_length id addr n x hdr Hn Hx Hh) as Hal.
  pose proof (body_length id addr n x hdr Hn Hx Hh) as Hbl.
  pose proof (escapes_bound (block_body id addr n x hdr)) as He2.
  set (a := ec800g_answer id addr n x hdr) in *. set (f := block_frame id addr n x hdr) in *.
  set (k := escapes (block_body id addr n x hdr)) in *.
  assert (Hal2 : (length a <= BUF)%nat) by (pose proof BUF_val; unfold len in Hal; lia).
  assert (Hft : (length f <= length t)%nat) by (pose proof BUF_val; lia).
  assert (Hml : length m = (2 * BUF)%nat) by (unfold m; rewrite length_put; [done|lia]).
  apply runs_bind. eapply runs_mono.
  { apply (ec800g_receive_runs fd a f k t); try done; [intros rest; apply unescape_answer|lia]. }
  cbn beta. intros r w1 (-> & Hl1 & Hh1). cbn iota. apply runs_bind, runs_get. fold m.
  replace (len a - k) with (n + 26) by lia.
  destruct (frame_fields id addr n x hdr Hid Hn Hx Hh t Hft) as (Hat & Hsz & Hmid & H0 & Hlast).
  fold f in Hat, Hsz, Hmid, H0, Hlast. fold m in Hat, Hsz, Hmid, H0, Hlast.
  replace (s32 (n + 26)) with (n + 26) by (unfold s32; rewrite Z.mod_small; lia).
  rewrite (find_front (Z.to_nat (n + 26)) 0 m) by (lia || done).
  change (default 0%nat (Some 0%nat)) with 0%nat. cbn [Nat.add].
  apply runs_bind. eapply runs_of_option; [apply rd_fits; pose proof BUF_val; lia|]. cbn beta.
  change (0 =? 1) with false. cbn iota. rewrite Hsz.
  replace (u16 (n + 16 - 16)) with n by (unfold u16; rewrite Z.mod_small; lia).
  apply runs_bind. eapply runs_of_option; [apply rd_fits; pose proof BUF_val; lia|]. cbn beta.
  apply runs_bind. eapply byte_runs; [exact H0|]. rewrite Hmid.
  replace (rid_ec800g (loc w1)) with id by (by rewrite Hl1). rewrite Z.eqb_refl.
  replace (n + 16 + 8 + 2) with (n + 26) by lia. rewrite Z.ltb_irrefl. cbn [negb andb].
  change (0x7e =? 0x7e) with true. cbn iota. apply runs_bind. eapply byte_runs.
  { replace (Z.to_nat (n + 26) - 1)%nat with (Z.to_nat (n + 25)) by lia. exact Hlast. }
  change (0x7e =? 0x7e) with true. cbn iota. apply runs_ret. split; [done|].
  split; [|split; [by rewrite Hl1|split; [exact Hml|by rewrite Hh1]]].
  rewrite Hl1. apply ready_received; [done| |exact Hml].
  rewrite length_put; [exact Hb|]. rewrite Hb. exact Hal2.
Qed.

Lemma ready_front s p : ec800g_ready s -> length p = BUF -> ec800g_ready (s <| pbuf := p |>).
Proof. intros (_ & Hs) Hp. exact (conj Hp Hs). Qed.

(** A block that was asked for arrives at the front of [pbuf]. *)
Lemma deal_runs id addr n fd (w : world) :
  0 <= id < 2 ^ 32 -> 0 <= addr < 2 ^ 32 -> 0 < n <= 1024 ->
  ec800g_ready (loc w) -> rid_ec800g (loc w) = id ->
  pending (hist w) = Some (escape_from 0 (ec800g_readBlock id addr n), 0%nat) ->
  runs E (unisoc_ec800g_recv_cmd_deal fuel fd 0) w (fun r w' => r = n /\ ec800g_ready (loc w') /\
    slice 25 (Z.to_nat n) (pbuf (loc w')) = mem_bytes addr n /\ files (hist w') = files (hist w)).
Proof.
  intros Hid Ha Hn Hw Hrid Hp. unfold unisoc_ec800g_recv_cmd_deal.
  destruct (g_answer HG id addr n Hid Ha Hn) as (x & hdr & Hx & Hh & Hans).
  pose proof (frame_length id addr n x hdr Hn Hx Hh) as Hfl.
  set (f := block_frame id addr n x hdr) in *. apply runs_bind.
  apply (runs_mono _ _ _ (fun r w' => r = (0%nat, n + 26, n) /\ ec800g_ready (loc w') /\
    (exists t, pbuf_tmp (loc w') = Some (put 0 f t) /\ length (put 0 f t) = (2 * BUF)%nat) /\
    files (hist w') = files (hist w))).
  - apply (runs_iterM E _ (fun a w' => a.1.1 = 0%nat /\ ec800g_ready (loc w') /\
        rid_ec800g (loc w') = id /\ files (hist w') = files (hist w) /\
        exists k, pending (hist w') = Some (escape_from 0 (ec800g_readBlock id addr n), k))
      (fun _ w' => match pending (hist w') with Some (_, k) => (K - k)%nat | None => 0%nat end)).
    + intros [[off u] v] w1 (Hoff & Hw1 & Hrid1 & Hf1 & k & Hk). cbn [fst] in Hoff. subst off.
      destruct (proj1 (proj2 Hw1)) as (t & Ht & Htl). rewrite Hk.
      destruct (Hans _ _ fd QLOG_BUF_SIZE 3000 Hk) as [Hr | (HkK & l & Hr & ->)].
      * eapply runs_mono; [by eapply (answer_turn_runs id addr n x hdr)|]. cbn beta.
        intros r w2 (-> & Hw2 & Ht2 & Hl2 & Hf2). split; [done|]. split; [exact Hw2|].
        split; [by exists t|]. by rewrite Hf2.
      * eapply runs_mono; [by eapply silent_turn_runs|]. cbn beta.
        intros r w2 ((u' & v' & ->) & Hw2 & Hr2 & Hh2). rewrite Hh2. cbn [pending dumps].
        rewrite Hk. cbn. split; [|lia]. split; [done|]. split; [exact Hw2|].
        split; [by rewrite Hr2|]. split; [done|]. by exists (S k).
    + split; [done|]. split; [exact Hw|]. split; [done|]. split; [done|]. by exists 0%nat.
    + rewrite Hp. lia.
  - intros r w1 (-> & Hw1 & (t & Ht & Htl) & Hf1). pose proof (proj1 Hw1) as Hb1. apply runs_bind, runs_get.
    rewrite Ht. apply runs_bind, runs_ret. cbn beta iota.
    assert (Hfit : (length f <= length t)%nat).
    { destruct (decide (length f <= length t)%nat) as [|Hno]; [done|]. exfalso.
      pose proof BUF_val. rewrite put0, length_app, length_drop in Htl. lia. }
    apply runs_bind. eapply runs_of_option; [apply rd_bytes_fits; pose proof BUF_val; lia|]. cbn beta.
    rewrite slice_put0 by lia. rewrite <-Hfl. unfold slice at 1. rewrite drop_0, take_ge by done.
    apply runs_bind. eapply runs_of_option; [apply wr_fits; pose proof BUF_val; lia|]. cbn beta.
    apply runs_bind, runs_modify, runs_ret. split; [done|]. cbn [loc hist].
    split; [|split; [|exact Hf1]].
    + apply ready_front; [exact Hw1|]. rewrite length_put; [done|]. pose proof BUF_val. lia.
    + change (pbuf (_ <| pbuf := ?p |>)) with p. rewrite slice_put0 by lia. by apply frame_data.
Qed.

(** ** A region of the EC800G *)

Lemma ready_id s r : ec800g_ready s -> 0 <= r < 2 ^ 32 -> ec800g_ready (s <| rid_ec800g := r |>).
Proof. intros (Hb & Ht & _ & He) Hr. exact (conj Hb (conj Ht (conj Hr He))). Qed.

Lemma g_block_runs addr n path y l (w : world) :
  0 <= addr < 2 ^ 32 -> 0 < n <= 1024 -> ec800g_ready (loc w) -> files (hist w) = (path, y) :: l ->
  runs E (ec800g_block fuel dfd addr n) w (fun ok w' => ok = true /\ ec800g_ready (loc w') /\
    files (hist w') = (path, y ++ mem_bytes addr n) :: l).
Proof.
  intros Ha Hn Hw Hf. unfold ec800g_block, unisoc_ec800g_send_cmd_complete, unisoc_ec800g_send_cmd.
  apply runs_bind, runs_get, runs_bind, runs_bind, runs_modify, runs_bind, runs_get.
  change (1 =? 0) with false. change (1 =? 1) with true. cbn iota.
  apply runs_bind, runs_call, runs_ret. rewrite (g_write HG).
  set (id := u32 (rid_ec800g (loc w) + 1)).
  cbn [loc hist]. change (rid_ec800g (_ <| rid_ec800g ::= _ |>)) with id. set (b := escape_from 0 (ec800g_readBlock id addr n)).
  assert (Hb : 26 <= len b <= 52) by (pose proof (escape_length 0 (ec800g_readBlock id addr n)) as H;
    change (length (ec800g_readBlock id addr n)) with 26%nat in H; unfold len, b; lia).
  replace (u64 (len b)) with (len b) by (unfold u64; rewrite Z.mod_small; lia).
  rewrite (proj2 (Z.ltb_ge (len b) 26)) by lia. apply runs_bind.
  assert (Hid : 0 <= id < 2 ^ 32) by (apply Z.mod_pos_bound; lia).
  eapply runs_mono.
  { apply (deal_runs id addr n); [done|done|done| |done|done]. by apply ready_id. }
  cbn beta. intros r w1 (-> & Hw1 & Hs1 & Hf1). change (files (hist w1) = files (hist w)) in Hf1.
  rewrite Hf in Hf1. apply runs_bind, runs_get, runs_bind.
  eapply runs_of_option; [apply rd_bytes_fits; rewrite (proj1 Hw1); pose proof BUF_val; lia|].
  cbn beta. rewrite Hs1. apply runs_bind, runs_call. rewrite (g_save HG). unfold len at 1.
  rewrite mem_bytes_length, Z2Nat.id by lia.
  replace (u64 n =? n) with true by (symmetry; apply Z.eqb_eq, Z.mod_small; lia). cbn [negb].
  apply runs_ret. split; [done|]. split; [exact Hw1|]. cbn [hist dumps]. by rewrite Hf1, Z.eqb_refl.
Qed.

Lemma g_blocks_runs base size path l (w : world) : ec800g_ready (loc w) ->
  0 <= base < 2 ^ 32 -> 0 <= size -> size <= 2 ^ 24 -> base + size <= 2 ^ 32 ->
  files (hist w) = (path, []) :: l ->
  runs E (iterM fuel (ec800g_blocks fuel dfd) (base, size)) w (fun ok w' => ok = true /\
    ec800g_ready (loc w') /\ files (hist w') = (path, mem_bytes base size) :: l).
Proof.
  intros Hw Hb Hs Hs24 Hbs Hf.
  apply (runs_iterM E _ (fun '(b, todo) w' => ec800g_ready (loc w') /\ 0 <= todo <= size /\
      b = u32 (base + (size - todo)) /\
      files (hist w') = (path, mem_bytes base (size - todo)) :: l)
    (fun '(_, todo) _ => Z.to_nat ((todo + 1023) / 1024))).
  - intros [b todo] w2 (Hw2 & Htodo & -> & Hf2). unfold ec800g_blocks.
    destruct (Z.ltb_spec 1024 todo) as [Hbig|Hsm]; [|destruct (Z.ltb_spec 0 todo) as [Hpos|Hz]].
    + replace (u32 (base + (size - todo))) with (base + (size - todo))
        by (unfold u32; rewrite Z.mod_small; lia).
      apply runs_bind. eapply runs_mono.
      { apply no_signal_runs; [apply (g_exit HG)|apply Hw2]. }
      cbn beta. intros e w3 [-> ->]. apply runs_bind. eapply runs_mono.
      { apply g_block_runs; [lia|lia|exact Hw2|exact Hf2]. }
      cbn beta. intros ok w3 (-> & Hw3 & Hf3). apply runs_ret. cbn beta iota.
      split; [|Z.to_euclidean_division_equations; lia]. split; [exact Hw3|]. split; [lia|].
      rewrite <-mem_bytes_app in Hf3 by lia.
      replace (size - (todo - 1024)) with (size - todo + 1024) by lia.
      split; [by rewrite Z.add_assoc|done].
    + replace (u32 (base + (size - todo))) with (base + (size - todo))
        by (unfold u32; rewrite Z.mod_small; lia).
      apply runs_bind. eapply runs_mono.
      { apply g_block_runs; [lia|lia|exact Hw2|exact Hf2]. }
      cbn beta. intros ok w3 (-> & Hw3 & Hf3). apply runs_ret. cbn beta iota.
      rewrite <-mem_bytes_app in Hf3 by lia. replace (size - todo + todo) with size in Hf3 by lia.
      done.
    + replace todo with 0 in * by lia. rewrite Z.sub_0_r in Hf2. by apply runs_ret.
  - split; [exact Hw|]. split; [lia|]. rewrite Z.sub_diag, Z.add_0_r.
    split; [unfold u32; rewrite Z.mod_small; lia|exact Hf].
  - Z.to_euclidean_division_equations; lia.
Qed.

(** C12: The file of a region holds the bytes of the region, to the last one,
    for every region of a module that answers every block, also after reads
    that time out. *)
Theorem ec800g_region_exact dir base size (w : world) : ec800g_ready (loc w) ->
  0 <= base < 2 ^ 32 -> 0 <= size -> size <= 2 ^ 24 -> base + size <= 2 ^ 32 ->
  runs E (ec800g_region fuel dir base size) w (fun ok w' => ok = true /\ ec800g_ready (loc w') /\
    files (hist w') = (region_file dir base, mem_bytes base size) :: files (hist w)).
Proof.
  intros Hw Hb Hs Hs24 Hbs. unfold ec800g_region.
  apply runs_bind. eapply runs_mono; [by apply open_region_runs, (g_open HG)|]. cbn beta.
  intros fd w1 (-> & Hl1 & Hf1).
  rewrite (proj2 (Z.eqb_neq dfd (-1))) by apply (g_fd HG). apply runs_bind. eapply runs_mono.
  { apply g_blocks_runs; [rewrite Hl1; exact Hw|exact Hb|exact Hs|exact Hs24|exact Hbs|exact Hf1]. }
  cbn beta. intros ok w2 (-> & Hw2 & Hf2). apply runs_bind, runs_call, runs_ret. done.
Qed.
End Module.

(** ** A module to try it on *)

Definition demo_us : us :=
  Us 0 0 0 None 0 [] None 0 None (-1) (-1) 7 7 0 5 0 6
    ([0xad; 0x00; 0x03; 0xff; 7; 0x01] ++ replicate (BUF - 6) 0)
    (Some (replicate (2 * BUF) 0)) 0 0 0.
Definition demo_mem (a : Z) : Z := a mod 251.
Definition demo_word (a : Z) : Z := a mod 2 ^ 32.

Definition demo_env (serve : list Z -> nat -> option (list Z)) : env usys := fun A h c =>
  match c in usys B return B with
  | PollWrite _ b _ => len b
  | PollRead _ _ _ => '(b, k) ← pending h; serve b k
  | Write _ b => len b
  | LogfileSave _ b => len b
  | LogfileCreate _ _ _ _ => 3
  | LogfileClose _ => tt
  | Open _ => 4
  | Close _ => tt
  | ReadFile _ => None
  | MakeDir _ => tt
  | MissingDir _ => true
  | EnoughSpace _ _ => true
  | TimeName => []
  | Gettimeofday => (0, 0)
  | Malloc _ => Some (fun _ => 0)
  | Sleep _ => []
  | UsbControl _ _ => 0
  | StartCpdumpThread => tt
  | RxLogCount => 0
  | SignalledExit => false
  end.

(** The EXX00U answers a request on the second read. *)
Definition exx00u_serve (b : list Z) (k : nat) : option (list Z) :=
  match k with
  | O => Some [1; 2; 3; 4]
  | S _ => Some
      (if get_le 4 1 b =? 0x0b then block_answer demo_mem (get_le 9 1 b) (get_le 5 4 b) (get_le 10 2 b) 0
       else word_answer demo_word (get_le 9 1 b) (get_le 5 4 b) 0)
  end.

Lemma exx00u_readBlock_fields id addr n : 0 <= id < 256 -> 0 <= addr < 2 ^ 32 -> 0 < n <= 2048 ->
  get_le 4 1 (exx00u_readBlock id addr n) = 0x0b /\ get_le 9 1 (exx00u_readBlock id addr n) = id /\
  get_le 5 4 (exx00u_readBlock id addr n) = addr /\ get_le 10 2 (exx00u_readBlock id addr n) = n.
Proof.
  intros Hi Ha Hn. split; [done|]. split.
  { change (get_le 9 1 _) with (id + 256 * 0). lia. }
  split.
  - change (get_le 5 4 _) with (le_val (le_bytes 4 addr)). rewrite le_val_bytes. by apply Z.mod_small.
  - change (get_le 10 2 _) with (le_val (le_bytes 2 n)). rewrite le_val_bytes. apply Z.mod_small. lia.
Qed.

Lemma exx00u_read32_fields id addr : 0 <= id < 256 -> 0 <= addr < 2 ^ 32 ->
  get_le 4 1 (exx00u_read32 id addr) = 0x02 /\ get_le 9 1 (exx00u_read32 id addr) = id /\
  get_le 5 4 (exx00u_read32 id addr) = addr.
Proof.
  intros Hi Ha. split; [done|]. split.
  { change (get_le 9 1 _) with (id + 256 * 0). lia. }
  change (get_le 5 4 _) with (le_val (le_bytes 4 addr)). rewrite le_val_bytes. by apply Z.mod_small.
Qed.

Lemma exx00u_serves : exx00u_module (demo_env exx00u_serve) demo_mem demo_word 1 4 6.
Proof.
  split; try done; [intros a; unfold demo_word; apply Z.mod_pos_bound; lia| |].
  - intros id addr n Hi Ha Hn. exists 0. intros h k fd m t Hp.
    cbn [demo_env]. rewrite Hp. destruct k as [|k].
    + right. split; [lia|]. exists [1; 2; 3; 4]. split; [done|]. right.
      split; [|done]. unfold BUF, QLOG_BUF_SIZE. cbn [length]. lia.
    + left. cbn [mbind option_bind exx00u_serve].
      destruct (exx00u_readBlock_fields id addr n Hi Ha Hn) as (-> & -> & -> & ->). done.
  - intros id addr Hi Ha. exists 0. intros h k fd m t Hp.
    cbn [demo_env]. rewrite Hp. destruct k as [|k].
    + right. split; [lia|]. exists [1; 2; 3; 4]. split; [done|]. right.
      split; [|done]. unfold BUF, QLOG_BUF_SIZE. cbn [length]. lia.
    + left. cbn [mbind option_bind exx00u_serve].
      destruct (exx00u_read32_fields id addr Hi Ha) as (-> & -> & ->). done.
Qed.

Lemma demo_exx00u_ready : ready demo_us.
Proof.
  split; [|split; [cbn; lia|done]].
  change (pbuf demo_us) with ([0xad; 0x00; 0x03; 0xff; 7; 0x01] ++ replicate (BUF - 6) 0).
  rewrite length_app, length_replicate. unfold BUF, QLOG_BUF_SIZE. cbn [length]. lia.
Qed.

Lemma exx00u_dump_exact_witness :
  runs (demo_env exx00u_serve)
    (unisoc_exx00u_catch_blue_screen unisoc_exx00u_logfile_save 6 (Z.to_nat 20000) (str "/tmp"))
    (World demo_us []) (fun r w' =>
      r = 1 /\ exx00u_is_blue_screen (loc w') = 0 /\
      dumps 4 (hist w') =
        rev (map (dumped demo_mem (str "/tmp")) (selected demo_word ql_exx00u_xml_data)) ++ []).
Proof.
  apply (exx00u_dump_exact (demo_env exx00u_serve) demo_mem demo_word 1 4 6 exx00u_serves
    (Z.to_nat 20000) ltac:(lia) ltac:(lia) (str "/tmp") (replicate (BUF - 6) 0) (World demo_us []));
    [exact demo_exx00u_ready|reflexivity].
Defined.

Lemma escape_from_esc i l r : (1 <= i)%nat -> (i + length l <= 25)%nat ->
  escape_from i (l ++ r) = esc l ++ escape_from (i + length l) r.
Proof.
  revert i. induction l as [|b l IH]; intros i Hi Hl; cbn [length app] in *.
  - by rewrite Nat.add_0_r.
  - cbn [escape_from esc map concat]. fold (esc l). rewrite IH by lia.
    rewrite (proj2 (Nat.eqb_neq i 0)), (proj2 (Nat.eqb_neq i (26 - 1))) by lia. cbn [orb].
    rewrite <-app_assoc. by replace (S i + length l)%nat with (i + S (length l))%nat by lia.
Qed.

Lemma unescape_request mid : length mid = 24%nat -> let b := escape_from 0 ([0x7e] ++ mid ++ [0x7e]) in
  exists k, unescape (length b) b = Some ([0x7e] ++ mid ++ [0x7e], k).
Proof.
  intros Hm b. exists (escapes mid).
  assert (Hb : b = [0x7e] ++ esc mid ++ [0x7e]).
  { unfold b. cbn [app]. change (escape_from 0 ?l) with ([0x7e] ++ escape_from 1 (mid ++ [0x7e])).
    rewrite escape_from_esc by lia. by rewrite Hm. }
  rewrite Hb, !length_app. cbn [length app Nat.add unescape]. change (0x7e =? 0x7d) with false.
  cbn iota. rewrite unescape_esc. cbn [app unescape]. change (0x7e =? 0x7d) with false. cbn.
  by rewrite Z.add_0_r.
Qed.

(** The EC800G answers a request on the second read. *)
Definition ec800g_serve (b : list Z) (k : nat) : option (list Z) :=
  match k with
  | O => Some []
  | S _ => '(m, _) ← unescape (length b) b;
           Some (ec800g_answer demo_mem (get_le 1 4 m) (get_le 17 4 m) (get_le 21 4 m)
                   [0; 0] (replicate 12 0))
  end.

Lemma ec800g_serves : ec800g_module (demo_env ec800g_serve) demo_mem 1 4.
Proof.
  split; try done. intros id addr n Hi Ha Hn. exists [0; 0], (replicate 12 0).
  split; [done|]. split; [done|]. intros h k fd m t Hp. cbn [demo_env]. rewrite Hp.
  destruct k as [|k]; [right; split; [lia|]; by exists []|]. left. cbn [mbind option_bind ec800g_serve].
  set (mid := le_bytes 4 id ++ [0x18; 0x00; 0x0b; 0x00; 0x03; 0xa0; 0x10; 0x00; 0x00; 0x00; 0x00; 0x00]
    ++ le_bytes 4 addr ++ le_bytes 4 n).
  change (ec800g_readBlock id addr n) with ([0x7e] ++ mid ++ [0x7e]).
  destruct (unescape_request mid) as [k' ->]; [done|]. cbn [mbind option_bind].
  assert (Hv : forall z, 0 <= z < 2 ^ 32 -> le_val (le_bytes 4 z) = z)
    by (intros z Hz; rewrite le_val_bytes; by apply Z.mod_small).
  change (get_le 1 4 _) with (le_val (le_bytes 4 id)).
  change (get_le 17 4 _) with (le_val (le_bytes 4 addr)).
  change (get_le 21 4 _) with (le_val (le_bytes 4 n)).
  rewrite !Hv by lia. done.
Qed.

Lemma demo_ec800g_ready : ec800g_ready demo_us.
Proof.
  split; [exact (proj1 demo_exx00u_ready)|]. split; [|split; [cbn; lia|done]].
  exists (replicate (2 * BUF) 0). split; [done|apply length_replicate].
Qed.

Lemma ec800g_region_exact_witness :
  runs (demo_env ec800g_serve) (ec800g_region (Z.to_nat 20000) (str "/tmp") 0x80000000 5000)
    (World demo_us []) (fun ok w' => ok = true /\ ec800g_ready (loc w') /\
      dumps 4 (hist w') =
        (region_file (str "/tmp") 0x80000000, mem_bytes demo_mem 0x80000000 5000) :: []).
Proof.
  apply (ec800g_region_exact (demo_env ec800g_serve) demo_mem 1 4 (Z.to_nat 20000)
    ltac:(lia) ltac:(lia) ec800g_serves (str "/tmp") 0x80000000 5000 (World demo_us []));
    [exact demo_ec800g_ready|lia..].
Defined.

(** ** Conditions of the EC800G *)

Definition nowhere : us -> Prop := fun _ => True.

Lemma ends_any {A} (m : U A) : ends nowhere m (fun _ => nowhere).
Proof. intros E w _. by destruct (m E w). Qed.

Lemma ends_then {A B} (m : U A) (k : A -> U B) Q :
  (forall a, ends nowhere (k a) Q) -> ends nowhere (m ≫= k) Q.
Proof. intros H. eapply ends_bind; [apply ends_any|exact H]. Qed.

Lemma ends_never {A B} (m : U A) (k : A -> U B) Q :
  ends nowhere m (fun _ _ => False) -> ends nowhere (m ≫= k) Q.
Proof. intros H. eapply ends_bind; [exact H|]. by intros a E w []. Qed.

(** The answer to a word is never taken. *)
Lemma word_turn_never fd a : ends nowhere (ec800g_turn fd 1 a) (fun _ _ => False).
Proof.
  destruct a as [[off x] y]. unfold ec800g_turn. apply ends_then. intros [tmp valid].
  apply ends_then. intros s. apply ends_then. intros n. apply ends_undef.
Qed.

Lemma word_never fuel fd : ends nowhere (unisoc_ec800g_recv_cmd_deal fuel fd 1) (fun _ _ => False).
Proof.
  unfold unisoc_ec800g_recv_cmd_deal. apply ends_never.
  apply (ends_iterM (ec800g_turn fd 1) (fun _ => nowhere)). intros a.
  eapply ends_conseq; [apply word_turn_never|done|done].
Qed.

Lemma require_never fuel addr mask value :
  ends nowhere (ec800g_require fuel (Some (Require addr mask value))) (fun _ _ => False).
Proof.
  cbn [ec800g_require]. apply ends_then. intros s. apply ends_then. intros _. apply ends_never, word_never.
Qed.

(** A region that is not skipped has a condition. *)
Fixpoint conditional (cmds : list ql_cmd) : bool :=
  match cmds with
  | [] => false
  | Require _ _ _ :: rest => conditional rest
  | Region _ _ _ skip :: rest => negb (skip =? 1) && is_require (rest !! 0%nat) || conditional rest
  end.

Lemma table_never fuel dir psram cmds : conditional cmds = true ->
  ends nowhere (ec800g_table fuel dir psram cmds) (fun r _ => r <> 1).
Proof.
  induction cmds as [|c rest IH]; [done|]. intros Hc. cbn [ec800g_table]. apply ends_then.
  intros e. destruct (e : bool); [by apply ends_ret|].
  destruct c as [name base size skip|]; [|by apply IH]. cbn [conditional] in Hc.
  destruct (skip =? 1); [by apply IH|]. cbn [negb andb] in Hc.
  destruct (rest !! 0%nat) as [[]|] eqn:Hr; cbn [is_require orb] in Hc.
  2: { apply ends_never, require_never. }
  all: apply ends_then; intros go; apply ends_then; intros go'; destruct (go' : bool); cbn [negb];
    [|by apply IH].
  all: apply ends_then; intros ok; destruct (ok : bool); [by apply IH|by apply ends_ret].
Qed.

(** The blue-screen dump of the EC800G never succeeds: the table has
    conditional regions, and the value of a condition is read from an array of
    four bytes at offset 25, not from the answer, so no run whose behaviour is
    defined answers 1, whatever the module sends. *)
Theorem ec800g_dump_never_succeeds fuel dir :
  ends nowhere (unisoc_ec800g_catch_blue_screen fuel dir) (fun r _ => r <> 1).
Proof.
  unfold unisoc_ec800g_catch_blue_screen. apply ends_then. intros s. apply ends_then. intros p.
  destruct (_ && _); [|by apply ends_ret].
  apply ends_then. intros []. apply ends_then. intros _. apply ends_then. intros tmp.
  apply ends_then. intros []. destruct tmp as [t|]; [|by apply ends_ret].
  apply ends_then. intros s1. apply ends_then. intros wc. destruct (wc <? 26); [by apply ends_ret|].
  apply ends_then. intros rsize. apply ends_then. intros s2. apply ends_then. intros tag.
  destruct (_ && _); [|by apply ends_ret]. apply ends_then. intros psram.
  by apply table_never.
Qed.
