(* ===== verification/Eigen.v ===== *)
(** Logging and RAM dump of the Eigen modules (src/eigen.c): the header in
    front of every piece of the log, and the dump protocol. *)

From Stdlib Require Import ZArith Lia.
From stdpp Require Import base list strings.
From S2P Require Import Prelude.

(** ** Calls and variables *)

(** [qlog_poll_read] answers the bytes it stored, [None] for -1; [LocalTime]
    the fields of [localtime], [None] for NULL. *)
Record tm : Type := Tm {
  tm_year : Z; tm_mon : Z; tm_wday : Z; tm_mday : Z; tm_hour : Z; tm_min : Z; tm_sec : Z;
}.
Inductive esys : Type -> Type :=
| PollWrite (fd : Z) (buf : list Z) (timeout : Z) : esys Z
| PollRead (fd n timeout : Z) : esys (option (list Z))
| PollOut (fd : Z) : esys Z
| SetTermios (fd : Z) : esys unit
| Flush (fd : Z) : esys unit
| Usleep (usecs : Z) : esys unit
| LogfileSave (fd : Z) (buf : list Z) : esys Z
| LogfileCreateFullname (file_type : Z) (name : list Z) (tftp_size is_dump : Z) : esys Z
| Close (fd : Z) : esys unit
| MakeDir (path : list Z) : esys unit
| EnoughSpace (dir : list Z) (mb : Z) : esys bool
| TimeName : esys (list Z)
| LocalTime : esys (option tm)
| Gettimeofday : esys (Z * Z).

(** A cell of the table is an address and a length. *)
Record es : Type := Es {
  RDReqCell : list (Z * Z);
  RDReqCell_count : Z;
  eigen_logfile_dump : Z;
  eigen_dump_fd : Z;
  qlog_exit_requested : Z;
}.
#[export] Instance eta_es : Eta es := fun s =>
  Es (RDReqCell s) (RDReqCell_count s) (eigen_logfile_dump s) (eigen_dump_fd s)
    (qlog_exit_requested s).

Abbreviation EM := (M esys es).

(** The size of the message buffers. *)
Definition MSG_SIZE : nat := Z.to_nat 65535.
Definition MAX_RETRY_TIME : nat := 32.
Definition MAX_CMD_DATALEN : Z := 512.
Definition DUMP_CID : Z := 0xdc.
Definition N_DUMP_CID : Z := 0x23.
Definition GetDataCmd : Z := 0x20.
Definition GetInfoCmd : Z := 0x21.
Definition FinishCmd : Z := 0x25.

Inductive RamDumpType : Type :=
| RESPONSE_ASSERT | HANDSHAKE_READY | SendReqGetInfo | SendRspGetInfo | SendReqGetCMD
| SendFinishCMD.
#[export] Instance RamDumpType_eq : EqDecision RamDumpType.
Proof. solve_decision. Defined.
Inductive RamDumpStausType : Type := UE_TIMEOUT_ERR | UE_NOT_COMMAND_COMM_ERR | UE_OK.
#[export] Instance RamDumpStausType_eq : EqDecision RamDumpStausType.
Proof. solve_decision. Defined.
Definition ok (e : RamDumpStausType) : bool := bool_decide (e = UE_OK).

(** ** The checksum *)

Definition wCRCTalbeAbs : list Z :=
  [0x0000; 0xCC01; 0xD801; 0x1400; 0xF001; 0x3C00; 0x2800; 0xE401;
   0xA001; 0x6C00; 0x7800; 0xB401; 0x5000; 0x9C01; 0x8801; 0x4400].

(** A half of a byte. *)
Definition crc_nibble (wCRC chChar : Z) : Z :=
  Z.lxor (nth (Z.to_nat (Z.land (Z.lxor chChar wCRC) 15)) wCRCTalbeAbs 0) (Z.shiftr wCRC 4).
Definition crc_char (wCRC chChar : Z) : Z :=
  crc_nibble (crc_nibble wCRC chChar) (Z.shiftr chChar 4).
Definition CRC16 (wCRC : Z) (pchMsg : list Z) : Z := foldl crc_char wCRC pchMsg.

(** The checksum of the first [wDataLen] bytes of a buffer; the length is
    passed as 16 bits. *)
Definition crc_of (buf : list Z) (wDataLen : Z) : option Z :=
  CRC16 0xFFFF <$> rd_bytes 0 (Z.to_nat (u16 wDataLen)) buf.

(** ** The log *)

Definition eigen_log_time_start : list Z := [0xBA; 0xBA; 0xBA; 0xBA; 0xBA; 0xBA; 0xBA; 0xAA].
Definition eigen_log_time_end : list Z := [0xBA; 0xBA; 0xBA; 0xBA; 0xBA; 0xBA; 0xBA; 0xAA].

(** The eight 16-bit fields of the time stamp. *)
Definition qlog_eigen_time_stamp : EM (list Z) :=
  t ← call LocalTime;
  match t with
  | None => mret (replicate 16 0)
  | Some t =>
      '(_, usec) ← call Gettimeofday;
      mret (concat (map (le_bytes 2)
        [tm_year t + 1900; tm_mon t + 1; tm_wday t; tm_mday t; tm_hour t; tm_min t; tm_sec t;
         usec / 1000]))
  end.

Definition eigen_init_filter (fd : Z) : EM Z :=
  modify (fun s => s <| eigen_dump_fd := fd |>);; mret 0.
Definition eigen_clean_filter : EM Z := mret 0.
Definition eigen_logfile_init : EM Z := mret 0.

Definition eigen_logfile_save (logfd : Z) (buf : list Z) : EM Z :=
  match buf with
  | [] => mret 0
  | _ =>
      if logfd <=? 0 then mret (len buf) else
      t ← qlog_eigen_time_stamp;
      call (LogfileSave logfd (eigen_log_time_start ++ t ++ eigen_log_time_end));;
      r ← call (LogfileSave logfd buf); mret (u64 r)
  end.

(** ** Commands *)

Definition SendCommand (sbuf : list Z) (crln : bool) : EM RamDumpStausType :=
  s ← get;
  b ← (if crln then of_option (b ← wr 0 sbuf (replicate 8 0); wr (length sbuf) [0x0d; 0x0a] b)
       else mret sbuf);
  ret ← call (PollWrite (eigen_dump_fd s) b 1000);
  mret (if 0 <? ret then UE_OK else UE_TIMEOUT_ERR).

Definition SendRamDumpAck (id : RamDumpType) (sbuf : list Z) : EM RamDumpStausType :=
  SendCommand sbuf (bool_decide (id = RESPONSE_ASSERT)).

(** A read into [rbuf]; answers the buffer and the number of bytes when
    [*psize] is set. *)
Definition WaitRamDumpAckAndData (id : RamDumpType) (rbuf : list Z) (timeout_msec : Z)
    : EM (RamDumpStausType * list Z * nat) :=
  s ← get;
  r ← call (PollRead (eigen_dump_fd s) 65535 timeout_msec);
  match r with
  | None | Some [] => mret (UE_TIMEOUT_ERR, rbuf, 0%nat)
  | Some l =>
      let l := take MSG_SIZE l in
      rbuf ← of_option (wr 0 l rbuf);
      match id with
      | SendReqGetCMD => mret (UE_OK, rbuf, length l)
      | HANDSHAKE_READY =>
          text ← of_option (c_string 0 rbuf);
          mret (if strstr text (str "DUMPDUMP") then UE_OK else UE_TIMEOUT_ERR, rbuf, 0%nat)
      | SendRspGetInfo =>
          text ← of_option (c_string 0 rbuf);
          mret (if strstr text (str "DUMP") then (UE_TIMEOUT_ERR, rbuf, 0%nat)
                else (UE_OK, rbuf, length l))
      | _ => mret (UE_TIMEOUT_ERR, rbuf, 0%nat)
      end
  end.

Definition wait_tty_echo_not_busy (fd : Z) : EM bool :=
  ret ← iterM 11 (fun '(retry, ret) =>
    if negb (retry <? 10) then mret (inr ret) else
    ret ← call (PollOut fd);
    if ret <? 0 then mret (inr ret) else call (Usleep 100000);; mret (inl (retry + 1, ret))) (0, 0);
  mret (ret =? 1).

Definition zeros : list Z := replicate MSG_SIZE 0.

(** A turn of a handshake: a command and, in the first one, a clean buffer. *)
Definition sync_turn (id : RamDumpType) (cmd : list Z) (clean : bool) (timeout : Z)
    (a : nat * list Z * RamDumpStausType) : EM (nat * list Z * RamDumpStausType + list Z * RamDumpStausType) :=
  let '(nRetry, buf, err) := a in
  if bool_decide (MAX_RETRY_TIME <= nRetry)%nat then mret (inr (buf, err)) else
  e ← SendRamDumpAck id cmd;
  if negb (ok e) then mret (inl (S nRetry, buf, e)) else
  '(e, buf, _) ← WaitRamDumpAckAndData HANDSHAKE_READY (if clean then zeros else buf) timeout;
  mret (if ok e then inr (buf, e) else inl (S nRetry, buf, e)).

(** [None] is -1. *)
Definition SyncStart : EM (option RamDumpStausType) :=
  s ← get;
  idle ← wait_tty_echo_not_busy (eigen_dump_fd s);
  if negb idle then mret None else
  call (SetTermios (eigen_dump_fd s));;
  call (Usleep 2000000);;
  call (Flush (eigen_dump_fd s));;
  '(buf, e) ← iterM 33 (sync_turn RESPONSE_ASSERT (str "okokok") true 1000)
                (0%nat, zeros, UE_TIMEOUT_ERR);
  if negb (ok e) then mret (Some e) else
  call (Usleep 50000);;
  '(_, e) ← iterM 33 (sync_turn HANDSHAKE_READY (str "DUMPDUMP" ++ [0]) false 5000) (0%nat, buf, e);
  mret (Some e).

(** ** Requests *)

Definition request_header (cmd seq length : Z) : list Z :=
  [cmd; seq; DUMP_CID; N_DUMP_CID] ++ le_bytes 4 length.
Definition nRspHeaderCount : nat := 8.
Definition rsp_length (message : list Z) : option nat := Z.to_nat <$> rd 6 2 message.

(** The bytes received are appended to [message]. *)
Definition collect (message messageBuf : list Z) (nPktIndex n : nat) : EM (list Z) :=
  d ← of_option (rd_bytes 0 n messageBuf); of_option (wr nPktIndex d message).

(** The answer to the request for the table of cells: [ntry], the index of the
    next byte, and the error of the last read. *)
Definition info_turn (a : nat * nat * list Z * list Z * RamDumpStausType)
    : EM (nat * nat * list Z * list Z * RamDumpStausType + list Z * list Z * RamDumpStausType) :=
  let '(ntry, nPktIndex, buf, message, err) := a in
  if bool_decide (MAX_RETRY_TIME <= ntry)%nat then mret (inr (buf, message, err)) else
  '(e, buf, n) ← WaitRamDumpAckAndData SendRspGetInfo buf 500;
  if negb (ok e) then mret (inl (S ntry, nPktIndex, buf, message, e)) else
  message ← collect message buf nPktIndex n;
  let nPktIndex := (nPktIndex + n)%nat in
  l ← of_option (rsp_length message);
  mret (if s32 (Z.of_nat nPktIndex - Z.of_nat nRspHeaderCount - 4) <? Z.of_nat l
        then inl (S ntry, nPktIndex, buf, message, e) else inr (buf, message, e)).

(** The checksum of an answer, and the one that stands behind its data. *)
Definition rsp_crc (message : list Z) (l : nat) : EM Z :=
  of_option (crc_of message (Z.of_nat (l + nRspHeaderCount))).
Definition rsp_fcs (message : list Z) (l : nat) : EM Z :=
  of_option (rd (nRspHeaderCount + l) 4 message).

Definition get_info_turn (a : nat * list Z * list Z) : EM (nat * list Z * list Z + option (list Z)) :=
  let '(nRetry, buf, message) := a in
  let data := request_header GetInfoCmd 0 0 in
  if bool_decide (MAX_RETRY_TIME <= nRetry)%nat then mret (inr None) else
  call (Usleep 1000000);;
  e ← SendRamDumpAck SendReqGetInfo data;
  if negb (ok e) then mret (inl (S nRetry, buf, message)) else
  e ← SendRamDumpAck SendReqGetInfo (le_bytes 4 (CRC16 0xFFFF data));
  if negb (ok e) then mret (inl (S nRetry, buf, message)) else
  '(buf, message, e) ← iterM 33 info_turn (0%nat, 0%nat, buf, message, e);
  if negb (ok e) then mret (inl (S nRetry, buf, message)) else
  l ← of_option (rsp_length message);
  crc ← rsp_crc message l;
  srcCrc ← rsp_fcs message l;
  mret (if crc =? srcCrc then inr (Some message) else inl (S nRetry, buf, message)).

(** A cell of the answer goes to its place in the table of 100 cells. *)
Definition store_cell (message : list Z) (i : nat) : EM unit :=
  c ← of_option (rd_bytes (nRspHeaderCount + i * 8) 8 message);
  s ← get;
  if bool_decide (i < length (RDReqCell s))%nat then
    modify (fun s => s <| RDReqCell ::= <[i := (get_le 0 4 c, get_le 4 4 c)]> |>
                       <| RDReqCell_count ::= fun n => s32 (n + 1) |>)
  else undef.

Definition SendGetInfoUsb : EM RamDumpStausType :=
  m ← iterM 33 get_info_turn (0%nat, zeros, zeros);
  match m with
  | None => mret UE_NOT_COMMAND_COMM_ERR
  | Some message =>
      l ← of_option (rsp_length message);
      forM (seq 0 (l / 8)) (store_cell message);;
      mret UE_OK
  end.

Definition WriteData (pData : list Z) : EM Z :=
  s ← get;
  nwrites ← call (LogfileSave (eigen_logfile_dump s) pData);
  mret (if len pData =? nwrites then nwrites else -1).

(** A command is repeated until it is written, 32 times at most; the error of
    the last try. *)
Definition send_retry (id : RamDumpType) (b : list Z) : EM RamDumpStausType :=
  iterM 33 (fun '(nRetry, e) =>
    if bool_decide (MAX_RETRY_TIME <= nRetry)%nat then mret (inr e) else
    e ← SendRamDumpAck id b;
    mret (if ok e then inr e else inl (S nRetry, e))) (0%nat, UE_TIMEOUT_ERR).

Definition dwUsbMaxDataLen : Z := MAX_CMD_DATALEN * 20.

(** The answer to the request for [ReadLen] bytes: the index of the next byte,
    and how often nothing came. *)
Definition data_turn (ReadLen : Z) (a : nat * nat * list Z * list Z * RamDumpStausType)
    : EM (nat * nat * list Z * list Z * RamDumpStausType
          + nat * list Z * list Z * RamDumpStausType) :=
  let '(nPktIndex, nRetry, buf, message, err) := a in
  if negb ((Z.of_nat nPktIndex <? u32 (ReadLen + 12)) && bool_decide (nRetry < MAX_RETRY_TIME / 4)%nat)
  then mret (inr (nRetry, buf, message, err)) else
  '(e, buf, n) ← WaitRamDumpAckAndData SendReqGetCMD buf 500;
  if negb (ok e) then mret (inl (nPktIndex, S nRetry, buf, message, e)) else
  message ← collect message buf nPktIndex n;
  l ← of_option (rsp_length message);
  mret (if ReadLen <? Z.of_nat l then inr (nRetry, buf, message, e)
        else inl ((nPktIndex + n)%nat, nRetry, buf, message, e)).

(** The variables of the dump of a cell. *)
Record cell_st : Type := CellSt {
  nReadLen : Z; nReadTime : nat; uSeq : Z; ReadDataAddr : Z; ReadLen : Z;
  messageBuf : list Z; message : list Z;
}.
#[export] Instance eta_cell_st : Eta cell_st := fun c =>
  CellSt (nReadLen c) (nReadTime c) (uSeq c) (ReadDataAddr c) (ReadLen c) (messageBuf c) (message c).

Definition data_request (c : cell_st) : list Z * list Z :=
  (request_header GetDataCmd (u8 (uSeq c)) 8, le_bytes 4 (ReadDataAddr c) ++ le_bytes 4 (ReadLen c)).

(** An answer whose checksum is right is saved; the next one begins behind it. *)
Definition take_data (nTotalData : Z) (c : cell_st) : EM cell_st :=
  l ← of_option (rsp_length (message c));
  fcs ← rsp_fcs (message c) l;
  crc ← rsp_crc (message c) l;
  if crc =? u16 fcs then
    d ← of_option (rd_bytes nRspHeaderCount l (message c));
    WriteData d;;
    let nReadLen' := u32 (nReadLen c + Z.of_nat l) in
    let left := u32 (nTotalData - nReadLen') in
    mret (c <| nReadLen := nReadLen' |> <| uSeq ::= fun n => s32 (n + 1) |>
            <| ReadDataAddr ::= fun a => u32 (a + Z.of_nat l) |>
            <| ReadLen ::= fun n => if left <? dwUsbMaxDataLen then left else n |>
            <| nReadTime := 0%nat |>)
  else mret (c <| nReadTime ::= S |>).

Definition cell_turn (nTotalData : Z) (c : cell_st) : EM (cell_st + cell_st) :=
  if negb ((nReadLen c <? nTotalData) && (0 <? nTotalData) &&
           bool_decide (nReadTime c < MAX_RETRY_TIME / 2)%nat) then mret (inr c) else
  let '(header, cell) := data_request c in
  send_retry SendReqGetCMD header;;
  send_retry SendReqGetCMD cell;;
  e ← send_retry SendReqGetCMD (le_bytes 4 (CRC16 0xFFFF (header ++ cell)));
  if negb (ok e) then mret (inl c) else
  '(nRetry, buf, msg, e) ← iterM (Z.to_nat (u32 (ReadLen c + 12)) + 9) (data_turn (ReadLen c))
                             (0%nat, 0%nat, messageBuf c, message c, e);
  let c := c <| messageBuf := buf |> <| message := msg |> in
  if negb (ok e) || bool_decide (MAX_RETRY_TIME / 4 <= nRetry)%nat then mret (inl c) else
  c ← take_data nTotalData c; mret (inl c).

Definition send_finish (uSeq : Z) : EM RamDumpStausType :=
  let data := request_header FinishCmd (u8 uSeq) 0 in
  send_retry SendFinishCMD data;;
  send_retry SendFinishCMD (le_bytes 4 (CRC16 0xFFFF data)).

(** [None] is -1. *)
Definition GetDumpDataUsb (fuel : nat) (nTotalData nReadAddr : Z) (bFinish : bool)
    : EM (option RamDumpStausType) :=
  call (Usleep 200000);;
  c ← iterM fuel (cell_turn nTotalData)
        (CellSt 0 0%nat 1 nReadAddr dwUsbMaxDataLen zeros zeros);
  if bool_decide (MAX_RETRY_TIME / 2 <= nReadTime c)%nat then mret None
  else if bFinish then e ← send_finish (uSeq c); mret (Some e)
  else mret (Some UE_OK).

(** [fuel] is the number of blocks. *)
Definition PaddingDumpFile (nLen : Z) : EM unit :=
  iterM (S (Z.to_nat ((nLen + 511) / 512))) (fun nLen =>
    if negb (0 <? nLen) then mret (inr tt)
    else if MAX_CMD_DATALEN <? nLen then
      WriteData (replicate 512 0);; mret (inl (nLen - MAX_CMD_DATALEN))
    else WriteData (replicate (Z.to_nat nLen) 0);; mret (inl 0)) nLen.

(** ** The dump *)

Definition is_prefix_of (p l : list Z) : bool := bool_decide (take (length p) l = p).

(** The bytes of an exception, with at least one more behind them. *)
Fixpoint in_ramdump (g_is_eigen_chip : Z) (pbuf : list Z) : bool :=
  match pbuf with
  | [] => false
  | _ :: rest =>
      bool_decide (4 < length pbuf)%nat &&
        ((g_is_eigen_chip =? 1) && is_prefix_of [0x22; 0x0a; 0x45; 0x80] pbuf
         || is_prefix_of [0x22; 0x04; 0x02; 0x00] pbuf)
      || in_ramdump g_is_eigen_chip rest
  end.

Section Dump.
Context (fuel : nat) (g_is_eigen_chip : Z).

Definition close_dump : EM unit :=
  s ← get;
  if 0 <? eigen_logfile_dump s then
    call (Close (eigen_logfile_dump s));; modify (fun s => s <| eigen_logfile_dump := -1 |>)
  else mret tt.

Definition cell (i : Z) : EM (Z * Z) := s ← get; of_option (RDReqCell s !! Z.to_nat i).

(** The cells one after the other; [false] is -1. *)
Definition dump_turn (i : Z) : EM (Z + bool) :=
  s ← get;
  if negb (i <? RDReqCell_count s) then mret (inr true) else
  '(addr, n) ← cell i;
  e ← GetDumpDataUsb fuel n addr (i =? RDReqCell_count s - 1);
  if negb (match e with Some e => ok e | None => false end) then close_dump;; mret (inr false) else
  (if i + 1 <? RDReqCell_count s then
     '(next, _) ← cell (i + 1); PaddingDumpFile (s32 (next - (n + addr)))
   else mret tt);;
  mret (inl (i + 1)).

Definition dump_dir_name (logfile_dir t : list Z) : list Z := take 172 logfile_dir ++ str "/dump_" ++ take 80 t.
Definition dump_file_name (dump_dir t : list Z) : list Z :=
  take 155 dump_dir ++ str "/" ++ take 80 (str "ramdump_" ++ take 80 t ++ str ".bin").

Definition enigen_catch_dump (pbuf logfile_dir : list Z) : EM Z :=
  if ((g_is_eigen_chip =? 1) || (g_is_eigen_chip =? 2)) && negb (in_ramdump g_is_eigen_chip pbuf)
  then mret 0 else
  e ← SyncStart;
  if negb (match e with Some e => ok e | None => false end) then mret (-1) else
  e ← SendGetInfoUsb;
  if negb (ok e) then mret (-1) else
  t ← call TimeName;
  let dump_dir := dump_dir_name logfile_dir t in
  call (MakeDir dump_dir);;
  space ← call (EnoughSpace dump_dir 256);
  if negb space then modify (fun s => s <| qlog_exit_requested := 1 |>);; mret (-1) else
  t ← call TimeName;
  fd ← call (LogfileCreateFullname 0 (dump_file_name dump_dir t) 0 1);
  modify (fun s => s <| eigen_logfile_dump := fd |>);;
  if fd =? -1 then mret (-1) else
  s ← get;
  done ← iterM (S (Z.to_nat (RDReqCell_count s))) dump_turn 0;
  if negb done then mret (-1) else close_dump;; mret 1.
End Dump.
