(* ===== verification/EigenProps.v ===== *)
(** The RAM dump of the Eigen modules: its checksum is a bitwise CRC, and a
    module that serves its memory is dumped exactly. *)

From Stdlib Require Import ZArith Lia.
From stdpp Require Import base list strings.
From S2P Require Import Prelude Poly Buffers Eigen.

(** ** The checksum *)

Definition MODBUS : Z := 0xA001.
Abbreviation poly_steps := (Poly.poly_steps MODBUS).

Lemma nibble_steps c b : crc_nibble c b = Z.lxor (poly_steps 4 (Z.lxor b c)) (Z.shiftr b 4).
Proof.
  rewrite <-(table_step _ 4 wCRCTalbeAbs) by (vm_compute; reflexivity).
  unfold crc_nibble. change (Z.ones (Z.of_nat 4)) with 15. change (Z.of_nat 4) with 4.
  rewrite Z.shiftr_lxor, Z.lxor_assoc, (Z.lxor_comm (Z.shiftr b 4)). f_equal.
  by rewrite Z.lxor_assoc, Z.lxor_nilpotent, Z.lxor_0_r.
Qed.

Lemma char_steps c b : is_byte b -> crc_char c b = poly_steps 8 (Z.lxor c b).
Proof.
  intros Hb. unfold crc_char. rewrite !nibble_steps. rewrite Z.shiftr_shiftr by lia.
  change (4 + 4) with 8. rewrite (Z.shiftr_div_pow2 b 8), Z.div_small, Z.lxor_0_r by (done || lia).
  rewrite (Z.lxor_comm (poly_steps 4 _)), <-Z.lxor_assoc, Z.lxor_nilpotent, Z.lxor_0_l.
  by rewrite <-poly_steps_add, Z.lxor_comm.
Qed.

(** The checksum of the dump protocol, taken half a byte at a time from a
    table of 16 entries, is the CRC-16 of the polynomial 0xA001, one bit at a
    time, low bit first, for messages of whole bytes and any start value. *)
Theorem crc16_bitwise c msg : bytes msg -> CRC16 c msg = poly_bytes MODBUS c msg.
Proof.
  intros Hm. unfold CRC16, poly_bytes. revert c.
  induction Hm as [|b l Hb Hl IH]; intros c; cbn [foldl]; [done|]. by rewrite char_steps by done.
Qed.

Lemma crc16_bitwise_witness :
  CRC16 0xFFFF (request_header GetInfoCmd 0 0) = poly_bytes MODBUS 0xFFFF (request_header GetInfoCmd 0 0).
Proof. apply (crc16_bitwise 0xFFFF (request_header GetInfoCmd 0 0)). repeat constructor; by compute. Defined.

Lemma crc16_range msg : bytes msg -> 0 <= CRC16 0xFFFF msg < 2 ^ 16.
Proof. intros Hm. rewrite crc16_bitwise by done. apply in16_poly_bytes; [by split|done|by split]. Qed.

(** ** What a history shows *)

Lemma MSG_val : Z.of_nat MSG_SIZE = 65535.
Proof. by apply Z2Nat.id. Qed.
Ltac mlia := pose proof MSG_val; lia.


(** The bytes written since the last read, what has been read since, and in
    how many reads. *)
Fixpoint talk (h : list (io esys)) : list Z * list Z * nat :=
  match h with
  | [] => ([], [], 0%nat)
  | Ev c a :: h' =>
      let '(r, g, k) := talk h' in
      match c in esys B return B -> _ with
      | PollWrite _ b _ => fun _ => if (k =? 0)%nat then (r ++ b, [], 0%nat) else (b, [], 0%nat)
      | PollRead _ _ _ => fun a => (r, g ++ default [] a, S k)
      | _ => fun _ => (r, g, k)
      end a
  end.

(** The last command, and how often it was written. *)
Fixpoint last_write (h : list (io esys)) : list Z :=
  match h with
  | [] => []
  | Ev c _ :: h' => match c with PollWrite _ b _ => b | _ => last_write h' end
  end.
Fixpoint writes (b : list Z) (h : list (io esys)) : nat :=
  match h with
  | [] => 0%nat
  | Ev c _ :: h' =>
      match c with
      | PollWrite _ b' _ => if bool_decide (b' = b) then S (writes b h') else writes b h'
      | _ => writes b h'
      end
  end.

(** What was saved with descriptor [dfd]. *)
Fixpoint saved (dfd : Z) (h : list (io esys)) : list Z :=
  match h with
  | [] => []
  | Ev c _ :: h' =>
      match c with
      | LogfileSave fd d => if fd =? dfd then saved dfd h' ++ d else saved dfd h'
      | _ => saved dfd h'
      end
  end.

(** ** A module that serves its memory *)

Definition hello1 : list Z := str "okokok" ++ [0x0d; 0x0a].
Definition hello2 : list Z := str "DUMPDUMP" ++ [0].
Definition greeting (l : list Z) : Prop :=
  (0 < length l <= 1000)%nat /\ strstr (cstr l) (str "DUMPDUMP") = true.

Definition response (cmd seq : Z) (d : list Z) : list Z :=
  [cmd; seq; DUMP_CID; N_DUMP_CID; 0; 0] ++ le_bytes 2 (len d) ++ d.
Definition sealed (l : list Z) : list Z := l ++ le_bytes 4 (CRC16 0xFFFF l).

Definition request (header cell : list Z) : list Z :=
  (header ++ cell) ++ le_bytes 4 (CRC16 0xFFFF (header ++ cell)).
Definition info_request : list Z := request (request_header GetInfoCmd 0 0) [].
Definition data_req (seq addr n : Z) : list Z :=
  request (request_header GetDataCmd seq 8) (le_bytes 4 addr ++ le_bytes 4 n).

Definition cell_bytes (c : Z * Z) : list Z := le_bytes 4 c.1 ++ le_bytes 4 c.2.
Definition info_answer (cells : list (Z * Z)) : list Z :=
  sealed (response GetInfoCmd 0 (concat (map cell_bytes cells))).

Definition silent (r : option (list Z)) : Prop := r = None \/ r = Some [].

Section Module.
Context (E : env esys) (mem : Z -> Z) (cells : list (Z * Z)) (dfd : Z).
Abbreviation world := (world esys es).
Abbreviation file := (saved dfd).

Definition data_answer (seq addr n : Z) : list Z :=
  sealed (response GetDataCmd seq (mem_bytes mem addr n)).

(** The table of cells comes in one piece; data comes in pieces, the first one
    with the whole header, all of it after eight reads at the latest. *)
Record eigen_module : Prop := Eigen_module {
  m_dfd : 0 < dfd;
  m_mem : forall a, is_byte (mem a);
  m_idle : forall h f, E _ h (PollOut f) = 1;
  m_write : forall h f b t, 0 < E _ h (PollWrite f b t);
  m_save : forall h f b, E _ h (LogfileSave f b) = len b;
  m_create : forall h a p t d, E _ h (LogfileCreateFullname a p t d) = dfd;
  m_space : forall h p n, E _ h (EnoughSpace p n) = true;
  m_hello : forall h f n t, last_write h = hello1 \/ last_write h = hello2 ->
    (exists l, E _ h (PollRead f n t) = Some l /\ greeting l) \/
    (writes (last_write h) h <= 30)%nat /\ silent (E _ h (PollRead f n t));
  m_info : forall h f n t k, talk h = (info_request, [], k) ->
    E _ h (PollRead f n t) = Some (info_answer cells) \/
    (k < 8)%nat /\ silent (E _ h (PollRead f n t));
  m_data : forall h f m t seq addr n g rest k, 0 <= seq < 256 -> 0 <= addr < 2 ^ 32 ->
    0 < n <= dwUsbMaxDataLen ->
    talk h = (data_req seq addr n, g, k) -> data_answer seq addr n = g ++ rest -> rest <> [] ->
    (k < 7)%nat /\ silent (E _ h (PollRead f m t)) \/
    exists l rest', E _ h (PollRead f m t) = Some l /\ rest = l ++ rest' /\ l <> [] /\
      (8 <= length (g ++ l))%nat /\ ((k < 7)%nat \/ rest' = []);
}.
Context (HM : eigen_module).

(** *** Commands *)

Lemma request_ack_runs id b (w : world) : id <> RESPONSE_ASSERT ->
  runs E (SendRamDumpAck id b) w (fun e w' => e = UE_OK /\ loc w' = loc w /\
    (exists f, hist w' = Ev (PollWrite f b 1000) (E _ (hist w) (PollWrite f b 1000)) :: hist w)).
Proof.
  intros Hid. unfold SendRamDumpAck, SendCommand. rewrite bool_decide_false by done.
  apply runs_bind, runs_get, runs_bind, runs_ret, runs_bind, runs_call, runs_ret.
  pose proof (m_write HM (hist w) (eigen_dump_fd (loc w)) b 1000) as Hw.
  rewrite (proj2 (Z.ltb_lt 0 _) Hw). split; [done|]. split; [done|]. by eexists.
Qed.

(** A request adds its bytes to those that were not answered yet. *)
Definition asks (h : list (io esys)) (b : list Z) : list Z :=
  let '(r, _, k) := talk h in if (k =? 0)%nat then r ++ b else b.

Lemma send_retry_runs id b (w : world) : id <> RESPONSE_ASSERT ->
  runs E (send_retry id b) w (fun e w' => e = UE_OK /\ loc w' = loc w /\ file (hist w') = file (hist w) /\
    talk (hist w') = (asks (hist w) b, [], 0%nat)).
Proof.
  intros Hid. unfold send_retry. change 33%nat with (S 32). cbn [iterM].
  apply runs_bind. cbn beta iota. apply runs_bind. eapply runs_mono; [by apply request_ack_runs|].
  cbn beta. intros e w1 (-> & Hl1 & f & Hh1). apply runs_ret.
  split; [done|]. split; [done|]. rewrite Hh1. split; [done|].
  cbn [talk]. unfold asks. destruct (talk (hist w)) as [[r g] [|k]]; done.
Qed.

Lemma wait_silent_runs id buf t (w : world) :
  silent (E _ (hist w) (PollRead (eigen_dump_fd (loc w)) 65535 t)) ->
  runs E (WaitRamDumpAckAndData id buf t) w (fun r w' => r = (UE_TIMEOUT_ERR, buf, 0%nat) /\
    loc w' = loc w /\ file (hist w') = file (hist w) /\
    exists a, silent a /\ hist w' = Ev (PollRead (eigen_dump_fd (loc w)) 65535 t) a :: hist w).
Proof.
  intros Hs. unfold WaitRamDumpAckAndData. apply runs_bind, runs_get, runs_bind, runs_call.
  destruct Hs as [Hs|Hs]; rewrite Hs; apply runs_ret; (split; [done|]; split; [done|]; split; [done|]);
    eexists; (split; [|reflexivity]); [by left|by right].
Qed.

Lemma wait_data_runs buf l t (w : world) :
  E _ (hist w) (PollRead (eigen_dump_fd (loc w)) 65535 t) = Some l -> l <> [] ->
  (length l <= MSG_SIZE)%nat -> length buf = MSG_SIZE ->
  runs E (WaitRamDumpAckAndData SendReqGetCMD buf t) w (fun r w' =>
    r = (UE_OK, put 0 l buf, length l) /\ loc w' = loc w /\ file (hist w') = file (hist w) /\
    hist w' = Ev (PollRead (eigen_dump_fd (loc w)) 65535 t) (Some l) :: hist w).
Proof.
  intros Hr Hne Hl Hb. unfold WaitRamDumpAckAndData. apply runs_bind, runs_get, runs_bind, runs_call.
  rewrite Hr. destruct l as [|x l]; [done|]. rewrite take_ge by done. apply runs_bind.
  eapply runs_of_option; [apply wr_fits; lia|]. apply runs_ret. done.
Qed.

(** *** Answers *)

Lemma response_length cmd seq d : length (response cmd seq d) = (8 + length d)%nat.
Proof. unfold response. rewrite !length_app, length_le_bytes. cbn [length]. lia. Qed.

Lemma sealed_length l : length (sealed l) = (length l + 4)%nat.
Proof. unfold sealed. by rewrite length_app, length_le_bytes. Qed.

Lemma response_bytes cmd seq d : is_byte cmd -> is_byte seq -> bytes d -> bytes (response cmd seq d).
Proof.
  intros Hc Hs Hd. unfold response. apply Forall_app_2; [|by apply Forall_app_2; [apply le_bytes_bytes|]].
  do 2 (apply Forall_cons_2; [done|]). do 4 (apply Forall_cons_2; [by split|]). by apply Forall_nil_2.
Qed.

Lemma response_len_field cmd seq d x : len d < 65536 -> get_le 6 2 (response cmd seq d ++ x) = len d.
Proof.
  intros Hd. change (get_le 6 2 _) with (le_val (le_bytes 2 (len d))). rewrite le_val_bytes.
  apply Z.mod_small. unfold len in *. lia.
Qed.

Lemma rsp_length_runs cmd seq d m x (w : world) Q : m = response cmd seq d ++ x -> len d < 65536 ->
  Q (length d) w -> runs E (of_option (rsp_length m)) w Q.
Proof.
  intros -> Hd HQ. unfold rsp_length. rewrite rd_fits by (rewrite length_app, response_length; lia).
  rewrite response_len_field by done. cbn. unfold len. by rewrite Nat2Z.id.
Qed.

Lemma rsp_crc_runs cmd seq d m x (w : world) Q : m = response cmd seq d ++ x -> len d < 60000 ->
  Q (CRC16 0xFFFF (response cmd seq d)) w -> runs E (rsp_crc m (length d)) w Q.
Proof.
  intros -> Hd HQ. unfold rsp_crc, crc_of. unfold len in Hd.
  replace (Z.to_nat (u16 (Z.of_nat (length d + nRspHeaderCount)))) with (length (response cmd seq d)).
  2: { rewrite response_length. unfold u16, nRspHeaderCount. rewrite Z.mod_small; lia. }
  rewrite rd_bytes_fits by (rewrite length_app; lia).
  unfold slice. rewrite drop_0, take_app_length. exact HQ.
Qed.

Lemma rsp_fcs_runs cmd seq d m x (w : world) Q : is_byte cmd -> is_byte seq -> bytes d ->
  m = sealed (response cmd seq d) ++ x ->
  Q (CRC16 0xFFFF (response cmd seq d)) w -> runs E (rsp_fcs m (length d)) w Q.
Proof.
  intros Hc Hs Hd -> HQ. unfold rsp_fcs. pose proof (response_length cmd seq d) as Hl.
  rewrite rd_fits by (rewrite length_app, sealed_length, Hl; unfold nRspHeaderCount; lia).
  apply runs_ret. unfold sealed, get_le. rewrite <-app_assoc.
  rewrite slice_app_r by (rewrite Hl; unfold nRspHeaderCount; lia).
  rewrite Hl. replace (nRspHeaderCount + length d - (8 + length d))%nat with 0%nat by (unfold nRspHeaderCount; lia).
  unfold slice. rewrite drop_0.
  replace 4%nat with (length (le_bytes 4 (CRC16 0xFFFF (response cmd seq d)))) at 1 by apply length_le_bytes.
  rewrite take_app_length, le_val_bytes.
  pose proof (crc16_range (response cmd seq d) ltac:(by apply response_bytes)) as Hr.
  rewrite Z.mod_small; [exact HQ|]. lia.
Qed.

(** *** The answer to a request for data *)

(** Every request has been answered. *)
Definition idle (h : list (io esys)) : Prop := (talk h).2 <> 0%nat.


Lemma data_answer_length seq addr n : 0 <= n -> length (data_answer seq addr n) = (Z.to_nat n + 12)%nat.
Proof.
  intros Hn. unfold data_answer. rewrite sealed_length, response_length, mem_bytes_length. lia.
Qed.

(** [message] while an answer arrives: what has been received is in front. *)
Definition arriving (seq addr n : Z) (i nr : nat) (buf m : list Z) (e : RamDumpStausType) (w : world) : Prop :=
  exists g rest tl k, talk (hist w) = (data_req seq addr n, g, k) /\ data_answer seq addr n = g ++ rest /\
    m = g ++ tl /\ length m = MSG_SIZE /\ length buf = MSG_SIZE /\ i = length g /\
    (nr <= k)%nat /\ (nr <= 7)%nat /\ (rest = [] \/ (k <= 7)%nat) /\ (rest = [] -> e = UE_OK) /\
    (k = 0%nat -> g = []).

Definition owing (n : Z) (i : nat) (w : world) : nat :=
  (Z.to_nat n + 12 - i + (8 - (talk (hist w)).2))%nat.

Lemma data_turn_runs seq addr n i nr buf m e w0 (w : world) : 0 <= seq < 256 -> 0 <= addr < 2 ^ 32 ->
  0 < n <= dwUsbMaxDataLen -> arriving seq addr n i nr buf m e w -> loc w = loc w0 ->
  file (hist w) = file (hist w0) ->
  runs E (data_turn n (i, nr, buf, m, e)) w (fun r w' => loc w' = loc w0 /\ file (hist w') = file (hist w0) /\
    match r with
    | inl (i', nr', buf', m', e') => arriving seq addr n i' nr' buf' m' e' w' /\ (owing n i' w' < owing n i w)%nat
    | inr (nr', buf', m', e') => idle (hist w') /\ e' = UE_OK /\ (nr' <= 7)%nat /\ length buf' = MSG_SIZE /\
        length m' = MSG_SIZE /\ exists tl, m' = data_answer seq addr n ++ tl
    end).
Proof.
  intros Hs Ha Hn (g & rest & tl & k & Ht & Hans & Hm & Hml & Hbl & Hi & Hnk & Hn7 & Hk & He & Hk0) Hl0 Hf0.
  pose proof (data_answer_length seq addr n ltac:(lia)) as Hal. rewrite Hans, length_app in Hal.
  unfold dwUsbMaxDataLen, MAX_CMD_DATALEN in Hn. unfold data_turn.
  replace (u32 (n + 12)) with (n + 12) by (unfold u32; rewrite Z.mod_small; lia).
  change (MAX_RETRY_TIME / 4)%nat with 8%nat. rewrite (bool_decide_true (nr < 8)%nat), andb_true_r by lia.
  destruct (Z.ltb_spec (Z.of_nat i) (n + 12)) as [Hlt|Hge]; cbn [negb].
  2: { apply runs_ret. split; [done|]. split; [done|].
       assert (rest = []) as -> by (destruct rest; [done|cbn [length] in Hal; lia]).
       split; [unfold idle; rewrite Ht; cbn [snd]; intros ->; rewrite Hk0 in Hi by done; cbn in Hi; lia|].
       split; [by apply He|]. split; [done|]. split; [done|]. split; [done|].
       exists tl. by rewrite Hans, app_nil_r. }
  assert (Hrest : rest <> []) by (intros ->; cbn [length] in Hal; lia).
  destruct Hk as [?|Hk]; [done|].
  assert (Ho : owing n i w = (Z.to_nat n + 12 - i + (8 - k))%nat) by (unfold owing; by rewrite Ht).
  rewrite Ho. apply runs_bind.
  destruct (m_data HM _ (eigen_dump_fd (loc w)) 65535 500 seq addr n g rest k Hs Ha
              ltac:(unfold dwUsbMaxDataLen, MAX_CMD_DATALEN; lia) Ht Hans Hrest)
    as [[Hk7 Hsil]|(l & rest' & Hr & Hrl & Hne & H8 & Hend)].
  - eapply runs_mono; [by apply wait_silent_runs|]. cbn beta.
    intros r w1 (-> & Hl1 & Hf1 & a & Ha1 & Hh1). cbn iota. apply runs_ret. rewrite Hl1, Hf1.
    split; [done|]. split; [done|].
    assert (Ht1 : talk (hist w1) = (data_req seq addr n, g, S k)).
    { rewrite Hh1. cbn [talk]. rewrite Ht. destruct Ha1 as [->| ->]; cbn; by rewrite app_nil_r. }
    split; [|unfold owing; rewrite Ht1; cbn [snd]; lia].
    exists g, rest, tl, (S k). split_and!; try done; try lia; right; lia.
  - subst rest. rewrite !length_app in Hal. pose proof Hml as Hml2. rewrite Hm, length_app in Hml2.
    eapply runs_mono; [apply (wait_data_runs _ l); [done|done|mlia|done]|]. cbn beta.
    intros r w1 (-> & Hl1 & Hf1 & Hh1). cbn iota. unfold collect. apply runs_bind, runs_bind.
    assert (Hpl : length (put 0 l buf) = MSG_SIZE) by (rewrite length_put; mlia).
    eapply runs_of_option; [apply rd_bytes_fits; mlia|]. cbn beta.
    rewrite slice_put0, slice_all by mlia. eapply runs_of_option; [apply wr_fits; mlia|]. cbn beta.
    subst i. rewrite Hm, put_front by done. set (m' := (g ++ l) ++ drop (length l) tl).
    assert (Hm' : length m' = MSG_SIZE) by (unfold m'; rewrite !length_app, length_drop; mlia).
    apply runs_bind, (runs_of_option _ _ (Z.to_nat n)).
    { unfold rsp_length. rewrite rd_fits by mlia.
      assert (Hg : get_le 6 2 m' = n); [|rewrite Hg; done].
      pose proof (response_len_field GetDataCmd seq (mem_bytes mem addr n)
        (le_bytes 4 (CRC16 0xFFFF (response GetDataCmd seq (mem_bytes mem addr n))))) as Hfld.
      change (response GetDataCmd seq (mem_bytes mem addr n) ++ le_bytes 4 _)
        with (data_answer seq addr n) in Hfld.
      unfold len in Hfld. rewrite mem_bytes_length, Z2Nat.id in Hfld by mlia.
      rewrite <-Hfld by mlia. rewrite Hans, app_assoc. unfold m', get_le.
      by rewrite !(slice_app_l 6 2 (g ++ l)) by mlia. }
    cbn beta. rewrite Z2Nat.id, Z.ltb_irrefl by mlia. apply runs_ret. rewrite Hl1, Hf1.
    split; [done|]. split; [done|].
    assert (Ht1 : talk (hist w1) = (data_req seq addr n, g ++ l, S k)).
    { rewrite Hh1. cbn [talk]. by rewrite Ht. }
    destruct l as [|b l]; [done|]. cbn [length] in *.
    split; [|unfold owing; rewrite Ht1; cbn [snd]; mlia].
    exists (g ++ b :: l), rest', (drop (S (length l)) tl), (S k).
    split_and!; try done; try mlia.
    + by rewrite <-app_assoc.
    + rewrite length_app. cbn [length]. mlia.
    + destruct Hend as [|Hend]; [right; mlia|by left].
Qed.

(** *** A cell *)

Lemma asks_idle h b : idle h -> asks h b = b.
Proof. unfold idle, asks. destruct (talk h) as [[r g] [|k]]; [done|done]. Qed.

Lemma asks_more h r b : talk h = (r, [], 0%nat) -> asks h b = r ++ b.
Proof. intros H. unfold asks. by rewrite H. Qed.

Definition buffers (c : cell_st) : Prop := length (messageBuf c) = MSG_SIZE /\ length (message c) = MSG_SIZE.

Lemma take_data_runs T seq addr n c tl x (w : world) : 0 <= seq < 256 -> 0 < n <= dwUsbMaxDataLen ->
  buffers c -> message c = data_answer seq addr n ++ tl -> eigen_logfile_dump (loc w) = dfd ->
  file (hist w) = x ->
  runs E (take_data T c) w (fun c' w' => loc w' = loc w /\ talk (hist w') = talk (hist w) /\
    file (hist w') = x ++ mem_bytes mem addr n /\ buffers c' /\ nReadTime c' = 0%nat /\
    nReadLen c' = u32 (nReadLen c + n) /\ ReadDataAddr c' = u32 (ReadDataAddr c + n) /\
    ReadLen c' = (let left := u32 (T - u32 (nReadLen c + n)) in
                  if left <? dwUsbMaxDataLen then left else ReadLen c)).
Proof.
  intros Hs Hn [Hb Hml] Hm Hd Hx. unfold dwUsbMaxDataLen, MAX_CMD_DATALEN in Hn.
  set (d := mem_bytes mem addr n) in *. set (r := response GetDataCmd seq d).
  assert (Hdl : length d = Z.to_nat n) by apply mem_bytes_length.
  assert (Hdn : len d = n) by (unfold len; lia).
  assert (Hdb : bytes d) by (apply mem_bytes_bytes, (m_mem HM)).
  assert (Hmr : message c = r ++ le_bytes 4 (CRC16 0xFFFF r) ++ tl).
  { rewrite Hm. unfold data_answer, sealed. by rewrite <-app_assoc. }
  unfold take_data. apply runs_bind. eapply (rsp_length_runs GetDataCmd seq d); [exact Hmr|lia|].
  apply runs_bind. eapply (rsp_fcs_runs GetDataCmd seq d _ tl); [by split|exact Hs|exact Hdb|exact Hm|].
  apply runs_bind. eapply (rsp_crc_runs GetDataCmd seq d); [exact Hmr|lia|].
  pose proof (crc16_range r ltac:(apply response_bytes; [by split|exact Hs|exact Hdb])) as Hcrc.
  fold r. replace (u16 (CRC16 0xFFFF r)) with (CRC16 0xFFFF r) by (unfold u16; by rewrite Z.mod_small).
  rewrite Z.eqb_refl. apply runs_bind.
  eapply runs_of_option; [apply rd_bytes_fits; unfold nRspHeaderCount; mlia|]. cbn beta.
  replace (slice nRspHeaderCount (length d) (message c)) with d.
  2: { rewrite Hmr. unfold r, response. rewrite <-!app_assoc.
       change (slice nRspHeaderCount (length d) _) with (take (length d) (d ++ le_bytes 4 (CRC16 65535 r) ++ tl)).
       by rewrite take_app_length. }
  unfold WriteData. apply runs_bind, runs_bind, runs_get, runs_bind, runs_call, runs_ret, runs_ret.
  rewrite Hd. split; [done|]. split; [cbn [hist talk]; by destruct (talk (hist w)) as [[? ?] ?]|].
  split; [cbn [hist saved]; by rewrite Z.eqb_refl, Hx|].
  rewrite Hdl, Z2Nat.id by lia. done.
Qed.

Lemma cell_turn_runs T c x (w : world) : 0 <= nReadLen c < T -> T < 2 ^ 32 -> nReadTime c = 0%nat -> buffers c ->
  0 < ReadLen c <= dwUsbMaxDataLen -> 0 <= ReadDataAddr c < 2 ^ 32 ->
  eigen_logfile_dump (loc w) = dfd -> file (hist w) = x -> idle (hist w) ->
  runs E (cell_turn T c) w (fun r w' => exists c', r = inl c' /\ loc w' = loc w /\ idle (hist w') /\
    file (hist w') = x ++ mem_bytes mem (ReadDataAddr c) (ReadLen c) /\ buffers c' /\ nReadTime c' = 0%nat /\
    nReadLen c' = u32 (nReadLen c + ReadLen c) /\ ReadDataAddr c' = u32 (ReadDataAddr c + ReadLen c) /\
    ReadLen c' = (let left := u32 (T - u32 (nReadLen c + ReadLen c)) in
                  if left <? dwUsbMaxDataLen then left else ReadLen c)).
Proof.
  intros Hr HT Ht [Hb Hml] Hn Ha Hd Hx Hi. unfold cell_turn.
  rewrite (proj2 (Z.ltb_lt (nReadLen c) T)), (proj2 (Z.ltb_lt 0 T)), Ht by lia.
  change (bool_decide (0 < MAX_RETRY_TIME / 2)%nat) with true. cbn [andb negb].
  unfold data_request. set (seq := u8 (uSeq c)).
  assert (Hseq : 0 <= seq < 256) by (apply Z.mod_pos_bound; lia).
  set (header := request_header GetDataCmd seq 8).
  set (cell := le_bytes 4 (ReadDataAddr c) ++ le_bytes 4 (ReadLen c)).
  apply runs_bind. eapply runs_mono; [by apply send_retry_runs|]. cbn beta.
  intros e w1 (-> & Hl1 & Hf1 & Ht1). rewrite asks_idle in Ht1 by done.
  apply runs_bind. eapply runs_mono; [by apply send_retry_runs|]. cbn beta.
  intros e w2 (-> & Hl2 & Hf2 & Ht2). rewrite (asks_more _ header) in Ht2 by done.
  apply runs_bind. eapply runs_mono; [by apply send_retry_runs|]. cbn beta.
  intros e w3 (-> & Hl3 & Hf3 & Ht3). rewrite (asks_more _ (header ++ cell)) in Ht3 by done.
  change ((header ++ cell) ++ _) with (data_req seq (ReadDataAddr c) (ReadLen c)) in Ht3.
  change (ok UE_OK) with true. cbn [negb].
  assert (Hl : loc w3 = loc w) by congruence. assert (Hf : file (hist w3) = x) by congruence.
  apply runs_bind.
  apply (runs_mono _ _ _ (fun r w' => loc w' = loc w3 /\ file (hist w') = file (hist w3) /\
    idle (hist w') /\ let '(nr', buf', m', e') := r in e' = UE_OK /\ (nr' <= 7)%nat /\
      length buf' = MSG_SIZE /\ length m' = MSG_SIZE /\
      exists tl, m' = data_answer seq (ReadDataAddr c) (ReadLen c) ++ tl)).
  - pose proof Hn as Hn2. unfold dwUsbMaxDataLen, MAX_CMD_DATALEN in Hn2.
    apply (runs_iterM E _ (fun '(i, nr, buf, m, e) w' => loc w' = loc w3 /\
        file (hist w') = file (hist w3) /\ arriving seq (ReadDataAddr c) (ReadLen c) i nr buf m e w')
      (fun '(i, _, _, _, _) w' => owing (ReadLen c) i w')).
    + intros [[[[i nr] buf] m] e] w4 (Hl4 & Hf4 & Har).
      eapply runs_mono; [by apply (data_turn_runs seq (ReadDataAddr c) (ReadLen c) i nr buf m e w3)|]. cbn beta.
      intros [[[[[i' nr'] buf'] m'] e']|[[[nr' buf'] m'] e']] w5 (Hl5 & Hf5 & H5).
      * destruct H5 as [Har5 Ho]. by split.
      * split_and!; try done; apply H5.
    + split; [done|]. split; [done|].
      exists [], (data_answer seq (ReadDataAddr c) (ReadLen c)), (message c), 0%nat.
      split_and!; try done; first [right; lia | lia].
    + unfold owing. rewrite Ht3. cbn [snd]. unfold u32. rewrite Z.mod_small by lia. lia.
  - intros [[[nr' buf'] m'] e'] w4 (Hl4 & Hf4 & Hi4 & -> & Hnr & Hbl & Hml4 & tl & Hm').
    change (ok UE_OK) with true. cbn [negb orb].
    rewrite bool_decide_false by (unfold MAX_RETRY_TIME; cbn; lia). apply runs_bind.
    set (c4 := set_field message _ _).
    eapply runs_mono.
    { apply (take_data_runs T seq (ReadDataAddr c) (ReadLen c) c4 tl x); try done; congruence. }
    cbn beta. intros c' w5 (Hl5 & Ht5 & Hf5 & Hb5 & Hrt5 & Hrl5 & Hra5 & Hln5). apply runs_ret.
    exists c'. split; [done|]. split; [congruence|]. split; [unfold idle; by rewrite Ht5|]. done.
Qed.

(** A cell is asked for in pieces of 10240 bytes; also the first piece of a
    smaller one is that large. *)
Definition dumped (n : Z) : Z := if n =? 0 then 0 else Z.max n dwUsbMaxDataLen.

Lemma get_cell_runs fuel T a fin x (w : world) : 30000 < Z.of_nat fuel -> 0 <= T <= 2 ^ 28 -> 0 <= a ->
  a + dumped T <= 2 ^ 32 -> eigen_logfile_dump (loc w) = dfd -> file (hist w) = x -> idle (hist w) ->
  runs E (GetDumpDataUsb fuel T a fin) w (fun e w' => e = Some UE_OK /\ loc w' = loc w /\
    file (hist w') = x ++ mem_bytes mem a (dumped T) /\ (fin = false -> idle (hist w'))).
Proof.
  intros Hfuel HT Ha Had Hd Hx Hi. unfold GetDumpDataUsb, dumped in *.
  apply runs_bind, runs_call. apply runs_bind.
  assert (Hi0 : forall u t, idle (Ev (Usleep u) t :: hist w)).
  { intros u t. unfold idle in *. cbn [talk]. by destruct (talk (hist w)) as [[? ?] ?]. }
  set (D := if T =? 0 then 0 else Z.max T dwUsbMaxDataLen) in *.
  assert (HD : T = 0 /\ D = 0 \/ 0 < T /\ D = Z.max T 10240).
  { unfold D. destruct (Z.eqb_spec T 0); [by left|right; split; [lia|done]]. }
  apply (runs_mono _ _ _ (fun c w' => loc w' = loc w /\ idle (hist w') /\ nReadTime c = 0%nat /\
    file (hist w') = x ++ mem_bytes mem a D)).
  - apply (runs_iterM E _ (fun c w' => loc w' = loc w /\ idle (hist w') /\ buffers c /\
        nReadTime c = 0%nat /\ 0 <= nReadLen c <= D /\ (T <= nReadLen c -> nReadLen c = D) /\
        (nReadLen c < T -> ReadLen c = Z.min 10240 (D - nReadLen c) /\ ReadDataAddr c = a + nReadLen c /\
                           (nReadLen c = 0 \/ 10240 <= T)) /\
        file (hist w') = x ++ mem_bytes mem a (nReadLen c))
      (fun c _ => Z.to_nat ((D - nReadLen c + 10239) / 10240))).
    + intros c w1 (Hl1 & Hi1 & Hb & Ht & Hr & Hend & Hrd & Hf1).
      destruct (Z.ltb_spec (nReadLen c) T) as [Hlt|Hge].
      * destruct (Hrd Hlt) as (Hn & Hra & Hfirst).
        assert (HDT : D = Z.max T 10240) by lia.
        eapply runs_mono.
        { apply (cell_turn_runs T c (x ++ mem_bytes mem a (nReadLen c))); try done; try lia.
          - unfold dwUsbMaxDataLen, MAX_CMD_DATALEN. lia.
          - by rewrite Hl1. }
        cbn beta. intros r w2 (c' & -> & Hl2 & Hi2 & Hf2 & Hb2 & Ht2 & Hr2 & Hra2 & Hn2).
        rewrite Hra, <-app_assoc, <-mem_bytes_app in Hf2 by lia.
        set (r' := nReadLen c + ReadLen c) in *.
        assert (Hr' : 0 <= r' <= D) by lia.
        unfold u32 in Hr2 at 1. rewrite Z.mod_small in Hr2 by lia.
        split; [|rewrite Hr2; unfold r'; Z.to_euclidean_division_equations; lia].
        split; [congruence|]. split; [done|]. split; [done|]. split; [done|].
        rewrite Hr2. split; [done|]. split; [lia|]. split; [|done].
        intros Hlt'. rewrite Hra2, Hn2, Hra.
        replace (u32 r') with r' by (unfold u32; rewrite Z.mod_small; lia).
        unfold u32. rewrite !Z.mod_small by lia. cbn zeta.
        unfold dwUsbMaxDataLen, MAX_CMD_DATALEN. change (512 * 20) with 10240.
        destruct (Z.ltb_spec (T - r') 10240); lia.
      * unfold cell_turn. rewrite (proj2 (Z.ltb_ge (nReadLen c) T)) by lia. cbn [andb negb].
        apply runs_ret. rewrite Hend in Hf1 by lia. done.
    + cbn [loc hist]. split; [done|]. split; [apply Hi0|].
      split; [split; apply length_replicate|]. split; [done|]. cbn [nReadLen ReadLen ReadDataAddr].
      split; [lia|]. split; [lia|]. split; [|by rewrite app_nil_r].
      intros Hpos. change dwUsbMaxDataLen with 10240. lia.
    + cbn [nReadLen]. Z.to_euclidean_division_equations; lia.
  - intros c w1 (Hl1 & Hi1 & Ht1 & Hf1). rewrite Ht1.
    rewrite bool_decide_false by (unfold MAX_RETRY_TIME; cbn; lia).
    destruct fin; [|by apply runs_ret]. unfold send_finish. apply runs_bind, runs_bind.
    eapply runs_mono; [by apply send_retry_runs|]. cbn beta. intros e w2 (-> & Hl2 & Hf2 & _).
    eapply runs_mono; [by apply send_retry_runs|]. cbn beta. intros e w3 (-> & Hl3 & Hf3 & _).
    apply runs_ret. split; [done|]. split; [congruence|]. split; [congruence|done].
Qed.

Lemma padding_runs n x (w : world) : eigen_logfile_dump (loc w) = dfd -> file (hist w) = x ->
  runs E (PaddingDumpFile n) w (fun _ w' => loc w' = loc w /\ talk (hist w') = talk (hist w) /\
    file (hist w') = x ++ replicate (Z.to_nat n) 0).
Proof.
  intros Hd Hx. unfold PaddingDumpFile.
  apply (runs_iterM E _ (fun m w' => loc w' = loc w /\ talk (hist w') = talk (hist w) /\ m <= n /\
      (0 < n -> 0 <= m) /\ file (hist w') = x ++ replicate (Z.to_nat n - Z.to_nat m) 0)
    (fun m _ => Z.to_nat ((m + 511) / 512))).
  - intros m w1 (Hl1 & Ht1 & Hm & Hm0 & Hf1).
    assert (Hw : forall k, 0 <= k <= m -> 0 < m -> runs E (WriteData (replicate (Z.to_nat k) 0)) w1 (fun _ w' =>
      loc w' = loc w1 /\ talk (hist w') = talk (hist w1) /\
      file (hist w') = x ++ replicate (Z.to_nat n - Z.to_nat (m - k)) 0)).
    { intros k Hk Hpos. unfold WriteData. apply runs_bind, runs_get, runs_bind, runs_call, runs_ret.
      split; [done|]. split; [cbn [hist talk]; by destruct (talk (hist w1)) as [[? ?] ?]|].
      cbn [hist saved]. rewrite Hl1, Hd, Z.eqb_refl, Hf1, <-app_assoc, <-replicate_add. do 2 f_equal. lia. }
    destruct (Z.ltb_spec 0 m) as [Hpos|Hneg]; cbn [negb].
    + unfold MAX_CMD_DATALEN. destruct (Z.ltb_spec 512 m) as [Hbig|Hsm].
      * apply runs_bind. change (replicate 512 0) with (replicate (Z.to_nat 512) 0).
        eapply runs_mono; [apply (Hw 512); lia|]. cbn beta. intros _ w2 (Hl2 & Ht2 & Hf2). apply runs_ret.
        split; [|Z.to_euclidean_division_equations; lia].
        split; [congruence|]. split; [congruence|]. split; [lia|]. split; [lia|done].
      * apply runs_bind. eapply runs_mono; [apply (Hw m); lia|]. cbn beta.
        intros _ w2 (Hl2 & Ht2 & Hf2). apply runs_ret.
        split; [|Z.to_euclidean_division_equations; lia].
        split; [congruence|]. split; [congruence|]. split; [lia|]. split; [lia|].
        by rewrite Z.sub_diag in Hf2.
    + apply runs_ret. split; [done|]. split; [done|]. rewrite Hf1. do 2 f_equal. lia.
  - split; [done|]. split; [done|]. split; [lia|]. split; [lia|].
    by rewrite Nat.sub_diag, app_nil_r.
  - lia.
Qed.

(** *** The handshake *)

Lemma is_prefix_app p s z : is_prefix p s = true -> is_prefix p (s ++ z) = true.
Proof.
  revert s. induction p as [|a p IH]; intros s H; [done|]. destruct s as [|b s]; [done|].
  cbn in *. apply andb_true_iff in H. destruct H as [-> H]. by apply IH.
Qed.

Lemma strstr_app s p z : strstr s p = true -> strstr (s ++ z) p = true.
Proof.
  induction s as [|b s IH]; cbn [strstr app]; intros H; apply orb_true_iff in H.
  - destruct H as [H|H]; [|done]. apply (is_prefix_app _ _ z) in H. cbn [app] in H.
    destruct z; cbn [strstr]; by rewrite H.
  - apply orb_true_iff. destruct H as [H|H]; [left|right; by apply IH].
    by apply (is_prefix_app _ (b :: s) z).
Qed.

Lemma cstr_app l y : exists z, cstr (l ++ y) = cstr l ++ z.
Proof.
  induction l as [|b l [z IH]]; cbn [cstr app]; [by eexists|].
  destruct (b =? 0); [by exists []|]. exists z. by rewrite IH.
Qed.

(** A buffer with a NUL behind the place of a greeting. *)
Definition ended (buf : list Z) : Prop := length buf = MSG_SIZE /\ has_nul (drop 1000 buf) = true.

Lemma has_nul_drop n l : has_nul (drop n l) = true -> has_nul l = true.
Proof.
  revert l. induction n as [|n IH]; intros l H; [done|]. destruct l as [|b l]; [done|].
  cbn in *. apply orb_true_iff. right. by apply IH.
Qed.

Lemma has_nul_zeros n : (0 < n)%nat -> has_nul (replicate n 0) = true.
Proof. destruct n; [lia|done]. Qed.

Lemma zeros_ended : ended zeros.
Proof.
  split; [apply length_replicate|]. unfold zeros. rewrite drop_replicate.
  apply has_nul_zeros. mlia.
Qed.

Lemma wait_greeting_runs buf l t (w : world) :
  E _ (hist w) (PollRead (eigen_dump_fd (loc w)) 65535 t) = Some l -> greeting l -> ended buf ->
  runs E (WaitRamDumpAckAndData HANDSHAKE_READY buf t) w (fun r w' => exists buf',
    r = (UE_OK, buf', 0%nat) /\ ended buf' /\ loc w' = loc w /\ file (hist w') = file (hist w) /\
    hist w' = Ev (PollRead (eigen_dump_fd (loc w)) 65535 t) (Some l) :: hist w).
Proof.
  intros Hr [Hl Hg] [Hb Hn]. unfold WaitRamDumpAckAndData. apply runs_bind, runs_get, runs_bind, runs_call.
  rewrite Hr. assert (length l <> 0)%nat by lia. destruct l as [|x l]; [done|].
  rewrite take_ge by mlia. set (g := x :: l) in *. apply runs_bind.
  eapply runs_of_option; [apply wr_fits; mlia|]. cbn beta. rewrite put0.
  assert (He : ended (g ++ drop (length g) buf)).
  { split; [rewrite length_app, length_drop; mlia|].
    rewrite drop_app_ge, drop_drop by lia. by replace (length g + (1000 - length g))%nat with 1000%nat by lia. }
  apply runs_bind. eapply runs_of_option.
  { unfold c_string. rewrite drop_0. by rewrite (has_nul_drop _ _ (proj2 He)). }
  cbn beta. destruct (cstr_app g (drop (length g) buf)) as [z ->].
  rewrite strstr_app by done. apply runs_ret. by eexists.
Qed.

Lemma greet_send_runs id cmd b (w : world) :
  (id, cmd, b) = (RESPONSE_ASSERT, str "okokok", hello1) \/
  (id, cmd, b) = (HANDSHAKE_READY, str "DUMPDUMP" ++ [0], hello2) ->
  runs E (SendRamDumpAck id cmd) w (fun e w' => e = UE_OK /\ loc w' = loc w /\
    exists f n, hist w' = Ev (PollWrite f b 1000) n :: hist w).
Proof.
  intros H. unfold SendRamDumpAck, SendCommand. apply runs_bind, runs_get, runs_bind.
  apply (runs_mono _ _ _ (fun x w' => x = b /\ w' = w)).
  { destruct H as [[= -> -> ->]|[= -> -> ->]]; by apply runs_ret. }
  intros x w' [-> ->]. apply runs_bind, runs_call, runs_ret.
  pose proof (m_write HM (hist w) (eigen_dump_fd (loc w)) b 1000) as Hw.
  rewrite (proj2 (Z.ltb_lt 0 _) Hw). split; [done|]. split; [done|]. by eexists _, _.
Qed.

Lemma handshake_runs id cmd b clean t buf e (w : world) :
  (id, cmd, b) = (RESPONSE_ASSERT, str "okokok", hello1) \/
  (id, cmd, b) = (HANDSHAKE_READY, str "DUMPDUMP" ++ [0], hello2) ->
  writes b (hist w) = 0%nat -> ended buf ->
  runs E (iterM 33 (sync_turn id cmd clean t) (0%nat, buf, e)) w (fun r w' =>
    r.2 = UE_OK /\ ended r.1 /\ loc w' = loc w /\ file (hist w') = file (hist w) /\ idle (hist w') /\
    forall b', b' <> b -> writes b' (hist w') = writes b' (hist w)).
Proof.
  intros Hid Hw Hbuf.
  apply (runs_iterM E _ (fun '(n, buf, _) w' => (n <= 30)%nat /\ ended buf /\ loc w' = loc w /\
      file (hist w') = file (hist w) /\ writes b (hist w') = n /\
      forall b', b' <> b -> writes b' (hist w') = writes b' (hist w))
    (fun '(n, _, _) _ => (31 - n)%nat)).
  - intros [[n buf1] e1] w1 (Hn & He & Hl1 & Hf1 & Hn1 & Ho1). unfold sync_turn.
    rewrite bool_decide_false by (unfold MAX_RETRY_TIME; lia). apply runs_bind.
    eapply runs_mono; [by apply (greet_send_runs id cmd b)|]. cbn beta.
    intros e2 w2 (-> & Hl2 & f & k & Hh2). change (ok UE_OK) with true. cbn [negb]. apply runs_bind.
    assert (Hf2 : file (hist w2) = file (hist w1)) by (by rewrite Hh2).
    assert (Hn2 : writes b (hist w2) = S n).
    { rewrite Hh2. cbn [writes]. rewrite bool_decide_true by done. by rewrite Hn1. }
    assert (Ho2 : forall b', b' <> b -> writes b' (hist w2) = writes b' (hist w)).
    { intros b' Hb'. rewrite Hh2. cbn [writes]. rewrite bool_decide_false by done. by apply Ho1. }
    assert (Hlast : last_write (hist w2) = b) by (by rewrite Hh2).
    assert (Hb : ended (if clean then zeros else buf1)) by (destruct clean; [apply zeros_ended|done]).
    destruct (m_hello HM (hist w2) (eigen_dump_fd (loc w2)) 65535 t) as [(l & Hr & Hg)|[Hle Hs]].
    { rewrite Hlast. destruct Hid as [[= _ _ ->]|[= _ _ ->]]; [by left|by right]. }
    + eapply runs_mono; [by apply (wait_greeting_runs _ l)|]. cbn beta.
      intros r w3 (buf' & -> & He' & Hl3 & Hf3 & Hh3). cbn iota. apply runs_ret.
      change (ok UE_OK) with true. cbn iota. split; [done|]. split; [exact He'|].
      split; [congruence|]. split; [congruence|]. rewrite Hh3.
      split; [unfold idle; cbn [talk]; by destruct (talk (hist w2)) as [[? ?] ?]|]. exact Ho2.
    + rewrite Hlast, Hn2 in Hle. eapply runs_mono; [by apply wait_silent_runs|]. cbn beta.
      intros r w3 (-> & Hl3 & Hf3 & a & _ & Hh3). cbn iota. apply runs_ret.
      change (ok UE_TIMEOUT_ERR) with false. cbn iota. split; [|lia].
      split; [done|]. split; [exact Hb|]. split; [congruence|]. split; [congruence|]. rewrite Hh3. by split.
  - split; [lia|]. split; [exact Hbuf|]. done.
  - lia.
Qed.

Lemma wait_tty_runs f (w : world) : runs E (wait_tty_echo_not_busy f) w (fun r w' => r = true /\ loc w' = loc w /\
  file (hist w') = file (hist w) /\ forall b, writes b (hist w') = writes b (hist w)).
Proof.
  unfold wait_tty_echo_not_busy. apply runs_bind.
  apply (runs_mono _ _ _ (fun r w' => r = 1 /\ loc w' = loc w /\ file (hist w') = file (hist w) /\
    forall b, writes b (hist w') = writes b (hist w))).
  - apply (runs_iterM E _ (fun '(n, r) w' => 0 <= n <= 10 /\ (n = 0 \/ r = 1) /\ loc w' = loc w /\
        file (hist w') = file (hist w) /\ forall b, writes b (hist w') = writes b (hist w))
      (fun '(n, _) _ => Z.to_nat (10 - n))).
    + intros [n r] w1 (Hn & Hr & Hl1 & Hf1 & Hw1). destruct (Z.ltb_spec n 10); cbn [negb].
      * apply runs_bind, runs_call. rewrite (m_idle HM). change (1 <? 0) with false. cbn iota.
        apply runs_bind, runs_call, runs_ret. split; [|lia]. split; [lia|]. split; [by right|]. done.
      * apply runs_ret. split; [lia|]. done.
    + split; [lia|]. split; [by left|]. done.
    + lia.
  - intros r w1 (-> & H). by apply runs_ret.
Qed.

Lemma sync_runs (w : world) : writes hello1 (hist w) = 0%nat -> writes hello2 (hist w) = 0%nat ->
  runs E SyncStart w (fun r w' => r = Some UE_OK /\ loc w' = loc w /\ file (hist w') = file (hist w) /\
    idle (hist w')).
Proof.
  intros H1 H2. unfold SyncStart. apply runs_bind, runs_get, runs_bind.
  eapply runs_mono; [apply wait_tty_runs|]. cbn beta. intros r w1 (-> & Hl1 & Hf1 & Hw1). cbn [negb].
  apply runs_bind, runs_call, runs_bind, runs_call, runs_bind, runs_call, runs_bind.
  eapply runs_mono.
  { apply (handshake_runs RESPONSE_ASSERT (str "okokok") hello1); [by left| |apply zeros_ended].
    cbn [hist writes]. by rewrite Hw1. }
  cbn beta. intros [buf e] w2 (He & Hb & Hl2 & Hf2 & _ & Ho). cbn [fst snd] in *. subst e. cbn iota.
  change (ok UE_OK) with true. cbn [negb]. apply runs_bind, runs_call, runs_bind. eapply runs_mono.
  { apply (handshake_runs HANDSHAKE_READY (str "DUMPDUMP" ++ [0]) hello2); [by right| |exact Hb].
    cbn [hist writes]. rewrite Ho by done. cbn [hist writes]. by rewrite Hw1. }
  cbn beta. intros [buf' e] w3 (He & _ & Hl3 & Hf3 & Hi3 & _). cbn [fst snd loc hist saved] in *.
  subst e. apply runs_ret. split; [done|]. split; [congruence|]. split; [congruence|done].
Qed.

(** *** The table of cells *)

Definition cell_ok (c : Z * Z) : Prop := 0 <= c.1 < 2 ^ 32 /\ 0 <= c.2 <= 2 ^ 28 /\ c.1 + dumped c.2 <= 2 ^ 32.
Context (Hcells : Forall cell_ok cells) (Hcount : (length cells <= 100)%nat).

Lemma cells_length : length (concat (map cell_bytes cells)) = (8 * length cells)%nat.
Proof.
  clear. induction cells as [|c l IH]; [done|]. cbn [map concat]. rewrite length_app, IH.
  unfold cell_bytes. rewrite length_app, !length_le_bytes. cbn [length]. lia.
Qed.

Lemma cells_bytes : bytes (concat (map cell_bytes cells)).
Proof.
  clear. induction cells as [|c l IH]; [constructor|]. cbn [map concat].
  apply Forall_app_2; [|exact IH]. unfold cell_bytes. apply Forall_app_2; apply le_bytes_bytes.
Qed.

Lemma cell_slice i c y : cells !! i = Some c ->
  slice (i * 8) 8 (concat (map cell_bytes cells) ++ y) = cell_bytes c.
Proof.
  clear. revert i. induction cells as [|c' l IH]; intros i Hi; [done|]. cbn [map concat].
  assert (Hl : length (cell_bytes c') = 8%nat)
    by (unfold cell_bytes; rewrite length_app, !length_le_bytes; done).
  rewrite <-app_assoc. destruct i as [|i]; cbn [lookup list_lookup] in Hi.
  - injection Hi as ->. unfold slice. rewrite drop_0, <-Hl. apply take_app_length.
  - rewrite slice_app_r by lia. rewrite Hl.
    replace (S i * 8 - 8)%nat with (i * 8)%nat by lia. by apply IH.
Qed.

Abbreviation info_response := (response GetInfoCmd 0 (concat (map cell_bytes cells))).

Lemma info_answer_length : length (info_answer cells) = (12 + 8 * length cells)%nat.
Proof. unfold info_answer. rewrite sealed_length, response_length, cells_length. lia. Qed.

Lemma wait_info_runs t (w : world) :
  E _ (hist w) (PollRead (eigen_dump_fd (loc w)) 65535 t) = Some (info_answer cells) ->
  runs E (WaitRamDumpAckAndData SendRspGetInfo zeros t) w (fun r w' =>
    r = (UE_OK, put 0 (info_answer cells) zeros, length (info_answer cells)) /\ loc w' = loc w /\
    hist w' = Ev (PollRead (eigen_dump_fd (loc w)) 65535 t) (Some (info_answer cells)) :: hist w).
Proof.
  intros Hr. unfold WaitRamDumpAckAndData. apply runs_bind, runs_get, runs_bind, runs_call.
  rewrite Hr. pose proof info_answer_length as Hl.
  assert (Hz : length zeros = MSG_SIZE) by apply length_replicate.
  destruct (info_answer cells) as [|x l] eqn:Ha; [cbn [length] in Hl; lia|]. rewrite <-Ha in *.
  rewrite take_ge by mlia. apply runs_bind. eapply runs_of_option; [apply wr_fits; mlia|]. cbn beta.
  rewrite put0. apply runs_bind. apply (runs_of_option _ _ [GetInfoCmd]).
  { unfold info_answer, sealed, response. rewrite <-!app_assoc. reflexivity. }
  change (strstr [GetInfoCmd] (str "DUMP")) with false. cbn iota. apply runs_ret.
  split; [reflexivity|]. split; reflexivity.
Qed.

Lemma get_info_runs (w : world) : idle (hist w) ->
  runs E (iterM 33 get_info_turn (0%nat, zeros, zeros)) w (fun r w' => loc w' = loc w /\
    file (hist w') = file (hist w) /\ idle (hist w') /\
    exists tl, r = Some (info_answer cells ++ tl) /\ length (info_answer cells ++ tl) = MSG_SIZE).
Proof.
  intros Hi. change 33%nat with (S 32). cbn [iterM]. apply runs_bind. unfold get_info_turn at 1.
  change (bool_decide (MAX_RETRY_TIME <= 0)%nat) with false. cbn iota.
  apply runs_bind, runs_call, runs_bind.
  set (w0 := World (loc w) _).
  assert (Hi0 : idle (hist w0)).
  { unfold idle, w0 in *. cbn [hist talk]. by destruct (talk (hist w)) as [[? ?] ?]. }
  set (data := request_header GetInfoCmd 0 0).
  eapply runs_mono; [by apply request_ack_runs|]. cbn beta. intros e w1 (-> & Hl1 & f1 & Hh1).
  change (ok UE_OK) with true. cbn [negb]. apply runs_bind.
  eapply runs_mono; [by apply request_ack_runs|]. cbn beta. intros e w2 (-> & Hl2 & f2 & Hh2).
  change (ok UE_OK) with true. cbn [negb].
  assert (Ht2 : talk (hist w2) = (info_request, [], 0%nat)).
  { rewrite Hh2. cbn [talk]. rewrite Hh1. cbn [talk]. unfold idle in Hi0.
    destruct (talk (hist w0)) as [[r g] [|k]]; [done|]. done. }
  assert (Hf2 : file (hist w2) = file (hist w)) by (by rewrite Hh2; cbn [saved]; rewrite Hh1).
  assert (Hl : loc w2 = loc w) by (by rewrite Hl2, Hl1).
  assert (Hal : length (info_answer cells) = (12 + 8 * length cells)%nat) by apply info_answer_length.
  assert (Hlen : len (concat (map cell_bytes cells)) = 8 * Z.of_nat (length cells))
    by (unfold len; rewrite cells_length; lia).
  assert (Hz : length zeros = MSG_SIZE) by apply length_replicate.
  apply runs_bind.
  apply (runs_mono _ _ _ (fun r w' => loc w' = loc w /\ file (hist w') = file (hist w) /\ idle (hist w') /\
    r.2 = UE_OK /\ exists tl, r.1.2 = info_answer cells ++ tl /\ length (info_answer cells ++ tl) = MSG_SIZE)).
  { apply (runs_iterM E _ (fun '(n, i, buf, m, _) w' => loc w' = loc w /\ file (hist w') = file (hist w) /\
        talk (hist w') = (info_request, [], n) /\ (n <= 8)%nat /\ i = 0%nat /\ buf = zeros /\ m = zeros)
      (fun '(n, _, _, _, _) _ => (9 - n)%nat)).
    - intros [[[[n i] buf] m] e] w3 (Hl3 & Hf3 & Ht3 & Hn & -> & -> & ->). unfold info_turn.
      rewrite bool_decide_false by (unfold MAX_RETRY_TIME; lia). apply runs_bind.
      destruct (m_info HM (hist w3) (eigen_dump_fd (loc w3)) 65535 500 n Ht3) as [Hr|[Hn8 Hs]].
      + eapply runs_mono; [by apply wait_info_runs|]. cbn beta. intros r w4 (-> & Hl4 & Hh4). cbn iota.
        change (ok UE_OK) with true. cbn [negb]. unfold collect. apply runs_bind, runs_bind.
        eapply runs_of_option; [apply rd_bytes_fits; rewrite length_put; mlia|]. cbn beta.
        rewrite slice_put0, slice_all by lia. eapply runs_of_option; [apply wr_fits; mlia|]. cbn beta.
        rewrite put0. set (tl := drop _ zeros). apply runs_bind.
        eapply (rsp_length_runs GetInfoCmd 0 (concat (map cell_bytes cells))); [|lia|].
        { unfold info_answer, sealed. by rewrite <-app_assoc. }
        rewrite cells_length, Hal. unfold nRspHeaderCount.
        replace (s32 _) with (8 * Z.of_nat (length cells)) by (unfold s32; rewrite Z.mod_small; lia).
        rewrite (proj2 (Z.ltb_ge _ _)) by lia. apply runs_ret. rewrite Hh4.
        split; [congruence|]. split; [done|].
        split; [unfold idle; cbn [talk]; by rewrite Ht3|]. split; [done|]. exists tl. split; [done|].
        unfold tl. rewrite length_app, length_drop. mlia.
      + eapply runs_mono; [by apply wait_silent_runs|]. cbn beta.
        intros r w4 (-> & Hl4 & Hf4 & a & Ha & Hh4). cbn iota. change (ok UE_TIMEOUT_ERR) with false.
        cbn [negb]. apply runs_ret. split; [|lia]. split; [congruence|]. split; [congruence|].
        split; [|split; [lia|split; [reflexivity|split; reflexivity]]]. rewrite Hh4. cbn [talk]. rewrite Ht3.
        by destruct Ha as [->| ->].
    - split; [exact Hl|]. split; [exact Hf2|]. split; [exact Ht2|]. split; [lia|].
      split; [reflexivity|]. split; reflexivity.
    - lia. }
  intros [[buf m] e] w3 (Hl3 & Hf3 & Hi3 & He & tl & Hm & Hml). cbn [fst snd] in *. subst e m.
  change (ok UE_OK) with true. cbn [negb].
  assert (Hm : info_answer cells ++ tl = info_response ++ le_bytes 4 (CRC16 0xFFFF info_response) ++ tl).
  { unfold info_answer, sealed. by rewrite <-app_assoc. }
  apply runs_bind. eapply rsp_length_runs; [exact Hm|lia|].
  apply runs_bind. eapply rsp_crc_runs; [exact Hm|lia|].
  apply runs_bind. eapply (rsp_fcs_runs GetInfoCmd 0 _ _ tl); [by split|by split|apply cells_bytes|done|].
  rewrite Z.eqb_refl. apply runs_ret, runs_ret. split; [done|]. split; [done|]. split; [done|].
  exists tl. split; [reflexivity|exact Hml].
Qed.

(** *** The dump *)

(** The cells one behind the other, zeros between them. *)
Fixpoint image (cells : list (Z * Z)) : list Z :=
  match cells with
  | [] => []
  | (a, n) :: rest =>
      mem_bytes mem a (dumped n) ++
      match rest with
      | [] => []
      | (a', _) :: _ => replicate (Z.to_nat (s32 (a' - (n + a)))) 0 ++ image rest
      end
  end.

(** The table that the answer leaves. *)
Definition filled (s : es) : Prop := RDReqCell_count s = Z.of_nat (length cells) /\
  take (length cells) (RDReqCell s) = cells /\ eigen_logfile_dump s = dfd.

Lemma filled_lookup s i c : filled s -> cells !! i = Some c -> RDReqCell s !! i = Some c.
Proof.
  intros (_ & Ht & _) Hi. rewrite <-Ht in Hi. rewrite lookup_take_lt in Hi; [done|].
  apply lookup_lt_Some in Hi. rewrite Ht in Hi. exact Hi.
Qed.

Lemma store_cells_runs tl (w : world) : length (info_answer cells ++ tl) = MSG_SIZE ->
  length (RDReqCell (loc w)) = 100%nat -> RDReqCell_count (loc w) = 0 ->
  runs E (forM (seq 0 (length cells)) (store_cell (info_answer cells ++ tl))) w (fun _ w' =>
    hist w' = hist w /\ RDReqCell_count (loc w') = Z.of_nat (length cells) /\
    take (length cells) (RDReqCell (loc w')) = cells).
Proof.
  intros Hml Hlen Hc.
  eapply runs_mono.
  { apply (runs_forM E _ _ (fun pre w' => hist w' = hist w /\ length (RDReqCell (loc w')) = 100%nat /\
      RDReqCell_count (loc w') = Z.of_nat (length pre) /\
      take (length pre) (RDReqCell (loc w')) = take (length pre) cells)).
    - done.
    - intros pre i rest w1 Hseq (Hh1 & Hl1 & Hc1 & Ht1).
      assert (Hi : i = length pre /\ (i < length cells)%nat).
      { assert (Hlk : seq 0 (length cells) !! length pre = Some i)
          by (rewrite Hseq, lookup_app_r, Nat.sub_diag by lia; done).
        apply lookup_seq in Hlk. lia. }
      destruct Hi as [-> Hi]. destruct (lookup_lt_is_Some_2 cells (length pre) Hi) as [c Hci].
      assert (Hok : cell_ok c) by (by eapply Forall_lookup_1).
      destruct c as [a n]. destruct Hok as (Ha & Hn & Hd). cbn [fst snd] in *.
      unfold store_cell. apply runs_bind.
      eapply runs_of_option.
      { apply rd_bytes_fits. rewrite Hml, <-Hml, length_app, info_answer_length.
        unfold nRspHeaderCount. lia. }
      cbn beta. replace (slice _ 8 _) with (cell_bytes (a, n)).
      2: { unfold info_answer, sealed, response. rewrite <-!app_assoc.
           rewrite (slice_app_r _ 8 [GetInfoCmd; 0; DUMP_CID; N_DUMP_CID; 0; 0])
             by (unfold nRspHeaderCount; cbn [length]; lia).
           rewrite (slice_app_r _ 8 (le_bytes 2 _)) by (rewrite length_le_bytes; unfold nRspHeaderCount; cbn [length]; lia).
           rewrite length_le_bytes. unfold nRspHeaderCount. cbn [length].
           replace (8 + length pre * 8 - 6 - 2)%nat with (length pre * 8)%nat by lia.
           by rewrite (cell_slice _ (a, n)). }
      apply runs_bind, runs_get. rewrite bool_decide_true by lia. apply runs_modify.
      cbn [loc hist]. split; [exact Hh1|]. rewrite !length_app. cbn [length].
      change (RDReqCell (_ <| RDReqCell ::= ?f |> <| RDReqCell_count ::= _ |>)) with (f (RDReqCell (loc w1))).
      change (RDReqCell_count (_ <| RDReqCell ::= _ |> <| RDReqCell_count ::= ?g |>))
        with (g (RDReqCell_count (loc w1))).
      cbn beta. split; [by rewrite length_insert|].
      split; [rewrite Hc1; unfold s32; rewrite Z.mod_small; lia|].
      assert (Hcell : (get_le 0 4 (cell_bytes (a, n)), get_le 4 4 (cell_bytes (a, n))) = (a, n)).
      { change (get_le 0 4 _) with (le_val (le_bytes 4 a)). change (get_le 4 4 _) with (le_val (le_bytes 4 n)).
        rewrite !le_val_bytes. f_equal; apply Z.mod_small; lia. }
      rewrite Hcell, Nat.add_1_r, (take_S_r cells _ (a, n)), <-Ht1 by done.
      rewrite (take_S_r _ _ (a, n)) by (rewrite list_lookup_insert_eq; [done|lia]).
      by rewrite take_insert_ge by lia. }
  cbn beta. intros _ w1 (Hh1 & _ & Hc1 & Ht1). rewrite length_seq in *.
  split; [done|]. split; [done|]. by rewrite Ht1, firstn_all.
Qed.

Lemma dump_turn_runs fuel pre c rest y (w : world) : 30000 < Z.of_nat fuel -> cells = pre ++ c :: rest ->
  filled (loc w) -> idle (hist w) -> file (hist w) = y ->
  runs E (dump_turn fuel (Z.of_nat (length pre))) w (fun r w' => r = inl (Z.of_nat (S (length pre))) /\
    filled (loc w') /\ (rest <> [] -> idle (hist w')) /\ file (hist w') ++ image rest = y ++ image (c :: rest)).
Proof.
  intros Hfuel Hpre Hs Hi Hy. destruct c as [a n].
  assert (Hci : cells !! length pre = Some (a, n)) by (by rewrite Hpre, lookup_app_r, Nat.sub_diag by lia).
  assert (Hok : cell_ok (a, n)) by (by eapply Forall_lookup_1).
  destruct Hok as (Ha & Hn & Hd). cbn [fst snd] in *.
  assert (Hcl : (length cells = length pre + S (length rest))%nat) by (rewrite Hpre, length_app; done).
  unfold dump_turn. apply runs_bind, runs_get.
  rewrite (proj1 Hs), (proj2 (Z.ltb_lt _ _)) by lia. cbn [negb]. apply runs_bind. unfold cell at 1.
  apply runs_bind, runs_get. eapply runs_of_option; [rewrite Nat2Z.id; by apply filled_lookup|]. cbn beta iota.
  apply runs_bind. eapply runs_mono.
  { apply (get_cell_runs fuel n a _ y); try done; [lia|by apply Hs]. }
  cbn beta. intros e w1 (-> & Hl1 & Hf1 & Hi1). change (ok UE_OK) with true. cbn [negb].
  destruct rest as [|[a' n'] rest].
  - rewrite (proj2 (Z.ltb_ge (Z.of_nat (length pre) + 1) _)) by (cbn [length] in Hcl; lia).
    apply runs_bind, runs_ret, runs_ret.
    split; [f_equal; lia|]. split; [by rewrite Hl1|]. split; [done|]. cbn [image]. by rewrite Hf1, !app_nil_r.
  - cbn [length] in Hcl. rewrite (proj2 (Z.ltb_lt (Z.of_nat (length pre) + 1) _)) by lia.
    rewrite (proj2 (Z.eqb_neq _ _)) in Hi1 by lia.
    assert (Hci' : cells !! S (length pre) = Some (a', n')).
    { rewrite Hpre, lookup_app_r by lia. by replace (S (length pre) - length pre)%nat with 1%nat by lia. }
    apply runs_bind, runs_bind. unfold cell. apply runs_bind, runs_get.
    eapply runs_of_option.
    { rewrite Hl1. apply filled_lookup; [done|].
      by replace (Z.to_nat (Z.of_nat (length pre) + 1)) with (S (length pre)) by lia. }
    cbn beta iota. eapply runs_mono; [by apply padding_runs; [rewrite Hl1; apply Hs|exact Hf1]|]. cbn beta.
    intros _ w2 (Hl2 & Ht2 & Hf2). apply runs_ret.
    split; [f_equal; lia|]. split; [by rewrite Hl2, Hl1|].
    split; [intros _; unfold idle; rewrite Ht2; by apply Hi1|].
    rewrite Hf2. cbn [image]. by rewrite <-!app_assoc.
Qed.

(** Behind every cell but the last the next one begins, and the cell is none
    of those to which the first request gives more than they have. *)
Fixpoint in_order (l : list (Z * Z)) : Prop :=
  match l with
  | (a, n) :: (((a', _) :: _) as rest) => dumped n = n /\ 0 <= a' - (n + a) < 2 ^ 31 /\ in_order rest
  | _ => True
  end.

Lemma in_order_from l : forall a n b m, Forall cell_ok ((a, n) :: l) -> in_order ((a, n) :: l) -> (b, m) ∈ l -> a <= b.
Proof.
  clear HM Hcells Hcount. induction l as [|[a' n'] l IH]; intros a n b m Hc Ho Hin; [by apply elem_of_nil in Hin|].
  apply Forall_cons in Hc as [[_ [H1 _]] Hc]. destruct Ho as (_ & H2 & Ho). cbn in H1.
  apply elem_of_cons in Hin as [[= -> ->]|Hin]; [lia|]. specialize (IH _ _ _ _ Hc Ho Hin). lia.
Qed.

Lemma dumped_more n : 0 <= n -> n <= dumped n.
Proof. clear HM Hcells Hcount. unfold dumped. destruct (Z.eqb_spec n 0); lia. Qed.

(** Then the file is the memory from the first cell on, place by place. *)
Lemma image_places l : forall a n b m, Forall cell_ok ((a, n) :: l) -> in_order ((a, n) :: l) ->
  (b, m) ∈ (a, n) :: l -> slice (Z.to_nat (b - a)) (Z.to_nat m) (image ((a, n) :: l)) = mem_bytes mem b m.
Proof.
  clear HM Hcells Hcount. induction l as [|[a' n'] l IH]; intros a n b m Hc Ho Hin; pose proof Hc as Hc'; apply Forall_cons in Hc as [[_ [H1 _]] Hc]; cbn [fst snd] in H1.
  - apply list_elem_of_singleton in Hin as [= -> ->]. rewrite Z.sub_diag. cbn [image]. rewrite app_nil_r.
    unfold slice. rewrite drop_0. pose proof (dumped_more n ltac:(lia)) as Hm.
    replace (dumped n) with (n + (dumped n - n)) by lia. rewrite mem_bytes_app by lia. apply take_app_length'. symmetry. apply mem_bytes_length.
  - destruct Ho as (Hd & Hg & Ho). pose proof (in_order_from ((a', n') :: l) a n b m Hc' ltac:(by cbn)) as Hb.
    cbn [image]. rewrite Hd. apply elem_of_cons in Hin as [[= -> ->]|Hin].
    + rewrite Z.sub_diag. unfold slice. rewrite drop_0. apply take_app_length'. symmetry. apply mem_bytes_length.
    + assert (Hb' : a' <= b).
      { apply elem_of_cons in Hin as [[= -> ->]|Hin]; [lia|]. exact (in_order_from l a' n' b m Hc Ho Hin). }
      rewrite app_assoc. change (fix image (cells : list (Z * Z)) : list Z := _) with image.
      assert (Hs : s32 (a' - (n + a)) = a' - (n + a)) by (unfold s32; rewrite Z.mod_small; lia). rewrite Hs.
      rewrite <-(IH a' n' b m Hc Ho Hin). unfold slice. f_equal.
      replace (Z.to_nat (b - a)) with (length (mem_bytes mem a n ++ replicate (Z.to_nat (a' - (n + a))) 0%Z) + Z.to_nat (b - a'))%nat.
      * by rewrite drop_app_add.
      * rewrite length_app, mem_bytes_length, length_replicate. lia.
Qed.

(** C13: A module that has crashed and serves its memory is dumped exactly: the
    dump answers 1, and the file holds the cells that the module names, in
    their order, whatever pieces the answers come in. A cell of fewer than
    10240 bytes takes 10240 bytes of the file, and the zeros behind it are
    counted from its own length; where every cell but the last has 10240 bytes
    or none and they follow each other, the file has each cell at its distance from the
    first one, with zeros between them. *)
Theorem eigen_dump_exact fuel chip pbuf dir (w : world) : 30000 < Z.of_nat fuel ->
  in_ramdump chip pbuf = true ->
  length (RDReqCell (loc w)) = 100%nat -> RDReqCell_count (loc w) = 0 ->
  writes hello1 (hist w) = 0%nat -> writes hello2 (hist w) = 0%nat ->
  runs E (enigen_catch_dump fuel chip pbuf dir) w (fun r w' => r = 1 /\
    file (hist w') = file (hist w) ++ image cells /\
    forall first a n, head cells = Some first -> in_order cells -> (a, n) ∈ cells ->
      slice (Z.to_nat (a - first.1)) (Z.to_nat n) (image cells) = mem_bytes mem a n).
Proof.
  intros Hfuel Hin Hlen Hc H1 H2.
  eapply runs_mono with (Q := fun r (w' : world) => r = 1 /\ file (hist w') = file (hist w) ++ image cells).
  2: { intros r w' [H3 H4]. split_and!; [done|done|]. clear -Hcells. intros [a0 n0] a n Hh Ho Hi.
    destruct cells as [|c l]; [done|]. injection Hh as ->. by apply image_places. }
  unfold enigen_catch_dump. rewrite Hin, andb_false_r.
  apply runs_bind. eapply runs_mono; [by apply sync_runs|]. cbn beta.
  intros r w1 (-> & Hl1 & Hf1 & Hi1). change (ok UE_OK) with true. cbn [negb].
  apply runs_bind. unfold SendGetInfoUsb. apply runs_bind. eapply runs_mono; [by apply get_info_runs|].
  cbn beta. intros r w2 (Hl2 & Hf2 & Hi2 & tl & -> & Hml). cbn iota.
  assert (Hresp : info_answer cells ++ tl = info_response ++ le_bytes 4 (CRC16 0xFFFF info_response) ++ tl).
  { unfold info_answer, sealed. by rewrite <-app_assoc. }
  assert (Hl8 : len (concat (map cell_bytes cells)) = 8 * Z.of_nat (length cells))
    by (unfold len; rewrite cells_length; lia).
  apply runs_bind. eapply rsp_length_runs; [exact Hresp|lia|].
  rewrite cells_length, Nat.mul_comm, Nat.div_mul by lia. apply runs_bind. eapply runs_mono.
  { apply store_cells_runs; [exact Hml|by rewrite Hl2, Hl1|by rewrite Hl2, Hl1]. }
  cbn beta. intros _ w3 (Hh3 & Hc3 & Ht3). apply runs_ret. change (ok UE_OK) with true. cbn [negb].
  apply runs_bind, runs_call, runs_bind, runs_call, runs_bind, runs_call. rewrite (m_space HM). cbn [negb].
  apply runs_bind, runs_call, runs_bind, runs_call, runs_bind, runs_modify. rewrite (m_create HM).
  pose proof (m_dfd HM) as Hdfd. rewrite (proj2 (Z.eqb_neq dfd (-1))) by lia.
  apply runs_bind, runs_get, runs_bind. cbn [loc hist]. set (w4 := World _ _).
  assert (Hs4 : filled (loc w4)) by (split; [exact Hc3|split; [exact Ht3|done]]).
  assert (Hi4 : idle (hist w4)).
  { unfold idle, w4 in *. cbn [hist talk]. rewrite Hh3. by destruct (talk (hist w2)) as [[? ?] ?]. }
  assert (Hf4 : file (hist w4) = file (hist w)) by (unfold w4; cbn [hist saved]; rewrite Hh3; congruence).
  change (RDReqCell_count (_ <| eigen_logfile_dump := dfd |>)) with (RDReqCell_count (loc w3)). rewrite Hc3, Nat2Z.id.
  apply (runs_mono _ _ _ (fun r w' => r = true /\ filled (loc w') /\ file (hist w') = file (hist w) ++ image cells)).
  - apply (runs_iterM E _ (fun i w' => filled (loc w') /\ exists pre rest, cells = pre ++ rest /\
        i = Z.of_nat (length pre) /\ (rest <> [] -> idle (hist w')) /\
        file (hist w') ++ image rest = file (hist w) ++ image cells)
      (fun i _ => (length cells - Z.to_nat i)%nat)).
    + intros i w5 (Hs5 & pre & rest & Hcs & -> & Hi5 & Hf5). destruct rest as [|c rest].
      * unfold dump_turn. apply runs_bind, runs_get. rewrite (proj1 Hs5), Hcs, app_nil_r, Z.ltb_irrefl.
        cbn [negb]. apply runs_ret. split; [done|]. split; [done|].
        rewrite Hcs, app_nil_r in Hf5. cbn [image] in Hf5. by rewrite app_nil_r in Hf5.
      * eapply runs_mono; [apply (dump_turn_runs fuel pre c rest (file (hist w5)) w5 Hfuel Hcs Hs5); [by apply Hi5|done]|].
        cbn beta. intros r w6 (-> & Hs6 & Hi6 & Hf6).
        split; [|rewrite Hcs, length_app; cbn [length]; lia]. split; [done|].
        exists (pre ++ [c]), rest. split; [by rewrite <-app_assoc|].
        split; [rewrite length_app; cbn [length]; lia|]. split; [done|]. by rewrite Hf6.
    + split; [done|]. exists [], cells. split; [done|]. split; [done|]. split; [done|]. by rewrite Hf4.
    + cbn. lia.
  - intros r w5 (-> & (_ & _ & Hd5) & Hf5). unfold close_dump. apply runs_bind, runs_bind, runs_get.
    rewrite Hd5, (proj2 (Z.ltb_lt 0 dfd)) by lia.
    apply runs_bind, runs_call, runs_modify, runs_ret. done.
Qed.

End Module.

(** ** A module to try it on *)

Lemma talk_last h : exists p, (talk h).1.1 = p ++ last_write h.
Proof.
  induction h as [|[A c a] h [p IH]]; [by exists []|]. cbn [talk last_write].
  destruct (talk h) as [[r g] k]. cbn [fst] in IH.
  destruct c; cbn [fst]; try by exists p.
  destruct (k =? 0)%nat; [by exists r|by exists []].
Qed.

Lemma request_penult header cell : bytes header -> bytes cell ->
  request header cell !! (length (request header cell) - 2)%nat = Some 0.
Proof.
  intros Hh Hc. unfold request. set (c := CRC16 _ _).
  assert (Hr : 0 <= c < 2 ^ 16) by (apply crc16_range, Forall_app_2; done).
  rewrite length_app, length_le_bytes, lookup_app_r by lia.
  replace (length (header ++ cell) + 4 - 2 - length (header ++ cell))%nat with 2%nat by lia.
  change (le_bytes 4 c !! 2%nat) with (Some (c / 256 / 256 mod 256)).
  f_equal. rewrite Z.div_div by lia. rewrite Z.div_small; [done|lia].
Qed.

(** A request is no greeting. *)
Lemma request_no_hello header cell h : bytes header -> bytes cell ->
  (talk h).1.1 = request header cell -> last_write h <> hello1 /\ last_write h <> hello2.
Proof.
  intros Hh Hc Ht. pose proof (request_penult header cell Hh Hc) as Hp.
  destruct (talk_last h) as [p Hl]. rewrite Ht in Hl. rewrite Hl in Hp.
  assert (Hl1 : length hello1 = 8%nat) by reflexivity.
  assert (Hl2 : length hello2 = 9%nat) by reflexivity.
  split; intros Hw; rewrite Hw, length_app, lookup_app_r in Hp by lia.
  - change (length hello1) with 8%nat in Hp.
    replace (length p + 8 - 2 - length p)%nat with 6%nat in Hp by lia. done.
  - change (length hello2) with 9%nat in Hp.
    replace (length p + 9 - 2 - length p)%nat with 7%nat in Hp by lia. done.
Qed.

Definition eigen_demo_cells : list (Z * Z) := [(0x1000, 20000); (0x8000, 100)].
Definition eigen_demo_mem (a : Z) : Z := a mod 251.
Definition eigen_demo_us : es := Es (replicate 100 (0, 0)) 0 (-1) 5 0.

(** The first read after a request brings nothing of the table, and a part of
    the data. *)
Definition eigen_demo_serve (h : list (io esys)) : option (list Z) :=
  let '(r, g, k) := talk h in
  if bool_decide (last_write h = hello1) || bool_decide (last_write h = hello2) then Some hello2
  else if bool_decide (r = info_request) then
    if (k =? 0)%nat then None else Some (info_answer eigen_demo_cells)
  else
    let rest := drop (length g) (data_answer eigen_demo_mem (get_le 1 1 r) (get_le 8 4 r) (get_le 12 4 r)) in
    Some (if (k =? 0)%nat then take 5000 rest else rest).

Definition demo_eigen_env : env esys := fun A h c =>
  match c in esys B return B with
  | PollWrite _ b _ => 1
  | PollRead _ _ _ => eigen_demo_serve h
  | PollOut _ => 1
  | SetTermios _ => tt
  | Flush _ => tt
  | Usleep _ => tt
  | LogfileSave _ b => len b
  | LogfileCreateFullname _ _ _ _ => 4
  | Close _ => tt
  | MakeDir _ => tt
  | EnoughSpace _ _ => true
  | TimeName => []
  | LocalTime => None
  | Gettimeofday => (0, 0)
  end.

Lemma request_header_bytes cmd seq n : is_byte cmd -> is_byte seq -> bytes (request_header cmd seq n).
Proof.
  intros Hc Hs. unfold request_header. apply Forall_app_2; [|apply le_bytes_bytes].
  do 2 (apply Forall_cons_2; [done|]). do 2 (apply Forall_cons_2; [by split|]). by apply Forall_nil_2.
Qed.

Lemma eigen_demo_data h f m t seq addr n g rest k : 0 <= seq < 256 -> 0 <= addr < 2 ^ 32 ->
  0 < n <= dwUsbMaxDataLen ->
  talk h = (data_req seq addr n, g, k) -> data_answer eigen_demo_mem seq addr n = g ++ rest -> rest <> [] ->
  (k < 7)%nat /\ silent (demo_eigen_env _ h (PollRead f m t)) \/
  exists l rest', demo_eigen_env _ h (PollRead f m t) = Some l /\ rest = l ++ rest' /\ l <> [] /\
    (8 <= length (g ++ l))%nat /\ ((k < 7)%nat \/ rest' = []).
Proof.
  intros Hs Ha Hn Ht Hans Hrest. right. unfold dwUsbMaxDataLen, MAX_CMD_DATALEN in Hn.
  destruct (request_no_hello (request_header GetDataCmd seq 8) (le_bytes 4 addr ++ le_bytes 4 n) h) as [H1 H2].
  { by apply request_header_bytes; [split|]. }
  { apply Forall_app_2; apply le_bytes_bytes. }
  { by rewrite Ht. }
  cbn [demo_eigen_env]. unfold eigen_demo_serve. rewrite Ht, !bool_decide_false by done. cbn [orb].
  change (get_le 1 1 _) with (seq + 256 * 0). replace (seq + 256 * 0) with seq by lia.
  change (get_le 8 4 _) with (le_val (le_bytes 4 addr)). change (get_le 12 4 _) with (le_val (le_bytes 4 n)).
  rewrite !le_val_bytes, (Z.mod_small addr), (Z.mod_small n), Hans, drop_app_length by lia.
  pose proof (data_answer_length eigen_demo_mem seq addr n ltac:(lia)) as Hal.
  rewrite Hans, length_app in Hal.
  destruct rest as [|b rest]; [done|].
  destruct (Nat.eqb_spec k 0) as [->|Hk].
  - exists (take 5000 (b :: rest)), (drop 5000 (b :: rest)). split; [done|].
    split; [by rewrite take_drop|]. split; [done|]. split; [|left; lia].
    rewrite length_app, length_take. cbn [length] in *. lia.
  - exists (b :: rest), []. split; [done|]. split; [by rewrite app_nil_r|]. split; [done|].
    split; [rewrite length_app; lia|by right].
Qed.

Lemma eigen_demo_module : eigen_module demo_eigen_env eigen_demo_mem eigen_demo_cells 4.
Proof.
  split; try done.
  - intros a. unfold eigen_demo_mem, is_byte. pose proof (Z.mod_pos_bound a 251). lia.
  - intros h f n t Hl. left. exists hello2. split; [|by split; [cbn; lia|]].
    cbn [demo_eigen_env]. unfold eigen_demo_serve. destruct (talk h) as [[r g] k].
    destruct Hl as [-> | ->]; [by rewrite bool_decide_true|].
    by rewrite (bool_decide_true (hello2 = hello2)), orb_true_r.
  - intros h f n t k Ht.
    destruct (request_no_hello (request_header GetInfoCmd 0 0) [] h) as [H1 H2].
    { by apply request_header_bytes; split. }
    { constructor. }
    { by rewrite Ht. }
    cbn [demo_eigen_env]. unfold eigen_demo_serve. rewrite Ht.
    rewrite (bool_decide_false _ H1), (bool_decide_false _ H2), (bool_decide_true _ eq_refl).
    cbn [orb]. destruct k as [|k]; [right; split; [lia|left; reflexivity]|left; reflexivity].
  - exact eigen_demo_data.
Qed.

Lemma eigen_dump_exact_witness :
  runs demo_eigen_env (enigen_catch_dump (Z.to_nat 40000) 1 [1; 0x22; 0x0a; 0x45; 0x80; 2] (str "/tmp"))
    (World eigen_demo_us []) (fun r w' => r = 1 /\ saved 4 (hist w') = [] ++ image eigen_demo_mem eigen_demo_cells /\
      forall first a n, head eigen_demo_cells = Some first -> in_order eigen_demo_cells -> (a, n) ∈ eigen_demo_cells ->
        slice (Z.to_nat (a - first.1)) (Z.to_nat n) (image eigen_demo_mem eigen_demo_cells) = mem_bytes eigen_demo_mem a n) /\
  in_order eigen_demo_cells.
Proof.
  split; [|repeat split; vm_compute; congruence].
  apply (eigen_dump_exact demo_eigen_env eigen_demo_mem eigen_demo_cells 4 eigen_demo_module);
    [|cbn; lia|lia|reflexivity..].
  unfold eigen_demo_cells.
  do 2 (apply Forall_cons_2; [repeat split; vm_compute; discriminate|]). apply Forall_nil_2.
Defined.
