(* ===== verification/Asr.v ===== *)
(** Logging of the ASR modules (src/asr.c): the commands, the receiver that
    looks for the versions of the two data bases in the stream, and the header
    of a log file, which gets the versions through a mapping of the file when
    they come after the file was begun. *)

From Stdlib Require Import ZArith Lia.
From stdpp Require Import base list.
From S2P Require Import Prelude.

(** ** Calls and variables *)

(** While a thread sleeps the reader thread works: a sleep answers the buffers
    it has taken from the port.  [Mmap] maps the header of a file, [None] for
    MAP_FAILED; [MapStore] stores four bytes there. *)
Inductive asys : Type -> Type :=
| PollWrite (fd : Z) (buf : list Z) (timeout : Z) : asys Z
| Usleep (usecs : Z) : asys (list (list Z))
| Time : asys Z
| Write (fd : Z) (buf : list Z) : asys Z
| Mmap (fd size : Z) : asys (option Z)
| MapStore (map : Z) (off : nat) (v : list Z) : asys unit
| Munmap (map : Z) : asys unit
| Fsync (fd : Z) : asys unit
| LogfileSave (fd : Z) (buf : list Z) : asys Z
| LogfileClose (fd : Z) : asys unit
| Malloc (n : Z) : asys (option (nat -> Z)).

Record ast : Type := Ast {
  g_dwUETime : Z;
  g_u32APVersion : Z;
  g_u32CPVersion : Z;
  g_query_version_done : Z;
  g_pmap : option Z;
  data_buf : option (list Z);
  data_len : nat;
  g_rx_log_count : Z;
}.
#[export] Instance eta_ast : Eta ast := fun s =>
  Ast (g_dwUETime s) (g_u32APVersion s) (g_u32CPVersion s) (g_query_version_done s) (g_pmap s)
    (data_buf s) (data_len s) (g_rx_log_count s).

Abbreviation A := (M asys ast).

Definition DIAG_SAP_CP : Z := 0x01.
Definition DIAG_SAP_AP : Z := 0x8001.
Definition DIAG_MODID : Z := 0xffff.
Definition DIAG_MSGID : Z := 0x00.
Definition data_max : nat := Z.to_nat 8192.
(** The headers of [struct DBVerInfo] and of the log file. *)
Definition DBVerInfo : nat := 16.
Definition CSDLFileHeader : Z := 28.

(** ** The versions of the data bases *)

(** The digits of [strtoul] in base 16, the prefix 0x included. *)
Definition hex_value (b : Z) : option Z :=
  if (48 <=? b) && (b <=? 57) then Some (b - 48)
  else if (65 <=? b) && (b <=? 70) then Some (b - 55)
  else if (97 <=? b) && (b <=? 102) then Some (b - 87)
  else None.
Fixpoint hex_digits (acc : Z) (l : list Z) : Z :=
  match l with
  | b :: l' => match hex_value b with Some d => hex_digits (acc * 16 + d) l' | None => acc end
  | [] => acc
  end.
Definition strtoul16 (text : list Z) : Z :=
  Z.min (hex_digits 0 (match text with 48 :: 120 :: l => l | _ => text end)) (2 ^ 64 - 1).

(** The result of [abs] is that of two's complement. *)
Definition ue_time (dwUETime : Z) (s : ast) : ast :=
  let g := g_dwUETime s in
  if negb (g =? 0) && negb (dwUETime =? 0) && negb (dwUETime =? 0xFFFFFFFF)
     && (4 * 1000 * 1000 <? s32 (Z.abs (s32 (dwUETime - g))))
  then s else s <| g_dwUETime := dwUETime |>.

(** What a version packet is stored as. *)
Definition set_version (wSap ver : Z) (s : ast) : ast :=
  if DIAG_SAP_AP =? wSap then s <| g_u32APVersion := ver |>
  else if DIAG_SAP_CP =? wSap then s <| g_u32CPVersion := ver |>
  else s.

(** The test for a version packet; the text of the version. *)
Definition version_text (data : list Z) (offset len : nat) : A (option (list Z)) :=
  if negb (len =? 0x1b)%nat then mret None else
  v0 ← of_option (rd (offset + 16) 1 data);
  if negb (v0 =? 48) then mret None else
  v1 ← of_option (rd (offset + 17) 1 data);
  if negb (v1 =? 120) then mret None else
  e ← of_option (rd (offset + len - 1) 1 data);
  if negb (e =? 0) then mret None else
  m ← of_option (rd (offset + 8) 2 data);
  if negb (DIAG_MODID =? m) then mret None else
  i ← of_option (rd (offset + 10) 2 data);
  if negb (DIAG_MSGID =? i) then mret None else
  t ← of_option (c_string (offset + 16) data); mret (Some t).

Definition scan_turn (data : list Z) (data_len : nat) (offset : nat) : A (nat + nat) :=
  if negb (offset + DBVerInfo <? data_len)%nat then mret (inr offset) else
  len ← of_option (rd offset 2 data);
  wDirInd ← of_option (rd (offset + 2) 2 data);
  wSap ← of_option (rd (offset + 4) 2 data);
  t ← of_option (rd (offset + 12) 4 data);
  if (len =? 0) || negb (wDirInd =? 0) then mret (inl (S offset)) else
  if ((if wSap =? 5 then 5328 else 7680) <? len : bool) then mret (inl (S offset)) else
  dwUETime ← (if wSap =? 5 then of_option (rd (offset + 8) 4 data) else mret t);
  modify (ue_time dwUETime);;
  let len := Z.to_nat len in
  if (data_len <? offset + len)%nat then mret (inr offset) else
  v ← version_text data offset len;
  match v with
  | None => mret (inl (offset + len)%nat)
  | Some text =>
      modify (set_version wSap (u32 (strtoul16 text)));;
      s ← get;
      if negb (g_u32CPVersion s =? 0) then
        modify (fun s => s <| g_query_version_done := 1 |>);; mret (inr offset)
      else mret (inl (offset + len)%nat)
  end.

(** A turn of the outer loop: as much of [buf] as fits is appended, the packets
    are looked at, and what is left of them moves to the front.  Answers the
    bytes of [buf] that are left. *)
Definition parse_turn (buf : list Z) : A (list Z + unit) :=
  s ← get;
  data ← of_option (data_buf s);
  let left_room := (data_max - data_len s)%nat in
  let '(now, later) :=
    if (left_room <? length buf)%nat then (take left_room buf, drop left_room buf) else (buf, []) in
  data ← of_option (wr (data_len s) now data);
  let n := (data_len s + length now)%nat in
  modify (fun s => s <| data_buf := Some data |> <| data_len := n |>);;
  offset ← iterM (S data_max) (scan_turn data n) 0%nat;
  let n' := (n - offset)%nat in
  data ← (if negb (n' =? 0)%nat && negb (offset =? 0)%nat then
            d ← of_option (rd_bytes offset n' data); of_option (wr 0 d data)
          else mret data);
  modify (fun s => s <| data_buf := Some data |> <| data_len := n' |>);;
  mret (match later with [] => inr tt | _ => inl later end).

Definition malloc (n : nat) : A (option (list Z)) :=
  f ← call (Malloc (Z.of_nat n)); mret (option_map (fun f => map f (seq 0 n)) f).

Definition asr_parser_dbversion (fuel : nat) (buf : list Z) : A unit :=
  s ← get;
  data ← (match data_buf s with Some d => mret (Some d) | None => malloc data_max end);
  modify (fun s => s <| data_buf := data |>);;
  match data with None => mret tt | Some _ => iterM fuel parse_turn buf end.

(** ** The log operations *)

Section Ops.
Context (fuel : nat).

Definition asr_logfile_save (logfd : Z) (buf : list Z) : A Z :=
  match buf with
  | [] => mret 0
  | _ =>
      if logfd <=? 0 then mret (len buf) else
      s ← get;
      (if g_query_version_done s =? 0 then asr_parser_dbversion fuel buf else mret tt);;
      call (LogfileSave logfd buf)
  end.

(** The reader thread saves what it takes from the port while another thread
    sleeps. *)
Definition sleep (logfd usecs : Z) : A unit :=
  chunks ← call (Usleep usecs);
  forM chunks (fun c =>
    modify (fun s => s <| g_rx_log_count ::= fun n => u32 (n + 1) |>);;
    asr_logfile_save logfd c;; mret tt).

Section Cmd.
Context (logfd : Z).

(** A command may hold several requests, each with its length in front; the
    next one waits up to 100 ms for the reader thread. *)
Definition asr_send_cmd (fd : Z) (buf : list Z) : A Z :=
  iterM (S (length buf)) (fun wc =>
    if negb (wc <? length buf)%nat then mret (inr (Z.of_nat wc)) else
    cmd_len ← of_option (rd wc 4 buf);
    s ← get;
    let rx_count := g_rx_log_count s in
    if (Z.of_nat (length buf - wc) <? cmd_len : bool) then mret (inr (Z.of_nat wc)) else
    let n := Z.to_nat cmd_len in
    r ← call (PollWrite fd (slice wc n buf) 1000);
    if negb (r =? cmd_len) then mret (inr (Z.of_nat wc)) else
    iterM 101 (fun rx_wait =>
      if negb (0 <? rx_wait) then mret (inr tt) else
      s ← get;
      if negb (g_rx_log_count s =? rx_count) then mret (inr tt)
      else sleep logfd 1000;; mret (inl (rx_wait - 1))) 100;;
    mret (inl (wc + n)%nat)) 0%nat.

Definition command (b4 b5 : Z) : list Z :=
  [0x10; 0; 0; 0; b4; b5; 0xFF; 0xFF; 0; 0; 0; 0; 0; 0; 0; 0].
Definition ACATReady : list Z := command 0x00 0x04.
Definition GetAPDBVer : list Z := command 0x80 0x00.
Definition GetCPDBVer : list Z := command 0x00 0x00.
Definition ACATKeepAlive_AP : list Z := command 0x80 0x0D.
Definition ACATDisconnect_CP : list Z := command 0x00 0x0C.
Definition ACATDisconnect_AP : list Z := command 0x80 0x0C.

(** A turn of the loop that asks for the versions. *)
Definition query_turn (fd t : Z) : A (Z + unit) :=
  if negb (t <? 30) then mret (inr tt) else
  s ← get;
  if negb (g_query_version_done s =? 0) then mret (inr tt) else
  (if g_u32APVersion s =? 0 then asr_send_cmd fd GetAPDBVer;; sleep logfd 1000 else mret tt);;
  s ← get;
  (if g_u32CPVersion s =? 0 then asr_send_cmd fd GetCPDBVer;; sleep logfd 1000 else mret tt);;
  sleep logfd 1000000;;
  asr_send_cmd fd ACATReady;;
  mret (inl (t + 1)).

(** The last loop ends when a write fails; [turns] bounds the model of it. *)
Definition asr_init_filter (turns : nat) (fd : Z) : A Z :=
  modify (fun s => s <| g_dwUETime := 0 |> <| g_u32APVersion := 0 |> <| g_u32CPVersion := 0 |>
                     <| g_query_version_done := 0 |>);;
  asr_send_cmd fd ACATReady;;
  sleep logfd 1000;;
  iterM 31 (query_turn fd) 0;;
  modify (fun s => s <| g_query_version_done := 1 |>);;
  iterM turns (fun _ : unit =>
    sleep logfd 5000000;;
    r ← asr_send_cmd fd ACATKeepAlive_AP;
    mret (if r =? 16 then inl tt else inr 0)) tt.

Definition asr_log_shutdown (fd : Z) : A Z :=
  sleep logfd 200;;
  asr_send_cmd fd ACATDisconnect_CP;;
  sleep logfd 200;;
  asr_send_cmd fd ACATDisconnect_AP;;
  mret 0.
End Cmd.

(** ** The header of a log file *)

Definition SDLHeader (ap cp logfile_seq ltime : Z) : list Z :=
  le_bytes 4 0 ++ le_bytes 4 1 ++ le_bytes 4 ap ++ le_bytes 4 cp ++ le_bytes 4 logfile_seq ++
  le_bytes 4 ltime ++ le_bytes 4 0.

(** [ftp] says that an FTP server is set.  A mapping that fails leaves
    MAP_FAILED, which is not used. *)
Definition asr_logfile_init (ftp : bool) (logfd logfile_seq : Z) : A Z :=
  ltime ← call Time;
  s ← get;
  call (Write logfd (SDLHeader (g_u32APVersion s) (g_u32CPVersion s) logfile_seq ltime));;
  s ← get;
  (if (0 <? logfd) && (g_query_version_done s =? 0) && negb ftp then
     m ← call (Mmap logfd CSDLFileHeader); modify (fun s => s <| g_pmap := m |>)
   else mret tt);;
  mret 0.

(** All of [asr_logfile_close] but its last call. *)
Definition asr_sync_header (logfd : Z) : A unit :=
  call (Fsync logfd);;
  s ← get;
  match g_pmap s with
  | Some m =>
      call (MapStore m 8 (le_bytes 4 (g_u32APVersion s)));;
      call (MapStore m 12 (le_bytes 4 (g_u32CPVersion s)));;
      call (Munmap m)
  | None => mret tt
  end;;
  modify (fun s => s <| g_pmap := None |>).

Definition asr_logfile_close (logfd : Z) : A Z :=
  asr_sync_header logfd;; call (LogfileClose logfd);; mret 0.
End Ops.
