(* ===== verification/AsrProps.v ===== *)
(** What the receiver of the ASR logging finds: a reference receiver without a
    buffer, and what the log file holds at the end. *)

From Stdlib Require Import ZArith Lia.
From stdpp Require Import base list.
From S2P Require Import Prelude Buffers Asr.

(** ** The packets of the stream *)

(** What stands at the front of the bytes received: a packet of [n] bytes, with
    the version it carries, something that is no packet, or too little. *)
Inductive item : Type := Wait | Skip | Packet (n : nat) (v : option Z).
#[export] Instance item_eq : EqDecision item.
Proof. solve_decision. Defined.

Definition version_of (l : list Z) : option Z :=
  if (get_le 0 2 l =? 27) && (get_le 16 1 l =? 48) && (get_le 17 1 l =? 120)
     && (get_le 26 1 l =? 0) && (get_le 8 2 l =? DIAG_MODID) && (get_le 10 2 l =? DIAG_MSGID)
  then Some (u32 (strtoul16 (cstr (slice 16 11 l)))) else None.

Definition at_head (l : list Z) : item :=
  if (length l <=? 16)%nat then Wait else
  let n := get_le 0 2 l in
  if (n <=? 0) || negb (get_le 2 2 l =? 0) then Skip else
  if (if get_le 4 2 l =? 5 then 5328 else 7680) <? n then Skip else
  if (length l <? Z.to_nat n)%nat then Wait else Packet (Z.to_nat n) (version_of l).

(** The AP version after a packet, and the CP version it brings, 0 for none. *)
Definition learn (l : list Z) (v : option Z) (ap : Z) : Z * Z :=
  match v with
  | None => (ap, 0)
  | Some v =>
      if get_le 4 2 l =? DIAG_SAP_AP then (v, 0)
      else if get_le 4 2 l =? DIAG_SAP_CP then (ap, v) else (ap, 0)
  end.

(** The receiver takes one item after the other until a CP version comes
    ([inr]), or waits for more than the rest of the bytes ([inl]). *)
Inductive finds : list Z -> Z -> Z -> list Z + Z -> Prop :=
| finds_wait l ap : at_head l = Wait -> finds l ap ap (inl l)
| finds_skip l ap ap' x : at_head l = Skip -> finds (drop 1 l) ap ap' x -> finds l ap ap' x
| finds_packet l n v ap ap1 ap' x : at_head l = Packet n v -> learn l v ap = (ap1, 0) ->
    finds (drop n l) ap1 ap' x -> finds l ap ap' x
| finds_done l n v ap ap' cp : at_head l = Packet n v -> learn l v ap = (ap', cp) -> cp <> 0 ->
    finds l ap ap' (inr cp).

(** ** Items of a longer stream *)

Lemma get_le_app off n l1 l2 : (off + n <= length l1)%nat -> get_le off n (l1 ++ l2) = get_le off n l1.
Proof. intros H. unfold get_le. by rewrite slice_app_l. Qed.

Lemma data_max_val : Z.of_nat data_max = 8192.
Proof. by apply Z2Nat.id. Qed.
Ltac alia := pose proof data_max_val; lia.

Lemma packet_bound l n v : at_head l = Packet n v -> (1 <= n <= length l)%nat /\ Z.of_nat n <= 7680 /\
  (16 < length l)%nat /\ n = Z.to_nat (get_le 0 2 l) /\ v = version_of l.
Proof.
  unfold at_head. destruct (Nat.leb_spec (length l) 16) as [Hl|Hl]; [done|]. cbn zeta.
  destruct ((get_le 0 2 l <=? 0) || _) eqn:H0; [done|]. apply orb_false_iff in H0 as [H0 _].
  apply Z.leb_gt in H0.
  set (lim := if (_ =? 5)%Z then 5328 else 7680). assert (lim <= 7680) by (subst lim; destruct (_ =? 5); lia).
  destruct (Z.ltb_spec lim (get_le 0 2 l)) as [?|Hn]; [done|].
  destruct (Nat.ltb_spec (length l) (Z.to_nat (get_le 0 2 l))) as [?|Hle]; [done|].
  intros [= <- <-]. repeat split; lia.
Qed.

(** What is no [Wait] is the same in every longer stream. *)
Lemma version_of_app l1 l2 : (16 < length l1)%nat -> (Z.to_nat (get_le 0 2 l1) <= length l1)%nat ->
  version_of (l1 ++ l2) = version_of l1.
Proof.
  intros H16 Hn. unfold version_of. rewrite (get_le_app 0) by lia.
  destruct (Z.eqb_spec (get_le 0 2 l1) 27) as [H|H]; [|done].
  rewrite H in Hn. change (Z.to_nat 27) with 27%nat in Hn.
  rewrite !get_le_app, slice_app_l by lia. done.
Qed.

Lemma at_head_app l1 l2 : at_head l1 <> Wait -> at_head (l1 ++ l2) = at_head l1.
Proof.
  unfold at_head. rewrite length_app.
  destruct (Nat.leb_spec (length l1) 16) as [Hl|Hl]; [done|].
  destruct (Nat.leb_spec (length l1 + length l2) 16) as [?|_]; [lia|]. cbn zeta.
  rewrite !(get_le_app _ _ l1) by lia. destruct (_ || _); [done|]. destruct (_ <? _); [done|].
  destruct (Nat.ltb_spec (length l1) (Z.to_nat (get_le 0 2 l1))) as [?|Hn]; [done|].
  destruct (Nat.ltb_spec (length l1 + length l2) (Z.to_nat (get_le 0 2 l1))) as [?|_]; [lia|].
  intros _. by rewrite version_of_app.
Qed.

Lemma learn_app l1 l2 v ap : (16 < length l1)%nat -> learn (l1 ++ l2) v ap = learn l1 v ap.
Proof. intros H. unfold learn. by rewrite get_le_app by lia. Qed.

Lemma skip_length l : at_head l = Skip -> (16 < length l)%nat.
Proof. unfold at_head. by destruct (Nat.leb_spec (length l) 16). Qed.

(** A stream is looked at in two parts. *)
Lemma finds_split l1 l2 ap ap' x : finds (l1 ++ l2) ap ap' x ->
  (exists ap1 r, finds l1 ap ap1 (inl r) /\ finds (r ++ l2) ap1 ap' x) \/
  (exists cp, finds l1 ap ap' (inr cp) /\ x = inr cp).
Proof.
  intros H. remember (l1 ++ l2) as l eqn:Hl. revert l1 Hl.
  induction H as [l ap Hw|l ap ap' x Hs Hf IH|l n v ap ap1 ap' x Hp Hv Hf IH|l n v ap ap' cp Hp Hv Hc];
    intros l1 ->; (destruct (decide (at_head l1 = Wait)) as [Hw1|Hw1];
      [left; exists ap, l1; split; [by apply finds_wait|]|]).
  - by apply finds_wait.
  - rewrite at_head_app in Hw by done. congruence.
  - by apply finds_skip.
  - rewrite at_head_app in Hs by done. pose proof (skip_length _ Hs).
    destruct (IH (drop 1 l1)) as [(ap1 & r & H1 & H2)|(cp & H1 & H2)]; [by rewrite drop_app_le by lia|left|right].
    + exists ap1, r. split; [by apply finds_skip|done].
    + exists cp. split; [by apply finds_skip|done].
  - by eapply finds_packet.
  - rewrite at_head_app in Hp by done. destruct (packet_bound _ _ _ Hp) as (Hb & _ & H16 & _).
    rewrite learn_app in Hv by lia.
    destruct (IH (drop n l1)) as [(ap2 & r & H1 & H2)|(cp & H1 & H2)]; [by rewrite drop_app_le by lia|left|right].
    + exists ap2, r. split; [by eapply finds_packet|done].
    + exists cp. split; [by eapply finds_packet|done].
  - by eapply finds_done.
  - rewrite at_head_app in Hp by done. destruct (packet_bound _ _ _ Hp) as (Hb & _ & H16 & _).
    rewrite learn_app in Hv by lia. right. exists cp. split; [by eapply finds_done|done].
Qed.

Lemma wait_length l : at_head l = Wait -> (length l < data_max)%nat.
Proof.
  unfold at_head. destruct (Nat.leb_spec (length l) 16) as [Hl|Hl]; [alia|]. cbn zeta.
  destruct (_ || _); [done|].
  set (lim := if (_ =? 5)%Z then 5328 else 7680). assert (lim <= 7680) by (subst lim; destruct (_ =? 5); lia).
  destruct (Z.ltb_spec lim (get_le 0 2 l)) as [?|Hn]; [done|].
  destruct (Nat.ltb_spec (length l) (Z.to_nat (get_le 0 2 l))) as [?|Hle]; [|done]. alia.
Qed.

Lemma finds_waits l ap ap' r : finds l ap ap' (inl r) -> at_head r = Wait.
Proof. intros H. remember (inl r) as x. induction H; simplify_eq; auto. Qed.

Lemma finds_waiting l ap ap' x : at_head l = Wait -> finds l ap ap' x -> ap' = ap /\ x = inl l.
Proof. intros Hw H. inversion H; subst; try congruence. done. Qed.

(** ** The scan of the buffer *)

Lemma cstr_app_nul l1 l2 : has_nul l1 = true -> cstr (l1 ++ l2) = cstr l1.
Proof.
  induction l1 as [|b l1 IH]; [done|]. cbn [has_nul cstr app].
  destruct (b =? 0); [done|]. cbn [orb]. intros H. by rewrite IH.
Qed.

Lemma has_nul_app l1 l2 : has_nul l1 = true -> has_nul (l1 ++ l2) = true.
Proof.
  induction l1 as [|b l1 IH]; [done|]. cbn [has_nul app]. destruct (b =? 0); [done|]. cbn [orb]. auto.
Qed.

Lemma has_nul_field l i : (i < length l)%nat -> get_le i 1 l = 0 -> has_nul l = true.
Proof.
  revert i. induction l as [|b l IH]; intros i Hi H; [cbn in Hi; lia|]. cbn [has_nul].
  destruct i as [|i].
  - unfold get_le, slice in H. cbn [drop] in H. change (b + 256 * 0 = 0) in H. replace b with 0 by lia. done.
  - rewrite (IH i); [by rewrite orb_true_r|cbn in Hi; lia|done].
Qed.

(** A field of the packet at [off], read from the buffer. *)
Lemma rd_at data n off k m : (n <= length data)%nat -> (off + k + m <= n)%nat ->
  rd (off + k) m data = Some (get_le k m (drop off (take n data))).
Proof.
  intros Hn Hk. rewrite rd_fits by lia. f_equal. unfold get_le. f_equal. unfold slice.
  rewrite drop_drop, skipn_firstn_comm, take_take. f_equal. lia.
Qed.

Section Scan.
Context (E : env asys).
Abbreviation world := (world asys ast).

(** What the scan of a packet is not to touch. *)
Definition same (s s' : ast) : Prop :=
  g_pmap s' = g_pmap s /\ data_buf s' = data_buf s /\ data_len s' = data_len s.

Lemma same_refl s : same s s.
Proof. done. Qed.
Lemma same_trans s1 s2 s3 : same s1 s2 -> same s2 s3 -> same s1 s3.
Proof. unfold same. intuition congruence. Qed.

Definition versions (s : ast) : Z * Z * Z := (g_u32APVersion s, g_u32CPVersion s, g_query_version_done s).

Lemma ue_time_keeps t s : versions (ue_time t s) = versions s /\ same s (ue_time t s).
Proof. unfold ue_time. by destruct (_ && _). Qed.

Lemma version_text_runs data n off (w : world) : (n <= length data)%nat ->
  let l := drop off (take n data) in
  (off + Z.to_nat (get_le 0 2 l) <= n)%nat -> 0 < get_le 0 2 l ->
  runs E (version_text data off (Z.to_nat (get_le 0 2 l))) w (fun t w' => w' = w /\
    option_map (fun t => u32 (strtoul16 t)) t = version_of l).
Proof.
  intros Hn l Hle Hpos. unfold version_text, version_of.
  replace ((Z.to_nat (get_le 0 2 l) =? 27)%nat) with (get_le 0 2 l =? 27)
    by (destruct (Z.eqb_spec (get_le 0 2 l) 27), (Nat.eqb_spec (Z.to_nat (get_le 0 2 l)) 27); lia).
  destruct (Z.eqb_spec (get_le 0 2 l) 27) as [H27|H27]; cbn [negb andb]; [|by apply runs_ret].
  rewrite H27 in *. change (Z.to_nat 27) with 27%nat in *.
  assert (Hrd : forall k m, (k + m <= 27)%nat -> rd (off + k) m data = Some (get_le k m l))
    by (intros k m Hk; apply rd_at; lia).
  apply runs_bind. eapply runs_of_option; [by apply Hrd; lia|]. cbn beta.
  destruct (get_le 16 1 l =? 48); cbn [negb andb]; [|by apply runs_ret].
  apply runs_bind. eapply runs_of_option; [by apply Hrd; lia|]. cbn beta.
  destruct (get_le 17 1 l =? 120); cbn [negb andb]; [|by apply runs_ret].
  replace (off + 27 - 1)%nat with (off + 26)%nat by lia.
  apply runs_bind. eapply runs_of_option; [by apply Hrd; lia|]. cbn beta.
  destruct (Z.eqb_spec (get_le 26 1 l) 0) as [H0|H0]; cbn [negb andb]; [|by apply runs_ret].
  apply runs_bind. eapply runs_of_option; [by apply Hrd; lia|]. cbn beta. rewrite (Z.eqb_sym DIAG_MODID).
  destruct (get_le 8 2 l =? DIAG_MODID); cbn [negb andb]; [|by apply runs_ret].
  apply runs_bind. eapply runs_of_option; [by apply Hrd; lia|]. cbn beta. rewrite (Z.eqb_sym DIAG_MSGID).
  destruct (get_le 10 2 l =? DIAG_MSGID); cbn [negb andb]; [|by apply runs_ret].
  assert (Hll : (27 <= length l)%nat) by (unfold l; rewrite length_drop, length_take; lia).
  assert (Htext : exists more, drop (off + 16) data = slice 16 11 l ++ more).
  { exists (drop (off + 27) data). unfold l, slice.
    rewrite drop_drop, skipn_firstn_comm, take_take, Nat.min_l by lia.
    rewrite <-(take_drop 11 (drop (off + 16) data)) at 1. rewrite drop_drop. do 2 f_equal. lia. }
  assert (Hnul : has_nul (slice 16 11 l) = true).
  { apply (has_nul_field _ 10); [rewrite length_slice; lia|]. rewrite <-H0. unfold get_le. f_equal.
    unfold slice. rewrite skipn_firstn_comm, take_take, drop_drop. done. }
  destruct Htext as [more Htext].
  apply runs_bind. eapply runs_of_option.
  { unfold c_string. rewrite Htext, has_nul_app by done. reflexivity. }
  cbn beta. apply runs_ret. split; [done|]. cbn [option_map]. by rewrite cstr_app_nul.
Qed.
(** The versions after a packet, and whether the scan stops at it. *)
Definition taken (l : list Z) (v : option Z) (x : Z * Z * Z) : (Z * Z * Z) * bool :=
  let '(ap, cp, d) := x in
  match v with
  | None => (x, false)
  | Some v =>
      let '(ap, cp) := if get_le 4 2 l =? DIAG_SAP_AP then (v, cp)
                       else if get_le 4 2 l =? DIAG_SAP_CP then (ap, v) else (ap, cp) in
      if cp =? 0 then ((ap, cp, d), false) else ((ap, cp, 1), true)
  end.

Lemma set_version_taken l v s : let x := taken l (Some v) (versions s) in
  let s' := set_version (get_le 4 2 l) v s in
  same s s' /\
  (if g_u32CPVersion s' =? 0 then x = (versions s', false)
   else x = (versions (s' <| g_query_version_done := 1 |>), true)).
Proof.
  unfold taken, set_version, versions. rewrite (Z.eqb_sym DIAG_SAP_AP), (Z.eqb_sym DIAG_SAP_CP).
  destruct (_ =? DIAG_SAP_AP); [|destruct (_ =? DIAG_SAP_CP)]; cbn;
    (split; [done|]); match goal with |- context [if ?b then _ else _] => destruct b end; done.
Qed.

Lemma scan_turn_runs data n off (w : world) : bytes (take n data) -> (off <= n <= length data)%nat ->
  let l := drop off (take n data) in
  runs E (scan_turn data n off) w (fun r w' => hist w' = hist w /\ same (loc w) (loc w') /\
    match at_head l with
    | Wait => r = inr off /\ versions (loc w') = versions (loc w)
    | Skip => r = inl (S off) /\ versions (loc w') = versions (loc w)
    | Packet k v =>
        let '(x, stop) := taken l v (versions (loc w)) in
        versions (loc w') = x /\ r = if stop then inr off else inl (off + k)%nat
    end).
Proof.
  intros Hb Hn l. unfold scan_turn, at_head, DBVerInfo.
  assert (Hl : length l = (n - off)%nat) by (unfold l; rewrite length_drop, length_take; lia).
  destruct (Nat.leb_spec (length l) 16) as [H16|H16].
  { rewrite (proj2 (Nat.ltb_ge _ _)) by lia. by apply runs_ret. }
  rewrite (proj2 (Nat.ltb_lt _ _)) by lia. cbn [negb].
  assert (Hrd : forall k m, (k + m <= 16)%nat -> rd (off + k) m data = Some (get_le k m l))
    by (intros k m Hk; apply rd_at; lia).
  assert (Hbl : bytes l) by (by apply Forall_drop).
  apply runs_bind. eapply runs_of_option.
  { rewrite <-(Nat.add_0_r off). apply Hrd. lia. } cbn beta.
  apply runs_bind. eapply runs_of_option; [apply Hrd; lia|]. cbn beta.
  apply runs_bind. eapply runs_of_option; [apply Hrd; lia|]. cbn beta.
  apply runs_bind. eapply runs_of_option; [apply Hrd; lia|]. cbn beta zeta.
  pose proof (get_le_range 0 2 l Hbl) as Hr.
  replace (get_le 0 2 l <=? 0) with (get_le 0 2 l =? 0)
    by (destruct (Z.eqb_spec (get_le 0 2 l) 0), (Z.leb_spec (get_le 0 2 l) 0); lia).
  destruct (Z.eqb_spec (get_le 0 2 l) 0) as [H0|H0]; cbn [orb]; [by apply runs_ret|].
  destruct (negb (get_le 2 2 l =? 0)); [by apply runs_ret|].
  destruct (_ <? get_le 0 2 l); [by apply runs_ret|].
  apply runs_bind. eapply (runs_mono E _ w (fun _ w' => w' = w)).
  { destruct (get_le 4 2 l =? 5); [|by apply runs_ret].
    eapply runs_of_option; [apply Hrd; lia|done]. }
  cbn beta. intros t _ ->. apply runs_bind, runs_modify. set (s1 := ue_time _ _).
  destruct (ue_time_keeps t (loc w)) as [Hv1 Hs1]. fold s1 in Hv1, Hs1.
  replace ((n <? off + Z.to_nat (get_le 0 2 l))%nat) with ((length l <? Z.to_nat (get_le 0 2 l))%nat)
    by (rewrite Hl; destruct (Nat.ltb_spec (n - off) (Z.to_nat (get_le 0 2 l))),
          (Nat.ltb_spec n (off + Z.to_nat (get_le 0 2 l))); lia).
  destruct (Nat.ltb_spec (length l) (Z.to_nat (get_le 0 2 l))) as [Hlt|Hge]; [by apply runs_ret|].
  apply runs_bind. eapply runs_mono; [apply version_text_runs; fold l; lia|]. cbn beta.
  fold l. intros v ? (-> & Hv). rewrite <-Hv. clear Hv. destruct v as [text|]; cbn [option_map].
  - apply runs_bind, runs_modify. apply runs_bind, runs_get. cbn [loc hist].
    pose proof (set_version_taken l (u32 (strtoul16 text)) s1) as Ht. cbn zeta in Ht.
    rewrite Hv1 in Ht. destruct Ht as [Hs2 Ht]. set (s2 := set_version _ _ s1) in *.
    destruct (g_u32CPVersion s2 =? 0); rewrite Ht; cbn [negb].
    + apply runs_ret. cbn [loc hist]. repeat split; by eapply same_trans.
    + apply runs_bind, runs_modify, runs_ret. cbn [loc hist]. split; [done|]. split; [|done].
      by eapply (same_trans _ s1), (same_trans _ s2).
  - apply runs_ret. cbn [loc hist taken]. destruct (versions (loc w)) as [[ap cp] d]. done.
Qed.

(** The packet that ends the search. *)
Definition found (cp : Z) (l : list Z) : Prop := cp <> 0 /\ get_le 4 2 l = DIAG_SAP_CP /\
  exists k, at_head l = Packet k (Some cp).

Lemma learn_found l n v ap ap' cp : at_head l = Packet n v -> learn l v ap = (ap', cp) -> cp <> 0 ->
  ap' = ap /\ found cp l /\ taken l v (ap, 0, 0) = ((ap, cp, 1), true).
Proof.
  intros Hp Hv Hc. unfold learn in Hv. unfold taken. destruct v as [v|]; [|by injection Hv as <- <-].
  destruct (get_le 4 2 l =? DIAG_SAP_AP); [by injection Hv as <- <-|].
  destruct (Z.eqb_spec (get_le 4 2 l) DIAG_SAP_CP) as [Hs|Hs]; [|by injection Hv as <- <-].
  injection Hv as <- <-. rewrite (proj2 (Z.eqb_neq v 0)) by done.
  split; [done|]. split; [|done]. split; [done|]. split; [done|]. by exists n.
Qed.

Lemma learn_taken l v ap ap' : learn l v ap = (ap', 0) -> taken l v (ap, 0, 0) = ((ap', 0, 0), false).
Proof.
  unfold learn, taken. destruct v as [v|]; [|by intros [= <-]].
  destruct (get_le 4 2 l =? DIAG_SAP_AP); [by intros [= <-]|].
  destruct (get_le 4 2 l =? DIAG_SAP_CP); [|by intros [= <-]]. intros [= <- ->]. done.
Qed.

Lemma drop_step (data : list Z) n off k : (off + k <= n)%nat -> (n <= length data)%nat ->
  drop k (drop off (take n data)) = drop (off + k) (take n data).
Proof. intros. by rewrite drop_drop. Qed.

(** The search in the bytes of the buffer; the first item is behind it unless
    it waits there. *)
Lemma scan_runs l ap ap' x : finds l ap ap' x -> forall data n off fuel (w : world),
  l = drop off (take n data) -> bytes (take n data) -> (off <= n <= length data)%nat ->
  (length l < fuel)%nat -> versions (loc w) = (ap, 0, 0) ->
  runs E (iterM fuel (scan_turn data n) off) w (fun off' w' => hist w' = hist w /\
    same (loc w) (loc w') /\ (off <= off' <= n)%nat /\
    match at_head l with Wait => True | Skip => (off < off')%nat
    | Packet k _ => off' = off \/ (off + k <= off')%nat end /\
    match x with
    | inl r => drop off' (take n data) = r /\ versions (loc w') = (ap', 0, 0)
    | inr cp => found cp (drop off' (take n data)) /\ versions (loc w') = (ap', cp, 1)
    end).
Proof.
  induction 1 as [l ap Hw|l ap ap' x Hs Hf IH|l k v ap ap1 ap' x Hp Hv Hf IH|l k v ap ap' cp Hp Hv Hc];
    intros data n off fuel w Hl Hb Hn Hfuel Hver; (destruct fuel as [|fuel]; [lia|]); cbn [iterM];
    apply runs_bind; (eapply runs_mono; [by apply scan_turn_runs|]); cbn beta;
    rewrite <-Hl; intros r w1 (Hh1 & Hs1 & H1);
    assert (Hll : length l = (n - off)%nat) by (rewrite Hl, length_drop, length_take; lia).
  - rewrite Hw in H1 |- *. destruct H1 as [-> Hv1]. apply runs_ret.
    split; [done|]. split; [done|]. split; [lia|]. split; [done|]. split; [done|]. by rewrite Hv1.
  - rewrite Hs in H1 |- *. destruct H1 as [-> Hv1]. pose proof (skip_length _ Hs).
    assert (Hl1 : drop 1 l = drop (S off) (take n data)) by (by rewrite Hl, drop_step, Nat.add_1_r by lia).
    eapply runs_mono; [apply (IH data n); [done|done|lia|rewrite length_drop; lia|by rewrite Hv1]|].
    cbn beta. intros off' w2 (Hh2 & Hs2 & Ho & _ & Hx). split; [by rewrite Hh2|].
    split; [by eapply same_trans|]. split; [lia|]. split; [lia|done].
  - destruct (packet_bound _ _ _ Hp) as (Hk & _). rewrite Hp in H1 |- *. rewrite Hver in H1.
    rewrite (learn_taken _ _ _ _ Hv) in H1. destruct H1 as [Hv1 ->].
    assert (Hl1 : drop k l = drop (off + k) (take n data)) by (by rewrite Hl, drop_step by lia).
    eapply runs_mono; [apply (IH data n); [done|done|lia|rewrite length_drop; lia|by rewrite Hv1]|].
    cbn beta. intros off' w2 (Hh2 & Hs2 & Ho & _ & Hx). split; [by rewrite Hh2|].
    split; [by eapply same_trans|]. split; [lia|]. split; [right; lia|done].
  - destruct (learn_found _ _ _ _ _ _ Hp Hv Hc) as (-> & Hfd & Ht). rewrite Hp in H1 |- *.
    rewrite Hver, Ht in H1. destruct H1 as [Hv1 ->]. apply runs_ret.
    split; [done|]. split; [done|]. split; [lia|]. split; [by left|]. by rewrite <-Hl.
Qed.

(** ** A turn of the outer loop *)

Definition buffered (h : list Z) (s : ast) : Prop := data_len s = length h /\
  exists b, data_buf s = Some b /\ length b = data_max /\ take (length h) b = h.

Definition rest_of (room : nat) (buf : list Z) : list Z + unit :=
  match drop room buf with [] => inr tt | l => inl l end.

Lemma parse_turn_with h buf (w : world) (P : nat -> Z * Z * Z -> Prop) :
  buffered h (loc w) -> (length h <= data_max)%nat ->
  let room := (data_max - length h)%nat in let l := h ++ take room buf in
  (forall data w1, length data = data_max -> take (length l) data = l ->
     versions (loc w1) = versions (loc w) ->
     runs E (iterM (S data_max) (scan_turn data (length l)) 0%nat) w1 (fun off w' =>
       hist w' = hist w1 /\ same (loc w1) (loc w') /\ (off <= length l)%nat /\
       P off (versions (loc w')))) ->
  runs E (parse_turn buf) w (fun r w' => hist w' = hist w /\ g_pmap (loc w') = g_pmap (loc w) /\
    r = rest_of room buf /\ exists off, (off <= length l)%nat /\ P off (versions (loc w')) /\
    buffered (drop off l) (loc w')).
Proof.
  intros (Hlen & b & Hb & Hbl & Hbh) Hh room l Hscan. unfold parse_turn.
  apply runs_bind, runs_get. rewrite Hb. apply runs_bind. eapply runs_of_option; [reflexivity|]. cbn beta.
  rewrite Hlen. fold room.
  assert (Heq : (if (room <? length buf)%nat then (take room buf, drop room buf) else (buf, [])) =
    (take room buf, drop room buf)).
  { destruct (Nat.ltb_spec room (length buf)) as [?|Hr]; [done|]. by rewrite take_ge, drop_ge by lia. }
  rewrite Heq. clear Heq.
  assert (Hnow : (length (take room buf) <= room)%nat) by (rewrite length_take; lia).
  apply runs_bind. eapply runs_of_option; [apply wr_fits; lia|]. cbn beta.
  set (data := put (length h) (take room buf) b).
  assert (Hdl : length data = data_max) by (unfold data; rewrite length_put; lia).
  assert (Hll : length l = (length h + length (take room buf))%nat) by (unfold l; by rewrite length_app).
  assert (Hdt : take (length l) data = l).
  { unfold data, put, l. rewrite Hbh, app_assoc. by apply take_app_length. }
  rewrite <-Hll. apply runs_bind, runs_modify. cbn [loc hist].
  apply runs_bind. eapply runs_mono; [by apply Hscan|]. cbn beta.
  intros off w1 (Hh1 & (Hs1 & Hs2 & Hs3) & Ho & Hp). cbn [hist] in Hh1. clear Hscan.
  apply runs_bind. set (n' := (length l - off)%nat).
  assert (Hdrop : length (drop off l) = n') by (by rewrite length_drop).
  eapply (runs_mono E _ w1 (fun data' w2 => w2 = w1 /\ length data' = data_max /\ take n' data' = drop off l)).
  { destruct (Nat.eqb_spec n' 0) as [Hn0|Hn0]; cbn [negb andb].
    { apply runs_ret. split; [done|]. split; [done|]. rewrite Hn0 in *. symmetry.
      by apply nil_length_inv. }
    destruct (Nat.eqb_spec off 0) as [->|Ho0]; cbn [negb].
    { apply runs_ret. split; [done|]. split; [done|]. rewrite drop_0. unfold n'. by rewrite Nat.sub_0_r. }
    apply runs_bind. eapply runs_of_option; [apply rd_bytes_fits; unfold n'; alia|]. cbn beta.
    assert (Hsl : slice off n' data = drop off l).
    { rewrite <-Hdt, skipn_firstn_comm. done. }
    eapply runs_of_option; [apply wr_fits; rewrite Hsl; unfold n' in *; lia|].
    split; [done|]. rewrite Hsl. split; [rewrite length_put; unfold n' in *; lia|].
    rewrite put0, take_app_le by lia. by rewrite take_ge by lia. }
  cbn beta. intros data' ? (-> & Hl' & Ht').
  apply runs_bind, runs_modify, runs_ret. cbn [loc hist].
  split; [done|]. split; [exact Hs1|]. split; [unfold rest_of; by destruct (drop room buf)|].
  exists off. split; [done|]. split; [done|].
  split; [by rewrite Hdrop|]. exists data'. split; [done|]. split; [done|]. by rewrite Hdrop.
Qed.
(** A turn that finds the packet at the front of the buffer. *)
Lemma found_turn h buf ap c d cp (w : world) : buffered h (loc w) -> (length h <= data_max)%nat ->
  versions (loc w) = (ap, c, d) ->
  let room := (data_max - length h)%nat in let l := h ++ take room buf in
  found cp l -> bytes l ->
  runs E (parse_turn buf) w (fun x w' => hist w' = hist w /\ g_pmap (loc w') = g_pmap (loc w) /\
    x = rest_of room buf /\ versions (loc w') = (ap, cp, 1) /\ buffered l (loc w')).
Proof.
  intros Hbuf Hh Hv room l (Hc & Hs & k & Hk) Hb. destruct (packet_bound _ _ _ Hk) as (_ & _ & H16 & _).
  eapply runs_mono; [apply (parse_turn_with h buf w (fun off v => off = 0%nat /\ v = (ap, cp, 1)));
    [done|done|]|].
  - fold room l. intros data w1 Hdl Hdt Hv1. cbn [iterM]. assert (length l <= length data)%nat.
    { rewrite <-Hdt, length_take. lia. }
    apply runs_bind. eapply runs_mono; [apply scan_turn_runs; [by rewrite Hdt|lia]|].
    cbn beta. rewrite Hdt, drop_0, Hk, Hv1, Hv. cbn [taken]. rewrite Hs.
    cbn [Z.eqb Pos.eqb DIAG_SAP_CP DIAG_SAP_AP]. rewrite (proj2 (Z.eqb_neq cp 0)) by done.
    intros x w2 (Hh2 & Hsame & Hv2 & ->). apply runs_ret. repeat split; try done; try apply Hsame; lia.
  - cbn beta. fold room l. intros x w' (Hh' & Hp & -> & off & _ & (-> & Hv') & Hbuf').
    rewrite drop_0 in Hbuf'. done.
Qed.

(** The packet that ended the search is found again when bytes of the same read
    are left. *)
Lemma found_app cp r buf : found cp r -> found cp (r ++ buf).
Proof.
  intros (Hc & Hs & k & Hk). destruct (packet_bound _ _ _ Hk) as (_ & _ & H16 & _).
  split; [done|]. split; [by rewrite get_le_app by lia|]. exists k. by rewrite at_head_app by congruence.
Qed.

Lemma parse_again r buf ap cp (w : world) : buffered r (loc w) -> versions (loc w) = (ap, cp, 1) ->
  found cp r -> bytes (r ++ buf) -> (length (r ++ buf) <= data_max)%nat ->
  runs E (parse_turn buf) w (fun x w' => hist w' = hist w /\ g_pmap (loc w') = g_pmap (loc w) /\
    x = inr tt /\ versions (loc w') = (ap, cp, 1) /\ exists r', buffered r' (loc w')).
Proof.
  intros Hbuf Hv Hfd Hb Hl. rewrite length_app in Hl.
  eapply runs_mono; [apply (found_turn r buf ap cp 1 cp w);
    [done|lia|done|rewrite take_ge by lia; by apply found_app|by rewrite take_ge by lia]|].
  cbn beta. intros x w' (Hh & Hp & -> & Hv' & Hbuf'). unfold rest_of. rewrite drop_ge by lia.
  repeat split; try done. by eexists.
Qed.

(** Where bytes wait, the next item stands at their front. *)
Lemma wait_app h x : at_head h = Wait ->
  match at_head (h ++ x) with
  | Wait => True | Skip => (length h <= 16)%nat
  | Packet k _ => (length h < k)%nat \/ (length h <= 16)%nat
  end.
Proof.
  intros Hw. destruct (decide (length h <= 16)%nat) as [H16|H16]; [destruct (at_head (h ++ x)); [exact I|exact H16|by right]|].
  revert Hw. unfold at_head. rewrite length_app.
  rewrite !(proj2 (Nat.leb_gt _ _)) by lia. cbn zeta. rewrite !(get_le_app _ _ h) by lia.
  destruct (_ || _); [done|]. destruct (_ <? _); [done|].
  destruct (Nat.ltb_spec (length h) (Z.to_nat (get_le 0 2 h))) as [Hlt|?]; [|done].
  intros _. destruct (_ <? _)%nat; [done|]. by left.
Qed.

(** The bytes of a read that the buffer takes in any case. *)
Definition max_read : nat := (data_max - 26)%nat.

Lemma found_length cp r k : found cp r -> at_head r = Packet k (Some cp) -> k = 27%nat.
Proof.
  intros _ Hk. destruct (packet_bound _ _ _ Hk) as (_ & _ & _ & -> & Hv). unfold version_of in Hv.
  by destruct (Z.eqb_spec (get_le 0 2 r) 27) as [->|_].
Qed.

Lemma parse_turn_runs h buf ap ap' x (w : world) : buffered h (loc w) -> at_head h = Wait ->
  versions (loc w) = (ap, 0, 0) -> bytes (h ++ buf) ->
  let room := (data_max - length h)%nat in
  finds (h ++ take room buf) ap ap' x ->
  runs E (parse_turn buf) w (fun r w' => hist w' = hist w /\ g_pmap (loc w') = g_pmap (loc w) /\
    r = rest_of room buf /\ match x with
    | inl r' => buffered r' (loc w') /\ versions (loc w') = (ap', 0, 0) /\ bytes r'
    | inr cp => exists r', buffered r' (loc w') /\ versions (loc w') = (ap', cp, 1) /\ found cp r' /\
        bytes r' /\ (length r' <= 26 + length (take room buf))%nat
    end).
Proof.
  intros Hbuf Hw Hv Hb room Hf. pose proof (wait_length _ Hw) as Hh.
  set (l := h ++ take room buf) in *.
  assert (Hbl : bytes l).
  { unfold l. apply Forall_app in Hb as [? ?]. apply Forall_app. split; [done|by apply Forall_take]. }
  assert (Hll : (length l <= data_max)%nat) by (unfold l, room; rewrite length_app, length_take; lia).
  eapply runs_mono; [apply (parse_turn_with h buf w (fun off v => 
    match at_head l with Wait => True | Skip => (0 < off)%nat
    | Packet k _ => off = 0%nat \/ (k <= off)%nat end /\
    match x with
    | inl r => drop off l = r /\ v = (ap', 0, 0)
    | inr cp => found cp (drop off l) /\ v = (ap', cp, 1)
    end)); [done|lia|]|].
  - fold room l. intros data w1 Hdl Hdt Hv1.
    eapply runs_mono; [apply (scan_runs l ap ap' x Hf data (length l) 0);
      [by rewrite drop_0, Hdt|by rewrite Hdt|lia|lia|by rewrite Hv1]|].
    cbn beta. rewrite Hdt. intros off w2 (H1 & H2 & H3 & H4 & H5). repeat split; try done; try apply H2; lia.
  - cbn beta. fold room l. intros r w' (H1 & H2 & -> & off & Ho & (Hitem & Hx) & Hbuf').
    split; [done|]. split; [done|]. split; [done|].
    assert (Hbd : bytes (drop off l)) by (by apply Forall_drop).
    destruct x as [r|cp]; [destruct Hx as [<- Hx]; done|]. destruct Hx as [Hfd Hx].
    exists (drop off l). do 4 (split; [done|]). rewrite length_drop.
    pose proof (wait_app h (take room buf) Hw) as Hwa. fold l in Hwa.
    assert (Hlen : length l = (length h + length (take room buf))%nat) by (unfold l; by rewrite length_app).
    destruct Hfd as (Hc & Hs & k & Hk). destruct (decide (off = 0%nat)) as [->|Ho0].
    + rewrite drop_0 in Hk. rewrite Hk in Hwa.
      pose proof (found_length cp l k ltac:(done || (repeat split; try done; by exists k)) Hk). lia.
    + destruct (at_head l) as [| |k' v'] eqn:Hl; [|lia|lia].
      exfalso. inversion Hf; subst; congruence.
Qed.

Lemma parse_runs fuel : forall h buf ap ap' x (w : world), (length buf < fuel)%nat ->
  buffered h (loc w) -> at_head h = Wait -> versions (loc w) = (ap, 0, 0) -> bytes (h ++ buf) ->
  finds (h ++ buf) ap ap' x ->
  match x with inl _ => True | inr _ => (length buf <= max_read)%nat end ->
  runs E (iterM fuel parse_turn buf) w (fun _ w' => hist w' = hist w /\
    g_pmap (loc w') = g_pmap (loc w) /\
    match x with
    | inl r => buffered r (loc w') /\ versions (loc w') = (ap', 0, 0)
    | inr cp => versions (loc w') = (ap', cp, 1) /\ exists r, buffered r (loc w')
    end).
Proof.
  induction fuel as [|fuel IH]; intros h buf ap ap' x w Hfuel Hbuf Hw Hv Hb Hf Hx; [lia|].
  pose proof (wait_length _ Hw) as Hh. cbn [iterM]. set (room := (data_max - length h)%nat).
  assert (Hroom : (1 <= room)%nat) by (unfold room; lia).
  assert (Hsplit : length buf = (length (take room buf) + length (drop room buf))%nat)
    by (rewrite <-length_app; by rewrite take_drop).
  assert (Hbd : bytes (drop room buf)) by (apply Forall_app in Hb as [_ Hb]; by apply Forall_drop).
  rewrite <-(take_drop room buf), app_assoc in Hf.
  apply runs_bind. apply finds_split in Hf as [(ap1 & r1 & H1 & H2)|(cp & H1 & ->)].
  - eapply runs_mono; [by apply (parse_turn_runs h buf ap ap1 (inl r1))|]. cbn beta.
    intros r w1 (Hh1 & Hp1 & -> & Hbuf1 & Hv1 & Hb1). fold room. unfold rest_of.
    pose proof (finds_waits _ _ _ _ H1) as Hw1.
    destruct (drop room buf) as [|b later] eqn:Hl.
    + apply runs_ret. rewrite app_nil_r in H2. destruct (finds_waiting _ _ _ _ Hw1 H2) as [-> ->]. done.
    + assert (Hlen : (length (b :: later) < length buf)%nat).
      { rewrite Hsplit, length_take. cbn [length] in *. lia. }
      eapply runs_mono; [apply (IH r1 (b :: later) ap1 ap' x); try done; [lia|by apply Forall_app|]|].
      { destruct x; [done|lia]. }
      cbn beta. intros _ w2 (Hh2 & Hp2 & H3). split; [by rewrite Hh2|]. split; [by rewrite Hp2|]. done.
  - eapply runs_mono; [by apply (parse_turn_runs h buf ap ap' (inr cp))|]. cbn beta.
    intros r w1 (Hh1 & Hp1 & -> & r1 & Hbuf1 & Hv1 & Hfd & Hb1 & Hr1). fold room in Hr1 |- *. unfold rest_of.
    destruct (drop room buf) as [|b later] eqn:Hl.
    + apply runs_ret. split; [done|]. split; [done|]. split; [done|]. by exists r1.
    + assert (2 <= length buf)%nat.
      { rewrite Hsplit, length_take. cbn [length] in *. lia. }
      destruct fuel as [|fuel]; [lia|]. cbn [iterM]. apply runs_bind.
      eapply runs_mono; [apply (parse_again r1 (b :: later) ap' cp); try done; [by apply Forall_app|]|].
      { rewrite length_app. unfold max_read in Hx. alia. }
      cbn beta. intros r w2 (Hh2 & Hp2 & -> & Hv2 & r2 & Hbuf2). apply runs_ret.
      split; [by rewrite Hh2|]. split; [by rewrite Hp2|]. split; [done|]. by exists r2.
Qed.
(** ** The log *)

(** What a file holds: what is written and saved to it, and what is stored
    through the mapping of its header. *)
Fixpoint asr_file (fd : Z) (h : list (io asys)) : list Z :=
  match h with
  | [] => []
  | Ev c _ :: h' =>
      match c with
      | Write f b | LogfileSave f b => if f =? fd then asr_file fd h' ++ b else asr_file fd h'
      | MapStore _ off v => put off v (asr_file fd h')
      | _ => asr_file fd h'
      end
  end.

(** The buffer holds the bytes [h]; it is allocated when the first ones come. *)
Definition ready (h : list Z) (s : ast) : Prop :=
  match data_buf s with None => h = [] /\ data_len s = 0%nat | Some _ => buffered h s end.

Context (Hmem : forall h n, is_Some (E _ h (Malloc n))) (logfd : Z) (Hfd : 0 < logfd).
Abbreviation file := (asr_file logfd).

Lemma parser_starts fuel h buf (w : world) : ready h (loc w) -> exists w1, buffered h (loc w1) /\
  versions (loc w1) = versions (loc w) /\ g_pmap (loc w1) = g_pmap (loc w) /\
  file (hist w1) = file (hist w) /\
  asr_parser_dbversion fuel buf E w = iterM fuel parse_turn buf E w1.
Proof.
  intros Hr. unfold ready in Hr. destruct (data_buf (loc w)) as [d|] eqn:Hd.
  - exists (World ((loc w) <| data_buf := Some d |>) (hist w)).
    split; [|do 3 (split; [done|]); unfold asr_parser_dbversion, get, mbind, M_bind; cbn beta iota; by rewrite Hd].
    destruct Hr as (H1 & b & H2 & H3). split; [done|]. exists b. split; [|done]. cbn. congruence.
  - destruct Hr as [-> Hl]. destruct (Hmem (hist w) (Z.of_nat data_max)) as [f Hf].
    exists (World ((loc w) <| data_buf := Some (map f (seq 0 data_max)) |>)
      (Ev (Malloc (Z.of_nat data_max)) (Some f) :: hist w)).
    split; [|do 3 (split; [done|]);
      unfold asr_parser_dbversion, malloc, call, get, mbind, M_bind; cbn beta iota; by rewrite Hd, Hf].
    split; [done|]. eexists. split; [reflexivity|]. split; [by rewrite length_map, length_seq|done].
Qed.

Lemma parser_runs fuel h buf (w : world) Q : ready h (loc w) ->
  (forall w1, buffered h (loc w1) -> versions (loc w1) = versions (loc w) ->
     g_pmap (loc w1) = g_pmap (loc w) -> file (hist w1) = file (hist w) ->
     runs E (iterM fuel parse_turn buf) w1 Q) ->
  runs E (asr_parser_dbversion fuel buf) w Q.
Proof.
  intros Hr Hrun. destruct (parser_starts fuel h buf w Hr) as (w1 & H1 & H2 & H3 & H4 & Heq).
  unfold runs. rewrite Heq. by apply Hrun.
Qed.

Definition searched (ap' : Z) (x : list Z + Z) (s : ast) : Prop :=
  match x with
  | inl r => ready r s /\ versions s = (ap', 0, 0)
  | inr cp => versions s = (ap', cp, 1)
  end.

Lemma file_save b h r : asr_file logfd (Ev (LogfileSave logfd b) r :: h) = asr_file logfd h ++ b.
Proof. cbn [asr_file]. by rewrite Z.eqb_refl. Qed.

Lemma save_searching fuel h buf ap ap' x (w : world) : ready h (loc w) -> at_head h = Wait ->
  versions (loc w) = (ap, 0, 0) -> bytes (h ++ buf) -> finds (h ++ buf) ap ap' x ->
  (length buf < fuel)%nat -> (length buf <= max_read)%nat ->
  runs E (asr_logfile_save fuel logfd buf) w (fun _ w' => g_pmap (loc w') = g_pmap (loc w) /\
    file (hist w') = file (hist w) ++ buf /\ searched ap' x (loc w')).
Proof.
  intros Hr Hw Hv Hb Hf Hfuel Hx. unfold asr_logfile_save. destruct buf as [|b buf].
  { apply runs_ret. rewrite app_nil_r in Hf |- *. destruct (finds_waiting _ _ _ _ Hw Hf) as [-> ->]. done. }
  rewrite (proj2 (Z.leb_gt logfd 0)) by lia. apply runs_bind, runs_get. cbn beta.
  assert (Hd : g_query_version_done (loc w) = 0) by (unfold versions in Hv; congruence).
  rewrite Hd. change (0 =? 0) with true. apply runs_bind. apply (parser_runs fuel h); [done|].
  intros w1 Hb1 Hv1 Hp1 Hf1.
  eapply runs_mono; [apply (parse_runs fuel h (b :: buf) ap ap' x); try done; [by rewrite Hv1|by destruct x]|].
  cbn beta. intros _ w2 (Hh2 & Hp2 & H2). apply runs_call. cbn [loc hist].
  split; [by rewrite Hp2|]. split; [by rewrite file_save, Hh2, Hf1|].
  destruct x as [r|cp]; [|by destruct H2]. destruct H2 as [H2 ?]. split; [|done].
  unfold ready. pose proof H2 as (_ & b2 & -> & _). done.
Qed.

Lemma save_searched fuel buf ap cp (w : world) : versions (loc w) = (ap, cp, 1) ->
  runs E (asr_logfile_save fuel logfd buf) w (fun _ w' => g_pmap (loc w') = g_pmap (loc w) /\
    file (hist w') = file (hist w) ++ buf /\ versions (loc w') = (ap, cp, 1)).
Proof.
  intros Hv. unfold asr_logfile_save. destruct buf as [|b buf].
  { apply runs_ret. by rewrite app_nil_r. }
  rewrite (proj2 (Z.leb_gt logfd 0)) by lia. apply runs_bind, runs_get. cbn beta.
  assert (Hd : g_query_version_done (loc w) = 1) by (unfold versions in Hv; congruence).
  rewrite Hd. change (1 =? 0) with false. apply runs_bind, runs_ret, runs_call. cbn [loc hist].
  by rewrite file_save.
Qed.

Lemma saves_searched fuel bufs ap cp : forall w : world, versions (loc w) = (ap, cp, 1) ->
  runs E (forM bufs (fun b => asr_logfile_save fuel logfd b;; mret tt)) w (fun _ w' =>
    g_pmap (loc w') = g_pmap (loc w) /\ file (hist w') = file (hist w) ++ concat bufs /\
    versions (loc w') = (ap, cp, 1)).
Proof.
  induction bufs as [|b bufs IH]; intros w Hv; cbn [forM concat].
  { apply runs_ret. by rewrite app_nil_r. }
  apply runs_bind, runs_bind. eapply runs_mono; [by apply (save_searched fuel b ap cp)|]. cbn beta.
  intros _ w1 (Hp1 & Hf1 & Hv1). apply runs_ret. eapply runs_mono; [by apply IH|]. cbn beta.
  intros _ w2 (Hp2 & Hf2 & Hv2). split; [by rewrite Hp2|]. split; [|done]. by rewrite Hf2, Hf1, app_assoc.
Qed.

Definition read_ok (fuel : nat) (b : list Z) : Prop :=
  bytes b /\ (length b < fuel)%nat /\ (length b <= max_read)%nat.

Lemma finds_bytes l ap ap' r : bytes l -> finds l ap ap' (inl r) -> bytes r.
Proof.
  intros Hb H. remember (inl r) as x. revert Hb.
  induction H; intros Hb; simplify_eq; [done|by apply IHfinds, Forall_drop..].
Qed.

Lemma saves_runs fuel bufs : Forall (read_ok fuel) bufs ->
  forall h ap ap' x (w : world), ready h (loc w) -> at_head h = Wait -> bytes h ->
  versions (loc w) = (ap, 0, 0) -> finds (h ++ concat bufs) ap ap' x ->
  runs E (forM bufs (fun b => asr_logfile_save fuel logfd b;; mret tt)) w (fun _ w' =>
    g_pmap (loc w') = g_pmap (loc w) /\ file (hist w') = file (hist w) ++ concat bufs /\
    searched ap' x (loc w')).
Proof.
  induction 1 as [|b bufs (Hb & Hfu & Hmax) Hbufs IH]; intros h ap ap' x w Hr Hw Hh Hv Hf; cbn [forM concat] in *.
  { apply runs_ret. rewrite app_nil_r in Hf |- *. destruct (finds_waiting _ _ _ _ Hw Hf) as [-> ->]. done. }
  assert (Hbb : bytes (h ++ b)) by (by apply Forall_app).
  rewrite app_assoc in Hf. apply runs_bind, runs_bind.
  apply finds_split in Hf as [(ap1 & r1 & H1 & H2)|(cp & H1 & ->)];
    (eapply runs_mono; [by eapply save_searching|]); cbn beta; intros _ w1 (Hp1 & Hf1 & Hs1); apply runs_ret.
  - destruct Hs1 as [Hr1 Hv1].
    eapply runs_mono; [apply (IH r1 ap1 ap' x); try done; [by eapply finds_waits|by eapply finds_bytes]|].
    cbn beta. intros _ w2 (Hp2 & Hf2 & Hs2). split; [by rewrite Hp2|]. split; [|done].
    by rewrite Hf2, Hf1, app_assoc.
  - eapply runs_mono; [by apply (saves_searched fuel bufs ap' cp)|]. cbn beta.
    intros _ w2 (Hp2 & Hf2 & Hs2). split; [by rewrite Hp2|]. split; [|done].
    by rewrite Hf2, Hf1, app_assoc.
Qed.

(** ** The whole file *)

Definition found_versions (ap : Z) (x : list Z + Z) : Z * Z :=
  (ap, match x with inl _ => 0 | inr cp => cp end).

Lemma close_runs (w : world) a0 c0 q t d m : g_pmap (loc w) = Some m ->
  file (hist w) = SDLHeader a0 c0 q t ++ d ->
  runs E (asr_logfile_close logfd) w (fun _ w' =>
    file (hist w') = SDLHeader (g_u32APVersion (loc w)) (g_u32CPVersion (loc w)) q t ++ d).
Proof.
  intros Hm Hf. unfold asr_logfile_close, asr_sync_header.
  apply runs_bind. apply runs_bind, runs_call. apply runs_bind, runs_get.
  cbn [loc hist]. rewrite Hm. apply runs_bind. apply runs_bind, runs_call, runs_bind, runs_call, runs_call.
  cbn [loc hist]. apply runs_modify, runs_bind, runs_call, runs_ret. cbn [loc hist asr_file].
  rewrite Hf. reflexivity.
Qed.
End Scan.

(** C14: A log file begun before the versions of the data bases are known, then
    given the reads, then closed, holds a header with the versions that the
    reference receiver finds in the stream, and behind it the stream itself,
    however the stream is cut into reads of at most 8166 bytes.  Like the code the receiver stops at the first
    CP version, so an AP version that comes later is not in the header, although the NOTICE of
    the file says to ask until both are known. *)
Theorem asr_log_file_exact (E : env asys) fuel logfd seq bufs h ap ap' x w :
  (forall h n, is_Some (E _ h (Malloc n))) -> (forall h, is_Some (E _ h (Mmap logfd CSDLFileHeader))) ->
  0 < logfd -> asr_file logfd (hist w) = [] -> ready h (loc w) -> at_head h = Wait -> bytes h ->
  versions (loc w) = (ap, 0, 0) -> Forall (read_ok fuel) bufs -> finds (h ++ concat bufs) ap ap' x ->
  runs E (asr_logfile_init false logfd seq;;
          forM bufs (fun b => asr_logfile_save fuel logfd b;; mret tt);;
          asr_logfile_close logfd) w (fun _ w' =>
    exists t, asr_file logfd (hist w') =
      SDLHeader (found_versions ap' x).1 (found_versions ap' x).2 seq t ++ concat bufs).
Proof.
  intros Hmem Hmap Hfd Hf0 Hr Hw Hh Hv Hbufs Hf. unfold asr_logfile_init.
  assert (Hd : g_query_version_done (loc w) = 0) by (unfold versions in Hv; congruence).
  do 2 apply runs_bind. apply runs_call. cbn [loc hist]. set (t := E _ _ Time).
  apply runs_bind, runs_get. cbn [loc hist]. apply runs_bind, runs_call. cbn [loc hist].
  apply runs_bind, runs_get. cbn [loc hist]. rewrite Hd, (proj2 (Z.ltb_lt 0 logfd)) by done.
  cbn [Z.eqb andb negb]. apply runs_bind. apply runs_bind, runs_call, runs_modify. cbn [loc hist].
  destruct (Hmap (Ev (Write logfd (SDLHeader (g_u32APVersion (loc w)) (g_u32CPVersion (loc w)) seq t))
    (E _ (Ev Time t :: hist w) (Write logfd (SDLHeader (g_u32APVersion (loc w)) (g_u32CPVersion (loc w)) seq t)))
    :: Ev Time t :: hist w)) as [m Hm]. rewrite Hm.
  apply runs_ret, runs_bind. set (w1 := World _ _).
  assert (Hf1 : asr_file logfd (hist w1) = SDLHeader (g_u32APVersion (loc w)) (g_u32CPVersion (loc w)) seq t).
  { unfold w1. cbn [hist asr_file]. by rewrite Z.eqb_refl, Hf0. }
  eapply runs_mono; [by apply (saves_runs E Hmem logfd Hfd fuel bufs Hbufs h ap ap' x w1)|].
  cbn beta. intros _ w2 (Hp2 & Hf2 & Hs2). rewrite Hf1 in Hf2.
  eapply runs_mono; [by eapply (close_runs E logfd w2 _ _ seq t (concat bufs) m)|].
  cbn beta. intros _ w3 H3. exists t. rewrite H3. unfold found_versions, searched in *.
  destruct x as [r|cp]; [destruct Hs2 as [_ Hs2]|]; unfold versions in Hs2;
    injection Hs2 as -> -> _; done.
Qed.

(** A read that holds a CP version packet at its front and more than 8192
    bytes in all never ends: the packet stays at the front of the full buffer,
    where it is found again at every turn, and no byte of the read fits behind
    it. *)
Theorem asr_read_spins (E : env asys) fuel logfd buf ap cp w :
  (forall h n, is_Some (E _ h (Malloc n))) -> 0 < logfd -> ready [] (loc w) ->
  versions (loc w) = (ap, 0, 0) -> bytes buf -> found cp buf -> (data_max < length buf)%nat ->
  spins E (asr_logfile_save fuel logfd buf) w.
Proof.
  intros Hmem Hfd Hr Hv Hb Hfound Hlen. set (l := take data_max buf).
  assert (Hll : length l = data_max) by (unfold l; rewrite length_take; lia).
  assert (Hbl : bytes l) by (by apply Forall_take).
  assert (Hfl : found cp l).
  { destruct Hfound as (Hc & Hs & k & Hk). pose proof (found_length cp buf k ltac:(repeat split; eauto) Hk) as ->.
    pose proof (wait_app l (drop data_max buf)) as Hwa. unfold l in Hwa. rewrite take_drop, Hk in Hwa.
    fold l in Hwa. rewrite Hll in Hwa. assert (Hnw : at_head l <> Wait).
    { intros Hw. apply Hwa in Hw. alia. }
    split; [done|]. rewrite <-(take_drop data_max buf) in Hs, Hk. fold l in Hs, Hk.
    rewrite get_le_app in Hs by alia. split; [done|]. exists 27%nat. by rewrite at_head_app in Hk. }
  destruct (drop data_max buf) as [|b later] eqn:Hd.
  { apply (f_equal length) in Hd. rewrite length_drop in Hd. cbn [length] in Hd. lia. }
  assert (Hloop : forall fuel (w' : world asys ast), buffered l (loc w') -> versions (loc w') = (ap, cp, 1) ->
    spins E (iterM fuel parse_turn (b :: later)) w').
  { intros fl w' H1 H2. apply (spins_iterM E _ (fun a w1 => a = b :: later /\ buffered l (loc w1) /\
      versions (loc w1) = (ap, cp, 1))); [|done]. clear w' H1 H2. intros a w1 (-> & H1 & H2).
    assert (Htake : l ++ take (data_max - length l) (b :: later) = l)
      by (by rewrite Hll, Nat.sub_diag, take_0, app_nil_r).
    eapply runs_mono; [apply (found_turn E l (b :: later) ap cp 1 cp w1);
      [done|lia|done|by rewrite Htake|by rewrite Htake]|].
    cbn beta. rewrite Htake. intros x w2 (_ & _ & -> & Hv2 & Hb2). unfold rest_of.
    by rewrite Hll, Nat.sub_diag, drop_0. }
  unfold asr_logfile_save. destruct buf as [|b0 buf']; [cbn in Hlen; lia|].
  rewrite (proj2 (Z.leb_gt logfd 0)) by lia. apply spins_then, runs_get. cbn beta.
  assert (Hdone : g_query_version_done (loc w) = 0) by (unfold versions in Hv; congruence).
  rewrite Hdone. change (0 =? 0) with true. apply spins_first.
  destruct (parser_starts E Hmem logfd fuel [] (b0 :: buf') w Hr) as (w1 & H1 & H2 & _ & _ & Heq).
  unfold spins. rewrite Heq. destruct fuel as [|fuel]; [done|]. cbn [iterM]. apply spins_then.
  eapply runs_mono; [apply (found_turn E [] (b0 :: buf') ap 0 0 cp w1);
    [done|cbn [length]; lia|by rewrite H2| |]; cbn [length app]; by rewrite Nat.sub_0_r|].
  cbn beta. cbn [length app]. rewrite Nat.sub_0_r. unfold rest_of. rewrite Hd. fold l.
  intros x w2 (_ & _ & -> & Hv2 & Hb2). by apply Hloop.
Qed.

(** ** Witnesses *)

Definition asr_demo_env : env asys := fun A _ c =>
  match c in asys B return B with
  | PollWrite _ b _ => len b
  | Usleep _ => []
  | Time => 0x65000000
  | Write _ b => len b
  | Mmap _ _ => Some 1
  | MapStore _ _ _ => tt
  | Munmap _ => tt
  | Fsync _ => tt
  | LogfileSave _ b => len b
  | LogfileClose _ => tt
  | Malloc _ => Some (fun _ => 7)
  end.

(** A packet of the module, and the answers to the two requests. *)
Definition asr_packet : list Z := [0x11; 0; 0; 0; 7; 0; 1; 0; 2; 0; 3; 0; 0x10; 0; 0; 0; 0x55].
Definition ap_answer : list Z :=
  [0x1b; 0; 0; 0; 0x01; 0x80; 0; 0; 0xff; 0xff; 0; 0; 0x19; 0x11; 6; 0] ++ str "0x660ce98d" ++ [0].
Definition cp_answer : list Z :=
  [0x1b; 0; 0; 0; 1; 0; 0; 0; 0xff; 0xff; 0; 0; 0x45; 0x49; 0x5c; 5] ++ str "0x0000100b" ++ [0].
Definition asr_reads : list (list Z) :=
  [asr_packet ++ take 5 ap_answer; drop 5 ap_answer ++ take 20 cp_answer; drop 20 cp_answer ++ asr_packet].
Definition asr_demo_st : ast := Ast 0 0 0 0 None None 0 0.

Lemma asr_reads_find : finds (concat asr_reads) 0 0x660ce98d (inr 0x100b).
Proof.
  eapply finds_packet; [vm_compute; reflexivity..|].
  eapply finds_packet; [vm_compute; reflexivity..|].
  eapply finds_done; [vm_compute; reflexivity..|done].
Qed.

Lemma asr_reads_ok : Forall (read_ok 1000) asr_reads.
Proof.
  unfold asr_reads. repeat (apply Forall_cons_2; [split; [by apply bytes_dec|]|]); [..|by apply Forall_nil_2];
    match goal with |- (length ?l < _)%nat /\ _ =>
      let n := eval vm_compute in (length l) in change (length l) with n end;
    unfold max_read; split; alia.
Qed.

Lemma asr_log_file_exact_witness :
  runs asr_demo_env (asr_logfile_init false 5 1;;
      forM asr_reads (fun b => asr_logfile_save 1000 5 b;; mret tt);; asr_logfile_close 5)
    (World asr_demo_st []) (fun _ w' => exists t, asr_file 5 (hist w') =
      SDLHeader 0x660ce98d 0x100b 1 t ++ concat asr_reads).
Proof.
  apply (asr_log_file_exact asr_demo_env 1000 5 1 asr_reads [] 0 0x660ce98d (inr 0x100b));
    [by eexists|by eexists|lia|done|done|done|constructor|done|exact asr_reads_ok|exact asr_reads_find].
Defined.

Lemma asr_read_spins_witness :
  spins asr_demo_env (asr_logfile_save 1000 5 (cp_answer ++ replicate data_max 0)) (World asr_demo_st []).
Proof.
  apply (asr_read_spins asr_demo_env 1000 5 _ 0 0x100b); [by eexists|lia|done|done| | |].
  - apply Forall_app. split; [|by apply Forall_replicate].
    by apply bytes_dec.
  - apply found_app. split; [done|]. split; [reflexivity|]. eexists. vm_compute. reflexivity.
  - rewrite length_app, length_replicate. change (length cp_answer) with 27%nat. lia.
Defined.

