(* ===== verification/Mtk.v ===== *)
(** Logging of the MediaTek modules (src/mtk.c): the commands that start and
    end a log, the filter that is sent from a file, and the log itself. *)

From Stdlib Require Import ZArith Lia.
From stdpp Require Import base list.
From S2P Require Import Prelude.

(** [StatSize] is the size that [get_file_size] finds in its buffer, as an
    [int], whatever [stat] answers; [Read] answers the bytes read, [None] for
    -1; [Malloc] what the memory happens to hold. *)
Inductive ksys : Type -> Type :=
| PollWrite (fd : Z) (buf : list Z) (timeout : Z) : ksys Z
| StatSize (path : list Z) : ksys Z
| Malloc (n : Z) : ksys (option (nat -> Z))
| Open (path : list Z) : ksys Z
| Read (fd size : Z) : ksys (option (list Z))
| Close (fd : Z) : ksys unit
| LogfileSave (fd : Z) (buf : list Z) : ksys Z.

(** mtk.c has no variables. *)
Abbreviation K := (M ksys unit).

Definition connect_cmd : list Z :=
  [0xac; 0xca; 0xef; 0x10; 0x18; 0x00; 0x00; 0x00; 0x10; 0xa0; 0x00; 0x00; 0xa4; 0x6a; 0xef; 0x10; 0x17; 0x08; 0x00; 0x00;
   0xac; 0xdb; 0xcf; 0xe5; 0x16; 0x10; 0x00; 0x00; 0x00; 0x2e; 0x00; 0x2e; 0x00; 0x02; 0x00; 0x00; 0xBD; 0xDB; 0x5E; 0x00].
Definition disconnect_cmd : list Z :=
  [0xac; 0xca; 0xef; 0x10; 0x18; 0x00; 0x00; 0x00; 0x10; 0xa0; 0x00; 0x00; 0xa4; 0x6a; 0xef; 0x10; 0x17; 0x08; 0x00; 0x00;
   0xac; 0xdb; 0xcf; 0xe5; 0x16; 0x10; 0x00; 0x00; 0x00; 0x2f; 0x00; 0x2f; 0x05; 0x00; 0x00; 0x00; 0xBD; 0xDB; 0x63; 0x00].

Definition mtk_send_connect_cmd (fd : Z) : K Z := r ← call (PollWrite fd connect_cmd 0); mret (s32 r).
Definition mtk_send_disconnect_cmd (fd : Z) : K Z := r ← call (PollWrite fd disconnect_cmd 0); mret (s32 r).

Definition get_file_size (filename : list Z) : K Z := call (StatSize filename).

(** A read to [rbuf + total]; nothing bounds [total + rbuf_size]. *)
Definition read_cfg (cfgfd : Z) (rbuf : list Z) (total rbuf_size : Z) : K (Z * list Z) :=
  r ← call (Read cfgfd rbuf_size);
  match r with
  | None => mret (-1, rbuf)
  | Some d =>
      if total <? 0 then undef else
      rbuf ← of_option (wr (Z.to_nat total) d rbuf); mret (len d, rbuf)
  end.

(** The loop that reads the rest, ten turns at most. *)
Definition read_rest (cfgfd : Z) (rbuf : list Z) (total rbuf_size : Z) : K (Z * list Z) :=
  iterM 12 (fun '(read_count, total, rbuf) =>
    if negb ((total <? rbuf_size) && (0 <? cfgfd) && negb (read_count =? 0)) then mret (inr (total, rbuf)) else
    '(cfg_size, rbuf) ← read_cfg cfgfd rbuf total rbuf_size;
    mret (inl (read_count - 1, total + cfg_size, rbuf))) (10, total, rbuf).

Definition close_cfg (cfgfd ret : Z) : K Z := (if 0 <? cfgfd then call (Close cfgfd) else mret tt);; mret ret.

Definition mtk_send_filter_cfg (fd : Z) (cfg : option (list Z)) : K Z :=
  match cfg with
  | None => mret (-1)
  | Some cfg =>
      rbuf_size ← get_file_size cfg;
      m ← call (Malloc (u64 (s32 (rbuf_size + 1))));
      match m with
      | None => mret (-1)
      | Some m =>
          let rbuf := map m (seq 0 (Z.to_nat (rbuf_size + 1))) in
          cfgfd ← call (Open cfg);
          if cfgfd <? 0 then mret (-1) else
          '(total, rbuf) ← read_cfg cfgfd rbuf 0 rbuf_size;
          if total =? -1 then close_cfg cfgfd (-1) else
          '(total, rbuf) ← read_rest cfgfd rbuf total rbuf_size;
          if total =? rbuf_size then
            b ← of_option (rd_bytes 0 (Z.to_nat total) rbuf);
            r ← call (PollWrite fd b 0);
            close_cfg cfgfd (if r <=? 0 then -1 else 1)
          else close_cfg cfgfd (-1)
      end
  end.

Definition mtk_init_filter (fd : Z) (cfg : option (list Z)) : K Z :=
  mtk_send_connect_cmd fd;; mtk_send_filter_cfg fd cfg;; mret 0.
Definition mtk_clean_filter (fd : Z) : K Z := mtk_send_disconnect_cmd fd;; mret 0.
Definition mtk_logfile_init (logfd logfile_seq : Z) : K Z := mret 0.

Definition mtk_logfile_save (logfd : Z) (buf : list Z) : K Z :=
  match buf with
  | [] => mret 0
  | _ => if logfd <=? 0 then mret (len buf) else call (LogfileSave logfd buf)
  end.
