(* ===== verification/LogFile.v ===== *)
(** The log files of the log tool (src/main.c): their names, their creation on
    a disk, a TFTP server or an FTP server, the removal of the file that an old
    sequence number had, their end, and the thread that compresses them. *)

From Stdlib Require Import ZArith Lia.
From stdpp Require Import base list strings.
From S2P Require Import Prelude Str.

(** ** Calls and variables *)

Record tm : Type := Tm {
  tm_year : Z; tm_mon : Z; tm_mday : Z; tm_hour : Z; tm_min : Z; tm_sec : Z;
}.

(** [Module c] is a call of the code of the module at hand.  [Open] creates or
    truncates a file; [FileSize] opens a file and seeks to its end; [LogfileSave]
    is [qlog_logfile_save]; [KfifoFree fd] frees the cache of [fd], if it has
    one; [SignalledExit] reads the flag that the signal handler sets;
    [PollReadFds] is [qlog_poll_read_fds]: the descriptor that was ready and what
    was read from it, [None] for 0 and -1. *)
Inductive lsys (mc : Type -> Type) : Type -> Type :=
| Module {A} (c : mc A) : lsys mc A
| Open (path : list Z) : lsys mc Z
| FileSize (path : list Z) : lsys mc (option Z)
| TftpWriteRequest (name : list Z) (size : Z) : lsys mc Z
| FtpWriteRequest (index : Z) (name : list Z) : lsys mc Z
| TcpClientCreate (dir suffix : list Z) (seq : Z) : lsys mc Z
| KfifoAlloc (fd : Z) : lsys mc unit
| KfifoFree (fd : Z) : lsys mc unit
| Close (fd : Z) : lsys mc Z
| Readable (path : list Z) : lsys mc bool
| Remove (path : list Z) : lsys mc unit
| LocalTime : lsys mc (option tm)
| MonotonicNsec : lsys mc Z
| CheckWorkDirSize (dir : list Z) : lsys mc unit
| CreateQueue : lsys mc bool
| Enqueue (name : list Z) : lsys mc unit
| DestroyQueue : lsys mc unit
| LogfileSave (fd : Z) (buf : list Z) : lsys mc Z
| StartCompressThread (ret : Z) : lsys mc unit
| System (command : list Z) : lsys mc Z
| SignalledExit : lsys mc bool
| PollReadFds (fds : list Z) (size timeout : Z) : lsys mc (option (Z * list Z))
| Malloc (n : Z) : lsys mc (option (nat -> Z))
| StartFilterThread (fd : Z) : lsys mc bool
| JoinFilterThread : lsys mc unit
| SendCfun : lsys mc Z
| Sleep (secs : Z) : lsys mc unit.
Arguments Module {mc A}.
Arguments Open {mc}. Arguments FileSize {mc}. Arguments TftpWriteRequest {mc}.
Arguments FtpWriteRequest {mc}. Arguments TcpClientCreate {mc}. Arguments KfifoAlloc {mc}.
Arguments KfifoFree {mc}. Arguments Close {mc}. Arguments Readable {mc}. Arguments Remove {mc}.
Arguments LocalTime {mc}. Arguments MonotonicNsec {mc}. Arguments CheckWorkDirSize {mc}.
Arguments CreateQueue {mc}. Arguments Enqueue {mc}. Arguments DestroyQueue {mc}.
Arguments LogfileSave {mc}. Arguments StartCompressThread {mc}. Arguments System {mc}.
Arguments SignalledExit {mc}. Arguments PollReadFds {mc}. Arguments Malloc {mc}.
Arguments StartFilterThread {mc}. Arguments JoinFilterThread {mc}. Arguments SendCfun {mc}.
Arguments Sleep {mc}.

(** What the options and the module at hand decide. *)
Record settings : Type := Settings {
  tftp_server : bool;
  ftp_server : bool;
  g_tcp_server_port : Z;
  g_tcp_client_port : Z;
  args_logdir : list Z;
  args_logfile_sz : Z;
  s_logfile_num : Z;
  g_use_compress_cmd : Z;
  g_is_asr_chip : Z;
  g_is_unisoc_chip : Z;
  g_is_unisoc_exx00u_chip : Z;
  g_is_qualcomm_chip : Z;
  g_is_mtk_chip : Z;
  g_is_eigen_chip : Z;
  dpl_version : Z;
  qlog_read_nmea_log : bool;
  use_qmdl2_v2 : bool;
  qlog_continue : bool;
  general_type : Z;
  third_type : Z;
  query_panic_addr : Z;
}.

(** The variables of main.c, and those of the module. *)
Record gs {T : Type} : Type := Gs {
  s_logfile_List : list (list Z);
  s_logfile_seq : Z;
  s_logfile_idx : Z;
  second_logfile : Z;
  third_logfile : Z;
  second_logfile_suffix : option (list Z);
  third_logfile_suffix : option (list Z);
  g_compress_diag_file_name : list Z;
  g_compress_second_file_name : list Z;
  g_compress_third_file_name : list Z;
  compress_first_filename : list Z;
  compress_second_filename : list Z;
  compress_third_filename : list Z;
  g_donot_split_logfile : Z;
  qlog_exit_requested : Z;
  exit_after_usb_disconnet : Z;
  qlog_abnormal_exit : Z;
  g_rx_log_count : Z;
  g_send_at_flag : Z;
  g_unisoc_log_type : Z;
  g_unisoc_exx00u_log_type : Z;
  g_qualcomm_log_type : Z;
  uis8310_module_in_apdump : Z;
  modst : T;
}.
Arguments gs : clear implicits.
Arguments Gs {T}.
#[export] Instance eta_gs T : Eta (gs T) := fun s =>
  Gs (s_logfile_List s) (s_logfile_seq s) (s_logfile_idx s) (second_logfile s) (third_logfile s)
    (second_logfile_suffix s) (third_logfile_suffix s) (g_compress_diag_file_name s)
    (g_compress_second_file_name s) (g_compress_third_file_name s) (compress_first_filename s)
    (compress_second_filename s) (compress_third_filename s) (g_donot_split_logfile s)
    (qlog_exit_requested s) (exit_after_usb_disconnet s) (qlog_abnormal_exit s) (g_rx_log_count s)
    (g_send_at_flag s) (g_unisoc_log_type s) (g_unisoc_exx00u_log_type s) (g_qualcomm_log_type s)
    (uis8310_module_in_apdump s) (modst s).

(** ** Names *)

(** Decimal numbers of at least [n] places. *)
Definition pad0 (n : nat) (s : list Z) : list Z := replicate (n - length s) 48 ++ s.
Definition dec0 (n : nat) (z : Z) : list Z :=
  if z <? 0 then 45 :: pad0 (n - 1) (digits_of 10 20 (- z)) else pad0 n (digits_of 10 20 z).

Definition time_text (type : Z) (t : tm) (msec : Z) : list Z :=
  let y := dec0 4 (tm_year t + 1900) in let mo := dec0 2 (tm_mon t + 1) in let d := dec0 2 (tm_mday t) in
  let h := dec0 2 (tm_hour t) in let mi := dec0 2 (tm_min t) in let s := dec0 2 (tm_sec t) in
  if type =? 1 then y ++ mo ++ d ++ str "_" ++ h ++ mi ++ s
  else if type =? 2 then y ++ str "_" ++ mo ++ d ++ str "_" ++ h ++ mi ++ s
  else if type =? 3 then d ++ str "-" ++ h ++ str "-" ++ mi ++ str "-" ++ s ++ str "-" ++ dec0 3 msec
  else y ++ str "_" ++ mo ++ str "_" ++ d ++ str "_" ++ h ++ str "_" ++ mi ++ str "_" ++ s ++
       str "_" ++ dec0 3 msec.

(** What stands behind the last slash. *)
Fixpoint base_name (s : list Z) : list Z :=
  match s with
  | [] => []
  | b :: l => if bool_decide (47 ∈ l) then base_name l else if b =? 47 then l else b :: l
  end.

Definition is_not_null {A} (o : option A) : bool := match o with Some _ => true | None => false end.

Section LogFile.
Context {mc : Type -> Type} {T : Type} (cfg : settings).
Abbreviation L := (M (lsys mc) (gs T)).

Definition is_tftp : bool := tftp_server cfg.
Definition is_ftp : bool := ftp_server cfg.
Definition is_tty2tcp : bool := 0 <? g_tcp_server_port cfg.
Definition is_tcp_client : bool := 0 <? g_tcp_client_port cfg.
Definition qlog_is_not_dir (logdir : list Z) : bool :=
  is_ftp || is_tftp || is_prefix (str "/dev/null") logdir.

Definition exit_requested : L bool :=
  s ← get; e ← call SignalledExit; mret (e || negb (qlog_exit_requested s =? 0)).

(** [None] is NULL. *)
Definition qlog_time_name (type : Z) : L (option (list Z)) :=
  t ← call LocalTime;
  match t with
  | None => mret None
  | Some t =>
      ns ← (if (type =? 3) || (type =? 4) then call MonotonicNsec else mret 0);
      mret (Some (take 99 (time_text type t (ns / 1000000))))
  end.

Definition in_logdir (filename : list Z) : list Z :=
  take 128 (args_logdir cfg) ++ str "/" ++ take 64 filename.

Definition qlog_get_filesize_in_logidr (filename : list Z) : L Z :=
  if is_ftp then mret 0 else
  match args_logdir cfg with
  | [] => mret 0
  | _ =>
      n ← call (FileSize (in_logdir filename));
      mret (match n with Some n => n | None => 0 end)
  end.

Definition qlog_logfile_create_fullname (file_type : Z) (fullname : list Z) (tftp_size : Z)
    (is_dump : bool) : L Z :=
  if is_prefix (str "/dev/null") fullname then call (Open (str "/dev/null"))
  else if is_tftp then call (TftpWriteRequest (base_name fullname) tftp_size)
  else
    fd ← (if is_ftp then call (FtpWriteRequest file_type (base_name fullname))
          else call (Open fullname));
    (if is_dump then mret tt else call (KfifoAlloc fd));;
    mret fd.

Definition qlog_create_file_in_logdir (filename : list Z) : L Z :=
  match args_logdir cfg with
  | [] => mret (-1)
  | _ =>
      qlog_logfile_create_fullname 3
        (if is_tcp_client then str "/dev/null" else in_logdir filename) 0 false
  end.

(** The time stamp of a log of the AP, [sync], [lenM], [lenL] and [flowid] in
    front. *)
Definition unisoc_8910_ap_file_write_timestap (logfd : Z) : L Z :=
  t ← call LocalTime;
  match t with
  | None => mret 0
  | Some t =>
      ns ← call MonotonicNsec;
      let date := u32 (Z.shiftl (tm_year t + 1900) 16 + Z.shiftl (tm_mon t + 1) 8 + tm_mday t) in
      let ms := u32 (tm_hour t * 60 * 60 * 1000 + tm_min t * 60 * 1000 + tm_sec t * 1000 + ns / 1000000) in
      r ← call (LogfileSave logfd ([0xAD; 0; 0x08; 0xa2] ++ le_bytes 4 date ++ le_bytes 4 ms));
      mret (s32 r)
  end.

(** ** Creation *)

Definition remove_readable (path : list Z) : L unit :=
  r ← call (Readable path); if (r : bool) then call (Remove path) else mret tt.

(** The files that had the same place in the list. *)
Definition delete_old (dir suffix : list Z) (logfile_seq : Z) : L unit :=
  if s_logfile_num cfg =? 0 then mret tt else
  s ← get;
  old ← of_option (s_logfile_List s !! Z.to_nat (logfile_seq mod s_logfile_num cfg));
  match old with
  | [] => mret tt
  | _ =>
      let file (suffix : list Z) := dir ++ str "/" ++ old ++ suffix in
      remove_readable (file (str "." ++ suffix));;
      match second_logfile_suffix s with
      | Some second => remove_readable (file second)
      | None => mret tt
      end;;
      match third_logfile_suffix s with
      | None => mret tt
      | Some third =>
          if qlog_read_nmea_log cfg then remove_readable (file third) else
          let path := file (third ++ dec0 1 (dpl_version cfg)) in
          r ← call (Readable path);
          if (r : bool) then call (Remove path)
          else if dpl_version cfg =? 4 then remove_readable (file (third ++ dec0 1 5))
          else if dpl_version cfg =? 5 then remove_readable (file (third ++ dec0 1 4))
          else mret tt
      end
  end.

Definition shortname (logfile_seq : Z) : L (list Z) :=
  let name (pre : list Z) (type : Z) (dot : list Z) :=
    t ← qlog_time_name type;
    t ← of_option t;
    mret (take 99 (pre ++ take 80 t ++ dot ++ dec0 4 logfile_seq)) in
  if negb (g_is_mtk_chip cfg =? 0) then name (str "MyLog_") 2 (str "_")
  else if negb (g_is_unisoc_exx00u_chip cfg =? 0) then name (str "Log-") 3 (str ".")
  else if g_is_unisoc_chip cfg =? 4 then name [] 4 (str "_")
  else name [] 1 (str "_").

Definition enqueue_name (filename : list Z) : L unit :=
  if 0 <? g_use_compress_cmd cfg then call (Enqueue filename) else mret tt.

(** The name of the second or the third file. *)
Definition side_name (dir shortname suffix : list Z) : list Z :=
  take 240 dir ++ str "/" ++ take 96 shortname ++ take 12 suffix.

Definition create_second (dir shortname : list Z) : L unit :=
  s ← get;
  match second_logfile_suffix s with
  | None => mret tt
  | Some suffix =>
      let filename := side_name dir shortname suffix in
      fd ← qlog_logfile_create_fullname 1 filename 0 false;
      modify (fun s => s <| second_logfile := fd |> <| g_compress_second_file_name := filename |>);;
      enqueue_name filename;;
      (if negb (g_is_unisoc_exx00u_chip cfg =? 0) then unisoc_8910_ap_file_write_timestap fd;; mret tt
       else mret tt)
  end.

Definition create_third (dir shortname : list Z) : L unit :=
  s ← get;
  match third_logfile_suffix s with
  | None => mret tt
  | Some suffix =>
      let filename := if qlog_read_nmea_log cfg then side_name dir shortname suffix
                      else side_name dir shortname suffix ++ dec0 1 (dpl_version cfg) in
      fd ← qlog_logfile_create_fullname 2 filename 0 false;
      modify (fun s => s <| third_logfile := fd |> <| g_compress_third_file_name := filename |>);;
      enqueue_name filename
  end.

Definition qlog_logfile_create (dir suffix : list Z) (logfile_seq : Z) : L Z :=
  (if 0 <? g_use_compress_cmd cfg then call (CheckWorkDirSize dir) else mret tt);;
  delete_old dir suffix logfile_seq;;
  short ← shortname logfile_seq;
  let filename := dir ++ str "/" ++ short ++ str "." ++ suffix in
  logfd ← qlog_logfile_create_fullname 0 filename 0 false;
  modify (fun s => s <| g_compress_diag_file_name := filename |>);;
  enqueue_name filename;;
  (if s_logfile_num cfg =? 0 then mret tt else
     let idx := logfile_seq mod s_logfile_num cfg in
     modify (fun s => s <| s_logfile_idx := idx |>
                        <| s_logfile_List ::= <[Z.to_nat idx := take 98 short]> |>));;
  create_second dir short;;
  create_third dir short;;
  mret logfd.

(** ** End and compression *)

Definition qCompressLogFile (filename : list Z) : L Z :=
  r ← call (System (take 511 (str "./qcompress.sh " ++ filename ++ str " ")));
  mret (if r =? 0 then r else -1).

Definition qCompressThread (type : Z) : L unit :=
  s ← get; qCompressLogFile (compress_first_filename s);;
  (if 1 <? type then s ← get; qCompressLogFile (compress_second_filename s);; mret tt else mret tt);;
  (if 3 <? type then s ← get; qCompressLogFile (compress_third_filename s);; mret tt else mret tt).

Definition updataComressFilename (ret : Z) : L unit :=
  modify (fun s => if ret =? 0 then s else s <| compress_first_filename := g_compress_diag_file_name s |>);;
  modify (fun s => if 1 <? ret then s <| compress_second_filename := g_compress_second_file_name s |> else s);;
  modify (fun s => if 3 <? ret then s <| compress_third_filename := g_compress_third_file_name s |> else s).

Definition safe_close_second : L unit :=
  s ← get;
  if second_logfile s =? -1 then mret tt else
  modify (fun s => s <| second_logfile := -1 |>);; call (Close (second_logfile s));; mret tt.
Definition safe_close_third : L unit :=
  s ← get;
  if third_logfile s =? -1 then mret tt else
  modify (fun s => s <| third_logfile := -1 |>);; call (Close (third_logfile s));; mret tt.

Definition qlog_logfile_close (logfd : Z) : L Z :=
  e ← exit_requested;
  s ← get;
  (if negb e && (0 <? g_use_compress_cmd cfg) then
     let ret := 1 + (if 0 <? second_logfile s then 2 else 0) + (if 0 <? third_logfile s then 4 else 0) in
     updataComressFilename ret;; call (StartCompressThread ret)
   else mret tt);;
  call (KfifoFree logfd);;
  s ← get; call (KfifoFree (second_logfile s));; safe_close_second;;
  s ← get; call (KfifoFree (third_logfile s));; safe_close_third;;
  call (Close logfd).

Definition qlog_logfile_close_qdb (logfd : Z) : L Z := call (KfifoFree logfd);; call (Close logfd).

End LogFile.
