(* ===== verification/Startup.v ===== *)
(** Start-up and shut-down of the log tool (src/main.c): the ports of a module
    are opened and closed, old logs removed, the process noted in a file or
    stopped, the trace buffer of a crashed module fetched, and the loop of
    main, which finds a module, catches its log or its dump and begins again. *)

From Stdlib Require Import ZArith Lia.
From stdpp Require Import base list strings.
From S2P Require Import Prelude Str CText Options Usb.
From S2P Require Qserver LogFile.
#[local] Existing Instances Qserver.eta_qst Qserver.eta_QServer.

(** ** Calls and variables *)

(** What the capture of a log leaves in the variables of main.c. *)
Record captured : Type := Captured {
  c_ret : Z;
  c_exit_requested : Z;
  c_exit_after_usb : Z;
  c_abnormal : Z;
  c_had_crash : Z;
}.

Record usbfs_read_cfg_t : Type := ReadCfg { rc_usbfd : Z; rc_ep : Z; rc_outfd : Z; rc_rx_size : Z }.

(** [OpenTty] opens a serial port and [SetRaw] sets its baud rate; the answers
    of [Spawn], [SocketPair], [Unlink], [Mkdir] and [StatFile] are those of the
    system; [CatchLog] is [qlog_handle], the dumps are those of the modules;
    [ForgetLogName] clears the entry of [s_logfile_List] of the last log, so that
    the next one does not remove it; [TimeName] is [qlog_time_name(1)]; [Signalled] reads the flag that a signal
    sets. *)
Inductive msys : Type -> Type :=
| UsbCall {A} (c : usys A) : msys A
| OptCall {A} (c : osys A) : msys A
| ServerCall {A} (c : Qserver.qsys A) : msys A
| OpenTty (path : list Z) : msys Z
| SetRaw (fd baud : Z) : msys unit
| SetFlags (fd flags : Z) : msys unit
| SocketPair : msys (option (Z * Z))
| Spawn (cfg : usbfs_read_cfg_t) : msys (option Z)
| Join (tid : Z) : msys unit
| CloseFd (fd : Z) : msys unit
| ReleaseInterface (fd intf : Z) : msys unit
| LineState (fd intf value : Z) : msys Z
| ListDir (dir : list Z) : msys (option (list (list Z)))
| StatFile (path : list Z) : msys (option bool)
| Unlink (path : list Z) : msys Z
| Mkdir (path : list Z) : msys Z
| Exists (path : list Z) : msys Z
| StatFs (path : list Z) : msys (option (Z * Z))
| OpenFile (path : list Z) (writing : bool) : msys Z
| WriteFd (fd : Z) (buf : list Z) : msys Z
| ReadFd (fd size : Z) : msys (option (list Z))
| GetPid : msys Z
| Kill (pid : Z) : msys Z
| Wait (fd secs : Z) : msys Z
| CreateLog (path : list Z) : msys Z
| FileSize (path : list Z) : msys (option Z)
| SkipTo (path : list Z) (off : Z) : msys unit
| Fread (size : Z) : msys (list Z)
| CreateOut (path : list Z) : msys bool
| Fwrite (buf : list Z) : msys unit
| CloseIn : msys unit
| CloseOut : msys unit
| ForgetLogName : msys unit
| TimeName : msys (option (list Z))
| Signalled : msys bool
| Sleep (secs : Z) : msys unit
| CatchLog (dev : ql_usb_device_info) : msys captured
| AsrDump (fd : Z) (dir : list Z) : msys Z
| UnisocDump (usbfd fd : Z) (dir : list Z) : msys Z
| SaharaDump (fd : Z) (dir : list Z) : msys Z
| ComLog : msys unit
| ResetMdm : msys unit
| FtpQuit : msys unit.

(** One of the three groups of [ql_fds_t]. *)
Record port_fds : Type := PortFds {
  ttyfd : Z;
  usbfd : Z;
  socket0 : Z;
  socket1 : Z;
  tid : Z;
}.
#[export] Instance eta_port_fds : Eta port_fds := fun s =>
  PortFds (ttyfd s) (usbfd s) (socket0 s) (socket1 s) (tid s).
Definition no_port : port_fds := PortFds (-1) (-1) (-1) (-1) (-1).

Record ql_fds_t : Type := Fds { dm : port_fds; general : port_fds; third : port_fds }.
#[export] Instance eta_fds : Eta ql_fds_t := fun s => Fds (dm s) (general s) (third s).

Record mst : Type := Mst {
  opt : opts;
  usb : ust;
  cur_dev : nat;
  fds : ql_fds_t;
  use_qmdl2_v2 : Z;
  use_diag_qdss : Z;
  use_diag_dpl : Z;
  g_is_asr_chip : Z;
  g_is_unisoc_chip : Z;
  g_is_unisoc_exx00u_chip : Z;
  g_is_mtk_chip : Z;
  g_is_eigen_chip : Z;
  g_is_usb_disconnect : Z;
  g_donot_split_logfile : Z;
  modem_is_pcie : Z;
  qlog_exit_requested : Z;
  qlog_abnormal_exit : Z;
  g_unisoc_had_crash : Z;
  block_size : Z;
  server_st : Qserver.qst;
}.
#[export] Instance eta_mst : Eta mst := fun s =>
  Mst (opt s) (usb s) (cur_dev s) (fds s) (use_qmdl2_v2 s) (use_diag_qdss s) (use_diag_dpl s)
    (g_is_asr_chip s) (g_is_unisoc_chip s) (g_is_unisoc_exx00u_chip s) (g_is_mtk_chip s) (g_is_eigen_chip s)
    (g_is_usb_disconnect s) (g_donot_split_logfile s) (modem_is_pcie s) (qlog_exit_requested s)
    (qlog_abnormal_exit s) (g_unisoc_had_crash s) (block_size s) (server_st s).

Abbreviation Mn := (M msys mst).

Definition in_usb {A} (m : M usys ust A) : Mn A :=
  within (fun A c => UsbCall c) usb (fun t s => s <| usb := t |>) m.
Definition in_opts {A} (m : M osys opts A) : Mn A :=
  within (fun A c => OptCall c) opt (fun t s => s <| opt := t |>) m.
Definition in_server {A} (m : M Qserver.qsys Qserver.qst A) : Mn A :=
  within (fun A c => ServerCall c) server_st (fun t s => s <| server_st := t |>) m.

(** ** Opening a port *)

Definition RX_URB_SIZE : Z := 16 * 1024.

Definition serial_open (device : list Z) : Mn Z :=
  fd ← call (OpenTty device);
  if fd <? 0 then mret fd else
  s ← get;
  call (SetRaw fd (if negb (g_is_mtk_chip s =? 0) then 1500000 else 115200));; mret fd.

Definition option_send_setup (usbfd intf : Z) (dtr_state rts_state : bool) : Mn Z :=
  call (LineState usbfd intf (Z.lor (if dtr_state then 1 else 0) (if rts_state then 2 else 0))).

Definition safe_close_fd (fd : Z) : Mn unit := if fd =? -1 then mret tt else call (CloseFd fd).

(** [sizeof] counts the NUL of the command. *)
Definition at_cfun (n : Z) : list Z := str "at+cfun=" ++ [48 + n; 13; 10; 0].
Definition sendCfun2ATPort : Mn Z :=
  s ← get;
  at_fd ← serial_open (g_ttyAT (opt s));
  if at_fd <? 0 then mret (-1) else
  r ← call (WriteFd at_fd (at_cfun 0));
  if r <? 0 then mret (-1) else
  call (UsbCall (Usleep 200));;
  r ← call (WriteFd at_fd (at_cfun 1));
  if r <? 0 then mret (-1) else
  call (UsbCall (Usleep 200));; call (CloseFd at_fd);; mret 0.

(** One of the three parts of [prepare]; [put] stores the descriptors, [setup]
    says whether the line state may be set. *)
Definition open_port (put : port_fds -> mst -> mst) (d : ql_usb_device_info) (tty : list Z)
    (intf : ql_usb_interface_info) (rx_size : Z) (force_use_usbfs setup : bool) : Mn bool :=
  let set (p : port_fds) : Mn unit := modify (put p) in
  if negb (bool_decide (tty = [])) && negb force_use_usbfs then
    fd ← serial_open tty;
    set (no_port <| ttyfd := fd |>);;
    mret (0 <=? fd)
  else if negb (bInterfaceNumber intf =? 0xFF) then
    fd ← in_usb (ql_usbfs_open_interface d (bInterfaceNumber intf));
    set (no_port <| usbfd := fd |>);;
    if fd <? 0 then mret false else
    r ← call SocketPair;
    match r with
    | None => set no_port;; safe_close_fd fd;; mret false
    | Some (s0, s1) =>
        set (PortFds (-1) fd s0 s1 (-1));;
        t ← call (Spawn (ReadCfg fd (ep_in intf) s1 rx_size));
        match t with
        | None => set no_port;; safe_close_fd fd;; safe_close_fd s0;; safe_close_fd s1;; mret false
        | Some t =>
            set (PortFds (-1) fd s0 s1 t);;
            s ← get;
            (if setup && (negb (g_is_unisoc_exx00u_chip s =? 0) || (g_is_unisoc_chip s =? 2) || (g_is_unisoc_chip s =? 4))
             then option_send_setup fd (bInterfaceNumber intf) true true;; mret tt else mret tt);;
            mret true
        end
    end
  else mret true.

Definition put_dm (p : port_fds) (s : mst) : mst := s <| fds ::= fun f => f <| dm := p |> |>.
Definition put_general (p : port_fds) (s : mst) : mst := s <| fds ::= fun f => f <| general := p |> |>.
Definition put_third (p : port_fds) (s : mst) : mst := s <| fds ::= fun f => f <| third := p |> |>.

Definition qdss_selected (d : ql_usb_device_info) : bool :=
  negb (bInterfaceNumber (general_intf d) =? 0xFF) && (general_type d =? MDM_QDSS).
Definition dpl_selected (d : ql_usb_device_info) : bool :=
  negb (bInterfaceNumber (third_intf d) =? 0xFF) && (third_type d =? 1).
Definition qmdl2_ids : list Z := [0x0800; 0x0455; 0x0801; 0x0457; 0x0458; 0x0452].

Definition b2z (b : bool) : Z := if b then 1 else 0.

Definition set_streams (d : ql_usb_device_info) (s : mst) : mst :=
  s <| use_qmdl2_v2 := b2z (bool_decide (idProduct d ∈ qmdl2_ids) || qdss_selected d) |>
    <| use_diag_qdss := b2z (qdss_selected d) |> <| use_diag_dpl := b2z (dpl_selected d) |>.

(** To keep the echo of a tty away. *)
Definition forced_usbfs (d : ql_usb_device_info) : bool :=
  (idVendor d =? 0x2c7c) && (Z.land (idProduct d) 0xF000 =? 0) && (bNumInterfaces d =? 1) && (hardware d =? 0).

Definition prepare (d : ql_usb_device_info) : Mn Z :=
  modify (fun s => set_streams d (s <| fds := Fds no_port no_port no_port |>));;
  let force := forced_usbfs d in
  ok ← open_port put_dm d (Usb.ttyDM d) (dm_intf d) RX_URB_SIZE force true;
  if negb ok then mret (-1) else
  ok ← open_port put_general d (Usb.ttyGENERAL d) (general_intf d)
         (if general_type d =? MDM_QDSS then 128 * 1024 else RX_URB_SIZE) force true;
  if negb ok then mret (-1) else
  ok ← open_port put_third d (ttyTHIRD d) (third_intf d) RX_URB_SIZE force false;
  if negb ok then mret (-1) else mret 0.

(** ** Closing *)

Definition close_port (put : port_fds -> mst -> mst) (p : port_fds) (intf : ql_usb_interface_info) : Mn unit :=
  if negb (usbfd p =? -1) then
    call (ReleaseInterface (usbfd p) (bInterfaceNumber intf));;
    modify (put (p <| usbfd := -1 |>));; safe_close_fd (usbfd p);;
    call (Join (tid p));;
    modify (put (p <| usbfd := -1 |> <| socket0 := -1 |>));; safe_close_fd (socket0 p);;
    modify (put (p <| usbfd := -1 |> <| socket0 := -1 |> <| socket1 := -1 |>));; safe_close_fd (socket1 p)
  else modify (put (p <| ttyfd := -1 |>));; safe_close_fd (ttyfd p).

Definition close_fds (d : ql_usb_device_info) : Mn unit :=
  s ← get; close_port put_dm (dm (fds s)) (dm_intf d);;
  s ← get; close_port put_general (general (fds s)) (general_intf d);;
  s ← get; close_port put_third (third (fds s)) (third_intf d).

(** ** Files *)

Definition qlog_avail_space_for_dump (dir : list Z) (need_MB : Z) : Mn bool :=
  r ← call (StatFs dir);
  let free_space := match r with Some (bavail, bsize) => s64 (u64 (bavail * (bsize / 512)) / 2) | None => 0 end in
  mret (need_MB <=? Z.quot free_space 1024).

(** [slen1 - slen2] is a [size_t]: for a name that is shorter than the suffix the
    comparison begins before the name, [None]. *)
Definition str_has_suffix (str1 str2 : list Z) : option bool :=
  if (length str1 <? length str2)%nat then None
  else Some (same_nocase (length str2) (drop (length str1 - length str2) str1) str2).

Definition log_suffixes : list (list Z) := [str ".sdl"; str ".qmdl"; str ".qmdl2"; str ".logel"].

(** The tests stop at the first suffix that fits. *)
Fixpoint has_any (name : list Z) (suffixes : list (list Z)) : option bool :=
  match suffixes with
  | [] => Some false
  | x :: l => b ← str_has_suffix name x; if (b : bool) then Some true else has_any name l
  end.

Definition delete_one (dir suffix name : list Z) : Mn unit :=
  s ← get;
  if starts_with 46 name then mret tt else
  if 0 <? g_use_compress_cmd (opt s) then
    let file_path := snprintf 1024 (dir ++ str "/" ++ name) in
    r ← call (StatFile file_path);
    match r with
    | Some true => call (Unlink file_path);; mret tt
    | _ => mret tt
    end
  else
    log ← of_option (has_any name log_suffixes);
    if negb log then mret tt else
    wanted ← (match suffix with
              | [] => mret true
              | _ => of_option (str_has_suffix name (str "." ++ take 248 suffix))
              end);
    if (wanted : bool) then call (Unlink (take 255 dir ++ str "/" ++ take 255 name));; mret tt else mret tt.

Definition delete_logs (dir suffix : list Z) : Mn unit :=
  r ← call (ListDir dir);
  match r with
  | None => mret tt
  | Some names => forM names (delete_one dir suffix)
  end.

(** ** The process file *)

Definition g_qlog_get_pid_path : list Z := str "./qlog_pid.txt".

Definition init_qlog_path : Mn Z :=
  fd ← call (OpenFile g_qlog_get_pid_path true);
  if fd <? 0 then mret (-1) else
  pid ← call GetPid;
  written ← call (WriteFd fd (le_bytes 4 (u32 pid)));
  if written <? 0 then call (CloseFd fd);; mret (-1) else call (CloseFd fd);; mret 0.

(** A short read changes the low bytes of -1 only. *)
Definition stop_qlog : Mn Z :=
  fd ← call (OpenFile g_qlog_get_pid_path false);
  if fd <? 0 then mret (-1) else
  r ← call (ReadFd fd 4);
  match r with
  | None => call (CloseFd fd);; mret (-1)
  | Some [] => call (CloseFd fd);; mret (-1)
  | Some data =>
      bytes ← of_option (wr 0 data [255; 255; 255; 255]);
      call (CloseFd fd);;
      let num := s32 (le_val bytes) in
      (if num <=? 0 then mret tt else call (Kill num);; mret tt);; mret 0
  end.

(** ** The trace buffer of a crashed module *)

Definition etb_request : list Z := [0x7E; 0; 0; 0; 0; 0x0C; 0; 0x62; 0; 0x33; 0; 0; 0; 0x7E].

(** The answer of [Wait] is that of [select] for one descriptor. *)
Definition etb_turn (usb_fd file_fd : Z) : Mn (unit + unit) :=
  activity ← call (Wait usb_fd 10);
  if activity <=? 0 then mret (inr tt) else
  r ← call (ReadFd usb_fd 1023);
  match r with
  | None => mret (inr tt)
  | Some [] => mret (inr tt)
  | Some data => call (WriteFd file_fd data);; mret (inl tt)
  end.

Definition copy_turn (bytes_to_read : Z) : Mn (Z + unit) :=
  if bytes_to_read <=? 0 then mret (inr tt) else
  data ← call (Fread (Z.min bytes_to_read 1024));
  call (Fwrite data);;
  mret (inl (u64 (bytes_to_read - len data))).

Section Fuel.
Context (fuel : nat).

Definition trim_file (path input_file : list Z) (n m : Z) : Mn unit :=
  size ← call (FileSize input_file);
  match size with
  | None => mret tt
  | Some file_size =>
      let new_size := s64 (u64 (u64 (file_size - n) - m)) in
      if new_size <? 0 then call CloseIn else
      t ← call TimeName;
      t ← of_option t;
      file ← of_option (wr 0 (path ++ str "/" ++ t ++ str "_etb.bin" ++ [0]) (replicate (Z.to_nat 512) 0));
      out ← call (CreateOut (cstr file));
      if negb out then call CloseIn else
      call (SkipTo input_file n);;
      iterM fuel copy_turn new_size;;
      call CloseIn;; call CloseOut;;
      call (Unlink input_file);; mret tt
  end.

Definition catchUnisocETBData (path diag_port : list Z) : Mn Z :=
  usb_fd ← serial_open diag_port;
  if usb_fd =? -1 then mret (-1) else
  call (SetFlags usb_fd 0);;
  etb ← of_option (wr 0 (path ++ str "/tmc_etb.bin" ++ [0]) (replicate (Z.to_nat 512) 0));
  let etb_file_path := cstr etb in
  file_fd ← call (CreateLog etb_file_path);
  if file_fd <? 0 then mret (-1) else
  r ← call (WriteFd usb_fd etb_request);
  if r <? 0 then call (CloseFd usb_fd);; call (CloseFd file_fd);; mret (-1) else
  iterM fuel (fun _ => etb_turn usb_fd file_fd) tt;;
  call (CloseFd usb_fd);; call (CloseFd file_fd);;
  trim_file path etb_file_path 35 19;;
  mret 0.

(** ** The module that is looked at *)

Definition set_dev (d : ql_usb_device_info) (s : mst) : mst :=
  s <| usb ::= fun u => u <| s_usb_device_info ::= <[0%nat := d]> |> |>.
Definition dev_at (s : mst) (i : nat) : option ql_usb_device_info := s_usb_device_info (usb s) !! i.
Definition tty_dm (s : mst) : list Z := Options.ttyDM (args (opt s)).
Definition log_dir (s : mst) : list Z := logdir (args (opt s)).

(** The entry of a table that has been cleared, with no interfaces. *)
Definition fresh_dev : ql_usb_device_info :=
  zero_dev <| dm_intf ::= fun i => i <| bInterfaceNumber := 0xff |> |>
           <| general_intf ::= fun i => i <| bInterfaceNumber := 0xff |> |>
           <| third_intf ::= fun i => i <| bInterfaceNumber := 0xff |> |>
           <| general_type := -1 |> <| third_type := -1 |>.

Definition exists_ (path : list Z) : Mn bool := r ← call (Exists path); mret (r =? 0).

(** [strncpy] leaves no NUL in [ttyDM] when the path has 32 characters. *)
Definition dm_name (tty : list Z) : option (list Z) := if (length tty <? 32)%nat then Some tty else None.

(** A port over PCIe; nothing but the name of the node is known of it. *)
Definition pcie_dev (product : Z) (tty : list Z) (d : ql_usb_device_info) : ql_usb_device_info :=
  d <| hardware := 112 |> <| idVendor := 0x2C7C |> <| idProduct := product |> <| Usb.ttyDM := tty |> <| dm_intf ::= fun i => i <| bInterfaceNumber := 0 |> |>.

Definition mhi_dev (tty : list Z) : Mn unit :=
  name ← of_option (dm_name tty);
  let d := pcie_dev 0x0800 name fresh_dev in
  if is_prefix (str "/dev/mhi_DIAG") tty then
    modify (fun s => s <| modem_is_pcie := 1 |> <| usb ::= fun u => u <| g_is_qualcomm_chip := 1 |> |>);;
    s ← get;
    d ← (if negb (Options.qlog_only_read_pcie_or_usb_diag_log (opt s) =? 0) then mret d else
           qdss ← exists_ (str "/dev/mhi_QDSS");
           let d := if (qdss : bool) then set_general 12 MDM_QDSS (d <| Usb.ttyGENERAL := str "/dev/mhi_QDSS" |>) else d in
           adpl ← exists_ (str "/dev/mhi_ADPL");
           mret (if (adpl : bool) then set_third 13 1 (d <| ttyTHIRD := str "/dev/mhi_ADPL" |>) else d));
    modify (set_dev (d <| bNumInterfaces := 5 |>))
  else if is_prefix (str "/dev/mhi_SAHARA") tty then modify (set_dev (d <| bNumInterfaces := 1 |>))
  else modify (set_dev d).

Definition sdiag_dev (tty : list Z) : Mn unit :=
  name ← of_option (dm_name tty);
  let d := pcie_dev 0x0900 name fresh_dev <| Usb.ttyGENERAL := str "/dev/slog_nr" |> <| bNumInterfaces := 2 |> in
  s ← get;
  d ← (if Options.qlog_read_nmea_log (opt s) =? 0 then mret d else
         nmea ← exists_ (str "/dev/snv_nr");
         mret (if (nmea : bool) then set_third 6 2 (d <| ttyTHIRD := str "/dev/snv_nr" |> <| bNumInterfaces := 3 |>) else d));
  modify (set_dev d).

Definition wwan_dev (tty : list Z) : Mn unit :=
  name ← of_option (dm_name tty);
  let d := pcie_dev 0x0512 name fresh_dev in
  modify (set_dev (d <| bNumInterfaces := if strstr tty (str "qcdm") || strstr tty (str "QCDM") then 5 else 1 |>)).

Definition exit_after (s : mst) : mst := s <| opt ::= fun o => o <| exit_after_usb_disconnet := 1 |> |>.

(** The answer is the number of modules that the path names. *)
Definition named_module : Mn nat :=
  modify (fun s => s <| usb ::= fun u => u <| s_usb_device_info := fresh_dev :: replicate 7 zero_dev |> |> <| cur_dev := 0%nat |>);;
  s ← get;
  let tty := tty_dm s in
  if is_prefix (str "/dev/mhi") tty then mhi_dev tty;; modify exit_after;; mret 1%nat
  else if is_prefix (str "/dev/sdiag") tty then sdiag_dev tty;; modify exit_after;; mret 1%nat
  else if is_prefix (str "/dev/wwan") tty then wwan_dev tty;; modify exit_after;; mret 1%nat
  else mret 0%nat.

Definition choices_of (o : opts) : choices :=
  Choices (Options.modem_name_para o) (negb (Options.qlog_ignore_exx00u_ap o =? 0)) (negb (Options.qlog_read_nmea_log o =? 0))
    (negb (Options.qlog_only_read_pcie_or_usb_diag_log o =? 0)) (Options.g_module_from_ecm_2_rndis o).

(** The first module that [-p] names. *)
Fixpoint select_module (tty : list Z) (todo i : nat) : Mn (option nat) :=
  match todo with
  | 0%nat => mret None
  | S todo =>
      s ← get;
      d ← of_option (dev_at s i);
      if str_eqb tty (usbdevice_pah d) || str_eqb tty (Usb.ttyDM d) then mret (Some i) else
      '(r, d) ← in_usb (ql_match_dm_device tty d);
      modify (fun s => s <| usb ::= fun u => u <| s_usb_device_info ::= <[i := d]> |> |>);;
      if r =? 0 then mret (Some i) else select_module tty todo (S i)
  end.

(** ** One turn of the loop of main *)

Definition exit_requested : Mn bool :=
  s ← get; e ← call Signalled; mret (e || negb (qlog_exit_requested s =? 0)).
Definition request_exit : Mn unit := modify (fun s => s <| qlog_exit_requested := 1 |>).

Definition follow_link : Mn unit :=
  s ← get;
  if (1 <? g_use_mapping_port (opt s)) && negb (starts_with 48 (g_use_mapping_path (opt s))) then
    r ← call (OptCall (LinkTarget (g_use_mapping_path (opt s))));
    match r with
    | Some target => modify (fun s => s <| opt ::= fun o => o <| args ::= fun a => a <| Options.ttyDM := take 255 target |> |> |>)
    | None => mret tt
    end
  else mret tt.

(** The node of a module that has just crashed must stay for eight seconds. *)
Fixpoint node_stays (todo : nat) (devpath : list Z) : Mn bool :=
  match todo with
  | 0%nat => mret true
  | S todo =>
      r ← call (Exists devpath);
      if negb (r =? 0) then mret false else call (Sleep 1);; node_stays todo devpath
  end.
Definition bus_path (d : ql_usb_device_info) : list Z :=
  str "/dev/bus/usb/" ++ LogFile.dec0 3 (busnum d) ++ str "/" ++ LogFile.dec0 3 (devnum d).

Definition set_chips (d : ql_usb_device_info) (s : mst) : mst :=
  let m := Options.modem_name_para (opt s) in
  s <| g_is_asr_chip := drv_is_asr m (idProduct d) (idVendor d) |>
    <| g_is_unisoc_chip :=
         if (idProduct d =? 0x4d00) && (idVendor d =? 0x1782) && (bcdDevice d =? 1) then 3
         else drv_is_unisoc m (idProduct d) (idVendor d) |>
    <| g_is_unisoc_exx00u_chip := drv_is_unisoc_exx00u (idProduct d) (idVendor d) |>
    <| g_is_mtk_chip := drv_is_mtk (idProduct d) (idVendor d) |>
    <| g_is_eigen_chip := drv_is_eigen (idProduct d) (idVendor d) |>
    <| g_is_usb_disconnect := 0 |> <| g_donot_split_logfile := 0 |>.

Definition reset_abnormal : Mn unit :=
  s ← get;
  if negb (qlog_abnormal_exit s =? 0) && ((use_diag_qdss s =? 1) || (use_qmdl2_v2 s =? 1)) then
    modify (fun s => s <| qlog_abnormal_exit := 0 |>);; call ResetMdm
  else mret tt.

Definition is_tftp (s : mst) : bool := match g_tftp_server_ip (opt s) with Some _ => true | None => false end.
Definition is_ftp (s : mst) : bool := g_ftp (opt s).
Definition is_tty2tcp (s : mst) : bool := 0 <? g_tcp_server_port (opt s).
Definition is_tcp_client (s : mst) : bool := 0 <? g_tcp_client_port (opt s).
Definition qlog_is_not_dir (s : mst) : bool := is_ftp s || is_tftp s || is_prefix (str "/dev/null") (log_dir s).

(** A module with one interface has crashed; [None] is the way to the end
    without a dump. *)
Definition dump_directory : Mn (option (list Z)) :=
  s ← get;
  if qlog_is_not_dir s then mret (Some (log_dir s))
  else if is_tty2tcp s then request_exit;; mret None
  else
    t ← call TimeName;
    t ← of_option t;
    let dump_dir := take 172 (log_dir s) ++ str "/dump_" ++ take 80 t in
    call (Mkdir dump_dir);;
    room ← qlog_avail_space_for_dump dump_dir (if negb (g_is_asr_chip s =? 0) then 128 else 256);
    if (room : bool) then mret (Some dump_dir) else request_exit;; mret None.

Definition catch_dump (ret : Z) : Mn Z :=
  s ← get;
  let p := dm (fds s) in
  let dmfd := if negb (ttyfd p =? -1) then ttyfd p else if negb (socket0 p =? -1) then socket0 p else -1 in
  call ForgetLogName;;
  dir ← dump_directory;
  match dir with
  | None => mret ret
  | Some dump_dir =>
      ret ← (if negb (g_is_asr_chip s =? 0) then call (Sleep 5);; call (AsrDump dmfd dump_dir)
             else if negb (g_is_unisoc_chip s =? 0) then
               modify (fun s => if is_tftp s then s <| block_size := 8192 |> else s);;
               ret ← call (UnisocDump (usbfd p) dmfd dump_dir); call (Sleep 1);; request_exit;; mret ret
             else call (SaharaDump dmfd dump_dir));
      e ← exit_requested;
      (if negb (qlog_continue (opt s) =? 0) && negb e then call (Sleep 6) else request_exit);;
      mret ret
  end.

Definition take_captured (c : captured) (s : mst) : mst :=
  s <| qlog_exit_requested := c_exit_requested c |> <| qlog_abnormal_exit := c_abnormal c |>
    <| g_unisoc_had_crash := c_had_crash c |>
    <| opt ::= fun o => o <| exit_after_usb_disconnet := c_exit_after_usb c |> |>.

Definition catch_log (d : ql_usb_device_info) (ret : Z) : Mn Z :=
  s ← get;
  if is_tftp s then request_exit;; mret ret else
  c ← call (CatchLog d); modify (take_captured c);; mret (c_ret c).

Definition catch_module (d : ql_usb_device_info) (ret : Z) : Mn Z :=
  if bNumInterfaces d =? 1 then catch_dump ret
  else if 1 <? bNumInterfaces d then catch_log d ret
  else mret ret.

Definition make_logdir : Mn unit :=
  s ← get;
  r ← call (Exists (log_dir s));
  if (r =? ENOENT) && negb (is_tftp s) && negb (is_ftp s) && negb (is_tty2tcp s) && negb (is_tcp_client s)
  then call (Mkdir (log_dir s));; mret tt else mret tt.

Definition fetch_etb (d : ql_usb_device_info) : Mn unit :=
  s ← get;
  if g_unisoc_had_crash s =? 0 then mret tt else
  modify (fun s => s <| g_unisoc_had_crash := 0 |>);;
  call (Sleep 5);;
  catchUnisocETBData (log_dir s) (Usb.ttyDM d);; mret tt.

(** [inl] goes back to the beginning, [inr] is the result of main. *)
Definition with_module (cur : nat) : Mn (unit + Z) :=
  modify (fun s => s <| cur_dev := cur |>);;
  s ← get;
  d ← of_option (dev_at s cur);
  modify (set_chips d);;
  reset_abnormal;;
  ret ← prepare d;
  if ret <? 0 then mret (inr ret) else
  make_logdir;;
  ret ← catch_module d ret;
  close_fds d;;
  fetch_etb d;;
  e ← exit_requested;
  s ← get;
  if negb e && (exit_after_usb_disconnet (opt s) =? 0) then
    call (Sleep 1);;
    modify (fun s => s <| opt ::= fun o => o <| g_use_mapping_port ::= fun n => s32 (n + 1) |> |>);;
    mret (inl tt)
  else (if is_ftp s then call FtpQuit else mret tt);; mret (inr ret).

Definition crashed_apdump (d : ql_usb_device_info) : bool := (idProduct d =? 0x4d00) && (idVendor d =? 0x1782).

Definition restart : Mn (unit + Z) :=
  e ← exit_requested;
  if (e : bool) then mret (inr 0) else
  follow_link;;
  n ← named_module;
  s ← get;
  n ← (match n with 0%nat => in_usb (ql_find_quectel_modules (choices_of (opt s))) | _ => mret n end);
  if (n =? 0)%nat then call (Sleep 2);; mret (inl tt) else
  s ← get;
  let tty := tty_dm s in
  cur ← (if is_prefix (str "/dev/ttyUSB") tty || is_prefix (str "/dev/ttyACM") tty || is_prefix (str "/sys/bus/usb/") tty
         then select_module tty n 0 else mret (Some 0%nat));
  match cur with
  | None => call (Sleep 1);; mret (inl tt)
  | Some cur =>
      s ← get;
      d ← of_option (dev_at s cur);
      stays ← (if crashed_apdump d then node_stays 8 (bus_path d) else mret true);
      if negb stays then mret (inl tt) else with_module cur
  end.

Definition server_of (o : opts) : Qserver.QServer :=
  let q := Options.g_qserver o in
  Qserver.MkQServer (Qserver.dm_server_port q) (Qserver.qdss_server_port q) (Qserver.adpl_server_port q)
    (logdir (args o)) (u32 (logfile_sz (args o))) (u32 (logfile_num (args o))).

Definition main (argv : list (list Z)) : Mn Z :=
  ok ← in_opts (parser_args argv);
  if negb ok then mret 0 else
  s ← get;
  if negb (g_kill_qlog (opt s) =? 0) then stop_qlog;; mret 0 else
  init_qlog_path;;
  if negb (g_use_qserver (opt s) =? 0) then
    modify (fun s => s <| server_st ::= fun q => q <| Qserver.g_qserver := server_of (opt s) |> |>);;
    in_server (Qserver.qSocketServerHandle fuel);; mret 0
  else if negb (qlog_read_com_data (opt s) =? 0) then call ComLog;; mret 0
  else
    match Options.delete_logs (args (opt s)) with
    | Some suffix => delete_logs (log_dir s) suffix
    | None => mret tt
    end;;
    iterM fuel (fun _ => restart) tt.
End Fuel.

(** * Properties *)

(** ** What the ports take and give back *)

(** A descriptor that the tool holds, or a thread that reads from one. *)
Inductive resource : Type := Descriptor (fd : Z) | Reader (tid : Z).
#[export] Instance resource_eq_dec : EqDecision resource.
Proof. solve_decision. Defined.

Definition one (x r : resource) : nat := if bool_decide (x = r) then 1%nat else 0%nat.
Definition fd_one (x : resource) (fd : Z) : nat := if fd =? -1 then 0%nat else one x (Descriptor fd).

Definition usb_takes (x : resource) (e : io usys) : nat :=
  match e with
  | @Ev _ A c a =>
      match c in usys A return A -> nat with
      | OpenDev _ => fun fd => fd_one x fd
      | _ => fun _ => 0%nat
      end a
  end.
Definition usb_gives (x : resource) (e : io usys) : nat :=
  match e with
  | @Ev _ A c a =>
      match c in usys A return A -> nat with
      | Close fd => fun _ => one x (Descriptor fd)
      | _ => fun _ => 0%nat
      end a
  end.
Definition takes (x : resource) (e : io msys) : nat :=
  match e with
  | @Ev _ A c a =>
      match c in msys A return A -> nat with
      | UsbCall c => fun a => usb_takes x (Ev c a)
      | OpenTty _ => fun fd => fd_one x fd
      | SocketPair => fun r => match r with Some (s0, s1) => fd_one x s0 + fd_one x s1 | None => 0%nat end
      | Spawn _ => fun r => match r with Some t => one x (Reader t) | None => 0%nat end
      | _ => fun _ => 0%nat
      end a
  end%nat.
Definition gives (x : resource) (e : io msys) : nat :=
  match e with
  | @Ev _ A c a =>
      match c in msys A return A -> nat with
      | UsbCall c => fun a => usb_gives x (Ev c a)
      | CloseFd fd => fun _ => one x (Descriptor fd)
      | Join t => fun _ => one x (Reader t)
      | _ => fun _ => 0%nat
      end a
  end.
Fixpoint total {sys} (f : io sys -> nat) (h : list (io sys)) : nat :=
  match h with [] => 0%nat | e :: h => (f e + total f h)%nat end.

(** What the variables of a port hold. *)
Definition held (x : resource) (p : port_fds) : nat :=
  (fd_one x (ttyfd p) + fd_one x (usbfd p) + fd_one x (socket0 p) + fd_one x (socket1 p) +
   if (usbfd p =? -1)%Z then 0 else one x (Reader (tid p)))%nat.
Definition held_all (x : resource) (f : ql_fds_t) : nat := (held x (dm f) + held x (general f) + held x (third f))%nat.

(** Since [w0], all that has been taken is given back or held. *)
Definition in_balance (w0 w : world msys mst) (f : ql_fds_t) : Prop := forall x,
  (total (takes x) (hist w) + total (gives x) (hist w0) =
   total (gives x) (hist w) + total (takes x) (hist w0) + held_all x f)%nat.

(** The system answers a failed [open] with -1 and never gives out -1. *)
Definition descriptors_ok (E : env msys) : Prop :=
  (forall h path, -1 <= E Z h (OpenTty path)) /\ (forall h path, -1 <= E Z h (UsbCall (OpenDev path))) /\
  (forall h s0 s1, E _ h SocketPair = Some (s0, s1) -> 0 <= s0 /\ 0 <= s1).

(** A port is open when the descriptors that the capture uses are there. *)
Definition port_ready (tty : list Z) (intf : ql_usb_interface_info) (force : bool) (p : port_fds) : Prop :=
  if negb (bool_decide (tty = [])) && negb force then 0 <= ttyfd p /\ usbfd p = -1
  else if negb (bInterfaceNumber intf =? 0xFF) then
    ttyfd p = -1 /\ 0 <= usbfd p /\ 0 <= socket0 p /\ 0 <= socket1 p
  else p = no_port.

(** A port is opened from a tty or over usbfs, not from both. *)
Definition port_ok (p : port_fds) : Prop :=
  (usbfd p = -1 -> socket0 p = -1 /\ socket1 p = -1) /\ (usbfd p <> -1 -> ttyfd p = -1).

Lemma total_events {sys} (f : io sys -> nat) h h' : total f (h ++ h') = (total f h + total f h')%nat.
Proof. induction h as [|e h IH]; cbn; lia. Qed.

Lemma takes_relabel x (h : list (io usys)) : total (takes x) (relabel (fun A c => UsbCall c) h) = total (usb_takes x) h.
Proof. induction h as [|[A c a] h IH]; [done|]. exact (f_equal2 plus eq_refl IH). Qed.
Lemma gives_relabel x (h : list (io usys)) : total (gives x) (relabel (fun A c => UsbCall c) h) = total (usb_gives x) h.
Proof. induction h as [|[A c a] h IH]; [done|]. exact (f_equal2 plus eq_refl IH). Qed.

(** Only the descriptor that is the result stays open. *)
Lemma open_interface_gives_back (E : env usys) d intf (w : world usys ust) name :
  c_string 0 (devname d) = Some name -> (forall h path, -1 <= E Z h (OpenDev path)) ->
  runs E (ql_usbfs_open_interface d intf) w (fun fd w' => loc w' = loc w /\ -1 <= fd /\
    forall x, (total (usb_takes x) (hist w') + total (usb_gives x) (hist w) =
               total (usb_gives x) (hist w') + total (usb_takes x) (hist w) + fd_one x fd)%nat).
Proof.
  intros Hn He. unfold ql_usbfs_open_interface. rsteps. eapply runs_of_option; [done|]. rsteps.
  set (r := E Z _ (Access _)).
  eapply runs_mono with (Q := fun _ (w' : world usys ust) => loc w' = loc w /\
    forall x, total (usb_takes x) (hist w') = total (usb_takes x) (hist w) /\
              total (usb_gives x) (hist w') = total (usb_gives x) (hist w)).
  { destruct (r =? ENOENT); [|rsteps; by cbn]. unfold make_node. rsteps.
    match goal with |- runs _ (if ?b then _ else _) _ _ => destruct b end; rsteps; by cbn. }
  intros dev w1 [Hl Hh]. rsteps. set (fd := E Z _ (OpenDev _)).
  assert (Hfd : -1 <= fd) by apply He.
  eapply runs_mono with (Q := fun _ (w' : world usys ust) => loc w' = loc w /\
    forall x, total (usb_takes x) (hist w') = (fd_one x fd + total (usb_takes x) (hist w))%nat /\
              total (usb_gives x) (hist w') = total (usb_gives x) (hist w)).
  { destruct (r =? ENOENT); rsteps; cbn; (split; [exact Hl|]); intros x; destruct (Hh x) as [<- <-]; auto. }
  clear Hh. intros ? w2 [Hl2 Hh]. destruct (Z.eqb_spec fd (-1)) as [H1|H1].
  { rsteps. split_and!; [done|lia|]. intros x. destruct (Hh x) as [-> ->]. rewrite H1. unfold fd_one. cbn. lia. }
  unfold usbfs_is_kernel_driver_alive, usbfs_detach_kernel_driver. rsteps.
  eapply runs_mono with (Q := fun _ (w' : world usys ust) => loc w' = loc w /\
    forall x, total (usb_takes x) (hist w') = (fd_one x fd + total (usb_takes x) (hist w))%nat /\
              total (usb_gives x) (hist w') = total (usb_gives x) (hist w)).
  { match goal with |- runs _ (if ?b then _ else _) _ _ => destruct b end; rsteps; by cbn. }
  clear Hh. intros ? w3 [Hl3 Hh]. rsteps.
  match goal with |- runs _ (if ?b then _ else _) _ _ => destruct b end; rsteps.
  - split_and!; [done|done|]. intros x. destruct (Hh x) as [H2 H3]. cbn. cbn. lia.
  - split_and!; [done|lia|]. intros x. destruct (Hh x) as [H2 H3]. cbn.
    unfold fd_one in *. destruct (Z.eqb_spec fd (-1)); [done|]. cbn. lia.
Qed.

#[local] Arguments fd_one : simpl never.
#[local] Arguments one : simpl never.
#[local] Arguments held : simpl never.
#[local] Arguments held_all : simpl never.

Section Ports.
Context (E : env msys) (HE : descriptors_ok E).

Lemma fd_one_none x : fd_one x (-1) = 0%nat.
Proof. done. Qed.
Lemma fd_one_open x fd : 0 <= fd -> fd_one x fd = one x (Descriptor fd).
Proof. unfold fd_one. intros. by destruct (Z.eqb_spec fd (-1)); [lia|]. Qed.

Lemma in_balance_loc w0 w s f : in_balance w0 w f -> in_balance w0 (World s (hist w)) f.
Proof. done. Qed.

(** Closing gives the descriptor back, if there is one. *)
Lemma runs_safe_close w fd (Q : unit -> world msys mst -> Prop) :
  (forall h, (forall x, total (takes x) h = total (takes x) (hist w) /\
                        total (gives x) h = total (gives x) (hist w) + fd_one x fd)%nat ->
     Q tt (World (loc w) h)) ->
  runs E (safe_close_fd fd) w Q.
Proof.
  intros H. unfold safe_close_fd. destruct (Z.eqb_spec fd (-1)) as [->|Hn].
  - apply runs_ret. destruct w. apply H. intros x. rewrite fd_one_none. simpl. lia.
  - rsteps. destruct (E _ _ _). apply H. intros x. cbn. unfold fd_one. destruct (Z.eqb_spec fd (-1)); [done|lia].
Qed.

(** What a port holds after the calls that opened it. *)
Lemma held_tty x fd : held x (no_port <| ttyfd := fd |>) = fd_one x fd.
Proof. unfold held. cbn. rewrite !fd_one_none. lia. Qed.
Lemma held_usb x fd s0 s1 t : fd <> -1 ->
  held x (PortFds (-1) fd s0 s1 t) = (fd_one x fd + fd_one x s0 + fd_one x s1 + one x (Reader t))%nat.
Proof. intros H. unfold held. cbn. destruct (Z.eqb_spec fd (-1)); [done|]. by rewrite fd_one_none. Qed.
Lemma held_none x : held x no_port = 0%nat.
Proof. done. Qed.

(** A place for a port among the descriptors of the tool. *)
Record place (put : port_fds -> mst -> mst) (here : ql_fds_t -> port_fds)
    (upd : port_fds -> ql_fds_t -> ql_fds_t) : Prop := Place {
  put_upd : forall p s, fds (put p s) = upd p (fds s);
  here_upd : forall p f, here (upd p f) = p;
  upd_upd : forall p q f, upd p (upd q f) = upd p f;
  upd_here : forall f, upd (here f) f = f;
  held_upd : forall x p f, (held_all x (upd p f) + held x (here f) = held_all x f + held x p)%nat;
}.

(** A port of which nothing is open. *)
Definition idle (p : port_fds) : Prop := ttyfd p = -1 /\ usbfd p = -1 /\ socket0 p = -1 /\ socket1 p = -1.
Lemma held_idle x p : idle p -> held x p = 0%nat.
Proof. unfold idle, held. intros (-> & -> & -> & ->). done. Qed.

(** The counts of all resources at once. *)
Ltac tally :=
  intros x; repeat match goal with H : forall x : resource, _ |- _ => specialize (H x) end; simpl in *.

Section Place.
Context put here upd (PL : place put here upd).

Lemma serial_open_gives w device (Q : Z -> world msys mst -> Prop) :
  (forall fd h, -1 <= fd ->
    (forall x, total (takes x) h = total (takes x) (hist w) + fd_one x fd /\
               total (gives x) h = total (gives x) (hist w))%nat ->
    Q fd (World (loc w) h)) ->
  runs E (serial_open device) w Q.
Proof.
  destruct HE as [Ht _]. intros H. unfold serial_open. rsteps. set (fd := E Z _ _).
  assert (-1 <= fd) by apply Ht.
  destruct (fd <? 0); rsteps; apply H; try done; intros x; cbn; lia.
Qed.

Lemma open_usb_gives w d intf name (Q : Z -> world msys mst -> Prop) :
  c_string 0 (devname d) = Some name ->
  (forall fd h, -1 <= fd ->
    (forall x, total (takes x) h + total (gives x) (hist w) =
               total (gives x) h + total (takes x) (hist w) + fd_one x fd)%nat ->
    Q fd (World ((loc w) <| usb := usb (loc w) |>) h)) ->
  runs E (in_usb (ql_usbfs_open_interface d intf)) w Q.
Proof.
  destruct HE as (_ & Hd & _). intros Hn H. apply runs_within.
  eapply runs_mono; [apply (open_interface_gives_back _ _ _ _ name Hn); intros; apply Hd|].
  intros fd [l h] (Hl & Hfd & Hx). cbn in Hl. subst l. apply H; [done|]. intros x. specialize (Hx x). cbn in Hx.
  rewrite !total_events, takes_relabel, gives_relabel. simpl. lia.
Qed.
(** One of the three parts of [prepare]. *)
Lemma open_port_correct d tty intf rx force setup name w0 w :
  c_string 0 (devname d) = Some name -> here (fds (loc w)) = no_port -> in_balance w0 w (fds (loc w)) ->
  runs E (open_port put d tty intf rx force setup) w (fun ok w' =>
    exists p, fds (loc w') = upd p (fds (loc w)) /\ port_ok p /\
      in_balance w0 w' (fds (loc w')) /\ (ok = true -> port_ready tty intf force p)).
Proof.
  destruct PL as [Hput Hhere Hupd Hsame Hheld]. intros Hn Hw Hb. unfold open_port, in_balance in *.
  assert (Hh : forall x p, held_all x (upd p (fds (loc w))) = (held_all x (fds (loc w)) + held x p)%nat).
  { intros x p. specialize (Hheld x p (fds (loc w))). rewrite Hw, held_none in Hheld. lia. }
  unfold port_ready. destruct (_ && _).
  { apply runs_bind, serial_open_gives. intros fd h Hfd Hx. rsteps. exists (no_port <| ttyfd := fd |>).
    simpl (loc _). rewrite Hput. split_and!.
    - done.
    - by split.
    - intros x. specialize (Hb x). specialize (Hx x). rewrite Hh, held_tty. simpl. lia.
    - intros Hok. cbn. lia. }
  destruct (negb (_ =? 255)).
  2: { rsteps. exists no_port. rewrite <-Hw, Hsame. split_and!; [done|by rewrite Hw|done|by rewrite Hw]. }
  apply runs_bind, (open_usb_gives _ _ _ _ _ Hn). intros fd h Hfd Hx. rsteps.
  destruct (Z.ltb_spec fd 0) as [Hneg|Hpos].
  { rsteps. assert (fd = -1) as -> by lia. exists no_port. simpl (loc _). rewrite Hput. split_and!; [done|done| |done].
    intros x. specialize (Hb x). specialize (Hx x). rewrite fd_one_none in Hx. rewrite Hh, held_none. simpl. lia. }
  rsteps. destruct HE as (_ & _ & Hs). destruct (E _ _ SocketPair) as [[s0 s1]|] eqn:Hp.
  2: { rsteps. apply runs_safe_close. intros h1 Hx1. rsteps. exists no_port. simpl (loc _).
    rewrite !Hput, Hupd. split_and!; [done|done| |done]. tally. rewrite Hh, held_none. lia. }
  apply Hs in Hp as [Hs0 Hs1]. rsteps. destruct (E _ _ (Spawn _)) as [t|] eqn:Ht.
  2: { rsteps. apply runs_safe_close. intros h1 Hx1. rsteps. apply runs_safe_close. intros h2 Hx2.
    rsteps. apply runs_safe_close. intros h3 Hx3. rsteps. exists no_port. simpl (loc _).
    rewrite !Hput, !Hupd. split_and!; [done|done| |done]. tally. rewrite Hh, held_none. lia. }
  rsteps. set (p := PortFds (-1) fd s0 s1 t).
  match goal with |- runs _ _ ?w1 _ => assert (H1 : fds (loc w1) = upd p (fds (loc w)) /\
      in_balance w0 w1 (upd p (fds (loc w)))) end.
  { simpl (loc _). rewrite !Hput, !Hupd. split; [done|]. unfold in_balance. tally.
    rewrite Hh. unfold p. rewrite held_usb; lia. }
  destruct H1 as [H1 H2].
  match goal with |- runs _ (if ?b then _ else _) _ _ => destruct b end; unfold option_send_setup; rsteps; exists p.
  all: split_and!; [exact H1|split; cbn; [lia|done]| |intros _; cbn; lia]; simpl (loc _) in *; rewrite H1; exact H2.
Qed.

(** Closing a port gives back all that it holds. *)
Lemma close_port_correct intf w0 w :
  port_ok (here (fds (loc w))) -> in_balance w0 w (fds (loc w)) ->
  runs E (close_port put (here (fds (loc w))) intf) w (fun _ w' =>
    exists p, fds (loc w') = upd p (fds (loc w)) /\ idle p /\ in_balance w0 w' (fds (loc w'))).
Proof.
  destruct PL as [Hput Hhere Hupd Hsame Hheld]. set (f := fds (loc w)). set (p := here f).
  intros [Hno Husb] Hb. unfold close_port, in_balance in *.
  assert (Hi : forall x q, idle q -> (held_all x (upd q f) + held x p)%nat = held_all x f).
  { intros x q Hq. specialize (Hheld x q f). rewrite (held_idle x q Hq) in Hheld. subst p. lia. }
  destruct (Z.eqb_spec (usbfd p) (-1)) as [Hn|Hn]; cbn [negb].
  - assert (Hp : forall x, held x p = fd_one x (ttyfd p)).
    { intros x. destruct (Hno Hn) as [Hs0 Hs1]. unfold held. rewrite Hn, Hs0, Hs1. rewrite !fd_one_none. cbn. lia. }
    rsteps. apply runs_safe_close. intros h Hx. exists (p <| ttyfd := -1 |>). simpl (loc _). rewrite Hput.
    assert (Hq : idle (p <| ttyfd := -1 |>)) by (destruct (Hno Hn); by split).
    split_and!; [done|done|]. tally. change (fds (loc w)) with f. specialize (Hi _ Hq). lia.
  - assert (Hp : forall x, held x p =
      (fd_one x (usbfd p) + fd_one x (socket0 p) + fd_one x (socket1 p) + one x (Reader (tid p)))%nat).
    { intros x. unfold held. rewrite (Husb Hn), fd_one_none. destruct (Z.eqb_spec (usbfd p) (-1)); [done|lia]. }
    rsteps. apply runs_safe_close. intros h1 Hx1. rsteps. apply runs_safe_close. intros h2 Hx2.
    rsteps. apply runs_safe_close. intros h3 Hx3.
    set (q := p <| usbfd := -1 |> <| socket0 := -1 |> <| socket1 := -1 |>).
    exists q. simpl (loc _). rewrite !Hput, !Hupd.
    assert (Hq : idle q) by (split; [exact (Husb Hn)|done]). split_and!; [done|done|].
    tally. change (fds (loc w)) with f. specialize (Hi q Hq). lia.
Qed.
End Place.

Lemma place_dm : place put_dm dm (fun p f => f <| dm := p |>).
Proof. split; try done; [by intros []|]. intros x p [a b c]. unfold held_all. cbn. lia. Qed.
Lemma place_general : place put_general general (fun p f => f <| general := p |>).
Proof. split; try done; [by intros []|]. intros x p [a b c]. unfold held_all. cbn. lia. Qed.
Lemma place_third : place put_third third (fun p f => f <| third := p |>).
Proof. split; try done; [by intros []|]. intros x p [a b c]. unfold held_all. cbn. lia. Qed.

Definition ports_ok (f : ql_fds_t) : Prop := port_ok (dm f) /\ port_ok (general f) /\ port_ok (third f).
Definition all_idle (f : ql_fds_t) : Prop := idle (dm f) /\ idle (general f) /\ idle (third f).
Definition all_ready (d : ql_usb_device_info) (f : ql_fds_t) : Prop :=
  port_ready (Usb.ttyDM d) (dm_intf d) (forced_usbfs d) (dm f) /\
  port_ready (Usb.ttyGENERAL d) (general_intf d) (forced_usbfs d) (general f) /\
  port_ready (ttyTHIRD d) (third_intf d) (forced_usbfs d) (third f).

Lemma close_fds_correct d w0 w :
  ports_ok (fds (loc w)) -> in_balance w0 w (fds (loc w)) ->
  runs E (close_fds d) w (fun _ w' => all_idle (fds (loc w')) /\ in_balance w0 w' (fds (loc w'))).
Proof.
  intros (Hd & Hg & Ht) Hb. unfold close_fds. rstep. apply runs_get. cbn beta.
  eapply runs_seq; [by apply (close_port_correct _ _ _ place_dm)|].
  intros [] w1 (p1 & H1 & Hi1 & Hb1). rstep. apply runs_get. cbn beta.
  assert (Hg1 : general (fds (loc w1)) = general (fds (loc w))) by (by rewrite H1).
  assert (Ht1 : third (fds (loc w1)) = third (fds (loc w))) by (by rewrite H1).
  eapply runs_seq; [apply (close_port_correct _ _ _ place_general); [by rewrite Hg1|done]|].
  intros [] w2 (p2 & H2 & Hi2 & Hb2). rstep. apply runs_get. cbn beta.
  assert (Ht2 : third (fds (loc w2)) = third (fds (loc w))) by (by rewrite H2).
  eapply runs_mono; [apply (close_port_correct _ _ _ place_third); [by rewrite Ht2|done]|].
  intros [] w3 (p3 & H3 & Hi3 & Hb3). split; [|done]. rewrite H3, H2, H1. by split_and!.
Qed.

Lemma prepare_correct d name w :
  c_string 0 (devname d) = Some name ->
  runs E (prepare d) w (fun r w' => (r = 0 \/ r = -1) /\ ports_ok (fds (loc w')) /\
    in_balance w w' (fds (loc w')) /\ (r = 0 -> all_ready d (fds (loc w')))).
Proof.
  intros Hn. unfold prepare. rstep. apply runs_modify.
  set (w0 := World _ _). assert (Hw0 : fds (loc w0) = Fds no_port no_port no_port) by done.
  assert (Hb0 : in_balance w w0 (fds (loc w0))) by (intros x; rewrite Hw0; unfold held_all; cbn; rewrite !held_none; lia).
  eapply runs_seq; [eapply (open_port_correct _ _ _ place_dm _ _ _ _ _ _ _ _ _ Hn); [by rewrite Hw0|exact Hb0]|].
  clearbody w0. intros ok1 w1 (p1 & H1 & Ho1 & Hb1 & Hr1). rewrite Hw0 in H1.
  destruct ok1; cbn [negb]. 2: { rsteps. rewrite H1 in *. split_and!; [by right|by split_and!|done|done]. }
  eapply runs_seq; [eapply (open_port_correct _ _ _ place_general _ _ _ _ _ _ _ _ _ Hn); [by rewrite H1|exact Hb1]|].
  intros ok2 w2 (p2 & H2 & Ho2 & Hb2 & Hr2). rewrite H1 in H2.
  destruct ok2; cbn [negb]. 2: { rsteps. rewrite H2 in *. split_and!; [by right|by split_and!|done|done]. }
  eapply runs_seq; [eapply (open_port_correct _ _ _ place_third _ _ _ _ _ _ _ _ _ Hn); [by rewrite H2|exact Hb2]|].
  intros ok3 w3 (p3 & H3 & Ho3 & Hb3 & Hr3). rewrite H2 in H3.
  destruct ok3; cbn [negb]; rsteps; rewrite H3 in *.
  - split_and!; [by left|by split_and!|done|]. intros _. split_and!; auto.
  - split_and!; [by right|by split_and!|done|done].
Qed.
End Ports.

(** C17: Opening the ports of a module never leaks: a success leaves every port that the module has ready
    for the capture (a tty, or a USB interface with its socket pair and reader thread), a failure leaves open only
    what the variables still name; and closing them afterwards, once the capture is done with its own
    descriptors, gives back every descriptor and joins every reader that was started, once. *)
Theorem ports_given_back E d name w :
  descriptors_ok E -> c_string 0 (devname d) = Some name ->
  runs E (prepare d) w (fun r w' =>
    (r = 0 \/ r = -1) /\ in_balance w w' (fds (loc w')) /\ (r = 0 -> all_ready d (fds (loc w'))) /\
    forall w1, fds (loc w1) = fds (loc w') -> in_balance w w1 (fds (loc w1)) ->
      runs E (close_fds d) w1 (fun _ w2 => all_idle (fds (loc w2)) /\
        forall x, (total (takes x) (hist w2) + total (gives x) (hist w) =
                   total (gives x) (hist w2) + total (takes x) (hist w))%nat)).
Proof.
  intros HE Hn. eapply runs_mono; [by apply (prepare_correct E HE d name)|].
  intros r w' (Hr & Ho & Hb & Ha). split_and!; [done..|].
  intros w1 H1 Hb1. eapply runs_mono; [apply (close_fds_correct E d w); [by rewrite H1|done]|].
  intros [] w2 [(I1 & I2 & I3) Hb2]. split; [by split_and!|]. intros x. specialize (Hb2 x).
  unfold held_all in Hb2. rewrite !held_idle in Hb2 by done. lia.
Qed.

(** A device with a serial port, a USB interface and a trace stream. *)
Definition sample_dev : ql_usb_device_info :=
  zero_dev <| idVendor := 0x2c7c |> <| idProduct := 0x0800 |> <| bNumInterfaces := 5 |>
           <| devname := str "bus/usb/001/002" ++ replicate 17 0 |> <| Usb.ttyDM := str "/dev/ttyUSB0" |>
           <| dm_intf := no_intf <| bInterfaceNumber := 0 |> |>
           <| general_intf := no_intf <| bInterfaceNumber := 12 |> <| ep_in := 0x8e |> |>
           <| third_intf := no_intf |> <| third_type := -1 |>.

(** A system in which the calls of a start succeed. *)
Definition sample_usb {A} (c : usys A) : A :=
  match c in usys A return A with
  | OpenDev _ => 7
  | GetDriver _ _ => 1
  | ReadFile _ _ => None | ReadUevent _ => None | ReadDir _ => None | Stat _ => None
  | Bulk _ _ _ => None | Reap _ => None
  | Usleep _ => tt | Remove _ => tt | Close _ => tt
  | Access _ => 0 | Mknod _ _ => 0 | Disconnect _ _ => 0 | Claim _ _ => 0 | Submit _ _ _ => 0
  end.
Definition sample_opt {A} (c : osys A) : A :=
  match c in osys A return A with
  | LinkTarget _ => None | TftpTestServer _ => 0 | Strdup s => Some s | QlogUsage => tt
  end.
Definition sample_server {A} (c : Qserver.qsys A) : A :=
  match c in Qserver.qsys A return A with
  | Qserver.TimeName => None | Qserver.Read _ _ => None | Qserver.ExitRequested => true | Qserver.FileFds => []
  | Qserver.Open _ => -1 | Qserver.Write _ _ => -1 | Qserver.Socket => -1 | Qserver.SetReuse _ => -1
  | Qserver.Bind _ _ => -1 | Qserver.Listen _ _ => -1 | Qserver.Accept _ => -1 | Qserver.StartThread _ => -1
  | Qserver.Close _ => tt | Qserver.Sleep _ => tt | Qserver.CancelThread _ => tt
  end.
Definition sample_env : env msys := fun A h c =>
  match c in msys A return A with
  | UsbCall c => sample_usb c
  | OptCall c => sample_opt c
  | ServerCall c => sample_server c
  | OpenTty _ => 3
  | SocketPair => Some (8, 9)
  | Spawn _ => Some 42
  | ListDir _ => None | StatFile _ => None | StatFs _ => None | ReadFd _ _ => None | TimeName => None
  | FileSize _ => Some 100
  | Fread _ => []
  | CreateOut _ => true | Signalled => false
  | CatchLog _ => Captured 0 1 0 0 0
  | LineState _ _ _ => 0 | Unlink _ => 0 | Mkdir _ => 0 | Exists _ => 0 | OpenFile _ _ => 5 | WriteFd _ _ => 4
  | GetPid => 1 | Kill _ => 0 | Wait _ _ => 0 | CreateLog _ => 6 | AsrDump _ _ => 0 | UnisocDump _ _ _ => 0
  | SaharaDump _ _ => 0
  | SetRaw _ _ => tt | SetFlags _ _ => tt | Join _ => tt | CloseFd _ => tt | ReleaseInterface _ _ => tt
  | SkipTo _ _ => tt | Fwrite _ => tt | CloseIn => tt | CloseOut => tt | ForgetLogName => tt | Sleep _ => tt
  | ComLog => tt | ResetMdm => tt | FtpQuit => tt
  end.
Definition sample_state : mst :=
  Mst initial (Ust (sample_dev :: replicate 7 zero_dev) 0) 0 (Fds no_port no_port no_port)
    0 0 0 0 0 0 0 0 0 0 0 0 0 0 0 (Qserver.Qst (server_of initial) [] [] []).

Lemma sample_descriptors : descriptors_ok sample_env.
Proof. split_and!; cbn; intros; simplify_eq; lia. Qed.

Lemma ports_given_back_witness :
  runs sample_env (prepare sample_dev) (World sample_state []) (fun r w' =>
    (r = 0 \/ r = -1) /\ in_balance (World sample_state []) w' (fds (loc w')) /\
    (r = 0 -> all_ready sample_dev (fds (loc w'))) /\
    forall w1, fds (loc w1) = fds (loc w') -> in_balance (World sample_state []) w1 (fds (loc w1)) ->
      runs sample_env (close_fds sample_dev) w1 (fun _ w2 => all_idle (fds (loc w2)) /\
        forall x, (total (takes x) (hist w2) + total (gives x) (hist (World sample_state [])) =
                   total (gives x) (hist w2) + total (takes x) (hist (World sample_state [])))%nat)) /\
  match prepare sample_dev sample_env (World sample_state []) with
  | Done r w' => (r, fds (loc w'), use_diag_qdss (loc w'), use_diag_dpl (loc w')) =
                 (0, Fds (PortFds 3 (-1) (-1) (-1) (-1)) (PortFds (-1) 7 8 9 42) no_port, 1, 0)
  | _ => False
  end.
Proof. split; [apply (ports_given_back sample_env sample_dev (str "bus/usb/001/002")); [apply sample_descriptors|done]|by vm_compute]. Defined.

(** When the module does not take the command, the port stays open. *)
Lemma cfun_leaks (E : env msys) w : (forall h fd buf, E _ h (WriteFd fd buf) = -1) ->
  (forall h path, 0 <= E _ h (OpenTty path)) ->
  runs E sendCfun2ATPort w (fun r w' => r = -1 /\
    forall x, total (gives x) (hist w') = total (gives x) (hist w)).
Proof.
  intros HW HO. unfold sendCfun2ATPort, serial_open. rsteps.
  match goal with |- context [E Z ?h (OpenTty ?p)] => destruct (Z.ltb_spec (E Z h (OpenTty p)) 0) as [Hl|_]; [specialize (HO h p); lia|];
    pose proof (HO h p) as Ho end.
  rsteps. destruct (Z.ltb_spec (E Z (hist w) (OpenTty (g_ttyAT (opt (loc w))))) 0); [lia|]. rsteps. rewrite HW.
  change (-1 <? 0) with true. cbn iota. rsteps. split; [done|]. intros x. by destruct x.
Qed.

(** Trimming never ends when the file is shorter than it was: [fread] returns
    nothing at its end, and the count does not fall. *)
Lemma trim_spins (E : env msys) fuel n w : (forall h k, E _ h (Fread k) = []) -> 0 < n < 2 ^ 64 ->
  spins E (iterM fuel copy_turn n) w.
Proof.
  intros He Hn. apply (spins_iterM E copy_turn (fun a _ => a = n)); [|done].
  intros a w1 ->. unfold copy_turn. destruct (Z.leb_spec n 0); [lia|]. rsteps. rewrite He.
  unfold u64. cbn. rewrite Z.sub_0_r. apply Z.mod_small. lia.
Qed.

(** A file with a name of fewer than four characters in the log directory:
    the comparison of suffixes reads before the name. *)
Lemma short_name_undef (E : env msys) dir suffix name w :
  g_use_compress_cmd (opt (loc w)) <= 0 -> starts_with 46 name = false -> (length name < 4)%nat ->
  delete_one dir suffix name E w = Undef.
Proof.
  intros Hc Hd Hl. unfold delete_one, mbind, M_bind, get. rewrite Hd.
  destruct (Z.ltb_spec 0 (g_use_compress_cmd (opt (loc w)))); [lia|].
  unfold of_option, log_suffixes. cbn [has_any]. unfold str_has_suffix.
  change (length (str ".sdl")) with 4%nat. apply Nat.ltb_lt in Hl. by rewrite Hl.
Qed.
