(* ===== verification/QsocketServer.v ===== *)
(** The socket server (src/qsocket_server): the program on the host that asks
    the monitor on a module for its logs, sends it the configuration of the
    filter, and stores what the module sends over up to three connections.

    [QsocketServer] follows qparameter.c (options), common.c (the messages to the
    monitor, the receiving threads), qfile.c (the log files), main.c and
    qsocket.c, whose server objects no other file uses.  [USING_PTHREAD] is
    defined in common.h: the threads are those of [startServer_p]; the processes of [startServer] are modelled, too.
    A thread is modelled by itself; the variables of the three log types that
    threads share are in the state, and a chunk is stored in one step. *)

From Stdlib Require Import ZArith Lia.
From stdpp Require Import base list strings.
From S2P Require Import Prelude Disk Str CText.

(** ** Calls and variables *)

(** [ExitFlag] reads [g_request_exit], which the signal handler sets; the
    answers of [Recv] and [ReadCfg] are the bytes, [None] for an error;
    [Select] is the call of main without a timeout. *)
Inductive ssys : Type -> Type :=
| Usage : ssys unit
| Socket : ssys Z
| Connect (fd : Z) (ip : list Z) (port : Z) : ssys Z
| SetReuse (fd : Z) : ssys Z
| Bind (fd port : Z) : ssys Z
| Listen (fd backlog : Z) : ssys Z
| Accept (fd : Z) : ssys Z
| Recv (fd size : Z) : ssys (option (list Z))
| Send (fd : Z) (buf : list Z) : ssys Z
| Close (fd : Z) : ssys unit
| Select (fd : Z) : ssys Z
| OpenCfg (path : list Z) : ssys Z
| ReadCfg (fd size : Z) : ssys (option (list Z))
| OpenLog (path : list Z) : ssys Z
| Write (fd : Z) (buf : list Z) : ssys Z
| TimeName : ssys (list Z)
| Md5sum (command : list Z) : ssys (option (list Z))
| ClosePipe : ssys Z
| FileSize (path : list Z) : ssys (option Z)
| CreateThread (num : Z) : ssys (option Z)
| JoinThread (t : Z) : ssys Z
| Fork : ssys Z
| Malloc : ssys bool
| Fopen (path : list Z) : ssys (option Z)
| Fwrite (file : Z) (buf : list Z) : ssys unit
| Fclose (file : Z) : ssys unit
| ExitFlag : ssys bool
| Signal : ssys bool
| Sleep (msecs : Z) : ssys unit.

(** The three paths are buffers of 256 bytes. *)
Record QParameter : Type := Parameter_ {
  socket_clent_action_time : Z;
  one_log_file_max_size : Z;
  number_file : Z;
  cfg_file_path : list Z;
  log_type : Z;
  monitor_ip : list Z;
  monitor_port : Z;
  workspace_path : list Z;
}.
#[export] Instance eta_QParameter : Eta QParameter := fun s =>
  Parameter_ (socket_clent_action_time s) (one_log_file_max_size s) (number_file s) (cfg_file_path s) (log_type s)
    (monitor_ip s) (monitor_port s) (workspace_path s).

Record sst : Type := Sst {
  g_qparameter : QParameter;
  g_server_fd : Z;
  g_threads : list (option Z);
  qxdm_fd : Z;
  qdss_fd : Z;
  adpl_fd : Z;
  qxdm_size : Z;
  qdss_size : Z;
  adpl_size : Z;
  child_pids : list Z;
}.
#[export] Instance eta_sst : Eta sst := fun s =>
  Sst (g_qparameter s) (g_server_fd s) (g_threads s) (qxdm_fd s) (qdss_fd s) (adpl_fd s) (qxdm_size s) (qdss_size s)
    (adpl_size s) (child_pids s).

Abbreviation Sv := (M ssys sst).

Definition par {A} (f : QParameter -> A) : Sv A := gets (fun s => f (g_qparameter s)).
Definition set_par (f : QParameter -> QParameter) : Sv unit := modify (fun s => s <| g_qparameter ::= f |>).

Definition BUFFER_SIZE : Z := 1024 * 1024.
Definition QSOCKET_LOGFILE_NUM : Z := 512.
Definition NUM_SERVERS : nat := 3.
Definition MDLOG_DM_SOCKET_PORT : Z := 14001.
Definition MDLOG_QDSS_SOCKET_PORT : Z := 14002.
Definition MDLOG_ADPL_SOCKET_PORT : Z := 14003.
Definition EXIT_FAILURE : Z := 1.

(** ** Parameters (qparameter.c) *)

(** The paths are filled with the digit, not with zeros. *)
Definition zero_digits : list Z := replicate 256 48.
Definition initParameter : QParameter :=
  Parameter_ 0 512 512 zero_digits 1 zero_digits 0 (put 0 (str "./" ++ [0]) zero_digits).

(** [strcpy] into one of the paths. *)
Definition strcpy (s dst : list Z) : option (list Z) := wr 0 (s ++ [0]) dst.

Definition clamp (lo hi z : Z) : Z := if z <? lo then lo else if hi <? z then hi else z.

(** The tokens after the first one are ports, the last one counts. *)
Definition take_token (num : nat) (token : list Z) (p : QParameter) : option QParameter :=
  match num with
  | O => ip ← strcpy token (monitor_ip p); Some (p <| monitor_ip := ip |>)
  | _ => Some (p <| monitor_port := u32 (atoi token) |>)
  end.
Fixpoint take_tokens (num : nat) (l : list (list Z)) (p : QParameter) : option QParameter :=
  match l with
  | [] => Some p
  | token :: l => p ← take_token num token p; take_tokens (S num) l p
  end.
Definition parserMonitorMes (s : list Z) (p : QParameter) : option QParameter := take_tokens 0 (tokens 45 s) p.

Definition option_string (c : Z) : option takes :=
  if bool_decide (c ∈ str "mnftTsw") then Some Argument
  else if bool_decide (c ∈ str "h") then Some NoArgument
  else None.

(** [None] is a copy past the end of a buffer, [Some None] the usage. *)
Definition take_option (opt : Z) (optarg : list Z) (p : QParameter) : option (option QParameter) :=
  if opt =? 110 (* n *) then Some (Some (p <| number_file := clamp 0 QSOCKET_LOGFILE_NUM (atoi optarg) |>))
  else if opt =? 109 (* m *) then Some (Some (p <| one_log_file_max_size := clamp 1 1024 (atoi optarg) |>))
  else if opt =? 116 (* t *) then Some (Some (p <| socket_clent_action_time := atoi optarg |>))
  else if opt =? 102 (* f *) then path ← strcpy optarg (cfg_file_path p); Some (Some (p <| cfg_file_path := path |>))
  else if opt =? 84 (* T *) then Some (Some (p <| log_type := atoi optarg |>))
  else if opt =? 119 (* w *) then path ← strcpy optarg (workspace_path p); Some (Some (p <| workspace_path := path |>))
  else if opt =? 115 (* s *) then
    monitor_str ← strcpy optarg zero_digits;
    p ← parserMonitorMes (cstr monitor_str) p; Some (Some p)
  else Some None.

Fixpoint take_options (l : list (Z * option (list Z))) : Sv bool :=
  match l with
  | [] => mret true
  | (opt, optarg) :: l =>
      p ← par id;
      r ← of_option (take_option opt (match optarg with Some s => s | None => [] end) p);
      match r with
      | Some p => set_par (fun _ => p);; take_options l
      | None => call Usage;; mret false
      end
  end.
Definition parserArgv (argv : list (list Z)) : Sv bool := take_options (getopt option_string (drop 1 argv)).

(** ** The connection to the monitor (common.c) *)

Definition initMainSocket : Sv Z :=
  fd ← call Socket;
  modify (fun s => s <| g_server_fd := fd |>);;
  if fd <? 0 then mret EXIT_FAILURE else
  p ← par id;
  ip ← of_option (c_string 0 (monitor_ip p));
  r ← call (Connect fd ip (u16 (monitor_port p)));
  if r <? 0 then call (Close fd);; mret EXIT_FAILURE else mret 0.

Definition closeMainSocket : Sv Z :=
  fd ← gets g_server_fd;
  if fd <? 0 then mret 0 else
  call (Close fd);; modify (fun s => s <| g_server_fd := -1 |>);; mret 0.

(** A message: its type, the length of what follows in four bytes, and that. *)
Definition message (type : Z) (length : Z) (payload : list Z) : list Z := type :: le_bytes 4 (u32 length) ++ payload.
Definition send_message (buf : list Z) : Sv unit := fd ← gets g_server_fd; call (Send fd buf);; mret tt.

(** [qreadFile] answers 1, the descriptor of the standard output, for a file
    that cannot be opened, after it has closed the descriptor -1. *)
Definition qreadFile (filename : list Z) : Sv Z :=
  fd ← call (OpenCfg filename);
  if fd <? 0 then call (Close fd);; mret EXIT_FAILURE else mret fd.

Definition qcloseFile (fd : Z) : Sv unit := if fd <? 0 then mret tt else call (Close fd).

Definition cfg_turn (fd : Z) : Sv (unit + unit) :=
  r ← call (ReadCfg fd 1024);
  match r with
  | None => mret (inr tt)
  | Some [] => mret (inr tt)
  | Some data => send_message (message 4 (len data) data);; call (Sleep 200);; mret (inl tt)
  end.

Section Fuel.
Context (fuel : nat).

Definition sendCfg2Monitor : Sv unit :=
  send_message (message 3 0 []);; call (Sleep 2000);;
  p ← par id;
  path ← of_option (c_string 0 (cfg_file_path p));
  fd ← qreadFile path;
  iterM fuel (fun _ => cfg_turn fd) tt;;
  qcloseFile fd;;
  call (Sleep 2000);;
  send_message (message 5 0 []).

(** ** The log files (qfile.c) *)

Definition fd_of (type : Z) (s : sst) : Z :=
  if type =? 1 then qxdm_fd s else if type =? 2 then qdss_fd s else adpl_fd s.
Definition put_fd (type fd : Z) (s : sst) : sst :=
  if type =? 1 then s <| qxdm_fd := fd |> else if type =? 2 then s <| qdss_fd := fd |> else s <| adpl_fd := fd |>.
Definition size_of (type : Z) (s : sst) : Z :=
  if type =? 1 then qxdm_size s else if type =? 2 then qdss_size s else adpl_size s.
Definition add_size (type n : Z) (s : sst) : sst :=
  let up z := u64 (z + n) in
  if type =? 1 then s <| qxdm_size ::= up |> else if type =? 2 then s <| qdss_size ::= up |> else s <| adpl_size ::= up |>.

Definition extension (type : Z) : list Z :=
  if type =? 1 then str ".qmdl2" else if type =? 2 then str "_qdss.bin" else str ".adplv4".

(** The name has the seconds of the time; a file of the same second is emptied. *)
Definition createLogFile (type : Z) : Sv Z :=
  p ← par id;
  dir ← of_option (c_string 0 (workspace_path p));
  t ← call TimeName;
  path ← of_option (wr 0 (dir ++ t ++ extension type ++ [0]) (replicate (Z.to_nat 1024) 48));
  fd ← call (OpenLog (cstr path));
  mret (if fd <? 0 then -1 else fd).

(** The test of the first size stands in all three cases. *)
Definition checkFileSize (type : Z) : Sv Z :=
  s ← get;
  let MiB := 1024 * 1024 in
  let num := if qxdm_size s <? MiB then 0 else u32 (size_of type s / MiB) in
  mret (if u32 (one_log_file_max_size (g_qparameter s)) <? num then 1 else -1).

Definition closeFile (type : Z) : Sv unit :=
  s ← get; call (Close (fd_of type s));; modify (put_fd type 0).

(** [write2QxdmFile], [write2QdssFile] and [write2AdplFile]. *)
Definition write2File (type : Z) (data : list Z) : Sv Z :=
  fd ← gets (fd_of type);
  (if fd =? 0 then fd ← createLogFile type; modify (put_fd type fd) else mret tt);;
  fd ← gets (fd_of type);
  if fd <? 0 then mret (-1) else
  res ← call (Write fd data);
  if negb (res =? len data) then mret (-1) else
  modify (add_size type res);;
  res ← checkFileSize type;
  (if 0 <? res then closeFile type else mret tt);;
  mret 0.

Definition qwriteData2File (type : Z) (data : list Z) : Sv Z :=
  if (type =? 1) || (type =? 2) || (type =? 3) then write2File type data else mret 0.

(** ** The receiving threads (common.c) *)

Definition server_port (type : Z) : Z :=
  if type =? 1 then MDLOG_DM_SOCKET_PORT else if type =? 2 then MDLOG_QDSS_SOCKET_PORT
  else if type =? 3 then MDLOG_ADPL_SOCKET_PORT else 0.

(** A thread that fails ends the program. *)
Definition receive_turn (type client_fd : Z) : Sv (unit + unit) :=
  r ← call (Recv client_fd (BUFFER_SIZE - 1));
  match r with
  | None => mret (inr tt)
  | Some [] => mret (inr tt)
  | Some data =>
      qwriteData2File type data;;
      e ← call ExitFlag;
      mret (if (e : bool) then inr tt else inl tt)
  end.

Definition accept_turn (type server_fd : Z) : Sv (unit + unit) :=
  e ← call ExitFlag;
  if (e : bool) then mret (inr tt) else
  client_fd ← call (Accept server_fd);
  if client_fd <? 0 then mret (inl tt) else
  iterM fuel (fun _ => receive_turn type client_fd) tt;;
  call (Close client_fd);; call (Sleep 500);; mret (inl tt).

Definition serve (type server_fd : Z) : Sv unit :=
  r ← call (Bind server_fd (server_port type));
  if r <? 0 then call (Close server_fd);; exit_ EXIT_FAILURE else
  call (Listen server_fd 3);;
  iterM fuel (fun _ => accept_turn type server_fd) tt;;
  call (Close server_fd).

Definition startServer_p (num : Z) : Sv unit :=
  let type := s32 (num + 1) in
  server_fd ← call Socket;
  if server_fd <? 0 then exit_ EXIT_FAILURE else
  r ← call (SetReuse server_fd);
  if negb (r =? 0) then exit_ EXIT_FAILURE else serve type server_fd.

Definition startServer (type : Z) : Sv unit :=
  server_fd ← call Socket;
  if server_fd <? 0 then exit_ EXIT_FAILURE else serve type server_fd.

(** The array of threads has three entries. *)
Fixpoint create_threads (todo t : nat) : Sv unit :=
  match todo with
  | O => mret tt
  | S todo =>
      r ← call (CreateThread (Z.of_nat t));
      s ← get;
      if (length (g_threads s) <=? t)%nat then undef else
      match r with
      | None => exit_ 255
      | Some id => modify (fun s => s <| g_threads ::= <[t := Some id]> |>);; create_threads todo (S t)
      end
  end.
Definition startResvThread_p : Sv unit := p ← par id; create_threads (Z.to_nat (log_type p)) 0.

(** In the child [startServer] comes back when the program is to end, and the
    child goes on with the next [fork]. *)
Definition fork_server (type : Z) : Sv unit :=
  pid ← call Fork;
  modify (fun s => s <| child_pids ::= <[Z.to_nat (type - 1) := pid]> |>);;
  if pid =? 0 then startServer type else mret tt.

(** There is no [break] behind the case of two types. *)
Definition startResvThread : Sv unit :=
  p ← par id;
  if log_type p =? 1 then fork_server 1
  else if log_type p =? 2 then
    fork_server 1;; fork_server 2;; fork_server 1;; fork_server 2;; fork_server 3
  else if log_type p =? 3 then fork_server 1;; fork_server 2;; fork_server 3
  else mret tt.

Definition handleMessage (buff : list Z) : Sv unit :=
  b ← of_option (head buff);
  (if b =? 101 then sendCfg2Monitor else mret tt);;
  if b =? 102 then startResvThread_p else mret tt.

(** ** The program (main.c) *)

(** [md5_result] is a buffer of 33 zeros; the length of the file is the answer. *)
Definition handleMD5 (filename md5_result : list Z) (size : Z) : Sv (Z * list Z * Z) :=
  r ← call (Md5sum (snprintf (Z.to_nat BUFFER_SIZE) (str "md5sum " ++ filename)));
  match r with
  | None => mret (-1, md5_result, size)
  | Some line =>
      let result := match fgets 33 line with Some (l, _) => put 0 (l ++ [0]) md5_result | None => md5_result end in
      n ← call (FileSize filename);
      match n with
      | None => mret (-1, result, size)
      | Some n =>
          r ← call ClosePipe;
          mret (if r =? -1 then -1 else 0, result, s32 n)
      end
  end.

Definition sendHueryUpMessage (md5_result : list Z) (file_size : Z) : Sv unit :=
  p ← par id;
  md5 ← of_option (c_string 0 md5_result);
  let body := le_bytes 4 (u32 file_size) ++ le_bytes 4 (u32 (log_type p)) ++ md5 in
  send_message (take 45 (message 1 40 body ++ replicate (Z.to_nat 4096) 0)).

Definition sendStopMessage : Sv unit := send_message (message 2 0 []).

(** An error of [recv] is the index -1. *)
Definition main_turn : Sv (unit + unit) :=
  e ← call ExitFlag;
  if (e : bool) then mret (inr tt) else
  fd ← gets g_server_fd;
  r ← call (Select fd);
  (if r <=? 0 then mret tt else
     data ← call (Recv fd (BUFFER_SIZE - 1));
     match data with
     | None => undef
     | Some data => handleMessage (data ++ [0])
     end);;
  call (Sleep 500);; mret (inl tt).

Fixpoint join_threads (todo i : nat) : Sv unit :=
  match todo with
  | O => mret tt
  | S todo =>
      s ← get;
      t ← of_option (mjoin (g_threads s !! i));
      r ← call (JoinThread t);
      if negb (r =? 0) then exit_ EXIT_FAILURE else join_threads todo (S i)
  end.

Definition main (argv : list (list Z)) : Sv Z :=
  ok ← call Signal;
  if negb ok then mret (-1) else
  set_par (fun _ => initParameter);;
  ok ← parserArgv argv;
  if negb (ok : bool) then mret (-1) else
  p ← par id;
  path ← of_option (c_string 0 (cfg_file_path p));
  '(_, md5_result, file_size) ← handleMD5 path (replicate 33 0) 0;
  initMainSocket;;
  sendHueryUpMessage md5_result file_size;;
  iterM fuel (fun _ => main_turn) tt;;
  sendStopMessage;;
  closeMainSocket;;
  p ← par id;
  join_threads (Z.to_nat (log_type p)) 0;;
  mret 0.
End Fuel.

(** ** Server objects (qsocket.c) *)

(** [file] is [None] for NULL; a stream that has been closed keeps its number. *)
Record TCPServer : Type := Server { socket_fd : Z; port_of : Z; filename : list Z; file : option Z; current_size : Z }.
#[export] Instance eta_TCPServer : Eta TCPServer := fun s =>
  Server (socket_fd s) (port_of s) (filename s) (file s) (current_size s).

Definition MAX_CONNECTIONS : Z := 10.

Definition create_server (port : Z) : Sv (option TCPServer) :=
  ok ← call Malloc;
  if negb (ok : bool) then mret None else
  fd ← call Socket;
  if fd <? 0 then mret None else
  let name := snprintf 256 (str "server_output_" ++ print_d port ++ str ".txt") in
  file ← call (Fopen name);
  mret (Some (Server fd (u16 port) name file 0)).

Definition start_server (server : TCPServer) : Sv Z :=
  r ← call (Bind (socket_fd server) (port_of server));
  if r <? 0 then mret (-1) else
  r ← call (Listen (socket_fd server) MAX_CONNECTIONS);
  if r <? 0 then mret (-1) else mret 0.

(** Nobody accepts a connection: the listening socket itself is read. *)
Definition client_turn (server : TCPServer) : Sv (TCPServer + TCPServer) :=
  r ← call (Recv (socket_fd server) BUFFER_SIZE);
  match r with
  | None => mret (inr server)
  | Some [] => mret (inr server)
  | Some data =>
      file ← of_option (file server);
      call (Fwrite file data);;
      mret (inl (server <| current_size ::= fun z => s64 (z + len data) |>))
  end.
Definition handle_client (fuel : nat) (server : TCPServer) : Sv TCPServer :=
  server ← iterM fuel client_turn server;
  file ← of_option (file server);
  call (Fclose file);; mret server.

Definition cleanup_server (server : TCPServer) : Sv unit :=
  call (Close (socket_fd server));;
  match file server with Some f => call (Fclose f) | None => mret tt end.

(** * Properties *)

(** ** The messages *)

(** What a reader of the connection makes of the bytes: a type, a length in
    four bytes, as many bytes. *)
Fixpoint decode (fuel : nat) (s : list Z) : option (list (Z * list Z)) :=
  match fuel, s with
  | _, [] => Some []
  | O, _ => None
  | S fuel, type :: s =>
      let n := Z.to_nat (le_val (take 4 s)) in
      if (length s <? 4 + n)%nat then None
      else l ← decode fuel (drop (4 + n) s); Some ((type, slice 4 n s) :: l)
  end.

Definition encode (l : list (Z * list Z)) : list Z := concat (map (fun m => message m.1 (len m.2) m.2) l).

Lemma decode_encode l : forall fuel, Forall (fun m => len m.2 < 2 ^ 32) l -> (length l <= fuel)%nat ->
  decode fuel (encode l) = Some l.
Proof.
  induction l as [|[type p] l IH]; intros fuel Hl Hf; [by destruct fuel|].
  destruct fuel as [|fuel]; cbn in Hf; [lia|]. inversion Hl as [|? ? Hp Hl']; subst. cbn in Hp.
  change (encode ((type, p) :: l)) with (type :: (le_bytes 4 (u32 (len p)) ++ p) ++ encode l). cbn [decode].
  assert (Hv : le_val (take 4 ((le_bytes 4 (u32 (len p)) ++ p) ++ encode l)) = len p).
  { rewrite <-app_assoc, take_app_le, take_ge by (rewrite length_le_bytes; lia).
    rewrite le_val_bytes. unfold u32. change (256 ^ Z.of_nat 4) with (2 ^ 32).
    rewrite Z.mod_mod, Z.mod_small; unfold len in *; lia. }
  rewrite Hv. replace (Z.to_nat (len p)) with (length p) by (unfold len; lia).
  rewrite !length_app, length_le_bytes.
  destruct (Nat.ltb_spec (4 + length p + length (encode l)) (4 + length p)); [lia|].
  replace (4 + length p)%nat with (length (le_bytes 4 (u32 (len p)) ++ p)) by (rewrite length_app, length_le_bytes; lia).
  rewrite drop_app_length.
  assert (Hs : slice 4 (length p) ((le_bytes 4 (u32 (len p)) ++ p) ++ encode l) = p).
  { unfold slice. rewrite <-app_assoc.
    replace 4%nat with (length (le_bytes 4 (u32 (len p)))) at 1 by apply length_le_bytes.
    by rewrite drop_app_length, take_app_length. }
  rewrite Hs, IH by (done || lia). reflexivity.
Qed.

(** ** The configuration *)

(** What has been read from the configuration and sent to the monitor. *)
Fixpoint cfg_read (h : list (io ssys)) : list Z :=
  match h with
  | [] => []
  | Ev c a :: h =>
      cfg_read h ++
      match c in ssys A return A -> list Z with
      | ReadCfg _ _ => fun r => match r with Some d => d | None => [] end
      | _ => fun _ => []
      end a
  end.
Fixpoint sent (h : list (io ssys)) : list Z :=
  match h with
  | [] => []
  | Ev c _ :: h => sent h ++ match c with Send _ buf => buf | _ => [] end
  end.

(** A file is read piece by piece, and its end is an empty answer. *)
Definition serves (E : env ssys) (fd : Z) (content : list Z) : Prop := forall h n,
  cfg_read h `prefix_of` content -> 0 < n ->
  exists d, E _ h (ReadCfg fd n) = Some d /\ len d <= n /\ (cfg_read h ++ d) `prefix_of` content /\
            (d = [] -> cfg_read h = content).

Definition cfg_state (content out : list Z) (w : world ssys sst) : Prop :=
  exists pieces, cfg_read (hist w) = concat pieces /\ cfg_read (hist w) `prefix_of` content /\
    Forall (fun p => 0 < len p <= 1024) pieces /\
    sent (hist w) = out ++ encode ((3, []) :: map (pair 4) pieces).

Lemma encode_app l l' : encode (l ++ l') = encode l ++ encode l'.
Proof. unfold encode. by rewrite map_app, concat_app. Qed.

Lemma cfg_turn_correct E content fd out w : serves E fd content -> cfg_state content out w ->
  runs E (cfg_turn fd) w (fun r w' => match r with
    | inl _ => cfg_state content out w' /\
        (length content - length (cfg_read (hist w')) < length content - length (cfg_read (hist w)))%nat
    | inr _ => cfg_state content out w' /\ cfg_read (hist w') = content
    end).
Proof.
  intros HE (pieces & Hr & Hpre & Hp & Hs). unfold cfg_turn. rsteps.
  destruct (HE (hist w) 1024 Hpre ltac:(lia)) as (d & Hd & Hn & Hpre' & He). rewrite Hd.
  destruct d as [|b d].
  - rsteps. cbn [hist]. split.
    + exists pieces. cbn. rewrite !app_nil_r. by split_and!.
    + cbn. rewrite app_nil_r. by apply He.
  - unfold send_message. rsteps. split.
    + exists (pieces ++ [b :: d]). cbn [cfg_read sent hist]. rewrite !app_nil_r, concat_app, Hr. split_and!.
      * cbn. by rewrite app_nil_r.
      * by rewrite <-Hr.
      * apply Forall_app. split; [done|]. repeat constructor; unfold len in *; cbn in *; lia.
      * rewrite Hs, map_app. cbn [map]. rewrite app_comm_cons, encode_app, app_assoc. f_equal.
        unfold encode. cbn [map concat]. by rewrite app_nil_r.
    + cbn [cfg_read sent hist]. rewrite !app_nil_r. apply prefix_length in Hpre'. rewrite length_app in *. cbn in *. lia.
Qed.

(** C19: A request for the filter is answered with the whole configuration, where its file can be opened and read: the
    bytes that are handed to [send] are the messages 3, then 4 with the pieces of the file in their order, none of more
    than 1024 bytes, then 5, each with a length of four bytes behind its number, and a reader that follows the length
    fields takes them apart again.  (The protocol that the comment in front of main.c describes has no length field: a
    4 in front of up to 1024 bytes of the file.) *)
Theorem cfg_sent_exact (E : env ssys) fuel content path fd w :
  (forall h, E _ h (OpenCfg path) = fd) -> 0 <= fd -> serves E fd content ->
  cfg_read (hist w) = [] -> c_string 0 (cfg_file_path (g_qparameter (loc w))) = Some path ->
  (length content < fuel)%nat ->
  runs E (sendCfg2Monitor fuel) w (fun _ w' => exists pieces out,
    concat pieces = content /\ Forall (fun p => 0 < len p <= 1024) pieces /\
    sent (hist w') = sent (hist w) ++ out /\
    forall n, (length pieces + 2 <= n)%nat -> decode n out = Some ((3, []) :: map (pair 4) pieces ++ [(5, [])])).
Proof.
  intros Ho Hfd HE Hr Hc Hf. unfold sendCfg2Monitor, send_message, par. rsteps.
  eapply runs_of_option; [exact Hc|]. unfold qreadFile. rsteps. rewrite Ho.
  destruct (Z.ltb_spec fd 0); [lia|]. rsteps.
  eapply runs_mono; [apply (runs_iterM _ _ (fun _ => cfg_state content (sent (hist w)))
    (fun _ w' => (length content - length (cfg_read (hist w')))%nat)
    (fun _ w' => cfg_state content (sent (hist w)) w' /\ cfg_read (hist w') = content))|].
  - intros _ w1 H1. eapply runs_mono; [by apply cfg_turn_correct|]. by intros [_|_] w2 H2.
  - exists []. cbn. rewrite !app_nil_r, Hr. split_and!; [done|apply prefix_nil|done|done].
  - cbn. rewrite !app_nil_r, Hr. cbn. lia.
  - intros [] w1 [(pieces & Hp & _ & Hps & Hs) Hcr]. unfold qcloseFile.
    destruct (Z.ltb_spec fd 0); [lia|]. rsteps.
    exists pieces, (encode ((3, []) :: map (pair 4) pieces) ++ message 5 0 []). split_and!.
    + by rewrite <-Hp.
    + done.
    + cbn [sent hist]. rewrite !app_nil_r, Hs. by rewrite <-app_assoc.
    + intros n Hn. change (message 5 0 []) with (encode [(5, [])]). rewrite <-encode_app.
      apply (decode_encode ((3, []) :: map (pair 4) pieces ++ [(5, [])])).
      * constructor; [done|]. apply Forall_app. split; [|by repeat constructor].
        apply Forall_map. eapply Forall_impl; [exact Hps|]. cbn. lia.
      * cbn. rewrite length_app, length_map. cbn. lia.
Qed.

(** ** The log files *)

(** The calls that change the disk: [OpenLog] has O_CREAT and O_TRUNC, and a
    write stores as many bytes as it answers. *)
Definition log_op : forall A, ssys A -> A -> option file_op := fun A c =>
  match c in ssys A return A -> option file_op with
  | OpenLog path => fun fd => Some (Created path fd)
  | Write fd data => fun r => Some (Written fd (take (Z.to_nat r) data))
  | Close fd => fun _ => Some (Closed fd)
  | _ => fun _ => None
  end.

(** What the files that were created hold, newest first. *)
Definition log_files (h : list (io ssys)) : list (option (list Z)) := stored_files log_op h.
Fixpoint received (h : list (io ssys)) : list (list Z) :=
  match h with
  | [] => []
  | Ev c a :: h =>
      received h ++
      match c in ssys A return A -> list (list Z) with
      | Recv _ _ => fun r => match r with Some (b :: d) => [b :: d] | _ => [] end
      | _ => fun _ => []
      end a
  end.

(** The first file is filled to the limit; behind it every chunk has a file. *)
Fixpoint expected (limit total : Z) (cur : list Z) (chunks : list (list Z)) : list (list Z) :=
  match chunks with
  | [] => [cur]
  | c :: l => if limit <=? total then cur :: chunks else expected limit (total + len c) (cur ++ c) l
  end.
Definition total_len (chunks : list (list Z)) : Z := len (concat chunks).

Lemma total_len_snoc chunks c : total_len (chunks ++ [c]) = total_len chunks + len c.
Proof. unfold total_len, len. rewrite concat_app, length_app. cbn. rewrite app_nil_r. lia. Qed.

Lemma expected_below limit chunks : forall total cur, total + total_len chunks < limit ->
  expected limit total cur chunks = [cur ++ concat chunks].
Proof.
  induction chunks as [|c l IH]; intros total cur H; cbn; [by rewrite app_nil_r|].
  assert (total_len (c :: l) = len c + total_len l) as Hc by (unfold total_len, len; cbn; rewrite length_app; lia).
  assert (0 <= len c /\ 0 <= total_len l) by (unfold total_len, len; lia).
  destruct (Z.leb_spec limit total); [lia|]. rewrite IH by lia. by rewrite <-app_assoc.
Qed.

Lemma expected_snoc limit chunks c : forall total cur,
  expected limit total cur (chunks ++ [c]) =
    if limit <=? total + total_len chunks then expected limit total cur chunks ++ [c]
    else [cur ++ concat chunks ++ c].
Proof.
  induction chunks as [|a l IH]; intros total cur; cbn.
  - unfold total_len. cbn. rewrite Z.add_0_r. by destruct (limit <=? total).
  - assert (total_len (a :: l) = len a + total_len l) as Ha by (unfold total_len, len; cbn; rewrite length_app; lia).
    assert (0 <= len a /\ 0 <= total_len l) by (unfold total_len, len; lia).
    destruct (Z.leb_spec limit total) as [H1|H1].
    + destruct (Z.leb_spec limit (total + total_len (a :: l))); [done|lia].
    + rewrite IH, Ha, Z.add_assoc. destruct (_ <=? _); [done|]. by rewrite <-!app_assoc.
Qed.

(** The system stores what it is given, and names a file of a given second. *)
Definition disk_ok (E : env ssys) : Prop :=
  (forall h path, 0 < E Z h (OpenLog path)) /\ (forall h fd data, E Z h (Write fd data) = len data) /\
  (forall h, (length (E (list Z) h TimeName) <= 100)%nat).

(** The module sends the chunks one after the other and closes the connection. *)
Definition delivers (E : env ssys) (fd : Z) (chunks : list (list Z)) : Prop := forall h n,
  received h `prefix_of` chunks ->
  E _ h (Recv fd n) = Some (match chunks !! length (received h) with Some c => c | None => [] end).

Definition limit_of (s : sst) : Z := (one_log_file_max_size (g_qparameter s) + 1) * (1024 * 1024).

Record stored (p : QParameter) (done : list (list Z)) (w : world ssys sst) : Prop := {
  qs_par : g_qparameter (loc w) = p;
  qs_size : qxdm_size (loc w) = total_len done;
  qs_fd : qxdm_fd (loc w) = 0 <-> done = [] \/ limit_of (loc w) <= total_len done;
  qs_pos : 0 <= qxdm_fd (loc w);
  qs_newest : qxdm_fd (loc w) <> 0 -> newest log_op (qxdm_fd (loc w)) (hist w);
  qs_files : apart log_op (hist w) ->
    log_files (hist w) = map Some (match done with [] => [] | _ => rev (expected (limit_of (loc w)) 0 [] done) end);
}.

Section Rotation.
Context (E : env ssys) (p : QParameter) (dir : list Z).
Context (Hdisk : disk_ok E) (Hdir : c_string 0 (workspace_path p) = Some dir) (Hlen : (length dir <= 255)%nat).
Context (Hmax : 1 <= one_log_file_max_size p <= 1024).

Lemma create_log_runs w (Q : Z -> world ssys sst -> Prop) :
  g_qparameter (loc w) = p ->
  (forall path fd t, 0 < fd -> Q fd (World (loc w) (Ev (OpenLog path) fd :: Ev TimeName t :: hist w))) ->
  runs E (createLogFile 1) w Q.
Proof.
  destruct Hdisk as (Ho & _ & Ht). intros Hp H. unfold createLogFile, par. rsteps. unfold id. rewrite Hp.
  eapply runs_of_option; [exact Hdir|]. rsteps. set (t := E _ _ TimeName).
  assert (length t <= 100)%nat by apply Ht.
  eapply runs_of_option; [apply wr_fits; rewrite length_replicate, !length_app; cbn; lia|].
  rsteps. set (fd := E Z _ _). assert (0 < fd) by apply Ho. destruct (Z.ltb_spec fd 0); [lia|]. by apply H.
Qed.

(** The test of the size, as long as the counters do not overflow. *)
Lemma check_size_runs w (Q : Z -> world ssys sst -> Prop) :
  g_qparameter (loc w) = p -> 0 <= qxdm_size (loc w) < 2 ^ 52 ->
  Q (if limit_of (loc w) <=? qxdm_size (loc w) then 1 else -1) w -> runs E (checkFileSize 1) w Q.
Proof.
  intros Hp Hs H. unfold checkFileSize. rsteps. unfold limit_of in H. rewrite Hp in *. unfold size_of.
  cbn [Z.eqb Pos.eqb]. unfold u32 at 1. rewrite Z.mod_small by lia.
  destruct (Z.ltb_spec (qxdm_size (loc w)) (1024 * 1024)) as [H1|H1].
  - destruct (Z.ltb_spec (one_log_file_max_size p) 0); [lia|].
    destruct (Z.leb_spec ((one_log_file_max_size p + 1) * (1024 * 1024)) (qxdm_size (loc w))); [lia|done].
  - unfold u32. rewrite Z.mod_small by (Z.to_euclidean_division_equations; lia).
    destruct (Z.leb_spec ((one_log_file_max_size p + 1) * (1024 * 1024)) (qxdm_size (loc w)));
      destruct (Z.ltb_spec (one_log_file_max_size p) (qxdm_size (loc w) / (1024 * 1024))); try done;
      Z.to_euclidean_division_equations; lia.
Qed.

Lemma expected_snoc_rev limit done c : 0 < limit ->
  (done = [] \/ limit <= total_len done ->
     rev (expected limit 0 [] (done ++ [c])) = c :: match done with [] => [] | _ => rev (expected limit 0 [] done) end) /\
  (done <> [] -> total_len done < limit ->
     exists f fs, rev (expected limit 0 [] done) = f :: fs /\ rev (expected limit 0 [] (done ++ [c])) = (f ++ c) :: fs).
Proof.
  intros Hl. rewrite expected_snoc, Z.add_0_l. split.
  - intros [->|H].
    + change (total_len []) with 0. destruct (Z.leb_spec limit 0); [lia|done].
    + assert (done <> []) by (intros ->; unfold total_len, len in H; cbn in H; lia).
      destruct (Z.leb_spec limit (total_len done)); [|lia]. rewrite rev_app_distr. by destruct done.
  - intros Hn H. destruct (Z.leb_spec limit (total_len done)); [lia|].
    rewrite expected_below by lia. by eexists _, _.
Qed.

(** A chunk goes to the open file or to a new one. *)
Lemma write_chunk_runs done c w :
  stored p done w -> 0 < len c -> total_len done + len c < 2 ^ 52 ->
  runs E (write2File 1 c) w (fun r w' => r = 0 /\ stored p (done ++ [c]) w' /\ received (hist w') = received (hist w)).
Proof.
  destruct Hdisk as (Ho & Hw & Ht). intros [Hp Hsz Hfd Hpos Hnew' Hf] Hc Htot. unfold write2File. rsteps.
  change (fd_of 1 (loc w)) with (qxdm_fd (loc w)).
  assert (Hl : 0 < limit_of (loc w)) by (unfold limit_of; rewrite Hp; lia).
  destruct (expected_snoc_rev (limit_of (loc w)) done c Hl) as [Hnew Hold].
  eapply runs_mono with (Q := fun _ (w1 : world ssys sst) =>
    loc w1 = (loc w) <| qxdm_fd := qxdm_fd (loc w1) |> /\ 0 < qxdm_fd (loc w1) /\ received (hist w1) = received (hist w) /\
    newest log_op (qxdm_fd (loc w1)) (hist w1) /\
    (apart log_op (hist w1) -> exists f fs, log_files (hist w1) = Some f :: fs /\
       Some (f ++ c) :: fs = map Some (rev (expected (limit_of (loc w)) 0 [] (done ++ [c]))))).
  { destruct (Z.eqb_spec (qxdm_fd (loc w)) 0) as [H0|H0].
    - apply runs_bind, create_log_runs; [done|]. intros path fd t Hpos'. rsteps. cbn [loc hist].
      destruct (stored_create log_op Z (OpenLog path) fd (Ev TimeName t :: hist w) path fd eq_refl ltac:(lia))
        as (Hcr & Hnw & Hst).
      split_and!; try done. { cbn. by rewrite !app_nil_r. }
      intros Ha. exists [], (log_files (hist w)). split; [exact (Hst Ha)|].
      rewrite (Hnew (proj1 Hfd H0)), Hf; [by destruct done|].
      unfold apart in Ha |- *. rewrite Hcr in Ha. by apply NoDup_cons in Ha as [_ ?].
    - rsteps. split_and!; [by destruct w as [[]]|lia|done|by apply Hnew'|]. intros Ha.
      assert (Hn : ~ (done = [] \/ limit_of (loc w) <= total_len done)) by (by intros ?%Hfd).
      assert (Hd : done <> []) by (intros ->; apply Hn; by left).
      destruct Hold as (f & fs & H1 & H2); [done|lia|]. exists f, (map Some fs).
      split; [rewrite (Hf Ha); destruct done; [done|by rewrite H1]|by rewrite H2]. }
  intros [] w1 (Hloc & Hpos1 & Hr1 & Hnw1 & Hf1). rsteps. change (fd_of 1 (loc w1)) with (qxdm_fd (loc w1)).
  destruct (Z.ltb_spec (qxdm_fd (loc w1)) 0); [lia|]. rsteps. rewrite Hw, Z.eqb_refl. cbn [negb]. rsteps.
  set (ev := Ev (Write _ c) _). set (w2 := World _ _).
  assert (Hop : log_op Z (Write (qxdm_fd (loc w1)) c) (len c) = Some (Written (qxdm_fd (loc w1)) c)).
  { cbn. unfold len. by rewrite Nat2Z.id, firstn_all. }
  assert (Hq : qxdm_size (loc w2) = total_len (done ++ [c])).
  { cbn. rewrite Hloc. cbn. rewrite Hsz, total_len_snoc. unfold u64. apply Z.mod_small. unfold total_len, len in *. lia. }
  assert (Hp2 : g_qparameter (loc w2) = p) by (cbn; by rewrite Hloc).
  assert (Hlim : limit_of (loc w2) = limit_of (loc w)) by (unfold limit_of; by rewrite Hp2, Hp).
  assert (Hpos2 : 0 < qxdm_fd (loc w2)) by (cbn; exact Hpos1).
  assert (Hnw2 : newest log_op (qxdm_fd (loc w2)) (hist w2)) by (by eapply newest_write).
  assert (Hfiles : apart log_op (hist w2) ->
    log_files (hist w2) = map Some (rev (expected (limit_of (loc w2)) 0 [] (done ++ [c])))).
  { intros Ha. pose proof (created_write log_op Z _ _ (hist w1) _ _ Hop) as Hcr.
    assert (Ha1 : apart log_op (hist w1)) by (unfold apart in *; rewrite <-Hcr; exact Ha).
    destruct (Hf1 Ha1) as (f & fs & H1 & H2). rewrite Hlim, <-H2.
    exact (stored_write log_op Z _ _ _ _ _ _ _ Hop Ha1 Hnw1 H1). }
  assert (Hr2 : received (hist w2) = received (hist w)) by (cbn; by rewrite app_nil_r).
  assert (Htot2 : 0 <= total_len (done ++ [c]) < 2 ^ 52) by (rewrite total_len_snoc; unfold total_len, len in *; lia).
  assert (Hnn : done ++ [c] <> []) by (by destruct done).
  clearbody w2. apply check_size_runs; [done|by rewrite Hq|]. rewrite Hq.
  destruct (Z.leb_spec (limit_of (loc w2)) (total_len (done ++ [c]))) as [H1|H1]; cbn [Z.ltb Z.compare].
  - unfold closeFile. rsteps. split_and!; [done| |cbn; by rewrite app_nil_r].
    destruct (stored_close log_op unit (Close (fd_of 1 (loc w2))) (E unit (hist w2) (Close (fd_of 1 (loc w2))))
      (hist w2) _ eq_refl) as [Hcr Hst].
    split; [exact Hp2|exact Hq|split; auto|done|done|]. change (limit_of (loc _)) with (limit_of (loc w2)).
    cbn [hist loc]. unfold apart, log_files. rewrite Hcr, Hst. intros Ha. etransitivity; [exact (Hfiles Ha)|]. by destruct (done ++ [c]).
  - rsteps. split_and!; [done| |done]. split; try done; [|lia|].
    + split; [lia|]. intros [?|?]; [done|lia].
    + intros Ha. rewrite (Hfiles Ha). by destruct (done ++ [c]).
Qed.

(** A call that does not touch the disk. *)
Lemma stored_quiet_call A (c : ssys A) a done w : log_op A c a = None ->
  stored p done w -> stored p done (World (loc w) (Ev c a :: hist w)).
Proof.
  intros H [Hp Hsz Hfd Hpos Hn Hf]. destruct (stored_quiet log_op A c a (hist w) H) as (Hs & Hc & _).
  split; try done.
  - intros H0. apply newest_quiet; [done|by apply Hn].
  - cbn [hist loc]. unfold apart, log_files. rewrite Hc, Hs. exact Hf.
Qed.

(** A connection of the first type, to its end. *)
Lemma receive_log_runs fuel chunks fd w :
  delivers E fd chunks -> (forall h, E bool h ExitFlag = false) ->
  Forall (fun c => 0 < len c) chunks -> total_len chunks < 2 ^ 52 ->
  stored p [] w -> received (hist w) = [] -> (length chunks < fuel)%nat ->
  runs E (iterM fuel (fun _ => receive_turn 1 fd) tt) w (fun _ w' => stored p chunks w').
Proof.
  intros Hd He Hc Ht Hs Hr Hf.
  apply (runs_iterM E (fun _ => receive_turn 1 fd)
    (fun _ w' => stored p (received (hist w')) w' /\ received (hist w') `prefix_of` chunks)
    (fun _ w' => (length chunks - length (received (hist w')))%nat)).
  2: { rewrite Hr. split; [done|apply prefix_nil]. }
  2: { rewrite Hr. cbn. lia. }
  intros _ w1 [Hs1 Hp1]. unfold receive_turn. rsteps. rewrite Hd by done.
  destruct Hp1 as [l Hl]. destruct l as [|c l].
  - rewrite app_nil_r in Hl. assert (Hlook : chunks !! length (received (hist w1)) = None) by (rewrite Hl; by apply lookup_ge_None_2).
    rewrite Hlook.
    rsteps. rewrite Hl. by apply stored_quiet_call.
  - assert (Hlook : chunks !! length (received (hist w1)) = Some c) by (by rewrite Hl, list_lookup_middle).
    rewrite Hlook.
    assert (Hin : 0 < len c) by (rewrite Hl, Forall_app, Forall_cons in Hc; tauto).
    destruct c as [|b c]; [done|]. rsteps.
    assert (Htot : total_len (received (hist w1)) + len (b :: c) < 2 ^ 52).
    { rewrite Hl in Ht. unfold total_len, len in *. rewrite concat_app, length_app in Ht. cbn in *. rewrite length_app in Ht. lia. }
    set (w2 := World _ _). assert (Hr2 : received (hist w2) = received (hist w1) ++ [b :: c]) by done.
    unfold qwriteData2File. cbn [Z.eqb Pos.eqb orb].
    eapply runs_mono; [apply (write_chunk_runs (received (hist w1)) (b :: c) w2)|]; try done.
    { by apply stored_quiet_call. }
    intros r w3 (_ & Hs3 & Hr3). rsteps. rewrite He. cbn [received hist]. rewrite app_nil_r, Hr3, Hr2.
    split_and!; [by apply stored_quiet_call|by exists l; rewrite <-app_assoc|].
    rewrite length_app. apply (f_equal length) in Hl. rewrite length_app in Hl. cbn in *. lia.
Qed.
End Rotation.

Lemma concat_expected limit chunks : forall total cur, concat (expected limit total cur chunks) = cur ++ concat chunks.
Proof.
  induction chunks as [|c l IH]; intros total cur; cbn; [done|]. destruct (_ <=? _); [done|].
  by rewrite IH, <-app_assoc.
Qed.

(** C20: What a module sends over the connection of the QXDM log is stored in order and without a loss, the
    first file taking one MiB more than -m says; from then on every chunk that is received opens a file of its own,
    since the size of the file is never set back to zero.  This is what the files hold that have the names, if no two
    of them were opened in the same second: a name has the second of its creation, and a second file of a name
    empties the first one.  The system stores what it is given. *)
Theorem qxdm_files_exact E fuel p dir chunks fd w :
  disk_ok E -> c_string 0 (workspace_path p) = Some dir -> (length dir <= 255)%nat ->
  1 <= one_log_file_max_size p <= 1024 ->
  delivers E fd chunks -> (forall h, E bool h ExitFlag = false) ->
  Forall (fun c => 0 < len c) chunks -> total_len chunks < 2 ^ 52 -> chunks <> [] ->
  g_qparameter (loc w) = p -> qxdm_size (loc w) = 0 -> qxdm_fd (loc w) = 0 ->
  received (hist w) = [] -> created log_op (hist w) = [] -> (length chunks < fuel)%nat ->
  runs E (iterM fuel (fun _ => receive_turn 1 fd) tt) w (fun _ w' =>
    let files := expected ((one_log_file_max_size p + 1) * (1024 * 1024)) 0 [] chunks in
    (apart log_op (hist w') -> rev (log_files (hist w')) = map Some files) /\ concat files = concat chunks).
Proof.
  intros Hd Hdir Hlen Hmax Hdel He Hc Ht Hn Hp Hsz Hfd Hr Hf Hfuel.
  eapply runs_mono; [apply (receive_log_runs E p dir Hd Hdir Hlen Hmax fuel chunks fd w); try done|].
  { split; try done; [split; auto|lia|]. intros _. unfold log_files, stored_files. by rewrite Hf. }
  intros _ w' [Hp' _ _ _ _ Hf']. split; [|apply concat_expected]. intros Ha.
  rewrite (Hf' Ha). unfold limit_of. rewrite Hp'. destruct chunks; [done|]. by rewrite <-map_rev, rev_involutive.
Qed.

(** A limit of three bytes. *)
Example expected_rotates : expected 3 0 [] [[1; 2]; [3; 4]; [5]; [6]] = [[1; 2; 3; 4]; [5]; [6]].
Proof. reflexivity. Qed.

(** The files of the other types are not closed while the first log is small. *)
Lemma others_never_rotate E type w : qxdm_size (loc w) < 1024 * 1024 ->
  0 <= one_log_file_max_size (g_qparameter (loc w)) < 2 ^ 32 ->
  runs E (checkFileSize type) w (fun r w' => r = -1 /\ w' = w).
Proof.
  intros Hs Hm. unfold checkFileSize. rsteps. destruct (Z.ltb_spec (qxdm_size (loc w)) (1024 * 1024)); [|lia].
  unfold u32. rewrite Z.mod_small by lia.
  destruct (Z.ltb_spec (one_log_file_max_size (g_qparameter (loc w))) 0); [lia|done].
Qed.

(** ** Parameters *)

(** The address and the port that -s takes are those that its text names. *)
Theorem monitor_option_read_back ip port p :
  ip <> [] -> Forall (fun b => b <> 0 /\ b <> 45) ip -> (length ip <= 230)%nat -> 0 <= port < 65536 ->
  length (monitor_ip p) = 256%nat ->
  exists p', take_option 115 (ip ++ [45] ++ print_d port) p = Some (Some p') /\
    c_string 0 (monitor_ip p') = Some ip /\ monitor_port p' = port.
Proof.
  intros Hn Hip Hl Hport Hlen. destruct (print_digits port ltac:(lia)) as (d & ds & Hd & Hdig & _ & Hdl).
  set (text := ip ++ [45] ++ print_d port).
  assert (Hds : Forall (fun b => b <> 0 /\ b <> 45) (print_d port)).
  { rewrite Hd. eapply Forall_impl; [exact Hdig|]. unfold digit. cbn. lia. }
  assert (Htext : no_nul text).
  { unfold text, no_nul. apply Forall_app. split; [eapply Forall_impl; [exact Hip|by intros ? []]|].
    apply Forall_cons. split; [done|]. eapply Forall_impl; [exact Hds|by intros ? []]. }
  assert (Htl : (length text + 1 <= 256)%nat) by (unfold text; rewrite !length_app, Hd; cbn in *; lia).
  change (take_option 115 text p) with (monitor_str ← strcpy text zero_digits;
    p ← parserMonitorMes (cstr monitor_str) p; Some (Some p)).
  unfold strcpy. rewrite wr_fits by (rewrite length_app; unfold zero_digits; rewrite length_replicate; cbn; lia).
  assert (Hput : forall s b, put 0 (s ++ [0]) b = s ++ 0 :: drop (length s + 1) b).
  { intros s b. unfold put. rewrite take_0. cbn [app]. rewrite length_app, <-app_assoc. by rewrite Nat.add_0_l. }
  cbn [mbind option_bind]. rewrite Hput, cstr_string by exact Htext.
  unfold parserMonitorMes, tokens, text. cbn [app]. rewrite tokens_from_app; [|by eapply Forall_impl; [exact Hip|intros ? []]|done].
  unfold tokens. rewrite (tokens_from_last 45 (print_d port)); [|by eapply Forall_impl; [exact Hds|intros ? []]|by rewrite Hd].
  cbn [take_tokens take_token app]. unfold strcpy.
  rewrite wr_fits by (rewrite length_app, Hlen; cbn; lia). cbn [mbind option_bind].
  eexists. split; [reflexivity|]. rewrite Hput. split.
  - cbn. apply c_string_in. split; [eapply Forall_impl; [exact Hip|by intros ? []]|by eexists].
  - cbn. rewrite atoi_print by lia. apply Z.mod_small. lia.
Qed.

(** A log type above three, which -T accepts, overruns the array of threads. *)
Lemma create_overflow (E : env ssys) todo : (forall h n, E _ h (CreateThread n) = Some n) -> forall t w,
  length (g_threads (loc w)) = NUM_SERVERS -> (t <= NUM_SERVERS < t + todo)%nat -> create_threads todo t E w = Undef.
Proof.
  intros Hc. unfold NUM_SERVERS. induction todo as [|todo IH]; intros t w Hl Ht; [lia|].
  cbn [create_threads]. unfold mbind, M_bind, call, get. cbn [loc]. rewrite Hl.
  destruct (Nat.leb_spec 3 t); [done|]. rewrite Hc. apply IH; [|lia]. cbn. by rewrite length_insert.
Qed.

Lemma threads_overflow (E : env ssys) w : (forall h n, E _ h (CreateThread n) = Some n) ->
  length (g_threads (loc w)) = NUM_SERVERS -> 3 < log_type (g_qparameter (loc w)) ->
  startResvThread_p E w = Undef.
Proof. intros Hc Hl Ht. apply (create_overflow E _ Hc); [done|]. unfold NUM_SERVERS, id. lia. Qed.

(** Without -f the path of the configuration has no end. *)
Lemma no_cfg_undefined (E : env ssys) fuel w : E bool (hist w) Signal = true ->
  main fuel [str "QSocketServer"] E w = Undef.
Proof.
  intros Hs. unfold main, mbind, M_bind, call. rewrite Hs. vm_compute. reflexivity.
Qed.

(** ** Examples *)

(** A system with a configuration of 1500 bytes and a module that sends three chunks. *)
Definition demo_cfg : list Z := replicate (Z.to_nat 1500) 65.
Definition demo_chunks : list (list Z) := [[1; 2]; [3]; [4; 5; 6]].

Definition demo_env : env ssys := fun A h c =>
  match c in ssys A return A with
  | ReadCfg _ n => Some (take (Z.to_nat n) (drop (length (cfg_read h)) demo_cfg))
  | Recv _ _ => Some (match demo_chunks !! length (received h) with Some c => c | None => [] end)
  | Write _ data => len data
  | TimeName => str "20240101_120000"
  | OpenLog _ => 7
  | OpenCfg _ => 5
  | Md5sum _ => None | FileSize _ => None | Fopen _ => None
  | CreateThread t => Some t
  | Malloc => true | ExitFlag => false | Signal => true
  | Socket => 3 | Connect _ _ _ => 0 | SetReuse _ => 0 | Bind _ _ => 0 | Listen _ _ => 0 | Accept _ => 4
  | Send _ _ => 0 | Select _ => 1 | ClosePipe => 0 | JoinThread _ => 0 | Fork => 1
  | Usage => tt | Close _ => tt | Fwrite _ _ => tt | Fclose _ => tt | Sleep _ => tt
  end.
Definition demo_par : QParameter := initParameter <| cfg_file_path := str "a.cfg" ++ [0] |> <| one_log_file_max_size := 1 |>.
Definition demo_world : world ssys sst :=
  World (Sst demo_par 3 [None; None; None] 0 0 0 0 0 0 [0; 0; 0]) [].

Lemma demo_serves : serves demo_env 5 demo_cfg.
Proof.
  intros h n [rest Hr] Hn. set (k := length (cfg_read h)). set (d := take (Z.to_nat n) (drop k demo_cfg)).
  exists d. assert (Hd : drop k demo_cfg = rest) by (unfold k; rewrite Hr; apply drop_app_length).
  assert (Hdr : d = take (Z.to_nat n) rest) by (unfold d; by rewrite Hd). split_and!.
  - reflexivity.
  - rewrite Hdr. unfold len. rewrite length_take. lia.
  - rewrite Hr, Hdr. apply prefix_app. exists (drop (Z.to_nat n) rest). by rewrite take_drop.
  - rewrite Hdr. intros H0. rewrite Hr. destruct rest; [by rewrite app_nil_r|].
    replace (Z.to_nat n) with (S (pred (Z.to_nat n))) in H0 by lia. done.
Qed.

Lemma cfg_sent_exact_witness :
  runs demo_env (sendCfg2Monitor 2000) demo_world (fun _ w' => exists pieces out,
    concat pieces = demo_cfg /\ Forall (fun p => 0 < len p <= 1024) pieces /\
    sent (hist w') = sent (hist demo_world) ++ out /\
    forall n, (length pieces + 2 <= n)%nat -> decode n out = Some ((3, []) :: map (pair 4) pieces ++ [(5, [])])) /\
  match sendCfg2Monitor 2000 demo_env demo_world with
  | Done _ w' => decode 4 (sent (hist w')) =
      Some [(3, []); (4, replicate (Z.to_nat 1024) 65); (4, replicate (Z.to_nat 476) 65); (5, [])]
  | _ => False
  end.
Proof.
  split; [|by vm_compute].
  apply (cfg_sent_exact demo_env 2000 demo_cfg (str "a.cfg") 5 demo_world);
    [done|lia|apply demo_serves|done|done|vm_compute; lia].
Defined.

Lemma demo_chunks_delivered : delivers demo_env 4 demo_chunks.
Proof. by intros h n _. Qed.

Lemma demo_disk : disk_ok demo_env.
Proof. split_and!; intros; cbn; lia. Qed.

Lemma qxdm_files_exact_witness :
  runs demo_env (iterM 5 (fun _ => receive_turn 1 4) tt) demo_world (fun _ w' =>
    let files := expected ((one_log_file_max_size demo_par + 1) * (1024 * 1024)) 0 [] demo_chunks in
    (apart log_op (hist w') -> rev (log_files (hist w')) = map Some files) /\ concat files = concat demo_chunks) /\
  match iterM 5 (fun _ => receive_turn 1 4) tt demo_env demo_world with
  | Done _ w' => bool_decide (apart log_op (hist w')) = true /\ log_files (hist w') = [Some [1; 2; 3; 4; 5; 6]]
  | _ => False
  end.
Proof.
  split; [|by vm_compute].
  apply (qxdm_files_exact demo_env 5 demo_par (str "./") demo_chunks 4 demo_world);
    first [apply demo_disk|apply demo_chunks_delivered|done|(cbn; lia)|by vm_compute|by repeat constructor].
Defined.

Lemma monitor_option_read_back_witness : exists p',
  take_option 115 (str "192.168.0.1" ++ [45] ++ print_d 14000) initParameter = Some (Some p') /\
  c_string 0 (monitor_ip p') = Some (str "192.168.0.1") /\ monitor_port p' = 14000.
Proof.
  apply monitor_option_read_back; [done| |cbn; lia|lia|done].
  apply (bool_decide_unpack _). by vm_compute.
Defined.
