(* ===== verification/Bridge.v ===== *)
(** The bridges between the serial port of a module and TCP: the log tool as a
    server (src/tty2tcp.c: the thread that waits for clients and passes their
    commands on) and as a client, and the program ql-tty2tcp.c, which forwards
    both ways.  The caches of the sockets are those of [Kfifo], whose
    [tty2tcp_logfile_save] is the other direction of the first bridge. *)

From Stdlib Require Import ZArith Lia.
From stdpp Require Import base list strings.
From S2P Require Import Prelude Str CText PollIo Kfifo.

(** ** Calls and variables *)

(** How a command goes to the module: [asr_send_cmd], [mdm_send_cmd] or
    [qlog_poll_write] of the log tool. *)
Inductive sender : Type := AsrCommand | MdmCommand | PlainWrite (timeout : Z).

(** [PollSocks] answers the result, [errno] and the [revents]; [PollOut] the
    result and the [revents] of one descriptor, [WriteFd] the result and
    [errno]; [ReadFd] the bytes, [None] for an error. *)
Inductive bsys : Type -> Type :=
| CacheCall {A} (c : psys A) : bsys A
| Socket : bsys Z
| SetReuse (fd : Z) : bsys Z
| Bind (fd port : Z) : bsys Z
| Listen (fd backlog : Z) : bsys Z
| Accept (fd : Z) : bsys Z
| Connect (fd : Z) (ip : list Z) (port : Z) : bsys Z
| CloseFd (fd : Z) : bsys unit
| Nonblocking (fd : Z) : bsys unit
| GetBuffer : bsys bool
| PollSocks (fds : list Z) : bsys (Z * Z * list Z)
| PollOut (fd timeout : Z) : bsys (Z * Z)
| ReadFd (fd size : Z) : bsys (option (list Z))
| WriteFd (fd : Z) (buf : list Z) : bsys (Z * Z)
| SendTty (how : sender) (fd : Z) (buf : list Z) : bsys Z
| ExitFlag : bsys bool
| StartThread : bsys unit
| OpenTty (path : list Z) : bsys Z
| SetRaw (fd : Z) : bsys unit
| Usage : bsys unit.

Record bst : Type := Bst {
  caches : kst;
  tty2tcp_ttyfd : Z;
  tty2tcp_tcpport : Z;
  g_tcp_client_port : Z;
  g_tcp_client_ip : list Z;
}.
#[export] Instance eta_bst : Eta bst := fun s =>
  Bst (caches s) (tty2tcp_ttyfd s) (tty2tcp_tcpport s) (g_tcp_client_port s) (g_tcp_client_ip s).

(** What is known of the module. *)
Record chip : Type := Chip {
  is_asr : bool;
  is_unisoc : bool;
  is_exx00u : bool;
  is_eigen : bool;
  is_qualcomm : bool;
  use_diag_qdss : bool;
  use_diag_dpl : bool;
}.

Abbreviation B := (M bsys bst).
Definition in_caches {A} (m : M psys kst A) : B A :=
  within (fun A c => CacheCall c) caches (fun t s => s <| caches := t |>) m.

(** ** The server of the log tool *)

(** The descriptor 0 for a socket that cannot be made. *)
Definition wait_tcp_client_connect (tcp_port : Z) : B Z :=
  sockfd ← call Socket;
  if sockfd =? -1 then mret 0 else
  call (SetReuse sockfd);;
  n ← call (Bind sockfd (u16 tcp_port));
  if n =? -1 then call (CloseFd sockfd);; mret 0 else
  n ← call (Listen sockfd 1);
  if n =? -1 then call (CloseFd sockfd);; mret 0 else
  connfd ← call (Accept sockfd);
  call (CloseFd sockfd);;
  if connfd =? -1 then mret (-1) else
  call (Nonblocking connfd);;
  in_caches (kfifo_alloc connfd);;
  mret connfd.

(** The three sockets of the bridge. *)
Inductive sock : Type := Dm | Log | Third.
Definition sock_fd (k : sock) (s : bst) : Z :=
  match k with
  | Dm => tty2tcp_sockfd (caches s) | Log => tty2tcp_logfd (caches s) | Third => tty2tcp_thirdfd (caches s)
  end.
Definition put_sock (k : sock) (fd : Z) (s : bst) : bst :=
  s <| caches ::= fun c =>
    match k with
    | Dm => c <| tty2tcp_sockfd := fd |> | Log => c <| tty2tcp_logfd := fd |> | Third => c <| tty2tcp_thirdfd := fd |>
    end |>.

(** [tty2tcp_closefd] of one of the variables. *)
Definition tty2tcp_closefd (k : sock) : B unit :=
  fd ← gets (sock_fd k);
  if fd =? -1 then mret tt else
  modify (put_sock k (-1));;
  idx ← in_caches (kfifo_idx fd);
  in_caches (kfifo_free idx);;
  call (CloseFd fd).

(** [tty2tcp_closefd(pollfds[i].fd)], after which the variable is cleared. *)
Definition close_polled (k : sock) (fd : Z) : B unit :=
  (if fd =? -1 then mret tt else
     idx ← in_caches (kfifo_idx fd); in_caches (kfifo_free idx);; call (CloseFd fd));;
  modify (put_sock k (-1)).

(** Which of the variables holds the descriptor; the tests in their order. *)
Definition which_sock (fd : Z) (s : bst) : option sock :=
  if fd =? sock_fd Dm s then Some Dm
  else if fd =? sock_fd Log s then Some Log
  else if fd =? sock_fd Third s then Some Third
  else None.

Section Server.
Context (ch : chip).

(** Waits for one client; false ends the thread. *)
Definition connect_sock (k : sock) (port : Z) : B bool :=
  fd ← wait_tcp_client_connect port;
  modify (put_sock k fd);; mret (negb (fd =? -1)).
Definition connect_if (b : bool) (k : sock) (off : Z) : B bool :=
  if b then s ← get; connect_sock k (s32 (tty2tcp_tcpport s + off)) else mret true.

Definition all_closed (s : bst) : bool :=
  (sock_fd Dm s =? -1) && (sock_fd Log s =? -1) && (sock_fd Third s =? -1).

Definition connect_clients : B bool :=
  ok ← connect_if true Dm 0;
  if negb ok then mret false else
  ok ← connect_if (is_unisoc ch) Log 1;
  if negb ok then mret false else
  ok ← connect_if (is_exx00u ch) Log 1;
  if negb ok then mret false else
  ok ← connect_if (is_qualcomm ch && use_diag_qdss ch) Log 1;
  if negb ok then mret false else
  connect_if (is_qualcomm ch && use_diag_dpl ch) Third 2.

Definition open_socks (s : bst) : list Z :=
  filter (fun fd => fd <> -1) [sock_fd Dm s; sock_fd Log s; sock_fd Third s].

Definition sender_of : sender :=
  if is_asr ch then AsrCommand
  else if is_unisoc ch || is_exx00u ch || is_eigen ch then PlainWrite 1000
  else MdmCommand.

(** Only what the first client sends goes to the module; false is the [break]. *)
Definition serve_sock (fd revents : Z) : B bool :=
  s ← get;
  if has revents POLL_FAULT then
    (match which_sock fd s with Some k => close_polled k fd | None => mret tt end);; mret false
  else if negb (has revents POLLIN) then mret true
  else
    r ← call (ReadFd fd 4096);
    s ← get;
    (match r with
     | Some (b :: data) =>
         if fd =? sock_fd Dm s then call (SendTty sender_of (tty2tcp_ttyfd s) (b :: data));; mret tt else mret tt
     | _ => match which_sock fd s with Some k => tty2tcp_closefd k | None => mret tt end
     end);;
    mret true.

Fixpoint serve_socks (l : list (Z * Z)) : B unit :=
  match l with
  | [] => mret tt
  | (fd, revents) :: l => go ← serve_sock fd revents; if (go : bool) then serve_socks l else mret tt
  end.

Section Fuel.
Context (fuel : nat).

Definition poll_socks (fds : list Z) : B (Z * list Z) :=
  iterM fuel (fun _ : unit =>
    '(ret, errno, revents) ← call (PollSocks fds);
    if (ret =? -1) && (errno =? EINTR) then
      e ← call ExitFlag;
      if (e : bool) then mret (inr (ret, revents)) else mret (inl tt)
    else mret (inr (ret, revents))) tt.

Definition sock_turn : B (unit + unit) :=
  e ← call ExitFlag;
  if (e : bool) then mret (inr tt) else
  s ← get;
  ok ← (if all_closed s then connect_clients else mret true);
  if negb ok then mret (inr tt) else
  s ← get;
  match open_socks s with
  | [] => mret (inr tt)
  | fds =>
      '(ret, revents) ← poll_socks fds;
      if ret <=? 0 then mret (inr tt) else
      serve_socks (zip fds revents);; mret (inl tt)
  end.

Definition tcp_sock_read_Loop : B unit :=
  ok ← call GetBuffer;
  if negb (ok : bool) then mret tt else
  iterM fuel (fun _ => sock_turn) tt;;
  tty2tcp_closefd Dm;; tty2tcp_closefd Log;; tty2tcp_closefd Third.
End Fuel.

Definition tty2tcp_init_filter (ttyfd : Z) (cfg : option (list Z)) : B Z :=
  modify (fun s => s <| tty2tcp_ttyfd := ttyfd |>);;
  (match cfg with Some c => modify (fun s => s <| tty2tcp_tcpport := atoi c |>) | None => mret tt end);;
  call StartThread;; mret 0.
End Server.

Definition tty2tcp_logfile_create (logfile_dir logfile_suffix : list Z) (logfile_seq : Z) : B Z := mret 1.
Definition tty2tcp_logfile_close (logfd : Z) : B Z := mret 0.

(** ** The client of the log tool *)

Definition tcp_client_logfile_create (logfile_dir logfile_suffix : list Z) (logfile_seq : Z) : B Z :=
  logfd ← call Socket;
  if logfd <? 0 then mret (-1) else
  s ← get;
  ip ← of_option (c_string 0 (g_tcp_client_ip s));
  ret ← call (Connect logfd ip (u16 (g_tcp_client_port s)));
  logfd ← (if ret =? 0 then mret logfd
           else if 0 <? logfd then call (CloseFd logfd);; mret (-1) else mret logfd);
  in_caches (kfifo_alloc logfd);;
  mret logfd.

(** ** The program ql-tty2tcp *)

Module Tool.

Definition ttyname_default : list Z := take 32 (str "/dev/ttyUSB0" ++ replicate 32 0).
Record settings : Type := Settings { ttyname : list Z; tcp_port : Z }.

Definition option_string (c : Z) : option takes :=
  if bool_decide (c ∈ str "dp") then Some Argument else if bool_decide (c ∈ str "h") then Some NoArgument else None.

(** [ttyname] has 32 bytes; [None] is the usage. *)
Fixpoint parse (l : list (Z * option (list Z))) (s : settings) : B (option settings) :=
  match l with
  | [] => mret (Some s)
  | (opt, optarg) :: l =>
      let arg := match optarg with Some a => a | None => [] end in
      if opt =? 112 (* p *) then parse l (Settings (ttyname s) (atoi arg))
      else if opt =? 100 (* d *) then
        name ← of_option (wr 0 (arg ++ [0]) (ttyname s)); parse l (Settings name (tcp_port s))
      else call Usage;; mret None
  end.

(** The same as the function of the log tool, without a cache. *)
Definition wait_tcp_client_connect (tcp_port : Z) : B Z :=
  sockfd ← call Socket;
  if sockfd =? -1 then mret 0 else
  call (SetReuse sockfd);;
  n ← call (Bind sockfd (u16 tcp_port));
  if n =? -1 then call (CloseFd sockfd);; mret 0 else
  n ← call (Listen sockfd 1);
  if n =? -1 then call (CloseFd sockfd);; mret 0 else
  connfd ← call (Accept sockfd);
  call (CloseFd sockfd);;
  mret connfd.

(** What is left to write is a part of the buffer that [read] has filled. *)
Definition write_turn (fd : Z) (buf : list Z) (timeout_msec wc : Z) : B (Z + Z) :=
  if negb (wc <? len buf) then mret (inr wc) else
  '(ret, revents) ← call (PollOut fd timeout_msec);
  if ret <=? 0 then mret (inr wc) else
  if has revents POLL_FAULT then mret (inr wc) else
  if has revents POLLOUT then
    rest ← of_option (after wc buf);
    '(nbytes, _) ← call (WriteFd fd rest);
    if nbytes <=? 0 then mret (inr wc) else mret (inl (wc + nbytes))
  else mret (inl wc).

Section Fuel.
Context (fuel : nat).

Definition tty2tcp_poll_write (fd : Z) (buf : list Z) (timeout_msec : Z) : B Z :=
  '(nbytes, errno) ← call (WriteFd fd buf);
  if (nbytes <=? 0) && negb (errno =? EAGAIN) then mret 0 else
  iterM fuel (write_turn fd buf timeout_msec) (if nbytes <=? 0 then 0 else nbytes).

(** One direction; true when the program is to end. *)
Definition forward (fd other revents : Z) : B bool :=
  if has revents POLL_FAULT then mret true else
  if negb (has revents POLLIN) then mret false else
  r ← call (ReadFd fd (16 * 1024));
  match r with
  | Some (b :: data) => tty2tcp_poll_write other (b :: data) 200;; mret false
  | _ => mret true
  end.

Definition turn (ttyfd sockfd : Z) : B (unit + unit) :=
  quit ← call ExitFlag;
  if (quit : bool) then mret (inr tt) else
  '(ret, _, revents) ← call (PollSocks [ttyfd; sockfd]);
  if ret <=? 0 then mret (inr tt) else
  r0 ← of_option (revents !! 0%nat);
  r1 ← of_option (revents !! 1%nat);
  quit ← forward ttyfd sockfd r0;
  if (quit : bool) then mret (inr tt) else
  quit ← forward sockfd ttyfd r1;
  mret (if (quit : bool) then inr tt else inl tt).

Definition main (argv : list (list Z)) : B Z :=
  s ← parse (getopt option_string (drop 1 argv)) (Settings ttyname_default 9000);
  match s with
  | None => mret 0
  | Some s =>
      name ← of_option (c_string 0 (ttyname s));
      ttyfd ← call (OpenTty name);
      if ttyfd <=? 0 then mret (-1) else
      call (SetRaw ttyfd);;
      sockfd ← wait_tcp_client_connect (tcp_port s);
      if sockfd <=? 0 then call (CloseFd ttyfd);; mret (-1) else
      iterM fuel (fun _ => turn ttyfd sockfd) tt;;
      call (CloseFd ttyfd);; call (CloseFd sockfd);; mret 0
  end.
End Fuel.
End Tool.

(** * Properties *)

(** ** The program ql-tty2tcp *)

(** What has been read from a descriptor, read by read, and written to it. *)
Fixpoint reads_of (fd : Z) (h : list (io bsys)) : list (list Z) :=
  match h with
  | [] => []
  | Ev c a :: h =>
      reads_of fd h ++
      match c in bsys A return A -> list (list Z) with
      | ReadFd f _ => fun r => match r with Some (x :: d) => if f =? fd then [x :: d] else [] | _ => [] end
      | _ => fun _ => []
      end a
  end.
Fixpoint written_to (fd : Z) (h : list (io bsys)) : list Z :=
  match h with
  | [] => []
  | Ev c a :: h =>
      written_to fd h ++
      match c in bsys A return A -> list Z with
      | WriteFd f buf => fun r => if f =? fd then take (Z.to_nat r.1) buf else []
      | _ => fun _ => []
      end a
  end.

(** How often a side has refused what is left of a piece: it is not ready
    before the timeout, it has failed, or a write fails for good. *)
Definition polled (fd : Z) (h : list (io bsys)) : bool :=
  match h with Ev (PollOut f _) _ :: _ => f =? fd | _ => false end.
Fixpoint refusals (fd : Z) (h : list (io bsys)) : nat :=
  match h with
  | [] => 0%nat
  | Ev c a :: h =>
      ((match c in bsys A return A -> nat with
       | PollOut f _ => fun r => if (f =? fd) && ((r.1 <=? 0) || has r.2 POLL_FAULT) then 1%nat else 0%nat
       | WriteFd f _ => fun r =>
           if (f =? fd) && ((r.1 <=? 0) && (polled f h || negb (r.2 =? EAGAIN))) then 1%nat else 0%nat
       | _ => fun _ => 0%nat
       end a)%Z + refusals fd h)%nat
  end.

(** How often the flag of the signal handler has been looked at. *)
Fixpoint asked (h : list (io bsys)) : nat :=
  match h with
  | [] => 0%nat
  | Ev c _ :: h => (match c with ExitFlag => 1 | _ => 0 end + asked h)%nat
  end.

(** The pieces of which a smaller number of bytes is taken than they have. *)
Definition cut (ns : list nat) (ps : list (list Z)) : nat :=
  length (filter (fun x : nat * list Z => (x.1 < length x.2)%nat) (zip ns ps)).

(** Of each piece that came from one side its first bytes have gone to the
    other, in their order; every piece that is cut has been refused there. *)
Definition carried (a b : Z) (h : list (io bsys)) : Prop := exists ns,
  length ns = length (reads_of a h) /\
  written_to b h = concat (zip_with take ns (reads_of a h)) /\
  (cut ns (reads_of a h) <= refusals b h)%nat.
Definition forwarded (a b : Z) (w : world bsys bst) : Prop := carried a b (hist w) /\ carried b a (hist w).

Lemma uncut ns : forall ps, length ns = length ps -> cut ns ps = 0%nat -> concat (zip_with take ns ps) = concat ps.
Proof.
  induction ns as [|n ns IH]; intros [|p ps] Hl Hc; try done. unfold cut in Hc.
  change (zip (n :: ns) (p :: ps)) with ((n, p) :: zip ns ps) in Hc. rewrite filter_cons in Hc.
  destruct (decide _) as [H|H]; [done|]. cbn in H, Hl |- *. rewrite IH by (done || lia). f_equal. apply take_ge. lia.
Qed.

Lemma carried_whole a b h : carried a b h -> refusals b h = 0%nat -> written_to b h = concat (reads_of a h).
Proof. intros (ns & Hl & Hw & Hc) Hz. rewrite Hw. apply uncut; [done|lia]. Qed.

(** One more piece, of which [n] bytes are taken. *)
Lemma carried_piece a b h h' n p : carried a b h -> reads_of a h' = reads_of a h ++ [p] ->
  written_to b h' = written_to b h ++ take n p ->
  ((if decide (n < length p)%nat then 1 else 0) + refusals b h <= refusals b h')%nat -> carried a b h'.
Proof.
  intros (ns & Hl & Hw & Hc) Hr Hw' Hn. exists (ns ++ [n]). rewrite Hr, Hw', Hw. split_and!.
  - rewrite !length_app. cbn. lia.
  - rewrite zip_with_app by done. rewrite concat_app. cbn. by rewrite app_nil_r.
  - unfold cut in *. rewrite zip_with_app by done. rewrite filter_app, length_app.
    change (zip [n] [p]) with [(n, p)]. rewrite filter_cons. cbn [fst snd].
    destruct (decide _); cbn; lia.
Qed.
Lemma carried_more a b h h' : carried a b h -> reads_of a h' = reads_of a h -> written_to b h' = written_to b h ->
  (refusals b h <= refusals b h')%nat -> carried a b h'.
Proof. intros (ns & Hl & Hw & Hc) Hr Hw' Hn. exists ns. rewrite Hr, Hw'. split_and!; [done..|lia]. Qed.

(** What [poll], [read] and [write] promise: no more than was asked for, and a
    descriptor that [poll] counts is ready or has failed. *)
Record honest (E : env bsys) : Prop := {
  read_fits : forall h fd n d, 0 <= n -> E _ h (ReadFd fd n) = Some d -> len d <= n;
  write_fits : forall h fd buf, (E _ h (WriteFd fd buf)).1 <= len buf;
  poll_answers : forall h fds, length (E _ h (PollSocks fds)).2 = length fds;
  poll_ready : forall h fd t, 0 < (E _ h (PollOut fd t)).1 ->
    has (E _ h (PollOut fd t)).2 POLL_FAULT = true \/ has (E _ h (PollOut fd t)).2 POLLOUT = true;
}.

Section Tool.
Context (E : env bsys) (HE : honest E).

(** [n] bytes of [buf] have been written to [fd] since [w], all or refused. *)
Definition offered (fd : Z) (buf : list Z) (w : world bsys bst) (n : Z) (w' : world bsys bst) : Prop :=
  0 <= n <= len buf /\ asked (hist w') = asked (hist w) /\ (forall g, reads_of g (hist w') = reads_of g (hist w)) /\
  (forall g, written_to g (hist w') = written_to g (hist w) ++ if g =? fd then take (Z.to_nat n) buf else []) /\
  forall g, (refusals g (hist w) <= refusals g (hist w'))%nat.
Definition refused (fd : Z) (w w' : world bsys bst) : Prop := (refusals fd (hist w) < refusals fd (hist w'))%nat.

Lemma write_turn_offers fd buf t w wc w1 : offered fd buf w wc w1 ->
  runs E (Tool.write_turn fd buf t wc) w1 (fun r w' =>
    match r with
    | inl wc' => offered fd buf w wc' w' /\ (Z.to_nat (len buf - wc') < Z.to_nat (len buf - wc))%nat
    | inr n => offered fd buf w n w' /\ (n = len buf \/ refused fd w w')
    end).
Proof.
  intros Ho. pose proof Ho as (Hwc & Ha & Hr & Hw & Hf). unfold Tool.write_turn.
  destruct (Z.ltb_spec wc (len buf)) as [H1|H1]; cbn [negb]; [|rsteps; split; [done|left; lia]].
  rsteps. pose proof (poll_ready E HE (hist w1) fd t) as Hp. set (p := E _ (hist w1) (PollOut fd t)) in *. clearbody p.
  set (w2 := World _ _).
  assert (Ho2 : offered fd buf w wc w2).
  { split_and!; [lia|lia|exact Ha| | |]; intros g; cbn; rewrite ?app_nil_r; [apply Hr|apply Hw|specialize (Hf g); lia]. }
  assert (Hno : (p.1 <=? 0) || has p.2 POLL_FAULT = true -> refused fd w w2).
  { intros H. unfold refused. specialize (Hf fd). cbn. rewrite Z.eqb_refl, H. cbn. lia. }
  destruct p as [ret rev]. cbn in Hp, Hno. destruct (Z.leb_spec ret 0) as [H2|H2]; [rsteps; split; [done|right; by apply Hno]|].
  destruct (has rev POLL_FAULT) eqn:Hfault; [rsteps; split; [done|right; by apply Hno]|].
  assert (Hout : has rev POLLOUT = true) by (destruct Hp as [Hp|Hp]; [lia|by rewrite Hp in Hfault|exact Hp]). rewrite Hout.
  assert (Haf : after wc buf = Some (drop (Z.to_nat wc) buf)).
  { unfold after. destruct (Z.leb_spec 0 wc), (Z.leb_spec wc (len buf)); [done|lia..]. }
  apply runs_bind. eapply runs_of_option; [exact Haf|]. rsteps. set (rest := drop (Z.to_nat wc) buf).
  assert (Hrest : len rest = len buf - wc) by (unfold rest, len in *; rewrite length_drop; lia).
  pose proof (write_fits E HE (hist w2) fd rest) as Hn. set (r := E _ (hist w2) (WriteFd fd rest)) in *. clearbody r.
  destruct r as [n e]. cbn in Hn. destruct Ho2 as (_ & Ha2 & Hr2 & Hw2 & Hf2). destruct (Z.leb_spec n 0) as [H3|H3].
  - rsteps. split; [split_and!|].
    + lia.
    + lia.
    + exact Ha2.
    + intros g. cbn. rewrite !app_nil_r. apply Hr.
    + intros g. cbn. rewrite app_nil_r, Hw. replace (Z.to_nat n) with 0%nat by lia. cbn. destruct (fd =? g); by rewrite app_nil_r.
    + intros g. specialize (Hf2 g). cbn in *. lia.
    + right. unfold refused. specialize (Hf fd). cbn. rewrite Z.eqb_refl. destruct (Z.leb_spec n 0); [|lia]. cbn. lia.
  - rsteps. split; [split_and!|lia].
    + lia.
    + lia.
    + exact Ha2.
    + intros g. cbn. rewrite !app_nil_r. apply Hr.
    + intros g. cbn. rewrite app_nil_r, Hw, <-app_assoc. f_equal. rewrite (Z.eqb_sym fd g).
      destruct (g =? fd); [|done]. unfold rest. rewrite Z2Nat.inj_add by lia. by rewrite take_take_drop.
    + intros g. specialize (Hf2 g). cbn in *. lia.
Qed.

Lemma tool_write fuel fd buf t w : (length buf < fuel)%nat ->
  runs E (Tool.tty2tcp_poll_write fuel fd buf t) w (fun n w' =>
    offered fd buf w n w' /\ (n = len buf \/ refused fd w w')).
Proof.
  intros Hl. unfold Tool.tty2tcp_poll_write. rsteps. pose proof (write_fits E HE (hist w) fd buf) as Hn.
  set (r := E _ (hist w) (WriteFd fd buf)) in *. clearbody r. destruct r as [n e]. cbn in Hn.
  assert (Ho : offered fd buf w (if n <=? 0 then 0 else n) (World (loc w) (Ev (WriteFd fd buf) (n, e) :: hist w))).
  { split_and!.
    - destruct (Z.leb_spec n 0); unfold len; lia.
    - destruct (Z.leb_spec n 0); unfold len in *; lia.
    - done.
    - intros g. cbn. by rewrite app_nil_r.
    - intros g. cbn. rewrite (Z.eqb_sym fd g). destruct (Z.leb_spec n 0); [|done]. by replace (Z.to_nat n) with 0%nat by lia.
    - intros g. cbn. lia. }
  destruct ((n <=? 0) && negb (e =? EAGAIN)) eqn:He.
  - rsteps. apply andb_prop in He. destruct He as [H1 H2]. rewrite H1 in Ho. split; [exact Ho|]. right. unfold refused. cbn.
    rewrite Z.eqb_refl, H1, H2, orb_true_r. cbn. lia.
  - apply (runs_iterM E (Tool.write_turn fd buf t) (fun wc w' => offered fd buf w wc w') (fun wc _ => Z.to_nat (len buf - wc)));
      [intros wc w1 H; by apply write_turn_offers|exact Ho|].
    destruct Ho as [Hb _]. unfold len in *. lia.
Qed.

Lemma tool_forward fuel a b r w : (Z.to_nat (16 * 1024) < fuel)%nat -> a <> b -> forwarded a b w ->
  runs E (Tool.forward fuel a b r) w (fun _ w' => forwarded a b w' /\ asked (hist w') = asked (hist w)).
Proof.
  intros Hf Hab [H1 H2]. unfold Tool.forward. destruct (has r POLL_FAULT); [rsteps; by split|].
  destruct (has r POLLIN); cbn [negb]; [|rsteps; by split]. rsteps.
  destruct (E _ (hist w) (ReadFd a (16 * 1024))) as [[|x data]|] eqn:Hr.
  - rsteps. split; [|done]. split; eapply carried_more; try done; cbn; by rewrite ?app_nil_r.
  - assert (Hl : len (x :: data) <= 16 * 1024) by (eapply (read_fits E HE); [|exact Hr]; lia). rsteps.
    eapply runs_mono; [apply tool_write; unfold len in Hl; lia|].
    intros wc w1 ((Hwc & Has & Hrd & Hwr & Hre) & Hall). rsteps.
    split; [|by rewrite Has]. split.
    + eapply (carried_piece a b _ _ (Z.to_nat wc) (x :: data) H1).
      * rewrite Hrd. cbn. by rewrite Z.eqb_refl.
      * rewrite Hwr, Z.eqb_refl. cbn. by rewrite app_nil_r.
      * specialize (Hre b). cbn in Hre. destruct (decide _) as [Hd|_]; [|lia].
        destruct Hall as [->|Hall]; [unfold len in Hd; lia|]. unfold refused in Hall. cbn in Hall. lia.
    + eapply (carried_more b a _ _ H2).
      * rewrite Hrd. cbn. rewrite (proj2 (Z.eqb_neq a b) Hab). by rewrite app_nil_r.
      * rewrite Hwr. cbn. rewrite (proj2 (Z.eqb_neq a b) Hab). by rewrite !app_nil_r.
      * exact (Hre a).
  - rsteps. split; [|done]. split; eapply carried_more; try done; cbn; by rewrite ?app_nil_r.
Qed.

(** C18: ql-tty2tcp forwards in order: when the loop is left because of a signal, an error or the end of one
    side, what has been written to each side is what was read from the other, read by read, with nothing repeated or put
    in between. Of a read the rest is dropped only where the side refused it: it took no byte before the 200 ms of the
    poll were over, it failed, or its write failed; while a side never refuses, it has got all that was read for it, also when it takes
    it in parts or is not ready at first. The loop ends once the signal has come. *)
Theorem bridge_forwards fuel N ttyfd sockfd w :
  (forall h, (N <= asked h)%nat -> E _ h ExitFlag = true) -> ttyfd <> sockfd ->
  forwarded ttyfd sockfd w -> (Z.to_nat (16 * 1024) < fuel)%nat -> (N < fuel)%nat ->
  runs E (iterM fuel (fun _ => Tool.turn fuel ttyfd sockfd) tt) w (fun _ w' =>
    forwarded ttyfd sockfd w' /\
    (refusals sockfd (hist w') = 0%nat -> written_to sockfd (hist w') = concat (reads_of ttyfd (hist w'))) /\
    (refusals ttyfd (hist w') = 0%nat -> written_to ttyfd (hist w') = concat (reads_of sockfd (hist w')))).
Proof.
  intros Hq Hne Hw Hf HN.
  eapply runs_mono with (Q := fun _ w' => forwarded ttyfd sockfd w').
  2: { intros _ w' [H1 H2]. split_and!; [by split|by apply carried_whole..]. }
  apply (runs_iterM E (fun _ => Tool.turn fuel ttyfd sockfd) (fun _ => forwarded ttyfd sockfd)
    (fun _ w' => (N - asked (hist w'))%nat)); [|done|lia].
  intros _ w1 H1. unfold Tool.turn. rsteps. destruct (E _ (hist w1) ExitFlag) eqn:He.
  { rsteps. destruct H1. split; eapply carried_more; try done; cbn; by rewrite ?app_nil_r. }
  assert (Hlt : (asked (hist w1) < N)%nat).
  { destruct (Nat.lt_ge_cases (asked (hist w1)) N) as [?|Hge]; [done|]. rewrite (Hq _ Hge) in He. done. }
  rsteps. set (p := E _ _ (PollSocks _)). assert (Hlen : length p.2 = 2%nat) by apply (poll_answers E HE). clearbody p.
  destruct p as [[ret errno] revents]. cbn in Hlen.
  destruct revents as [|r0 [|r1 [|]]]; try done.
  match goal with |- runs _ _ ?w _ => assert (H2 : forwarded ttyfd sockfd w /\ asked (hist w) = S (asked (hist w1))) end.
  { destruct H1. split; [split; eapply carried_more|]; try done; cbn; by rewrite ?app_nil_r. }
  destruct H2 as [H2 Ha2]. destruct (ret <=? 0); [rsteps; exact H2|]. rsteps.
  eapply runs_of_option; [reflexivity|]. rsteps. eapply runs_of_option; [reflexivity|]. rsteps.
  eapply runs_mono; [by apply tool_forward|]. intros q w2 [H3 Ha3]. cbn beta.
  destruct q; [rsteps; exact H3|]. rsteps.
  eapply runs_mono; [apply tool_forward; [done|by apply not_eq_sym|destruct H3; by split]|].
  intros q w3 [[H4 H5] Ha4]. rsteps. destruct q; [by split|]. split; [by split|]. lia.
Qed.
End Tool.

(** ** The connections of the server *)

(** How often a descriptor has been given to the thread and closed by it. *)
Definition one (x fd : Z) : nat := if (fd =? x) && negb (fd =? -1) then 1%nat else 0%nat.
Fixpoint taken (x : Z) (h : list (io bsys)) : nat :=
  match h with
  | [] => 0%nat
  | Ev c a :: h =>
      (match c in bsys A return A -> nat with
       | Socket => fun fd => one x fd
       | Accept _ => fun fd => one x fd
       | _ => fun _ => 0%nat
       end a + taken x h)%nat
  end.
Fixpoint given (x : Z) (h : list (io bsys)) : nat :=
  match h with
  | [] => 0%nat
  | Ev c _ :: h => (match c with CloseFd fd => one x fd | _ => 0 end + given x h)%nat
  end.
Definition held (x : Z) (s : bst) : nat := (one x (sock_fd Dm s) + one x (sock_fd Log s) + one x (sock_fd Third s))%nat.

(** Since [w0], every descriptor of [good] is closed or held by one of the
    variables. *)
Definition accounted (good : Z -> Prop) (w0 w : world bsys bst) : Prop := forall x, good x ->
  (taken x (hist w) + given x (hist w0) + held x (loc w0) =
   given x (hist w) + taken x (hist w0) + held x (loc w))%nat.

#[local] Arguments one : simpl never.
#[local] Arguments held : simpl never.

(** Nothing but the caches and the history of their calls changes. *)
Definition quiet (w w' : world bsys bst) : Prop :=
  (forall k, sock_fd k (loc w') = sock_fd k (loc w)) /\ tty2tcp_ttyfd (loc w') = tty2tcp_ttyfd (loc w) /\
  tty2tcp_tcpport (loc w') = tty2tcp_tcpport (loc w) /\
  (forall x, taken x (hist w') = taken x (hist w) /\ given x (hist w') = given x (hist w)) /\
  asked (hist w') = asked (hist w).

Section Server.
Context (E : env bsys).

Lemma quiet_caches {A} (m : M psys kst A) w (Q : A -> world bsys bst -> Prop) :
  (forall (F : env psys) c h, runs F m (World c h) (fun _ w' =>
     tty2tcp_sockfd (loc w') = tty2tcp_sockfd c /\ tty2tcp_logfd (loc w') = tty2tcp_logfd c /\
     tty2tcp_thirdfd (loc w') = tty2tcp_thirdfd c)) ->
  (forall a w', quiet w w' -> Q a w') -> runs E (in_caches m) w Q.
Proof.
  intros Hm HQ. apply runs_within. eapply runs_mono; [apply Hm|].
  intros a [c h] (H1 & H2 & H3). apply HQ. cbn in H1, H2, H3.
  assert (Hx : forall x, taken x (relabel (fun A c => CacheCall c) h ++ hist w) = taken x (hist w) /\
    given x (relabel (fun A c => CacheCall c) h ++ hist w) = given x (hist w) /\
    asked (relabel (fun A c => CacheCall c) h ++ hist w) = asked (hist w)).
  { intros x. induction h as [|[B c' b] h IH]; [done|]. exact IH. }
  split_and!; [by intros []|done|done| |by destruct (Hx 0) as (_ & _ & ?)].
  intros x. by destruct (Hx x) as (? & ? & _).
Qed.

Lemma alloc_quiet fd w (Q : Z -> world bsys bst -> Prop) :
  (forall a w', quiet w w' -> Q a w') -> runs E (in_caches (kfifo_alloc fd)) w Q.
Proof.
  apply quiet_caches. intros F c h. unfold kfifo_alloc. destruct (fd =? -1); [rsteps; by cbn|]. rsteps.
  destruct (_ =? -1); rsteps; by cbn.
Qed.
Lemma idx_quiet fd w (Q : Z -> world bsys bst -> Prop) :
  (forall a w', quiet w w' -> Q a w') -> runs E (in_caches (kfifo_idx fd)) w Q.
Proof. apply quiet_caches. intros F c h. unfold kfifo_idx. destruct (fd =? -1); rsteps; by cbn. Qed.
Lemma free_quiet idx w (Q : unit -> world bsys bst -> Prop) :
  (forall a w', quiet w w' -> Q a w') -> runs E (in_caches (kfifo_free idx)) w Q.
Proof. apply quiet_caches. intros F c h. unfold kfifo_free. destruct (negb _); rsteps; by cbn. Qed.

Lemma quiet_accounted good w0 w w' : quiet w w' -> accounted good w0 w -> accounted good w0 w'.
Proof.
  intros (Hs & _ & _ & Hh & _) H x Hx. specialize (H x Hx). destruct (Hh x) as [-> ->]. unfold held in *. by rewrite !Hs.
Qed.
(** Sockets can be made; [accept] may fail. *)
Definition net_ok : Prop :=
  (forall h, E Z h Socket <> -1) /\ (forall h fd p, E Z h (Bind fd p) <> -1) /\ (forall h fd n, E Z h (Listen fd n) <> -1).

Lemma one_none x : one x (-1) = 0%nat.
Proof. unfold one. cbn. by rewrite andb_false_r. Qed.

Lemma held_put x k fd s : sock_fd k s = -1 -> held x (put_sock k fd s) = (held x s + one x fd)%nat.
Proof. unfold held. intros H. destruct k; cbn in *; rewrite H, one_none; lia. Qed.
Lemma held_cleared x k s : held x s = (held x (put_sock k (-1) s) + one x (sock_fd k s))%nat.
Proof. unfold held. destruct k; cbn; rewrite one_none; lia. Qed.
Lemma sock_put k k' fd s : sock_fd k (put_sock k' fd s) = match k, k' with Dm, Dm | Log, Log | Third, Third => fd | _, _ => sock_fd k s end.
Proof. by destruct k, k'. Qed.

#[local] Arguments sock_fd : simpl never.
#[local] Arguments put_sock : simpl never.

Section Accounts.
Context (w0 : world bsys bst).

(** A socket that cannot be made counts as the descriptor 0. *)
Definition sound (x : Z) : Prop := x <> 0 \/ net_ok.
#[local] Abbreviation accounted := (accounted sound).

Lemma one_zero x : x <> 0 -> one x 0 = 0%nat.
Proof. unfold one. destruct (Z.eqb_spec 0 x); [lia|done]. Qed.

Lemma no_client k w w' : sock_fd k (loc w) = -1 -> accounted w0 w -> ~ net_ok -> loc w' = loc w ->
  (forall x, (taken x (hist w') + given x (hist w) = given x (hist w') + taken x (hist w))%nat) ->
  accounted w0 (World (put_sock k 0 (loc w')) (hist w')).
Proof.
  intros Hk Ha Hnet Hl Hb x Hx. specialize (Ha x Hx). specialize (Hb x). cbn [loc hist]. rewrite Hl, held_put by done.
  destruct Hx as [Hx|Hx]; [rewrite one_zero by done; lia|done].
Qed.

Lemma connect_accounted k port w : sock_fd k (loc w) = -1 -> accounted w0 w ->
  runs E (connect_sock k port) w (fun _ w' => accounted w0 w' /\ asked (hist w') = asked (hist w) /\
    (forall k', k' <> k -> sock_fd k' (loc w') = sock_fd k' (loc w))).
Proof.
  intros Hk Ha. unfold connect_sock, wait_tcp_client_connect. rsteps.
  assert (Hother : forall fd s k', k' <> k -> sock_fd k' (put_sock k fd s) = sock_fd k' s).
  { intros fd s k' Hk'. rewrite sock_put. by destruct k, k'. }
  do 3 (match goal with |- runs _ (if ?e =? -1 then _ else _) _ _ =>
    let He := fresh in destruct (Z.eqb_spec e (-1)) as [He|_];
    [rsteps; split_and!; [|done|by intros; apply Hother];
     refine (no_client k w (World (loc w) _) Hk Ha _ eq_refl _);
     [intros (Hs & Hb & Hl); first [exact (Hs _ He)|exact (Hb _ _ _ He)|exact (Hl _ _ _ He)]
     |intros x; cbn; try rewrite He; try rewrite one_none; lia]|] end; rsteps).
  match goal with |- context [if ?e =? -1 then _ else _] => set (fd := e) end. clearbody fd. destruct (Z.eqb_spec fd (-1)) as [H1|H1].
  - rsteps. split_and!; [|done|by intros k' Hk'; simpl; rewrite sock_put; destruct k, k'].
    intros x Hx0. specialize (Ha x Hx0). cbn. rewrite held_put, one_none by done. rewrite H1, one_none. lia.
  - rsteps. apply alloc_quiet. intros a w1 (Hq1 & _ & _ & Hq2 & Hq3). rsteps. split_and!.
    + intros x Hx0. specialize (Ha x Hx0). destruct (Hq2 x) as [Ht Hg]. cbn in Ht, Hg. cbn [loc hist].
      rewrite held_put by (rewrite Hq1; exact Hk). unfold held in *. rewrite !Hq1, Ht, Hg. cbn. lia.
    + cbn. by rewrite Hq3.
    + intros k' Hk'. cbn. rewrite sock_put. specialize (Hq1 k'). by destruct k, k'.
Qed.

Context (ch : chip).
(** A module has one second stream. *)
Definition one_log_socket : Prop :=
  (is_unisoc ch = true -> is_exx00u ch = false /\ is_qualcomm ch && use_diag_qdss ch = false) /\
  (is_exx00u ch = true -> is_qualcomm ch && use_diag_qdss ch = false).

(** The sockets that are still to be connected. *)
Lemma connect_if_accounted b k off w : (b = true -> sock_fd k (loc w) = -1) -> accounted w0 w ->
  runs E (connect_if b k off) w (fun _ w' => accounted w0 w' /\ asked (hist w') = asked (hist w) /\
    (b = false -> w' = w) /\ (forall k', k' <> k -> sock_fd k' (loc w') = sock_fd k' (loc w))).
Proof.
  intros Hk Ha. unfold connect_if. destruct b; [|by rsteps]. rsteps.
  eapply runs_mono; [apply connect_accounted; [by apply Hk|done]|]. intros ok w1 (H1 & H2 & H3). by split_and!.
Qed.

Lemma connect_clients_accounted w : one_log_socket -> all_closed (loc w) = true -> accounted w0 w ->
  runs E (connect_clients ch) w (fun _ w' => accounted w0 w' /\ asked (hist w') = asked (hist w)).
Proof.
  intros [Hu Hx] Hc Ha. unfold all_closed in Hc.
  assert (Hclosed : forall k, sock_fd k (loc w) = -1) by (intros []; lia). unfold connect_clients.
  eapply runs_seq; [apply connect_if_accounted; [by intros _|done]|]. intros ok w1 (A1 & N1 & _ & S1).
  destruct ok; cbn [negb]; [|by rsteps].
  eapply runs_seq; [apply connect_if_accounted; [intros _; by rewrite S1|done]|]. intros ok w2 (A2 & N2 & U2 & S2).
  destruct ok; cbn [negb]; [|rsteps; split; [done|congruence]].
  assert (L2 : is_exx00u ch = true \/ is_qualcomm ch && use_diag_qdss ch = true -> sock_fd Log (loc w2) = -1).
  { intros H. destruct (is_unisoc ch) eqn:Hun.
    - destruct (Hu eq_refl) as [He Hq]. rewrite He, Hq in H. by destruct H.
    - by rewrite (U2 eq_refl), S1. }
  eapply runs_seq; [apply connect_if_accounted; [auto|done]|]. intros ok w3 (A3 & N3 & U3 & S3).
  destruct ok; cbn [negb]; [|rsteps; split; [done|congruence]].
  eapply runs_seq; [apply connect_if_accounted; [|done]|].
  { intros H. destruct (is_exx00u ch) eqn:Hex; [by rewrite (Hx eq_refl) in H|]. rewrite (U3 eq_refl). auto. }
  intros ok w4 (A4 & N4 & _ & S4). destruct ok; cbn [negb]; [|rsteps; split; [done|congruence]].
  eapply runs_mono; [apply connect_if_accounted; [|done]|].
  { intros _. by rewrite S4, S3, S2, S1. }
  intros ok w5 (A5 & N5 & _). split; [done|congruence].
Qed.

(** Closing a socket by its variable or by its descriptor. *)
Lemma closefd_accounted k w : accounted w0 w ->
  runs E (tty2tcp_closefd k) w (fun _ w' => accounted w0 w' /\ asked (hist w') = asked (hist w) /\
    sock_fd k (loc w') = -1 /\ forall k', k' <> k -> sock_fd k' (loc w') = sock_fd k' (loc w)).
Proof.
  intros Ha. unfold tty2tcp_closefd. rsteps. destruct (Z.eqb_spec (sock_fd k (loc w)) (-1)) as [H|H].
  { rsteps. by split_and!. }
  set (fd := sock_fd k (loc w)) in *. rsteps. apply idx_quiet. intros idx w1 (Q1 & _ & _ & Q2 & Q3).
  rsteps. apply free_quiet. intros [] w2 (P1 & _ & _ & P2 & P3). rsteps. split_and!.
  - intros x Hx0. specialize (Ha x Hx0). destruct (Q2 x), (P2 x). pose proof (held_cleared x k (loc w)) as Hx. fold fd in Hx.
    unfold held in *. cbn. rewrite !P1, !Q1. cbn in *. lia.
  - cbn. rewrite P3, Q3. done.
  - cbn. rewrite P1, Q1. cbn. rewrite sock_put. by destruct k.
  - intros k' Hk'. cbn. rewrite P1, Q1. cbn. rewrite sock_put. by destruct k, k'.
Qed.

Lemma polled_accounted k fd w : sock_fd k (loc w) = fd -> accounted w0 w ->
  runs E (close_polled k fd) w (fun _ w' => accounted w0 w' /\ asked (hist w') = asked (hist w)).
Proof.
  intros Hk Ha. unfold close_polled. destruct (Z.eqb_spec fd (-1)) as [H|H].
  { rsteps. split; [|done]. intros x Hx0. specialize (Ha x Hx0). pose proof (held_cleared x k (loc w)) as Hx.
    rewrite Hk, H, one_none in Hx. cbn. lia. }
  rsteps. apply idx_quiet. intros idx w1 (Q1 & _ & _ & Q2 & Q3).
  rsteps. apply free_quiet. intros [] w2 (P1 & _ & _ & P2 & P3). rsteps. split.
  - intros x Hx0. specialize (Ha x Hx0). destruct (Q2 x), (P2 x). pose proof (held_cleared x k (loc w2)) as Hx.
    rewrite P1, Q1, Hk in Hx. assert (Hh : held x (loc w2) = held x (loc w)) by (unfold held; by rewrite !P1, !Q1).
    cbn. lia.
  - cbn. by rewrite P3, Q3.
Qed.

Lemma which_sock_fd fd s k : which_sock fd s = Some k -> sock_fd k s = fd.
Proof.
  unfold which_sock. repeat match goal with |- context [fd =? ?e] => destruct (Z.eqb_spec fd e) as [->|] end; congruence.
Qed.

Lemma serve_sock_accounted fd revents w : accounted w0 w ->
  runs E (serve_sock ch fd revents) w (fun _ w' => accounted w0 w' /\ asked (hist w') = asked (hist w)).
Proof.
  intros Ha. unfold serve_sock. rsteps. destruct (has revents POLL_FAULT).
  { rsteps. destruct (which_sock fd (loc w)) as [k|] eqn:Hk; [|by rsteps].
    eapply runs_mono; [apply polled_accounted; [by apply which_sock_fd|done]|]. intros [] w1 H. by rsteps. }
  destruct (has revents POLLIN); cbn [negb]; [|by rsteps]. rsteps.
  set (w1 := World _ _). assert (Ha1 : accounted w0 w1) by exact Ha. assert (Hn : asked (hist w1) = asked (hist w)) by done.
  destruct (E _ _ (ReadFd _ _)) as [[|b data]|].
  2: { destruct (fd =? _); rsteps; by split. }
  all: destruct (which_sock fd (loc w1)) as [k|]; [|rsteps; by split].
  all: eapply runs_mono; [by apply closefd_accounted|]; intros [] w2 (H1 & H2 & _); rsteps; split; [done|congruence].
Qed.

Lemma serve_socks_accounted l : forall w, accounted w0 w ->
  runs E (serve_socks ch l) w (fun _ w' => accounted w0 w' /\ asked (hist w') = asked (hist w)).
Proof.
  induction l as [|[fd revents] l IH]; intros w Ha; cbn [serve_socks]; [by rsteps|].
  eapply runs_seq; [by apply serve_sock_accounted|]. intros go w1 [H1 N1]. destruct go; [|by rsteps].
  eapply runs_mono; [by apply IH|]. intros [] w2 [H2 N2]. split; [done|congruence].
Qed.
(** The flag is set after it has been looked at [N] times. *)
Context (N : nat) (Hquit : forall h, (N <= asked h)%nat -> E _ h ExitFlag = true).

Lemma not_yet h : E bool h ExitFlag = false -> (asked h < N)%nat.
Proof. intros H. destruct (Nat.lt_ge_cases (asked h) N) as [?|Hge]; [done|]. by rewrite (Hquit _ Hge) in H. Qed.

(** A poll that a signal interrupts is repeated until the flag is set. *)
Lemma poll_socks_quiet fuel fds w : (N < fuel)%nat -> accounted w0 w ->
  runs E (poll_socks fuel fds) w (fun _ w' => accounted w0 w' /\ loc w' = loc w /\ (asked (hist w) <= asked (hist w'))%nat).
Proof.
  intros Hf Ha. unfold poll_socks.
  apply (runs_iterM E _ (fun _ (w' : world bsys bst) => accounted w0 w' /\ loc w' = loc w /\ (asked (hist w) <= asked (hist w'))%nat)
    (fun _ w' => (N - asked (hist w'))%nat)); [|done|lia].
  intros _ w1 (H1 & H2 & H3). rsteps. destruct (E _ _ (PollSocks _)) as [[ret errno] rev].
  destruct ((ret =? -1) && (errno =? EINTR)); [|rsteps; split_and!; [exact H1|done|exact H3]]. rsteps.
  destruct (E bool _ ExitFlag) eqn:He; rsteps; [split_and!; [exact H1|done|cbn; lia]|].
  apply not_yet in He. cbn in He. split; [split_and!; [exact H1|done|cbn; lia]|cbn; lia].
Qed.

(** A turn keeps the account, and looks at the flag. *)
Lemma sock_turn_accounted fuel w : (N < fuel)%nat -> one_log_socket -> accounted w0 w ->
  runs E (sock_turn ch fuel) w (fun r w' => accounted w0 w' /\
    (r = inl tt -> (asked (hist w) < asked (hist w') /\ asked (hist w) < N)%nat)).
Proof.
  intros Hf Hc Ha. unfold sock_turn. rsteps. destruct (E bool (hist w) ExitFlag) eqn:He; [by rsteps|]. rsteps.
  apply not_yet in He.
  set (w1 := World _ _). assert (Ha1 : accounted w0 w1) by exact Ha.
  assert (Hn1 : asked (hist w1) = S (asked (hist w))) by done. clearbody w1.
  eapply runs_mono with (Q := fun _ (w2 : world bsys bst) => accounted w0 w2 /\ asked (hist w2) = S (asked (hist w))).
  { destruct (all_closed (loc w1)) eqn:Hall; [|by rsteps].
    eapply runs_mono; [by apply connect_clients_accounted|]. intros ok w2 [? ?]. split; [done|congruence]. }
  intros ok w2 [Ha2 Hn2]. destruct ok; cbn [negb]; [|by rsteps]. rsteps.
  destruct (open_socks (loc w2)) as [|fd fds]; [by rsteps|].
  eapply runs_seq; [by apply poll_socks_quiet|]. intros [ret revents] w3 (Ha3 & _ & Hn3).
  destruct (ret <=? 0); [by rsteps|].
  eapply runs_seq; [by apply serve_socks_accounted|]. intros [] w4 [Ha4 Hn4]. rsteps. split; [done|]. intros _. lia.
Qed.
End Accounts.
End Server.

(** C36: The thread of the TCP server keeps account of its sockets: whatever clients connect, send or drop,
    whichever calls fail or are interrupted, and wherever the thread leaves its loop (the signal, an error of [poll] or
    [accept]), it ends once the signal has come, the three variables are cleared, and every socket that it opened or
    accepted, and those that it held, has been closed as many times as it was given; the descriptor 0 only if no [socket],
    [bind] or [listen] fails, because the thread takes such a failure for a client of that number and closes it. *)
Theorem sockets_accounted (E : env bsys) ch N fuel w :
  one_log_socket ch -> (forall h, (N <= asked h)%nat -> E _ h ExitFlag = true) -> (N < fuel)%nat ->
  E bool (hist w) GetBuffer = true ->
  runs E (tcp_sock_read_Loop ch fuel) w (fun _ w' =>
    (forall k, sock_fd k (loc w') = -1) /\
    forall x, x <> 0 \/ net_ok E ->
      (taken x (hist w') + given x (hist w) + held x (loc w) = given x (hist w') + taken x (hist w))%nat).
Proof.
  intros Hc Hq Hf Hb. unfold tcp_sock_read_Loop. rsteps. rewrite Hb. cbn [negb].
  set (w1 := World _ _). assert (Ha1 : accounted (sound E) w w1) by (intros x _; cbn; lia).
  eapply runs_seq; [apply (runs_iterM E (fun _ => sock_turn ch fuel) (fun _ => accounted (sound E) w)
    (fun _ w' => (N - asked (hist w'))%nat) (fun _ => accounted (sound E) w)); [|done|cbn; lia]|].
  { intros _ w2 H2. eapply runs_mono; [by eapply sock_turn_accounted|].
    intros [[]|[]] w3 [H3 Hn]; [|done]. split; [done|]. specialize (Hn eq_refl). lia. }
  intros [] w2 H2.
  eapply runs_seq; [by apply closefd_accounted|]. intros [] w3 (H3 & _ & D3 & S3).
  eapply runs_seq; [by apply closefd_accounted|]. intros [] w4 (H4 & _ & D4 & S4).
  eapply runs_mono; [by apply closefd_accounted|]. intros [] w5 (H5 & _ & D5 & S5).
  assert (Hall : forall k, sock_fd k (loc w5) = -1).
  { intros []; [by rewrite S5, S4|by rewrite S5|done]. }
  split; [done|]. intros x Hx. specialize (H5 x Hx). unfold held in H5 at 2. rewrite !Hall, one_none in H5. lia.
Qed.

(** A port that is taken: the thread goes on with the descriptor 0. *)
Lemma bind_failure_is_a_client (E : env bsys) port w :
  (forall h, E Z h Socket <> -1) -> (forall h fd p, E Z h (Bind fd p) = -1) ->
  runs E (wait_tcp_client_connect port) w (fun fd _ => fd = 0).
Proof.
  intros Hs Hb. unfold wait_tcp_client_connect. rsteps.
  destruct (Z.eqb_spec (E Z (hist w) Socket) (-1)) as [?|_]; [by exfalso; eapply Hs|]. rsteps.
  rewrite Hb. cbn. rsteps. done.
Qed.

(** ** Examples *)

(** A module and a client that both send; sockets take one byte at a time, and
    the second look at the flag finds the signal. *)
Definition demo_net : env bsys := fun A h c =>
  match c in bsys A return A with
  | CacheCall c =>
      match c in psys A return A with
      | PollIo.Write _ buf => (len buf, 0) | UsbfsWrite _ _ buf => (len buf, 0)
      | Read _ _ => None | UsbfsRead _ _ _ => None | Poll fds _ => (1, 0, map (fun _ => POLLIN) fds)
      | ExitRequested => false | UsbDisconnected => false | SetUsbDisconnected => tt
      | PollIo.Malloc _ => None | SetNonblock _ => tt
      end
  | Socket => 10 | SetReuse _ => 0 | Bind _ _ => 0 | Listen _ _ => 0 | Accept _ => 12 | Connect _ _ _ => 0
  | CloseFd _ => tt | Nonblocking _ => tt | GetBuffer => true
  | PollSocks fds => (1, 0, map (fun _ => POLLIN) fds)
  | PollOut _ _ => (1, POLLOUT)
  | ReadFd fd n => Some (take (Z.to_nat n) (if fd =? 5 then [1; 2; 3] else [4; 5]))
  | WriteFd _ buf => (Z.min 1 (len buf), 0)
  | SendTty _ _ buf => len buf
  | ExitFlag => (2 <=? asked h)%nat
  | StartThread => tt | OpenTty _ => 5 | SetRaw _ => tt | Usage => tt
  end.
Definition demo_chip : chip := Chip false false false false true true false.
Definition demo_bridge : world bsys bst := World (Bst kst_init 5 9000 0 (replicate 16 0)) [].

Lemma demo_honest : honest demo_net.
Proof.
  split.
  - intros h fd n d Hn H. injection H as <-. unfold len. rewrite length_take. lia.
  - intros h fd buf. cbn. lia.
  - intros h fds. cbn. apply length_map.
  - intros h fd t _. by right.
Qed.

Lemma demo_flag h : (2 <= asked h)%nat -> demo_net _ h ExitFlag = true.
Proof. intros H. by apply Nat.leb_le. Qed.

(** The same, but the port is never ready for what the client sends. *)
Definition demo_busy : env bsys := fun A h c =>
  match c in bsys A return A with
  | WriteFd fd buf => if fd =? 5 then (if polled fd h then 0 else 1, EAGAIN) else (len buf, 0)
  | c => demo_net _ h c
  end.

Lemma bridge_forwards_witness :
  runs demo_net (iterM 20000 (fun _ => Tool.turn 20000 5 12) tt) demo_bridge (fun _ w' =>
    forwarded 5 12 w' /\
    (refusals 12 (hist w') = 0%nat -> written_to 12 (hist w') = concat (reads_of 5 (hist w'))) /\
    (refusals 5 (hist w') = 0%nat -> written_to 5 (hist w') = concat (reads_of 12 (hist w')))) /\
  match iterM 20 (fun _ => Tool.turn 20 5 12) tt demo_net demo_bridge with
  | Done _ w' => written_to 12 (hist w') = [1; 2; 3; 1; 2; 3] /\ written_to 5 (hist w') = [4; 5; 4; 5]
  | _ => False
  end /\
  match iterM 20 (fun _ => Tool.turn 20 5 12) tt demo_busy demo_bridge with
  | Done _ w' => written_to 12 (hist w') = [1; 2; 3; 1; 2; 3] /\ written_to 5 (hist w') = [4; 4] /\ refusals 5 (hist w') = 2%nat
  | _ => False
  end.
Proof.
  split; [|by vm_compute].
  apply (bridge_forwards demo_net demo_honest 20000 2 5 12 demo_bridge); [apply demo_flag|done|..].
  - by split; exists [].
  - apply Nat.ltb_lt. by vm_compute.
  - apply Nat.ltb_lt. by vm_compute.
Defined.

(** Every second poll is interrupted, and the second port is taken. *)
Definition demo_signals : env bsys := fun A h c =>
  match c in bsys A return A with
  | PollSocks fds => if match h with Ev ExitFlag _ :: Ev (PollSocks _) _ :: _ => false | _ => true end
      then (-1, EINTR, map (fun _ => 0) fds) else (1, 0, map (fun _ => POLLIN) fds)
  | Bind _ p => if p =? 9001 then -1 else 0
  | ExitFlag => (6 <=? asked h)%nat
  | c => demo_net _ h c
  end.

Lemma sockets_accounted_witness :
  runs demo_signals (tcp_sock_read_Loop (Chip false true false false false false false) 10) demo_bridge (fun _ w' =>
    (forall k, sock_fd k (loc w') = -1) /\
    forall x, x <> 0 \/ net_ok demo_signals ->
      (taken x (hist w') + given x (hist demo_bridge) + held x (loc demo_bridge) =
       given x (hist w') + taken x (hist demo_bridge))%nat) /\
  match tcp_sock_read_Loop (Chip false true false false false false false) 10 demo_signals demo_bridge with
  | Done _ w' => (taken 12 (hist w'), given 12 (hist w')) = (1%nat, 1%nat) /\
      (taken 10 (hist w'), given 10 (hist w')) = (2%nat, 2%nat) /\ (taken 0 (hist w'), given 0 (hist w')) = (0%nat, 1%nat)
  | _ => False
  end.
Proof.
  split; [|by vm_compute].
  apply (sockets_accounted demo_signals (Chip false true false false false false false) 6 10 demo_bridge); [by split|..].
  - intros h H. by apply Nat.leb_le.
  - lia.
  - done.
Defined.
