(* ===== verification/Sony.v ===== *)
(** The logs of serial ports (src/sony.c): one or two ports at 921600 baud are
    read, each into files of its own, which are changed together when the size
    that the options allow is reached.  Reading and storing are the functions
    of main.c ([PollIo], [Kfifo]), calls here. *)

From Stdlib Require Import ZArith Lia.
From stdpp Require Import base list strings.
From S2P Require Import Prelude Str CText.
From S2P Require LogFile.

(** The attributes of a port; [c_cc] has the entries VMIN and VTIME. *)
Record termios : Type := Termios {
  c_iflag : Z;
  c_oflag : Z;
  c_cflag : Z;
  c_lflag : Z;
  speed : Z * Z;
  vmin : Z;
  vtime : Z;
}.
#[export] Instance eta_termios : Eta termios := fun s =>
  Termios (c_iflag s) (c_oflag s) (c_cflag s) (c_lflag s) (speed s) (vmin s) (vtime s).

(** [PollRead] answers what [qlog_poll_read_fds] gives ([None] for -1), and the
    descriptor it leaves in [fds[0]]. *)
Inductive nsys : Type -> Type :=
| OpenPort (path : list Z) : nsys Z
| GetAttr (fd : Z) : nsys (option termios)
| SetAttr (fd : Z) (t : termios) : nsys Z
| Access (path : list Z) : nsys Z
| Mkdir (path : list Z) : nsys unit
| Malloc (size : Z) : nsys bool
| TimeName : nsys (list Z)
| CreateLog (path : list Z) : nsys Z
| PollRead (fds : list Z) (size : Z) : nsys (option (list Z) * Z)
| Save (fd : Z) (buf : list Z) : nsys Z
| Close (fd : Z) : nsys unit
| ExitFlag : nsys bool.

Definition RX_COM_SIZE : Z := 16 * 1024.
Definition ENOENT : Z := 2.

(** The bits of Linux. *)
Definition B921600 : Z := 0x1007.
Definition bits (l : list Z) : Z := foldr Z.lor 0 l.
Definition set_bits (v mask : Z) : Z := Z.lor v mask.
Definition clear_bits (v mask : Z) : Z := Z.land v (Z.lxor mask (2 ^ 32 - 1)).
Definition CLOCAL : Z := 0x800.
Definition CREAD : Z := 0x80.
Definition CSIZE : Z := 0x30.
Definition CS8 : Z := 0x30.
Definition PARENB : Z := 0x100.
Definition CSTOPB : Z := 0x40.
Definition CRTSCTS : Z := 0x80000000.
Definition INPUT_BITS : list Z := [0x1; 0x2; 0x8; 0x20; 0x40; 0x80; 0x100; 0x400].
Definition LOCAL_BITS : list Z := [0x8; 0x40; 0x2; 0x1; 0x8000].
Definition OPOST : Z := 0x1.

(** The variables of [qlog_com_catch_log]. *)
Record nst : Type := Nst {
  fd_1 : Z;
  fd_2 : Z;
  com_log_fd_1 : Z;
  com_log_fd_2 : Z;
  logfile_save_size : Z;
  s_com_logfile_seq : Z;
}.
#[export] Instance eta_nst : Eta nst := fun s =>
  Nst (fd_1 s) (fd_2 s) (com_log_fd_1 s) (com_log_fd_2 s) (logfile_save_size s) (s_com_logfile_seq s).

Abbreviation C := (M nsys nst).

Definition raw_mode (baud : Z) (t : termios) : termios :=
  t <| speed := (baud, baud) |>
    <| c_cflag ::= fun f =>
         let f := set_bits f (bits [CLOCAL; CREAD]) in
         let f := set_bits (clear_bits f CSIZE) CS8 in
         clear_bits (clear_bits (clear_bits f PARENB) CSTOPB) CRTSCTS |>
    <| c_iflag ::= fun f => clear_bits f (bits INPUT_BITS) |>
    <| c_lflag ::= fun f => clear_bits f (bits LOCAL_BITS) |>
    <| c_oflag ::= fun f => clear_bits f OPOST |>
    <| vmin := 1 |> <| vtime := 1 |>.

Definition set_interface_attribs (fd baud : Z) : C Z :=
  t ← call (GetAttr fd);
  match t with
  | None => mret (-1)
  | Some t => r ← call (SetAttr fd (raw_mode baud t)); mret (if r =? 0 then 0 else -1)
  end.

Definition set_mincount (fd mcount : Z) : C unit :=
  t ← call (GetAttr fd);
  match t with
  | None => mret tt
  | Some t => call (SetAttr fd (t <| vmin := (if mcount =? 0 then 0 else 1) |> <| vtime := 5 |>));; mret tt
  end.

(** The two ports. *)
Inductive port : Type := SFP | FW.
Definition fd_of (k : port) (s : nst) : Z := match k with SFP => fd_1 s | FW => fd_2 s end.
Definition put_fd (k : port) (fd : Z) (s : nst) : nst :=
  match k with SFP => s <| fd_1 := fd |> | FW => s <| fd_2 := fd |> end.
Definition log_of (k : port) (s : nst) : Z := match k with SFP => com_log_fd_1 s | FW => com_log_fd_2 s end.
Definition put_log (k : port) (fd : Z) (s : nst) : nst :=
  match k with SFP => s <| com_log_fd_1 := fd |> | FW => s <| com_log_fd_2 := fd |> end.

(** False for a port that is named and cannot be opened. *)
Definition open_port (k : port) (name : list Z) : C bool :=
  match name with
  | [] => mret true
  | _ =>
      fd ← call (OpenPort name);
      modify (put_fd k fd);;
      if fd <? 0 then mret false else set_interface_attribs fd B921600;; mret true
  end.

(** [sprintf] into [filename], a buffer of 256 bytes. *)
Definition log_name (k : port) (logdir time : list Z) (seq : Z) : option (list Z) :=
  let tag := match k with SFP => str "SFP_" | FW => str "FW_" end in
  let shortname := snprintf 100 (tag ++ take 80 time ++ str "_" ++ LogFile.dec0 4 (s32 seq)) in
  filename ← wr 0 (logdir ++ str "/" ++ shortname ++ str ".bin" ++ [0]) (replicate (Z.to_nat 256) 0);
  Some (cstr filename).

Definition need_log (k : port) (logdir : list Z) : C unit :=
  s ← get;
  if (log_of k s =? -1) && negb (fd_of k s =? -1) then
    t ← call TimeName;
    name ← of_option (log_name k logdir t (s_com_logfile_seq s));
    fd ← call (CreateLog name);
    modify (put_log k fd)
  else mret tt.

(** Files are closed, and not those of the descriptors 0 and below. *)
Definition drop_log (k : port) : C unit :=
  s ← get;
  if 0 <? log_of k s then call (Close (log_of k s));; modify (put_log k (-1)) else mret tt.
Definition drop_port (k : port) : C unit :=
  s ← get;
  if 0 <? fd_of k s then call (Close (fd_of k s));; modify (put_fd k (-1)) else mret tt.

Definition next_files (logfile_sz : Z) : C unit :=
  s ← get;
  if u64 (logfile_sz - RX_COM_SIZE) <? logfile_save_size s then
    drop_log SFP;; drop_log FW;;
    modify (fun s => s <| logfile_save_size := 0 |> <| s_com_logfile_seq ::= fun n => u32 (n + 1) |>)
  else mret tt.

(** False when what was read could not be stored. *)
Definition store_chunk (fd : Z) (data : list Z) : C bool :=
  s ← get;
  if fd =? fd_1 s then n ← call (Save (com_log_fd_1 s) data); mret (len data =? n)
  else if fd =? fd_2 s then n ← call (Save (com_log_fd_2 s) data); mret (len data =? n)
  else mret true.

Definition open_fds (s : nst) : list Z := filter (fun fd => fd <> -1) [fd_1 s; fd_2 s].

Definition com_turn (logdir : list Z) (logfile_sz : Z) : C (unit + unit) :=
  e ← call ExitFlag;
  if (e : bool) then mret (inr tt) else
  need_log SFP logdir;;
  need_log FW logdir;;
  s ← get;
  '(r, fd) ← call (PollRead (open_fds s) RX_COM_SIZE);
  match r with
  | Some (b :: l) =>
      ok ← store_chunk fd (b :: l);
      if negb (ok : bool) then mret (inr tt) else
      modify (fun s => s <| logfile_save_size ::= fun n => u64 (n + len (b :: l)) |>);;
      next_files logfile_sz;;
      mret (inl tt)
  | _ => mret (inr tt)
  end.

Definition qlog_com_catch_log (fuel : nat) (ttyDM ttyGENERAL logdir : list Z) (logfile_sz : Z) : C Z :=
  ok ← open_port SFP ttyDM;
  if negb ok then mret (-1) else
  ok ← open_port FW ttyGENERAL;
  if negb ok then mret (-1) else
  r ← call (Access logdir);
  (if r =? ENOENT then call (Mkdir logdir) else mret tt);;
  ok ← call (Malloc RX_COM_SIZE);
  if negb (ok : bool) then drop_port SFP;; drop_port FW;; mret (-1) else
  iterM fuel (fun _ => com_turn logdir logfile_sz) tt;;
  drop_log SFP;; drop_log FW;; drop_port SFP;; drop_port FW;;
  mret 0.

Definition com_init : nst := Nst (-1) (-1) (-1) (-1) 0 0.

(** * Properties *)

(** The log files with their descriptors and what was given to them to store,
    newest first. *)
Fixpoint add_to (fd n : Z) (l : list (Z * Z)) : list (Z * Z) :=
  match l with
  | [] => []
  | (f, z) :: l => if f =? fd then (f, z + n) :: l else (f, z) :: add_to fd n l
  end.
Fixpoint files (h : list (io nsys)) : list (Z * Z) :=
  match h with
  | [] => []
  | Ev c a :: h =>
      match c in nsys A return A -> list (Z * Z) with
      | CreateLog _ => fun fd => (fd, 0) :: files h
      | Save fd data => fun _ => add_to fd (len data) (files h)
      | _ => fun _ => files h
      end a
  end.

(** The chunks that were read, and those given to the files. *)
Fixpoint received (h : list (io nsys)) : list (list Z) :=
  match h with
  | [] => []
  | Ev c a :: h =>
      received h ++
      match c in nsys A return A -> list (list Z) with
      | PollRead _ _ => fun r => match r.1 with Some (b :: l) => [b :: l] | _ => [] end
      | _ => fun _ => []
      end a
  end.
Fixpoint saved (h : list (io nsys)) : list (list Z) :=
  match h with
  | [] => []
  | Ev c _ :: h => saved h ++ match c with Save _ data => [data] | _ => [] end
  end.
Fixpoint asked (h : list (io nsys)) : nat :=
  match h with
  | [] => 0%nat
  | Ev c _ :: h => (match c with ExitFlag => 1 | _ => 0 end + asked h)%nat
  end.

Fixpoint sizes (l : list (Z * Z)) : Z := match l with [] => 0 | e :: l => e.2 + sizes l end.

Lemma add_to_app fd n cur old : fd ∈ map fst cur -> add_to fd n (cur ++ old) = add_to fd n cur ++ old.
Proof.
  induction cur as [|[f z] l IH]; cbn; [by intros ?%elem_of_nil|]. intros H.
  destruct (Z.eqb_spec f fd); [done|]. rewrite IH; [done|]. apply elem_of_cons in H as [?|?]; [by subst|done].
Qed.
Lemma add_to_sizes fd n l : fd ∈ map fst l -> sizes (add_to fd n l) = sizes l + n.
Proof.
  induction l as [|[f z] l IH]; cbn; [by intros ?%elem_of_nil|]. intros H.
  destruct (Z.eqb_spec f fd); cbn; [lia|]. rewrite IH; [lia|]. apply elem_of_cons in H as [?|?]; [by subst|done].
Qed.
Lemma add_to_names fd n l : map fst (add_to fd n l) = map fst l.
Proof. induction l as [|[f z] l IH]; cbn; [done|]. destruct (_ =? _); cbn; by rewrite ?IH. Qed.
Lemma add_to_pos fd n l : 0 <= n -> Forall (fun e => 0 <= e.2) l -> Forall (fun e => 0 <= e.2) (add_to fd n l).
Proof.
  intros Hn. induction 1 as [|[f z] l Hz Hl IH]; cbn; [done|]. cbn in Hz.
  destruct (_ =? _); constructor; cbn; done || lia.
Qed.
Lemma sizes_bound l m : Forall (fun e => 0 <= e.2) l -> sizes l <= m -> Forall (fun e => e.2 <= m) l.
Proof.
  intros H. revert m. induction H as [|[f z] l Hz Hl IH]; intros m Hm; cbn in *; [done|].
  assert (0 <= sizes l) by (clear -Hl; induction Hl as [|? ? ? ? ?]; cbn in *; lia).
  constructor; cbn; [lia|]. apply IH. lia.
Qed.

(** [poll] answers one of the descriptors it was given and at most what fits. *)
Definition reads_ok (E : env nsys) : Prop := forall h fds n b l,
  (E _ h (PollRead fds n)).1 = Some (b :: l) -> (E _ h (PollRead fds n)).2 ∈ fds /\ len (b :: l) <= n.
(** A log is not given the descriptor 0. *)
Definition logs_ok (E : env nsys) : Prop := forall h path, E Z h (CreateLog path) = -1 \/ 0 < E Z h (CreateLog path).

#[export] Instance port_eq_dec : EqDecision port.
Proof. solve_decision. Defined.

(** The newer files were opened since the last change and hold what has been
    counted; [opened k] says that the port has a file among them. *)
Record state_ok (sz : Z) (opened : port -> Prop) (w : world nsys nst) : Prop := {
  st_files : exists cur old, files (hist w) = cur ++ old /\ Forall (fun e => e.2 <= sz) old /\
    Forall (fun e => 0 <= e.2) cur /\ sizes cur = logfile_save_size (loc w) /\
    (forall k, log_of k (loc w) <> -1 \/ opened k -> log_of k (loc w) ∈ map fst cur);
  st_logs : forall k, log_of k (loc w) = -1 \/ 0 < log_of k (loc w);
  st_size : 0 <= logfile_save_size (loc w) <= sz - RX_COM_SIZE;
  st_saved : saved (hist w) = received (hist w);
}.

Section Log.
Context (E : env nsys) (sz : Z) (logdir : list Z).
Context (Hr : reads_ok E) (Hlog : logs_ok E) (Hdir : (length logdir <= 100)%nat) (Hsz : RX_COM_SIZE <= sz < 2 ^ 31).

Lemma log_name_fits k time seq : 0 <= seq < 2 ^ 32 -> exists name, log_name k logdir time seq = Some name.
Proof.
  intros Hs. unfold log_name. set (x := snprintf _ _).
  assert (length x <= 99)%nat by (unfold x, snprintf; rewrite length_take; lia). clearbody x.
  rewrite wr_fits; [by eexists|]. rewrite length_replicate, !length_app. cbn. lia.
Qed.

Lemma need_log_runs k opened w : state_ok sz opened w -> 0 <= s_com_logfile_seq (loc w) < 2 ^ 32 ->
  runs E (need_log k logdir) w (fun _ w' =>
    state_ok sz (fun k' => opened k' \/ k' = k /\ fd_of k (loc w) <> -1) w' /\
    s_com_logfile_seq (loc w') = s_com_logfile_seq (loc w) /\ (forall k', fd_of k' (loc w') = fd_of k' (loc w)) /\
    asked (hist w') = asked (hist w)).
Proof.
  intros [(cur & old & Hf & Ho & Hp & Hz & Hk) Hl Hs Hsv] Hseq. unfold need_log. rsteps.
  destruct (Z.eqb_spec (log_of k (loc w)) (-1)) as [H1|H1]; cbn [andb].
  2: { rsteps. split_and!; [|done..]. split; [|done..]. exists cur, old. split_and!; [done..|].
    intros k' [H|[H|[-> H]]]; apply Hk; auto. }
  destruct (Z.eqb_spec (fd_of k (loc w)) (-1)) as [H2|H2]; cbn [negb].
  { rsteps. split_and!; [|done..]. split; [|done..]. exists cur, old. split_and!; [done..|].
    intros k' [H|[H|[-> H]]]; [apply Hk; auto..|done]. }
  rsteps. set (t := E _ _ TimeName). destruct (log_name_fits k t (s_com_logfile_seq (loc w)) Hseq) as [name Hn].
  eapply runs_of_option; [exact Hn|]. rsteps. set (fd := E Z _ (CreateLog name)).
  assert (Hfd : fd = -1 \/ 0 < fd) by apply Hlog. clearbody fd.
  assert (Hput : forall k', log_of k' (put_log k fd (loc w)) = if bool_decide (k' = k) then fd else log_of k' (loc w)).
  { by intros []; destruct k. }
  split_and!; [|by destruct k|by destruct k|done]. split; cbn [loc hist].
  - exists ((fd, 0) :: cur), old. cbn [files]. rewrite Hf. split_and!; [done|done|by constructor|cbn; destruct k; exact Hz|].
    intros k'. rewrite Hput. case_bool_decide as Hkk; [intros _; by left|]. intros [H|[H|[? H]]]; [right; apply Hk; auto..|done].
  - intros k'. rewrite Hput. case_bool_decide; auto.
  - by destruct k.
  - cbn. by rewrite !app_nil_r.
Qed.

(** Behind a chunk: the counter may be over the mark by one chunk. *)
Definition filled (w : world nsys nst) : Prop :=
  (exists cur old, files (hist w) = cur ++ old /\ Forall (fun e => e.2 <= sz) old /\
    Forall (fun e => 0 <= e.2) cur /\ sizes cur = logfile_save_size (loc w) /\
    (forall k, log_of k (loc w) <> -1 -> log_of k (loc w) ∈ map fst cur)) /\
  (forall k, log_of k (loc w) = -1 \/ 0 < log_of k (loc w)) /\
  0 <= logfile_save_size (loc w) <= sz /\ saved (hist w) = received (hist w).

Lemma drop_log_runs k w (Q : unit -> world nsys nst -> Prop) : (log_of k (loc w) = -1 \/ 0 < log_of k (loc w)) ->
  (forall h, files h = files (hist w) -> saved h = saved (hist w) -> received h = received (hist w) ->
     asked h = asked (hist w) -> Q tt (World (put_log k (-1) (loc w)) h)) ->
  runs E (drop_log k) w Q.
Proof.
  intros Hl HQ. unfold drop_log. rsteps. destruct (Z.ltb_spec 0 (log_of k (loc w))).
  - rsteps. apply HQ; cbn; by rewrite ?app_nil_r.
  - rsteps. assert (H1 : log_of k (loc w) = -1) by lia. destruct w as [[] h].
    replace (World _ h) with (World (put_log k (-1) (Nst fd_3 fd_4 com_log_fd_3 com_log_fd_4 logfile_save_size0 s_com_logfile_seq0)) h) by (destruct k; cbn in *; by rewrite H1).
    by apply HQ.
Qed.

Lemma next_files_runs w : filled w -> 0 <= s_com_logfile_seq (loc w) < 2 ^ 32 ->
  runs E (next_files sz) w (fun _ w' => state_ok sz (fun _ => False) w' /\ 0 <= s_com_logfile_seq (loc w') < 2 ^ 32 /\
    asked (hist w') = asked (hist w)).
Proof.
  intros ((cur & old & Hf & Ho & Hp & Hz & Hk) & Hl & Hs & Hsv) Hseq. unfold next_files. rsteps.
  unfold u64. rewrite Z.mod_small by (unfold RX_COM_SIZE in *; lia).
  destruct (Z.ltb_spec (sz - RX_COM_SIZE) (logfile_save_size (loc w))) as [H1|H1].
  - rsteps. apply drop_log_runs; [apply Hl|]. intros h1 F1 S1 R1 A1. rsteps.
    apply drop_log_runs; [exact (Hl FW)|]. intros h2 F2 S2 R2 A2. rsteps. cbn [hist loc] in *. split_and!.
    + split; [|by intros []; left|unfold RX_COM_SIZE in *; cbn; lia|cbn; congruence].
      exists [], (cur ++ old). cbn [hist loc]. rewrite F2, F1, Hf. split_and!; [done| |done|done|].
      * apply Forall_app. split; [|done]. apply sizes_bound; [done|lia].
      * by intros [] [?|?].
    + unfold u32. cbn. apply Z.mod_pos_bound. lia.
    + unfold u32. cbn. apply Z.mod_pos_bound. lia.
    + cbn. congruence.
  - rsteps. split_and!; try done; [|lia..]. split; [|done|lia|done]. exists cur, old. split_and!; try done.
    intros k [?|[]]. by apply Hk.
Qed.
Definition good (w : world nsys nst) : Prop := state_ok sz (fun _ => False) w /\ 0 <= s_com_logfile_seq (loc w) < 2 ^ 32.

Definition stored (w : world nsys nst) : Prop :=
  Forall (fun e => e.2 <= sz) (files (hist w)) /\ saved (hist w) = received (hist w).

Lemma filled_stored w s : filled (World s (hist w)) -> stored w.
Proof.
  intros ((cur & old & Hf & Ho & Hp & Hz & _) & _ & Hs & Hsv). cbn [hist loc] in *. split; [|done].
  rewrite Hf. apply Forall_app. split; [apply sizes_bound; [done|lia]|done].
Qed.

Lemma com_turn_runs w : good w ->
  runs E (com_turn logdir sz) w (fun r w' => match r with
    | inl _ => good w' /\ asked (hist w') = S (asked (hist w)) /\ E bool (hist w) ExitFlag = false
    | inr _ => stored w'
    end).
Proof.
  intros [Hw Hseq]. unfold com_turn. rsteps. set (w1 := World _ _).
  assert (Hw1 : state_ok sz (fun _ => False) w1).
  { destruct Hw as [(cur & old & Hf & ?) ? ? Hsv]. split; [by exists cur, old|done|done|]. cbn. by rewrite !app_nil_r. }
  assert (Hfill : forall P w', state_ok sz P w' -> filled w').
  { intros P w' [(cur & old & Hf & Ho & Hp & Hz & Hk) Hl Hs Hsv]. split_and!; [|done|unfold RX_COM_SIZE in *; lia..|done].
    exists cur, old. split_and!; auto. }
  destruct (E bool (hist w) ExitFlag) eqn:He; [rsteps; apply (filled_stored w1 (loc w1)); destruct w1; by eapply Hfill|].
  assert (Hn1 : asked (hist w1) = S (asked (hist w))) by done. assert (Hs1 : 0 <= s_com_logfile_seq (loc w1) < 2 ^ 32) by done.
  clearbody w1. clear Hw Hseq. rsteps.
  eapply runs_mono; [by apply need_log_runs|]. intros [] w2 (Hw2 & Hs2 & Hf2 & Hn2). rsteps.
  eapply runs_mono; [apply need_log_runs; [exact Hw2|by rewrite Hs2]|]. intros [] w3 (Hw3 & Hs3 & Hf3 & Hn3). rsteps.
  set (r := E _ (hist w3) _). pose proof (Hr (hist w3) (open_fds (loc w3)) RX_COM_SIZE) as Hrd. fold r in Hrd.
  assert (Hev : hist w3 = hist w3) by done. clear Hev.
  destruct r as [[[|b l]|] fd] eqn:Hreq; cbn [fst snd] in Hrd.
  1, 3: rsteps; apply (filled_stored _ (loc w3)); destruct (Hfill _ _ Hw3) as (Hfw & Hlw & Hsw & Hsv); split; [exact Hfw|];
    split; [exact Hlw|split; [exact Hsw|cbn; by rewrite !app_nil_r]].
  destruct (Hrd b l eq_refl) as [Hin Hlen]. rsteps.
  eapply runs_mono with (Q := fun ok (w4 : world nsys nst) =>
    filled (World ((loc w4) <| logfile_save_size ::= fun n => u64 (n + len (b :: l)) |>) (hist w4)) /\
    s_com_logfile_seq (loc w4) = s_com_logfile_seq (loc w3) /\ asked (hist w4) = asked (hist w3)).
  - unfold store_chunk. rsteps. simpl (loc _). simpl (hist _). destruct Hw3 as [(cur & old & Hf & Ho & Hp & Hz & Hk) Hl Hs Hsv].
    assert (Hlen0 : 0 <= len (b :: l)) by (unfold len; lia).
    assert (Hsave : forall k n h, fd_of k (loc w3) = fd -> fd <> -1 -> 
      h = Ev (Save (log_of k (loc w3)) (b :: l)) n :: Ev (PollRead (open_fds (loc w3)) RX_COM_SIZE) (Some (b :: l), fd) :: hist w3 ->
      filled (World ((loc w3) <| logfile_save_size ::= fun n => u64 (n + len (b :: l)) |>) h) /\
      asked h = asked (hist w3)).
    { intros k n h Hfd Hne ->. assert (Hin' : log_of k (loc w3) ∈ map fst cur).
      { apply Hk. right. destruct k; [left; right|right]; (split; [done|]); congruence. }
      split; [|done]. assert (Hu : u64 (logfile_save_size (loc w3) + len (b :: l)) = logfile_save_size (loc w3) + len (b :: l)).
      { unfold u64. apply Z.mod_small. unfold RX_COM_SIZE in *. lia. }
      split; [|split; [exact Hl|split]].
      - exists (add_to (log_of k (loc w3)) (len (b :: l)) cur), old. cbn [files hist]. rewrite Hf, add_to_app by done. split_and!.
        + done.
        + done.
        + by apply add_to_pos.
        + rewrite add_to_sizes by done. cbn [loc]. cbn. rewrite Hu, Hz. done.
        + intros k'. rewrite add_to_names. intros H. apply Hk. by left.
      - cbn. rewrite Hu. unfold RX_COM_SIZE in *. lia.
      - cbn. by rewrite !app_nil_r, Hsv. }
    assert (Hne : fd <> -1) by (unfold open_fds in Hin; apply list_elem_of_filter in Hin; tauto).
    destruct (Z.eqb_spec fd (fd_1 (loc w3))) as [H1|H1].
    { rsteps. edestruct (Hsave SFP) as [Hfl Has]; [by symmetry|done|reflexivity|]. split; [exact Hfl|]. by split. }
    destruct (Z.eqb_spec fd (fd_2 (loc w3))) as [H2|H2].
    { rsteps. edestruct (Hsave FW) as [Hfl Has]; [by symmetry|done|reflexivity|]. split; [exact Hfl|]. by split. }
    exfalso. unfold open_fds in Hin. apply list_elem_of_filter in Hin as [_ Hin].
    apply elem_of_cons in Hin as [?|Hin]; [done|]. apply elem_of_cons in Hin as [?|Hin]; [done|by apply elem_of_nil in Hin].
  - intros ok w4 (Hfw & Hs4 & Hn4).
    destruct ok; cbn [negb]; [|rsteps; exact (filled_stored w4 _ Hfw)]. rsteps.
    eapply runs_mono; [apply next_files_runs; [exact Hfw|cbn; congruence]|].
    intros [] w5 (H5 & Hs5 & Hn5). rsteps. cbn in Hn5. split; [by split|]. split; [congruence|done].
Qed.
Lemma drop_log_stored k w : stored w -> runs E (drop_log k) w (fun _ w' => stored w').
Proof. intros [H1 H2]. unfold drop_log. rsteps. destruct (0 <? _); rsteps; split; cbn; by rewrite ?app_nil_r. Qed.
Lemma drop_port_stored k w : stored w -> runs E (drop_port k) w (fun _ w' => stored w').
Proof. intros [H1 H2]. unfold drop_port. rsteps. destruct (0 <? _); rsteps; split; cbn; by rewrite ?app_nil_r. Qed.

(** Nothing is read or stored before the loop. *)
Definition fresh (w : world nsys nst) : Prop :=
  files (hist w) = [] /\ saved (hist w) = [] /\ received (hist w) = [] /\ asked (hist w) = 0%nat /\
  com_log_fd_1 (loc w) = -1 /\ com_log_fd_2 (loc w) = -1 /\ logfile_save_size (loc w) = 0 /\ s_com_logfile_seq (loc w) = 0.

Lemma fresh_stored w : fresh w -> stored w.
Proof. intros (H1 & H2 & H3 & _). unfold stored. by rewrite H1, H2, H3. Qed.

Lemma open_port_fresh k name w : fresh w -> runs E (open_port k name) w (fun _ w' => fresh w').
Proof.
  intros (H1 & H2 & H3 & H4 & H5 & H6 & H7 & H8). unfold open_port. destruct name as [|c name]; [rsteps; by split_and!|].
  rsteps. destruct (_ <? 0).
  - rsteps. split_and!; cbn; rewrite ?app_nil_r; try done; by destruct k.
  - unfold set_interface_attribs. rsteps. destruct (E _ _ (GetAttr _)); rsteps;
      split_and!; cbn; rewrite ?app_nil_r; try done; by destruct k.
Qed.

Lemma fresh_good w : fresh w -> good w.
Proof.
  intros (H1 & H2 & H3 & H4 & H5 & H6 & H7 & H8). split; [|by rewrite H8]. split.
  - exists [], []. rewrite H1, H7. split_and!; [done..|]. intros [] [?|[]]; cbn in *; congruence.
  - intros []; by left.
  - rewrite H7. unfold RX_COM_SIZE in *. lia.
  - congruence.
Qed.
End Log.


(** A directory of more than 200 characters overruns the name of the file. *)
Example long_logdir : log_name SFP (replicate 240 47) (str "20240101_120000") 0 = None.
Proof. by vm_compute. Qed.

(** Bits of the attributes that raw mode sets and clears. *)
Lemma raw_mode_flags b t :
  Z.testbit (c_lflag (raw_mode b t)) 1 = false /\ Z.testbit (c_iflag (raw_mode b t)) 10 = false /\
  Z.testbit (c_cflag (raw_mode b t)) 7 = true /\ Z.testbit (c_oflag (raw_mode b t)) 0 = false.
Proof.
  cbn -[clear_bits set_bits bits Z.testbit]. unfold clear_bits, set_bits.
  rewrite !Z.land_spec, !Z.lor_spec, !Z.land_spec, Z.lor_spec.
  split_and!; cbn; by rewrite ?andb_false_r, ?andb_true_r, ?orb_true_r.
Qed.

(** ** Example: two ports, of which the second sends 16 KiB at a time *)

Definition demo_ports : env nsys := fun A h c =>
  match c in nsys A return A with
  | OpenPort path => 3 + len path
  | GetAttr _ => Some (Termios 0xffff 0xffff 0xffff 0xffff (13, 13) 0 0)
  | SetAttr _ _ => 0 | Access _ => ENOENT | Mkdir _ => tt | Malloc _ => true | TimeName => str "20240101_120000"
  | CreateLog _ => 20
  | PollRead fds n => match fds with [] => (None, 0) | fd :: _ => (Some (replicate (Z.to_nat n) 85), fd) end
  | Save _ buf => len buf | Close _ => tt
  | ExitFlag => (4 <=? asked h)%nat
  end.

