(* ===== verification/Capture.v ===== *)
(** The capture loops of the log tool (src/main.c: message_handle_asr, _eigen,
    _mtk, _unisoc, _mdm and qlog_handle): a loop reads the ports of the module,
    looks for a crashed module, gives what it read to the log operations of the
    module, and begins a new log file when one has reached its size.

    The five handlers of the source repeat one text; [handle] is that text, and
    a [handler] holds the places where they differ.  The functions of a module
    run inside the loop through [embed]; what the bridge to a TCP port does is a
    parameter.  The thread that runs [init_filter] is started here and modelled
    with its module. *)

From Stdlib Require Import ZArith Lia.
From stdpp Require Import base list strings.
From S2P Require Import Prelude LogFile.
From S2P Require Qsys Qshrink Mdm UnisocSys UnisocLog UnisocDump Eigen Asr Mtk.
#[local] Existing Instances Asr.eta_ast Eigen.eta_es UnisocSys.eta_us.

Definition QLOG_BUF_SIZE : nat := Z.to_nat (64 * 1024).
Definition AP_LOG_SIZE : Z := 10 * 1024 * 1024.
Definition RX_URB_SIZE : Z := 16 * 1024.
Definition MDM_QDSS : Z := 0.
Definition EC200U_AP : Z := 2.

Section Capture.
Context {mc : Type -> Type} {T : Type}.
Abbreviation L := (M (lsys mc) (gs T)).

(** ** The operations of a module *)

(** [qlog_ops_t]; [init_filter] is called by its own thread. *)
Record qlog_ops_t : Type := Ops {
  clean_filter : option (Z -> L Z);
  logfile_create : option (list Z -> list Z -> Z -> L Z);
  logfile_init : option (Z -> Z -> L Z);
  logfile_save : option (Z -> list Z -> L Z);
  logfile_close : option (Z -> L Z);
}.

(** Code of a module inside the loop: it sees its own variables ([enter],
    [leave]), and its calls are calls of the whole program. *)
Definition inj (h : list (io mc)) : list (io (lsys mc)) := relabel (fun A c => Module c) h.
Definition embed {A} (enter : gs T -> T) (leave : T -> gs T -> gs T) (m : M mc T A) : L A :=
  within (fun A c => Module c) enter leave m.

Context (cfg : settings) (tty2tcp_qlog_ops : qlog_ops_t).

(** ** Where the handlers differ *)

(** What the files of a turn have been given since they were begun. *)
Record sizes : Type := Sizes { savelog_size_dm : Z; savelog_size_general : Z; savelog_size_third : Z }.

Record handler : Type := Handler {
  logfile_suffix : list Z;
  side_suffixes : L unit;
  module_ops : qlog_ops_t;
  dmfd : Z;
  filter_fd : Z;
  ports : list Z;
  (** Looks at a read of [rc] bytes in [rbuf]; answers [rbuf] and whether the
      loop is to end. *)
  crashed : (Z -> list Z -> L Z) -> Z -> Z -> list Z -> L (list Z * bool);
  (** Saves what [fd] brought; answers [wc] and the sizes. *)
  save : (Z -> list Z -> L Z) -> Z -> Z -> list Z -> sizes -> L (Z * sizes);
  (** [Some] when the file is to end: the sizes of the next one. *)
  split : sizes -> L (option sizes);
  after_close : L unit;
  finish : L unit;
}.

Definition choose (ttyfd socket : Z) : Z := if ttyfd =? -1 then socket else ttyfd.

(** ** A turn of the loop *)

Definition set_exit (v : Z) : L unit := modify (fun s => s <| qlog_exit_requested := v |>).

Section Loop.
Context (h : handler) (create : list Z -> list Z -> Z -> L Z) (init : option (Z -> Z -> L Z))
  (logsave : Z -> list Z -> L Z) (close : Z -> L Z).

(** The variables of the loop. *)
Record loop_st : Type := LoopSt { logfile_fd : Z; sz : sizes; rbuf : list Z }.

(** A log file is begun when there is none; [false] leaves the loop. *)
Definition open_logfile (fd : Z) : L (Z * bool) :=
  if negb (fd =? -1) then mret (fd, true) else
  s ← get;
  fd ← create (args_logdir cfg) (logfile_suffix h) (s_logfile_seq s);
  if fd <=? 0 then mret (fd, false) else
  match init with
  | Some init =>
      s ← get; init fd (s_logfile_seq s);;
      modify (fun s => s <| s_logfile_seq ::= fun n => u32 (n + 1) |>)
  | None => mret tt
  end;;
  mret (fd, true).

(** The read is saved, and the file ends when it has reached its size. *)
Definition save_read (fd : Z) (data : list Z) (a : loop_st) : L (loop_st + Z) :=
  '(wc, z) ← save h logsave fd (logfile_fd a) data (sz a);
  if negb (wc =? len data) then
    modify (fun s => s <| exit_after_usb_disconnet := 1 |> <| qlog_exit_requested := 1 |>);;
    mret (inr (logfile_fd a))
  else
    e ← split h z;
    match e with
    | None => mret (inl (LoopSt (logfile_fd a) z (rbuf a)))
    | Some z =>
        close (logfile_fd a);; after_close h;; mret (inl (LoopSt (-1) z (rbuf a)))
    end.

Definition capture_turn (a : loop_st) : L (loop_st + Z) :=
  e ← exit_requested;
  if (e : bool) then mret (inr (logfile_fd a)) else
  r ← call (PollReadFds (ports h) (Z.of_nat QLOG_BUF_SIZE) 30000);
  match r with
  | None =>
      e ← exit_requested;
      (if (e : bool) then mret tt else modify (fun s => s <| qlog_abnormal_exit := 1 |>));;
      mret (inr (logfile_fd a))
  | Some (fd, data) =>
      rbuf ← of_option (wr 0 data (rbuf a));
      '(rbuf, stop) ← crashed h logsave fd (len data) rbuf;
      if (stop : bool) then mret (inr (logfile_fd a)) else
      modify (fun s => s <| g_rx_log_count ::= fun n => u32 (n + 1) |>);;
      '(logfd, ok) ← open_logfile (logfile_fd a);
      if negb ok then mret (inr logfd) else
      data ← of_option (rd_bytes 0 (length data) rbuf);
      save_read fd data (LoopSt logfd (sz a) rbuf)
  end.
End Loop.

(** ** The handler *)

Definition handle (fuel : nat) (h : handler) : L Z :=
  side_suffixes h;;
  ops ← (if is_tty2tcp cfg then
           modify (fun s => s <| exit_after_usb_disconnet := 1 |>);; mret tty2tcp_qlog_ops
         else mret (module_ops h));
  create ← (match logfile_create ops with
            | Some f => mret f
            | None =>
                if is_tcp_client cfg then
                  modify (fun s => s <| g_donot_split_logfile := 1 |>);;
                  mret (fun dir suffix seq => call (TcpClientCreate dir suffix seq))
                else mret (qlog_logfile_create cfg)
            end);
  let logsave := default (fun fd b => call (LogfileSave fd b)) (logfile_save ops) in
  let close := default (qlog_logfile_close cfg) (logfile_close ops) in
  m ← call (Malloc (Z.of_nat QLOG_BUF_SIZE));
  match m with
  | None => mret (-1)
  | Some m =>
      let rbuf := map m (seq 0 QLOG_BUF_SIZE) in
      started ← call (StartFilterThread (filter_fd h));
      if negb (started : bool) then mret (-1) else
      s ← get;
      (if g_send_at_flag s =? 0 then mret tt
       else call SendCfun;; modify (fun s => s <| g_send_at_flag := 0 |>));;
      logfd ← iterM fuel (capture_turn h create (logfile_init ops) logsave close)
                (LoopSt (-1) (Sizes 0 0 0) rbuf);
      (if logfd =? -1 then mret tt else close logfd;; mret tt);;
      e ← exit_requested;
      match clean_filter ops with
      | Some clean => if (e : bool) then clean (dmfd h);; mret tt else mret tt
      | None => mret tt
      end;;
      finish h;;
      call JoinFilterThread;;
      mret 0
  end.

(** ** One port *)

Definition plus (size wc : Z) : Z := u64 (size + wc).

Definition save_dm (dmfd : Z) (logsave : Z -> list Z -> L Z) (fd logfd : Z) (data : list Z) (z : sizes)
    : L (Z * sizes) :=
  if fd =? dmfd then
    wc ← logsave logfd data;
    mret (s64 wc, Sizes (plus (savelog_size_dm z) wc) (savelog_size_general z) (savelog_size_third z))
  else mret (0, z).

Definition logfile_size : Z := u64 (args_logfile_sz cfg).

Definition split_total (z : sizes) : L (option sizes) :=
  s ← get;
  let total := u64 (savelog_size_dm z + savelog_size_general z + savelog_size_third z) in
  mret (if (logfile_size <=? total) && (g_donot_split_logfile s =? 0) then Some (Sizes 0 0 0) else None).

Definition not_crashed (logsave : Z -> list Z -> L Z) (fd rc : Z) (rbuf : list Z) : L (list Z * bool) :=
  mret (rbuf, false).

Definition one_port (suffix : list Z) (ops : qlog_ops_t) (dmfd : Z)
    (crashed : (Z -> list Z -> L Z) -> Z -> Z -> list Z -> L (list Z * bool)) : handler :=
  Handler suffix (mret tt) ops dmfd dmfd (if dmfd =? -1 then [] else [dmfd]) crashed (save_dm dmfd)
    split_total (mret tt) (mret tt).

(** A crash was seen: the program ends, or, in automatic tests, tries again. *)
Definition caught (ret : Z) : L bool :=
  if ret =? 0 then mret false else
  e ← exit_requested;
  (if qlog_continue cfg && negb e then call (Sleep 1) else set_exit 1);;
  mret true.

(** ** Several ports *)

Record port_fds : Type := PortFds { fd_dm : Z; fd_general : Z; fd_third : Z }.
Definition open_ports (p : port_fds) : list Z :=
  List.filter (fun fd => negb (fd =? -1)) [fd_dm p; fd_general p; fd_third p].

Definition add_dm (wc : Z) (z : sizes) : sizes :=
  Sizes (plus (savelog_size_dm z) wc) (savelog_size_general z) (savelog_size_third z).
Definition add_general (wc : Z) (z : sizes) : sizes :=
  Sizes (savelog_size_dm z) (plus (savelog_size_general z) wc) (savelog_size_third z).
Definition add_third (wc : Z) (z : sizes) : sizes :=
  Sizes (savelog_size_dm z) (savelog_size_general z) (plus (savelog_size_third z) wc).

(** The side files are saved without the operations of the module, unless the
    bridge is on. *)
Definition mdm_save (p : port_fds) (logsave : Z -> list Z -> L Z) (fd logfd : Z) (data : list Z) (z : sizes)
    : L (Z * sizes) :=
  s ← get;
  if fd =? fd_dm p then
    modify (fun s => s <| g_qualcomm_log_type := 0 |>);;
    wc ← logsave logfd data; mret (s64 wc, add_dm wc z)
  else if fd =? fd_general p then
    if is_tty2tcp cfg && (general_type cfg =? MDM_QDSS) then
      modify (fun s => s <| g_qualcomm_log_type := 1 |>);;
      wc ← logsave (second_logfile s) data; mret (s64 wc, add_general wc z)
    else if is_not_null (second_logfile_suffix s) then
      wc ← call (LogfileSave (second_logfile s) data); mret (s64 wc, add_general wc z)
    else mret (0, z)
  else if fd =? fd_third p then
    if is_tty2tcp cfg && (third_type cfg =? 1) then
      modify (fun s => s <| g_qualcomm_log_type := 2 |>);;
      wc ← logsave (third_logfile s) data; mret (s64 wc, add_third wc z)
    else if is_not_null (third_logfile_suffix s) then
      wc ← (if third_type cfg =? 0 then mret 0 else call (LogfileSave (third_logfile s) data));
      mret (s64 wc, add_third wc z)
    else mret (0, z)
  else mret (0, z).

Definition unisoc_save (p : port_fds) (logsave : Z -> list Z -> L Z) (fd logfd : Z) (data : list Z) (z : sizes)
    : L (Z * sizes) :=
  s ← get;
  if fd =? fd_dm p then
    modify (fun s => s <| g_unisoc_log_type := 0 |> <| g_unisoc_exx00u_log_type := 0 |>);;
    wc ← logsave logfd data; mret (s64 wc, add_dm wc z)
  else if fd =? fd_general p then
    if is_not_null (second_logfile_suffix s) then
      modify (fun s => s <| g_unisoc_exx00u_log_type := 1 |>);;
      wc ← logsave (second_logfile s) data; mret (s64 wc, add_general wc z)
    else
      modify (fun s => s <| g_unisoc_log_type := 1 |>);;
      wc ← logsave logfd data; mret (s64 wc, add_dm wc z)
  else if fd =? fd_third p then
    if is_not_null (third_logfile_suffix s) then
      wc ← (if third_type cfg =? 0 then mret 0 else call (LogfileSave (third_logfile s) data));
      mret (s64 wc, add_third wc z)
    else mret (0, z)
  else mret (0, z).

Definition unisoc_split (z : sizes) : L (option sizes) :=
  if negb (g_is_unisoc_exx00u_chip cfg =? 0) then
    mret (if (AP_LOG_SIZE - Z.of_nat QLOG_BUF_SIZE <? savelog_size_general z)
             || (logfile_size <=? savelog_size_dm z)
          then Some (Sizes 0 0 (savelog_size_third z)) else None)
  else split_total z.

Definition mdm_suffixes : L unit :=
  modify (fun s => s <| second_logfile_suffix := if general_type cfg =? MDM_QDSS then Some (str "_qdss.bin") else None |>
                     <| third_logfile_suffix := if third_type cfg =? 1 then Some (str ".adplv") else None |>).
Definition unisoc_suffixes : L unit :=
  modify (fun s => s <| second_logfile_suffix := if general_type cfg =? EC200U_AP then Some (str ".bin") else None |>
                     <| third_logfile_suffix := if third_type cfg =? 2 then Some (str ".log") else None |>).
End Capture.
Arguments qlog_ops_t : clear implicits.
Arguments handler : clear implicits.

(** ** The modules *)

Section Modules.
Context (cfg : settings) (fuel : nat).

(** ASR; its [logfile_close] ends with that of main.c. *)
Section Asr.
Abbreviation L := (M (lsys Asr.asys) (gs Asr.ast)).
Definition in_asr {A} (m : M Asr.asys Asr.ast A) : L A :=
  embed (fun s => (modst s) <| Asr.g_rx_log_count := g_rx_log_count s |>)
    (fun t s => s <| modst := t |>) m.

Definition asr_qlog_ops (logfd : Z) : qlog_ops_t Asr.asys Asr.ast := Ops
  (Some (fun fd => in_asr (Asr.asr_log_shutdown fuel logfd fd)))
  None
  (Some (fun fd seq => in_asr (Asr.asr_logfile_init (is_ftp cfg) fd seq)))
  (Some (fun fd data => in_asr (Asr.asr_logfile_save fuel fd data)))
  (Some (fun fd => in_asr (Asr.asr_sync_header fd);; qlog_logfile_close cfg fd;; mret 0)).

Definition message_handle_asr (tty : qlog_ops_t Asr.asys Asr.ast) (turns : nat) (dmfd logfd : Z) : L Z :=
  handle cfg tty turns (one_port cfg (str "sdl") (asr_qlog_ops logfd) dmfd not_crashed).
End Asr.

Section Eigen.
Abbreviation L := (M (lsys Eigen.esys) (gs Eigen.es)).
Definition in_eigen {A} (m : M Eigen.esys Eigen.es A) : L A :=
  embed (fun s => (modst s) <| Eigen.qlog_exit_requested := qlog_exit_requested s |>)
    (fun t s => s <| modst := t |> <| qlog_exit_requested := Eigen.qlog_exit_requested t |>) m.

Definition eigen_qlog_ops : qlog_ops_t Eigen.esys Eigen.es := Ops
  (Some (fun _ => in_eigen Eigen.eigen_clean_filter))
  None
  (Some (fun _ _ => in_eigen Eigen.eigen_logfile_init))
  (Some (fun fd data => in_eigen (Eigen.eigen_logfile_save fd data)))
  None.

Definition eigen_crashed (logsave : Z -> list Z -> L Z) (fd rc : Z) (rbuf : list Z) : L (list Z * bool) :=
  if g_is_eigen_chip cfg =? 0 then mret (rbuf, false) else
  data ← of_option (rd_bytes 0 (Z.to_nat rc) rbuf);
  ret ← in_eigen (Eigen.enigen_catch_dump fuel (g_is_eigen_chip cfg) data (args_logdir cfg));
  stop ← caught cfg ret;
  mret (rbuf, stop).

Definition message_handle_eigen (tty : qlog_ops_t Eigen.esys Eigen.es) (turns : nat) (dmfd : Z) : L Z :=
  handle cfg tty turns (one_port cfg (str "bin") eigen_qlog_ops dmfd eigen_crashed).
End Eigen.

Section Mtk.
Abbreviation L := (M (lsys Mtk.ksys) (gs unit)).
Definition in_mtk {A} (m : M Mtk.ksys unit A) : L A := embed modst (fun t s => s <| modst := t |>) m.

Definition mtk_qlog_ops : qlog_ops_t Mtk.ksys unit := Ops
  (Some (fun fd => in_mtk (Mtk.mtk_clean_filter fd)))
  None
  (Some (fun fd seq => in_mtk (Mtk.mtk_logfile_init fd seq)))
  (Some (fun fd data => in_mtk (Mtk.mtk_logfile_save fd data)))
  None.

Definition message_handle_mtk (tty : qlog_ops_t Mtk.ksys unit) (turns : nat) (dmfd : Z) : L Z :=
  handle cfg tty turns (one_port cfg (str "muxraw") mtk_qlog_ops dmfd not_crashed).
End Mtk.

Section Mdm.
Abbreviation L := (M (lsys Qsys.qsys) (gs Qshrink.st)).
Definition in_mdm {A} (m : M Qsys.qsys Qshrink.st A) : L A := embed modst (fun t s => s <| modst := t |>) m.

Definition mdm_qlog_ops : qlog_ops_t Qsys.qsys Qshrink.st := Ops
  (Some (fun _ => in_mdm Mdm.mdm_clean_filter))
  None
  (Some (fun fd _ => in_mdm (Mdm.mdm_logfile_init fd)))
  (Some (fun fd data => in_mdm (Mdm.mdm_logfile_save fd data)))
  None.

Definition message_handle_mdm (tty : qlog_ops_t Qsys.qsys Qshrink.st) (turns : nat) (p : port_fds) : L Z :=
  handle cfg tty turns (Handler (if use_qmdl2_v2 cfg then str "qmdl2" else str "qmdl") (mdm_suffixes cfg)
    mdm_qlog_ops (fd_dm p) (fd_dm p) (open_ports p) not_crashed (mdm_save cfg p) (split_total cfg)
    (mret tt) (mret tt)).
End Mdm.

Section Unisoc.
Abbreviation L := (M (lsys UnisocSys.usys) (gs UnisocSys.us)).
(** The flags of main.c that the module sets. *)
Definition in_unisoc {A} (m : M UnisocSys.usys UnisocSys.us A) : L A :=
  embed (fun s => (modst s) <| UnisocSys.qlog_exit_requested := qlog_exit_requested s |>
                            <| UnisocSys.g_donot_split_logfile := g_donot_split_logfile s |>)
    (fun t s => s <| modst := t |> <| qlog_exit_requested := UnisocSys.qlog_exit_requested t |>
                  <| g_donot_split_logfile := UnisocSys.g_donot_split_logfile t |>) m.

Definition chip_of (s : gs UnisocSys.us) : UnisocSys.chip :=
  UnisocSys.Chip (g_is_unisoc_chip cfg) (g_is_unisoc_exx00u_chip cfg) (g_unisoc_log_type s)
    (query_panic_addr cfg).

(** [logfd]: the log file while the port is told to end. *)
Definition unisoc_qlog_ops (logfd : Z) : qlog_ops_t UnisocSys.usys UnisocSys.us := Ops
  (Some (fun fd => s ← get; in_unisoc (UnisocLog.unisoc_clean_filter (chip_of s) logfd fd)))
  None
  (Some (fun fd _ => in_unisoc (UnisocLog.unisoc_logfile_init fd)))
  (Some (fun fd data => s ← get; in_unisoc (UnisocLog.unisoc_logfile_save (chip_of s) fd data)))
  None.
Definition unisoc_exx00u_qlog_ops : qlog_ops_t UnisocSys.usys UnisocSys.us := Ops
  (Some (fun _ => in_unisoc UnisocLog.unisoc_exx00u_clean_filter))
  None
  (Some (fun _ _ => in_unisoc UnisocLog.unisoc_exx00u_logfile_init))
  (Some (fun fd data => in_unisoc (UnisocLog.unisoc_exx00u_logfile_save fd data)))
  None.

(** A dump works in the receive buffer. *)
Definition with_rbuf (rbuf : list Z) (m : M UnisocSys.usys UnisocSys.us Z) : L (Z * list Z) :=
  in_unisoc (modify (fun u => u <| UnisocSys.pbuf := rbuf |>);;
             r ← m; u ← get; mret (r, UnisocSys.pbuf u)).

Definition apdump_recv_buf : list Z := [0x7e; 0x00; 0x00; 0x00; 0x00; 0x08; 0x00; 0xff; 0x00; 0x7e].

(** The EC200D and the EC800G. *)
Definition unisoc_chip_crashed (dmfd rc : Z) (rbuf : list Z) : L (list Z * bool) :=
  if g_is_unisoc_chip cfg =? 2 then
    if rc <? 10 then mret (rbuf, false) else
    b ← of_option (rd_bytes 0 10 rbuf);
    let same := bool_decide (b = apdump_recv_buf) in
    modify (fun s => s <| uis8310_module_in_apdump := Z.b2z same |>);;
    if negb same then mret (rbuf, false) else
    in_unisoc (UnisocDump.unisoc_catch_8310_dump fuel dmfd (args_logdir cfg) RX_URB_SIZE);;
    call (Sleep 1);; set_exit 1;; mret (rbuf, true)
  else if g_is_unisoc_chip cfg =? 4 then
    '(ret, rbuf) ← with_rbuf rbuf (UnisocDump.unisoc_ec800g_catch_blue_screen fuel (args_logdir cfg));
    stop ← caught cfg ret; mret (rbuf, stop)
  else mret (rbuf, false).

(** [tty_save] is the save of the bridge, which the dump of the EXX00U calls for
    what is no answer. *)
Definition unisoc_crashed (tty_save : Z -> list Z -> M UnisocSys.usys UnisocSys.us Z) (p : port_fds)
    (logsave : Z -> list Z -> L Z) (fd rc : Z) (rbuf : list Z) : L (list Z * bool) :=
  '(rbuf, stop) ← unisoc_chip_crashed (fd_dm p) rc rbuf;
  if (stop : bool) then mret (rbuf, true) else
  b ← of_option (rd_bytes 0 6 rbuf);
  if (g_is_unisoc_exx00u_chip cfg =? 1) && bool_decide (take 4 b = [0xad; 0x00; 0x03; 0xff] /\ drop 5 b = [0x01]) then
    s ← get;
    let save := if is_tty2tcp cfg then tty_save else UnisocLog.unisoc_exx00u_logfile_save in
    '(ret, rbuf) ← with_rbuf rbuf
      (UnisocDump.unisoc_exx00u_catch_blue_screen save (second_logfile s) fuel (args_logdir cfg));
    stop ← caught cfg ret; mret (rbuf, stop)
  else mret (rbuf, false).

Definition m_bVer_Obtained_change : L unit :=
  in_unisoc (modify (fun u => u <| UnisocSys.m_bVer_Obtained := 0 |>)).

Definition message_handle_unisoc (tty : qlog_ops_t UnisocSys.usys UnisocSys.us)
    (tty_save : Z -> list Z -> M UnisocSys.usys UnisocSys.us Z) (turns : nat) (p : port_fds) (logfd : Z) : L Z :=
  let exx00u := negb (g_is_unisoc_exx00u_chip cfg =? 0) in
  let unisoc := negb (g_is_unisoc_chip cfg =? 0) in
  handle cfg tty turns (Handler
    (if unisoc then str "logel" else if exx00u then str "tra" else str "logel") (unisoc_suffixes cfg)
    (if unisoc then unisoc_qlog_ops logfd else if exx00u then unisoc_exx00u_qlog_ops else Ops None None None None None)
    (fd_dm p) (if exx00u then fd_general p else fd_dm p) (open_ports p) (unisoc_crashed tty_save p)
    (unisoc_save cfg p) (unisoc_split cfg)
    (if negb exx00u && unisoc then m_bVer_Obtained_change else mret tt)
    (if 0 <? g_use_compress_cmd cfg then call DestroyQueue else mret tt)).
End Unisoc.
End Modules.

(** ** The choice of the module *)

Inductive module_kind : Type := ASR | UNISOC | MDM | MTK | EIGEN | UNKNOWN.

(** The handler that [qlog_handle] runs; with compression the queue of file
    names comes first, and -1 is answered when it cannot be made. *)
Definition kind_of (cfg : settings) : module_kind :=
  if negb (g_is_asr_chip cfg =? 0) then ASR
  else if negb (g_is_unisoc_chip cfg =? 0) || negb (g_is_unisoc_exx00u_chip cfg =? 0) then UNISOC
  else if negb (g_is_qualcomm_chip cfg =? 0) then MDM
  else if negb (g_is_mtk_chip cfg =? 0) then MTK
  else if negb (g_is_eigen_chip cfg =? 0) then EIGEN
  else UNKNOWN.

Definition qlog_handle {mc T} (cfg : settings) (message_handle : module_kind -> M (lsys mc) (gs T) Z)
    : M (lsys mc) (gs T) Z :=
  ok ← (if 0 <? g_use_compress_cmd cfg then call CreateQueue else mret true);
  if negb (ok : bool) then mret (-1) else
  match kind_of cfg with
  | UNKNOWN => mret 0
  | k => message_handle k;; mret 0
  end.
