(* ===== verification/CaptureProps.v ===== *)
(** What the capture loops leave on the disk: every read is saved once and in
    its order, and the files are cut where they reach their size. *)

From Stdlib Require Import ZArith Lia.
From stdpp Require Import base list strings.
From S2P Require Import Prelude Buffers LogFile Capture.
From S2P Require Eigen Mtk.

(** ** The files *)

Section Files.
Context {mc : Type -> Type} {T : Type}.
Abbreviation L := (M (lsys mc) (gs T)).
Abbreviation world := (world (lsys mc) (gs T)).
(** The calls by which a module saves to a file. *)
Context (saved_by : forall A, mc A -> option (Z * list Z)).

(** The files that are finished, and the one that is open. *)
Definition store : Type := list (list Z) * option (Z * list Z).

Definition file_ev (x : io (lsys mc)) (a : store) : store :=
  match x with
  | Ev c r =>
      match c in lsys _ B return B -> store with
      | Open _ => fun fd => (a.1, Some (fd, []))
      | Module m => fun _ =>
          match a.2, saved_by _ m with
          | Some (fd, c), Some (f, d) => if f =? fd then (a.1, Some (fd, c ++ d)) else a
          | _, _ => a
          end
      | Close f => fun _ =>
          match a.2 with
          | Some (fd, c) => if f =? fd then (a.1 ++ [c], None) else a
          | None => a
          end
      | _ => fun _ => a
      end r
  end.
Definition files (h : list (io (lsys mc))) : store := foldr file_ev ([], None) h.

(** The reads made so far. *)
Fixpoint polls (h : list (io (lsys mc))) : nat :=
  match h with
  | [] => 0
  | Ev c _ :: h' => match c with PollReadFds _ _ _ => S (polls h') | _ => polls h' end
  end.

(** What the calls of a module bring to a file. *)
Fixpoint saved (fd : Z) (h : list (io mc)) : list Z :=
  match h with
  | [] => []
  | Ev m _ :: h' =>
      saved fd h' ++ match saved_by _ m with Some (f, d) => if f =? fd then d else [] | None => [] end
  end.

Lemma files_inj hm h don fd c : files h = (don, Some (fd, c)) ->
  files (inj hm ++ h) = (don, Some (fd, c ++ saved fd hm)).
Proof.
  intros H. unfold files. rewrite foldr_app. fold (files h). rewrite H.
  induction hm as [|[A m a] hm IH]; [cbn; by rewrite app_nil_r|].
  change (inj (Ev m a :: hm)) with (Ev (Module m) a :: inj hm). cbn [foldr saved]. rewrite IH. cbn [file_ev fst snd].
  destruct (saved_by A m) as [[f d]|]; [|by rewrite app_nil_r].
  destruct (f =? fd); by rewrite ?app_nil_r, ?app_assoc.
Qed.

Lemma polls_inj hm h : polls (inj hm ++ h) = polls h.
Proof. induction hm as [|[A m a] hm IH]; [done|]. exact IH. Qed.

(** ** What a module promises *)

(** Saving a read brings an entry for it to the file; the beginning of a file
    brings nothing; the variables of main.c stay. *)
Definition stays_main (w w' : world) : Prop :=
  (exists t, loc w' = (loc w) <| modst := t |>) /\ polls (hist w') = polls (hist w).

Class ModuleLog (E : env (lsys mc)) (init : Z -> Z -> L Z) (save : Z -> list Z -> L Z) : Type := {
  entry : list Z -> list Z -> Prop;
  init_law : forall fd seq (w : world) don, files (hist w) = (don, Some (fd, [])) ->
    runs E (init fd seq) w (fun _ w' => files (hist w') = (don, Some (fd, [])) /\ stays_main w w');
  save_law : forall fd data (w : world) don c, 0 < fd -> data <> [] ->
    (length data <= QLOG_BUF_SIZE)%nat -> files (hist w) = (don, Some (fd, c)) ->
    runs E (save fd data) w (fun n w' => n = len data /\ stays_main w w' /\
      exists d, entry data d /\ files (hist w') = (don, Some (fd, c ++ d)));
}.

(** A module's function inside the loop. *)
Lemma runs_embed {A} E enter leave (m : M mc T A) (w : world) (Q : A -> world -> Prop) :
  runs (fun B h c => E B (inj h ++ hist w) (Module c)) m (World (enter (loc w)) [])
    (fun a w' => Q a (World (leave (loc w') (loc w)) (inj (hist w') ++ hist w))) ->
  runs E (embed enter leave m) w Q.
Proof. apply runs_within. Qed.

(** ** How the reads are cut *)

Definition total (g : list (list Z)) : Z := len (concat g).
(** A file that has just reached the limit. *)
Definition full (limit : Z) (g : list (list Z)) : Prop :=
  exists g' b, g = g' ++ [b] /\ total g' < limit <= total g.
(** The groups of reads that the files hold: all are full but the last one,
    which may have been cut off by the end. *)
Definition cut (limit : Z) (bufs : list (list Z)) (groups : list (list (list Z))) : Prop :=
  exists gs last, groups = gs ++ (match last with [] => [] | _ => [last] end) /\
    concat gs ++ last = bufs /\ Forall (full limit) gs /\ total last < limit.

Lemma total_app g b : total (g ++ [b]) = total g + len b.
Proof. unfold total, len. rewrite concat_app, length_app. cbn [concat]. rewrite app_nil_r. lia. Qed.

Lemma total_nonneg g : 0 <= total g.
Proof. unfold total, len. lia. Qed.

(** ** The functions of main.c *)

Section Main.
Context (E : env (lsys mc)) (cfg : settings).

Definition mainok (s : gs T) : Prop := second_logfile s = -1 /\ third_logfile s = -1 /\
  second_logfile_suffix s = None /\ third_logfile_suffix s = None /\ g_donot_split_logfile s = 0 /\
  qlog_exit_requested s = 0 /\ length (s_logfile_List s) = 512%nat /\ 0 <= s_logfile_seq s.

Lemma stays_mainok w w' : stays_main w w' -> mainok (loc w) -> mainok (loc w').
Proof. by intros [[t ->] _]. Qed.

(** Code that leaves the files alone. *)
Definition hush {A} (m : L A) : Prop := forall w : world, mainok (loc w) ->
  runs E m w (fun _ w' => files (hist w') = files (hist w) /\ polls (hist w') = polls (hist w) /\
    mainok (loc w')).

Lemma hush_bind {A B} (m : L A) (k : A -> L B) : hush m -> (forall a, hush (k a)) -> hush (m ≫= k).
Proof.
  intros Hm Hk w Hw. apply runs_bind. eapply runs_mono; [by apply Hm|]. cbn beta.
  intros a w1 (Hf1 & Hp1 & Hw1). eapply runs_mono; [by apply Hk|]. cbn beta.
  intros b w2 (Hf2 & Hp2 & Hw2). split; [congruence|]. split; [congruence|done].
Qed.
Lemma hush_ret {A} (a : A) : hush (mret a).
Proof. intros w Hw. by apply runs_ret. Qed.
Lemma hush_call {A} (c : lsys mc A) : (forall a x, file_ev (Ev c a) x = x) ->
  (forall a h, polls (Ev c a :: h) = polls h) -> hush (call c).
Proof. intros Hf Hp w Hw. apply runs_call. cbn [loc hist]. split; [apply Hf|]. split; [apply Hp|done]. Qed.
Lemma hush_get {B} (k : gs T -> L B) : (forall s, mainok s -> hush (k s)) -> hush (get ≫= k).
Proof. intros Hk w Hw. apply runs_bind, runs_get. by apply Hk. Qed.
Lemma hush_modify (f : gs T -> gs T) : (forall s, mainok s -> mainok (f s)) -> hush (modify f).
Proof. intros Hf w Hw. apply runs_modify. cbn [loc hist]. split; [done|]. split; [done|]. by apply Hf. Qed.

Ltac hush1 :=
  match goal with
  | |- hush (get ≫= _) => apply hush_get; intros ? ?
  | |- hush (_ ≫= _) => apply hush_bind; [|intros ?]
  | |- hush (mret _) => apply hush_ret
  | |- hush (call _) => apply hush_call; intros; reflexivity
  | |- hush (if ?b then _ else _) => destruct b
  | |- hush (match ?o with _ => _ end) => destruct o
  end.
Ltac hushes := repeat hush1.

Context (Hdisk : tftp_server cfg = false /\ ftp_server cfg = false)
  (Hopen : forall h p, 0 < E _ h (Open p)) (Htime : forall h, is_Some (E _ h LocalTime))
  (Hnum : 0 <= s_logfile_num cfg <= 512).

Lemma remove_readable_hush p : hush (remove_readable p).
Proof. unfold remove_readable. hushes. Qed.

Lemma delete_old_hush dir suffix seq : 0 <= seq -> hush (delete_old cfg dir suffix seq).
Proof.
  intros Hseq. unfold delete_old. destruct (Z.eqb_spec (s_logfile_num cfg) 0) as [?|Hn]; [apply hush_ret|].
  apply hush_get. intros s Hs. pose proof Hs as (_ & _ & Hs2 & Hs3 & _ & _ & Hlen & _).
  pose proof (Z.mod_pos_bound seq (s_logfile_num cfg) ltac:(lia)).
  destruct (lookup_lt_is_Some_2 (s_logfile_List s) (Z.to_nat (seq mod s_logfile_num cfg)))
    as [old Hold]; [lia|]. rewrite Hold, Hs2, Hs3. intros w Hw. apply runs_bind.
  eapply runs_of_option; [reflexivity|]. revert w Hw. cbn beta.
  change (hush (match old with [] => mret tt | _ => 
    (let file (suffix : list Z) := dir ++ str "/" ++ old ++ suffix in
     remove_readable (file (str "." ++ suffix));; mret tt;; mret tt) end)).
  destruct old; [apply hush_ret|]. cbn zeta.
  apply hush_bind; [apply remove_readable_hush|intros _]. apply hush_bind; [apply hush_ret|intros _; apply hush_ret].
Qed.

Lemma time_name_runs type (w : world) : mainok (loc w) ->
  runs E (qlog_time_name type) w (fun t w' => is_Some t /\ files (hist w') = files (hist w) /\
    polls (hist w') = polls (hist w) /\ mainok (loc w')).
Proof.
  intros Hw. unfold qlog_time_name. apply runs_bind, runs_call. cbn [loc hist].
  destruct (Htime (hist w)) as [t Ht]. rewrite Ht. apply runs_bind.
  destruct (_ || _); [apply runs_call|apply runs_ret]; apply runs_ret; cbn [loc hist]; by eauto.
Qed.

Lemma shortname_hush seq : hush (shortname cfg seq).
Proof.
  assert (Hname : forall pre type dot, hush (
    t ← qlog_time_name type; t ← of_option t; mret (take 99 (pre ++ take 80 t ++ dot ++ dec0 4 seq)))).
  { intros pre type dot w Hw. apply runs_bind. eapply runs_mono; [by apply time_name_runs|]. cbn beta.
    intros t w1 ([t' ->] & H1 & H2 & H3). apply runs_bind. eapply runs_of_option; [reflexivity|].
    cbn beta. by apply runs_ret. }
  unfold shortname. cbn zeta. repeat (destruct (_ =? _); cbn [negb]); apply Hname.
Qed.

Lemma fullname_runs type name size dump (w : world) don : mainok (loc w) -> files (hist w) = (don, None) ->
  runs E (qlog_logfile_create_fullname cfg type name size dump) w (fun fd w' => 0 < fd /\
    files (hist w') = (don, Some (fd, [])) /\ polls (hist w') = polls (hist w) /\ mainok (loc w')).
Proof.
  intros Hw Hf. unfold qlog_logfile_create_fullname, is_tftp, is_ftp. destruct Hdisk as [-> ->].
  destruct (is_prefix _ _).
  - apply runs_call. cbn [loc hist files foldr file_ev]. fold (files (hist w)). rewrite Hf.
    split; [apply Hopen|]. split; [done|]. split; [done|done].
  - apply runs_bind, runs_call. cbn [loc hist]. apply runs_bind.
    assert (Hf1 : forall fd, files (Ev (Open name) fd :: hist w) = (don, Some (fd, []))).
    { intros fd. cbn [files foldr file_ev]. fold (files (hist w)). by rewrite Hf. }
    destruct dump; [apply runs_ret|apply runs_call]; apply runs_ret; cbn [loc hist];
      (split; [apply Hopen|]); (split; [apply Hf1|]); done.
Qed.

Lemma create_runs dir suffix seq (w : world) don : 0 <= seq -> mainok (loc w) ->
  files (hist w) = (don, None) ->
  runs E (qlog_logfile_create cfg dir suffix seq) w (fun fd w' => 0 < fd /\
    files (hist w') = (don, Some (fd, [])) /\ polls (hist w') = polls (hist w) /\ mainok (loc w')).
Proof.
  intros Hseq Hw Hf. unfold qlog_logfile_create. apply runs_bind.
  eapply runs_mono. { refine ((_ : hush _) w Hw). hushes. }
  cbn beta. intros _ w1 (Hf1 & Hp1 & Hw1). apply runs_bind.
  eapply runs_mono; [by apply delete_old_hush|]. cbn beta. intros _ w2 (Hf2 & Hp2 & Hw2). apply runs_bind.
  eapply runs_mono; [by apply shortname_hush|]. cbn beta. intros short w3 (Hf3 & Hp3 & Hw3). apply runs_bind.
  eapply runs_mono; [apply (fullname_runs _ _ _ _ _ don); [done|congruence]|]. cbn beta.
  intros fd w4 (Hfd & Hf4 & Hp4 & Hw4).
  assert (Hmod : hush (modify (fun s : gs T =>
    s <| g_compress_diag_file_name := dir ++ str "/" ++ short ++ str "." ++ suffix |>)))
    by (by apply hush_modify).
  assert (Hlist : hush (if s_logfile_num cfg =? 0 then mret tt else
       let idx := seq mod s_logfile_num cfg in
       modify (fun s : gs T => s <| s_logfile_idx := idx |>
                          <| s_logfile_List ::= <[Z.to_nat idx := take 98 short]> |>))).
  { destruct (_ =? 0); [apply hush_ret|]. cbn zeta. apply hush_modify.
    intros s (H1 & H2 & H3 & H4 & H5 & H6 & H7 & H8). repeat split; try done.
    change (length (<[Z.to_nat (seq mod s_logfile_num cfg) := take 98 short]> (s_logfile_List s)) = 512%nat).
    by rewrite length_insert. }
  assert (Hside : hush (create_second cfg dir short) /\ hush (create_third cfg dir short)).
  { split; apply hush_get; intros s (_ & _ & H2 & H3 & _); rewrite ?H2, ?H3; apply hush_ret. }
  apply runs_bind. eapply runs_mono; [by apply Hmod|]. cbn beta. intros _ w5 (Hf5 & Hp5 & Hw5).
  apply runs_bind. eapply runs_mono.
  { refine ((_ : hush (enqueue_name cfg _)) w5 Hw5). unfold enqueue_name. hushes. }
  cbn beta. intros _ w6 (Hf6 & Hp6 & Hw6).
  apply runs_bind. eapply runs_mono; [by apply Hlist|]. cbn beta. intros _ w7 (Hf7 & Hp7 & Hw7).
  apply runs_bind. eapply runs_mono; [by apply Hside|]. cbn beta. intros _ w8 (Hf8 & Hp8 & Hw8).
  apply runs_bind. eapply runs_mono; [by apply Hside|]. cbn beta. intros _ w9 (Hf9 & Hp9 & Hw9).
  apply runs_ret. split; [done|]. split; [congruence|]. split; [congruence|done].
Qed.

Lemma exit_hush : hush exit_requested.
Proof. unfold exit_requested. hushes. Qed.

Lemma safe_close_hush : hush safe_close_second /\ hush safe_close_third.
Proof.
  split; apply hush_get; intros s (H1 & H2 & _); [rewrite H1|rewrite H2]; apply hush_ret.
Qed.

Lemma close_file fd (w : world) don c : mainok (loc w) -> files (hist w) = (don, Some (fd, c)) ->
  runs E (qlog_logfile_close cfg fd) w (fun _ w' => files (hist w') = (don ++ [c], None) /\
    polls (hist w') = polls (hist w) /\ mainok (loc w')).
Proof.
  intros Hw Hf. unfold qlog_logfile_close.
  apply runs_bind. eapply runs_mono; [by apply exit_hush|]. cbn beta. intros e w1 (Hf1 & Hp1 & Hw1).
  apply runs_bind, runs_get. apply runs_bind. eapply runs_mono.
  { refine ((_ : hush _) w1 Hw1). destruct (_ && _); [|apply hush_ret]. cbn zeta.
    apply hush_bind; [|intros _; hushes]. unfold updataComressFilename.
    repeat (apply hush_bind; [|intros _]); apply hush_modify; intros s Hs;
      (match goal with |- mainok (if ?b then _ else _) => destruct b end); exact Hs. }
  cbn beta. intros _ w2 (Hf2 & Hp2 & Hw2). apply runs_bind. eapply runs_mono.
  { refine ((_ : hush _) w2 Hw2). hushes. }
  cbn beta. intros _ w3 (Hf3 & Hp3 & Hw3). apply runs_bind, runs_get. apply runs_bind. eapply runs_mono.
  { refine ((_ : hush _) w3 Hw3). hushes. }
  cbn beta. intros _ w4 (Hf4 & Hp4 & Hw4). apply runs_bind. eapply runs_mono; [by apply safe_close_hush|].
  cbn beta. intros _ w5 (Hf5 & Hp5 & Hw5). apply runs_bind, runs_get. apply runs_bind. eapply runs_mono.
  { refine ((_ : hush _) w5 Hw5). hushes. }
  cbn beta. intros _ w6 (Hf6 & Hp6 & Hw6). apply runs_bind. eapply runs_mono; [by apply safe_close_hush|].
  cbn beta. intros _ w7 (Hf7 & Hp7 & Hw7). apply runs_call. cbn [loc hist].
  split; [|split; [cbn [polls]; congruence|done]].
  cbn [files foldr file_ev]. fold (files (hist w7)).
  replace (files (hist w7)) with (don, Some (fd, c)) by congruence. cbn [fst snd]. by rewrite Z.eqb_refl.
Qed.

(** ** The loop over one port *)

Section Loop.
Context (suffix : list Z) (ops : qlog_ops_t mc T) (dmfd : Z)
  (crashed : (Z -> list Z -> L Z) -> Z -> Z -> list Z -> L (list Z * bool))
  (init : Z -> Z -> L Z) (logsave : Z -> list Z -> L Z) {ML : ModuleLog E init logsave}
  (bufs : list (list Z)).
Abbreviation h := (one_port cfg suffix ops dmfd crashed).

Definition limit : Z := args_logfile_sz cfg.
Context (Hdm : dmfd <> -1) (Hsz : 0 < limit < 2 ^ 31)
  (Hbufs : Forall (fun b => b <> [] /\ (length b <= QLOG_BUF_SIZE)%nat) bufs)
  (Hpoll : forall h, E _ h (PollReadFds [dmfd] (Z.of_nat QLOG_BUF_SIZE) 30000) =
     option_map (fun b => (dmfd, b)) (bufs !! polls h))
  (Hsig : forall h, E _ h SignalledExit = false)
  (Hcrash : forall b rb (w : world), b ∈ bufs -> mainok (loc w) -> length rb = QLOG_BUF_SIZE ->
     take (length b) rb = b ->
     runs E (crashed logsave dmfd (len b) rb) w (fun r w' => r = (rb, false) /\
       files (hist w') = files (hist w) /\ polls (hist w') = polls (hist w) /\ mainok (loc w'))).

(** The file holds an entry for each of the reads. *)
Definition holds_reads (g : list (list Z)) (c : list Z) : Prop :=
  exists ds, Forall2 entry g ds /\ c = concat ds.

Lemma holds_reads_app g c b d : holds_reads g c -> entry b d -> holds_reads (g ++ [b]) (c ++ d).
Proof.
  intros (ds & H & ->) Hd. exists (ds ++ [d]). split; [by apply Forall2_app; [|apply Forall2_cons; split]|].
  rewrite concat_app. cbn [concat]. by rewrite app_nil_r.
Qed.

Lemma QLOG_val : Z.of_nat QLOG_BUF_SIZE = 65536.
Proof. by apply Z2Nat.id. Qed.

(** The file of the current reads, none before the first. *)
Definition current (don : list (list Z)) (cur : list (list Z)) (fd : Z) (f : store) : Prop :=
  (cur = [] /\ fd = -1 /\ f = (don, None)) \/
  (cur <> [] /\ 0 < fd /\ exists c, f = (don, Some (fd, c)) /\ holds_reads cur c).

Lemma exit_runs (w : world) : mainok (loc w) -> runs E exit_requested w (fun e w' => e = false /\
  files (hist w') = files (hist w) /\ polls (hist w') = polls (hist w) /\ mainok (loc w')).
Proof.
  intros Hw. unfold exit_requested. apply runs_bind, runs_get, runs_bind, runs_call, runs_ret. cbn [loc hist].
  rewrite Hsig. pose proof Hw as (_ & _ & _ & _ & _ & -> & _). done.
Qed.

Lemma open_runs don cur fd (w : world) : mainok (loc w) -> current don cur fd (files (hist w)) ->
  runs E (open_logfile cfg h (qlog_logfile_create cfg) (Some init) fd) w (fun r w' =>
    r.2 = true /\ 0 < r.1 /\ polls (hist w') = polls (hist w) /\ mainok (loc w') /\
    exists c, files (hist w') = (don, Some (r.1, c)) /\ holds_reads cur c).
Proof.
  intros Hw Hc. unfold open_logfile. destruct Hc as [(-> & -> & Hf)|(_ & Hfd & c & Hf & Hr)].
  - change (-1 =? -1) with true. cbn [negb]. apply runs_bind, runs_get. apply runs_bind.
    eapply runs_mono; [by apply (create_runs _ _ _ _ don); [apply Hw|..]|]. cbn beta.
    intros fd w1 (Hfd & Hf1 & Hp1 & Hw1). rewrite (proj2 (Z.leb_gt fd 0)) by done.
    apply runs_bind, runs_bind, runs_get, runs_bind.
    eapply runs_mono; [by apply (init_law fd _ _ don)|]. cbn beta. intros _ w2 (Hf2 & Hst).
    pose proof (stays_mainok _ _ Hst Hw1) as Hw2. destruct Hst as [_ Hp2].
    apply runs_modify, runs_ret. cbn [loc hist fst snd]. split; [done|]. split; [done|].
    split; [congruence|]. split.
    { destruct Hw2 as (H1 & H2 & H3 & H4 & H5 & H6 & H7 & H8). repeat split; try done.
      apply Z.mod_pos_bound. done. }
    exists []. split; [done|]. exists []. split; [constructor|done].
  - rewrite (proj2 (Z.eqb_neq fd (-1))) by lia. cbn [negb]. apply runs_ret. cbn [fst snd].
    split; [done|]. split; [done|]. split; [done|]. split; [done|]. by exists c.
Qed.

Lemma u64_in_range z : 0 <= z < 2 ^ 64 -> u64 z = z.
Proof. intros H. unfold u64. by rewrite Z.mod_small. Qed.

Lemma save_read_runs fd data cur don c rb (w : world) : mainok (loc w) -> 0 < fd -> data <> [] ->
  (length data <= QLOG_BUF_SIZE)%nat -> total cur < limit ->
  files (hist w) = (don, Some (fd, c)) -> holds_reads cur c ->
  runs E (save_read h logsave (qlog_logfile_close cfg) dmfd data (LoopSt fd (Sizes (total cur) 0 0) rb)) w
    (fun r w' => polls (hist w') = polls (hist w) /\ mainok (loc w') /\
      exists c', holds_reads (cur ++ [data]) c' /\
      if limit <=? total (cur ++ [data]) then
        r = inl (LoopSt (-1) (Sizes 0 0 0) rb) /\ files (hist w') = (don ++ [c'], None)
      else r = inl (LoopSt fd (Sizes (total (cur ++ [data])) 0 0) rb) /\
        files (hist w') = (don, Some (fd, c'))).
Proof.
  intros Hw Hfd Hd Hlen Htot Hf Hr. unfold save_read. cbn [save one_port logfile_fd sz rbuf].
  pose proof QLOG_val. pose proof (total_nonneg cur). pose proof (total_app cur data) as Hta.
  assert (0 <= len data <= 65536) by (unfold len; lia).
  apply runs_bind. unfold save_dm. rewrite Z.eqb_refl. apply runs_bind.
  eapply runs_mono; [by apply (save_law fd data w don c)|]. cbn beta.
  intros n w1 (-> & Hst & d & He & Hf1). apply runs_ret.
  pose proof (stays_mainok _ _ Hst Hw) as Hw1. destruct Hst as [_ Hp1].
  replace (s64 (len data)) with (len data) by (unfold s64; rewrite Z.mod_small; lia).
  rewrite Z.eqb_refl. cbn [negb savelog_size_dm savelog_size_general savelog_size_third].
  unfold plus. rewrite <-Hta, u64_in_range by lia.
  apply runs_bind. unfold one_port, split. unfold split_total. apply runs_bind, runs_get.
  cbn [savelog_size_dm savelog_size_general savelog_size_third].
  pose proof Hw1 as (_ & _ & _ & _ & -> & _ & _ & _). change (0 =? 0) with true.
  rewrite !Z.add_0_r, u64_in_range, andb_true_r by lia. unfold logfile_size. fold limit.
  rewrite u64_in_range by lia. apply runs_ret.
  pose proof (holds_reads_app _ _ _ _ Hr He) as Hr1.
  destruct (limit <=? total (cur ++ [data])) eqn:Hfull.
  - apply runs_bind. eapply runs_mono; [by apply (close_file fd w1 don (c ++ d))|]. cbn beta.
    intros _ w2 (Hf2 & Hp2 & Hw2). apply runs_bind. cbn [after_close]. apply runs_ret, runs_ret.
    split; [congruence|]. split; [exact Hw2|]. exists (c ++ d). split; [exact Hr1|]. split; [reflexivity|exact Hf2].
  - apply runs_ret. split; [exact Hp1|]. split; [exact Hw1|]. exists (c ++ d). split; [exact Hr1|].
    split; [reflexivity|exact Hf1].
Qed.

(** The reads so far: groups that are finished files, and those of the current
    file. *)
Definition captured (done0 : list (list Z)) (gs : list (list (list Z))) (cur : list (list Z))
    (fd : Z) (w : world) : Prop :=
  mainok (loc w) /\ Forall (full limit) gs /\ total cur < limit /\ exists don, Forall2 holds_reads gs don /\
  current (done0 ++ don) cur fd (files (hist w)).

Definition loop_inv (done0 : list (list Z)) (a : loop_st) (w : world) : Prop :=
  exists gs cur rest, concat gs ++ cur ++ rest = bufs /\ captured done0 gs cur (logfile_fd a) w /\
    polls (hist w) = length (concat gs ++ cur) /\
    sz a = Sizes (total cur) 0 0 /\ length (rbuf a) = QLOG_BUF_SIZE.

Lemma put_front_take data rb : (length data <= length rb)%nat ->
  length (put 0 data rb) = length rb /\ take (length data) (put 0 data rb) = data.
Proof.
  intros H. split; [by apply length_put|]. rewrite put0. by apply take_app_length.
Qed.

Lemma turn_runs done0 a (w : world) : loop_inv done0 a w ->
  runs E (capture_turn cfg h (qlog_logfile_create cfg) (Some init) logsave (qlog_logfile_close cfg) a) w
    (fun r w' => match r with
     | inl a' => loop_inv done0 a' w' /\ (length bufs - polls (hist w') < length bufs - polls (hist w))%nat
     | inr fd => exists gs cur, concat gs ++ cur = bufs /\ captured done0 gs cur fd w'
     end).
Proof.
  intros (gs & cur & rest & Hb & (Hw & Hg & Ht & don & Hdon & Hcur) & Hp & Hs & Hrb). unfold capture_turn.
  apply runs_bind. eapply runs_mono; [by apply exit_runs|]. cbn beta. intros e w1 (-> & Hf1 & Hp1 & Hw1).
  cbn [one_port ports]. rewrite (proj2 (Z.eqb_neq dmfd (-1))) by done.
  assert (Hlook : bufs !! polls (hist w1) = rest !! 0%nat).
  { by rewrite Hp1, Hp, <-Hb, app_assoc, lookup_app_r, Nat.sub_diag by lia. }
  apply runs_bind, runs_call. cbn [loc hist]. rewrite Hpoll, Hlook.
  set (w2 := World _ _). assert (Hw2 : mainok (loc w2)) by exact Hw1.
  assert (Hf2 : files (hist w2) = files (hist w)) by (rewrite <-Hf1; reflexivity).
  assert (Hp2 : polls (hist w2) = S (length (concat gs ++ cur))) by (cbn [w2 hist polls]; congruence).
  destruct rest as [|data rest]; cbn [lookup list_lookup option_map].
  { apply runs_bind. eapply runs_mono; [by apply exit_runs|]. cbn beta. intros e w3 (-> & Hf3 & Hp3 & Hw3).
    apply runs_bind, runs_modify, runs_ret. cbn [loc hist].
    rewrite app_nil_r in Hb. exists gs, cur. split; [exact Hb|].
    split; [exact Hw3|]. split; [exact Hg|]. split; [exact Ht|]. exists don. split; [exact Hdon|].
    cbn [hist]. rewrite Hf3, Hf2. exact Hcur. }
  assert (Hin : data ∈ bufs).
  { rewrite <-Hb. apply elem_of_app. right. apply elem_of_app. right. by left. }
  rewrite Forall_forall in Hbufs. destruct (Hbufs data Hin) as [Hne Hlen].
  destruct (put_front_take data (rbuf a) ltac:(lia)) as [Hl1 Hl2].
  apply runs_bind. eapply runs_of_option; [apply wr_fits; cbn [Nat.add]; lia|]. cbn beta.
  set (rb := put 0 data (rbuf a)) in *.
  apply runs_bind. eapply runs_mono; [by apply (Hcrash data rb w2); try congruence|]. cbn beta.
  intros r w3 (-> & Hf3 & Hp3 & Hw3). cbn beta iota.
  apply runs_bind, runs_modify. cbn [loc hist]. set (w4 := World _ _).
  assert (Hw4 : mainok (loc w4)) by exact Hw3.
  apply runs_bind. eapply runs_mono.
  { apply (open_runs (done0 ++ don) cur (logfile_fd a) w4 Hw4). cbn [w4 hist]. by rewrite Hf3, Hf2. }
  cbn beta. intros [fd ok] w5 (Hok & Hfd & Hp5 & Hw5 & c & Hf5 & Hr5). cbn [fst snd] in *. subst ok. cbn [negb].
  apply runs_bind. eapply runs_of_option.
  { apply rd_bytes_fits. by rewrite Nat.add_0_l, Hl1, Hrb. }
  cbn beta. replace (slice 0 (length data) rb) with data by (unfold slice; rewrite drop_0; congruence).
  rewrite Hs. eapply runs_mono; [by apply (save_read_runs fd data cur (done0 ++ don) c rb w5)|]. cbn beta.
  intros r w6 (Hp6 & Hw6 & c' & Hr6 & Hx).
  assert (Hp6' : polls (hist w6) = S (length (concat gs ++ cur))).
  { rewrite Hp6, Hp5. cbn [w4 hist]. rewrite Hp3. exact Hp2. }
  assert (Hlb : (length (concat gs ++ cur) < length bufs)%nat).
  { rewrite <-Hb, !length_app. cbn [length]. lia. }
  pose proof (total_app cur data) as Hta.
  destruct (Z.leb_spec limit (total (cur ++ [data]))) as [Hfull|Hfull]; destruct Hx as [-> Hf6].
  - split; [|rewrite Hp6', Hp; lia]. exists (gs ++ [cur ++ [data]]), [], rest.
    split; [rewrite concat_app; cbn [concat]; rewrite app_nil_r, <-!app_assoc; exact Hb|]. split.
    { split; [exact Hw6|]. split.
      { apply Forall_app. split; [exact Hg|]. apply Forall_singleton. by exists cur, data. }
      split; [unfold total, len; cbn; lia|]. exists (don ++ [c']).
      split; [apply Forall2_app; [exact Hdon|by constructor]|]. left. rewrite app_assoc. by rewrite Hf6. }
    split; [|split; [reflexivity|cbn [rbuf]; congruence]].
    rewrite Hp6', concat_app. cbn [concat]. rewrite !app_nil_r, !length_app. cbn [length]. lia.
  - split; [|rewrite Hp6', Hp; lia]. exists gs, (cur ++ [data]), rest.
    split; [rewrite <-app_assoc; exact Hb|]. split.
    { split; [exact Hw6|]. split; [exact Hg|]. split; [exact Hfull|]. exists don.
      split; [exact Hdon|]. right. split; [by destruct cur|]. split; [exact Hfd|]. by exists c'. }
    split; [|split; [reflexivity|cbn [rbuf]; congruence]]. rewrite Hp6', !length_app. cbn [length]. lia.
Qed.

(** ** The handler *)

Context (Hops : logfile_create ops = None /\ logfile_init ops = Some init /\
    logfile_save ops = Some logsave /\ logfile_close ops = None)
  (Hlocal : is_tty2tcp cfg = false /\ is_tcp_client cfg = false)
  (Hmem : forall h n, is_Some (E _ h (Malloc n))) (Hthread : forall h fd, E _ h (StartFilterThread fd) = true).

Lemma handle_runs tty fuel done0 (w : world) : (length bufs < fuel)%nat -> mainok (loc w) ->
  polls (hist w) = 0%nat -> files (hist w) = (done0, None) ->
  runs E (handle cfg tty fuel h) w (fun r w' => r = 0 /\
    exists groups contents, cut limit bufs groups /\ Forall2 holds_reads groups contents /\
      files (hist w') = (done0 ++ contents, None)).
Proof.
  intros Hfuel Hw Hp Hf. unfold handle. destruct Hops as (Hc & Hi & Hs & Hcl). destruct Hlocal as [-> ->].
  apply runs_bind, runs_ret, runs_bind, runs_ret. change (module_ops h) with ops.
  rewrite Hc, Hi, Hs, Hcl. apply runs_bind, runs_ret. cbn [default].
  apply runs_bind, runs_call. cbn [loc hist].
  destruct (Hmem (hist w) (Z.of_nat QLOG_BUF_SIZE)) as [m Hm]. rewrite Hm.
  apply runs_bind, runs_call. cbn [loc hist]. rewrite Hthread. cbn [negb].
  apply runs_bind, runs_get. cbn [loc hist]. set (w1 := World _ _). assert (Hw1 : mainok (loc w1)) by exact Hw.
  apply runs_bind. eapply runs_mono.
  { refine ((_ : hush _) w1 Hw1). destruct (_ =? 0); [apply hush_ret|].
    apply hush_bind; [hushes|intros _]. by apply hush_modify. }
  cbn beta. intros _ w2 (Hf2 & Hp2 & Hw2).
  assert (Hf2' : files (hist w2) = (done0, None)) by (rewrite Hf2; exact Hf).
  assert (Hp2' : polls (hist w2) = 0%nat) by (rewrite Hp2; exact Hp).
  apply runs_bind. eapply runs_mono.
  { apply (runs_iterM E _ (loop_inv done0) (fun _ w' => length bufs - polls (hist w'))%nat
      (fun fd w' => exists gs cur, concat gs ++ cur = bufs /\ captured done0 gs cur fd w')).
    - intros a w' Ha. eapply runs_mono; [by apply (turn_runs done0)|]. cbn beta. by intros [a'|fd] w''.
    - exists [], [], bufs. split; [done|]. split; [|split; [by rewrite Hp2'|split; [done|]]].
      + split; [exact Hw2|]. split; [constructor|]. split; [unfold total, len; cbn; lia|].
        exists []. split; [constructor|]. left. by rewrite app_nil_r.
      + cbn [rbuf]. by rewrite length_map, length_seq.
    - lia. }
  cbn beta. intros fd w3 (gs & cur & Hb & Hw3 & Hg & Ht & don & Hdon & Hcur).
  apply runs_bind. eapply (runs_mono E _ w3 (fun _ w4 => mainok (loc w4) /\
    exists groups contents, cut limit bufs groups /\ Forall2 holds_reads groups contents /\
      files (hist w4) = (done0 ++ contents, None))).
  { destruct Hcur as [(-> & -> & Hf3)|(Hne & Hfd & c & Hf3 & Hr)].
    - change (-1 =? -1) with true. apply runs_ret. split; [exact Hw3|]. exists gs, don.
      split; [|by split]. exists gs, []. rewrite !app_nil_r in *. done.
    - rewrite (proj2 (Z.eqb_neq fd (-1))) by lia. apply runs_bind.
      eapply runs_mono; [by apply (close_file fd w3 (done0 ++ don) c)|]. cbn beta.
      intros _ w4 (Hf4 & _ & Hw4). apply runs_ret. split; [exact Hw4|]. exists (gs ++ [cur]), (don ++ [c]).
      split; [exists gs, cur; by destruct cur|]. split; [by apply Forall2_app; [|constructor]|].
      by rewrite app_assoc. }
  cbn beta. intros _ w4 (Hw4 & groups & contents & Hcut & Hall & Hf4).
  apply runs_bind. eapply runs_mono; [by apply exit_runs|]. cbn beta. intros e w5 (-> & Hf5 & Hp5 & Hw5).
  apply runs_bind. eapply (runs_mono E _ w5 (fun _ w6 => w6 = w5)).
  { by destruct (clean_filter ops); apply runs_ret. }
  cbn beta. intros _ ? ->. apply runs_bind, runs_ret, runs_bind, runs_call, runs_ret. cbn [loc hist].
  split; [done|]. exists groups, contents. split; [exact Hcut|]. split; [exact Hall|].
  rewrite <-Hf4, <-Hf5. reflexivity.
Qed.
End Loop.
End Main.
End Files.

(** ** The modules that keep the promise *)

Definition mtk_saved (A : Type) (c : Mtk.ksys A) : option (Z * list Z) :=
  match c with Mtk.LogfileSave fd b => Some (fd, b) | _ => None end.

Definition eigen_saved (A : Type) (c : Eigen.esys A) : option (Z * list Z) :=
  match c with Eigen.LogfileSave fd b => Some (fd, b) | _ => None end.

Section MtkLog.
Context (E : env (lsys Mtk.ksys)) (Hsave : forall h fd b, E _ h (Module (Mtk.LogfileSave fd b)) = len b).

(** The log of a MediaTek module is what was read. *)
#[export] Instance mtk_log : ModuleLog mtk_saved E
    (fun fd seq => in_mtk (Mtk.mtk_logfile_init fd seq)) (fun fd data => in_mtk (Mtk.mtk_logfile_save fd data)).
Proof.
  refine {| entry := fun data d => d = data |}.
  - intros fd seq w don Hf. apply runs_embed, runs_ret. cbn [loc hist inj relabel map app].
    split; [exact Hf|]. split; [by eexists|done].
  - intros fd data w don c Hfd Hd Hlen Hf. apply runs_embed. unfold Mtk.mtk_logfile_save.
    destruct data as [|b data]; [done|]. rewrite (proj2 (Z.leb_gt fd 0)) by done.
    apply runs_call. cbn [loc hist]. split; [apply Hsave|]. split; [split; [by eexists|done]|].
    exists (b :: data). split; [done|].
    rewrite (files_inj mtk_saved _ _ _ _ _ Hf). cbn [saved mtk_saved app]. by rewrite Z.eqb_refl.
Defined.
End MtkLog.

Section EigenLog.
Context (E : env (lsys Eigen.esys)) (Hsave : forall h fd b, E _ h (Module (Eigen.LogfileSave fd b)) = len b).

(** A read with the time stamp in front. *)
Definition stamped (data d : list Z) : Prop := exists t, length t = 16%nat /\
  d = Eigen.eigen_log_time_start ++ t ++ Eigen.eigen_log_time_end ++ data.

Lemma time_stamp_runs (E' : env Eigen.esys) (w : world Eigen.esys Eigen.es) fd :
  runs E' Eigen.qlog_eigen_time_stamp w (fun t w' => length t = 16%nat /\ loc w' = loc w /\
    saved eigen_saved fd (hist w') = saved eigen_saved fd (hist w)).
Proof.
  unfold Eigen.qlog_eigen_time_stamp. apply runs_bind, runs_call. cbn [loc hist].
  destruct (E' _ _ Eigen.LocalTime) as [t|].
  - apply runs_bind, runs_call. cbn [loc hist]. destruct (E' _ _ Eigen.Gettimeofday) as [sec usec].
    apply runs_ret. cbn [loc hist saved eigen_saved]. by rewrite !app_nil_r.
  - apply runs_ret. cbn [loc hist saved eigen_saved]. by rewrite app_nil_r.
Qed.

Lemma leave_eigen (s : gs Eigen.es) (t : Eigen.es) : Eigen.qlog_exit_requested t = qlog_exit_requested s ->
  s <| modst := t |> <| qlog_exit_requested := Eigen.qlog_exit_requested t |> = s <| modst := t |>.
Proof. intros ->. by destruct s. Qed.

#[export] Instance eigen_log : ModuleLog eigen_saved E
    (fun _ _ => in_eigen Eigen.eigen_logfile_init) (fun fd data => in_eigen (Eigen.eigen_logfile_save fd data)).
Proof.
  refine {| entry := stamped |}.
  - intros fd seq w don Hf. apply runs_embed, runs_ret. cbn [loc hist inj relabel map app].
    split; [exact Hf|]. split; [|done]. eexists. by apply leave_eigen.
  - intros fd data w don c Hfd Hd Hlen Hf. apply runs_embed. unfold Eigen.eigen_logfile_save.
    destruct data as [|b data]; [done|]. rewrite (proj2 (Z.leb_gt fd 0)) by done.
    set (E' := fun _ _ _ => _). set (w0 := World _ _).
    apply runs_bind. eapply runs_mono; [apply (time_stamp_runs E' w0 fd)|]. cbn beta.
    intros t w1 (Ht & Hl & Hs). apply runs_bind, runs_call. cbn [loc hist]. apply runs_bind, runs_call.
    apply runs_ret. cbn [loc hist].
    split; [|split; [split|]].
    + unfold E'. rewrite Hsave. apply u64_in_range. pose proof QLOG_val. unfold len. lia.
    + exists (loc w1). rewrite Hl. by apply leave_eigen.
    + apply polls_inj.
    + exists (Eigen.eigen_log_time_start ++ t ++ Eigen.eigen_log_time_end ++ b :: data).
      split; [by exists t|]. rewrite (files_inj eigen_saved _ _ _ _ _ Hf).
      cbn [saved eigen_saved]. rewrite Hs, Z.eqb_refl. do 3 f_equal. cbn [w0 hist saved app].
      by rewrite <-!app_assoc.
Defined.
End EigenLog.

(** ** The handlers *)

(** What the disk, the clock, the port and the threads answer. *)
Record quiet_system {mc} (E : env (lsys mc)) (cfg : settings) (dmfd : Z) (bufs : list (list Z)) : Prop := {
  qs_disk : tftp_server cfg = false /\ ftp_server cfg = false;
  qs_local : is_tty2tcp cfg = false /\ is_tcp_client cfg = false;
  qs_num : 0 <= s_logfile_num cfg <= 512;
  qs_size : 0 < limit cfg < 2 ^ 31;
  qs_open : forall h p, 0 < E _ h (Open p);
  qs_time : forall h, is_Some (E _ h LocalTime);
  qs_mem : forall h n, is_Some (E _ h (Malloc n));
  qs_thread : forall h fd, E _ h (StartFilterThread fd) = true;
  qs_signal : forall h, E _ h SignalledExit = false;
  qs_port : dmfd <> -1;
  qs_reads : Forall (fun b => b <> [] /\ (length b <= QLOG_BUF_SIZE)%nat) bufs;
  qs_poll : forall h, E _ h (PollReadFds [dmfd] (Z.of_nat QLOG_BUF_SIZE) 30000) =
    option_map (fun b => (dmfd, b)) (bufs !! polls h);
}.

(** The handler of a MediaTek module, until the port closes, saves every
    read once and in order; the files hold just what was read, and a new one
    begins after the read that brings a file to its size. *)
Theorem mtk_capture_exact (E : env (lsys Mtk.ksys)) cfg tty fuel dmfd bufs w :
  quiet_system E cfg dmfd bufs -> (forall h fd b, E _ h (Module (Mtk.LogfileSave fd b)) = len b) ->
  (length bufs < fuel)%nat -> mainok (loc w) -> hist w = [] ->
  runs E (message_handle_mtk cfg tty fuel dmfd) w (fun r w' => r = 0 /\
    exists groups, cut (limit cfg) bufs groups /\
      files mtk_saved (hist w') = (map (@concat Z) groups, None)).
Proof.
  intros [] Hsave Hfuel Hw Hh.
  eapply runs_mono.
  { apply (handle_runs mtk_saved E cfg qs_disk0 qs_open0 qs_time0 qs_num0 (str "muxraw") (mtk_qlog_ops) dmfd
      not_crashed _ _ (ML := mtk_log E Hsave) bufs); try assumption; [|by repeat split|by rewrite Hh..].
    intros b rb w1 _ Hw1 _ _. by apply runs_ret. }
  cbn beta. intros r w' (-> & groups & contents & Hcut & Hall & Hf). split; [done|]. exists groups.
  split; [exact Hcut|]. rewrite Hf. cbn [app]. f_equal.
  clear -Hall. induction Hall as [|g c gs cs (ds & Hds & ->) Hall IH]; [done|]. cbn [map]. f_equal; [|done].
  f_equal. clear -Hds. induction Hds as [|b d bs ds Hbd Hds IH]; [done|]. cbn in Hbd. by subst.
Qed.

(** C15: The handler of an Eigen module that does not crash, until the port
    closes, saves every read once and in order, each behind a time stamp of 32
    bytes; a new file begins after the read that brings a file to its size. *)
Theorem eigen_capture_exact (E : env (lsys Eigen.esys)) cfg tty dump_fuel fuel dmfd bufs w :
  quiet_system E cfg dmfd bufs -> (forall h fd b, E _ h (Module (Eigen.LogfileSave fd b)) = len b) ->
  g_is_eigen_chip cfg = 1 \/ g_is_eigen_chip cfg = 2 ->
  Forall (fun b => Eigen.in_ramdump (g_is_eigen_chip cfg) b = false) bufs ->
  (length bufs < fuel)%nat -> mainok (loc w) -> hist w = [] ->
  runs E (message_handle_eigen cfg dump_fuel tty fuel dmfd) w (fun r w' => r = 0 /\
    exists groups contents, cut (limit cfg) bufs groups /\
      Forall2 (fun g c => exists ds, Forall2 stamped g ds /\ c = concat ds) groups contents /\
      files eigen_saved (hist w') = (contents, None)).
Proof.
  intros [] Hsave Hchip Hcalm Hfuel Hw Hh.
  eapply runs_mono; [apply (handle_runs eigen_saved E cfg qs_disk0 qs_open0 qs_time0 qs_num0 (str "bin")
      eigen_qlog_ops dmfd (eigen_crashed cfg dump_fuel) _ _ (ML := eigen_log E Hsave) bufs);
    try assumption; [|by repeat split|by rewrite Hh..]|].
  2: { cbn beta. intros r w' (-> & groups & contents & Hcut & Hall & Hf). split; [done|].
       exists groups, contents. split; [exact Hcut|]. split; [|by rewrite Hf].
       eapply Forall2_impl; [exact Hall|]. intros g c (ds & Hds & ->). by exists ds. }
  intros b rb w1 Hb Hw1 Hrb Htake. unfold eigen_crashed.
  rewrite (proj2 (Z.eqb_neq (g_is_eigen_chip cfg) 0)) by lia.
  assert (Hlen : (length b <= length rb)%nat) by (rewrite <-Htake, length_take; lia).
  apply runs_bind. eapply runs_of_option.
  { apply rd_bytes_fits. unfold len. rewrite Nat2Z.id. exact Hlen. }
  cbn beta. replace (slice 0 (Z.to_nat (len b)) rb) with b
    by (unfold slice, len; rewrite Nat2Z.id, drop_0; congruence).
  rewrite Forall_forall in Hcalm. apply runs_bind, runs_embed. unfold Eigen.enigen_catch_dump.
  rewrite (Hcalm b Hb). replace ((g_is_eigen_chip cfg =? 1) || (g_is_eigen_chip cfg =? 2)) with true
    by (destruct Hchip as [-> | ->]; reflexivity).
  cbn [andb negb]. apply runs_ret. cbn [loc hist inj relabel map app]. unfold caught. change (0 =? 0) with true.
  apply runs_bind, runs_ret, runs_ret. cbn [loc hist].
  split; [reflexivity|]. split; [reflexivity|]. split; [reflexivity|].
  rewrite leave_eigen by reflexivity. exact Hw1.
Qed.

(** ** Witnesses *)

Definition capture_settings (eigen mtk : Z) : settings :=
  Settings false false 0 0 (str "/log") 6 512 0 0 0 0 0 mtk eigen 4 false false false 1 0 0.
Definition capture_gs {T} (t : T) : gs T :=
  Gs (replicate 512 []) 0 0 (-1) (-1) None None [] [] [] [] [] [] 0 0 0 0 0 0 0 0 0 0 t.
Definition capture_tm : tm := Tm 124 4 17 12 30 5.

(** A disk where all goes well; the port brings [bufs] and closes. *)
Definition capture_env {mc : Type -> Type} (module_env : forall A, mc A -> A) (bufs : list (list Z)) : env (lsys mc) :=
  fun A h c => match c in lsys _ B return B with
  | Module m => module_env _ m
  | Open _ => 3
  | FileSize _ => None
  | TftpWriteRequest _ _ => -1
  | FtpWriteRequest _ _ => -1
  | TcpClientCreate _ _ _ => -1
  | KfifoAlloc _ => tt
  | KfifoFree _ => tt
  | Close _ => 0
  | Readable _ => false
  | Remove _ => tt
  | LocalTime => Some capture_tm
  | MonotonicNsec => 0
  | CheckWorkDirSize _ => tt
  | CreateQueue => true
  | Enqueue _ => tt
  | DestroyQueue => tt
  | LogfileSave _ b => len b
  | StartCompressThread _ => tt
  | System _ => 0
  | SignalledExit => false
  | PollReadFds _ _ _ => option_map (fun b => (7, b)) (bufs !! polls h)
  | Malloc _ => Some (fun _ => 0)
  | StartFilterThread _ => true
  | JoinFilterThread => tt
  | SendCfun => 0
  | Sleep _ => tt
  end.

Lemma capture_quiet {mc} (module_env : forall A, mc A -> A) eigen mtk bufs :
  Forall (fun b => b <> [] /\ (length b <= QLOG_BUF_SIZE)%nat) bufs ->
  quiet_system (capture_env module_env bufs) (capture_settings eigen mtk) 7 bufs.
Proof. intros H. constructor; try done; try (by eexists); unfold limit; cbn; lia. Qed.

Lemma capture_mainok {T} (t : T) : mainok (capture_gs t).
Proof. by repeat split. Qed.

Definition capture_bufs : list (list Z) := [[1; 2; 3]; [4; 5; 6; 7]; [8]; [0x22; 9]].
Lemma capture_bufs_ok : Forall (fun b => b <> [] /\ (length b <= QLOG_BUF_SIZE)%nat) capture_bufs.
Proof.
  pose proof QLOG_val. unfold capture_bufs.
  repeat (apply Forall_cons_2; [split; [done|cbn [length]; lia]|]). by apply Forall_nil_2.
Qed.

Definition no_tty {mc T} : qlog_ops_t mc T := Ops None None None None None.

Definition mtk_env (A : Type) (c : Mtk.ksys A) : A :=
  match c in Mtk.ksys B return B with
  | Mtk.PollWrite _ b _ => len b
  | Mtk.StatSize _ => 0
  | Mtk.Malloc _ => None
  | Mtk.Open _ => -1
  | Mtk.Read _ _ => None
  | Mtk.Close _ => tt
  | Mtk.LogfileSave _ b => len b
  end.
Definition eigen_env (A : Type) (c : Eigen.esys A) : A :=
  match c in Eigen.esys B return B with
  | Eigen.PollWrite _ b _ => len b
  | Eigen.PollRead _ _ _ => None
  | Eigen.PollOut _ => 0
  | Eigen.SetTermios _ => tt
  | Eigen.Flush _ => tt
  | Eigen.Usleep _ => tt
  | Eigen.LogfileSave _ b => len b
  | Eigen.LogfileCreateFullname _ _ _ _ => -1
  | Eigen.Close _ => tt
  | Eigen.MakeDir _ => tt
  | Eigen.EnoughSpace _ _ => false
  | Eigen.TimeName => []
  | Eigen.LocalTime => Some (Eigen.Tm 124 4 5 17 12 30 5)
  | Eigen.Gettimeofday => (0, 0)
  end.

Lemma mtk_capture_exact_witness :
  runs (capture_env mtk_env capture_bufs) (message_handle_mtk (capture_settings 0 1) no_tty 10 7)
    (World (capture_gs tt) []) (fun r w' => r = 0 /\ exists groups, cut 6 capture_bufs groups /\
      files mtk_saved (hist w') = (map (@concat Z) groups, None)).
Proof.
  apply (mtk_capture_exact (capture_env mtk_env capture_bufs) (capture_settings 0 1) no_tty 10 7 capture_bufs);
    [apply capture_quiet, capture_bufs_ok|done|cbn; lia|apply capture_mainok|done].
Defined.

Lemma eigen_capture_exact_witness :
  runs (capture_env eigen_env capture_bufs) (message_handle_eigen (capture_settings 1 0) 10 no_tty 10 7)
    (World (capture_gs (Eigen.Es [] 0 (-1) 7 0)) []) (fun r w' => r = 0 /\
    exists groups contents, cut 6 capture_bufs groups /\
      Forall2 (fun g c => exists ds, Forall2 stamped g ds /\ c = concat ds) groups contents /\
      files eigen_saved (hist w') = (contents, None)).
Proof.
  apply (eigen_capture_exact (capture_env eigen_env capture_bufs) (capture_settings 1 0) no_tty 10 10 7 capture_bufs);
    [apply capture_quiet, capture_bufs_ok|done|by left|by repeat constructor|cbn; lia|apply capture_mainok|done].
Defined.

